(* ===== verification/_CoqProject ===== *)
-Q . S2P
Prelude.v
Transaction.v
JsNumber.v
JsString.v
InventoryDomain.v
WarehouseStore.v
WarehouseReservations.v
StockTransfers.v
StockDocuments.v
Procurement.v
WarehouseSystem.v
WarehouseTenants.v
SalesMoney.v
SalesPricing.v
SalesTender.v
SalesReturns.v
SalesOrder.v
CashShifts.v
CashShiftBooks.v
FinanceDomain.v
FinanceLedger.v
CustomerDebt.v
SupplierDebt.v
Settlements.v
Refunds.v
FinanceLedgerBooks.v
CustomerDebtBooks.v
SupplierDebtBooks.v
SettlementBooks.v
FinanceSystem.v
FinanceTrade.v
CrossService.v
Reservations.v
HoldService.v
CounterSale.v
CustomerDomain.v
LoyaltyStore.v
Loyalty.v
LoyaltyBooks.v
LoyaltyReturns.v
EventBus.v
CatalogDomain.v
CategoryTree.v
CategoryBooks.v
PlatformDomain.v
StoreAccess.v
StoreBooks.v
IntegrationDomain.v
InsightDomain.v
InsightProjections.v
InsightBooks.v
