(* ===== verification/Prelude.v ===== *)
(** * Sapo Clone backend (pbl-api): a verification library

    The repository is a NestJS monorepo: eight services (platform, catalog,
    inventory, sales, customer, finance, integration, insight) over one
    PostgreSQL schema each, and four shared libraries (auth, common, contracts,
    events).  Each service keeps its rules in a domain layer of pure functions
    and small aggregates, [src/apps/<service>/src/domain/<service>-domain.ts];
    its modules load rows, call the domain layer and write the result in one
    transaction, and the services talk through internal HTTP commands (sales
    holds stock in inventory before it sells) and through events written to an
    outbox ([sales.order.completed] turns the hold into a deduction).

    ** Files, and the code they model

    - [Prelude]: exceptions and the error monad of the translation, the loops
      ([foldM], [traverse]), insertion-ordered maps ([mget], [mset]: a JS [Map]
      with its iteration order), stable sorting by a JS comparator, sums, half-up
      division, the tactics [inv_ok], [run_ok], [case_if_in], [bool_prop].
    - [JsNumber]: the JS [number] type.  A finite number is the rational it
      denotes; every operation rounds to the nearest binary64, ties to even, so
      sums past 2^53 lose precision as they do at run time.  [BigInt] is [Z].
    - [JsString]: the string functions and conversions the code uses ([trim],
      [padStart], [toUpperCase], [Number(s)], [BigInt(s)], [String(n)]); a string
      is a list of bytes.  [jsval] is an untyped argument.
    - [InventoryDomain]: apps/inventory/src/domain/inventory-domain.ts.
    - [SalesMoney], [SalesPricing], [SalesTender], [SalesReturns],
      [SalesOrder]: apps/sales/src/domain/sales-domain.ts, by section: values and
      parsing, [calculateOrderQuote] and the discount authority, tenders and cash
      shifts, [calculateReturnRefund], the order state machine.
    - [CashShifts], [CashShiftBooks]: the cash drawers of apps/sales/src/modules/shifts
      (shifts.service.ts, cash-ledger.ts, cash-settings.service.ts) with their
      tables, the cash that checkouts, payments and refunds put into a drawer, and
      what all requests to them keep.
    - [FinanceDomain]: apps/finance/src/domain/finance-domain.ts.
    - [FinanceLedger], [CustomerDebt], [SupplierDebt], [Settlements], [Refunds]: the
      finance services over their tables: the general ledger, the cash accounts and
      the cashbook (apps/finance/src/modules/financial-journal, cash-accounts,
      cashbook), customer credit and receivables (credit-authorization,
      receivables), what is owed to suppliers (payables), the payments of orders
      (settlements) and what is paid back (refunds), with their event handlers.
    - [FinanceLedgerBooks], [CustomerDebtBooks], [SupplierDebtBooks],
      [SettlementBooks]: what every request to them keeps.
    - [FinanceSystem], [FinanceTrade]: all handlers as one system: [serve] runs a
      request or an event of any of them in a transaction, [reachable] are the
      databases that requests lead to.
    - [CrossService]: the sales and the finance computation of a shift agree.
    - [CustomerDomain]: apps/customer/src/domain/customer-domain.ts.
    - [CatalogDomain], [CategoryTree], [CategoryBooks]: the catalog rules
      (apps/catalog/src/domain/catalog-domain.ts), the category service over its
      table (modules/categories/categories.service.ts), and what all requests to it
      keep.
    - [PlatformDomain], [StoreAccess], [StoreBooks]: the platform rules
      (apps/platform/src/domain/platform-domain.ts); opening a store, branches,
      members, roles, quotas and the contents of a token (apps/platform/src/api:
      tenant, branch, role, subscription/quota.service.ts); what all requests to
      them keep.
    - [Transaction]: transactions on a database of any type as a state and error
      monad, with the rule for what every statement of a transaction keeps.
    - [LoyaltyStore], [Loyalty]: the loyalty programme of apps/customer: its tables
      and constraints, apps/customer/src/modules/loyalty/loyalty.service.ts, the
      merge of customers (modules/data-management), the tiers
      (modules/memberships) and what modules/profiles does to loyalty accounts.
    - [LoyaltyBooks], [LoyaltyReturns]: what all requests to it keep, and what
      events out of order and repeated merges do.
    - [WarehouseStore]: the tables of the warehouses (entities and check
      constraints of the migrations of apps/inventory), a transaction on a row,
      the ledger, and the guards every document shares.
    - [WarehouseReservations]: the warehouse half of
      apps/inventory/src/stock/reservations.service.ts: hold, release, commit
      and expiry of holds of several lines.
    - [StockTransfers], [StockDocuments], [Procurement]: the transfers, the
      receipts, issues, stocktakes and their documents, the purchase orders of
      apps/inventory/src/modules.
    - [WarehouseSystem]: all of these as one system: a request is any call of
      these services, [serve] runs it in a transaction, [reachable] are the
      databases that requests lead to.
    - [WarehouseTenants]: no request of one shop reads a row of another into what it
      writes, table by table.
    - [Reservations]: the branch stock store: reserve, release, commit and
      expireDue of apps/inventory/src/stock/reservations.service.ts, receive of
      stock.service.ts, stock-lines.ts, over the tables of the first migration
      with their check constraints and column types.
    - [HoldService]: the interface between the two services, as type classes:
      what a store of stock holds promises to the service that sells; the
      instance shows that [Reservations] keeps the promise.
    - [CounterSale]: [OrdersService.create] of apps/sales/src/orders, the client
      of inventory, the completed-event handler and the inbox of the event
      consumer, as one concurrent system over any hold service.
    - [EventBus]: libs/events and the topology of libs/contracts: outbox, relay
      with its retries, both publishers, consumer and inbox, for any handlers,
      with the queues as the environment of a step relation.
    - [IntegrationDomain]: apps/integration/src/domain/integration-domain.ts, over any
      cryptography.
    - [InsightDomain], [InsightProjections], [InsightBooks]: the arithmetic of the
      reports (apps/insight/src/domain/insight-domain.ts), the projections of order,
      return, cost and cash events and the rebuild of the summaries
      (modules/projections/projections.service.ts,
      modules/rebuild/insight-rebuild.service.ts), and what all of them keep.

    ** How code becomes definitions

    A TypeScript function is a Rocq function of the same name.  A function that
    throws returns [res A]: [Ok], a domain error with its code and HTTP status,
    or an error of the JS runtime; message texts and the [details] payload are
    left out.  A class is a record, a method that mutates it returns the new
    record; [OrderAggregate] assigns its fields before it validates them, and its
    methods return the assigned state also when they throw.  A loop is a fold of
    its body, named [..._step].  An untyped argument is a [jsval]; a typed
    one has its type.  Interfaces become records whose fields carry a short
    prefix.  [localeCompare] is a parameter with the laws of a comparator.

    In [Reservations], [WarehouseStore], [LoyaltyStore], [CashShifts],
    [FinanceLedger], [CategoryTree] and [StoreAccess] the database is a record of tables; a transaction is one atomic step, a throw leaves the state unchanged (rollback), and a violated
    constraint is an error.  This is what the row locks give where there are locks: a
    transaction on stock locks the reservation and the stock rows it writes, in SKU order.
    Where the code reads without a lock and saves later, the two halves are definitions
    of their own ([plan_branch_removal] and the save of a branch, [plan_follow_tier] and
    [save_follow_tier], [attach_receipt], [book_credit]) and theorems run other requests
    between them: [every_store_has_one_owner] holds with late saves, and
    [late_branch_save_closes_the_last], [late_tier_save_restores_spent_points],
    [credit_during_payment_breaks_running_balance], [replay_during_credit_restores_debt],
    [concurrent_moves_exceed_depth] and [event_during_rebuild_counted_twice] show what
    such a save breaks.  The invariants these break ([store_keeps_a_branch_open],
    [loyalty_books_balance], [supplier_debt_reconciles], [categories_form_a_forest],
    [reports_agree_with_facts]) are stated for requests one at a time, as their comments
    say.
    Fresh ids and the clock are arguments.  In [CounterSale] a request is cut into
    the segments between its awaits on other state, and a step relation
    interleaves the segments of all requests with event deliveries and with what
    the network and the database may do to a call.

    Recursion is structural everywhere but in [JsString]: printing an integer
    ([nat_string], fuel: its number of bits), the exponent of a small number
    ([small_exp], fuel 400, more than the 324 decimals a double can start with)
    and its shortest decimal ([shortest], fuel for the 17 digits that always
    suffice); [nat_string_fuel] and [string_of_int] show that the fuel is enough
    for the integers the theorems are about.  Two loops of the services have fuel
    too: the recursive query for a subtree of categories (a level per category and
    three, [categories_form_a_forest] shows that it ends) and the search for a free
    role code (one more than there are codes, [free_code_enough]).

    ** What the theorems show

    - Stock ([Reservations], [InventoryDomain]): any interleaving of receipts,
      holds, releases, sales and expiries keeps 0 <= reserved <= on hand, the
      reserved quantity equal to the open holds and the quantity on hand equal to
      its ledger; holds are all or nothing, retries are safe, release and commit
      cannot fail, expiry returns every due hold.  The warehouse aggregate refines
      an abstract two-counter stock; costing is correctly rounded and bounded;
      quantities parse back from their printed form.
    - Warehouses: in every database that requests lead to, each balance is within
      its constraints and equals its ledger, and the reserved quantity is that of
      the open holds; posted documents and ledger rows are never changed; a key is
      answered with the document it made, for ever (an issue that writes one SKU in two
      ways is excluded, [one_spelling]); what one tenant does changes no row of
      another; transfers conserve stock; every operation changes exactly
      the balances it names.
    - Events: every committed event is in the outbox, on the way to or with every
      subscriber, or was given up by a queue after its retention, each consumer applies it once whatever is sent, delivered or retried twice, the
      retries of a row end, and the relay catches up after an outage.
    - The counter sale: for any interleaving, loss and retry, one order per
      Idempotency-Key, one event per order, at most one deduction per order, and
      exactly the sold lines when the hold is still there; an undisturbed sale
      succeeds whenever inventory grants the hold.
    - Money in sales: quotes, discount allocation, tenders, returns and drawer
      counts balance exactly in integer VND, refunds never exceed what was paid,
      discounts never exceed the ceiling of the role.
    - Cash drawers: in every database the requests lead to, the expected cash of a
      shift is its float and its entries, and the closing entry settles a closed
      drawer to the counted cash; a register has one active shift; a close follows
      the tolerance and the approval limit of the shop, and whoever approves it
      neither counted nor asked for it; a closed shift is final; an entry is written
      once per key.
    - The order state machine: every reachable order is in a legal combination of
      the three statuses; exactly which transitions are enabled.
    - Finance: accepted journals balance, allocations conserve the payment and
      FIFO is the greedy reference, credit limits and refund limits hold.  In every
      database the finance requests lead to, every journal balances and a reversal
      mirrors the one journal it names, a cash account holds what its vouchers say,
      the debt of a customer is what the receivables owe and what the debt ledger
      adds up to, held credit is that of the open authorizations; without an
      override credit is given only within the limit; a payment is taken once per
      key.  What the payables of a supplier owe is what its running ledger adds up
      to; the completed refunds of a settlement are within its refunded amount, and
      that is within what was settled.
    - Customer: loyalty reversal does not depend on how a refund is split,
      redemption is within the available points, phone normal form, CSV cells.
      In every database the loyalty requests lead to, balances equal the ledger
      and held points the open holds, so the reconciliation report is empty; an
      order is awarded once and never loses more than it was awarded; a hold is
      spent at most once; the ledger only grows; sale and return may arrive in
      either order.
    - Catalog: generated variants are the product of the axes, each combination
      once; a barcode with one misread digit is refused; categories form a forest of
      depth three, siblings differ in name, and the query for a subtree ends.
    - Platform: every store has one owner, who cannot be locked out; an open branch is
      kept by requests one at a time; only the owner's token holds every permission; a member limited to some
      branches stays limited when branches are removed.
    - Integration: an encrypted credential opens again, secrets are redacted and nothing
      else, status updates in any order end in the same status, the published stock is
      within what is available, an imported order has only sellable lines.
    - Reports: the daily sales figures of the active generation are the sums over the
      recorded orders and returns, whatever is delivered twice or late, and a rebuild
      changes none of them.
    - Some theorems state what the code does where it departs from its intent: a
      residual discount that makes a line negative, a cancelled order completed
      by its fulfilment, journal totals that round, a ledger row whose balance is
      not the balance on hand, a release that frees the stock of a stored order, a
      purchase order received twice by a repeated line, an issue that names a SKU
      in two spellings, the rest of a transfer or an order that cannot be received
      after one line is complete, an event that loses its actor, a second merge into
      a customer that always fails, a late commit that leaves its hold open, a debt
      that stays paid when its collection is reversed, a manual journal that passes
      for a reversal, a payment taken for the replay of another, a payment confirmed
      as zero and settled in full, a refund that counts twice, a refund that the
      order's other payments cannot cover, a return credited twice, a category tree
      with a cycle, moves that exceed the depth, a plan exceeded by unlocking, a store
      with no open branch, a member code given twice, a role nobody can be given, a rebuild
      that loses cash figures, the returns of products or a day.

    ** What is not modelled

    HTTP controllers, DTO decorators, SQL queries and reports, logging, caches,
    external marketplaces and carriers are left out: they hold no rules of their
    own, or the rules are those of code outside the repository.  The sagas of sales
    that order the calls to the modelled services (checkout, fulfilment), the COD and
    reconciliation runs of finance, the products and price lists of the catalog,
    authentication and subscriptions of platform, the services of integration, and the
    stock reports of insight are not modelled. *)

From stdpp Require Export base list gmap strings sorting.
From Stdlib Require Export ZArith Lia.

Open Scope Z_scope.

(** ** Exceptions and the error monad

    A TypeScript function either returns or throws.  The domain layers throw
    one error class per service, carrying a code and an HTTP status; the JS
    runtime throws its own errors (a [BigInt] division by zero, a property of
    [undefined]).  Message texts and the [details] payload are not modelled. *)
Inductive js_error := RangeError | TypeError | PlainError.

Inductive exn (C : Type) :=
| DomainError (code : C) (httpStatus : Z)
| JsError (kind : js_error).
Arguments DomainError {C} code httpStatus.
Arguments JsError {C} kind.

Inductive result (C A : Type) :=
| Ok (a : A)
| Throw (e : exn C).
Arguments Ok {C A} a.
Arguments Throw {C A} e.

#[export] Instance js_error_eq_dec : EqDecision js_error.
Proof. solve_decision. Defined.
#[export] Instance exn_eq_dec {C} `{EqDecision C} : EqDecision (exn C).
Proof. solve_decision. Defined.

#[export] Instance result_ret {C} : MRet (result C) := fun A a => Ok a.
#[export] Instance result_fmap {C} : FMap (result C) := fun A B f m =>
  match m with Ok a => Ok (f a) | Throw e => Throw e end.
#[export] Instance result_bind {C} : MBind (result C) := fun A B f m =>
  match m with Ok a => f a | Throw e => Throw e end.

(** Is the outcome a value? *)
Definition is_ok {C A} (r : result C A) : bool :=
  match r with Ok _ => true | Throw _ => false end.

(** [for (const x of l) ...] over a state: the loop of the source. *)
Fixpoint foldM {C S A} (f : S -> A -> result C S) (s : S) (l : list A) : result C S :=
  match l with
  | [] => Ok s
  | a :: l => s' ← f s a; foldM f s' l
  end.

(** [l.map(f)] where [f] may throw; [mapiM] also passes the index. *)
Fixpoint traverse {C A B} (f : A -> result C B) (l : list A) : result C (list B) :=
  match l with
  | [] => Ok []
  | a :: l => b ← f a; bs ← traverse f l; Ok (b :: bs)
  end.

Fixpoint traversei {C A B} (f : Z -> A -> result C B) (i : Z) (l : list A) : result C (list B) :=
  match l with
  | [] => Ok []
  | a :: l => b ← f i a; bs ← traversei f (i + 1) l; Ok (b :: bs)
  end.

Section Monad.
Context {C : Type}.

Lemma bind_Ok {A B} (m : result C A) (f : A -> result C B) b :
  (m ≫= f) = Ok b <-> exists a, m = Ok a /\ f a = Ok b.
Proof.
  destruct m as [a|e]; cbn; split; [eauto | by intros (? & [= <-] & ?) | done | by intros (? & ? & ?)].
Qed.

Lemma bind_Throw {A B} (m : result C A) (f : A -> result C B) e :
  (m ≫= f) = Throw e <-> m = Throw e \/ exists a, m = Ok a /\ f a = Throw e.
Proof.
  destruct m as [a|e']; cbn; split.
  - eauto.
  - by intros [? | (? & [= <-] & ?)].
  - intros [= ->]; by left.
  - intros [[= ->] | (? & ? & ?)]; done.
Qed.

Lemma bind_of_Ok {A B} (a : A) (f : A -> result C B) : (Ok a ≫= f) = f a.
Proof. reflexivity. Qed.

Lemma foldM_app {S A} (f : S -> A -> result C S) l1 l2 s :
  foldM f s (l1 ++ l2) = (s' ← foldM f s l1; foldM f s' l2).
Proof.
  revert s; induction l1 as [|a l1 IH]; intros s; cbn; [done|].
  destruct (f s a); cbn; auto.
Qed.

(** An invariant of the loop body is an invariant of the loop. *)
Lemma foldM_inv {S A} (P : S -> Prop) (f : S -> A -> result C S) l s s' :
  (forall s a s', a ∈ l -> P s -> f s a = Ok s' -> P s') ->
  P s -> foldM f s l = Ok s' -> P s'.
Proof.
  revert s; induction l as [|a l IH]; intros s Hf Hs; cbn.
  - by intros [= <-].
  - intros (s1 & H1 & H2)%bind_Ok. eapply IH; [|by eapply Hf; [left|..]|done].
    intros; eapply Hf; eauto. by right.
Qed.

(** Relate the accumulated state to the list consumed so far. *)
Lemma foldM_ind {S A} (P : list A -> S -> Prop) (f : S -> A -> result C S) l s s' :
  (forall done a s s', P done s -> f s a = Ok s' -> P (done ++ [a]) s') ->
  P [] s -> foldM f s l = Ok s' -> P l s'.
Proof.
  intros Hstep. cut (forall done, P done s -> foldM f s l = Ok s' -> P (done ++ l) s').
  { intros H. apply (H []). }
  revert s; induction l as [|a l IH]; intros s done Hs; cbn.
  - intros [= <-]. by rewrite app_nil_r.
  - intros (s1 & H1 & H2)%bind_Ok. replace (done ++ a :: l) with ((done ++ [a]) ++ l) by (by rewrite <- (assoc_L app)).
    eapply IH; eauto.
Qed.

Lemma traverse_Ok {A B} (f : A -> result C B) l l' :
  traverse f l = Ok l' <-> Forall2 (fun a b => f a = Ok b) l l'.
Proof.
  revert l'; induction l as [|a l IH]; intros l'; cbn.
  - split; [intros [= <-]; constructor | by inversion 1].
  - rewrite bind_Ok. setoid_rewrite bind_Ok. setoid_rewrite IH. split.
    + intros (b & Hb & bs & Hbs & [= <-]). by constructor.
    + inversion 1; subst. eauto 10.
Qed.

Lemma traversei_length {A B} (f : Z -> A -> result C B) i l l' :
  traversei f i l = Ok l' -> length l' = length l.
Proof.
  revert i l'; induction l as [|a l IH]; intros i l'; cbn; [by intros [= <-]|].
  intros (b & Hb & (bs & Hbs & [= <-])%bind_Ok)%bind_Ok. cbn. f_equal. eauto.
Qed.
End Monad.

(** ** Proof automation *)

(** Take apart hypotheses [_ = Ok _] about monadic code. *)
Ltac inv_ok_step :=
  match goal with
  | H : Ok _ = Ok _ |- _ => injection H as H; subst
  | H : Throw _ = Ok _ |- _ => discriminate H
  | H : Ok _ = Throw _ |- _ => discriminate H
  | H : Throw _ = Throw _ |- _ => injection H as H; subst
  | H : mret _ = Ok _ |- _ => unfold mret, result_ret in H
  | H : (_ ≫= _) = Ok _ |- _ =>
      let a := fresh "a" in let Ha := fresh "Ha" in
      apply bind_Ok in H as (a & Ha & H); cbn beta in H
  end.
Ltac inv_ok := repeat inv_ok_step.

(** Case split on the boolean tests of the code. *)
Ltac case_if_in H :=
  match type of H with
  | context [if ?b then _ else _] =>
      let E := fresh "E" in destruct b eqn:E
  end.
Ltac run_ok H := repeat (first [progress inv_ok | case_if_in H; try discriminate H]).

(** Turn boolean comparisons in the context into propositions. *)
Ltac bool_prop :=
  repeat match goal with
  | H : (_ && _)%bool = true |- _ => apply andb_true_iff in H as [? ?]
  | H : (_ || _)%bool = false |- _ => apply orb_false_iff in H as [? ?]
  | H : (_ && _)%bool = false |- _ => apply andb_false_iff in H as [? | ?]
  | H : (_ || _)%bool = true |- _ => apply orb_true_iff in H as [? | ?]
  | H : negb _ = true |- _ => apply negb_true_iff in H
  | H : negb _ = false |- _ => apply negb_false_iff in H
  | H : (_ <=? _) = true |- _ => apply Z.leb_le in H
  | H : (_ <=? _) = false |- _ => apply Z.leb_gt in H
  | H : (_ <? _) = true |- _ => apply Z.ltb_lt in H
  | H : (_ <? _) = false |- _ => apply Z.ltb_ge in H
  | H : (_ =? _) = true |- _ => apply Z.eqb_eq in H
  | H : (_ =? _) = false |- _ => apply Z.eqb_neq in H
  | H : (_ >? _) = true |- _ => rewrite Z.gtb_ltb in H
  | H : (_ >? _) = false |- _ => rewrite Z.gtb_ltb in H
  | H : (_ >=? _) = true |- _ => rewrite Z.geb_leb in H
  | H : (_ >=? _) = false |- _ => rewrite Z.geb_leb in H
  | H : bool_decide _ = true |- _ => apply bool_decide_eq_true in H
  | H : bool_decide _ = false |- _ => apply bool_decide_eq_false in H
  end.

Create HintDb pbl.

(** ** Lists *)

(** Elements with the same key are the same when keys do not repeat. *)
Lemma NoDup_map_inj {A B} (f : A -> B) l x y : NoDup (map f l) -> x ∈ l -> y ∈ l -> f x = f y -> x = y.
Proof.
  induction l as [|z l IH]; cbn; [by intros _ ?%not_elem_of_nil|]. intros [Hn Hd]%NoDup_cons.
  intros [-> | Hx]%elem_of_cons [-> | Hy]%elem_of_cons E; [done | | | auto]; exfalso; apply Hn.
  - rewrite E. by apply list_elem_of_fmap_2.
  - rewrite <- E. by apply list_elem_of_fmap_2.
Qed.

Lemma existsb_false {A} (p : A -> bool) l : existsb p l = false <-> forall x, x ∈ l -> p x = false.
Proof.
  rewrite <- not_true_iff_false, existsb_exists. split.
  - intros H x Hx. apply not_true_iff_false. intros E. apply H. exists x. split; [by apply list_elem_of_In | done].
  - intros H (x & Hx%list_elem_of_In & E). by rewrite H in E.
Qed.

(** ** Integers: bigint division and rounding *)

(** The half-up rounded quotient, [(n + d / 2n) / d] in the source. *)
Definition half_up (n d : Z) : Z := Z.quot (n + Z.quot d 2) d.

Section HalfUp.
Lemma half_up_div n d : 0 <= n -> 0 < d -> half_up n d = (n + d / 2) / d.
Proof.
  intros. unfold half_up. rewrite (Z.quot_div_nonneg d 2) by lia.
  apply Z.quot_div_nonneg; [|lia]. pose proof (Z.div_pos d 2); lia.
Qed.

(** The rounded quotient is within half a unit of the exact one. *)
Lemma half_up_bounds n d : 0 <= n -> 0 < d ->
  2 * n - d < 2 * (d * half_up n d) <= 2 * n + d.
Proof.
  intros Hn Hd. rewrite half_up_div by done.
  pose proof (Z.div_mod (n + d / 2) d ltac:(lia)).
  pose proof (Z.mod_pos_bound (n + d / 2) d Hd).
  pose proof (Z.div_mod d 2 ltac:(lia)). pose proof (Z.mod_pos_bound d 2 ltac:(lia)). lia.
Qed.

Lemma half_up_nonneg n d : 0 <= n -> 0 < d -> 0 <= half_up n d.
Proof. intros ? ?. pose proof (half_up_bounds n d ltac:(lia) ltac:(lia)). nia. Qed.

Lemma half_up_le n d b : 0 <= n -> 0 < d -> n <= b * d -> half_up n d <= b.
Proof. intros ? ? ?. pose proof (half_up_bounds n d ltac:(lia) ltac:(lia)). nia. Qed.

Lemma half_up_mono n n' d : 0 <= n <= n' -> 0 < d -> half_up n d <= half_up n' d.
Proof. intros ? ?. rewrite !half_up_div by lia. apply Z.div_le_mono; lia. Qed.

Lemma half_up_exact a d : 0 <= a -> 0 < d -> half_up (a * d) d = a.
Proof. intros ? ?. pose proof (half_up_bounds (a * d) d ltac:(nia) ltac:(lia)). nia. Qed.
End HalfUp.

(** A decidable fact about a bounded integer range, by evaluation. *)
Lemma forall_below (n : nat) (p : Z -> bool) :
  forallb (fun i => p (Z.of_nat i)) (seq 0 n) = true ->
  forall z, 0 <= z < Z.of_nat n -> p z = true.
Proof.
  intros H z Hz. rewrite forallb_forall in H. specialize (H (Z.to_nat z)).
  rewrite Z2Nat.id in H by lia. apply H. apply in_seq. lia.
Qed.

(** ** Sums over lists *)

Fixpoint sumZ (l : list Z) : Z :=
  match l with [] => 0 | x :: l => x + sumZ l end.

Section Sums.
Lemma sumZ_app l1 l2 : sumZ (l1 ++ l2) = sumZ l1 + sumZ l2.
Proof. induction l1; cbn in *; lia. Qed.

Lemma sumZ_nonneg l : Forall (fun x => 0 <= x) l -> 0 <= sumZ l.
Proof. induction 1; cbn in *; lia. Qed.

Lemma sumZ_perm l1 l2 : l1 ≡ₚ l2 -> sumZ l1 = sumZ l2.
Proof. induction 1; cbn in *; lia. Qed.

Lemma sumZ_snoc l x : sumZ (l ++ [x]) = sumZ l + x.
Proof. rewrite sumZ_app. cbn. lia. Qed.

Lemma sumZ_map_add {A} (f g : A -> Z) l :
  sumZ (map (fun x => f x + g x) l) = sumZ (map f l) + sumZ (map g l).
Proof. induction l; cbn in *; lia. Qed.

Lemma sumZ_map_ext {A} (f g : A -> Z) l :
  (forall x, x ∈ l -> f x = g x) -> sumZ (map f l) = sumZ (map g l).
Proof.
  induction l as [|a l IH]; intros H; cbn; [done|].
  rewrite (H a), IH; [done|intros; apply H; by right|by left].
Qed.

(** Changing one element changes the sum by its difference. *)
Lemma sumZ_map_alter {A} (f : A -> Z) (g : A -> A) (l : list A) i x :
  l !! i = Some x -> sumZ (map f (alter g i l)) = sumZ (map f l) + f (g x) - f x.
Proof.
  revert i; induction l as [|a l IH]; intros [|i]; try done; [intros [= ->]; cbn; lia|].
  intros H. change (alter g (S i) (a :: l)) with (a :: alter g i l). cbn [map sumZ].
  rewrite (IH i H). lia.
Qed.

(** A sum of small terms, one of them left out. *)
Lemma sumZ_except_bound (l : list Z) i x b : 0 <= b -> l !! i = Some x ->
  Forall (fun y => 2 * Z.abs y <= b) l ->
  2 * Z.abs (sumZ l - x) <= b * (Z.of_nat (length l) - 1).
Proof.
  intros Hb. assert (Hall : forall l, Forall (fun y => 2 * Z.abs y <= b) l ->
    2 * Z.abs (sumZ l) <= b * Z.of_nat (length l)).
  { clear l i x. induction 1; cbn [sumZ length]; [cbn; lia|]. nia. }
  revert i; induction l as [|a l IH]; intros [|i]; cbn [lookup list_lookup sumZ length]; try done.
  - intros [= ->] Hf. inversion Hf; subst. specialize (Hall l ltac:(done)).
    replace (x + sumZ l - x) with (sumZ l) by lia. nia.
  - intros Hi Hf. inversion Hf; subst. specialize (IH i Hi ltac:(done)). nia.
Qed.
End Sums.

(** Sum of a field over a list of records. *)
Definition total {A} (f : A -> Z) (l : list A) : Z := sumZ (map f l).
Arguments total : simpl never.

Section Totals.
Lemma total_snoc {A} (f : A -> Z) l x : total f (l ++ [x]) = total f l + f x.
Proof. unfold total. rewrite map_app. cbn [map]. apply sumZ_snoc. Qed.

Lemma total_app {A} (f : A -> Z) l1 l2 : total f (l1 ++ l2) = total f l1 + total f l2.
Proof. unfold total. induction l1; cbn; lia. Qed.

Lemma total_nonneg {A} (f : A -> Z) l : (forall x, x ∈ l -> 0 <= f x) -> 0 <= total f l.
Proof.
  intros H. apply sumZ_nonneg. apply Forall_forall. intros z (x & -> & Hx)%list_elem_of_fmap. auto.
Qed.

Lemma total_mono {A} (f g : A -> Z) l : (forall x, x ∈ l -> f x <= g x) -> total f l <= total g l.
Proof.
  intros H. pose proof (total_nonneg (fun x => g x - f x) l) as Hn.
  enough (total g l - total f l = total (fun x => g x - f x) l) as E.
  { rewrite <- E in Hn. specialize (Hn ltac:(intros x Hx; specialize (H x Hx); lia)). lia. }
  unfold total. clear. induction l; cbn; lia.
Qed.

Lemma total_elem_le {A} (f : A -> Z) l x : (forall x, x ∈ l -> 0 <= f x) -> x ∈ l -> f x <= total f l.
Proof.
  intros H (l1 & l2 & ->)%list_elem_of_split. unfold total. rewrite map_app, sumZ_app. cbn.
  pose proof (total_nonneg f l1 ltac:(intros; apply H; set_solver)) as H1.
  pose proof (total_nonneg f l2 ltac:(intros; apply H; set_solver)) as H2. unfold total in *. lia.
Qed.

Lemma total_zero_iff {A} (f : A -> Z) l : (forall x, x ∈ l -> 0 <= f x) ->
  total f l = 0 <-> Forall (fun x => f x = 0) l.
Proof.
  induction l as [|x l IH]; intros H; [by split|].
  assert (Hl : forall y, y ∈ l -> 0 <= f y) by (intros; apply H; by right).
  specialize (H x ltac:(left)). pose proof (total_nonneg f l Hl).
  rewrite Forall_cons, <- IH by done. unfold total in *. cbn. lia.
Qed.

Lemma total_sub {A} (f g : A -> Z) l : total (fun x => f x - g x) l = total f l - total g l.
Proof. unfold total. induction l; cbn; lia. Qed.

(** A loop that adds a number per element. *)
Lemma foldM_sum {C A} (f : Z -> A -> result C Z) (g : A -> Z) l z :
  (forall z a, a ∈ l -> f z a = Ok (z + g a)) -> foldM f z l = Ok (z + total g l).
Proof.
  revert z; induction l as [|a l IH]; intros z H; cbn; [f_equal; unfold total; cbn; lia|].
  rewrite H by left. cbn. rewrite IH by (intros; apply H; by right). f_equal. unfold total. cbn. lia.
Qed.

(** A loop whose body changes a view at each key by a known amount changes it by
    the sum over the list. *)
Lemma foldM_delta {C S A K} (P : S -> Prop) (f : S -> A -> result C S) (view : S -> K -> Z) (dl : A -> K -> Z) l s s' :
  (forall s a s', a ∈ l -> P s -> f s a = Ok s' -> P s' /\ forall k, view s' k = view s k + dl a k) ->
  P s -> foldM f s l = Ok s' -> P s' /\ forall k, view s' k = view s k + total (fun a => dl a k) l.
Proof.
  revert s; induction l as [|a l IH]; intros s H Hs; cbn.
  - intros [= <-]. split; [done|]. intros k. unfold total. cbn. lia.
  - intros (s1 & H1 & H2)%bind_Ok. destruct (H s a s1 ltac:(left) Hs H1) as [Hs1 Hv].
    destruct (IH s1 ltac:(intros; eapply H; eauto; by right) Hs1 H2) as [Hs' Hv']. split; [done|].
    intros k. rewrite Hv', Hv. unfold total. cbn. lia.
Qed.
End Totals.

(** Sum of a field over the rows of a table with a primary key. *)
Definition msum {K A} `{Countable K} (f : A -> Z) (m : gmap K A) : Z := total f (map snd (map_to_list m)).
Arguments msum : simpl never.

Section TableSums.
Context {K A : Type} `{Countable K}.
Implicit Types (m : gmap K A).

Lemma total_perm {B} (g : B -> Z) l1 l2 : l1 ≡ₚ l2 -> total g l1 = total g l2.
Proof. intros Hp. apply sumZ_perm. by rewrite Hp. Qed.

Lemma msum_empty (f : A -> Z) : msum f (∅ : gmap K A) = 0.
Proof. unfold msum. by rewrite map_to_list_empty. Qed.

Lemma msum_insert_new (f : A -> Z) m i x : m !! i = None -> msum f (<[i := x]> m) = msum f m + f x.
Proof.
  intros Hi. unfold msum. rewrite (total_perm f _ (map snd ((i, x) :: map_to_list m))).
  - unfold total. cbn. lia.
  - by rewrite (map_to_list_insert m i x Hi).
Qed.

Lemma msum_insert_old (f : A -> Z) m i x y : m !! i = Some y -> msum f (<[i := x]> m) = msum f m + f x - f y.
Proof.
  intros Hi. rewrite <- (insert_delete_eq m i x), msum_insert_new by apply lookup_delete_eq.
  rewrite <- (insert_id m i y Hi) at 2. rewrite <- (insert_delete_eq m i y), msum_insert_new by apply lookup_delete_eq. lia.
Qed.

Lemma msum_ext (f g : A -> Z) m : (forall i x, m !! i = Some x -> f x = g x) -> msum f m = msum g m.
Proof.
  intros Hfg. apply sumZ_map_ext. intros x ([i y] & -> & Hin)%list_elem_of_fmap. cbn.
  apply (Hfg i), elem_of_map_to_list, Hin.
Qed.

Lemma msum_nonneg (f : A -> Z) m : (forall i x, m !! i = Some x -> 0 <= f x) -> 0 <= msum f m.
Proof.
  intros Hf. apply total_nonneg. intros x ([i y] & -> & Hin)%list_elem_of_fmap. cbn.
  apply (Hf i), elem_of_map_to_list, Hin.
Qed.

Lemma msum_elem_le (f : A -> Z) m i x : (forall i x, m !! i = Some x -> 0 <= f x) -> m !! i = Some x -> f x <= msum f m.
Proof.
  intros Hf Hi. apply total_elem_le.
  - intros y ([j z] & -> & Hin)%list_elem_of_fmap. cbn. apply (Hf j), elem_of_map_to_list, Hin.
  - apply list_elem_of_fmap. exists (i, x). split; [done|]. by apply elem_of_map_to_list.
Qed.
End TableSums.

(** ** Insertion-ordered maps

    A JS [Map] with string keys whose iteration order the source uses
    ([Array.from(map.values())], [map.entries()]): an association list in
    insertion order; [set] on a present key keeps its place. *)
Section Maps.
Context {A : Type}.

Fixpoint mget (k : string) (m : list (string * A)) : option A :=
  match m with
  | [] => None
  | (k', v) :: m => if String.eqb k' k then Some v else mget k m
  end.

Fixpoint mset (k : string) (v : A) (m : list (string * A)) : list (string * A) :=
  match m with
  | [] => [(k, v)]
  | (k', v') :: m => if String.eqb k' k then (k, v) :: m else (k', v') :: mset k v m
  end.

Lemma mget_mset k k' v m :
  mget k' (mset k v m) = if String.eqb k k' then Some v else mget k' m.
Proof.
  induction m as [|[j w] m IH]; cbn; [done|].
  destruct (String.eqb_spec j k) as [->|Hne]; cbn; [by destruct (String.eqb k k')|].
  destruct (String.eqb_spec j k') as [->|]; [|done].
  by rewrite (proj2 (String.eqb_neq k k')) by congruence.
Qed.

Lemma mget_mset_eq k v m : mget k (mset k v m) = Some v.
Proof. by rewrite mget_mset, String.eqb_refl. Qed.

Lemma mget_mset_ne k k' v m : k <> k' -> mget k' (mset k v m) = mget k' m.
Proof. intros. by rewrite mget_mset, (proj2 (String.eqb_neq k k')). Qed.

Lemma mget_elem k v m : mget k m = Some v -> (k, v) ∈ m.
Proof.
  induction m as [|[j w] m IH]; cbn; [done|].
  destruct (String.eqb_spec j k) as [->|]; [intros [= ->]; left | right; auto].
Qed.

Lemma elem_mget k v m : NoDup m.*1 -> (k, v) ∈ m -> mget k m = Some v.
Proof.
  induction m as [|[j w] m IH]; cbn; [by intros _ ?%not_elem_of_nil|].
  intros [Hn Hd]%NoDup_cons [[= -> ->]|Hin]%elem_of_cons; [by rewrite String.eqb_refl|].
  destruct (String.eqb_spec j k) as [->|]; [|auto].
  destruct Hn. apply list_elem_of_fmap. by exists (k, v).
Qed.

Lemma mget_None k m : mget k m = None <-> k ∉ m.*1.
Proof.
  induction m as [|[j w] m IH]; cbn; [split; [intros _; apply not_elem_of_nil|done]|].
  rewrite not_elem_of_cons. destruct (String.eqb_spec j k) as [->|Hne].
  - split; [done|]. by intros [? _].
  - rewrite IH. split; [intros H; split; [congruence | done] | by intros [_ H]].
Qed.

Lemma mset_keys k v m :
  (mset k v m).*1 = match mget k m with Some _ => m.*1 | None => m.*1 ++ [k] end.
Proof.
  induction m as [|[j w] m IH]; cbn; [done|].
  destruct (String.eqb_spec j k) as [->|]; cbn; [done|]. rewrite IH. by destruct (mget k m).
Qed.

Lemma mset_NoDup k v m : NoDup m.*1 -> NoDup (mset k v m).*1.
Proof.
  rewrite mset_keys. destruct (mget k m) eqn:E; [done|]. intros Hd.
  apply NoDup_app. split; [done|]. split; [|apply NoDup_singleton].
  intros x Hx ->%list_elem_of_singleton. by apply mget_None in E.
Qed.

(** [set] adds what it changes: sums over the values. *)
Lemma mset_sum (f : A -> Z) k v m : NoDup m.*1 ->
  sumZ (map f (mset k v m).*2) =
  sumZ (map f m.*2) + f v - match mget k m with Some w => f w | None => 0 end.
Proof.
  induction m as [|[j w] m IH]; cbn; [lia|]. intros [Hn Hd]%NoDup_cons.
  destruct (String.eqb_spec j k) as [->|]; cbn in *; [lia|]. rewrite IH by done. lia.
Qed.
End Maps.

(** ** Array.prototype.sort

    A stable sort by a comparator [cmp a b], negative when [a] comes first. *)
Section Sort.
Context {A : Type} (cmp : A -> A -> Z).

Fixpoint insert_sorted (x : A) (l : list A) : list A :=
  match l with
  | [] => [x]
  | y :: l' => if cmp x y <=? 0 then x :: l else y :: insert_sorted x l'
  end.

Definition sort_by (l : list A) : list A := foldr insert_sorted [] l.

Lemma insert_sorted_perm x l : insert_sorted x l ≡ₚ x :: l.
Proof.
  induction l as [|y l IH]; cbn; [done|]. destruct (cmp x y <=? 0); [done|].
  rewrite IH. apply Permutation_swap.
Qed.

Lemma sort_by_perm l : sort_by l ≡ₚ l.
Proof. induction l as [|x l IH]; cbn; [done|]. by rewrite insert_sorted_perm, IH. Qed.

(** The comparator orders totally, up to its own equivalence. *)
Class Comparator := {
  cmp_total : forall a b, cmp a b <= 0 \/ cmp b a <= 0;
  cmp_trans : forall a b c, cmp a b <= 0 -> cmp b c <= 0 -> cmp a c <= 0 }.

Lemma insert_sorted_sorted `{!Comparator} x l :
  StronglySorted (fun a b => cmp a b <= 0) l ->
  StronglySorted (fun a b => cmp a b <= 0) (insert_sorted x l).
Proof.
  induction 1 as [|y l Hs IH Hf]; cbn; [by repeat constructor|].
  destruct (Z.leb_spec (cmp x y) 0) as [Hle|Hgt].
  - constructor; [by constructor|]. constructor; [done|].
    eapply Forall_impl; [exact Hf|]. intros z Hz. by eapply cmp_trans.
  - constructor; [done|]. rewrite insert_sorted_perm. constructor; [|done].
    destruct (cmp_total x y); [lia|done].
Qed.

Lemma sort_by_sorted `{!Comparator} l :
  StronglySorted (fun a b => cmp a b <= 0) (sort_by l).
Proof. induction l; cbn; [constructor | by apply insert_sorted_sorted]. Qed.
End Sort.

(** ** Filters and searches that find nothing, or one thing *)

Lemma filter_none {A} (f : A -> bool) l : (forall x, x ∈ l -> f x = false) -> List.filter f l = [].
Proof.
  induction l as [|x l IH]; intros H; [done|]. cbn. rewrite (H x) by left. apply IH. intros y Hy. apply H. by right.
Qed.

Lemma filter_found {A B} (f : A -> B) (p : A -> bool) l x : NoDup (map f l) -> List.find p l = Some x -> (forall y, y ∈ l -> p y = true -> f y = f x) ->
  List.filter p l = [x].
Proof.
  induction l as [|y l IH]; [done|]. cbn. intros [Hy Hn]%NoDup_cons. destruct (p y) eqn:Ey.
  - intros [= ->] Hf. f_equal. apply filter_none. intros z Hz. apply not_true_iff_false. intros Hp. apply Hy. rewrite <- (Hf z) by (done || by right).
    by apply (list_elem_of_fmap_2 f).
  - intros Hx Hf. apply IH; [done..|]. intros z Hz. apply Hf. by right.
Qed.

Lemma flat_map_none {A B} (f : A -> list B) l : (forall x, x ∈ l -> f x = []) -> flat_map f l = [].
Proof. induction l as [|x l IH]; intros H; [done|]. cbn. rewrite (H x) by left. apply IH. intros y Hy. apply H. by right. Qed.

Lemma find_app_none {A} (f : A -> bool) l l' : List.find f l = None -> List.find f (l ++ l') = List.find f l'.
Proof. induction l as [|x l IH]; [done|]. cbn. by destruct (f x). Qed.

Lemma find_filter_nil {A} (f : A -> bool) l : List.filter f l = [] -> List.find f l = None.
Proof. induction l as [|x l IH]; [done|]. cbn. by destruct (f x). Qed.
