(* ===== verification/Transaction.v ===== *)
(** * Transactions

    The error and state monad of the handlers: a handler runs in one database
    transaction over a record of tables [D]; it returns a value and the new
    tables, or throws and leaves them as they were.  [inv_tx] takes a run that
    succeeded apart. *)

From S2P Require Import Prelude.

Definition txn (D E A : Type) : Type := D -> result E (A * D).

#[export] Instance txn_ret {D E} : MRet (txn D E) := fun A a d => Ok (a, d).
#[export] Instance txn_bind {D E} : MBind (txn D E) := fun A B f m d =>
  match m d with Ok (a, d1) => f a d1 | Throw e => Throw e end.
#[global] Typeclasses Opaque txn.

Definition fail {D E A} (e : E) (status : Z) : txn D E A := fun _ => Throw (DomainError e status).
Definition type_error {D E A} : txn D E A := fun _ => Throw (JsError TypeError).
(** [throw new Error(...)]. *)
Definition plain_error {D E A} : txn D E A := fun _ => Throw (JsError PlainError).
Definition gets {D E A} (f : D -> A) : txn D E A := fun d => Ok (f d, d).
Definition modify {D E} (f : D -> D) : txn D E unit := fun d => Ok (tt, f d).

(** A call of the domain layer inside a transaction, its errors embedded by [g]. *)
Definition embed {D C E A} (g : C -> E) (r : result C A) : txn D E A := fun d =>
  match r with
  | Ok a => Ok (a, d)
  | Throw (DomainError c st) => Throw (DomainError (g c) st)
  | Throw (JsError k) => Throw (JsError k)
  end.

(** [for (const x of l)] with the local variables [s]. *)
Fixpoint for_each {D E S A} (f : S -> A -> txn D E S) (s : S) (l : list A) : txn D E S :=
  match l with [] => mret s | a :: l => s' ← f s a; for_each f s' l end.

Definition when {D E} (b : bool) (m : txn D E unit) : txn D E unit := if b then m else mret tt.

(** ** Running transactions *)

Section Tx.
Context {D E : Type}.
Implicit Types (d : D).

Lemma tx_bind_Ok {A B} (m : txn D E A) (f : A -> txn D E B) d r :
  (m ≫= f) d = Ok r <-> exists a d1, m d = Ok (a, d1) /\ f a d1 = Ok r.
Proof.
  unfold mbind, txn_bind. destruct (m d) as [[a d1]|e]; split; [eauto | by intros (? & ? & [= -> ->] & ?) | done |].
  by intros (? & ? & ? & ?).
Qed.

Lemma tx_ret_Ok {A} (a : A) d r : mret (M := txn D E) a d = Ok r <-> r = (a, d).
Proof. unfold mret, txn_ret. split; [by intros [= <-] | by intros ->]. Qed.

Lemma gets_Ok {A} (f : D -> A) d r : gets (E := E) f d = Ok r <-> r = (f d, d).
Proof. unfold gets. split; [by intros [= <-] | by intros ->]. Qed.

Lemma modify_Ok (f : D -> D) d r : modify (E := E) f d = Ok r <-> r = (tt, f d).
Proof. unfold modify. split; [by intros [= <-] | by intros ->]. Qed.

Lemma embed_Ok {C A} (g : C -> E) (r : result C A) d a d' : embed g r d = Ok (a, d') <-> r = Ok a /\ d' = d.
Proof.
  unfold embed. destruct r as [x|[c st|e]]; split; try done; [intros [= <- <-]; done | intros [[= <-] ->]; done | | ];
    by intros [? _].
Qed.

Lemma tx_bind_run {A B} (m : txn D E A) (f : A -> txn D E B) d a d1 : m d = Ok (a, d1) -> (m ≫= f) d = f a d1.
Proof. intros H. unfold mbind, txn_bind. by rewrite H. Qed.

(** A loop, by its body: an invariant and the change of a view per element. *)
Lemma for_each_inv {S A} (P : S -> D -> Prop) (f : S -> A -> txn D E S) l s d s' d' :
  (forall s a d s' d', a ∈ l -> P s d -> f s a d = Ok (s', d') -> P s' d') ->
  P s d -> for_each f s l d = Ok (s', d') -> P s' d'.
Proof.
  revert s d; induction l as [|a l IH]; intros s d Hf HP; cbn; [by intros [= <- <-]%tx_ret_Ok|].
  intros (s1 & d1 & H1 & H2)%tx_bind_Ok. eapply IH; [|by eapply Hf; [left|..]|done]. intros; eapply Hf; eauto. by right.
Qed.

Lemma for_each_ind {S A} (P : list A -> S -> D -> Prop) (f : S -> A -> txn D E S) l s d s' d' :
  (forall pre a post s d s' d', l = pre ++ a :: post -> P pre s d -> f s a d = Ok (s', d') -> P (pre ++ [a]) s' d') ->
  P [] s d -> for_each f s l d = Ok (s', d') -> P l s' d'.
Proof.
  intros Hf. cut (forall suf pre s d, l = pre ++ suf -> P pre s d -> for_each f s suf d = Ok (s', d') -> P l s' d').
  { intros H. by apply (H l []). }
  induction suf as [|a suf IH]; intros pre s0 d0 El HP; cbn.
  - intros [= <- <-]%tx_ret_Ok. by rewrite El, app_nil_r.
  - intros (s1 & d1 & H1 & H2)%tx_bind_Ok. apply (IH (pre ++ [a]) s1 d1); [by rewrite <- (assoc_L app)| |done].
    by eapply Hf.
Qed.

(** A loop that always succeeds. *)
Lemma for_each_run {S A} (P : list A -> S -> D -> Prop) (f : S -> A -> txn D E S) l s d :
  (forall pre a post s d, l = pre ++ a :: post -> P pre s d -> exists s' d', f s a d = Ok (s', d') /\ P (pre ++ [a]) s' d') ->
  P [] s d -> exists s' d', for_each f s l d = Ok (s', d') /\ P l s' d'.
Proof.
  intros Hf. cut (forall suf pre s d, l = pre ++ suf -> P pre s d ->
    exists s' d', for_each f s suf d = Ok (s', d') /\ P l s' d').
  { intros H HP. by apply (H l []). }
  induction suf as [|a suf IH]; intros pre s0 d0 El HP; cbn.
  - exists s0, d0. split; [done|]. by rewrite El, app_nil_r.
  - destruct (Hf pre a suf s0 d0 El HP) as (s1 & d1 & H1 & HP1). rewrite (tx_bind_run _ _ _ _ _ H1).
    apply (IH (pre ++ [a]) s1 d1); [by rewrite <- (assoc_L app)|done].
Qed.
End Tx.

(** Take apart a transaction that succeeded. *)
Ltac inv_txn :=
  match goal with
  | H : (_ ≫= _) _ = Ok _ |- _ =>
      let a := fresh "a" in let d := fresh "d" in let Ha := fresh "Ha" in
      apply tx_bind_Ok in H as (a & d & Ha & H); cbn beta in H
  | H : mret _ _ = Ok _ |- _ => apply tx_ret_Ok in H
  | H : gets _ _ = Ok _ |- _ => apply gets_Ok in H
  | H : modify _ _ = Ok _ |- _ => apply modify_Ok in H
  | H : embed _ _ _ = Ok (_, _) |- _ => apply embed_Ok in H as [H ?]
  | H : fail _ _ _ = Ok _ |- _ => discriminate H
  | H : type_error _ = Ok _ |- _ => discriminate H
  | H : plain_error _ = Ok _ |- _ => discriminate H
  | H : (_, _) = (_, _) |- _ => first [injection H as ? ? | injection H as ?]; subst
  end.

(** ** Transactions that keep a relation *)

(** [after m d]: the tables after the transaction, which a throw rolls back. *)
Definition after {D E A} (m : txn D E A) (d : D) : D := match m d with Ok (_, d') => d' | Throw _ => d end.

Definition Keeps {D E A} (R : D -> D -> Prop) (m : txn D E A) : Prop := forall d a d', m d = Ok (a, d') -> R d d'.

Create HintDb keeps.

Section Keeps.
Context {D E : Type} (R : D -> D -> Prop) `{HR : !PreOrder R}.

Lemma keeps_bind {A B} (m : txn D E A) (f : A -> txn D E B) : Keeps R m -> (forall a, Keeps R (f a)) -> Keeps R (m ≫= f).
Proof. intros Hm Hf d b d' (a & d1 & H1 & H2)%tx_bind_Ok. etransitivity; [by eapply Hm | by eapply Hf]. Qed.

Lemma keeps_ret {A} (a : A) : Keeps R (mret (M := txn D E) a).
Proof. intros d b d' H%tx_ret_Ok. by simplify_eq. Qed.

Lemma keeps_gets {A} (f : D -> A) : Keeps R (gets (E := E) f).
Proof. intros d b d' H%gets_Ok. by simplify_eq. Qed.

Lemma keeps_fail {A} (e : E) st : Keeps R (fail (A := A) e st).
Proof. done. Qed.

Lemma keeps_type_error {A} : Keeps R (type_error (E := E) (A := A)).
Proof. done. Qed.

Lemma keeps_plain_error {A} : Keeps R (plain_error (E := E) (A := A)).
Proof. done. Qed.

Lemma keeps_embed {C A} (g : C -> E) (r : result C A) : Keeps R (embed g r).
Proof. intros d a d' [_ ->]%embed_Ok. reflexivity. Qed.

Lemma keeps_modify f : (forall d, R d (f d)) -> Keeps R (modify (E := E) f).
Proof. intros Hf d a d' H%modify_Ok. simplify_eq. apply Hf. Qed.

Lemma keeps_each {S A} (f : S -> A -> txn D E S) l : (forall s a, Keeps R (f s a)) -> forall s, Keeps R (for_each f s l).
Proof. intros Hf. induction l as [|a l IH]; intros s; cbn; [apply keeps_ret | by apply keeps_bind]. Qed.

Lemma keeps_after {A} (m : txn D E A) d : Keeps R m -> R d (after m d).
Proof. intros Hm. unfold after. destruct (m d) as [[a d']|] eqn:Em; [by eapply Hm | reflexivity]. Qed.
End Keeps.

#[export] Hint Extern 1 (Keeps _ (mret _)) => (apply keeps_ret; exact _) : keeps.
#[export] Hint Extern 1 (Keeps _ (gets _)) => (apply keeps_gets; exact _) : keeps.
#[export] Hint Extern 1 (Keeps _ (embed _ _)) => (apply keeps_embed; exact _) : keeps.
#[export] Hint Resolve keeps_fail keeps_type_error keeps_plain_error : keeps.

(** The head of a transaction, to unfold it. *)
Ltac unfold_head m :=
  lazymatch m with ?f _ => unfold_head f | _ => unfold m end.

(** By the structure of the transaction; [db_step] shows the relation for one update
    of the tables. *)
Ltac solve_keeps_with db_step :=
  repeat first
    [ solve [eauto 2 with keeps]
    | lazymatch goal with
      | |- Keeps _ (_ ≫= _) => apply keeps_bind; [exact _ | |intros ?]
      | |- Keeps _ (for_each _ _ _) => apply keeps_each; [exact _ |]; intros ? ?
      | |- Keeps _ (modify _) => apply keeps_modify; intros ?
      | |- Keeps _ (match ?x with _ => _ end) => destruct x
      | |- Keeps _ (let _ := _ in _) => cbv zeta
      | |- Keeps _ ?m => unfold_head m; cbv beta
      | |- _ => db_step
      end ].
