(* ===== verification/JsNumber.v ===== *)
(** * ECMAScript numbers

    The [number] type of the source: IEEE-754 binary64 values with
    round-to-nearest-even arithmetic, written over exact rationals.  [Fin q]
    is the finite value [q], kept in lowest terms (so an integral value has
    denominator 1 and Leibniz equality is value equality); [-0] is identified
    with [0], since no modelled code observes its sign.  The file also holds
    the dynamic [jsval] type and the conversions [Number(bigint)],
    [BigInt(number)], [Math.*] and [toFixed].

    The lemmas show that integer arithmetic is exact up to 2^53 and that a
    bigint survives [Number] plus [Number.isSafeInteger] exactly when its
    magnitude is below 2^53: the facts behind every money computation. *)

From S2P Require Import Prelude.
From Stdlib Require Import QArith Qreduction.

Open Scope Z_scope.

Inductive number := NaN | Infinity (neg : bool) | Fin (q : Q).

#[export] Instance Q_eq_dec : EqDecision Q.
Proof. solve_decision. Defined.
#[export] Instance number_eq_dec : EqDecision number.
Proof. solve_decision. Defined.

(** An integral value. *)
Definition int (z : Z) : number := Fin (z # 1).

(** ** Rounding a rational to binary64 *)

(** floor(log2 (n/d)) for positive [n] and [d]. *)
Definition flog2 (n d : Z) : Z :=
  let l := Z.log2 n - Z.log2 d in
  if (if 0 <=? l then d * 2 ^ l <=? n else d <=? n * 2 ^ (- l)) then l else l - 1.

Definition round_half_even (n d : Z) : Z :=
  let q := n / d in
  let r := n mod d in
  if 2 * r <? d then q
  else if d <? 2 * r then q + 1
  else if Z.even q then q else q + 1.

(** The binary exponent of the unit in the last place (52 fraction bits,
    subnormals stop at 2^-1074). *)
Definition ulp_exp (n d : Z) : Z := Z.max (flog2 n d - 52) (-1074).

Definition rnd_mag (n d : Z) : Q :=
  let e := ulp_exp n d in
  if 0 <=? e then (round_half_even n (d * 2 ^ e) * 2 ^ e) # 1
  else Qred (round_half_even (n * 2 ^ (- e)) d # Z.to_pos (2 ^ (- e))).

Definition two_1024 : Q := (2 ^ 1024) # 1.

Definition rnd (q : Q) : number :=
  match Qnum q with
  | 0 => int 0
  | Zpos n =>
      let m := rnd_mag (Zpos n) (Zpos (Qden q)) in
      if Qle_bool two_1024 m then Infinity false else Fin m
  | Zneg n =>
      let m := rnd_mag (Zpos n) (Zpos (Qden q)) in
      if Qle_bool two_1024 m then Infinity true else Fin (- m)
  end.

(** ** Operators *)

Definition nopp (a : number) : number :=
  match a with NaN => NaN | Infinity s => Infinity (negb s) | Fin q => Fin (- q) end.

Definition nadd (a b : number) : number :=
  match a, b with
  | NaN, _ | _, NaN => NaN
  | Infinity s, Infinity t => if Bool.eqb s t then Infinity s else NaN
  | Infinity s, _ | _, Infinity s => Infinity s
  | Fin p, Fin q => rnd (p + q)
  end.

Definition nsub (a b : number) : number := nadd a (nopp b).

Definition nneg (a : number) : bool :=
  match a with NaN => false | Infinity s => s | Fin q => Qnum q <? 0 end.

Definition nmul (a b : number) : number :=
  match a, b with
  | NaN, _ | _, NaN => NaN
  | Infinity s, Infinity t => Infinity (xorb s t)
  | Infinity s, Fin q | Fin q, Infinity s =>
      if Qnum q =? 0 then NaN else Infinity (xorb s (nneg (Fin q)))
  | Fin p, Fin q => rnd (p * q)
  end.

(** Division; a zero divisor is read as [+0]. *)
Definition ndiv (a b : number) : number :=
  match a, b with
  | NaN, _ | _, NaN => NaN
  | Infinity _, Infinity _ => NaN
  | Infinity s, Fin q => Infinity (xorb s (nneg (Fin q)))
  | Fin _, Infinity _ => int 0
  | Fin p, Fin q =>
      if Qnum q =? 0 then (if Qnum p =? 0 then NaN else Infinity (nneg (Fin p)))
      else rnd (p / q)
  end.

(** [a < b] and [a <= b]: false whenever an operand is [NaN]. *)
Definition nlt (a b : number) : bool :=
  match a, b with
  | NaN, _ | _, NaN => false
  | Infinity s, Infinity t => s && negb t
  | Infinity s, Fin _ => s
  | Fin _, Infinity s => negb s
  | Fin p, Fin q => Qnum p * Zpos (Qden q) <? Qnum q * Zpos (Qden p)
  end%bool.

Definition nle (a b : number) : bool :=
  match a, b with
  | NaN, _ | _, NaN => false
  | Infinity s, Infinity t => s || negb t
  | Infinity s, Fin _ => s
  | Fin _, Infinity s => negb s
  | Fin p, Fin q => Qnum p * Zpos (Qden q) <=? Qnum q * Zpos (Qden p)
  end%bool.

(** [a === b]. *)
Definition neq (a b : number) : bool :=
  match a, b with
  | Infinity s, Infinity t => Bool.eqb s t
  | Fin p, Fin q => Qnum p * Zpos (Qden q) =? Qnum q * Zpos (Qden p)
  | _, _ => false
  end.

Definition isFinite (a : number) : bool :=
  match a with Fin _ => true | _ => false end.

Definition isInteger (a : number) : bool :=
  match a with Fin q => (Qden q =? 1)%positive | _ => false end.

Definition MAX_SAFE_INTEGER : Z := 2 ^ 53 - 1.

Definition isSafeInteger (a : number) : bool :=
  match a with
  | Fin q => (Qden q =? 1)%positive && (Z.abs (Qnum q) <=? MAX_SAFE_INTEGER)
  | _ => false
  end.

(** [Number(b)] of a bigint, and [BigInt(n)]: a RangeError unless integral. *)
Definition number_of_bigint (z : Z) : number := rnd (z # 1).

Definition bigint_of_number {C} (a : number) : result C Z :=
  match a with
  | Fin q => if (Qden q =? 1)%positive then Ok (Qnum q) else Throw (JsError RangeError)
  | _ => Throw (JsError RangeError)
  end.

(** Bigint division: truncates, a zero divisor is a RangeError. *)
Definition bdiv {C} (a b : Z) : result C Z :=
  if b =? 0 then Throw (JsError RangeError) else Ok (Z.quot a b).

Definition Qfloor_half (q : Q) : Z :=
  (2 * Qnum q + Zpos (Qden q)) / (2 * Zpos (Qden q)).

(** [Math.round]: the nearest integer, ties towards +infinity. *)
Definition mathRound (a : number) : number :=
  match a with Fin q => int (Qfloor_half q) | _ => a end.

Definition mathFloor (a : number) : number :=
  match a with Fin q => int (Qnum q / Zpos (Qden q)) | _ => a end.

Definition mathAbs (a : number) : number :=
  match a with NaN => NaN | Infinity _ => Infinity false
  | Fin q => Fin (Qmake (Z.abs (Qnum q)) (Qden q)) end.

Definition mathMax (a b : number) : number :=
  match a, b with
  | NaN, _ | _, NaN => NaN
  | _, _ => if nlt a b then b else a
  end.

Definition mathMin (a b : number) : number :=
  match a, b with
  | NaN, _ | _, NaN => NaN
  | _, _ => if nlt b a then b else a
  end.

(** ** Exactness of integer arithmetic *)

Section Rounding.
Lemma rhe_lower a n d : 0 < d -> a * d <= n -> a <= round_half_even n d.
Proof.
  intros Hd H. unfold round_half_even.
  assert (a <= n / d) by (apply Z.div_le_lower_bound; lia).
  destruct (2 * (n mod d) <? d), (d <? 2 * (n mod d)), (Z.even (n / d)); lia.
Qed.

Lemma rhe_upper b n d : 0 < d -> n <= b * d -> round_half_even n d <= b.
Proof.
  intros Hd H. unfold round_half_even.
  pose proof (Z.div_mod n d ltac:(lia)) as Hdm.
  pose proof (Z.mod_pos_bound n d Hd) as Hm.
  destruct (2 * (n mod d) <? d) eqn:E1; [apply Z.div_le_upper_bound; lia|].
  apply Z.ltb_ge in E1.
  assert (n / d < b) by nia.
  destruct (d <? 2 * (n mod d)), (Z.even (n / d)); lia.
Qed.

Lemma rhe_exact a d : 0 < d -> round_half_even (a * d) d = a.
Proof.
  intros Hd. apply Z.le_antisymm; [apply rhe_upper | apply rhe_lower]; lia.
Qed.

Lemma pow2_split a b : 0 <= a -> 0 <= b -> 2 ^ (a + b) = 2 ^ a * 2 ^ b.
Proof. intros; by apply Z.pow_add_r. Qed.

Lemma flog2_int n : 0 < n -> flog2 n 1 = Z.log2 n.
Proof.
  intros Hn. unfold flog2. rewrite (eq_refl : Z.log2 1 = 0), Z.sub_0_r.
  pose proof (Z.log2_nonneg n). destruct (Z.log2_spec n Hn) as [Hl _].
  rewrite (proj2 (Z.leb_le 0 (Z.log2 n))), (proj2 (Z.leb_le _ _)) by lia. done.
Qed.

Lemma Qred_scaled z k : 0 <= k -> Qred (z * 2 ^ k # Z.to_pos (2 ^ k)) = (z # 1).
Proof.
  intros Hk. assert (0 < 2 ^ k) by (by apply Z.pow_pos_nonneg).
  transitivity (Qred (z # 1)).
  - apply Qred_complete. unfold Qeq; cbn. rewrite Z2Pos.id by done. lia.
  - unfold Qred. cbn. pose proof (Z.ggcd_gcd z 1) as Hg.
    pose proof (Z.ggcd_correct_divisors z 1) as Hc.
    destruct (Z.ggcd z 1) as [g [r1 r2]]. cbn in *. rewrite Z.gcd_1_r in Hg.
    subst g. destruct Hc as [-> Hr2]. replace r2 with 1 by lia. cbn. f_equal. by destruct r1.
Qed.

Lemma rnd_mag_int n : 0 < n <= 2 ^ 53 -> rnd_mag n 1 = (n # 1).
Proof.
  intros [Hn Hle]. unfold rnd_mag, ulp_exp. rewrite flog2_int by done.
  assert (Hlog : Z.log2 n <= 53) by (rewrite <- (Z.log2_pow2 53); [by apply Z.log2_le_mono | lia]).
  pose proof (Z.log2_nonneg n). rewrite Z.max_l by lia.
  destruct (Z.leb_spec 0 (Z.log2 n - 52)).
  - assert (Hlow : 2 ^ Z.log2 n <= n) by (by apply Z.log2_spec).
    assert (Hcase : Z.log2 n = 52 \/ Z.log2 n = 53) by lia.
    destruct Hcase as [Hc|Hc]; rewrite Hc in *; cbn [Z.sub Z.opp Z.add Z.pos_sub].
    + change (52 + -52) with 0. change (1 * 2 ^ 0) with 1. f_equal.
      change (2 ^ 0) with 1. rewrite Z.mul_1_r. rewrite <- (Z.mul_1_r n) at 1. by apply rhe_exact.
    + assert (n = 2 ^ 53) as -> by lia. reflexivity.
  - set (k := - (Z.log2 n - 52)). rewrite <- (Z.mul_1_r (n * 2 ^ k)), rhe_exact by lia.
    apply Qred_scaled. unfold k; lia.
Qed.

Lemma two_1024_big z : Z.abs z <= 2 ^ 53 -> Qle_bool two_1024 (z # 1) = false.
Proof.
  intros Hz. unfold Qle_bool, two_1024. cbn [Qnum Qden]. apply Z.leb_gt.
  assert (2 ^ 53 < 2 ^ 1024) by reflexivity. lia.
Qed.

Lemma rnd_int z : Z.abs z <= 2 ^ 53 -> rnd (z # 1) = int z.
Proof.
  intros Hz. unfold rnd. cbn [Qnum Qden]. destruct z as [|p|p]; [done|..].
  - rewrite rnd_mag_int by lia. by rewrite two_1024_big.
  - rewrite rnd_mag_int by lia. rewrite two_1024_big by lia. done.
Qed.

(** Integers at or above 2^53 stay there: they are never safe again. *)
Lemma rnd_mag_big n : 2 ^ 53 <= n -> exists m, rnd_mag n 1 = (m # 1) /\ 2 ^ 53 <= m.
Proof.
  intros Hn. unfold rnd_mag, ulp_exp. assert (0 < n) by lia. rewrite flog2_int by done.
  assert (Hlog : 53 <= Z.log2 n) by (rewrite <- (Z.log2_pow2 53); [by apply Z.log2_le_mono | lia]).
  rewrite Z.max_l, (proj2 (Z.leb_le 0 (Z.log2 n - 52))) by lia.
  set (e := Z.log2 n - 52) in *. eexists; split; [done|].
  assert (0 < 2 ^ e) by (apply Z.pow_pos_nonneg; lia).
  assert (2 ^ 52 <= round_half_even n (1 * 2 ^ e)).
  { apply rhe_lower; [lia|]. rewrite Z.mul_1_l, <- pow2_split by lia.
    replace (52 + e) with (Z.log2 n) by lia. by apply Z.log2_spec. }
  assert (2 ^ 1 <= 2 ^ e) by (apply Z.pow_le_mono_r; lia).
  change (2 ^ 53) with (2 ^ 52 * 2). nia.
Qed.

Lemma rnd_safe z : isSafeInteger (rnd (z # 1)) = true -> Z.abs z <= MAX_SAFE_INTEGER.
Proof.
  intros Hs. unfold MAX_SAFE_INTEGER in *.
  destruct (Z.le_gt_cases (Z.abs z) (2 ^ 53 - 1)) as [|Hbig]; [done|exfalso].
  assert (Hb : forall n, 2 ^ 53 <= Zpos n ->
    isSafeInteger (Fin (rnd_mag (Zpos n) 1)) = false /\ isSafeInteger (Fin (- rnd_mag (Zpos n) 1)) = false).
  { intros n Hn. destruct (rnd_mag_big _ Hn) as (m & -> & Hm). cbn.
    split; apply Z.leb_gt; unfold MAX_SAFE_INTEGER; lia. }
  unfold rnd in Hs. cbn [Qnum Qden] in Hs.
  destruct z as [|p|p]; [cbn in Hbig; lia|..]; destruct (Hb p) as [H1 H2]; try lia;
    destruct (Qle_bool _ _); [discriminate| |discriminate|]; congruence.
Qed.

(** Rounding never crosses an integer bound below 2^53. *)
Lemma flog2_le n d b : 0 < n -> 0 < d -> n <= b * d -> 0 < b <= 2 ^ 53 -> 0 <= flog2 n d ->
  2 ^ flog2 n d <= b.
Proof.
  intros Hn Hd Hle Hb. unfold flog2. set (l := Z.log2 n - Z.log2 d). intros H0.
  assert (Hkey : forall e, 0 <= e -> d * 2 ^ e <= n -> 2 ^ e <= b) by (intros; nia).
  destruct (Z.leb_spec 0 l) as [Hl|Hl].
  - destruct (Z.leb_spec (d * 2 ^ l) n); [by apply Hkey|]. apply Hkey; [lia|].
    assert (2 ^ Z.log2 n <= n) by (by apply Z.log2_spec).
    assert (d < 2 ^ Z.succ (Z.log2 d)) by (by apply Z.log2_spec).
    pose proof (Z.log2_nonneg d).
    assert (2 ^ Z.succ (Z.log2 d) * 2 ^ (l - 1) = 2 ^ Z.log2 n).
    { rewrite <- pow2_split by lia. f_equal. unfold l. lia. }
    assert (0 < 2 ^ (l - 1)) by (apply Z.pow_pos_nonneg; lia). nia.
  - destruct (d <=? n * 2 ^ (- l)); lia.
Qed.

Lemma rnd_mag_bound n d b : 0 < n -> 0 < d -> n <= b * d -> 0 < b <= 2 ^ 53 ->
  0 <= Qnum (rnd_mag n d) <= b * Zpos (Qden (rnd_mag n d)).
Proof.
  intros Hn Hd Hle Hb. unfold rnd_mag, ulp_exp. set (e := Z.max _ _).
  destruct (Z.leb_spec 0 e) as [He|He].
  - assert (Hf : e = flog2 n d - 52) by lia.
    assert (H2 : 2 ^ flog2 n d <= b) by (apply flog2_le; lia).
    assert (Hlt : flog2 n d <= 53).
    { apply Z.nlt_ge. intros Hc. assert (2 ^ 54 <= 2 ^ flog2 n d) by (apply Z.pow_le_mono_r; lia).
      assert (2 ^ 53 < 2 ^ 54) by reflexivity. lia. }
    assert (Hc : e = 0 \/ e = 1) by lia. cbn [Qnum Qden].
    destruct Hc as [-> | ->].
    + change (2 ^ 0) with 1. rewrite !Z.mul_1_r.
      split; [apply rhe_lower; lia | apply rhe_upper; lia].
    + change (2 ^ 1) with 2.
      assert (b = 2 ^ 53) as -> by (replace (flog2 n d) with 53 in H2 by lia; lia).
      assert (round_half_even n (d * 2) <= 2 ^ 52).
      { apply rhe_upper; [lia|]. change (2 ^ 53) with (2 ^ 52 * 2) in Hle. lia. }
      assert (0 <= round_half_even n (d * 2)) by (apply rhe_lower; lia).
      change (2 ^ 53) with (2 ^ 52 * 2). lia.
  - set (k := - e). assert (Hk : 0 < 2 ^ k) by (apply Z.pow_pos_nonneg; lia).
    set (m := round_half_even _ _).
    assert (Hm : 0 <= m <= b * 2 ^ k).
    { unfold m. split; [apply rhe_lower; nia | apply rhe_upper; nia]. }
    pose proof (Qred_correct (m # Z.to_pos (2 ^ k))) as Hq. unfold Qeq in Hq. cbn [Qnum Qden] in Hq.
    rewrite Z2Pos.id in Hq by done. nia.
Qed.
End Rounding.

(** ** Laws of the operators on integers *)

Lemma nopp_int a : nopp (int a) = int (- a).
Proof. done. Qed.

Lemma Qplus_int a b : ((a # 1) + (b # 1))%Q = (a + b # 1).
Proof. unfold Qplus. cbn. by rewrite !Z.mul_1_r. Qed.

Lemma nadd_int a b : Z.abs (a + b) <= 2 ^ 53 -> nadd (int a) (int b) = int (a + b).
Proof. intros H. unfold nadd, int. rewrite Qplus_int. by apply rnd_int. Qed.

Lemma nsub_int a b : Z.abs (a - b) <= 2 ^ 53 -> nsub (int a) (int b) = int (a - b).
Proof. intros H. unfold nsub. rewrite nopp_int. by apply nadd_int. Qed.

Lemma nmul_int a b : Z.abs (a * b) <= 2 ^ 53 -> nmul (int a) (int b) = int (a * b).
Proof. intros H. unfold nmul, int, Qmult. cbn [Qnum Qden]. by apply rnd_int. Qed.

Lemma nlt_int a b : nlt (int a) (int b) = (a <? b).
Proof. cbn. by rewrite !Z.mul_1_r. Qed.

Lemma nle_int a b : nle (int a) (int b) = (a <=? b).
Proof. cbn. by rewrite !Z.mul_1_r. Qed.

Lemma neq_int a b : neq (int a) (int b) = (a =? b).
Proof. cbn. by rewrite !Z.mul_1_r. Qed.

Lemma isSafeInteger_int z : isSafeInteger (int z) = (Z.abs z <=? MAX_SAFE_INTEGER).
Proof. done. Qed.

Lemma isSafeInteger_inv n :
  isSafeInteger n = true -> exists z, n = int z /\ Z.abs z <= MAX_SAFE_INTEGER.
Proof.
  destruct n as [| |[z d]]; cbn [isSafeInteger Qden Qnum]; try discriminate. intros [Hd Hz]%andb_true_iff.
  apply Pos.eqb_eq in Hd as ->. exists z. split; [done | by apply Z.leb_le].
Qed.

Lemma isInteger_inv n : isInteger n = true -> exists z, n = int z.
Proof.
  destruct n as [| |[z d]]; cbn [isInteger Qden]; try discriminate. intros ->%Pos.eqb_eq. by exists z.
Qed.

Lemma number_of_bigint_safe z : Z.abs z <= MAX_SAFE_INTEGER -> number_of_bigint z = int z.
Proof. unfold MAX_SAFE_INTEGER. intros. apply rnd_int. lia. Qed.

Lemma number_of_bigint_isSafe z :
  isSafeInteger (number_of_bigint z) = (Z.abs z <=? MAX_SAFE_INTEGER).
Proof.
  destruct (isSafeInteger (number_of_bigint z)) eqn:E; symmetry.
  - apply Z.leb_le. by apply rnd_safe.
  - apply Z.leb_gt. apply Z.nle_gt. intros H. rewrite number_of_bigint_safe in E by done.
    rewrite isSafeInteger_int in E. apply Z.leb_gt in E. lia.
Qed.

Lemma int_inj a b : int a = int b -> a = b.
Proof. by intros [= ->]. Qed.

(** The whole number a field carries; 0 for a value that is none. *)
Definition nval (n : number) : Z := match n with Fin q => Qnum q | _ => 0 end.

(** A difference of safe integers that reads back as a safe integer is exact. *)
Lemma rnd_beyond n : 2 ^ 53 <= n < 2 ^ 54 -> exists m, rnd (n # 1) = int m /\ rnd (- n # 1) = int (- m) /\ 2 ^ 53 <= m.
Proof.
  intros [Hn Hlt]. destruct (rnd_mag_big n Hn) as (m & Hm & Hle). exists m.
  assert (Hu : m <= 2 ^ 54).
  { assert (Hlog : Z.log2 n = 53) by (apply Z.log2_unique; lia). unfold rnd_mag, ulp_exp in Hm. rewrite flog2_int, Hlog in Hm by lia.
    change (Z.max (53 - 52) (-1074)) with 1 in Hm. cbn [Z.leb Z.compare] in Hm. injection Hm as <-.
    assert (round_half_even n (1 * 2 ^ 1) <= 2 ^ 53) by (apply rhe_upper; lia). lia. }
  assert (H2 : forall z, Z.abs z <= 2 ^ 54 -> Qle_bool two_1024 (z # 1) = false).
  { intros z Hz. unfold Qle_bool, two_1024. cbn [Qnum Qden]. apply Z.leb_gt. assert (2 ^ 54 < 2 ^ 1024) by reflexivity. lia. }
  destruct n as [|p|p]; [lia| |lia]. unfold rnd. change (- Z.pos p) with (Z.neg p). cbn [Qnum Qden]. rewrite Hm, H2 by lia. by split_and!.
Qed.

Lemma nsub_exact a b : Z.abs a <= MAX_SAFE_INTEGER -> Z.abs b <= MAX_SAFE_INTEGER -> Z.abs (nval (nsub (int a) (int b))) <= MAX_SAFE_INTEGER ->
  nsub (int a) (int b) = int (a - b).
Proof.
  unfold MAX_SAFE_INTEGER. intros Ha Hb Hn. destruct (Z.le_gt_cases (Z.abs (a - b)) (2 ^ 53)) as [|Hbig]; [by apply nsub_int|]. exfalso. revert Hn.
  unfold nsub. rewrite nopp_int. unfold nadd, int. rewrite Qplus_int. fold (int a).
  destruct (rnd_beyond (Z.abs (a - b))) as (m & H1 & H2 & Hm); [lia|].
  destruct (Z.le_gt_cases 0 (a - b)); [rewrite Z.abs_eq in H1 by lia; replace (a + - b) with (a - b) by lia; rewrite H1; cbn; lia|].
  rewrite Z.abs_neq, Z.opp_involutive in H2 by lia. replace (a + - b) with (a - b) by lia. rewrite H2. cbn. lia.
Qed.

Lemma mathMax_int a b : mathMax (int a) (int b) = int (Z.max a b).
Proof. unfold mathMax. cbn -[nlt]. fold (int a) (int b). rewrite nlt_int. destruct (Z.ltb_spec a b); f_equal; unfold int; do 2 f_equal; lia. Qed.

Lemma mathMin_int a b : mathMin (int a) (int b) = int (Z.min a b).
Proof. unfold mathMin. cbn -[nlt]. fold (int a) (int b). rewrite nlt_int. destruct (Z.ltb_spec b a); f_equal; unfold int; do 2 f_equal; lia. Qed.

(** ** Sums of non-negative amounts

    A running total is exact until it leaves the safe range, and once it has
    left it every later total is at least 2^53: a safe total is an exact one. *)
Definition big (n : number) : Prop := n = Infinity false \/ exists m, n = int m /\ 2 ^ 53 <= m.

Section Big.
Lemma rnd_big z : 2 ^ 53 <= z -> big (rnd (z # 1)).
Proof.
  intros Hz. unfold rnd. cbn [Qnum Qden]. destruct z as [|p|p]; [lia| |lia].
  destruct (rnd_mag_big (Zpos p) Hz) as (m & -> & Hm). cbn zeta.
  destruct (Qle_bool _ _); [by left | right; by exists m].
Qed.

Lemma nadd_big n b : big n -> 0 <= b -> big (nadd n (int b)).
Proof.
  intros [-> | (m & -> & Hm)] Hb; [by left|]. unfold nadd, int. rewrite Qplus_int. apply rnd_big. lia.
Qed.

Lemma big_not_safe n : big n -> isSafeInteger n = false.
Proof.
  intros [-> | (m & -> & Hm)]; [done|]. rewrite isSafeInteger_int. apply Z.leb_gt. unfold MAX_SAFE_INTEGER. lia.
Qed.

Lemma big_lt n l : big n -> l < 2 ^ 53 -> nlt n (int l) = false /\ nlt (int l) n = true.
Proof.
  intros [-> | (m & -> & Hm)] Hl; [done|]. rewrite !nlt_int. split; lia.
Qed.

(** Is [n] the running total [z]?  Exact in the safe range, big beyond it. *)
Definition sums_to (n : number) (z : Z) : Prop := (n = int z /\ 0 <= z < 2 ^ 53) \/ (big n /\ 2 ^ 53 <= z).

Lemma sums_to_0 : sums_to (int 0) 0.
Proof. left. split; [done | lia]. Qed.

Lemma sums_to_add n z b : sums_to n z -> 0 <= b -> sums_to (nadd n (int b)) (z + b).
Proof.
  intros [[-> Hz] | [Hn Hz]] Hb; [|right; split; [by apply nadd_big | lia]].
  destruct (Z.le_gt_cases (2 ^ 53) (z + b)).
  - right. split; [|lia]. unfold nadd, int. rewrite Qplus_int. by apply rnd_big.
  - left. split; [apply nadd_int|]; lia.
Qed.

Lemma sums_to_safe n z : sums_to n z -> isSafeInteger n = true -> n = int z /\ 0 <= z <= MAX_SAFE_INTEGER.
Proof.
  intros [[-> Hz] | [Hn%big_not_safe Hz]] Hs; [|congruence]. unfold MAX_SAFE_INTEGER. split; [done | lia].
Qed.

Lemma sums_to_lt n z l : sums_to n z -> l < 2 ^ 53 -> nlt n (int l) = (z <? l) /\ nlt (int l) n = (l <? z).
Proof.
  intros [[-> Hz] | [Hn Hz]] Hl; [by rewrite !nlt_int|]. destruct (big_lt n l Hn Hl) as [-> ->].
  split; symmetry; [apply Z.ltb_ge | apply Z.ltb_lt]; lia.
Qed.
End Big.

Create Rewrite HintDb jsnum.
#[export] Hint Rewrite nlt_int nle_int neq_int mathMax_int mathMin_int nopp_int : jsnum.

(** A percentage in [0, 100] yields 0 to 10000 basis points. *)
Lemma basis_points_range n :
  isFinite n = true -> nlt n (int 0) = false -> nlt (int 100) n = false ->
  exists bp, mathRound (nmul n (int 100)) = int bp /\ 0 <= bp <= 10000.
Proof.
  destruct n as [| |[p d]]; try discriminate. intros _. cbn [nlt int Qnum Qden].
  rewrite !Z.mul_1_r, !Z.ltb_ge. intros H1 H2. unfold nmul, int, rnd, Qmult. cbn zeta. cbn [Qnum Qden].
  rewrite Pos.mul_1_r. destruct p as [|p|p]; [..|lia].
  - exists 0. done.
  - change (Zpos p * 100) with (Zpos (p * 100)). cbv iota.
    assert (Hb : 0 <= Qnum (rnd_mag (Zpos (p * 100)) (Zpos d)) <=
      10000 * Zpos (Qden (rnd_mag (Zpos (p * 100)) (Zpos d)))).
    { apply rnd_mag_bound; lia. }
    destruct (rnd_mag _ _) as [m k]. cbn [Qnum Qden] in Hb.
    cbn zeta. replace (Qle_bool two_1024 (m # k)) with false.
    2:{ symmetry. unfold Qle_bool, two_1024. cbn [Qnum Qden]. apply Z.leb_gt.
        assert (10000 < 2 ^ 1024) by reflexivity. nia. }
    exists (Qfloor_half (m # k)). split; [done|]. unfold Qfloor_half. cbn [Qnum Qden].
    split; [apply Z.div_le_lower_bound; lia|].
    enough ((2 * m + Zpos k) / (2 * Zpos k) < 10001) by lia. apply Z.div_lt_upper_bound; lia.
Qed.

(** ** Dynamic values *)

(** What a [string | number | bigint | null | undefined] argument may hold. *)
Inductive jsval :=
| Undefined | Null
| VBool (b : bool)
| VNum (n : number)
| VBig (z : Z)
| VStr (s : string).

#[export] Instance jsval_eq_dec : EqDecision jsval.
Proof. solve_decision. Defined.

(** [v === undefined || v === null]. *)
Definition is_nullish (v : jsval) : bool :=
  match v with Undefined | Null => true | _ => false end.
