(* ===== verification/JsString.v ===== *)
(** * ECMAScript strings

    The string operations and regular expressions the domain layers use, over
    Rocq strings read as sequences of ASCII code units (case mapping touches
    ASCII letters only; text beyond ASCII is outside the model).  Also the two
    conversions between strings and numbers: [Number(s)] with the full
    StringNumericLiteral grammar and [String(n)] by the shortest-digits
    algorithm of the standard.

    The lemmas are the round trip of decimal digit strings, on which the
    parse/format round trips of the quantity types rest. *)

From S2P Require Import Prelude JsNumber.
From Stdlib Require Import QArith Ascii.

Open Scope Z_scope.


Definition code (c : ascii) : Z := Z.of_N (N_of_ascii c).

Definition char (n : Z) : ascii := ascii_of_N (Z.to_N n).

(** White space and line terminators. *)
Definition is_ws (c : ascii) : bool :=
  let n := code c in ((9 <=? n) && (n <=? 13)) || (n =? 32) || (n =? 160).

Definition is_digit (c : ascii) : bool := (48 <=? code c) && (code c <=? 57).

Definition to_upper (c : ascii) : ascii :=
  if (97 <=? code c) && (code c <=? 122) then char (code c - 32) else c.

Definition to_lower (c : ascii) : ascii :=
  if (65 <=? code c) && (code c <=? 90) then char (code c + 32) else c.

Definition is_upper (c : ascii) : bool := (65 <=? code c) && (code c <=? 90).

Fixpoint smap (f : ascii -> ascii) (s : string) : string :=
  match s with "" => "" | String c s => String (f c) (smap f s) end.

Definition toUpperCase : string -> string := smap to_upper.
Definition toLowerCase : string -> string := smap to_lower.

(** [/^[class]*$/]: every character satisfies [p]. *)
Fixpoint sall (p : ascii -> bool) (s : string) : bool :=
  match s with "" => true | String c s => p c && sall p s end.

Fixpoint ltrim (s : string) : string :=
  match s with "" => "" | String c s' => if is_ws c then ltrim s' else s end.

Fixpoint rtrim (s : string) : string :=
  match s with
  | "" => ""
  | String c s' =>
      match rtrim s' with
      | "" => if is_ws c then "" else String c ""
      | t => String c t
      end
  end.

Definition trim (s : string) : string := rtrim (ltrim s).

Definition slen (s : string) : Z := Z.of_nat (String.length s).

Fixpoint srepeat (n : nat) (c : ascii) : string :=
  match n with O => "" | S n => String c (srepeat n c) end.

Definition padStart (n : nat) (c : ascii) (s : string) : string :=
  srepeat (n - String.length s) c +:+ s.

Definition padEnd (n : nat) (c : ascii) (s : string) : string :=
  s +:+ srepeat (n - String.length s) c.

(** The longest prefix of digits, and the rest. *)
Fixpoint span_digits (s : string) : string * string :=
  match s with
  | "" => ("", "")
  | String c s' =>
      if is_digit c then let (d, r) := span_digits s' in (String c d, r) else ("", s)
  end.

(** [BigInt(s)] of a digit string (the empty string is [0n]). *)
Fixpoint dval (acc : Z) (s : string) : Z :=
  match s with "" => acc | String c s => dval (10 * acc + (code c - 48)) s end.

Definition digits_val (s : string) : Z := dval 0 s.

(** The pattern [0|[1-9]\d*] of an integer part. *)
Definition canonical_int (s : string) : bool :=
  match s with
  | "" => false
  | String c s' => if code c =? 48 then String.eqb s' "" else true
  end.

(** [(?:\.(\d{1,k}))?$] after the integer part: the fraction, if it matches. *)
Definition fraction (k : nat) (s : string) : option string :=
  match s with
  | "" => Some ""
  | String c r =>
      if Ascii.eqb c "." && sall is_digit r && negb (String.eqb r "") && (String.length r <=? k)%nat
      then Some r else None
  end.

(** ** Printing integers *)

Definition digit_char (d : Z) : ascii := char (48 + d).

Fixpoint digits_of (fuel : nat) (n : Z) (acc : string) : string :=
  match fuel with
  | O => acc
  | S f =>
      let acc' := String (digit_char (n mod 10)) acc in
      if n <? 10 then acc' else digits_of f (n / 10) acc'
  end.

(** [n.toString()] of a non-negative bigint, and of any bigint. *)
Definition nat_string (n : Z) : string := digits_of (S (Z.to_nat (Z.log2 n))) n "".

Definition Z_string (z : Z) : string :=
  if z <? 0 then String "-" (nat_string (- z)) else nat_string z.

(** ** Numbers and strings *)

Definition pow10 (e : Z) : Q := if 0 <=? e then (10 ^ e) # 1 else 1 # Z.to_pos (10 ^ (- e)).

Definition decimal (s e : Z) : number := rnd ((s # 1) * pow10 e).

(** [StrUnsignedDecimalLiteral]: digits, an optional fraction and exponent. *)
Definition exponent_part (s : string) : option Z :=
  match s with
  | "" => Some 0
  | String c r =>
      if Ascii.eqb c "e" || Ascii.eqb c "E" then
        let (neg, ds) := match r with
          | String "-" ds => (true, ds) | String "+" ds => (false, ds) | _ => (false, r) end in
        if sall is_digit ds && negb (String.eqb ds "") then
          Some (if (neg : bool) then - digits_val ds else digits_val ds)
        else None
      else None
  end.

Definition unsigned_decimal (s : string) : number :=
  if String.eqb s "Infinity" then Infinity false
  else
    let (d1, r1) := span_digits s in
    let (d2, r2) := match r1 with String "." r => span_digits r | _ => ("", r1) end in
    if String.eqb (d1 +:+ d2) "" then NaN
    else match exponent_part r2 with
         | None => NaN
         | Some e => decimal (digits_val (d1 +:+ d2)) (e - slen d2)
         end.

Definition hex_val (c : ascii) : option Z :=
  let n := code (to_lower c) in
  if is_digit c then Some (n - 48) else if (97 <=? n) && (n <=? 102) then Some (n - 87) else None.

Fixpoint radix_val (b : Z) (acc : Z) (s : string) : option Z :=
  match s with
  | "" => Some acc
  | String c s =>
      match hex_val c with
      | Some v => if v <? b then radix_val b (b * acc + v) s else None
      | None => None
      end
  end.

Definition radix_literal (b : Z) (s : string) : number :=
  if String.eqb s "" then NaN
  else match radix_val b 0 s with Some v => rnd (v # 1) | None => NaN end.

(** The [0x], [0o] and [0b] prefixes. *)
Definition radix_prefix (s : string) : option (Z * string) :=
  match s with
  | String z (String x r) =>
      if Ascii.eqb z "0" then
        if Ascii.eqb (to_lower x) "x" then Some (16, r)
        else if Ascii.eqb (to_lower x) "o" then Some (8, r)
        else if Ascii.eqb (to_lower x) "b" then Some (2, r)
        else None
      else None
  | _ => None
  end.

(** [Number(s)]. *)
Definition number_of_string (s : string) : number :=
  let t := trim s in
  match radix_prefix t with
  | Some (b, r) => radix_literal b r
  | None =>
      match t with
      | "" => int 0
      | String c r =>
          if Ascii.eqb c "+" then unsigned_decimal r
          else if Ascii.eqb c "-" then nopp (unsigned_decimal r)
          else unsigned_decimal t
      end
  end.

(** The decimal exponent [n] with 10^(n-1) <= q < 10^n, for positive [q]. *)
Fixpoint small_exp (fuel : nat) (num den : Z) (j : Z) : Z :=
  match fuel with
  | O => 1 - j
  | S f => if den <=? num then 1 - j else small_exp f (10 * num) den (j + 1)
  end.

Definition dec_exp (q : Q) : Z :=
  let num := Qnum q in let den := Zpos (Qden q) in
  if den <=? num then slen (nat_string (num / den)) else small_exp 400 num den 0.

(** The shortest digit string that rounds back to [q]: (digits, exponent). *)
Fixpoint shortest (fuel : nat) (k : Z) (n : Z) (q : Q) : Z * Z * Z :=
  let x := (q * pow10 (k - n))%Q in
  let s0 := Qnum x / Zpos (Qden x) in
  let ok s := neq (decimal s (n - k)) (Fin q) in
  let pick s := if s =? 10 ^ k then (s / 10, k, n + 1) else (s, k, n) in
  match fuel with
  | O => pick s0
  | S f =>
      if ok s0 && ok (s0 + 1) then
        if Qle_bool (x - (s0 # 1)) ((s0 + 1 # 1) - x) then pick s0 else pick (s0 + 1)
      else if ok s0 then pick s0
      else if ok (s0 + 1) then pick (s0 + 1)
      else shortest f (k + 1) n q
  end.

Definition exp_string (e : Z) : string :=
  if e <? 0 then "e-" +:+ nat_string (- e) else "e+" +:+ nat_string e.

Definition pos_string (q : Q) : string :=
  let '(s, k, n) := shortest 17 1 (dec_exp q) q in
  let ds := nat_string s in
  let at_ := Z.to_nat n in
  if (k <=? n) && (n <=? 21) then ds +:+ srepeat (Z.to_nat (n - k)) "0"
  else if (0 <? n) && (n <=? 21) then String.substring 0 at_ ds +:+ "." +:+ String.substring at_ (String.length ds - at_) ds
  else if (-6 <? n) && (n <=? 0) then "0." +:+ srepeat (Z.to_nat (- n)) "0" +:+ ds
  else if k =? 1 then ds +:+ exp_string (n - 1)
  else String.substring 0 1 ds +:+ "." +:+ String.substring 1 (String.length ds - 1) ds +:+ exp_string (n - 1).

(** [String(n)]. *)
Definition string_of_number (n : number) : string :=
  match n with
  | NaN => "NaN"
  | Infinity true => "-Infinity"
  | Infinity false => "Infinity"
  | Fin q =>
      if Qnum q =? 0 then "0"
      else if Qnum q <? 0 then String "-" (pos_string (- q)) else pos_string q
  end.

(** [String(v)] of a dynamic value. *)
Definition to_str (v : jsval) : string :=
  match v with
  | Undefined => "undefined"
  | Null => "null"
  | VBool true => "true"
  | VBool false => "false"
  | VNum n => string_of_number n
  | VBig z => Z_string z
  | VStr s => s
  end.

(** [Number(v)] of a [string | number | bigint]. *)
Definition to_num (v : jsval) : number :=
  match v with
  | Undefined => NaN
  | Null => int 0
  | VBool b => int (if b then 1 else 0)
  | VNum n => n
  | VBig z => number_of_bigint z
  | VStr s => number_of_string s
  end.

(** [Array.prototype.sort] on strings compares code units. *)
Definition string_order (a b : string) : Z := match String.compare a b with Lt => -1 | Eq => 0 | Gt => 1 end.

(** Truthiness of an optional string: neither nullish nor empty. *)
Definition truthy (o : option string) : bool :=
  match o with Some s => negb (String.eqb s "") | None => false end.

(** [n.toFixed(2)] below 10^21: the larger of two nearest hundredths. *)
Definition fixed2_mag (q : Q) : string :=
  let h := Qfloor_half (q * (100 # 1)) in
  nat_string (h / 100) +:+ "." +:+ padStart 2 "0" (nat_string (h mod 100)).

Definition toFixed2 (n : number) : string :=
  match n with
  | Fin q =>
      if (10 ^ 21 * Zpos (Qden q) <=? Z.abs (Qnum q)) then string_of_number n
      else if Qnum q <? 0 then String "-" (fixed2_mag (- q)) else fixed2_mag q
  | _ => string_of_number n
  end.

(** ** Digit strings: printing then reading *)

Section Digits.
Lemma code_char n : 0 <= n < 256 -> code (char n) = n.
Proof.
  intros. unfold code, char. rewrite N_ascii_embedding; [lia|].
  enough (Z.of_N (Z.to_N n) < 256) by lia. lia.
Qed.

Lemma code_digit d : 0 <= d < 10 -> code (digit_char d) = 48 + d.
Proof. intros. unfold digit_char. rewrite code_char; lia. Qed.

Lemma is_digit_digit d : 0 <= d < 10 -> is_digit (digit_char d) = true.
Proof. intros. unfold is_digit. rewrite code_digit by done. lia. Qed.

Lemma digits_of_val fuel n acc : 0 <= n < 10 ^ Z.of_nat fuel ->
  dval 0 (digits_of fuel n acc) = dval n acc.
Proof.
  revert n acc; induction fuel as [|f IH]; intros n acc Hn.
  - change (10 ^ Z.of_nat 0) with 1 in Hn. replace n with 0 by lia. done.
  - assert (0 <= n mod 10 < 10) by (apply Z.mod_pos_bound; lia).
    cbn [digits_of]. destruct (Z.ltb_spec n 10).
    + cbn [dval]. rewrite code_digit by done. rewrite Z.mod_small by lia. f_equal; lia.
    + rewrite Nat2Z.inj_succ, Z.pow_succ_r in Hn by lia. rewrite IH.
      * cbn [dval]. rewrite code_digit by done. f_equal.
        pose proof (Z.div_mod n 10). lia.
      * split; [apply Z.div_pos; lia | apply Z.div_lt_upper_bound; lia].
Qed.

Lemma digits_of_digits fuel n acc : 0 <= n ->
  sall is_digit acc = true -> sall is_digit (digits_of fuel n acc) = true.
Proof.
  revert n acc; induction fuel as [|f IH]; intros n acc Hn Hacc; cbn [digits_of]; [done|].
  assert (0 <= n mod 10 < 10) by (apply Z.mod_pos_bound; lia).
  destruct (n <? 10); [|apply IH; [apply Z.div_pos; lia|]];
    cbn [sall]; by rewrite is_digit_digit, Hacc.
Qed.

Lemma digits_of_head fuel n acc : 0 < n < 10 ^ Z.of_nat fuel ->
  exists c s, digits_of fuel n acc = String c s /\ code c <> 48.
Proof.
  revert n acc; induction fuel as [|f IH]; intros n acc Hn.
  - change (10 ^ Z.of_nat 0) with 1 in Hn. lia.
  - cbn [digits_of]. destruct (Z.ltb_spec n 10).
    + eexists _, _; split; [done|]. rewrite code_digit; rewrite Z.mod_small; lia.
    + apply IH. rewrite Nat2Z.inj_succ, Z.pow_succ_r in Hn by lia.
      split; [apply Z.div_str_pos; lia | apply Z.div_lt_upper_bound; lia].
Qed.

Lemma nat_string_fuel n : 0 <= n -> n < 10 ^ Z.of_nat (S (Z.to_nat (Z.log2 n))).
Proof.
  intros Hn. pose proof (Z.log2_nonneg n). rewrite Nat2Z.inj_succ, Z2Nat.id by lia.
  destruct (Z.eq_dec n 0) as [->|]; [done|].
  eapply Z.lt_le_trans; [apply Z.log2_spec; lia|]. apply Z.pow_le_mono_l. lia.
Qed.

Lemma nat_string_val n : 0 <= n -> digits_val (nat_string n) = n.
Proof.
  intros. unfold digits_val, nat_string. rewrite digits_of_val; [done|].
  split; [done | by apply nat_string_fuel].
Qed.

Lemma nat_string_digits n : 0 <= n -> sall is_digit (nat_string n) = true.
Proof. intros. by apply digits_of_digits. Qed.

Lemma nat_string_canonical n : 0 <= n -> canonical_int (nat_string n) = true.
Proof.
  intros Hn. destruct (Z.eq_dec n 0) as [->|]; [done|]. unfold nat_string.
  destruct (digits_of_head (S (Z.to_nat (Z.log2 n))) n "") as (c & s & -> & Hc).
  { split; [lia | by apply nat_string_fuel]. }
  cbn. by rewrite (proj2 (Z.eqb_neq _ _)).
Qed.

Lemma sapp_cons c s t : String c s +:+ t = String c (s +:+ t).
Proof. done. Qed.

Lemma span_digits_app d c r : sall is_digit d = true -> is_digit c = false ->
  span_digits (d +:+ String c r) = (d, String c r).
Proof.
  intros Hd Hc. induction d as [|a d IH].
  - change ("" +:+ String c r) with (String c r). cbn [span_digits]. by rewrite Hc.
  - rewrite sapp_cons. cbn [span_digits sall] in *.
    apply andb_true_iff in Hd as [-> Hd]. by rewrite IH.
Qed.

Lemma span_digits_all d : sall is_digit d = true -> span_digits d = (d, "").
Proof.
  induction d as [|a d IH]; cbn [span_digits sall]; [done|].
  intros [-> Hd]%andb_true_iff. by rewrite IH.
Qed.

(** No white space at either end: trimming changes nothing. *)
Lemma ltrim_id s : sall (fun c => negb (is_ws c)) s = true -> ltrim s = s.
Proof. destruct s as [|c s]; cbn [ltrim sall]; [done|]. intros [H _]%andb_true_iff. by destruct (is_ws c). Qed.

Lemma rtrim_id s : sall (fun c => negb (is_ws c)) s = true -> rtrim s = s.
Proof.
  induction s as [|c s IH]; cbn [rtrim sall]; [done|]. intros [H Hs]%andb_true_iff.
  rewrite IH by done. apply negb_true_iff in H. rewrite H. by destruct s.
Qed.

Lemma trim_id s : sall (fun c => negb (is_ws c)) s = true -> trim s = s.
Proof. intros. unfold trim. by rewrite ltrim_id, rtrim_id by done. Qed.

Lemma sall_app p s t : sall p (s +:+ t) = sall p s && sall p t.
Proof. induction s as [|c s IH]; [done|]. rewrite sapp_cons. cbn [sall]. by rewrite IH, andb_assoc. Qed.

Lemma sall_impl (p q : ascii -> bool) s :
  (forall c, p c = true -> q c = true) -> sall p s = true -> sall q s = true.
Proof.
  intros Hpq. induction s as [|c s IH]; cbn [sall]; [done|].
  intros [H1 H2]%andb_true_iff. rewrite Hpq, IH; done.
Qed.

Lemma digit_not_ws c : is_digit c = true -> negb (is_ws c) = true.
Proof. unfold is_digit, is_ws. lia. Qed.

Lemma digit_not_minus c : is_digit c = true -> Ascii.eqb c "-" = false.
Proof. destruct (Ascii.eqb_spec c "-") as [->|]; [discriminate | done]. Qed.

Lemma dval_app a s t : dval a (s +:+ t) = dval (dval a s) t.
Proof. revert a; induction s; intros; [done|]. rewrite sapp_cons. cbn [dval]. auto. Qed.

Lemma dval_nonneg a s : 0 <= a -> sall is_digit s = true -> 0 <= dval a s.
Proof.
  revert a; induction s as [|c s IH]; intros a Ha; cbn [dval sall]; [done|].
  intros [Hc Hs]%andb_true_iff. apply IH; [|done]. unfold is_digit in Hc. lia.
Qed.

(** Printing is injective on the integers. *)
Lemma Z_string_inj a b : Z_string a = Z_string b -> a = b.
Proof.
  unfold Z_string. destruct (Z.ltb_spec a 0), (Z.ltb_spec b 0); intros H'.
  - injection H' as H'. apply (f_equal digits_val) in H'. rewrite !nat_string_val in H'; lia.
  - pose proof (nat_string_digits b ltac:(lia)) as Hd. by rewrite <- H' in Hd.
  - pose proof (nat_string_digits a ltac:(lia)) as Hd. by rewrite H' in Hd.
  - apply (f_equal digits_val) in H'. rewrite !nat_string_val in H'; lia.
Qed.

(** A digit string is determined by its length and value. *)
Lemma dval_bound a s : 0 <= a -> sall is_digit s = true ->
  a * 10 ^ slen s <= dval a s < (a + 1) * 10 ^ slen s.
Proof.
  unfold slen. revert a; induction s as [|c s IH]; intros a Ha.
  - intros _. cbn. lia.
  - cbn [sall dval String.length]. intros [Hc Hs]%andb_true_iff. unfold is_digit in Hc.
    specialize (IH (10 * a + (code c - 48)) ltac:(lia) Hs).
    rewrite Nat2Z.inj_succ, Z.pow_succ_r by lia.
    assert (0 < 10 ^ Z.of_nat (String.length s)) by (apply Z.pow_pos_nonneg; lia). nia.
Qed.

Lemma code_inj c d : code c = code d -> c = d.
Proof.
  unfold code. intros H. rewrite <- (ascii_N_embedding c), <- (ascii_N_embedding d). f_equal. lia.
Qed.

Lemma dval_inj a b s t : 0 <= a -> 0 <= b -> sall is_digit s = true -> sall is_digit t = true ->
  String.length s = String.length t -> dval a s = dval b t -> a = b /\ s = t.
Proof.
  revert a b t; induction s as [|c s IH]; intros a b [|d t] Ha Hb; cbn [sall String.length dval];
    try discriminate; [by intros|].
  intros [Hc Hs]%andb_true_iff [Hd Ht]%andb_true_iff [= Hl] Hv. unfold is_digit in Hc, Hd.
  destruct (IH (10 * a + (code c - 48)) (10 * b + (code d - 48)) t) as [He ->]; try done; try lia.
  split; [lia|]. f_equal. apply code_inj. lia.
Qed.

(** The length of a canonical digit string is fixed by its value. *)
Lemma canonical_bounds s : sall is_digit s = true -> canonical_int s = true -> s <> "0" ->
  10 ^ (slen s - 1) <= digits_val s < 10 ^ slen s.
Proof.
  destruct s as [|c s]; cbn [canonical_int]; [done|]. intros Hd Hc H0.
  pose proof (dval_bound 0 (String c s) ltac:(lia) Hd) as Hb.
  split; [|unfold digits_val; lia].
  cbn [sall] in Hd. apply andb_true_iff in Hd as [Hdc Hs]. unfold is_digit in Hdc.
  destruct (Z.eqb_spec (code c) 48) as [He|He].
  - apply String.eqb_eq in Hc as ->. destruct H0. f_equal. by apply code_inj.
  - unfold digits_val. cbn [dval].
    pose proof (dval_bound (10 * 0 + (code c - 48)) s ltac:(lia) Hs) as Hb'.
    replace (slen (String c s) - 1) with (slen s) by (unfold slen; cbn; lia).
    assert (0 < 10 ^ slen s) by (apply Z.pow_pos_nonneg; unfold slen; lia). nia.
Qed.

Lemma digits_val_pos s : sall is_digit s = true -> canonical_int s = true -> s <> "0" ->
  0 < digits_val s.
Proof.
  intros Hd Hc H0. pose proof (canonical_bounds s Hd Hc H0) as [Hlow _].
  enough (0 < 10 ^ (slen s - 1)) by lia. apply Z.pow_pos_nonneg; [lia|].
  destruct s; [done|]. unfold slen; cbn. lia.
Qed.

(** Canonical digit strings are exactly the printed integers. *)
Lemma canonical_inj s t : sall is_digit s = true -> canonical_int s = true ->
  sall is_digit t = true -> canonical_int t = true -> digits_val s = digits_val t -> s = t.
Proof.
  intros Hs Hcs Ht Hct Hv.
  destruct (decide (s = "0")) as [->|Hs0]; destruct (decide (t = "0")) as [->|Ht0]; [done|..].
  - pose proof (digits_val_pos t Ht Hct Ht0). rewrite <- Hv in *. by cbn in *.
  - pose proof (digits_val_pos s Hs Hcs Hs0). rewrite Hv in *. by cbn in *.
  - pose proof (canonical_bounds s Hs Hcs Hs0) as [H1 H2].
    pose proof (canonical_bounds t Ht Hct Ht0) as [H3 H4].
    assert (slen s = slen t).
    { assert (0 <= slen s /\ 0 <= slen t) by (unfold slen; lia).
      assert (slen s - 1 < slen t) by (apply (Z.pow_lt_mono_r_iff 10); lia).
      assert (slen t - 1 < slen s) by (apply (Z.pow_lt_mono_r_iff 10); lia). lia. }
    eapply (dval_inj 0 0); try done. unfold slen in *. lia.
Qed.

Lemma nat_string_of_digits s : sall is_digit s = true -> canonical_int s = true ->
  nat_string (digits_val s) = s.
Proof.
  intros Hd Hc. assert (0 <= digits_val s) by (by apply dval_nonneg).
  apply canonical_inj; try done;
    [by apply nat_string_digits | by apply nat_string_canonical | by apply nat_string_val].
Qed.

Lemma nat_string_bounds n : 0 < n -> 10 ^ (slen (nat_string n) - 1) <= n < 10 ^ slen (nat_string n).
Proof.
  intros Hn. pose proof (nat_string_val n ltac:(lia)) as Hv.
  pose proof (canonical_bounds (nat_string n)) as Hb. rewrite Hv in Hb. apply Hb.
  - apply nat_string_digits; lia.
  - apply nat_string_canonical; lia.
  - intros H0. rewrite H0 in Hv. change (digits_val "0") with 0 in Hv. lia.
Qed.
End Digits.

(** ** [Number] and [String] on whole numbers *)

Section WholeNumbers.
Lemma to_lower_digit c : is_digit c = true -> to_lower c = c.
Proof.
  unfold is_digit, to_lower. intros H.
  by replace ((65 <=? code c) && (code c <=? 90)) with false by lia.
Qed.

Lemma digit_neqb c d : is_digit c = true -> is_digit d = false -> Ascii.eqb c d = false.
Proof. intros Hc Hd. destruct (Ascii.eqb_spec c d) as [->|]; [congruence | done]. Qed.

Lemma digits_trim s : sall is_digit s = true -> trim s = s.
Proof. intros H. apply trim_id. eapply sall_impl; [apply digit_not_ws | done]. Qed.

(** [Number(s)] of a digit string is the correctly rounded integer. *)
Lemma number_of_digits s : sall is_digit s = true -> s <> "" ->
  number_of_string s = number_of_bigint (digits_val s).
Proof.
  intros Hd Hne. unfold number_of_string. rewrite digits_trim by done.
  assert (Hu : unsigned_decimal s = number_of_bigint (digits_val s)).
  { unfold unsigned_decimal. destruct (String.eqb_spec s "Infinity") as [->|]; [discriminate|].
    rewrite span_digits_all by done.
    replace (s +:+ "") with s by (clear; induction s; [done|]; rewrite sapp_cons; by f_equal).
    destruct (String.eqb_spec s ""); [done|]. cbn [exponent_part].
    unfold decimal, number_of_bigint. change (0 - slen "") with 0. unfold pow10. cbn.
    unfold Qmult. cbn [Qnum Qden]. by rewrite Z.mul_1_r. }
  destruct s as [|c s]; [done|]. cbn [sall] in Hd. apply andb_true_iff in Hd as [Hc Hd].
  assert (radix_prefix (String c s) = None) as ->.
  { destruct s as [|x s]; [done|]. cbn [sall] in Hd. apply andb_true_iff in Hd as [Hx _].
    cbn [radix_prefix]. rewrite (to_lower_digit x) by done.
    rewrite !(digit_neqb x) by done. by destruct (Ascii.eqb c "0"). }
  by rewrite !(digit_neqb c) by done.
Qed.

Lemma decimal_nonneg_exp s e : 0 <= e -> decimal s e = rnd (s * 10 ^ e # 1).
Proof.
  intros He. unfold decimal, pow10. rewrite (proj2 (Z.leb_le 0 e)) by done. done.
Qed.

(** A whole number other than [z] never rounds to the safe integer [z]. *)
Lemma rnd_neq_safe w z : 0 < z <= MAX_SAFE_INTEGER -> 0 <= w ->
  neq (rnd (w # 1)) (int z) = (w =? z).
Proof.
  unfold MAX_SAFE_INTEGER. intros Hz Hw. destruct (Z.le_gt_cases w (2 ^ 53)) as [Hle|Hgt].
  - rewrite rnd_int by lia. apply neq_int.
  - replace (w =? z) with false by lia. unfold rnd. cbn [Qnum Qden].
    destruct w as [|w|w]; [lia| |lia].
    destruct (rnd_mag_big (Zpos w)) as (m & -> & Hm); [lia|].
    destruct (Qle_bool _ _); [done|]. change (Fin (m # 1)) with (int m). rewrite neq_int. lia.
Qed.

Lemma shortest_int fuel k z : 0 < z <= MAX_SAFE_INTEGER ->
  let n := slen (nat_string z) in
  0 < k <= n -> n - k < Z.of_nat fuel ->
  exists s j, shortest fuel k n (z # 1) = (s, j, n) /\ 0 < j <= n /\ s * 10 ^ (n - j) = z /\ 0 < s.
Proof.
  intros Hz n. revert k; induction fuel as [|f IH]; intros k Hk Hf; [lia|].
  pose proof (nat_string_bounds z ltac:(lia)) as Hb. fold n in Hb.
  cbn [shortest]. set (j := n - k). set (x := ((z # 1) * pow10 (k - n))%Q).
  set (s0 := Qnum x / Zpos (Qden x)).
  assert (Hp : 0 < 10 ^ j) by (apply Z.pow_pos_nonneg; lia).
  assert (Hs0 : s0 = z / 10 ^ j).
  { unfold s0, x, pow10. destruct (Z.leb_spec 0 (k - n)).
    - replace j with 0 by lia. replace (k - n) with 0 by lia. cbn. by rewrite Z.mul_1_r.
    - cbn [Qmult Qnum Qden]. rewrite Z.mul_1_r, Pos.mul_1_l. replace (- (k - n)) with j by lia.
      by rewrite Z2Pos.id. }
  assert (Hs0n : 0 <= s0) by (rewrite Hs0; apply Z.div_pos; lia).
  rewrite !decimal_nonneg_exp by lia. change (Fin (z # 1)) with (int z). rewrite !rnd_neq_safe by nia.
  pose proof (Z.div_mod z (10 ^ j) ltac:(lia)) as Hdm. rewrite <- Hs0 in Hdm.
  pose proof (Z.mod_pos_bound z (10 ^ j) Hp) as Hmod.
  assert (Hnot : ((s0 + 1) * 10 ^ j =? z) = false) by nia. rewrite Hnot, andb_false_r.
  destruct (Z.eqb_spec (s0 * 10 ^ j) z) as [He|He].
  - assert (s0 < 10 ^ k).
    { assert (10 ^ n = 10 ^ k * 10 ^ j) by (rewrite <- Z.pow_add_r by lia; f_equal; lia). nia. }
    replace (s0 =? 10 ^ k) with false by lia.
    exists s0, k. repeat split; (done || lia || nia).
  - assert (k <> n).
    { intros ->. apply He. replace j with 0 in * by lia. change (10 ^ 0) with 1 in *.
      rewrite Z.mod_1_r in Hdm. lia. }
    apply IH; lia.
Qed.

Lemma srepeat_digits j : sall is_digit (srepeat j "0") = true.
Proof. by induction j. Qed.

Lemma dval_zeros a j : dval a (srepeat j "0") = a * 10 ^ Z.of_nat j.
Proof.
  revert a; induction j as [|j IH]; intros a; cbn [srepeat dval]; [cbn; lia|].
  rewrite IH, Nat2Z.inj_succ, Z.pow_succ_r by lia. change (code "0" - 48) with 0. lia.
Qed.

Lemma canonical_app s t : s <> "0" -> canonical_int s = true -> canonical_int (s +:+ t) = true.
Proof.
  destruct s as [|c s]; [done|]. rewrite sapp_cons. cbn [canonical_int]. intros H0.
  destruct (Z.eqb_spec (code c) 48) as [He|]; [|done]. intros ->%String.eqb_eq.
  destruct H0. f_equal. by apply code_inj.
Qed.

(** [String(n)] of a safe integer is its decimal notation. *)
Lemma string_of_int z : 0 <= z <= MAX_SAFE_INTEGER -> string_of_number (int z) = nat_string z.
Proof.
  intros Hz. unfold string_of_number, int. cbn [Qnum]. destruct (Z.eqb_spec z 0) as [->|]; [done|].
  replace (z <? 0) with false by lia. unfold pos_string.
  assert (Hdec : dec_exp (z # 1) = slen (nat_string z)).
  { unfold dec_exp. cbn [Qnum Qden]. replace (1 <=? z) with true by lia. by rewrite Z.div_1_r. }
  pose proof (nat_string_bounds z ltac:(lia)) as Hb.
  assert (Hlen : 0 < slen (nat_string z) <= 16).
  { split.
    - destruct (Z.le_gt_cases (slen (nat_string z)) 0) as [Hle|]; [|done].
      pose proof (Z.pow_le_mono_r 10 _ _ ltac:(lia) Hle). change (10 ^ 0) with 1 in *. lia.
    - enough (slen (nat_string z) - 1 < 16) by lia. apply (Z.pow_lt_mono_r_iff 10); [lia..|].
      unfold MAX_SAFE_INTEGER in Hz. assert (2 ^ 53 < 10 ^ 16) by reflexivity. lia. }
  rewrite Hdec. destruct (shortest_int 17 1 z) as (s & j & -> & Hj & Hs & Hpos); [lia..|].
  replace ((j <=? slen (nat_string z)) && (slen (nat_string z) <=? 21)) with true by lia.
  assert (nat_string s <> "0").
  { intros H0. apply (f_equal digits_val) in H0. rewrite nat_string_val in H0 by lia.
    change (digits_val "0") with 0 in H0. lia. }
  apply canonical_inj.
  - rewrite sall_app, nat_string_digits, srepeat_digits by lia. done.
  - apply canonical_app; [done|]. apply nat_string_canonical; lia.
  - apply nat_string_digits; lia.
  - apply nat_string_canonical; lia.
  - unfold digits_val. rewrite dval_app, dval_zeros. fold (digits_val (nat_string s)).
    fold (digits_val (nat_string z)). rewrite !nat_string_val by lia. rewrite Z2Nat.id by lia. done.
Qed.
End WholeNumbers.

(** Four digits of a fraction, padded with zeros. *)
Definition pad4 (f : Z) : string := padStart 4 "0" (Z_string f).

Lemma pad4_spec f : 0 <= f < 10000 ->
  sall is_digit (pad4 f) = true /\ String.length (pad4 f) = 4%nat /\ digits_val (pad4 f) = f.
Proof.
  intros Hf.
  pose (p := fun z => sall is_digit (pad4 z) && (String.length (pad4 z) =? 4)%nat
                      && (digits_val (pad4 z) =? z)).
  assert (Hp : p f = true) by (apply (forall_below (100 * 100)); [vm_compute; reflexivity | done]).
  unfold p in Hp. apply andb_true_iff in Hp as [[H1 H2%Nat.eqb_eq]%andb_true_iff H3%Z.eqb_eq].
  done.
Qed.
