(* ===== verification/InventoryDomain.v ===== *)
(** * Inventory domain layer (apps/inventory/src/domain/inventory-domain.ts)

    Exact decimal quantities (milli-units) and whole-VND money as bigints, the
    weighted-average cost computations, the [StockBalanceAggregate] with its
    reserve / release / commit / receive / deduct operations, the merge-and-sort
    of stock lines, and the lifecycle policies of receipts, transfers,
    stocktakes and purchase orders. *)

From S2P Require Import Prelude JsNumber JsString.
From Stdlib Require Import Ascii.

Open Scope Z_scope.

Inductive InventoryDomainErrorCode :=
| WAREHOUSE_NOT_FOUND | WAREHOUSE_INACTIVE | WAREHOUSE_CODE_CONFLICT
| WAREHOUSE_HAS_PENDING_OPERATIONS | WAREHOUSE_BRANCH_INVALID | WAREHOUSE_BRANCH_LOCKED
| WAREHOUSE_IS_DEFAULT | WAREHOUSE_NOT_IN_BRANCH | BRANCH_HAS_NO_WAREHOUSE
| BRANCH_NOT_FOUND | BRANCH_NOT_ACTIVE | SKU_NOT_FOUND | SKU_NOT_SELLABLE
| STOCK_BALANCE_NOT_FOUND | INSUFFICIENT_STOCK | RESERVATION_NOT_FOUND
| RESERVATION_EXPIRED | RESERVATION_ALREADY_COMMITTED | RESERVATION_STATE_CONFLICT
| IDEMPOTENCY_CONFLICT | MISSING_IDEMPOTENCY_KEY | INVALID_QUANTITY
| INVALID_MONEY_AMOUNT | INVALID_UNIT_CONVERSION | STOCK_RECEIPT_NOT_FOUND
| STOCK_RECEIPT_ALREADY_POSTED | STOCK_RECEIPT_INVALID_STATE | STOCK_ISSUE_NOT_FOUND
| STOCK_ISSUE_ALREADY_POSTED | STOCK_ISSUE_INVALID_STATE | TRANSFER_NOT_FOUND
| TRANSFER_SAME_WAREHOUSE | TRANSFER_INVALID_STATE | TRANSFER_QUANTITY_MISMATCH
| TRANSFER_DUPLICATE_SKU | TRANSFER_QUARANTINE_NOT_ALLOWED | STOCKTAKE_NOT_FOUND
| STOCKTAKE_INVALID_STATE | STOCKTAKE_STALE_SNAPSHOT | STOCKTAKE_BELOW_RESERVED
| SUPPLIER_NOT_FOUND | SUPPLIER_CODE_CONFLICT | SUPPLIER_INACTIVE
| PURCHASE_ORDER_NOT_FOUND | PURCHASE_ORDER_CODE_CONFLICT | PURCHASE_ORDER_INVALID_STATE
| OVER_RECEIPT_NOT_ALLOWED | EXPORT_TOO_LARGE | SUPPLIER_IN_USE
| CROSS_TENANT_ACCESS_DENIED | PERMISSION_DENIED.

#[export] Instance InventoryDomainErrorCode_eq_dec : EqDecision InventoryDomainErrorCode.
Proof. solve_decision. Defined.

Abbreviation res := (result InventoryDomainErrorCode).
Abbreviation throw c st := (Throw (DomainError c st)).

Definition QTY_SCALE : Z := 1000.
Definition FACTOR_SCALE : Z := 10000.

(** ** Codes *)

(** [.replace(/\s+/g, '-')]: each run of white space becomes one dash. *)
Fixpoint ws_to_dash (in_run : bool) (s : string) : string :=
  match s with
  | "" => ""
  | String c s =>
      if is_ws c then (if in_run then ws_to_dash true s else String "-" (ws_to_dash true s))
      else String c (ws_to_dash false s)
  end.

Definition alnum_upper (c : ascii) : bool := is_upper c || is_digit c.

Definition code_char_ok (c : ascii) : bool :=
  alnum_upper c || Ascii.eqb c "." || Ascii.eqb c "_" || Ascii.eqb c "/" || Ascii.eqb c "-".

Definition normalizeInventoryCode (input : string) : res string :=
  let cleaned := ws_to_dash false (toUpperCase (trim input)) in
  match cleaned with
  | String c r =>
      if alnum_upper c && sall code_char_ok r && (slen r <=? 63) then Ok cleaned
      else throw INVALID_QUANTITY 400
  | "" => throw INVALID_QUANTITY 400
  end.

(** ** Quantities *)

(** The match of [(-?)(0|[1-9]\d* )(?:\.(\d{1,k}))?] on the whole string:
    sign, integer digits and fraction digits. *)
Definition match_decimal (k : nat) (s : string) : option (bool * string * string) :=
  let (neg, body) := match s with
    | String c r => if Ascii.eqb c "-" then (true, r) else (false, s)
    | "" => (false, s) end in
  let (d, r) := span_digits body in
  if canonical_int d then
    match fraction k r with Some f => Some (neg, d, f) | None => None end
  else None.

Definition parseQtyToMilli (value : jsval) (allowZero allowNegative : bool) : res Z :=
  match match_decimal 3 (trim (to_str value)) with
  | None => throw INVALID_QUANTITY 400
  | Some (neg, ds, fs) =>
      let sign := if (neg : bool) then -1 else 1 in
      let whole := digits_val ds in
      let frac := digits_val (padEnd 3 "0" fs) in
      let milli := sign * (whole * QTY_SCALE + frac) in
      if negb allowNegative && (milli <? 0) then throw INVALID_QUANTITY 400
      else if negb allowZero && (milli =? 0) then throw INVALID_QUANTITY 400
      else Ok milli
  end.

Definition formatMilliToQty (milli : Z) : string :=
  let negative := milli <? 0 in
  let abs := if negative then - milli else milli in
  let whole := Z.quot abs QTY_SCALE in
  let frac := padStart 3 "0" (Z_string (Z.rem abs QTY_SCALE)) in
  (if negative then "-" else "") +:+ Z_string whole +:+ "." +:+ frac.

(** ** Money *)

Definition is_empty_value (v : jsval) : bool :=
  match v with Undefined | Null => true | VStr s => String.eqb s "" | _ => false end.

Definition parseMoneyToVnd (value : jsval) : res Z :=
  if is_empty_value value then Ok 0
  else match value with
       | VBig z => if z <? 0 then throw INVALID_MONEY_AMOUNT 400 else Ok z
       | _ =>
           let str := trim (to_str value) in
           if negb (sall is_digit str && canonical_int str)
              || negb (isSafeInteger (number_of_string str))
           then throw INVALID_MONEY_AMOUNT 400
           else Ok (digits_val str)
       end.

Definition vndToNumber (vnd : Z) : res number :=
  let n := number_of_bigint vnd in
  if isSafeInteger n then Ok n else throw INVALID_MONEY_AMOUNT 400.

(** ** Unit conversion *)

Definition match_factor (s : string) : option (string * string) :=
  let (d, r) := span_digits s in
  if canonical_int d then
    match fraction 4 r with Some f => Some (d, f) | None => None end
  else None.

Definition parseConversionFactorToTenThousandths (value : jsval) : res Z :=
  if is_empty_value value then Ok FACTOR_SCALE
  else match match_factor (trim (to_str value)) with
       | None => throw INVALID_UNIT_CONVERSION 400
       | Some (ds, fs) =>
           let whole := digits_val ds in
           let frac := digits_val (padEnd 4 "0" fs) in
           let factor := whole * FACTOR_SCALE + frac in
           if factor <=? 0 then throw INVALID_UNIT_CONVERSION 400 else Ok factor
       end.

Definition formatFactorFromTenThousandths (factor : Z) : string :=
  let whole := Z.quot factor FACTOR_SCALE in
  let frac := padStart 4 "0" (Z_string (Z.rem factor FACTOR_SCALE)) in
  Z_string whole +:+ "." +:+ frac.

Definition convertToBaseQtyMilli (qtyInput conversionFactor : jsval) : res Z :=
  rawMilli ← parseQtyToMilli qtyInput false false;
  factor ← parseConversionFactorToTenThousandths conversionFactor;
  let converted := Z.quot (rawMilli * factor + Z.quot FACTOR_SCALE 2) FACTOR_SCALE in
  if converted <=? 0 then throw INVALID_UNIT_CONVERSION 400 else Ok converted.

(** ** Valuation *)

Record WeightedAverageCostResult := {
  newOnHandMilli : Z;
  newAvgCostVnd : Z;
  newValuationVnd : Z;
  newOnHandQty : string;
  newAvgUnitCost : number;
  newValuationAmount : number }.

Definition computeWeightedAverageCostOnReceipt
    (currentOnHandQty currentAvgUnitCost receivedBaseQty receivedUnitCost : jsval)
    : res WeightedAverageCostResult :=
  oldQtyMilli ← parseQtyToMilli currentOnHandQty true false;
  oldAvgVnd ← parseMoneyToVnd currentAvgUnitCost;
  addQtyMilli ← parseQtyToMilli receivedBaseQty false false;
  addCostVnd ← parseMoneyToVnd receivedUnitCost;
  let onHand := oldQtyMilli + addQtyMilli in
  let totalWeighted := oldQtyMilli * oldAvgVnd + addQtyMilli * addCostVnd in
  avgCost ← bdiv (totalWeighted + Z.quot onHand 2) onHand;
  let valuation := Z.quot (onHand * avgCost + Z.quot QTY_SCALE 2) QTY_SCALE in
  avgNumber ← vndToNumber avgCost;
  valuationNumber ← vndToNumber valuation;
  Ok {| newOnHandMilli := onHand; newAvgCostVnd := avgCost; newValuationVnd := valuation;
        newOnHandQty := formatMilliToQty onHand;
        newAvgUnitCost := avgNumber; newValuationAmount := valuationNumber |}.

Definition computeValuationAfterDeduction
    (currentOnHandQty currentAvgUnitCost deductedBaseQty : jsval)
    : res WeightedAverageCostResult :=
  oldQtyMilli ← parseQtyToMilli currentOnHandQty true false;
  avgVnd ← parseMoneyToVnd currentAvgUnitCost;
  deductMilli ← parseQtyToMilli deductedBaseQty false false;
  if oldQtyMilli <? deductMilli then throw INSUFFICIENT_STOCK 409
  else
    let onHand := oldQtyMilli - deductMilli in
    let valuation :=
      if onHand =? 0 then 0 else Z.quot (onHand * avgVnd + Z.quot QTY_SCALE 2) QTY_SCALE in
    avgNumber ← vndToNumber avgVnd;
    valuationNumber ← vndToNumber valuation;
    Ok {| newOnHandMilli := onHand; newAvgCostVnd := avgVnd; newValuationVnd := valuation;
          newOnHandQty := formatMilliToQty onHand;
          newAvgUnitCost := avgNumber; newValuationAmount := valuationNumber |}.

(** ** Merging and sorting stock lines *)

Record StockLineInput := { in_warehouseId : string; in_skuId : string; in_qty : jsval }.

Record MergedLine := { m_warehouseId : string; m_skuId : string; m_qtyMilli : Z }.

Record NormalizedSkuQtyLine := {
  n_warehouseId : string; n_skuId : string; n_qtyMilli : Z; n_qty : string }.

Section Lines.
(** [String.prototype.localeCompare], implemented by the ICU library. *)
Context (localeCompare : string -> string -> Z).

Definition line_key (wh sku : string) : string := wh +:+ ":" +:+ sku.

Definition merge_line (m : list (string * MergedLine)) (line : StockLineInput)
    : res (list (string * MergedLine)) :=
  qtyMilli ← parseQtyToMilli (in_qty line) false false;
  let key := line_key (in_warehouseId line) (in_skuId line) in
  match mget key m with
  | Some e =>
      Ok (mset key {| m_warehouseId := m_warehouseId e; m_skuId := m_skuId e;
                      m_qtyMilli := m_qtyMilli e + qtyMilli |} m)
  | None =>
      Ok (mset key {| m_warehouseId := in_warehouseId line; m_skuId := in_skuId line;
                      m_qtyMilli := qtyMilli |} m)
  end.

Definition compare_lines (a b : MergedLine) : Z :=
  let w := localeCompare (m_warehouseId a) (m_warehouseId b) in
  if negb (w =? 0) then w else localeCompare (m_skuId a) (m_skuId b).

Definition finish_line (item : MergedLine) : NormalizedSkuQtyLine :=
  {| n_warehouseId := m_warehouseId item; n_skuId := m_skuId item;
     n_qtyMilli := m_qtyMilli item; n_qty := formatMilliToQty (m_qtyMilli item) |}.

Definition normalizeAndSortWarehouseLines (lines : list StockLineInput)
    : res (list NormalizedSkuQtyLine) :=
  match lines with
  | [] => throw INVALID_QUANTITY 400
  | _ =>
      m ← foldM merge_line [] lines;
      Ok (map finish_line (sort_by compare_lines m.*2))
  end.
End Lines.

(** ** Value objects *)

(** [InventoryQuantity] is its milli-units, [InventoryMoney] its VND. *)
Record InventoryQuantity := { milli : Z }.

Definition InventoryQuantity_of (raw : jsval) (allowZero allowNegative : bool) : res InventoryQuantity :=
  m ← parseQtyToMilli raw allowZero allowNegative; Ok {| milli := m |}.

Definition InventoryQuantity_zero : InventoryQuantity := {| milli := 0 |}.

Definition InventoryQuantity_add (a b : InventoryQuantity) : InventoryQuantity :=
  {| milli := milli a + milli b |}.

Definition InventoryQuantity_subtract (a b : InventoryQuantity) (allowNegative : bool)
    : res InventoryQuantity :=
  let r := milli a - milli b in
  if negb allowNegative && (r <? 0) then throw INSUFFICIENT_STOCK 409 else Ok {| milli := r |}.

Definition InventoryQuantity_equals (a b : InventoryQuantity) : bool := milli a =? milli b.

Definition InventoryQuantity_toString (a : InventoryQuantity) : string := formatMilliToQty (milli a).

Record InventoryMoney := { vnd : Z }.

Definition InventoryMoney_of (raw : jsval) : res InventoryMoney :=
  v ← parseMoneyToVnd raw; Ok {| vnd := v |}.

Definition InventoryMoney_toNumber (m : InventoryMoney) : res number := vndToNumber (vnd m).

Definition InventoryMoney_toString (m : InventoryMoney) : string := Z_string (vnd m).

(** ** StockBalanceAggregate *)

Record StockBalanceAggregate := {
  warehouseId : string;
  skuId : string;
  onHandMilli : Z;
  reservedMilli : Z;
  avgUnitCostVnd : Z;
  version : Z }.

(** The constructor: [avgUnitCost ?? 0], [version ?? 1]. *)
Definition new_StockBalanceAggregate (wh sku : string) (onHandQty reservedQty avgUnitCost : jsval)
    (ver : option Z) : res StockBalanceAggregate :=
  oh ← parseQtyToMilli onHandQty true false;
  rs ← parseQtyToMilli reservedQty true false;
  avg ← parseMoneyToVnd (if is_nullish avgUnitCost then VNum (int 0) else avgUnitCost);
  Ok {| warehouseId := wh; skuId := sku; onHandMilli := oh; reservedMilli := rs;
        avgUnitCostVnd := avg; version := default 1 ver |}.

Definition onHandQty (b : StockBalanceAggregate) : string := formatMilliToQty (onHandMilli b).
Definition reservedQty (b : StockBalanceAggregate) : string := formatMilliToQty (reservedMilli b).
Definition availableMilli (b : StockBalanceAggregate) : Z := onHandMilli b - reservedMilli b.
Definition availableQty (b : StockBalanceAggregate) : string := formatMilliToQty (availableMilli b).
Definition avgUnitCost (b : StockBalanceAggregate) : res number := vndToNumber (avgUnitCostVnd b).

Definition valuationAmount (b : StockBalanceAggregate) : res number :=
  if onHandMilli b <=? 0 then Ok (int 0)
  else vndToNumber (Z.quot (onHandMilli b * avgUnitCostVnd b + Z.quot QTY_SCALE 2) QTY_SCALE).

Definition canSatisfy (b : StockBalanceAggregate) (requestedQty : jsval) : res bool :=
  req ← parseQtyToMilli requestedQty false false;
  Ok (req <=? availableMilli b).

(** Field updates of a mutating method: each bumps the version. *)
Definition with_stock (b : StockBalanceAggregate) (oh rs avg : Z) : StockBalanceAggregate :=
  {| warehouseId := warehouseId b; skuId := skuId b; onHandMilli := oh; reservedMilli := rs;
     avgUnitCostVnd := avg; version := version b + 1 |}.

Definition reserve (b : StockBalanceAggregate) (requestedQty : jsval) : res StockBalanceAggregate :=
  req ← parseQtyToMilli requestedQty false false;
  if availableMilli b <? req then throw INSUFFICIENT_STOCK 409
  else Ok (with_stock b (onHandMilli b) (reservedMilli b + req) (avgUnitCostVnd b)).

Definition release (b : StockBalanceAggregate) (releasedQty : jsval) : res StockBalanceAggregate :=
  rel ← parseQtyToMilli releasedQty false false;
  if reservedMilli b <? rel then throw RESERVATION_STATE_CONFLICT 409
  else Ok (with_stock b (onHandMilli b) (reservedMilli b - rel) (avgUnitCostVnd b)).

Definition commitReservation (b : StockBalanceAggregate) (committedQty : jsval)
    : res (StockBalanceAggregate * WeightedAverageCostResult) :=
  commit ← parseQtyToMilli committedQty false false;
  if (reservedMilli b <? commit) || (onHandMilli b <? commit) then throw INSUFFICIENT_STOCK 409
  else
    avg ← avgUnitCost b;
    valuation ← computeValuationAfterDeduction (VStr (onHandQty b)) (VNum avg)
                  (VStr (formatMilliToQty commit));
    Ok (with_stock b (newOnHandMilli valuation) (reservedMilli b - commit) (avgUnitCostVnd b),
        valuation).

Definition receive (b : StockBalanceAggregate) (receivedBaseQty receivedUnitCost : jsval)
    : res (StockBalanceAggregate * WeightedAverageCostResult) :=
  avg ← avgUnitCost b;
  result ← computeWeightedAverageCostOnReceipt (VStr (onHandQty b)) (VNum avg)
             receivedBaseQty receivedUnitCost;
  Ok (with_stock b (newOnHandMilli result) (reservedMilli b) (newAvgCostVnd result), result).

Definition deductAvailable (b : StockBalanceAggregate) (deductedBaseQty : jsval)
    : res (StockBalanceAggregate * WeightedAverageCostResult) :=
  deduct ← parseQtyToMilli deductedBaseQty false false;
  if availableMilli b <? deduct then throw INSUFFICIENT_STOCK 409
  else
    avg ← avgUnitCost b;
    valuation ← computeValuationAfterDeduction (VStr (onHandQty b)) (VNum avg)
                  (VStr (formatMilliToQty deduct));
    Ok (with_stock b (newOnHandMilli valuation) (reservedMilli b) (avgUnitCostVnd b), valuation).

(** ** Lifecycle policies *)

Inductive PostDecision := PROCEED | IDEMPOTENT_REPLAY.

Definition evaluateStockReceiptPostTransition (currentStatus : string)
    (storedIdempotencyKey incomingIdempotencyKey : option string) : res PostDecision :=
  if String.eqb currentStatus "POSTED" then
    match incomingIdempotencyKey, storedIdempotencyKey with
    | Some i, Some s =>
        if negb (String.eqb i "") && negb (String.eqb s "") && String.eqb s (trim i)
        then Ok IDEMPOTENT_REPLAY else throw STOCK_RECEIPT_ALREADY_POSTED 409
    | _, _ => throw STOCK_RECEIPT_ALREADY_POSTED 409
    end
  else if negb (String.eqb currentStatus "DRAFT") && negb (String.eqb currentStatus "PENDING_APPROVAL")
  then throw STOCK_RECEIPT_INVALID_STATE 409
  else Ok PROCEED.

Definition assertValidStockTransferWarehouses (fromWarehouseId toWarehouseId : string) : res unit :=
  if String.eqb fromWarehouseId toWarehouseId then throw TRANSFER_SAME_WAREHOUSE 400 else Ok tt.

Definition TRANSFER_OVERDUE_DAYS : Z := 7.

Definition includes (l : list string) (s : string) : bool := existsb (String.eqb s) l.

Definition OPEN_IN_TRANSIT_STATUSES : list string := ["DISPATCHED"; "PARTIALLY_RECEIVED"].

(** [dispatchedAt] and [now] as [getTime()] milliseconds. *)
Definition transferDaysOpen (status : string) (dispatchedAt : option Z) (now : Z) : option Z :=
  match dispatchedAt with
  | Some at_ =>
      if negb (includes OPEN_IN_TRANSIT_STATUSES status) then None
      else Some (Z.max 0 ((now - at_) / 86400000))
  | None => None
  end.

Definition isTransferOverdue (daysOpen : option Z) : bool :=
  match daysOpen with Some d => TRANSFER_OVERDUE_DAYS <=? d | None => false end.

Definition assertCanCancelStockTransfer (currentStatus : string) : res unit :=
  if negb (includes ("DRAFT" :: OPEN_IN_TRANSIT_STATUSES) currentStatus)
  then throw TRANSFER_INVALID_STATE 409 else Ok tt.

Definition assertTransferKindsAllowed (fromKind toKind : string) (canApprove : bool) : res unit :=
  let touchesQuarantine := String.eqb fromKind "QUARANTINE" || String.eqb toKind "QUARANTINE" in
  if String.eqb fromKind "QUARANTINE" && negb (String.eqb toKind "BRANCH")
  then throw TRANSFER_QUARANTINE_NOT_ALLOWED 409
  else if touchesQuarantine && negb canApprove then throw PERMISSION_DENIED 403
  else Ok tt.

Definition assertCanDispatchStockTransfer (currentStatus : string) : res unit :=
  if negb (String.eqb currentStatus "DRAFT") then throw TRANSFER_INVALID_STATE 409 else Ok tt.

Record StocktakeApproval := { st_countedQty : string; st_deltaMilli : Z; st_deltaQty : string }.

Definition evaluateStocktakeApprovalLine (snapshotVersion currentVersion : jsval)
    (currentOnHandQty currentReservedQty countedQty : jsval) : res StocktakeApproval :=
  if negb (neq (to_num snapshotVersion) (to_num currentVersion)) then throw STOCKTAKE_STALE_SNAPSHOT 409
  else
    counted ← parseQtyToMilli countedQty true false;
    reserved ← parseQtyToMilli currentReservedQty true false;
    onHand ← parseQtyToMilli currentOnHandQty true false;
    if counted <? reserved then throw STOCKTAKE_BELOW_RESERVED 409
    else
      let delta := counted - onHand in
      Ok {| st_countedQty := formatMilliToQty counted; st_deltaMilli := delta;
            st_deltaQty := formatMilliToQty delta |}.

Record PurchaseReceipt := { newReceivedBaseQty : string; isFullyReceived : bool }.

Definition evaluatePurchaseOrderReceiptLine
    (orderedBaseQty alreadyReceivedBaseQty receivingNowBaseQty : jsval) : res PurchaseReceipt :=
  ordered ← parseQtyToMilli orderedBaseQty false false;
  prev ← parseQtyToMilli alreadyReceivedBaseQty true false;
  now ← parseQtyToMilli receivingNowBaseQty false false;
  let next := prev + now in
  if ordered <? next then throw OVER_RECEIPT_NOT_ALLOWED 409
  else Ok {| newReceivedBaseQty := formatMilliToQty next; isFullyReceived := next =? ordered |}.

(** * Properties *)

(** ** Reading and printing quantities *)

Section RoundTrip.
Definition pad3 (f : Z) : string := padStart 3 "0" (Z_string f).

Lemma pad3_spec f : 0 <= f < 1000 ->
  sall is_digit (pad3 f) = true /\ String.length (pad3 f) = 3%nat /\ digits_val (pad3 f) = f.
Proof.
  intros Hf.
  pose (p := fun z => sall is_digit (pad3 z) && (String.length (pad3 z) =? 3)%nat
                      && (digits_val (pad3 z) =? z)).
  assert (Hp : p f = true) by (apply (forall_below 1000); [vm_compute; reflexivity | done]).
  unfold p in Hp. apply andb_true_iff in Hp as [[H1 H2%Nat.eqb_eq]%andb_true_iff H3%Z.eqb_eq].
  done.
Qed.

Lemma padEnd_full n s : String.length s = n -> padEnd n "0" s = s.
Proof.
  intros <-. unfold padEnd. rewrite Nat.sub_diag. cbn.
  induction s as [|c s IH]; [done|]. rewrite sapp_cons. by f_equal.
Qed.

Lemma fraction_dot k f : sall is_digit f = true -> f <> "" -> (String.length f <= k)%nat ->
  fraction k (String "." f) = Some f.
Proof.
  intros Hd Hne Hl. unfold fraction. rewrite Hd.
  rewrite (proj2 (Nat.leb_le _ _)) by done. by destruct (String.eqb_spec f "").
Qed.

(** The printed form of a non-negative amount: digits, a dot, the padded fraction. *)
Lemma format_nonneg m : 0 <= m ->
  formatMilliToQty m = nat_string (m / 1000) +:+ String "." (pad3 (m mod 1000)).
Proof.
  intros Hm. unfold formatMilliToQty, QTY_SCALE. replace (m <? 0) with false by lia.
  rewrite Z.quot_div_nonneg, Z.rem_mod_nonneg by lia.
  assert (0 <= m / 1000) by (apply Z.div_pos; lia).
  unfold Z_string at 1. replace (m / 1000 <? 0) with false by lia. done.
Qed.

Lemma format_neg m : m < 0 -> formatMilliToQty m = String "-" (formatMilliToQty (- m)).
Proof.
  intros Hm. unfold formatMilliToQty. replace (m <? 0) with true by lia.
  by replace (- m <? 0) with false by lia.
Qed.

Lemma format_no_ws m : sall (fun c => negb (is_ws c)) (formatMilliToQty m) = true.
Proof.
  assert (Hpos : forall m, 0 <= m -> sall (fun c => negb (is_ws c)) (formatMilliToQty m) = true).
  { intros x Hx. rewrite format_nonneg by done. rewrite sall_app.
    assert (0 <= x / 1000) by (apply Z.div_pos; lia).
    rewrite (sall_impl is_digit); [|apply digit_not_ws | by apply nat_string_digits]. cbn [sall].
    rewrite (sall_impl is_digit); [done | apply digit_not_ws |].
    apply pad3_spec. apply Z.mod_pos_bound. lia. }
  destruct (Z.lt_ge_cases m 0); [|by apply Hpos].
  rewrite format_neg by done. cbn [sall]. by rewrite Hpos by lia.
Qed.

Lemma span_format m : 0 <= m ->
  span_digits (formatMilliToQty m) = (nat_string (m / 1000), String "." (pad3 (m mod 1000))).
Proof.
  intros Hm. rewrite format_nonneg by done. apply span_digits_app; [|done].
  apply nat_string_digits. apply Z.div_pos; lia.
Qed.

Lemma format_head m : 0 <= m ->
  exists c s, formatMilliToQty m = String c s /\ Ascii.eqb c "-" = false.
Proof.
  intros Hm. assert (0 <= m / 1000) by (apply Z.div_pos; lia). rewrite format_nonneg by done.
  pose proof (nat_string_digits (m / 1000) ltac:(done)) as Hd.
  pose proof (nat_string_canonical (m / 1000) ltac:(done)) as Hc.
  destruct (nat_string (m / 1000)) as [|c s]; [done|]. cbn [sall] in Hd.
  apply andb_true_iff in Hd as [Hc' _]. rewrite sapp_cons. eexists _, _; split; [done|].
  by apply digit_not_minus.
Qed.

Lemma match_format m : match_decimal 3 (formatMilliToQty m) =
  Some (m <? 0, nat_string (Z.abs m / 1000), pad3 (Z.abs m mod 1000)).
Proof.
  assert (Hbody : forall x, 0 <= x ->
    (let (d, r) := span_digits (formatMilliToQty x) in
     if canonical_int d then match fraction 3 r with Some f => Some (d, f) | None => None end else None)
    = Some (nat_string (x / 1000), pad3 (x mod 1000))).
  { intros x Hx. rewrite span_format by done.
    rewrite nat_string_canonical by (apply Z.div_pos; lia).
    destruct (pad3_spec (x mod 1000)) as (H1 & H2 & H3); [apply Z.mod_pos_bound; lia|].
    rewrite fraction_dot; [done | done | | lia]. by intros He; rewrite He in H2. }
  unfold match_decimal. destruct (Z.ltb_spec m 0).
  - rewrite format_neg by done. cbn [Ascii.eqb]. replace (Z.abs m) with (- m) by lia.
    specialize (Hbody (- m) ltac:(lia)). cbn. destruct (span_digits _) as [d r].
    destruct (canonical_int d); [|done]. destruct (fraction 3 r); [|done]. by injection Hbody as -> ->.
  - destruct (format_head m) as (c & s & Heq & Hc); [done|]. rewrite Heq, Hc, <- Heq.
    replace (Z.abs m) with m by lia. specialize (Hbody m ltac:(lia)).
    destruct (span_digits _) as [d r].
    destruct (canonical_int d); [|done]. destruct (fraction 3 r); [|done]. by injection Hbody as -> ->.
Qed.

(** The sign tests of [parseQtyToMilli]. *)
Definition sign_allowed (allowZero allowNegative : bool) (m : Z) : bool :=
  negb (negb allowNegative && (m <? 0)) && negb (negb allowZero && (m =? 0)).

Lemma parse_format m allowZero allowNegative :
  parseQtyToMilli (VStr (formatMilliToQty m)) allowZero allowNegative =
  if sign_allowed allowZero allowNegative m then Ok m else throw INVALID_QUANTITY 400.
Proof.
  unfold parseQtyToMilli, sign_allowed. cbn [to_str]. rewrite trim_id by apply format_no_ws.
  rewrite match_format.
  destruct (pad3_spec (Z.abs m mod 1000)) as (H1 & H2 & H3); [apply Z.mod_pos_bound; lia|].
  rewrite padEnd_full, H3, nat_string_val by (done || apply Z.div_pos; lia).
  pose proof (Z.div_mod (Z.abs m) 1000 ltac:(lia)) as Hdm.
  replace ((if m <? 0 then -1 else 1) * (Z.abs m / 1000 * QTY_SCALE + Z.abs m mod 1000)) with m
    by (unfold QTY_SCALE; destruct (Z.ltb_spec m 0); lia).
  by destruct (negb allowNegative && (m <? 0)), (negb allowZero && (m =? 0)).
Qed.

(** What a successful parse guarantees about the sign. *)
Lemma parse_sign v az an m : parseQtyToMilli v az an = Ok m ->
  (an = false -> 0 <= m) /\ (az = false -> m <> 0).
Proof.
  unfold parseQtyToMilli. destruct (match_decimal _ _) as [[[ng ds] fs]|]; [|discriminate].
  cbv zeta. intros H. run_ok H. split; intros ->; cbn in *; bool_prop; lia.
Qed.

Lemma parse_pos v m : parseQtyToMilli v false false = Ok m -> 0 < m.
Proof. intros [H1 H2]%parse_sign. specialize (H1 eq_refl). specialize (H2 eq_refl). lia. Qed.

Lemma parse_nonneg v az m : parseQtyToMilli v az false = Ok m -> 0 <= m.
Proof. intros [H1 _]%parse_sign. auto. Qed.

Lemma money_nonneg v m : parseMoneyToVnd v = Ok m -> 0 <= m.
Proof.
  unfold parseMoneyToVnd. destruct (is_empty_value v); [intros; by inv_ok|].
  destruct v; intros H; run_ok H; bool_prop; try lia; by apply dval_nonneg.
Qed.

Lemma vndToNumber_Ok z n : vndToNumber z = Ok n -> n = int z /\ Z.abs z <= MAX_SAFE_INTEGER.
Proof.
  unfold vndToNumber. rewrite number_of_bigint_isSafe. intros H. run_ok H. bool_prop.
  split; [by apply number_of_bigint_safe | done].
Qed.

Lemma vndToNumber_safe z : Z.abs z <= MAX_SAFE_INTEGER -> vndToNumber z = Ok (int z).
Proof.
  intros H. unfold vndToNumber. rewrite number_of_bigint_isSafe.
  rewrite (proj2 (Z.leb_le _ _)) by done. by rewrite number_of_bigint_safe.
Qed.

(** A safe whole number of VND passed back as a JS number reads as itself. *)
Lemma money_of_int z : 0 <= z <= MAX_SAFE_INTEGER -> parseMoneyToVnd (VNum (int z)) = Ok z.
Proof.
  intros Hz. unfold parseMoneyToVnd. cbn [is_empty_value to_str].
  rewrite string_of_int by done.
  pose proof (nat_string_digits z ltac:(lia)) as Hd.
  pose proof (nat_string_canonical z ltac:(lia)) as Hc.
  rewrite digits_trim, Hd, Hc, number_of_digits by (done || by intros H0; rewrite H0 in Hc).
  rewrite nat_string_val, number_of_bigint_isSafe by lia.
  by rewrite (proj2 (Z.leb_le _ _)) by lia.
Qed.
End RoundTrip.

(** C37.  Printing a milli-quantity and parsing it back is the identity, for
    every integer, and is refused exactly when the caller's sign policy
    ([allowZero], [allowNegative]) rules the value out. *)
Theorem parse_format_roundtrip (m : Z) (allowZero allowNegative : bool) :
  parseQtyToMilli (VStr (formatMilliToQty m)) allowZero allowNegative =
  if (allowNegative || (0 <=? m)) && (allowZero || negb (m =? 0))
  then Ok m else throw INVALID_QUANTITY 400.
Proof.
  rewrite parse_format. unfold sign_allowed.
  replace (0 <=? m) with (negb (m <? 0)) by lia.
  by destruct allowZero, allowNegative, (m <? 0), (m =? 0).
Qed.

(** ** The stock balance *)

(** Weighted-average cost on receipt, in terms of the parsed arguments. *)
Lemma receipt_inv v1 v2 v3 v4 r :
  computeWeightedAverageCostOnReceipt v1 v2 v3 v4 = Ok r ->
  exists oq oc aq ac,
    parseQtyToMilli v1 true false = Ok oq /\ parseMoneyToVnd v2 = Ok oc /\
    parseQtyToMilli v3 false false = Ok aq /\ parseMoneyToVnd v4 = Ok ac /\
    0 <= oq /\ 0 <= oc /\ 0 < aq /\ 0 <= ac /\
    newOnHandMilli r = oq + aq /\
    newAvgCostVnd r = half_up (oq * oc + aq * ac) (oq + aq) /\
    newValuationVnd r = half_up ((oq + aq) * newAvgCostVnd r) 1000 /\
    newOnHandQty r = formatMilliToQty (oq + aq) /\
    newAvgUnitCost r = int (newAvgCostVnd r) /\ newAvgCostVnd r <= MAX_SAFE_INTEGER /\
    newValuationAmount r = int (newValuationVnd r).
Proof.
  unfold computeWeightedAverageCostOnReceipt. intros H. inv_ok. unfold bdiv in *.
  case_if_in Ha3; [discriminate|]. inv_ok.
  pose proof (parse_nonneg _ _ _ Ha). pose proof (parse_pos _ _ Ha1).
  pose proof (money_nonneg _ _ Ha0). pose proof (money_nonneg _ _ Ha2).
  apply vndToNumber_Ok in Ha4 as [-> ?]. apply vndToNumber_Ok in Ha5 as [-> ?].
  exists a, a0, a1, a2. cbn. unfold half_up. repeat split; (done || lia).
Qed.

(** Valuation after a deduction, in terms of the parsed arguments. *)
Lemma deduction_inv v1 v2 v3 r :
  computeValuationAfterDeduction v1 v2 v3 = Ok r ->
  exists oq oc dq,
    parseQtyToMilli v1 true false = Ok oq /\ parseMoneyToVnd v2 = Ok oc /\
    parseQtyToMilli v3 false false = Ok dq /\ 0 < dq <= oq /\ 0 <= oc /\
    newOnHandMilli r = oq - dq /\ newAvgCostVnd r = oc /\
    newValuationVnd r = half_up ((oq - dq) * oc) 1000.
Proof.
  unfold computeValuationAfterDeduction. intros H. inv_ok. case_if_in H; [discriminate|]. inv_ok.
  bool_prop. pose proof (parse_pos _ _ Ha1). pose proof (money_nonneg _ _ Ha0).
  exists a, a0, a1. cbn. repeat split; (done || lia || idtac).
  destruct (Z.eqb_spec (a - a1) 0) as [->|]; done.
Qed.

(** The specification: the stock is a quantity on hand, a reserved quantity and a unit
    cost, and each action does one thing to it, by exactly its quantity. *)
Inductive stock_action := Reserves (q : Z) | Releases (q : Z) | Commits (q : Z) | Receives (q cost : Z) | Deducts (q : Z).

Inductive stock_step : stock_action -> Z * Z * Z -> Z * Z * Z -> Prop :=
| step_reserve oh rs c q : 0 < q -> rs + q <= oh -> stock_step (Reserves q) (oh, rs, c) (oh, rs + q, c)
| step_release oh rs c q : 0 < q -> q <= rs -> stock_step (Releases q) (oh, rs, c) (oh, rs - q, c)
| step_commit oh rs c q : 0 < q -> q <= rs -> stock_step (Commits q) (oh, rs, c) (oh - q, rs - q, c)
| step_receive oh rs c q k : 0 < q -> 0 <= k -> stock_step (Receives q k) (oh, rs, c) (oh + q, rs, half_up (oh * c + q * k) (oh + q))
| step_deduct oh rs c q : 0 < q -> q <= oh - rs -> stock_step (Deducts q) (oh, rs, c) (oh - q, rs, c).

Definition abstract_stock (b : StockBalanceAggregate) : Z * Z * Z := (onHandMilli b, reservedMilli b, avgUnitCostVnd b).

Definition stock_of (b : StockBalanceAggregate) : Z * Z := (onHandMilli b, reservedMilli b).

(** No overselling: what is reserved is on hand; the cost is a safe integer. *)
Definition balance_ok (b : StockBalanceAggregate) : Prop :=
  0 <= reservedMilli b <= onHandMilli b /\ 0 <= avgUnitCostVnd b <= MAX_SAFE_INTEGER.

(** The mutating methods of the aggregate as one operation type. *)
Inductive stock_op :=
| OpReserve (q : jsval) | OpRelease (q : jsval) | OpCommit (q : jsval)
| OpReceive (q cost : jsval) | OpDeduct (q : jsval).

Definition apply_op (b : StockBalanceAggregate) (op : stock_op) : res StockBalanceAggregate :=
  match op with
  | OpReserve q => reserve b q
  | OpRelease q => release b q
  | OpCommit q => fst <$> commitReservation b q
  | OpReceive q c => fst <$> receive b q c
  | OpDeduct q => fst <$> deductAvailable b q
  end.

Section Balance.
Lemma fmap_Ok {A B} (f : A -> B) (m : res A) b :
  (f <$> m) = Ok b -> exists a, m = Ok a /\ b = f a.
Proof. destruct m; cbn; [intros [= <-]; eauto | discriminate]. Qed.

Lemma reserve_Ok b v b' : reserve b v = Ok b' ->
  exists q, parseQtyToMilli v false false = Ok q /\ 0 < q <= availableMilli b /\
    b' = with_stock b (onHandMilli b) (reservedMilli b + q) (avgUnitCostVnd b).
Proof.
  unfold reserve. intros H. inv_ok. run_ok H. bool_prop. pose proof (parse_pos _ _ Ha).
  exists a. repeat split; (done || lia).
Qed.

Lemma release_Ok b v b' : release b v = Ok b' ->
  exists q, parseQtyToMilli v false false = Ok q /\ 0 < q <= reservedMilli b /\
    b' = with_stock b (onHandMilli b) (reservedMilli b - q) (avgUnitCostVnd b).
Proof.
  unfold release. intros H. inv_ok. run_ok H. bool_prop. pose proof (parse_pos _ _ Ha).
  exists a. repeat split; (done || lia).
Qed.

(** The valuation call of [commitReservation] and [deductAvailable] sees the
    balance's own quantity and cost: they go through text and come back. *)
Lemma own_deduction b avg q r : 0 <= onHandMilli b -> 0 <= avgUnitCostVnd b ->
  avgUnitCost b = Ok avg ->
  computeValuationAfterDeduction (VStr (onHandQty b)) (VNum avg) (VStr (formatMilliToQty q)) = Ok r ->
  newOnHandMilli r = onHandMilli b - q /\
  newValuationVnd r = half_up ((onHandMilli b - q) * avgUnitCostVnd b) 1000.
Proof.
  intros Hoh Havg [-> Hs]%vndToNumber_Ok (oq & oc & dq & H1 & H2 & H3 & H4 & H5 & H6 & H7 & H8)%deduction_inv.
  unfold onHandQty in H1. rewrite parse_format in H1. rewrite parse_format in H3.
  rewrite money_of_int in H2 by lia. run_ok H1. run_ok H3. inv_ok. done.
Qed.

Lemma commit_Ok b v b' r : 0 <= onHandMilli b -> 0 <= avgUnitCostVnd b ->
  commitReservation b v = Ok (b', r) ->
  exists q, parseQtyToMilli v false false = Ok q /\ 0 < q /\ q <= reservedMilli b /\ q <= onHandMilli b /\
    b' = with_stock b (onHandMilli b - q) (reservedMilli b - q) (avgUnitCostVnd b) /\
    newValuationVnd r = half_up ((onHandMilli b - q) * avgUnitCostVnd b) 1000.
Proof.
  intros Hoh Havg. unfold commitReservation. intros H. inv_ok. case_if_in H; [discriminate|]. inv_ok.
  bool_prop. pose proof (parse_pos _ _ Ha).
  destruct (own_deduction _ _ _ _ Hoh Havg Ha0 Ha1) as [Hn Hv].
  exists a. rewrite Hn. repeat split; (done || lia).
Qed.

Lemma deduct_Ok b v b' r : 0 <= onHandMilli b -> 0 <= avgUnitCostVnd b ->
  deductAvailable b v = Ok (b', r) ->
  exists q, parseQtyToMilli v false false = Ok q /\ 0 < q <= availableMilli b /\
    b' = with_stock b (onHandMilli b - q) (reservedMilli b) (avgUnitCostVnd b) /\
    newValuationVnd r = half_up ((onHandMilli b - q) * avgUnitCostVnd b) 1000.
Proof.
  intros Hoh Havg. unfold deductAvailable. intros H. inv_ok. case_if_in H; [discriminate|]. inv_ok.
  bool_prop. pose proof (parse_pos _ _ Ha).
  destruct (own_deduction _ _ _ _ Hoh Havg Ha0 Ha1) as [Hn Hv].
  exists a. rewrite Hn. repeat split; (done || lia).
Qed.

Lemma receive_Ok b v c b' r : 0 <= onHandMilli b -> 0 <= avgUnitCostVnd b ->
  receive b v c = Ok (b', r) ->
  exists q k, parseQtyToMilli v false false = Ok q /\ parseMoneyToVnd c = Ok k /\ 0 < q /\ 0 <= k /\
    newAvgCostVnd r = half_up (onHandMilli b * avgUnitCostVnd b + q * k) (onHandMilli b + q) /\
    0 <= newAvgCostVnd r <= MAX_SAFE_INTEGER /\
    b' = with_stock b (onHandMilli b + q) (reservedMilli b) (newAvgCostVnd r).
Proof.
  intros Hoh Havg. unfold receive. intros H. inv_ok.
  apply vndToNumber_Ok in Ha as [-> Hs].
  apply receipt_inv in Ha0 as (oq & oc & aq & ac & H1 & H2 & H3 & H4 & P1 & P2 & P3 & P4 &
    H5 & H6 & _ & _ & _ & H7 & _).
  unfold onHandQty in H1. rewrite parse_format in H1. run_ok H1. rewrite money_of_int in H2 by lia.
  inv_ok. exists aq, ac. rewrite H5, H6 in *.
  assert (0 <= half_up (onHandMilli b * avgUnitCostVnd b + aq * ac) (onHandMilli b + aq))
    by (apply half_up_nonneg; nia).
  repeat split; (done || lia).
Qed.

(** The action a request asks for: its quantity (and cost) as parsed. *)
Definition action_of (op : stock_op) : res stock_action :=
  match op with
  | OpReserve v => Reserves <$> parseQtyToMilli v false false
  | OpRelease v => Releases <$> parseQtyToMilli v false false
  | OpCommit v => Commits <$> parseQtyToMilli v false false
  | OpReceive v c => q ← parseQtyToMilli v false false; Receives q <$> parseMoneyToVnd c
  | OpDeduct v => Deducts <$> parseQtyToMilli v false false
  end.

(** One aggregate operation is the step of the abstract stock that it asks for. *)
Lemma apply_op_refines b op b' : balance_ok b -> apply_op b op = Ok b' ->
  (exists a, action_of op = Ok a /\ stock_step a (abstract_stock b) (abstract_stock b')) /\ version b' = version b + 1 /\
  0 <= avgUnitCostVnd b' <= MAX_SAFE_INTEGER.
Proof.
  intros [Hr Ha]. unfold abstract_stock. destruct op; cbn [apply_op action_of].
  - intros (q' & E & Hq & ->)%reserve_Ok. unfold availableMilli in Hq. rewrite E. cbn.
    split; [eexists; split; [done | apply step_reserve; lia] | lia].
  - intros (q' & E & Hq & ->)%release_Ok. rewrite E. cbn. split; [eexists; split; [done | apply step_release; lia] | lia].
  - intros ([b1 r] & H & ->)%fmap_Ok.
    apply commit_Ok in H as (q' & E & ? & ? & ? & -> & ?); [|lia..]. rewrite E.
    cbn. split; [eexists; split; [done | apply step_commit; lia] | lia].
  - intros ([b1 r] & H & ->)%fmap_Ok.
    apply receive_Ok in H as (q' & k & E & Ek & ? & ? & En & ? & ->); [|lia..]. rewrite E, bind_of_Ok, Ek.
    cbn. split; [eexists; split; [done | rewrite En; apply step_receive; lia] | lia].
  - intros ([b1 r] & H & ->)%fmap_Ok.
    apply deduct_Ok in H as (q' & E & Hq & -> & ?); [|lia..]. unfold availableMilli in Hq. rewrite E.
    cbn. split; [eexists; split; [done | apply step_deduct; lia] | lia].
Qed.

Lemma stock_step_safe a s s' : stock_step a s s' -> 0 <= s.1.2 <= s.1.1 -> 0 <= s'.1.2 <= s'.1.1.
Proof. destruct 1; cbn; lia. Qed.
End Balance.

(** A sequence of requests on one balance; a request that throws leaves it as it
    was (every method validates before it assigns). *)
Definition try_op (b : StockBalanceAggregate) (op : stock_op) : StockBalanceAggregate :=
  match apply_op b op with Ok b' => b' | Throw _ => b end.

Definition run_ops (b : StockBalanceAggregate) (ops : list stock_op) : StockBalanceAggregate :=
  foldl try_op b ops.

(** The change of the physical stock an operation makes on [b]. *)
Definition on_hand_delta (b : StockBalanceAggregate) (op : stock_op) : Z :=
  match apply_op b op, op with
  | Ok _, OpReceive q _ => match parseQtyToMilli q false false with Ok m => m | Throw _ => 0 end
  | Ok _, (OpCommit q | OpDeduct q) =>
      match parseQtyToMilli q false false with Ok m => - m | Throw _ => 0 end
  | _, _ => 0
  end.

Fixpoint total_delta (b : StockBalanceAggregate) (ops : list stock_op) : Z :=
  match ops with [] => 0 | op :: ops => on_hand_delta b op + total_delta (try_op b op) ops end.

Lemma try_op_ok b op : balance_ok b -> balance_ok (try_op b op) /\
  version b <= version (try_op b op) /\ onHandMilli (try_op b op) = onHandMilli b + on_hand_delta b op.
Proof.
  intros Hok. unfold try_op, on_hand_delta. destruct (apply_op b op) as [b'|] eqn:E; [|split; [done|lia]].
  pose proof Hok as [Hr Ha].
  destruct (apply_op_refines _ _ _ Hok E) as ((a & _ & Hs) & Hv & Havg).
  pose proof (stock_step_safe _ _ _ Hs ltac:(cbn; lia)) as Hsafe. cbn in Hsafe.
  split; [by split|]. split; [lia|].
  destruct op; cbn [apply_op] in E.
  - apply reserve_Ok in E as (? & ? & ? & ->). cbn. lia.
  - apply release_Ok in E as (? & ? & ? & ->). cbn. lia.
  - apply fmap_Ok in E as ([b1 r] & E & ->).
    apply commit_Ok in E as (x & Hx & ? & ? & ? & -> & ?); [|lia..]. rewrite Hx. cbn. lia.
  - apply fmap_Ok in E as ([b1 r] & E & ->).
    apply receive_Ok in E as (x & k & Hx & ? & ? & ? & ? & ? & ->); [|lia..]. rewrite Hx. cbn. lia.
  - apply fmap_Ok in E as ([b1 r] & E & ->).
    apply deduct_Ok in E as (x & Hx & ? & -> & ?); [|lia..]. rewrite Hx. cbn. lia.
Qed.

(** No overselling: from a balance whose reservations are covered, any
    sequence of reserve / release / commit / receive / deduct requests, whatever
    the quantities and including the rejected ones, leaves 0 <= reserved <= on
    hand, keeps the average cost a safe non-negative integer, never lowers the
    version, and moves the stock on hand by exactly what was received less what
    was committed and deducted. *)
Theorem stock_balance_never_oversold (b : StockBalanceAggregate) (ops : list stock_op) :
  balance_ok b ->
  balance_ok (run_ops b ops) /\ 0 <= availableMilli (run_ops b ops) /\
  version b <= version (run_ops b ops) /\
  onHandMilli (run_ops b ops) = onHandMilli b + total_delta b ops.
Proof.
  unfold run_ops. revert b. induction ops as [|op ops IH]; intros b Hok; cbn.
  - destruct Hok as [? ?]. unfold availableMilli. repeat split; lia.
  - destruct (try_op_ok b op Hok) as (Hok' & Hv & Hd). destruct (IH _ Hok') as (? & ? & ? & ?).
    repeat split; (apply H || lia).
Qed.

Definition demo_balance : StockBalanceAggregate :=
  {| warehouseId := "w1"; skuId := "s1"; onHandMilli := 10000; reservedMilli := 0;
     avgUnitCostVnd := 20000; version := 1 |}.

Definition demo_ops : list stock_op :=
  [OpReserve (VStr "4.500"); OpReserve (VNum (int 7)); OpCommit (VStr "2");
   OpReceive (VStr "5") (VNum (int 26000)); OpDeduct (VStr "9.25"); OpRelease (VStr "2.5")].

Lemma stock_balance_never_oversold_witness :
  stock_of (run_ops demo_balance demo_ops) = (3750, 0) /\ balance_ok (run_ops demo_balance demo_ops).
Proof.
  split; [vm_compute; reflexivity|].
  apply (stock_balance_never_oversold demo_balance demo_ops).
  vm_compute. repeat split; discriminate.
Defined.

(** C35.  Each operation of the aggregate refines the abstract stock: when it succeeds on
    a covered balance, its quantity (and cost) was read, and it did exactly the action it
    is named after, by exactly that quantity: reserve only what is free, release or commit
    only what is reserved, deduct only what is free, receive at the weighted average cost;
    and it raised the version by one.  An action the specification does not allow is
    refused. *)
Theorem stock_operation_refines_spec (b : StockBalanceAggregate) (op : stock_op) (b' : StockBalanceAggregate) :
  balance_ok b -> apply_op b op = Ok b' ->
  exists a, action_of op = Ok a /\ stock_step a (abstract_stock b) (abstract_stock b') /\ version b' = version b + 1.
Proof. intros H1 H2. destruct (apply_op_refines _ _ _ H1 H2) as ((a & ? & ?) & ? & _). by exists a. Qed.

Lemma stock_operation_refines_spec_witness :
  exists a, action_of (OpReserve (VStr "4.500")) = Ok a /\ stock_step a (10000, 0, 20000) (10000, 4500, 20000).
Proof.
  destruct (stock_operation_refines_spec demo_balance (OpReserve (VStr "4.500"))
    (with_stock demo_balance 10000 4500 20000)) as (a & Ha & Hs & _).
  - vm_compute. repeat split; discriminate.
  - vm_compute. reflexivity.
  - exists a. split; [exact Ha | exact Hs].
Defined.

(** C36.  Weighted-average cost on receipt: with the old and the received
    quantity and cost parsed as [oq], [oc], [aq], [ac], the result is a correctly
    rounded average (within half a VND per milli of the exact total), it lies
    between the two costs, and the valuation of the new stock is within half a
    VND plus the average's own rounding of the exact value. *)
Theorem weighted_average_cost_bounds (v1 v2 v3 v4 : jsval) (r : WeightedAverageCostResult) :
  computeWeightedAverageCostOnReceipt v1 v2 v3 v4 = Ok r ->
  exists oq oc aq ac,
    parseQtyToMilli v1 true false = Ok oq /\ parseMoneyToVnd v2 = Ok oc /\
    parseQtyToMilli v3 false false = Ok aq /\ parseMoneyToVnd v4 = Ok ac /\
    let total := oq * oc + aq * ac in
    let avg := newAvgCostVnd r in
    newOnHandMilli r = oq + aq /\
    2 * Z.abs ((oq + aq) * avg - total) <= oq + aq /\
    Z.min oc ac <= avg <= Z.max oc ac /\
    2 * Z.abs (1000 * newValuationVnd r - total) <= oq + aq + 1000 /\
    newAvgUnitCost r = int avg /\ newValuationAmount r = int (newValuationVnd r).
Proof.
  intros (oq & oc & aq & ac & H1 & H2 & H3 & H4 & P1 & P2 & P3 & P4 & Hn & Ha & Hv & _ & Hf & _ & Hg)%receipt_inv.
  exists oq, oc, aq, ac. repeat (split; [done|]). cbv zeta.
  assert (0 <= oq * oc + aq * ac) by nia.
  pose proof (half_up_bounds (oq * oc + aq * ac) (oq + aq) ltac:(lia) ltac:(lia)) as Hb.
  rewrite <- Ha in Hb.
  assert (0 <= newAvgCostVnd r) by (rewrite Ha; apply half_up_nonneg; lia).
  pose proof (half_up_bounds ((oq + aq) * newAvgCostVnd r) 1000 ltac:(nia) ltac:(lia)) as Hb2.
  rewrite <- Hv in Hb2.
  split; [lia|]. split; [|split; [lia|done]].
  rewrite Ha. split.
  - rewrite <- (half_up_exact (Z.min oc ac) (oq + aq)) at 1 by lia. apply half_up_mono; nia.
  - apply half_up_le; nia.
Qed.

Lemma weighted_average_cost_bounds_witness :
  exists r oq oc aq ac,
    computeWeightedAverageCostOnReceipt (VStr "10.000") (VNum (int 20000)) (VStr "5") (VNum (int 26000)) = Ok r /\
    (oq, oc, aq, ac) = (10000, 20000, 5000, 26000) /\ newAvgCostVnd r = 22000 /\
    Z.min oc ac <= newAvgCostVnd r <= Z.max oc ac.
Proof.
  eexists. assert (He : computeWeightedAverageCostOnReceipt (VStr "10.000") (VNum (int 20000))
    (VStr "5") (VNum (int 26000)) = Ok _) by (vm_compute; reflexivity).
  destruct (weighted_average_cost_bounds _ _ _ _ _ He) as (oq & oc & aq & ac & H1 & H2 & H3 & H4 & H).
  exists oq, oc, aq, ac. vm_compute in H1, H2, H3, H4.
  injection H1 as <-. injection H2 as <-. injection H3 as <-. injection H4 as <-.
  split; [exact He|]. split; [reflexivity|]. split; [reflexivity|]. exact (proj1 (proj2 (proj2 H))).
Defined.

(** ** Stock lines *)

Definition qty_of (v : jsval) : Z :=
  match parseQtyToMilli v false false with Ok q => q | Throw _ => 0 end.

Definition in_key (l : StockLineInput) : string := line_key (in_warehouseId l) (in_skuId l).
Definition out_key (l : NormalizedSkuQtyLine) : string := line_key (n_warehouseId l) (n_skuId l).

(** The quantity requested under one key. *)
Definition key_total (k : string) (ls : list StockLineInput) : Z :=
  sumZ (map (fun l => if String.eqb (in_key l) k then qty_of (in_qty l) else 0) ls).

Definition merged_ok (ls : list StockLineInput) (m : list (string * MergedLine)) : Prop :=
  NoDup m.*1 /\
  (forall k e, mget k m = Some e ->
     m_qtyMilli e = key_total k ls /\ 0 < m_qtyMilli e /\ k = line_key (m_warehouseId e) (m_skuId e)) /\
  (forall k, mget k m = None -> Forall (fun l => in_key l <> k) ls).

Lemma key_total_snoc k ls l : key_total k (ls ++ [l]) =
  key_total k ls + (if String.eqb (in_key l) k then qty_of (in_qty l) else 0).
Proof. unfold key_total. rewrite map_app. cbn [map]. by rewrite sumZ_snoc. Qed.

Lemma key_total_absent k ls : Forall (fun l => in_key l <> k) ls -> key_total k ls = 0.
Proof.
  unfold key_total. induction 1 as [|l ls Hl _ IH]; cbn; [done|].
  rewrite (proj2 (String.eqb_neq _ _)) by done. lia.
Qed.

Lemma merge_line_ok ls l m m' : merged_ok ls m -> merge_line m l = Ok m' -> merged_ok (ls ++ [l]) m'.
Proof.
  intros (Hnd & Hs & Hn). unfold merge_line. intros H. inv_ok.
  pose proof (parse_pos _ _ Ha) as Hpos.
  assert (Hq : qty_of (in_qty l) = a) by (unfold qty_of; by rewrite Ha).
  fold (in_key l) in H.
  assert (Hset : exists e, m' = mset (in_key l) e m /\ m_qtyMilli e = key_total (in_key l) ls + a /\
    in_key l = line_key (m_warehouseId e) (m_skuId e) /\ 0 < m_qtyMilli e).
  { destruct (mget (in_key l) m) as [e|] eqn:E; inv_ok; eexists; (split; [done|]); cbn.
    - destruct (Hs _ _ E) as (-> & ? & ?). repeat split; (done || lia).
    - rewrite key_total_absent by auto. repeat split; (done || lia). }
  destruct Hset as (e & -> & Hqe & Hke & Hpe). split; [by apply mset_NoDup|]. split.
  - intros k e'. rewrite mget_mset, key_total_snoc. rewrite Hq. fold (in_key l).
    destruct (String.eqb_spec (in_key l) k) as [<-|]; [intros [= <-]; auto|].
    intros (-> & ? & ?)%Hs. repeat split; (done || lia).
  - intros k. rewrite mget_mset. destruct (String.eqb_spec (in_key l) k) as [|Hne]; [done|].
    intros Hk. apply Forall_app. split; [by apply Hn | by constructor].
Qed.

Section SortedLines.
Context (localeCompare : string -> string -> Z).
(** [localeCompare] is a consistent comparator: antisymmetric and transitive. *)
Hypothesis lc_anti : forall a b, Z.sgn (localeCompare b a) = - Z.sgn (localeCompare a b).
Hypothesis lc_trans : forall a b c,
  localeCompare a b <= 0 -> localeCompare b c <= 0 -> localeCompare a c <= 0.

Lemma compare_lines_comparator : Comparator (compare_lines localeCompare).
Proof using lc_anti lc_trans.
  unfold compare_lines. split.
  - intros a b. pose proof (lc_anti (m_warehouseId a) (m_warehouseId b)).
    pose proof (lc_anti (m_skuId a) (m_skuId b)).
    destruct (Z.eqb_spec (localeCompare (m_warehouseId a) (m_warehouseId b)) 0),
      (Z.eqb_spec (localeCompare (m_warehouseId b) (m_warehouseId a)) 0); cbn; lia.
  - intros a b c.
    pose proof (lc_anti (m_warehouseId a) (m_warehouseId b)).
    pose proof (lc_anti (m_warehouseId b) (m_warehouseId c)).
    pose proof (lc_anti (m_warehouseId a) (m_warehouseId c)).
    pose proof (lc_trans (m_warehouseId a) (m_warehouseId b) (m_warehouseId c)).
    pose proof (lc_trans (m_warehouseId b) (m_warehouseId c) (m_warehouseId a)).
    pose proof (lc_trans (m_warehouseId c) (m_warehouseId a) (m_warehouseId b)).
    pose proof (lc_trans (m_skuId a) (m_skuId b) (m_skuId c)).
    destruct (Z.eqb_spec (localeCompare (m_warehouseId a) (m_warehouseId b)) 0),
      (Z.eqb_spec (localeCompare (m_warehouseId b) (m_warehouseId c)) 0),
      (Z.eqb_spec (localeCompare (m_warehouseId a) (m_warehouseId c)) 0); cbn; lia.
Qed.

Lemma finish_sorted l : StronglySorted (fun a b => compare_lines localeCompare a b <= 0) l ->
  StronglySorted (fun a b => compare_lines localeCompare
    {| m_warehouseId := n_warehouseId a; m_skuId := n_skuId a; m_qtyMilli := n_qtyMilli a |}
    {| m_warehouseId := n_warehouseId b; m_skuId := n_skuId b; m_qtyMilli := n_qtyMilli b |} <= 0)
    (map finish_line l).
Proof.
  induction 1 as [|x l Hl IH Hf]; cbn; [constructor|]. constructor; [done|]. apply Forall_map.
  eapply Forall_impl; [exact Hf|]. by intros [] ?.
Qed.

(** Merging and sorting stock lines: the result is in (warehouse, SKU)
    order (the order in which rows are locked), holds every requested
    (warehouse, SKU) key exactly once, and the quantity under a key is the sum
    of the requested quantities under it, printed in canonical form. *)
Theorem normalized_lines_sorted_and_conserved (lines : list StockLineInput) (out : list NormalizedSkuQtyLine) :
  normalizeAndSortWarehouseLines localeCompare lines = Ok out ->
  StronglySorted (fun a b => compare_lines localeCompare
    {| m_warehouseId := n_warehouseId a; m_skuId := n_skuId a; m_qtyMilli := n_qtyMilli a |}
    {| m_warehouseId := n_warehouseId b; m_skuId := n_skuId b; m_qtyMilli := n_qtyMilli b |} <= 0) out /\
  NoDup (map out_key out) /\
  (forall l, l ∈ lines -> in_key l ∈ map out_key out) /\
  (forall o, o ∈ out -> n_qtyMilli o = key_total (out_key o) lines /\ 0 < n_qtyMilli o /\
                        n_qty o = formatMilliToQty (n_qtyMilli o)).
Proof using lc_anti lc_trans.
  intros H. unfold normalizeAndSortWarehouseLines in H. destruct lines as [|l0 ls]; [discriminate|].
  set (lines := l0 :: ls) in *. inv_ok. rename a into m.
  assert (Hok : merged_ok lines m).
  { apply (foldM_ind merged_ok merge_line lines [] m); [|split; [constructor|]; split; [done | by constructor] | exact Ha].
    intros; by eapply merge_line_ok. }
  destruct Hok as (Hnd & Hs & Hn). pose proof compare_lines_comparator.
  assert (Hperm : sort_by (compare_lines localeCompare) m.*2 ≡ₚ m.*2) by apply sort_by_perm.
  assert (Hin : forall e, e ∈ m.*2 -> mget (line_key (m_warehouseId e) (m_skuId e)) m = Some e).
  { intros e ([k e'] & -> & Hke)%list_elem_of_fmap. cbn. pose proof (elem_mget _ _ _ Hnd Hke) as Hg.
    destruct (Hs _ _ Hg) as (_ & _ & <-). done. }
  assert (Hkeys : map out_key (map finish_line m.*2) = m.*1).
  { clear Hin Hperm. assert (Hk : forall p, p ∈ m -> out_key (finish_line p.2) = p.1).
    { intros [k e] Hke. cbn. by destruct (Hs _ _ (elem_mget _ _ _ Hnd Hke)) as (_ & _ & ->). }
    clear - Hk. induction m as [|p m IH]; [done|]. cbn. f_equal; [apply Hk; left|].
    apply IH. intros; apply Hk; by right. }
  split; [|split; [|split]].
  - apply finish_sorted, sort_by_sorted. done.
  - rewrite Hperm, Hkeys. done.
  - intros l Hl. rewrite Hperm, Hkeys. destruct (decide (in_key l ∈ m.*1)) as [|Hno]; [done|].
    apply mget_None, Hn in Hno. rewrite Forall_forall in Hno. by destruct (Hno l Hl).
  - intros o (e & -> & He)%list_elem_of_fmap. rewrite Hperm in He. cbn.
    destruct (Hs _ _ (Hin e He)) as (? & ? & _). done.
Qed.
End SortedLines.

(** A concrete comparator: code-unit order. *)
Definition code_unit_compare (s t : string) : Z :=
  match String.compare s t with Lt => -1 | Eq => 0 | Gt => 1 end.

Lemma code_unit_anti a b : Z.sgn (code_unit_compare b a) = - Z.sgn (code_unit_compare a b).
Proof. unfold code_unit_compare. rewrite (String.compare_antisym b a). by destruct (String.compare a b). Qed.

Lemma code_unit_trans a b c :
  code_unit_compare a b <= 0 -> code_unit_compare b c <= 0 -> code_unit_compare a c <= 0.
Proof.
  assert (Hle : forall s t, code_unit_compare s t <= 0 <-> String.le s t).
  { intros s t. unfold code_unit_compare, String.le, String.leb. destruct (String.compare s t); cbn; lia || done. }
  rewrite !Hle. apply transitivity.
Qed.

Definition demo_lines : list StockLineInput :=
  [{| in_warehouseId := "w2"; in_skuId := "a"; in_qty := VStr "1.5" |};
   {| in_warehouseId := "w1"; in_skuId := "b"; in_qty := VNum (int 2) |};
   {| in_warehouseId := "w2"; in_skuId := "a"; in_qty := VStr "0.25" |}].

Lemma normalized_lines_witness : exists out,
  normalizeAndSortWarehouseLines code_unit_compare demo_lines = Ok out /\
  map n_qty out = ["2.000"; "1.750"] /\ NoDup (map out_key out).
Proof.
  eexists. assert (He : normalizeAndSortWarehouseLines code_unit_compare demo_lines = Ok _)
    by (vm_compute; reflexivity).
  split; [exact He|]. split; [reflexivity|].
  exact (proj1 (proj2 (normalized_lines_sorted_and_conserved _ code_unit_anti code_unit_trans _ _ He))).
Defined.

(** ** Conversion, purchase orders and stocktakes *)

Lemma factor_pos v k : parseConversionFactorToTenThousandths v = Ok k -> 0 < k.
Proof.
  unfold parseConversionFactorToTenThousandths, FACTOR_SCALE. destruct (is_empty_value v); [intros; inv_ok; lia|].
  destruct (match_factor _) as [[ds fs]|]; [|discriminate]. cbv zeta. intros H. run_ok H. bool_prop. lia.
Qed.

(** Unit conversion: with the quantity and the factor parsed, the base
    quantity is the product rounded half up to a milli-unit (within half a
    milli-unit), and the conversion is refused exactly when that rounds to 0. *)
Theorem unit_conversion_rounds_half_up (vq vf : jsval) (m k : Z) :
  parseQtyToMilli vq false false = Ok m ->
  parseConversionFactorToTenThousandths vf = Ok k ->
  convertToBaseQtyMilli vq vf =
    (if m * k <? 5000 then throw INVALID_UNIT_CONVERSION 400 else Ok (half_up (m * k) 10000)) /\
  2 * Z.abs (10000 * half_up (m * k) 10000 - m * k) <= 10000.
Proof.
  intros Hm Hk. pose proof (parse_pos _ _ Hm). pose proof (factor_pos _ _ Hk).
  pose proof (half_up_bounds (m * k) 10000 ltac:(nia) ltac:(lia)) as Hb.
  split; [|lia]. unfold convertToBaseQtyMilli. rewrite Hm, bind_of_Ok, Hk, bind_of_Ok.
  unfold FACTOR_SCALE. fold (half_up (m * k) 10000). cbv zeta.
  destruct (Z.leb_spec (half_up (m * k) 10000) 0), (Z.ltb_spec (m * k) 5000); try done; exfalso.
  - lia.
  - rewrite half_up_div in * by nia. assert ((m * k + 10000 / 2) / 10000 < 1) by (apply Z.div_lt_upper_bound; lia). lia.
Qed.

Lemma unit_conversion_witness :
  convertToBaseQtyMilli (VStr "2.5") (VStr "12") = Ok 30000 /\
  convertToBaseQtyMilli (VStr "0.001") (VStr "0.4999") = throw INVALID_UNIT_CONVERSION 400.
Proof.
  split.
  - exact (proj1 (unit_conversion_rounds_half_up (VStr "2.5") (VStr "12") 2500 120000
      ltac:(vm_compute; reflexivity) ltac:(vm_compute; reflexivity))).
  - exact (proj1 (unit_conversion_rounds_half_up (VStr "0.001") (VStr "0.4999") 1 4999
      ltac:(vm_compute; reflexivity) ltac:(vm_compute; reflexivity))).
Defined.

(** Receiving a purchase order line in several goods receipts: each receipt is
    checked against the running total the previous one returned. *)
Definition receive_po_line (ordered : jsval) (received : jsval) (qtys : list jsval) : res jsval :=
  foldM (fun acc q => r ← evaluatePurchaseOrderReceiptLine ordered acc q; Ok (VStr (newReceivedBaseQty r)))
    received qtys.

(** A purchase order line is never over-received: after any sequence of
    accepted receipts the running total reads back as what was received before
    plus every receipt, and does not exceed the ordered quantity. *)
Theorem purchase_order_never_over_received (ordered received received' : jsval) (qtys : list jsval) (o p : Z) :
  parseQtyToMilli ordered false false = Ok o ->
  parseQtyToMilli received true false = Ok p -> p <= o ->
  receive_po_line ordered received qtys = Ok received' ->
  parseQtyToMilli received' true false = Ok (p + sumZ (map qty_of qtys)) /\
  p + sumZ (map qty_of qtys) <= o.
Proof.
  unfold receive_po_line. intros Ho. revert received p.
  induction qtys as [|q qs IH]; intros received p Hp Hle; cbn [foldM map sumZ].
  - intros H. inv_ok. rewrite Hp. split; [f_equal; lia | lia].
  - intros H. apply bind_Ok in H as (st & Hst & H). apply bind_Ok in Hst as (r & Hr & Hst). inv_ok.
    unfold evaluatePurchaseOrderReceiptLine in Hr. rewrite Ho, bind_of_Ok, Hp, bind_of_Ok in Hr.
    apply bind_Ok in Hr as (n & Hn & Hr). cbv zeta in Hr. run_ok Hr. bool_prop.
    cbn [newReceivedBaseQty] in *.
    pose proof (parse_pos _ _ Hn). pose proof (parse_nonneg _ _ _ Hp).
    assert (Hq : qty_of q = n) by (unfold qty_of; by rewrite Hn).
    destruct (IH (VStr (formatMilliToQty (p + n))) (p + n)) as [-> Hs]; [|lia|done|].
    + rewrite parse_format. unfold sign_allowed. cbn. by replace (p + n <? 0) with false by lia.
    + rewrite Hq. split; [f_equal|]; lia.
Qed.

Lemma purchase_order_witness :
  receive_po_line (VStr "10") (VStr "1.5") [VStr "4"; VNum (int 4)] = Ok (VStr "9.500") /\
  parseQtyToMilli (VStr "9.500") true false = Ok 9500.
Proof.
  assert (He : receive_po_line (VStr "10") (VStr "1.5") [VStr "4"; VNum (int 4)] = Ok (VStr "9.500"))
    by (vm_compute; reflexivity).
  assert (Ho : parseQtyToMilli (VStr "10") false false = Ok 10000) by (vm_compute; reflexivity).
  assert (Hp : parseQtyToMilli (VStr "1.5") true false = Ok 1500) by (vm_compute; reflexivity).
  split; [exact He|].
  destruct (purchase_order_never_over_received _ _ _ _ _ _ Ho Hp ltac:(lia) He) as [H _].
  rewrite H. vm_compute. reflexivity.
Defined.

(** Approving a stocktake line: only against an unchanged balance version,
    never below what is reserved, and the posted delta takes the on-hand
    quantity exactly to the counted one; read back from its printed form, it is
    the same delta. *)
Theorem stocktake_adjustment_exact (sv cv voh vrs vct : jsval) (r : StocktakeApproval) :
  evaluateStocktakeApprovalLine sv cv voh vrs vct = Ok r ->
  neq (to_num sv) (to_num cv) = true /\
  exists onHand reserved counted,
    parseQtyToMilli voh true false = Ok onHand /\ parseQtyToMilli vrs true false = Ok reserved /\
    parseQtyToMilli vct true false = Ok counted /\
    reserved <= counted /\ onHand + st_deltaMilli r = counted /\
    parseQtyToMilli (VStr (st_deltaQty r)) true true = Ok (st_deltaMilli r) /\
    parseQtyToMilli (VStr (st_countedQty r)) true false = Ok counted.
Proof.
  unfold evaluateStocktakeApprovalLine. intros H. case_if_in H; [discriminate|]. inv_ok.
  run_ok H. bool_prop. split; [done|]. exists a1, a0, a. cbn [st_deltaMilli st_deltaQty st_countedQty].
  pose proof (parse_nonneg _ _ _ Ha). rewrite !parse_format. unfold sign_allowed. cbn [negb andb].
  replace (a <? 0) with false by lia. repeat split; (done || lia).
Qed.

Lemma stocktake_adjustment_witness : exists r,
  evaluateStocktakeApprovalLine (VNum (int 7)) (VStr "7") (VStr "12.000") (VStr "3.000") (VStr "10.5") = Ok r /\
  st_deltaMilli r = -1500 /\ st_deltaQty r = "-1.500" /\
  parseQtyToMilli (VStr (st_countedQty r)) true false = Ok 10500.
Proof.
  eexists. assert (He : evaluateStocktakeApprovalLine (VNum (int 7)) (VStr "7") (VStr "12.000") (VStr "3.000")
    (VStr "10.5") = Ok _) by (vm_compute; reflexivity).
  destruct (stocktake_adjustment_exact _ _ _ _ _ _ He) as (_ & oh & rs & ct & _ & _ & H3 & _ & _ & _ & H).
  vm_compute in H3. injection H3 as <-.
  split; [exact He|]. split; [reflexivity|]. split; [reflexivity | exact H].
Defined.
