(* ===== verification/WarehouseStore.v ===== *)
(** * Inventory service: the warehouse stock store

    The tables of the warehouse-level stock (stock balances, their ledger,
    holds, transfers, receipts, issues, stocktakes) as the migrations
    1791900000100, 1791900000200 and 1793000000600 define them, the SQL
    statements the services run on them, the error and transaction monad [tx]
    of the handlers, and the lookups they share (active warehouse, SKU
    eligibility, the warehouse of a branch, the below-minimum alert).

    A handler runs in one database transaction ([runInTenantTransaction]) and
    locks the header and the balances it works on, so it is one atomic step: a
    throw rolls back.  A [numeric(18,3)] column is its number of thousandths, a
    [bigint] column its integer; the driver returns both as text, which the code
    parses again ([numeric_text], [bigint_text]).  A row is identified by its
    primary key; the ledger is append only, and its rows are identified by their
    position. *)

From S2P Require Import Prelude Transaction JsNumber JsString InventoryDomain.
From Stdlib Require Import Ascii.

Open Scope Z_scope.

(** ** Errors *)

(** A thrown [InventoryDomainError], an HTTP exception with its [errorCode] (and
    the more precise [code] of a reservation conflict), or a failed statement. *)
Inductive StoreError :=
| Domain (code : InventoryDomainErrorCode)
| HttpException (errorCode : string)
| QueryFailed.

#[export] Instance StoreError_eq_dec : EqDecision StoreError.
Proof. solve_decision. Defined.

Abbreviation sres := (result StoreError).

(** ** Tables *)

(** A text parameter read as a [uuid]: the hexadecimal digits count, not their
    case.  The DTOs of the requests only let UUID shaped text through. *)
Definition as_uuid (s : string) : string := toLowerCase s.

Record WarehouseRow := {
  wh_tenant : string; wh_branch : option string; wh_kind : string; wh_is_default : bool; wh_status : string }.

Record SkuProjectionRow := {
  sp_tenant : string; sp_sku_id : string; sp_sku_code : string; sp_name : string; sp_status : string }.

Record BalanceRow := {
  on_hand_qty : Z; reserved_qty : Z; in_transit_qty : Z; avg_unit_cost : Z; valuation_amount : Z; row_version : Z }.

Inductive MovementType :=
| SALE_COMMIT | TRANSFER_DISPATCH | TRANSFER_RECEIPT | TRANSFER_LOST_IN | TRANSFER_LOSS | TRANSFER_CANCEL
| PURCHASE_RECEIPT | RETURN_RECEIPT | MANUAL_RECEIPT | MANUAL_ISSUE | STOCKTAKE_ADJUSTMENT.

#[export] Instance MovementType_eq_dec : EqDecision MovementType.
Proof. solve_decision. Defined.

(** Tenant, warehouse, SKU: the unique key of [stock_balance]. *)
Abbreviation balance_key := (string * string * string)%type.

Record LedgerRow := {
  l_key : balance_key;
  l_type : MovementType;
  l_before : Z;
  l_delta : Z;
  l_after : Z;
  l_reserved_after : Z;
  l_unit_cost : Z;
  l_avg_cost_after : Z;
  l_ref_type : string;
  l_ref_id : string;
  l_reversal_of : option nat }.

Inductive ReservationState := HELD | COMMITTED | RELEASED | EXPIRED.
#[export] Instance ReservationState_eq_dec : EqDecision ReservationState.
Proof. solve_decision. Defined.

Record ReservationLine := { rl_warehouse : string; rl_sku : string; rl_qty : Z }.

(** A row of [warehouse_reservation] with its lines in [line_no] order. *)
Record ReservationRow := {
  r_tenant : string; r_caller : string; r_key : string; r_sha256 : string;
  r_ref_type : string; r_ref_id : string; r_state : ReservationState;
  r_expires_at : option Z; r_created_at : Z; r_lines : list ReservationLine }.

Inductive TransferStatus :=
| T_DRAFT | T_DISPATCHED | T_PARTIALLY_RECEIVED | T_RECEIVED | T_DISCREPANCY | T_CANCELLED.
#[export] Instance TransferStatus_eq_dec : EqDecision TransferStatus.
Proof. solve_decision. Defined.

Record TransferItem := {
  ti_sku : string; ti_transfer : Z; ti_dispatched : Z; ti_received : Z; ti_discrepancy : Z; ti_cost : Z }.

Record TransferRow := {
  t_tenant : string; t_code : string; t_from : string; t_to : string; t_status : TransferStatus;
  t_items : list TransferItem }.

Record ReceiptItem := { ri_sku : string; ri_qty : Z; ri_cost : Z; ri_unit : string; ri_factor : Z }.
Record ReceiptRow := {
  rc_tenant : string; rc_code : string; rc_warehouse : string; rc_source : string;
  rc_purchase_order : option string; rc_supplier : option string; rc_status : string;
  rc_key : option string; rc_items : list ReceiptItem }.

Record IssueItem := { ii_sku : string; ii_qty : Z; ii_cost : Z }.
Record IssueRow := {
  is_tenant : string; is_code : string; is_warehouse : string; is_reason : string; is_status : string;
  is_key : option string; is_items : list IssueItem }.

Record StocktakeItem := {
  si_sku : string; si_snap_on_hand : Z; si_snap_reserved : Z; si_snap_version : Z;
  si_counted : option Z; si_variance : option Z }.
Record StocktakeRow := {
  sk_tenant : string; sk_code : string; sk_warehouse : string; sk_status : string; sk_items : list StocktakeItem }.

Record SupplierRow := {
  su_tenant : string; su_code : string; su_name : string; su_phone : option string; su_email : option string;
  su_address : option string; su_tax_code : option string; su_note : option string; su_status : string; su_deleted : bool }.

Record PurchaseItem := {
  pi_sku : string; pi_ordered : Z; pi_received : Z; pi_cost : Z; pi_unit : string; pi_factor : Z }.
Record PurchaseOrderRow := {
  po_tenant : string; po_code : string; po_supplier : string; po_warehouse : string; po_status : string;
  po_total : Z; po_items : list PurchaseItem }.

(** The events written to the outbox with the state change. *)
Inductive Event :=
| StockChanged (k : balance_key) (t : MovementType) (delta onHandAfter reservedAfter : Z) (refType refId : string)
| StockBelowMin (k : balance_key) (available minimum : number)
| ReservationEvent (st : ReservationState) (reservationId refId : string) (lines : list ReservationLine)
| TransferEvent (st : TransferStatus) (transferId : string)
| StockReceived (receiptId : string) (totalAmount : number)
| StockIssued (issueId : string)
| StocktakeAdjusted (stockTakeId : string)
| PurchaseOrderApproved (purchaseOrderId : string) (totalAmount : number).

Record db := {
  warehouse : gmap string WarehouseRow;
  catalog_sku_projection : list SkuProjectionRow;
  stock_threshold : gmap balance_key Z;
  stock_balance : gmap balance_key BalanceRow;
  stock_balance_ledger : list LedgerRow;
  warehouse_reservation : gmap string ReservationRow;
  stock_transfer : gmap string TransferRow;
  stock_receipt : gmap string ReceiptRow;
  stock_issue : gmap string IssueRow;
  stock_take : gmap string StocktakeRow;
  purchase_order : gmap string PurchaseOrderRow;
  supplier : gmap string SupplierRow;
  outbox : list Event }.

(** ** The transaction monad *)

Abbreviation tx := (txn db StoreError).

Definition query_failed {A} : tx A := fail QueryFailed 500.
Definition domain_error {A} (c : InventoryDomainErrorCode) (status : Z) : tx A := fail (Domain c) status.
Definition http {A} (code : string) (status : Z) : tx A := fail (HttpException code) status.

(** A call of the domain layer inside a transaction. *)
Definition domain {A} (r : result InventoryDomainErrorCode A) : tx A := embed Domain r.

(** ** Columns *)

Definition numeric_text (z : Z) : string := formatMilliToQty z.
Definition bigint_text (z : Z) : string := Z_string z.

(** [numeric(18,3)]: eighteen digits, three of them decimals. *)
Definition numeric_18_3 (z : Z) : bool := Z.abs z <? 10 ^ 18.
Definition int8 (z : Z) : bool := (- 2 ^ 63 <=? z) && (z <? 2 ^ 63).

(** [parseQtyToMilli(String(column), true, false)], and the strictly positive form. *)
Definition read_qty (z : Z) : tx Z := domain (parseQtyToMilli (VStr (numeric_text z)) true false).
Definition read_pos (z : Z) : tx Z := domain (parseQtyToMilli (VStr (numeric_text z)) false false).
(** [vndToNumber(parseMoneyToVnd(String(column)))]. *)
Definition read_vnd (z : Z) : tx Z := domain (parseMoneyToVnd (VStr (bigint_text z))).
Definition read_money (z : Z) : tx number := v ← read_vnd z; domain (vndToNumber v).

(** The CHECK constraints and column types of [stock_balance]. *)
Definition check_balance (b : BalanceRow) : bool :=
  (0 <=? on_hand_qty b) && (0 <=? reserved_qty b) && (0 <=? in_transit_qty b) &&
  (reserved_qty b <=? on_hand_qty b) && (0 <=? avg_unit_cost b) && (0 <=? valuation_amount b) &&
  numeric_18_3 (on_hand_qty b) && numeric_18_3 (in_transit_qty b) &&
  int8 (avg_unit_cost b) && int8 (valuation_amount b).

(** ** Statements *)

Definition set_balance (k : balance_key) (b : BalanceRow) (d : db) : db :=
  {| warehouse := warehouse d; catalog_sku_projection := catalog_sku_projection d;
     stock_threshold := stock_threshold d; stock_balance := <[k := b]> (stock_balance d);
     stock_balance_ledger := stock_balance_ledger d; warehouse_reservation := warehouse_reservation d;
     stock_transfer := stock_transfer d; stock_receipt := stock_receipt d; stock_issue := stock_issue d;
     stock_take := stock_take d; purchase_order := purchase_order d; supplier := supplier d;
     outbox := outbox d |}.

Definition add_ledger (r : LedgerRow) (d : db) : db :=
  {| warehouse := warehouse d; catalog_sku_projection := catalog_sku_projection d;
     stock_threshold := stock_threshold d; stock_balance := stock_balance d;
     stock_balance_ledger := stock_balance_ledger d ++ [r]; warehouse_reservation := warehouse_reservation d;
     stock_transfer := stock_transfer d; stock_receipt := stock_receipt d; stock_issue := stock_issue d;
     stock_take := stock_take d; purchase_order := purchase_order d; supplier := supplier d;
     outbox := outbox d |}.

Definition add_event (e : Event) (d : db) : db :=
  {| warehouse := warehouse d; catalog_sku_projection := catalog_sku_projection d;
     stock_threshold := stock_threshold d; stock_balance := stock_balance d;
     stock_balance_ledger := stock_balance_ledger d; warehouse_reservation := warehouse_reservation d;
     stock_transfer := stock_transfer d; stock_receipt := stock_receipt d; stock_issue := stock_issue d;
     stock_take := stock_take d; purchase_order := purchase_order d; supplier := supplier d;
     outbox := outbox d ++ [e] |}.

Definition set_reservation (i : string) (r : ReservationRow) (d : db) : db :=
  {| warehouse := warehouse d; catalog_sku_projection := catalog_sku_projection d;
     stock_threshold := stock_threshold d; stock_balance := stock_balance d;
     stock_balance_ledger := stock_balance_ledger d; warehouse_reservation := <[i := r]> (warehouse_reservation d);
     stock_transfer := stock_transfer d; stock_receipt := stock_receipt d; stock_issue := stock_issue d;
     stock_take := stock_take d; purchase_order := purchase_order d; supplier := supplier d;
     outbox := outbox d |}.

Definition set_transfer (i : string) (t : TransferRow) (d : db) : db :=
  {| warehouse := warehouse d; catalog_sku_projection := catalog_sku_projection d;
     stock_threshold := stock_threshold d; stock_balance := stock_balance d;
     stock_balance_ledger := stock_balance_ledger d; warehouse_reservation := warehouse_reservation d;
     stock_transfer := <[i := t]> (stock_transfer d); stock_receipt := stock_receipt d; stock_issue := stock_issue d;
     stock_take := stock_take d; purchase_order := purchase_order d; supplier := supplier d;
     outbox := outbox d |}.

Definition set_receipt (i : string) (r : ReceiptRow) (d : db) : db :=
  {| warehouse := warehouse d; catalog_sku_projection := catalog_sku_projection d;
     stock_threshold := stock_threshold d; stock_balance := stock_balance d;
     stock_balance_ledger := stock_balance_ledger d; warehouse_reservation := warehouse_reservation d;
     stock_transfer := stock_transfer d; stock_receipt := <[i := r]> (stock_receipt d); stock_issue := stock_issue d;
     stock_take := stock_take d; purchase_order := purchase_order d; supplier := supplier d;
     outbox := outbox d |}.

Definition set_issue (i : string) (r : IssueRow) (d : db) : db :=
  {| warehouse := warehouse d; catalog_sku_projection := catalog_sku_projection d;
     stock_threshold := stock_threshold d; stock_balance := stock_balance d;
     stock_balance_ledger := stock_balance_ledger d; warehouse_reservation := warehouse_reservation d;
     stock_transfer := stock_transfer d; stock_receipt := stock_receipt d; stock_issue := <[i := r]> (stock_issue d);
     stock_take := stock_take d; purchase_order := purchase_order d; supplier := supplier d;
     outbox := outbox d |}.

Definition set_stocktake (i : string) (r : StocktakeRow) (d : db) : db :=
  {| warehouse := warehouse d; catalog_sku_projection := catalog_sku_projection d;
     stock_threshold := stock_threshold d; stock_balance := stock_balance d;
     stock_balance_ledger := stock_balance_ledger d; warehouse_reservation := warehouse_reservation d;
     stock_transfer := stock_transfer d; stock_receipt := stock_receipt d; stock_issue := stock_issue d;
     stock_take := <[i := r]> (stock_take d); purchase_order := purchase_order d; supplier := supplier d;
     outbox := outbox d |}.

Definition set_purchase_order (i : string) (r : PurchaseOrderRow) (d : db) : db :=
  {| warehouse := warehouse d; catalog_sku_projection := catalog_sku_projection d;
     stock_threshold := stock_threshold d; stock_balance := stock_balance d;
     stock_balance_ledger := stock_balance_ledger d; warehouse_reservation := warehouse_reservation d;
     stock_transfer := stock_transfer d; stock_receipt := stock_receipt d; stock_issue := stock_issue d;
     stock_take := stock_take d; purchase_order := <[i := r]> (purchase_order d); supplier := supplier d;
     outbox := outbox d |}.

Definition set_supplier (i : string) (r : SupplierRow) (d : db) : db :=
  {| warehouse := warehouse d; catalog_sku_projection := catalog_sku_projection d;
     stock_threshold := stock_threshold d; stock_balance := stock_balance d;
     stock_balance_ledger := stock_balance_ledger d; warehouse_reservation := warehouse_reservation d;
     stock_transfer := stock_transfer d; stock_receipt := stock_receipt d; stock_issue := stock_issue d;
     stock_take := stock_take d; purchase_order := purchase_order d; supplier := <[i := r]> (supplier d);
     outbox := outbox d |}.

(** [SELECT ... FROM stock_balance WHERE tenant, warehouse and SKU FOR UPDATE]. *)
Definition select_balance (k : balance_key) : tx (option BalanceRow) := gets (fun d => stock_balance d !! k).

(** [UPDATE stock_balance SET ... WHERE key AND guard RETURNING ...]: the updated
    row, none when no row matches; every such statement bumps the version. *)
Definition update_balance (k : balance_key) (guard : BalanceRow -> bool) (f : BalanceRow -> BalanceRow)
    : tx (option BalanceRow) :=
  row ← select_balance k;
  match row with
  | None => mret None
  | Some b =>
      if guard b then
        let b' := f b in
        if check_balance b' then modify (set_balance k b') ;; mret (Some b') else query_failed
      else mret None
  end.

(** [INSERT INTO stock_balance ... ON CONFLICT (tenant, warehouse, sku) DO UPDATE]:
    a new row needs its warehouse (foreign key). *)
Definition upsert_balance (k : balance_key) (new : BalanceRow) (f : BalanceRow -> BalanceRow) : tx unit :=
  row ← select_balance k;
  whs ← gets warehouse;
  match row with
  | Some b => if check_balance (f b) then modify (set_balance k (f b)) else query_failed
  | None =>
      if match whs !! k.1.2 with Some w => String.eqb (wh_tenant w) k.1.1 | None => false end && check_balance new
      then modify (set_balance k new) else query_failed
  end.

(** [INSERT INTO stock_balance_ledger] with its constraints. *)
Definition insert_ledger (r : LedgerRow) : tx unit :=
  if negb (l_delta r =? 0) && numeric_18_3 (l_before r) && numeric_18_3 (l_delta r) &&
     numeric_18_3 (l_after r) && numeric_18_3 (l_reserved_after r) && int8 (l_unit_cost r) && int8 (l_avg_cost_after r)
  then modify (add_ledger r) else query_failed.

Definition outbox_add (e : Event) : tx unit := modify (add_event e).

(** ** Shared lookups *)

Definition assertActiveWarehouse (tenantId warehouseId : string) : tx WarehouseRow :=
  whs ← gets warehouse;
  match whs !! as_uuid warehouseId with
  | Some wh =>
      if negb (String.eqb (wh_tenant wh) tenantId) then domain_error WAREHOUSE_NOT_FOUND 404
      else if negb (String.eqb (wh_status wh) "ACTIVE") then domain_error WAREHOUSE_INACTIVE 409
      else mret wh
  | None => domain_error WAREHOUSE_NOT_FOUND 404
  end.

(** [sku_id::text = $2 OR sku_code = $2]: a comparison of text. *)
Definition assertCatalogSkuEligible (tenantId skuId : string) : tx string :=
  rows ← gets catalog_sku_projection;
  match List.find (fun r => String.eqb (sp_tenant r) tenantId &&
                            (String.eqb (sp_sku_id r) skuId || String.eqb (sp_sku_code r) skuId)) rows with
  | None => mret skuId
  | Some r =>
      if negb (String.eqb (sp_status r) "ACTIVE") then domain_error SKU_NOT_SELLABLE 409
      else mret (sp_sku_id r)
  end.

Definition is_branch_default (tenantId branchId : string) (w : WarehouseRow) : bool :=
  String.eqb (wh_tenant w) tenantId && bool_decide (wh_branch w = Some branchId) &&
  String.eqb (wh_kind w) "BRANCH" && wh_is_default w && String.eqb (wh_status w) "ACTIVE".

(** The id of the warehouse; [warehouseId] is empty when the caller named none. *)
Definition resolveBranchWarehouse (tenantId branchId warehouseId : string) : tx string :=
  whs ← gets warehouse;
  if negb (String.eqb warehouseId "") then
    match whs !! as_uuid warehouseId with
    | Some wh =>
        if negb (String.eqb (wh_tenant wh) tenantId) then domain_error WAREHOUSE_NOT_FOUND 404
        else if negb (String.eqb (wh_kind wh) "BRANCH") || negb (bool_decide (wh_branch wh = Some branchId))
        then domain_error WAREHOUSE_NOT_IN_BRANCH 409
        else if negb (String.eqb (wh_status wh) "ACTIVE") then domain_error WAREHOUSE_INACTIVE 409
        else mret (as_uuid warehouseId)
    | None => domain_error WAREHOUSE_NOT_FOUND 404
    end
  else
    match List.find (fun e => is_branch_default tenantId (as_uuid branchId) e.2) (map_to_list whs) with
    | Some e => mret e.1
    | None => domain_error BRANCH_HAS_NO_WAREHOUSE 409
    end.

(** [BigInt(Math.round(Number(threshold.minQty) * 1000))]. *)
Definition threshold_milli (minQty : Z) : tx Z :=
  domain (bigint_of_number (mathRound (nmul (number_of_string (numeric_text minQty)) (int 1000)))).

Definition emitBelowMinOnCrossing (k : balance_key) (availableBeforeMilli availableAfterMilli : Z) : tx bool :=
  if availableBeforeMilli <=? availableAfterMilli then mret false
  else
    thresholds ← gets stock_threshold;
    match thresholds !! k with
    | None => mret false
    | Some minQty =>
        minMilli ← threshold_milli minQty;
        if minMilli <=? 0 then mret false
        else if negb ((minMilli <=? availableBeforeMilli) && (availableAfterMilli <? minMilli)) then mret false
        else
          outbox_add (StockBelowMin k (number_of_string (formatMilliToQty availableAfterMilli))
                        (number_of_string (formatMilliToQty minMilli))) ;;
          mret true
    end.

(** [ORDER BY] on a uuid or text column (collation C). *)
Definition text_order (a b : string) : Z :=
  match String.compare a b with Lt => -1 | Eq => 0 | Gt => 1 end.

(** [Array.from(new Set(l))]. *)
Definition unique (l : list string) : list string :=
  foldl (fun acc x => if existsb (String.eqb x) acc then acc else acc ++ [x]) [] l.

(** * Properties *)

(** ** Running transactions *)

Lemma domain_Ok {A} (r : result InventoryDomainErrorCode A) d a d' :
  domain r d = Ok (a, d') <-> r = Ok a /\ d' = d.
Proof. apply embed_Ok. Qed.

(** Take apart a transaction that succeeded. *)
Ltac inv_tx_step :=
  first [ inv_txn
  | match goal with
    | H : select_balance _ _ = Ok _ |- _ => apply gets_Ok in H
    | H : outbox_add _ _ = Ok _ |- _ => apply modify_Ok in H
    | H : domain _ _ = Ok (_, _) |- _ => apply domain_Ok in H as [H ?]
    | H : http _ _ _ = Ok _ |- _ => discriminate H
    | H : domain_error _ _ _ = Ok _ |- _ => discriminate H
    | H : query_failed _ = Ok _ |- _ => discriminate H
    end ].
Ltac inv_tx := repeat (inv_tx_step; try subst).

(** ** Columns read back *)

Section Columns.
Lemma read_qty_Ok z d a d' : read_qty z d = Ok (a, d') <-> a = z /\ d' = d /\ 0 <= z.
Proof.
  unfold read_qty, numeric_text. rewrite domain_Ok, parse_format. unfold sign_allowed. cbn.
  destruct (Z.ltb_spec z 0); cbn; split; try (intros [? ->]); try done; try (intros (-> & -> & ?); (done || lia)).
  injection H0 as ->. done.
Qed.

Lemma read_pos_Ok z d a d' : read_pos z d = Ok (a, d') <-> a = z /\ d' = d /\ 0 < z.
Proof.
  unfold read_pos, numeric_text. rewrite domain_Ok, parse_format. unfold sign_allowed. cbn.
  destruct (Z.ltb_spec z 0), (Z.eqb_spec z 0); cbn; split; try (intros [? ->]); try done;
    try (intros (-> & -> & ?); (done || lia)).
  injection H0 as ->. split_and!; (done || lia).
Qed.

Lemma parse_vnd_text z : 0 <= z ->
  parseMoneyToVnd (VStr (bigint_text z)) = if z <=? MAX_SAFE_INTEGER then Ok z else throw INVALID_MONEY_AMOUNT 400.
Proof.
  intros Hz. unfold parseMoneyToVnd, bigint_text, Z_string. replace (z <? 0) with false by lia.
  pose proof (nat_string_digits z Hz) as Hd. pose proof (nat_string_canonical z Hz) as Hc.
  assert (Hne : nat_string z <> "") by (by intros E; rewrite E in Hc).
  cbn [is_empty_value to_str]. rewrite (proj2 (String.eqb_neq _ _)) by done.
  rewrite digits_trim, Hd, Hc, number_of_digits by done. rewrite nat_string_val, number_of_bigint_isSafe by done.
  rewrite Z.abs_eq by done. by destruct (z <=? MAX_SAFE_INTEGER).
Qed.

Lemma read_vnd_Ok z d a d' : 0 <= z -> read_vnd z d = Ok (a, d') <-> a = z /\ d' = d /\ z <= MAX_SAFE_INTEGER.
Proof.
  intros Hz. unfold read_vnd. rewrite domain_Ok, parse_vnd_text by done.
  destruct (Z.leb_spec z MAX_SAFE_INTEGER); split; try (intros [? ->]); try done; try (intros (-> & -> & ?); (done || lia)).
  injection H0 as ->. done.
Qed.

Lemma read_money_Ok z d a d' : 0 <= z -> read_money z d = Ok (a, d') <-> a = int z /\ d' = d /\ z <= MAX_SAFE_INTEGER.
Proof.
  intros Hz. unfold read_money. rewrite tx_bind_Ok. setoid_rewrite (read_vnd_Ok z d _ _ Hz). split.
  - intros (v & d1 & (-> & -> & Hm) & [Hv ->]%domain_Ok). apply vndToNumber_Ok in Hv as [-> _]. done.
  - intros (-> & -> & Hm). exists z, d. split; [done|]. apply domain_Ok. split; [|done]. apply vndToNumber_safe. lia.
Qed.
End Columns.

(** ** The stock books *)

Definition on_hand (d : db) (k : balance_key) : Z := from_option on_hand_qty 0 (stock_balance d !! k).
Definition reserved (d : db) (k : balance_key) : Z := from_option reserved_qty 0 (stock_balance d !! k).
Definition in_transit (d : db) (k : balance_key) : Z := from_option in_transit_qty 0 (stock_balance d !! k).

Definition row_delta (k : balance_key) (r : LedgerRow) : Z := if decide (l_key r = k) then l_delta r else 0.
Definition ledger_sum (l : list LedgerRow) (k : balance_key) : Z := total (row_delta k) l.

(** Every row carries the running balance of its key. *)
Inductive running : list LedgerRow -> Prop :=
| running_nil : running []
| running_snoc l r : running l -> l_before r = ledger_sum l (l_key r) -> l_after r = l_before r + l_delta r ->
    l_delta r <> 0 -> running (l ++ [r]).

(** The stock.changed events and the ledger rows they announce.  The loss of a
    transfer is booked as an in/out pair that is announced once. *)
Abbreviation movement := (balance_key * MovementType * Z * Z * Z * string * string)%type.

Definition event_movement (e : Event) : option movement :=
  match e with StockChanged k t dl oh rs rt ri => Some (k, t, dl, oh, rs, rt, ri) | _ => None end.
Definition row_movement (r : LedgerRow) : option movement :=
  if decide (l_type r = TRANSFER_LOST_IN) then None
  else Some (l_key r, l_type r, l_delta r, l_after r, l_reserved_after r, l_ref_type r, l_ref_id r).

(** A balance row: nothing oversold, the value is the quantity at the average cost. *)
Record row_ok (b : BalanceRow) : Prop := {
  row_reserved : 0 <= reserved_qty b <= on_hand_qty b;
  row_transit : 0 <= in_transit_qty b < 10 ^ 18;
  row_range : on_hand_qty b < 10 ^ 18;
  row_cost : 0 <= avg_unit_cost b <= MAX_SAFE_INTEGER;
  row_value : valuation_amount b = half_up (on_hand_qty b * avg_unit_cost b) 1000;
  row_value_safe : valuation_amount b <= MAX_SAFE_INTEGER }.

Record books (d : db) : Prop := {
  books_rows : map_Forall (fun _ => row_ok) (stock_balance d);
  books_ledger : forall k, on_hand d k = ledger_sum (stock_balance_ledger d) k;
  books_running : running (stock_balance_ledger d);
  books_events : omap event_movement (outbox d) = omap row_movement (stock_balance_ledger d) }.

Section Books.
Lemma on_hand_set k b d k' : on_hand (set_balance k b d) k' = if decide (k = k') then on_hand_qty b else on_hand d k'.
Proof. unfold on_hand. cbn. case_decide; [subst; by rewrite lookup_insert_eq | by rewrite lookup_insert_ne]. Qed.
Lemma reserved_set k b d k' : reserved (set_balance k b d) k' = if decide (k = k') then reserved_qty b else reserved d k'.
Proof. unfold reserved. cbn. case_decide; [subst; by rewrite lookup_insert_eq | by rewrite lookup_insert_ne]. Qed.
Lemma in_transit_set k b d k' :
  in_transit (set_balance k b d) k' = if decide (k = k') then in_transit_qty b else in_transit d k'.
Proof. unfold in_transit. cbn. case_decide; [subst; by rewrite lookup_insert_eq | by rewrite lookup_insert_ne]. Qed.

Lemma balance_ledger_snoc l r k : ledger_sum (l ++ [r]) k = ledger_sum l k + row_delta k r.
Proof. apply total_snoc. Qed.

(** A change of holds, of the road or of the cost leaves the books in order. *)
Lemma books_set_quiet d k b : books d -> row_ok b -> on_hand_qty b = on_hand d k -> books (set_balance k b d).
Proof.
  intros [B1 B2 B3 B4] Hb Ho. split; cbn; [by apply map_Forall_insert_2 | | done | done].
  intros k'. rewrite on_hand_set. case_decide; [subst k'; rewrite Ho|]; apply B2.
Qed.

(** Books do not look at the other tables. *)
Lemma books_ext d d' : stock_balance d' = stock_balance d -> stock_balance_ledger d' = stock_balance_ledger d ->
  outbox d' = outbox d -> books d -> books d'.
Proof. intros E1 E2 E3 [B1 B2 B3 B4]. split; unfold on_hand in *; rewrite ?E1, ?E2, ?E3; done. Qed.

Lemma books_event d e : event_movement e = None -> books d -> books (add_event e d).
Proof. intros He [B1 B2 B3 B4]. split; [done..|]. cbn. rewrite omap_app, B4. cbn. rewrite He. by rewrite app_nil_r. Qed.

(** The event that announces a ledger row. *)
Definition announce (r : LedgerRow) : Event :=
  StockChanged (l_key r) (l_type r) (l_delta r) (l_after r) (l_reserved_after r) (l_ref_type r) (l_ref_id r).

(** A movement: the row changes by the delta, which is entered with the balance
    before and after and announced. *)
Lemma books_move d b r : books d -> row_ok b -> l_delta r <> 0 -> l_before r = on_hand d (l_key r) ->
  l_after r = on_hand_qty b -> on_hand_qty b = on_hand d (l_key r) + l_delta r -> l_type r <> TRANSFER_LOST_IN ->
  books (add_event (announce r) (add_ledger r (set_balance (l_key r) b d))).
Proof.
  intros [B1 B2 B3 B4] Hb Hd Hbe Ha Ho Ht. split; cbn.
  - by apply map_Forall_insert_2.
  - intros k. change (on_hand (set_balance (l_key r) b d) k = ledger_sum (stock_balance_ledger d ++ [r]) k).
    rewrite on_hand_set, balance_ledger_snoc, <- B2. unfold row_delta. case_decide; [subst k; lia | lia].
  - constructor; [done | by rewrite <- B2 | lia | done].
  - rewrite !omap_app, B4. f_equal. cbn. unfold row_movement. by rewrite decide_False.
Qed.
End Books.

(** ** What the statements do *)

Section Statements.
Lemma check_balance_spec b : check_balance b = true ->
  0 <= reserved_qty b <= on_hand_qty b /\ 0 <= in_transit_qty b < 10 ^ 18 /\ on_hand_qty b < 10 ^ 18.
Proof. unfold check_balance, numeric_18_3. intros H. bool_prop. lia. Qed.

(** A row in order that keeps the integrity rules passes the constraints. *)
Lemma row_ok_check b : row_ok b -> check_balance b = true.
Proof.
  intros [H1 H2 H3 H4 H5 H6]. unfold check_balance, numeric_18_3, int8, MAX_SAFE_INTEGER in *.
  assert (0 <= valuation_amount b) by (rewrite H5; apply half_up_nonneg; nia).
  rewrite !andb_true_iff, !Z.leb_le, !Z.ltb_lt. lia.
Qed.

Lemma valuation_le b q : row_ok b -> 0 <= q <= on_hand_qty b ->
  0 <= half_up ((on_hand_qty b - q) * avg_unit_cost b) 1000 <= MAX_SAFE_INTEGER.
Proof.
  intros [H1 H2 H3 H4 H5 H6] Hq. split; [apply half_up_nonneg; nia|].
  etransitivity; [|exact H6]. rewrite H5. apply half_up_mono; [nia | lia].
Qed.

(** The valuation of a deduction from a balance in order. *)
Lemma deduction_run b q : row_ok b -> 0 < q <= on_hand_qty b ->
  let v := half_up ((on_hand_qty b - q) * avg_unit_cost b) 1000 in
  computeValuationAfterDeduction (VStr (formatMilliToQty (on_hand_qty b))) (VNum (int (avg_unit_cost b)))
    (VStr (formatMilliToQty q)) =
  Ok {| newOnHandMilli := on_hand_qty b - q; newAvgCostVnd := avg_unit_cost b; newValuationVnd := v;
        newOnHandQty := formatMilliToQty (on_hand_qty b - q); newAvgUnitCost := int (avg_unit_cost b);
        newValuationAmount := int v |}.
Proof.
  intros Hb Hq v. pose proof (valuation_le b q Hb ltac:(lia)) as Hv. destruct Hb as [H1 H2 H3 H4 H5 H6].
  unfold computeValuationAfterDeduction. rewrite !parse_format. unfold sign_allowed. cbn [negb andb].
  replace (on_hand_qty b <? 0) with false by lia. replace (q <? 0) with false by lia. replace (q =? 0) with false by lia.
  cbn [negb andb]. rewrite bind_of_Ok, money_of_int, !bind_of_Ok by lia. replace (on_hand_qty b <? q) with false by lia.
  assert (E : (if on_hand_qty b - q =? 0 then 0
    else Z.quot ((on_hand_qty b - q) * avg_unit_cost b + Z.quot QTY_SCALE 2) QTY_SCALE) = v).
  { unfold v, half_up, QTY_SCALE. destruct (Z.eqb_spec (on_hand_qty b - q) 0) as [->|]; done. }
  cbv zeta. rewrite E. rewrite !vndToNumber_safe by (fold v in Hv; lia). done.
Qed.

Lemma update_balance_Ok k g f d o d' : update_balance k g f d = Ok (o, d') ->
  (o = None /\ d' = d) \/
  (exists b, stock_balance d !! k = Some b /\ g b = true /\ check_balance (f b) = true /\
     o = Some (f b) /\ d' = set_balance k (f b) d).
Proof.
  unfold update_balance. intros H. inv_tx. destruct (stock_balance _ !! k) as [b|] eqn:E; inv_tx; [|by left].
  destruct (g b) eqn:Eg; inv_tx; [|by left]. destruct (check_balance (f b)) eqn:Ec; inv_tx.
  right. by exists b.
Qed.

Lemma update_balance_hit k g f d b o d' : stock_balance d !! k = Some b -> g b = true -> update_balance k g f d = Ok (o, d') ->
  check_balance (f b) = true /\ d' = set_balance k (f b) d.
Proof.
  intros Hb Hg. unfold update_balance, mbind, txn_bind, select_balance, gets. rewrite Hb, Hg. cbn.
  destruct (check_balance (f b)); [|done]. by intros [= _ <-].
Qed.

Lemma update_balance_run k g f d b : stock_balance d !! k = Some b -> g b = true -> check_balance (f b) = true ->
  update_balance k g f d = Ok (Some (f b), set_balance k (f b) d).
Proof.
  intros E Eg Ec. unfold update_balance, mbind, txn_bind, select_balance, gets. by rewrite E, Eg, Ec.
Qed.

Lemma upsert_balance_Ok k new f d u d' : upsert_balance k new f d = Ok (u, d') ->
  exists b', d' = set_balance k b' d /\ check_balance b' = true /\
    b' = match stock_balance d !! k with Some b => f b | None => new end.
Proof.
  unfold upsert_balance. intros H. inv_tx. destruct (stock_balance _ !! k) as [b|] eqn:E.
  - destruct (check_balance (f b)) eqn:Ec; inv_tx. by exists (f b).
  - destruct (_ && _) eqn:Ec; inv_tx. exists new. bool_prop. done.
Qed.

(** A row entered for a balance in order passes the ledger's constraints. *)
Lemma insert_ledger_run r d : l_delta r <> 0 -> 0 <= l_before r < 10 ^ 18 -> 0 <= l_after r < 10 ^ 18 ->
  l_after r = l_before r + l_delta r -> 0 <= l_reserved_after r <= l_after r ->
  0 <= l_unit_cost r <= MAX_SAFE_INTEGER -> 0 <= l_avg_cost_after r <= MAX_SAFE_INTEGER ->
  insert_ledger r d = Ok (tt, add_ledger r d).
Proof.
  intros. unfold insert_ledger, numeric_18_3, int8, MAX_SAFE_INTEGER in *.
  replace (negb (l_delta r =? 0)) with true by lia. replace (Z.abs (l_before r) <? 10 ^ 18) with true by lia.
  replace (Z.abs (l_delta r) <? 10 ^ 18) with true by lia. replace (Z.abs (l_after r) <? 10 ^ 18) with true by lia.
  replace (Z.abs (l_reserved_after r) <? 10 ^ 18) with true by lia.
  replace (- 2 ^ 63 <=? l_unit_cost r) with true by lia. replace (l_unit_cost r <? 2 ^ 63) with true by lia.
  replace (- 2 ^ 63 <=? l_avg_cost_after r) with true by lia. replace (l_avg_cost_after r <? 2 ^ 63) with true by lia. done.
Qed.

Lemma insert_ledger_Ok r d u d' : insert_ledger r d = Ok (u, d') -> d' = add_ledger r d /\ l_delta r <> 0.
Proof. unfold insert_ledger. intros H. destruct (_ && _) eqn:E; inv_tx. bool_prop. done. Qed.

Lemma emit_Ok k x y d r d' : emitBelowMinOnCrossing k x y d = Ok (r, d') ->
  d' = d \/ exists a m, d' = add_event (StockBelowMin k a m) d.
Proof.
  unfold emitBelowMinOnCrossing, threshold_milli. destruct (x <=? y); intros H; inv_tx; [by left|].
  destruct (stock_threshold _ !! k); inv_tx; [|by left]. destruct (_ <=? _); inv_tx; [by left|].
  destruct (negb _); inv_tx; [by left|]. right. eauto.
Qed.

(** The alert only writes its event. *)
Lemma emit_frame (P : db -> Prop) k x y d r d' : (forall a m, P d -> P (add_event (StockBelowMin k a m) d)) ->
  P d -> emitBelowMinOnCrossing k x y d = Ok (r, d') -> P d'.
Proof. intros HP Hd [-> | (a & m & ->)]%emit_Ok; auto. Qed.
End Statements.

(** ** What an operation leaves alone *)

(** The holds: the reservations and every reserved quantity. *)
Definition keeps_holds (d d' : db) : Prop :=
  warehouse_reservation d' = warehouse_reservation d /\ forall k, reserved d' k = reserved d k.
(** The road: the transfers and every quantity in transit. *)
Definition keeps_road (d d' : db) : Prop :=
  stock_transfer d' = stock_transfer d /\ forall k, in_transit d' k = in_transit d k.
(** The other documents and the master data. *)
Definition keeps_docs (d d' : db) : Prop :=
  stock_receipt d' = stock_receipt d /\ stock_issue d' = stock_issue d /\ stock_take d' = stock_take d /\
  warehouse d' = warehouse d /\ purchase_order d' = purchase_order d /\ supplier d' = supplier d.

#[export] Instance keeps_holds_preorder : PreOrder keeps_holds.
Proof. split; [by intros d | intros d1 d2 d3 [A B] [C D]; split; [congruence | intros k; by rewrite D, B]]. Qed.
#[export] Instance keeps_road_preorder : PreOrder keeps_road.
Proof. split; [by intros d | intros d1 d2 d3 [A B] [C D]; split; [congruence | intros k; by rewrite D, B]]. Qed.
#[export] Instance keeps_docs_preorder : PreOrder keeps_docs.
Proof.
  split; [by intros d | intros d1 d2 d3 (A1 & A2 & A3 & A4 & A5 & A6) (C1 & C2 & C3 & C4 & C5 & C6); unfold keeps_docs; split_and!; congruence].
Qed.

Section Keeps.
Lemma keeps_holds_set d k b : reserved_qty b = reserved d k -> keeps_holds d (set_balance k b d).
Proof. intros H. split; [done|]. intros k'. rewrite reserved_set. case_decide; [subst; done | done]. Qed.
Lemma keeps_road_set d k b : in_transit_qty b = in_transit d k -> keeps_road d (set_balance k b d).
Proof. intros H. split; [done|]. intros k'. rewrite in_transit_set. case_decide; [subst; done | done]. Qed.

Lemma balance_views d k b : stock_balance d !! k = Some b ->
  on_hand d k = on_hand_qty b /\ reserved d k = reserved_qty b /\ in_transit d k = in_transit_qty b.
Proof. intros H. unfold on_hand, reserved, in_transit. by rewrite H. Qed.
Lemma no_balance_views d k : stock_balance d !! k = None -> on_hand d k = 0 /\ reserved d k = 0 /\ in_transit d k = 0.
Proof. intros H. unfold on_hand, reserved, in_transit. by rewrite H. Qed.

Lemma active_warehouse_pure t w d x d' : assertActiveWarehouse t w d = Ok (x, d') -> d' = d.
Proof.
  unfold assertActiveWarehouse. intros H. inv_tx. destruct (warehouse _ !! _); inv_tx.
  repeat (case_if_in H; inv_tx). done.
Qed.

(** The alert leaves every table as it was. *)
Lemma emit_quiet k x y d r d' : emitBelowMinOnCrossing k x y d = Ok (r, d') -> books d ->
  books d' /\ stock_balance d' = stock_balance d /\ stock_transfer d' = stock_transfer d /\
  warehouse_reservation d' = warehouse_reservation d /\ keeps_docs d d'.
Proof. intros [-> | (a & m & ->)]%emit_Ok HB; split_and!; try done. by apply books_event. Qed.

(** The valuation of a receipt at a known cost. *)
Lemma receipt_Ok oh avg q cost v : 0 <= oh -> 0 <= avg <= MAX_SAFE_INTEGER -> 0 <= cost <= MAX_SAFE_INTEGER ->
  computeWeightedAverageCostOnReceipt (VStr (formatMilliToQty oh)) (VNum (int avg)) (VStr (formatMilliToQty q)) (VNum (int cost)) = Ok v ->
  exists a, 0 < q /\ newOnHandMilli v = oh + q /\ newAvgUnitCost v = int a /\ 0 <= a <= MAX_SAFE_INTEGER /\
    newValuationAmount v = int (half_up ((oh + q) * a) 1000) /\ half_up ((oh + q) * a) 1000 <= MAX_SAFE_INTEGER.
Proof.
  intros Hoh Havg Hcost H. pose proof (receipt_inv _ _ _ _ _ H) as
    (oq & oc & aq & ac & P1 & P2 & P3 & P4 & Q1 & Q2 & Q3 & Q4 & E1 & E2 & E3 & E4 & E5 & E6 & E7).
  rewrite parse_format in P1, P3. rewrite money_of_int in P2, P4 by lia.
  case_if_in P1; [|discriminate]. case_if_in P3; [|discriminate]. simplify_eq. exists (newAvgCostVnd v). split_and!; try done.
  - rewrite E2. apply half_up_nonneg; nia.
  - by rewrite <- E3.
  - unfold computeWeightedAverageCostOnReceipt in H. inv_ok. unfold bdiv in *. case_if_in Ha3; [discriminate|]. inv_ok.
    cbn in *. apply vndToNumber_Ok in Ha5 as [_ Hs]. unfold half_up, QTY_SCALE in *. rewrite <- E1. lia.
Qed.

Lemma same_views d d' : stock_balance d' = stock_balance d ->
  forall k, on_hand d' k = on_hand d k /\ reserved d' k = reserved d k /\ in_transit d' k = in_transit d k.
Proof. intros E k. unfold on_hand, reserved, in_transit. by rewrite E. Qed.

Lemma nval_int z : nval (int z) = z.
Proof. done. Qed.

(** One movement of one balance, which may also clear units on the road to it. *)
Lemma move_spec d d' k b r tr :
  books d -> row_ok b -> l_key r = k -> l_delta r <> 0 -> l_before r = on_hand d k -> l_after r = on_hand_qty b ->
  on_hand_qty b = on_hand d k + l_delta r -> l_type r <> TRANSFER_LOST_IN ->
  reserved_qty b = reserved d k -> in_transit_qty b = in_transit d k + tr ->
  stock_balance d' = <[k := b]> (stock_balance d) -> stock_balance_ledger d' = stock_balance_ledger d ++ [r] ->
  outbox d' = outbox d ++ [announce r] -> warehouse_reservation d' = warehouse_reservation d ->
  books d' /\ keeps_holds d d' /\
  (forall k', on_hand d' k' = on_hand d k' + if decide (k = k') then l_delta r else 0) /\
  (forall k', in_transit d' k' = in_transit d k' + if decide (k = k') then tr else 0).
Proof.
  intros HB Hb <- L1 L2 L3 L4 L5 V1 V2 E1 E2 E3 E4. pose proof (same_views (set_balance (l_key r) b d) d' E1) as SV.
  split_and!; [by eapply books_ext; [..|by apply books_move]| split; [done|] | |]; intros k'; destruct (SV k') as (S1 & S2 & S3);
    rewrite ?S1, ?S2, ?S3, ?on_hand_set, ?reserved_set, ?in_transit_set; case_decide; subst; (done || lia).
Qed.

(** A loss in transit: in and out again, the quantity on hand unchanged. *)
Lemma books_loss d r1 r2 : books d -> l_key r1 = l_key r2 -> l_type r1 = TRANSFER_LOST_IN -> l_type r2 = TRANSFER_LOSS ->
  l_delta r1 <> 0 -> l_delta r2 = - l_delta r1 -> l_before r1 = on_hand d (l_key r1) -> l_after r1 = l_before r1 + l_delta r1 ->
  l_before r2 = l_after r1 -> l_after r2 = l_before r1 ->
  books (add_event (announce r2) (add_ledger r2 (add_ledger r1 d))).
Proof.
  intros [B1 B2 B3 B4] Ek T1 T2 Hd Hd2 Hb Ha Hb2 Ha2. split; cbn; [done | | |].
  - intros k. change (on_hand d k = ledger_sum ((stock_balance_ledger d ++ [r1]) ++ [r2]) k).
    rewrite !balance_ledger_snoc, B2. unfold row_delta. rewrite Ek. case_decide; lia.
  - constructor; [constructor; [done | by rewrite <- B2 | done | done] | | lia | lia].
    rewrite balance_ledger_snoc, <- B2, <- Ek. unfold row_delta. rewrite decide_True by done. lia.
  - rewrite !omap_app, B4. cbn. unfold row_movement. rewrite decide_True by done. rewrite decide_False by congruence.
    by rewrite app_nil_r.
Qed.
End Keeps.

(** ** A small store, for examples *)

(** Ten pieces at 5,000 VND in the branch's default warehouse, and an empty
    second warehouse. *)
Definition sample_row : LedgerRow :=
  {| l_key := ("t1", "w1", "s1"); l_type := MANUAL_RECEIPT; l_before := 0; l_delta := 10000; l_after := 10000;
     l_reserved_after := 0; l_unit_cost := 5000; l_avg_cost_after := 5000; l_ref_type := "STOCK_RECEIPT";
     l_ref_id := "r0"; l_reversal_of := None |}.

Definition sample_warehouse (default_ : bool) (branch : string) : WarehouseRow :=
  {| wh_tenant := "t1"; wh_branch := Some branch; wh_kind := "BRANCH"; wh_is_default := default_; wh_status := "ACTIVE" |}.

Definition sample_db : db :=
  {| warehouse := <["w1" := sample_warehouse true "b1"]> (<["w2" := sample_warehouse true "b2"]> ∅);
     catalog_sku_projection := [{| sp_tenant := "t1"; sp_sku_id := "s1"; sp_sku_code := "TEE-01"; sp_name := "Tee";
                                   sp_status := "ACTIVE" |}];
     stock_threshold := {[ ("t1", "w1", "s1") := 8000 ]};
     stock_balance := {[ ("t1", "w1", "s1") := {| on_hand_qty := 10000; reserved_qty := 0; in_transit_qty := 0;
       avg_unit_cost := 5000; valuation_amount := 50000; row_version := 1 |} ]};
     stock_balance_ledger := [sample_row]; warehouse_reservation := ∅; stock_transfer := ∅; stock_receipt := ∅;
     stock_issue := ∅; stock_take := ∅; purchase_order := ∅; supplier := ∅; outbox := [announce sample_row] |}.

Lemma sample_books : books sample_db.
Proof.
  split; cbn [stock_balance stock_balance_ledger outbox sample_db].
  - apply map_Forall_singleton. by split.
  - intros k. unfold on_hand. cbn [stock_balance sample_db]. unfold ledger_sum, total, row_delta. cbn [map sumZ].
    destruct (decide (l_key sample_row = k)) as [<-|Hne]; [by rewrite lookup_singleton_eq|].
    by rewrite lookup_singleton_ne.
  - apply (running_snoc []); [constructor | done..].
  - done.
Qed.
