(* ===== verification/WarehouseReservations.v ===== *)
(** * Inventory service: warehouse-level holds

    The second half of apps/inventory/src/stock/reservations.service.ts:
    normalization and hash of a request, [reserveWarehouseStock],
    [commitWarehouseReservation], [releaseWarehouseReservation],
    [expireWarehouseReservation], the two expiry jobs and the lookups.  The free
    text columns ([note], [release_reason]) are left out; quantities of a response
    are thousandths instead of their text. *)

From S2P Require Import Prelude Transaction JsNumber JsString InventoryDomain WarehouseStore.
From Stdlib Require Import Ascii.

Open Scope Z_scope.

(** ** Quantities and lines *)

Definition SCALE_FACTOR : Z := 1000.
Definition DEFAULT_TTL_SECONDS : Z := 900.

Definition parseDecimalToMilli (value : string) : tx Z :=
  match match_decimal 3 (trim value) with
  | None => http "INVALID_QUANTITY" 400
  | Some (neg, ds, fs) =>
      let sign := if (neg : bool) then -1 else 1 in
      mret (sign * (digits_val ds * SCALE_FACTOR + digits_val (padEnd 3 "0" fs)))
  end.

Definition formatMilliToDecimal (milli : Z) : string :=
  let negative := milli <? 0 in
  let abs := if negative then - milli else milli in
  let whole := Z.quot abs SCALE_FACTOR in
  let frac := padStart 3 "0" (Z_string (Z.rem abs SCALE_FACTOR)) in
  (if negative then "-" else "") +:+ Z_string whole +:+ "." +:+ frac.

(** [parseDecimalToMilli(String(column))]. *)
Definition read_decimal (z : Z) : tx Z := parseDecimalToMilli (numeric_text z).

Record LineInput := { li_warehouseId : option string; li_skuId : string; li_qty : string }.

Record NormalizedLine := { nl_warehouseId : string; nl_skuId : string; nl_qtyMilli : Z; nl_qty : string }.

Section Requests.
(** [String.prototype.localeCompare] (ICU) and the SHA-256 digest (node crypto) of
    the canonical form of a request. *)
Context (localeCompare : string -> string -> Z).

Definition merge_reservation_line (m : list (string * MergedLine)) (line : LineInput) : tx (list (string * MergedLine)) :=
  qtyMilli ← parseDecimalToMilli (li_qty line);
  if qtyMilli <=? 0 then http "INVALID_QUANTITY" 400
  else
    let wh := default "" (li_warehouseId line) in
    let key := wh +:+ ":" +:+ li_skuId line in
    match mget key m with
    | Some e => mret (mset key {| m_warehouseId := m_warehouseId e; m_skuId := m_skuId e;
                                  m_qtyMilli := m_qtyMilli e + qtyMilli |} m)
    | None => mret (mset key {| m_warehouseId := wh; m_skuId := li_skuId line; m_qtyMilli := qtyMilli |} m)
    end.

Definition finish_reservation_line (item : MergedLine) : NormalizedLine :=
  {| nl_warehouseId := m_warehouseId item; nl_skuId := m_skuId item; nl_qtyMilli := m_qtyMilli item;
     nl_qty := formatMilliToDecimal (m_qtyMilli item) |}.

Definition normalizeReservationLines (lines : list LineInput) : tx (list NormalizedLine) :=
  match lines with
  | [] => http "INVALID_QUANTITY" 400
  | _ =>
      m ← for_each merge_reservation_line [] lines;
      mret (map finish_reservation_line (sort_by (compare_lines localeCompare) m.*2))
  end.

Record CreateWarehouseReservationRequest := {
  q_callerService : string; q_sourceRefType : string; q_sourceRefId : string; q_branchId : option string;
  q_ttlSeconds : option Z; q_noExpiry : bool; q_lines : list LineInput }.

(** The object that is hashed. *)
Record RequestDigest := {
  h_callerService : string; h_sourceRefType : string; h_sourceRefId : string; h_branchId : option string;
  h_noExpiry : bool; h_lines : list (string * string * string) }.

Context (sha256 : RequestDigest -> string).

Definition hashReservationRequest (req : CreateWarehouseReservationRequest) (lines : list NormalizedLine) : string :=
  sha256 {| h_callerService := q_callerService req; h_sourceRefType := q_sourceRefType req;
            h_sourceRefId := q_sourceRefId req;
            h_branchId := if truthy (q_branchId req) then q_branchId req else None;
            h_noExpiry := q_noExpiry req;
            h_lines := map (fun l => (nl_warehouseId l, nl_skuId l, nl_qty l)) lines |}.

(** ** Responses *)

Record LineResult := {
  lr_lineNo : Z; lr_warehouseId : string; lr_skuId : string; lr_qty : Z;
  lr_onHandAfter : Z; lr_reservedAfter : Z; lr_availableAfter : Z }.

Record ReservationResponse := {
  rr_id : string; rr_tenant : string; rr_caller : string; rr_refType : string; rr_refId : string;
  rr_state : ReservationState; rr_expiresAt : option Z; rr_createdAt : Z; rr_lines : list LineResult }.

(** The lines with the balance as it is now ([LEFT JOIN stock_balance]). *)
Definition line_result (d : db) (tenantId : string) (i : nat) (l : ReservationLine) : LineResult :=
  let k := (tenantId, rl_warehouse l, rl_sku l) in
  {| lr_lineNo := Z.of_nat i + 1; lr_warehouseId := rl_warehouse l; lr_skuId := rl_sku l; lr_qty := rl_qty l;
     lr_onHandAfter := on_hand d k; lr_reservedAfter := reserved d k;
     lr_availableAfter := on_hand d k - reserved d k |}.

Definition response_of (d : db) (id : string) (header : ReservationRow) : ReservationResponse :=
  {| rr_id := id; rr_tenant := r_tenant header; rr_caller := r_caller header;
     rr_refType := r_ref_type header; rr_refId := r_ref_id header; rr_state := r_state header;
     rr_expiresAt := r_expires_at header; rr_createdAt := r_created_at header;
     rr_lines := imap (line_result d (r_tenant header)) (r_lines header) |}.

Definition loadWarehouseReservationResponse (id : string) (header : ReservationRow) : tx ReservationResponse :=
  gets (fun d => response_of d id header).

(** ** reserveWarehouseStock *)

Definition of_key (tenantId caller key : string) (r : ReservationRow) : bool :=
  String.eqb (r_tenant r) tenantId && String.eqb (r_caller r) caller && String.eqb (r_key r) key.

Definition find_by_key (d : db) (tenantId caller key : string) : option (string * ReservationRow) :=
  List.find (fun e => of_key tenantId caller key e.2) (map_to_list (warehouse_reservation d)).

(** [resolved.has(l.warehouseId)] or resolve it. *)
Definition resolve_step (tenantId branchId : string) (resolved : list (string * string)) (l : NormalizedLine)
    : tx (list (string * string)) :=
  match mget (nl_warehouseId l) resolved with
  | Some _ => mret resolved
  | None => wh ← resolveBranchWarehouse tenantId branchId (nl_warehouseId l);
            mret (mset (nl_warehouseId l) wh resolved)
  end.

Definition resolve_lines (tenantId : string) (branchId : option string) (inputLines : list NormalizedLine)
    : tx (list NormalizedLine) :=
  match branchId with
  | Some b =>
      if String.eqb b "" then mret inputLines
      else
        resolved ← for_each (resolve_step tenantId b) [] inputLines;
        normalizeReservationLines (map (fun l =>
          {| li_warehouseId := mget (nl_warehouseId l) resolved; li_skuId := nl_skuId l; li_qty := nl_qty l |}) inputLines)
  | None => mret inputLines
  end.

Definition line_key (tenantId : string) (l : NormalizedLine) : balance_key :=
  (tenantId, as_uuid (nl_warehouseId l), as_uuid (nl_skuId l)).

(** One line: [line.skuId] becomes the catalog's id, a shortage is collected. *)
Definition shortage_step (tenantId : string) (s : list NormalizedLine * list NormalizedLine) (line : NormalizedLine)
    : tx (list NormalizedLine * list NormalizedLine) :=
  sku ← assertCatalogSkuEligible tenantId (nl_skuId line);
  let line' := {| nl_warehouseId := nl_warehouseId line; nl_skuId := sku; nl_qtyMilli := nl_qtyMilli line;
                  nl_qty := nl_qty line |} in
  row ← select_balance (line_key tenantId line');
  availableMilli ←
    match row with
    | None => mret 0
    | Some b => oh ← read_decimal (on_hand_qty b); rs ← read_decimal (reserved_qty b); mret (oh - rs)
    end;
  mret (s.1 ++ [line'], if availableMilli <? nl_qtyMilli line then s.2 ++ [line'] else s.2).

Definition available_qty (b : BalanceRow) : Z := on_hand_qty b - reserved_qty b.

Definition add_reserved (q : Z) (b : BalanceRow) : BalanceRow :=
  {| on_hand_qty := on_hand_qty b; reserved_qty := reserved_qty b + q; in_transit_qty := in_transit_qty b;
     avg_unit_cost := avg_unit_cost b; valuation_amount := valuation_amount b; row_version := row_version b + 1 |}.

Definition with_lines (r : ReservationRow) (ls : list ReservationLine) : ReservationRow :=
  {| r_tenant := r_tenant r; r_caller := r_caller r; r_key := r_key r; r_sha256 := r_sha256 r;
     r_ref_type := r_ref_type r; r_ref_id := r_ref_id r; r_state := r_state r; r_expires_at := r_expires_at r;
     r_created_at := r_created_at r; r_lines := ls |}.

(** [INSERT INTO warehouse_reservation_line]. *)
Definition append_line (id : string) (l : ReservationLine) (d : db) : db :=
  match warehouse_reservation d !! id with
  | Some r => set_reservation id (with_lines r (r_lines r ++ [l])) d
  | None => d
  end.

Definition stored_line (line : NormalizedLine) : ReservationLine :=
  {| rl_warehouse := as_uuid (nl_warehouseId line); rl_sku := as_uuid (nl_skuId line); rl_qty := nl_qtyMilli line |}.

(** The conditional UPDATE, the line row and the alert; [updated[0]] of an empty
    answer is a TypeError. *)
Definition hold_line (tenantId id : string) (out : list LineResult) (line : NormalizedLine) : tx (list LineResult) :=
  let k := line_key tenantId line in
  let q := nl_qtyMilli line in
  if negb (numeric_18_3 q) then query_failed
  else
    updated ← update_balance k (fun b => q <=? available_qty b) (add_reserved q);
    modify (append_line id (stored_line line)) ;;
    match updated with
    | None => type_error
    | Some b =>
        oh ← read_decimal (on_hand_qty b);
        rs ← read_decimal (reserved_qty b);
        availableAfter ← read_decimal (available_qty b);
        emitBelowMinOnCrossing k (availableAfter + q) availableAfter ;;
        mret (out ++ [{| lr_lineNo := Z.of_nat (length out) + 1; lr_warehouseId := nl_warehouseId line;
                         lr_skuId := nl_skuId line; lr_qty := q; lr_onHandAfter := oh; lr_reservedAfter := rs;
                         lr_availableAfter := availableAfter |}])
    end.

Definition insert_reservation (id : string) (r : ReservationRow) : tx unit :=
  d ← gets (fun d => d);
  if bool_decide (is_Some (warehouse_reservation d !! id)) ||
     bool_decide (is_Some (find_by_key d (r_tenant r) (r_caller r) (r_key r)))
  then query_failed else modify (set_reservation id r).

Definition hold_new (tenantId key : string) (req : CreateWarehouseReservationRequest) (sha : string)
    (inputLines : list NormalizedLine) (uuid : string) (now : Z) : tx ReservationResponse :=
  normalizedLines ← resolve_lines tenantId (q_branchId req) inputLines;
  for_each (fun _ wh => assertActiveWarehouse tenantId wh ;; mret tt) tt (unique (map nl_warehouseId normalizedLines)) ;;
  checked ← for_each (shortage_step tenantId) ([], []) normalizedLines;
  match checked.2 with
  | _ :: _ => http "INSUFFICIENT_STOCK" 409
  | [] =>
      let expiresAt := if q_noExpiry req then None
                       else Some (now + default DEFAULT_TTL_SECONDS (q_ttlSeconds req) * 1000) in
      insert_reservation uuid {| r_tenant := tenantId; r_caller := q_callerService req; r_key := key; r_sha256 := sha;
        r_ref_type := q_sourceRefType req; r_ref_id := as_uuid (q_sourceRefId req); r_state := HELD;
        r_expires_at := expiresAt; r_created_at := now; r_lines := [] |} ;;
      results ← for_each (hold_line tenantId uuid) [] checked.1;
      outbox_add (ReservationEvent HELD uuid (q_sourceRefId req)
        (map (fun l => {| rl_warehouse := nl_warehouseId l; rl_sku := nl_skuId l; rl_qty := nl_qtyMilli l |}) checked.1)) ;;
      mret {| rr_id := uuid; rr_tenant := tenantId; rr_caller := q_callerService req; rr_refType := q_sourceRefType req;
              rr_refId := q_sourceRefId req; rr_state := HELD; rr_expiresAt := expiresAt; rr_createdAt := now;
              rr_lines := results |}
  end.

(** The response and whether it is a replay. *)
Definition reserveWarehouseStock (tenantId : string) (idempotencyKey : option string)
    (req : CreateWarehouseReservationRequest) (uuid : string) (now : Z) : tx (ReservationResponse * bool) :=
  let key := trim (default "" idempotencyKey) in
  if String.eqb key "" || (128 <? slen key) then http "MISSING_IDEMPOTENCY_KEY" 400
  else
    inputLines ← normalizeReservationLines (q_lines req);
    let requestSha256 := hashReservationRequest req inputLines in
    if String.eqb (q_callerService req) "sales" && negb (truthy (q_branchId req)) then http "BRANCH_REQUIRED" 400
    else if negb (truthy (q_branchId req)) && existsb (fun l => String.eqb (nl_warehouseId l) "") inputLines
    then http "BRANCH_REQUIRED" 400
    else
      existing ← gets (fun d => find_by_key d tenantId (q_callerService req) key);
      match existing with
      | Some (id, row) =>
          if negb (String.eqb (trim (r_sha256 row)) requestSha256) then http "IDEMPOTENCY_CONFLICT" 409
          else response ← loadWarehouseReservationResponse id row; mret (response, true)
      | None => response ← hold_new tenantId key req requestSha256 inputLines uuid now; mret (response, false)
      end.
End Requests.

(** ** Lookups *)

Definition select_reservation (tenantId id : string) : tx (option ReservationRow) :=
  gets (fun d => match warehouse_reservation d !! as_uuid id with
                 | Some r => if String.eqb (r_tenant r) tenantId then Some r else None
                 | None => None end).

Definition getWarehouseReservation (tenantId id : string) : tx ReservationResponse :=
  row ← select_reservation tenantId id;
  match row with
  | None => http "RESERVATION_NOT_FOUND" 404
  | Some r => loadWarehouseReservationResponse (as_uuid id) r
  end.

(** [ORDER BY created_at DESC]. *)
Definition newest_first (rows : list (string * ReservationRow)) : list (string * ReservationRow) :=
  sort_by (fun a b => r_created_at b.2 - r_created_at a.2) rows.

Definition getWarehouseReservationByKey (tenantId idempotencyKeyOrCaller : string) (maybeKey : option string)
    : tx ReservationResponse :=
  let callerService := if truthy maybeKey then Some idempotencyKeyOrCaller else None in
  let key := trim (default idempotencyKeyOrCaller maybeKey) in
  rows ← gets (fun d => newest_first (List.filter (fun e =>
    match callerService with
    | Some c => of_key tenantId c key e.2
    | None => String.eqb (r_tenant e.2) tenantId && String.eqb (r_key e.2) key
    end) (map_to_list (warehouse_reservation d))));
  match rows with
  | [] => http "RESERVATION_NOT_FOUND" 404
  | (id, row) :: _ => loadWarehouseReservationResponse id row
  end.

Definition listWarehouseReservationsByOrder (tenantId sourceRefId : string) : tx (list ReservationResponse) :=
  rows ← gets (fun d => newest_first (List.filter (fun e =>
    String.eqb (r_tenant e.2) tenantId && String.eqb (r_ref_id e.2) (as_uuid sourceRefId))
    (map_to_list (warehouse_reservation d))));
  for_each (fun out e => r ← loadWarehouseReservationResponse e.1 e.2; mret (out ++ [r])) [] rows.

(** ** commitWarehouseReservation *)

Definition set_state (s : ReservationState) (r : ReservationRow) : ReservationRow :=
  {| r_tenant := r_tenant r; r_caller := r_caller r; r_key := r_key r; r_sha256 := r_sha256 r;
     r_ref_type := r_ref_type r; r_ref_id := r_ref_id r; r_state := s; r_expires_at := r_expires_at r;
     r_created_at := r_created_at r; r_lines := r_lines r |}.

(** [ORDER BY warehouse_id ASC, sku_id ASC]. *)
Definition lock_order (a b : ReservationLine) : Z :=
  let w := text_order (rl_warehouse a) (rl_warehouse b) in
  if negb (w =? 0) then w else text_order (rl_sku a) (rl_sku b).

Definition take_committed (q value : Z) (b : BalanceRow) : BalanceRow :=
  {| on_hand_qty := on_hand_qty b - q; reserved_qty := reserved_qty b - q; in_transit_qty := in_transit_qty b;
     avg_unit_cost := avg_unit_cost b; valuation_amount := value; row_version := row_version b + 1 |}.

Definition commit_line (tenantId refType refId : string) (_ : unit) (line : ReservationLine) : tx unit :=
  let k := (tenantId, rl_warehouse line, rl_sku line) in
  q ← read_decimal (rl_qty line);
  let qtyStr := formatMilliToDecimal q in
  row ← select_balance k;
  oldOnHand ← match row with Some b => read_decimal (on_hand_qty b) | None => parseDecimalToMilli "0" end;
  avgCost ← match row with
            | Some b => read_money (avg_unit_cost b)
            | None => v ← domain (parseMoneyToVnd (VStr "0")); domain (vndToNumber v) end;
  valuation ← domain (computeValuationAfterDeduction (VStr (formatMilliToDecimal oldOnHand)) (VNum avgCost) (VStr qtyStr));
  updated ← update_balance k (fun b => (q <=? reserved_qty b) && (q <=? on_hand_qty b))
              (take_committed q (nval (newValuationAmount valuation)));
  match updated with
  | None => type_error
  | Some b =>
      onHandAfter ← read_decimal (on_hand_qty b);
      reservedAfter ← read_decimal (reserved_qty b);
      insert_ledger {| l_key := k; l_type := SALE_COMMIT; l_before := oldOnHand; l_delta := - q; l_after := onHandAfter;
        l_reserved_after := reservedAfter; l_unit_cost := nval avgCost; l_avg_cost_after := nval avgCost;
        l_ref_type := refType; l_ref_id := refId; l_reversal_of := None |} ;;
      outbox_add (StockChanged k SALE_COMMIT (- q) onHandAfter reservedAfter refType refId)
  end.

Definition commitWarehouseReservation (tenantId reservationId : string) (fulfillmentId : option string)
    : tx ReservationResponse :=
  row ← select_reservation tenantId reservationId;
  match row with
  | None => http "RESERVATION_NOT_FOUND" 404
  | Some header =>
      let id := as_uuid reservationId in
      if bool_decide (r_state header = COMMITTED) then loadWarehouseReservationResponse id header
      else if negb (bool_decide (r_state header = HELD)) then http "INVALID_RESERVATION_STATE" 409
      else
        let refId := default (r_ref_id header) (as_uuid <$> fulfillmentId) in
        for_each (commit_line tenantId (r_ref_type header) refId) tt (sort_by lock_order (r_lines header)) ;;
        modify (set_reservation id (set_state COMMITTED header)) ;;
        outbox_add (ReservationEvent COMMITTED reservationId (r_ref_id header) (sort_by lock_order (r_lines header))) ;;
        loadWarehouseReservationResponse id (set_state COMMITTED header)
  end.

(** ** releaseWarehouseReservation and expiry *)

(** The conditional UPDATE of a release; a row that does not match is passed over. *)
Definition give_line (tenantId : string) (_ : unit) (line : ReservationLine) : tx unit :=
  q ← read_decimal (rl_qty line);
  update_balance (tenantId, rl_warehouse line, rl_sku line) (fun b => q <=? reserved_qty b) (add_reserved (- q)) ;;
  mret tt.

Definition give_back (tenantId id : string) (header : ReservationRow) (to : ReservationState) : tx unit :=
  let lines := sort_by lock_order (r_lines header) in
  for_each (give_line tenantId) tt lines ;;
  modify (set_reservation id (set_state to header)) ;;
  outbox_add (ReservationEvent to id (r_ref_id header) lines).

Definition releaseWarehouseReservation (tenantId reservationId : string) : tx ReservationResponse :=
  row ← select_reservation tenantId reservationId;
  match row with
  | None => http "RESERVATION_NOT_FOUND" 404
  | Some header =>
      let id := as_uuid reservationId in
      if bool_decide (r_state header = RELEASED) || bool_decide (r_state header = EXPIRED)
      then loadWarehouseReservationResponse id header
      else if bool_decide (r_state header = COMMITTED) then http "INVALID_RESERVATION_STATE" 409
      else give_back tenantId id header RELEASED ;;
           loadWarehouseReservationResponse id (set_state RELEASED header)
  end.

(** [state = 'HELD' AND expires_at < now()]: never true of a NULL expiry. *)
Definition is_due (now : Z) (r : ReservationRow) : bool :=
  bool_decide (r_state r = HELD) && match r_expires_at r with Some t => t <? now | None => false end.

(** The row is taken FOR UPDATE SKIP LOCKED: while another transaction holds it, the
    statement finds no row, and the hold is left to a later run.  The definition is the
    case in which the row is not locked. *)
Definition expireWarehouseReservation (tenantId reservationId : string) (now : Z) : tx bool :=
  row ← select_reservation tenantId reservationId;
  match row with
  | Some header =>
      if is_due now header then give_back tenantId (as_uuid reservationId) header EXPIRED ;; mret true
      else mret false
  | None => mret false
  end.

Definition due_rows (d : db) (now : Z) (limit : nat) (visible : ReservationRow -> bool) : list (string * string) :=
  map (fun e => (e.1, r_tenant e.2)) (take limit
    (sort_by (fun a b => default 0 (r_expires_at a.2) - default 0 (r_expires_at b.2))
      (List.filter (fun e => is_due now e.2 && visible e.2) (map_to_list (warehouse_reservation d))))).

(** The job over every store: each hold in its own transaction, a failure is logged. *)
Definition expire_job_step (now : Z) (s : db * Z) (row : string * string) : db * Z :=
  match expireWarehouseReservation row.2 row.1 now s.1 with
  | Ok (true, d') => (d', s.2 + 1)
  | Ok (false, d') => (d', s.2)
  | Throw _ => s
  end.

Definition expireDueWarehouseReservationsOfAllTenants (d : db) (now : Z) (limit : nat) : db * Z :=
  foldl (expire_job_step now) (d, 0) (due_rows d now limit (fun _ => true)).

(** The job of one store: a failure stops it, what was done stays. *)
Fixpoint expire_rows (now : Z) (d : db) (n : Z) (rows : list (string * string)) : db * sres Z :=
  match rows with
  | [] => (d, Ok n)
  | row :: rows =>
      match expireWarehouseReservation row.2 row.1 now d with
      | Ok (b, d') => expire_rows now d' (if (b : bool) then n + 1 else n) rows
      | Throw e => (d, Throw e)
      end
  end.

Definition expireDueWarehouseReservations (d : db) (tenantId : string) (now : Z) (limit : nat) : db * sres Z :=
  expire_rows now d 0 (due_rows d now limit (fun r => String.eqb (r_tenant r) tenantId)).

(** * Properties *)

(** ** The holds *)

Definition line_at (tenantId : string) (k : balance_key) (l : ReservationLine) : Z :=
  if decide ((tenantId, rl_warehouse l, rl_sku l) = k) then rl_qty l else 0.

Definition lines_at (tenantId : string) (k : balance_key) (ls : list ReservationLine) : Z := total (line_at tenantId k) ls.

Definition row_held (k : balance_key) (r : ReservationRow) : Z :=
  if decide (r_state r = HELD) then lines_at (r_tenant r) k (r_lines r) else 0.

(** What the open holds keep of a balance. *)
Definition held (d : db) (k : balance_key) : Z := msum (row_held k) (warehouse_reservation d).

Definition lines_positive (r : ReservationRow) : Prop := forall l, l ∈ r_lines r -> 0 < rl_qty l.

(** The request a row stands for never changes. *)
Definition request_of (r : ReservationRow) : string * string * string * string :=
  (r_tenant r, r_caller r, r_key r, r_sha256 r).

Record holds (d : db) : Prop := {
  holds_exact : forall k, reserved d k = held d k;
  holds_positive : map_Forall (fun _ => lines_positive) (warehouse_reservation d);
  holds_ids : map_Forall (fun i _ => as_uuid i = i) (warehouse_reservation d);
  holds_keys : forall i j r r', warehouse_reservation d !! i = Some r -> warehouse_reservation d !! j = Some r' ->
    r_tenant r = r_tenant r' -> r_caller r = r_caller r' -> r_key r = r_key r' -> i = j }.

(** The tables of the documents, which the holds do not touch. *)
Definition same_docs (d d' : db) : Prop :=
  stock_transfer d' = stock_transfer d /\ stock_receipt d' = stock_receipt d /\ stock_issue d' = stock_issue d /\
  stock_take d' = stock_take d /\ warehouse d' = warehouse d /\ purchase_order d' = purchase_order d /\ supplier d' = supplier d.

(** What a hold, a release or a sale leaves alone. *)
Record untouched (d d' : db) : Prop := {
  un_docs : same_docs d d';
  un_transit : forall k, in_transit d' k = in_transit d k }.

#[export] Instance untouched_refl : Reflexive untouched.
Proof. intros d. split; [by repeat split | done]. Qed.
#[export] Instance untouched_trans : Transitive untouched.
Proof.
  intros d1 d2 d3 [(A1 & A2 & A3 & A4 & A5 & A6 & A7) B] [(C1 & C2 & C3 & C4 & C5 & C6 & C7) D].
  split; [repeat split; congruence | intros k; by rewrite D, B].
Qed.

Section Holds.
Lemma read_decimal_Ok z d : read_decimal z d = Ok (z, d).
Proof.
  unfold read_decimal, parseDecimalToMilli, numeric_text. rewrite trim_id by apply format_no_ws. rewrite match_format.
  destruct (pad3_spec (Z.abs z mod 1000)) as (H1 & H2 & H3); [apply Z.mod_pos_bound; lia|].
  rewrite padEnd_full, H3, nat_string_val by (done || apply Z.div_pos; lia). unfold mret, txn_ret, SCALE_FACTOR.
  pose proof (Z.div_mod (Z.abs z) 1000 ltac:(lia)). do 2 f_equal. destruct (Z.ltb_spec z 0); lia.
Qed.

Lemma hold_lines_nonneg t k ls : (forall l, l ∈ ls -> 0 < rl_qty l) -> 0 <= lines_at t k ls.
Proof. intros H. apply total_nonneg. intros l Hl. unfold line_at. specialize (H l Hl). case_decide; lia. Qed.

Lemma lines_at_snoc t k ls l : lines_at t k (ls ++ [l]) = lines_at t k ls + line_at t k l.
Proof. apply total_snoc. Qed.

Lemma hold_lines_perm t k l1 l2 : l1 ≡ₚ l2 -> lines_at t k l1 = lines_at t k l2.
Proof. apply total_perm. Qed.

Lemma row_held_open k r : r_state r = HELD -> row_held k r = lines_at (r_tenant r) k (r_lines r).
Proof. intros H. unfold row_held. by rewrite decide_True. Qed.

Lemma row_held_closed k r : r_state r <> HELD -> row_held k r = 0.
Proof. intros H. unfold row_held. by rewrite decide_False. Qed.

Lemma row_held_nonneg k r : lines_positive r -> 0 <= row_held k r.
Proof. intros H. unfold row_held. case_decide; [by apply hold_lines_nonneg | done]. Qed.

Lemma held_elem d id r k : holds d -> warehouse_reservation d !! id = Some r -> row_held k r <= held d k.
Proof.
  intros [_ Hp _ _] Hr. apply (msum_elem_le (row_held k) _ id); [|done].
  intros j x Hx. apply row_held_nonneg, (Hp j x Hx).
Qed.

(** What is left of the balance when a change of [dr] is entered at one key. *)
Lemma row_ok_reserved d k b q : books d -> stock_balance d !! k = Some b -> 0 <= reserved_qty b + q <= on_hand_qty b ->
  row_ok (add_reserved q b).
Proof.
  intros [B _ _ _] Hk Hq. destruct (B k b Hk) as [H1 H2 H3 H4 H5 H6]. by split.
Qed.

(** Replacing a row by one of the same request keeps ids and keys in order. *)
Lemma keys_update (m : gmap string ReservationRow) id row row' : m !! id = Some row -> request_of row' = request_of row ->
  map_Forall (fun i _ => as_uuid i = i) m ->
  (forall i j r r', m !! i = Some r -> m !! j = Some r' ->
    r_tenant r = r_tenant r' -> r_caller r = r_caller r' -> r_key r = r_key r' -> i = j) ->
  map_Forall (fun i _ => as_uuid i = i) (<[id := row']> m) /\
  (forall i j r r', <[id := row']> m !! i = Some r -> <[id := row']> m !! j = Some r' ->
    r_tenant r = r_tenant r' -> r_caller r = r_caller r' -> r_key r = r_key r' -> i = j).
Proof.
  intros Hid [= E1 E2 E3 E4] Hi Hk. split; [apply map_Forall_insert_2; [by apply (Hi id row)|done]|].
  assert (Hold : forall i r, <[id := row']> m !! i = Some r -> exists r0, m !! i = Some r0 /\
    r_tenant r0 = r_tenant r /\ r_caller r0 = r_caller r /\ r_key r0 = r_key r).
  { intros i r. destruct (decide (id = i)) as [->|]; [rewrite lookup_insert_eq; intros [= <-]; by exists row|].
    rewrite lookup_insert_ne by done. by exists r. }
  intros i j r r' (r1 & A1 & A2 & A3 & A4)%Hold (r2 & B1 & B2 & B3 & B4)%Hold ???.
  apply (Hk i j r1 r2 A1 B1); congruence.
Qed.

(** A change of the hold of one row, matched by its balance. *)
Lemma holds_update d id row row' k b' : holds d -> warehouse_reservation d !! id = Some row -> lines_positive row' ->
  request_of row' = request_of row ->
  (forall k', (if decide (k = k') then reserved_qty b' else reserved d k') =
              reserved d k' + row_held k' row' - row_held k' row) ->
  holds (set_reservation id row' (set_balance k b' d)).
Proof.
  intros [He Hp Hi Hu] Hr Hp' Hq Hk. destruct (keys_update _ _ _ _ Hr Hq Hi Hu) as [Hi' Hu'].
  split; cbn; [|by apply map_Forall_insert_2|done|exact Hu'].
  intros k'. change (reserved (set_balance k b' d) k' = msum (row_held k') (<[id:=row']> (warehouse_reservation d))).
  rewrite reserved_set, (msum_insert_old _ _ _ _ row), Hk, He by done. unfold held. lia.
Qed.

Lemma holds_event e d : holds d -> holds (add_event e d).
Proof. by intros [He Hp Hi Hu]; split. Qed.

Lemma hold_line_spec t id out line d out' d' row :
  books d -> holds d -> warehouse_reservation d !! id = Some row -> r_state row = HELD -> r_tenant row = t ->
  0 < nl_qtyMilli line -> hold_line t id out line d = Ok (out', d') ->
  books d' /\ holds d' /\ untouched d d' /\ (forall k, on_hand d' k = on_hand d k) /\
  warehouse_reservation d' = <[id := with_lines row (r_lines row ++ [stored_line line])]> (warehouse_reservation d).
Proof.
  intros HB HH Hrow Hst Ht Hq. unfold hold_line. destruct (negb _); intros H; inv_tx.
  match goal with Hu : update_balance _ _ _ _ = Ok _ |- _ =>
    destruct (update_balance_Ok _ _ _ _ _ _ Hu) as [[-> ->] | (b & Hb & Hg & Hc & -> & ->)]; [inv_tx|] end.
  inv_tx. rewrite !read_decimal_Ok in *. inv_ok. inv_tx. bool_prop. unfold available_qty in *.
  pose proof (books_rows _ HB _ _ Hb) as Hok. destruct (check_balance_spec _ Hc) as (C1 & C2 & C3). cbn in C1.
  assert (Hr : reserved d (line_key (r_tenant row) line) = reserved_qty b) by (unfold reserved; by rewrite Hb).
  unfold append_line in Ha3. cbn in Ha3. rewrite Hrow in Ha3.
  set (row' := with_lines row (r_lines row ++ [stored_line line])) in *.
  set (d1 := set_reservation id row' (set_balance (line_key (r_tenant row) line) (add_reserved (nl_qtyMilli line) b) d)) in *.
  eapply (emit_frame (fun d' => books d' /\ holds d' /\ untouched d d' /\ (forall k, on_hand d' k = on_hand d k) /\
    warehouse_reservation d' = <[id := row']> (warehouse_reservation d))); [| |exact Ha3].
  - intros a m (P1 & P2 & P3 & P4 & P5). split_and!; [by apply books_event | by apply holds_event | | done | done].
    by destruct P3.
  - split_and!; [| |split; [by repeat split|]| |done].
    + apply (books_ext (set_balance (line_key (r_tenant row) line) (add_reserved (nl_qtyMilli line) b) d)); try done.
      apply books_set_quiet; [done | by eapply row_ok_reserved |]. cbn. unfold on_hand. by rewrite Hb.
    + apply (holds_update _ _ row); [done.. | | done |].
      * intros l. cbn. rewrite elem_of_app, list_elem_of_singleton. intros [Hl | ->]; [|done].
        by apply (holds_positive _ HH id row).
      * intros k'. rewrite !row_held_open by done. unfold row'. cbn [with_lines r_lines r_tenant]. rewrite lines_at_snoc.
        unfold line_at. fold (line_key (r_tenant row) line) in *. unfold line_key in *. cbn in *.
        case_decide as Ek; [subst k'|]; lia.
    + intros k. change (in_transit (set_balance (line_key (r_tenant row) line) (add_reserved (nl_qtyMilli line) b) d) k = in_transit d k).
      rewrite in_transit_set. case_decide; [|done]. subst k. unfold in_transit. by rewrite Hb.
    + intros k. change (on_hand (set_balance (line_key (r_tenant row) line) (add_reserved (nl_qtyMilli line) b) d) k = on_hand d k).
      rewrite on_hand_set. case_decide; [|done]. subst k. unfold on_hand. by rewrite Hb.
Qed.
End Holds.

Section Reserve.
Context (localeCompare : string -> string -> Z).

(** ** reserveWarehouseStock *)

Lemma parseDecimal_pure s d z d' : parseDecimalToMilli s d = Ok (z, d') -> d' = d.
Proof. unfold parseDecimalToMilli. destruct (match_decimal _ _) as [[[??]?]|]; intros H; by inv_tx. Qed.

Lemma merge_entries_positive m line d m' d' :
  (forall e, e ∈ m -> 0 < m_qtyMilli e.2) -> merge_reservation_line m line d = Ok (m', d') ->
  d' = d /\ forall e, e ∈ m' -> 0 < m_qtyMilli e.2.
Proof.
  intros Hm. unfold merge_reservation_line. intros H. inv_tx. apply parseDecimal_pure in Ha as ->.
  destruct (Z.leb_spec a 0); inv_tx.
  assert (Hset : forall key v, 0 < m_qtyMilli v -> forall e, e ∈ mset key v m -> 0 < m_qtyMilli e.2).
  { intros key v Hv. clear -Hm Hv. induction m as [|[j w] m IH]; cbn.
    - intros e [= ->]%list_elem_of_singleton. done.
    - assert (Hm' : forall e, e ∈ m -> 0 < m_qtyMilli e.2) by (intros; apply Hm; by right).
      specialize (Hm (j, w) ltac:(left)). destruct (String.eqb _ _); intros e [-> | He]%elem_of_cons; cbn in *; auto. }
  destruct (mget _ m) as [e|] eqn:Eg; inv_tx; (split; [done|]); apply Hset; [|done].
  apply mget_elem in Eg. specialize (Hm _ Eg). cbn in *. lia.
Qed.

Lemma normalize_positive ls d out d' : normalizeReservationLines localeCompare ls d = Ok (out, d') ->
  d' = d /\ forall l, l ∈ out -> 0 < nl_qtyMilli l.
Proof.
  unfold normalizeReservationLines. destruct ls as [|x ls]; [done|]. intros H. inv_tx.
  apply (for_each_inv (fun m d1 => d1 = d /\ forall e, e ∈ m -> 0 < m_qtyMilli e.2)) in Ha as [-> Hp].
  2: { intros m l d1 m' d2 _ [-> Hm] Hs. by apply (merge_entries_positive m l). }
  2: { split; [done|]. intros e He. by apply not_elem_of_nil in He. }
  split; [done|]. intros l (m & -> & Hm)%list_elem_of_fmap. cbn.
  rewrite sort_by_perm in Hm. apply list_elem_of_fmap in Hm as ([k e] & -> & He). by apply (Hp (k, e)).
Qed.

Lemma resolveBranch_pure t b w d x d' : resolveBranchWarehouse t b w d = Ok (x, d') -> d' = d.
Proof.
  unfold resolveBranchWarehouse. intros H. inv_tx. destruct (negb _).
  - destruct (warehouse _ !! _); [|done]. repeat (case_if_in H; try done). by inv_tx.
  - destruct (List.find _ _); by inv_tx.
Qed.

Lemma resolve_lines_positive t b ls d out d' : (forall l, l ∈ ls -> 0 < nl_qtyMilli l) ->
  resolve_lines localeCompare t b ls d = Ok (out, d') -> d' = d /\ forall l, l ∈ out -> 0 < nl_qtyMilli l.
Proof.
  intros Hls. unfold resolve_lines. destruct b as [b|]; [|intros H; by inv_tx]. destruct (String.eqb b ""); intros H; inv_tx; [done|].
  apply (for_each_inv (fun _ d1 => d1 = d)) in Ha; [|intros m l d1 m' d2 _ ->; unfold resolve_step|done].
  - subst. by apply normalize_positive in H.
  - destruct (mget _ m); intros Hs; inv_tx; [done|]. by apply resolveBranch_pure in Ha0.
Qed.

End Reserve.

Section HoldLines.
Lemma activeWarehouse_pure t w d x d' : assertActiveWarehouse t w d = Ok (x, d') -> d' = d.
Proof.
  unfold assertActiveWarehouse. intros H. inv_tx. destruct (warehouse _ !! _); [|done].
  repeat (case_if_in H; try done). by inv_tx.
Qed.

Lemma skuEligible_pure t s d x d' : assertCatalogSkuEligible t s d = Ok (x, d') -> d' = d.
Proof.
  unfold assertCatalogSkuEligible. intros H. inv_tx. destruct (List.find _ _); [|by inv_tx].
  case_if_in H; [done|]. by inv_tx.
Qed.

(** The check of the lines: the SKU ids are the catalog's; a line that is not
    covered by what is free is a shortage. *)
Lemma shortage_step_spec t s line d s' d' : shortage_step t s line d = Ok (s', d') ->
  d' = d /\ exists line', s'.1 = s.1 ++ [line'] /\ nl_warehouseId line' = nl_warehouseId line /\
    nl_qtyMilli line' = nl_qtyMilli line /\
    s'.2 = if on_hand d (line_key t line') - reserved d (line_key t line') <? nl_qtyMilli line then s.2 ++ [line'] else s.2.
Proof.
  unfold shortage_step. intros H. inv_tx. apply skuEligible_pure in Ha as ->.
  set (line' := {| nl_skuId := a |}) in *. unfold on_hand, reserved.
  destruct (stock_balance _ !! _) as [b|] eqn:Eb; inv_tx.
  - rewrite !read_decimal_Ok in *. inv_ok. inv_tx. split; [done|]. exists line'. by rewrite Eb.
  - split; [done|]. exists line'. by rewrite Eb.
Qed.

Lemma shortage_pass_spec t lines d s' d' : for_each (shortage_step t) ([], []) lines d = Ok (s', d') ->
  d' = d /\ Forall2 (fun l l' => nl_warehouseId l' = nl_warehouseId l /\ nl_qtyMilli l' = nl_qtyMilli l) lines s'.1 /\
  (s'.2 = [] <-> Forall (fun l => nl_qtyMilli l <= on_hand d (line_key t l) - reserved d (line_key t l)) s'.1).
Proof.
  intros H. eapply (for_each_ind (fun pre s d1 => d1 = d /\
    Forall2 (fun l l' => nl_warehouseId l' = nl_warehouseId l /\ nl_qtyMilli l' = nl_qtyMilli l) pre s.1 /\
    (s.2 = [] <-> Forall (fun l => nl_qtyMilli l <= on_hand d (line_key t l) - reserved d (line_key t l)) s.1))); [| |exact H].
  - intros pre l post s d1 s1 d2 _ (-> & HF & HS) (-> & l' & E1 & E2 & E3 & E4)%shortage_step_spec.
    split; [done|]. rewrite E1. split; [by apply Forall2_app; [|constructor]|].
    rewrite Forall_app, Forall_singleton, E4, E3, <- HS. case_match; bool_prop.
    + split; [by intros [_ ?]%app_eq_nil|]. intros [_ ?]. lia.
    + split; [done | by intros [? _]].
  - split; [done|]. split; [constructor|]. split; [constructor | done].
Qed.

(** Every line of the new hold, one after the other. *)
Lemma hold_all_spec t id out lines d out' d' row :
  books d -> holds d -> warehouse_reservation d !! id = Some row -> r_state row = HELD -> r_tenant row = t ->
  (forall l, l ∈ lines -> 0 < nl_qtyMilli l) -> for_each (hold_line t id) out lines d = Ok (out', d') ->
  books d' /\ holds d' /\ untouched d d' /\ (forall k, on_hand d' k = on_hand d k) /\
  warehouse_reservation d' = <[id := with_lines row (r_lines row ++ map stored_line lines)]> (warehouse_reservation d).
Proof.
  intros HB HH Hrow Hst Ht Hp H. eapply (for_each_ind (fun pre _ d1 =>
    books d1 /\ holds d1 /\ untouched d d1 /\ (forall k, on_hand d1 k = on_hand d k) /\
    warehouse_reservation d1 = <[id := with_lines row (r_lines row ++ map stored_line pre)]> (warehouse_reservation d)));
    [| |exact H].
  - intros pre l post s d1 s1 d2 El (P1 & P2 & P3 & P4 & P5) Hs.
    destruct (hold_line_spec _ _ _ _ _ _ _ (with_lines row (r_lines row ++ map stored_line pre)) P1 P2
      ltac:(by rewrite P5, lookup_insert_eq) Hst Ht (Hp l ltac:(rewrite El; set_solver)) Hs) as (Q1 & Q2 & Q3 & Q4 & Q5).
    split_and!; [done | done | by etransitivity | intros k; by rewrite Q4, P4 |].
    rewrite Q5, P5, insert_insert_eq. cbn. by rewrite map_app, (assoc_L app).
  - split_and!; [done.. |]. cbn. rewrite app_nil_r, insert_id; [done|]. rewrite Hrow. by destruct row.
Qed.
End HoldLines.

(** ** commit, release and expiry never fail on a store in order *)

Section GiveBack.
(** The reservation table and the documents stay as they were. *)
Definition only_stock (d d' : db) : Prop :=
  untouched d d' /\ warehouse_reservation d' = warehouse_reservation d.

Lemma reserved_row d k b : stock_balance d !! k = Some b -> reserved d k = reserved_qty b /\ on_hand d k = on_hand_qty b.
Proof. intros H. unfold reserved, on_hand. by rewrite H. Qed.

(** A balance with something reserved has a row. *)
Lemma reserved_has_row d k : 0 < reserved d k -> exists b, stock_balance d !! k = Some b.
Proof. unfold reserved. destruct (stock_balance d !! k) as [b|]; cbn; [eauto | lia]. Qed.

Lemma commit_line_run t rt ri line d :
  let k := (t, rl_warehouse line, rl_sku line) in
  books d -> 0 < rl_qty line <= reserved d k ->
  exists d', commit_line t rt ri tt line d = Ok (tt, d') /\ books d' /\ only_stock d d' /\
    (forall k', reserved d' k' = reserved d k' - line_at t k' line) /\
    (forall k', on_hand d' k' = on_hand d k' - line_at t k' line).
Proof.
  intros k HB Hq. destruct (reserved_has_row d k ltac:(lia)) as [b Hb]. destruct (reserved_row _ _ _ Hb) as [Er Eo].
  pose proof (books_rows _ HB _ _ Hb) as Hok. destruct Hok as [H1 H2 H3 H4 H5 H6] eqn:Hk'. clear Hk'.
  set (q := rl_qty line) in *. set (v := half_up ((on_hand_qty b - q) * avg_unit_cost b) 1000).
  pose proof (valuation_le b q (books_rows _ HB _ _ Hb) ltac:(lia)) as Hv. fold v in Hv.
  assert (Hok' : row_ok (take_committed q v b)) by (split; cbn; (done || lia)).
  set (r := {| l_key := k; l_type := SALE_COMMIT; l_before := on_hand_qty b; l_delta := - q; l_after := on_hand_qty b - q;
        l_reserved_after := reserved_qty b - q; l_unit_cost := avg_unit_cost b; l_avg_cost_after := avg_unit_cost b;
        l_ref_type := rt; l_ref_id := ri; l_reversal_of := None |}).
  exists (add_event (announce r) (add_ledger r (set_balance k (take_committed q v b) d))). split.
  - unfold commit_line. fold k q. erewrite tx_bind_run by apply read_decimal_Ok.
    erewrite tx_bind_run by (unfold select_balance, gets; by rewrite Hb).
    erewrite tx_bind_run by apply read_decimal_Ok.
    erewrite tx_bind_run by (apply read_money_Ok; [lia | by split_and!; [| |lia]]).
    erewrite tx_bind_run by (apply domain_Ok; split; [exact (deduction_run b q (books_rows _ HB _ _ Hb) ltac:(lia)) | done]).
    erewrite tx_bind_run; [|apply update_balance_run; [done | lia | by apply row_ok_check]].
    cbv beta iota zeta. erewrite tx_bind_run by apply read_decimal_Ok. erewrite tx_bind_run by apply read_decimal_Ok.
    erewrite tx_bind_run; [done|]. apply insert_ledger_run; cbn; (done || lia).
  - split_and!; [apply books_move; cbn; (done || lia) | split; [split; [by repeat split|]|done] | |].
    + intros k'. change (in_transit (set_balance k (take_committed q v b) d) k' = in_transit d k').
      rewrite in_transit_set. case_decide; [|done]. subst k'. unfold in_transit. by rewrite Hb.
    + intros k'. change (reserved (set_balance k (take_committed q v b) d) k' = reserved d k' - line_at t k' line).
      rewrite reserved_set. unfold line_at. fold k. case_decide; [subst k'; cbn; fold q|]; lia.
    + intros k'. change (on_hand (set_balance k (take_committed q v b) d) k' = on_hand d k' - line_at t k' line).
      rewrite on_hand_set. unfold line_at. fold k. case_decide; [subst k'; cbn; fold q|]; lia.
Qed.

Lemma give_line_run t line d :
  let k := (t, rl_warehouse line, rl_sku line) in
  books d -> 0 < rl_qty line <= reserved d k ->
  exists d', give_line t tt line d = Ok (tt, d') /\ books d' /\ only_stock d d' /\
    (forall k', reserved d' k' = reserved d k' - line_at t k' line) /\
    (forall k', on_hand d' k' = on_hand d k').
Proof.
  intros k HB Hq. destruct (reserved_has_row d k ltac:(lia)) as [b Hb]. destruct (reserved_row _ _ _ Hb) as [Er Eo].
  set (q := rl_qty line) in *.
  assert (Hok : row_ok (add_reserved (- q) b))
    by (pose proof (row_reserved _ (books_rows _ HB _ _ Hb)); eapply row_ok_reserved; [done..|lia]).
  exists (set_balance k (add_reserved (- q) b) d). split.
  - unfold give_line. fold k q. erewrite tx_bind_run by apply read_decimal_Ok.
    by erewrite tx_bind_run; [|apply update_balance_run; [done | lia | by apply row_ok_check]].
  - split_and!; [by apply books_set_quiet | split; [split; [by repeat split|]|done] | |].
    + intros k'. rewrite in_transit_set. case_decide; [|done]. subst k'. unfold in_transit. by rewrite Hb.
    + intros k'. rewrite reserved_set. unfold line_at. fold k. case_decide; [subst k'; cbn; fold q|]; lia.
    + intros k'. rewrite on_hand_set. case_decide; [subst k'; cbn|]; done.
Qed.

(** The loop over the lines of a hold, for a body that takes one line off the
    reserved quantity (and [oh] of it off the shelf). *)
Lemma lines_loop_run (f : unit -> ReservationLine -> tx unit) t (oh : bool) ls d :
  (forall line d, books d -> 0 < rl_qty line <= reserved d (t, rl_warehouse line, rl_sku line) ->
     exists d', f tt line d = Ok (tt, d') /\ books d' /\ only_stock d d' /\
       (forall k', reserved d' k' = reserved d k' - line_at t k' line) /\
       (forall k', on_hand d' k' = on_hand d k' - if oh then line_at t k' line else 0)) ->
  books d -> (forall l, l ∈ ls -> 0 < rl_qty l) -> (forall k, lines_at t k ls <= reserved d k) ->
  exists d', for_each f tt ls d = Ok (tt, d') /\ books d' /\ only_stock d d' /\
    (forall k, reserved d' k = reserved d k - lines_at t k ls) /\
    (forall k, on_hand d' k = on_hand d k - if oh then lines_at t k ls else 0).
Proof.
  intros Hf HB Hp Hle.
  destruct (for_each_run (fun pre _ d' => books d' /\ only_stock d d' /\
    (forall k, reserved d' k = reserved d k - lines_at t k pre) /\
    (forall k, on_hand d' k = on_hand d k - if oh then lines_at t k pre else 0)) f ls tt d) as ([] & d' & H1 & H2).
  - intros pre a post [] d1 El (Q1 & Q2 & Q3 & Q4). set (k := (t, rl_warehouse a, rl_sku a)).
    assert (Ha : 0 < rl_qty a <= reserved d1 k).
    { split; [apply Hp; rewrite El; set_solver|]. rewrite Q3. specialize (Hle k). rewrite El in Hle.
      unfold lines_at, total in *. rewrite map_app, sumZ_app in Hle. cbn [map sumZ] in Hle.
      assert (line_at t k a = rl_qty a) by (unfold line_at; by rewrite decide_True).
      pose proof (hold_lines_nonneg t k post ltac:(intros; apply Hp; rewrite El; set_solver)). unfold lines_at, total in *. lia. }
    destruct (Hf a d1 Q1 Ha) as (d2 & R1 & R2 & [R3 R3'] & R4 & R5). destruct Q2 as [Q2 Q2'].
    exists tt, d2. split; [done|]. split_and!; [done | split; [by etransitivity | congruence] | |].
    + intros k'. rewrite R4, Q3, lines_at_snoc. lia.
    + intros k'. rewrite R5, Q4. destruct oh; [rewrite lines_at_snoc|]; lia.
  - split_and!; [done | by split | |]; intros k; unfold lines_at, total; cbn; [lia | destruct oh; lia].
  - eauto 10.
Qed.
End GiveBack.

Section Settle.
Lemma sorted_lines t k ls : lines_at t k (sort_by lock_order ls) = lines_at t k ls.
Proof. apply hold_lines_perm, sort_by_perm. Qed.

Lemma sorted_positive ls : (forall l, l ∈ ls -> 0 < rl_qty l) -> forall l, l ∈ sort_by lock_order ls -> 0 < rl_qty l.
Proof. intros H l Hl. rewrite sort_by_perm in Hl. auto. Qed.

(** Closing a hold whose lines have been taken off the reserved quantities. *)
Lemma holds_close d d1 id row to e : holds d -> warehouse_reservation d !! id = Some row -> r_state row = HELD ->
  to <> HELD -> warehouse_reservation d1 = warehouse_reservation d ->
  (forall k, reserved d1 k = reserved d k - lines_at (r_tenant row) k (r_lines row)) ->
  holds (add_event e (set_reservation id (set_state to row) d1)).
Proof.
  intros [He Hp Hi Hu] Hr Hst Hto Hw Hk.
  destruct (keys_update _ _ row (set_state to row) Hr eq_refl Hi Hu) as [Hi' Hu']. split; cbn; rewrite ?Hw; [| |done|done].
  - intros k. change (reserved d1 k = msum (row_held k) (<[id:=set_state to row]> (warehouse_reservation d1))).
    rewrite Hw, (msum_insert_old _ _ _ _ row), Hk, He by done.
    rewrite (row_held_closed k (set_state to row)), (row_held_open k row) by done. unfold held. lia.
  - apply map_Forall_insert_2; [|done]. by apply (Hp id row).
Qed.

(** Both ways of closing a hold: the loop, the new state, the event. *)
Lemma close_run (f : unit -> ReservationLine -> tx unit) (oh : bool) d id row to e :
  (forall line d, books d -> 0 < rl_qty line <= reserved d (r_tenant row, rl_warehouse line, rl_sku line) ->
     exists d', f tt line d = Ok (tt, d') /\ books d' /\ only_stock d d' /\
       (forall k', reserved d' k' = reserved d k' - line_at (r_tenant row) k' line) /\
       (forall k', on_hand d' k' = on_hand d k' - if oh then line_at (r_tenant row) k' line else 0)) ->
  books d -> holds d -> warehouse_reservation d !! id = Some row -> r_state row = HELD -> to <> HELD ->
  event_movement e = None ->
  exists d', (for_each f tt (sort_by lock_order (r_lines row)) ;;
              modify (set_reservation id (set_state to row)) ;; outbox_add e) d = Ok (tt, d') /\
    books d' /\ holds d' /\ untouched d d' /\
    (forall k, reserved d' k = reserved d k - lines_at (r_tenant row) k (r_lines row)) /\
    (forall k, on_hand d' k = on_hand d k - if oh then lines_at (r_tenant row) k (r_lines row) else 0) /\
    warehouse_reservation d' = <[id := set_state to row]> (warehouse_reservation d).
Proof.
  intros Hf HB HH Hr Hst Hto Hev. pose proof (holds_positive _ HH id row Hr) as Hp.
  destruct (lines_loop_run f (r_tenant row) oh (sort_by lock_order (r_lines row)) d Hf HB) as (d1 & E & B1 & [U1 W1] & V1 & V2).
  - by apply sorted_positive.
  - intros k. rewrite sorted_lines, <- (row_held_open k row Hst), (holds_exact _ HH). by eapply held_elem.
  - exists (add_event e (set_reservation id (set_state to row) d1)). split.
    { unfold mbind, txn_bind. by rewrite E. }
    split_and!.
    + apply books_event; [done|]. by apply (books_ext d1).
    + apply (holds_close d); try done. intros k. by rewrite V1, sorted_lines.
    + destruct U1 as [(A1 & A2 & A3 & A4 & A5 & A6 & A7) A8]. by split.
    + intros k. change (reserved d1 k = reserved d k - lines_at (r_tenant row) k (r_lines row)). by rewrite V1, sorted_lines.
    + intros k. change (on_hand d1 k = on_hand d k - if oh then lines_at (r_tenant row) k (r_lines row) else 0).
      rewrite V2, sorted_lines. done.
    + cbn. by rewrite W1.
Qed.

Lemma give_back_run d id row to : books d -> holds d -> warehouse_reservation d !! id = Some row -> r_state row = HELD ->
  to <> HELD ->
  exists d', give_back (r_tenant row) id row to d = Ok (tt, d') /\ books d' /\ holds d' /\ untouched d d' /\
    (forall k, reserved d' k = reserved d k - lines_at (r_tenant row) k (r_lines row)) /\
    (forall k, on_hand d' k = on_hand d k) /\
    warehouse_reservation d' = <[id := set_state to row]> (warehouse_reservation d).
Proof.
  intros HB HH Hr Hst Hto.
  destruct (close_run (give_line (r_tenant row)) false d id row to
    (ReservationEvent to id (r_ref_id row) (sort_by lock_order (r_lines row)))) as (d' & E & P1 & P2 & P3 & P4 & P5 & P6); try done.
  - intros line d1 B1 Hq. destruct (give_line_run _ _ _ B1 Hq) as (d2 & Q1 & Q2 & Q3 & Q4 & Q5).
    exists d2. split_and!; try done. intros k'. rewrite Q5. lia.
  - exists d'. split_and!; try done. intros k. rewrite P5. lia.
Qed.

Lemma select_reservation_run t id d row : warehouse_reservation d !! as_uuid id = Some row -> r_tenant row = t ->
  select_reservation t id d = Ok (Some row, d).
Proof. intros H <-. unfold select_reservation, gets. by rewrite H, String.eqb_refl. Qed.

Lemma commit_run d id row f : books d -> holds d -> warehouse_reservation d !! as_uuid id = Some row -> r_state row = HELD ->
  exists d', commitWarehouseReservation (r_tenant row) id f d = Ok (response_of d' (as_uuid id) (set_state COMMITTED row), d') /\
    books d' /\ holds d' /\ untouched d d' /\
    (forall k, reserved d' k = reserved d k - lines_at (r_tenant row) k (r_lines row)) /\
    (forall k, on_hand d' k = on_hand d k - lines_at (r_tenant row) k (r_lines row)) /\
    warehouse_reservation d' = <[as_uuid id := set_state COMMITTED row]> (warehouse_reservation d).
Proof.
  intros HB HH Hr Hst. set (refId := default (r_ref_id row) (as_uuid <$> f)).
  destruct (close_run (commit_line (r_tenant row) (r_ref_type row) refId) true d (as_uuid id) row COMMITTED
    (ReservationEvent COMMITTED id (r_ref_id row) (sort_by lock_order (r_lines row)))) as (d' & E & P1 & P2 & P3 & P4 & P5 & P6); try done.
  - intros line d1 B1 Hq. apply (commit_line_run (r_tenant row) (r_ref_type row) refId line d1 B1 Hq).
  - exists d'. split; [|by split_and!]. unfold commitWarehouseReservation. erewrite tx_bind_run by (by apply select_reservation_run).
    cbv beta iota zeta. rewrite Hst. rewrite (bool_decide_eq_false_2 (HELD = COMMITTED)) by done.
    rewrite (bool_decide_eq_true_2 (HELD = HELD)) by done. cbn [negb]. fold refId.
    revert E. unfold mbind, txn_bind. destruct (for_each _ _ _ d) as [[u d1]|]; [|done]. cbn. by intros [= <-].
Qed.
End Settle.

Section ReserveSpec.
Context (localeCompare : string -> string -> Z) (sha256 : RequestDigest -> string).

(** The quantity a request line asks for, in thousandths. *)
Definition asked (l : LineInput) : Z :=
  match match_decimal 3 (trim (li_qty l)) with
  | Some (neg, ds, fs) => (if (neg : bool) then -1 else 1) * (digits_val ds * SCALE_FACTOR + digits_val (padEnd 3 "0" fs))
  | None => 0
  end.

Lemma parseDecimal_asked l d z d' : parseDecimalToMilli (li_qty l) d = Ok (z, d') -> z = asked l.
Proof. unfold parseDecimalToMilli, asked. destruct (match_decimal _ _) as [[[??]?]|]; intros H; by inv_tx. Qed.

Lemma asked_format w s z : asked {| li_warehouseId := w; li_skuId := s; li_qty := formatMilliToDecimal z |} = z.
Proof.
  assert (H := read_decimal_Ok z {| warehouse := ∅; catalog_sku_projection := []; stock_threshold := ∅; stock_balance := ∅;
    stock_balance_ledger := []; warehouse_reservation := ∅; stock_transfer := ∅; stock_receipt := ∅; stock_issue := ∅;
    stock_take := ∅; purchase_order := ∅; supplier := ∅; outbox := [] |}). symmetry. by eapply (parseDecimal_asked {| li_qty := formatMilliToDecimal z |}).
Qed.

(** Merging and sorting keep the total quantity, and the text is the quantity. *)
Lemma normalize_total ls d out d' : normalizeReservationLines localeCompare ls d = Ok (out, d') ->
  total nl_qtyMilli out = total asked ls /\ forall l, l ∈ out -> nl_qty l = formatMilliToDecimal (nl_qtyMilli l).
Proof.
  unfold normalizeReservationLines. destruct ls as [|x ls]; [done|]. intros H. inv_tx.
  apply (for_each_ind (fun pre m _ => NoDup m.*1 /\ total m_qtyMilli m.*2 = total asked pre)) in Ha as [Hd Hs].
  2: { intros pre l post m d1 m' d2 _ [Hd Hs] Hm. unfold merge_reservation_line in Hm. inv_tx.
       apply parseDecimal_asked in Ha0 as ->. destruct (_ <=? 0); inv_tx. rewrite total_snoc.
       destruct (mget _ m) eqn:Eg; inv_tx; (split; [by apply mset_NoDup|]); unfold total in *; rewrite mset_sum, Eg by done;
         cbn; lia. }
  2: { split; [apply NoDup_nil_2 | done]. }
  split.
  - rewrite <- Hs. rewrite <- (total_perm m_qtyMilli _ _ (sort_by_perm (compare_lines localeCompare) a.*2)).
    unfold total. by rewrite map_map.
  - by intros l (m & -> & _)%list_elem_of_fmap.
Qed.

Lemma resolve_total t b ls d out d' : (forall l, l ∈ ls -> nl_qty l = formatMilliToDecimal (nl_qtyMilli l)) ->
  resolve_lines localeCompare t b ls d = Ok (out, d') -> total nl_qtyMilli out = total nl_qtyMilli ls.
Proof.
  intros Hls. unfold resolve_lines. destruct b as [b|]; [|intros H; by inv_tx]. destruct (String.eqb b ""); intros H; inv_tx; [done|].
  apply normalize_total in H as [-> _]. unfold total. rewrite map_map. apply sumZ_map_ext. intros l Hl.
  by rewrite (Hls l Hl), asked_format.
Qed.

Lemma find_by_key_None d t c key : find_by_key d t c key = None <->
  forall i r, warehouse_reservation d !! i = Some r -> of_key t c key r = false.
Proof.
  unfold find_by_key. split.
  - intros H i r Hi. apply (List.find_none _ _ H (i, r)). apply list_elem_of_In, elem_of_map_to_list, Hi.
  - intros H. destruct (List.find _ _) as [[i r]|] eqn:E; [|done]. apply List.find_some in E as [Hin Hk].
    apply list_elem_of_In, elem_of_map_to_list in Hin. cbn in Hk. by rewrite (H i r Hin) in Hk.
Qed.

Lemma find_by_key_Some d t c key i r : find_by_key d t c key = Some (i, r) ->
  warehouse_reservation d !! i = Some r /\ of_key t c key r = true.
Proof.
  unfold find_by_key. intros [Hin Hk]%List.find_some. by apply list_elem_of_In, elem_of_map_to_list in Hin.
Qed.

Definition new_row (t key : string) (req : CreateWarehouseReservationRequest) (sha : string) (now : Z)
    (lines : list NormalizedLine) : ReservationRow :=
  {| r_tenant := t; r_caller := q_callerService req; r_key := key; r_sha256 := sha; r_ref_type := q_sourceRefType req;
     r_ref_id := as_uuid (q_sourceRefId req); r_state := HELD;
     r_expires_at := if q_noExpiry req then None else Some (now + default DEFAULT_TTL_SECONDS (q_ttlSeconds req) * 1000);
     r_created_at := now; r_lines := map stored_line lines |}.

Lemma holds_insert d id r : holds d -> warehouse_reservation d !! id = None -> r_lines r = [] -> as_uuid id = id ->
  find_by_key d (r_tenant r) (r_caller r) (r_key r) = None -> holds (set_reservation id r d).
Proof.
  intros [He Hp Hi Hu] Hid Hl Huuid Hnew. rewrite find_by_key_None in Hnew. unfold of_key in Hnew. split; cbn.
  - intros k. change (reserved d k = msum (row_held k) (<[id:=r]> (warehouse_reservation d))).
    rewrite msum_insert_new, He by done. unfold held.
    assert (row_held k r = 0) as ->; [|lia]. unfold row_held, lines_at. rewrite Hl. by case_decide.
  - apply map_Forall_insert_2; [|done]. intros l. rewrite Hl. by intros ?%not_elem_of_nil.
  - by apply map_Forall_insert_2.
  - assert (Hx : forall i x, warehouse_reservation d !! i = Some x -> r_tenant x = r_tenant r -> r_caller x = r_caller r ->
      r_key x = r_key r -> False).
    { intros i x Hx E1 E2 E3. specialize (Hnew i x Hx). by rewrite E1, E2, E3, !String.eqb_refl in Hnew. }
    intros i j x y. destruct (decide (id = i)) as [<-|], (decide (id = j)) as [<-|];
      rewrite ?lookup_insert_eq, ?lookup_insert_ne by done; [done | | | by eauto].
    + intros [= ->] Hy ???. exfalso. by eapply (Hx j y).
    + intros Hy [= ->] ???. exfalso. by eapply (Hx i x).
Qed.

Lemma insert_reservation_Ok id r d u d' : insert_reservation id r d = Ok (u, d') ->
  warehouse_reservation d !! id = None /\ find_by_key d (r_tenant r) (r_caller r) (r_key r) = None /\
  d' = set_reservation id r d.
Proof.
  unfold insert_reservation. intros H. inv_tx. case_if_in H; inv_tx. bool_prop.
  split_and!; [by apply eq_None_not_Some..|done].
Qed.

Lemma hold_new_spec t key req sha ls uuid now d resp d' :
  books d -> holds d -> as_uuid uuid = uuid -> (forall l, l ∈ ls -> 0 < nl_qtyMilli l) ->
  (forall l, l ∈ ls -> nl_qty l = formatMilliToDecimal (nl_qtyMilli l)) ->
  hold_new localeCompare t key req sha ls uuid now d = Ok (resp, d') ->
  exists lines,
    books d' /\ holds d' /\ untouched d d' /\ (forall k, on_hand d' k = on_hand d k) /\
    warehouse_reservation d !! uuid = None /\
    warehouse_reservation d' = <[uuid := new_row t key req sha now lines]> (warehouse_reservation d) /\
    Forall (fun l => 0 < nl_qtyMilli l <= on_hand d (line_key t l) - reserved d (line_key t l)) lines /\
    total nl_qtyMilli lines = total nl_qtyMilli ls /\ rr_id resp = uuid /\ rr_state resp = HELD.
Proof.
  intros HB HH Huuid Hp Htxt. unfold hold_new. intros H. inv_tx.
  pose proof (resolve_total _ _ _ _ _ _ Htxt Ha) as Htot. apply resolve_lines_positive in Ha as [-> Hpos]; [|done].
  apply (for_each_inv (fun _ d1 => d1 = d)) in Ha0; [|intros; inv_tx; subst; by eapply activeWarehouse_pure|done]. subst.
  apply shortage_pass_spec in Ha1 as (-> & HF & HS). destruct a1.2 eqn:Esh; [|done]. inv_tx.
  match goal with Hx : insert_reservation _ _ _ = Ok _ |- _ => apply insert_reservation_Ok in Hx as (Hnone & Hnew & ->) end.
  assert (Hpos' : forall l, l ∈ a1.1 -> 0 < nl_qtyMilli l).
  { intros l Hl. apply list_elem_of_lookup in Hl as [i Hi]. destruct (Forall2_lookup_r _ _ _ _ _ HF Hi) as (l0 & H0 & _ & ->).
    apply Hpos. by eapply list_elem_of_lookup_2. }
  match goal with Hx : for_each (hold_line _ _) _ _ _ = Ok _ |- _ =>
    apply (hold_all_spec _ _ _ _ _ _ _ (new_row t key req sha now [])) in Hx as (P1 & P2 & P3 & P4 & P5); try done end.
  - exists a1.1. split_and!; try done; [by apply books_event | by apply holds_event | |by cbn; rewrite P5; cbn; rewrite insert_insert_eq | |].
    + etransitivity; [|by destruct P3; split]. by split.
    + apply Forall_forall. intros l Hl. split; [by apply Hpos'|]. by apply (proj1 (Forall_forall _ _) (proj1 HS eq_refl) l).
    + rewrite <- Htot. unfold total. clear -HF. induction HF as [|x y l1 l2 [_ E]]; cbn; lia.
  - by apply (books_ext d).
  - by apply holds_insert.
  - cbn. by rewrite lookup_insert_eq.
Qed.
End ReserveSpec.

Lemma reserve_new_spec (localeCompare : string -> string -> Z) (sha256 : RequestDigest -> string)
    t key req uuid now d resp d' :
  books d -> holds d -> as_uuid uuid = uuid ->
  reserveWarehouseStock localeCompare sha256 t key req uuid now d = Ok ((resp, false), d') ->
  exists row,
    warehouse_reservation d !! uuid = None /\
    warehouse_reservation d' = <[uuid := row]> (warehouse_reservation d) /\
    r_state row = HELD /\ r_tenant row = t /\ rr_id resp = uuid /\
    total rl_qty (r_lines row) = total asked (q_lines req) /\
    (forall k, reserved d' k = reserved d k + lines_at t k (r_lines row) /\ reserved d' k <= on_hand d' k /\
       on_hand d' k = on_hand d k /\ in_transit d' k = in_transit d k) /\
    books d' /\ holds d' /\ untouched d d' /\
    request_of row = (t, q_callerService req, trim (default "" key), r_sha256 row).
Proof.
  intros HB HH Huuid. unfold reserveWarehouseStock. intros H. case_if_in H; [done|]. inv_tx.
  pose proof (normalize_total _ _ _ _ _ Ha) as [Htot Htxt]. apply normalize_positive in Ha as [-> Hpos].
  case_if_in H; [done|]. case_if_in H; [done|]. inv_tx. destruct (find_by_key _ _ _ _) as [[i row]|].
  { case_if_in H; [done|]. unfold loadWarehouseReservationResponse in H. inv_tx. done. }
  inv_tx. apply hold_new_spec in Ha as (lines & P1 & P2 & P3 & P4 & P5 & P6 & P7 & P8 & P9 & P10); try done.
  match type of P2 with holds ?x => rename x into dn end.
  exists (new_row t (trim (default "" key)) req (hashReservationRequest sha256 req a) now lines).
  assert (Hres : forall k, reserved dn k = reserved d k + lines_at t k (map stored_line lines)).
  { intros k. rewrite (holds_exact _ P2), (holds_exact _ HH). unfold held. rewrite P6, msum_insert_new by done.
    by rewrite row_held_open. }
  split_and!; try done.
  - cbn. rewrite <- Htot, <- P8. unfold total. by rewrite map_map.
  - intros k. rewrite Hres, P4. split_and!; [done | | done | apply P3].
    rewrite <- P4, <- Hres. unfold reserved, on_hand.
    destruct (stock_balance dn !! k) as [b|] eqn:Eb; cbn; [|done]. apply (row_reserved _ (books_rows _ P1 _ _ Eb)).
Qed.

(** ** What the holds promise *)

(** A warehouse hold is exact.  On a store in order, an accepted new hold
    writes one HELD reservation under the fresh id, for exactly the total quantity
    the request asks for (merged, resolved to the branch's warehouse and to catalog
    ids); every reserved quantity grows by that hold's lines and stays within what
    is on hand, nothing leaves the shelf or the road, and the store is in order
    again. *)
Theorem warehouse_hold_exact (localeCompare : string -> string -> Z) (sha256 : RequestDigest -> string)
    t key req uuid now d resp d' :
  books d -> holds d -> as_uuid uuid = uuid ->
  reserveWarehouseStock localeCompare sha256 t key req uuid now d = Ok ((resp, false), d') ->
  exists row,
    warehouse_reservation d !! uuid = None /\
    warehouse_reservation d' = <[uuid := row]> (warehouse_reservation d) /\
    r_state row = HELD /\ r_tenant row = t /\ rr_id resp = uuid /\
    total rl_qty (r_lines row) = total asked (q_lines req) /\
    (forall k, reserved d' k = reserved d k + lines_at t k (r_lines row) /\ reserved d' k <= on_hand d' k /\
       on_hand d' k = on_hand d k /\ in_transit d' k = in_transit d k) /\
    books d' /\ holds d'.
Proof.
  intros HB HH Huuid H.
  destruct (reserve_new_spec _ _ _ _ _ _ _ _ _ _ HB HH Huuid H) as (row & P1 & P2 & P3 & P4 & P5 & P6 & P7 & P8 & P9 & _).
  by exists row.
Qed.

(** A held quantity can always be settled, once.  On a store in order every
    HELD reservation can be committed and can be released, neither ever fails:
    committing takes exactly its lines off the shelf and off the reserved
    quantities, releasing takes them off the reserved quantities only.  The store is
    in order again, committing again changes nothing, and a committed reservation
    cannot be released. *)
Theorem warehouse_hold_can_be_settled d id row (f : option string) :
  books d -> holds d -> warehouse_reservation d !! as_uuid id = Some row -> r_state row = HELD ->
  (exists d', commitWarehouseReservation (r_tenant row) id f d = Ok (response_of d' (as_uuid id) (set_state COMMITTED row), d') /\
     (forall k, on_hand d' k = on_hand d k - lines_at (r_tenant row) k (r_lines row) /\
                reserved d' k = reserved d k - lines_at (r_tenant row) k (r_lines row)) /\
     books d' /\ holds d' /\
     (exists resp, commitWarehouseReservation (r_tenant row) id f d' = Ok (resp, d')) /\
     releaseWarehouseReservation (r_tenant row) id d' = Throw (DomainError (HttpException "INVALID_RESERVATION_STATE") 409)) /\
  (exists d', releaseWarehouseReservation (r_tenant row) id d = Ok (response_of d' (as_uuid id) (set_state RELEASED row), d') /\
     (forall k, on_hand d' k = on_hand d k /\
                reserved d' k = reserved d k - lines_at (r_tenant row) k (r_lines row)) /\
     books d' /\ holds d').
Proof.
  intros HB HH Hr Hst. split.
  - destruct (commit_run d id row f HB HH Hr Hst) as (d' & E & P1 & P2 & P3 & P4 & P5 & P6).
    exists d'. split_and!; [exact E | by intros k; rewrite P4, P5 | done | done | |].
    + eexists. unfold commitWarehouseReservation.
      erewrite tx_bind_run by (apply select_reservation_run; [by rewrite P6, lookup_insert_eq | done]). done.
    + unfold releaseWarehouseReservation.
      erewrite tx_bind_run by (apply select_reservation_run; [by rewrite P6, lookup_insert_eq | done]). done.
  - destruct (give_back_run d (as_uuid id) row RELEASED HB HH Hr Hst ltac:(done)) as (d' & E & P1 & P2 & P3 & P4 & P5 & P6).
    exists d'. split_and!; [|by intros k; rewrite P4, P5 | done | done].
    unfold releaseWarehouseReservation. erewrite tx_bind_run by (by apply select_reservation_run).
    cbv beta iota zeta. rewrite Hst.
    rewrite (bool_decide_eq_false_2 (HELD = RELEASED)), (bool_decide_eq_false_2 (HELD = EXPIRED)),
      (bool_decide_eq_false_2 (HELD = COMMITTED)) by done. cbn [orb]. by rewrite (tx_bind_run _ _ _ _ _ E).
Qed.

Section Expiry.
Lemma expire_run d id row now : books d -> holds d -> warehouse_reservation d !! id = Some row -> is_due now row = true ->
  exists d', expireWarehouseReservation (r_tenant row) id now d = Ok (true, d') /\ books d' /\ holds d' /\ untouched d d' /\
    (forall k, on_hand d' k = on_hand d k) /\
    warehouse_reservation d' = <[id := set_state EXPIRED row]> (warehouse_reservation d).
Proof.
  intros HB HH Hr Hdue. pose proof (holds_ids _ HH id row Hr) as Hid.
  assert (Hst : r_state row = HELD) by (unfold is_due in Hdue; bool_prop; done).
  destruct (give_back_run d id row EXPIRED HB HH Hr Hst ltac:(done)) as (d' & E & P1 & P2 & P3 & P4 & P5 & P6).
  exists d'. split; [|done]. unfold expireWarehouseReservation.
  erewrite tx_bind_run by (apply select_reservation_run; [by rewrite Hid | done]). cbv beta iota. rewrite Hdue, Hid.
  by rewrite (tx_bind_run _ _ _ _ _ E).
Qed.

(** One pass of the job over rows that are due, each once. *)
Lemma expire_pass now rows d n :
  books d -> holds d -> NoDup rows.*1 ->
  (forall e, e ∈ rows -> exists r, warehouse_reservation d !! e.1 = Some r /\ r_tenant r = e.2 /\ is_due now r = true) ->
  exists d', foldl (expire_job_step now) (d, n) rows = (d', n + Z.of_nat (length rows)) /\ books d' /\ holds d' /\
    (forall k, on_hand d' k = on_hand d k) /\
    (forall i r, warehouse_reservation d !! i = Some r ->
       warehouse_reservation d' !! i = Some (if decide (i ∈ rows.*1) then set_state EXPIRED r else r)).
Proof.
  revert d n. induction rows as [|e rows IH]; intros d n HB HH Hnd Hrows.
  - exists d. cbn. rewrite Z.add_0_r. split_and!; [done..|]. intros i r Hr. rewrite decide_False; [done | apply not_elem_of_nil].
  - destruct (Hrows e ltac:(left)) as (r & Hr & Ht & Hdue). rewrite fmap_cons in Hnd. apply NoDup_cons in Hnd as [Hnin Hnd].
    destruct (expire_run d e.1 r now HB HH Hr Hdue) as (d1 & E & P1 & P2 & P3 & P4 & P5).
    destruct (IH d1 (n + 1) P1 P2 Hnd) as (d' & F & Q1 & Q2 & Q3 & Q4).
    { intros e' He'. destruct (Hrows e' ltac:(by right)) as (r' & Hr' & Ht' & Hd'). exists r'. rewrite P5, lookup_insert_ne; [done|].
      intros Ee. apply Hnin. rewrite Ee. by apply list_elem_of_fmap_2. }
    exists d'. cbn [foldl]. unfold expire_job_step at 2. cbn. rewrite <- Ht, E, F. split; [f_equal; lia|].
    split_and!; [done | done | intros k; by rewrite Q3, P4 |]. intros i x Hx.
    destruct (decide (e.1 = i)) as [<-|Hne].
    + rewrite (Q4 e.1 (set_state EXPIRED r)) by (by rewrite P5, lookup_insert_eq). rewrite decide_False by done.
      rewrite decide_True by left. by simplify_eq.
    + rewrite (Q4 i x) by (by rewrite P5, lookup_insert_ne). f_equal.
      destruct (decide (i ∈ rows.*1)); [by rewrite decide_True by (by right)|]. rewrite decide_False; [done|].
      rewrite ?fmap_cons, not_elem_of_cons. split; [congruence | done].
Qed.
End Expiry.

(** The holds that are past their time. *)
Definition due_count (d : db) (now : Z) : nat :=
  length (List.filter (fun e => is_due now e.2 && true) (map_to_list (warehouse_reservation d))).

(** C30.  The expiry job gives back every warehouse hold past its time.  When its
    limit covers the holds that are due and no other transaction has one of them
    locked (a locked one is skipped for a later run), one run expires each of them
    (none fails), reports their number and leaves every other reservation as it was; a hold
    without an expiry is never due.  Nothing leaves the shelf, and the reserved
    quantities are again exactly what the remaining holds keep. *)
Theorem warehouse_expiry_returns_due_holds d now limit :
  books d -> holds d -> (due_count d now <= limit)%nat ->
  let (d', n) := expireDueWarehouseReservationsOfAllTenants d now limit in
  n = Z.of_nat (due_count d now) /\
  (forall i r, warehouse_reservation d !! i = Some r ->
     warehouse_reservation d' !! i = Some (if is_due now r then set_state EXPIRED r else r)) /\
  (forall r, r_expires_at r = None -> is_due now r = false) /\
  (forall k, on_hand d' k = on_hand d k /\ reserved d' k = held d' k) /\ books d'.
Proof.
  intros HB HH Hlim. unfold expireDueWarehouseReservationsOfAllTenants, due_rows.
  set (due := List.filter _ (map_to_list _)). set (sorted := sort_by _ due).
  assert (Hs : sorted ≡ₚ due) by apply sort_by_perm.
  rewrite take_ge by (rewrite (Permutation_length Hs); exact Hlim).
  assert (Hin : forall i r, (i, r) ∈ sorted <-> warehouse_reservation d !! i = Some r /\ is_due now r = true).
  { intros i r. rewrite Hs. unfold due. rewrite list_elem_of_In, filter_In, <- list_elem_of_In, elem_of_map_to_list. cbn.
    rewrite andb_true_r. done. }
  destruct (expire_pass now (map (fun e => (e.1, r_tenant e.2)) sorted) d 0 HB HH) as (d' & E & P1 & P2 & P3 & P4).
  - rewrite <- list_fmap_compose. change (NoDup (sorted.*1)). rewrite Hs.
    eapply sublist_NoDup; [apply (NoDup_fst_map_to_list (warehouse_reservation d))|].
    apply fmap_sublist. unfold due. clear. induction (map_to_list _) as [|x l IH]; cbn; [constructor|].
    destruct (_ && _); by constructor.
  - intros e ([i r] & -> & [Hi Hd]%Hin)%list_elem_of_fmap. by exists r.
  - rewrite E, length_map, (Permutation_length Hs). split_and!; [unfold due_count; fold due; lia | | | | done].
    + intros i r Hi. rewrite (P4 i r Hi). f_equal. rewrite <- list_fmap_compose. change (list_fmap _ _ _ sorted) with (sorted.*1).
      destruct (is_due now r) eqn:Ed.
      * rewrite decide_True; [done|]. apply list_elem_of_fmap. exists (i, r). by rewrite Hin.
      * rewrite decide_False; [done|]. intros ([j x] & -> & [Hj Hx]%Hin)%list_elem_of_fmap. cbn in Hi. simplify_eq. by rewrite Hx in Ed.
    + intros r Hr. unfold is_due. by rewrite Hr, andb_false_r.
    + intros k. split; [done|]. apply (holds_exact _ P2).
Qed.

(** ** Examples *)

Lemma sample_holds : holds sample_db.
Proof.
  split; cbn [warehouse_reservation sample_db]; [|apply map_Forall_empty..|by intros ????].
  intros k. unfold held, reserved. cbn [warehouse_reservation stock_balance sample_db]. rewrite msum_empty.
  destruct (decide (("t1", "w1", "s1") = k)) as [<-|]; [by rewrite lookup_singleton_eq | by rewrite lookup_singleton_ne].
Qed.

Definition sample_sha (h : RequestDigest) : string :=
  h_callerService h +:+ "|" +:+ h_sourceRefType h +:+ "|" +:+ h_sourceRefId h +:+ "|" +:+ default "" (h_branchId h) +:+
  "|" +:+ (if h_noExpiry h then "1" else "0") +:+ "|" +:+
  foldr (fun l acc => l.1.1 +:+ ":" +:+ l.1.2 +:+ ":" +:+ l.2 +:+ ";" +:+ acc) "" (h_lines h).

(** Two lines of one SKU, one by its code, from the branch's default warehouse. *)
Definition sample_request : CreateWarehouseReservationRequest :=
  {| q_callerService := "sales"; q_sourceRefType := "ORDER"; q_sourceRefId := "o1"; q_branchId := Some "b1";
     q_ttlSeconds := None; q_noExpiry := false;
     q_lines := [ {| li_warehouseId := None; li_skuId := "s1"; li_qty := "2" |};
                  {| li_warehouseId := None; li_skuId := "TEE-01"; li_qty := "1.500" |} ] |}.

(** The store after the hold: the reserved quantity, the alert (minimum 8) and the reservation. *)
Definition sample_held : db :=
  match reserveWarehouseStock text_order sample_sha "t1" (Some "key-1") sample_request "h1" 1000 sample_db with
  | Ok (_, d) => d | Throw _ => sample_db end.

Lemma sample_held_ok : exists resp,
  reserveWarehouseStock text_order sample_sha "t1" (Some "key-1") sample_request "h1" 1000 sample_db = Ok ((resp, false), sample_held).
Proof.
  unfold sample_held.
  destruct (reserveWarehouseStock text_order sample_sha "t1" (Some "key-1") sample_request "h1" 1000 sample_db) as [[[resp b] d]|e] eqn:E.
  - exists resp. assert (Hb : b = false); [|by rewrite Hb].
    assert (Hx : (fst <$> reserveWarehouseStock text_order sample_sha "t1" (Some "key-1") sample_request "h1" 1000 sample_db) = Ok (resp, b))
      by (by rewrite E). revert Hx. vm_compute. by intros [= _ <-].
  - exfalso. assert (Hx : is_ok (reserveWarehouseStock text_order sample_sha "t1" (Some "key-1") sample_request "h1" 1000 sample_db) = false)
      by (by rewrite E). revert Hx. by vm_compute.
Qed.

Lemma sample_held_inv : books sample_held /\ holds sample_held.
Proof.
  destruct sample_held_ok as [resp E].
  destruct (reserve_new_spec _ _ _ _ _ _ _ _ _ _ sample_books sample_holds eq_refl E) as (row & _ & _ & _ & _ & _ & _ & _ & P1 & P2 & _). exact (conj P1 P2).
Qed.

Example sample_held_reserved : reserved sample_held ("t1", "w1", "s1") = 3500.
Proof. vm_compute. reflexivity. Qed.

Lemma warehouse_hold_exact_witness : exists row,
  warehouse_reservation sample_held = <["h1" := row]> (warehouse_reservation sample_db) /\
  total rl_qty (r_lines row) = 3500 /\ books sample_held.
Proof.
  destruct sample_held_ok as [resp E].
  destruct (warehouse_hold_exact text_order sample_sha "t1" (Some "key-1") sample_request "h1" 1000 sample_db resp sample_held
    sample_books sample_holds eq_refl E) as (row & _ & H1 & _ & _ & _ & H2 & _ & H3 & _).
  exists row. split; [exact H1 | split; [|exact H3]]. rewrite H2. vm_compute. reflexivity.
Defined.

Lemma warehouse_hold_can_be_settled_witness : exists row d',
  commitWarehouseReservation "t1" "h1" None sample_held = Ok (response_of d' (as_uuid "h1") (set_state COMMITTED row), d') /\ books d'.
Proof.
  destruct (warehouse_reservation sample_held !! as_uuid "h1") as [row|] eqn:E; [|exfalso; revert E; vm_compute; discriminate].
  destruct (warehouse_hold_can_be_settled sample_held "h1" row None (proj1 sample_held_inv) (proj2 sample_held_inv) E)
    as [(d' & H1 & _ & H2 & _) _].
  - revert E. vm_compute. by intros [= <-].
  - assert (Ht : r_tenant row = "t1") by (revert E; vm_compute; by intros [= <-]). rewrite Ht in H1. exists row, d'. exact (conj H1 H2).
Defined.

Lemma warehouse_expiry_returns_due_holds_witness :
  let (d', n) := expireDueWarehouseReservationsOfAllTenants sample_held 2000000 50 in
  n = 1 /\ reserved d' ("t1", "w1", "s1") = 0 /\ books d'.
Proof.
  pose proof (warehouse_expiry_returns_due_holds sample_held 2000000 50 (proj1 sample_held_inv) (proj2 sample_held_inv)) as H.
  assert (Hc : due_count sample_held 2000000 = 1%nat) by (vm_compute; reflexivity). rewrite Hc in H. specialize (H ltac:(lia)).
  assert (Hr : reserved (expireDueWarehouseReservationsOfAllTenants sample_held 2000000 50).1 ("t1", "w1", "s1") = 0)
    by (vm_compute; reflexivity).
  destruct (expireDueWarehouseReservationsOfAllTenants sample_held 2000000 50) as [d' n].
  destruct H as (H1 & _ & _ & _ & H2). exact (conj H1 (conj Hr H2)).
Defined.
