(* ===== verification/StockTransfers.v ===== *)
(** * Inventory service: stock transfers between warehouses

    apps/inventory/src/modules/transfers/transfers.service.ts: a transfer is
    drafted, dispatched (the units leave the source and are in transit to the
    destination), received in parts with a record of what was lost, and can be
    cancelled (what is still on the road returns).  Users, notes and timestamps of
    the header are left out; the response a handler returns is a read of what it
    wrote and is left out too. *)

From S2P Require Import Prelude Transaction JsNumber JsString InventoryDomain WarehouseStore.
From Stdlib Require Import Ascii.

Open Scope Z_scope.

Definition status_text (s : TransferStatus) : string :=
  match s with
  | T_DRAFT => "DRAFT" | T_DISPATCHED => "DISPATCHED" | T_PARTIALLY_RECEIVED => "PARTIALLY_RECEIVED"
  | T_RECEIVED => "RECEIVED" | T_DISCREPANCY => "DISCREPANCY" | T_CANCELLED => "CANCELLED"
  end.

(** ** Rows *)

Definition with_status (t : TransferRow) (s : TransferStatus) : TransferRow :=
  {| t_tenant := t_tenant t; t_code := t_code t; t_from := t_from t; t_to := t_to t; t_status := s; t_items := t_items t |}.

Definition with_items (t : TransferRow) (l : list TransferItem) : TransferRow :=
  {| t_tenant := t_tenant t; t_code := t_code t; t_from := t_from t; t_to := t_to t; t_status := t_status t; t_items := l |}.

(** The CHECK constraint of [stock_transfer_item]. *)
Definition check_item (i : TransferItem) : bool :=
  (0 <? ti_transfer i) && (0 <=? ti_dispatched i) && (0 <=? ti_received i) && (0 <=? ti_discrepancy i) &&
  (ti_received i + ti_discrepancy i <=? ti_dispatched i) && (0 <=? ti_cost i) &&
  numeric_18_3 (ti_transfer i) && numeric_18_3 (ti_dispatched i) && numeric_18_3 (ti_received i) &&
  numeric_18_3 (ti_discrepancy i) && int8 (ti_cost i).

Definition select_transfer (tenantId id : string) : tx (option TransferRow) :=
  gets (fun d => match stock_transfer d !! as_uuid id with
                 | Some t => if String.eqb (t_tenant t) tenantId then Some t else None
                 | None => None end).

(** The header, or a 404. *)
Definition transfer_header (tenantId id : string) : tx TransferRow :=
  row ← select_transfer tenantId id;
  match row with Some t => mret t | None => domain_error TRANSFER_NOT_FOUND 404 end.

(** [UPDATE stock_transfer SET status]. *)
Definition set_transfer_status (id : string) (s : TransferStatus) : tx unit :=
  modify (fun d => match stock_transfer d !! id with Some t => set_transfer id (with_status t s) d | None => d end).

(** [UPDATE stock_transfer_item ... WHERE id]: the line of one SKU (unique in a transfer). *)
Definition update_item (id sku : string) (f : TransferItem -> TransferItem) : tx unit :=
  rows ← gets stock_transfer;
  match rows !! id with
  | None => mret tt
  | Some t =>
      let items := map (fun i => if String.eqb (ti_sku i) sku then f i else i) (t_items t) in
      if forallb check_item items then modify (set_transfer id (with_items t items)) else query_failed
  end.

Definition insert_item (id : string) (i : TransferItem) : tx unit :=
  rows ← gets stock_transfer;
  match rows !! id with
  | None => query_failed
  | Some t =>
      if negb (existsb (fun j => String.eqb (ti_sku j) (ti_sku i)) (t_items t)) && check_item i
      then modify (set_transfer id (with_items t (t_items t ++ [i]))) else query_failed
  end.

Definition by_sku (l : list TransferItem) : list TransferItem := sort_by (fun a b => text_order (ti_sku a) (ti_sku b)) l.

(** ** createTransfer *)

Record CreateStockTransferDto := {
  ct_from : string; ct_to : string; ct_code : option string; ct_items : list (string * string) }.

(** [code] of a document: the one given, normalized, or a prefix and the id. *)
Definition document_code (prefix : string) (code : option string) (id : string) : tx string :=
  match code with
  | Some c => if String.eqb c "" then mret (prefix +:+ toUpperCase (String.substring 0 8 id))
              else domain (normalizeInventoryCode c)
  | None => mret (prefix +:+ toUpperCase (String.substring 0 8 id))
  end.

Definition insert_transfer (id : string) (t : TransferRow) : tx unit :=
  d ← gets (fun d => d);
  if bool_decide (is_Some (stock_transfer d !! id)) || String.eqb (t_from t) (t_to t) ||
     existsb (fun e => String.eqb (t_tenant e.2) (t_tenant t) && String.eqb (t_code e.2) (t_code t)) (map_to_list (stock_transfer d))
  then query_failed else modify (set_transfer id t).

Section Create.
Context (localeCompare : string -> string -> Z).

Definition createTransfer (tenantId : string) (dto : CreateStockTransferDto) (canApprove : bool) (uuid : string) : tx unit :=
  domain (assertValidStockTransferWarehouses (ct_from dto) (ct_to dto)) ;;
  from ← assertActiveWarehouse tenantId (ct_from dto);
  to ← assertActiveWarehouse tenantId (ct_to dto);
  domain (assertTransferKindsAllowed (wh_kind from) (wh_kind to) canApprove) ;;
  normalized ← domain (normalizeAndSortWarehouseLines localeCompare
    (map (fun i => {| in_warehouseId := ct_from dto; in_skuId := i.1; in_qty := VStr i.2 |}) (ct_items dto)));
  code ← document_code "TRF-" (ct_code dto) uuid;
  insert_transfer uuid {| t_tenant := tenantId; t_code := code; t_from := as_uuid (ct_from dto); t_to := as_uuid (ct_to dto);
                          t_status := T_DRAFT; t_items := [] |} ;;
  for_each (fun _ line => insert_item uuid {| ti_sku := as_uuid (n_skuId line); ti_transfer := n_qtyMilli line;
    ti_dispatched := 0; ti_received := 0; ti_discrepancy := 0; ti_cost := 0 |}) tt normalized.
End Create.

(** ** dispatchTransfer *)

(** What the first pass read of a source balance. *)
Record SourceBalance := { sb_onHand : Z; sb_reserved : Z; sb_avgCost : number }.

(** Lock the balance a line is taken from and check what is free: a shortage sets
    the flag, a covered line records what was read. *)
Definition lock_available (tenantId wh : string) (s : list (string * SourceBalance) * bool) (sku : string) (qty : Z)
    : tx (list (string * SourceBalance) * bool) :=
  reqMilli ← read_pos qty;
  row ← select_balance (tenantId, wh, sku);
  onHandMilli ← match row with Some b => read_qty (on_hand_qty b) | None => mret 0 end;
  reservedMilli ← match row with Some b => read_qty (reserved_qty b) | None => mret 0 end;
  if onHandMilli - reservedMilli <? reqMilli then mret (s.1, true)
  else
    match row with
    | None => type_error
    | Some b =>
        avg ← read_money (avg_unit_cost b);
        mret (mset sku {| sb_onHand := onHandMilli; sb_reserved := reservedMilli; sb_avgCost := avg |} s.1, s.2)
    end.

Definition source_step (tenantId from : string) (s : list (string * SourceBalance) * bool) (item : TransferItem)
    : tx (list (string * SourceBalance) * bool) :=
  lock_available tenantId from s (ti_sku item) (ti_transfer item).

Definition set_on_hand (q value : Z) (b : BalanceRow) : BalanceRow :=
  {| on_hand_qty := q; reserved_qty := reserved_qty b; in_transit_qty := in_transit_qty b;
     avg_unit_cost := avg_unit_cost b; valuation_amount := value; row_version := row_version b + 1 |}.

Definition add_transit (q : Z) (b : BalanceRow) : BalanceRow :=
  {| on_hand_qty := on_hand_qty b; reserved_qty := reserved_qty b; in_transit_qty := in_transit_qty b + q;
     avg_unit_cost := avg_unit_cost b; valuation_amount := valuation_amount b; row_version := row_version b + 1 |}.

Definition new_in_transit (q : Z) : BalanceRow :=
  {| on_hand_qty := 0; reserved_qty := 0; in_transit_qty := q; avg_unit_cost := 0; valuation_amount := 0; row_version := 1 |}.

Definition set_dispatched (q cost : Z) (i : TransferItem) : TransferItem :=
  {| ti_sku := ti_sku i; ti_transfer := ti_transfer i; ti_dispatched := q; ti_received := ti_received i;
     ti_discrepancy := ti_discrepancy i; ti_cost := cost |}.

Definition dispatch_step (tenantId id : string) (header : TransferRow) (sources : list (string * SourceBalance))
    (_ : unit) (item : TransferItem) : tx unit :=
  match mget (ti_sku item) sources with
  | None => type_error
  | Some src =>
      let k := (tenantId, t_from header, ti_sku item) in
      q ← read_pos (ti_transfer item);
      valuation ← domain (computeValuationAfterDeduction (VStr (formatMilliToQty (sb_onHand src))) (VNum (sb_avgCost src))
                            (VStr (formatMilliToQty q)));
      before ← read_qty (sb_onHand src);
      heldBefore ← read_qty (sb_reserved src);
      emitBelowMinOnCrossing k (before - heldBefore) (before - heldBefore - q) ;;
      update_balance k (fun b => q <=? on_hand_qty b - reserved_qty b)
        (set_on_hand (newOnHandMilli valuation) (nval (newValuationAmount valuation))) ;;
      upsert_balance (tenantId, t_to header, ti_sku item) (new_in_transit q) (add_transit q) ;;
      update_item id (ti_sku item) (set_dispatched q (nval (sb_avgCost src))) ;;
      insert_ledger {| l_key := k; l_type := TRANSFER_DISPATCH; l_before := sb_onHand src; l_delta := - q;
        l_after := newOnHandMilli valuation; l_reserved_after := sb_reserved src; l_unit_cost := nval (sb_avgCost src);
        l_avg_cost_after := nval (newAvgUnitCost valuation); l_ref_type := "STOCK_TRANSFER"; l_ref_id := id;
        l_reversal_of := None |} ;;
      outbox_add (StockChanged k TRANSFER_DISPATCH (- q) (newOnHandMilli valuation) (sb_reserved src) "STOCK_TRANSFER" id)
  end.

Definition dispatchTransfer (tenantId transferId : string) : tx unit :=
  header ← transfer_header tenantId transferId;
  let id := as_uuid transferId in
  domain (assertCanDispatchStockTransfer (status_text (t_status header))) ;;
  assertActiveWarehouse tenantId (t_from header) ;;
  assertActiveWarehouse tenantId (t_to header) ;;
  let items := by_sku (t_items header) in
  '(sources, short) ← for_each (source_step tenantId (t_from header)) ([], false) items;
  if (short : bool) then domain_error INSUFFICIENT_STOCK 409
  else
    for_each (dispatch_step tenantId id header sources) tt items ;;
    set_transfer_status id T_DISPATCHED ;;
    outbox_add (TransferEvent T_DISPATCHED id).

(** ** receiveTransfer *)

Record ReceiveLine := { rv_sku : string; rv_received : string; rv_discrepancy : option string }.
Record ReceiveStockTransferDto := { rd_items : list ReceiveLine; rd_resolve : bool }.

(** One line per SKU: the first pass over the request. *)
Fixpoint duplicate_sku (seen : list string) (l : list ReceiveLine) : bool :=
  match l with
  | [] => false
  | x :: l => existsb (String.eqb (rv_sku x)) seen || duplicate_sku (rv_sku x :: seen) l
  end.

(** The default request: everything still on the road. *)
Definition remaining_line (i : TransferItem) : tx ReceiveLine :=
  dispatched ← read_qty (ti_dispatched i);
  received ← read_qty (ti_received i);
  discrepancy ← read_qty (ti_discrepancy i);
  let rem := dispatched - received - discrepancy in
  mret {| rv_sku := ti_sku i; rv_received := formatMilliToQty (if 0 <? rem then rem else 0); rv_discrepancy := Some "0.000" |}.

Definition incoming_lines (dto : option ReceiveStockTransferDto) (items : list TransferItem) : tx (list ReceiveLine) :=
  match dto with
  | Some {| rd_items := (_ :: _) as l |} => mret l
  | _ => for_each (fun out i => l ← remaining_line i; mret (out ++ [l])) [] items
  end.

Definition resolves (dto : option ReceiveStockTransferDto) : bool :=
  match dto with Some d => rd_resolve d | None => false end.

Definition receive_into (received cleared avg value : Z) (b : BalanceRow) : BalanceRow :=
  {| on_hand_qty := on_hand_qty b + received; reserved_qty := reserved_qty b; in_transit_qty := in_transit_qty b - cleared;
     avg_unit_cost := avg; valuation_amount := value; row_version := row_version b + 1 |}.

Definition set_received (r x : Z) (i : TransferItem) : TransferItem :=
  {| ti_sku := ti_sku i; ti_transfer := ti_transfer i; ti_dispatched := ti_dispatched i; ti_received := r;
     ti_discrepancy := x; ti_cost := ti_cost i |}.

(** The line of a SKU as it is now ([SELECT ... FOR UPDATE] per request line). *)
Definition find_item (id sku : string) (d : db) : option TransferItem :=
  match stock_transfer d !! id with
  | Some t => List.find (fun i => String.eqb (ti_sku i) (as_uuid sku)) (t_items t)
  | None => None
  end.

(** The movement of what was received: new average cost and value, ledger row and event. *)
Definition receipt_movement (k : balance_key) (id : string) (oldOnHand oldReserved : Z) (oldAvg unitCost oldValue : number)
    (receiveNow : Z) : tx (number * number) :=
  if 0 <? receiveNow then
    valuation ← domain (computeWeightedAverageCostOnReceipt (VStr (formatMilliToQty oldOnHand)) (VNum oldAvg)
                          (VStr (formatMilliToQty receiveNow)) (VNum unitCost));
    insert_ledger {| l_key := k; l_type := TRANSFER_RECEIPT; l_before := oldOnHand; l_delta := receiveNow;
      l_after := newOnHandMilli valuation; l_reserved_after := oldReserved; l_unit_cost := nval unitCost;
      l_avg_cost_after := nval (newAvgUnitCost valuation); l_ref_type := "STOCK_TRANSFER"; l_ref_id := id;
      l_reversal_of := None |} ;;
    outbox_add (StockChanged k TRANSFER_RECEIPT receiveNow (newOnHandMilli valuation) oldReserved "STOCK_TRANSFER" id) ;;
    mret (newAvgUnitCost valuation, newValuationAmount valuation)
  else mret (oldAvg, oldValue).

Definition receive_step (tenantId id : string) (header : TransferRow) (resolve : bool) (_ : unit) (line : ReceiveLine) : tx unit :=
  item ← gets (find_item id (rv_sku line));
  match item with
  | None => domain_error TRANSFER_QUANTITY_MISMATCH 409
  | Some item =>
      dispatched ← read_qty (ti_dispatched item);
      prevReceived ← read_qty (ti_received item);
      prevDiscrepancy ← read_qty (ti_discrepancy item);
      let remaining := dispatched - prevReceived - prevDiscrepancy in
      receiveNow ← domain (parseQtyToMilli (VStr (rv_received line)) true false);
      discrepancyNow ← domain (parseQtyToMilli (VStr (default "0.000" (rv_discrepancy line))) true false);
      let cleared := receiveNow + discrepancyNow in
      if (cleared <=? 0) && negb resolve then domain_error TRANSFER_QUANTITY_MISMATCH 409
      else if remaining <? cleared then domain_error TRANSFER_QUANTITY_MISMATCH 409
      else
        let k := (tenantId, t_to header, as_uuid (rv_sku line)) in
        row ← select_balance k;
        inTransit ← match row with Some b => read_qty (in_transit_qty b) | None => mret 0 end;
        if inTransit <? cleared then domain_error TRANSFER_QUANTITY_MISMATCH 409
        else
          oldOnHand ← match row with Some b => read_qty (on_hand_qty b) | None => mret 0 end;
          oldReserved ← match row with Some b => read_qty (reserved_qty b) | None => mret 0 end;
          oldAvg ← match row with Some b => read_money (avg_unit_cost b) | None => mret (int 0) end;
          oldValue ← match row with Some b => read_money (valuation_amount b) | None => mret (int 0) end;
          unitCost ← read_money (ti_cost item);
          costs ← receipt_movement k id oldOnHand oldReserved oldAvg unitCost oldValue receiveNow;
          when (0 <? cleared)
            (update_balance k (fun _ => true) (receive_into receiveNow cleared (nval costs.1) (nval costs.2)) ;; mret tt) ;;
          update_item id (ti_sku item) (set_received (prevReceived + receiveNow) (prevDiscrepancy + discrepancyNow))
  end.

(** [rec + disc < disp] for some line; [disc > 0] for some line. *)
Definition next_status (items : list TransferItem) (resolve : bool) : TransferStatus :=
  if existsb (fun i => ti_received i + ti_discrepancy i <? ti_dispatched i) items then T_PARTIALLY_RECEIVED
  else if existsb (fun i => 0 <? ti_discrepancy i) items && negb resolve then T_DISCREPANCY
  else T_RECEIVED.

(** The loss of a line: an in/out pair at the destination at the dispatch cost. *)
Definition loss_step (tenantId id : string) (header : TransferRow) (_ : unit) (item : TransferItem) : tx unit :=
  let k := (tenantId, t_to header, ti_sku item) in
  lost ← read_pos (ti_discrepancy item);
  cost ← read_money (ti_cost item);
  row ← select_balance k;
  onHand ← read_qty (from_option on_hand_qty 0 row);
  held ← read_qty (from_option reserved_qty 0 row);
  avg ← read_money (from_option avg_unit_cost 0 row);
  let entry ty before delta after :=
    {| l_key := k; l_type := ty; l_before := before; l_delta := delta; l_after := after; l_reserved_after := held;
       l_unit_cost := nval cost; l_avg_cost_after := nval avg; l_ref_type := "STOCK_TRANSFER"; l_ref_id := id;
       l_reversal_of := None |} in
  insert_ledger (entry TRANSFER_LOST_IN onHand lost (onHand + lost)) ;;
  insert_ledger (entry TRANSFER_LOSS (onHand + lost) (- lost) onHand) ;;
  outbox_add (StockChanged k TRANSFER_LOSS (- lost) onHand held "STOCK_TRANSFER" id).

Definition writeTransferLosses (tenantId id : string) (header : TransferRow) : tx unit :=
  items ← gets (fun d => from_option t_items [] (stock_transfer d !! id));
  for_each (loss_step tenantId id header) tt (by_sku (List.filter (fun i => 0 <? ti_discrepancy i) items)).

Definition receivable (s : TransferStatus) : bool :=
  includes ["DISPATCHED"; "PARTIALLY_RECEIVED"; "DISCREPANCY"] (status_text s).

Definition receiveTransfer (tenantId transferId : string) (dto : option ReceiveStockTransferDto) : tx unit :=
  if duplicate_sku [] (from_option rd_items [] dto) then domain_error TRANSFER_DUPLICATE_SKU 422
  else
    header ← transfer_header tenantId transferId;
    let id := as_uuid transferId in
    if negb (receivable (t_status header)) then domain_error TRANSFER_INVALID_STATE 409
    else
      assertActiveWarehouse tenantId (t_to header) ;;
      lines ← incoming_lines dto (by_sku (t_items header));
      for_each (receive_step tenantId id header (resolves dto)) tt lines ;;
      items ← gets (fun d => from_option t_items [] (stock_transfer d !! id));
      let nextStatus := next_status items (resolves dto) in
      when (bool_decide (nextStatus = T_RECEIVED) && resolves dto) (writeTransferLosses tenantId id header) ;;
      set_transfer_status id nextStatus ;;
      outbox_add (TransferEvent nextStatus id).

(** ** cancelTransfer *)

(** The ledger row a cancellation reverses: the latest dispatch of the SKU. *)
Definition dispatch_row (ledger : list LedgerRow) (k : balance_key) (id : string) : option nat :=
  foldl (fun best e =>
    if bool_decide (l_key e.2 = k) && bool_decide (l_type e.2 = TRANSFER_DISPATCH) &&
       String.eqb (l_ref_type e.2) "STOCK_TRANSFER" && String.eqb (l_ref_id e.2) id
    then Some e.1 else best) None (imap (fun i r => (i, r)) ledger).

Definition returned_balance (q avg value : Z) (b : BalanceRow) : BalanceRow :=
  {| on_hand_qty := on_hand_qty b + q; reserved_qty := reserved_qty b; in_transit_qty := in_transit_qty b;
     avg_unit_cost := avg; valuation_amount := value; row_version := row_version b + 1 |}.

Definition new_balance (q avg value : Z) : BalanceRow :=
  {| on_hand_qty := q; reserved_qty := 0; in_transit_qty := 0; avg_unit_cost := avg; valuation_amount := value; row_version := 1 |}.

Definition return_step (tenantId id : string) (header : TransferRow) (_ : unit) (item : TransferItem) : tx unit :=
  dispatched ← read_qty (ti_dispatched item);
  received ← read_qty (ti_received item);
  discrepancy ← read_qty (ti_discrepancy item);
  let remaining := dispatched - received - discrepancy in
  if remaining <=? 0 then mret tt
  else
    unitCost ← read_money (ti_cost item);
    let kd := (tenantId, t_to header, ti_sku item) in
    dest ← select_balance kd;
    inTransit ← match dest with Some b => read_qty (in_transit_qty b) | None => mret 0 end;
    if match dest with Some _ => inTransit <? remaining | None => true end then domain_error TRANSFER_QUANTITY_MISMATCH 409
    else
      update_balance kd (fun _ => true) (add_transit (- remaining)) ;;
      let ks := (tenantId, t_from header, ti_sku item) in
      src ← select_balance ks;
      oldOnHand ← read_qty (from_option on_hand_qty 0 src);
      held ← read_qty (from_option reserved_qty 0 src);
      oldAvg ← read_money (from_option avg_unit_cost 0 src);
      valuation ← domain (computeWeightedAverageCostOnReceipt (VStr (formatMilliToQty oldOnHand)) (VNum oldAvg)
                            (VStr (formatMilliToQty remaining)) (VNum unitCost));
      let avg := nval (newAvgUnitCost valuation) in
      let value := nval (newValuationAmount valuation) in
      upsert_balance ks (new_balance (newOnHandMilli valuation) avg value) (returned_balance remaining avg value) ;;
      ledger ← gets stock_balance_ledger;
      insert_ledger {| l_key := ks; l_type := TRANSFER_CANCEL; l_before := oldOnHand; l_delta := remaining;
        l_after := newOnHandMilli valuation; l_reserved_after := held; l_unit_cost := nval unitCost; l_avg_cost_after := avg;
        l_ref_type := "STOCK_TRANSFER"; l_ref_id := id; l_reversal_of := dispatch_row ledger ks id |} ;;
      outbox_add (StockChanged ks TRANSFER_CANCEL remaining (newOnHandMilli valuation) held "STOCK_TRANSFER" id).

Definition cancelTransfer (tenantId transferId : string) : tx unit :=
  header ← transfer_header tenantId transferId;
  let id := as_uuid transferId in
  domain (assertCanCancelStockTransfer (status_text (t_status header))) ;;
  when (negb (bool_decide (t_status header = T_DRAFT))) (for_each (return_step tenantId id header) tt (by_sku (t_items header))) ;;
  set_transfer_status id T_CANCELLED.

(** * Properties *)

(** ** Units on the road *)

Definition remaining (i : TransferItem) : Z := ti_dispatched i - ti_received i - ti_discrepancy i.

Record item_ok (i : TransferItem) : Prop := {
  item_transfer : 0 < ti_transfer i < 10 ^ 18;
  item_received : 0 <= ti_received i;
  item_discrepancy : 0 <= ti_discrepancy i;
  item_remaining : 0 <= remaining i;
  item_cost : 0 <= ti_cost i <= MAX_SAFE_INTEGER }.

Definition item_road (tenantId to : string) (k : balance_key) (i : TransferItem) : Z :=
  if decide ((tenantId, to, ti_sku i) = k) then remaining i else 0.

Definition row_road (k : balance_key) (t : TransferRow) : Z :=
  if decide (t_status t = T_CANCELLED) then 0 else total (item_road (t_tenant t) (t_to t) k) (t_items t).

(** What the transfers have sent to a warehouse and not yet cleared. *)
Definition road (d : db) (k : balance_key) : Z := msum (row_road k) (stock_transfer d).

Definition no_road (i : TransferItem) : Prop := remaining i = 0.
Definition not_sent (i : TransferItem) : Prop := ti_dispatched i = 0.

Record transfer_ok (t : TransferRow) : Prop := {
  transfer_ends : t_from t <> t_to t;
  transfer_skus : NoDup (map ti_sku (t_items t));
  transfer_items : Forall item_ok (t_items t);
  transfer_draft : t_status t = T_DRAFT -> Forall not_sent (t_items t);
  transfer_done : t_status t = T_RECEIVED \/ t_status t = T_DISCREPANCY -> Forall no_road (t_items t) }.

Record transfers (d : db) : Prop := {
  transfers_road : forall k, in_transit d k = road d k;
  transfers_ok : map_Forall (fun _ => transfer_ok) (stock_transfer d) }.

(** The rules that hold while the lines of one transfer are being worked on. *)
Record transfer_mid (t : TransferRow) : Prop := {
  mid_ends : t_from t <> t_to t;
  mid_skus : NoDup (map ti_sku (t_items t));
  mid_items : Forall item_ok (t_items t) }.

Section Items.
Lemma transfer_ok_mid t : transfer_ok t -> transfer_mid t.
Proof. by intros [H1 H2 H3 _ _]; split. Qed.

Lemma check_item_ok i : check_item i = true -> ti_cost i <= MAX_SAFE_INTEGER -> item_ok i.
Proof. unfold check_item, numeric_18_3. intros H Hc. bool_prop. split; unfold remaining; lia. Qed.

(** Changing the line of one SKU. *)
Definition map_item (sku : string) (f : TransferItem -> TransferItem) (l : list TransferItem) : list TransferItem :=
  map (fun i => if String.eqb (ti_sku i) sku then f i else i) l.

Lemma map_item_skus sku f l : (forall i, ti_sku (f i) = ti_sku i) -> map ti_sku (map_item sku f l) = map ti_sku l.
Proof.
  intros Hf. unfold map_item. rewrite map_map. apply map_ext. intros i. destruct (String.eqb _ _); [apply Hf | done].
Qed.

Lemma map_item_other sku f l : sku ∉ map ti_sku l -> map_item sku f l = l.
Proof.
  intros H. unfold map_item. rewrite <- (map_id l) at 2. apply map_ext_in. intros i Hi%list_elem_of_In.
  destruct (String.eqb_spec (ti_sku i) sku) as [<-|]; [|done]. exfalso. apply H. by apply list_elem_of_fmap_2.
Qed.

Lemma total_map_item (g : TransferItem -> Z) f l i : NoDup (map ti_sku l) -> i ∈ l ->
  total g (map_item (ti_sku i) f l) = total g l + g (f i) - g i.
Proof.
  induction l as [|x l IH]; cbn; [by intros _ ?%not_elem_of_nil|]. intros [Hn Hd]%NoDup_cons [-> | Hi]%elem_of_cons.
  - rewrite String.eqb_refl. fold (map_item (ti_sku x) f l). rewrite map_item_other by done. unfold total. cbn. lia.
  - fold (map_item (ti_sku i) f l). rewrite (proj2 (String.eqb_neq (ti_sku x) (ti_sku i))).
    + specialize (IH Hd Hi). unfold total in *. cbn. lia.
    + intros E. apply Hn. rewrite E. by apply list_elem_of_fmap_2.
Qed.

Lemma map_item_elem sku f l i : i ∈ map_item sku f l -> (exists j, j ∈ l /\ ti_sku j = sku /\ i = f j) \/ (i ∈ l /\ ti_sku i <> sku).
Proof.
  intros (j & -> & Hj)%list_elem_of_fmap. destruct (String.eqb_spec (ti_sku j) sku) as [E|]; [left; by exists j | by right].
Qed.

Lemma elem_map_item sku f l i : i ∈ l -> ti_sku i <> sku -> i ∈ map_item sku f l.
Proof.
  intros Hi Hne. apply list_elem_of_fmap. exists i. split; [|done]. by rewrite (proj2 (String.eqb_neq _ _)).
Qed.

Lemma update_transfer_item_Ok id sku f d u d' t : stock_transfer d !! id = Some t -> update_item id sku f d = Ok (u, d') ->
  d' = set_transfer id (with_items t (map_item sku f (t_items t))) d /\
  forall i, i ∈ map_item sku f (t_items t) -> check_item i = true.
Proof.
  intros Ht. unfold update_item. intros H. inv_tx. rewrite Ht in H. case_if_in H; inv_tx. split; [done|].
  intros i Hi. rewrite forallb_forall in E. by apply E, list_elem_of_In.
Qed.

Lemma road_items d id t its k : stock_transfer d !! id = Some t -> t_status t <> T_CANCELLED ->
  road (set_transfer id (with_items t its) d) k =
  road d k + total (item_road (t_tenant t) (t_to t) k) its - total (item_road (t_tenant t) (t_to t) k) (t_items t).
Proof.
  intros Ht Hs. unfold road. cbn [stock_transfer set_transfer]. rewrite (msum_insert_old _ _ _ _ t) by done.
  unfold row_road at 2 3. cbn [t_status with_items t_tenant t_to t_items]. rewrite !decide_False by done. lia.
Qed.

(** The change of one line on the road. *)
Lemma road_item d id t f i k : stock_transfer d !! id = Some t -> t_status t <> T_CANCELLED -> NoDup (map ti_sku (t_items t)) ->
  i ∈ t_items t -> ti_sku (f i) = ti_sku i ->
  road (set_transfer id (with_items t (map_item (ti_sku i) f (t_items t))) d) k =
  road d k + if decide ((t_tenant t, t_to t, ti_sku i) = k) then remaining (f i) - remaining i else 0.
Proof.
  intros Ht Hs Hn Hi Hf. rewrite road_items, total_map_item by done. unfold item_road. rewrite Hf. case_decide; lia.
Qed.
End Items.

(** ** Shared steps of the movements *)

Section Movements.
Lemma road_ext d d' k : stock_transfer d' = stock_transfer d -> road d' k = road d k.
Proof. unfold road. by intros ->. Qed.

Lemma row_ok_transit b q : row_ok b -> check_balance (add_transit q b) = true -> row_ok (add_transit q b).
Proof. intros [H1 H2 H3 H4 H5 H6] (C1 & C2 & C3)%check_balance_spec. by split. Qed.

Lemma row_ok_new_transit q : check_balance (new_in_transit q) = true -> row_ok (new_in_transit q).
Proof. intros (C1 & C2 & C3)%check_balance_spec. split; cbn in *; unfold MAX_SAFE_INTEGER; (done || lia). Qed.

(** Units put on the road to a warehouse. *)
Lemma transit_row d k q b' : books d -> check_balance b' = true ->
  b' = match stock_balance d !! k with Some b => add_transit q b | None => new_in_transit q end ->
  row_ok b' /\ on_hand_qty b' = on_hand d k /\ reserved_qty b' = reserved d k /\ in_transit_qty b' = in_transit d k + q.
Proof.
  intros HB Hc ->. destruct (stock_balance d !! k) as [b|] eqn:E.
  - destruct (balance_views _ _ _ E) as (-> & -> & ->). split; [|done]. apply row_ok_transit; [|done]. by apply (books_rows _ HB _ _ E).
  - destruct (no_balance_views _ _ E) as (-> & -> & ->). split; [by apply row_ok_new_transit | done].
Qed.

(** One movement at [k1] that is matched on the road to [k2]. *)
Lemma shift_spec d d' k1 b1 k2 b2 r dq :
  books d -> k1 <> k2 -> l_key r = k1 -> row_ok b1 -> row_ok b2 ->
  l_delta r <> 0 -> l_before r = on_hand d k1 -> l_after r = on_hand_qty b1 -> on_hand_qty b1 = on_hand d k1 + l_delta r ->
  l_type r <> TRANSFER_LOST_IN -> reserved_qty b1 = reserved d k1 -> in_transit_qty b1 = in_transit d k1 ->
  on_hand_qty b2 = on_hand d k2 -> reserved_qty b2 = reserved d k2 -> in_transit_qty b2 = in_transit d k2 + dq ->
  stock_balance d' = <[k2 := b2]> (<[k1 := b1]> (stock_balance d)) ->
  stock_balance_ledger d' = stock_balance_ledger d ++ [r] -> outbox d' = outbox d ++ [announce r] ->
  warehouse_reservation d' = warehouse_reservation d ->
  books d' /\ keeps_holds d d' /\
  (forall k, on_hand d' k = on_hand d k + if decide (k1 = k) then l_delta r else 0) /\
  (forall k, in_transit d' k = in_transit d k + if decide (k2 = k) then dq else 0).
Proof.
  intros HB Hne <- R1 R2 L1 L2 L3 L4 L5 V1 V2 V3 V4 V5 E1 E2 E3 E4.
  set (dm := set_balance k2 b2 (add_event (announce r) (add_ledger r (set_balance (l_key r) b1 d)))).
  assert (Vm : forall g : db -> balance_key -> Z, (forall x y k, stock_balance x = stock_balance y -> g x k = g y k) ->
    forall k, g d' k = g (set_balance k2 b2 (set_balance (l_key r) b1 d)) k) by (intros g Hg k; apply Hg, E1).
  split_and!.
  - apply (books_ext dm); [done..|]. apply books_set_quiet; [by apply books_move | done |].
    change (on_hand_qty b2 = on_hand (set_balance (l_key r) b1 d) k2). rewrite on_hand_set, decide_False by done. done.
  - split; [done|]. intros k. rewrite (Vm reserved) by (intros x y k' E; unfold reserved; by rewrite E).
    rewrite !reserved_set. repeat case_decide; subst; congruence.
  - intros k. rewrite (Vm on_hand) by (intros x y k' E; unfold on_hand; by rewrite E). rewrite !on_hand_set.
    repeat case_decide; subst; (congruence || lia).
  - intros k. rewrite (Vm in_transit) by (intros x y k' E; unfold in_transit; by rewrite E). rewrite !in_transit_set.
    repeat case_decide; subst; (congruence || lia).
Qed.

(** What is left of a balance in order after a deduction. *)
Lemma row_ok_deduct b q : row_ok b -> 0 < q <= on_hand_qty b - reserved_qty b ->
  row_ok (set_on_hand (on_hand_qty b - q) (half_up ((on_hand_qty b - q) * avg_unit_cost b) 1000) b).
Proof.
  intros Hb Hq. pose proof (valuation_le b q Hb ltac:(destruct Hb; lia)) as Hv. destruct Hb as [H1 H2 H3 H4 H5 H6].
  split; cbn; (done || lia).
Qed.
End Movements.

(** ** dispatchTransfer *)

Section Locking.
Context (tenantId : string).

(** What the first pass recorded of a line's source. *)
Definition source_known (wh : string) (sources : list (string * SourceBalance)) (d : db) (sku : string) (q : Z) : Prop :=
  exists b, stock_balance d !! (tenantId, wh, sku) = Some b /\
    mget sku sources = Some {| sb_onHand := on_hand_qty b; sb_reserved := reserved_qty b; sb_avgCost := int (avg_unit_cost b) |} /\
    0 < q <= on_hand_qty b - reserved_qty b.

Lemma lock_available_spec wh s sku q d s' d' : books d -> lock_available tenantId wh s sku q d = Ok (s', d') ->
  d' = d /\ (s'.2 = false -> s.2 = false /\ source_known wh s'.1 d sku q) /\
  (forall sku' q', s'.2 = false -> source_known wh s.1 d sku' q' -> source_known wh s'.1 d sku' q').
Proof.
  intros HB. unfold lock_available. intros H. inv_tx. rewrite read_pos_Ok in Ha. destruct Ha as (-> & -> & Hq).
  destruct (stock_balance _ !! _) as [b|] eqn:E; inv_tx.
  - rewrite read_qty_Ok in *. destruct Ha1 as (-> & -> & _), Ha2 as (-> & -> & _). case_if_in H; inv_tx; [done|].
    pose proof (row_cost _ (books_rows _ HB _ _ E)). apply read_money_Ok in Ha as (-> & -> & _); [|lia]. bool_prop. cbn [fst snd] in *.
    split; [done|]. split; [intros ->; split; [done|]; exists b; rewrite mget_mset_eq; split_and!; (done || lia)|].
    intros sku' q' _ (b' & E1 & E2 & E3). exists b'. destruct (String.eqb_spec sku sku') as [<-|].
    + rewrite mget_mset_eq. by simplify_eq.
    + by rewrite mget_mset_ne.
  - replace (0 - 0 <? q) with true in H by lia. inv_tx. done.
Qed.

(** The first pass over the lines: when none is short, every line is covered. *)
Lemma lock_pass_spec {A} (sku_of : A -> string) (qty_of : A -> Z) wh items d sources d' : books d ->
  for_each (fun s i => lock_available tenantId wh s (sku_of i) (qty_of i)) ([], false) items d = Ok ((sources, false), d') ->
  d' = d /\ Forall (fun i => source_known wh sources d (sku_of i) (qty_of i)) items.
Proof.
  intros HB H. eapply (for_each_ind (fun pre s d1 => d1 = d /\
    (s.2 = false -> Forall (fun i => source_known wh s.1 d (sku_of i) (qty_of i)) pre))) in H as [-> HF]; [by split; [|apply HF] | | by split].
  intros pre i post s d1 s' d2 _ [-> HF] (-> & H1 & H2)%lock_available_spec; [|done]. split; [done|]. intros Hs.
  destruct (H1 Hs) as [Hs0 Hk]. apply Forall_app. split; [|by apply Forall_singleton].
  eapply Forall_impl; [by apply HF|]. intros j. by apply H2.
Qed.
End Locking.

Section Dispatch.
Context (tenantId id : string).

(** One line leaves: the source loses it, the destination has it in transit. *)
Lemma dispatch_step_spec header sources i d u d' t :
  let q := ti_transfer i in
  books d -> stock_transfer d !! id = Some t -> t_status t <> T_CANCELLED -> transfer_mid t ->
  t_tenant t = tenantId -> t_from header = t_from t -> t_to header = t_to t ->
  i ∈ t_items t -> not_sent i -> source_known tenantId (t_from t) sources d (ti_sku i) (ti_transfer i) ->
  dispatch_step tenantId id header sources tt i d = Ok (u, d') ->
  books d' /\ keeps_holds d d' /\ keeps_docs d d' /\
  (forall k, in_transit d' k - road d' k = in_transit d k - road d k) /\
  (forall sku, sku <> ti_sku i -> stock_balance d' !! (tenantId, t_from t, sku) = stock_balance d !! (tenantId, t_from t, sku)) /\
  (forall k, on_hand d' k = on_hand d k - if decide ((tenantId, t_from t, ti_sku i) = k) then q else 0) /\
  (forall k, in_transit d' k = in_transit d k + if decide ((tenantId, t_to t, ti_sku i) = k) then q else 0) /\
  exists f, (forall j, ti_sku (f j) = ti_sku j) /\ item_ok (f i) /\ ti_discrepancy (f i) = ti_discrepancy i /\
    stock_transfer d' = <[id := with_items t (map_item (ti_sku i) f (t_items t))]> (stock_transfer d).
Proof.
  intros q HB Ht Hs [Hends Hskus Hitems] Htn Ef Et Hi Hns (b & Eb & Em & Hq). unfold dispatch_step. rewrite Em, Ef, Et.
  cbn [sb_onHand sb_reserved sb_avgCost]. intros H. inv_tx.
  pose proof (books_rows _ HB _ _ Eb) as Hrow. destruct (balance_views _ _ _ Eb) as (Vo & Vr & Vt).
  rewrite read_pos_Ok in *. rewrite read_qty_Ok in *. destruct Ha as (-> & -> & Hpos). destruct Ha1 as (-> & -> & _), Ha2 as (-> & -> & _).
  set (k1 := (t_tenant t, t_from t, ti_sku i)) in *. set (k2 := (t_tenant t, t_to t, ti_sku i)) in *.
  assert (Hk : k1 <> k2) by (unfold k1, k2; congruence).
  rewrite deduction_run in Ha0 by (done || (destruct Hrow; lia)). injection Ha0 as <-. cbn [newOnHandMilli newValuationAmount newAvgUnitCost] in *.
  apply emit_quiet in Ha3 as (HB4 & S1 & S2 & S3 & S4); [|done].
  rewrite (update_balance_run _ _ _ _ b) in Ha4; [|by rewrite S1|lia|by apply row_ok_check, row_ok_deduct]. injection Ha4 as <- <-.
  apply upsert_balance_Ok in Ha5 as (b2 & -> & Hc2 & Eb2). cbn [stock_balance set_balance] in Eb2. rewrite lookup_insert_ne in Eb2 by done.
  destruct (transit_row d4 k2 q b2 HB4 Hc2 Eb2) as (R2 & W1 & W2 & W3).
  apply (update_transfer_item_Ok _ _ _ _ _ _ t) in Ha6 as [-> Hchk]; [|cbn; by rewrite S2]. apply insert_ledger_Ok in Ha7 as [-> Hd].
  pose proof (same_views _ _ S1) as SV. set (f := set_dispatched (ti_transfer i) (avg_unit_cost b)).
  match goal with |- books ?D /\ _ => set (dn := D) end.
  match type of Hd with l_delta ?R <> 0 =>
    destruct (shift_spec d4 dn k1 (set_on_hand (on_hand_qty b - ti_transfer i)
      (half_up ((on_hand_qty b - ti_transfer i) * avg_unit_cost b) 1000) b) k2 b2 R q) as (P1 & P2 & P3 & P4)
  end; try done; try (destruct (SV k1) as (Z1 & Z2 & Z3); rewrite ?Z1, ?Z2, ?Z3; cbn; (done || lia)).
  { by apply row_ok_deduct. }
  assert (Hmi : item_ok (f i)).
  { apply check_item_ok; [apply Hchk, list_elem_of_fmap; exists i; by rewrite String.eqb_refl | cbn; destruct Hrow; lia]. }
  assert (Er : forall k, road dn k = road d k + if decide (k2 = k) then q else 0).
  { intros k. rewrite (road_ext (set_transfer id (with_items t (map_item (ti_sku i) f (t_items t))) d)) by (cbn; by rewrite S2).
    rewrite road_item by done. unfold remaining. cbn. rewrite Hns. fold k2 q. case_decide; lia. }
  split_and!; [done | etransitivity; [split; [exact S3 | intros k; apply SV] | done] | done | | | | |].
  - intros k. rewrite P4, Er. destruct (SV k) as (_ & _ & ->). case_decide; lia.
  - intros sku Hsku. cbn. rewrite !lookup_insert_ne by (unfold k1, k2; congruence). by rewrite S1.
  - intros k. rewrite P3. destruct (SV k) as (-> & _ & _). cbn. fold q. case_decide; lia.
  - intros k. rewrite P4. by destruct (SV k) as (_ & _ & ->).
  - exists f. split_and!; [done.. |]. cbn. by rewrite S2.
Qed.
(** The quantity of the lines for one balance. *)
Definition item_at (wh : string) (q : TransferItem -> Z) (k : balance_key) (i : TransferItem) : Z :=
  if decide ((tenantId, wh, ti_sku i) = k) then q i else 0.

(** The state while the lines [pre] of the transfer [t] have been sent. *)
Record sending (d : db) (t : TransferRow) (pre : list TransferItem) (d1 : db) : Prop := {
  sending_books : books d1;
  sending_holds : keeps_holds d d1;
  sending_docs : keeps_docs d d1;
  sending_gap : forall k, in_transit d1 k - road d1 k = in_transit d k - road d k;
  sending_rest : forall sku, sku ∉ map ti_sku pre ->
    stock_balance d1 !! (tenantId, t_from t, sku) = stock_balance d !! (tenantId, t_from t, sku);
  sending_out : forall k, on_hand d1 k = on_hand d k - total (item_at (t_from t) ti_transfer k) pre;
  sending_road : forall k, in_transit d1 k = in_transit d k + total (item_at (t_to t) ti_transfer k) pre;
  sending_items : exists its, stock_transfer d1 = <[id := with_items t its]> (stock_transfer d) /\
    map ti_sku its = map ti_sku (t_items t) /\ Forall item_ok its /\
    (forall i, i ∈ t_items t -> ti_sku i ∉ map ti_sku pre -> i ∈ its) /\
    (forall k, total (item_at (t_to t) ti_discrepancy k) its = total (item_at (t_to t) ti_discrepancy k) (t_items t)) }.

Lemma sending_step header sources t pre i post d d1 u d2 :
  stock_transfer d !! id = Some t -> t_status t = T_DRAFT -> transfer_ok t -> t_tenant t = tenantId ->
  t_from header = t_from t -> t_to header = t_to t -> 
  Forall (fun i => source_known tenantId (t_from t) sources d (ti_sku i) (ti_transfer i)) (pre ++ i :: post) ->
  NoDup (map ti_sku (pre ++ i :: post)) -> i ∈ t_items t ->
  sending d t pre d1 -> dispatch_step tenantId id header sources tt i d1 = Ok (u, d2) -> sending d t (pre ++ [i]) d2.
Proof.
  intros Ht Hst Hok Htn Ef Et Hsrc Hnd Hi [B1 B2 B3 B4 B5 B6 B7 (its & I1 & I2 & I3 & I4 & I5)] H.
  rewrite map_app in Hnd. apply NoDup_app in Hnd as (_ & Hn1 & _).
  assert (Hni : ti_sku i ∉ map ti_sku pre) by (intros Hin; apply (Hn1 _ Hin); left).
  apply Forall_app in Hsrc as [_ [(b & Eb & Em & Hq) _]%Forall_cons_1].
  assert (Hns : not_sent i) by (apply (Forall_forall not_sent (t_items t)); [by apply (transfer_draft _ Hok) | done]).
  eapply (dispatch_step_spec header sources i d1 u d2 (with_items t its)) in H as (C1 & C2 & C3 & C4 & C5 & C6 & C7 & f & F1 & F2 & F3 & F4);
    [| done | by rewrite I1, lookup_insert_eq | cbn; by rewrite Hst | split; cbn; [apply Hok | rewrite I2; apply Hok | done]
     | done | done | done | by apply I4 | done | exists b; cbn; by rewrite B5].
  cbn [t_from t_to with_items t_items] in *.
  split; [done | by etransitivity | by etransitivity | intros k; by rewrite C4, B4 | | | |].
  - intros sku Hs. rewrite map_app, not_elem_of_app in Hs. destruct Hs as [Hs1 Hs2%not_elem_of_cons]. rewrite C5, B5; [done..|tauto].
  - intros k. rewrite C6, B6, total_snoc. unfold item_at. lia.
  - intros k. rewrite C7, B7, total_snoc. unfold item_at. lia.
  - exists (map_item (ti_sku i) f its). split_and!.
    + by rewrite F4, I1, insert_insert_eq.
    + by rewrite map_item_skus.
    + apply Forall_forall. intros j [(x & Hx & Ex & ->) | [Hj _]]%map_item_elem; [|by apply (Forall_forall item_ok its)].
      assert (x = i) as ->; [|done]. apply (NoDup_map_inj ti_sku its); [rewrite I2; apply Hok | done | by apply I4 | done].
    + intros j Hj Hs. rewrite map_app, not_elem_of_app in Hs. destruct Hs as [Hs1 Hs2%not_elem_of_cons].
      apply elem_map_item; [by apply I4 | tauto].
    + intros k. rewrite total_map_item by (by apply I4 || (rewrite I2; apply Hok)). rewrite <- I5.
      unfold item_at at 2 3. rewrite F1, F3. case_decide; lia.
Qed.
End Dispatch.

(** What every transfer operation preserves. *)
Record transfer_step (d d' : db) : Prop := {
  step_books : books d';
  step_holds : keeps_holds d d';
  step_docs : keeps_docs d d';
  step_transfers : transfers d' }.

Section Status.
Lemma header_Ok t i d h d' : transfer_header t i d = Ok (h, d') ->
  d' = d /\ stock_transfer d !! as_uuid i = Some h /\ t_tenant h = t.
Proof.
  unfold transfer_header, select_transfer. intros H. inv_tx. destruct (stock_transfer _ !! _) as [x|]; [|by inv_tx].
  destruct (String.eqb_spec (t_tenant x) t); by inv_tx.
Qed.

Lemma by_sku_perm l : by_sku l ≡ₚ l.
Proof. apply sort_by_perm. Qed.

Lemma total_by_sku (f : TransferItem -> Z) l : total f (by_sku l) = total f l.
Proof. apply total_perm, by_sku_perm. Qed.

(** A new status for a transfer whose lines have been worked on. *)
Lemma status_plain d d1 id t its s u d2 :
  stock_transfer d1 = <[id := with_items t its]> (stock_transfer d) -> set_transfer_status id s d1 = Ok (u, d2) ->
  books d1 -> keeps_holds d d1 -> keeps_docs d d1 ->
  stock_transfer d2 = <[id := with_status (with_items t its) s]> (stock_transfer d) /\
  books d2 /\ keeps_holds d d2 /\ keeps_docs d d2 /\ stock_balance d2 = stock_balance d1.
Proof.
  intros E H B1 B2 B3. unfold set_transfer_status in H. inv_tx. rewrite E, lookup_insert_eq.
  split_and!; [cbn; by rewrite E, insert_insert_eq | by apply (books_ext d1) | done | done | done].
Qed.

Lemma status_spec d d1 id t its s u d2 e :
  stock_transfer d1 = <[id := with_items t its]> (stock_transfer d) -> set_transfer_status id s d1 = Ok (u, d2) ->
  books d1 -> keeps_holds d d1 -> keeps_docs d d1 -> event_movement e = None ->
  stock_transfer (add_event e d2) = <[id := with_status (with_items t its) s]> (stock_transfer d) /\
  books (add_event e d2) /\ keeps_holds d (add_event e d2) /\ keeps_docs d (add_event e d2) /\
  stock_balance (add_event e d2) = stock_balance d1.
Proof.
  intros E H B1 B2 B3 He. destruct (status_plain d d1 id t its s u d2 E H B1 B2 B3) as (P1 & P2 & P3 & P4 & P5).
  split_and!; [done | by apply books_event | done..].
Qed.

(** The transfers are in order again when the new row is and the road matches. *)
Lemma transfers_close d d' id t' : transfers d -> stock_transfer d' = <[id := t']> (stock_transfer d) -> transfer_ok t' ->
  (forall k, in_transit d' k = road d' k) -> transfers d'.
Proof. intros [T1 T2] E Hok Hr. split; [done|]. rewrite E. by apply map_Forall_insert_2. Qed.

Lemma road_status d d1 d2 id t its s k : stock_transfer d1 = <[id := with_items t its]> (stock_transfer d) ->
  stock_transfer d2 = <[id := with_status (with_items t its) s]> (stock_transfer d) ->
  t_status t <> T_CANCELLED -> s <> T_CANCELLED -> road d2 k = road d1 k.
Proof.
  intros E1 E2 H1 H2. unfold road. rewrite E1, E2. rewrite <- (insert_insert_eq (stock_transfer d) id (with_status (with_items t its) s) (with_items t its)).
  rewrite (msum_insert_old _ _ _ _ (with_items t its)) by apply lookup_insert_eq.
  unfold row_road at 2 3. cbn. rewrite !decide_False by done. lia.
Qed.
End Status.

Lemma dispatch_spec tenantId transferId d u d' : books d -> transfers d -> dispatchTransfer tenantId transferId d = Ok (u, d') ->
  transfer_step d d' /\ exists t its, stock_transfer d !! as_uuid transferId = Some t /\ t_tenant t = tenantId /\
    stock_transfer d' = <[as_uuid transferId := with_status (with_items t its) T_DISPATCHED]> (stock_transfer d) /\
    (forall k, total (item_at tenantId (t_to t) ti_discrepancy k) its = total (item_at tenantId (t_to t) ti_discrepancy k) (t_items t)) /\
    (forall k, on_hand d' k = on_hand d k - total (item_at tenantId (t_from t) ti_transfer k) (t_items t)) /\
    (forall k, in_transit d' k = in_transit d k + total (item_at tenantId (t_to t) ti_transfer k) (t_items t)).
Proof.
  intros HB HT. unfold dispatchTransfer. intros H. inv_tx. apply header_Ok in Ha as (-> & Ht & Htn). rename a into t.
  assert (Hst : t_status t = T_DRAFT) by (by destruct (t_status t)). apply active_warehouse_pure in Ha1 as ->, Ha2 as ->.
  pose proof (transfers_ok _ HT _ _ Ht) as Hok. destruct a3 as [sources []]; [done|]. inv_tx.
  apply (lock_pass_spec _ ti_sku ti_transfer) in Ha3 as [-> Hsrc]; [|done].
  eapply (for_each_ind (fun pre _ d1 => sending (t_tenant t) (as_uuid transferId) d t pre d1)) in Ha
    as [B1 B2 B3 B4 _ B6 B7 (its & I1 & I2 & I3 & _ & I5)].
  - destruct (status_spec d _ _ t its _ _ _ (TransferEvent T_DISPATCHED (as_uuid transferId)) I1 Ha1 B1 B2 B3 eq_refl)
      as (E1 & E2 & E3 & E4 & E5). pose proof (same_views _ _ E5) as SV.
    split.
    + split; [done.. |]. apply (transfers_close d _ (as_uuid transferId) (with_status (with_items t its) T_DISPATCHED)); [done|done| |].
      * split; cbn; [apply Hok | rewrite I2; apply Hok | done | done | by intros [?|?]].
      * intros k. destruct (SV k) as (_ & _ & ->). erewrite road_status by (done || by rewrite Hst).
        pose proof (transfers_road _ HT k). specialize (B4 k). lia.
    + exists t, its. split_and!; [done..| |]; intros k; [destruct (SV k) as (-> & _ & _) | destruct (SV k) as (_ & _ & ->)];
        rewrite ?B6, ?B7, total_by_sku; done.
  - intros pre i post [] x [] y El Hs Hstep. eapply sending_step; try done.
    + by rewrite <- El.
    + rewrite <- El. rewrite by_sku_perm. apply Hok.
    + rewrite <- (by_sku_perm (t_items t)), El. set_solver.
  - split; try done; try (intros k; unfold total; cbn; lia). exists (t_items t). split_and!; [|done|apply Hok|done|done].
    rewrite insert_id; [done|]. rewrite Ht. by destruct t.
Qed.

(** ** receiveTransfer *)

Section Receive.
Lemma find_item_Some id sku d i t : stock_transfer d !! id = Some t -> find_item id sku d = Some i ->
  i ∈ t_items t /\ ti_sku i = as_uuid sku.
Proof.
  intros Ht. unfold find_item. rewrite Ht. intros [Hi He]%List.find_some. split; [by apply list_elem_of_In | by apply String.eqb_eq].
Qed.

Lemma set_received_ok i r x : item_ok i -> check_item (set_received r x i) = true -> item_ok (set_received r x i).
Proof. intros Hi Hc. apply check_item_ok; [done | apply Hi]. Qed.

(** The stock part of a received line: [r] units arrive and [x] are lost. *)
Lemma receipt_movement_spec k id b r x cost d costs d1 u d2 :
  books d -> stock_balance d !! k = Some b -> 0 <= r -> 0 <= x -> 0 <= cost <= MAX_SAFE_INTEGER ->
  receipt_movement k id (on_hand_qty b) (reserved_qty b) (int (avg_unit_cost b)) (int cost) (int (valuation_amount b)) r d = Ok (costs, d1) ->
  when (0 <? r + x) (update_balance k (fun _ => true) (receive_into r (r + x) (nval costs.1) (nval costs.2)) ;; mret tt) d1 = Ok (u, d2) ->
  books d2 /\ keeps_holds d d2 /\ keeps_docs d d2 /\ stock_transfer d2 = stock_transfer d /\
  (forall k', on_hand d2 k' = on_hand d k' + if decide (k = k') then r else 0) /\
  (forall k', in_transit d2 k' = in_transit d k' - if decide (k = k') then r + x else 0).
Proof.
  intros HB Eb Hr Hx Hcost H1 H2. pose proof (books_rows _ HB _ _ Eb) as Hrow. destruct (balance_views _ _ _ Eb) as (Vo & Vr & Vt).
  unfold receipt_movement in H1. destruct (Z.ltb_spec 0 r) as [Hp|Hp].
  - inv_tx. apply receipt_Ok in Ha as (avg & _ & E1 & E2 & E3 & E4 & E5); [|destruct Hrow; lia..]. apply insert_ledger_Ok in Ha0 as [-> Hd].
    replace (0 <? r + x) with true in H2 by lia. cbn [when fst snd] in *. inv_tx. rewrite ?E1, ?E2, ?E4, ?nval_int in *.
    eapply update_balance_hit in Ha as [Hc ->]; [|done..]. apply check_balance_spec in Hc as (C1 & C2 & C3). cbn in C1, C2, C3.
    match type of Hd with l_delta ?R <> 0 =>
      destruct (move_spec d (set_balance k (receive_into r (r + x) avg (half_up ((on_hand_qty b + r) * avg) 1000) b)
        (add_event (announce R) (add_ledger R d))) k (receive_into r (r + x) avg (half_up ((on_hand_qty b + r) * avg) 1000) b) R (- (r + x)))
        as (P1 & P2 & P3 & P4) end; try done; try (cbn; lia).
    split_and!; [done.. |]. intros k'. rewrite P4. case_decide; lia.
  - inv_tx. cbn [fst snd] in *. rewrite !nval_int in H2. assert (r = 0) as -> by lia. destruct (Z.ltb_spec 0 (0 + x)); cbn [when] in H2; inv_tx.
    + eapply update_balance_hit in Ha as [Hc ->]; [|done..]. apply check_balance_spec in Hc as (C1 & C2 & C3). cbn in C1, C2, C3.
      split_and!; [| by apply keeps_holds_set | done | done | |].
      * apply books_set_quiet; [done | | cbn; lia]. destruct Hrow as [H1' H2' H3' H4' H5' H6']. split; cbn; rewrite ?Z.add_0_r; (done || lia).
      * intros k'. rewrite on_hand_set. case_decide; subst; cbn; lia.
      * intros k'. rewrite in_transit_set. case_decide; subst; cbn; lia.
    + assert (x = 0) as -> by lia. split_and!; try done; intros k'; case_decide; lia.
Qed.

(** One received line: the destination gains [r], and [r] and the [x] lost units are off the road. *)
Lemma receive_step_spec header resolve line d u d' t id :
  books d -> stock_transfer d !! id = Some t -> t_status t <> T_CANCELLED -> transfer_mid t -> t_to header = t_to t ->
  receive_step (t_tenant t) id header resolve tt line d = Ok (u, d') ->
  books d' /\ keeps_holds d d' /\ keeps_docs d d' /\
  (forall k, in_transit d' k - road d' k = in_transit d k - road d k) /\
  exists i r x, i ∈ t_items t /\ 0 <= r /\ 0 <= x /\
    item_ok (set_received (ti_received i + r) (ti_discrepancy i + x) i) /\
    (forall k, on_hand d' k = on_hand d k + if decide ((t_tenant t, t_to t, ti_sku i) = k) then r else 0) /\
    (forall k, in_transit d' k = in_transit d k - if decide ((t_tenant t, t_to t, ti_sku i) = k) then r + x else 0) /\
    stock_transfer d' =
      <[id := with_items t (map_item (ti_sku i) (set_received (ti_received i + r) (ti_discrepancy i + x)) (t_items t))]> (stock_transfer d).
Proof.
  intros HB Ht Hst [Hends Hskus Hitems] Et. unfold receive_step. intros H. inv_tx.
  destruct (find_item id (rv_sku line) _) as [i|] eqn:Ef; inv_tx. apply (find_item_Some _ _ _ _ t) in Ef as [Hi Esku]; [|done].
  pose proof (proj1 (Forall_forall item_ok (t_items t)) Hitems i Hi) as Hok.
  rewrite read_qty_Ok in Ha, Ha0, Ha1. destruct Ha as (-> & -> & _), Ha0 as (-> & -> & _), Ha1 as (-> & -> & _).
  rename a2 into r, a3 into x. pose proof (parse_nonneg _ _ _ Ha2) as Hr. pose proof (parse_nonneg _ _ _ Ha3) as Hx.
  case_if_in H; inv_tx. case_if_in H; inv_tx. rewrite Et, <- Esku in *. set (k := (t_tenant t, t_to t, ti_sku i)) in *.
  assert (Hstock : exists dm, books dm /\ keeps_holds d dm /\ keeps_docs d dm /\ stock_transfer dm = stock_transfer d /\
    (forall k', on_hand dm k' = on_hand d k' + if decide (k = k') then r else 0) /\
    (forall k', in_transit dm k' = in_transit d k' - if decide (k = k') then r + x else 0) /\
    update_item id (ti_sku i) (set_received (ti_received i + r) (ti_discrepancy i + x)) dm = Ok (u, d')).
  { destruct (stock_balance d !! k) as [b|] eqn:Eb.
    - rewrite read_qty_Ok in Ha0. destruct Ha0 as (-> & -> & _). case_if_in H; inv_tx. pose proof (books_rows _ HB _ _ Eb) as Hrow.
      assert (0 <= valuation_amount b) by (destruct Hrow as [? ? ? ? -> ?]; apply half_up_nonneg; nia).
      rewrite read_qty_Ok in Ha, Ha0. destruct Ha as (-> & -> & _), Ha0 as (-> & -> & _).
      rewrite read_money_Ok in Ha1, Ha4, Ha5 by (lia || destruct Hrow; lia || destruct Hok; lia).
      destruct Ha1 as (-> & -> & _), Ha4 as (-> & -> & _), Ha5 as (-> & -> & _). eexists.
      destruct (receipt_movement_spec _ _ _ _ x _ _ _ _ _ _ HB Eb Hr Hx (item_cost _ Hok) Ha6 Ha7) as (P1 & P2 & P3 & P4 & P5 & P6).
      by split_and!.
    - inv_tx. case_if_in H; inv_tx. apply Z.ltb_ge in E1. assert (r = 0) as -> by lia. assert (x = 0) as -> by lia.
      rewrite read_money_Ok in Ha5 by (destruct Hok; lia). destruct Ha5 as (-> & -> & _). cbn in *. inv_tx. exists d.
      split_and!; try done; intros k'; case_decide; lia. }
  destruct Hstock as (dm & M1 & M2 & M3 & M4 & M5 & M6 & M7). apply (update_transfer_item_Ok _ _ _ _ _ _ t) in M7 as [-> Hchk]; [|by rewrite M4].
  set (f := set_received (ti_received i + r) (ti_discrepancy i + x)) in *.
  split_and!; [by apply (books_ext dm) | done | done | |].
  - intros k'. change (in_transit dm k' - road (set_transfer id (with_items t (map_item (ti_sku i) f (t_items t))) dm) k' = in_transit d k' - road d k').
    rewrite road_item by (done || by rewrite M4). rewrite M6, (road_ext d dm) by done. unfold remaining. cbn. fold k. case_decide; lia.
  - exists i, r, x. split_and!; [done.. | |done |done | cbn; by rewrite M4].
    apply set_received_ok; [done|]. apply Hchk, list_elem_of_fmap. exists i. by rewrite String.eqb_refl.
Qed.

(** The state after some lines of the transfer [t] have been received. *)
Record receiving (id : string) (d : db) (t : TransferRow) (its : list TransferItem) (d1 : db) : Prop := {
  receiving_books : books d1;
  receiving_holds : keeps_holds d d1;
  receiving_docs : keeps_docs d d1;
  receiving_gap : forall k, in_transit d1 k - road d1 k = in_transit d k - road d k;
  receiving_in : forall k, on_hand d1 k = on_hand d k +
    (total (item_at (t_tenant t) (t_to t) ti_received k) its - total (item_at (t_tenant t) (t_to t) ti_received k) (t_items t));
  receiving_off : forall k, in_transit d1 k = in_transit d k -
    (total (item_at (t_tenant t) (t_to t) ti_received k) its - total (item_at (t_tenant t) (t_to t) ti_received k) (t_items t)) -
    (total (item_at (t_tenant t) (t_to t) ti_discrepancy k) its - total (item_at (t_tenant t) (t_to t) ti_discrepancy k) (t_items t));
  receiving_row : stock_transfer d1 = <[id := with_items t its]> (stock_transfer d);
  receiving_skus : map ti_sku its = map ti_sku (t_items t);
  receiving_items : Forall item_ok its }.

Lemma receiving_step id d t its header resolve line d1 u d2 :
  t_status t <> T_CANCELLED -> transfer_ok t -> t_to header = t_to t ->
  receiving id d t its d1 -> receive_step (t_tenant t) id header resolve tt line d1 = Ok (u, d2) ->
  exists its', receiving id d t its' d2.
Proof.
  intros Hst Hok Et [B1 B2 B3 B4 B5 B6 B7 B8 B9] H.
  eapply (receive_step_spec header resolve line d1 u d2 (with_items t its)) in H
    as (C1 & C2 & C3 & C4 & i & r & x & I1 & I2 & I3 & I4 & I5 & I5' & I6);
    [|done|by rewrite B7, lookup_insert_eq|done|by split; cbn; [apply Hok | rewrite B8; apply Hok | ]|done].
  cbn [t_tenant t_to with_items t_items] in *.
  assert (Hnd : NoDup (map ti_sku its)) by (rewrite B8; apply Hok).
  exists (map_item (ti_sku i) (set_received (ti_received i + r) (ti_discrepancy i + x)) its). split.
  - done.
  - by etransitivity.
  - by etransitivity.
  - intros k. by rewrite C4, B4.
  - intros k. rewrite I5, B5, total_map_item by done. unfold item_at at 4 5. cbn. case_decide; lia.
  - intros k. rewrite I5', B6, !total_map_item by done. unfold item_at. cbn. case_decide; lia.
  - by rewrite I6, B7, insert_insert_eq.
  - by rewrite map_item_skus.
  - apply Forall_forall. intros j [(y & Hy & Ey & ->) | [Hj _]]%map_item_elem; [|by apply (Forall_forall item_ok its)].
    assert (y = i) as ->; [|done]. by apply (NoDup_map_inj ti_sku its).
Qed.

(** Writing off what was lost changes no balance. *)
Lemma loss_step_spec tenantId id header i d u d' : books d -> item_ok i ->
  loss_step tenantId id header tt i d = Ok (u, d') ->
  books d' /\ stock_balance d' = stock_balance d /\ stock_transfer d' = stock_transfer d /\
  warehouse_reservation d' = warehouse_reservation d /\ keeps_docs d d'.
Proof.
  intros HB Hi. unfold loss_step. intros H. inv_tx. rewrite read_pos_Ok in Ha. destruct Ha as (-> & -> & Hp).
  apply read_money_Ok in Ha0 as (-> & -> & _); [|apply Hi].
  set (k := (tenantId, t_to header, ti_sku i)) in *. rewrite read_qty_Ok in Ha2, Ha3. destruct Ha2 as (-> & -> & _), Ha3 as (-> & -> & _).
  assert (Ho : from_option on_hand_qty 0 (stock_balance d !! k) = on_hand d k) by done. rewrite Ho in *.
  assert (Hm : 0 <= from_option avg_unit_cost 0 (stock_balance d !! k)).
  { destruct (stock_balance d !! k) as [b|] eqn:Eb; cbn; [|lia]. apply (row_cost _ (books_rows _ HB _ _ Eb)). }
  apply read_money_Ok in Ha4 as (-> & -> & _); [|done]. apply insert_ledger_Ok in Ha5 as [-> _], Ha6 as [-> _].
  split_and!; try done. apply (books_loss d); cbn; (done || lia).
Qed.

Lemma losses_spec tenantId id header d u d' its : books d ->
  from_option t_items [] (stock_transfer d !! id) = its -> Forall item_ok its -> writeTransferLosses tenantId id header d = Ok (u, d') ->
  books d' /\ stock_balance d' = stock_balance d /\ stock_transfer d' = stock_transfer d /\
  warehouse_reservation d' = warehouse_reservation d /\ keeps_docs d d'.
Proof.
  intros HB Hits Hok. unfold writeTransferLosses. intros H. inv_tx.
  eapply (for_each_inv (fun _ d1 => books d1 /\ stock_balance d1 = stock_balance d /\ stock_transfer d1 = stock_transfer d /\
    warehouse_reservation d1 = warehouse_reservation d /\ keeps_docs d d1)) in H; [done| |by split_and!].
  intros [] i d1 [] d2 Hi (P1 & P2 & P3 & P4 & P5) Hs. apply loss_step_spec in Hs as (Q1 & Q2 & Q3 & Q4 & Q5); [|done|].
  - split_and!; [done | congruence.. | by etransitivity].
  - rewrite by_sku_perm, list_elem_of_In, filter_In, <- list_elem_of_In in Hi. destruct Hi as [Hi _]. by eapply Forall_forall in Hok.
Qed.

Lemma next_status_done its resolve : Forall item_ok its ->
  next_status its resolve = T_RECEIVED \/ next_status its resolve = T_DISCREPANCY -> Forall no_road its.
Proof.
  intros Hok Hn. unfold next_status in Hn. destruct (existsb _ its) eqn:E; [by destruct Hn|].
  apply Forall_forall. intros i Hi. eapply existsb_false in E; [|done]. bool_prop. eapply Forall_forall in Hok; [|done].
  unfold no_road. pose proof (item_remaining _ Hok). unfold remaining in *. lia.
Qed.
End Receive.

Lemma incoming_pure dto items d l d' : incoming_lines dto items d = Ok (l, d') -> d' = d.
Proof.
  unfold incoming_lines. set (def := for_each _ _ _).
  assert (Hdef : def d = Ok (l, d') -> d' = d).
  { intros H. eapply (for_each_inv (fun _ d1 => d1 = d)) in H; [done| |done]. intros s i d1 s' d2 _ -> Hs. inv_tx.
    unfold remaining_line in Ha. inv_tx. rewrite read_qty_Ok in Ha0, Ha1, Ha2.
    by destruct Ha0 as (_ & -> & _), Ha1 as (_ & -> & _), Ha2 as (_ & -> & _). }
  destruct dto as [[[|x l0] r]|]; try done. intros H. by inv_tx.
Qed.

Lemma receive_spec tenantId transferId dto d u d' : books d -> transfers d -> receiveTransfer tenantId transferId dto d = Ok (u, d') ->
  transfer_step d d' /\ exists t its, stock_transfer d !! as_uuid transferId = Some t /\
    stock_transfer d' = <[as_uuid transferId := with_status (with_items t its) (next_status its (resolves dto))]> (stock_transfer d) /\
    (forall k, on_hand d' k = on_hand d k +
       (total (item_at tenantId (t_to t) ti_received k) its - total (item_at tenantId (t_to t) ti_received k) (t_items t))) /\
    (forall k, in_transit d' k = in_transit d k -
       (total (item_at tenantId (t_to t) ti_received k) its - total (item_at tenantId (t_to t) ti_received k) (t_items t)) -
       (total (item_at tenantId (t_to t) ti_discrepancy k) its - total (item_at tenantId (t_to t) ti_discrepancy k) (t_items t))) /\
    t_tenant t = tenantId.
Proof.
  intros HB HT. unfold receiveTransfer. intros H. case_if_in H; inv_tx. apply header_Ok in Ha as (-> & Ht & Htn). rename a into t.
  destruct (receivable (t_status t)) eqn:Er; cbn in H; inv_tx. apply active_warehouse_pure in Ha as ->. apply incoming_pure in Ha0 as ->.
  assert (Hst : t_status t <> T_CANCELLED) by (by destruct (t_status t)). pose proof (transfers_ok _ HT _ _ Ht) as Hok.
  set (id := as_uuid transferId) in *.
  eapply (for_each_inv (fun _ d1 => exists its, receiving id d t its d1)) in Ha1 as [its [B1 B2 B3 B4 B5 B6 B7 B8 B9]].
  2: { intros [] line x [] y _ [its Hr] Hs. by eapply receiving_step in Hs. }
  2: { exists (t_items t). split; try done; [intros k; lia | intros k; lia | | apply Hok]. rewrite insert_id; [done|]. rewrite Ht. by destruct t. }
  assert (Eits : from_option t_items [] (stock_transfer d2 !! id) = its) by (by rewrite B7, lookup_insert_eq). rewrite Eits in *.
  set (s := next_status its (resolves dto)) in *.
  assert (HL : books d4 /\ stock_balance d4 = stock_balance d2 /\ stock_transfer d4 = stock_transfer d2 /\
    warehouse_reservation d4 = warehouse_reservation d2 /\ keeps_docs d2 d4).
  { destruct (_ && _); cbn [when] in Ha3; [by eapply losses_spec|]. inv_tx. done. }
  destruct HL as (L1 & L2 & L3 & L4 & L5). pose proof (same_views _ _ L2) as LV.
  destruct (status_spec d d4 id t its s _ _ (TransferEvent s id) ltac:(by rewrite L3) Ha4 L1
    ltac:(etransitivity; [exact B2 | split; [done | intros k; apply LV]]) ltac:(by etransitivity) eq_refl) as (E1 & E2 & E3 & E4 & E5).
  pose proof (same_views _ _ E5) as SV. split.
  - split; [done.. |]. apply (transfers_close d _ id (with_status (with_items t its) s)); [done | done | |].
    + split; cbn; [apply Hok | rewrite B8; apply Hok | done | | intros Hd; by apply (next_status_done its (resolves dto))].
      unfold s, next_status. repeat case_match; done.
    + intros k. destruct (SV k) as (_ & _ & ->), (LV k) as (_ & _ & ->).
      rewrite (road_status d d2 _ id t its s k) by (done || (unfold s, next_status; repeat case_match; done)).
      pose proof (transfers_road _ HT k). specialize (B4 k). lia.
  - exists t, its. split_and!; try done; intros k; [destruct (SV k) as (-> & _), (LV k) as (-> & _) |
      destruct (SV k) as (_ & _ & ->), (LV k) as (_ & _ & ->)]; done.
Qed.

(** ** cancelTransfer *)

Section Cancel.
(** The source row that takes the units back. *)
Lemma returned_row d k q a v b' : books d -> check_balance b' = true -> 0 <= a <= MAX_SAFE_INTEGER ->
  v = half_up ((on_hand d k + q) * a) 1000 -> v <= MAX_SAFE_INTEGER ->
  b' = match stock_balance d !! k with Some b => returned_balance q a v b | None => new_balance (on_hand d k + q) a v end ->
  row_ok b' /\ on_hand_qty b' = on_hand d k + q /\ reserved_qty b' = reserved d k /\ in_transit_qty b' = in_transit d k.
Proof.
  intros HB (C1 & C2 & C3)%check_balance_spec Ha Hv Hs ->. destruct (stock_balance d !! k) as [b|] eqn:E.
  - destruct (balance_views _ _ _ E) as (Vo & Vr & Vt). rewrite Vo, Vr, Vt in *. split; [|done]. by split.
  - destruct (no_balance_views _ _ E) as (Vo & Vr & Vt). rewrite Vo, Vr, Vt in *. split; [|done]. by split.
Qed.

Lemma return_step_spec header id i d u d' : books d -> item_ok i -> t_from header <> t_to header ->
  return_step (t_tenant header) id header tt i d = Ok (u, d') ->
  books d' /\ keeps_holds d d' /\ keeps_docs d d' /\ stock_transfer d' = stock_transfer d /\
  (forall k, on_hand d' k = on_hand d k + item_at (t_tenant header) (t_from header) remaining k i) /\
  (forall k, in_transit d' k = in_transit d k - item_at (t_tenant header) (t_to header) remaining k i).
Proof.
  intros HB Hi Hends. unfold return_step. intros H. inv_tx.
  rewrite read_qty_Ok in Ha, Ha0, Ha1. destruct Ha as (-> & -> & _), Ha0 as (-> & -> & _), Ha1 as (-> & -> & _).
  fold (remaining i) in H. destruct (Z.leb_spec (remaining i) 0) as [Hz|Hpos]; inv_tx.
  { assert (E : remaining i = 0) by (pose proof (item_remaining _ Hi); lia).
    split_and!; try done; intros k; unfold item_at; rewrite E; case_decide; lia. }
  set (k1 := (t_tenant header, t_from header, ti_sku i)) in *. set (k2 := (t_tenant header, t_to header, ti_sku i)) in *.
  assert (Hk : k1 <> k2) by (unfold k1, k2; congruence).
  apply read_money_Ok in Ha as (-> & -> & _); [|apply Hi].
  destruct (stock_balance d !! k2) as [b2|] eqn:E2; inv_tx.
  rewrite read_qty_Ok in Ha1. destruct Ha1 as (-> & -> & _). case_if_in H; inv_tx. pose proof (books_rows _ HB _ _ E2) as R2.
  destruct (update_balance_hit _ _ _ _ _ _ _ E2 eq_refl Ha) as [Hc2 Ed]. subst.
  cbn [stock_balance set_balance] in *. rewrite lookup_insert_ne in * by done.
  change (from_option on_hand_qty 0 (stock_balance d !! k1)) with (on_hand d k1) in *.
  change (from_option reserved_qty 0 (stock_balance d !! k1)) with (reserved d k1) in *.
  rewrite read_qty_Ok in Ha1, Ha2. destruct Ha1 as (-> & -> & Ho), Ha2 as (-> & -> & _).
  assert (Hm : 0 <= from_option avg_unit_cost 0 (stock_balance d !! k1)).
  { destruct (stock_balance d !! k1) as [b|] eqn:Eb; cbn; [|lia]. apply (row_cost _ (books_rows _ HB _ _ Eb)). }
  apply read_money_Ok in Ha3 as (-> & -> & Hm2); [|done].
  apply receipt_Ok in Ha4 as (av & _ & V1 & V2 & V3 & V4 & V5); [|done|done|apply Hi]. rewrite V1, V2, V4, !nval_int in *.
  apply upsert_balance_Ok in Ha5 as (b1 & -> & Hc1 & Eb1). cbn [stock_balance set_balance] in Eb1. rewrite lookup_insert_ne in Eb1 by done.
  apply insert_ledger_Ok in Ha7 as [-> Hd].
  destruct (returned_row d k1 (remaining i) av _ b1 HB Hc1 V3 eq_refl V5 Eb1) as (R1 & W1 & W2 & W3).
  destruct (balance_views _ _ _ E2) as (Y1 & Y2 & Y3). match goal with |- books ?D /\ _ => set (dn := D) end.
  match type of Hd with l_delta ?R <> 0 =>
    destruct (shift_spec d dn k1 b1 k2 (add_transit (- remaining i) b2) R (- remaining i)) as (P1 & P2 & P3 & P4) end;
    try done; try (cbn; lia); try by apply row_ok_transit.
  { cbn. by rewrite insert_insert_ne by done. }
  split_and!; [done..| |]; intros k; rewrite ?P3, ?P4; unfold item_at; fold k1 k2; cbn; case_decide; lia.
Qed.

Lemma not_sent_no_road i : item_ok i -> not_sent i -> no_road i.
Proof. intros [_ H1 H2 H3 _] Hn. unfold no_road, not_sent, remaining in *. lia. Qed.

Lemma no_road_total l t wh k : Forall no_road l -> total (item_at t wh remaining k) l = 0.
Proof.
  unfold total. induction 1 as [|i l Hi Hl IH]; cbn; [done|]. rewrite IH. unfold item_at. case_decide; unfold no_road in *; lia.
Qed.

Lemma return_items_loop id t d u d1 : books d -> transfer_ok t ->
  when (negb (bool_decide (t_status t = T_DRAFT))) (for_each (return_step (t_tenant t) id t) tt (by_sku (t_items t))) d = Ok (u, d1) ->
  books d1 /\ keeps_holds d d1 /\ keeps_docs d d1 /\ stock_transfer d1 = stock_transfer d /\
  (forall k, on_hand d1 k = on_hand d k + total (item_at (t_tenant t) (t_from t) remaining k) (t_items t)) /\
  (forall k, in_transit d1 k = in_transit d k - total (item_at (t_tenant t) (t_to t) remaining k) (t_items t)).
Proof.
  intros HB Hok. case_bool_decide as Hst; cbn [when negb]; intros H.
  - inv_tx. pose proof (transfer_draft _ Hok Hst) as Hd. assert (Forall no_road (t_items t)).
    { apply Forall_forall. intros i Hi. apply not_sent_no_road; [|by eapply Forall_forall in Hd].
      eapply Forall_forall; [apply Hok | done]. }
    split_and!; try done; intros k; rewrite no_road_total by done; lia.
  - eapply (for_each_ind (fun pre _ d1 => books d1 /\ keeps_holds d d1 /\ keeps_docs d d1 /\ stock_transfer d1 = stock_transfer d /\
      (forall k, on_hand d1 k = on_hand d k + total (item_at (t_tenant t) (t_from t) remaining k) pre) /\
      (forall k, in_transit d1 k = in_transit d k - total (item_at (t_tenant t) (t_to t) remaining k) pre))) in H
      as (P1 & P2 & P3 & P4 & P5 & P6).
    + split_and!; try done; intros k; rewrite ?P5, ?P6, total_by_sku; done.
    + intros pre i post [] x [] y El (P1 & P2 & P3 & P4 & P5 & P6) Hs.
      apply return_step_spec in Hs as (Q1 & Q2 & Q3 & Q4 & Q5 & Q6); [|done| |apply Hok].
      * split_and!; [done | by etransitivity | by etransitivity | congruence | |]; intros k; rewrite ?Q5, ?Q6, ?P5, ?P6, total_snoc; lia.
      * eapply Forall_forall; [apply Hok|]. rewrite <- (by_sku_perm (t_items t)), El. set_solver.
    + split_and!; try done; intros k; unfold total; cbn; lia.
Qed.

Lemma cancel_spec tenantId transferId d u d' : books d -> transfers d -> cancelTransfer tenantId transferId d = Ok (u, d') ->
  transfer_step d d' /\ exists t, stock_transfer d !! as_uuid transferId = Some t /\ t_tenant t = tenantId /\
    stock_transfer d' = <[as_uuid transferId := with_status t T_CANCELLED]> (stock_transfer d) /\
    (forall k, on_hand d' k = on_hand d k + total (item_at tenantId (t_from t) remaining k) (t_items t)) /\
    (forall k, in_transit d' k = in_transit d k - total (item_at tenantId (t_to t) remaining k) (t_items t)).
Proof.
  intros HB HT. unfold cancelTransfer. intros H. inv_tx. apply header_Ok in Ha as (-> & Ht & Htn). rename a into t.
  pose proof (transfers_ok _ HT _ _ Ht) as Hok. set (id := as_uuid transferId) in *.
  assert (Hst : t_status t <> T_CANCELLED) by (by destruct (t_status t)). subst tenantId.
  apply return_items_loop in Ha1 as (P1 & P2 & P3 & P4 & P5 & P6); [|done..].
  assert (Et : with_items t (t_items t) = t) by (by destruct t).
  destruct (status_plain d _ id t (t_items t) T_CANCELLED _ _ ltac:(by rewrite P4, Et, insert_id) H P1 P2 P3) as (E1 & E2 & E3 & E4 & E5).
  rewrite Et in E1. pose proof (same_views _ _ E5) as SV. split.
  - split; [done..|]. apply (transfers_close d _ id (with_status t T_CANCELLED)); [done | done | |].
    + split; cbn; [apply Hok..| done | by intros [?|?]].
    + intros k. destruct (SV k) as (_ & _ & ->). rewrite P6. unfold road. rewrite E1, (msum_insert_old _ _ _ _ t) by done.
      rewrite (transfers_road _ HT). unfold road. assert (row_road k (with_status t T_CANCELLED) = 0) as -> by done.
      assert (row_road k t = total (item_at (t_tenant t) (t_to t) remaining k) (t_items t)) as -> by (unfold row_road; by rewrite decide_False). lia.
  - exists t. split_and!; try done; intros k; [destruct (SV k) as (-> & _) | destruct (SV k) as (_ & _ & ->)]; done.
Qed.
End Cancel.

(** ** createTransfer *)

Section CreateSpec.
Context (localeCompare : string -> string -> Z).

Lemma insert_item_Ok id i d u d' t : stock_transfer d !! id = Some t -> insert_item id i d = Ok (u, d') ->
  d' = set_transfer id (with_items t (t_items t ++ [i])) d /\
  (ti_sku i ∉ map ti_sku (t_items t)) /\ check_item i = true.
Proof.
  intros Ht. unfold insert_item. intros H. inv_tx. rewrite Ht in H. case_if_in H; inv_tx. apply andb_prop in E as [E1 E2].
  split_and!; [done| |done]. intros (j & Ej & Hj)%list_elem_of_fmap. apply negb_true_iff in E1. eapply existsb_false in E1; [|done].
  by rewrite Ej, String.eqb_refl in E1.
Qed.

Lemma document_code_pure p c i d x d' : document_code p c i d = Ok (x, d') -> d' = d.
Proof. unfold document_code. destruct c as [c|]; [destruct (String.eqb c EmptyString)|]; intros H; by inv_tx. Qed.

Lemma new_item_ok i : check_item i = true -> ti_cost i = 0 -> item_ok i.
Proof. intros H Hc. apply check_item_ok; [done | rewrite Hc; unfold MAX_SAFE_INTEGER; lia]. Qed.

Lemma create_spec tenantId dto canApprove uuid d u d' : books d -> transfers d ->
  createTransfer localeCompare tenantId dto canApprove uuid d = Ok (u, d') ->
  transfer_step d d' /\ stock_transfer d !! uuid = None /\ stock_balance d' = stock_balance d.
Proof.
  intros HB HT. unfold createTransfer. intros H. inv_tx.
  apply active_warehouse_pure in Ha0 as ->, Ha1 as ->. apply document_code_pure in Ha4 as ->.
  unfold insert_transfer in Ha5. inv_tx. case_if_in Ha5; inv_tx. rewrite !orb_false_iff in E. destruct E as [[E1 E2] _].
  assert (Hf : stock_transfer d !! uuid = None) by (case_bool_decide as Hb; [done | by apply eq_None_not_Some]).
  cbn [t_from t_to] in E2. apply String.eqb_neq in E2.
  match type of H with for_each _ _ _ (set_transfer _ ?R _) = _ => set (row := R) in * end.
  eapply (for_each_inv (fun _ d1 => books d1 /\ keeps_holds d d1 /\ keeps_docs d d1 /\ stock_balance d1 = stock_balance d /\
    exists its, stock_transfer d1 = <[uuid := with_items row its]> (stock_transfer d) /\ NoDup (map ti_sku its) /\
      Forall item_ok its /\ Forall not_sent its)) in H as (P1 & P2 & P3 & P4 & its & I1 & I2 & I3 & I4).
  - split; [|done]. split; try done. apply (transfers_close d _ uuid (with_items row its)); try done; [split; cbn; try done; by intros [?|?] |].
    intros k. destruct (same_views _ _ P4 k) as (_ & _ & ->). unfold road. rewrite I1, msum_insert_new by done.
    assert (row_road k (with_items row its) = total (item_at tenantId (as_uuid (ct_to dto)) remaining k) its) as -> by done.
    rewrite no_road_total, (transfers_road _ HT); [unfold road; lia|].
    apply Forall_forall. intros i Hi. apply not_sent_no_road; [by eapply Forall_forall in I3 | by eapply Forall_forall in I4].
  - intros [] line x [] y _ (P1 & P2 & P3 & P4 & its & I1 & I2 & I3 & I4) Hs.
    apply (insert_item_Ok _ _ _ _ _ (with_items row its)) in Hs as (-> & N1 & N2); [|by rewrite I1, lookup_insert_eq].
    cbn [t_items with_items] in *. split_and!; [by apply (books_ext x) | done..|]. eexists. split_and!.
    + cbn. rewrite I1, insert_insert_eq. done.
    + rewrite map_app. apply NoDup_app. split_and!; [done | | apply NoDup_singleton]. intros z Hz ->%list_elem_of_singleton. done.
    + apply Forall_app. split; [done|]. by apply Forall_singleton, new_item_ok.
    + apply Forall_app. by split; [|apply Forall_singleton].
  - split_and!; try done; [by apply (books_ext d)|]. exists []. split_and!; try done; constructor.
Qed.
End CreateSpec.

(** ** What the transfers promise *)

Inductive transfer_op := Dispatch | Receive (dto : option ReceiveStockTransferDto) | Cancel.

Definition run_transfer (tenantId transferId : string) (op : transfer_op) : tx unit :=
  match op with
  | Dispatch => dispatchTransfer tenantId transferId
  | Receive dto => receiveTransfer tenantId transferId dto
  | Cancel => cancelTransfer tenantId transferId
  end.

(** The units of a SKU recorded as lost. *)
Definition lost (t : TransferRow) (sku : string) : Z := total (fun i => if decide (ti_sku i = sku) then ti_discrepancy i else 0) (t_items t).

(** The units of a SKU at both ends of a transfer, on the road and written off. *)
Definition accounted (d : db) (t : TransferRow) (sku : string) : Z :=
  on_hand d (t_tenant t, t_from t, sku) + on_hand d (t_tenant t, t_to t, sku) + in_transit d (t_tenant t, t_to t, sku) + lost t sku.

Section Conservation.
Lemma item_at_same t wh q s l : total (item_at t wh q (t, wh, s)) l = total (fun i => if decide (ti_sku i = s) then q i else 0) l.
Proof.
  unfold total, item_at. f_equal. apply map_ext. intros i. destruct (decide (ti_sku i = s)) as [<-|Hne].
  - by rewrite decide_True.
  - rewrite decide_False; [done | congruence].
Qed.

Lemma item_at_other t wh q t' wh' s l : (t, wh) <> (t', wh') -> total (item_at t wh q (t', wh', s)) l = 0.
Proof.
  intros Hne. unfold total, item_at. induction l as [|i l IH]; cbn; [done|]. rewrite IH, decide_False; [done | congruence].
Qed.

Lemma run_transfer_spec tenantId transferId op d u d' : books d -> transfers d -> run_transfer tenantId transferId op d = Ok (u, d') ->
  transfer_step d d' /\ exists t t', stock_transfer d !! as_uuid transferId = Some t /\
    stock_transfer d' !! as_uuid transferId = Some t' /\ t_tenant t = tenantId /\
    t_tenant t' = t_tenant t /\ t_from t' = t_from t /\ t_to t' = t_to t /\
    (forall sku, accounted d' t' sku = accounted d t sku) /\
    (forall k, k.1 <> (t_tenant t, t_from t) -> k.1 <> (t_tenant t, t_to t) -> on_hand d' k = on_hand d k) /\
    (forall k, k.1 <> (t_tenant t, t_to t) -> in_transit d' k = in_transit d k).
Proof.
  intros HB HT H. assert (Hends : forall t, stock_transfer d !! as_uuid transferId = Some t -> t_from t <> t_to t)
    by (intros t Ht; apply (transfers_ok _ HT _ _ Ht)).
  destruct op as [|dto|]; cbn in H.
  - apply dispatch_spec in H as (Hs & t & its & Ht & Htn & Er & El & Eo & Ei); [|done..]. specialize (Hends t Ht). split; [done|].
    exists t, (with_status (with_items t its) T_DISPATCHED). rewrite Er, lookup_insert_eq. split_and!; try done.
    + intros sku. unfold accounted, lost. cbn. rewrite !Eo, !Ei. rewrite Htn in *. rewrite !item_at_same, item_at_other by congruence.
      specialize (El (tenantId, t_to t, sku)). rewrite !item_at_same in El. lia.
    + intros [[a b] c] H1 H2. rewrite Eo, item_at_other; [lia|]. cbn in *. congruence.
    + intros [[a b] c] H1. rewrite Ei, item_at_other; [lia|]. cbn in *. congruence.
  - apply receive_spec in H as (Hs & t & its & Ht & Er & Eo & Ei & Htn); [|done..]. specialize (Hends t Ht). split; [done|].
    eexists t, _. rewrite Er, lookup_insert_eq. split_and!; try done.
    + intros sku. unfold accounted, lost. cbn. rewrite !Eo, !Ei. rewrite Htn in *. rewrite !item_at_same, !item_at_other by congruence. lia.
    + intros [[a b] c] H1 H2. rewrite Eo, !item_at_other; [lia|cbn in *; congruence..].
    + intros [[a b] c] H1. rewrite Ei, !item_at_other; [lia|cbn in *; congruence..].
  - apply cancel_spec in H as (Hs & t & Ht & Htn & Er & Eo & Ei); [|done..]. specialize (Hends t Ht). split; [done|].
    eexists t, _. rewrite Er, lookup_insert_eq. split_and!; try done.
    + intros sku. unfold accounted, lost. cbn. rewrite !Eo, !Ei. rewrite Htn in *. rewrite !item_at_same, item_at_other by congruence. lia.
    + intros [[a b] c] H1 H2. rewrite Eo, item_at_other; [lia|]. cbn in *. congruence.
    + intros [[a b] c] H1. rewrite Ei, item_at_other; [lia|]. cbn in *. congruence.
Qed.
End Conservation.

(** C8.  A transfer conserves the stock.  Whatever is done with a transfer in an
    orderly store (dispatch, a partial or full receipt with or without losses, a
    cancellation), the units of each SKU at the source, at the destination, on the
    road and recorded as lost add up to what they did before; no other warehouse of
    any tenant gains or loses a unit, and the store stays in order, with every
    quantity in transit backed by the open lines of transfers. *)
Theorem transfer_conserves_stock tenantId transferId op d d' :
  books d -> transfers d -> run_transfer tenantId transferId op d = Ok (tt, d') ->
  books d' /\ transfers d' /\ keeps_holds d d' /\
  exists t t', stock_transfer d !! as_uuid transferId = Some t /\ stock_transfer d' !! as_uuid transferId = Some t' /\
    t_from t' = t_from t /\ t_to t' = t_to t /\
    (forall sku, accounted d' t' sku = accounted d t sku) /\
    (forall k, k.1 <> (t_tenant t, t_from t) -> k.1 <> (t_tenant t, t_to t) ->
       on_hand d' k = on_hand d k /\ in_transit d' k = in_transit d k).
Proof.
  intros HB HT H. apply run_transfer_spec in H as ([S1 S2 S3 S4] & t & t' & P1 & P2 & P3 & P4 & P5 & P6 & P7 & P8 & P9); [|done..].
  split_and!; [done..|]. exists t, t'. split_and!; try done. intros k H1 H2. split; [by apply P8 | by apply P9].
Qed.

Section ReceiveRest.
Lemma for_each_stuck {S A} (f : S -> A -> tx S) x l s d r : x ∈ l -> (forall s d r, f s x d <> Ok r) -> for_each f s l d <> Ok r.
Proof.
  intros Hx Hf. revert s d. induction l as [|y l IH]; [by apply not_elem_of_nil in Hx|].
  intros s d. cbn. intros (s1 & d1 & H1 & H2)%tx_bind_Ok. apply elem_of_cons in Hx as [<- | Hx]; [by apply Hf in H1 | by apply IH in H2].
Qed.

Lemma receive_zero tenantId id header sku s d r :
  receive_step tenantId id header false s {| rv_sku := sku; rv_received := "0.000"; rv_discrepancy := Some "0.000" |} d <> Ok r.
Proof.
  destruct r as [u d']. unfold receive_step. intros H. inv_tx. destruct (find_item _ _ _); inv_tx. cbn in Ha2, Ha3.
  vm_compute in Ha2, Ha3. injection Ha2 as <-. injection Ha3 as <-. change ((0 + 0 <=? 0) && negb false) with true in H. discriminate H.
Qed.

Lemma incoming_default items d l d' i : incoming_lines None items d = Ok (l, d') -> i ∈ items ->
  remaining i = 0 -> {| rv_sku := ti_sku i; rv_received := "0.000"; rv_discrepancy := Some "0.000" |} ∈ l.
Proof.
  intros H Hi Hz. cbn in H. revert Hi.
  eapply (for_each_ind (fun pre out _ => i ∈ pre -> {| rv_sku := ti_sku i; rv_received := "0.000"; rv_discrepancy := Some "0.000" |} ∈ out));
    [| by intros ?%not_elem_of_nil | exact H].
  intros pre j post out x out' y _ IH Hs. cbn beta in Hs. intros [Hp | ->%list_elem_of_singleton]%elem_of_app; inv_tx; apply elem_of_app; [left; auto | right].
  unfold remaining_line in Ha. inv_tx. rewrite read_qty_Ok in Ha0, Ha1, Ha2.
  destruct Ha0 as (-> & -> & _), Ha1 as (-> & -> & _), Ha2 as (-> & -> & _). fold (remaining j). rewrite Hz. by left.
Qed.
End ReceiveRest.

(** Receiving "the rest" is refused once a line is complete.  The code fills
    an empty request with what remains of each line; a line with nothing left
    becomes a line of quantity zero, which the same method rejects.  So after one
    line of a transfer has been received in full, a receive without explicit items
    (and without resolving a discrepancy) never succeeds, whatever else is still on
    the road. *)
Theorem receive_rest_refused_after_complete_line tenantId transferId d t i r :
  stock_transfer d !! as_uuid transferId = Some t -> i ∈ t_items t -> remaining i = 0 ->
  receiveTransfer tenantId transferId None d <> Ok r.
Proof.
  intros Ht Hi Hz. destruct r as [u d']. unfold receiveTransfer. cbn [from_option]. intros H. cbn [duplicate_sku] in H. inv_tx.
  apply header_Ok in Ha as (-> & Ht' & _). simplify_eq. case_if_in H; inv_tx. apply active_warehouse_pure in Ha as ->.
  eapply (incoming_default _ _ _ _ i) in Ha0; [| by rewrite by_sku_perm | done].
  by apply (for_each_stuck _ _ _ _ _ _ Ha0) in Ha1; [|intros; apply receive_zero].
Qed.

(** ** Examples *)

Lemma sample_transfers : transfers sample_db.
Proof.
  split; cbn [stock_transfer sample_db]; [|apply map_Forall_empty]. intros k. unfold in_transit, road. cbn [stock_balance stock_transfer sample_db].
  rewrite msum_empty. destruct (decide (("t1", "w1", "s1") = k)) as [<-|]; [by rewrite lookup_singleton_eq | by rewrite lookup_singleton_ne].
Qed.

(** Five pieces drafted from the first warehouse to the second. *)
Definition sample_draft : db :=
  match createTransfer text_order "t1" {| ct_from := "w1"; ct_to := "w2"; ct_code := Some "trf 1"; ct_items := [("s1", "5")] |} false "x1" sample_db with
  | Ok (_, d) => d | Throw _ => sample_db end.

Definition sample_sent : db := after (dispatchTransfer "t1" "x1") sample_draft.
Definition sample_partial : db := after (receiveTransfer "t1" "x1"
  (Some {| rd_items := [{| rv_sku := "s1"; rv_received := "3"; rv_discrepancy := Some "0.5" |}]; rd_resolve := false |})) sample_sent.

Example sample_partial_views :
  on_hand sample_partial ("t1", "w1", "s1") = 5000 /\ on_hand sample_partial ("t1", "w2", "s1") = 3000 /\
  in_transit sample_partial ("t1", "w2", "s1") = 1500.
Proof. vm_compute. done. Qed.

Lemma after_Ok {A} (m : tx A) d : is_ok (m d) = true -> exists a, m d = Ok (a, after m d).
Proof. unfold after. destruct (m d) as [[a d']|e]; [eauto | done]. Qed.

Lemma sample_draft_inv : books sample_draft /\ transfers sample_draft.
Proof.
  destruct (after_Ok (createTransfer text_order "t1" {| ct_from := "w1"; ct_to := "w2"; ct_code := Some "trf 1"; ct_items := [("s1", "5")] |} false "x1")
    sample_db) as [u E]; [vm_compute; reflexivity|].
  destruct (create_spec _ _ _ _ _ _ _ _ sample_books sample_transfers E) as ([S1 _ _ S4] & _). exact (conj S1 S4).
Qed.

Lemma transfer_conserves_stock_witness :
  dispatchTransfer "t1" "x1" sample_draft = Ok (tt, sample_sent) /\ books sample_sent /\ transfers sample_sent.
Proof.
  destruct (after_Ok (dispatchTransfer "t1" "x1") sample_draft) as [[] E]; [vm_compute; reflexivity|]. fold sample_sent in E.
  destruct (transfer_conserves_stock "t1" "x1" Dispatch sample_draft sample_sent (proj1 sample_draft_inv) (proj2 sample_draft_inv) E) as (P1 & P2 & _).
  exact (conj E (conj P1 P2)).
Defined.

(** Two lines: one complete, two pieces of the other still on the road. *)
Definition sample_two : TransferRow :=
  {| t_tenant := "t1"; t_code := "TRF-1"; t_from := "w1"; t_to := "w2"; t_status := T_PARTIALLY_RECEIVED;
     t_items := [ {| ti_sku := "s1"; ti_transfer := 1000; ti_dispatched := 1000; ti_received := 1000; ti_discrepancy := 0; ti_cost := 5000 |};
                  {| ti_sku := "s2"; ti_transfer := 2000; ti_dispatched := 2000; ti_received := 0; ti_discrepancy := 0; ti_cost := 5000 |} ] |}.

Lemma receive_rest_refused_witness : is_ok (receiveTransfer "t1" "x1" None (set_transfer "x1" sample_two sample_db)) = false.
Proof.
  destruct (receiveTransfer "t1" "x1" None (set_transfer "x1" sample_two sample_db)) as [r|e] eqn:E; [exfalso | reflexivity]. revert E.
  apply (receive_rest_refused_after_complete_line "t1" "x1" (set_transfer "x1" sample_two sample_db) sample_two
    {| ti_sku := "s1"; ti_transfer := 1000; ti_dispatched := 1000; ti_received := 1000; ti_discrepancy := 0; ti_cost := 5000 |} r).
  - reflexivity.
  - left.
  - reflexivity.
Defined.
