(* ===== verification/StockDocuments.v ===== *)
(** * Inventory service: receipts, issues and stocktakes

    apps/inventory/src/modules/receiving/receiving.service.ts (goods received:
    created, posted once, the average cost updated),
    issuing/issuing.service.ts (goods taken out), stocktake/stocktake.service.ts
    (counts recorded against a snapshot and approved) and the guarded status moves
    of documents/documents.service.ts.  Users, notes, reasons and timestamps are left
    out; a handler answers with the document it names, so it returns its id. *)

From S2P Require Import Prelude Transaction JsNumber JsString InventoryDomain WarehouseStore StockTransfers.
From Stdlib Require Import Ascii.

Open Scope Z_scope.

(** ** Shared reading of a request *)

(** [idempotencyKey?.trim() || null]. *)
Definition clean_key (key : option string) : option string :=
  match key with
  | Some k => if String.eqb (trim k) "" then None else Some (trim k)
  | None => None
  end.

(** [idempotency_key = COALESCE(idempotency_key, $5)] with [$5 = idempotencyKey?.trim() ?? null]. *)
Definition coalesce_key (stored incoming : option string) : option string :=
  match stored with Some k => Some k | None => trim <$> incoming end.

Definition is_hex (c : ascii) : bool :=
  is_digit c || (Ascii.leb "a" c && Ascii.leb c "f") || (Ascii.leb "A" c && Ascii.leb c "F").

(** [/^[0-9a-f]{8}-[0-9a-f]{4}-[0-9a-f]{4}-[0-9a-f]{4}-[0-9a-f]{12}$/i]. *)
Fixpoint uuid_from (i : nat) (s : string) : bool :=
  match s with
  | EmptyString => Nat.eqb i 36
  | String c s =>
      (if existsb (Nat.eqb i) [8; 13; 18; 23]%nat then Ascii.eqb c "-" else Nat.ltb i 36 && is_hex c) && uuid_from (S i) s
  end.
Definition uuidRegex_test (s : string) : bool := uuid_from 0 s.

(** [x && uuidRegex.test(x) ? x : null]. *)
Definition safe_id (x : option string) : option string :=
  match x with
  | Some s => if uuidRegex_test s then Some (as_uuid s) else None
  | None => None
  end.

(** ** Receipts *)

Record CreateReceiptItem := {
  cri_sku : string; cri_qty : string; cri_cost : option number; cri_unit : option string; cri_factor : jsval }.
Record CreateStockReceiptDto := {
  cr_warehouse : string; cr_source : option string; cr_purchase_order : option string; cr_supplier : option string;
  cr_code : option string; cr_autoPost : bool; cr_items : list CreateReceiptItem }.

Record MergedReceiptLine := {
  ml_sku : string; ml_qty : Z; ml_cost : Z; ml_unit : string; ml_factor : Z }.

(** Lines of one SKU become one, at their weighted average cost. *)
Definition receipt_merge (tenantId : string) (m : list (string * MergedReceiptLine)) (item : CreateReceiptItem)
    : tx (list (string * MergedReceiptLine)) :=
  resolvedSkuId ← assertCatalogSkuEligible tenantId (cri_sku item);
  factor ← domain (parseConversionFactorToTenThousandths (cri_factor item));
  baseQtyMilli ← domain (convertToBaseQtyMilli (VStr (cri_qty item)) (cri_factor item));
  unitCostVnd ← domain (parseMoneyToVnd (VNum (default (int 0) (cri_cost item))));
  match mget resolvedSkuId m with
  | Some e =>
      let totalQty := ml_qty e + baseQtyMilli in
      let totalVal := ml_qty e * ml_cost e + baseQtyMilli * unitCostVnd in
      cost ← domain (bdiv (totalVal + Z.quot totalQty 2) totalQty);
      mret (mset resolvedSkuId {| ml_sku := ml_sku e; ml_qty := totalQty; ml_cost := cost; ml_unit := ml_unit e;
                                  ml_factor := ml_factor e |} m)
  | None =>
      mret (mset resolvedSkuId {| ml_sku := resolvedSkuId; ml_qty := baseQtyMilli; ml_cost := unitCostVnd;
        ml_unit := toUpperCase (trim (default "PCS" (cri_unit item))); ml_factor := factor |} m)
  end.

Definition find_receipt_by_key (tenantId key : string) : tx (option string) :=
  gets (fun d => fst <$> List.find (fun e => String.eqb (rc_tenant e.2) tenantId && bool_decide (rc_key e.2 = Some key))
                           (map_to_list (stock_receipt d))).

(** Another receipt of the tenant with this key (the partial unique index). *)
Definition receipt_key_taken (d : db) (id tenantId : string) (key : option string) : bool :=
  match key with
  | None => false
  | Some k => existsb (fun e => negb (String.eqb e.1 id) && String.eqb (rc_tenant e.2) tenantId && bool_decide (rc_key e.2 = Some k))
                (map_to_list (stock_receipt d))
  end.

Definition insert_receipt (id : string) (r : ReceiptRow) : tx unit :=
  d ← gets (fun d => d);
  if bool_decide (is_Some (stock_receipt d !! id)) || receipt_key_taken d id (rc_tenant r) (rc_key r) ||
     negb (includes ["MANUAL"; "PURCHASE_ORDER"; "RETURN"; "ADJUSTMENT"] (rc_source r)) ||
     existsb (fun e => String.eqb (rc_tenant e.2) (rc_tenant r) && String.eqb (rc_code e.2) (rc_code r)) (map_to_list (stock_receipt d))
  then query_failed else modify (set_receipt id r).

Definition with_receipt_items (r : ReceiptRow) (l : list ReceiptItem) : ReceiptRow :=
  {| rc_tenant := rc_tenant r; rc_code := rc_code r; rc_warehouse := rc_warehouse r; rc_source := rc_source r;
     rc_purchase_order := rc_purchase_order r; rc_supplier := rc_supplier r; rc_status := rc_status r; rc_key := rc_key r; rc_items := l |}.

Definition check_receipt_item (i : ReceiptItem) : bool :=
  (0 <? ri_qty i) && (0 <=? ri_cost i) && (0 <? ri_factor i) && numeric_18_3 (ri_qty i) && int8 (ri_cost i) && numeric_18_3 (ri_factor i).

Definition insert_receipt_item (id : string) (line : MergedReceiptLine) : tx unit :=
  cost ← domain (vndToNumber (ml_cost line));
  rows ← gets stock_receipt;
  let i := {| ri_sku := as_uuid (ml_sku line); ri_qty := ml_qty line; ri_cost := nval cost; ri_unit := ml_unit line;
              ri_factor := ml_factor line |} in
  match rows !! id with
  | Some r => if check_receipt_item i then modify (set_receipt id (with_receipt_items r (rc_items r ++ [i]))) else query_failed
  | None => query_failed
  end.

Definition select_receipt (tenantId id : string) : tx ReceiptRow :=
  rows ← gets stock_receipt;
  match rows !! as_uuid id with
  | Some r => if String.eqb (rc_tenant r) tenantId then mret r else domain_error STOCK_RECEIPT_NOT_FOUND 404
  | None => domain_error STOCK_RECEIPT_NOT_FOUND 404
  end.

(** The movement a receipt's source stands for. *)
Definition receipt_type (source : string) : MovementType :=
  if String.eqb source "PURCHASE_ORDER" then PURCHASE_RECEIPT
  else if String.eqb source "RETURN" then RETURN_RECEIPT else MANUAL_RECEIPT.

Definition set_stock (q avg value : Z) (b : BalanceRow) : BalanceRow :=
  {| on_hand_qty := q; reserved_qty := reserved_qty b; in_transit_qty := in_transit_qty b; avg_unit_cost := avg;
     valuation_amount := value; row_version := row_version b + 1 |}.

Definition by_item_sku (l : list ReceiptItem) : list ReceiptItem := sort_by (fun a b => text_order (ri_sku a) (ri_sku b)) l.

Definition post_item (tenantId id : string) (header : ReceiptRow) (_ : unit) (item : ReceiptItem) : tx unit :=
  assertCatalogSkuEligible tenantId (ri_sku item) ;;
  let k := (tenantId, rc_warehouse header, ri_sku item) in
  let ty := receipt_type (rc_source header) in
  row ← select_balance k;
  oldOnHand ← match row with Some b => read_qty (on_hand_qty b) | None => mret 0 end;
  oldReserved ← match row with Some b => read_qty (reserved_qty b) | None => mret 0 end;
  oldAvg ← match row with Some b => read_money (avg_unit_cost b) | None => mret (int 0) end;
  q ← read_pos (ri_qty item);
  unitCost ← read_money (ri_cost item);
  valuation ← domain (computeWeightedAverageCostOnReceipt (VStr (formatMilliToQty oldOnHand)) (VNum oldAvg)
                        (VStr (formatMilliToQty q)) (VNum unitCost));
  let avg := nval (newAvgUnitCost valuation) in
  let value := nval (newValuationAmount valuation) in
  upsert_balance k (new_balance (newOnHandMilli valuation) avg value) (set_stock (newOnHandMilli valuation) avg value) ;;
  insert_ledger {| l_key := k; l_type := ty; l_before := oldOnHand; l_delta := q; l_after := newOnHandMilli valuation;
    l_reserved_after := oldReserved; l_unit_cost := nval unitCost; l_avg_cost_after := avg; l_ref_type := "STOCK_RECEIPT";
    l_ref_id := id; l_reversal_of := None |} ;;
  outbox_add (StockChanged k ty q (newOnHandMilli valuation) oldReserved "STOCK_RECEIPT" id).

(** [receiptTotalVnd] of the event. *)
Definition receipt_total_step (total : Z) (item : ReceiptItem) : tx Z :=
  q ← read_pos (ri_qty item);
  cost ← read_vnd (ri_cost item);
  mret (total + Z.quot (q * cost + 500) 1000).

Definition posted_receipt (r : ReceiptRow) (key : option string) : ReceiptRow :=
  {| rc_tenant := rc_tenant r; rc_code := rc_code r; rc_warehouse := rc_warehouse r; rc_source := rc_source r;
     rc_purchase_order := rc_purchase_order r; rc_supplier := rc_supplier r; rc_status := "POSTED"; rc_key := key; rc_items := rc_items r |}.

(** [UPDATE stock_receipt SET status = 'POSTED', idempotency_key = COALESCE(...)]. *)
Definition mark_receipt_posted (id : string) (incoming : option string) : tx unit :=
  d ← gets (fun d => d);
  match stock_receipt d !! id with
  | None => mret tt
  | Some r =>
      let key := coalesce_key (rc_key r) incoming in
      if receipt_key_taken d id (rc_tenant r) key then query_failed else modify (set_receipt id (posted_receipt r key))
  end.

Definition postReceiptInTx (tenantId receiptId : string) (idempotencyKey : option string) : tx string :=
  header ← select_receipt tenantId receiptId;
  let id := as_uuid receiptId in
  decision ← domain (evaluateStockReceiptPostTransition (rc_status header) (rc_key header) idempotencyKey);
  match decision with
  | IDEMPOTENT_REPLAY => mret id
  | PROCEED =>
      assertActiveWarehouse tenantId (rc_warehouse header) ;;
      let items := by_item_sku (rc_items header) in
      for_each (post_item tenantId id header) tt items ;;
      mark_receipt_posted id idempotencyKey ;;
      total ← for_each receipt_total_step 0 items;
      amount ← domain (vndToNumber total);
      outbox_add (StockReceived id amount) ;;
      mret id
  end.

Section CreateReceipt.
Context (localeCompare : string -> string -> Z).

Definition createReceiptInTx (tenantId : string) (dto : CreateStockReceiptDto) (idempotencyKey : option string) (uuid : string) : tx string :=
  let cleanKey := clean_key idempotencyKey in
  existing ← match cleanKey with Some k => find_receipt_by_key tenantId k | None => mret None end;
  match existing with
  | Some id => mret id
  | None =>
      assertActiveWarehouse tenantId (cr_warehouse dto) ;;
      merged ← for_each (receipt_merge tenantId) [] (cr_items dto);
      let sortedLines := sort_by (fun a b => localeCompare (ml_sku a) (ml_sku b)) merged.*2 in
      code ← document_code "RCV-" (cr_code dto) uuid;
      insert_receipt uuid {| rc_tenant := tenantId; rc_code := code; rc_warehouse := as_uuid (cr_warehouse dto);
        rc_source := default "MANUAL" (cr_source dto); rc_purchase_order := safe_id (cr_purchase_order dto);
        rc_supplier := safe_id (cr_supplier dto); rc_status := "DRAFT"; rc_key := cleanKey; rc_items := [] |} ;;
      for_each (fun _ line => insert_receipt_item uuid line) tt sortedLines ;;
      if cr_autoPost dto then postReceiptInTx tenantId uuid cleanKey else mret uuid
  end.
End CreateReceipt.

(** [findReceiptByKeyInTx]: the receipt already created under a key. *)
Definition findReceiptByKeyInTx (tenantId : string) (idempotencyKey : option string) : tx (option string) :=
  match clean_key idempotencyKey with
  | None => mret None
  | Some k => find_receipt_by_key tenantId k
  end.

(** ** Issues *)

Record CreateStockIssueDto := {
  ci_warehouse : string; ci_reason : string; ci_code : option string; ci_autoPost : bool; ci_items : list (string * string) }.

Definition find_issue_by_key (tenantId key : string) : tx (option string) :=
  gets (fun d => fst <$> List.find (fun e => String.eqb (is_tenant e.2) tenantId && bool_decide (is_key e.2 = Some key))
                           (map_to_list (stock_issue d))).

Definition issue_key_taken (d : db) (id tenantId : string) (key : option string) : bool :=
  match key with
  | None => false
  | Some k => existsb (fun e => negb (String.eqb e.1 id) && String.eqb (is_tenant e.2) tenantId && bool_decide (is_key e.2 = Some k))
                (map_to_list (stock_issue d))
  end.

Definition insert_issue (id : string) (r : IssueRow) : tx unit :=
  d ← gets (fun d => d);
  if bool_decide (is_Some (stock_issue d !! id)) || issue_key_taken d id (is_tenant r) (is_key r) ||
     negb (includes ["MANUAL_WITHDRAWAL"; "DAMAGED"; "DISPOSAL"; "SAMPLE"; "SUPPLIER_RETURN"] (is_reason r)) ||
     existsb (fun e => String.eqb (is_tenant e.2) (is_tenant r) && String.eqb (is_code e.2) (is_code r)) (map_to_list (stock_issue d))
  then query_failed else modify (set_issue id r).

Definition with_issue_items (r : IssueRow) (l : list IssueItem) : IssueRow :=
  {| is_tenant := is_tenant r; is_code := is_code r; is_warehouse := is_warehouse r; is_reason := is_reason r;
     is_status := is_status r; is_key := is_key r; is_items := l |}.

Definition check_issue_item (i : IssueItem) : bool :=
  (0 <? ii_qty i) && (0 <=? ii_cost i) && numeric_18_3 (ii_qty i) && int8 (ii_cost i).

Definition insert_issue_item (id : string) (i : IssueItem) : tx unit :=
  rows ← gets stock_issue;
  match rows !! id with
  | Some r => if check_issue_item i then modify (set_issue id (with_issue_items r (is_items r ++ [i]))) else query_failed
  | None => query_failed
  end.

Definition select_issue (tenantId id : string) : tx IssueRow :=
  rows ← gets stock_issue;
  match rows !! as_uuid id with
  | Some r => if String.eqb (is_tenant r) tenantId then mret r else domain_error STOCK_ISSUE_NOT_FOUND 404
  | None => domain_error STOCK_ISSUE_NOT_FOUND 404
  end.

(** The lines with their position (the line's primary key), in SKU order. *)
Definition issue_lines (l : list IssueItem) : list (nat * IssueItem) :=
  sort_by (fun a b => text_order (ii_sku a.2) (ii_sku b.2)) (imap pair l).

(** [UPDATE stock_issue_item SET unit_cost WHERE id]. *)
Definition set_issue_cost (id : string) (n : nat) (cost : Z) : tx unit :=
  rows ← gets stock_issue;
  match rows !! id with
  | None => mret tt
  | Some r =>
      let item i := {| ii_sku := ii_sku i; ii_qty := ii_qty i; ii_cost := cost |} in
      let items := alter item n (is_items r) in
      if forallb check_issue_item items then modify (set_issue id (with_issue_items r items)) else query_failed
  end.

(** Deduct one line, from what the first pass read of its balance. *)
Definition issue_step (tenantId id : string) (header : IssueRow) (locked : list (string * SourceBalance))
    (_ : unit) (e : nat * IssueItem) : tx unit :=
  let item := e.2 in
  match mget (ii_sku item) locked with
  | None => type_error
  | Some bal =>
      let k := (tenantId, is_warehouse header, ii_sku item) in
      q ← read_pos (ii_qty item);
      valuation ← domain (computeValuationAfterDeduction (VStr (formatMilliToQty (sb_onHand bal))) (VNum (sb_avgCost bal))
                            (VStr (formatMilliToQty q)));
      update_balance k (fun b => q <=? on_hand_qty b - reserved_qty b)
        (set_on_hand (newOnHandMilli valuation) (nval (newValuationAmount valuation))) ;;
      before ← read_qty (sb_onHand bal);
      heldBefore ← read_qty (sb_reserved bal);
      emitBelowMinOnCrossing k (before - heldBefore) (before - heldBefore - q) ;;
      set_issue_cost id e.1 (nval (sb_avgCost bal)) ;;
      insert_ledger {| l_key := k; l_type := MANUAL_ISSUE; l_before := sb_onHand bal; l_delta := - q;
        l_after := newOnHandMilli valuation; l_reserved_after := sb_reserved bal; l_unit_cost := nval (sb_avgCost bal);
        l_avg_cost_after := nval (newAvgUnitCost valuation); l_ref_type := "STOCK_ISSUE"; l_ref_id := id; l_reversal_of := None |} ;;
      outbox_add (StockChanged k MANUAL_ISSUE (- q) (newOnHandMilli valuation) (sb_reserved bal) "STOCK_ISSUE" id)
  end.

Definition posted_issue (r : IssueRow) (key : option string) : IssueRow :=
  {| is_tenant := is_tenant r; is_code := is_code r; is_warehouse := is_warehouse r; is_reason := is_reason r;
     is_status := "POSTED"; is_key := key; is_items := is_items r |}.

Definition mark_issue_posted (id : string) (incoming : option string) : tx unit :=
  d ← gets (fun d => d);
  match stock_issue d !! id with
  | None => mret tt
  | Some r =>
      let key := coalesce_key (is_key r) incoming in
      if issue_key_taken d id (is_tenant r) key then query_failed else modify (set_issue id (posted_issue r key))
  end.

(** [idempotencyKey && header.idempotency_key && header.idempotency_key === idempotencyKey.trim()]. *)
Definition same_key (incoming stored : option string) : bool :=
  match incoming, stored with
  | Some i, Some s => negb (String.eqb i "") && negb (String.eqb s "") && String.eqb s (trim i)
  | _, _ => false
  end.

Definition postIssueInTx (tenantId issueId : string) (idempotencyKey : option string) : tx string :=
  header ← select_issue tenantId issueId;
  let id := as_uuid issueId in
  if String.eqb (is_status header) "POSTED" then
    if same_key idempotencyKey (is_key header) then mret id else domain_error STOCK_ISSUE_ALREADY_POSTED 409
  else if negb (String.eqb (is_status header) "DRAFT") then domain_error STOCK_ISSUE_INVALID_STATE 409
  else
    assertActiveWarehouse tenantId (is_warehouse header) ;;
    let items := issue_lines (is_items header) in
    '(locked, short) ← for_each (fun s e => lock_available tenantId (is_warehouse header) s (ii_sku (snd e)) (ii_qty (snd e))) ([], false) items;
    if (short : bool) then domain_error INSUFFICIENT_STOCK 409
    else
      for_each (issue_step tenantId id header locked) tt items ;;
      mark_issue_posted id idempotencyKey ;;
      outbox_add (StockIssued id) ;;
      mret id.

Section CreateIssue.
Context (localeCompare : string -> string -> Z).

Definition createIssue (tenantId : string) (dto : CreateStockIssueDto) (idempotencyKey : option string) (uuid : string) : tx string :=
  let cleanKey := clean_key idempotencyKey in
  existing ← match cleanKey with Some k => find_issue_by_key tenantId k | None => mret None end;
  match existing with
  | Some id => mret id
  | None =>
      assertActiveWarehouse tenantId (ci_warehouse dto) ;;
      lines ← domain (normalizeAndSortWarehouseLines localeCompare
        (map (fun i => {| in_warehouseId := ci_warehouse dto; in_skuId := fst i; in_qty := VStr (snd i) |}) (ci_items dto)));
      code ← document_code "ISS-" (ci_code dto) uuid;
      insert_issue uuid {| is_tenant := tenantId; is_code := code; is_warehouse := as_uuid (ci_warehouse dto);
        is_reason := ci_reason dto; is_status := "DRAFT"; is_key := cleanKey; is_items := [] |} ;;
      for_each (fun _ line => insert_issue_item uuid {| ii_sku := as_uuid (n_skuId line); ii_qty := n_qtyMilli line; ii_cost := 0 |}) tt lines ;;
      if ci_autoPost dto then postIssueInTx tenantId uuid cleanKey else mret uuid
  end.
End CreateIssue.

(** ** Stocktakes *)

Record CreateStocktakeDto := { cs_warehouse : string; cs_code : option string; cs_skus : list string }.
Record CountLine := { cl_sku : string; cl_qty : string }.
Record RecordCountsDto := { rcd_counts : list CountLine; rcd_refresh : bool }.

Record Snapshot := { sn_onHand : Z; sn_reserved : Z; sn_version : Z }.

Definition readCurrentSnapshot (tenantId warehouseId skuId : string) : tx Snapshot :=
  row ← select_balance (tenantId, as_uuid warehouseId, as_uuid skuId);
  match row with
  | None => mret {| sn_onHand := 0; sn_reserved := 0; sn_version := 0 |}
  | Some b =>
      oh ← read_qty (on_hand_qty b);
      rs ← read_qty (reserved_qty b);
      mret {| sn_onHand := oh; sn_reserved := rs; sn_version := row_version b |}
  end.

Definition insert_stocktake (id : string) (r : StocktakeRow) : tx unit :=
  d ← gets (fun d => d);
  if bool_decide (is_Some (stock_take d !! id)) ||
     existsb (fun e => String.eqb (sk_tenant e.2) (sk_tenant r) && String.eqb (sk_code e.2) (sk_code r)) (map_to_list (stock_take d))
  then query_failed else modify (set_stocktake id r).

Definition with_stocktake_items (r : StocktakeRow) (l : list StocktakeItem) : StocktakeRow :=
  {| sk_tenant := sk_tenant r; sk_code := sk_code r; sk_warehouse := sk_warehouse r; sk_status := sk_status r; sk_items := l |}.

Definition check_stocktake_item (i : StocktakeItem) : bool :=
  numeric_18_3 (si_snap_on_hand i) && numeric_18_3 (si_snap_reserved i) && int8 (si_snap_version i) &&
  match si_counted i with Some c => (0 <=? c) && numeric_18_3 c | None => true end &&
  match si_variance i with Some v => numeric_18_3 v | None => true end.

(** Inserts and updates of [stock_take_item]: one line per SKU. *)
Definition insert_stocktake_item (id : string) (i : StocktakeItem) : tx unit :=
  rows ← gets stock_take;
  match rows !! id with
  | Some r =>
      if negb (existsb (fun j => String.eqb (si_sku j) (si_sku i)) (sk_items r)) && check_stocktake_item i
      then modify (set_stocktake id (with_stocktake_items r (sk_items r ++ [i]))) else query_failed
  | None => query_failed
  end.

Definition update_stocktake_item (id sku : string) (f : StocktakeItem -> StocktakeItem) : tx unit :=
  rows ← gets stock_take;
  match rows !! id with
  | None => mret tt
  | Some r =>
      let items := map (fun i => if String.eqb (si_sku i) sku then f i else i) (sk_items r) in
      if forallb check_stocktake_item items then modify (set_stocktake id (with_stocktake_items r items)) else query_failed
  end.

(** [.sort()] without a comparator: by code units. *)
Definition sort_text (l : list string) : list string := sort_by text_order l.

Definition createStocktake (tenantId : string) (dto : CreateStocktakeDto) (uuid : string) : tx string :=
  assertActiveWarehouse tenantId (cs_warehouse dto) ;;
  code ← document_code "STK-" (cs_code dto) uuid;
  insert_stocktake uuid {| sk_tenant := tenantId; sk_code := code; sk_warehouse := as_uuid (cs_warehouse dto);
                           sk_status := "DRAFT"; sk_items := [] |} ;;
  for_each (fun _ sku =>
    snap ← readCurrentSnapshot tenantId (cs_warehouse dto) sku;
    insert_stocktake_item uuid {| si_sku := as_uuid sku; si_snap_on_hand := sn_onHand snap; si_snap_reserved := sn_reserved snap;
      si_snap_version := sn_version snap; si_counted := None; si_variance := None |}) tt (sort_text (unique (cs_skus dto))) ;;
  mret uuid.

Definition select_stocktake (tenantId id : string) : tx StocktakeRow :=
  rows ← gets stock_take;
  match rows !! as_uuid id with
  | Some r => if String.eqb (sk_tenant r) tenantId then mret r else domain_error STOCKTAKE_NOT_FOUND 404
  | None => domain_error STOCKTAKE_NOT_FOUND 404
  end.

Definition set_stocktake_status (id status : string) : tx unit :=
  modify (fun d => match stock_take d !! id with
                   | Some r => set_stocktake id {| sk_tenant := sk_tenant r; sk_code := sk_code r; sk_warehouse := sk_warehouse r;
                                                   sk_status := status; sk_items := sk_items r |} d
                   | None => d end).

Definition find_stocktake_item (id sku : string) (d : db) : option StocktakeItem :=
  match stock_take d !! id with
  | Some r => List.find (fun i => String.eqb (si_sku i) sku) (sk_items r)
  | None => None
  end.

Definition count_step (tenantId id : string) (header : StocktakeRow) (refresh : bool) (_ : unit) (line : CountLine) : tx unit :=
  countedMilli ← domain (parseQtyToMilli (VStr (cl_qty line)) true false);
  existing ← gets (find_stocktake_item id (as_uuid (cl_sku line)));
  match existing with
  | Some ex =>
      if negb refresh then
        snapOnHand ← read_qty (si_snap_on_hand ex);
        update_stocktake_item id (si_sku ex) (fun i => {| si_sku := si_sku i; si_snap_on_hand := si_snap_on_hand i;
          si_snap_reserved := si_snap_reserved i; si_snap_version := si_snap_version i; si_counted := Some countedMilli;
          si_variance := Some (countedMilli - snapOnHand) |})
      else
        snap ← readCurrentSnapshot tenantId (sk_warehouse header) (cl_sku line);
        update_stocktake_item id (si_sku ex) (fun i => {| si_sku := si_sku i; si_snap_on_hand := sn_onHand snap;
          si_snap_reserved := sn_reserved snap; si_snap_version := sn_version snap; si_counted := Some countedMilli;
          si_variance := Some (countedMilli - sn_onHand snap) |})
  | None =>
      snap ← readCurrentSnapshot tenantId (sk_warehouse header) (cl_sku line);
      insert_stocktake_item id {| si_sku := as_uuid (cl_sku line); si_snap_on_hand := sn_onHand snap;
        si_snap_reserved := sn_reserved snap; si_snap_version := sn_version snap; si_counted := Some countedMilli;
        si_variance := Some (countedMilli - sn_onHand snap) |}
  end.

Definition recordCounts (tenantId stockTakeId : string) (dto : RecordCountsDto) : tx string :=
  header ← select_stocktake tenantId stockTakeId;
  let id := as_uuid stockTakeId in
  if negb (includes ["DRAFT"; "COUNTING"] (sk_status header)) then domain_error STOCKTAKE_INVALID_STATE 409
  else
    for_each (count_step tenantId id header (rcd_refresh dto)) tt (rcd_counts dto) ;;
    set_stocktake_status id "COUNTING" ;;
    mret id.

Definition counted_balance (q value : Z) (b : BalanceRow) : BalanceRow :=
  {| on_hand_qty := q; reserved_qty := reserved_qty b; in_transit_qty := in_transit_qty b; avg_unit_cost := avg_unit_cost b;
     valuation_amount := value; row_version := row_version b + 1 |}.

(** One line of an approval: the shelf becomes what was counted. *)
Definition approve_step (tenantId id : string) (header : StocktakeRow) (forceRebase : bool) (_ : unit) (item : StocktakeItem) : tx unit :=
  match si_counted item with
  | None => domain_error STOCKTAKE_INVALID_STATE 409
  | Some counted =>
      countedMilli ← read_qty counted;
      let k := (tenantId, sk_warehouse header, si_sku item) in
      row ← select_balance k;
      currentOnHand ← match row with Some b => read_qty (on_hand_qty b) | None => mret 0 end;
      currentReserved ← match row with Some b => read_qty (reserved_qty b) | None => mret 0 end;
      avgCostVnd ← match row with Some b => read_vnd (avg_unit_cost b) | None => mret 0 end;
      snapshotOnHand ← read_qty (si_snap_on_hand item);
      if negb (currentOnHand =? snapshotOnHand) && negb forceRebase then domain_error STOCKTAKE_STALE_SNAPSHOT 409
      else if countedMilli <? currentReserved then domain_error STOCKTAKE_BELOW_RESERVED 409
      else
        let variance := countedMilli - currentOnHand in
        update_stocktake_item id (si_sku item) (fun i => {| si_sku := si_sku i; si_snap_on_hand := si_snap_on_hand i;
          si_snap_reserved := si_snap_reserved i; si_snap_version := si_snap_version i; si_counted := si_counted i;
          si_variance := Some variance |}) ;;
        if variance =? 0 then mret tt
        else
          let newValuationVnd := if countedMilli =? 0 then 0 else Z.quot (countedMilli * avgCostVnd + 500) 1000 in
          avgCost ← domain (vndToNumber avgCostVnd);
          newValuation ← domain (vndToNumber newValuationVnd);
          upsert_balance k (new_balance countedMilli (nval avgCost) (nval newValuation)) (counted_balance countedMilli (nval newValuation)) ;;
          insert_ledger {| l_key := k; l_type := STOCKTAKE_ADJUSTMENT; l_before := currentOnHand; l_delta := variance;
            l_after := countedMilli; l_reserved_after := currentReserved; l_unit_cost := nval avgCost; l_avg_cost_after := nval avgCost;
            l_ref_type := "STOCK_TAKE"; l_ref_id := id; l_reversal_of := None |} ;;
          outbox_add (StockChanged k STOCKTAKE_ADJUSTMENT variance countedMilli currentReserved "STOCK_TAKE" id)
  end.

Definition by_take_sku (l : list StocktakeItem) : list StocktakeItem := sort_by (fun a b => text_order (si_sku a) (si_sku b)) l.

Definition approveStocktake (tenantId stockTakeId : string) (forceRebase : bool) : tx string :=
  header ← select_stocktake tenantId stockTakeId;
  let id := as_uuid stockTakeId in
  if negb (String.eqb (sk_status header) "COUNTING") then domain_error STOCKTAKE_INVALID_STATE 409
  else
    assertActiveWarehouse tenantId (sk_warehouse header) ;;
    let items := by_take_sku (sk_items header) in
    if match items with [] => true | _ => false end then domain_error STOCKTAKE_INVALID_STATE 409
    else
      for_each (approve_step tenantId id header forceRebase) tt items ;;
      set_stocktake_status id "APPROVED" ;;
      outbox_add (StocktakeAdjusted id) ;;
      mret id.

(** ** Status moves (documents.service.ts) *)

(** A kind of document: its table, how a status is stored (the CHECK constraint of
    the column refuses others), and the errors of a move. *)
Record DocKind (R : Type) := {
  dk_table : db -> gmap string R;
  dk_set : string -> R -> db -> db;
  dk_tenant : R -> string;
  dk_status : R -> string;
  dk_with : R -> string -> option R;
  dk_notFound : InventoryDomainErrorCode;
  dk_invalid : InventoryDomainErrorCode }.
Arguments dk_table {R}. Arguments dk_set {R}. Arguments dk_tenant {R}. Arguments dk_status {R}. Arguments dk_with {R}.
Arguments dk_notFound {R}. Arguments dk_invalid {R}.

Definition guarded {R} (allowed : list string) (f : string -> R) (s : string) : option R :=
  if includes allowed s then Some (f s) else None.

Definition receipt_kind : DocKind ReceiptRow :=
  {| dk_table := stock_receipt; dk_set := set_receipt; dk_tenant := rc_tenant; dk_status := rc_status;
     dk_with := fun r => guarded ["DRAFT"; "PENDING_APPROVAL"; "POSTED"; "CANCELLED"] (fun s =>
       {| rc_tenant := rc_tenant r; rc_code := rc_code r; rc_warehouse := rc_warehouse r; rc_source := rc_source r;
          rc_purchase_order := rc_purchase_order r; rc_supplier := rc_supplier r; rc_status := s; rc_key := rc_key r; rc_items := rc_items r |});
     dk_notFound := STOCK_RECEIPT_NOT_FOUND; dk_invalid := STOCK_RECEIPT_INVALID_STATE |}.

Definition issue_kind : DocKind IssueRow :=
  {| dk_table := stock_issue; dk_set := set_issue; dk_tenant := is_tenant; dk_status := is_status;
     dk_with := fun r => guarded ["DRAFT"; "POSTED"; "CANCELLED"] (fun s =>
       {| is_tenant := is_tenant r; is_code := is_code r; is_warehouse := is_warehouse r; is_reason := is_reason r;
          is_status := s; is_key := is_key r; is_items := is_items r |});
     dk_notFound := STOCK_ISSUE_NOT_FOUND; dk_invalid := STOCK_ISSUE_INVALID_STATE |}.

Definition all_transfer_statuses : list TransferStatus :=
  [T_DRAFT; T_DISPATCHED; T_PARTIALLY_RECEIVED; T_RECEIVED; T_DISCREPANCY; T_CANCELLED].

Definition transfer_kind : DocKind TransferRow :=
  {| dk_table := stock_transfer; dk_set := set_transfer; dk_tenant := t_tenant; dk_status := fun t => status_text (t_status t);
     dk_with := fun t s => with_status t <$> List.find (fun x => String.eqb (status_text x) s) all_transfer_statuses;
     dk_notFound := TRANSFER_NOT_FOUND; dk_invalid := TRANSFER_INVALID_STATE |}.

Definition stocktake_kind : DocKind StocktakeRow :=
  {| dk_table := stock_take; dk_set := set_stocktake; dk_tenant := sk_tenant; dk_status := sk_status;
     dk_with := fun r => guarded ["DRAFT"; "COUNTING"; "APPROVED"; "CANCELLED"] (fun s =>
       {| sk_tenant := sk_tenant r; sk_code := sk_code r; sk_warehouse := sk_warehouse r; sk_status := s; sk_items := sk_items r |});
     dk_notFound := STOCKTAKE_NOT_FOUND; dk_invalid := STOCKTAKE_INVALID_STATE |}.

Definition purchase_order_kind : DocKind PurchaseOrderRow :=
  {| dk_table := purchase_order; dk_set := set_purchase_order; dk_tenant := po_tenant; dk_status := po_status;
     dk_with := fun r => guarded ["DRAFT"; "APPROVED"; "PARTIALLY_RECEIVED"; "RECEIVED"; "CANCELLED"] (fun s =>
       {| po_tenant := po_tenant r; po_code := po_code r; po_supplier := po_supplier r; po_warehouse := po_warehouse r;
          po_status := s; po_total := po_total r; po_items := po_items r |});
     dk_notFound := PURCHASE_ORDER_NOT_FOUND; dk_invalid := PURCHASE_ORDER_INVALID_STATE |}.

(** One guarded status change; [extraWhere] is a further condition on the row. *)
Definition move {R} (kind : DocKind R) (tenantId id : string) (from : list string) (to : string) (extraWhere : R -> bool) : tx unit :=
  d ← gets (fun d => d);
  match dk_table kind d !! as_uuid id with
  | Some r =>
      if negb (String.eqb (dk_tenant kind r) tenantId) then domain_error (dk_notFound kind) 404
      else if includes from (dk_status kind r) && extraWhere r then
        match dk_with kind r to with
        | Some r' => modify (dk_set kind (as_uuid id) r')
        | None => query_failed
        end
      else domain_error (dk_invalid kind) 409
  | None => domain_error (dk_notFound kind) 404
  end.

Definition always {R} (_ : R) : bool := true.

Definition submitReceipt (tenantId id : string) : tx unit := move receipt_kind tenantId id ["DRAFT"] "PENDING_APPROVAL" always.
Definition rejectReceipt (tenantId id : string) : tx unit := move receipt_kind tenantId id ["PENDING_APPROVAL"] "DRAFT" always.
Definition cancelReceipt (tenantId id : string) : tx unit :=
  move receipt_kind tenantId id ["DRAFT"; "PENDING_APPROVAL"] "CANCELLED" always.
Definition cancelIssue (tenantId id : string) : tx unit := move issue_kind tenantId id ["DRAFT"] "CANCELLED" always.
Definition cancelStocktake (tenantId id : string) : tx unit :=
  move stocktake_kind tenantId id ["DRAFT"; "COUNTING"] "CANCELLED" always.

Definition approveReceipt (tenantId id : string) : tx string :=
  r ← select_receipt tenantId id;
  if negb (String.eqb (rc_status r) "PENDING_APPROVAL") then domain_error STOCK_RECEIPT_INVALID_STATE 409
  else postReceiptInTx tenantId id None.

(** The draft case of [cancelTransfer], a transaction of its own. *)
Definition cancelDraftTransfer (tenantId id : string) : tx unit := move transfer_kind tenantId id ["DRAFT"] "CANCELLED" always.

(** [cancelTransfer]: the status is read in a transaction of its own first. *)
Definition documents_cancelTransfer (tenantId id : string) (canApprove : bool) : tx unit :=
  current ← transfer_header tenantId id;
  if bool_decide (t_status current = T_DRAFT) then cancelDraftTransfer tenantId id
  else if includes ["DISPATCHED"; "PARTIALLY_RECEIVED"] (status_text (t_status current)) && negb canApprove
  then domain_error PERMISSION_DENIED 403
  else cancelTransfer tenantId id.

(** "Before any quantity is received". *)
Definition nothing_received (r : PurchaseOrderRow) : bool := negb (existsb (fun i => 0 <? pi_received i) (po_items r)).
Definition cancelPurchaseOrder (tenantId id : string) : tx unit :=
  move purchase_order_kind tenantId id ["DRAFT"; "APPROVED"] "CANCELLED" nothing_received.

(** * Properties *)

(** What an operation on these documents preserves. *)
Record doc_step (d d' : db) : Prop := {
  doc_books : books d';
  doc_holds : keeps_holds d d';
  doc_road : keeps_road d d' }.

Section Frames.
#[export] Instance doc_step_trans : Transitive doc_step.
Proof. intros d1 d2 d3 [A1 A2 A3] [B1 B2 B3]. split; [done | by etransitivity | by etransitivity]. Qed.

(** Writing other tables only. *)
Lemma doc_quiet d d' : books d -> stock_balance d' = stock_balance d -> stock_balance_ledger d' = stock_balance_ledger d ->
  outbox d' = outbox d -> warehouse_reservation d' = warehouse_reservation d -> stock_transfer d' = stock_transfer d -> doc_step d d'.
Proof.
  intros HB E1 E2 E3 E4 E5. pose proof (same_views _ _ E1) as SV. split; [by apply (books_ext d) | |]; (split; [done|]; intros k; apply SV).
Qed.

Lemma doc_refl d : books d -> doc_step d d.
Proof. intros HB. by apply doc_quiet. Qed.

Lemma doc_event d e : books d -> event_movement e = None -> doc_step d (add_event e d).
Proof. intros HB He. split; [by apply books_event | done | done]. Qed.

(** A [bigint] column that reads as money is not negative. *)
Lemma read_money_inv z d a d' : read_money z d = Ok (a, d') -> a = int z /\ d' = d /\ 0 <= z <= MAX_SAFE_INTEGER.
Proof.
  destruct (Z.leb_spec 0 z) as [Hz|Hz]; [intros (-> & -> & ?)%read_money_Ok; [done | done]|].
  unfold read_money, read_vnd. intros H. inv_tx. exfalso. unfold parseMoneyToVnd, bigint_text, Z_string in Ha.
  replace (z <? 0) with true in Ha by lia. cbn [is_empty_value to_str String.eqb] in Ha.
  rewrite trim_id in Ha; [cbn in Ha; discriminate|]. cbn. eapply sall_impl; [apply digit_not_ws | apply nat_string_digits; lia].
Qed.

Lemma read_vnd_inv z d a d' : 0 <= z -> read_vnd z d = Ok (a, d') -> a = z /\ d' = d.
Proof. by intros Hz (-> & -> & _)%read_vnd_Ok. Qed.

(** The balance columns as the handlers read them, zero without a row. *)
Definition avg_cost (d : db) (k : balance_key) : Z := from_option avg_unit_cost 0 (stock_balance d !! k).

Lemma read_on_hand d k a d' : (match stock_balance d !! k with Some b => read_qty (on_hand_qty b) | None => mret 0 end) d = Ok (a, d') ->
  a = on_hand d k /\ d' = d.
Proof. unfold on_hand. destruct (stock_balance d !! k); intros H; [by apply read_qty_Ok in H as (-> & -> & _) | by inv_tx]. Qed.

Lemma read_reserved d k a d' : (match stock_balance d !! k with Some b => read_qty (reserved_qty b) | None => mret 0 end) d = Ok (a, d') ->
  a = reserved d k /\ d' = d.
Proof. unfold reserved. destruct (stock_balance d !! k); intros H; [by apply read_qty_Ok in H as (-> & -> & _) | by inv_tx]. Qed.

Lemma read_avg d k a d' :
  (match stock_balance d !! k with Some b => read_money (avg_unit_cost b) | None => mret (int 0) end) d = Ok (a, d') ->
  a = int (avg_cost d k) /\ d' = d.
Proof. unfold avg_cost. destruct (stock_balance d !! k); intros H; [by apply read_money_inv in H as (-> & -> & _) | by inv_tx]. Qed.

Lemma avg_cost_range d k : books d -> 0 <= avg_cost d k <= MAX_SAFE_INTEGER.
Proof.
  intros HB. unfold avg_cost. destruct (stock_balance d !! k) as [b|] eqn:E; cbn; [apply (row_cost _ (books_rows _ HB _ _ E)) | by unfold MAX_SAFE_INTEGER].
Qed.

Lemma on_hand_nonneg d k : books d -> 0 <= reserved d k <= on_hand d k.
Proof.
  intros HB. unfold on_hand, reserved. destruct (stock_balance d !! k) as [b|] eqn:E; cbn; [apply (row_reserved _ (books_rows _ HB _ _ E)) | lia].
Qed.

(** A balance written with a new quantity, cost and value. *)
Lemma stocked_row d k q a v f b' : books d -> check_balance b' = true -> 0 <= a <= MAX_SAFE_INTEGER ->
  v = half_up (q * a) 1000 -> v <= MAX_SAFE_INTEGER ->
  (forall b, stock_balance d !! k = Some b -> f b = set_stock q a v b) ->
  b' = match stock_balance d !! k with Some b => f b | None => new_balance q a v end ->
  row_ok b' /\ on_hand_qty b' = q /\ reserved_qty b' = reserved d k /\ in_transit_qty b' = in_transit d k.
Proof.
  intros HB (C1 & C2 & C3)%check_balance_spec Ha Hv Hs Hf ->. destruct (stock_balance d !! k) as [b|] eqn:E.
  - rewrite (Hf b eq_refl) in *. destruct (balance_views _ _ _ E) as (Vo & Vr & Vt). rewrite Vr, Vt. split; [|done]. by split.
  - destruct (no_balance_views _ _ E) as (Vo & Vr & Vt). rewrite Vr, Vt. split; [|done]. by split.
Qed.
End Frames.

Section Receipts.
Lemma sku_eligible_pure t s d x d' : assertCatalogSkuEligible t s d = Ok (x, d') -> d' = d.
Proof.
  unfold assertCatalogSkuEligible. intros H. inv_tx. destruct (List.find _ _); [|by inv_tx]. case_if_in H; by inv_tx.
Qed.

(** The quantity of a receipt's lines for one balance. *)
Definition received_at (tenantId wh : string) (k : balance_key) (i : ReceiptItem) : Z :=
  if decide ((tenantId, wh, ri_sku i) = k) then ri_qty i else 0.

(** One line of a receipt enters the stock. *)
Lemma post_item_spec tenantId id header i d u d' : books d -> post_item tenantId id header tt i d = Ok (u, d') ->
  doc_step d d' /\ keeps_docs d d' /\
  (forall k, on_hand d' k = on_hand d k + received_at tenantId (rc_warehouse header) k i).
Proof.
  intros HB. unfold post_item. intros H. inv_tx. apply sku_eligible_pure in Ha as ->.
  set (k := (tenantId, rc_warehouse header, ri_sku i)) in *.
  apply read_on_hand in Ha1 as [-> ->]. apply read_reserved in Ha2 as [-> ->]. apply read_avg in Ha3 as [-> ->].
  rewrite read_pos_Ok in Ha4. destruct Ha4 as (-> & -> & Hq). apply read_money_inv in Ha5 as (-> & -> & Hc).
  apply receipt_Ok in Ha6 as (av & _ & V1 & V2 & V3 & V4 & V5); [|pose proof (on_hand_nonneg d k HB); lia|by apply avg_cost_range|done].
  rewrite V1, V2, V4, !nval_int in *. apply upsert_balance_Ok in Ha7 as (b' & -> & Hck & Eb). apply insert_ledger_Ok in Ha8 as [-> Hd].
  destruct (stocked_row _ _ _ _ _ _ _ HB Hck V3 eq_refl V5 ltac:(done) Eb) as (R & W1 & W2 & W3).
  match goal with |- doc_step _ ?D /\ _ => set (dn := D) end.
  match type of Hd with l_delta ?R <> 0 => destruct (move_spec d dn k b' R 0) as (P1 & P2 & P3 & P4) end; try done.
  - unfold receipt_type. cbn. by repeat case_match.
  - cbn. lia.
  - split_and!; [split; [done | done |] | done | done]. split; [done|]. intros k'. rewrite P4. case_decide; lia.
Qed.

Lemma post_items_spec tenantId id header items d u d' : books d -> for_each (post_item tenantId id header) tt items d = Ok (u, d') ->
  doc_step d d' /\ keeps_docs d d' /\
  (forall k, on_hand d' k = on_hand d k + total (received_at tenantId (rc_warehouse header) k) items).
Proof.
  intros HB H. eapply (for_each_ind (fun pre _ d1 => doc_step d d1 /\ keeps_docs d d1 /\
    (forall k, on_hand d1 k = on_hand d k + total (received_at tenantId (rc_warehouse header) k) pre))) in H; [done| |].
  - intros pre i post [] d1 [] d2 _ (P1 & P2 & P3) Hs. apply post_item_spec in Hs as (Q1 & Q2 & Q3); [|apply P1].
    split_and!; [by etransitivity | by etransitivity |]. intros k. rewrite Q3, P3, total_snoc. lia.
  - split_and!; [by apply doc_refl | done |]. intros k. unfold total. cbn. lia.
Qed.

Lemma receipt_total_pure items t0 d x d' : for_each receipt_total_step t0 items d = Ok (x, d') -> d' = d.
Proof.
  intros H. eapply (for_each_inv (fun _ d1 => d1 = d)) in H; [done| |done].
  intros z i d1 z' d2 _ -> Hs. unfold receipt_total_step in Hs. inv_tx. rewrite read_pos_Ok in Ha. destruct Ha as (-> & -> & _).
  unfold read_vnd in Ha0. by inv_tx.
Qed.

Lemma select_receipt_Ok t i d r d' : select_receipt t i d = Ok (r, d') -> d' = d /\ stock_receipt d !! as_uuid i = Some r /\ rc_tenant r = t.
Proof.
  unfold select_receipt. intros H. inv_tx. destruct (stock_receipt _ !! _) as [x|]; [|by inv_tx].
  destruct (String.eqb_spec (rc_tenant x) t); by inv_tx.
Qed.

Lemma receipt_key_free d id t key : receipt_key_taken d id t key = false <->
  forall k, key = Some k -> forall i r, stock_receipt d !! i = Some r -> i <> id -> rc_tenant r = t -> rc_key r <> Some k.
Proof.
  unfold receipt_key_taken. destruct key as [k|]; [|split; [by intros _ k|done]]. rewrite existsb_false. split.
  - intros H ? [= <-] i r Hi Hne Ht Hk. specialize (H (i, r) (proj2 (elem_of_map_to_list _ _ _) Hi)). cbn in H.
    rewrite (proj2 (String.eqb_neq i id)), Ht, String.eqb_refl, bool_decide_eq_true_2 in H by done. done.
  - intros H [i r] Hi%elem_of_map_to_list. cbn. destruct (String.eqb_spec i id); [done|]. destruct (String.eqb_spec (rc_tenant r) t); [|done].
    cbn. apply bool_decide_eq_false. by apply (H k eq_refl i r).
Qed.

(** Only receipts change among the documents. *)
Definition keeps_but_receipts (d d' : db) : Prop :=
  stock_issue d' = stock_issue d /\ stock_take d' = stock_take d /\ warehouse d' = warehouse d /\
  purchase_order d' = purchase_order d /\ supplier d' = supplier d.

Lemma post_decision r key x : evaluateStockReceiptPostTransition (rc_status r) (rc_key r) key = Ok x ->
  (x = IDEMPOTENT_REPLAY /\ rc_status r = "POSTED") \/ (x = PROCEED /\ (rc_status r = "DRAFT" \/ rc_status r = "PENDING_APPROVAL")).
Proof.
  unfold evaluateStockReceiptPostTransition. destruct (String.eqb_spec (rc_status r) "POSTED").
  - destruct key, (rc_key r); try discriminate. destruct (_ && _); [|discriminate]. intros [= <-]. by left.
  - destruct (String.eqb_spec (rc_status r) "DRAFT"), (String.eqb_spec (rc_status r) "PENDING_APPROVAL"); cbn; intros [= <-]; right; auto.
Qed.

Lemma post_receipt_spec tenantId receiptId key d x d' : books d -> postReceiptInTx tenantId receiptId key d = Ok (x, d') ->
  x = as_uuid receiptId /\ exists r, stock_receipt d !! as_uuid receiptId = Some r /\ rc_tenant r = tenantId /\
  ((rc_status r = "POSTED" /\ d' = d) \/
   ((rc_status r = "DRAFT" \/ rc_status r = "PENDING_APPROVAL") /\ doc_step d d' /\ keeps_but_receipts d d' /\
    receipt_key_taken d (as_uuid receiptId) tenantId (coalesce_key (rc_key r) key) = false /\
    stock_receipt d' = <[as_uuid receiptId := posted_receipt r (coalesce_key (rc_key r) key)]> (stock_receipt d) /\
    (forall k, on_hand d' k = on_hand d k + total (received_at tenantId (rc_warehouse r) k) (rc_items r)))).
Proof.
  intros HB. unfold postReceiptInTx. intros H. inv_tx. apply select_receipt_Ok in Ha as (-> & Hr & Ht). rename a into r.
  destruct (post_decision _ _ _ Ha0) as [[-> Hst]|[-> Hst]]; inv_tx.
  { split; [done|]. exists r. split_and!; try done. by left. }
  apply active_warehouse_pure in Ha as ->. apply post_items_spec in Ha1 as (P1 & P2 & P3); [|done].
  apply receipt_total_pure in Ha3 as ->. unfold mark_receipt_posted in Ha2. inv_tx.
  destruct P2 as (K1 & K2 & K3 & K4 & K5 & K6). rewrite K1, Hr in Ha2. case_if_in Ha2; inv_tx.
  split; [done|]. exists r. split_and!; try done. right. split_and!; try done.
  - etransitivity; [exact P1|]. etransitivity; [|apply doc_event; [|done]]; [apply doc_quiet; try done; apply P1|].
    apply doc_quiet with d1; try done; apply P1.
  - unfold receipt_key_taken in *. by rewrite K1 in E.
  - cbn. by rewrite K1.
  - intros k. change (on_hand d1 k = on_hand d k + total (received_at (rc_tenant r) (rc_warehouse r) k) (rc_items r)).
    rewrite P3. f_equal. apply total_perm, sort_by_perm.
Qed.

(** The id a request line stands for, and its quantity in base units. *)
Definition resolved (d : db) (tenantId sku : string) : string :=
  match assertCatalogSkuEligible tenantId sku d with Ok (x, _) => x | Throw _ => sku end.
Definition base_qty (item : CreateReceiptItem) : Z :=
  match convertToBaseQtyMilli (VStr (cri_qty item)) (cri_factor item) with Ok q => q | Throw _ => 0 end.

Definition asked_of (d : db) (tenantId sku : string) (item : CreateReceiptItem) : Z :=
  if String.eqb (as_uuid (resolved d tenantId (cri_sku item))) sku then base_qty item else 0.
Definition merged_of (sku : string) (e : MergedReceiptLine) : Z := if String.eqb (as_uuid (ml_sku e)) sku then ml_qty e else 0.
Definition item_of (sku : string) (i : ReceiptItem) : Z := if String.eqb (ri_sku i) sku then ri_qty i else 0.

Lemma receipt_merge_spec tenantId m item d m' d' : NoDup m.*1 -> (forall k e, (k, e) ∈ m -> ml_sku e = k) ->
  receipt_merge tenantId m item d = Ok (m', d') ->
  d' = d /\ NoDup m'.*1 /\ (forall k e, (k, e) ∈ m' -> ml_sku e = k) /\
  forall sku, sumZ (map (merged_of sku) m'.*2) = sumZ (map (merged_of sku) m.*2) + asked_of d tenantId sku item.
Proof.
  intros Hnd Hk. unfold receipt_merge. intros H. inv_tx. pose proof (sku_eligible_pure _ _ _ _ _ Ha) as ->.
  assert (Er : resolved d tenantId (cri_sku item) = a) by (unfold resolved; by rewrite Ha).
  assert (Eq : base_qty item = a1) by (unfold base_qty; by rewrite Ha1).
  assert (Hset : exists v, m' = mset a v m /\ d' = d /\ ml_sku v = a /\
    ml_qty v = a1 + match mget a m with Some e => ml_qty e | None => 0 end).
  { destruct (mget a m) as [e|] eqn:Eg; inv_tx; eexists; (split; [done|]); (split; [done|]); cbn.
    - split; [by apply Hk, mget_elem | lia].
    - split; [done | lia]. }
  destruct Hset as (v & -> & -> & Ev & Eqv). split_and!; [done | by apply mset_NoDup | |].
  - intros k e Hin. apply elem_mget in Hin; [|by apply mset_NoDup]. rewrite mget_mset in Hin.
    destruct (String.eqb_spec a k) as [<-|]; [by simplify_eq | by apply Hk, mget_elem].
  - intros sku. rewrite mset_sum by done. unfold merged_of, asked_of. rewrite Er, Eq, Ev, Eqv.
    destruct (mget a m) as [e|] eqn:Eg; [rewrite (Hk a e) by (by apply mget_elem)|]; destruct (String.eqb _ _); lia.
Qed.

Lemma receipt_merge_loop tenantId items d m d' : for_each (receipt_merge tenantId) [] items d = Ok (m, d') ->
  d' = d /\ forall sku, sumZ (map (merged_of sku) m.*2) = total (asked_of d tenantId sku) items.
Proof.
  intros H. eapply (for_each_ind (fun pre m d1 => d1 = d /\ NoDup m.*1 /\ (forall k e, (k, e) ∈ m -> ml_sku e = k) /\
    forall sku, sumZ (map (merged_of sku) m.*2) = total (asked_of d tenantId sku) pre)) in H; [by destruct H as (? & _ & _ & ?)| |].
  - intros pre i post m0 d1 m1 d2 _ (-> & P1 & P2 & P3) Hs. apply receipt_merge_spec in Hs as (-> & Q1 & Q2 & Q3); [|done..].
    split_and!; [done.. |]. intros sku. rewrite Q3, P3, total_snoc. done.
  - split_and!; [done | constructor | by intros k e ?%not_elem_of_nil | done].
Qed.

Lemma line_item_of sku line c : item_of sku {| ri_sku := as_uuid (ml_sku line); ri_qty := ml_qty line; ri_cost := c;
  ri_unit := ml_unit line; ri_factor := ml_factor line |} = merged_of sku line.
Proof. done. Qed.

(** The lines of a new receipt, written one by one. *)
Lemma insert_receipt_items id lines r d u d' : stock_receipt d !! id = Some r ->
  for_each (fun _ line => insert_receipt_item id line) tt lines d = Ok (u, d') ->
  exists its, stock_receipt d' = <[id := with_receipt_items r its]> (stock_receipt d) /\ keeps_but_receipts d d' /\
    stock_balance d' = stock_balance d /\ stock_balance_ledger d' = stock_balance_ledger d /\ outbox d' = outbox d /\
    warehouse_reservation d' = warehouse_reservation d /\ stock_transfer d' = stock_transfer d /\
    forall sku, total (item_of sku) its = total (item_of sku) (rc_items r) + total (merged_of sku) lines.
Proof.
  intros Hr H. eapply (for_each_ind (fun pre _ d' => exists its, stock_receipt d' = <[id := with_receipt_items r its]> (stock_receipt d) /\
    keeps_but_receipts d d' /\ stock_balance d' = stock_balance d /\ stock_balance_ledger d' = stock_balance_ledger d /\ outbox d' = outbox d /\
    warehouse_reservation d' = warehouse_reservation d /\ stock_transfer d' = stock_transfer d /\
    forall sku, total (item_of sku) its = total (item_of sku) (rc_items r) + total (merged_of sku) pre)) in H; [done| |].
  - intros pre line post [] d1 [] d2 _ (its & P1 & P2 & P3 & P4 & P5 & P6 & P7 & P8) Hs. unfold insert_receipt_item in Hs. inv_tx.
    rewrite P1, lookup_insert_eq in Hs. case_if_in Hs; inv_tx. eexists. split; [cbn; by rewrite P1, insert_insert_eq|].
    split_and!; try done. intros sku. cbn [rc_items with_receipt_items]. rewrite !total_snoc, P8. rewrite (line_item_of sku line). lia.
  - exists (rc_items r). split_and!; try done; [|intros sku; unfold total; cbn; lia].
    rewrite insert_id; [done|]. rewrite Hr. by destruct r.
Qed.

Lemma insert_receipt_Ok id r d u d' : insert_receipt id r d = Ok (u, d') ->
  d' = set_receipt id r d /\ stock_receipt d !! id = None /\ receipt_key_taken d id (rc_tenant r) (rc_key r) = false.
Proof.
  unfold insert_receipt. intros H. inv_tx. case_if_in H; inv_tx. rewrite !orb_false_iff in E. destruct E as [[[E1 E2] _] _].
  split_and!; [done | | done]. apply bool_decide_eq_false in E1. by apply eq_None_not_Some.
Qed.
End Receipts.

Section ReceiptCreation.
Context (localeCompare : string -> string -> Z).

(** A created receipt: found under its key, or new with the quantities asked for. *)
Definition new_receipt (tenantId : string) (dto : CreateStockReceiptDto) (key : option string) (d : db) (r : ReceiptRow) : Prop :=
  rc_tenant r = tenantId /\ rc_key r = clean_key key /\ rc_warehouse r = as_uuid (cr_warehouse dto) /\
  rc_purchase_order r = safe_id (cr_purchase_order dto) /\
  rc_status r = (if cr_autoPost dto then "POSTED" else "DRAFT") /\
  forall sku, total (item_of sku) (rc_items r) = total (asked_of d tenantId sku) (cr_items dto).

Lemma create_receipt_spec tenantId dto key uuid d x d' : books d -> as_uuid uuid = uuid ->
  createReceiptInTx localeCompare tenantId dto key uuid d = Ok (x, d') ->
  (exists k, clean_key key = Some k /\ find_receipt_by_key tenantId k d = Ok (Some x, d) /\ d' = d) \/
  (x = uuid /\ stock_receipt d !! uuid = None /\ doc_step d d' /\ keeps_but_receipts d d' /\
   receipt_key_taken d uuid tenantId (clean_key key) = false /\
   exists r, stock_receipt d' = <[uuid := r]> (stock_receipt d) /\ new_receipt tenantId dto key d r /\
     forall k, on_hand d' k = on_hand d k + if cr_autoPost dto then total (received_at tenantId (rc_warehouse r) k) (rc_items r) else 0).
Proof.
  intros HB Hu. unfold createReceiptInTx. intros H. inv_tx.
  assert (Hx : d0 = d).
  { destruct (clean_key key); [unfold find_receipt_by_key in Ha|]; by inv_tx. }
  subst d0. destruct a as [id|]; inv_tx.
  { left. destruct (clean_key key) as [k|]; [|by inv_tx]. by exists k. }
  right. apply active_warehouse_pure in Ha0 as ->. apply receipt_merge_loop in Ha1 as [-> Hsum]. apply document_code_pure in Ha2 as ->.
  apply insert_receipt_Ok in Ha3 as (-> & Hf & Hk). cbn [rc_tenant rc_key] in Hk.
  match type of Ha4 with for_each _ _ _ (set_receipt _ ?R _) = _ => set (row := R) in * end.
  apply (insert_receipt_items _ _ row) in Ha4 as (its & I1 & I2 & I3 & I4 & I5 & I6 & I7 & I8); [|cbn; by rewrite lookup_insert_eq].
  cbn [stock_receipt set_receipt] in I1. rewrite insert_insert_eq in I1.
  assert (Hq : doc_step d d4) by (by apply doc_quiet).
  assert (Hits : forall sku, total (item_of sku) its = total (asked_of d tenantId sku) (cr_items dto)).
  { intros sku. rewrite I8, <- Hsum. cbn [rc_items row]. unfold total at 1. cbn. apply total_perm, sort_by_perm. }
  destruct (cr_autoPost dto) eqn:Eap.
  - apply post_receipt_spec in H as (-> & r & Hr & Hrt & [[Hst ->] | (_ & P1 & P2 & P3 & P4 & P5)]); [| |apply Hq];
      rewrite Hu, I1, lookup_insert_eq in Hr; injection Hr as <-; [discriminate Hst|].
    rewrite Hu in *. split_and!; try done; [by etransitivity | |].
    + destruct P2 as (A1 & A2 & A3 & A4 & A5), I2 as (C1 & C2 & C3 & C4 & C5). by split_and!; etransitivity.
    + eexists. split; [by rewrite P4, I1, insert_insert_eq|]. split; [unfold new_receipt; cbn; rewrite Eap; split_and!; try done|].
      * by destruct (clean_key key).
      * intros k. rewrite P5. f_equal. unfold on_hand. by rewrite I3.
  - inv_tx. split_and!; try done. exists (with_receipt_items row its). split; [done|]. split; [unfold new_receipt; cbn; by rewrite Eap|].
    intros k. unfold on_hand. rewrite I3. cbn. lia.
Qed.
End ReceiptCreation.

Section Issues.
(** The quantity of an issue's line for one balance. *)
Definition issued_at (tenantId wh : string) (k : balance_key) (i : IssueItem) : Z :=
  if decide ((tenantId, wh, ii_sku i) = k) then ii_qty i else 0.

Definition keeps_but_issues (d d' : db) : Prop :=
  stock_receipt d' = stock_receipt d /\ stock_take d' = stock_take d /\ warehouse d' = warehouse d /\
  purchase_order d' = purchase_order d /\ supplier d' = supplier d.

Lemma issue_key_free d id t key : issue_key_taken d id t key = false <->
  forall k, key = Some k -> forall i r, stock_issue d !! i = Some r -> i <> id -> is_tenant r = t -> is_key r <> Some k.
Proof.
  unfold issue_key_taken. destruct key as [k|]; [|split; [by intros _ k|done]]. rewrite existsb_false. split.
  - intros H ? [= <-] i r Hi Hne Ht Hk. specialize (H (i, r) (proj2 (elem_of_map_to_list _ _ _) Hi)). cbn in H.
    rewrite (proj2 (String.eqb_neq i id)), Ht, String.eqb_refl, bool_decide_eq_true_2 in H by done. done.
  - intros H [i r] Hi%elem_of_map_to_list. cbn. destruct (String.eqb_spec i id); [done|]. destruct (String.eqb_spec (is_tenant r) t); [|done].
    cbn. apply bool_decide_eq_false. by apply (H k eq_refl i r).
Qed.

Lemma set_issue_cost_Ok id n c d u d' r : stock_issue d !! id = Some r -> set_issue_cost id n c d = Ok (u, d') ->
  exists its, d' = set_issue id (with_issue_items r its) d /\ map ii_sku its = map ii_sku (is_items r).
Proof.
  intros Hr. unfold set_issue_cost. intros H. inv_tx. rewrite Hr in H. case_if_in H; inv_tx. eexists. split; [done|].
  apply list_eq. intros j. rewrite !list_lookup_fmap. destruct (decide (n = j)) as [<-|].
  - rewrite list_lookup_alter_eq. by destruct (is_items r !! n).
  - by rewrite list_lookup_alter_ne.
Qed.

(** An alert written after the balance was. *)
Lemma emit_after_set k x y b d k' r d' : books d -> emitBelowMinOnCrossing k x y (set_balance k' b d) = Ok (r, d') ->
  exists d0, d' = set_balance k' b d0 /\ books d0 /\ stock_balance d0 = stock_balance d /\ stock_transfer d0 = stock_transfer d /\
    warehouse_reservation d0 = warehouse_reservation d /\ keeps_docs d d0.
Proof.
  intros HB [-> | (a & m & ->)]%emit_Ok; [by exists d|]. exists (add_event (StockBelowMin k a m) d). split_and!; try done. by apply books_event.
Qed.

Lemma issue_step_spec tenantId id header locked e d u d' r :
  let wh := is_warehouse header in let i := e.2 in
  books d -> stock_issue d !! id = Some r -> source_known tenantId wh locked d (ii_sku i) (ii_qty i) ->
  issue_step tenantId id header locked tt e d = Ok (u, d') ->
  doc_step d d' /\ keeps_but_issues d d' /\
  (forall sku, sku <> ii_sku i -> stock_balance d' !! (tenantId, wh, sku) = stock_balance d !! (tenantId, wh, sku)) /\
  (forall k, on_hand d' k = on_hand d k - issued_at tenantId wh k i) /\
  exists its, stock_issue d' = <[id := with_issue_items r its]> (stock_issue d) /\ map ii_sku its = map ii_sku (is_items r).
Proof.
  intros wh i HB Hr (b & Eb & Em & Hq). unfold issue_step. fold i. rewrite Em. cbn [sb_onHand sb_reserved sb_avgCost]. intros H. inv_tx.
  pose proof (books_rows _ HB _ _ Eb) as Hrow. cbn beta in Hrow. destruct (balance_views _ _ _ Eb) as (Vo & Vr & Vt).
  rewrite read_pos_Ok in Ha. destruct Ha as (-> & -> & _). subst wh. set (k := (tenantId, is_warehouse header, ii_sku i)) in *.
  rewrite deduction_run in Ha0 by (done || (destruct Hrow; lia)). injection Ha0 as <-. cbn [newOnHandMilli newValuationAmount newAvgUnitCost] in *.
  rewrite (update_balance_run _ _ _ _ b) in Ha1; [|done|lia|by apply row_ok_check, row_ok_deduct]. injection Ha1 as <- <-.
  rewrite read_qty_Ok in Ha2, Ha3. destruct Ha2 as (-> & -> & _), Ha3 as (-> & -> & _).
  rewrite !nval_int in *. set (b1 := set_on_hand _ _ b) in *.
  apply (emit_after_set _ _ _ _ _ _ _ _ HB) in Ha4 as (d0 & -> & B0 & S1 & S2 & S3 & S4). pose proof (same_views _ _ S1) as SV.
  apply (set_issue_cost_Ok _ _ _ _ _ _ r) in Ha5 as (its & -> & Hits); [|cbn; destruct S4 as (_ & -> & _); done].
  apply insert_ledger_Ok in Ha6 as [-> Hd]. match goal with |- doc_step _ ?D /\ _ => set (dn := D) end.
  match type of Hd with l_delta ?R <> 0 => destruct (move_spec d0 dn k b1 R 0) as (P1 & P2 & P3 & P4) end; try done;
    try (destruct (SV k) as (Z1 & Z2 & Z3); rewrite ?Z1, ?Z2, ?Z3; cbn; lia); [by apply row_ok_deduct|].
  split_and!.
  - split; [done | etransitivity; [split; [exact S3 | intros k'; apply SV] | done] | split; [done|]].
    intros k'. rewrite P4. destruct (SV k') as (_ & _ & ->). case_decide; lia.
  - by destruct S4 as (A1 & A2 & A3 & A4 & A5 & A6).
  - intros sku Hs. cbn. rewrite lookup_insert_ne by (unfold k; congruence). by rewrite S1.
  - intros k'. rewrite P3. destruct (SV k') as (-> & _). unfold issued_at. fold k. cbn. case_decide; lia.
  - exists its. split; [|done]. cbn. destruct S4 as (_ & -> & _). done.
Qed.

Lemma imap_pair_snd {A} (l : list A) : map snd (imap pair l) = l.
Proof.
  change (snd <$> imap pair l = l). rewrite fmap_imap. change (imap (const id) l = l). by rewrite imap_const, list_fmap_id.
Qed.

Lemma issue_lines_perm l : map snd (issue_lines l) ≡ₚ l.
Proof. unfold issue_lines. rewrite <- (imap_pair_snd l) at 2. apply fmap_Permutation, sort_by_perm. Qed.

Lemma issue_lines_total (f : IssueItem -> Z) l : total (fun e => f e.2) (issue_lines l) = total f l.
Proof. rewrite <- (total_perm f _ _ (issue_lines_perm l)). unfold total. by rewrite map_map. Qed.

Lemma select_issue_Ok t i d r d' : select_issue t i d = Ok (r, d') -> d' = d /\ stock_issue d !! as_uuid i = Some r /\ is_tenant r = t.
Proof.
  unfold select_issue. intros H. inv_tx. destruct (stock_issue _ !! _) as [x|]; [|by inv_tx].
  destruct (String.eqb_spec (is_tenant x) t); by inv_tx.
Qed.

(** The loop over the lines: the balances still to come are as they were read. *)
Lemma issue_loop_spec tenantId id r locked items d u d' :
  books d -> stock_issue d !! id = Some r ->
  Forall (fun e => source_known tenantId (is_warehouse r) locked d (ii_sku e.2) (ii_qty e.2)) items ->
  NoDup (map (fun e => ii_sku e.2) items) ->
  for_each (issue_step tenantId id r locked) tt items d = Ok (u, d') ->
  doc_step d d' /\ keeps_but_issues d d' /\
  (forall k, on_hand d' k = on_hand d k - total (fun e => issued_at tenantId (is_warehouse r) k e.2) items) /\
  exists its, stock_issue d' = <[id := with_issue_items r its]> (stock_issue d) /\ map ii_sku its = map ii_sku (is_items r).
Proof.
  intros HB Hr Hsrc Hnd H. eapply (for_each_ind (fun pre _ d1 => doc_step d d1 /\ keeps_but_issues d d1 /\
    (forall sku, sku ∉ map (fun e => ii_sku e.2) pre ->
       stock_balance d1 !! (tenantId, is_warehouse r, sku) = stock_balance d !! (tenantId, is_warehouse r, sku)) /\
    (forall k, on_hand d1 k = on_hand d k - total (fun e => issued_at tenantId (is_warehouse r) k e.2) pre) /\
    exists its, stock_issue d1 = <[id := with_issue_items r its]> (stock_issue d) /\ map ii_sku its = map ii_sku (is_items r))) in H
    as (P1 & P2 & _ & P4 & P5); [done| |].
  - intros pre e post [] d1 [] d2 El (P1 & P2 & P3 & P4 & its & I1 & I2) Hs. rewrite El in Hsrc, Hnd.
    rewrite map_app in Hnd. apply NoDup_app in Hnd as (_ & Hn1 & _).
    assert (Hni : ii_sku e.2 ∉ map (fun e => ii_sku e.2) pre) by (intros Hin; apply (Hn1 _ Hin); left).
    apply Forall_app in Hsrc as [_ [(b & Eb & Em & Hq) _]%Forall_cons_1].
    eapply (issue_step_spec _ _ _ _ _ _ _ _ (with_issue_items r its)) in Hs as (Q1 & Q2 & Q3 & Q4 & its' & J1 & J2);
      [| apply P1 | by rewrite I1, lookup_insert_eq | exists b; by rewrite P3].
    split_and!; [by etransitivity | | | |].
    + destruct P2 as (A1 & A2 & A3 & A4 & A5), Q2 as (C1 & C2 & C3 & C4 & C5). by split_and!; etransitivity.
    + intros sku Hsk. rewrite map_app, not_elem_of_app in Hsk. destruct Hsk as [Hs1 Hs2%not_elem_of_cons]. rewrite Q3, P3; tauto.
    + intros k. rewrite Q4, P4, total_snoc. lia.
    + exists its'. split; [by rewrite J1, I1, insert_insert_eq | by rewrite J2].
  - split_and!; [by apply doc_refl | done | done | intros k; unfold total; cbn; lia |]. exists (is_items r).
    rewrite insert_id; [done|]. rewrite Hr. by destruct r.
Qed.

Lemma post_issue_spec tenantId issueId key d x d' : books d ->
  (forall r, stock_issue d !! as_uuid issueId = Some r -> is_status r = "DRAFT" -> NoDup (map ii_sku (is_items r))) ->
  postIssueInTx tenantId issueId key d = Ok (x, d') ->
  x = as_uuid issueId /\ exists r, stock_issue d !! as_uuid issueId = Some r /\ is_tenant r = tenantId /\
  ((is_status r = "POSTED" /\ d' = d) \/
   (is_status r = "DRAFT" /\ doc_step d d' /\ keeps_but_issues d d' /\
    issue_key_taken d (as_uuid issueId) tenantId (coalesce_key (is_key r) key) = false /\
    (forall k, on_hand d' k = on_hand d k - total (issued_at tenantId (is_warehouse r) k) (is_items r)) /\
    exists its, map ii_sku its = map ii_sku (is_items r) /\
      stock_issue d' = <[as_uuid issueId := posted_issue (with_issue_items r its) (coalesce_key (is_key r) key)]> (stock_issue d))).
Proof.
  intros HB Hnd. unfold postIssueInTx. intros H. inv_tx. apply select_issue_Ok in Ha as (-> & Hr & Ht). rename a into r.
  destruct (String.eqb_spec (is_status r) "POSTED") as [Hst|_].
  { case_if_in H; inv_tx. split; [done|]. exists r. split_and!; try done. by left. }
  destruct (String.eqb_spec (is_status r) "DRAFT") as [Hst|_]; cbn [negb] in H; inv_tx.
  apply active_warehouse_pure in Ha as ->. destruct a0 as [locked []]; [done|]. inv_tx.
  apply (lock_pass_spec _ (fun e => ii_sku e.2) (fun e => ii_qty e.2)) in Ha0 as [-> Hsrc]; [|done].
  apply (issue_loop_spec _ _ r) in Ha as (P1 & P2 & P3 & its & I1 & I2); [|done|done|done|].
  - split; [done|]. exists r. split_and!; try done. right. unfold mark_issue_posted in Ha1. inv_tx. rewrite I1, lookup_insert_eq in Ha1.
    case_if_in Ha1; inv_tx. split_and!; try done.
    + assert (Hm : doc_step d0 (set_issue (as_uuid issueId) (posted_issue (with_issue_items r its) (coalesce_key (is_key r) key)) d0))
        by (apply doc_quiet; try done; apply P1).
      etransitivity; [exact P1|]. etransitivity; [exact Hm|]. apply doc_event; [apply Hm | done].
    + rewrite issue_key_free in *. intros kk Hkk i r' Hi. destruct (decide (i = as_uuid issueId)) as [->|Hne]; [by intros|].
      intros _. apply (E kk Hkk i r'); [|done]. by rewrite I1, lookup_insert_ne.
    + intros k. rewrite <- (issue_lines_total (issued_at (is_tenant r) (is_warehouse r) k)). apply P3.
    + exists its. split; [done|]. cbn. by rewrite I1, insert_insert_eq.
  - rewrite <- (map_map snd ii_sku). rewrite issue_lines_perm. by apply Hnd.
Qed.
End Issues.

Section IssueCreation.
Context (localeCompare : string -> string -> Z).

(** Merged lines of one warehouse: each SKU text once, from the request. *)
Lemma normalized_skus wh (items : list (string * string)) out :
  normalizeAndSortWarehouseLines localeCompare
    (map (fun i => {| in_warehouseId := wh; in_skuId := i.1; in_qty := VStr i.2 |}) items) = Ok out ->
  NoDup (map n_skuId out) /\ forall l, l ∈ out -> n_skuId l ∈ items.*1.
Proof.
  intros H. unfold normalizeAndSortWarehouseLines in H. set (lines := map _ items) in H.
  assert (Hlines : forall l, l ∈ lines -> in_warehouseId l = wh /\ in_skuId l ∈ items.*1).
  { intros l (i & -> & Hi)%list_elem_of_fmap. split; [done|]. by apply (list_elem_of_fmap_2 fst). }
  clearbody lines. destruct lines as [|l0 ls] eqn:El; [done|]. rewrite <- El in *. clear El. inv_ok. rename a into m.
  apply (foldM_ind (fun pre m => (forall l, l ∈ pre -> l ∈ lines) -> NoDup m.*1 /\
    forall k e, (k, e) ∈ m -> k = line_key wh (m_skuId e) /\ m_skuId e ∈ items.*1)) in Ha as [Hnd Hk]; [| |by split; [constructor|intros k e ?%not_elem_of_nil]|done].
  - split.
    + rewrite map_map. cbn. rewrite sort_by_perm. eapply (NoDup_fmap_1 (line_key wh)).
      match goal with |- NoDup ?x => assert (E : x = m.*1); [|by rewrite E] end.
      clear -Hk. induction m as [|[k e] m IH]; [done|]. cbn. f_equal; [symmetry; apply (Hk k e); left|]. apply IH. intros; apply Hk. by right.
    + intros l (e & -> & He)%list_elem_of_fmap. rewrite sort_by_perm in He. apply list_elem_of_fmap in He as ([k e'] & -> & Hin). by apply (Hk k e').
  - intros pre l m0 m1 IH Hs Hin. destruct IH as [Hnd Hk]; [by intros x Hx; apply Hin, elem_of_app; left|]. unfold merge_line in Hs. inv_ok.
    destruct (Hlines l ltac:(apply Hin, elem_of_app; right; left)) as [Hw Hsk].
    assert (Hset : exists v, m1 = mset (line_key wh (in_skuId l)) v m0 /\ line_key wh (m_skuId v) = line_key wh (in_skuId l) /\ m_skuId v ∈ items.*1).
    { rewrite Hw in Hs. destruct (mget _ m0) as [e|] eqn:Eg; inv_ok; eexists; (split; [done|]); cbn; [|done].
      apply mget_elem in Eg. destruct (Hk _ _ Eg) as [-> ?]. done. }
    destruct Hset as (v & -> & Ev & Hv). split; [by apply mset_NoDup|]. intros k e Hke.
    apply elem_mget in Hke; [|by apply mset_NoDup]. rewrite mget_mset in Hke.
    destruct (String.eqb_spec (line_key wh (in_skuId l)) k) as [<-|]; [simplify_eq; by rewrite Ev | by apply Hk, mget_elem].
Qed.

Lemma insert_issue_items id (lines : list NormalizedSkuQtyLine) r d u d' : stock_issue d !! id = Some r ->
  for_each (fun _ line => insert_issue_item id {| ii_sku := as_uuid (n_skuId line); ii_qty := n_qtyMilli line; ii_cost := 0 |}) tt lines d = Ok (u, d') ->
  exists its, stock_issue d' = <[id := with_issue_items r (is_items r ++ its)]> (stock_issue d) /\ keeps_but_issues d d' /\
    stock_balance d' = stock_balance d /\ stock_balance_ledger d' = stock_balance_ledger d /\ outbox d' = outbox d /\
    warehouse_reservation d' = warehouse_reservation d /\ stock_transfer d' = stock_transfer d /\
    map ii_sku its = map (fun l => as_uuid (n_skuId l)) lines.
Proof.
  intros Hr H. eapply (for_each_ind (fun pre _ d' => exists its, stock_issue d' = <[id := with_issue_items r (is_items r ++ its)]> (stock_issue d) /\
    keeps_but_issues d d' /\ stock_balance d' = stock_balance d /\ stock_balance_ledger d' = stock_balance_ledger d /\ outbox d' = outbox d /\
    warehouse_reservation d' = warehouse_reservation d /\ stock_transfer d' = stock_transfer d /\
    map ii_sku its = map (fun l => as_uuid (n_skuId l)) pre)) in H; [done| |].
  - intros pre line post [] d1 [] d2 _ (its & P1 & P2 & P3 & P4 & P5 & P6 & P7 & P8) Hs. unfold insert_issue_item in Hs. inv_tx.
    rewrite P1, lookup_insert_eq in Hs. case_if_in Hs; inv_tx. eexists (its ++ [_]).
    split; [cbn; rewrite P1, insert_insert_eq; by rewrite (assoc_L app)|]. split_and!; try done. by rewrite !map_app, P8.
  - exists []. rewrite app_nil_r. split_and!; try done. rewrite insert_id; [done|]. rewrite Hr. by destruct r.
Qed.

Lemma insert_issue_Ok id r d u d' : insert_issue id r d = Ok (u, d') ->
  d' = set_issue id r d /\ stock_issue d !! id = None /\ issue_key_taken d id (is_tenant r) (is_key r) = false.
Proof.
  unfold insert_issue. intros H. inv_tx. case_if_in H; inv_tx. rewrite !orb_false_iff in E. destruct E as [[[E1 E2] _] _].
  split_and!; [done | | done]. apply bool_decide_eq_false in E1. by apply eq_None_not_Some.
Qed.

(** No SKU is written in two ways in one request ([as_uuid] reads the text as the
    database does, in any letter case). *)
Definition one_spelling (items : list (string * string)) : Prop :=
  forall i j, i ∈ items -> j ∈ items -> as_uuid i.1 = as_uuid j.1 -> i.1 = j.1.

(** A created issue: found under its key, or new with distinct SKUs. *)
Lemma create_issue_spec tenantId dto key uuid d x d' : books d -> as_uuid uuid = uuid ->
  one_spelling (ci_items dto) ->
  createIssue localeCompare tenantId dto key uuid d = Ok (x, d') ->
  (exists k, clean_key key = Some k /\ find_issue_by_key tenantId k d = Ok (Some x, d) /\ d' = d) \/
  (x = uuid /\ stock_issue d !! uuid = None /\ doc_step d d' /\ keeps_but_issues d d' /\
   issue_key_taken d uuid tenantId (clean_key key) = false /\
   exists r, stock_issue d' = <[uuid := r]> (stock_issue d) /\ is_tenant r = tenantId /\ is_key r = clean_key key /\
     NoDup (map ii_sku (is_items r)) /\ is_status r = (if ci_autoPost dto then "POSTED" else "DRAFT")).
Proof.
  intros HB Hu Hcan. unfold createIssue. intros H. inv_tx.
  assert (Hx : d0 = d).
  { destruct (clean_key key); [unfold find_issue_by_key in Ha|]; by inv_tx. }
  subst d0. destruct a as [id|]; inv_tx.
  { left. destruct (clean_key key) as [k|]; [|by inv_tx]. by exists k. }
  right. apply active_warehouse_pure in Ha0 as ->. apply normalized_skus in Ha1 as [Hn1 Hn2]. apply document_code_pure in Ha2 as ->.
  apply insert_issue_Ok in Ha3 as (-> & Hf & Hk). cbn [is_tenant is_key] in Hk.
  match type of Ha4 with for_each _ _ _ (set_issue _ ?R _) = _ => set (row := R) in * end.
  apply (insert_issue_items _ _ row) in Ha4 as (its & I1 & I2 & I3 & I4 & I5 & I6 & I7 & I8); [|cbn; by rewrite lookup_insert_eq].
  cbn [stock_issue set_issue is_items row app] in I1. rewrite insert_insert_eq in I1.
  assert (Hq : doc_step d d4) by (by apply doc_quiet).
  assert (Hnd : NoDup (map ii_sku its)).
  { rewrite I8, <- (map_map n_skuId as_uuid). apply NoDup_fmap_2_strong; [|done]. intros y z Hy Hz Exy.
    apply list_elem_of_fmap in Hy as (l1 & -> & (i1 & Ei1 & Hi1)%Hn2%list_elem_of_fmap).
    apply list_elem_of_fmap in Hz as (l2 & -> & (i2 & Ei2 & Hi2)%Hn2%list_elem_of_fmap).
    rewrite Ei1, Ei2 in *. by apply Hcan. }
  destruct (ci_autoPost dto).
  - apply post_issue_spec in H as (-> & r & Hr & Hrt & [[Hst ->] | (_ & P1 & P2 & P3 & P4 & its' & P5 & P6)]); [| |apply Hq|];
      rewrite ?Hu, ?I1, ?lookup_insert_eq in *; [by injection Hr as <-| |by intros r [= <-] _].
    injection Hr as <-. split_and!; try done; [by etransitivity | |].
    + destruct P2 as (A1 & A2 & A3 & A4 & A5), I2 as (C1 & C2 & C3 & C4 & C5). by split_and!; etransitivity.
    + eexists. split; [by rewrite P6, insert_insert_eq|]. cbn. split_and!; try done; [by destruct (clean_key key) | by rewrite P5].
  - inv_tx. split_and!; try done. exists (with_issue_items row its). by split_and!.
Qed.
End IssueCreation.

Section Stocktakes.
Definition keeps_but_takes (d d' : db) : Prop :=
  stock_receipt d' = stock_receipt d /\ stock_issue d' = stock_issue d /\ warehouse d' = warehouse d /\
  purchase_order d' = purchase_order d /\ supplier d' = supplier d.

Lemma keeps_but_takes_trans d1 d2 d3 : keeps_but_takes d1 d2 -> keeps_but_takes d2 d3 -> keeps_but_takes d1 d3.
Proof. intros (A1 & A2 & A3 & A4 & A5) (C1 & C2 & C3 & C4 & C5). by split_and!; etransitivity. Qed.

(** A change of the counts of one stocktake: nothing else moves. *)
Record take_edit (id : string) (r : StocktakeRow) (d : db) (its : list StocktakeItem) (d' : db) : Prop := {
  edit_row : stock_take d' = <[id := with_stocktake_items r its]> (stock_take d);
  edit_docs : keeps_but_takes d d';
  edit_balance : stock_balance d' = stock_balance d;
  edit_ledger : stock_balance_ledger d' = stock_balance_ledger d;
  edit_outbox : outbox d' = outbox d;
  edit_holds : warehouse_reservation d' = warehouse_reservation d;
  edit_road : stock_transfer d' = stock_transfer d }.

Lemma edit_set id r its d : take_edit id r d its (set_stocktake id (with_stocktake_items r its) d).
Proof. by split. Qed.

Lemma edit_start id r d : stock_take d !! id = Some r -> take_edit id r d (sk_items r) d.
Proof. intros Hr. split; try done. rewrite insert_id; [done|]. rewrite Hr. by destruct r. Qed.

Lemma edit_next id r d its its' d1 d2 : take_edit id r d its d1 -> take_edit id (with_stocktake_items r its) d1 its' d2 ->
  take_edit id r d its' d2.
Proof.
  intros [A1 A2 A3 A4 A5 A6 A7] [C1 C2 C3 C4 C5 C6 C7]. split; try congruence; [|by eapply keeps_but_takes_trans].
  by rewrite C1, A1, insert_insert_eq.
Qed.

Lemma edit_lookup id r d its d' : take_edit id r d its d' -> stock_take d' !! id = Some (with_stocktake_items r its).
Proof. intros H. by rewrite (edit_row _ _ _ _ _ H), lookup_insert_eq. Qed.

Lemma edit_step id r d its d' : books d -> take_edit id r d its d' -> doc_step d d'.
Proof. intros HB [A1 A2 A3 A4 A5 A6 A7]. by apply doc_quiet. Qed.

Lemma update_take_Ok id sku f d u d' r : stock_take d !! id = Some r -> update_stocktake_item id sku f d = Ok (u, d') ->
  take_edit id r d (map (fun i => if String.eqb (si_sku i) sku then f i else i) (sk_items r)) d'.
Proof. intros Hr. unfold update_stocktake_item. intros H. inv_tx. rewrite Hr in H. case_if_in H; inv_tx. apply edit_set. Qed.

Lemma insert_take_Ok id i d u d' r : stock_take d !! id = Some r -> insert_stocktake_item id i d = Ok (u, d') ->
  take_edit id r d (sk_items r ++ [i]) d' /\ si_sku i ∉ map si_sku (sk_items r).
Proof.
  intros Hr. unfold insert_stocktake_item. intros H. inv_tx. rewrite Hr in H. case_if_in H; inv_tx. apply andb_prop in E as [E1 E2].
  split; [apply edit_set|]. intros (j & Ej & Hj)%list_elem_of_fmap. apply negb_true_iff in E1. eapply existsb_false in E1; [|done].
  by rewrite Ej, String.eqb_refl in E1.
Qed.

Lemma update_take_skus sku f l : (forall i, si_sku (f i) = si_sku i) ->
  map si_sku (map (fun i => if String.eqb (si_sku i) sku then f i else i) l) = map si_sku l.
Proof. intros Hf. rewrite map_map. apply map_ext. intros i. destruct (String.eqb _ _); [apply Hf | done]. Qed.

Lemma snapshot_pure t w s d x d' : readCurrentSnapshot t w s d = Ok (x, d') -> d' = d.
Proof.
  unfold readCurrentSnapshot. intros H. inv_tx. destruct (stock_balance _ !! _); inv_tx; [|done].
  rewrite read_qty_Ok in Ha, Ha0. by destruct Ha as (_ & -> & _), Ha0 as (_ & -> & _).
Qed.

Lemma count_step_spec t id header refresh line d u d' r : stock_take d !! id = Some r -> NoDup (map si_sku (sk_items r)) ->
  count_step t id header refresh tt line d = Ok (u, d') -> exists its, take_edit id r d its d' /\ NoDup (map si_sku its).
Proof.
  intros Hr Hnd. unfold count_step. intros H. inv_tx. destruct (find_stocktake_item _ _ _) as [ex|].
  - destruct refresh; cbn [negb] in H; inv_tx; [apply snapshot_pure in Ha0 as -> | rewrite read_qty_Ok in Ha0; destruct Ha0 as (-> & -> & _)];
      apply (update_take_Ok _ _ _ _ _ _ r) in H; [|done| |done]; eexists; (split; [exact H|]); by rewrite update_take_skus.
  - inv_tx. apply snapshot_pure in Ha0 as ->. apply (insert_take_Ok _ _ _ _ _ r) in H as [H Hn]; [|done]. eexists. split; [exact H|].
    rewrite map_app. apply NoDup_app. split_and!; [done | | apply NoDup_singleton]. intros z Hz ->%list_elem_of_singleton. done.
Qed.

Lemma select_take_Ok t i d r d' : select_stocktake t i d = Ok (r, d') -> d' = d /\ stock_take d !! as_uuid i = Some r /\ sk_tenant r = t.
Proof.
  unfold select_stocktake. intros H. inv_tx. destruct (stock_take _ !! _) as [x|]; [|by inv_tx].
  destruct (String.eqb_spec (sk_tenant x) t); by inv_tx.
Qed.

(** The result of an operation on stocktakes: one row, lines with distinct SKUs. *)
Definition take_step (id : string) (d d' : db) : Prop :=
  doc_step d d' /\ keeps_but_takes d d' /\
  exists r, stock_take d' = <[id := r]> (stock_take d) /\ NoDup (map si_sku (sk_items r)).

Lemma record_counts_spec t sid dto d x d' : books d ->
  (forall r, stock_take d !! as_uuid sid = Some r -> NoDup (map si_sku (sk_items r))) ->
  recordCounts t sid dto d = Ok (x, d') -> take_step (as_uuid sid) d d' /\ stock_balance d' = stock_balance d.
Proof.
  intros HB Hnd. unfold recordCounts. intros H. inv_tx. apply select_take_Ok in Ha as (-> & Hr & Ht). rename a into r.
  case_if_in H; inv_tx. eapply (for_each_inv (fun _ d1 => exists its, take_edit (as_uuid sid) r d its d1 /\ NoDup (map si_sku its))) in Ha
    as (its & Hed & Hn).
  - unfold set_stocktake_status in Ha0. inv_tx. rewrite (edit_lookup _ _ _ _ _ Hed).
    pose proof (edit_step _ _ _ _ _ HB Hed) as Hs. destruct Hed as [A1 A2 A3 A4 A5 A6 A7]. split; [|done].
    split_and!; [etransitivity; [exact Hs | apply doc_quiet; try done; apply Hs] | done |]. eexists. split; [cbn; by rewrite A1, insert_insert_eq | done].
  - intros [] line y [] z _ (its & Hed & Hn) Hs. eapply count_step_spec in Hs as (its' & Hed' & Hn'); [|by eapply edit_lookup|done].
    exists its'. split; [by eapply edit_next | done].
  - exists (sk_items r). split; [by apply edit_start | by apply Hnd].
Qed.

Lemma create_take_spec t dto uuid d x d' : books d -> createStocktake t dto uuid d = Ok (x, d') ->
  take_step uuid d d' /\ stock_take d !! uuid = None /\ stock_balance d' = stock_balance d.
Proof.
  intros HB. unfold createStocktake. intros H. inv_tx. apply active_warehouse_pure in Ha as ->. apply document_code_pure in Ha0 as ->.
  unfold insert_stocktake in Ha1. inv_tx. case_if_in Ha1; inv_tx. rewrite orb_false_iff in E. destruct E as [E1 _].
  apply bool_decide_eq_false in E1. apply eq_None_not_Some in E1. match type of Ha2 with for_each _ _ _ (set_stocktake _ ?R _) = _ => set (row := R) in * end.
  eapply (for_each_inv (fun _ d1 => exists its, take_edit uuid row (set_stocktake uuid row d) its d1 /\ NoDup (map si_sku its))) in Ha2
    as (its & Hed & Hn).
  - assert (HB0 : books (set_stocktake uuid row d)) by (by apply (books_ext d)). pose proof (edit_step _ _ _ _ _ HB0 Hed) as Hs. destruct Hed as [A1 A2 A3 A4 A5 A6 A7].
    split; [|done]. split_and!; [etransitivity; [|exact Hs]; by apply doc_quiet | done |].
    eexists. split; [rewrite A1; cbn; by rewrite insert_insert_eq | done].
  - intros [] sku y [] z _ (its & Hed & Hn) Hs. inv_tx. apply snapshot_pure in Ha as ->.
    eapply insert_take_Ok in Hs as [Hed' Hnew]; [|by eapply edit_lookup]. eexists. split; [by eapply edit_next|]. cbn [sk_items with_stocktake_items] in *.
    rewrite map_app. apply NoDup_app. split_and!; [done | | apply NoDup_singleton]. intros w Hw ->%list_elem_of_singleton. done.
  - exists []. split; [|constructor]. split; try done. cbn. by rewrite insert_insert_eq.
Qed.

(** The adjustment of one balance to a counted quantity. *)
Lemma adjust_spec k id c d u d1 u' d2 : books d ->
  let v := if c =? 0 then 0 else Z.quot (c * avg_cost d k + 500) 1000 in
  upsert_balance k (new_balance c (nval (int (avg_cost d k))) (nval (int v))) (counted_balance c (nval (int v))) d = Ok (u, d1) ->
  insert_ledger {| l_key := k; l_type := STOCKTAKE_ADJUSTMENT; l_before := on_hand d k; l_delta := c - on_hand d k; l_after := c;
    l_reserved_after := reserved d k; l_unit_cost := nval (int (avg_cost d k)); l_avg_cost_after := nval (int (avg_cost d k));
    l_ref_type := "STOCK_TAKE"; l_ref_id := id; l_reversal_of := None |} d1 = Ok (u', d2) ->
  c - on_hand d k <> 0 -> v <= MAX_SAFE_INTEGER ->
  let d' := add_event (StockChanged k STOCKTAKE_ADJUSTMENT (c - on_hand d k) c (reserved d k) "STOCK_TAKE" id) d2 in
  doc_step d d' /\ keeps_docs d d' /\ forall k', on_hand d' k' = if decide (k = k') then c else on_hand d k'.
Proof.
  intros HB v H1 H2 Hz Hv. assert (Ev : v = half_up (c * avg_cost d k) 1000) by (unfold v, half_up; destruct (Z.eqb_spec c 0) as [->|]; done).
  apply upsert_balance_Ok in H1 as (b' & -> & Hck & Eb). apply insert_ledger_Ok in H2 as [-> Hd]. rewrite !nval_int in *. cbv zeta.
  assert (Hf : forall b, stock_balance d !! k = Some b -> counted_balance c v b = set_stock c (avg_cost d k) v b)
    by (intros b Hb; unfold counted_balance, set_stock, avg_cost; by rewrite Hb).
  destruct (stocked_row _ _ _ _ _ _ _ HB Hck (avg_cost_range _ _ HB) Ev Hv Hf Eb) as (R & W1 & W2 & W3).
  match goal with |- doc_step _ ?D /\ _ => set (dn := D) end.
  match type of Hd with l_delta ?R <> 0 => destruct (move_spec d dn k b' R 0) as (P1 & P2 & P3 & P4) end; try done; try (cbn; lia).
  split_and!; [split; [done | done | split; [done|]] | done |].
  - intros k'. rewrite P4. case_decide; lia.
  - intros k'. rewrite P3. cbn. case_decide; [subst; lia | lia].
Qed.

(** One approved line: the shelf holds what was counted. *)
Lemma approve_step_spec t id header force i d u d' r :
  let k := (t, sk_warehouse header, si_sku i) in
  books d -> stock_take d !! id = Some r -> approve_step t id header force tt i d = Ok (u, d') ->
  doc_step d d' /\ keeps_but_takes d d' /\
  (exists c, si_counted i = Some c /\ (forall k', on_hand d' k' = if decide (k = k') then c else on_hand d k') /\
     (force = false -> on_hand d k = si_snap_on_hand i)) /\
  exists its, stock_take d' = <[id := with_stocktake_items r its]> (stock_take d) /\ map si_sku its = map si_sku (sk_items r).
Proof.
  intros k HB Hr. unfold approve_step. destruct (si_counted i) as [c|] eqn:Ec; [|done]. intros H. inv_tx. fold k in H, Ha1, Ha2, Ha3.
  rewrite read_qty_Ok in Ha. destruct Ha as (-> & -> & Hc). apply read_on_hand in Ha1 as [-> ->]. apply read_reserved in Ha2 as [-> ->].
  assert (Hv : a3 = avg_cost d k /\ d4 = d).
  { unfold avg_cost. destruct (stock_balance d !! k) as [b|] eqn:E; [|by inv_tx]. apply read_vnd_inv in Ha3 as [-> ->]; [done|].
    apply (row_cost _ (books_rows _ HB _ _ E)). }
  destruct Hv as [-> ->]. rewrite read_qty_Ok in Ha4. destruct Ha4 as (-> & -> & _).
  case_if_in H; inv_tx. rename E into Est. case_if_in H; inv_tx. rename E into Ers. apply Z.ltb_ge in Ers.
  assert (Hsnap : force = false -> on_hand d k = si_snap_on_hand i) by (intros ->; rewrite andb_true_r in Est; bool_prop; done).
  apply (update_take_Ok _ _ _ _ _ _ r) in Ha as Hed; [|done]. pose proof (edit_step _ _ _ _ _ HB Hed) as Hs.
  destruct Hed as [A1 A2 A3 A4 A5 A6 A7]. match type of A1 with _ = <[_ := with_stocktake_items _ ?I]> _ => set (its := I) in * end.
  assert (Hits : map si_sku its = map si_sku (sk_items r)) by (by apply update_take_skus).
  pose proof (same_views _ _ A3) as SV. pose proof (doc_books _ _ Hs) as HB1.
  destruct (Z.eqb_spec (c - on_hand d k) 0) as [Hz|Hz]; inv_tx.
  { split_and!; try done; [|by exists its]. exists c. split_and!; try done. intros k'. destruct (SV k') as (-> & _). case_decide; [subst; lia | done]. }
  destruct (SV k) as (So & Sr & _). rewrite <- So, <- Sr in *. change (avg_cost d k) with (from_option avg_unit_cost 0 (stock_balance d !! k)) in *.
  rewrite <- A3 in *. fold (avg_cost d0 k) in *. apply vndToNumber_Ok in Ha0 as [-> _], Ha1 as [-> Hsafe].
  destruct (adjust_spec k id c d0 _ _ _ _ HB1 Ha2 Ha4 Hz ltac:(lia)) as (P1 & P2 & P3).
  split_and!; [by etransitivity | | |].
  - destruct P2 as (C1 & C2 & C3 & C4 & C5 & C6), A2 as (D1 & D2 & D3 & D4 & D5). by split_and!; etransitivity.
  - exists c. split_and!; try done. intros k'. rewrite P3. case_decide; [done|]. apply SV.
  - exists its. split; [|done]. destruct P2 as (_ & _ & -> & _). done.
Qed.

(** What an approval promises for the lines [l]. *)
Definition counts_applied (t wh : string) (force : bool) (d d' : db) (l : list StocktakeItem) : Prop :=
  (forall i, i ∈ l -> exists c, si_counted i = Some c /\ on_hand d' (t, wh, si_sku i) = c /\
     (force = false -> on_hand d (t, wh, si_sku i) = si_snap_on_hand i)) /\
  (forall k, k ∉ map (fun i => (t, wh, si_sku i)) l -> on_hand d' k = on_hand d k).

Lemma counts_applied_step t wh force d d1 d2 pre i : counts_applied t wh force d d1 pre -> si_sku i ∉ map si_sku pre ->
  (exists c, si_counted i = Some c /\ (forall k', on_hand d2 k' = if decide ((t, wh, si_sku i) = k') then c else on_hand d1 k') /\
     (force = false -> on_hand d1 (t, wh, si_sku i) = si_snap_on_hand i)) ->
  counts_applied t wh force d d2 (pre ++ [i]).
Proof.
  intros [P1 P2] Hni (c & Ec & Eo & Es).
  assert (Hkey : (t, wh, si_sku i) ∉ map (fun i => (t, wh, si_sku i)) pre).
  { intros (j & [= Ej] & Hj)%list_elem_of_fmap. apply Hni. rewrite Ej. by apply list_elem_of_fmap_2. }
  split.
  - intros j [Hj | ->%list_elem_of_singleton]%elem_of_app.
    + destruct (P1 j Hj) as (c' & A1 & A2 & A3). exists c'. split_and!; try done. rewrite Eo, decide_False; [done|].
      intros [= E]. apply Hni. rewrite E. by apply list_elem_of_fmap_2.
    + exists c. split_and!; [done | by rewrite Eo, decide_True |]. intros Hf. rewrite <- (P2 _ Hkey). auto.
  - intros k. rewrite map_app, not_elem_of_app. intros [Hk1 Hk2%not_elem_of_cons]. rewrite Eo, decide_False; [by apply P2 | intros E; by destruct Hk2].
Qed.

Lemma approve_spec t sid force d x d' : books d ->
  (forall r, stock_take d !! as_uuid sid = Some r -> NoDup (map si_sku (sk_items r))) ->
  approveStocktake t sid force d = Ok (x, d') ->
  take_step (as_uuid sid) d d' /\ exists r, stock_take d !! as_uuid sid = Some r /\ sk_tenant r = t /\ sk_status r = "COUNTING" /\
    counts_applied t (sk_warehouse r) force d d' (sk_items r).
Proof.
  intros HB Hnd. unfold approveStocktake. intros H. inv_tx. apply select_take_Ok in Ha as (-> & Hr & Ht). rename a into r.
  destruct (String.eqb_spec (sk_status r) "COUNTING") as [Hst|]; cbn [negb] in H; inv_tx. apply active_warehouse_pure in Ha as ->.
  case_if_in H; inv_tx. clear E. specialize (Hnd r Hr). set (id := as_uuid sid) in *. set (items := by_take_sku (sk_items r)) in *.
  assert (Hperm : items ≡ₚ sk_items r) by apply sort_by_perm.
  eapply (for_each_ind (fun pre _ d1 => doc_step d d1 /\ keeps_but_takes d d1 /\ counts_applied (sk_tenant r) (sk_warehouse r) force d d1 pre /\
    exists its, stock_take d1 = <[id := with_stocktake_items r its]> (stock_take d) /\ map si_sku its = map si_sku (sk_items r))) in Ha
    as (P1 & P2 & [P3 P4] & its & I1 & I2).
  - unfold set_stocktake_status in Ha0. inv_tx. rewrite I1, lookup_insert_eq. split.
    + split_and!; [|done|].
      * etransitivity; [exact P1|]. etransitivity; [|apply doc_event; [|done]]; [apply doc_quiet; try done; apply P1|].
        by eapply books_ext; [..|apply P1].
      * eexists. split; [cbn; by rewrite I1, insert_insert_eq|]. cbn. by rewrite I2.
    + exists r. split_and!; try done. split; [intros i Hi; apply P3; by rewrite Hperm | intros k Hk; apply P4; by rewrite Hperm].
  - intros pre i post [] y [] z El (P1 & P2 & P3 & its & I1 & I2) Hs.
    assert (Hni : si_sku i ∉ map si_sku pre).
    { assert (Hn : NoDup (map si_sku (pre ++ i :: post))) by (by rewrite <- El, Hperm). rewrite map_app in Hn.
      apply NoDup_app in Hn as (_ & Hn1 & _). intros Hin. apply (Hn1 _ Hin). left. }
    eapply (approve_step_spec _ _ _ _ _ _ _ _ (with_stocktake_items r its)) in Hs as (Q1 & Q2 & Q3 & its' & J1 & J2);
      [| apply P1 | by rewrite I1, lookup_insert_eq].
    split_and!; [by etransitivity | by eapply keeps_but_takes_trans | by eapply counts_applied_step |].
    exists its'. split; [by rewrite J1, I1, insert_insert_eq | by rewrite J2].
  - split_and!; [by apply doc_refl | done | split; [by intros i ?%not_elem_of_nil | done] |]. exists (sk_items r).
    rewrite insert_id; [done|]. rewrite Hr. by destruct r.
Qed.
End Stocktakes.

Section Moves.
(** A document other than a transfer that changes its status moves no stock. *)
Lemma move_Ok {R} (kind : DocKind R) t i from to ex d u d' : move kind t i from to ex d = Ok (u, d') ->
  exists r r', dk_table kind d !! as_uuid i = Some r /\ dk_tenant kind r = t /\ includes from (dk_status kind r) = true /\
    ex r = true /\ dk_with kind r to = Some r' /\ d' = dk_set kind (as_uuid i) r' d.
Proof.
  unfold move. intros H. inv_tx. destruct (dk_table kind _ !! as_uuid i) as [r|]; [|by inv_tx].
  destruct (String.eqb_spec (dk_tenant kind r) t); cbn [negb] in H; [|by inv_tx].
  destruct (includes from _) eqn:E1; cbn [andb] in H; [|by inv_tx]. destruct (ex r) eqn:E2; [|by inv_tx].
  destruct (dk_with kind r to) as [r'|] eqn:E3; inv_tx. by exists r, r'.
Qed.

Lemma cancel_draft_spec t i d u d' : books d -> transfers d -> cancelDraftTransfer t i d = Ok (u, d') -> transfer_step d d'.
Proof.
  intros HB HT (r & r' & Hr & Ht & Hst & _ & Hw & ->)%move_Ok. cbn in Hw. injection Hw as <-. cbn in Hr, Hst.
  assert (Es : t_status r = T_DRAFT) by (by destruct (t_status r)). pose proof (transfers_ok _ HT _ _ Hr) as Hok. cbn beta in Hok.
  split; [by apply (books_ext d) | done | done |]. apply (transfers_close d _ (as_uuid i) (with_status r T_CANCELLED)); [done | done | |].
  - split; cbn; [apply Hok.. | done | by intros [?|?]].
  - intros k. change (in_transit d k = road (set_transfer (as_uuid i) (with_status r T_CANCELLED) d) k).
    unfold road. cbn. rewrite (msum_insert_old _ _ _ _ r) by done. rewrite (transfers_road _ HT). unfold road.
    assert (row_road k (with_status r T_CANCELLED) = 0) as -> by done.
    assert (row_road k r = total (item_at (t_tenant r) (t_to r) remaining k) (t_items r)) as -> by (unfold row_road; rewrite decide_False; [done | by rewrite Es]).
    rewrite no_road_total; [lia|]. pose proof (transfer_draft _ Hok Es) as Hd. apply Forall_forall. intros j Hj.
    apply not_sent_no_road; [by eapply Forall_forall; [apply Hok|] | by eapply Forall_forall in Hd].
Qed.
End Moves.

(** ** What the documents promise *)

(** A receipt enters the stock once.  Posting a receipt that is not posted yet
    raises every balance by exactly its lines (holds and units on the road are left
    alone, the books stay in order); afterwards, posting it again with its own key
    answers the same receipt and changes nothing, and with any other key, or none,
    is refused with STOCK_RECEIPT_ALREADY_POSTED. *)
Theorem receipt_enters_stock_once tenantId receiptId key d x d' r :
  books d -> stock_receipt d !! as_uuid receiptId = Some r -> rc_status r <> "POSTED" ->
  postReceiptInTx tenantId receiptId key d = Ok (x, d') ->
  books d' /\ keeps_holds d d' /\ keeps_road d d' /\
  (forall k, on_hand d' k = on_hand d k + total (received_at tenantId (rc_warehouse r) k) (rc_items r)) /\
  (forall key', postReceiptInTx tenantId receiptId key' d' =
     if same_key key' (coalesce_key (rc_key r) key) then Ok (x, d')
     else Throw (DomainError (Domain STOCK_RECEIPT_ALREADY_POSTED) 409)).
Proof.
  intros HB Hr Hst H. apply post_receipt_spec in H as (-> & r' & Hr' & Ht & [[Hp _]|(_ & [P1 P2 P3] & _ & _ & P4 & P5)]); [by simplify_eq | simplify_eq | done].
  split_and!; [done.. |]. intros key'. unfold postReceiptInTx, select_receipt.
  erewrite tx_bind_run; [|erewrite tx_bind_run by done; rewrite P4, lookup_insert_eq; cbn; by rewrite String.eqb_refl].
  cbn [rc_status rc_key posted_receipt]. unfold evaluateStockReceiptPostTransition. cbn [String.eqb].
  destruct key' as [i|], (coalesce_key (rc_key r) key) as [s|]; cbn [same_key]; try done. by destruct (_ && _).
Qed.

(** An issue takes free stock only.  Posting an issue whose lines name each SKU
    once lowers every balance by exactly its lines, never below what is reserved;
    holds and units on the road are left alone, and the books stay in order. *)
Theorem issue_takes_free_stock tenantId issueId key d x d' r :
  books d -> stock_issue d !! as_uuid issueId = Some r -> is_status r = "DRAFT" -> NoDup (map ii_sku (is_items r)) ->
  postIssueInTx tenantId issueId key d = Ok (x, d') ->
  books d' /\ keeps_holds d d' /\ keeps_road d d' /\
  (forall k, on_hand d' k = on_hand d k - total (issued_at tenantId (is_warehouse r) k) (is_items r) /\
             reserved d' k <= on_hand d' k).
Proof.
  intros HB Hr Hst Hnd H. apply post_issue_spec in H as (-> & r' & Hr' & Ht & [[Hp _]|(_ & [P1 P2 P3] & _ & _ & P4 & _)]);
    [simplify_eq; congruence | simplify_eq | done | by intros ? ? _; simplify_eq].
  split_and!; [done.. |]. intros k. split; [done|]. apply on_hand_nonneg, P1.
Qed.

(** One SKU spelled in two letter cases makes an issue lose stock from the
    books.  The request merges lines by the text of the SKU id, and the table has no
    unique SKU per issue; the second line is deducted from the quantity read before
    the first.  From ten pieces two lines of four leave six on hand, while the
    ledger and the events record both deductions. *)
Theorem issue_in_two_spellings_breaks_the_books :
  books sample_db /\
  exists x d', createIssue text_order "t1" {| ci_warehouse := "w1"; ci_reason := "DAMAGED"; ci_code := None; ci_autoPost := true;
      ci_items := [("s1", "4"); ("S1", "4")] |} None "i1" sample_db = Ok (x, d') /\
    on_hand d' ("t1", "w1", "s1") = 6000 /\ ledger_sum (stock_balance_ledger d') ("t1", "w1", "s1") = 2000 /\ ~ books d'.
Proof.
  split; [apply sample_books|]. destruct (after_Ok (createIssue text_order "t1" {| ci_warehouse := "w1"; ci_reason := "DAMAGED"; ci_code := None;
    ci_autoPost := true; ci_items := [("s1", "4"); ("S1", "4")] |} None "i1") sample_db) as [x E]; [vm_compute; reflexivity|].
  exists x. eexists. split; [exact E|]. match goal with |- on_hand ?D _ = _ /\ _ => set (dn := D) in * end.
  assert (E1 : on_hand dn ("t1", "w1", "s1") = 6000) by (vm_compute; reflexivity).
  assert (E2 : ledger_sum (stock_balance_ledger dn) ("t1", "w1", "s1") = 2000) by (vm_compute; reflexivity).
  split_and!; [exact E1 | exact E2 |]. intros HB. pose proof (books_ledger _ HB ("t1", "w1", "s1")) as H. rewrite E1, E2 in H. discriminate H.
Qed.

(** An approved stocktake makes the shelf what was counted.  Every counted SKU
    holds exactly its count, every other balance is untouched; no hold is
    invalidated (the reserved quantities stay and are covered), the variances are
    in the ledger, and without [forceRebase] a line is only applied when the stock
    is still what the snapshot recorded. *)
Theorem stocktake_sets_counted_stock t sid force d x d' r :
  books d -> stock_take d !! as_uuid sid = Some r -> NoDup (map si_sku (sk_items r)) -> approveStocktake t sid force d = Ok (x, d') ->
  books d' /\ keeps_holds d d' /\ keeps_road d d' /\ counts_applied t (sk_warehouse r) force d d' (sk_items r) /\
  (forall k, reserved d k <= on_hand d' k) /\
  (forall k, on_hand d' k - on_hand d k = ledger_sum (stock_balance_ledger d') k - ledger_sum (stock_balance_ledger d) k).
Proof.
  intros HB Hr Hnd H. apply approve_spec in H as (([P1 P2 P3] & _) & r' & Hr' & _ & _ & HC); [|done | by intros; simplify_eq]. simplify_eq.
  split_and!; try done.
  - intros k. destruct P2 as [_ P2]. rewrite <- P2. by apply on_hand_nonneg.
  - intros k. by rewrite (books_ledger _ HB), (books_ledger _ P1).
Qed.

(** ** Examples *)

Definition sample_receipt_dto : CreateStockReceiptDto :=
  {| cr_warehouse := "w1"; cr_source := None; cr_purchase_order := None; cr_supplier := None; cr_code := Some "rcv 1"; cr_autoPost := false;
     cr_items := [ {| cri_sku := "s1"; cri_qty := "2"; cri_cost := Some (int 8000); cri_unit := Some "box"; cri_factor := VStr "12" |};
                   {| cri_sku := "TEE-01"; cri_qty := "1"; cri_cost := None; cri_unit := None; cri_factor := Undefined |} ] |}.
Definition sample_received : db := after (createReceiptInTx text_order "t1" sample_receipt_dto (Some "k1") "c1") sample_db.
Definition sample_posted : db := after (postReceiptInTx "t1" "c1" (Some "k1")) sample_received.

Example sample_posted_on_hand : on_hand sample_posted ("t1", "w1", "s1") = 35000.
Proof. vm_compute. reflexivity. Qed.

Lemma sample_received_books : books sample_received.
Proof.
  destruct (after_Ok (createReceiptInTx text_order "t1" sample_receipt_dto (Some "k1") "c1") sample_db) as [x E]; [vm_compute; reflexivity|].
  fold sample_received in E. destruct (create_receipt_spec _ _ _ _ _ _ _ _ sample_books eq_refl E) as [(k & _ & _ & Ek)|(_ & _ & [H _ _] & _)];
    [rewrite Ek; apply sample_books | exact H].
Qed.

Lemma receipt_enters_stock_once_witness :
  books sample_posted /\ postReceiptInTx "t1" "c1" None sample_posted = Throw (DomainError (Domain STOCK_RECEIPT_ALREADY_POSTED) 409).
Proof.
  destruct (stock_receipt sample_received !! as_uuid "c1") as [r|] eqn:Er; [|exfalso; revert Er; vm_compute; discriminate].
  destruct (after_Ok (postReceiptInTx "t1" "c1" (Some "k1")) sample_received) as [x E]; [vm_compute; reflexivity|].
  destruct (receipt_enters_stock_once "t1" "c1" (Some "k1") sample_received x sample_posted r sample_received_books Er) as (P1 & _ & _ & _ & P2).
  - revert Er. vm_compute. intros [= <-]. discriminate.
  - exact E.
  - exact (conj P1 (P2 None)).
Defined.

Definition sample_issue : IssueRow :=
  {| is_tenant := "t1"; is_code := "ISS-1"; is_warehouse := "w1"; is_reason := "DAMAGED"; is_status := "DRAFT"; is_key := None;
     is_items := [{| ii_sku := "s1"; ii_qty := 4000; ii_cost := 0 |}] |}.

Lemma issue_takes_free_stock_witness :
  on_hand (after (postIssueInTx "t1" "i1" None) (set_issue "i1" sample_issue sample_db)) ("t1", "w1", "s1") = 6000 /\
  books (after (postIssueInTx "t1" "i1" None) (set_issue "i1" sample_issue sample_db)).
Proof.
  destruct (after_Ok (postIssueInTx "t1" "i1" None) (set_issue "i1" sample_issue sample_db)) as [x E]; [vm_compute; reflexivity|].
  destruct (issue_takes_free_stock "t1" "i1" None (set_issue "i1" sample_issue sample_db) x _ sample_issue
    (books_ext sample_db (set_issue "i1" sample_issue sample_db) eq_refl eq_refl eq_refl sample_books) eq_refl eq_refl (NoDup_singleton _) E) as (P1 & _).
  split; [vm_compute; reflexivity | exact P1].
Defined.

Definition sample_take : StocktakeRow :=
  {| sk_tenant := "t1"; sk_code := "STK-1"; sk_warehouse := "w1"; sk_status := "COUNTING";
     sk_items := [{| si_sku := "s1"; si_snap_on_hand := 10000; si_snap_reserved := 0; si_snap_version := 1; si_counted := Some 9500;
                     si_variance := Some (-500) |}] |}.

Lemma stocktake_sets_counted_stock_witness :
  on_hand (after (approveStocktake "t1" "k1" false) (set_stocktake "k1" sample_take sample_db)) ("t1", "w1", "s1") = 9500 /\
  books (after (approveStocktake "t1" "k1" false) (set_stocktake "k1" sample_take sample_db)).
Proof.
  destruct (after_Ok (approveStocktake "t1" "k1" false) (set_stocktake "k1" sample_take sample_db)) as [x E]; [vm_compute; reflexivity|].
  destruct (stocktake_sets_counted_stock "t1" "k1" false (set_stocktake "k1" sample_take sample_db) x _ sample_take
    (books_ext sample_db (set_stocktake "k1" sample_take sample_db) eq_refl eq_refl eq_refl sample_books) eq_refl (NoDup_singleton _) E) as (P1 & _).
  split; [vm_compute; reflexivity | exact P1].
Defined.
