(* ===== verification/Procurement.v ===== *)
(** * Inventory service: suppliers and purchase orders

    apps/inventory/src/modules/procurement/procurement.service.ts (suppliers,
    purchase orders, receiving against an order, which posts a stock receipt in the
    same transaction) and the supplier deletion of documents/documents.service.ts.
    Users, notes, expected dates and timestamps are left out. *)

From S2P Require Import Prelude Transaction JsNumber JsString InventoryDomain WarehouseStore StockTransfers StockDocuments.
From Stdlib Require Import Ascii.

Open Scope Z_scope.

(** ** Suppliers *)

Record CreateSupplierDto := {
  csu_code : string; csu_name : string; csu_phone : option string; csu_email : option string; csu_address : option string;
  csu_tax_code : option string; csu_note : option string }.

(** A field left out ([undefined]) or given, possibly as null. *)
Record UpdateSupplierDto := {
  usu_name : option string; usu_phone : option (option string); usu_email : option (option string);
  usu_address : option (option string); usu_status : option string; usu_tax_code : option (option string);
  usu_note : option (option string) }.

Definition createSupplier (tenantId : string) (dto : CreateSupplierDto) (uuid : string) : tx string :=
  code ← domain (normalizeInventoryCode (csu_code dto));
  rows ← gets supplier;
  if existsb (fun e => String.eqb (su_tenant e.2) tenantId && String.eqb (su_code e.2) code) (map_to_list rows)
  then domain_error SUPPLIER_CODE_CONFLICT 409
  else if bool_decide (is_Some (rows !! uuid)) then query_failed
  else
    modify (set_supplier uuid {| su_tenant := tenantId; su_code := code; su_name := trim (csu_name dto); su_phone := csu_phone dto;
      su_email := csu_email dto; su_address := csu_address dto; su_tax_code := csu_tax_code dto; su_note := csu_note dto;
      su_status := "ACTIVE"; su_deleted := false |}) ;;
    mret uuid.

(** The supplier, unless it was deleted. *)
Definition select_supplier (tenantId id : string) : tx SupplierRow :=
  rows ← gets supplier;
  match rows !! as_uuid id with
  | Some s => if String.eqb (su_tenant s) tenantId && negb (su_deleted s) then mret s else domain_error SUPPLIER_NOT_FOUND 404
  | None => domain_error SUPPLIER_NOT_FOUND 404
  end.

Definition updateSupplier (tenantId supplierId : string) (dto : UpdateSupplierDto) : tx unit :=
  cur ← select_supplier tenantId supplierId;
  let status := default (su_status cur) (usu_status dto) in
  if negb (includes ["ACTIVE"; "INACTIVE"] status) then query_failed
  else
    modify (set_supplier (as_uuid supplierId)
      {| su_tenant := su_tenant cur; su_code := su_code cur;
         su_name := match usu_name dto with Some n => trim n | None => su_name cur end;
         su_phone := default (su_phone cur) (usu_phone dto); su_email := default (su_email cur) (usu_email dto);
         su_address := default (su_address cur) (usu_address dto); su_tax_code := default (su_tax_code cur) (usu_tax_code dto);
         su_note := default (su_note cur) (usu_note dto); su_status := status; su_deleted := su_deleted cur |}).

Definition OPEN_PO : list string := ["DRAFT"; "APPROVED"; "PARTIALLY_RECEIVED"].

(** The orders of a supplier that are not cancelled. *)
Definition supplier_orders (d : db) (tenantId supplierId : string) : list PurchaseOrderRow :=
  List.filter (fun po => String.eqb (po_tenant po) tenantId && String.eqb (po_supplier po) supplierId &&
                         negb (String.eqb (po_status po) "CANCELLED")) (map_to_list (purchase_order d)).*2.

Definition open_count (l : list PurchaseOrderRow) : nat := length (List.filter (fun po => includes OPEN_PO (po_status po)) l).
(** [SUM(ROUND(received_qty * unit_cost))]. *)
Definition received_value (po : PurchaseOrderRow) : Z := total (fun i => half_up (pi_received i * pi_cost i) 1000) (po_items po).
Definition supplier_debt (l : list PurchaseOrderRow) : Z := total received_value l.

Definition deleteSupplier (tenantId id : string) : tx unit :=
  s ← select_supplier tenantId id;
  orders ← gets (fun d => supplier_orders d tenantId (as_uuid id));
  if (0 <? Z.of_nat (open_count orders)) || (0 <? supplier_debt orders) then domain_error SUPPLIER_IN_USE 400
  else
    modify (set_supplier (as_uuid id) {| su_tenant := su_tenant s; su_code := su_code s; su_name := su_name s; su_phone := su_phone s;
      su_email := su_email s; su_address := su_address s; su_tax_code := su_tax_code s; su_note := su_note s;
      su_status := "INACTIVE"; su_deleted := true |}).

(** ** Purchase orders *)

Record CreatePurchaseItem := {
  cpi_sku : string; cpi_qty : string; cpi_cost : number; cpi_unit : option string; cpi_factor : jsval }.
Record CreatePurchaseOrderDto := {
  cpo_supplier : string; cpo_warehouse : string; cpo_code : option string; cpo_items : list CreatePurchaseItem }.

(** Lines of one SKU become one: the quantities add up, the last cost counts. *)
Definition purchase_merge (m : list (string * MergedReceiptLine)) (item : CreatePurchaseItem) : tx (list (string * MergedReceiptLine)) :=
  factor ← domain (parseConversionFactorToTenThousandths (cpi_factor item));
  baseQtyMilli ← domain (convertToBaseQtyMilli (VStr (cpi_qty item)) (cpi_factor item));
  unitCostVnd ← domain (parseMoneyToVnd (VNum (cpi_cost item)));
  match mget (cpi_sku item) m with
  | Some e =>
      mret (mset (cpi_sku item) {| ml_sku := ml_sku e; ml_qty := ml_qty e + baseQtyMilli; ml_cost := unitCostVnd; ml_unit := ml_unit e;
                                   ml_factor := ml_factor e |} m)
  | None =>
      mret (mset (cpi_sku item) {| ml_sku := cpi_sku item; ml_qty := baseQtyMilli; ml_cost := unitCostVnd;
        ml_unit := toUpperCase (trim (default "PCS" (cpi_unit item))); ml_factor := factor |} m)
  end.

Definition lines_amount (l : list MergedReceiptLine) : Z := total (fun e => Z.quot (ml_qty e * ml_cost e + 500) 1000) l.

Definition insert_purchase_order (id : string) (r : PurchaseOrderRow) : tx unit :=
  d ← gets (fun d => d);
  if bool_decide (is_Some (purchase_order d !! id)) || negb (int8 (po_total r)) ||
     existsb (fun e => String.eqb (po_tenant e.2) (po_tenant r) && String.eqb (po_code e.2) (po_code r)) (map_to_list (purchase_order d))
  then query_failed else modify (set_purchase_order id r).

Definition with_purchase_items (r : PurchaseOrderRow) (l : list PurchaseItem) : PurchaseOrderRow :=
  {| po_tenant := po_tenant r; po_code := po_code r; po_supplier := po_supplier r; po_warehouse := po_warehouse r;
     po_status := po_status r; po_total := po_total r; po_items := l |}.

(** The CHECK constraint of [purchase_order_item]. *)
Definition check_purchase_item (i : PurchaseItem) : bool :=
  (0 <? pi_ordered i) && (0 <=? pi_received i) && (pi_received i <=? pi_ordered i) && (0 <=? pi_cost i) && (0 <? pi_factor i) &&
  numeric_18_3 (pi_ordered i) && int8 (pi_cost i) && numeric_18_3 (pi_factor i).

Definition insert_purchase_item (id : string) (line : MergedReceiptLine) : tx unit :=
  cost ← domain (vndToNumber (ml_cost line));
  rows ← gets purchase_order;
  let i := {| pi_sku := as_uuid (ml_sku line); pi_ordered := ml_qty line; pi_received := 0; pi_cost := nval cost;
              pi_unit := ml_unit line; pi_factor := ml_factor line |} in
  match rows !! id with
  | Some r =>
      if negb (existsb (fun j => String.eqb (pi_sku j) (pi_sku i)) (po_items r)) && check_purchase_item i
      then modify (set_purchase_order id (with_purchase_items r (po_items r ++ [i]))) else query_failed
  | None => query_failed
  end.

Section CreateOrder.
Context (localeCompare : string -> string -> Z).

Definition createPurchaseOrder (tenantId : string) (dto : CreatePurchaseOrderDto) (uuid : string) : tx string :=
  assertActiveWarehouse tenantId (cpo_warehouse dto) ;;
  s ← select_supplier tenantId (cpo_supplier dto);
  if negb (String.eqb (su_status s) "ACTIVE") then domain_error SUPPLIER_INACTIVE 409
  else
    merged ← for_each purchase_merge [] (cpo_items dto);
    let sortedLines := sort_by (fun a b => localeCompare (ml_sku a) (ml_sku b)) merged.*2 in
    code ← document_code "PO-" (cpo_code dto) uuid;
    amount ← domain (vndToNumber (lines_amount sortedLines));
    insert_purchase_order uuid {| po_tenant := tenantId; po_code := code; po_supplier := as_uuid (cpo_supplier dto);
      po_warehouse := as_uuid (cpo_warehouse dto); po_status := "DRAFT"; po_total := nval amount; po_items := [] |} ;;
    for_each (fun _ line => insert_purchase_item uuid line) tt sortedLines ;;
    mret uuid.
End CreateOrder.

Definition select_purchase_order (tenantId id : string) : tx PurchaseOrderRow :=
  rows ← gets purchase_order;
  match rows !! as_uuid id with
  | Some r => if String.eqb (po_tenant r) tenantId then mret r else domain_error PURCHASE_ORDER_NOT_FOUND 404
  | None => domain_error PURCHASE_ORDER_NOT_FOUND 404
  end.

Definition set_order_status (id status : string) : tx unit :=
  modify (fun d => match purchase_order d !! id with
                   | Some r => set_purchase_order id {| po_tenant := po_tenant r; po_code := po_code r; po_supplier := po_supplier r;
                       po_warehouse := po_warehouse r; po_status := status; po_total := po_total r; po_items := po_items r |} d
                   | None => d end).

Definition approvePurchaseOrder (tenantId poId : string) : tx string :=
  header ← select_purchase_order tenantId poId;
  let id := as_uuid poId in
  if String.eqb (po_status header) "APPROVED" then mret id
  else if negb (String.eqb (po_status header) "DRAFT") then domain_error PURCHASE_ORDER_INVALID_STATE 409
  else
    set_order_status id "APPROVED" ;;
    amount ← read_money (po_total header);
    outbox_add (PurchaseOrderApproved id amount) ;;
    mret id.

(** ** Receiving against an order *)

Record ReceiveOrderLine := { rol_sku : string; rol_qty : string; rol_cost : option number }.

(** The default request: what remains of each line. *)
Definition remaining_order_line (i : PurchaseItem) : tx ReceiveOrderLine :=
  ordered ← read_pos (pi_ordered i);
  received ← read_qty (pi_received i);
  cost ← read_money (pi_cost i);
  mret {| rol_sku := pi_sku i; rol_qty := formatMilliToQty (ordered - received); rol_cost := Some cost |}.

Definition incoming_order_lines (items : list ReceiveOrderLine) (rows : list PurchaseItem) : tx (list ReceiveOrderLine) :=
  match items with
  | _ :: _ => mret items
  | [] => for_each (fun out i => l ← remaining_order_line i; mret (out ++ [l])) [] rows
  end.

(** [UPDATE purchase_order_item SET received_qty WHERE id]. *)
Definition set_received_qty (id sku : string) (q : Z) : tx unit :=
  rows ← gets purchase_order;
  match rows !! id with
  | None => mret tt
  | Some r =>
      let items := map (fun i => if String.eqb (pi_sku i) sku
        then {| pi_sku := pi_sku i; pi_ordered := pi_ordered i; pi_received := q; pi_cost := pi_cost i; pi_unit := pi_unit i;
                pi_factor := pi_factor i |} else i) (po_items r) in
      if forallb check_purchase_item items then modify (set_purchase_order id (with_purchase_items r items)) else query_failed
  end.

(** One line of the request, checked against the items as they were read at the
    start ([itemBySku]); the line for the receipt is collected. *)
Definition order_line_step (id : string) (itemBySku : list (string * PurchaseItem)) (out : list CreateReceiptItem) (line : ReceiveOrderLine)
    : tx (list CreateReceiptItem) :=
  match mget (rol_sku line) itemBySku with
  | None => domain_error OVER_RECEIPT_NOT_ALLOWED 409
  | Some item =>
      ordered ← read_pos (pi_ordered item);
      prevReceived ← read_qty (pi_received item);
      receiveNow ← domain (parseQtyToMilli (VStr (rol_qty line)) false false);
      if ordered - prevReceived <? receiveNow then domain_error OVER_RECEIPT_NOT_ALLOWED 409
      else
        costVnd ← domain (parseMoneyToVnd (match rol_cost line with Some c => VNum c | None => VStr (bigint_text (pi_cost item)) end));
        unitCost ← domain (vndToNumber costVnd);
        set_received_qty id (pi_sku item) (prevReceived + receiveNow) ;;
        mret (out ++ [{| cri_sku := rol_sku line; cri_qty := formatMilliToQty receiveNow; cri_cost := Some unitCost; cri_unit := None;
                         cri_factor := Undefined |}])
  end.

Definition by_order_sku (l : list PurchaseItem) : list PurchaseItem := sort_by (fun a b => text_order (pi_sku a) (pi_sku b)) l.

(** [allReceived] over the items as they are now. *)
Definition all_received (items : list PurchaseItem) : tx bool :=
  for_each (fun (b : bool) i => if b then ord ← read_pos (pi_ordered i); rec ← read_qty (pi_received i); mret (negb (rec <? ord)) else mret false)
    true items.

Section ReceiveOrder.
Context (localeCompare : string -> string -> Z).

Definition receivePurchaseOrder (tenantId poId : string) (items : list ReceiveOrderLine) (idempotencyKey : option string) (uuid : string)
    : tx string :=
  header ← select_purchase_order tenantId poId;
  let id := as_uuid poId in
  replayed ← findReceiptByKeyInTx tenantId idempotencyKey;
  match replayed with
  | Some rid =>
      rows ← gets stock_receipt;
      if bool_decide ((rows !! rid) ≫= rc_purchase_order = Some poId) then mret rid else domain_error IDEMPOTENCY_CONFLICT 409
  | None =>
      if negb (includes ["APPROVED"; "PARTIALLY_RECEIVED"] (po_status header)) then domain_error PURCHASE_ORDER_INVALID_STATE 409
      else
        let dbItems := by_order_sku (po_items header) in
        let itemBySku := foldl (fun m i => mset (pi_sku i) i m) [] dbItems in
        lines ← incoming_order_lines items dbItems;
        receiptItems ← for_each (order_line_step id itemBySku) [] lines;
        rid ← createReceiptInTx localeCompare tenantId {| cr_warehouse := po_warehouse header; cr_source := Some "PURCHASE_ORDER";
          cr_purchase_order := Some poId; cr_supplier := Some (po_supplier header); cr_code := None; cr_autoPost := true;
          cr_items := receiptItems |} idempotencyKey uuid;
        updated ← gets (fun d => from_option po_items [] (purchase_order d !! id));
        allReceived ← all_received updated;
        set_order_status id (if allReceived : bool then "RECEIVED" else "PARTIALLY_RECEIVED") ;;
        mret rid
  end.
End ReceiveOrder.

(** * Properties *)

Section Orders.
Lemma set_order_twice i x y d : set_purchase_order i x (set_purchase_order i y d) = set_purchase_order i x d.
Proof. unfold set_purchase_order. cbn. by rewrite insert_insert_eq. Qed.

Lemma set_order_same i r d : purchase_order d !! i = Some r -> set_purchase_order i r d = d.
Proof. intros H. unfold set_purchase_order. rewrite insert_id by done. by destruct d. Qed.

Lemma with_items_same r : with_purchase_items r (po_items r) = r.
Proof. by destruct r. Qed.

(** Writing orders and suppliers moves no stock. *)
Lemma order_quiet d i r : books d -> doc_step d (set_purchase_order i r d).
Proof. intros HB. by apply doc_quiet. Qed.

Lemma select_order_Ok t i d r d' : select_purchase_order t i d = Ok (r, d') -> d' = d /\ purchase_order d !! as_uuid i = Some r /\ po_tenant r = t.
Proof.
  unfold select_purchase_order. intros H. inv_tx. destruct (purchase_order _ !! _) as [x|]; [|by inv_tx].
  destruct (String.eqb_spec (po_tenant x) t); by inv_tx.
Qed.

Lemma incoming_order_pure ls rows d x d' : incoming_order_lines ls rows d = Ok (x, d') -> d' = d.
Proof.
  unfold incoming_order_lines. destruct ls; [|intros H; by inv_tx]. intros H. eapply (for_each_inv (fun _ d1 => d1 = d)) in H; [done| |done].
  intros out i d1 out' d2 _ -> Hs. inv_tx. unfold remaining_order_line in Ha. inv_tx.
  rewrite read_pos_Ok in Ha0. rewrite read_qty_Ok in Ha1. destruct Ha0 as (-> & -> & _), Ha1 as (-> & -> & _). by apply read_money_inv in Ha2 as (_ & -> & _).
Qed.

(** The index by SKU finds lines of the order. *)
Lemma index_elem rows s i : mget s (foldl (fun m i => mset (pi_sku i) i m) [] rows) = Some i -> i ∈ rows /\ pi_sku i = s.
Proof.
  cut (forall m, (forall s i, mget s m = Some i -> i ∈ rows /\ pi_sku i = s) -> forall l, (forall x, x ∈ l -> x ∈ rows) ->
    forall s i, mget s (foldl (fun m i => mset (pi_sku i) i m) m l) = Some i -> i ∈ rows /\ pi_sku i = s).
  { intros H. apply (H []); [done|]. done. }
  intros m Hm l. revert m Hm. induction l as [|x l IH]; intros m Hm Hl; cbn; [done|]. apply IH; [|by intros y Hy; apply Hl; right].
  intros s' i'. rewrite mget_mset. destruct (String.eqb_spec (pi_sku x) s') as [<-|]; [intros [= <-]; split; [apply Hl; left | done] | apply Hm].
Qed.

(** The quantity of a request line, and what the lines add to an item. *)
Definition rol_milli (l : ReceiveOrderLine) : Z := match parseQtyToMilli (VStr (rol_qty l)) false false with Ok q => q | Throw _ => 0 end.
Definition line_for (sku : string) (l : ReceiveOrderLine) : Z := if String.eqb (rol_sku l) sku then rol_milli l else 0.
Definition add_received (q : Z) (i : PurchaseItem) : PurchaseItem :=
  {| pi_sku := pi_sku i; pi_ordered := pi_ordered i; pi_received := pi_received i + q; pi_cost := pi_cost i; pi_unit := pi_unit i;
     pi_factor := pi_factor i |}.
Definition apply_lines (ls : list ReceiveOrderLine) (i : PurchaseItem) : PurchaseItem := add_received (total (line_for (pi_sku i)) ls) i.

(** What the lines put into the stock under a SKU id of the catalog. *)
Definition stocked_for (d : db) (tenantId sku : string) (l : ReceiveOrderLine) : Z :=
  if String.eqb (as_uuid (resolved d tenantId (rol_sku l))) sku then rol_milli l else 0.

Lemma base_qty_plain sku q c : 0 < q -> base_qty {| cri_sku := sku; cri_qty := formatMilliToQty q; cri_cost := c; cri_unit := None; cri_factor := Undefined |} = q.
Proof.
  intros Hq. unfold base_qty, convertToBaseQtyMilli. cbn [cri_qty cri_factor]. rewrite parse_format. unfold sign_allowed. cbn [negb andb].
  replace (q <? 0) with false by lia. replace (q =? 0) with false by lia. cbn [negb andb]. rewrite bind_of_Ok.
  unfold parseConversionFactorToTenThousandths. cbn [is_empty_value]. rewrite bind_of_Ok. unfold FACTOR_SCALE. cbv zeta.
  change (Z.quot 10000 2) with 5000. rewrite Z.quot_div_nonneg by lia. replace (q * 10000 + 5000) with (5000 + q * 10000) by lia.
  rewrite Z.div_add by lia. change (5000 / 10000) with 0. rewrite Z.add_0_l. replace (q <=? 0) with false by lia. done.
Qed.

Lemma unused_line_for sku ls : sku ∉ map rol_sku ls -> total (line_for sku) ls = 0.
Proof.
  unfold total. induction ls as [|l ls IH]; cbn; [done|]. intros [Hl Hr]%not_elem_of_cons. rewrite IH by done. unfold line_for.
  by rewrite (proj2 (String.eqb_neq _ _)).
Qed.

(** One line, for a SKU the earlier lines did not name. *)
Lemma order_line_step_spec id r d rows pre line out out' d' : NoDup (map pi_sku (po_items r)) ->
  (forall i, i ∈ rows -> i ∈ po_items r) -> rol_sku line ∉ map rol_sku pre ->
  order_line_step id (foldl (fun m i => mset (pi_sku i) i m) [] rows) out line
    (set_purchase_order id (with_purchase_items r (map (apply_lines pre) (po_items r))) d) = Ok (out', d') ->
  d' = set_purchase_order id (with_purchase_items r (map (apply_lines (pre ++ [line])) (po_items r))) d /\
  forallb check_purchase_item (map (apply_lines (pre ++ [line])) (po_items r)) = true /\ 0 < rol_milli line /\
  exists c, out' = out ++ [{| cri_sku := rol_sku line; cri_qty := formatMilliToQty (rol_milli line); cri_cost := c; cri_unit := None; cri_factor := Undefined |}].
Proof.
  intros Hnd Hrows Hnew. unfold order_line_step. destruct (mget _ _) as [i|] eqn:Eg; [|done]. apply index_elem in Eg as [Hi Es].
  intros H. inv_tx. rewrite read_pos_Ok in Ha. rewrite read_qty_Ok in Ha0. destruct Ha as (-> & -> & _), Ha0 as (-> & -> & _).
  case_if_in H; inv_tx. assert (Em : rol_milli line = a1) by (unfold rol_milli; by rewrite Ha1). rewrite <- Em in *.
  apply parse_pos in Ha1. unfold set_received_qty in Ha2. inv_tx. cbn [purchase_order set_purchase_order] in Ha2. rewrite lookup_insert_eq in Ha2.
  cbn [po_items with_purchase_items] in Ha2. rewrite map_map in Ha2.
  assert (Eits : map (fun x => if String.eqb (pi_sku (apply_lines pre x)) (pi_sku i) then
      {| pi_sku := pi_sku (apply_lines pre x); pi_ordered := pi_ordered (apply_lines pre x); pi_received := pi_received i + rol_milli line;
         pi_cost := pi_cost (apply_lines pre x); pi_unit := pi_unit (apply_lines pre x); pi_factor := pi_factor (apply_lines pre x) |}
      else apply_lines pre x) (po_items r) = map (apply_lines (pre ++ [line])) (po_items r)).
  { apply map_ext_in. intros x Hx%list_elem_of_In. unfold apply_lines, add_received. cbn. rewrite total_snoc.
    destruct (String.eqb_spec (pi_sku x) (pi_sku i)) as [Ex|Ex].
    - assert (x = i) as -> by (by apply (NoDup_map_inj pi_sku (po_items r)); [| |apply Hrows|]).
      rewrite Es, unused_line_for by done. unfold line_for. rewrite String.eqb_refl. do 2 f_equal; lia.
    - unfold line_for at 3. rewrite (proj2 (String.eqb_neq (rol_sku line) (pi_sku x))) by congruence. do 2 f_equal; lia. }
  rewrite Eits in Ha2. case_if_in Ha2; inv_tx. split_and!; [|done|done|eauto]. rewrite set_order_twice. done.
Qed.

(** Any request only writes the order's own lines. *)
Lemma order_line_edit id idx r its out line d out' d' :
  order_line_step id idx out line (set_purchase_order id (with_purchase_items r its) d) = Ok (out', d') ->
  exists its', d' = set_purchase_order id (with_purchase_items r its') d /\ map pi_sku its' = map pi_sku its.
Proof.
  unfold order_line_step. destruct (mget _ _) as [i|]; [|done]. intros H. inv_tx. rewrite read_pos_Ok in Ha. rewrite read_qty_Ok in Ha0.
  destruct Ha as (-> & -> & _), Ha0 as (-> & -> & _). case_if_in H; inv_tx. unfold set_received_qty in Ha2. inv_tx.
  cbn [purchase_order set_purchase_order] in Ha2. rewrite lookup_insert_eq in Ha2. case_if_in Ha2; inv_tx. rewrite set_order_twice. eexists. split; [done|].
  rewrite map_map. apply map_ext. intros x. by destruct (String.eqb _ _).
Qed.

Lemma order_lines_edit id idx lines r d out d' : purchase_order d !! id = Some r -> for_each (order_line_step id idx) [] lines d = Ok (out, d') ->
  exists its, d' = set_purchase_order id (with_purchase_items r its) d /\ map pi_sku its = map pi_sku (po_items r).
Proof.
  intros Hr H. eapply (for_each_inv (fun _ d1 => exists its, d1 = set_purchase_order id (with_purchase_items r its) d /\
    map pi_sku its = map pi_sku (po_items r))) in H; [done| |].
  - intros o l d1 o' d2 _ (its & -> & E) Hs. apply order_line_edit in Hs as (its' & -> & E'). exists its'. by rewrite E'.
  - exists (po_items r). by rewrite with_items_same, set_order_same.
Qed.

Lemma order_lines_spec tenantId id rows lines r d out d' : purchase_order d !! id = Some r -> NoDup (map pi_sku (po_items r)) ->
  (forall i, i ∈ rows -> i ∈ po_items r) -> NoDup (map rol_sku lines) -> lines <> [] ->
  for_each (order_line_step id (foldl (fun m i => mset (pi_sku i) i m) [] rows)) [] lines d = Ok (out, d') ->
  d' = set_purchase_order id (with_purchase_items r (map (apply_lines lines) (po_items r))) d /\
  forallb check_purchase_item (map (apply_lines lines) (po_items r)) = true /\
  forall sku, total (asked_of d tenantId sku) out = total (stocked_for d tenantId sku) lines.
Proof.
  intros Hr Hnd Hrows Hl Hne H.
  assert (E0 : map (apply_lines []) (po_items r) = po_items r).
  { rewrite <- (map_id (po_items r)) at 2. apply map_ext. intros []. unfold apply_lines, add_received, total. cbn. by rewrite Z.add_0_r. }
  eapply (for_each_ind (fun pre out d1 => d1 = set_purchase_order id (with_purchase_items r (map (apply_lines pre) (po_items r))) d /\
    (pre <> [] -> forallb check_purchase_item (map (apply_lines pre) (po_items r)) = true) /\
    forall sku, total (asked_of d tenantId sku) out = total (stocked_for d tenantId sku) pre)) in H as (P1 & P2 & P3).
  - split_and!; auto.
  - intros pre line post o d1 o' d2 El (-> & P2 & P3) Hs. rewrite El, map_app in Hl. apply NoDup_app in Hl as (_ & Hn & _).
    apply order_line_step_spec in Hs as (-> & Q2 & Q3 & c & ->); [|done|done|by intros Hin; apply (Hn _ Hin); left].
    split_and!; [done | done |]. intros sku. rewrite !total_snoc, P3. f_equal. unfold asked_of, stocked_for. by rewrite base_qty_plain.
  - split_and!; [|done|done]. by rewrite E0, with_items_same, set_order_same.
Qed.

Lemma all_received_spec items d b d' : all_received items d = Ok (b, d') ->
  d' = d /\ (b = true <-> Forall (fun i => pi_ordered i <= pi_received i) items).
Proof.
  intros H. unfold all_received in H. eapply (for_each_ind (fun pre (b : bool) d1 => d1 = d /\
    (b = true <-> Forall (fun i => pi_ordered i <= pi_received i) pre))) in H; [done| |by split].
  intros pre i post b0 d1 b1 d2 _ [-> Hb] Hs. rewrite Forall_app, Forall_singleton. destruct b0; inv_tx.
  - rewrite read_pos_Ok in Ha. rewrite read_qty_Ok in Ha0. destruct Ha as (-> & -> & _), Ha0 as (-> & -> & _). split; [done|].
    destruct (Z.ltb_spec (pi_received i) (pi_ordered i)); cbn; split; try done; [lia|].
    intros _. split; [by apply Hb | lia].
  - split; [done|]. split; [done|]. intros [Hf _]. by apply Hb in Hf.
Qed.
End Orders.

Section Receiving.
Context (localeCompare : string -> string -> Z).

Lemma find_by_key_pure t key d x d' : findReceiptByKeyInTx t key d = Ok (x, d') -> d' = d.
Proof. unfold findReceiptByKeyInTx, find_receipt_by_key. destruct (clean_key key); intros H; by inv_tx. Qed.

Lemma asked_ext d d' t sku l : catalog_sku_projection d' = catalog_sku_projection d -> total (asked_of d' t sku) l = total (asked_of d t sku) l.
Proof.
  intros E. unfold total. f_equal. apply map_ext. intros i. unfold asked_of. replace (resolved d' t (cri_sku i)) with (resolved d t (cri_sku i)); [done|].
  unfold resolved, assertCatalogSkuEligible, mbind, txn_bind, gets. rewrite E. destruct (List.find _ _) as [x|]; [|done]. by destruct (negb _).
Qed.

(** A status written for an order whose lines have been worked on. *)
Definition with_order_status (r : PurchaseOrderRow) (s : string) : PurchaseOrderRow :=
  {| po_tenant := po_tenant r; po_code := po_code r; po_supplier := po_supplier r; po_warehouse := po_warehouse r; po_status := s;
     po_total := po_total r; po_items := po_items r |}.

(** The part of a receipt against an order after its lines were checked. *)
Lemma post_order_receipt t id uuid key dto r its d rid d1 b d2 u d' : books d -> as_uuid uuid = uuid ->
  findReceiptByKeyInTx t key d = Ok (None, d) -> cr_autoPost dto = true ->
  createReceiptInTx localeCompare t dto key uuid (set_purchase_order id (with_purchase_items r its) d) = Ok (rid, d1) ->
  all_received (from_option po_items [] (purchase_order d1 !! id)) d1 = Ok (b, d2) ->
  set_order_status id (if b : bool then "RECEIVED" else "PARTIALLY_RECEIVED") d2 = Ok (u, d') ->
  doc_step d d' /\ stock_issue d' = stock_issue d /\ stock_take d' = stock_take d /\ supplier d' = supplier d /\ warehouse d' = warehouse d /\
  rid = uuid /\ stock_receipt d !! uuid = None /\
  receipt_key_taken d uuid t (clean_key key) = false /\
  (exists rc, stock_receipt d' = <[uuid := rc]> (stock_receipt d) /\ new_receipt t dto key d rc /\
     forall k, on_hand d' k = on_hand d k + total (received_at t (as_uuid (cr_warehouse dto)) k) (rc_items rc)) /\
  purchase_order d' = <[id := with_order_status (with_purchase_items r its)
    (if decide (Forall (fun i => pi_ordered i <= pi_received i) its) then "RECEIVED" else "PARTIALLY_RECEIVED")]> (purchase_order d).
Proof.
  intros HB Hu Hnk Hap Hc Hall Hst. set (dm := set_purchase_order id (with_purchase_items r its) d) in *.
  assert (Hm : doc_step d dm) by (by apply order_quiet).
  apply create_receipt_spec in Hc as [(k & Ek & Hf & _) | (-> & N1 & N2 & (K1 & K2 & K3 & K4 & K5) & N4 & rc & R1 & R2 & R3)]; [| |apply Hm|done].
  { exfalso. unfold findReceiptByKeyInTx in Hnk. rewrite Ek in Hnk. unfold find_receipt_by_key, gets in *. change (stock_receipt dm) with (stock_receipt d) in Hf.
    injection Hnk as Hn. rewrite Hn in Hf. discriminate Hf. }
  apply all_received_spec in Hall as [-> Hb]. rewrite K4 in *. cbn [purchase_order set_purchase_order dm] in *. rewrite lookup_insert_eq in Hb.
  cbn [from_option po_items with_purchase_items] in Hb. unfold set_order_status in Hst. inv_tx. rewrite K4, lookup_insert_eq.
  destruct R2 as (Q1 & Q2 & Q3 & Q4 & Q5 & Q6). split_and!; try done.
  - etransitivity; [exact Hm|]. etransitivity; [exact N2|]. apply order_quiet, N2.
  - exists rc. split; [done|]. split; [unfold new_receipt; split_and!; try done; intros sku; by rewrite Q6, (asked_ext dm d)|].
    intros k. rewrite <- Q3.  change (on_hand d1 k = on_hand d k + total (received_at t (rc_warehouse rc) k) (rc_items rc)).
    rewrite R3, Hap. done.
  - cbn. rewrite K4, insert_insert_eq. do 2 f_equal. destruct b; [rewrite decide_True by (by apply Hb) | rewrite decide_False]; [done|done|].
    intros Hf%Hb. done.
Qed.

Lemma receive_order_spec t poId ls key uuid d rid d' : books d -> as_uuid uuid = uuid ->
  receivePurchaseOrder localeCompare t poId ls key uuid d = Ok (rid, d') ->
  (d' = d /\ findReceiptByKeyInTx t key d = Ok (Some rid, d)) \/
  (rid = uuid /\ doc_step d d' /\ stock_issue d' = stock_issue d /\ stock_take d' = stock_take d /\ supplier d' = supplier d /\ warehouse d' = warehouse d /\
   stock_receipt d !! uuid = None /\ receipt_key_taken d uuid t (clean_key key) = false /\
   (exists rc, stock_receipt d' = <[uuid := rc]> (stock_receipt d) /\ rc_tenant rc = t /\ rc_key rc = clean_key key) /\
   exists r r', purchase_order d !! as_uuid poId = Some r /\ purchase_order d' = <[as_uuid poId := r']> (purchase_order d) /\
     map pi_sku (po_items r') = map pi_sku (po_items r)).
Proof.
  intros HB Hu. unfold receivePurchaseOrder. intros H. inv_tx. apply select_order_Ok in Ha as (-> & Hr & Ht). rename a into r.
  pose proof (find_by_key_pure _ _ _ _ _ Ha0) as ->. destruct a0 as [x|]; inv_tx.
  { left. case_if_in H; inv_tx. done. }
  right. case_if_in H; inv_tx. apply incoming_order_pure in Ha as ->. apply (order_lines_edit _ _ _ r) in Ha1 as (its & -> & Es); [|done].
  eapply post_order_receipt in Ha2 as (P1 & P2 & P3 & P4 & P5 & -> & P6 & P7 & (rc & P8 & (Q1 & Q2 & _) & _) & P9); [|done..].
  split_and!; try done; [by exists rc|]. exists r. eexists. split_and!; [done | exact P9 | done].
Qed.
End Receiving.

(** ** What purchase orders promise *)

Section Promises.
Lemma received_at_sku t wh sku l : total (received_at t wh (t, wh, sku)) l = total (item_of sku) l.
Proof.
  unfold total, received_at, item_of. f_equal. apply map_ext. intros i. destruct (String.eqb_spec (ri_sku i) sku) as [<-|Hne].
  - by rewrite decide_True.
  - rewrite decide_False; [done | congruence].
Qed.

Lemma order_zero id idx out sku c d r : order_line_step id idx out {| rol_sku := sku; rol_qty := "0.000"; rol_cost := c |} d <> Ok r.
Proof.
  destruct r as [o d']. unfold order_line_step. destruct (mget _ _) as [i|]; [|done]. intros H. inv_tx. cbn in Ha1. vm_compute in Ha1. discriminate Ha1.
Qed.

Lemma order_default rows d l d' i : incoming_order_lines [] rows d = Ok (l, d') -> i ∈ rows -> pi_received i = pi_ordered i ->
  exists c, {| rol_sku := pi_sku i; rol_qty := "0.000"; rol_cost := c |} ∈ l.
Proof.
  intros H Hi Hz. cbn in H. revert Hi.
  eapply (for_each_ind (fun pre out _ => i ∈ pre -> exists c, {| rol_sku := pi_sku i; rol_qty := "0.000"; rol_cost := c |} ∈ out));
    [| by intros ?%not_elem_of_nil | exact H].
  intros pre j post out x out' y _ IH Hs. cbn beta in Hs. inv_tx. intros [Hp | ->%list_elem_of_singleton]%elem_of_app.
  - destruct (IH Hp) as [c Hc]. exists c. apply elem_of_app. by left.
  - unfold remaining_order_line in Ha. inv_tx. rewrite read_pos_Ok in Ha0. rewrite read_qty_Ok in Ha1.
    destruct Ha0 as (-> & -> & _), Ha1 as (-> & -> & _). eexists. apply elem_of_app. right. rewrite Hz, Z.sub_diag. left.
Qed.
End Promises.

(** A receipt against a purchase order is exact.  When the request names each
    SKU once, every line of the order has received exactly what the request says on
    top of what it had, never more than was ordered; the order is RECEIVED exactly
    when every line is complete; the warehouse's stock grows by exactly the
    quantities received, and the books stay in order. *)
Theorem purchase_order_receipt_exact (localeCompare : string -> string -> Z) t poId lines uuid d rid d' r :
  books d -> as_uuid uuid = uuid -> purchase_order d !! as_uuid poId = Some r -> NoDup (map pi_sku (po_items r)) ->
  NoDup (map rol_sku lines) -> lines <> [] -> receivePurchaseOrder localeCompare t poId lines None uuid d = Ok (rid, d') ->
  (exists r', purchase_order d' !! as_uuid poId = Some r' /\ po_items r' = map (apply_lines lines) (po_items r) /\
     Forall (fun i => pi_received i <= pi_ordered i) (po_items r') /\
     (po_status r' = "RECEIVED" <-> Forall (fun i => pi_ordered i <= pi_received i) (po_items r'))) /\
  (forall sku, on_hand d' (t, as_uuid (po_warehouse r), sku) =
     on_hand d (t, as_uuid (po_warehouse r), sku) + total (stocked_for d t sku) lines) /\
  books d' /\ keeps_holds d d' /\ keeps_road d d'.
Proof.
  intros HB Hu Hr Hnd Hl Hne. unfold receivePurchaseOrder. intros H. inv_tx. apply select_order_Ok in Ha as (-> & Hr' & Ht). simplify_eq.
  pose proof (find_by_key_pure _ _ _ _ _ Ha0) as ->. unfold findReceiptByKeyInTx in Ha0. cbn in Ha0. inv_tx. case_if_in H; inv_tx.
  assert (a = lines /\ d0 = d) as [-> ->] by (destruct lines; [done | unfold incoming_order_lines in Ha; by inv_tx]).
  apply (order_lines_spec (po_tenant r)) with (r := r) in Ha0 as (-> & Hck & Hsum); [|done|done|by intros i; unfold by_order_sku; rewrite sort_by_perm|done|done].
  eapply post_order_receipt in Ha1 as ([P1 P2 P3] & _ & _ & _ & _ & -> & _ & _ & (rc & _ & (_ & _ & _ & _ & _ & Q6) & Q7) & P9); [|done..].
  split_and!; try done.
  - eexists. rewrite P9, lookup_insert_eq. split; [done|]. cbn [po_items with_order_status with_purchase_items po_status]. split_and!; [done | |].
    + apply Forall_forall. intros i Hi. rewrite forallb_forall in Hck. specialize (Hck i (proj1 (list_elem_of_In _ _) Hi)).
      unfold check_purchase_item in Hck. bool_prop. lia.
    + case_decide; done.
  - intros sku. rewrite Q7. cbn [cr_warehouse]. rewrite received_at_sku, Q6. cbn [cr_items]. by rewrite Hsum.
Qed.

(** A purchase order for ten pieces, approved. *)
Definition sample_order_id : string := "11111111-2222-4333-8444-555555555555".
Definition sample_order : PurchaseOrderRow :=
  {| po_tenant := "t1"; po_code := "PO-1"; po_supplier := "p1"; po_warehouse := "w1"; po_status := "APPROVED"; po_total := 50000;
     po_items := [{| pi_sku := "s1"; pi_ordered := 10000; pi_received := 0; pi_cost := 5000; pi_unit := "PCS"; pi_factor := 10000 |}] |}.
Definition sample_ordered : db := set_purchase_order sample_order_id sample_order sample_db.

(** Repeating a SKU in one request over-receives a purchase order.  Each line is
    checked against what had been received before the request, and the last line's
    total is stored.  Twice six pieces against an order of ten are accepted: twelve
    pieces enter the stock, the order shows six received and stays open for four
    more. *)
Theorem purchase_order_over_received_by_repeated_lines :
  books sample_ordered /\
  exists rid d', receivePurchaseOrder text_order "t1" sample_order_id
      [ {| rol_sku := "s1"; rol_qty := "6"; rol_cost := None |}; {| rol_sku := "s1"; rol_qty := "6"; rol_cost := None |} ] None "c9" sample_ordered = Ok (rid, d') /\
    on_hand d' ("t1", "w1", "s1") = on_hand sample_ordered ("t1", "w1", "s1") + 12000 /\
    (pi_received <$> from_option po_items [] (purchase_order d' !! sample_order_id)) = [6000] /\
    (po_status <$> purchase_order d' !! sample_order_id) = Some "PARTIALLY_RECEIVED".
Proof.
  split; [apply (books_ext sample_db sample_ordered eq_refl eq_refl eq_refl sample_books)|].
  destruct (after_Ok (receivePurchaseOrder text_order "t1" sample_order_id
      [ {| rol_sku := "s1"; rol_qty := "6"; rol_cost := None |}; {| rol_sku := "s1"; rol_qty := "6"; rol_cost := None |} ] None "c9") sample_ordered)
    as [rid E]; [vm_compute; reflexivity|].
  exists rid. eexists. split; [exact E|]. clear E. vm_compute. split_and!; reflexivity.
Qed.

(** Receiving "the rest" of an order is refused once a line is complete.  The
    request may be left empty to receive what remains of all lines; a complete line
    then becomes a line of quantity zero, which is rejected, so the open lines can
    only be received by naming them. *)
Theorem receive_order_rest_refused_after_complete_line (localeCompare : string -> string -> Z) t poId uuid d r i x :
  purchase_order d !! as_uuid poId = Some r -> i ∈ po_items r -> pi_received i = pi_ordered i ->
  receivePurchaseOrder localeCompare t poId [] None uuid d <> Ok x.
Proof.
  intros Hr Hi Hz. destruct x as [rid d']. unfold receivePurchaseOrder. intros H. inv_tx. apply select_order_Ok in Ha as (-> & Hr' & Ht). simplify_eq.
  pose proof (find_by_key_pure _ _ _ _ _ Ha0) as ->. unfold findReceiptByKeyInTx in Ha0. cbn in Ha0. inv_tx. case_if_in H; inv_tx.
  eapply (order_default _ _ _ _ i) in Ha as [c Hc]; [|by unfold by_order_sku; rewrite sort_by_perm|done].
  by apply (for_each_stuck _ _ _ _ _ _ Hc) in Ha0; [|intros; apply order_zero].
Qed.

(** ** Examples *)

Lemma purchase_order_receipt_exact_witness :
  let d' := after (receivePurchaseOrder text_order "t1" sample_order_id [{| rol_sku := "s1"; rol_qty := "6"; rol_cost := None |}] None "c9") sample_ordered in
  on_hand d' ("t1", "w1", "s1") = 16000 /\ books d'.
Proof.
  intros d'. destruct (after_Ok (receivePurchaseOrder text_order "t1" sample_order_id [{| rol_sku := "s1"; rol_qty := "6"; rol_cost := None |}] None "c9")
    sample_ordered) as [rid E]; [vm_compute; reflexivity|]. fold d' in E.
  destruct (purchase_order_receipt_exact text_order "t1" sample_order_id [{| rol_sku := "s1"; rol_qty := "6"; rol_cost := None |}] "c9" sample_ordered rid d'
    sample_order (books_ext sample_db sample_ordered eq_refl eq_refl eq_refl sample_books) eq_refl eq_refl (NoDup_singleton _) (NoDup_singleton _)
    ltac:(discriminate) E) as (_ & _ & P & _).
  split; [vm_compute; reflexivity | exact P].
Defined.

Definition sample_complete : db :=
  set_purchase_order sample_order_id (with_purchase_items sample_order (map (add_received 10000) (po_items sample_order))) sample_db.

Lemma receive_order_rest_refused_witness :
  is_ok (receivePurchaseOrder text_order "t1" sample_order_id [] None "c9" sample_complete) = false.
Proof.
  destruct (receivePurchaseOrder text_order "t1" sample_order_id [] None "c9" sample_complete) as [x|e] eqn:E; [exfalso | reflexivity]. revert E.
  apply (receive_order_rest_refused_after_complete_line text_order "t1" sample_order_id "c9" sample_complete
    (with_purchase_items sample_order (map (add_received 10000) (po_items sample_order)))
    (add_received 10000 {| pi_sku := "s1"; pi_ordered := 10000; pi_received := 0; pi_cost := 5000; pi_unit := "PCS"; pi_factor := 10000 |}) x).
  - reflexivity.
  - left.
  - reflexivity.
Defined.
