(* ===== verification/WarehouseSystem.v ===== *)
(** * Inventory service: the warehouse stock as one system

    The operations of the warehouse services (holds, transfers, receipts, issues,
    stocktakes, purchase orders, suppliers, the expiry jobs) as the requests of one
    state machine: [serve] runs one request on the store, a request that throws
    leaves the store as it was.  The theorems are about every sequence of requests:
    the invariants of the components hold together in every state the service
    reaches, what is closed or posted stays so, the ledger and the outbox only
    grow, and an idempotency key is answered with the same document for ever. *)

From S2P Require Import Prelude Transaction JsNumber JsString InventoryDomain WarehouseStore WarehouseReservations.
From S2P Require Import StockTransfers StockDocuments Procurement.

Open Scope Z_scope.

(** ** Requests *)

Inductive request :=
| ReserveStock (tenantId : string) (key : option string) (req : CreateWarehouseReservationRequest) (uuid : string) (now : Z)
| CommitReservation (tenantId id : string) (fulfillmentId : option string)
| ReleaseReservation (tenantId id : string)
| ExpireReservations (now : Z) (limit : nat)
| ExpireReservationsOf (tenantId : string) (now : Z) (limit : nat)
| CreateTransfer (tenantId : string) (dto : CreateStockTransferDto) (canApprove : bool) (uuid : string)
| DispatchTransfer (tenantId id : string)
| ReceiveTransfer (tenantId id : string) (dto : option ReceiveStockTransferDto)
| CancelTransfer (tenantId id : string) (canApprove : bool)
| CreateReceipt (tenantId : string) (dto : CreateStockReceiptDto) (key : option string) (uuid : string)
| PostReceipt (tenantId id : string) (key : option string)
| SubmitReceipt (tenantId id : string)
| ApproveReceipt (tenantId id : string)
| RejectReceipt (tenantId id : string)
| CancelReceipt (tenantId id : string)
| CreateIssue (tenantId : string) (dto : CreateStockIssueDto) (key : option string) (uuid : string)
| PostIssue (tenantId id : string) (key : option string)
| CancelIssue (tenantId id : string)
| CreateStocktake (tenantId : string) (dto : CreateStocktakeDto) (uuid : string)
| RecordCounts (tenantId id : string) (dto : RecordCountsDto)
| ApproveStocktake (tenantId id : string) (forceRebase : bool)
| CancelStocktake (tenantId id : string)
| CreatePurchaseOrder (tenantId : string) (dto : CreatePurchaseOrderDto) (uuid : string)
| ApprovePurchaseOrder (tenantId id : string)
| ReceivePurchaseOrder (tenantId id : string) (lines : list ReceiveOrderLine) (key : option string) (uuid : string)
| CancelPurchaseOrder (tenantId id : string)
| CreateSupplier (tenantId : string) (dto : CreateSupplierDto) (uuid : string)
| UpdateSupplier (tenantId id : string) (dto : UpdateSupplierDto)
| DeleteSupplier (tenantId id : string)
| ChangeMasterData (warehouses : gmap string WarehouseRow) (skus : list SkuProjectionRow) (thresholds : gmap balance_key Z).

(** The warehouses, the catalog projection and the thresholds belong to other
    services, which may change them between any two requests. *)
Definition set_master (whs : gmap string WarehouseRow) (skus : list SkuProjectionRow) (ths : gmap balance_key Z) (d : db) : db :=
  {| warehouse := whs; catalog_sku_projection := skus; stock_threshold := ths; stock_balance := stock_balance d;
     stock_balance_ledger := stock_balance_ledger d; warehouse_reservation := warehouse_reservation d;
     stock_transfer := stock_transfer d; stock_receipt := stock_receipt d; stock_issue := stock_issue d;
     stock_take := stock_take d; purchase_order := purchase_order d; supplier := supplier d; outbox := outbox d |}.

Section Service.
Context (localeCompare : string -> string -> Z) (sha256 : RequestDigest -> string).

Definition serve (d : db) (r : request) : db :=
  match r with
  | ReserveStock t key req uuid now => after (reserveWarehouseStock localeCompare sha256 t key req uuid now) d
  | CommitReservation t i f => after (commitWarehouseReservation t i f) d
  | ReleaseReservation t i => after (releaseWarehouseReservation t i) d
  | ExpireReservations now limit => (expireDueWarehouseReservationsOfAllTenants d now limit).1
  | ExpireReservationsOf t now limit => (expireDueWarehouseReservations d t now limit).1
  | CreateTransfer t dto ca uuid => after (createTransfer localeCompare t dto ca uuid) d
  | DispatchTransfer t i => after (dispatchTransfer t i) d
  | ReceiveTransfer t i dto => after (receiveTransfer t i dto) d
  | CancelTransfer t i ca => after (documents_cancelTransfer t i ca) d
  | CreateReceipt t dto key uuid => after (createReceiptInTx localeCompare t dto key uuid) d
  | PostReceipt t i key => after (postReceiptInTx t i key) d
  | SubmitReceipt t i => after (submitReceipt t i) d
  | ApproveReceipt t i => after (approveReceipt t i) d
  | RejectReceipt t i => after (rejectReceipt t i) d
  | CancelReceipt t i => after (cancelReceipt t i) d
  | CreateIssue t dto key uuid => after (createIssue localeCompare t dto key uuid) d
  | PostIssue t i key => after (postIssueInTx t i key) d
  | CancelIssue t i => after (cancelIssue t i) d
  | CreateStocktake t dto uuid => after (createStocktake t dto uuid) d
  | RecordCounts t i dto => after (recordCounts t i dto) d
  | ApproveStocktake t i force => after (approveStocktake t i force) d
  | CancelStocktake t i => after (cancelStocktake t i) d
  | CreatePurchaseOrder t dto uuid => after (createPurchaseOrder localeCompare t dto uuid) d
  | ApprovePurchaseOrder t i => after (approvePurchaseOrder t i) d
  | ReceivePurchaseOrder t i lines key uuid => after (receivePurchaseOrder localeCompare t i lines key uuid) d
  | CancelPurchaseOrder t i => after (cancelPurchaseOrder t i) d
  | CreateSupplier t dto uuid => after (createSupplier t dto uuid) d
  | UpdateSupplier t i dto => after (updateSupplier t i dto) d
  | DeleteSupplier t i => after (deleteSupplier t i) d
  | ChangeMasterData whs skus ths => set_master whs skus ths d
  end.

(** A sequence of requests, in the order their transactions commit. *)
Definition serve_all (d : db) (l : list request) : db := foldl serve d l.
End Service.

(** The requests the theorems are about.  Fresh ids are canonical UUIDs
    ([randomUUID], [gen_random_uuid] give no others).  A request for an issue does
    not write one SKU id in two ways: createIssue does not enforce this
    (issuing.service.ts merges the lines by the text of the id), and
    [issue_in_two_spellings_breaks_the_books] of [StockDocuments] shows what such a
    request does to the books. *)
Definition admissible (r : request) : Prop :=
  match r with
  | ReserveStock _ _ _ uuid _ | CreateReceipt _ _ _ uuid | ReceivePurchaseOrder _ _ _ _ uuid => as_uuid uuid = uuid
  | CreateIssue _ dto _ uuid => as_uuid uuid = uuid /\ one_spelling (ci_items dto)
  | _ => True
  end.

(** ** The store in order *)

(** No two documents of a tenant share an idempotency key. *)
Definition keys_unique {R} (tenant : R -> string) (key : R -> option string) (m : gmap string R) : Prop :=
  forall i j r r' k, m !! i = Some r -> m !! j = Some r' -> tenant r = tenant r' -> key r = Some k -> key r' = Some k -> i = j.

Record in_order (d : db) : Prop := {
  ord_books : books d;
  ord_holds : holds d;
  ord_transfers : transfers d;
  ord_receipts : keys_unique rc_tenant rc_key (stock_receipt d);
  ord_issues : keys_unique is_tenant is_key (stock_issue d);
  ord_issue_lines : map_Forall (fun _ r => NoDup (map ii_sku (is_items r))) (stock_issue d);
  ord_takes : map_Forall (fun _ r => NoDup (map si_sku (sk_items r))) (stock_take d);
  ord_orders : map_Forall (fun _ r => NoDup (map pi_sku (po_items r))) (purchase_order d) }.

(** How rows may change over time. *)
Definition rows_keep {R} (P : R -> R -> Prop) (m m' : gmap string R) : Prop :=
  forall i r, m !! i = Some r -> exists r', m' !! i = Some r' /\ P r r'.

Definition hold_later (r r' : ReservationRow) : Prop := request_of r' = request_of r /\ (r_state r <> HELD -> r' = r).
Definition receipt_later (r r' : ReceiptRow) : Prop :=
  rc_tenant r' = rc_tenant r /\ (forall k, rc_key r = Some k -> rc_key r' = Some k) /\ (rc_status r = "POSTED" -> r' = r).
Definition issue_later (r r' : IssueRow) : Prop :=
  is_tenant r' = is_tenant r /\ (forall k, is_key r = Some k -> is_key r' = Some k) /\ (is_status r = "POSTED" -> r' = r).

Record evolves (d d' : db) : Prop := {
  ev_holds : rows_keep hold_later (warehouse_reservation d) (warehouse_reservation d');
  ev_receipts : rows_keep receipt_later (stock_receipt d) (stock_receipt d');
  ev_issues : rows_keep issue_later (stock_issue d) (stock_issue d') }.

Section Rows.
Context {R : Type} (P : R -> R -> Prop) `{!PreOrder P}.

#[export] Instance rows_keep_preorder : PreOrder (rows_keep P).
Proof.
  split.
  - intros m i r Hr. by exists r.
  - intros m1 m2 m3 H1 H2 i r (r2 & Hr2 & P2)%H1. apply H2 in Hr2 as (r3 & Hr3 & P3). exists r3. split; [done | by etransitivity].
Qed.

Lemma rows_keep_new m i r : m !! i = None -> rows_keep P m (<[i := r]> m).
Proof. intros Hn j x Hx. exists x. split; [|done]. rewrite lookup_insert_ne; [done | congruence]. Qed.

Lemma rows_keep_old m i r r' : m !! i = Some r -> P r r' -> rows_keep P m (<[i := r']> m).
Proof.
  intros Hi HP j x Hx. destruct (decide (i = j)) as [<-|Hne].
  - simplify_eq. exists r'. by rewrite lookup_insert_eq.
  - exists x. by rewrite lookup_insert_ne.
Qed.

Lemma rows_keep_eq m m' : m' = m -> rows_keep P m m'.
Proof. by intros ->. Qed.
End Rows.

#[export] Instance hold_later_preorder : PreOrder hold_later.
Proof.
  split; [by intros r|]. intros r1 r2 r3 [A1 A2] [B1 B2]. split; [congruence|]. intros H. rewrite <- (A2 H). apply B2. by rewrite (A2 H).
Qed.
#[export] Instance receipt_later_preorder : PreOrder receipt_later.
Proof.
  split; [by intros r|]. intros r1 r2 r3 (A1 & A2 & A3) (B1 & B2 & B3). split_and!; [congruence | auto |].
  intros H. rewrite <- (A3 H). apply B3. by rewrite (A3 H).
Qed.
#[export] Instance issue_later_preorder : PreOrder issue_later.
Proof.
  split; [by intros r|]. intros r1 r2 r3 (A1 & A2 & A3) (B1 & B2 & B3). split_and!; [congruence | auto |].
  intros H. rewrite <- (A3 H). apply B3. by rewrite (A3 H).
Qed.

#[export] Instance evolves_preorder : PreOrder evolves.
Proof.
  split; [intros d; split; reflexivity|]. intros d1 d2 d3 [A1 A2 A3] [B1 B2 B3]. split; by etransitivity.
Qed.

(** One step of the system. *)
Definition good (d d' : db) : Prop := in_order d' /\ evolves d d'.

Section Steps.
Lemma good_refl d : in_order d -> good d d.
Proof. intros H. split; [done | reflexivity]. Qed.

Lemma good_after {A} (m : tx A) d : in_order d -> (forall a d', m d = Ok (a, d') -> good d d') -> good d (after m d).
Proof. intros HO H. unfold after. destruct (m d) as [[a d']|e]; [by eapply H | by apply good_refl]. Qed.

Lemma holds_ext d d' : keeps_holds d d' -> holds d -> holds d'.
Proof.
  intros [E1 E2] [H1 H2 H3 H4]. split; rewrite ?E1; try done. intros k. unfold held. by rewrite E1, E2, H1.
Qed.

Lemma transfers_ext d d' : keeps_road d d' -> transfers d -> transfers d'.
Proof. intros [E1 E2] [H1 H2]. split; rewrite ?E1; [|done]. intros k. by rewrite E2, H1, (road_ext d d'). Qed.

(** A document operation: the holds and the road stay, the document tables are in order. *)
Lemma good_docs d d' : in_order d -> doc_step d d' ->
  keys_unique rc_tenant rc_key (stock_receipt d') -> rows_keep receipt_later (stock_receipt d) (stock_receipt d') ->
  keys_unique is_tenant is_key (stock_issue d') -> map_Forall (fun _ r => NoDup (map ii_sku (is_items r))) (stock_issue d') ->
  rows_keep issue_later (stock_issue d) (stock_issue d') ->
  map_Forall (fun _ r => NoDup (map si_sku (sk_items r))) (stock_take d') ->
  map_Forall (fun _ r => NoDup (map pi_sku (po_items r))) (purchase_order d') -> good d d'.
Proof.
  intros [B H T _ _ _ _ _] [DB DH DR] K1 K2 K3 K4 K5 K6 K7. split.
  - split; try done; [by eapply holds_ext | by eapply transfers_ext].
  - split; try done. apply rows_keep_eq; [apply _ | apply DH].
Qed.

(** A transfer operation leaves the other documents alone. *)
Lemma good_transfer d d' : in_order d -> transfer_step d d' -> good d d'.
Proof.
  intros [B H T R I IL TK O] [DB DH (D1 & D2 & D3 & D4 & D5 & D6) DT]. split.
  - split; rewrite ?D1, ?D2, ?D3, ?D5; try done. by eapply holds_ext.
  - split; (apply rows_keep_eq; [apply _|]); [apply DH | done..].
Qed.

(** A change of the holds leaves the documents and the road alone. *)
Lemma good_holds d d' : in_order d -> books d' -> holds d' -> untouched d d' ->
  rows_keep hold_later (warehouse_reservation d) (warehouse_reservation d') -> good d d'.
Proof.
  intros [B H T R I IL TK O] B' H' [(U1 & U2 & U3 & U4 & U5 & U6 & U7) UT] Hl. split.
  - split; rewrite ?U2, ?U3, ?U4, ?U6; try done. by apply (transfers_ext d).
  - split; [done | apply rows_keep_eq; [apply _ | done]..].
Qed.

(** Writing one row of one document table. *)
Lemma good_receipt d d' id r : in_order d -> doc_step d d' -> keeps_but_receipts d d' ->
  stock_receipt d' = <[id := r]> (stock_receipt d) -> receipt_key_taken d id (rc_tenant r) (rc_key r) = false ->
  rows_keep receipt_later (stock_receipt d) (<[id := r]> (stock_receipt d)) -> good d d'.
Proof.
  intros HO HD (K1 & K2 & K3 & K4 & K5) E Hk Hl. rewrite receipt_key_free in Hk.
  apply good_docs; rewrite ?E, ?K1, ?K2, ?K4; try apply HO; try done.
  intros i j x y k. destruct (decide (id = i)) as [<-|], (decide (id = j)) as [<-|];
    rewrite ?lookup_insert_eq, ?lookup_insert_ne by done; [done | | | apply (ord_receipts _ HO)].
  - intros [= <-] Hy Et Ek1 Ek2. by destruct (Hk k Ek1 j y Hy ltac:(done) (eq_sym Et)).
  - intros Hx [= <-] Et Ek1 Ek2. by destruct (Hk k Ek2 i x Hx ltac:(done) Et).
Qed.

Lemma good_issue d d' id r : in_order d -> doc_step d d' -> keeps_but_issues d d' ->
  stock_issue d' = <[id := r]> (stock_issue d) -> issue_key_taken d id (is_tenant r) (is_key r) = false ->
  NoDup (map ii_sku (is_items r)) ->
  rows_keep issue_later (stock_issue d) (<[id := r]> (stock_issue d)) -> good d d'.
Proof.
  intros HO HD (K1 & K2 & K3 & K4 & K5) E Hk Hn Hl. rewrite issue_key_free in Hk.
  apply good_docs; rewrite ?E, ?K1, ?K2, ?K4; try apply HO; try done; [|by apply map_Forall_insert_2; [|apply HO]].
  intros i j x y k. destruct (decide (id = i)) as [<-|], (decide (id = j)) as [<-|];
    rewrite ?lookup_insert_eq, ?lookup_insert_ne by done; [done | | | apply (ord_issues _ HO)].
  - intros [= <-] Hy Et Ek1 Ek2. by destruct (Hk k Ek1 j y Hy ltac:(done) (eq_sym Et)).
  - intros Hx [= <-] Et Ek1 Ek2. by destruct (Hk k Ek2 i x Hx ltac:(done) Et).
Qed.

Lemma good_take d d' id : in_order d -> take_step id d d' -> good d d'.
Proof.
  intros HO (HD & (K1 & K2 & K3 & K4 & K5) & r & E & Hn). apply good_docs; rewrite ?E, ?K1, ?K2, ?K4; try apply HO; try done.
  by apply map_Forall_insert_2; [|apply HO].
Qed.

Lemma good_order d id r : in_order d -> NoDup (map pi_sku (po_items r)) -> good d (set_purchase_order id r d).
Proof.
  intros HO Hn. apply good_docs; try apply HO; try done; [apply order_quiet, HO|]. cbn. by apply map_Forall_insert_2; [|apply HO].
Qed.

Lemma good_supplier d id r : in_order d -> good d (set_supplier id r d).
Proof. intros HO. apply good_docs; try apply HO; try done. apply doc_quiet; (done || apply HO). Qed.

(** A message to the outbox that announces no movement. *)
Lemma good_message d d' e : good d d' -> event_movement e = None -> good d (add_event e d').
Proof.
  intros [[B H T R I IL TK O] EV] He. split; [split; try done; [by apply books_event | by apply holds_event | by destruct T] |].
  by destruct EV.
Qed.
End Steps.

(** ** Every request *)

Section Holds.
Lemma closed_later d id row to : holds d -> warehouse_reservation d !! id = Some row -> r_state row = HELD ->
  rows_keep hold_later (warehouse_reservation d) (<[id := set_state to row]> (warehouse_reservation d)).
Proof. intros HH Hr Hst. eapply (rows_keep_old hold_later); [done|]. split; [done | by intros]. Qed.

Lemma good_reserve lc sha t key req uuid now d x d' : in_order d -> as_uuid uuid = uuid ->
  reserveWarehouseStock lc sha t key req uuid now d = Ok (x, d') -> good d d'.
Proof.
  intros HO Hu. destruct x as [resp [|]].
  - intros H. assert (d' = d) as ->; [|by apply good_refl]. unfold reserveWarehouseStock in H. case_if_in H; [done|]. inv_tx.
    apply normalize_positive in Ha as [-> _]. case_if_in H; [done|]. case_if_in H; [done|]. inv_tx.
    destruct (find_by_key _ _ _ _) as [[i row]|]; [|by inv_tx]. case_if_in H; [done|]. inv_tx.
    unfold loadWarehouseReservationResponse in Ha. by inv_tx.
  - intros (row & P1 & P2 & _ & _ & _ & _ & _ & P3 & P4 & P5 & _)%reserve_new_spec; try apply HO; [|done].
    apply good_holds; try done. rewrite P2. by apply (rows_keep_new hold_later).
Qed.

Lemma select_hold_Ok t i d o d' : select_reservation t i d = Ok (o, d') -> d' = d /\
  forall r, o = Some r -> warehouse_reservation d !! as_uuid i = Some r /\ r_tenant r = t.
Proof.
  unfold select_reservation. intros H. inv_tx. split; [done|]. intros r. destruct (warehouse_reservation d !! _) as [x|]; [|done].
  destruct (String.eqb_spec (r_tenant x) t); [|done]. by intros [= <-].
Qed.

Lemma good_commit t i f d x d' : in_order d -> commitWarehouseReservation t i f d = Ok (x, d') -> good d d'.
Proof.
  intros HO H. pose proof H as H0. unfold commitWarehouseReservation in H0. apply tx_bind_Ok in H0 as (o & d0 & Hs & H0).
  apply select_hold_Ok in Hs as [-> Hs]. destruct o as [row|]; [|done]. destruct (Hs row eq_refl) as [Hr <-].
  case_bool_decide as E1; [unfold loadWarehouseReservationResponse in H0; inv_tx; by apply good_refl|].
  case_bool_decide as E2; [|done].
  destruct (commit_run d i row f (ord_books _ HO) (ord_holds _ HO) Hr E2) as (d1 & E & P1 & P2 & P3 & _ & _ & P6).
  rewrite E in H. injection H as _ <-. apply good_holds; try done. rewrite P6. apply closed_later; [apply HO | done | done].
Qed.

Lemma good_give t i row to d u d' : in_order d -> warehouse_reservation d !! i = Some row -> r_tenant row = t -> r_state row = HELD ->
  to <> HELD -> give_back t i row to d = Ok (u, d') -> good d d'.
Proof.
  intros HO Hr <- Hst Hto H. destruct (give_back_run d i row to (ord_books _ HO) (ord_holds _ HO) Hr Hst Hto) as (d1 & E & P1 & P2 & P3 & _ & _ & P6).
  rewrite E in H. injection H as _ <-. apply good_holds; try done. rewrite P6. apply closed_later; [apply HO | done | done].
Qed.

Lemma good_release t i d x d' : in_order d -> releaseWarehouseReservation t i d = Ok (x, d') -> good d d'.
Proof.
  intros HO H. unfold releaseWarehouseReservation in H. apply tx_bind_Ok in H as (o & d0 & Hs & H).
  apply select_hold_Ok in Hs as [-> Hs]. destruct o as [row|]; [|done]. destruct (Hs row eq_refl) as [Hr Ht]. unfold loadWarehouseReservationResponse in H.
  case_bool_decide as E1; [cbn [orb] in H; inv_tx; by apply good_refl|]. case_bool_decide as E2; [cbn [orb] in H; inv_tx; by apply good_refl|].
  case_bool_decide as E3; cbn [orb] in H; [done|]. inv_tx. assert (r_state row = HELD) by (by destruct (r_state row)).
  eapply good_give; [exact HO | exact Hr | reflexivity | assumption | | eassumption]; done.
Qed.

Lemma good_expire t i now d x d' : in_order d -> expireWarehouseReservation t i now d = Ok (x, d') -> good d d'.
Proof.
  intros HO H. unfold expireWarehouseReservation in H. apply tx_bind_Ok in H as (o & d0 & Hs & H).
  apply select_hold_Ok in Hs as [-> Hs]. destruct o as [row|]; [|inv_tx; by apply good_refl]. destruct (Hs row eq_refl) as [Hr Ht].
  destruct (is_due now row) eqn:Ed; inv_tx; [|by apply good_refl].
  assert (r_state row = HELD) by (unfold is_due in Ed; bool_prop; done).
  eapply good_give; [exact HO | exact Hr | reflexivity | assumption | | eassumption]; done.
Qed.

Lemma good_trans d1 d2 d3 : good d1 d2 -> good d2 d3 -> good d1 d3.
Proof. intros [_ E1] [O E2]. split; [done | by etransitivity]. Qed.

Lemma good_expire_job now rows : forall d n, in_order d -> good d (foldl (expire_job_step now) (d, n) rows).1.
Proof.
  induction rows as [|e rows IH]; intros d n HO; [by apply good_refl|]. cbn [foldl]. unfold expire_job_step at 2. cbn [fst snd].
  destruct (expireWarehouseReservation e.2 e.1 now d) as [[[|] d1]|] eqn:E; try (by apply IH);
    pose proof (good_expire _ _ _ _ _ _ HO E) as Hg; (eapply good_trans; [exact Hg | apply IH, Hg]).
Qed.

Lemma good_expire_rows now rows : forall d n, in_order d -> good d (expire_rows now d n rows).1.
Proof.
  induction rows as [|e rows IH]; intros d n HO; [by apply good_refl|]. cbn [expire_rows].
  destruct (expireWarehouseReservation e.2 e.1 now d) as [[b d1]|] eqn:E; [|by apply good_refl].
  pose proof (good_expire _ _ _ _ _ _ HO E) as Hg. eapply good_trans; [exact Hg | apply IH, Hg].
Qed.
End Holds.

Section Documents.
Lemma coalesce_later stored incoming k : stored = Some k -> coalesce_key stored incoming = Some k.
Proof. by intros ->. Qed.

Lemma good_post_receipt t i key d x d' : in_order d -> postReceiptInTx t i key d = Ok (x, d') -> good d d'.
Proof.
  intros HO H. apply post_receipt_spec in H as (_ & r & Hr & Ht & [[_ ->] | (Hst & P1 & P2 & P3 & P4 & _)]); [by apply good_refl | |apply HO].
  eapply good_receipt; [done..| |]; cbn; [by rewrite Ht|]. apply (rows_keep_old receipt_later _ _ r); [done|].
  split_and!; [done | by apply coalesce_later |]. intros E. rewrite E in Hst. by destruct Hst.
Qed.

Lemma good_create_receipt lc t dto key uuid d x d' : in_order d -> as_uuid uuid = uuid ->
  createReceiptInTx lc t dto key uuid d = Ok (x, d') -> good d d'.
Proof.
  intros HO Hu H. apply create_receipt_spec in H as [(k & _ & _ & ->) | (_ & Hn & P1 & P2 & P3 & r & P4 & (Q1 & Q2 & _) & _)];
    [by apply good_refl | | apply HO | done].
  eapply good_receipt; [done..| |]; [by rewrite Q1, Q2 | by apply (rows_keep_new receipt_later)].
Qed.

(** A receipt that is not posted may change its status. *)
Lemma good_move_receipt t i from to d u d' : in_order d -> move receipt_kind t i from to always d = Ok (u, d') ->
  includes from "POSTED" = false -> good d d'.
Proof.
  intros HO (r & r' & Hr & Ht & Hf & _ & Hw & ->)%move_Ok Hn. cbn in Hw, Hr, Hf. unfold guarded in Hw. case_if_in Hw; [|done]. injection Hw as <-.
  eapply good_receipt; [done | apply doc_quiet; (done || apply HO) | done | done | |].
  - cbn. apply receipt_key_free. intros k Hk j x Hj Hne Et Ek. apply Hne. by eapply (ord_receipts _ HO).
  - apply (rows_keep_old receipt_later _ _ r); [done|]. split_and!; [done..|]. intros E0. by rewrite E0, Hn in Hf.
Qed.

Lemma good_approve_receipt t i d x d' : in_order d -> approveReceipt t i d = Ok (x, d') -> good d d'.
Proof.
  intros HO H. unfold approveReceipt in H. inv_tx. apply select_receipt_Ok in Ha as (-> & _ & _). case_if_in H; [done|].
  by eapply good_post_receipt.
Qed.

Lemma good_post_issue t i key d x d' : in_order d -> postIssueInTx t i key d = Ok (x, d') -> good d d'.
Proof.
  intros HO H. apply post_issue_spec in H as (_ & r & Hr & Ht & [[_ ->] | (Hst & P1 & P2 & P3 & _ & its & P4 & P5)]);
    [by apply good_refl | | apply HO | by intros r0 Hr0 _; apply (ord_issue_lines _ HO _ _ Hr0)].
  eapply good_issue; [done..| | |]; cbn; [by rewrite Ht | rewrite P4; by apply (ord_issue_lines _ HO _ _ Hr) |].
  apply (rows_keep_old issue_later _ _ r); [done|]. split_and!; [done | by apply coalesce_later |]. intros E. by rewrite E in Hst.
Qed.

Lemma good_create_issue lc t dto key uuid d x d' : in_order d -> as_uuid uuid = uuid ->
  one_spelling (ci_items dto) -> createIssue lc t dto key uuid d = Ok (x, d') -> good d d'.
Proof.
  intros HO Hu Hc H. apply create_issue_spec in H as [(k & _ & _ & ->) | (_ & Hn & P1 & P2 & P3 & r & P4 & Q1 & Q2 & Q3 & _)];
    [by apply good_refl | | apply HO | done | done].
  eapply good_issue; [done..| | |]; [by rewrite Q1, Q2 | done | by apply (rows_keep_new issue_later)].
Qed.

Lemma good_cancel_issue t i d u d' : in_order d -> cancelIssue t i d = Ok (u, d') -> good d d'.
Proof.
  intros HO (r & r' & Hr & Ht & Hf & _ & Hw & ->)%move_Ok. cbn in Hw, Hr, Hf. injection Hw as <-.
  eapply good_issue; [done | apply doc_quiet; (done || apply HO) | done | done | | |].
  - cbn. apply issue_key_free. intros k Hk j x Hj Hne Et Ek. apply Hne. by eapply (ord_issues _ HO).
  - by apply (ord_issue_lines _ HO _ _ Hr).
  - apply (rows_keep_old issue_later _ _ r); [done|]. split_and!; [done..|]. intros E0. by rewrite E0 in Hf.
Qed.

Lemma good_cancel_take t i d u d' : in_order d -> cancelStocktake t i d = Ok (u, d') -> good d d'.
Proof.
  intros HO (r & r' & Hr & Ht & Hf & _ & Hw & ->)%move_Ok. cbn in Hw, Hr. injection Hw as <-.
  apply (good_take _ _ (as_uuid i)); [done|]. split_and!; [apply doc_quiet; (done || apply HO) | done |]. eexists. split; [done|]. cbn.
  by apply (ord_takes _ HO _ _ Hr).
Qed.
End Documents.

Section Orders.
Lemma select_supplier_pure t i d s d' : select_supplier t i d = Ok (s, d') -> d' = d.
Proof.
  unfold select_supplier. intros H. inv_tx. destruct (supplier _ !! _) as [x|]; [|by inv_tx]. case_if_in H; by inv_tx.
Qed.

Lemma purchase_merge_pure l m d m' d' : for_each purchase_merge m l d = Ok (m', d') -> d' = d.
Proof.
  intros H. apply (for_each_inv (fun _ d1 => d1 = d)) in H; [done | | done]. intros s x d1 s' d2 _ -> Hs.
  unfold purchase_merge in Hs. inv_tx. destruct (mget _ s); by inv_tx.
Qed.

Lemma insert_purchase_item_Ok id line d u d' r : purchase_order d !! id = Some r -> NoDup (map pi_sku (po_items r)) ->
  insert_purchase_item id line d = Ok (u, d') ->
  exists its, d' = set_purchase_order id (with_purchase_items r its) d /\ NoDup (map pi_sku its).
Proof.
  intros Hr Hn. unfold insert_purchase_item. intros H. inv_tx. rewrite Hr in H. case_if_in H; inv_tx. apply andb_prop in E as [E _].
  eexists. split; [done|]. rewrite map_app. apply NoDup_app. split_and!; [done | | apply NoDup_singleton].
  intros z Hz ->%list_elem_of_singleton. apply list_elem_of_fmap in Hz as (j & Ej & Hj). apply negb_true_iff in E.
  eapply existsb_false in E; [|done]. cbn in E, Ej. by rewrite Ej, String.eqb_refl in E.
Qed.

Lemma insert_purchase_items id lines r d u d' : NoDup (map pi_sku (po_items r)) ->
  for_each (fun _ line => insert_purchase_item id line) tt lines (set_purchase_order id r d) = Ok (u, d') ->
  exists r', d' = set_purchase_order id r' d /\ NoDup (map pi_sku (po_items r')).
Proof.
  intros Hn H. eapply (for_each_inv (fun _ d1 => exists r', d1 = set_purchase_order id r' d /\ NoDup (map pi_sku (po_items r')))) in H;
    [done | | by exists r].
  intros [] line d1 [] d2 _ (r1 & -> & Hn1) Hs. apply (insert_purchase_item_Ok _ _ _ _ _ r1) in Hs as (its & -> & Hits); [|cbn; by rewrite lookup_insert_eq|done].
  exists (with_purchase_items r1 its). by rewrite set_order_twice.
Qed.

Lemma good_create_order lc t dto uuid d x d' : in_order d -> createPurchaseOrder lc t dto uuid d = Ok (x, d') -> good d d'.
Proof.
  intros HO. unfold createPurchaseOrder. intros H. inv_tx. apply active_warehouse_pure in Ha as ->. apply select_supplier_pure in Ha0 as ->.
  case_if_in H; [done|]. inv_tx. apply purchase_merge_pure in Ha as ->. apply document_code_pure in Ha0 as ->.
  unfold insert_purchase_order in Ha2. inv_tx. case_if_in Ha2; inv_tx. apply insert_purchase_items in Ha3 as (r' & -> & Hn); [|constructor].
  by apply good_order.
Qed.

Lemma good_approve_order t i d x d' : in_order d -> approvePurchaseOrder t i d = Ok (x, d') -> good d d'.
Proof.
  intros HO. unfold approvePurchaseOrder. intros H. inv_tx. apply select_order_Ok in Ha as (-> & Hr & _).
  case_if_in H; [inv_tx; by apply good_refl|]. case_if_in H; [done|]. unfold set_order_status in H. inv_tx. rewrite Hr in *.
  apply read_money_inv in Ha0 as (_ & -> & _). apply good_message; [|done]. apply good_order; [done|]. by apply (ord_orders _ HO _ _ Hr).
Qed.

Lemma good_receive_order lc t i ls key uuid d x d' : in_order d -> as_uuid uuid = uuid ->
  receivePurchaseOrder lc t i ls key uuid d = Ok (x, d') -> good d d'.
Proof.
  intros HO Hu H. apply receive_order_spec in H as [[-> _] | (_ & P1 & P2 & P3 & P4 & P5 & P6 & P7 & (rc & R1 & R2 & R3) & r & r' & O1 & O2 & O3)];
    [by apply good_refl | | apply HO | done].
  rewrite <- R2, <- R3 in P7. rewrite receipt_key_free in P7.
  apply good_docs; rewrite ?P2, ?P3; try apply HO; try done.
  - rewrite R1. intros a b y z k. destruct (decide (uuid = a)) as [<-|], (decide (uuid = b)) as [<-|];
      rewrite ?lookup_insert_eq, ?lookup_insert_ne by done; [done | | | apply (ord_receipts _ HO)].
    + intros [= <-] Hy Et Ek1 Ek2. by destruct (P7 k Ek1 b z Hy ltac:(done) (eq_sym Et)).
    + intros Hx [= <-] Et Ek1 Ek2. by destruct (P7 k Ek2 a y Hx ltac:(done) Et).
  - rewrite R1. by apply (rows_keep_new receipt_later).
  - rewrite O2. apply map_Forall_insert_2; [|apply HO]. rewrite O3. by apply (ord_orders _ HO _ _ O1).
Qed.

Lemma good_cancel_order t i d u d' : in_order d -> cancelPurchaseOrder t i d = Ok (u, d') -> good d d'.
Proof.
  intros HO (r & r' & Hr & _ & _ & _ & Hw & ->)%move_Ok. cbn in Hw, Hr. injection Hw as <-. apply good_order; [done|]. cbn.
  by apply (ord_orders _ HO _ _ Hr).
Qed.

Lemma good_create_supplier t dto uuid d x d' : in_order d -> createSupplier t dto uuid d = Ok (x, d') -> good d d'.
Proof.
  intros HO H. unfold createSupplier in H. inv_tx. repeat (case_if_in H; [done|]). inv_tx. by apply good_supplier.
Qed.

Lemma good_update_supplier t i dto d x d' : in_order d -> updateSupplier t i dto d = Ok (x, d') -> good d d'.
Proof.
  intros HO H. unfold updateSupplier in H. inv_tx. apply select_supplier_pure in Ha as ->. case_if_in H; [done|]. inv_tx. by apply good_supplier.
Qed.

Lemma good_delete_supplier t i d x d' : in_order d -> deleteSupplier t i d = Ok (x, d') -> good d d'.
Proof.
  intros HO H. unfold deleteSupplier in H. inv_tx. apply select_supplier_pure in Ha as ->. case_if_in H; [done|]. inv_tx. by apply good_supplier.
Qed.

Lemma good_cancel_transfer t i ca d u d' : in_order d -> documents_cancelTransfer t i ca d = Ok (u, d') -> good d d'.
Proof.
  intros HO H. unfold documents_cancelTransfer in H. inv_tx. apply header_Ok in Ha as (-> & _ & _).
  case_if_in H; [|case_if_in H; [done|]]; apply good_transfer; try done.
  - by eapply cancel_draft_spec; [apply HO | apply HO | exact H].
  - eapply (run_transfer_spec t i Cancel); [apply HO | apply HO | exact H].
Qed.

Lemma good_master whs skus ths d : in_order d -> good d (set_master whs skus ths d).
Proof. intros HO. apply good_docs; try apply HO; try done. apply doc_quiet; (done || apply HO). Qed.
End Orders.

(** One request keeps the store in order, and what it holds evolves. *)
Lemma serve_good lc sha d r : in_order d -> admissible r -> good d (serve lc sha d r).
Proof.
  intros HO Ha.
  destruct r; cbn [serve admissible] in *; try (apply good_after; [exact HO|]; intros a d' H).
  - by eapply good_reserve.
  - by eapply good_commit.
  - by eapply good_release.
  - by apply good_expire_job.
  - by apply good_expire_rows.
  - apply good_transfer; [done|]. by eapply create_spec; [apply HO..|].
  - apply good_transfer; [done|]. eapply (run_transfer_spec _ _ Dispatch); [apply HO..|exact H].
  - apply good_transfer; [done|]. eapply (run_transfer_spec _ _ (Receive dto)); [apply HO..|exact H].
  - by eapply good_cancel_transfer.
  - by eapply good_create_receipt.
  - by eapply good_post_receipt.
  - by eapply good_move_receipt.
  - by eapply good_approve_receipt.
  - by eapply good_move_receipt.
  - by eapply good_move_receipt.
  - destruct Ha as [Ha1 Ha2]. by eapply good_create_issue.
  - by eapply good_post_issue.
  - by eapply good_cancel_issue.
  - eapply good_take; [done|]. by eapply create_take_spec; [apply HO|].
  - eapply good_take; [done|]. eapply record_counts_spec; [apply HO | apply (ord_takes _ HO) | exact H].
  - eapply good_take; [done|]. eapply approve_spec; [apply HO | apply (ord_takes _ HO) | exact H].
  - by eapply good_cancel_take.
  - by eapply good_create_order.
  - by eapply good_approve_order.
  - by eapply good_receive_order.
  - by eapply good_cancel_order.
  - by eapply good_create_supplier.
  - by eapply good_update_supplier.
  - by eapply good_delete_supplier.
  - by apply good_master.
Qed.

Lemma serve_all_good lc sha l : forall d, in_order d -> Forall admissible l -> good d (serve_all lc sha d l).
Proof.
  induction l as [|r l IH]; intros d HO Hl; [by apply good_refl|]. apply Forall_cons in Hl as [Hr Hl].
  pose proof (serve_good lc sha d r HO Hr) as Hg. eapply good_trans; [exact Hg|]. apply IH; [apply Hg | done].
Qed.

(** ** The ledger and the outbox only grow *)

Definition grows (d d' : db) : Prop :=
  stock_balance_ledger d `prefix_of` stock_balance_ledger d' /\ outbox d `prefix_of` outbox d'.

#[export] Instance grows_preorder : PreOrder grows.
Proof. split; [by intros d | intros d1 d2 d3 [A1 A2] [B1 B2]; split; by etransitivity]. Qed.

(** A transaction that only appends to them. *)
Abbreviation Grows := (Keeps grows).

Create HintDb grows.

Section Grows.
Lemma grows_ledger r d : grows d (add_ledger r d).
Proof. split; cbn; [by apply prefix_app_r | done]. Qed.

Lemma grows_event e d : grows d (add_event e d).
Proof. split; cbn; [done | by apply prefix_app_r]. Qed.

End Grows.

#[export] Hint Resolve grows_ledger grows_event : grows.

Ltac solve_grows :=
  solve_keeps_with ltac:(idtac; lazymatch goal with
    | |- grows _ (match ?x with _ => _ end) => destruct x
    | |- grows _ ?x => first [solve [eauto 2 with grows] | solve [split; reflexivity] | unfold_head x; cbv beta]
    end).

Section Appends.
Lemma grows_update k g f : Grows (update_balance k g f).
Proof. solve_grows. Qed.
Lemma grows_upsert k b f : Grows (upsert_balance k b f).
Proof. solve_grows. Qed.
Lemma grows_emit k x y : Grows (emitBelowMinOnCrossing k x y).
Proof. solve_grows. Qed.
End Appends.

#[export] Hint Resolve grows_update grows_upsert grows_emit : keeps.

Section AppendsOf.
Lemma grows_expire t i now : Grows (expireWarehouseReservation t i now).
Proof. solve_grows. Qed.

Lemma grows_job now rows : forall d n, grows d (foldl (expire_job_step now) (d, n) rows).1.
Proof.
  induction rows as [|e rows IH]; intros d n; [reflexivity|]. cbn [foldl]. unfold expire_job_step at 2. cbn [fst snd].
  destruct (expireWarehouseReservation e.2 e.1 now d) as [[[|] d1]|] eqn:E; try (by apply IH);
    apply grows_expire in E; (etransitivity; [exact E | apply IH]).
Qed.

Lemma grows_job_of now rows : forall d n, grows d (expire_rows now d n rows).1.
Proof.
  induction rows as [|e rows IH]; intros d n; [reflexivity|]. cbn [expire_rows].
  destruct (expireWarehouseReservation e.2 e.1 now d) as [[b d1]|] eqn:E; [|reflexivity].
  apply grows_expire in E. etransitivity; [exact E | apply IH].
Qed.
Lemma serve_grows lc sha d r : grows d (serve lc sha d r).
Proof.
  destruct r; cbn [serve]; try (apply (keeps_after grows); solve_grows); [apply grows_job | apply grows_job_of |].
  split; reflexivity.
Qed.
End AppendsOf.

(** ** Reachable states *)

(** A new deployment: no stock, no documents. *)
Definition empty_store : db :=
  {| warehouse := ∅; catalog_sku_projection := []; stock_threshold := ∅; stock_balance := ∅; stock_balance_ledger := [];
     warehouse_reservation := ∅; stock_transfer := ∅; stock_receipt := ∅; stock_issue := ∅; stock_take := ∅;
     purchase_order := ∅; supplier := ∅; outbox := [] |}.

Section Reach.
Context (localeCompare : string -> string -> Z) (sha256 : RequestDigest -> string).

(** The states the service reaches. *)
Inductive reachable : db -> Prop :=
| reach_start : reachable empty_store
| reach_serve d r : reachable d -> admissible r -> reachable (serve localeCompare sha256 d r).

Lemma empty_in_order : in_order empty_store.
Proof.
  split; try apply map_Forall_empty; try (intros i j r r' k Hi; cbn in Hi; by rewrite lookup_empty in Hi).
  - split; [apply map_Forall_empty | intros k; unfold on_hand; cbn; by rewrite lookup_empty | constructor | done].
  - split; try apply map_Forall_empty; [|by intros i j r r' Hi].
    intros k. unfold reserved, held. cbn. by rewrite lookup_empty, msum_empty.
  - split; [|apply map_Forall_empty]. intros k. unfold in_transit, road. cbn. by rewrite lookup_empty, msum_empty.
Qed.

Lemma reachable_in_order d : reachable d -> in_order d.
Proof. induction 1 as [|d r _ IH Ha]; [apply empty_in_order | by apply serve_good]. Qed.

Lemma reachable_serve_all l : forall d, reachable d -> Forall admissible l -> reachable (serve_all localeCompare sha256 d l).
Proof.
  induction l as [|r l IH]; intros d Hd Hl; [done|]. apply Forall_cons in Hl as [Hr Hl]. apply IH; [by constructor | done].
Qed.

Lemma serve_all_grows l : forall d, grows d (serve_all localeCompare sha256 d l).
Proof. induction l as [|r l IH]; intros d; [reflexivity|]. etransitivity; [apply serve_grows | apply IH]. Qed.

(** ** Idempotency keys of holds *)

(** Reading the request does not look at the store. *)
Lemma parseDecimal_any s d z d' d2 : parseDecimalToMilli s d = Ok (z, d') -> parseDecimalToMilli s d2 = Ok (z, d2).
Proof. unfold parseDecimalToMilli. destruct (match_decimal _ _) as [[[??]?]|]; intros H; inv_tx; done. Qed.

Lemma merge_any m line d m' d' d2 : merge_reservation_line m line d = Ok (m', d') -> merge_reservation_line m line d2 = Ok (m', d2).
Proof.
  unfold merge_reservation_line. intros H. inv_tx. rewrite (tx_bind_run _ _ _ _ _ (parseDecimal_any _ _ _ _ d2 Ha)).
  destruct (a <=? 0); [done|]. destruct (mget _ m); inv_tx; done.
Qed.

Lemma merge_all_any ls : forall m d m' d' d2, for_each merge_reservation_line m ls d = Ok (m', d') ->
  for_each merge_reservation_line m ls d2 = Ok (m', d2).
Proof.
  induction ls as [|l ls IH]; intros m d m' d' d2; cbn; [intros H; by inv_tx|]. intros H. inv_tx.
  rewrite (tx_bind_run _ _ _ _ _ (merge_any _ _ _ _ _ d2 Ha)). by eapply IH.
Qed.

Lemma normalize_any ls d out d' d2 : normalizeReservationLines localeCompare ls d = Ok (out, d') ->
  normalizeReservationLines localeCompare ls d2 = Ok (out, d2).
Proof.
  unfold normalizeReservationLines. destruct ls as [|l ls]; [done|]. intros H. inv_tx.
  by rewrite (tx_bind_run _ _ _ _ _ (merge_all_any _ _ _ _ _ d2 Ha)).
Qed.

Lemma of_key_true t c k r : of_key t c k r = true -> r_tenant r = t /\ r_caller r = c /\ r_key r = k.
Proof. unfold of_key. rewrite !andb_true_iff, !String.eqb_eq. tauto. Qed.

(** The row that answers a request: found under its key, or new. *)
Lemma reserve_answer t key req uuid now d resp b d' : in_order d -> as_uuid uuid = uuid -> (forall h, trim (sha256 h) = sha256 h) ->
  reserveWarehouseStock localeCompare sha256 t key req uuid now d = Ok ((resp, b), d') ->
  exists row, warehouse_reservation d' !! rr_id resp = Some row /\
    request_of row = (t, q_callerService req, trim (default "" key), r_sha256 row) /\
    forall d2, in_order d2 -> forall row2, warehouse_reservation d2 !! rr_id resp = Some row2 -> request_of row2 = request_of row ->
      forall uuid2 now2, reserveWarehouseStock localeCompare sha256 t key req uuid2 now2 d2 = Ok ((response_of d2 (rr_id resp) row2, true), d2).
Proof.
  intros HO Hu Hsha. unfold reserveWarehouseStock at 1. intros H. case_if_in H; [done|]. rename E into Ekey. inv_tx. rename a into ls.
  pose proof (normalize_any _ _ _ _ d Ha) as Hn. pose proof (normalize_positive _ _ _ _ _ Ha) as [-> Hpos].
  pose proof (normalize_total _ _ _ _ _ Ha) as [_ Htxt]. case_if_in H; [done|]. rename E into E1. case_if_in H; [done|]. rename E into E2. inv_tx.
  set (k := trim (default "" key)) in *. set (h := hashReservationRequest sha256 req ls) in *.
  cut (exists row, warehouse_reservation d' !! rr_id resp = Some row /\
    request_of row = (t, q_callerService req, k, r_sha256 row) /\ trim (r_sha256 row) = h).
  { intros (row & Hr & Hq & Hh). exists row. split_and!; [done | done |]. intros d2 HO2 row2 Hr2 Hq2 uuid2 now2. unfold reserveWarehouseStock.
    fold k. rewrite Ekey. rewrite (tx_bind_run _ _ _ _ _ (normalize_any _ _ _ _ d2 Hn)), E1, E2. fold h. rewrite Hq in Hq2. injection Hq2 as Q1 Q2 Q3 Q4.
    assert (Hf : find_by_key d2 t (q_callerService req) k = Some (rr_id resp, row2)).
    { destruct (find_by_key d2 t (q_callerService req) k) as [[i r]|] eqn:Ef.
      - apply find_by_key_Some in Ef as [Hi (K1 & K2 & K3)%of_key_true].
        assert (i = rr_id resp) as -> by (eapply (holds_keys _ (ord_holds _ HO2)); [exact Hi | exact Hr2 | congruence..]). by simplify_eq.
      - rewrite find_by_key_None in Ef. specialize (Ef _ _ Hr2). unfold of_key in Ef. by rewrite Q1, Q2, Q3, !String.eqb_refl in Ef. }
    unfold mbind, txn_bind, gets. rewrite Hf, Q4, Hh, String.eqb_refl. done. }
  destruct (find_by_key d t (q_callerService req) k) as [[i row]|] eqn:Ef.
  - destruct (String.eqb_spec (trim (r_sha256 row)) h) as [Eh|]; [|done]. cbn [negb] in H. unfold loadWarehouseReservationResponse in H. inv_tx.
    apply find_by_key_Some in Ef as [Hi (K1 & K2 & K3)%of_key_true]. exists row. split_and!; [done | unfold request_of; by rewrite K1, K2, K3 | done].
  - inv_tx. apply hold_new_spec in Ha0 as (lines & _ & _ & _ & _ & _ & P6 & _ & _ & P9 & _); try apply HO; try done.
    exists (new_row t k req h now lines). rewrite P6, P9, lookup_insert_eq. split_and!; [done | done | apply Hsha].
Qed.
End Reach.

(** ** Idempotency keys of documents *)

Section DocumentKeys.
Lemma find_unique_key {R} (tenant : R -> string) (key : R -> option string) (m : gmap string R) t k x r :
  keys_unique tenant key m -> m !! x = Some r -> tenant r = t -> key r = Some k ->
  fst <$> List.find (fun e => String.eqb (tenant e.2) t && bool_decide (key e.2 = Some k)) (map_to_list m) = Some x.
Proof.
  intros Hu Hx Ht Hk. destruct (List.find _ _) as [[i r']|] eqn:E; cbn.
  - apply List.find_some in E as [Hi E]. apply list_elem_of_In, elem_of_map_to_list in Hi. cbn in E.
    apply andb_prop in E as [E1%String.eqb_eq E2%bool_decide_eq_true_1]. f_equal. eapply Hu; [exact Hi | exact Hx | congruence | exact E2 | exact Hk].
  - eapply List.find_none in E; [|apply list_elem_of_In, elem_of_map_to_list, Hx].
    cbn in E. by rewrite Ht, String.eqb_refl, bool_decide_eq_true_2 in E.
Qed.

Lemma find_receipt_Some t k d x d' : find_receipt_by_key t k d = Ok (Some x, d') ->
  exists r, stock_receipt d !! x = Some r /\ rc_tenant r = t /\ rc_key r = Some k.
Proof.
  unfold find_receipt_by_key, gets. intros [= H _]. destruct (List.find _ _) as [[i r]|] eqn:E; [|done]. injection H as <-.
  apply List.find_some in E as [Hi E]. apply list_elem_of_In, elem_of_map_to_list in Hi. cbn in E.
  apply andb_prop in E as [E1%String.eqb_eq E2%bool_decide_eq_true_1]. by exists r.
Qed.

Lemma find_issue_Some t k d x d' : find_issue_by_key t k d = Ok (Some x, d') ->
  exists r, stock_issue d !! x = Some r /\ is_tenant r = t /\ is_key r = Some k.
Proof.
  unfold find_issue_by_key, gets. intros [= H _]. destruct (List.find _ _) as [[i r]|] eqn:E; [|done]. injection H as <-.
  apply List.find_some in E as [Hi E]. apply list_elem_of_In, elem_of_map_to_list in Hi. cbn in E.
  apply andb_prop in E as [E1%String.eqb_eq E2%bool_decide_eq_true_1]. by exists r.
Qed.

(** A receipt under a key, and any later request with that key. *)
Lemma receipt_answer lc t dto key k uuid d x d' : in_order d -> as_uuid uuid = uuid -> clean_key key = Some k ->
  createReceiptInTx lc t dto key uuid d = Ok (x, d') ->
  exists r, stock_receipt d' !! x = Some r /\ rc_tenant r = t /\ rc_key r = Some k.
Proof.
  intros HO Hu Hk H. apply create_receipt_spec in H as [(k' & Ek & Hf & ->) | (-> & _ & _ & _ & _ & r & P4 & (Q1 & Q2 & _) & _)];
    [| |apply HO|done].
  - rewrite Hk in Ek. injection Ek as ->. by apply find_receipt_Some in Hf.
  - exists r. rewrite P4, lookup_insert_eq. by rewrite Q2.
Qed.

Lemma receipt_replay lc t dto key k uuid d x r : in_order d -> clean_key key = Some k -> stock_receipt d !! x = Some r ->
  rc_tenant r = t -> rc_key r = Some k -> createReceiptInTx lc t dto key uuid d = Ok (x, d).
Proof.
  intros HO Hk Hx Ht Er. unfold createReceiptInTx. rewrite Hk.
  erewrite tx_bind_run by (unfold find_receipt_by_key, gets; by rewrite (find_unique_key _ _ _ _ _ _ _ (ord_receipts _ HO) Hx Ht Er)). done.
Qed.

Lemma issue_answer lc t dto key k uuid d x d' : in_order d -> as_uuid uuid = uuid -> one_spelling (ci_items dto) ->
  clean_key key = Some k -> createIssue lc t dto key uuid d = Ok (x, d') ->
  exists r, stock_issue d' !! x = Some r /\ is_tenant r = t /\ is_key r = Some k.
Proof.
  intros HO Hu Hc Hk H. apply create_issue_spec in H as [(k' & Ek & Hf & ->) | (-> & _ & _ & _ & _ & r & P4 & Q1 & Q2 & _)];
    [| |apply HO|done|done].
  - rewrite Hk in Ek. injection Ek as ->. by apply find_issue_Some in Hf.
  - exists r. rewrite P4, lookup_insert_eq. by rewrite Q2.
Qed.

Lemma issue_replay lc t dto key k uuid d x r : in_order d -> clean_key key = Some k -> stock_issue d !! x = Some r ->
  is_tenant r = t -> is_key r = Some k -> createIssue lc t dto key uuid d = Ok (x, d).
Proof.
  intros HO Hk Hx Ht Er. unfold createIssue. rewrite Hk.
  erewrite tx_bind_run by (unfold find_issue_by_key, gets; by rewrite (find_unique_key _ _ _ _ _ _ _ (ord_issues _ HO) Hx Ht Er)). done.
Qed.
End DocumentKeys.

(** ** What the system promises *)

(** C1.  The stock books balance in every state the service reaches by admissible
    requests: any sequence, from an empty store, of requests of every kind, whose
    fresh ids are canonical UUIDs and in which no issue writes one SKU id in two ways
    (the code does not refuse that one; such an issue breaks the books).  At every
    balance the quantity on hand is the sum of its ledger entries, the reserved
    quantity is exactly what the open holds keep and never more than is on hand, the
    quantity in transit is exactly what the open transfers have on the road; the
    value is the quantity at the average cost, rounded half up; the announced
    movements are the ledger's; and no two receipts (or issues) of a tenant share an
    idempotency key. *)
Theorem reachable_books_balance localeCompare sha256 d : reachable localeCompare sha256 d ->
  (forall k, on_hand d k = ledger_sum (stock_balance_ledger d) k /\
     reserved d k = held d k /\ 0 <= reserved d k <= on_hand d k /\ in_transit d k = road d k) /\
  (forall k b, stock_balance d !! k = Some b -> valuation_amount b = half_up (on_hand_qty b * avg_unit_cost b) 1000) /\
  omap event_movement (outbox d) = omap row_movement (stock_balance_ledger d) /\
  keys_unique rc_tenant rc_key (stock_receipt d) /\ keys_unique is_tenant is_key (stock_issue d).
Proof.
  intros Hd%reachable_in_order. destruct Hd as [B H T R I _ _ _]. split_and!; [|intros k b Hb; apply (books_rows _ B _ _ Hb)|apply B|done|done].
  intros k. split_and!; [apply B | apply H | apply (on_hand_nonneg d k B) | apply (on_hand_nonneg d k B) | apply T].
Qed.

(** What is done stays done.  Whatever requests follow, no ledger entry and no
    message of the outbox is changed or removed, a hold that was committed, released
    or expired stays as it was, and so does a posted receipt or issue; an open hold
    keeps its tenant, caller, key and request. *)
Theorem warehouse_history_is_kept localeCompare sha256 d l : reachable localeCompare sha256 d -> Forall admissible l ->
  let d' := serve_all localeCompare sha256 d l in
  stock_balance_ledger d `prefix_of` stock_balance_ledger d' /\ outbox d `prefix_of` outbox d' /\
  (forall i r, warehouse_reservation d !! i = Some r ->
     exists r', warehouse_reservation d' !! i = Some r' /\ request_of r' = request_of r /\ (r_state r <> HELD -> r' = r)) /\
  (forall i r, stock_receipt d !! i = Some r -> rc_status r = "POSTED" -> stock_receipt d' !! i = Some r) /\
  (forall i r, stock_issue d !! i = Some r -> is_status r = "POSTED" -> stock_issue d' !! i = Some r).
Proof.
  intros Hd%reachable_in_order Hl d'. destruct (serve_all_good localeCompare sha256 l d Hd Hl) as [_ [E1 E2 E3]].
  split_and!; [apply serve_all_grows | apply serve_all_grows | exact E1 | |].
  - intros i r Hr Hp. destruct (E2 i r Hr) as (r' & Hr' & _ & _ & E). by rewrite (E Hp) in Hr'.
  - intros i r Hr Hp. destruct (E3 i r Hr) as (r' & Hr' & _ & _ & E). by rewrite (E Hp) in Hr'.
Qed.

(** C7.  A hold is created once per idempotency key.  Once a hold request was
    answered in a state reached by admissible requests (canonical fresh ids, no issue
    that writes one SKU id in two ways), the same request (any new id, any later
    time) is answered as a replay of the same reservation for ever, whatever
    admissible requests came in between, and changes nothing: no second hold is taken
    even after the first was settled. *)
Theorem hold_key_answered_for_ever localeCompare sha256 t key req uuid now d resp b d' l uuid2 now2 :
  reachable localeCompare sha256 d -> as_uuid uuid = uuid -> (forall h, trim (sha256 h) = sha256 h) ->
  reserveWarehouseStock localeCompare sha256 t key req uuid now d = Ok ((resp, b), d') -> Forall admissible l ->
  let later := serve_all localeCompare sha256 d' l in
  exists resp', reserveWarehouseStock localeCompare sha256 t key req uuid2 now2 later = Ok ((resp', true), later) /\
    rr_id resp' = rr_id resp.
Proof.
  intros Hd%reachable_in_order Hu Hsha H Hl later.
  pose proof (good_reserve _ _ _ _ _ _ _ _ _ _ Hd Hu H) as [HO' _].
  destruct (reserve_answer _ _ _ _ _ _ _ _ _ _ _ Hd Hu Hsha H) as (row & Hr & _ & Hreplay).
  destruct (serve_all_good localeCompare sha256 l d' HO' Hl) as [HO2 [E1 _ _]].
  destruct (E1 _ _ Hr) as (row2 & Hr2 & Hq & _). eexists. split; [by apply (Hreplay later HO2 row2) | done].
Qed.

(** A receipt or an issue is created once per idempotency key.  Once a
    document was created (or found) under a key, every later request of the tenant
    with that key, whatever it contains, answers the same document and changes
    nothing. *)
Theorem document_key_answered_for_ever localeCompare sha256 t key k d d' x uuid l :
  reachable localeCompare sha256 d -> as_uuid uuid = uuid -> clean_key key = Some k -> Forall admissible l ->
  let later := serve_all localeCompare sha256 d' l in
  (forall dto, createReceiptInTx localeCompare t dto key uuid d = Ok (x, d') ->
     forall dto2 uuid2, createReceiptInTx localeCompare t dto2 key uuid2 later = Ok (x, later)) /\
  (forall dto, one_spelling (ci_items dto) -> createIssue localeCompare t dto key uuid d = Ok (x, d') ->
     forall dto2 uuid2, createIssue localeCompare t dto2 key uuid2 later = Ok (x, later)).
Proof.
  intros Hd%reachable_in_order Hu Hk Hl later. split.
  - intros dto H dto2 uuid2. pose proof (good_create_receipt _ _ _ _ _ _ _ _ Hd Hu H) as [HO' _].
    destruct (receipt_answer _ _ _ _ _ _ _ _ _ Hd Hu Hk H) as (r & Hr & Ht & Er).
    destruct (serve_all_good localeCompare sha256 l d' HO' Hl) as [HO2 [_ E _]].
    destruct (E _ _ Hr) as (r2 & Hr2 & T2 & K2 & _). eapply receipt_replay; [done | done | exact Hr2 | congruence | by apply K2].
  - intros dto Hc H dto2 uuid2. pose proof (good_create_issue _ _ _ _ _ _ _ _ Hd Hu Hc H) as [HO' _].
    destruct (issue_answer _ _ _ _ _ _ _ _ _ Hd Hu Hc Hk H) as (r & Hr & Ht & Er).
    destruct (serve_all_good localeCompare sha256 l d' HO' Hl) as [HO2 [_ _ E]].
    destruct (E _ _ Hr) as (r2 & Hr2 & T2 & K2 & _). eapply issue_replay; [done | done | exact Hr2 | congruence | by apply K2].
Qed.

(** ** A day in the life of a small store *)

Definition day_requests : list request :=
  [ ChangeMasterData (warehouse sample_db) (catalog_sku_projection sample_db) (stock_threshold sample_db);
    CreateReceipt "t1" {| cr_warehouse := "w1"; cr_source := None; cr_purchase_order := None; cr_supplier := None; cr_code := None;
      cr_autoPost := true; cr_items := [{| cri_sku := "s1"; cri_qty := "10"; cri_cost := Some (int 5000); cri_unit := None; cri_factor := Undefined |}] |}
      (Some "k1") "c1";
    ReserveStock "t1" (Some "key-1") sample_request "h1" 1000;
    CreateTransfer "t1" {| ct_from := "w1"; ct_to := "w2"; ct_code := None; ct_items := [("s1", "2")] |} true "x1";
    DispatchTransfer "t1" "x1" ].

Definition day : db := serve_all text_order sample_sha empty_store day_requests.

Lemma day_reachable : reachable text_order sample_sha day.
Proof. apply reachable_serve_all; [constructor | by repeat constructor]. Qed.

(** Eight left at the first warehouse, 3.5 of them held, two on the road. *)
Lemma reachable_books_balance_witness :
  on_hand day ("t1", "w1", "s1") = 8000 /\ held day ("t1", "w1", "s1") = 3500 /\ road day ("t1", "w2", "s1") = 2000.
Proof.
  destruct (reachable_books_balance text_order sample_sha day day_reachable) as [H _].
  destruct (H ("t1", "w1", "s1")) as (_ & <- & _), (H ("t1", "w2", "s1")) as (_ & _ & _ & <-). vm_compute. done.
Defined.

Lemma warehouse_history_is_kept_witness : exists r,
  warehouse_reservation (serve text_order sample_sha day (CommitReservation "t1" "h1" None)) !! "h1" = Some r /\ r_key r = "key-1".
Proof.
  destruct (warehouse_reservation day !! "h1") as [r|] eqn:E; [|exfalso; revert E; vm_compute; discriminate].
  destruct (warehouse_history_is_kept text_order sample_sha day [CommitReservation "t1" "h1" None] day_reachable) as (_ & _ & H & _);
    [by repeat constructor|].
  destruct (H "h1" r E) as (r' & Hr' & Hq & _). exists r'. split; [exact Hr'|].
  assert (Hk : r_key r = "key-1") by (revert E; vm_compute; by intros [= <-]). injection Hq as _ _ -> _. exact Hk.
Defined.

(** A digest without blanks: the length of the canonical text. *)
Definition length_digest (h : RequestDigest) : string := nat_string (slen (sample_sha h)).

Lemma length_digest_trim h : trim (length_digest h) = length_digest h.
Proof. apply digits_trim, nat_string_digits. unfold slen. lia. Qed.

Definition morning : db := serve_all text_order length_digest empty_store (take 2 day_requests).

Lemma morning_reachable : reachable text_order length_digest morning.
Proof. apply reachable_serve_all; [constructor | by repeat constructor]. Qed.

(** The hold is asked for, committed, and asked for again. *)
Lemma hold_key_answered_for_ever_witness : exists resp d' resp',
  let later := serve text_order length_digest d' (CommitReservation "t1" "h1" None) in
  reserveWarehouseStock text_order length_digest "t1" (Some "key-1") sample_request "h1" 1000 morning = Ok ((resp, false), d') /\
  reserveWarehouseStock text_order length_digest "t1" (Some "key-1") sample_request "h2" 9000 later = Ok ((resp', true), later) /\
  rr_id resp' = rr_id resp.
Proof.
  set (m := reserveWarehouseStock text_order length_digest "t1" (Some "key-1") sample_request "h1" 1000).
  destruct (after_Ok m morning) as [[resp b] E]; [vm_compute; reflexivity|].
  assert (b = false) as -> by (assert (Hb : (snd ∘ fst) <$> m morning = Ok b) by (by rewrite E); revert Hb; vm_compute; by intros [= <-]).
  destruct (hold_key_answered_for_ever text_order length_digest "t1" (Some "key-1") sample_request "h1" 1000 morning resp false (after m morning)
    [CommitReservation "t1" "h1" None] "h2" 9000 morning_reachable eq_refl length_digest_trim E) as (resp' & H1 & H2); [by repeat constructor|].
  exists resp, (after m morning), resp'. exact (conj E (conj H1 H2)).
Defined.

(** A receipt asked for twice under one key. *)
Lemma document_key_answered_for_ever_witness : exists d',
  createReceiptInTx text_order "t1" sample_receipt_dto (Some "k2") "c2" morning = Ok ("c2", d') /\
  createReceiptInTx text_order "t1" sample_receipt_dto (Some "k2") "c3" d' = Ok ("c2", d').
Proof.
  destruct (after_Ok (createReceiptInTx text_order "t1" sample_receipt_dto (Some "k2") "c2") morning) as [x E]; [vm_compute; reflexivity|].
  assert (x = "c2") as -> by (assert (Hx : fst <$> createReceiptInTx text_order "t1" sample_receipt_dto (Some "k2") "c2" morning = Ok x)
    by (by rewrite E); revert Hx; vm_compute; by intros [= <-]).
  destruct (document_key_answered_for_ever text_order length_digest "t1" (Some "k2") "k2" morning
    (after (createReceiptInTx text_order "t1" sample_receipt_dto (Some "k2") "c2") morning) "c2" "c2" [] morning_reachable eq_refl eq_refl)
    as [H _]; [constructor|].
  exists (after (createReceiptInTx text_order "t1" sample_receipt_dto (Some "k2") "c2") morning). split; [exact E|].
  exact (H sample_receipt_dto E sample_receipt_dto "c3").
Defined.
