(* ===== verification/WarehouseTenants.v ===== *)
(** * Inventory service: tenants are isolated

    Every request carries a tenant, and every document it names is looked up with
    it; the statements that follow a lookup name a document by its id alone.  The
    file shows that this is enough: whatever ids a request names, the rows of the
    other tenants (balances, ledger, holds, transfers, receipts, issues, stocktakes,
    purchase orders, suppliers) stay exactly as they were.

    A transaction is followed with the list of documents known to be the tenant's
    own ([Own]): a lookup or an insert adds one, a write needs its document in the
    list. *)

From S2P Require Import Prelude Transaction JsNumber JsString InventoryDomain WarehouseStore WarehouseReservations.
From S2P Require Import StockTransfers StockDocuments Procurement WarehouseSystem.

Open Scope Z_scope.

(** ** Rows of one tenant *)

Section Rows.
Context {R : Type} (tenant : R -> string) (t : string).

(** The row with this id, if there is one, is the tenant's. *)
Definition mine (m : gmap string R) (i : string) : Prop := forall r, m !! i = Some r -> tenant r = t.

(** Every row is as before, or is the tenant's and was so (or is new). *)
Definition own_rows (m m' : gmap string R) : Prop :=
  forall i, m' !! i = m !! i \/ (mine m i /\ exists r, m' !! i = Some r /\ tenant r = t).

(** The rows of the other tenants are the same. *)
Definition others_same (m m' : gmap string R) : Prop :=
  forall i r, tenant r <> t -> (m' !! i = Some r <-> m !! i = Some r).

Lemma mine_later m m' i : own_rows m m' -> mine m i -> mine m' i.
Proof. intros H Hi r Hr. destruct (H i) as [E | (_ & r' & E & <-)]; rewrite E in Hr; [by apply Hi | by simplify_eq]. Qed.

#[export] Instance own_rows_preorder : PreOrder own_rows.
Proof.
  split; [by intros m i; left|]. intros m1 m2 m3 H1 H2 i. destruct (H1 i) as [E1 | (M1 & r1 & E1 & T1)].
  - destruct (H2 i) as [E2 | (M2 & W2)]; [left; by rewrite E2 | right]. split; [|done]. intros r Hr. apply M2. by rewrite E1.
  - right. split; [done|]. destruct (H2 i) as [E2 | (_ & W2)]; [exists r1; by rewrite E2 | done].
Qed.

Lemma own_insert m i r : mine m i -> tenant r = t -> own_rows m (<[i := r]> m).
Proof.
  intros Hi Hr j. destruct (decide (i = j)) as [<-|]; [right | left; by rewrite lookup_insert_ne]. split; [done|].
  exists r. by rewrite lookup_insert_eq.
Qed.

Lemma own_rows_others m m' : own_rows m m' -> others_same m m'.
Proof.
  intros H i r Hr. destruct (H i) as [-> | (Hm & r' & E & Ht)]; [done|]. rewrite E. split; [by intros [= ->] | by intros ?%Hm].
Qed.

Lemma mine_insert m i r : tenant r = t -> mine (<[i := r]> m) i.
Proof. intros Hr x. rewrite lookup_insert_eq. by intros [= <-]. Qed.
End Rows.

(** ** What a transaction of one tenant may do *)

Record confined (t : string) (d d' : db) : Prop := {
  conf_balances : forall k : balance_key, k.1.1 <> t -> stock_balance d' !! k = stock_balance d !! k;
  conf_ledger : exists new, stock_balance_ledger d' = stock_balance_ledger d ++ new /\ Forall (fun r => (l_key r).1.1 = t) new;
  conf_holds : own_rows r_tenant t (warehouse_reservation d) (warehouse_reservation d');
  conf_transfers : own_rows t_tenant t (stock_transfer d) (stock_transfer d');
  conf_receipts : own_rows rc_tenant t (stock_receipt d) (stock_receipt d');
  conf_issues : own_rows is_tenant t (stock_issue d) (stock_issue d');
  conf_takes : own_rows sk_tenant t (stock_take d) (stock_take d');
  conf_orders : own_rows po_tenant t (purchase_order d) (purchase_order d');
  conf_suppliers : own_rows su_tenant t (supplier d) (supplier d') }.

#[export] Instance confined_preorder t : PreOrder (confined t).
Proof.
  split; [intros d; split; try reflexivity; exists []; by rewrite app_nil_r|].
  intros d1 d2 d3 [A (n1 & E1 & F1) A1 A2 A3 A4 A5 A6 A7] [B (n2 & E2 & F2) B1 B2 B3 B4 B5 B6 B7].
  split; try (by etransitivity); [intros k Hk; by rewrite B, A|].
  exists (n1 ++ n2). split; [by rewrite E2, E1, (assoc_L app) | by apply Forall_app].
Qed.

(** A document of the store. *)
Inductive doc := Hold (i : string) | Transfer (i : string) | Receipt (i : string) | Issue (i : string) | Take (i : string)
  | Order (i : string) | Supplier (i : string).

Definition owns (t : string) (d : db) (x : doc) : Prop :=
  match x with
  | Hold i => mine r_tenant t (warehouse_reservation d) i
  | Transfer i => mine t_tenant t (stock_transfer d) i
  | Receipt i => mine rc_tenant t (stock_receipt d) i
  | Issue i => mine is_tenant t (stock_issue d) i
  | Take i => mine sk_tenant t (stock_take d) i
  | Order i => mine po_tenant t (purchase_order d) i
  | Supplier i => mine su_tenant t (supplier d) i
  end.

Lemma owns_later t d d' x : confined t d d' -> owns t d x -> owns t d' x.
Proof. intros [_ _ H1 H2 H3 H4 H5 H6 H7]. destruct x; cbn; by apply mine_later. Qed.

(** Started where the documents of [S] are the tenant's own, it stays with the tenant. *)
Definition Own (t : string) (S : list doc) {A} (m : tx A) : Prop :=
  forall d a d', Forall (owns t d) S -> m d = Ok (a, d') -> confined t d d'.

Create HintDb own.

Section Own.
Context (t : string).

Lemma own_bind S {A B} (m : tx A) (f : A -> tx B) : Own t S m -> (forall a, Own t S (f a)) -> Own t S (m ≫= f).
Proof.
  intros Hm Hf d b d' HS (a & d1 & H1 & H2)%tx_bind_Ok. pose proof (Hm _ _ _ HS H1) as C1. etransitivity; [exact C1|].
  eapply Hf; [|exact H2]. eapply Forall_impl; [exact HS|]. intros x. by apply owns_later.
Qed.

(** A transaction after which a document is known to be the tenant's. *)
Lemma own_gain S x {A B} (m : tx A) (f : A -> tx B) : Own t S m -> (forall d a d', m d = Ok (a, d') -> owns t d' x) ->
  (forall a, Own t (x :: S) (f a)) -> Own t S (m ≫= f).
Proof.
  intros Hm Hx Hf d b d' HS (a & d1 & H1 & H2)%tx_bind_Ok. pose proof (Hm _ _ _ HS H1) as C1. etransitivity; [exact C1|].
  eapply Hf; [|exact H2]. constructor; [by eapply Hx|]. eapply Forall_impl; [exact HS|]. intros y. by apply owns_later.
Qed.

(** A lookup that finds the document under the tenant. *)
Lemma own_lookup S x {A B} (P : A -> Prop) (m : tx A) (f : A -> tx B) :
  (forall d a d', m d = Ok (a, d') -> d' = d /\ owns t d x /\ P a) ->
  (forall a, P a -> Own t (x :: S) (f a)) -> Own t S (m ≫= f).
Proof.
  intros Hm Hf d b d' HS (a & d1 & (-> & Hx & HP)%Hm & H2)%tx_bind_Ok. eapply Hf; [exact HP | | exact H2]. by constructor.
Qed.

Lemma own_ret S {A} (a : A) : Own t S (mret (M := tx) a).
Proof. intros d b d' _ H%tx_ret_Ok. by simplify_eq. Qed.
Lemma own_gets S {A} (f : db -> A) : Own t S (gets f).
Proof. intros d b d' _ H%gets_Ok. by simplify_eq. Qed.
Lemma own_fail S {A} e st : Own t S (fail (A := A) e st).
Proof. done. Qed.
Lemma own_type_error S {A} : Own t S (type_error (A := A)).
Proof. done. Qed.
Lemma own_embed S {C A} (g : C -> _) (r : result C A) : Own t S (embed g r).
Proof. intros d a d' _ [_ ->]%embed_Ok. reflexivity. Qed.

Lemma own_each S {T A} (f : T -> A -> tx T) l : (forall s a, Own t S (f s a)) -> forall s, Own t S (for_each f s l).
Proof. intros Hf. induction l as [|a l IH]; intros s; cbn; [apply own_ret | by apply own_bind]. Qed.

Lemma own_after {A} (m : tx A) d : Own t [] m -> confined t d (after m d).
Proof. intros Hm. unfold after. destruct (m d) as [[a d']|] eqn:Em; [by eapply Hm; [constructor|] | reflexivity]. Qed.

(** ** The statements *)

Lemma own_event S e : Own t S (outbox_add e).
Proof. intros d a d' _ H%modify_Ok. simplify_eq. split; try reflexivity. exists []. by rewrite app_nil_r. Qed.

Lemma own_ledger S r : (l_key r).1.1 = t -> Own t S (insert_ledger r).
Proof.
  intros Hr d a d' _ [-> _]%insert_ledger_Ok. split; try reflexivity. exists [r]. split; [done | by apply Forall_singleton].
Qed.

Lemma confined_set d k b : k.1.1 = t -> confined t d (set_balance k b d).
Proof.
  intros Hk. split; try reflexivity; [|exists []; cbn; by rewrite app_nil_r].
  intros k' Hk'. cbn. rewrite lookup_insert_ne; [done | congruence].
Qed.

Lemma own_update S k g f : k.1.1 = t -> Own t S (update_balance k g f).
Proof. intros Hk d a d' _ [[_ ->] | (b & _ & _ & _ & _ & ->)]%update_balance_Ok; [reflexivity | by apply confined_set]. Qed.

Lemma own_upsert S k b f : k.1.1 = t -> Own t S (upsert_balance k b f).
Proof. intros Hk d a d' _ (b' & -> & _ & _)%upsert_balance_Ok. by apply confined_set. Qed.

(** Writing one row of a document table. *)
Lemma confined_write d d' : stock_balance d' = stock_balance d -> stock_balance_ledger d' = stock_balance_ledger d ->
  own_rows r_tenant t (warehouse_reservation d) (warehouse_reservation d') -> own_rows t_tenant t (stock_transfer d) (stock_transfer d') ->
  own_rows rc_tenant t (stock_receipt d) (stock_receipt d') -> own_rows is_tenant t (stock_issue d) (stock_issue d') ->
  own_rows sk_tenant t (stock_take d) (stock_take d') -> own_rows po_tenant t (purchase_order d) (purchase_order d') ->
  own_rows su_tenant t (supplier d) (supplier d') -> confined t d d'.
Proof. intros E1 E2. split; try done; [by intros; rewrite E1|]. exists []. by rewrite E2, app_nil_r. Qed.
End Own.

#[export] Hint Resolve own_ret own_gets own_fail own_type_error own_embed own_event : own.
#[export] Hint Extern 1 (Own _ _ (insert_ledger _)) => (apply own_ledger; reflexivity) : own.
#[export] Hint Extern 1 (Own _ _ (update_balance _ _ _)) => (apply own_update; reflexivity) : own.
#[export] Hint Extern 1 (Own _ _ (upsert_balance _ _ _)) => (apply own_upsert; reflexivity) : own.

(** ** Writes by id *)

(** One row of one table is written: it was the tenant's, and is. *)
Ltac solve_write :=
  apply confined_write; try reflexivity; cbn; apply own_insert; [first [done | intros ? ?; congruence] | try done].

Lemma own_in t S d x : Forall (owns t d) S -> x ∈ S -> owns t d x.
Proof. rewrite Forall_forall. auto. Qed.

(** A statement that reads the row it changes. *)
Ltac write_by f :=
  let Hin := fresh in let HS := fresh in let H := fresh "H" in let d := fresh "d" in
  intros Hin d ? ? HS H; pose proof (own_in _ _ _ _ HS Hin) as Hm; unfold f in H; cbn [owns] in Hm; inv_tx;
  repeat (case_match; inv_tx); try reflexivity; try discriminate;
  match goal with E : _ !! _ = Some ?r |- _ => pose proof (Hm r E); solve_write end.

Section Writes.
Context (t : string) (S : list doc).

Lemma own_hold id r : Hold id ∈ S -> r_tenant r = t -> Own t S (modify (set_reservation id r)).
Proof. intros Hin Hr d a d' HS [= -> ->]%modify_Ok. pose proof (own_in _ _ _ _ HS Hin) as Hm. solve_write. Qed.

Lemma own_supplier id r : Supplier id ∈ S -> su_tenant r = t -> Own t S (modify (set_supplier id r)).
Proof. intros Hin Hr d a d' HS [= -> ->]%modify_Ok. pose proof (own_in _ _ _ _ HS Hin) as Hm. solve_write. Qed.

Lemma own_append_line id l : Hold id ∈ S -> Own t S (modify (append_line id l)).
Proof. write_by append_line. Qed.

Lemma own_transfer_status id s : Transfer id ∈ S -> Own t S (set_transfer_status id s).
Proof. write_by set_transfer_status. Qed.

Lemma own_update_item id sku f : Transfer id ∈ S -> Own t S (update_item id sku f).
Proof. write_by update_item. Qed.

Lemma own_insert_item id i : Transfer id ∈ S -> Own t S (insert_item id i).
Proof. write_by insert_item. Qed.

Lemma own_receipt_item id l : Receipt id ∈ S -> Own t S (insert_receipt_item id l).
Proof. write_by insert_receipt_item. Qed.

Lemma own_receipt_posted id k : Receipt id ∈ S -> Own t S (mark_receipt_posted id k).
Proof. write_by mark_receipt_posted. Qed.

Lemma own_issue_item id i : Issue id ∈ S -> Own t S (insert_issue_item id i).
Proof. write_by insert_issue_item. Qed.

Lemma own_issue_cost id n c : Issue id ∈ S -> Own t S (set_issue_cost id n c).
Proof. write_by set_issue_cost. Qed.

Lemma own_issue_posted id k : Issue id ∈ S -> Own t S (mark_issue_posted id k).
Proof. write_by mark_issue_posted. Qed.

Lemma own_take_item id i : Take id ∈ S -> Own t S (insert_stocktake_item id i).
Proof. write_by insert_stocktake_item. Qed.

Lemma own_take_update id sku f : Take id ∈ S -> Own t S (update_stocktake_item id sku f).
Proof. write_by update_stocktake_item. Qed.

Lemma own_take_status id s : Take id ∈ S -> Own t S (set_stocktake_status id s).
Proof. write_by set_stocktake_status. Qed.

Lemma own_order_item id l : Order id ∈ S -> Own t S (insert_purchase_item id l).
Proof. write_by insert_purchase_item. Qed.

Lemma own_order_received id sku q : Order id ∈ S -> Own t S (set_received_qty id sku q).
Proof. write_by set_received_qty. Qed.

Lemma own_order_status id s : Order id ∈ S -> Own t S (set_order_status id s).
Proof. write_by set_order_status. Qed.
End Writes.

#[export] Hint Resolve own_append_line own_transfer_status own_update_item own_insert_item own_receipt_item own_receipt_posted
  own_issue_item own_issue_cost own_issue_posted own_take_item own_take_update own_take_status
  own_order_item own_order_received own_order_status : own.
#[export] Hint Extern 1 (_ ∈ _ :: _) => (repeat constructor) : own.

(** ** Lookups and inserts *)

(** The row found has the tenant. *)
Ltac found_by f :=
  intros d a d' H; unfold f in H; inv_tx; repeat (case_match; inv_tx); try discriminate; bool_prop;
  repeat match goal with E : String.eqb _ _ = true |- _ => apply String.eqb_eq in E end;
  split_and!; [done | intros ? ?; by simplify_eq | done].

Section Lookups.
Context (t : string) (S : list doc) {B : Type}.

Lemma own_select_hold i (f : option ReservationRow -> tx B) : Own t S (f None) ->
  (forall r, r_tenant r = t -> Own t (Hold (as_uuid i) :: S) (f (Some r))) -> Own t S (select_reservation t i ≫= f).
Proof.
  intros Hn Hs d b d' HS (o & d1 & H1 & H2)%tx_bind_Ok. apply select_hold_Ok in H1 as [-> H1]. destruct o as [r|]; [|by eapply Hn].
  destruct (H1 r eq_refl) as [Hr Ht]. eapply (Hs r Ht); [|exact H2]. constructor; [|done]. intros x Hx. by simplify_eq.
Qed.

Lemma own_header i (f : TransferRow -> tx B) :
  (forall r, t_tenant r = t -> Own t (Transfer (as_uuid i) :: S) (f r)) -> Own t S (transfer_header t i ≫= f).
Proof.
  apply own_lookup. intros d a d' (-> & Ha & Ht)%header_Ok. split_and!; [done | intros r Hr; by simplify_eq | done].
Qed.

Lemma own_select_receipt i (f : ReceiptRow -> tx B) :
  (forall r, rc_tenant r = t -> Own t (Receipt (as_uuid i) :: S) (f r)) -> Own t S (select_receipt t i ≫= f).
Proof. apply own_lookup. found_by select_receipt. Qed.

Lemma own_select_issue i (f : IssueRow -> tx B) :
  (forall r, is_tenant r = t -> Own t (Issue (as_uuid i) :: S) (f r)) -> Own t S (select_issue t i ≫= f).
Proof. apply own_lookup. found_by select_issue. Qed.

Lemma own_select_take i (f : StocktakeRow -> tx B) :
  (forall r, sk_tenant r = t -> Own t (Take (as_uuid i) :: S) (f r)) -> Own t S (select_stocktake t i ≫= f).
Proof. apply own_lookup. found_by select_stocktake. Qed.

Lemma own_select_order i (f : PurchaseOrderRow -> tx B) :
  (forall r, po_tenant r = t -> Own t (Order (as_uuid i) :: S) (f r)) -> Own t S (select_purchase_order t i ≫= f).
Proof. apply own_lookup. found_by select_purchase_order. Qed.

Lemma own_select_supplier i (f : SupplierRow -> tx B) :
  (forall r, su_tenant r = t -> Own t (Supplier (as_uuid i) :: S) (f r)) -> Own t S (select_supplier t i ≫= f).
Proof. apply own_lookup. found_by select_supplier. Qed.
End Lookups.

(** A new row has a new id. *)
Ltac new_by f :=
  intros ? ? ? H; unfold f in H; inv_tx; case_if_in H; [done|]; inv_tx; rewrite !orb_false_iff in *;
  repeat match goal with E : _ /\ _ |- _ => destruct E as [E _] end;
  match goal with E : bool_decide (is_Some _) = false |- _ => apply bool_decide_eq_false, eq_None_not_Some in E end.

Section Inserts.
Context (t : string) (S : list doc) {B : Type}.

Lemma own_new_hold id r (f : unit -> tx B) : r_tenant r = t -> (forall u, Own t (Hold id :: S) (f u)) ->
  Own t S (insert_reservation id r ≫= f).
Proof.
  intros Hr. apply own_gain; [intros d a d' _; revert d a d' |]; new_by insert_reservation; [solve_write | by apply mine_insert].
Qed.

Lemma own_new_transfer id r (f : unit -> tx B) : t_tenant r = t -> (forall u, Own t (Transfer id :: S) (f u)) ->
  Own t S (insert_transfer id r ≫= f).
Proof.
  intros Hr. apply own_gain; [intros d a d' _; revert d a d' |]; new_by insert_transfer; [solve_write | by apply mine_insert].
Qed.

Lemma own_new_receipt id r (f : unit -> tx B) : rc_tenant r = t -> (forall u, Own t (Receipt id :: S) (f u)) ->
  Own t S (insert_receipt id r ≫= f).
Proof.
  intros Hr. apply own_gain; [intros d a d' _; revert d a d' |]; new_by insert_receipt; [solve_write | by apply mine_insert].
Qed.

Lemma own_new_issue id r (f : unit -> tx B) : is_tenant r = t -> (forall u, Own t (Issue id :: S) (f u)) ->
  Own t S (insert_issue id r ≫= f).
Proof.
  intros Hr. apply own_gain; [intros d a d' _; revert d a d' |]; new_by insert_issue; [solve_write | by apply mine_insert].
Qed.

Lemma own_new_take id r (f : unit -> tx B) : sk_tenant r = t -> (forall u, Own t (Take id :: S) (f u)) ->
  Own t S (insert_stocktake id r ≫= f).
Proof.
  intros Hr. apply own_gain; [intros d a d' _; revert d a d' |]; new_by insert_stocktake; [solve_write | by apply mine_insert].
Qed.

Lemma own_new_order id r (f : unit -> tx B) : po_tenant r = t -> (forall u, Own t (Order id :: S) (f u)) ->
  Own t S (insert_purchase_order id r ≫= f).
Proof.
  intros Hr. apply own_gain; [intros d a d' _; revert d a d' |]; new_by insert_purchase_order; [solve_write | by apply mine_insert].
Qed.
End Inserts.

(** ** The operations *)

(** By the structure of the transaction. *)
Ltac solve_own :=
  repeat first
    [ solve [eauto 3 with own]
    | lazymatch goal with
      | |- Own _ _ (select_reservation _ _ ≫= _) => apply own_select_hold; [|intros ? ?]
      | |- Own _ _ (transfer_header _ _ ≫= _) => apply own_header; intros ? ?
      | |- Own _ _ (select_receipt _ _ ≫= _) => apply own_select_receipt; intros ? ?
      | |- Own _ _ (select_issue _ _ ≫= _) => apply own_select_issue; intros ? ?
      | |- Own _ _ (select_stocktake _ _ ≫= _) => apply own_select_take; intros ? ?
      | |- Own _ _ (select_purchase_order _ _ ≫= _) => apply own_select_order; intros ? ?
      | |- Own _ _ (select_supplier _ _ ≫= _) => apply own_select_supplier; intros ? ?
      | |- Own _ _ (insert_reservation _ _ ≫= _) => apply own_new_hold; [reflexivity | intros ?]
      | |- Own _ _ (insert_transfer _ _ ≫= _) => apply own_new_transfer; [reflexivity | intros ?]
      | |- Own _ _ (insert_receipt _ _ ≫= _) => apply own_new_receipt; [reflexivity | intros ?]
      | |- Own _ _ (insert_issue _ _ ≫= _) => apply own_new_issue; [reflexivity | intros ?]
      | |- Own _ _ (insert_stocktake _ _ ≫= _) => apply own_new_take; [reflexivity | intros ?]
      | |- Own _ _ (insert_purchase_order _ _ ≫= _) => apply own_new_order; [reflexivity | intros ?]
      | |- Own _ _ (modify (set_reservation _ _)) => apply own_hold; [auto with own | done]
      | |- Own _ _ (modify (set_supplier _ _)) => apply own_supplier; [auto with own | done]
      | |- Own _ _ (_ ≫= _) => apply own_bind; [|intros ?]
      | |- Own _ _ (for_each _ _ _) => apply own_each; intros ? ?
      | |- Own _ _ (match ?x with _ => _ end) => destruct x
      | |- Own _ _ (let _ := _ in _) => cbv zeta
      | |- Own _ _ ?m => unfold_head m; cbv beta
      end ].

Section Operations.
Context (t : string) (S : list doc).

Lemma own_move {R} (kind : DocKind R) id from to ex :
  (forall d r r' s, dk_table kind d !! as_uuid id = Some r -> dk_tenant kind r = t -> dk_with kind r s = Some r' ->
     confined t d (dk_set kind (as_uuid id) r' d)) -> Own t S (move kind t id from to ex).
Proof.
  intros Hk d a d' _ H. apply move_Ok in H as (r & r' & Hr & Ht & _ & _ & Hw & ->). by eapply Hk.
Qed.

Lemma own_move_receipt id from to ex : Own t S (move receipt_kind t id from to ex).
Proof.
  apply own_move. cbn. intros d r r' s Hr Ht Hw. unfold guarded in Hw. case_if_in Hw; [|done]. injection Hw as <-. solve_write.
Qed.

Lemma own_move_issue id from to ex : Own t S (move issue_kind t id from to ex).
Proof.
  apply own_move. cbn. intros d r r' s Hr Ht Hw. unfold guarded in Hw. case_if_in Hw; [|done]. injection Hw as <-. solve_write.
Qed.

Lemma own_move_transfer id from to ex : Own t S (move transfer_kind t id from to ex).
Proof.
  apply own_move. cbn. intros d r r' s Hr Ht Hw. apply fmap_Some in Hw as (s' & _ & ->). solve_write.
Qed.

Lemma own_move_take id from to ex : Own t S (move stocktake_kind t id from to ex).
Proof.
  apply own_move. cbn. intros d r r' s Hr Ht Hw. unfold guarded in Hw. case_if_in Hw; [|done]. injection Hw as <-. solve_write.
Qed.

Lemma own_move_order id from to ex : Own t S (move purchase_order_kind t id from to ex).
Proof.
  apply own_move. cbn. intros d r r' s Hr Ht Hw. unfold guarded in Hw. case_if_in Hw; [|done]. injection Hw as <-. solve_write.
Qed.

Lemma own_reserve lc sha key req uuid now : Own t S (reserveWarehouseStock lc sha t key req uuid now).
Proof. solve_own. Qed.
Lemma own_commit id f : Own t S (commitWarehouseReservation t id f).
Proof. solve_own. Qed.
Lemma own_release id : Own t S (releaseWarehouseReservation t id).
Proof. solve_own. Qed.
Lemma own_expire id now : Own t S (expireWarehouseReservation t id now).
Proof. solve_own. Qed.
Lemma own_create_transfer lc dto ca uuid : Own t S (createTransfer lc t dto ca uuid).
Proof. solve_own. Qed.
Lemma own_dispatch id : Own t S (dispatchTransfer t id).
Proof. solve_own. Qed.
Lemma own_receive id dto : Own t S (receiveTransfer t id dto).
Proof. solve_own. Qed.
Lemma own_cancel_transfer id : Own t S (cancelTransfer t id).
Proof. solve_own. Qed.
Lemma own_post_receipt id key : Own t S (postReceiptInTx t id key).
Proof. solve_own. Qed.
Lemma own_post_issue id key : Own t S (postIssueInTx t id key).
Proof. solve_own. Qed.
End Operations.

#[export] Hint Resolve own_move_receipt own_move_issue own_move_transfer own_move_take own_move_order
  own_cancel_transfer own_post_receipt own_post_issue : own.

Section MoreOperations.
Context (t : string) (S : list doc).

Lemma own_create_receipt lc dto key uuid : Own t S (createReceiptInTx lc t dto key uuid).
Proof. solve_own. Qed.
Lemma own_approve_receipt id : Own t S (approveReceipt t id).
Proof. solve_own. Qed.
Lemma own_create_issue lc dto key uuid : Own t S (createIssue lc t dto key uuid).
Proof. solve_own. Qed.
Lemma own_create_take dto uuid : Own t S (createStocktake t dto uuid).
Proof. solve_own. Qed.
Lemma own_counts id dto : Own t S (recordCounts t id dto).
Proof. solve_own. Qed.
Lemma own_approve_take id force : Own t S (approveStocktake t id force).
Proof. solve_own. Qed.
Lemma own_cancel id ca : Own t S (documents_cancelTransfer t id ca).
Proof. solve_own. Qed.
Lemma own_create_order lc dto uuid : Own t S (createPurchaseOrder lc t dto uuid).
Proof. solve_own. Qed.
Lemma own_approve_order id : Own t S (approvePurchaseOrder t id).
Proof. solve_own. Qed.
Lemma own_update_supplier id dto : Own t S (updateSupplier t id dto).
Proof. solve_own. Qed.
Lemma own_delete_supplier id : Own t S (deleteSupplier t id).
Proof. solve_own. Qed.
Lemma own_create_supplier dto uuid : Own t S (createSupplier t dto uuid).
Proof.
  intros d a d' _ H. unfold createSupplier in H. inv_tx. repeat (case_if_in H; [done|]). inv_tx.
  match goal with E : bool_decide (is_Some _) = false |- _ => apply bool_decide_eq_false, eq_None_not_Some in E end. solve_write.
Qed.
End MoreOperations.

#[export] Hint Resolve own_create_receipt : own.

Lemma own_receive_order lc t S id lines key uuid : Own t S (receivePurchaseOrder lc t id lines key uuid).
Proof. solve_own. Qed.

#[export] Hint Resolve own_reserve own_commit own_release own_expire own_create_transfer own_dispatch own_receive own_cancel
  own_approve_receipt own_create_issue own_create_take own_counts own_approve_take own_create_order own_approve_order
  own_update_supplier own_delete_supplier own_create_supplier own_receive_order : own.

(** ** Requests *)

(** The tenant a request belongs to: the job over all stores and a change of master
    data have none. *)
Definition request_tenant (r : request) : option string :=
  match r with
  | ExpireReservations _ _ | ChangeMasterData _ _ _ => None
  | ReserveStock t _ _ _ _ | CommitReservation t _ _ | ReleaseReservation t _ | ExpireReservationsOf t _ _
  | CreateTransfer t _ _ _ | DispatchTransfer t _ | ReceiveTransfer t _ _ | CancelTransfer t _ _
  | CreateReceipt t _ _ _ | PostReceipt t _ _ | SubmitReceipt t _ | ApproveReceipt t _ | RejectReceipt t _ | CancelReceipt t _
  | CreateIssue t _ _ _ | PostIssue t _ _ | CancelIssue t _
  | CreateStocktake t _ _ | RecordCounts t _ _ | ApproveStocktake t _ _ | CancelStocktake t _
  | CreatePurchaseOrder t _ _ | ApprovePurchaseOrder t _ | ReceivePurchaseOrder t _ _ _ _ | CancelPurchaseOrder t _
  | CreateSupplier t _ _ | UpdateSupplier t _ _ | DeleteSupplier t _ => Some t
  end.

Section Requests.
Lemma confined_job_of t now rows : Forall (fun e => e.2 = t) rows -> forall d n, confined t d (expire_rows now d n rows).1.
Proof.
  induction 1 as [|e rows He _ IH]; intros d n; [reflexivity|]. cbn [expire_rows]. rewrite He.
  destruct (expireWarehouseReservation t e.1 now d) as [[b d1]|] eqn:E; [|reflexivity].
  apply (own_expire t []) in E; [|constructor]. etransitivity; [exact E | apply IH].
Qed.

Lemma serve_confined lc sha d r t : request_tenant r = Some t -> confined t d (serve lc sha d r).
Proof.
  destruct r; cbn [request_tenant serve]; intros [= <-]; try (apply own_after; solve [solve_own]).
  apply confined_job_of, Forall_forall. intros e (x & -> & Hx)%list_elem_of_fmap. cbn.
  apply elem_of_take in Hx as (n & Hx%list_elem_of_lookup_2 & _). rewrite sort_by_perm in Hx.
  apply list_elem_of_In, filter_In in Hx as [_ Hx]. apply andb_prop in Hx as [_ Hx]. by apply String.eqb_eq.
Qed.
End Requests.

(** C29.  Tenants are isolated.  A request of one tenant, in any state and whatever
    ids it names (those of documents of other tenants included), leaves every row of
    the other tenants as it was and adds none to them: stock balances, holds,
    transfers, receipts, issues, stocktakes, purchase orders and suppliers; and every
    ledger entry it writes is the tenant's own. *)
Theorem tenants_are_isolated localeCompare sha256 d r t : request_tenant r = Some t ->
  let d' := serve localeCompare sha256 d r in
  (forall tenantId wh sku, tenantId <> t -> stock_balance d' !! (tenantId, wh, sku) = stock_balance d !! (tenantId, wh, sku)) /\
  (exists new, stock_balance_ledger d' = stock_balance_ledger d ++ new /\ Forall (fun e => (l_key e).1.1 = t) new) /\
  others_same r_tenant t (warehouse_reservation d) (warehouse_reservation d') /\
  others_same t_tenant t (stock_transfer d) (stock_transfer d') /\
  others_same rc_tenant t (stock_receipt d) (stock_receipt d') /\
  others_same is_tenant t (stock_issue d) (stock_issue d') /\
  others_same sk_tenant t (stock_take d) (stock_take d') /\
  others_same po_tenant t (purchase_order d) (purchase_order d') /\
  others_same su_tenant t (supplier d) (supplier d').
Proof.
  intros Hr d'. destruct (serve_confined localeCompare sha256 d r t Hr) as [H1 H2 H3 H4 H5 H6 H7 H8 H9].
  split_and!; [|exact H2 | by apply own_rows_others..]. intros tenantId wh sku Hne. by apply (H1 (tenantId, wh, sku)).
Qed.

(** Two stores: the first has a transfer on the road, the second a supplier. *)
Definition two_stores : db :=
  serve text_order sample_sha day (CreateSupplier "t2" {| csu_code := "MILL"; csu_name := "Mill"; csu_phone := None; csu_email := None;
    csu_address := None; csu_tax_code := None; csu_note := None |} "v2").

(** The first store receives its transfer, and the supplier of the second stays; the
    second store cannot receive or cancel the transfer of the first. *)
Lemma tenants_are_isolated_witness : exists v x,
  (supplier two_stores !! "v2" = Some v /\ su_tenant v = "t2" /\
   (t_status <$> stock_transfer (serve text_order sample_sha two_stores (ReceiveTransfer "t1" "x1" None)) !! "x1") = Some T_RECEIVED /\
   supplier (serve text_order sample_sha two_stores (ReceiveTransfer "t1" "x1" None)) !! "v2" = Some v) /\
  (stock_transfer two_stores !! "x1" = Some x /\ t_tenant x = "t1" /\ t_status x = T_DISPATCHED /\
   stock_transfer (serve text_order sample_sha two_stores (CancelTransfer "t2" "x1" true)) !! "x1" = Some x).
Proof.
  assert (Hv : exists v, supplier two_stores !! "v2" = Some v /\ su_tenant v = "t2") by (eexists; vm_compute; done).
  assert (Hx : exists x, stock_transfer two_stores !! "x1" = Some x /\ t_tenant x = "t1" /\ t_status x = T_DISPATCHED)
    by (eexists; vm_compute; done).
  destruct Hv as (v & Ev & Tv), Hx as (x & Ex & Tx & Sx). exists v, x.
  destruct (tenants_are_isolated text_order sample_sha two_stores (ReceiveTransfer "t1" "x1" None) "t1" eq_refl)
    as (_ & _ & _ & _ & _ & _ & _ & _ & H1).
  destruct (tenants_are_isolated text_order sample_sha two_stores (CancelTransfer "t2" "x1" true) "t2" eq_refl)
    as (_ & _ & _ & H2 & _).
  split; [split_and!; [exact Ev | exact Tv | vm_compute; reflexivity | apply H1; [by rewrite Tv | exact Ev]]|].
  split_and!; [exact Ex | exact Tx | exact Sx | apply H2; [by rewrite Tx | exact Ex]].
Defined.
