(* ===== verification/SalesMoney.v ===== *)
(** * Sales domain layer: errors, money and quantities

    The decimal-safe arithmetic helpers and the value objects of
    apps/sales/src/domain/sales-domain.ts: quantities in milli-units, whole-VND
    amounts, conversion factors and half-up rounded division. *)

From S2P Require Import Prelude JsNumber JsString.
From Stdlib Require Import Ascii.

Open Scope Z_scope.

Inductive SalesDomainErrorCode :=
| ORDER_NOT_FOUND | ORDER_INVALID_STATE | ORDER_ALREADY_COMPLETED | ORDER_ALREADY_CANCELLED
| PRODUCT_NOT_SELLABLE | PRICE_CHANGED | PRICE_NOT_CONFIGURED | INVALID_DISCOUNT
| DISCOUNT_APPROVAL_REQUIRED | INSUFFICIENT_STOCK | STOCK_RESERVATION_FAILED
| STOCK_RESERVATION_UNKNOWN | STOCK_COMMIT_PENDING | PAYMENT_NOT_CONFIRMED
| PAYMENT_AMOUNT_MISMATCH | PAYMENT_OUTCOME_UNKNOWN | SHIFT_NOT_FOUND | SHIFT_NOT_OPEN
| SHIFT_ALREADY_OPEN | SHIFT_ALREADY_CLOSED | SHIFT_HAS_PENDING_TRANSACTIONS | SHIFT_REQUIRED
| SHIFT_CLOSED | SHIFT_HAS_OPEN_DRAFTS | VARIANCE_REASON_REQUIRED | APPROVAL_REQUIRED
| APPROVER_IS_COUNTER | COUNT_REQUIRED | OPENING_FLOAT_NOTE_REQUIRED | CASH_SETTINGS_INVALID
| RETURN_WAREHOUSE_UNRESOLVED | PAYMENT_REFERENCE_REQUIRED | POS_DRAFT_NOT_FOUND
| POS_DRAFT_LIMIT_EXCEEDED | RETURN_NOT_FOUND | RETURN_NOT_ELIGIBLE | RETURN_QUANTITY_EXCEEDED
| REFUND_AMOUNT_EXCEEDED | REFUND_ALREADY_REQUESTED | COUPON_INVALID | COUPON_USAGE_LIMIT_EXCEEDED
| LOYALTY_HOLD_FAILED | CREDIT_AUTHORIZATION_FAILED | CREDIT_SERVICE_UNAVAILABLE
| FULFILLMENT_NOT_FOUND | FULFILLMENT_INVALID_STATE | CHANNEL_NOT_FOUND | REGISTER_NOT_FOUND
| REGISTER_EXISTS | EXPORT_TOO_LARGE | PAYMENT_EXCEEDS_DUE | IDEMPOTENCY_CONFLICT
| RESOURCE_VERSION_CONFLICT | TENANT_ACCESS_DENIED | PERMISSION_DENIED | UNKNOWN_BRANCH
| VALIDATION_ERROR.

#[export] Instance SalesDomainErrorCode_eq_dec : EqDecision SalesDomainErrorCode.
Proof. solve_decision. Defined.

Abbreviation res := (result SalesDomainErrorCode).
Abbreviation throw c st := (Throw (DomainError c st)).

Definition QTY_SCALE : Z := 1000.
Definition FACTOR_SCALE : Z := 10000.

(** ** Decimal strings *)

(** The match of [\d+(\.\d{1,k})?] on the whole string: integer and fraction digits. *)
Definition match_unsigned (k : nat) (raw : string) : option (string * string) :=
  let (d, r) := span_digits raw in
  if String.eqb d "" then None
  else match fraction k r with Some f => Some (d, f) | None => None end.

(** [(frac + '000').slice(0, 3)] and its four-digit variant. *)
Definition pad_fraction (k : nat) (f : string) : string :=
  String.substring 0 k (f +:+ srepeat k "0").

Definition parseQtyMillis (value : jsval) : res Z :=
  match match_unsigned 3 (trim (to_str value)) with
  | None => throw VALIDATION_ERROR 422
  | Some (intPart, fracPart) =>
      let r := digits_val intPart * QTY_SCALE + digits_val (pad_fraction 3 fracPart) in
      if r <=? 0 then throw VALIDATION_ERROR 422 else Ok r
  end.

Definition formatQtyMillis (millis : Z) : string :=
  let sign := if millis <? 0 then "-" else "" in
  let abs := if millis <? 0 then - millis else millis in
  let intPart := Z.quot abs QTY_SCALE in
  let fracPart := padStart 3 "0" (Z_string (Z.rem abs QTY_SCALE)) in
  sign +:+ Z_string intPart +:+ "." +:+ fracPart.

Definition parseConversionFactor (value : jsval) : res Z :=
  match value with
  | Undefined | Null | VStr "" => Ok FACTOR_SCALE
  | _ =>
      match match_unsigned 4 (trim (to_str value)) with
      | None => throw VALIDATION_ERROR 422
      | Some (intPart, fracPart) =>
          let r := digits_val intPart * FACTOR_SCALE + digits_val (pad_fraction 4 fracPart) in
          if r <=? 0 then throw VALIDATION_ERROR 422 else Ok r
      end
  end.

Definition computeBaseQtyMillis (qtyMillis factorTenThousands : Z) : Z :=
  let num := qtyMillis * factorTenThousands + Z.quot FACTOR_SCALE 2 in
  Z.quot num FACTOR_SCALE.

(** ** Money *)

Definition parseVndAmount (value : jsval) (allowZero : bool) : res Z :=
  if is_nullish value then (if allowZero then Ok 0 else throw VALIDATION_ERROR 422)
  else
    vnd ← match value with
          | VBig z => Ok z
          | VNum n => if isSafeInteger n then bigint_of_number n else throw VALIDATION_ERROR 422
          | _ => throw VALIDATION_ERROR 422
          end;
    if (vnd <? 0) || (negb allowZero && (vnd =? 0)) then throw VALIDATION_ERROR 422 else Ok vnd.

Definition vndNumber (amount : Z) : res number :=
  let n := number_of_bigint amount in
  if isSafeInteger n then Ok n else throw VALIDATION_ERROR 422.

Definition roundDivHalfUp (numerator denominator : Z) : res Z :=
  if denominator <=? 0 then Throw (JsError PlainError)
  else if 0 <=? numerator then Ok (half_up numerator denominator)
  else Ok (- half_up (- numerator) denominator).

(** ** Value objects *)

Record VndMoney := { amount : Z }.

Definition VndMoney_of (raw : jsval) (allowZero : bool) : res VndMoney :=
  v ← parseVndAmount raw allowZero; Ok {| amount := v |}.
Definition VndMoney_zero : VndMoney := {| amount := 0 |}.
Definition VndMoney_add (a b : VndMoney) : VndMoney := {| amount := amount a + amount b |}.
Definition VndMoney_subtract (a b : VndMoney) : res VndMoney :=
  let next := amount a - amount b in
  if next <? 0 then throw VALIDATION_ERROR 422 else Ok {| amount := next |}.
Definition VndMoney_equals (a b : VndMoney) : bool := amount a =? amount b.
Definition VndMoney_isPositive (a : VndMoney) : bool := 0 <? amount a.
Definition VndMoney_toString (a : VndMoney) : string := Z_string (amount a).

Record StockQuantity := { millis : Z }.

Definition StockQuantity_of (raw : jsval) : res StockQuantity :=
  m ← parseQtyMillis raw; Ok {| millis := m |}.
Definition StockQuantity_add (a b : StockQuantity) : StockQuantity := {| millis := millis a + millis b |}.
Definition StockQuantity_toBaseQuantity (a : StockQuantity) (conversionFactor : jsval) : res StockQuantity :=
  factor ← parseConversionFactor conversionFactor;
  Ok {| millis := computeBaseQtyMillis (millis a) factor |}.
Definition StockQuantity_equals (a b : StockQuantity) : bool := millis a =? millis b.
Definition StockQuantity_toString (a : StockQuantity) : string := formatQtyMillis (millis a).

Record DiscountPercentage := { value : number; basisPoints : Z }.

Definition DiscountPercentage_of (raw : jsval) : res DiscountPercentage :=
  let num := to_num raw in
  if negb (isFinite num) || nlt num (int 0) || nlt (int 100) num then throw INVALID_DISCOUNT 422
  else
    bps ← bigint_of_number (mathRound (nmul num (int 100)));
    Ok {| value := num; basisPoints := bps |}.

(** * Properties *)

Section Money.
Lemma parseVndAmount_nonneg v az m : parseVndAmount v az = Ok m -> 0 <= m.
Proof.
  unfold parseVndAmount. destruct (is_nullish v).
  - destruct az; intros H; inv_ok; lia.
  - intros H. inv_ok. run_ok H. bool_prop; lia.
Qed.

Lemma parseVndAmount_pos v m : parseVndAmount v false = Ok m -> 0 < m.
Proof.
  unfold parseVndAmount. destruct (is_nullish v); [discriminate|].
  intros H. inv_ok. run_ok H. bool_prop; lia.
Qed.

(** A money argument given as a JS number is read as that whole number. *)
Lemma parseVndAmount_int z az : 0 <= z <= MAX_SAFE_INTEGER -> (az = false -> z <> 0) ->
  parseVndAmount (VNum (int z)) az = Ok z.
Proof.
  intros Hz Haz. unfold parseVndAmount. cbn [is_nullish]. rewrite isSafeInteger_int.
  rewrite (proj2 (Z.leb_le _ _)) by lia. cbn.
  replace (z <? 0) with false by lia. destruct az; [done|]. specialize (Haz eq_refl).
  by replace (z =? 0) with false by lia.
Qed.

Lemma vndNumber_Ok z n : vndNumber z = Ok n -> n = int z /\ Z.abs z <= MAX_SAFE_INTEGER.
Proof.
  unfold vndNumber. rewrite number_of_bigint_isSafe. intros H. run_ok H. bool_prop.
  split; [by apply number_of_bigint_safe | done].
Qed.

Lemma vndNumber_safe z : Z.abs z <= MAX_SAFE_INTEGER -> vndNumber z = Ok (int z).
Proof.
  intros H. unfold vndNumber. rewrite number_of_bigint_isSafe.
  rewrite (proj2 (Z.leb_le _ _)) by done. by rewrite number_of_bigint_safe.
Qed.

Lemma parseQtyMillis_pos v m : parseQtyMillis v = Ok m -> 0 < m.
Proof.
  unfold parseQtyMillis. destruct (match_unsigned _ _) as [[i f]|]; [|discriminate].
  cbv zeta. intros H. run_ok H. bool_prop. lia.
Qed.

Lemma parseConversionFactor_pos v k : parseConversionFactor v = Ok k -> 0 < k.
Proof.
  assert (Hgen : forall s, match match_unsigned 4 s with
    | None => throw VALIDATION_ERROR 422
    | Some (intPart, fracPart) =>
        let r := digits_val intPart * FACTOR_SCALE + digits_val (pad_fraction 4 fracPart) in
        if r <=? 0 then throw VALIDATION_ERROR 422 else Ok r
    end = Ok k -> 0 < k).
  { intros s. destruct (match_unsigned 4 s) as [[i f]|]; [|discriminate].
    cbv zeta. intros H. run_ok H. bool_prop. lia. }
  unfold parseConversionFactor. destruct v as [| | b | n | z | [|c s]];
    try (intros; inv_ok; unfold FACTOR_SCALE; lia); apply Hgen.
Qed.

Lemma roundDiv_nonneg n d r : 0 <= n -> roundDivHalfUp n d = Ok r -> 0 < d /\ r = half_up n d.
Proof.
  unfold roundDivHalfUp. intros Hn H. run_ok H; bool_prop; [done | lia].
Qed.

Lemma roundDiv_Ok n d r : roundDivHalfUp n d = Ok r -> 0 < d /\ 2 * Z.abs (d * r - n) <= d.
Proof.
  unfold roundDivHalfUp. intros H. run_ok H; bool_prop; (split; [done|]).
  - pose proof (half_up_bounds n d ltac:(lia) ltac:(lia)); lia.
  - pose proof (half_up_bounds (- n) d ltac:(lia) ltac:(lia)); lia.
Qed.
End Money.

(** Rounded division is symmetric half-up rounding: for a positive divisor
    it always returns, within half a unit of the exact quotient, exact on exact
    multiples, odd in the numerator, and a non-positive divisor throws. *)
Theorem round_div_half_up_spec (n d : Z) :
  (d <= 0 -> roundDivHalfUp n d = Throw (JsError PlainError)) /\
  (0 < d -> exists r, roundDivHalfUp n d = Ok r /\ 2 * Z.abs (d * r - n) <= d /\
     roundDivHalfUp (- n) d = Ok (- r) /\
     (forall q, n = q * d -> r = q)).
Proof.
  split; intros Hd; unfold roundDivHalfUp.
  - by rewrite (proj2 (Z.leb_le d 0)).
  - rewrite (proj2 (Z.leb_gt d 0)) by done.
    assert (Hex : forall r q, n = q * d -> 2 * Z.abs (d * r - n) <= d -> r = q) by (intros; nia).
    destruct (Z.leb_spec 0 n), (Z.leb_spec 0 (- n)); try lia.
    + replace n with 0 by lia. exists 0. unfold half_up. rewrite Z.opp_0, Z.add_0_l.
      assert (Z.quot (Z.quot d 2) d = 0) as Hz.
      { apply Z.quot_small. rewrite Z.quot_div_nonneg by lia. split; [apply Z.div_pos; lia | apply Z.div_lt; lia]. }
      rewrite Hz. repeat split; [lia|]. intros q Hq. symmetry in Hq. apply Z.mul_eq_0 in Hq. lia.
    + exists (half_up n d). pose proof (half_up_bounds n d ltac:(lia) Hd).
      rewrite Z.opp_involutive. repeat split; [lia | intros q Hq; eapply Hex; [done | lia]].
    + exists (- half_up (- n) d). pose proof (half_up_bounds (- n) d ltac:(lia) Hd).
      rewrite Z.opp_involutive. repeat split; [lia | intros q Hq; eapply Hex; [done | lia]].
Qed.

Lemma round_div_half_up_witness :
  roundDivHalfUp 5 2 = Ok 3 /\ roundDivHalfUp (-5) 2 = Ok (-3) /\ roundDivHalfUp 5 0 = Throw (JsError PlainError).
Proof.
  split; [reflexivity|]. split.
  - destruct (proj2 (round_div_half_up_spec 5 2) ltac:(lia)) as (r & Hr & _ & Hn & _).
    injection Hr as <-. exact Hn.
  - exact (proj1 (round_div_half_up_spec 5 0) ltac:(lia)).
Defined.
