(* ===== verification/SalesPricing.v ===== *)
(** * Sales domain layer: pricing and the discount waterfall

    [calculateItemDiscount], [calculateOrderQuote] (line pricing, item
    discounts, order and promotion discount, pro-rata allocation with the
    residual on the last line, tax, totals) and [assertDiscountAuthority] of
    apps/sales/src/domain/sales-domain.ts. *)

From S2P Require Import Prelude JsNumber JsString SalesMoney.
From Stdlib Require Import QArith Ascii.

Open Scope Z_scope.

Inductive DiscountType := NONE | FIXED | PERCENT.

Inductive VariantStatus := ACTIVE | INACTIVE | ARCHIVED | DRAFT.

#[export] Instance VariantStatus_eq_dec : EqDecision VariantStatus.
Proof. solve_decision. Defined.

Record AuthoritativeCatalogVariant := {
  cv_variantId : string;
  cv_productId : string;
  cv_skuCode : string;
  cv_barcode : option string;
  cv_productName : string;
  cv_variantName : string;
  cv_unitCode : string;
  cv_conversionFactor : string;
  cv_unitPrice : number;
  cv_status : VariantStatus;
  cv_unitCostSnapshot : jsval }.

Record QuoteLineInput := {
  ql_variantId : string;
  ql_qty : jsval;
  ql_expectedUnitPrice : jsval;
  ql_discountType : option DiscountType;
  ql_discountValue : jsval;
  ql_taxRatePercent : jsval }.

Record QuoteOrderInput := {
  qo_lines : list QuoteLineInput;
  qo_orderDiscountType : option DiscountType;
  qo_orderDiscountValue : jsval;
  qo_promotionDiscountAmount : jsval;
  qo_shippingFee : jsval }.

Record CalculatedOrderLine := {
  lineNo : Z;
  variantId : string;
  productId : string;
  skuCode : string;
  productName : string;
  variantLabel : string;
  unitCode : string;
  conversionFactor : string;
  qty : string;
  baseQty : string;
  unitPrice : number;
  lineGross : number;
  itemDiscountType : DiscountType;
  itemDiscountValue : jsval;
  itemDiscountAmount : number;
  lineAfterItemDiscount : number;
  allocatedOrderDiscount : number;
  lineNet : number;
  taxRate : string;
  taxAmount : number;
  lineTotal : number;
  unitCostSnapshot : number }.

Record CalculatedOrderQuote := {
  q_lines : list CalculatedOrderLine;
  subtotal : number;
  itemDiscountTotal : number;
  orderDiscountType : DiscountType;
  orderDiscountValue : jsval;
  orderDiscountTotal : number;
  promotionDiscountTotal : number;
  totalDiscount : number;
  effectiveDiscountPercent : number;
  shippingFee : number;
  taxTotal : number;
  grandTotal : number;
  totalBaseQty : string }.

(** [v ?? d]. *)
Definition coalesce (v d : jsval) : jsval := if is_nullish v then d else v.

Definition calculateItemDiscount (lineGross : Z) (discountType : DiscountType) (discountValue : jsval) : res Z :=
  match discountType with
  | NONE => Ok 0
  | FIXED =>
      if is_nullish discountValue then Ok 0
      else
        fixed ← parseVndAmount discountValue true;
        if lineGross <? fixed then throw INVALID_DISCOUNT 422 else Ok fixed
  | PERCENT =>
      if is_nullish discountValue then Ok 0
      else
        match discountValue with
        | VNum num =>
            if negb (isFinite num) || nlt num (int 0) || nlt (int 100) num then throw INVALID_DISCOUNT 422
            else
              basisPoints ← bigint_of_number (mathRound (nmul num (int 100)));
              roundDivHalfUp (lineGross * basisPoints) 10000
        | _ => throw INVALID_DISCOUNT 422
        end
  end.

(** ** Line pricing *)

Record IntermediateLine := {
  il_lineNo : Z;
  il_catalog : AuthoritativeCatalogVariant;
  il_qtyMillis : Z;
  il_baseQtyMillis : Z;
  il_unitPriceVnd : Z;
  il_lineGrossVnd : Z;
  il_itemDiscountType : DiscountType;
  il_itemDiscountValue : jsval;
  il_itemDiscountVnd : Z;
  il_lineAfterItemDiscountVnd : Z;
  il_allocatedOrderDiscountVnd : Z;
  il_taxRateBps : Z;
  il_taxRateStr : string }.

(** The price guard: a caller's expected unit price must be the catalog's. *)
Definition check_expected_price (expected : jsval) (unitPriceVnd : Z) : res unit :=
  if is_nullish expected then Ok tt
  else
    expectedVnd ← parseVndAmount expected false;
    if negb (expectedVnd =? unitPriceVnd) then
      (* the details of the error convert both prices with vndNumber *)
      _ ← vndNumber expectedVnd;
      _ ← vndNumber unitPriceVnd;
      throw PRICE_CHANGED 409
    else Ok tt.

(** One turn of the pricing loop: the intermediate line of [reqLine]. *)
Definition price_line (catalogMap : gmap string AuthoritativeCatalogVariant) (no : Z)
    (reqLine : QuoteLineInput) : res IntermediateLine :=
  match catalogMap !! ql_variantId reqLine with
  | None => throw PRICE_NOT_CONFIGURED 404
  | Some catalog =>
      if negb (bool_decide (cv_status catalog = ACTIVE)) then throw PRODUCT_NOT_SELLABLE 409
      else
        unitPriceVnd ← parseVndAmount (VNum (cv_unitPrice catalog)) false;
        _ ← check_expected_price (ql_expectedUnitPrice reqLine) unitPriceVnd;
        qtyMillis ← parseQtyMillis (ql_qty reqLine);
        factor ← parseConversionFactor (VStr (cv_conversionFactor catalog));
        let baseQtyMillis := computeBaseQtyMillis qtyMillis factor in
        lineGrossVnd ← roundDivHalfUp (qtyMillis * unitPriceVnd) QTY_SCALE;
        let discountType := default NONE (ql_discountType reqLine) in
        itemDiscountVnd ← calculateItemDiscount lineGrossVnd discountType (ql_discountValue reqLine);
        let taxRateNum :=
          match ql_taxRatePercent reqLine with Undefined => int 0 | v => to_num v end in
        if negb (isFinite taxRateNum) || nlt taxRateNum (int 0) || nlt (int 100) taxRateNum
        then throw VALIDATION_ERROR 422
        else
          taxRateBps ← bigint_of_number (mathRound (nmul taxRateNum (int 100)));
          Ok {| il_lineNo := no; il_catalog := catalog; il_qtyMillis := qtyMillis;
                il_baseQtyMillis := baseQtyMillis; il_unitPriceVnd := unitPriceVnd;
                il_lineGrossVnd := lineGrossVnd; il_itemDiscountType := discountType;
                il_itemDiscountValue := coalesce (ql_discountValue reqLine) (VNum (int 0));
                il_itemDiscountVnd := itemDiscountVnd;
                il_lineAfterItemDiscountVnd := lineGrossVnd - itemDiscountVnd;
                il_allocatedOrderDiscountVnd := 0;
                il_taxRateBps := taxRateBps; il_taxRateStr := toFixed2 taxRateNum |}
  end.

(** The accumulators of the pricing loop. *)
Record PricingState := {
  ps_interLines : list IntermediateLine;
  ps_subtotalVnd : Z;
  ps_itemDiscountTotalVnd : Z;
  ps_totalBaseQtyMillis : Z }.

Definition price_step (catalogMap : gmap string AuthoritativeCatalogVariant) (st : PricingState)
    (reqLine : QuoteLineInput) : res PricingState :=
  line ← price_line catalogMap (Z.of_nat (length (ps_interLines st)) + 1) reqLine;
  Ok {| ps_interLines := ps_interLines st ++ [line];
        ps_subtotalVnd := ps_subtotalVnd st + il_lineGrossVnd line;
        ps_itemDiscountTotalVnd := ps_itemDiscountTotalVnd st + il_itemDiscountVnd line;
        ps_totalBaseQtyMillis := ps_totalBaseQtyMillis st + il_baseQtyMillis line |}.

Definition price_lines (catalogMap : gmap string AuthoritativeCatalogVariant) (lines : list QuoteLineInput)
    : res PricingState :=
  foldM (price_step catalogMap) {| ps_interLines := []; ps_subtotalVnd := 0;
    ps_itemDiscountTotalVnd := 0; ps_totalBaseQtyMillis := 0 |} lines.

(** ** Pro-rata allocation of the order discount *)

Definition set_allocated (l : IntermediateLine) (a : Z) : IntermediateLine :=
  {| il_lineNo := il_lineNo l; il_catalog := il_catalog l; il_qtyMillis := il_qtyMillis l;
     il_baseQtyMillis := il_baseQtyMillis l; il_unitPriceVnd := il_unitPriceVnd l;
     il_lineGrossVnd := il_lineGrossVnd l; il_itemDiscountType := il_itemDiscountType l;
     il_itemDiscountValue := il_itemDiscountValue l; il_itemDiscountVnd := il_itemDiscountVnd l;
     il_lineAfterItemDiscountVnd := il_lineAfterItemDiscountVnd l;
     il_allocatedOrderDiscountVnd := a; il_taxRateBps := il_taxRateBps l; il_taxRateStr := il_taxRateStr l |}.

(** The allocation loop: shares for the lines with a positive amount left, their
    sum, and the index of the last such line. *)
Definition share_step (combined net : Z) (st : list IntermediateLine * Z * option nat) (l : IntermediateLine)
    : res (list IntermediateLine * Z * option nat) :=
  let '(done, allocatedSum, lastPositiveIdx) := st in
  if 0 <? il_lineAfterItemDiscountVnd l then
    share ← roundDivHalfUp (combined * il_lineAfterItemDiscountVnd l) net;
    Ok (done ++ [set_allocated l share], allocatedSum + share, Some (length done))
  else Ok (done ++ [l], allocatedSum, lastPositiveIdx).

Definition allocate_discount (lines : list IntermediateLine) (combined net : Z) : res (list IntermediateLine) :=
  if (0 <? combined) && (0 <? net) then
    st ← foldM (share_step combined net) ([], 0, None) lines;
    let '(shared, allocatedSum, lastPositiveIdx) := st in
    let residual := combined - allocatedSum in
    match lastPositiveIdx with
    | Some i =>
        if negb (residual =? 0)
        then Ok (alter (fun l => set_allocated l (il_allocatedOrderDiscountVnd l + residual)) i shared)
        else Ok shared
    | None => Ok shared
    end
  else Ok lines.

(** ** The priced lines and the totals *)

Definition line_net (l : IntermediateLine) : Z :=
  il_lineAfterItemDiscountVnd l - il_allocatedOrderDiscountVnd l.

(** [s || d] on strings. *)
Definition or_default (s d : string) : string := if String.eqb s "" then d else s.

Definition finish_line (taxTotal : Z) (l : IntermediateLine) : res (CalculatedOrderLine * Z) :=
  let lineNetVnd := line_net l in
  taxAmountVnd ← roundDivHalfUp (lineNetVnd * il_taxRateBps l) 10000;
  let lineTotalVnd := lineNetVnd + taxAmountVnd in
  unitPriceN ← vndNumber (il_unitPriceVnd l);
  grossN ← vndNumber (il_lineGrossVnd l);
  discN ← vndNumber (il_itemDiscountVnd l);
  afterN ← vndNumber (il_lineAfterItemDiscountVnd l);
  allocN ← vndNumber (il_allocatedOrderDiscountVnd l);
  netN ← vndNumber lineNetVnd;
  taxN ← vndNumber taxAmountVnd;
  totalN ← vndNumber lineTotalVnd;
  cost ← parseVndAmount (cv_unitCostSnapshot (il_catalog l)) true;
  costN ← vndNumber cost;
  let c := il_catalog l in
  Ok ({| lineNo := il_lineNo l; variantId := cv_variantId c; productId := cv_productId c;
         skuCode := cv_skuCode c; productName := cv_productName c; variantLabel := cv_variantName c;
         unitCode := or_default (cv_unitCode c) "PCS";
         conversionFactor := or_default (cv_conversionFactor c) "1.0000";
         qty := formatQtyMillis (il_qtyMillis l); baseQty := formatQtyMillis (il_baseQtyMillis l);
         unitPrice := unitPriceN; lineGross := grossN;
         itemDiscountType := il_itemDiscountType l; itemDiscountValue := il_itemDiscountValue l;
         itemDiscountAmount := discN; lineAfterItemDiscount := afterN; allocatedOrderDiscount := allocN;
         lineNet := netN; taxRate := il_taxRateStr l; taxAmount := taxN; lineTotal := totalN;
         unitCostSnapshot := costN |}, taxTotal + taxAmountVnd).

Definition finish_step (st : list CalculatedOrderLine * Z) (l : IntermediateLine)
    : res (list CalculatedOrderLine * Z) :=
  r ← finish_line st.2 l; Ok (st.1 ++ [r.1], r.2).

Definition effective_percent (totalDiscountVnd subtotalVnd : Z) : number :=
  if 0 <? subtotalVnd
  then ndiv (number_of_string (Z_string (Z.quot (totalDiscountVnd * 10000) subtotalVnd))) (int 100)
  else int 0.

Definition calculateOrderQuote (input : QuoteOrderInput)
    (catalogMap : gmap string AuthoritativeCatalogVariant) : res CalculatedOrderQuote :=
  match qo_lines input with
  | [] => throw VALIDATION_ERROR 422
  | _ =>
      ps ← price_lines catalogMap (qo_lines input);
      let netAfterItemDiscounts := ps_subtotalVnd ps - ps_itemDiscountTotalVnd ps in
      let discountType := default NONE (qo_orderDiscountType input) in
      rawOrderDiscountVnd ← calculateItemDiscount netAfterItemDiscounts discountType (qo_orderDiscountValue input);
      promoDiscountVnd ← parseVndAmount (qo_promotionDiscountAmount input) true;
      if netAfterItemDiscounts <? rawOrderDiscountVnd + promoDiscountVnd then throw INVALID_DISCOUNT 422
      else
        let combined := rawOrderDiscountVnd + promoDiscountVnd in
        lines ← allocate_discount (ps_interLines ps) combined netAfterItemDiscounts;
        fin ← foldM finish_step ([], 0) lines;
        let '(calculatedLines, taxTotalVnd) := fin in
        shippingFeeVnd ← parseVndAmount (qo_shippingFee input) true;
        let totalDiscountVnd := ps_itemDiscountTotalVnd ps + combined in
        let grandTotalVnd := ps_subtotalVnd ps - totalDiscountVnd + taxTotalVnd + shippingFeeVnd in
        subtotalN ← vndNumber (ps_subtotalVnd ps);
        itemN ← vndNumber (ps_itemDiscountTotalVnd ps);
        orderN ← vndNumber rawOrderDiscountVnd;
        promoN ← vndNumber promoDiscountVnd;
        totalN ← vndNumber totalDiscountVnd;
        shipN ← vndNumber shippingFeeVnd;
        taxN ← vndNumber taxTotalVnd;
        grandN ← vndNumber grandTotalVnd;
        Ok {| q_lines := calculatedLines; subtotal := subtotalN; itemDiscountTotal := itemN;
              orderDiscountType := discountType;
              orderDiscountValue := coalesce (qo_orderDiscountValue input) (VNum (int 0));
              orderDiscountTotal := orderN; promotionDiscountTotal := promoN; totalDiscount := totalN;
              effectiveDiscountPercent := effective_percent totalDiscountVnd (ps_subtotalVnd ps);
              shippingFee := shipN; taxTotal := taxN; grandTotal := grandN;
              totalBaseQty := formatQtyMillis (ps_totalBaseQtyMillis ps) |}
  end.

(** ** Discount authority *)

Definition ROLE_MAX_DISCOUNT_PERCENT : list (string * Z) :=
  [("owner", 100); ("branch_manager", 30); ("sales_staff", 10); ("manager", 30); ("cashier", 10)].

(** [ROLE_MAX_DISCOUNT_PERCENT[roleKey] ?? 10] as the right operand of [>]: the
    two lower-case names every object inherits give an object, which compares
    as [NaN]. *)
Definition role_limit (roleKey : string) : number :=
  match mget roleKey ROLE_MAX_DISCOUNT_PERCENT with
  | Some p => int p
  | None =>
      if String.eqb roleKey "constructor" || String.eqb roleKey "__proto__" then NaN else int 10
  end.

Definition includes (l : list string) (s : string) : bool := existsb (String.eqb s) l.

Definition assertDiscountAuthority (effective : number) (role : option string) (permissions : list string) : res unit :=
  if nle effective (int 0) then Ok tt
  else if includes permissions "*" || includes permissions "sales.pos.discount.override" then Ok tt
  else
    let roleKey := toLowerCase (default "sales_staff" role) in
    if nlt (role_limit roleKey) effective then throw DISCOUNT_APPROVAL_REQUIRED 403 else Ok tt.

(** * Properties *)

Lemma vndNumber_nval z n : vndNumber z = Ok n -> nval n = z.
Proof. by intros [-> _]%vndNumber_Ok. Qed.

Section Discount.
Lemma basis_points_Ok num bps :
  (negb (isFinite num) || nlt num (int 0) || nlt (int 100) num) = false ->
  bigint_of_number (mathRound (nmul num (int 100))) = (Ok bps : res Z) -> 0 <= bps <= 10000.
Proof.
  intros Hn H. bool_prop. destruct (basis_points_range num) as (bp & Hbp & Hr); [done..|].
  rewrite Hbp in H. cbn in H. by injection H as <-.
Qed.

Lemma item_discount_bounds g t v d : 0 <= g -> calculateItemDiscount g t v = Ok d -> 0 <= d <= g.
Proof.
  intros Hg. unfold calculateItemDiscount. destruct t.
  - intros H; inv_ok. lia.
  - destruct (is_nullish v); intros H; [inv_ok; lia|]. inv_ok. run_ok H. bool_prop.
    apply parseVndAmount_nonneg in Ha. lia.
  - destruct (is_nullish v); intros H; [inv_ok; lia|]. destruct v; try discriminate.
    case_if_in H; [discriminate|]. inv_ok. pose proof (basis_points_Ok _ _ E Ha).
    apply roundDiv_nonneg in H as [_ ->]; [|nia].
    split; [apply half_up_nonneg; nia | apply half_up_le; nia].
Qed.
End Discount.

(** What the pricing loop establishes of an intermediate line. *)
Definition line_ok (l : IntermediateLine) : Prop :=
  0 <= il_itemDiscountVnd l <= il_lineGrossVnd l /\
  il_lineAfterItemDiscountVnd l = il_lineGrossVnd l - il_itemDiscountVnd l /\
  il_allocatedOrderDiscountVnd l = 0 /\ 0 <= il_taxRateBps l <= 10000.

Lemma price_line_ok cat no req l : price_line cat no req = Ok l -> line_ok l /\ il_lineNo l = no.
Proof.
  unfold price_line. destruct (cat !! _) as [c|]; [|discriminate]. intros H.
  case_if_in H; [discriminate|]. inv_ok. case_if_in H; [discriminate|]. inv_ok.
  unfold line_ok. cbn.
  assert (0 <= a3).
  { apply parseVndAmount_pos in Ha. apply parseQtyMillis_pos in Ha1.
    apply roundDiv_nonneg in Ha3 as [_ ->]; [apply half_up_nonneg; unfold QTY_SCALE; nia | nia]. }
  pose proof (item_discount_bounds _ _ _ _ ltac:(done) Ha4).
  pose proof (basis_points_Ok _ _ E0 Ha5). repeat split; (done || lia).
Qed.

(** The accumulators agree with the lines priced so far. *)
Definition pricing_ok (st : PricingState) : Prop :=
  Forall line_ok (ps_interLines st) /\
  ps_subtotalVnd st = total il_lineGrossVnd (ps_interLines st) /\
  ps_itemDiscountTotalVnd st = total il_itemDiscountVnd (ps_interLines st).

Lemma price_lines_ok cat lines ps : price_lines cat lines = Ok ps ->
  pricing_ok ps /\ length (ps_interLines ps) = length lines.
Proof.
  unfold price_lines. intros H.
  apply (foldM_ind (fun done st => pricing_ok st /\ length (ps_interLines st) = length done)) in H;
    [done| |by split; [split|]].
  intros done req st st' [(Hf & Hs & Hd) Hl] Hst. unfold price_step in Hst. inv_ok.
  apply price_line_ok in Ha as [Hok _].
  unfold pricing_ok. cbn. rewrite !total_snoc, !length_app, Hl, Hs, Hd. cbn.
  repeat split; try lia. apply Forall_app; split; [done | by constructor].
Qed.

(** ** The allocation *)

(** [b] is [a] up to its allocated discount. *)
Definition same_line (a b : IntermediateLine) : Prop := b = set_allocated a (il_allocatedOrderDiscountVnd b).

Lemma set_allocated_same a x : same_line a (set_allocated a x).
Proof. done. Qed.

Lemma same_line_refl a : same_line a a.
Proof. by destruct a. Qed.

(** The deviation of a line from its exact pro-rata share, times [net]. *)
Definition deviation (combined net : Z) (l : IntermediateLine) : Z :=
  net * il_allocatedOrderDiscountVnd l - combined * il_lineAfterItemDiscountVnd l.

Definition share_inv (combined net : Z) (done : list IntermediateLine)
    (st : list IntermediateLine * Z * option nat) : Prop :=
  let '(shared, s, last) := st in
  Forall2 same_line done shared /\ s = total il_allocatedOrderDiscountVnd shared /\
  Forall (fun l => 0 <= il_allocatedOrderDiscountVnd l <= il_lineAfterItemDiscountVnd l /\
                   2 * Z.abs (deviation combined net l) <= net) shared /\
  match last with
  | Some i => exists l, shared !! i = Some l /\ 0 < il_lineAfterItemDiscountVnd l
  | None => total il_lineAfterItemDiscountVnd done <= 0
  end.

Lemma share_step_inv combined net done l st : 0 <= combined <= net -> 0 < net ->
  0 <= il_lineAfterItemDiscountVnd l -> il_allocatedOrderDiscountVnd l = 0 ->
  share_inv combined net done st ->
  exists st', share_step combined net st l = Ok st' /\ share_inv combined net (done ++ [l]) st'.
Proof.
  destruct st as [[shared s] last]. intros Hc Hn Hl Ha (Hsame & Hs & Hf & Hlast). unfold share_step.
  destruct (Z.ltb_spec 0 (il_lineAfterItemDiscountVnd l)) as [Hpos|Hz].
  - unfold roundDivHalfUp. rewrite (proj2 (Z.leb_gt net 0)), (proj2 (Z.leb_le 0 _)) by nia.
    set (h := half_up _ _). eexists; split; [reflexivity|]. unfold share_inv.
    pose proof (half_up_bounds (combined * il_lineAfterItemDiscountVnd l) net ltac:(nia) Hn) as Hb. fold h in Hb.
    assert (0 <= h) by (apply half_up_nonneg; nia).
    assert (h <= il_lineAfterItemDiscountVnd l) by (apply half_up_le; nia).
    split; [|split; [|split]].
    + apply Forall2_app; [done|]. constructor; [apply set_allocated_same | constructor].
    + rewrite total_snoc. cbn. lia.
    + apply Forall_app; split; [done|]. constructor; [|constructor]. unfold deviation. cbn. lia.
    + eexists; split; [by apply list_lookup_middle | done].
  - eexists; split; [done|]. unfold share_inv. split; [|split; [|split]].
    + apply Forall2_app; [done|]. constructor; [apply same_line_refl | constructor].
    + rewrite total_snoc. lia.
    + apply Forall_app; split; [done|]. constructor; [|constructor]. unfold deviation. nia.
    + destruct last as [i|]; [|rewrite total_snoc; lia].
      destruct Hlast as (x & Hx & ?). exists x. split; [by apply lookup_app_l_Some | done].
Qed.

Lemma share_loop combined net lines : 0 <= combined <= net -> 0 < net ->
  Forall (fun l => 0 <= il_lineAfterItemDiscountVnd l /\ il_allocatedOrderDiscountVnd l = 0) lines ->
  exists st, foldM (share_step combined net) ([], 0, None) lines = Ok st /\ share_inv combined net lines st.
Proof.
  intros Hc Hn. induction lines as [|l lines IH] using rev_ind; intros Hf.
  - eexists; split; [done|]. unfold share_inv. repeat split; (done || constructor).
  - apply Forall_app in Hf as [Hf Hl]. destruct (IH Hf) as (st & Hst & Hinv).
    inversion Hl as [|? ? [H1 H2] _]; subst.
    destruct (share_step_inv combined net lines l st Hc Hn H1 H2 Hinv) as (st' & Hst' & Hinv').
    exists st'. rewrite foldM_app, Hst. cbn. rewrite Hst'. done.
Qed.

Lemma total_deviation combined net lines : total (deviation combined net) lines =
  net * total il_allocatedOrderDiscountVnd lines - combined * total il_lineAfterItemDiscountVnd lines.
Proof. unfold total. induction lines; cbn in *; [lia|]. rewrite IHlines. unfold deviation. lia. Qed.

Lemma same_line_after a b : same_line a b -> il_lineAfterItemDiscountVnd b = il_lineAfterItemDiscountVnd a.
Proof. unfold same_line. by intros ->. Qed.

Lemma total_after_same l l' : Forall2 same_line l l' ->
  total il_lineAfterItemDiscountVnd l' = total il_lineAfterItemDiscountVnd l.
Proof. unfold total. induction 1; cbn; [done|]. rewrite (same_line_after _ _ H). lia. Qed.

(** The allocation in full: it always returns; the residual goes to one line. *)
Lemma allocate_discount_spec lines combined net : 0 < combined <= net ->
  net = total il_lineAfterItemDiscountVnd lines ->
  Forall (fun l => 0 <= il_lineAfterItemDiscountVnd l /\ il_allocatedOrderDiscountVnd l = 0) lines ->
  exists lines' last, allocate_discount lines combined net = Ok lines' /\
    Forall2 same_line lines lines' /\ total il_allocatedOrderDiscountVnd lines' = combined /\
    forall i l, lines' !! i = Some l ->
      (i <> last -> 0 <= il_allocatedOrderDiscountVnd l <= il_lineAfterItemDiscountVnd l /\
                    2 * Z.abs (deviation combined net l) <= net) /\
      (i = last -> 2 * Z.abs (deviation combined net l) <= net * (Z.of_nat (length lines) - 1)).
Proof.
  intros Hc Hnet Hf. unfold allocate_discount.
  rewrite (proj2 (Z.ltb_lt 0 combined)), (proj2 (Z.ltb_lt 0 net)) by lia.
  destruct (share_loop combined net lines) as ([[shared s] last] & -> & Hsame & Hs & Hok & Hlast); [lia|lia|done|].
  cbn [mbind result_bind andb]. destruct last as [i|]; [|lia]. destruct Hlast as (x & Hx & Hxpos).
  pose proof (total_deviation combined net shared) as Hdev.
  rewrite (total_after_same _ _ Hsame), <- Hnet, <- Hs in Hdev.
  assert (Hexc : 2 * Z.abs (total (deviation combined net) shared - deviation combined net x)
                 <= net * (Z.of_nat (length lines) - 1)).
  { rewrite (Forall2_length _ _ _ Hsame), <- (length_map (deviation combined net) shared).
    apply (sumZ_except_bound _ i); [lia| |].
    - rewrite list_lookup_fmap, Hx. done.
    - apply Forall_map. eapply Forall_impl; [exact Hok|]. by intros ? [_ ?]. }
  set (g := fun l => set_allocated l (il_allocatedOrderDiscountVnd l + (combined - s))).
  assert (Hres : (if negb (combined - s =? 0) then Ok (alter g i shared) else Ok shared) = Ok (alter g i shared) :> res _).
  { destruct (Z.eqb_spec (combined - s) 0) as [He|]; [|done]. cbn. f_equal.
    symmetry. apply list_eq. intros j. destruct (decide (i = j)) as [<-|].
    - rewrite list_lookup_alter_eq, Hx. cbn. f_equal. unfold g. rewrite He, Z.add_0_r. by destruct x.
    - by rewrite list_lookup_alter_ne. }
  rewrite Hres. exists (alter g i shared), i. split; [done|].
  split; [|split].
  - apply Forall2_same_length_lookup. split; [by rewrite length_alter, (Forall2_length _ _ _ Hsame)|].
    intros j a b Hj Hb. destruct (decide (i = j)) as [<-|].
    + rewrite list_lookup_alter_eq, Hx in Hb. injection Hb as <-.
      pose proof (Forall2_lookup_lr _ _ _ _ _ _ Hsame Hj Hx) as Hab. unfold same_line in *. rewrite Hab. done.
    + rewrite list_lookup_alter_ne in Hb by done. eapply Forall2_lookup_lr; eauto.
  - unfold total. rewrite (sumZ_map_alter _ _ _ _ _ Hx). fold (total il_allocatedOrderDiscountVnd shared).
    rewrite <- Hs. cbn. lia.
  - intros j l Hj. destruct (decide (i = j)) as [<-|Hne].
    + split; [done|]. intros _. rewrite list_lookup_alter_eq, Hx in Hj. injection Hj as <-.
      unfold deviation in *. cbn. lia.
    + rewrite list_lookup_alter_ne in Hj by done. split; [|by intros ->].
      intros _. rewrite Forall_lookup in Hok. by apply (Hok j).
Qed.

(** ** The finished quote *)

(** A finished line carries the whole numbers of its intermediate line. *)
Definition finished (l : IntermediateLine) (o : CalculatedOrderLine) : Prop :=
  lineGross o = int (il_lineGrossVnd l) /\ itemDiscountAmount o = int (il_itemDiscountVnd l) /\
  lineAfterItemDiscount o = int (il_lineAfterItemDiscountVnd l) /\
  allocatedOrderDiscount o = int (il_allocatedOrderDiscountVnd l) /\
  lineNet o = int (line_net l) /\ lineTotal o = int (line_net l + nval (taxAmount o)) /\
  2 * Z.abs (10000 * nval (taxAmount o) - line_net l * il_taxRateBps l) <= 10000.

Lemma finish_line_ok t l o t' : finish_line t l = Ok (o, t') -> finished l o /\ t' = t + nval (taxAmount o).
Proof.
  unfold finish_line, finished. intros H. inv_ok.
  repeat match goal with Hv : vndNumber _ = Ok _ |- _ => apply vndNumber_Ok in Hv as [-> _] end.
  apply roundDiv_Ok in Ha as [_ Ha]. cbn. repeat split; (done || lia).
Qed.

Lemma finish_lines_ok lines out t : foldM finish_step ([], 0) lines = Ok (out, t) ->
  Forall2 finished lines out /\ t = total (fun o => nval (taxAmount o)) out.
Proof.
  intros H. apply (foldM_ind (fun done st => Forall2 finished done st.1 /\
    st.2 = total (fun o => nval (taxAmount o)) st.1)) in H; [done| |split; [constructor | done]].
  clear. intros done l [out t] [out' t'] [Hf Ht] H. unfold finish_step in H.
  apply bind_Ok in H as ([o t1] & Ha & H). injection H as <- <-.
  apply finish_line_ok in Ha as [Ho ->]. cbn in *. subst t. split.
  - apply Forall2_app; [done | by constructor].
  - by rewrite total_snoc.
Qed.

Lemma total_finished (f : CalculatedOrderLine -> Z) (g : IntermediateLine -> Z) lines out :
  (forall l o, finished l o -> f o = g l) -> Forall2 finished lines out -> total f out = total g lines.
Proof. intros Hfg. unfold total. induction 1; cbn; [done|]. rewrite (Hfg _ _ H). lia. Qed.

Lemma total_same (g : IntermediateLine -> Z) lines lines' :
  (forall a x, g (set_allocated a x) = g a) -> Forall2 same_line lines lines' -> total g lines' = total g lines.
Proof.
  intros Hg. unfold total. induction 1 as [|a b ? ? Hab]; cbn; [done|].
  rewrite Hab, Hg. lia.
Qed.

Lemma total_line_ok lines : Forall line_ok lines ->
  total il_lineAfterItemDiscountVnd lines = total il_lineGrossVnd lines - total il_itemDiscountVnd lines /\
  0 <= total il_itemDiscountVnd lines <= total il_lineGrossVnd lines /\
  total il_allocatedOrderDiscountVnd lines = 0.
Proof.
  unfold total. induction 1 as [|l ls (H1 & H2 & H3 & _) _ IH]; cbn; lia.
Qed.

(** The allocation as [calculateOrderQuote] uses it, whether or not there is a discount. *)
Lemma allocate_discount_Ok lines combined lines' : Forall line_ok lines ->
  let net := total il_lineAfterItemDiscountVnd lines in
  0 <= combined <= net -> allocate_discount lines combined net = Ok lines' ->
  Forall2 same_line lines lines' /\ total il_allocatedOrderDiscountVnd lines' = combined.
Proof.
  intros Hok net Hc H. destruct (Z.eq_dec combined 0) as [->|].
  - unfold allocate_discount in H. cbn in H. inv_ok. split; [|by apply total_line_ok].
    apply Forall2_same_length_lookup; split; [done|]. intros i a b Ha Hb.
    rewrite Ha in Hb. injection Hb as <-. apply same_line_refl.
  - destruct (allocate_discount_spec lines combined net) as (l' & last & H' & Hs & Ht & _); [lia|done| |].
    + eapply Forall_impl; [exact Hok|]. intros l (? & ? & ? & ?). lia.
    + rewrite H in H'. injection H' as <-. done.
Qed.

(** Everything a successful quote computes, in terms of its intermediate lines. *)
Lemma quote_inv input cat q : calculateOrderQuote input cat = Ok q ->
  exists lines0 lines order promo ship,
    Forall line_ok lines0 /\ length lines0 = length (qo_lines input) /\
    Forall2 same_line lines0 lines /\ Forall2 finished lines (q_lines q) /\
    total il_allocatedOrderDiscountVnd lines = order + promo /\
    0 <= order /\ 0 <= promo /\ 0 <= ship /\
    order + promo <= total il_lineGrossVnd lines0 - total il_itemDiscountVnd lines0 /\
    subtotal q = int (total il_lineGrossVnd lines0) /\
    itemDiscountTotal q = int (total il_itemDiscountVnd lines0) /\
    orderDiscountTotal q = int order /\ promotionDiscountTotal q = int promo /\
    totalDiscount q = int (total il_itemDiscountVnd lines0 + (order + promo)) /\
    shippingFee q = int ship /\ taxTotal q = int (total (fun o => nval (taxAmount o)) (q_lines q)) /\
    grandTotal q = int (nval (subtotal q) - nval (totalDiscount q) + nval (taxTotal q) + ship) /\
    effectiveDiscountPercent q = effective_percent (nval (totalDiscount q)) (nval (subtotal q)).
Proof.
  unfold calculateOrderQuote. intros H. destruct (qo_lines input) eqn:El; [discriminate|].
  rewrite <- El in *. inv_ok. case_if_in H; [discriminate|]. inv_ok. destruct a3 as [out tax]. inv_ok.
  apply price_lines_ok in Ha as [(Hok & Hsub & Hitem) Hlen].
  pose proof (total_line_ok _ Hok) as (Hafter & Hb & _).
  bool_prop. rewrite Hsub, Hitem in *. rewrite <- Hafter in Ha2.
  apply item_discount_bounds in Ha0; [|lia]. apply parseVndAmount_nonneg in Ha1.
  apply allocate_discount_Ok in Ha2 as [Hsame Halloc]; [|done|lia].
  apply finish_lines_ok in Ha3 as [Hfin ->]. apply parseVndAmount_nonneg in Ha4.
  repeat match goal with Hv : vndNumber _ = Ok _ |- _ => apply vndNumber_Ok in Hv as [-> _] end.
  exists (ps_interLines a), a2, a0, a1, a3. cbn [q_lines subtotal itemDiscountTotal orderDiscountTotal
    promotionDiscountTotal totalDiscount shippingFee taxTotal grandTotal effectiveDiscountPercent nval int Qnum].
  repeat split; (done || lia).
Qed.

(** C23.  The books of a quote balance.  For every accepted input: the subtotal
    is the sum of the line grosses, the item discounts and taxes add up to their
    totals, the allocated order discount is exactly the order plus promotion
    discount, 0 <= total discount <= subtotal, and the line totals plus the
    shipping fee are exactly the grand total (nothing is lost to rounding). *)
Theorem quote_totals_balance (input : QuoteOrderInput) (cat : gmap string AuthoritativeCatalogVariant)
    (q : CalculatedOrderQuote) :
  calculateOrderQuote input cat = Ok q ->
  let sum f := total (fun o => nval (f o)) (q_lines q) in
  length (q_lines q) = length (qo_lines input) /\
  sum lineGross = nval (subtotal q) /\
  sum itemDiscountAmount = nval (itemDiscountTotal q) /\
  sum allocatedOrderDiscount = nval (orderDiscountTotal q) + nval (promotionDiscountTotal q) /\
  sum taxAmount = nval (taxTotal q) /\
  nval (totalDiscount q) = nval (itemDiscountTotal q) + nval (orderDiscountTotal q) + nval (promotionDiscountTotal q) /\
  0 <= nval (totalDiscount q) <= nval (subtotal q) /\
  sum lineNet = nval (subtotal q) - nval (totalDiscount q) /\
  sum lineTotal + nval (shippingFee q) = nval (grandTotal q).
Proof.
  intros (lines0 & lines & order & promo & ship & Hok & Hlen & Hsame & Hfin & Halloc & Ho & Hp & Hs & Hle &
    H1 & H2 & H3 & H4 & H5 & H6 & H7 & H8 & _)%quote_inv. cbv zeta.
  pose proof (total_line_ok _ Hok) as (Hafter & Hb & _).
  pose proof (total_same il_lineGrossVnd _ _ ltac:(done) Hsame) as Tg.
  pose proof (total_same il_itemDiscountVnd _ _ ltac:(done) Hsame) as Td.
  pose proof (total_same il_lineAfterItemDiscountVnd _ _ ltac:(done) Hsame) as Ta.
  assert (Fg : total (fun o => nval (lineGross o)) (q_lines q) = total il_lineGrossVnd lines).
  { apply total_finished; [|done]. by intros l o (-> & _). }
  assert (Fd : total (fun o => nval (itemDiscountAmount o)) (q_lines q) = total il_itemDiscountVnd lines).
  { apply total_finished; [|done]. by intros l o (_ & -> & _). }
  assert (Fa : total (fun o => nval (allocatedOrderDiscount o)) (q_lines q) = total il_allocatedOrderDiscountVnd lines).
  { apply total_finished; [|done]. by intros l o (_ & _ & _ & -> & _). }
  assert (Fn : total (fun o => nval (lineNet o)) (q_lines q) = total line_net lines).
  { apply total_finished; [|done]. by intros l o (_ & _ & _ & _ & -> & _). }
  assert (Fnet : total line_net lines =
    total il_lineAfterItemDiscountVnd lines - total il_allocatedOrderDiscountVnd lines).
  { clear. unfold total. induction lines; cbn; [done|]. unfold line_net at 1. lia. }
  assert (Ft : total (fun o => nval (lineTotal o)) (q_lines q) =
    total line_net lines + total (fun o => nval (taxAmount o)) (q_lines q)).
  { clear - Hfin. unfold total. induction Hfin as [|l o ? ? (_ & _ & _ & _ & _ & Hl & _)]; cbn; [done|].
    rewrite Hl. cbn. lia. }
  assert (Hl : length (q_lines q) = length (qo_lines input)).
  { rewrite <- Hlen, (Forall2_length _ _ _ Hsame). symmetry. exact (Forall2_length _ _ _ Hfin). }
  rewrite H8, H7, H6, H5, H4, H3, H2, H1. cbn [nval int Qnum].
  repeat split; (exact Hl || lia).
Qed.

(** A small catalog and order: three lines, an item discount, an order percentage,
    a promotion, tax and shipping. *)
Definition demo_variant (id : string) (price : Z) : AuthoritativeCatalogVariant :=
  {| cv_variantId := id; cv_productId := "p"; cv_skuCode := id; cv_barcode := None; cv_productName := "n";
     cv_variantName := "v"; cv_unitCode := ""; cv_conversionFactor := "1.0000"; cv_unitPrice := int price;
     cv_status := ACTIVE; cv_unitCostSnapshot := Undefined |}.

Definition demo_catalog : gmap string AuthoritativeCatalogVariant :=
  {[ "a" := demo_variant "a" 35000; "b" := demo_variant "b" 19999; "c" := demo_variant "c" 1 ]}.

Definition demo_line (id : string) (q : jsval) (t : DiscountType) (d tax : jsval) : QuoteLineInput :=
  {| ql_variantId := id; ql_qty := q; ql_expectedUnitPrice := Undefined; ql_discountType := Some t;
     ql_discountValue := d; ql_taxRatePercent := tax |}.

Definition demo_order : QuoteOrderInput :=
  {| qo_lines := [demo_line "a" (VStr "2.5") PERCENT (VNum (int 15)) (VNum (int 8));
                  demo_line "b" (VNum (int 3)) NONE Undefined (VStr "10");
                  demo_line "c" (VStr "7") FIXED (VNum (int 7)) Undefined];
     qo_orderDiscountType := Some PERCENT; qo_orderDiscountValue := VNum (int 3);
     qo_promotionDiscountAmount := VNum (int 5000); qo_shippingFee := VNum (int 22000) |}.

Lemma quote_totals_balance_witness : exists q,
  calculateOrderQuote demo_order demo_catalog = Ok q /\ nval (grandTotal q) = 158488 /\
  total (fun o => nval (lineTotal o)) (q_lines q) + nval (shippingFee q) = nval (grandTotal q).
Proof.
  destruct (calculateOrderQuote demo_order demo_catalog) as [q|e] eqn:He; [|vm_compute in He; discriminate].
  exists q. split; [reflexivity|]. split.
  - assert (Hq : match calculateOrderQuote demo_order demo_catalog with
                 | Ok q => nval (grandTotal q) | Throw _ => 0 end = 158488) by (vm_compute; reflexivity).
    rewrite He in Hq. exact Hq.
  - pose proof (quote_totals_balance _ _ _ He) as H. cbv zeta in H.
    exact (proj2 (proj2 (proj2 (proj2 (proj2 (proj2 (proj2 (proj2 H)))))))).
Defined.

(** Pro-rata allocation of an order discount over lines with non-negative
    amounts: it always returns, allocates exactly the discount, and changes
    nothing else of the lines.  Every line but one gets its exact share rounded
    half up, so between 0 and its own amount; the one that takes the rounding
    residual is off its exact share by at most (n - 1) / 2 VND. *)
Theorem order_discount_allocated_exactly (lines : list IntermediateLine) (combined : Z) :
  let net := total il_lineAfterItemDiscountVnd lines in
  0 < combined <= net ->
  Forall (fun l => 0 <= il_lineAfterItemDiscountVnd l /\ il_allocatedOrderDiscountVnd l = 0) lines ->
  exists lines' last, allocate_discount lines combined net = Ok lines' /\
    Forall2 same_line lines lines' /\ total il_allocatedOrderDiscountVnd lines' = combined /\
    forall i l, lines' !! i = Some l ->
      let off := net * il_allocatedOrderDiscountVnd l - combined * il_lineAfterItemDiscountVnd l in
      (i <> last -> 0 <= il_allocatedOrderDiscountVnd l <= il_lineAfterItemDiscountVnd l /\ 2 * Z.abs off <= net) /\
      (i = last -> 2 * Z.abs off <= net * (Z.of_nat (length lines) - 1)).
Proof. intros net Hc Hf. exact (allocate_discount_spec lines combined net Hc eq_refl Hf). Qed.

Definition demo_intermediate (a : Z) : IntermediateLine :=
  {| il_lineNo := 1; il_catalog := demo_variant "a" 1; il_qtyMillis := 1000; il_baseQtyMillis := 1000;
     il_unitPriceVnd := a; il_lineGrossVnd := a; il_itemDiscountType := NONE; il_itemDiscountValue := Undefined;
     il_itemDiscountVnd := 0; il_lineAfterItemDiscountVnd := a; il_allocatedOrderDiscountVnd := 0;
     il_taxRateBps := 0; il_taxRateStr := "0.00" |}.

Lemma order_discount_allocated_witness : exists lines',
  allocate_discount (map demo_intermediate [100; 200; 50]) 100 350 = Ok lines' /\
  map il_allocatedOrderDiscountVnd lines' = [29; 57; 14] /\ total il_allocatedOrderDiscountVnd lines' = 100.
Proof.
  destruct (order_discount_allocated_exactly (map demo_intermediate [100; 200; 50]) 100)
    as (lines' & last & He & _ & Ht & _).
  - vm_compute. split; [reflexivity | discriminate].
  - repeat constructor; discriminate.
  - exists lines'. split; [exact He|]. split; [|exact Ht].
    vm_compute in He. injection He as <-. reflexivity.
Defined.

(** Where the residual is larger than the line that takes it, the line goes
    below zero: ten lines of 1 VND with a fixed order discount of 4 VND are
    accepted, and the last line has a negative net amount and total. *)
Theorem residual_can_make_a_line_negative :
  exists q, calculateOrderQuote
    {| qo_lines := replicate 10 (demo_line "c" (VNum (int 1)) NONE Undefined Undefined);
       qo_orderDiscountType := Some FIXED; qo_orderDiscountValue := VNum (int 4);
       qo_promotionDiscountAmount := Undefined; qo_shippingFee := Undefined |} demo_catalog = Ok q /\
    map (fun o => nval (lineTotal o)) (q_lines q) = [1; 1; 1; 1; 1; 1; 1; 1; 1; -3] /\ nval (grandTotal q) = 6.
Proof.
  match goal with |- exists q, ?c = _ /\ _ =>
    assert (H : match c with Ok q => (map (fun o => nval (lineTotal o)) (q_lines q), nval (grandTotal q))
                | Throw _ => ([], 0) end = ([1; 1; 1; 1; 1; 1; 1; 1; 1; -3], 6)) by (vm_compute; reflexivity);
    destruct c as [q|e]; [|discriminate] end.
  exists q. injection H as H1 H2. done.
Qed.

(** ** Discount authority *)

Section Authority.
(** The percentage shown for [b] basis points compares with a whole limit as [b] does. *)
Lemma percent_of_bps (b : Z) : 0 <= b <= 10000 ->
  let p := ndiv (number_of_string (Z_string b)) (int 100) in
  nle p (int 0) = (b <=? 0) /\ nlt (int 10) p = (1000 <? b) /\ nlt (int 30) p = (3000 <? b) /\
  nlt (int 100) p = false.
Proof.
  intros Hb.
  pose (f := fun b => let p := ndiv (int b) (int 100) in
    Bool.eqb (nle p (int 0)) (b <=? 0) && Bool.eqb (nlt (int 10) p) (1000 <? b) &&
    Bool.eqb (nlt (int 30) p) (3000 <? b) && negb (nlt (int 100) p)).
  assert (Hf : f b = true).
  { apply (forall_below (S (100 * 100))); [vm_compute; reflexivity | lia]. }
  assert (Hn : number_of_string (Z_string b) = int b).
  { unfold Z_string. replace (b <? 0) with false by lia.
    rewrite number_of_digits; [|apply nat_string_digits; lia|].
    - rewrite nat_string_val by lia. apply number_of_bigint_safe. unfold MAX_SAFE_INTEGER. lia.
    - intros H0. pose proof (nat_string_canonical b ltac:(lia)) as Hc. by rewrite H0 in Hc. }
  cbv zeta. rewrite Hn. unfold f in Hf. cbv zeta in Hf.
  apply andb_true_iff in Hf as [[[H1%eqb_prop H2%eqb_prop]%andb_true_iff H3%eqb_prop]%andb_true_iff H4%negb_true_iff].
  done.
Qed.
End Authority.

(** Basis points of discount: floor(10000 * discount / subtotal). *)
Definition discount_bps (q : CalculatedOrderQuote) : Z :=
  if 0 <? nval (subtotal q) then nval (totalDiscount q) * 10000 / nval (subtotal q) else 0.

(** The RBAC discount ceiling on a quote.  For a caller without the
    override permissions, a quote passes exactly when its total discount, in
    hundredths of a percent rounded down, is at most 10% for sales staff (and
    unknown roles), 30% for managers; an owner always passes. *)
Theorem discount_ceiling_by_role (input : QuoteOrderInput) (cat : gmap string AuthoritativeCatalogVariant)
    (q : CalculatedOrderQuote) (role : option string) (permissions : list string) :
  calculateOrderQuote input cat = Ok q ->
  includes permissions "*" = false -> includes permissions "sales.pos.discount.override" = false ->
  let allowed := assertDiscountAuthority (effectiveDiscountPercent q) role permissions in
  let key := toLowerCase (default "sales_staff" role) in
  (key = "owner" -> allowed = Ok tt) /\
  (key = "branch_manager" \/ key = "manager" ->
     allowed = if discount_bps q <=? 3000 then Ok tt else throw DISCOUNT_APPROVAL_REQUIRED 403) /\
  (key ∉ ["owner"; "branch_manager"; "manager"; "constructor"; "__proto__"] ->
     allowed = if discount_bps q <=? 1000 then Ok tt else throw DISCOUNT_APPROVAL_REQUIRED 403).
Proof.
  intros (l0 & l & o & p & sh & Hok & _ & _ & _ & _ & Ho & Hp & _ & Hle & H1 & _ & _ & _ & H2 & _ & _ & _ & He)%quote_inv P1 P2.
  cbv zeta. pose proof (total_line_ok _ Hok) as (_ & Hb & _). unfold assertDiscountAuthority, discount_bps.
  rewrite He, H1, H2, P1, P2 in *. cbn [nval int Qnum orb] in *. unfold effective_percent.
  set (S := total il_lineGrossVnd l0) in *. set (D := total il_itemDiscountVnd l0 + (o + p)) in *.
  set (key := toLowerCase _). clearbody key.
  assert (Hcase : forall lim r, (lim = 10 \/ lim = 30) -> role_limit r = int lim ->
    (if nle (if 0 <? S then ndiv (number_of_string (Z_string (Z.quot (D * 10000) S))) (int 100) else int 0) (int 0)
     then Ok tt
     else if nlt (role_limit r) (if 0 <? S then ndiv (number_of_string (Z_string (Z.quot (D * 10000) S))) (int 100) else int 0)
          then throw DISCOUNT_APPROVAL_REQUIRED 403 else Ok tt) =
    (if (if 0 <? S then D * 10000 / S else 0) <=? 100 * lim then Ok tt else throw DISCOUNT_APPROVAL_REQUIRED 403 : res unit)).
  { intros lim r Hlim ->. destruct (Z.ltb_spec 0 S) as [HS|]; [|destruct Hlim; by subst].
    rewrite Z.quot_div_nonneg by lia.
    assert (Hbps : 0 <= D * 10000 / S <= 10000).
    { split; [apply Z.div_pos; lia | apply Z.div_le_upper_bound; lia]. }
    destruct (percent_of_bps _ Hbps) as (E0 & E1 & E2 & _). cbv zeta in *. rewrite E0.
    destruct Hlim as [-> | ->]; [rewrite E1 | rewrite E2];
      destruct (Z.leb_spec (D * 10000 / S) 0), (Z.leb_spec (D * 10000 / S) (100 * 10)),
        (Z.leb_spec (D * 10000 / S) (100 * 30)), (Z.ltb_spec 1000 (D * 10000 / S)),
        (Z.ltb_spec 3000 (D * 10000 / S)); try done; lia. }
  split; [|split].
  - intros ->. change (role_limit "owner") with (int 100).
    destruct (Z.ltb_spec 0 S) as [HS|]; [|done]. rewrite Z.quot_div_nonneg by lia.
    destruct (percent_of_bps (D * 10000 / S)) as (_ & _ & _ & E3);
      [split; [apply Z.div_pos; lia | apply Z.div_le_upper_bound; lia]|].
    cbv zeta in E3. rewrite E3. match goal with |- (if ?b then _ else _) = _ => destruct b end; reflexivity.
  - intros Hk. rewrite (Hcase 30 key); [done | by right|]. by destruct Hk as [-> | ->].
  - intros Hk. rewrite (Hcase 10 key); [done | by left|]. unfold role_limit.
    rewrite !not_elem_of_cons in Hk. destruct Hk as (K1 & K2 & K3 & K4 & K5 & _). cbn [mget ROLE_MAX_DISCOUNT_PERCENT].
    rewrite (proj2 (String.eqb_neq "owner" key)), (proj2 (String.eqb_neq "branch_manager" key)),
      (proj2 (String.eqb_neq "manager" key)), (proj2 (String.eqb_neq key "constructor")),
      (proj2 (String.eqb_neq key "__proto__")) by congruence.
    by destruct (String.eqb "sales_staff" key), (String.eqb "cashier" key).
Qed.

Lemma discount_ceiling_witness : exists q,
  calculateOrderQuote demo_order demo_catalog = Ok q /\
  assertDiscountAuthority (effectiveDiscountPercent q) (Some "Cashier") ["sales.pos.sell"] =
    throw DISCOUNT_APPROVAL_REQUIRED 403 /\
  assertDiscountAuthority (effectiveDiscountPercent q) (Some "Branch_Manager") ["sales.pos.sell"] = Ok tt.
Proof.
  destruct (calculateOrderQuote demo_order demo_catalog) as [q|e] eqn:He; [|vm_compute in He; discriminate].
  exists q. split; [reflexivity|].
  assert (Hb : match calculateOrderQuote demo_order demo_catalog with
               | Ok q => discount_bps q | Throw _ => 0 end = 1502) by (vm_compute; reflexivity).
  rewrite He in Hb. split.
  - destruct (discount_ceiling_by_role _ _ _ (Some "Cashier") ["sales.pos.sell"] He) as (_ & _ & H);
      [vm_compute; reflexivity | vm_compute; reflexivity |].
    cbv zeta in H. rewrite H; [by rewrite Hb|].
    change (toLowerCase (default "sales_staff" (Some "Cashier"))) with "cashier".
    rewrite !not_elem_of_cons. repeat split; [discriminate..|]. apply not_elem_of_nil.
  - destruct (discount_ceiling_by_role _ _ _ (Some "Branch_Manager") ["sales.pos.sell"] He) as (_ & H & _);
      [vm_compute; reflexivity | vm_compute; reflexivity |].
    cbv zeta in H. rewrite H; [by rewrite Hb|]. left. reflexivity.
Defined.
