(* ===== verification/SalesTender.v ===== *)
(** * Sales domain layer: tenders and the cash drawer

    [validateOrderTenders], [calculateShiftCloseSummary] and the cash-session
    functions ([expectedCashFromEntries], [cashSaleDrawerAmount],
    [countedTotalFromDenominations], [decideShiftClose]) of
    apps/sales/src/domain/sales-domain.ts. *)

From S2P Require Import Prelude JsNumber JsString SalesMoney SalesPricing.
From Stdlib Require Import QArith.

Open Scope Z_scope.

(** ** Tenders *)

Inductive OrderPaymentStatus :=
| UNPAID | PARTIALLY_PAID | PAID | REFUND_PENDING | PARTIALLY_REFUNDED | REFUNDED.

(** [Exclude<TenderMethod, 'COMBINED'>]. *)
Inductive TenderMethod := CASH | BANK_TRANSFER | CARD | E_WALLET | COD | ON_ACCOUNT.

Inductive TenderStatus := CONFIRMED | PENDING.

#[export] Instance OrderPaymentStatus_eq_dec : EqDecision OrderPaymentStatus.
Proof. solve_decision. Defined.
#[export] Instance TenderMethod_eq_dec : EqDecision TenderMethod.
Proof. solve_decision. Defined.
#[export] Instance TenderStatus_eq_dec : EqDecision TenderStatus.
Proof. solve_decision. Defined.

Record TenderInputLine := {
  ti_method : TenderMethod;
  ti_amount : number;
  ti_tenderedCash : option number;
  ti_externalRef : option string;
  ti_verified : option bool }.

Record ValidatedTenderLine := {
  vt_method : TenderMethod;
  vt_amount : number;
  vt_tenderedCash : number;
  vt_changeDue : number;
  vt_status : TenderStatus;
  vt_externalRef : option string }.

Record ValidatedTenderSummary := {
  ts_tenders : list ValidatedTenderLine;
  ts_totalAllocated : number;
  ts_totalConfirmed : number;
  ts_totalCashSales : number;
  ts_totalChangeDue : number;
  ts_allConfirmed : bool;
  ts_paymentStatus : OrderPaymentStatus }.

(** The accumulators of the loop. *)
Record TenderTotals := {
  tt_allocated : Z;
  tt_confirmed : Z;
  tt_cashSales : Z;
  tt_changeDue : Z;
  tt_validated : list ValidatedTenderLine }.

(** [Boolean(t.verified && t.externalRef)]. *)
Definition is_confirmed (t : TenderInputLine) : bool :=
  match ti_verified t with Some true => truthy (ti_externalRef t) | _ => false end.

Definition tender_step (grandTotal : Z) (acc : TenderTotals) (t : TenderInputLine) : res TenderTotals :=
  amount ← parseVndAmount (VNum (ti_amount t)) (grandTotal =? 0);
  let allocated := tt_allocated acc + amount in
  match ti_method t with
  | CASH =>
      tendered ← match ti_tenderedCash t with
                 | Some n => parseVndAmount (VNum n) true
                 | None => Ok amount
                 end;
      if tendered <? amount then throw PAYMENT_AMOUNT_MISMATCH 422
      else
        let changeDue := tendered - amount in
        amountN ← vndNumber amount;
        tenderedN ← vndNumber tendered;
        changeN ← vndNumber changeDue;
        Ok {| tt_allocated := allocated; tt_confirmed := tt_confirmed acc + amount;
              tt_cashSales := tt_cashSales acc + amount; tt_changeDue := tt_changeDue acc + changeDue;
              tt_validated := tt_validated acc ++
                [{| vt_method := CASH; vt_amount := amountN; vt_tenderedCash := tenderedN;
                    vt_changeDue := changeN; vt_status := CONFIRMED; vt_externalRef := ti_externalRef t |}] |}
  | COD =>
      amountN ← vndNumber amount;
      Ok {| tt_allocated := allocated; tt_confirmed := tt_confirmed acc; tt_cashSales := tt_cashSales acc;
            tt_changeDue := tt_changeDue acc;
            tt_validated := tt_validated acc ++
              [{| vt_method := COD; vt_amount := amountN; vt_tenderedCash := int 0; vt_changeDue := int 0;
                  vt_status := PENDING; vt_externalRef := ti_externalRef t |}] |}
  | m =>
      let isConfirmed := is_confirmed t in
      amountN ← vndNumber amount;
      Ok {| tt_allocated := allocated;
            tt_confirmed := if isConfirmed then tt_confirmed acc + amount else tt_confirmed acc;
            tt_cashSales := tt_cashSales acc; tt_changeDue := tt_changeDue acc;
            tt_validated := tt_validated acc ++
              [{| vt_method := m; vt_amount := amountN; vt_tenderedCash := int 0; vt_changeDue := int 0;
                  vt_status := if isConfirmed then CONFIRMED else PENDING;
                  vt_externalRef := ti_externalRef t |}] |}
  end.

Definition validateOrderTenders (grandTotalVnd : number) (tendersInput : list TenderInputLine)
    : res ValidatedTenderSummary :=
  grandTotal ← parseVndAmount (VNum grandTotalVnd) true;
  match tendersInput with
  | [] => throw PAYMENT_AMOUNT_MISMATCH 422
  | _ =>
      t ← foldM (tender_step grandTotal) (Build_TenderTotals 0 0 0 0 []) tendersInput;
      if negb (tt_allocated t =? grandTotal) then throw PAYMENT_AMOUNT_MISMATCH 422
      else
        let allConfirmed := tt_confirmed t =? grandTotal in
        let paymentStatus :=
          if allConfirmed then PAID else if 0 <? tt_confirmed t then PARTIALLY_PAID else UNPAID in
        allocatedN ← vndNumber (tt_allocated t);
        confirmedN ← vndNumber (tt_confirmed t);
        cashN ← vndNumber (tt_cashSales t);
        changeN ← vndNumber (tt_changeDue t);
        Ok {| ts_tenders := tt_validated t; ts_totalAllocated := allocatedN; ts_totalConfirmed := confirmedN;
              ts_totalCashSales := cashN; ts_totalChangeDue := changeN; ts_allConfirmed := allConfirmed;
              ts_paymentStatus := paymentStatus |}
  end.

(** ** Shift reconciliation *)

Record ShiftCashReconciliation := {
  sr_openingCash : number;
  sr_cashSalesTotal : number;
  sr_cashRefundsTotal : number;
  sr_expectedCash : number;
  sr_actualCash : number;
  sr_variance : number }.

Definition calculateShiftCloseSummary (openingCash cashSalesTotal cashRefundsTotal actualCash : number)
    : res ShiftCashReconciliation :=
  opening ← parseVndAmount (VNum openingCash) true;
  sales ← parseVndAmount (VNum cashSalesTotal) true;
  refunds ← parseVndAmount (VNum cashRefundsTotal) true;
  actual ← parseVndAmount (VNum actualCash) true;
  let expected := opening + sales - refunds in
  let variance := actual - expected in
  openingN ← vndNumber opening;
  salesN ← vndNumber sales;
  refundsN ← vndNumber refunds;
  expectedN ← vndNumber expected;
  actualN ← vndNumber actual;
  varianceN ← vndNumber variance;
  Ok {| sr_openingCash := openingN; sr_cashSalesTotal := salesN; sr_cashRefundsTotal := refundsN;
        sr_expectedCash := expectedN; sr_actualCash := actualN; sr_variance := varianceN |}.

(** ** Cash session *)

Definition CASH_ENTRY_KINDS : list string :=
  ["CASH_SALE"; "CASH_REFUND"; "PAY_IN"; "PAY_OUT"; "CASH_SHORTAGE"; "CASH_OVERAGE"; "REVERSAL"].

Definition VARIANCE_REASONS : list string :=
  ["miscounted_change"; "unrecorded_sale"; "refund_not_recorded"; "theft_suspected"; "other"].

Definition CASH_RESPONSIBILITIES : list string := ["none"; "cashier_deduction"; "store_loss"].

Definition DEFAULT_CASH_DENOMINATIONS : list number :=
  map int [500000; 200000; 100000; 50000; 20000; 10000; 5000; 2000; 1000].

Definition CLOSING_KINDS : list string := ["CASH_SHORTAGE"; "CASH_OVERAGE"].

Record CashEntry := { ce_kind : string; ce_amount : number }.

Definition expected_step (expected : Z) (e : CashEntry) : res Z :=
  if includes CLOSING_KINDS (ce_kind e) then Ok expected
  else if negb (isSafeInteger (ce_amount e)) then throw VALIDATION_ERROR 422
  else a ← bigint_of_number (ce_amount e); Ok (expected + a).

Definition expectedCashFromEntries (openingCash : number) (entries : list CashEntry) : res number :=
  opening ← parseVndAmount (VNum openingCash) true;
  expected ← foldM expected_step opening entries;
  vndNumber expected.

(** A tender as [cashSaleDrawerAmount] reads it: a method name and an amount. *)
Definition drawer_step (total : Z) (t : string * number) : res Z :=
  if String.eqb t.1 "CASH" then a ← parseVndAmount (VNum t.2) true; Ok (total + a) else Ok total.

Definition cashSaleDrawerAmount (tenders : list (string * number)) : res number :=
  total ← foldM drawer_step 0 tenders;
  vndNumber total.

(** [allowed.includes(value)]: SameValueZero, under which [NaN] equals itself. *)
Definition number_includes (allowed : list number) (v : number) : bool :=
  existsb (fun a => neq a v || match a, v with NaN, NaN => true | _, _ => false end) allowed.

Definition counted_step (allowed : list number) (total : Z) (c : string * number) : res Z :=
  let value := number_of_string c.1 in
  if negb (number_includes allowed value) then throw VALIDATION_ERROR 400
  else if negb (isInteger c.2) || nlt c.2 (int 0) then throw VALIDATION_ERROR 400
  else v ← bigint_of_number value; q ← bigint_of_number c.2; Ok (total + v * q).

(** [counts] as [Object.entries] lists it. *)
Definition countedTotalFromDenominations (counts : list (string * number)) (allowed : list number) : res number :=
  total ← foldM (counted_step allowed) 0 counts;
  vndNumber total.

Inductive CloseDecision := WITHIN_TOLERANCE | REASON_REQUIRED | APPROVAL_REQUIRED_CLOSE.

#[export] Instance CloseDecision_eq_dec : EqDecision CloseDecision.
Proof. solve_decision. Defined.

Definition decideShiftClose (variance toleranceVnd approvalAboveVnd : number) : CloseDecision :=
  let abs := mathAbs variance in
  if nle abs toleranceVnd then WITHIN_TOLERANCE
  else if nle abs approvalAboveVnd then REASON_REQUIRED
  else APPROVAL_REQUIRED_CLOSE.

(** * Properties *)

(** A money argument given as a number is that safe whole number. *)
Lemma parseVndAmount_num n az z : parseVndAmount (VNum n) az = Ok z ->
  n = int z /\ 0 <= z <= MAX_SAFE_INTEGER /\ (az = false -> 0 < z).
Proof.
  unfold parseVndAmount. cbn [is_nullish]. destruct (isSafeInteger n) eqn:Hs; [|discriminate].
  apply isSafeInteger_inv in Hs as (w & -> & Hw). cbn [bigint_of_number int Qden Pos.eqb Qnum].
  rewrite bind_of_Ok. intros H. run_ok H. bool_prop; repeat split; try lia; intros ->; cbn in *; lia.
Qed.

(** What a validated line says of the input line it comes from. *)
Definition tender_line_ok (t : TenderInputLine) (v : ValidatedTenderLine) : Prop :=
  exists a tendered,
    ti_amount t = int a /\ vt_amount v = int a /\ 0 <= a /\
    vt_method v = ti_method t /\ vt_externalRef v = ti_externalRef t /\
    vt_tenderedCash v = int tendered /\
    (ti_method t = CASH ->
       (ti_tenderedCash t = None -> tendered = a) /\
       (forall n, ti_tenderedCash t = Some n -> n = int tendered) /\
       0 <= nval (vt_changeDue v) /\ nval (vt_changeDue v) = tendered - a) /\
    (ti_method t <> CASH -> tendered = 0 /\ vt_changeDue v = int 0) /\
    (vt_status v = CONFIRMED <-> ti_method t = CASH \/ (ti_method t <> COD /\ is_confirmed t = true)).

Definition confirmed_amount (v : ValidatedTenderLine) : Z :=
  if decide (vt_status v = CONFIRMED) then nval (vt_amount v) else 0.
Definition cash_amount (v : ValidatedTenderLine) : Z :=
  if decide (vt_method v = CASH) then nval (vt_amount v) else 0.

(** The loop invariant of the accumulators. *)
Definition totals_ok (done : list TenderInputLine) (acc : TenderTotals) : Prop :=
  Forall2 tender_line_ok done (tt_validated acc) /\
  tt_allocated acc = total (fun v => nval (vt_amount v)) (tt_validated acc) /\
  tt_confirmed acc = total confirmed_amount (tt_validated acc) /\
  tt_cashSales acc = total cash_amount (tt_validated acc) /\
  tt_changeDue acc = total (fun v => nval (vt_changeDue v)) (tt_validated acc).

Lemma validated_line ts vs v : Forall2 tender_line_ok ts vs -> v ∈ vs -> exists t, tender_line_ok t v.
Proof.
  intros Hf [i Hi]%list_elem_of_lookup. destruct (Forall2_lookup_r _ _ _ _ _ Hf Hi) as (t & _ & Ht). by exists t.
Qed.

Lemma validated_amount_nonneg ts vs v : Forall2 tender_line_ok ts vs -> v ∈ vs -> 0 <= nval (vt_amount v).
Proof. intros Hf (t & a & td & _ & -> & Ha & _)%(validated_line _ _ _ Hf). exact Ha. Qed.

Lemma tender_step_ok g done acc t acc' :
  totals_ok done acc -> tender_step g acc t = Ok acc' -> totals_ok (done ++ [t]) acc'.
Proof.
  intros (Hf & H1 & H2 & H3 & H4) H. unfold tender_step in H. inv_ok.
  apply parseVndAmount_num in Ha as (Ea & Hpos & _).
  assert (Hfin : forall v acc', tender_line_ok t v -> vt_amount v = int a ->
    tt_validated acc' = tt_validated acc ++ [v] -> tt_allocated acc' = tt_allocated acc + a ->
    tt_confirmed acc' = tt_confirmed acc + confirmed_amount v ->
    tt_cashSales acc' = tt_cashSales acc + cash_amount v ->
    tt_changeDue acc' = tt_changeDue acc + nval (vt_changeDue v) -> totals_ok (done ++ [t]) acc').
  { intros v acc1 Hv Ev E1 E2 E3 E4 E5. unfold totals_ok. rewrite E1, !total_snoc, E2, E3, E4, E5, H1, H2, H3, H4, Ev.
    split; [by apply Forall2_app; [|constructor]|]. repeat split; lia. }
  assert (Hother : forall st m, m = ti_method t -> m <> CASH -> (st = CONFIRMED <-> m <> COD /\ is_confirmed t = true) ->
    tender_line_ok t {| vt_method := m; vt_amount := int a; vt_tenderedCash := int 0; vt_changeDue := int 0;
      vt_status := st; vt_externalRef := ti_externalRef t |}).
  { intros st m -> Hm Hst. exists a, 0. cbn [vt_method vt_amount vt_tenderedCash vt_changeDue vt_status vt_externalRef].
    split_and!; try done; try lia. rewrite Hst. tauto. }
  destruct (ti_method t) eqn:Em; inv_ok.
  1:{ case_if_in H; [discriminate|]. bool_prop. inv_ok.
      repeat match goal with Hv : vndNumber _ = Ok _ |- _ => apply vndNumber_Ok in Hv as [-> _] end.
      eapply Hfin; try reflexivity; [|reflexivity].
      exists a, a0. cbn. rewrite Em. split_and!; try done; try lia; [|by split; [left|]].
      intros _. split_and!; try lia.
      - intros Et. rewrite Et in Ha. by inv_ok.
      - intros n Et. rewrite Et in Ha. by apply parseVndAmount_num in Ha as [-> _]. }
  all: match goal with Hv : vndNumber _ = Ok _ |- _ => apply vndNumber_Ok in Hv as [-> _] end.
  all: eapply Hfin; [| |reflexivity|..]; try reflexivity;
    lazymatch goal with
    | |- tender_line_ok _ _ => apply Hother; [done | done | destruct (is_confirmed t); intuition congruence]
    | |- _ => unfold confirmed_amount, cash_amount; destruct (is_confirmed t); repeat case_decide; cbn in *;
              (congruence || lia)
    end.
Qed.

(** The accepted summaries, in terms of their lines. *)
Lemma tenders_inv g ts s : validateOrderTenders g ts = Ok s ->
  exists G, g = int G /\ 0 <= G <= MAX_SAFE_INTEGER /\ Forall2 tender_line_ok ts (ts_tenders s) /\
    (0 < G -> Forall (fun v => 0 < nval (vt_amount v)) (ts_tenders s)) /\
    total (fun v => nval (vt_amount v)) (ts_tenders s) = G /\
    ts_totalAllocated s = int G /\
    ts_totalConfirmed s = int (total confirmed_amount (ts_tenders s)) /\
    ts_totalCashSales s = int (total cash_amount (ts_tenders s)) /\
    ts_totalChangeDue s = int (total (fun v => nval (vt_changeDue v)) (ts_tenders s)) /\
    ts_allConfirmed s = (total confirmed_amount (ts_tenders s) =? G) /\
    ts_paymentStatus s = if ts_allConfirmed s then PAID
      else if 0 <? total confirmed_amount (ts_tenders s) then PARTIALLY_PAID else UNPAID.
Proof.
  unfold validateOrderTenders. intros H. inv_ok. apply parseVndAmount_num in Ha as (-> & Hg & _).
  destruct ts as [|t0 ts0]; [discriminate|]. set (ts := t0 :: ts0) in *. clearbody ts. inv_ok_step.
  assert (Hok : totals_ok ts a0).
  { eapply (foldM_ind totals_ok); [intros; by eapply tender_step_ok | | exact Ha]. by repeat constructor. }
  assert (Hp : 0 < a -> Forall (fun v => 0 < nval (vt_amount v)) (tt_validated a0)).
  { intros Hpos. refine (foldM_inv (fun acc => Forall (fun v => 0 < nval (vt_amount v)) (tt_validated acc)) _ _ _ _ _ _ Ha);
      [|constructor].
    intros acc t acc' _ Hacc Hs. unfold tender_step in Hs. inv_ok.
    replace (a =? 0) with false in * by lia. apply parseVndAmount_num in Ha0 as (_ & _ & Hz). specialize (Hz eq_refl).
    destruct (ti_method t); inv_ok; try (case_if_in Hs; [discriminate|]; inv_ok);
      repeat match goal with Hv : vndNumber _ = Ok _ |- _ => apply vndNumber_Ok in Hv as [-> _] end;
      (apply Forall_app; split; [done | by repeat constructor]). }
  destruct Hok as (Hf & H1 & H2 & H3 & H4). exists a. split; [done|].
  case_if_in H; [discriminate|]. apply negb_false_iff, Z.eqb_eq in E. subst a. inv_ok.
  repeat match goal with Hv : vndNumber _ = Ok _ |- _ => apply vndNumber_Ok in Hv as [-> _] end.
  cbn [ts_tenders ts_totalAllocated ts_totalConfirmed
    ts_totalCashSales ts_totalChangeDue ts_allConfirmed ts_paymentStatus].
  rewrite <- H1, <- H2, <- H3, <- H4. split_and!; try done; lia || congruence.
Qed.

(** With positive amounts, the confirmed total tells which lines are confirmed. *)
Section Classification.
Context (l : list ValidatedTenderLine) (Hpos : Forall (fun v => 0 < nval (vt_amount v)) l).

Lemma confirmed_amount_cases v : v ∈ l ->
  0 < nval (vt_amount v) /\ (vt_status v = CONFIRMED /\ confirmed_amount v = nval (vt_amount v) \/
                              vt_status v = PENDING /\ confirmed_amount v = 0).
Proof using Hpos.
  intros Hv. rewrite Forall_forall in Hpos. specialize (Hpos v Hv). split; [done|].
  unfold confirmed_amount. case_decide; [by left|right]. by destruct (vt_status v).
Qed.

Lemma all_confirmed_iff :
  total confirmed_amount l = total (fun v => nval (vt_amount v)) l <-> Forall (fun v => vt_status v = CONFIRMED) l.
Proof using Hpos.
  trans (total (fun v => nval (vt_amount v) - confirmed_amount v) l = 0); [rewrite total_sub; lia|].
  rewrite total_zero_iff by (intros v Hv; destruct (confirmed_amount_cases v Hv); lia).
  rewrite !Forall_forall. apply forall_proper. intros v. split; intros H Hv; specialize (H Hv);
    destruct (confirmed_amount_cases v Hv) as [? [[? ?]|[? ?]]]; (done || lia || congruence).
Qed.

Lemma none_confirmed_iff :
  total confirmed_amount l = 0 <-> Forall (fun v => vt_status v = PENDING) l.
Proof using Hpos.
  rewrite total_zero_iff by (intros v Hv; destruct (confirmed_amount_cases v Hv); lia).
  rewrite !Forall_forall. apply forall_proper. intros v. split; intros H Hv; specialize (H Hv);
    destruct (confirmed_amount_cases v Hv) as [? [[? ?]|[? ?]]]; (done || lia || congruence).
Qed.
End Classification.

(** An accepted payment covers the order exactly and nothing is paid
    twice: the tender amounts (each the input's, unchanged) add up to the grand
    total; cash lines give change = tendered - amount >= 0 and no other line
    does; confirmed, cash and change totals are the sums over the lines; a
    non-cash line is confirmed only when verified with a reference (never COD);
    for a positive total the order is PAID exactly when every line is confirmed
    and UNPAID exactly when none is, and a zero total is PAID. *)
Theorem tenders_cover_order_exactly (g : number) (ts : list TenderInputLine) (s : ValidatedTenderSummary) :
  validateOrderTenders g ts = Ok s ->
  exists G, g = int G /\ 0 <= G <= MAX_SAFE_INTEGER /\
    Forall2 tender_line_ok ts (ts_tenders s) /\
    total (fun v => nval (vt_amount v)) (ts_tenders s) = G /\ ts_totalAllocated s = g /\
    ts_totalConfirmed s = int (total confirmed_amount (ts_tenders s)) /\
    ts_totalCashSales s = int (total cash_amount (ts_tenders s)) /\
    ts_totalChangeDue s = int (total (fun v => nval (vt_changeDue v)) (ts_tenders s)) /\
    (G = 0 -> ts_paymentStatus s = PAID) /\
    (0 < G ->
       (ts_paymentStatus s = PAID <-> Forall (fun v => vt_status v = CONFIRMED) (ts_tenders s)) /\
       (ts_paymentStatus s = UNPAID <-> Forall (fun v => vt_status v = PENDING) (ts_tenders s))).
Proof.
  intros (G & -> & [HG1 HG2] & Hf & Hp & Hsum & E1 & E2 & E3 & E4 & E5 & E6)%tenders_inv.
  exists G. rewrite E6, E5. split_and!; try done.
  - intros ->. assert (Hz : total confirmed_amount (ts_tenders s) = 0); [|by rewrite Hz].
    assert (Hv : forall v, v ∈ ts_tenders s -> 0 <= nval (vt_amount v)).
    { intros v. exact (validated_amount_nonneg _ _ v Hf). }
    apply total_zero_iff in Hsum; [|done]. apply total_zero_iff; unfold confirmed_amount.
    + intros v ?%Hv. case_decide; lia.
    + eapply Forall_impl; [exact Hsum|]. intros v E. cbn in *. case_decide; lia.
  - intros Hpos. specialize (Hp Hpos).
    rewrite <- all_confirmed_iff, <- none_confirmed_iff, Hsum by done.
    assert (0 <= total confirmed_amount (ts_tenders s)).
    { apply total_nonneg. intros v Hv. destruct (confirmed_amount_cases _ Hp v Hv); lia. }
    destruct (Z.eqb_spec (total confirmed_amount (ts_tenders s)) G); [split; split; (done || lia || discriminate)|].
    destruct (Z.ltb_spec 0 (total confirmed_amount (ts_tenders s))); split; split; (done || lia || discriminate).
Qed.

Definition tender (m : TenderMethod) (a : Z) (cash : option number) (ref : option string) (v : option bool) :=
  {| ti_method := m; ti_amount := int a; ti_tenderedCash := cash; ti_externalRef := ref; ti_verified := v |}.

Definition demo_tenders : list TenderInputLine :=
  [tender CASH 100000 (Some (int 200000)) None None; tender BANK_TRANSFER 50000 None (Some "FT-1") (Some true);
   tender COD 8488 None None None].

Lemma tenders_cover_order_witness : exists s, validateOrderTenders (int 158488) demo_tenders = Ok s /\
  ts_paymentStatus s = PARTIALLY_PAID /\ ts_totalChangeDue s = int 100000 /\
  total (fun v => nval (vt_amount v)) (ts_tenders s) = 158488.
Proof.
  eexists. split; [vm_compute; reflexivity|]. split; [reflexivity|]. split; [reflexivity|].
  edestruct (tenders_cover_order_exactly (int 158488) demo_tenders) as (G & HG & _ & _ & Hs & _);
    [vm_compute; reflexivity|].
  apply int_inj in HG as <-. exact Hs.
Defined.

(** ** The drawer *)

Definition tender_name (m : TenderMethod) : string :=
  match m with
  | CASH => "CASH" | BANK_TRANSFER => "BANK_TRANSFER" | CARD => "CARD" | E_WALLET => "E_WALLET"
  | COD => "COD" | ON_ACCOUNT => "ON_ACCOUNT"
  end.

(** The cash that a sale puts in the drawer, computed again from the
    validated tenders at completion, is exactly the cash total of the payment
    validation: tendered minus change, card and transfer lines left out. *)
Theorem drawer_amount_is_cash_sales (g : number) (ts : list TenderInputLine) (s : ValidatedTenderSummary) :
  validateOrderTenders g ts = Ok s ->
  cashSaleDrawerAmount (map (fun v => (tender_name (vt_method v), vt_amount v)) (ts_tenders s)) =
    Ok (ts_totalCashSales s) /\
  nval (ts_totalCashSales s) =
    total (fun v => if decide (vt_method v = CASH) then nval (vt_tenderedCash v) - nval (vt_changeDue v) else 0)
      (ts_tenders s).
Proof.
  intros (G & -> & [HG1 HG2] & Hf & Hp & Hsum & E1 & E2 & E3 & _)%tenders_inv. rewrite E3.
  pose proof (fun v => validated_amount_nonneg _ _ v Hf) as Hnn.
  assert (Hle : 0 <= total cash_amount (ts_tenders s) <= G).
  { rewrite <- Hsum. split; [apply total_nonneg | apply total_mono];
      intros v Hv%Hnn; unfold cash_amount; case_decide; lia. }
  split.
  - unfold cashSaleDrawerAmount.
    rewrite (foldM_sum _ (fun t => if String.eqb t.1 "CASH" then nval t.2 else 0)).
    + rewrite bind_of_Ok, Z.add_0_l, <- vndNumber_safe by lia. f_equal. unfold total. rewrite map_map. f_equal.
      apply map_ext. intros v. unfold cash_amount. by destruct (vt_method v).
    + intros z t (v & -> & Hv)%list_elem_of_fmap. unfold drawer_step. cbn [fst snd].
      pose proof (total_elem_le _ _ _ Hnn Hv) as Hb. pose proof (Hnn v Hv) as H0. cbn in Hb.
      destruct (validated_line _ _ _ Hf Hv) as (t & a & td & _ & Ev & _). rewrite Ev in *. cbn [nval int Qnum] in *.
      case (String.eqb _ _); [|f_equal; lia]. by rewrite parseVndAmount_int by (done || lia).
  - cbn [nval int Qnum]. unfold total. apply sumZ_map_ext. intros v Hv. unfold cash_amount.
    destruct (validated_line _ _ _ Hf Hv) as (t & a & td & _ & Ev & _ & Em & _ & Et & Hc & _).
    rewrite Em, Ev, Et. case_decide as Hm; [|done]. destruct (Hc Hm) as (_ & _ & _ & ->). cbn. lia.
Qed.

Lemma drawer_amount_witness : exists s, validateOrderTenders (int 158488) demo_tenders = Ok s /\
  cashSaleDrawerAmount (map (fun v => (tender_name (vt_method v), vt_amount v)) (ts_tenders s)) = Ok (int 100000).
Proof.
  eexists. split; [vm_compute; reflexivity|].
  edestruct (drawer_amount_is_cash_sales (int 158488) demo_tenders) as [H _]; [vm_compute; reflexivity|].
  exact H.
Defined.

(** ** The cash session *)

Definition is_closing (e : CashEntry) : bool := includes CLOSING_KINDS (ce_kind e).
Definition ledger_amount (e : CashEntry) : Z := if is_closing e then 0 else nval (ce_amount e).

Lemma expected_step_Ok o e z : expected_step o e = Ok z <->
  z = o + ledger_amount e /\ (is_closing e = false -> isSafeInteger (ce_amount e) = true).
Proof.
  unfold expected_step, ledger_amount, is_closing.
  destruct (includes _ _); [split; [intros; inv_ok; split; [lia|done] | intros [-> _]; f_equal; lia]|].
  destruct (isSafeInteger (ce_amount e)) eqn:Es; cbn [negb]; [|split; [done | intros [_ H]; by specialize (H eq_refl)]].
  apply isSafeInteger_inv in Es as (a & -> & _). cbn. split; [by intros; inv_ok | by intros [-> _]].
Qed.

Lemma expected_Ok es o z : foldM expected_step o es = Ok z <->
  z = o + total ledger_amount es /\ Forall (fun e => is_closing e = false -> isSafeInteger (ce_amount e) = true) es.
Proof.
  revert o; induction es as [|e es IH]; intros o; cbn [foldM].
  - unfold total. cbn. split; [intros; inv_ok; split; [lia | done] | intros [-> _]; f_equal; lia].
  - rewrite bind_Ok, Forall_cons. setoid_rewrite IH. setoid_rewrite expected_step_Ok.
    unfold total. cbn. split.
    + intros (? & [-> ?] & -> & ?). split; [lia | done].
    + intros [-> [? ?]]. eexists. split; [done|]. split; [lia | done].
Qed.

(** Expected cash is a function of the entry ledger: the opening float plus
    every signed entry that is not a closing one, returned exactly when the
    float is a non-negative safe integer, each such entry a safe integer and the
    total one too.  Closing entries never move it, wherever they are. *)
Theorem expected_cash_is_ledger_sum (o : number) (es : list CashEntry) :
  (forall n, expectedCashFromEntries o es = Ok n <->
     exists O, o = int O /\ 0 <= O <= MAX_SAFE_INTEGER /\
       Forall (fun e => is_closing e = false -> isSafeInteger (ce_amount e) = true) es /\
       n = int (O + total ledger_amount es) /\ Z.abs (O + total ledger_amount es) <= MAX_SAFE_INTEGER) /\
  (forall es1 c es2, es = es1 ++ c :: es2 -> is_closing c = true ->
     expectedCashFromEntries o es = expectedCashFromEntries o (es1 ++ es2)).
Proof.
  split.
  - intros n. unfold expectedCashFromEntries. split.
    + intros H. inv_ok. apply parseVndAmount_num in Ha as (-> & HO & _). apply expected_Ok in Ha0 as [-> Hf].
      apply vndNumber_Ok in H as [-> Hz]. by exists a.
    + intros (O & -> & HO & Hf & -> & Hz). rewrite parseVndAmount_int by done. rewrite bind_of_Ok.
      rewrite (proj2 (expected_Ok es O _)) by (split; [reflexivity | done]). by apply vndNumber_safe.
  - intros es1 c es2 -> Hc. unfold expectedCashFromEntries. destruct (parseVndAmount _ _) as [O|]; [|done].
    rewrite !bind_of_Ok, !foldM_app. destruct (foldM expected_step O es1) as [z|]; [|done]. rewrite !bind_of_Ok. cbn [foldM].
    assert (Hstep : expected_step z c = Ok z) by (unfold expected_step, is_closing in *; by rewrite Hc).
    by rewrite Hstep.
Qed.

Definition entry (k : string) (a : Z) : CashEntry := {| ce_kind := k; ce_amount := int a |}.

Lemma expected_cash_witness :
  expectedCashFromEntries (int 500000)
    [entry "CASH_SALE" 100000; entry "CASH_SHORTAGE" (-7); entry "PAY_OUT" (-30000)] = Ok (int 570000).
Proof.
  etransitivity; [exact (proj2 (expected_cash_is_ledger_sum (int 500000) _) [entry "CASH_SALE" 100000]
    (entry "CASH_SHORTAGE" (-7)) [entry "PAY_OUT" (-30000)] eq_refl eq_refl)|].
  apply (proj1 (expected_cash_is_ledger_sum (int 500000) _)). exists 500000.
  split; [reflexivity|]. split; [unfold MAX_SAFE_INTEGER; lia|]. split; [repeat constructor|].
  split; [reflexivity|]. vm_compute. discriminate.
Defined.

(** Closing reconciles the drawer.  For a shift whose entries are sales and
    refunds, the close summary computed from the shift totals and the expected
    cash computed from the ledger agree; the variance is the counted cash minus
    it; and with the one closing entry of that amount written, the opening float
    plus all entries is the cash counted. *)
Theorem shift_close_reconciles_ledger (o s r a : number) (es : list CashEntry) (rec : ShiftCashReconciliation) (k : string) :
  calculateShiftCloseSummary o s r a = Ok rec ->
  Forall (fun e => isSafeInteger (ce_amount e) = true /\ (ce_kind e = "CASH_SALE" \/ ce_kind e = "CASH_REFUND")) es ->
  total (fun e => if String.eqb (ce_kind e) "CASH_SALE" then nval (ce_amount e) else 0) es = nval s ->
  total (fun e => if String.eqb (ce_kind e) "CASH_REFUND" then - nval (ce_amount e) else 0) es = nval r ->
  k ∈ CLOSING_KINDS ->
  let closing := {| ce_kind := k; ce_amount := sr_variance rec |} in
  expectedCashFromEntries o es = Ok (sr_expectedCash rec) /\
  expectedCashFromEntries o (es ++ [closing]) = Ok (sr_expectedCash rec) /\
  nval (sr_variance rec) = nval a - nval (sr_expectedCash rec) /\
  nval o + total (fun e => nval (ce_amount e)) (es ++ [closing]) = nval a.
Proof.
  intros H He Hs Hr Hk. cbv zeta. unfold calculateShiftCloseSummary in H. inv_ok.
  repeat match goal with
  | Hv : vndNumber _ = Ok _ |- _ => apply vndNumber_Ok in Hv as [-> ?]
  | Hv : parseVndAmount _ _ = Ok _ |- _ => apply parseVndAmount_num in Hv as (-> & ? & _)
  end. cbn [sr_expectedCash sr_variance nval int Qnum] in *.
  assert (Hkind : forall e, e ∈ es -> is_closing e = false /\ nval (ce_amount e) =
    (if String.eqb (ce_kind e) "CASH_SALE" then nval (ce_amount e) else 0) -
    (if String.eqb (ce_kind e) "CASH_REFUND" then - nval (ce_amount e) else 0)).
  { intros e Hin. rewrite Forall_forall in He. destruct (He e Hin) as [_ Hkd]. unfold is_closing.
    destruct Hkd as [-> | ->]; (split; [reflexivity | cbn; lia]). }
  assert (Hall : total (fun e => nval (ce_amount e)) es = a1 - a2).
  { rewrite <- Hs, <- Hr, <- total_sub. apply sumZ_map_ext. intros e Hin. by destruct (Hkind e Hin). }
  assert (Hlt : total ledger_amount es = a1 - a2).
  { rewrite <- Hall. apply sumZ_map_ext. intros e Hin. unfold ledger_amount. by rewrite (proj1 (Hkind e Hin)). }
  assert (Hexp : forall es', total ledger_amount es' = a1 - a2 ->
    Forall (fun e => is_closing e = false -> isSafeInteger (ce_amount e) = true) es' ->
    expectedCashFromEntries (int a0) es' = Ok (int (a0 + a1 - a2))).
  { intros es' Ht Hf. unfold expectedCashFromEntries. rewrite parseVndAmount_int by (done || lia). rewrite bind_of_Ok.
    rewrite (proj2 (expected_Ok es' a0 _)) by (split; [reflexivity | done]). rewrite bind_of_Ok, Ht.
    rewrite vndNumber_safe; [f_equal; f_equal; lia | lia]. }
  assert (Hf : Forall (fun e => is_closing e = false -> isSafeInteger (ce_amount e) = true) es).
  { eapply Forall_impl; [exact He|]. intros e [Hsafe _] _. exact Hsafe. }
  assert (Hcl : is_closing {| ce_kind := k; ce_amount := int (a3 - (a0 + a1 - a2)) |} = true).
  { clear - Hk. unfold is_closing. cbn [ce_kind]. unfold CLOSING_KINDS in Hk. rewrite !elem_of_cons in Hk.
    destruct Hk as [-> | [-> | Hk]]; [reflexivity..|]. by apply not_elem_of_nil in Hk. }
  split_and!; [by apply Hexp | apply Hexp | lia |].
  - rewrite total_snoc. unfold ledger_amount at 2. rewrite Hcl. lia.
  - apply Forall_app. split; [done|]. constructor; [by rewrite Hcl | constructor].
  - rewrite total_snoc. cbn. lia.
Qed.

Lemma shift_close_witness : exists rec,
  calculateShiftCloseSummary (int 500000) (int 150000) (int 20000) (int 629000) = Ok rec /\
  500000 + total (fun e => nval (ce_amount e))
    ([entry "CASH_SALE" 150000; entry "CASH_REFUND" (-20000)] ++
     [{| ce_kind := "CASH_SHORTAGE"; ce_amount := sr_variance rec |}]) = 629000.
Proof.
  eexists. split; [vm_compute; reflexivity|].
  edestruct (shift_close_reconciles_ledger (int 500000) (int 150000) (int 20000) (int 629000)
    [entry "CASH_SALE" 150000; entry "CASH_REFUND" (-20000)]) with (k := "CASH_SHORTAGE") as (_ & _ & _ & H);
    [vm_compute; reflexivity | | reflexivity | reflexivity | left | exact H].
  constructor; [split; [reflexivity | left; reflexivity]|].
  constructor; [split; [reflexivity | right; reflexivity]|]. constructor.
Defined.

(** Counting the drawer by denomination: a count whose keys are allowed
    notes and whose quantities are whole and non-negative returns the sum of
    note times quantity (when it is a safe integer); an unknown note or a bad
    quantity is rejected, whatever else is in the count. *)
Theorem counted_total_spec (allowed : list Z) (counts : list (Z * Z)) :
  Forall (fun v => 0 <= v <= MAX_SAFE_INTEGER) allowed ->
  Forall (fun c => c.1 ∈ allowed /\ 0 <= c.2) counts ->
  let js := map (fun c => (Z_string c.1, int c.2)) in
  (total (fun c => c.1 * c.2) counts <= MAX_SAFE_INTEGER ->
     countedTotalFromDenominations (js counts) (map int allowed) = Ok (int (total (fun c => c.1 * c.2) counts))) /\
  (forall v q rest, (0 <= v <= MAX_SAFE_INTEGER /\ v ∉ allowed) \/ (v ∈ allowed /\ q < 0) ->
     countedTotalFromDenominations (js (counts ++ (v, q) :: rest)) (map int allowed) = throw VALIDATION_ERROR 400).
Proof.
  intros Hal Hc. cbv zeta. rewrite Forall_forall in Hal. rewrite Forall_forall in Hc.
  assert (Hnum : forall v, 0 <= v <= MAX_SAFE_INTEGER -> number_of_string (Z_string v) = int v).
  { intros v Hv. unfold Z_string. replace (v <? 0) with false by lia.
    rewrite number_of_digits; [|apply nat_string_digits; lia|].
    - rewrite nat_string_val by lia. apply number_of_bigint_safe. lia.
    - intros H0. pose proof (nat_string_canonical v ltac:(lia)) as Hn. by rewrite H0 in Hn. }
  assert (Hinc : forall v, number_includes (map int allowed) (int v) = true <-> v ∈ allowed).
  { intros v. unfold number_includes. rewrite existsb_exists. split.
    - intros (n & (w & -> & Hw)%list_elem_of_In%list_elem_of_fmap & He).
      cbn [int] in He. rewrite orb_false_r in He. fold (int w) (int v) in He.
      rewrite neq_int in He. apply Z.eqb_eq in He as ->. exact Hw.
    - intros Hv. exists (int v). split; [apply list_elem_of_In, list_elem_of_fmap; by exists v|].
      rewrite neq_int, Z.eqb_refl. reflexivity. }
  assert (Hgood : forall z c, c ∈ counts -> counted_step (map int allowed) z (Z_string c.1, int c.2) = Ok (z + c.1 * c.2)).
  { intros z c Hin. destruct (Hc c Hin) as [Hv Hq]. unfold counted_step. cbn [fst snd].
    rewrite (Hnum c.1 (Hal _ Hv)), (proj2 (Hinc c.1) Hv), nlt_int. replace (c.2 <? 0) with false by lia. reflexivity. }
  assert (Hfold : foldM (counted_step (map int allowed)) 0 (map (fun c => (Z_string c.1, int c.2)) counts) =
    Ok (total (fun c => c.1 * c.2) counts)).
  { enough (forall l z, (forall c, c ∈ l -> c ∈ counts) ->
      foldM (counted_step (map int allowed)) z (map (fun c => (Z_string c.1, int c.2)) l) =
      Ok (z + total (fun c => c.1 * c.2) l)) as H by (by rewrite H).
    induction l as [|c l IH]; intros z Hl; cbn [map foldM]; [by rewrite Z.add_0_r|].
    rewrite Hgood by (apply Hl; left). rewrite bind_of_Ok, IH by (intros; apply Hl; by right).
    f_equal. unfold total. cbn. lia. }
  assert (Hnn : 0 <= total (fun c => c.1 * c.2) counts).
  { apply total_nonneg. intros c Hin. destruct (Hc c Hin) as [Hv%Hal Hq]. nia. }
  unfold countedTotalFromDenominations. split.
  - intros Hle. rewrite Hfold, bind_of_Ok. apply vndNumber_safe. lia.
  - intros v q rest Hbad. rewrite map_app, foldM_app, Hfold, bind_of_Ok. cbn [map foldM].
    assert (Hstep : forall z, counted_step (map int allowed) z (Z_string v, int q) = throw VALIDATION_ERROR 400).
    { intros z. unfold counted_step. cbn [fst snd]. destruct Hbad as [[Hv Hn] | [Hv Hq]].
      - rewrite Hnum by done. destruct (number_includes _ _) eqn:E; [by apply Hinc in E | reflexivity].
      - rewrite (Hnum v (Hal _ Hv)), (proj2 (Hinc v) Hv), nlt_int. by replace (q <? 0) with true by lia. }
    by rewrite Hstep.
Qed.

Lemma counted_total_witness :
  countedTotalFromDenominations [("500000", int 3); ("1000", int 7)] DEFAULT_CASH_DENOMINATIONS = Ok (int 1507000) /\
  countedTotalFromDenominations [("500000", int 3); ("1000", int 7); ("300", int 1)] DEFAULT_CASH_DENOMINATIONS =
    throw VALIDATION_ERROR 400.
Proof.
  destruct (counted_total_spec [500000; 200000; 100000; 50000; 20000; 10000; 5000; 2000; 1000]
    [(500000, 3); (1000, 7)]) as [H1 H2].
  - unfold MAX_SAFE_INTEGER. repeat constructor; lia.
  - constructor; [split; [left | cbn; lia]|]. constructor; [|constructor].
    split; [|cbn; lia]. do 8 right. left.
  - split; [apply H1; vm_compute; discriminate|]. apply (H2 300 1 []). left.
    split; [unfold MAX_SAFE_INTEGER; lia|]. rewrite !not_elem_of_cons. repeat split; [discriminate..|]. apply not_elem_of_nil.
Defined.
