(* ===== verification/SalesReturns.v ===== *)
(** * Sales domain layer: returns and pro-rated refunds

    [calculateReturnRefund] of apps/sales/src/domain/sales-domain.ts: the
    requests are checked against what is still returnable, then priced one by
    one against running totals per order item, the last units of a line taking
    the residual. *)

From S2P Require Import Prelude JsNumber JsString SalesMoney SalesPricing SalesTender.
From Stdlib Require Import QArith.

Open Scope Z_scope.

Inductive ReturnDisposition := RESTOCK | DAMAGED | QUARANTINE | NO_PHYSICAL_RETURN.

Record OriginalOrderLineSnapshot := {
  ol_orderItemId : string;
  ol_variantId : string;
  ol_skuCode : string;
  ol_productName : string;
  ol_soldQty : string;
  ol_alreadyReturnedQty : string;
  ol_unitPrice : number;
  ol_lineNet : number;
  ol_taxAmount : number;
  ol_lineTotal : number;
  ol_alreadyRefundedAmount : number }.

Record ReturnLineRequest := {
  rr_orderItemId : string;
  rr_returnQty : jsval;
  rr_disposition : ReturnDisposition;
  rr_reason : option string }.

Record CalculatedReturnLine := {
  rl_orderItemId : string;
  rl_variantId : string;
  rl_skuCode : string;
  rl_productName : string;
  rl_returnQty : string;
  rl_remainingReturnableAfter : string;
  rl_unitRefundAmount : number;
  rl_refundAmount : number;
  rl_disposition : ReturnDisposition;
  rl_reason : option string }.

Record CalculatedReturnResult := {
  cr_lines : list CalculatedReturnLine;
  cr_totalRefundAmount : number;
  cr_isFullOrderReturn : bool }.

(** [lineMap]: a later line with the same id replaces the earlier one. *)
Definition line_map (originalLines : list OriginalOrderLineSnapshot) : gmap string OriginalOrderLineSnapshot :=
  foldl (fun m o => <[ol_orderItemId o := o]> m) ∅ originalLines.

(** The quantity already returned of a line; an empty or zero text is none. *)
Definition returned_millis (orig : OriginalOrderLineSnapshot) : res Z :=
  if truthy (Some (ol_alreadyReturnedQty orig)) && nlt (int 0) (number_of_string (ol_alreadyReturnedQty orig))
  then parseQtyMillis (VStr (ol_alreadyReturnedQty orig)) else Ok 0.

(** Coalesce the requested quantities per order item. *)
Definition request_step (lineMap : gmap string OriginalOrderLineSnapshot) (m : list (string * Z))
    (req : ReturnLineRequest) : res (list (string * Z)) :=
  match lineMap !! rr_orderItemId req with
  | None => throw RETURN_NOT_ELIGIBLE 409
  | Some _ =>
      qtyMillis ← parseQtyMillis (rr_returnQty req);
      let prev := default 0 (mget (rr_orderItemId req) m) in
      Ok (mset (rr_orderItemId req) (prev + qtyMillis) m)
  end.

(** [lineMap.get(id)!], which holds after [request_step] accepted the id. *)
Definition get_line (lineMap : gmap string OriginalOrderLineSnapshot) (id : string) : res OriginalOrderLineSnapshot :=
  match lineMap !! id with Some o => Ok o | None => Throw (JsError TypeError) end.

Definition check_step (lineMap : gmap string OriginalOrderLineSnapshot) (u : unit) (e : string * Z) : res unit :=
  orig ← get_line lineMap e.1;
  soldMillis ← parseQtyMillis (VStr (ol_soldQty orig));
  returnedMillis ← returned_millis orig;
  let remainingMillis := soldMillis - returnedMillis in
  if remainingMillis <? e.2 then throw RETURN_QUANTITY_EXCEEDED 409 else Ok tt.

(** The running totals: returned quantity and refunded amount per order item. *)
Record ReturnTotals := {
  rt_returned : gmap string Z;
  rt_refunded : gmap string Z;
  rt_totalRefund : Z;
  rt_lines : list CalculatedReturnLine }.

Definition init_step (s : gmap string Z * gmap string Z) (orig : OriginalOrderLineSnapshot)
    : res (gmap string Z * gmap string Z) :=
  returnedMillis ← returned_millis orig;
  refunded ← parseVndAmount (VNum (ol_alreadyRefundedAmount orig)) true;
  Ok (<[ol_orderItemId orig := returnedMillis]> s.1, <[ol_orderItemId orig := refunded]> s.2).

Definition get_total (m : gmap string Z) (id : string) : res Z :=
  match m !! id with Some z => Ok z | None => Throw (JsError TypeError) end.

(** The refund of one request: the residual on the last units of the line, else
    the pro-rated amount capped by what is left. *)
Definition refund_amount (lineTotalVnd soldMillis reqMillis newReturnedMillis maxRemainingRefundVnd : Z) : res Z :=
  if newReturnedMillis =? soldMillis then Ok maxRemainingRefundVnd
  else
    refundVnd ← roundDivHalfUp (lineTotalVnd * reqMillis) soldMillis;
    Ok (if maxRemainingRefundVnd <? refundVnd then maxRemainingRefundVnd else refundVnd).

Definition return_step (lineMap : gmap string OriginalOrderLineSnapshot) (s : ReturnTotals) (req : ReturnLineRequest)
    : res ReturnTotals :=
  orig ← get_line lineMap (rr_orderItemId req);
  soldMillis ← parseQtyMillis (VStr (ol_soldQty orig));
  reqMillis ← parseQtyMillis (rr_returnQty req);
  prevReturnedMillis ← get_total (rt_returned s) (rr_orderItemId req);
  let newReturnedMillis := prevReturnedMillis + reqMillis in
  lineTotalVnd ← parseVndAmount (VNum (ol_lineTotal orig)) true;
  prevRefundedVnd ← get_total (rt_refunded s) (rr_orderItemId req);
  let maxRemainingRefundVnd := lineTotalVnd - prevRefundedVnd in
  refundVnd ← refund_amount lineTotalVnd soldMillis reqMillis newReturnedMillis maxRemainingRefundVnd;
  unitRefundVnd ← roundDivHalfUp (refundVnd * QTY_SCALE) reqMillis;
  let remainingAfterMillis := soldMillis - newReturnedMillis in
  unitRefundN ← vndNumber unitRefundVnd;
  refundN ← vndNumber refundVnd;
  Ok {| rt_returned := <[rr_orderItemId req := newReturnedMillis]> (rt_returned s);
        rt_refunded := <[rr_orderItemId req := prevRefundedVnd + refundVnd]> (rt_refunded s);
        rt_totalRefund := rt_totalRefund s + refundVnd;
        rt_lines := rt_lines s ++
          [{| rl_orderItemId := ol_orderItemId orig; rl_variantId := ol_variantId orig; rl_skuCode := ol_skuCode orig;
              rl_productName := ol_productName orig; rl_returnQty := formatQtyMillis reqMillis;
              rl_remainingReturnableAfter := formatQtyMillis remainingAfterMillis;
              rl_unitRefundAmount := unitRefundN; rl_refundAmount := refundN;
              rl_disposition := rr_disposition req; rl_reason := rr_reason req |}] |}.

(** [originalLines.every(...)]: stops at the first line not fully returned. *)
Fixpoint all_returned (returned : gmap string Z) (originalLines : list OriginalOrderLineSnapshot) : res bool :=
  match originalLines with
  | [] => Ok true
  | orig :: rest =>
      soldMillis ← parseQtyMillis (VStr (ol_soldQty orig));
      if default 0 (returned !! ol_orderItemId orig) =? soldMillis then all_returned returned rest else Ok false
  end.

Definition calculateReturnRefund (originalLines : list OriginalOrderLineSnapshot)
    (returnRequests : list ReturnLineRequest) : res CalculatedReturnResult :=
  match returnRequests with
  | [] => throw VALIDATION_ERROR 422
  | _ =>
      let lineMap := line_map originalLines in
      requestedMillisByItem ← foldM (request_step lineMap) [] returnRequests;
      _ ← foldM (check_step lineMap) tt requestedMillisByItem;
      '(returned, refunded) ← foldM init_step (∅, ∅) originalLines;
      t ← foldM (return_step lineMap) (Build_ReturnTotals returned refunded 0 []) returnRequests;
      isFullOrderReturn ← all_returned (rt_returned t) originalLines;
      totalN ← vndNumber (rt_totalRefund t);
      Ok {| cr_lines := rt_lines t; cr_totalRefundAmount := totalN; cr_isFullOrderReturn := isFullOrderReturn |}
  end.

(** * Properties *)

(** The quantity requested, and the amount refunded, for one order item. *)
Definition req_millis (r : ReturnLineRequest) : Z :=
  match parseQtyMillis (rr_returnQty r) with Ok m => m | Throw _ => 0 end.
Definition requested (id : string) (reqs : list ReturnLineRequest) : Z :=
  total (fun r => if String.eqb (rr_orderItemId r) id then req_millis r else 0) reqs.
Definition refunded (id : string) (lines : list CalculatedReturnLine) : Z :=
  total (fun l => if String.eqb (rl_orderItemId l) id then nval (rl_refundAmount l) else 0) lines.

(** A line's figures, parsed: sold and returned quantity, total and refunded amount. *)
Record line_figures (o : OriginalOrderLineSnapshot) (sold ret0 lt f0 : Z) : Prop := {
  lf_sold : parseQtyMillis (VStr (ol_soldQty o)) = Ok sold;
  lf_returned : returned_millis o = Ok ret0;
  lf_total : parseVndAmount (VNum (ol_lineTotal o)) true = Ok lt;
  lf_refunded : parseVndAmount (VNum (ol_alreadyRefundedAmount o)) true = Ok f0 }.

Section Requests.
Context (lineMap : gmap string OriginalOrderLineSnapshot).

Lemma requests_coalesced reqs m : foldM (request_step lineMap) [] reqs = Ok m ->
  forall id, default 0 (mget id m) = requested id reqs /\
    (is_Some (mget id m) <-> exists r, r ∈ reqs /\ rr_orderItemId r = id).
Proof.
  apply (foldM_ind (fun done m => forall id, default 0 (mget id m) = requested id done /\
    (is_Some (mget id m) <-> exists r, r ∈ done /\ rr_orderItemId r = id))).
  - intros done r s s' IH H id. unfold request_step in H.
    destruct (lineMap !! rr_orderItemId r) as [o|]; [|discriminate]. inv_ok.
    destruct (IH id) as [IH1 IH2]. unfold requested. rewrite total_snoc. fold (requested id done).
    rewrite mget_mset. unfold req_millis. rewrite Ha.
    destruct (String.eqb_spec (rr_orderItemId r) id) as [E|E]; cbn [default].
    + rewrite E, IH1. split; [done|]. split; [intros _; exists r; split; [apply elem_of_app; right; left | done] | done].
    + rewrite IH1. split; [lia|]. rewrite IH2. split; intros (r' & Hr & Hid); exists r'; (split; [|done]).
      * apply elem_of_app. by left.
      * apply elem_of_app in Hr as [Hr | ->%list_elem_of_singleton]; [done | congruence].
  - intros id. split; [reflexivity|]. split; [by intros [? ?] | intros (r & Hr & _); by apply not_elem_of_nil in Hr].
Qed.

Lemma requests_NoDup reqs m : foldM (request_step lineMap) [] reqs = Ok m -> NoDup m.*1.
Proof.
  intros H. refine (foldM_inv (fun m => NoDup m.*1) _ _ _ _ _ _ H); [|apply NoDup_nil_2].
  intros s r s' _ Hs Hr. unfold request_step in Hr. destruct (lineMap !! _); [|discriminate]. inv_ok.
  by apply mset_NoDup.
Qed.

Lemma checked_bound m id q : foldM (check_step lineMap) tt m = Ok tt -> (id, q) ∈ m ->
  exists o sold ret0, lineMap !! id = Some o /\ parseQtyMillis (VStr (ol_soldQty o)) = Ok sold /\
    returned_millis o = Ok ret0 /\ ret0 + q <= sold.
Proof.
  induction m as [|e m IH]; [by intros _ ?%not_elem_of_nil|]. cbn [foldM]. intros H. inv_ok. destruct a.
  intros [<- | Hin]%elem_of_cons; [|by apply IH].
  unfold check_step, get_line in Ha. cbn [fst snd] in Ha. destruct (lineMap !! id) as [o|]; [|discriminate].
  inv_ok. case_if_in Ha; [discriminate|]. bool_prop. inv_ok. exists a, a0, a1. split_and!; try done. lia.
Qed.
End Requests.

Lemma line_map_id origs id o : line_map origs !! id = Some o -> ol_orderItemId o = id /\ o ∈ origs.
Proof.
  unfold line_map. revert id o. induction origs as [|x origs IH] using rev_ind; intros id o; cbn; [by rewrite lookup_empty|].
  rewrite foldl_snoc. destruct (decide (ol_orderItemId x = id)) as [<-|Hne].
  - rewrite lookup_insert. intros H. case_decide; [|done]. simplify_eq. split; [done|]. apply elem_of_app. right. left.
  - rewrite lookup_insert_ne by done. intros [? ?]%IH. split; [done|]. apply elem_of_app. by left.
Qed.

Lemma init_totals origs s : foldM init_step (∅, ∅) origs = Ok s ->
  forall id o, line_map origs !! id = Some o ->
    exists r0 f0, returned_millis o = Ok r0 /\ parseVndAmount (VNum (ol_alreadyRefundedAmount o)) true = Ok f0 /\
      s.1 !! id = Some r0 /\ s.2 !! id = Some f0.
Proof.
  apply (foldM_ind (fun done s => forall id o, line_map done !! id = Some o ->
    exists r0 f0, returned_millis o = Ok r0 /\ parseVndAmount (VNum (ol_alreadyRefundedAmount o)) true = Ok f0 /\
      s.1 !! id = Some r0 /\ s.2 !! id = Some f0)).
  - intros done x s1 s2 IH H id o. unfold init_step in H. inv_ok. unfold line_map. rewrite foldl_snoc. cbn [fst snd].
    destruct (decide (ol_orderItemId x = id)) as [<-|Hne].
    + rewrite !lookup_insert_eq. intros [= <-]. by exists a, a0.
    + rewrite !lookup_insert_ne by done. apply IH.
  - intros id o. unfold line_map. cbn. by rewrite lookup_empty.
Qed.

(** What the pricing loop keeps for one order item. *)
Definition item_ok (o : OriginalOrderLineSnapshot) (id : string) (reqs : list ReturnLineRequest) (s : ReturnTotals) : Prop :=
  exists r0 f0, returned_millis o = Ok r0 /\ parseVndAmount (VNum (ol_alreadyRefundedAmount o)) true = Ok f0 /\
    rt_returned s !! id = Some (r0 + requested id reqs) /\
    rt_refunded s !! id = Some (f0 + refunded id (rt_lines s)) /\
    forall lt sold, parseVndAmount (VNum (ol_lineTotal o)) true = Ok lt -> parseQtyMillis (VStr (ol_soldQty o)) = Ok sold ->
      f0 <= lt ->
      Forall (fun l => rl_orderItemId l = id -> 0 <= nval (rl_refundAmount l)) (rt_lines s) /\
      f0 + refunded id (rt_lines s) <= lt /\
      (0 < requested id reqs -> r0 + requested id reqs = sold -> f0 + refunded id (rt_lines s) = lt).

(** A priced line against its request: identity, quantity, and the refund rule. *)
Definition return_line_ok (lineMap : gmap string OriginalOrderLineSnapshot) (r : ReturnLineRequest)
    (l : CalculatedReturnLine) : Prop :=
  rl_orderItemId l = rr_orderItemId r /\ rl_disposition l = rr_disposition r /\ rl_reason l = rr_reason r /\
  exists o lt m refund, lineMap !! rr_orderItemId r = Some o /\ parseVndAmount (VNum (ol_lineTotal o)) true = Ok lt /\
    parseQtyMillis (rr_returnQty r) = Ok m /\ rl_returnQty l = formatQtyMillis m /\
    rl_refundAmount l = int refund /\ 2 * Z.abs (m * nval (rl_unitRefundAmount l) - refund * 1000) <= m.

Lemma requested_snoc id reqs r m : parseQtyMillis (rr_returnQty r) = Ok m ->
  requested id (reqs ++ [r]) = requested id reqs + (if String.eqb (rr_orderItemId r) id then m else 0).
Proof. intros H. unfold requested. rewrite total_snoc. unfold req_millis. by rewrite H. Qed.

Lemma requested_nonneg id reqs : 0 <= requested id reqs.
Proof.
  apply total_nonneg. intros r _. destruct (String.eqb _ _); [|lia]. unfold req_millis.
  destruct (parseQtyMillis _) eqn:E; [|lia]. apply parseQtyMillis_pos in E. lia.
Qed.

Lemma refund_amount_bounds lt sold m new mx r : 0 <= lt -> 0 < m -> 0 <= mx ->
  refund_amount lt sold m new mx = Ok r -> 0 <= r <= mx /\ (new = sold -> r = mx).
Proof.
  intros Hlt Hm Hmx. unfold refund_amount. destruct (Z.eqb_spec new sold); intros H; inv_ok; [lia|].
  apply roundDiv_nonneg in Ha as [Hs ->]; [|nia]. pose proof (half_up_nonneg (lt * m) sold ltac:(nia) ltac:(lia)).
  split; [|lia]. destruct (Z.ltb_spec mx (half_up (lt * m) sold)); lia.
Qed.

Section Pricing.
Context (lineMap : gmap string OriginalOrderLineSnapshot)
  (Hmap : forall id o, lineMap !! id = Some o -> ol_orderItemId o = id).

Lemma return_step_inv s r s' : return_step lineMap s r = Ok s' ->
  exists o sold m prevRet lt prevRef refund l,
    lineMap !! rr_orderItemId r = Some o /\ parseQtyMillis (VStr (ol_soldQty o)) = Ok sold /\
    parseQtyMillis (rr_returnQty r) = Ok m /\ rt_returned s !! rr_orderItemId r = Some prevRet /\
    parseVndAmount (VNum (ol_lineTotal o)) true = Ok lt /\ rt_refunded s !! rr_orderItemId r = Some prevRef /\
    refund_amount lt sold m (prevRet + m) (lt - prevRef) = Ok refund /\
    return_line_ok lineMap r l /\ rl_refundAmount l = int refund /\
    s' = {| rt_returned := <[rr_orderItemId r := prevRet + m]> (rt_returned s);
            rt_refunded := <[rr_orderItemId r := prevRef + refund]> (rt_refunded s);
            rt_totalRefund := rt_totalRefund s + refund; rt_lines := rt_lines s ++ [l] |}.
Proof using Hmap.
  unfold return_step, get_line, get_total. intros H.
  destruct (lineMap !! rr_orderItemId r) as [o|] eqn:Eo; [|discriminate].
  rewrite bind_of_Ok in H. do 2 inv_ok_step.
  destruct (rt_returned s !! rr_orderItemId r) as [pr|] eqn:Er; [|discriminate]. rewrite bind_of_Ok in H. inv_ok_step.
  destruct (rt_refunded s !! rr_orderItemId r) as [pf|] eqn:Ef; [|discriminate]. rewrite bind_of_Ok in H. inv_ok.
  repeat match goal with Hv : vndNumber _ = Ok _ |- _ => apply vndNumber_Ok in Hv as [-> _] end.
  apply roundDiv_Ok in Ha3 as [_ Hu].
  eexists o, a, a0, pr, a1, pf, a2, _. split_and!; try done; [|reflexivity].
  unfold return_line_ok. cbn. split_and!; try done; [by apply Hmap|].
  exists o, a1, a0, a2. by split_and!.
Qed.

Lemma return_step_item s done r s' : return_step lineMap s r = Ok s' ->
  (forall id o, lineMap !! id = Some o -> item_ok o id done s) ->
  forall id o, lineMap !! id = Some o -> item_ok o id (done ++ [r]) s'.
Proof using Hmap.
  intros (o & sold & m & pr & lt & pf & refund & l & Eo & Es & Em & Er & Et & Ef & Ha & Hl & El & ->)%return_step_inv IH.
  destruct Hl as (Hid & _). intros id o' Ho'.
  destruct (IH id o' Ho') as (r0 & f0 & E1 & E2 & E3 & E4 & E5).
  exists r0, f0. cbn [rt_returned rt_refunded rt_lines]. rewrite (requested_snoc id done r m Em).
  assert (Hrf : refunded id (rt_lines s ++ [l]) = refunded id (rt_lines s) + if String.eqb (rr_orderItemId r) id then refund else 0).
  { unfold refunded. rewrite total_snoc, Hid, El. done. }
  rewrite Hrf. destruct (String.eqb_spec (rr_orderItemId r) id) as [E|E].
  - subst id. simplify_eq. rewrite !lookup_insert_eq. split_and!; [done | done | f_equal; lia | f_equal; lia|].
    intros lt' sold' Et' Es' Hle. rewrite Et in Et'. rewrite Es in Es'. injection Et' as <-. injection Es' as <-.
    destruct (E5 lt sold Et Es Hle) as (F1 & F2 & F3).
    apply parseQtyMillis_pos in Em as Hm. apply parseVndAmount_nonneg in Et as Hlt.
    apply refund_amount_bounds in Ha as [Hb Hfull]; [|lia..].
    split; [|split; [lia | intros _ Hs; specialize (Hfull ltac:(lia)); lia]].
    apply Forall_app. split; [done|]. constructor; [|constructor]. rewrite El. cbn. lia.
  - rewrite !lookup_insert_ne by done. rewrite !Z.add_0_r. split_and!; try done.
    intros lt' sold' ? ? Hle. destruct (E5 lt' sold') as (F1 & F2 & F3); [done..|]. split_and!; try done.
    apply Forall_app. split; [done|]. constructor; [|constructor]. congruence.
Qed.

Lemma return_loop reqs s s' : foldM (return_step lineMap) s reqs = Ok s' ->
  rt_lines s = [] -> rt_totalRefund s = 0 -> (forall id o, lineMap !! id = Some o -> item_ok o id [] s) ->
  (forall id o, lineMap !! id = Some o -> item_ok o id reqs s') /\
  rt_totalRefund s' = total (fun l => nval (rl_refundAmount l)) (rt_lines s') /\
  Forall2 (return_line_ok lineMap) reqs (rt_lines s').
Proof using Hmap.
  intros H Hl Ht Hi. revert H. apply (foldM_ind (fun done s => (forall id o, lineMap !! id = Some o -> item_ok o id done s) /\
    rt_totalRefund s = total (fun l => nval (rl_refundAmount l)) (rt_lines s) /\
    Forall2 (return_line_ok lineMap) done (rt_lines s))).
  - intros done r s1 s2 (IH1 & IH2 & IH3) Hs. split; [by eapply return_step_item|].
    apply return_step_inv in Hs as (o & sold & m & pr & lt & pf & refund & l & _ & _ & _ & _ & _ & _ & _ & Hok & El & ->).
    cbn [rt_totalRefund rt_lines]. rewrite total_snoc, IH2, El. split; [done|]. apply Forall2_app; [done | by constructor].
  - rewrite Hl, Ht. split_and!; [done | done | constructor].
Qed.
End Pricing.

Lemma all_returned_Ok ret origs b : all_returned ret origs = Ok b ->
  b = true <-> forall o, o ∈ origs -> exists sold, parseQtyMillis (VStr (ol_soldQty o)) = Ok sold /\
    default 0 (ret !! ol_orderItemId o) = sold.
Proof.
  induction origs as [|o origs IH]; cbn [all_returned]; intros H; inv_ok.
  - split; [intros _ o Ho; by apply not_elem_of_nil in Ho | done].
  - case_if_in H; bool_prop.
    + rewrite (IH H). split.
      * intros Hall o' [-> | Ho]%elem_of_cons; [by exists a | by apply Hall].
      * intros Hall o' Ho. apply Hall. by right.
    + inv_ok. split; [done|]. intros Hall. destruct (Hall o ltac:(left)) as (sold & Hs & Hd). congruence.
Qed.

Lemma calculateReturnRefund_inv origs reqs out : calculateReturnRefund origs reqs = Ok out ->
  exists m s, foldM (request_step (line_map origs)) [] reqs = Ok m /\ foldM (check_step (line_map origs)) tt m = Ok tt /\
    (forall id o, line_map origs !! id = Some o -> item_ok o id reqs s) /\
    Forall2 (return_line_ok (line_map origs)) reqs (cr_lines out) /\ cr_lines out = rt_lines s /\
    cr_totalRefundAmount out = int (total (fun l => nval (rl_refundAmount l)) (cr_lines out)) /\
    all_returned (rt_returned s) origs = Ok (cr_isFullOrderReturn out).
Proof.
  unfold calculateReturnRefund. intros H. destruct reqs as [|r0 reqs0]; [discriminate|].
  set (reqs := r0 :: reqs0) in *. clearbody reqs. inv_ok. destruct a1 as [ret ref]. inv_ok.
  apply vndNumber_Ok in Ha4 as [-> _]. destruct a0.
  eapply return_loop in Ha2 as (Hitem & Htot & Hlines); cbn [rt_lines rt_totalRefund]; try done.
  - exists a, a1. cbn. by rewrite <- Htot.
  - intros id o Ho. by apply line_map_id in Ho as [? _].
  - intros id o Ho. destruct (init_totals _ _ Ha1 id o Ho) as (x & y & E1 & E2 & E3 & E4).
    exists x, y. cbn [rt_returned rt_refunded rt_lines]. unfold requested, refunded, total. cbn.
    rewrite !Z.add_0_r. by split_and!.
Qed.

(** C25.  Returns can never give back more than was sold or paid.  For every
    accepted return and every order item in it: what was returned before plus
    what is returned now is at most the quantity sold; if no more than the line
    total was refunded before, every refund is non-negative, the cumulative
    refund is at most the line total, and it is exactly the line total when the
    whole quantity has come back, whatever the rounding of the earlier returns. *)
Theorem return_never_over_refunds (origs : list OriginalOrderLineSnapshot) (reqs : list ReturnLineRequest)
    (out : CalculatedReturnResult) (id : string) :
  calculateReturnRefund origs reqs = Ok out -> (exists r, r ∈ reqs /\ rr_orderItemId r = id) ->
  exists o sold ret0 lt f0, line_map origs !! id = Some o /\ line_figures o sold ret0 lt f0 /\
    0 < requested id reqs /\ ret0 + requested id reqs <= sold /\
    (f0 <= lt ->
       Forall (fun l => rl_orderItemId l = id -> 0 <= nval (rl_refundAmount l)) (cr_lines out) /\
       f0 + refunded id (cr_lines out) <= lt /\
       (ret0 + requested id reqs = sold -> f0 + refunded id (cr_lines out) = lt)).
Proof.
  intros (m & s & Hm & Hc & Hitem & Hlines & El & _ & _)%calculateReturnRefund_inv Hr.
  destruct (requests_coalesced _ _ _ Hm id) as [Hq Hs]. destruct (proj2 Hs Hr) as [q Eq].
  destruct (checked_bound _ _ id q Hc (mget_elem _ _ _ Eq)) as (o & sold & ret0 & Eo & Es & Ert & Hle).
  rewrite Eq in Hq. cbn in Hq. subst q.
  destruct (Hitem id o Eo) as (r0 & f0 & E1 & E2 & E3 & E4 & E5). rewrite Ert in E1. injection E1 as <-.
  destruct Hr as (r & Hin & <-). pose proof Hin as [i Hi]%list_elem_of_lookup.
  destruct (Forall2_lookup_l _ _ _ _ _ Hlines Hi) as (l & _ & _ & _ & _ & o' & lt & k & _ & Eo' & Elt & Ek & _).
  rewrite Eo in Eo'. injection Eo' as <-. assert (Hpos : 0 < requested (rr_orderItemId r) reqs).
  { apply parseQtyMillis_pos in Ek as Hk. eapply Z.lt_le_trans; [|apply (total_elem_le _ _ r); [|done]].
    - cbn. rewrite String.eqb_refl. unfold req_millis. by rewrite Ek.
    - intros x _. cbn. destruct (String.eqb _ _); [|lia]. unfold req_millis.
      destruct (parseQtyMillis (rr_returnQty x)) eqn:Ex; [|lia]. apply parseQtyMillis_pos in Ex. lia. }
  exists o, sold, ret0, lt, f0. split_and!; try done. intros Hf. rewrite El.
  destruct (E5 lt sold Elt Es Hf) as (F1 & F2 & F3). split_and!; auto.
Qed.

Definition sold_line (id sold ret : string) (total done : Z) : OriginalOrderLineSnapshot :=
  {| ol_orderItemId := id; ol_variantId := "v"; ol_skuCode := id; ol_productName := "p"; ol_soldQty := sold;
     ol_alreadyReturnedQty := ret; ol_unitPrice := int 1; ol_lineNet := int total; ol_taxAmount := int 0;
     ol_lineTotal := int total; ol_alreadyRefundedAmount := int done |}.
Definition give_back (id : string) (q : jsval) : ReturnLineRequest :=
  {| rr_orderItemId := id; rr_returnQty := q; rr_disposition := RESTOCK; rr_reason := None |}.

(** Three units for 100 VND, one already returned for 33: the last two in one request each. *)
Definition demo_sold : list OriginalOrderLineSnapshot := [sold_line "a" "3" "1.000" 100 33; sold_line "b" "1" "" 50 0].
Definition demo_returns : list ReturnLineRequest := [give_back "a" (VStr "1"); give_back "b" (VNum (int 1)); give_back "a" (VNum (int 1))].

Lemma return_never_over_refunds_witness : exists out, calculateReturnRefund demo_sold demo_returns = Ok out /\
  map (fun l => nval (rl_refundAmount l)) (cr_lines out) = [33; 50; 34] /\ refunded "a" (cr_lines out) <= 67.
Proof.
  eexists. split; [vm_compute; reflexivity|]. split; [reflexivity|].
  edestruct (return_never_over_refunds demo_sold demo_returns) with (id := "a") as (o & sold & ret0 & lt & f0 & Ho & [F1 F2 F3 F4] & _ & _ & H);
    [vm_compute; reflexivity | exists (give_back "a" (VStr "1")); split; [left | reflexivity]|].
  vm_compute in Ho. injection Ho as <-. vm_compute in F3. injection F3 as <-. vm_compute in F4. injection F4 as <-.
  destruct (H ltac:(lia)) as (_ & H2 & _). vm_compute in H2 |- *. exact H2.
Defined.

(** The result's totals: one priced line per request, in order, with the
    request's quantity and disposition; the total refund is the sum of the
    lines; and the return is reported as full exactly when every line of the
    order has been returned completely (before and now together). *)
Theorem return_totals_and_full_flag (origs : list OriginalOrderLineSnapshot) (reqs : list ReturnLineRequest)
    (out : CalculatedReturnResult) :
  NoDup (map ol_orderItemId origs) -> calculateReturnRefund origs reqs = Ok out ->
  Forall2 (return_line_ok (line_map origs)) reqs (cr_lines out) /\
  cr_totalRefundAmount out = int (total (fun l => nval (rl_refundAmount l)) (cr_lines out)) /\
  (cr_isFullOrderReturn out = true <-> forall o, o ∈ origs -> exists sold ret0,
     parseQtyMillis (VStr (ol_soldQty o)) = Ok sold /\ returned_millis o = Ok ret0 /\
     ret0 + requested (ol_orderItemId o) reqs = sold).
Proof.
  intros Hnd (m & s & Hm & Hc & Hitem & Hlines & El & Et & Hf)%calculateReturnRefund_inv.
  split_and!; [done..|]. rewrite (all_returned_Ok _ _ _ Hf).
  assert (Hmap : forall o, o ∈ origs -> line_map origs !! ol_orderItemId o = Some o).
  { clear - Hnd. unfold line_map. induction origs as [|x l IH] using rev_ind; intros o Ho; [by apply not_elem_of_nil in Ho|].
    rewrite map_app in Hnd. apply NoDup_app in Hnd as (Hl & Hx & _). rewrite foldl_snoc.
    apply elem_of_app in Ho as [Ho | ->%list_elem_of_singleton]; [|by rewrite lookup_insert_eq].
    rewrite lookup_insert_ne; [by apply IH|]. intros E. apply (Hx (ol_orderItemId o)); [by apply list_elem_of_fmap_2|].
    cbn. rewrite E. left. }
  apply forall_proper. intros o. split; intros H Ho; specialize (H Ho);
    destruct (Hitem _ o (Hmap o Ho)) as (r0 & f0 & E1 & _ & E3 & _).
  - destruct H as (sold & Hs & Hd). rewrite E3 in Hd. by exists sold, r0.
  - destruct H as (sold & ret0 & Hs & Hr & Hd). exists sold. rewrite E3. split; [done|]. cbn. congruence.
Qed.

Lemma return_totals_witness : exists out, calculateReturnRefund demo_sold demo_returns = Ok out /\
  cr_totalRefundAmount out = int 117 /\ cr_isFullOrderReturn out = true.
Proof.
  eexists. split; [vm_compute; reflexivity|]. split; [reflexivity|].
  edestruct (return_totals_and_full_flag demo_sold demo_returns) as (_ & _ & H);
    [apply (bool_decide_unpack _); vm_compute; exact I | vm_compute; reflexivity |].
  apply H. intros o. unfold demo_sold. rewrite !elem_of_cons.
  intros [-> | [-> | Ho]]; [exists 3000, 1000 | exists 1000, 0 | by apply not_elem_of_nil in Ho]; vm_compute; auto.
Defined.
