(* ===== verification/SalesOrder.v ===== *)
(** * Sales domain layer: the order state machine

    [validateOrderStateCombination], [assertCanCancelOrder] and the
    [OrderAggregate] class of apps/sales/src/domain/sales-domain.ts.  A method
    that mutates the aggregate returns the new state together with its outcome:
    the fields are assigned before the combination is validated, so the state
    after a throw is the assigned one. *)

From stdpp Require Import relations.
From S2P Require Import Prelude JsNumber JsString SalesMoney SalesPricing SalesTender.

Open Scope Z_scope.

Module Status.
Inductive CommercialOrderStatus := DRAFT | PENDING | CONFIRMED | CANCELLED | COMPLETED.
End Status.
Abbreviation CommercialOrderStatus := Status.CommercialOrderStatus.

Inductive OrderFulfillmentStatus := UNFULFILLED | RESERVED | PARTIALLY_FULFILLED | FULFILLED | RETURNED.

#[export] Instance CommercialOrderStatus_eq_dec : EqDecision CommercialOrderStatus.
Proof. solve_decision. Defined.
#[export] Instance OrderFulfillmentStatus_eq_dec : EqDecision OrderFulfillmentStatus.
Proof. solve_decision. Defined.

Definition validateOrderStateCombination (orderStatus : CommercialOrderStatus) (paymentStatus : OrderPaymentStatus)
    (fulfillmentStatus : OrderFulfillmentStatus) : res unit :=
  if bool_decide (orderStatus = Status.DRAFT) && negb (bool_decide (fulfillmentStatus = UNFULFILLED))
  then throw ORDER_INVALID_STATE 409
  else if bool_decide (orderStatus = Status.CANCELLED) &&
          (bool_decide (fulfillmentStatus = RESERVED) || bool_decide (fulfillmentStatus = FULFILLED))
  then throw ORDER_INVALID_STATE 409
  else if bool_decide (orderStatus = Status.COMPLETED) && negb (bool_decide (fulfillmentStatus = FULFILLED)) &&
          negb (bool_decide (fulfillmentStatus = RETURNED))
  then throw ORDER_INVALID_STATE 409
  else if bool_decide (orderStatus = Status.COMPLETED) && bool_decide (paymentStatus = UNPAID)
  then throw ORDER_INVALID_STATE 409
  else Ok tt.

Definition assertCanCancelOrder (orderStatus : CommercialOrderStatus) (fulfillmentStatus : OrderFulfillmentStatus)
    : res unit :=
  if bool_decide (orderStatus = Status.CANCELLED) then throw ORDER_ALREADY_CANCELLED 409
  else if bool_decide (orderStatus = Status.COMPLETED) || bool_decide (fulfillmentStatus = FULFILLED)
  then throw ORDER_ALREADY_COMPLETED 409
  else Ok tt.

Record OrderStateTransitionRecord := {
  fromOrderStatus : CommercialOrderStatus;
  toOrderStatus : CommercialOrderStatus;
  fromPaymentStatus : OrderPaymentStatus;
  toPaymentStatus : OrderPaymentStatus;
  fromFulfillmentStatus : OrderFulfillmentStatus;
  toFulfillmentStatus : OrderFulfillmentStatus;
  reason : string }.

(** Dates are instants in milliseconds. *)
Record OrderAggregate := {
  id : string;
  tenantId : string;
  code : string;
  orderStatus : CommercialOrderStatus;
  paymentStatus : OrderPaymentStatus;
  fulfillmentStatus : OrderFulfillmentStatus;
  version : number;
  warehouseId : option string;
  reservationId : option string;
  completedAt : option Z;
  cancelledAt : option Z;
  cancelReason : option string }.

Definition validate (o : OrderAggregate) : res unit :=
  validateOrderStateCombination (orderStatus o) (paymentStatus o) (fulfillmentStatus o).

(** [new OrderAggregate(...)]. *)
Definition construct (o : OrderAggregate) : res OrderAggregate := _ ← validate o; Ok o.

Definition legacyStatus (o : OrderAggregate) : string :=
  toLowerCase match orderStatus o with
  | Status.DRAFT => "DRAFT" | Status.PENDING => "PENDING" | Status.CONFIRMED => "CONFIRMED"
  | Status.CANCELLED => "CANCELLED" | Status.COMPLETED => "COMPLETED"
  end.

Definition editable_status (s : CommercialOrderStatus) : bool :=
  bool_decide (s = Status.DRAFT) || bool_decide (s = Status.PENDING).

Definition assertEditable (o : OrderAggregate) (expectedVersion : option number) : res unit :=
  if match expectedVersion with Some e => negb (neq (version o) e) | None => false end
  then throw RESOURCE_VERSION_CONFLICT 409
  else if negb (editable_status (orderStatus o)) then throw ORDER_INVALID_STATE 409
  else Ok tt.

Definition bumpVersion (o : OrderAggregate) : OrderAggregate :=
  {| id := id o; tenantId := tenantId o; code := code o; orderStatus := orderStatus o;
     paymentStatus := paymentStatus o; fulfillmentStatus := fulfillmentStatus o;
     version := nadd (version o) (int 1); warehouseId := warehouseId o; reservationId := reservationId o;
     completedAt := completedAt o; cancelledAt := cancelledAt o; cancelReason := cancelReason o |}.

Definition assertCanConfirm (o : OrderAggregate) : res unit :=
  if negb (editable_status (orderStatus o)) then throw ORDER_INVALID_STATE 409 else Ok tt.

(** Validate the assigned state, bump the version and report the transition:
    the common tail of the three transition methods. *)
Definition commit_transition (before after : OrderAggregate) (why : string)
    : OrderAggregate * res OrderStateTransitionRecord :=
  match validate after with
  | Throw e => (after, Throw e)
  | Ok _ =>
      (bumpVersion after,
       Ok {| fromOrderStatus := orderStatus before; toOrderStatus := orderStatus after;
             fromPaymentStatus := paymentStatus after; toPaymentStatus := paymentStatus after;
             fromFulfillmentStatus := fulfillmentStatus before; toFulfillmentStatus := fulfillmentStatus after;
             reason := why |})
  end.

Definition confirmWithReservation (o : OrderAggregate) (warehouse reservation : string)
    : OrderAggregate * res OrderStateTransitionRecord :=
  match assertCanConfirm o with
  | Throw e => (o, Throw e)
  | Ok _ =>
      commit_transition o
        {| id := id o; tenantId := tenantId o; code := code o; orderStatus := Status.CONFIRMED;
           paymentStatus := paymentStatus o; fulfillmentStatus := RESERVED; version := version o;
           warehouseId := Some warehouse; reservationId := Some reservation; completedAt := completedAt o;
           cancelledAt := cancelledAt o; cancelReason := cancelReason o |}
        "ORDER_CONFIRMED_AND_RESERVED"
  end.

Definition cancel (o : OrderAggregate) (why : option string) (now : Z)
    : OrderAggregate * res OrderStateTransitionRecord :=
  match assertCanCancelOrder (orderStatus o) (fulfillmentStatus o) with
  | Throw e => (o, Throw e)
  | Ok _ =>
      commit_transition o
        {| id := id o; tenantId := tenantId o; code := code o; orderStatus := Status.CANCELLED;
           paymentStatus := paymentStatus o; fulfillmentStatus := UNFULFILLED; version := version o;
           warehouseId := warehouseId o; reservationId := reservationId o; completedAt := completedAt o;
           cancelledAt := Some now; cancelReason := Some (default "CANCELLED_BY_USER" why) |}
        (default "ORDER_CANCELLED" why)
  end.

Definition assertCanCreateFulfillment (o : OrderAggregate) : res unit :=
  if bool_decide (orderStatus o = Status.CANCELLED) || bool_decide (orderStatus o = Status.DRAFT)
  then throw FULFILLMENT_INVALID_STATE 409 else Ok tt.

Definition markFulfilled (o : OrderAggregate) (fulfillmentCode : string) (now : Z)
    : OrderAggregate * res OrderStateTransitionRecord :=
  let paid := bool_decide (paymentStatus o = PAID) in
  commit_transition o
    {| id := id o; tenantId := tenantId o; code := code o;
       orderStatus := if paid then Status.COMPLETED else orderStatus o;
       paymentStatus := paymentStatus o; fulfillmentStatus := FULFILLED; version := version o;
       warehouseId := warehouseId o; reservationId := reservationId o;
       completedAt := if paid then Some now else completedAt o;
       cancelledAt := cancelledAt o; cancelReason := cancelReason o |}
    ("FULFILLMENT_CONFIRMED:" +:+ fulfillmentCode).

(** * Properties *)

(** ** The successful calls as a step relation *)

Inductive order_step : OrderAggregate -> OrderAggregate -> Prop :=
| step_confirm o w r o' t : confirmWithReservation o w r = (o', Ok t) -> order_step o o'
| step_cancel o why now o' t : cancel o why now = (o', Ok t) -> order_step o o'
| step_fulfil o c now o' t : markFulfilled o c now = (o', Ok t) -> order_step o o'.

(** How far an order has progressed.  CANCELLED ranks below COMPLETED because the
    aggregate allows that move: [markFulfilled] of a cancelled order completes it
    (sales-domain.ts:1365). *)
Definition progress (s : CommercialOrderStatus) : Z :=
  match s with
  | Status.DRAFT | Status.PENDING => 0 | Status.CONFIRMED => 1 | Status.CANCELLED => 2 | Status.COMPLETED => 3
  end.

Definition valid (o : OrderAggregate) : Prop := validate o = Ok tt.

Section Steps.
Lemma commit_transition_Ok a b why o t : commit_transition a b why = (o, Ok t) ->
  valid b /\ o = bumpVersion b /\ fromOrderStatus t = orderStatus a /\ toOrderStatus t = orderStatus b /\
  fromFulfillmentStatus t = fulfillmentStatus a /\ toFulfillmentStatus t = fulfillmentStatus b /\ reason t = why.
Proof.
  unfold commit_transition, valid. destruct (validate b) as [[]|]; [|discriminate]. intros [= <- <-]. done.
Qed.

Lemma valid_bump o : valid (bumpVersion o) <-> valid o.
Proof. done. Qed.

(** A step: what it requires and what it does to the three dimensions. *)
Lemma order_step_inv o o' : order_step o o' ->
  valid o' /\ version o' = nadd (version o) (int 1) /\ id o' = id o /\ tenantId o' = tenantId o /\
  paymentStatus o' = paymentStatus o /\
  ((orderStatus o' = Status.CONFIRMED /\ fulfillmentStatus o' = RESERVED /\ editable_status (orderStatus o) = true /\
      is_Some (warehouseId o') /\ is_Some (reservationId o')) \/
   (orderStatus o' = Status.CANCELLED /\ fulfillmentStatus o' = UNFULFILLED /\ orderStatus o <> Status.CANCELLED /\
      orderStatus o <> Status.COMPLETED /\ fulfillmentStatus o <> FULFILLED /\ is_Some (cancelledAt o')) \/
   (fulfillmentStatus o' = FULFILLED /\ reservationId o' = reservationId o /\
      (paymentStatus o = PAID /\ orderStatus o' = Status.COMPLETED /\ is_Some (completedAt o') \/
       paymentStatus o <> PAID /\ orderStatus o' = orderStatus o))).
Proof.
  destruct 1 as [o w r o' t H | o why now o' t H | o c now o' t H].
  - unfold confirmWithReservation, assertCanConfirm in H.
    destruct (editable_status (orderStatus o)) eqn:E; [|discriminate].
    apply commit_transition_Ok in H as (Hv & -> & _). split; [done|]. cbn. split_and!; try done. left. split_and!; done.
  - unfold cancel, assertCanCancelOrder in H. case_bool_decide; [discriminate|].
    case_bool_decide; [discriminate|]. case_bool_decide; [discriminate|].
    apply commit_transition_Ok in H as (Hv & -> & _). split; [done|]. cbn. split_and!; try done. right. left. split_and!; done.
  - unfold markFulfilled in H. apply commit_transition_Ok in H as (Hv & -> & _). split; [done|]. cbn.
    split_and!; try done. right. right. split; [done|]. split; [done|]. case_bool_decide; [left | right]; split_and!; done.
Qed.

Lemma order_step_progress o o' : order_step o o' -> progress (orderStatus o) <= progress (orderStatus o').
Proof.
  intros (_ & _ & _ & _ & _ & H)%order_step_inv. destruct H as [(-> & _ & H & _) | [(-> & _ & H1 & H2 & _) | (_ & _ & H)]].
  - by destruct (orderStatus o).
  - by destruct (orderStatus o).
  - destruct H as [(_ & -> & _) | [_ ->]]; [by destruct (orderStatus o) | lia].
Qed.
End Steps.

#[export] Hint Resolve order_step_progress : pbl.

(** C26.  Every order the aggregate can reach is in a legal combination of the
    three statuses.  From a constructed order, through any sequence of
    successful transitions: the combination stays valid (no fulfilled draft, no
    cancelled order that still holds or shipped stock, a completed order is
    fulfilled and not unpaid), the payment status and identity are untouched,
    the commercial status never goes back along draft or pending, confirmed,
    cancelled, completed (in this order, so that a cancelled order that is completed,
    which the aggregate allows, counts as a step forward), and each transition adds
    one to the version. *)
Theorem order_reachable_states_valid (o o' : OrderAggregate) (n : nat) (v : Z) :
  construct o = Ok o -> nsteps order_step n o o' ->
  version o = int v -> 0 <= v -> v + Z.of_nat n <= 2 ^ 53 ->
  valid o' /\ id o' = id o /\ paymentStatus o' = paymentStatus o /\
  progress (orderStatus o) <= progress (orderStatus o') /\ version o' = int (v + Z.of_nat n) /\
  (orderStatus o' = Status.CANCELLED -> fulfillmentStatus o' <> RESERVED /\ fulfillmentStatus o' <> FULFILLED) /\
  (orderStatus o' = Status.COMPLETED ->
     (fulfillmentStatus o' = FULFILLED \/ fulfillmentStatus o' = RETURNED) /\ paymentStatus o' <> UNPAID) /\
  (orderStatus o' = Status.DRAFT -> fulfillmentStatus o' = UNFULFILLED).
Proof.
  intros Hc Hn Hv H0 Hmax.
  assert (Hinit : valid o) by (unfold construct in Hc; inv_ok; unfold valid; by destruct a).
  assert (Hmain : valid o' /\ id o' = id o /\ paymentStatus o' = paymentStatus o /\
    progress (orderStatus o) <= progress (orderStatus o') /\ version o' = int (v + Z.of_nat n)).
  { clear Hc. revert v Hv H0 Hmax. induction Hn as [o | n o o1 o' Hs Hn IH]; intros v Hv H0 Hmax.
    - split_and!; try done. by rewrite Hv, Z.add_0_r.
    - pose proof (order_step_progress _ _ Hs). apply order_step_inv in Hs as (Hv1 & Ev & Ei & _ & Ep & _).
      destruct (IH Hv1 (v + 1)) as (I1 & I2 & I3 & I4 & I5); [rewrite Ev, Hv, nadd_int by lia; done | lia | lia |].
      split_and!; try congruence; [lia|]. rewrite I5. f_equal. lia. }
  destruct Hmain as (Hvalid & ? & ? & ? & ?). split_and!; try done;
    unfold valid, validate, validateOrderStateCombination in Hvalid;
    intros E; rewrite E in Hvalid; cbn in Hvalid;
    destruct (fulfillmentStatus o'), (paymentStatus o'); cbn in Hvalid; (split || idtac);
    solve [discriminate | done | by left | by right].
Qed.

Definition demo_order_aggregate (s : CommercialOrderStatus) (p : OrderPaymentStatus) (f : OrderFulfillmentStatus) : OrderAggregate :=
  {| id := "o"; tenantId := "t"; code := "DH1"; orderStatus := s; paymentStatus := p; fulfillmentStatus := f;
     version := int 1; warehouseId := None; reservationId := None; completedAt := None; cancelledAt := None;
     cancelReason := None |}.

Lemma order_reachable_states_witness : exists o',
  nsteps order_step 2 (demo_order_aggregate Status.PENDING PAID UNFULFILLED) o' /\ orderStatus o' = Status.COMPLETED /\
  version o' = int 3.
Proof.
  set (o0 := demo_order_aggregate Status.PENDING PAID UNFULFILLED).
  set (o1 := fst (confirmWithReservation o0 "w" "r")). set (o2 := fst (markFulfilled o1 "F1" 0)).
  assert (Hn : nsteps order_step 2 o0 o2).
  { eapply nsteps_l; [eapply (step_confirm o0 "w" "r"); reflexivity|].
    eapply nsteps_l; [eapply (step_fulfil o1 "F1" 0); reflexivity|]. constructor. }
  exists o2. split; [exact Hn|]. split; [reflexivity|].
  apply (order_reachable_states_valid o0 o2 2 1); [reflexivity | exact Hn | reflexivity | lia | lia].
Defined.

Definition succeeds {A} (r : OrderAggregate * res A) : bool := is_ok r.2.

(** When each transition is allowed, for a legal order: confirming exactly
    from DRAFT or PENDING, cancelling exactly before completion and shipment
    and not twice, fulfilling exactly when the order is paid or is neither a
    draft nor cancelled; a refused confirmation or cancellation leaves the order
    as it was. *)
Theorem order_transitions_enabled (o : OrderAggregate) (w r c : string) (why : option string) (now : Z) :
  valid o ->
  (succeeds (confirmWithReservation o w r) = editable_status (orderStatus o)) /\
  (succeeds (cancel o why now) = true <->
     orderStatus o <> Status.CANCELLED /\ orderStatus o <> Status.COMPLETED /\ fulfillmentStatus o <> FULFILLED) /\
  (succeeds (markFulfilled o c now) = true <->
     paymentStatus o = PAID \/ (orderStatus o <> Status.DRAFT /\ orderStatus o <> Status.CANCELLED)) /\
  (succeeds (confirmWithReservation o w r) = false -> fst (confirmWithReservation o w r) = o) /\
  (succeeds (cancel o why now) = false -> fst (cancel o why now) = o).
Proof.
  intros Hv. unfold valid, validate in Hv.
  unfold succeeds, confirmWithReservation, assertCanConfirm, cancel, assertCanCancelOrder, markFulfilled,
    commit_transition, validate.
  destruct o as [i t cd os ps fs v wh rs ca cl cr].
  cbn [orderStatus paymentStatus fulfillmentStatus] in *.
  split_and!; destruct os, ps, fs; cbn in Hv |- *; try discriminate; try done;
    (split; [intros H; first [discriminate H | by left | right; split; discriminate | split_and!; discriminate]
            | intuition congruence]).
Qed.

Lemma order_transitions_enabled_witness :
  succeeds (cancel (demo_order_aggregate Status.CONFIRMED PAID RESERVED) None 0) = true /\
  succeeds (confirmWithReservation (demo_order_aggregate Status.CONFIRMED PAID RESERVED) "w" "r") = false.
Proof.
  destruct (order_transitions_enabled (demo_order_aggregate Status.CONFIRMED PAID RESERVED) "w" "r" "c" None 0)
    as (H1 & H2 & _); [reflexivity|].
  split; [apply H2; repeat split; discriminate | exact H1].
Defined.

(** Fulfilment has no commercial guard: a paid order that was confirmed and
    then cancelled (its stock released) is completed by a later
    [markFulfilled], while its cancellation date and reason stay set; a paid
    draft is completed too, without any reservation. *)
Theorem fulfilment_completes_cancelled_paid_order (o : OrderAggregate) (w r c : string) (why : option string) (t1 t2 : Z) :
  editable_status (orderStatus o) = true -> paymentStatus o = PAID ->
  let confirmed := fst (confirmWithReservation o w r) in
  let cancelled := fst (cancel confirmed why t1) in
  let fulfilled := fst (markFulfilled cancelled c t2) in
  orderStatus cancelled = Status.CANCELLED /\ fulfillmentStatus cancelled = UNFULFILLED /\
  succeeds (markFulfilled cancelled c t2) = true /\
  orderStatus fulfilled = Status.COMPLETED /\ fulfillmentStatus fulfilled = FULFILLED /\
  cancelledAt fulfilled = Some t1 /\ completedAt fulfilled = Some t2 /\
  orderStatus (fst (markFulfilled o c t2)) = Status.COMPLETED.
Proof.
  intros He Hp. destruct o as [i t cd os ps fs v wh rs ca cl cr]. cbn [orderStatus paymentStatus] in *. subst ps.
  destruct os; try discriminate; cbv zeta; split_and!; reflexivity.
Qed.

Lemma fulfilment_completes_cancelled_witness :
  let o := demo_order_aggregate Status.DRAFT PAID UNFULFILLED in
  orderStatus (fst (markFulfilled (fst (cancel (fst (confirmWithReservation o "w" "r")) None 1)) "F1" 2)) = Status.COMPLETED.
Proof.
  exact (proj1 (proj2 (proj2 (proj2 (fulfilment_completes_cancelled_paid_order
    (demo_order_aggregate Status.DRAFT PAID UNFULFILLED) "w" "r" "F1" None 1 2 eq_refl eq_refl))))).
Defined.
