(* ===== verification/CashShifts.v ===== *)
(** * Sales service: cash shifts

    apps/sales/src/modules/shifts: the cash ledger (cash-ledger.ts), the cash
    settings (cash-settings.service.ts) and the shift service (shifts.service.ts):
    opening, counting, closing, approval and sending back of a drawer, pay-ins and
    pay-outs; and the places where checkouts, payments and refunds put cash into a
    drawer.

    A handler is one transaction; it locks the shift row first, so it is atomic.
    Money columns are [bigint] and read back through [toMoney], which refuses what
    is not a safe integer.  A DTO integer is the value of the JS number.  [now] is
    the clock of the database, fresh ids are arguments.  Text widths are left out,
    and so are the columns the shift service does not use. *)

From S2P Require Import Prelude Transaction JsNumber JsString SalesMoney SalesPricing SalesTender.
From Stdlib Require Import Ascii.

Open Scope Z_scope.

(** ** Errors *)

(** A [SalesDomainError], a [NotFoundException] of Nest, a violated unique
    constraint (SQLSTATE 23505) or another failed statement. *)
Inductive ShiftError := Rule (code : SalesDomainErrorCode) | NotFound (errorCode : string) | UniqueViolation | QueryFailed.

(** ** Tables *)

Definition as_uuid (s : string) : string := toLowerCase s.

(** A row of a tenant: tenant and id. *)
Abbreviation key := (string * string)%type.

Inductive ShiftStatus := OPEN | PENDING_CLOSE | PENDING_APPROVAL | CLOSED.
#[export] Instance ShiftStatus_eq_dec : EqDecision ShiftStatus.
Proof. solve_decision. Defined.

(** An element of [close_history]. *)
Inductive CloseStep :=
| StepCounted (by_ : string) (at_ countedTotal expectedCash variance : Z) (denominations : list (string * number))
| StepCloseRequested (by_ : string) (at_ variance : Z) (reason note : option string)
| StepClosed (approved : bool) (by_ : string) (at_ variance : Z) (reason entryId : option string)
| StepSentBack (by_ : string) (at_ : Z) (note : string) (countedTotal : option Z) (denominations : option (list (string * number))) (countedBy : option string).

Record ShiftRow := {
  sh_code : string; sh_branch : string; sh_register : string; sh_registerId : option string; sh_staff : string; sh_status : ShiftStatus;
  sh_opening : Z; sh_sales : Z; sh_refunds : Z; sh_expected : Z; sh_actual : option Z; sh_variance : option Z;
  sh_openNote : option string; sh_closeNote : option string; sh_closedBy : option string; sh_openedAt : Z; sh_closedAt : option Z;
  sh_version : Z; sh_denominations : option (list (string * number)); sh_countedBy : option string; sh_countedAt : option Z;
  sh_reason : option string; sh_varianceNote : option string; sh_requestedBy : option string; sh_requestedAt : option Z;
  sh_approvedBy : option string; sh_approvedAt : option Z; sh_responsibility : option string; sh_plannedEnd : option Z;
  sh_history : list CloseStep }.

Inductive CashEntryKind := CASH_SALE | CASH_REFUND | PAY_IN | PAY_OUT | CASH_SHORTAGE | CASH_OVERAGE | REVERSAL.
#[export] Instance CashEntryKind_eq_dec : EqDecision CashEntryKind.
Proof. solve_decision. Defined.

Definition kind_name (k : CashEntryKind) : string :=
  match k with
  | CASH_SALE => "CASH_SALE" | CASH_REFUND => "CASH_REFUND" | PAY_IN => "PAY_IN" | PAY_OUT => "PAY_OUT"
  | CASH_SHORTAGE => "CASH_SHORTAGE" | CASH_OVERAGE => "CASH_OVERAGE" | REVERSAL => "REVERSAL"
  end.

Record EntryRow := {
  en_id : string; en_tenant : string; en_shift : string; en_branch : string; en_kind : CashEntryKind; en_amount : Z; en_reason : option string;
  en_note : option string; en_order : option string; en_return : option string; en_tender : option string; en_staff : string; en_at : Z;
  en_source : string }.

Record CashSettings := {
  cs_tolerance : Z; cs_approvalAbove : Z; cs_responsibility : string; cs_maxOpenHours : Z; cs_maxFloat : Z; cs_denominations : list Z }.

Record RegisterRow := { rg_id : string; rg_tenant : string; rg_branch : string; rg_code : string; rg_status : string }.

(** The columns of [checkout_workflow] and [pos_drafts] that a close looks at. *)
Record WorkflowRow := { wf_tenant : string; wf_shift : option string; wf_state : string }.
Record DraftRow := { df_tenant : string; df_shift : option string; df_status : string; df_expiresAt : Z }.

Inductive ShiftEvent :=
| ShiftOpened (shiftId code branchId staffId : string) (openingCash occurredAt : Z)
| ShiftClosed (shiftId code branchId staffId : string) (openingCash expectedCash actualCash variance : Z) (reason note responsibility : option string)
    (countedBy closedBy approvedBy varianceEntryId : option string) (occurredAt : Z).

Record db := {
  pos_shifts : gmap key ShiftRow; cash_entries : list EntryRow; cash_setting : gmap string CashSettings; sequences : gmap key Z;
  branch_projection : gmap key string; registers : list RegisterRow; workflows : list WorkflowRow; drafts : list DraftRow; outbox : list ShiftEvent }.

Abbreviation tx := (txn db ShiftError).

Definition rule {A} (c : SalesDomainErrorCode) (status : Z) : tx A := fail (Rule c) status.
Definition not_found {A} (errorCode : string) : tx A := fail (NotFound errorCode) 404.
Definition unique_violation {A} : tx A := fail UniqueViolation 500.
Definition query_failed {A} : tx A := fail QueryFailed 500.
Definition domain {A} (r : res A) : tx A := embed Rule r.

(** ** Columns *)

Definition int4 (z : Z) : bool := (- 2 ^ 31 <=? z) && (z <? 2 ^ 31).
Definition int8 (z : Z) : bool := (- 2 ^ 63 <=? z) && (z <? 2 ^ 63).

(** CHK_pos_shifts_non_negative, CHK_pos_shifts_responsibility and the widths. *)
Definition check_shift (s : ShiftRow) : bool :=
  (0 <=? sh_opening s) && (0 <=? sh_sales s) && (0 <=? sh_refunds s) && int8 (sh_opening s) && int8 (sh_sales s) && int8 (sh_refunds s) &&
  int8 (sh_expected s) && int8 (default 0 (sh_actual s)) && int8 (default 0 (sh_variance s)) && int4 (sh_version s) &&
  match sh_responsibility s with None => true | Some r => includes CASH_RESPONSIBILITIES r end.

(** CHK_pos_shift_cash_entry_sign and CHK_pos_shift_cash_entry_reason. *)
Definition check_entry (e : EntryRow) : bool :=
  negb (en_amount e =? 0) && int8 (en_amount e) &&
  match en_kind e with
  | CASH_SALE | PAY_IN | CASH_OVERAGE => 0 <? en_amount e
  | CASH_REFUND | PAY_OUT | CASH_SHORTAGE => en_amount e <? 0
  | REVERSAL => true
  end &&
  match en_kind e with
  | PAY_IN | PAY_OUT | CASH_REFUND | CASH_SHORTAGE | REVERSAL => bool_decide (is_Some (en_reason e))
  | _ => true
  end.

(** CHK_cash_setting_numbers and CHK_cash_setting_responsibility. *)
Definition check_settings (s : CashSettings) : bool :=
  (0 <=? cs_tolerance s) && (cs_tolerance s <=? cs_approvalAbove s) && (0 <? cs_maxOpenHours s) && (0 <=? cs_maxFloat s) &&
  int8 (cs_tolerance s) && int8 (cs_approvalAbove s) && int4 (cs_maxOpenHours s) && int8 (cs_maxFloat s) &&
  includes CASH_RESPONSIBILITIES (cs_responsibility s).

(** ** Statements *)

Definition set_shift (k : key) (s : ShiftRow) (d : db) : db :=
  {| pos_shifts := <[k := s]> (pos_shifts d); cash_entries := cash_entries d; cash_setting := cash_setting d; sequences := sequences d;
     branch_projection := branch_projection d; registers := registers d; workflows := workflows d; drafts := drafts d; outbox := outbox d |}.

Definition add_entry (e : EntryRow) (d : db) : db :=
  {| pos_shifts := pos_shifts d; cash_entries := cash_entries d ++ [e]; cash_setting := cash_setting d; sequences := sequences d;
     branch_projection := branch_projection d; registers := registers d; workflows := workflows d; drafts := drafts d; outbox := outbox d |}.

Definition set_settings (t : string) (s : CashSettings) (d : db) : db :=
  {| pos_shifts := pos_shifts d; cash_entries := cash_entries d; cash_setting := <[t := s]> (cash_setting d); sequences := sequences d;
     branch_projection := branch_projection d; registers := registers d; workflows := workflows d; drafts := drafts d; outbox := outbox d |}.

Definition set_sequence (k : key) (n : Z) (d : db) : db :=
  {| pos_shifts := pos_shifts d; cash_entries := cash_entries d; cash_setting := cash_setting d; sequences := <[k := n]> (sequences d);
     branch_projection := branch_projection d; registers := registers d; workflows := workflows d; drafts := drafts d; outbox := outbox d |}.

Definition add_event (e : ShiftEvent) (d : db) : db :=
  {| pos_shifts := pos_shifts d; cash_entries := cash_entries d; cash_setting := cash_setting d; sequences := sequences d;
     branch_projection := branch_projection d; registers := registers d; workflows := workflows d; drafts := drafts d; outbox := outbox d ++ [e] |}.

Definition outbox_add (e : ShiftEvent) : tx unit := modify (add_event e).

Definition find_shift (k : key) : tx (option ShiftRow) := gets (fun d : db => pos_shifts d !! k).

(** UPDATE of a row that exists. *)
Definition update_shift (k : key) (s : ShiftRow) : tx unit := if check_shift s then modify (set_shift k s) else query_failed.

Definition is_active (s : ShiftRow) : bool :=
  match sh_status s with OPEN | PENDING_CLOSE | PENDING_APPROVAL => true | CLOSED => false end.

(** UQ_pos_shifts_active_register. *)
Definition same_register (t : string) (s : ShiftRow) (e : key * ShiftRow) : bool :=
  String.eqb e.1.1 t && is_active e.2 && String.eqb (sh_branch e.2) (sh_branch s) && String.eqb (sh_register e.2) (sh_register s).

Definition insert_shift (k : key) (s : ShiftRow) : tx unit :=
  clash ← gets (fun d => existsb (fun e : key * ShiftRow => String.eqb e.1.2 k.2 || (String.eqb e.1.1 k.1 && String.eqb (sh_code e.2) (sh_code s)) ||
    (is_active s && same_register k.1 s e)) (map_to_list (pos_shifts d)));
  if (clash : bool) then unique_violation else if check_shift s then modify (set_shift k s) else query_failed.

Definition of_source (t source : string) (e : EntryRow) : bool := String.eqb (en_tenant e) t && String.eqb (en_source e) source.

Definition insert_entry (e : EntryRow) : tx unit :=
  entries ← gets cash_entries;
  if existsb (of_source (en_tenant e) (en_source e)) entries || existsb (fun e' => String.eqb (en_id e') (en_id e)) entries then unique_violation
  else if check_entry e then modify (add_entry e) else query_failed.

Definition of_shift (k : key) (e : EntryRow) : bool := String.eqb (en_tenant e) k.1 && String.eqb (en_shift e) k.2.

Definition entries_of (k : key) (d : db) : list EntryRow := List.filter (of_shift k) (cash_entries d).

(** ** Shared helpers *)

(** common/money.ts: a [bigint] column as a JS number. *)
Definition toMoney (z : Z) : tx Z := if Z.abs z <=? MAX_SAFE_INTEGER then mret z else plain_error.
Definition toMoneyOrNull (z : option Z) : tx (option Z) := match z with None => mret None | Some z => n ← toMoney z; mret (Some n) end.

(** presentation/access.ts. *)
Abbreviation BranchScope := (option (list string)).
Definition branchAllowed (scope : BranchScope) (branchId : string) : bool :=
  match scope with None => true | Some l => negb (String.eqb branchId "") && existsb (String.eqb branchId) l end.

(** cash-settings.service.ts. *)
Definition DEFAULT_CASH_SETTINGS : CashSettings :=
  {| cs_tolerance := 10000; cs_approvalAbove := 10000; cs_responsibility := "none"; cs_maxOpenHours := 16; cs_maxFloat := 5000000;
     cs_denominations := map nval DEFAULT_CASH_DENOMINATIONS |}.

Definition loadCashSettings (tenantId : string) : tx CashSettings :=
  row ← gets (fun d : db => cash_setting d !! tenantId);
  match row with
  | None => mret DEFAULT_CASH_SETTINGS
  | Some s => _ ← toMoney (cs_tolerance s); _ ← toMoney (cs_approvalAbove s); _ ← toMoney (cs_maxFloat s); mret s
  end.

Definition safe (z : Z) : bool := Z.abs z <=? MAX_SAFE_INTEGER.

Definition validateCashSettings (s : CashSettings) : tx unit :=
  if negb (safe (cs_tolerance s)) || (cs_tolerance s <? 0) || negb (safe (cs_approvalAbove s)) || (cs_approvalAbove s <? 0) ||
     negb (safe (cs_maxFloat s)) || (cs_maxFloat s <? 0) then rule CASH_SETTINGS_INVALID 400
  else if cs_approvalAbove s <? cs_tolerance s then rule CASH_SETTINGS_INVALID 400
  else if cs_maxOpenHours s <? 1 then rule CASH_SETTINGS_INVALID 400
  else if negb (includes CASH_RESPONSIBILITIES (cs_responsibility s)) then rule CASH_SETTINGS_INVALID 400
  else if bool_decide (cs_denominations s = []) || existsb (fun v => negb (safe v) || (v <=? 0)) (cs_denominations s) ||
          negb (bool_decide (NoDup (cs_denominations s))) then rule CASH_SETTINGS_INVALID 400
  else mret tt.

Record UpdateCashSettingsDto := {
  uc_tolerance : option Z; uc_approvalAbove : option Z; uc_responsibility : option string; uc_maxOpenHours : option Z; uc_maxFloat : option Z;
  uc_denominations : option (list Z) }.

Definition updateCashSettings (tenantId : string) (dto : UpdateCashSettingsDto) : tx CashSettings :=
  row ← gets (fun d : db => cash_setting d !! tenantId);
  _ ← match row with Some _ => mret tt | None => modify (set_settings tenantId DEFAULT_CASH_SETTINGS) end;
  current ← loadCashSettings tenantId;
  let next := {| cs_tolerance := default (cs_tolerance current) (uc_tolerance dto);
                 cs_approvalAbove := default (cs_approvalAbove current) (uc_approvalAbove dto);
                 cs_responsibility := default (cs_responsibility current) (uc_responsibility dto);
                 cs_maxOpenHours := default (cs_maxOpenHours current) (uc_maxOpenHours dto);
                 cs_maxFloat := default (cs_maxFloat current) (uc_maxFloat dto);
                 cs_denominations := default (cs_denominations current) (uc_denominations dto) |} in
  _ ← validateCashSettings next;
  if check_settings next then _ ← modify (set_settings tenantId next); mret next else query_failed.

(** infrastructure/persistence/sales-code.generator.ts; [datePart] is the UTC day. *)
Definition nextTenantDocumentCode (tenantId docPrefix datePart : string) : tx string :=
  let seqKey := docPrefix +:+ ":" +:+ datePart in
  last ← gets (fun d : db => sequences d !! (tenantId, seqKey));
  let n := match last with Some n => n + 1 | None => 1 end in
  _ ← modify (set_sequence (tenantId, seqKey) n);
  mret (docPrefix +:+ "-" +:+ datePart +:+ "-" +:+ padStart 6 "0"%char (Z_string n)).

(** ** The cash ledger (cash-ledger.ts) *)

Record CashEntryInput := {
  ci_shift : string; ci_kind : CashEntryKind; ci_amount : Z; ci_reason : option string; ci_note : option string; ci_order : option string;
  ci_return : option string; ci_tender : option string; ci_staff : option string; ci_source : string }.

Record EntryResult := { er_entryId : string; er_replayed : bool; er_branch : string }.

Definition moved (s : ShiftRow) (kind : CashEntryKind) (amount : Z) : ShiftRow :=
  {| sh_code := sh_code s; sh_branch := sh_branch s; sh_register := sh_register s; sh_registerId := sh_registerId s; sh_staff := sh_staff s;
     sh_status := sh_status s; sh_opening := sh_opening s; sh_sales := sh_sales s + match kind with CASH_SALE => amount | _ => 0 end;
     sh_refunds := sh_refunds s + match kind with CASH_REFUND => - amount | _ => 0 end; sh_expected := sh_expected s + amount;
     sh_actual := sh_actual s; sh_variance := sh_variance s; sh_openNote := sh_openNote s; sh_closeNote := sh_closeNote s;
     sh_closedBy := sh_closedBy s; sh_openedAt := sh_openedAt s; sh_closedAt := sh_closedAt s; sh_version := sh_version s + 1;
     sh_denominations := sh_denominations s; sh_countedBy := sh_countedBy s; sh_countedAt := sh_countedAt s; sh_reason := sh_reason s;
     sh_varianceNote := sh_varianceNote s; sh_requestedBy := sh_requestedBy s; sh_requestedAt := sh_requestedAt s;
     sh_approvedBy := sh_approvedBy s; sh_approvedAt := sh_approvedAt s; sh_responsibility := sh_responsibility s;
     sh_plannedEnd := sh_plannedEnd s; sh_history := sh_history s |}.

Definition new_entry (tenantId : string) (input : CashEntryInput) (entryId branch staff : string) (now : Z) : EntryRow :=
  {| en_id := entryId; en_tenant := tenantId; en_shift := as_uuid (ci_shift input); en_branch := branch; en_kind := ci_kind input;
     en_amount := ci_amount input; en_reason := ci_reason input; en_note := ci_note input; en_order := ci_order input;
     en_return := ci_return input; en_tender := ci_tender input; en_staff := staff; en_at := now; en_source := ci_source input |}.

(** [shiftId] is a [uuid] parameter; [staff_id] is NOT NULL. *)
Definition recordCashEntry (tenantId : string) (input : CashEntryInput) (closing : bool) (entryId : string) (now : Z) : tx EntryResult :=
  let shiftId := as_uuid (ci_shift input) in
  shift ← find_shift (tenantId, shiftId);
  match shift with
  | None => rule SHIFT_NOT_FOUND 404
  | Some s =>
      existing ← gets (fun d => List.find (of_source tenantId (ci_source input)) (cash_entries d));
      match existing with
      | Some e => mret {| er_entryId := en_id e; er_replayed := true; er_branch := sh_branch s |}
      | None =>
          _ ← (if closing then mret tt
               else match sh_status s with CLOSED => rule SHIFT_CLOSED 409 | OPEN => mret tt | _ => rule SHIFT_NOT_OPEN 409 end);
          match ci_staff input with
          | None => query_failed
          | Some staff =>
              _ ← insert_entry (new_entry tenantId input entryId (sh_branch s) staff now);
              match ci_kind input with
              | CASH_SHORTAGE | CASH_OVERAGE => mret {| er_entryId := entryId; er_replayed := false; er_branch := sh_branch s |}
              | kind =>
                  _ ← update_shift (tenantId, shiftId) (moved s kind (ci_amount input));
                  mret {| er_entryId := entryId; er_replayed := false; er_branch := sh_branch s |}
              end
          end
      end
  end.

Definition findCallersOpenShift (tenantId staffId branchId : string) : tx string :=
  rows ← gets (fun d : db => sort_by (fun a b : key * ShiftRow => sh_openedAt b.2 - sh_openedAt a.2)
    (List.filter (fun e : key * ShiftRow => String.eqb e.1.1 tenantId && String.eqb (sh_staff e.2) staffId && String.eqb (sh_branch e.2) branchId &&
       bool_decide (sh_status e.2 = OPEN)) (map_to_list (pos_shifts d))));
  match rows with [] => rule SHIFT_REQUIRED 409 | e :: _ => mret e.1.2 end.

Definition assertOpenShiftOfBranch (tenantId shiftIdText branchId : string) : tx unit :=
  shift ← find_shift (tenantId, as_uuid shiftIdText);
  match shift with
  | None => rule SHIFT_NOT_FOUND 404
  | Some s => if negb (String.eqb (sh_branch s) branchId) || negb (bool_decide (sh_status s = OPEN)) then rule SHIFT_NOT_OPEN 409 else mret tt
  end.

(** ** Cash of sales, payments and refunds *)

(** The cash of a finished checkout (checkout.service.ts), into the drawer of the
    workflow; [drawerCash] is [cashSaleDrawerAmount] of its tenders. *)
Definition checkout_cash (tenantId : string) (shiftId : option string) (drawerCash : Z) (orderId createdBy entryId : string) (now : Z) : tx unit :=
  match shiftId with
  | Some sid =>
      if (negb (String.eqb sid "")) && (0 <? drawerCash) then
        _ ← recordCashEntry tenantId {| ci_shift := sid; ci_kind := CASH_SALE; ci_amount := drawerCash; ci_reason := None; ci_note := None;
              ci_order := Some orderId; ci_return := None; ci_tender := None; ci_staff := Some createdBy; ci_source := "sale:" +:+ orderId |}
              false entryId now;
        mret tt
      else mret tt
  | None => mret tt
  end.

(** The drawer of a later cash payment or refund of an order (order-actions.service.ts):
    the shift the caller picked for a payment, else the caller's own open shift. *)
Definition payment_shift (tenantId : string) (refund : bool) (picked : option string) (actorId branchId : string) : tx string :=
  match picked with
  | Some sid => if negb refund && negb (String.eqb sid "") then _ ← assertOpenShiftOfBranch tenantId sid branchId; mret sid
                else findCallersOpenShift tenantId actorId branchId
  | None => findCallersOpenShift tenantId actorId branchId
  end.

Definition payment_cash (tenantId : string) (refund : bool) (picked : option string) (actorId branchId orderId tenderId : string) (value : Z)
    (entryId : string) (now : Z) : tx string :=
  cashShiftId ← payment_shift tenantId refund picked actorId branchId;
  _ ← recordCashEntry tenantId {| ci_shift := cashShiftId; ci_kind := if refund then CASH_REFUND else CASH_SALE;
        ci_amount := if refund then - value else value; ci_reason := if refund then Some "order_refund" else None; ci_note := None;
        ci_order := Some orderId; ci_return := None; ci_tender := Some tenderId; ci_staff := Some actorId; ci_source := "tender:" +:+ tenderId |}
        false entryId now;
  mret cashShiftId.

(** The cash of a refunded return (returns.service.ts). *)
Definition refund_cash (tenantId actorId branchId orderId returnId refundId : string) (requestedVnd : Z) (entryId : string) (now : Z) : tx string :=
  shiftId ← findCallersOpenShift tenantId actorId branchId;
  _ ← (if 0 <? requestedVnd then
         _ ← recordCashEntry tenantId {| ci_shift := shiftId; ci_kind := CASH_REFUND; ci_amount := - requestedVnd; ci_reason := Some "return_refund";
               ci_note := None; ci_order := Some orderId; ci_return := Some returnId; ci_tender := None; ci_staff := Some actorId;
               ci_source := "refund:" +:+ refundId |} false entryId now;
         mret tt
       else mret tt);
  mret shiftId.

(** ** The shift service (shifts.service.ts) *)

(** A shift as the API answers it: the row, and whether it is overdue. *)
Record PosShiftResponse := { ps_id : string; ps_row : ShiftRow; ps_overdue : bool }.

Definition mapShiftRow (i : string) (s : ShiftRow) (settings : CashSettings) (clock : Z) : tx PosShiftResponse :=
  let overdue := negb (bool_decide (sh_status s = CLOSED)) &&
    (match sh_plannedEnd s with Some p => p <? clock | None => false end || (sh_openedAt s + cs_maxOpenHours settings * 3600000 <? clock)) in
  _ ← toMoney (sh_opening s);
  _ ← toMoney (sh_sales s);
  _ ← toMoney (sh_refunds s);
  _ ← toMoney (sh_expected s);
  _ ← toMoneyOrNull (sh_actual s);
  _ ← toMoneyOrNull (sh_variance s);
  mret {| ps_id := i; ps_row := s; ps_overdue := overdue |}.

Definition lockShift (tenantId shiftId : string) (scope : BranchScope) : tx ShiftRow :=
  shift ← find_shift (tenantId, shiftId);
  match shift with
  | Some s => if branchAllowed scope (sh_branch s) then mret s else rule SHIFT_NOT_FOUND 404
  | None => rule SHIFT_NOT_FOUND 404
  end.

Record OpenShiftReqDto := { os_branch : string; os_register : option string; os_registerId : option string; os_opening : Z; os_note : option string }.

(** [!text?.trim()]. *)
Definition blank (s : option string) : bool := match s with Some s => String.eqb (trim s) "" | None => true end.

Definition open_row (code branch register : string) (registerId : option string) (staff : string) (opening : Z) (note : option string) (now hours : Z) : ShiftRow :=
  {| sh_code := code; sh_branch := branch; sh_register := register; sh_registerId := registerId; sh_staff := staff; sh_status := OPEN;
     sh_opening := opening; sh_sales := 0; sh_refunds := 0; sh_expected := opening; sh_actual := None; sh_variance := None;
     sh_openNote := note; sh_closeNote := None; sh_closedBy := None; sh_openedAt := now; sh_closedAt := None; sh_version := 1;
     sh_denominations := None; sh_countedBy := None; sh_countedAt := None; sh_reason := None; sh_varianceNote := None; sh_requestedBy := None;
     sh_requestedAt := None; sh_approvedBy := None; sh_approvedAt := None; sh_responsibility := None; sh_plannedEnd := Some (now + hours * 3600000);
     sh_history := [] |}.

(** The register the request names: its id and its code. *)
Definition pick_register (tenantId branchId : string) (registerId : option string) (code : string) : tx (option string * string) :=
  match registerId with
  | None => mret (None, code)
  | Some text =>
      if String.eqb text "" then mret (None, code)
      else
        found ← gets (fun d => List.find (fun r => String.eqb (rg_tenant r) tenantId && String.eqb (rg_id r) (as_uuid text) &&
          String.eqb (rg_branch r) branchId && String.eqb (rg_status r) "active") (registers d));
        match found with None => rule REGISTER_NOT_FOUND 404 | Some r => mret (Some (rg_id r), toUpperCase (rg_code r)) end
  end.

Definition busy (tenantId branchId code : string) (registerId : option string) (e : key * ShiftRow) : bool :=
  String.eqb e.1.1 tenantId && String.eqb (sh_branch e.2) branchId && is_active e.2 &&
  (String.eqb (sh_register e.2) code || match registerId with Some r => bool_decide (sh_registerId e.2 = Some r) | None => false end).

(** The transaction of [openShift]. *)
Definition open_shift_tx (tenantId staffId : string) (dto : OpenShiftReqDto) (openingCash : Z) (shiftId datePart : string) (now clock : Z) : tx PosShiftResponse :=
  settings ← loadCashSettings tenantId;
  if (cs_maxFloat settings <? openingCash) && blank (os_note dto) then rule OPENING_FLOAT_NOTE_REQUIRED 400
  else
    let branchId := as_uuid (os_branch dto) in
    branch ← gets (fun d : db => branch_projection d !! (tenantId, branchId));
    if negb (bool_decide (branch = Some "active")) then rule UNKNOWN_BRANCH 400
    else
      register ← pick_register tenantId branchId (os_registerId dto) (toUpperCase (trim (default "REG-01" (os_register dto))));
      taken ← gets (fun d : db => existsb (busy tenantId branchId register.2 register.1) (map_to_list (pos_shifts d)));
      if (taken : bool) then rule SHIFT_ALREADY_OPEN 409
      else
        code ← nextTenantDocumentCode tenantId "CA" datePart;
        let row := open_row code branchId register.2 register.1 staffId openingCash (os_note dto) now (cs_maxOpenHours settings) in
        _ ← insert_shift (tenantId, shiftId) row;
        opening ← toMoney (sh_opening row);
        _ ← outbox_add (ShiftOpened shiftId code branchId staffId opening now);
        mapShiftRow shiftId row settings clock.

(** The [catch] of [openShift]: a unique violation becomes SHIFT_ALREADY_OPEN. *)
Definition catch_unique {A} (m : tx A) : tx A := fun d =>
  match m d with Throw (DomainError UniqueViolation _) => rule SHIFT_ALREADY_OPEN 409 d | r => r end.

Definition openShift (tenantId staffId : string) (scope : BranchScope) (dto : OpenShiftReqDto) (shiftId datePart : string) (now clock : Z)
    : tx PosShiftResponse :=
  if negb (branchAllowed scope (os_branch dto)) then not_found "SHIFT_NOT_FOUND"
  else
    amount ← domain (parseVndAmount (VNum (int (os_opening dto))) true);
    openingCash ← domain (vndNumber amount);
    catch_unique (open_shift_tx tenantId staffId dto (nval openingCash) shiftId datePart now clock).

Definition PENDING_STATES : list string :=
  ["PENDING_STOCK"; "RESERVING"; "RESERVING_STOCK"; "STOCK_RESERVED"; "COMMITTING_STOCK"; "FINALIZING"; "RECOVERY_PENDING"].

Definition pending_workflow (tenantId shiftId : string) (w : WorkflowRow) : bool :=
  String.eqb (wf_tenant w) tenantId && bool_decide (wf_shift w = Some shiftId) && includes PENDING_STATES (wf_state w).

Definition open_draft (tenantId shiftId : string) (now : Z) (f : DraftRow) : bool :=
  String.eqb (df_tenant f) tenantId && bool_decide (df_shift f = Some shiftId) && String.eqb (df_status f) "ACTIVE" && (now <? df_expiresAt f).

Definition assertNoPendingWork (tenantId shiftId : string) (checkDrafts : bool) (now : Z) : tx unit :=
  pending ← gets (fun d => existsb (pending_workflow tenantId shiftId) (workflows d));
  if (pending : bool) then rule SHIFT_HAS_PENDING_TRANSACTIONS 409
  else if checkDrafts then
    open ← gets (fun d => existsb (open_draft tenantId shiftId now) (drafts d));
    if (open : bool) then rule SHIFT_HAS_OPEN_DRAFTS 400 else mret tt
  else mret tt.

(** The amounts of the entries are read through [toMoney]. *)
Definition read_entry (acc : list CashEntry) (e : EntryRow) : tx (list CashEntry) :=
  amount ← toMoney (en_amount e);
  mret (acc ++ [{| ce_kind := kind_name (en_kind e); ce_amount := int amount |}]).

Definition expectedFromEntries (tenantId shiftId : string) (s : ShiftRow) : tx number :=
  rows ← gets (entries_of (tenantId, shiftId));
  opening ← toMoney (sh_opening s);
  entries ← for_each read_entry [] rows;
  domain (expectedCashFromEntries (int opening) entries).

Definition assertVersion (s : ShiftRow) (version : option Z) : tx unit :=
  match version with Some v => if sh_version s =? v then mret tt else rule RESOURCE_VERSION_CONFLICT 409 | None => mret tt end.

Definition assert_closable (s : ShiftRow) : tx unit :=
  match sh_status s with CLOSED => rule SHIFT_ALREADY_CLOSED 409 | PENDING_APPROVAL => rule APPROVAL_REQUIRED 409 | _ => mret tt end.

(** The UPDATEs of the close flow: what each sets, the other columns as they were. *)
Record CloseColumns := {
  cl_status : ShiftStatus; cl_expected : Z; cl_actual : option Z; cl_variance : option Z; cl_denominations : option (list (string * number));
  cl_countedBy : option string; cl_countedAt : option Z; cl_reason : option string; cl_varianceNote : option string;
  cl_requestedBy : option string; cl_requestedAt : option Z; cl_step : CloseStep }.

Definition with_close (s : ShiftRow) (c : CloseColumns) (closeNote closedBy : option string) (closedAt : option Z) (approvedBy : option string)
    (approvedAt : option Z) (responsibility : option string) : ShiftRow :=
  {| sh_code := sh_code s; sh_branch := sh_branch s; sh_register := sh_register s; sh_registerId := sh_registerId s; sh_staff := sh_staff s;
     sh_status := cl_status c; sh_opening := sh_opening s; sh_sales := sh_sales s; sh_refunds := sh_refunds s; sh_expected := cl_expected c;
     sh_actual := cl_actual c; sh_variance := cl_variance c; sh_openNote := sh_openNote s; sh_closeNote := closeNote; sh_closedBy := closedBy;
     sh_openedAt := sh_openedAt s; sh_closedAt := closedAt; sh_version := sh_version s + 1; sh_denominations := cl_denominations c;
     sh_countedBy := cl_countedBy c; sh_countedAt := cl_countedAt c; sh_reason := cl_reason c; sh_varianceNote := cl_varianceNote c;
     sh_requestedBy := cl_requestedBy c; sh_requestedAt := cl_requestedAt c; sh_approvedBy := approvedBy; sh_approvedAt := approvedAt;
     sh_responsibility := responsibility; sh_plannedEnd := sh_plannedEnd s; sh_history := sh_history s ++ [cl_step c] |}.

Definition before_close (s : ShiftRow) (c : CloseColumns) : ShiftRow :=
  with_close s c (sh_closeNote s) (sh_closedBy s) (sh_closedAt s) (sh_approvedBy s) (sh_approvedAt s) (sh_responsibility s).

Record CountResult := { cr_shift : PosShiftResponse; cr_counted : number; cr_expected : number; cr_variance : number; cr_decision : CloseDecision }.

Definition countShift (tenantId shiftIdText actorId : string) (scope : BranchScope) (denominations : list (string * number)) (version : option Z)
    (now clock : Z) : tx CountResult :=
  let shiftId := as_uuid shiftIdText in
  shift ← lockShift tenantId shiftId scope;
  _ ← assertVersion shift version;
  _ ← assert_closable shift;
  _ ← assertNoPendingWork tenantId shiftId false now;
  settings ← loadCashSettings tenantId;
  counted ← domain (countedTotalFromDenominations denominations (map int (cs_denominations settings)));
  expected ← expectedFromEntries tenantId shiftId shift;
  let variance := nsub counted expected in
  let row := before_close shift {| cl_status := PENDING_CLOSE; cl_expected := nval expected; cl_actual := Some (nval counted);
    cl_variance := Some (nval variance); cl_denominations := Some denominations; cl_countedBy := Some actorId; cl_countedAt := Some now;
    cl_reason := sh_reason shift; cl_varianceNote := sh_varianceNote shift; cl_requestedBy := sh_requestedBy shift;
    cl_requestedAt := sh_requestedAt shift;
    cl_step := StepCounted actorId clock (nval counted) (nval expected) (nval variance) denominations |} in
  _ ← update_shift (tenantId, shiftId) row;
  view ← mapShiftRow shiftId row settings clock;
  mret {| cr_shift := view; cr_counted := counted; cr_expected := expected; cr_variance := variance;
          cr_decision := decideShiftClose variance (int (cs_tolerance settings)) (int (cs_approvalAbove settings)) |}.

(** What [finalizeClose] takes. *)
Record CloseData := {
  cd_counted : number; cd_countedBy : option string; cd_denominations : option (list (string * number)); cd_expected : number; cd_variance : number;
  cd_reason : option string; cd_note : option string; cd_closedBy : string; cd_approvedBy : option string }.

(** [a ?? b]. *)
Definition coalesce {A} (a b : option A) : option A := match a with Some _ => a | None => b end.

Definition variance_entry (tenantId shiftId : string) (p : CloseData) (entryId : string) (now : Z) : tx (option string) :=
  if negb (neq (cd_variance p) (int 0)) then
    entry ← recordCashEntry tenantId {| ci_shift := shiftId; ci_kind := if nlt (cd_variance p) (int 0) then CASH_SHORTAGE else CASH_OVERAGE;
      ci_amount := nval (cd_variance p); ci_reason := Some (default "within_tolerance" (cd_reason p)); ci_note := cd_note p; ci_order := None;
      ci_return := None; ci_tender := None; ci_staff := cd_countedBy p; ci_source := "close:" +:+ shiftId |} true entryId now;
    mret (Some (er_entryId entry))
  else mret None.

Definition finalizeClose (tenantId shiftId : string) (s : ShiftRow) (settings : CashSettings) (p : CloseData) (entryId : string) (now clock : Z)
    : tx PosShiftResponse :=
  varianceEntryId ← variance_entry tenantId shiftId p entryId now;
  let closeNote := coalesce (cd_note p) (sh_varianceNote s) in
  let row := with_close s {| cl_status := CLOSED; cl_expected := nval (cd_expected p); cl_actual := Some (nval (cd_counted p));
      cl_variance := Some (nval (cd_variance p)); cl_denominations := cd_denominations p; cl_countedBy := cd_countedBy p;
      cl_countedAt := coalesce (sh_countedAt s) (Some now); cl_reason := cd_reason p; cl_varianceNote := closeNote;
      cl_requestedBy := sh_requestedBy s; cl_requestedAt := sh_requestedAt s;
      cl_step := StepClosed (bool_decide (is_Some (cd_approvedBy p))) (cd_closedBy p) clock (nval (cd_variance p)) (cd_reason p) varianceEntryId |}
    closeNote (Some (cd_closedBy p)) (Some now) (cd_approvedBy p) (match cd_approvedBy p with Some _ => Some now | None => None end)
    (Some (cs_responsibility settings)) in
  _ ← update_shift (tenantId, shiftId) row;
  opening ← toMoney (sh_opening row);
  expected ← toMoney (sh_expected row);
  actual ← toMoney (nval (cd_counted p));
  variance ← toMoney (nval (cd_variance p));
  _ ← outbox_add (ShiftClosed shiftId (sh_code row) (sh_branch row) (sh_staff row) opening expected actual variance (sh_reason row) (sh_varianceNote row)
        (sh_responsibility row) (sh_countedBy row) (sh_closedBy row) (sh_approvedBy row) varianceEntryId now);
  mapShiftRow shiftId row settings clock.

Record CloseShiftReqDto := { cz_version : option Z; cz_actual : option Z; cz_reason : option string; cz_note : option string }.

(** The count a close goes by: the total given now, or the count made before. *)
Definition count_of (s : ShiftRow) (actorId : string) (actualCash : option Z) : tx (number * option string * option (list (string * number))) :=
  match actualCash with
  | Some a => amount ← domain (parseVndAmount (VNum (int a)) true); counted ← domain (vndNumber amount); mret (counted, Some actorId, None)
  | None =>
      match sh_status s, sh_actual s with
      | PENDING_CLOSE, Some a => counted ← toMoney a; mret (int counted, sh_countedBy s, sh_denominations s)
      | _, _ => rule COUNT_REQUIRED 400
      end
  end.

Definition closeShift (tenantId shiftIdText actorId : string) (scope : BranchScope) (dto : CloseShiftReqDto) (entryId : string) (now clock : Z)
    : tx PosShiftResponse :=
  let shiftId := as_uuid shiftIdText in
  shift ← lockShift tenantId shiftId scope;
  _ ← assertVersion shift (cz_version dto);
  _ ← assert_closable shift;
  _ ← assertNoPendingWork tenantId shiftId true now;
  settings ← loadCashSettings tenantId;
  count ← count_of shift actorId (cz_actual dto);
  let counted := count.1.1 in
  expected ← expectedFromEntries tenantId shiftId shift;
  let variance := nsub counted expected in
  let decision := decideShiftClose variance (int (cs_tolerance settings)) (int (cs_approvalAbove settings)) in
  if negb (bool_decide (decision = WITHIN_TOLERANCE)) && match cz_reason dto with None => true | Some r => String.eqb r "" end
  then rule VARIANCE_REASON_REQUIRED 400
  else
    let countedBy := coalesce count.1.2 (Some actorId) in
    if bool_decide (decision = APPROVAL_REQUIRED_CLOSE) then
      let row := before_close shift {| cl_status := PENDING_APPROVAL; cl_expected := nval expected; cl_actual := Some (nval counted);
        cl_variance := Some (nval variance); cl_denominations := count.2; cl_countedBy := countedBy;
        cl_countedAt := coalesce (sh_countedAt shift) (Some now); cl_reason := cz_reason dto; cl_varianceNote := cz_note dto;
        cl_requestedBy := Some actorId; cl_requestedAt := Some now;
        cl_step := StepCloseRequested actorId clock (nval variance) (cz_reason dto) (cz_note dto) |} in
      _ ← update_shift (tenantId, shiftId) row;
      mapShiftRow shiftId row settings clock
    else
      finalizeClose tenantId shiftId shift settings {| cd_counted := counted; cd_countedBy := countedBy; cd_denominations := count.2;
        cd_expected := expected; cd_variance := variance; cd_reason := cz_reason dto; cd_note := cz_note dto; cd_closedBy := actorId;
        cd_approvedBy := None |} entryId now clock.

Definition approveClose (tenantId shiftIdText actorId : string) (scope : BranchScope) (note : option string) (entryId : string) (now clock : Z)
    : tx PosShiftResponse :=
  let shiftId := as_uuid shiftIdText in
  shift ← lockShift tenantId shiftId scope;
  match sh_status shift with
  | CLOSED => rule SHIFT_ALREADY_CLOSED 409
  | OPEN | PENDING_CLOSE => rule SHIFT_NOT_OPEN 409
  | PENDING_APPROVAL =>
      if bool_decide (sh_countedBy shift = Some actorId) || bool_decide (sh_requestedBy shift = Some actorId) then rule APPROVER_IS_COUNTER 403
      else
        settings ← loadCashSettings tenantId;
        expected ← expectedFromEntries tenantId shiftId shift;
        counted ← match sh_actual shift with Some a => toMoney a | None => type_error end;
        finalizeClose tenantId shiftId shift settings {| cd_counted := int counted; cd_countedBy := sh_countedBy shift;
          cd_denominations := sh_denominations shift; cd_expected := expected; cd_variance := nsub (int counted) expected;
          cd_reason := sh_reason shift; cd_note := coalesce note (sh_varianceNote shift); cd_closedBy := actorId; cd_approvedBy := Some actorId |}
          entryId now clock
  end.

Definition rejectClose (tenantId shiftIdText actorId : string) (scope : BranchScope) (note : string) (clock : Z) : tx PosShiftResponse :=
  let shiftId := as_uuid shiftIdText in
  shift ← lockShift tenantId shiftId scope;
  match sh_status shift with
  | CLOSED => rule SHIFT_ALREADY_CLOSED 409
  | OPEN => rule SHIFT_NOT_OPEN 409
  | _ =>
      counted ← toMoneyOrNull (sh_actual shift);
      let row := before_close shift {| cl_status := OPEN; cl_expected := sh_expected shift; cl_actual := None; cl_variance := None;
        cl_denominations := None; cl_countedBy := None; cl_countedAt := None; cl_reason := None; cl_varianceNote := None; cl_requestedBy := None;
        cl_requestedAt := None; cl_step := StepSentBack actorId clock note counted (sh_denominations shift) (sh_countedBy shift) |} in
      _ ← update_shift (tenantId, shiftId) row;
      settings ← loadCashSettings tenantId;
      mapShiftRow shiftId row settings clock
  end.

Record CashEntryReqDto := { cq_payIn : bool; cq_amount : Z; cq_reason : string; cq_note : option string }.

Record AddEntryResult := { ae_replayed : bool; ae_entry : EntryRow }.

Definition addCashEntry (tenantId shiftIdText actorId : string) (scope : BranchScope) (k : option string) (dto : CashEntryReqDto)
    (uuid entryId : string) (now : Z) : tx AddEntryResult :=
  shift ← find_shift (tenantId, as_uuid shiftIdText);
  match shift with
  | None => rule SHIFT_NOT_FOUND 404
  | Some s =>
      if negb (branchAllowed scope (sh_branch s)) then rule SHIFT_NOT_FOUND 404
      else
        let sourceKey := if blank k then "cash:" +:+ uuid
          else "cash:" +:+ shiftIdText +:+ ":" +:+ String.substring 0 100 (trim (default "" k)) in
        result ← recordCashEntry tenantId {| ci_shift := shiftIdText; ci_kind := if cq_payIn dto then PAY_IN else PAY_OUT;
          ci_amount := if cq_payIn dto then cq_amount dto else - cq_amount dto; ci_reason := Some (trim (cq_reason dto)); ci_note := cq_note dto;
          ci_order := None; ci_return := None; ci_tender := None; ci_staff := Some actorId; ci_source := sourceKey |} false entryId now;
        entry ← gets (fun d => List.find (fun e => String.eqb (en_id e) (er_entryId result)) (cash_entries d));
        match entry with
        | None => type_error
        | Some e => _ ← toMoney (en_amount e); mret {| ae_replayed := er_replayed result; ae_entry := e |}
        end
  end.

Definition with_planned_end (s : ShiftRow) (at_ : Z) : ShiftRow :=
  {| sh_code := sh_code s; sh_branch := sh_branch s; sh_register := sh_register s; sh_registerId := sh_registerId s; sh_staff := sh_staff s;
     sh_status := sh_status s; sh_opening := sh_opening s; sh_sales := sh_sales s; sh_refunds := sh_refunds s; sh_expected := sh_expected s;
     sh_actual := sh_actual s; sh_variance := sh_variance s; sh_openNote := sh_openNote s; sh_closeNote := sh_closeNote s;
     sh_closedBy := sh_closedBy s; sh_openedAt := sh_openedAt s; sh_closedAt := sh_closedAt s; sh_version := sh_version s + 1;
     sh_denominations := sh_denominations s; sh_countedBy := sh_countedBy s; sh_countedAt := sh_countedAt s; sh_reason := sh_reason s;
     sh_varianceNote := sh_varianceNote s; sh_requestedBy := sh_requestedBy s; sh_requestedAt := sh_requestedAt s;
     sh_approvedBy := sh_approvedBy s; sh_approvedAt := sh_approvedAt s; sh_responsibility := sh_responsibility s;
     sh_plannedEnd := Some at_; sh_history := sh_history s |}.

Definition patchPlannedEnd (tenantId shiftIdText : string) (scope : BranchScope) (plannedEndAt clock : Z) : tx PosShiftResponse :=
  let shiftId := as_uuid shiftIdText in
  shift ← lockShift tenantId shiftId scope;
  match sh_status shift with
  | CLOSED => rule SHIFT_CLOSED 409
  | OPEN =>
      let row := with_planned_end shift plannedEndAt in
      _ ← update_shift (tenantId, shiftId) row;
      settings ← loadCashSettings tenantId;
      mapShiftRow shiftId row settings clock
  | _ => rule SHIFT_NOT_OPEN 409
  end.
