(* ===== verification/CashShiftBooks.v ===== *)
(** * The books of the cash drawers

    What every sequence of requests to the shift service keeps: the expected cash of
    a shift is its float and its entries, a closed drawer is settled to the counted
    amount by its closing entry, a register has one active shift, a closed shift is
    final, the one who approves a close neither counted nor asked for it, and an
    entry is written once per key. *)

From S2P Require Import Prelude Transaction JsNumber JsString SalesMoney SalesPricing SalesTender CashShifts.

Open Scope Z_scope.

(** ** Runs that succeed *)

Ltac inv_shift_step :=
  first [ inv_txn
  | match goal with
    | H : find_shift _ _ = Ok _ |- _ => apply gets_Ok in H
    | H : outbox_add _ _ = Ok _ |- _ => apply modify_Ok in H
    | H : domain _ _ = Ok (_, _) |- _ => apply embed_Ok in H as [H ?]
    | H : rule _ _ _ = Ok _ |- _ => discriminate H
    | H : not_found _ _ = Ok _ |- _ => discriminate H
    | H : unique_violation _ = Ok _ |- _ => discriminate H
    | H : query_failed _ = Ok _ |- _ => discriminate H
    end ].
Ltac inv_shift := repeat (inv_shift_step; try subst).

Section Statements.
Lemma toMoney_Ok z d r : toMoney z d = Ok r -> r = (z, d) /\ Z.abs z <= MAX_SAFE_INTEGER.
Proof. unfold toMoney. destruct (Z.leb_spec (Z.abs z) MAX_SAFE_INTEGER); [|done]. by intros ->%tx_ret_Ok. Qed.

Lemma toMoneyOrNull_Ok z d r : toMoneyOrNull z d = Ok r -> r = (z, d) /\ Z.abs (default 0 z) <= MAX_SAFE_INTEGER.
Proof. unfold toMoneyOrNull. destruct z; intros H; inv_shift; [|by split]. by apply toMoney_Ok in Ha as [[= <- <-] ?]. Qed.

Lemma update_shift_Ok k s d r : update_shift k s d = Ok r -> r = (tt, set_shift k s d).
Proof. unfold update_shift. destruct (check_shift s); [|done]. by intros ->%modify_Ok. Qed.

Lemma mapShiftRow_Ok i s c clock d v d' : mapShiftRow i s c clock d = Ok (v, d') ->
  d' = d /\ ps_row v = s /\ Z.abs (sh_expected s) <= MAX_SAFE_INTEGER /\ Z.abs (default 0 (sh_actual s)) <= MAX_SAFE_INTEGER /\
  Z.abs (default 0 (sh_variance s)) <= MAX_SAFE_INTEGER.
Proof.
  unfold mapShiftRow. intros H. inv_shift.
  repeat match goal with
  | H' : toMoney _ _ = Ok _ |- _ => apply toMoney_Ok in H' as [[= -> ->] ?]
  | H' : toMoneyOrNull _ _ = Ok _ |- _ => apply toMoneyOrNull_Ok in H' as [[= -> ->] ?]
  end. done.
Qed.

Lemma loadCashSettings_Ok t d c d' : loadCashSettings t d = Ok (c, d') -> d' = d /\ c = default DEFAULT_CASH_SETTINGS (cash_setting d !! t).
Proof.
  unfold loadCashSettings. intros H. inv_shift. destruct (cash_setting _ !! t); inv_shift; [|done].
  repeat match goal with H' : toMoney _ _ = Ok _ |- _ => apply toMoney_Ok in H' as [[= -> ->] ?] end. done.
Qed.

Lemma lockShift_Ok t i scope d s d' : lockShift t i scope d = Ok (s, d') -> d' = d /\ pos_shifts d !! (t, i) = Some s.
Proof. unfold lockShift. intros H. inv_shift. destruct (pos_shifts _ !! _) eqn:E; inv_shift. by destruct (branchAllowed _ _); inv_shift. Qed.

Lemma insert_entry_Ok e d r : insert_entry e d = Ok r ->
  r = (tt, add_entry e d) /\ check_entry e = true /\
  forall y, y ∈ cash_entries d -> of_source (en_tenant e) (en_source e) y = false /\ en_id y <> en_id e.
Proof.
  unfold insert_entry. intros H. inv_shift. destruct (_ || _) eqn:Eu; inv_shift. apply orb_false_iff in Eu as [E1 E2].
  destruct (check_entry e); inv_shift. split_and!; [done..|]. intros y Hy. split; [by apply (proj1 (existsb_false _ _) E1)|].
  apply String.eqb_neq. by apply (proj1 (existsb_false _ _) E2).
Qed.

Lemma insert_shift_Ok k s d r : insert_shift k s d = Ok r ->
  r = (tt, set_shift k s d) /\ forall k' s', pos_shifts d !! k' = Some s' -> k' <> k /\ (is_active s && same_register k.1 s (k', s') = false).
Proof.
  unfold insert_shift. intros H. inv_shift. destruct (existsb _ _) eqn:Eu; inv_shift. destruct (check_shift s); inv_shift. split; [done|].
  intros k' s' Hk. apply (proj1 (existsb_false _ _)) with (x := (k', s')) in Eu; [|by apply elem_of_map_to_list]. cbn in Eu.
  apply orb_false_iff in Eu as [[Eu _]%orb_false_iff E3]. apply String.eqb_neq in Eu. split; [congruence | done].
Qed.

Lemma next_code_Ok t p day d c d' : nextTenantDocumentCode t p day d = Ok (c, d') ->
  pos_shifts d' = pos_shifts d /\ cash_entries d' = cash_entries d.
Proof. unfold nextTenantDocumentCode. intros H. by inv_shift. Qed.

Lemma pick_register_Ok t b r c d x d' : pick_register t b r c d = Ok (x, d') -> d' = d.
Proof. unfold pick_register. intros H. destruct r as [r|]; [destruct (String.eqb r "")|]; inv_shift; [done| |done]. by destruct (List.find _ _); inv_shift. Qed.

Lemma no_pending_Ok t i b now d u d' : assertNoPendingWork t i b now d = Ok (u, d') -> d' = d.
Proof. unfold assertNoPendingWork. intros H. inv_shift. destruct (existsb _ _); inv_shift. destruct b; inv_shift; [|done]. by destruct (existsb _ _); inv_shift. Qed.

Lemma assertVersion_Ok s v d u d' : assertVersion s v d = Ok (u, d') -> d' = d.
Proof. unfold assertVersion. intros H. destruct v; [destruct (_ =? _)|]; by inv_shift. Qed.

Lemma assert_closable_Ok s d u d' : assert_closable s d = Ok (u, d') -> d' = d /\ is_active s = true /\ sh_status s <> PENDING_APPROVAL.
Proof. unfold assert_closable, is_active. intros H. by destruct (sh_status s); inv_shift. Qed.
End Statements.

Ltac inv_stmts :=
  match goal with
  | H : toMoney _ _ = Ok _ |- _ => apply toMoney_Ok in H as [H ?]
  | H : toMoneyOrNull _ _ = Ok _ |- _ => apply toMoneyOrNull_Ok in H as [H ?]
  | H : update_shift _ _ _ = Ok _ |- _ => apply update_shift_Ok in H
  | H : loadCashSettings _ _ = Ok (_, _) |- _ => apply loadCashSettings_Ok in H as [? ->]
  | H : lockShift _ _ _ _ = Ok (_, _) |- _ => apply lockShift_Ok in H as [? H]
  | H : assertNoPendingWork _ _ _ _ _ = Ok (_, _) |- _ => apply no_pending_Ok in H
  | H : assertVersion _ _ _ = Ok (_, _) |- _ => apply assertVersion_Ok in H
  | H : assert_closable _ _ = Ok (_, _) |- _ => apply assert_closable_Ok in H as (? & ? & ?)
  | H : pick_register _ _ _ _ _ = Ok (_, _) |- _ => apply pick_register_Ok in H
  | H : insert_entry _ _ = Ok _ |- _ => apply insert_entry_Ok in H as (H & ? & ?)
  | H : insert_shift _ _ _ = Ok _ |- _ => apply insert_shift_Ok in H as (H & ?)
  | H : mapShiftRow _ _ _ _ _ = Ok (_, _) |- _ => apply mapShiftRow_Ok in H as (? & ? & ? & ? & ?)
  end.
Ltac inv_run := repeat ((inv_shift_step || inv_stmts); try subst).

(** ** The invariant *)

Definition closing (k : CashEntryKind) : bool := match k with CASH_SHORTAGE | CASH_OVERAGE => true | _ => false end.

(** What an entry moves of the expected cash, of the sales and of the refunds. *)
Definition flow (e : EntryRow) : Z := if closing (en_kind e) then 0 else en_amount e.
Definition sale_of (e : EntryRow) : Z := match en_kind e with CASH_SALE => en_amount e | _ => 0 end.
Definition refund_of (e : EntryRow) : Z := match en_kind e with CASH_REFUND => - en_amount e | _ => 0 end.

Record shift_ok (es : list EntryRow) (s : ShiftRow) : Prop := {
  ok_expected : sh_expected s = sh_opening s + total flow es;
  ok_sales : sh_sales s = total sale_of es;
  ok_refunds : sh_refunds s = total refund_of es;
  ok_active : is_active s = true -> Forall (fun e => closing (en_kind e) = false) es;
  ok_closed : sh_status s = CLOSED -> exists a, sh_actual s = Some a /\ a = sh_opening s + total en_amount es /\ sh_variance s = Some (a - sh_expected s);
  ok_approver : forall m, sh_approvedBy s = Some m -> sh_status s = CLOSED /\ sh_countedBy s <> Some m /\ sh_requestedBy s <> Some m }.

Definition close_key (i : string) : string := "close:" +:+ i.

(** A register of a branch has at most one shift that is not closed. *)
Definition one_active (m : gmap key ShiftRow) : Prop :=
  forall k k' s s', m !! k = Some s -> m !! k' = Some s' -> is_active s = true -> is_active s' = true ->
    k.1 = k'.1 -> sh_branch s = sh_branch s' -> sh_register s = sh_register s' -> k = k'.

Record shift_books (d : db) : Prop := {
  sb_shifts : forall k s, pos_shifts d !! k = Some s -> shift_ok (entries_of k d) s;
  sb_active : one_active (pos_shifts d);
  sb_owner : forall e, e ∈ cash_entries d -> is_Some (pos_shifts d !! (en_tenant e, en_shift e));
  sb_close : forall e i, e ∈ cash_entries d -> en_source e = close_key i -> closing (en_kind e) = true /\ en_shift e = i;
  sb_keys : NoDup (map (fun e => (en_tenant e, en_source e)) (cash_entries d));
  sb_ids : NoDup (map en_id (cash_entries d)) }.

Lemma close_key_inj i j : close_key i = close_key j -> i = j.
Proof. intros H. unfold close_key in H. by simplify_eq. Qed.

Lemma entries_of_add k e d : entries_of k (add_entry e d) = entries_of k d ++ (if of_shift k e then [e] else []).
Proof. unfold entries_of. cbn. rewrite List.filter_app. cbn. by destruct (of_shift k e). Qed.

Lemma of_shift_spec k e : of_shift k e = true <-> (en_tenant e, en_shift e) = k.
Proof. unfold of_shift. rewrite andb_true_iff, !String.eqb_eq. destruct k; cbn. split; [by intros [-> ->] | by intros [= -> ->]]. Qed.

Lemma is_active_closed s : is_active s = true <-> sh_status s <> CLOSED.
Proof. unfold is_active. by destruct (sh_status s). Qed.

Lemma one_active_update m k s s' : one_active m -> m !! k = Some s -> (is_active s' = true -> is_active s = true) ->
  sh_branch s' = sh_branch s -> sh_register s' = sh_register s -> one_active (<[k := s']> m).
Proof.
  intros B Hk Hact Hbr Hrg k0 k1 s0 s1. destruct (decide (k = k0)) as [<-|Hne0], (decide (k = k1)) as [<-|Hne1];
    rewrite ?lookup_insert_eq, ?lookup_insert_ne by done; [done| | |apply B].
  - intros [= <-] H1 A0 A1 T1 T2 T3. apply (B k k1 s s1); auto; congruence.
  - intros H1 [= <-] A0 A1 T1 T2 T3. apply (B k0 k s0 s); auto; congruence.
Qed.

Lemma NoDup_map_snoc {A B} (f : A -> B) l x : NoDup (map f l) -> (forall y, y ∈ l -> f y <> f x) -> NoDup (map f (l ++ [x])).
Proof.
  intros Hn Hf. rewrite List.map_app. apply NoDup_app. split_and!; [done| |apply NoDup_singleton].
  intros z (y & -> & Hy)%list_elem_of_fmap Hz%list_elem_of_singleton. by apply (Hf y Hy).
Qed.

Lemma lookup_insert_is_Some' {A} (m : gmap key A) k k' x : is_Some (m !! k') -> is_Some (<[k := x]> m !! k').
Proof. destruct (decide (k = k')) as [->|]; [rewrite lookup_insert_eq; by eexists | by rewrite lookup_insert_ne]. Qed.

Section Preservation.
Implicit Types (d : db).

(** A change of the other tables. *)
Lemma books_same_tables d d' : pos_shifts d' = pos_shifts d -> cash_entries d' = cash_entries d -> shift_books d -> shift_books d'.
Proof. intros E1 E2 []. split; unfold entries_of in *; rewrite ?E1, ?E2 in *; done. Qed.

(** A change of one row that stays at its register; it may end being active. *)
Lemma books_row d k s s' : shift_books d -> pos_shifts d !! k = Some s -> shift_ok (entries_of k d) s' ->
  (is_active s' = true -> is_active s = true) -> sh_branch s' = sh_branch s -> sh_register s' = sh_register s -> shift_books (set_shift k s' d).
Proof.
  intros [B1 B2 B3 B4 B5 B6] Hk Hok Hact Hbr Hrg. split; cbn [set_shift pos_shifts cash_entries] in *; try done.
  - intros k0 s0. change (entries_of k0 (set_shift k s' d)) with (entries_of k0 d). destruct (decide (k = k0)) as [<-|Hne];
      [rewrite lookup_insert_eq; by intros [= <-] | rewrite lookup_insert_ne by done; apply B1].
  - by eapply one_active_update.
  - intros e He. by apply lookup_insert_is_Some', B3.
Qed.

(** A new entry of a shift, and the row it leaves. *)
Lemma books_entry d k e s s' : shift_books d -> pos_shifts d !! k = Some s -> (en_tenant e, en_shift e) = k ->
  (forall y, y ∈ cash_entries d -> of_source (en_tenant e) (en_source e) y = false /\ en_id y <> en_id e) ->
  (forall i, en_source e = close_key i -> closing (en_kind e) = true /\ en_shift e = i) ->
  shift_ok (entries_of k d ++ [e]) s' -> (is_active s' = true -> is_active s = true) -> sh_branch s' = sh_branch s -> sh_register s' = sh_register s ->
  shift_books (set_shift k s' (add_entry e d)).
Proof.
  intros [B1 B2 B3 B4 B5 B6] Hk He Hf Hcl Hok Hact Hbr Hrg. split; cbn [set_shift add_entry pos_shifts cash_entries] in *.
  - intros k0 s0. change (entries_of k0 (set_shift k s' (add_entry e d))) with (entries_of k0 (add_entry e d)). rewrite entries_of_add.
    destruct (decide (k = k0)) as [<-|Hne].
    + rewrite lookup_insert_eq. intros [= <-]. by rewrite (proj2 (of_shift_spec k e) He).
    + rewrite lookup_insert_ne by done. intros H0. destruct (of_shift k0 e) eqn:E; [apply of_shift_spec in E; congruence|]. rewrite app_nil_r. by apply B1.
  - by eapply one_active_update.
  - intros e' [He'|Hx]%elem_of_app; [by apply lookup_insert_is_Some', B3|]. apply list_elem_of_singleton in Hx as ->.
    rewrite He, lookup_insert_eq. by eexists.
  - intros e' i [He'|Hx]%elem_of_app; [by apply B4|]. apply list_elem_of_singleton in Hx as ->. apply Hcl.
  - apply NoDup_map_snoc; [done|]. intros y Hy [= Ht Hx]. destruct (Hf y Hy) as [Hs _]. unfold of_source in Hs. by rewrite Ht, Hx, !String.eqb_refl in Hs.
  - apply NoDup_map_snoc; [done|]. intros y Hy. apply (Hf y Hy).
Qed.
End Preservation.

(** ** The cash ledger *)

(** A call of [recordCashEntry] that succeeds: a replay, or a new entry. *)
Lemma record_cases t input cl entryId now d r d' : recordCashEntry t input cl entryId now d = Ok (r, d') ->
  exists s, pos_shifts d !! (t, as_uuid (ci_shift input)) = Some s /\
  ((er_replayed r = true /\ d' = d /\ exists e, e ∈ cash_entries d /\ of_source t (ci_source input) e = true /\ er_entryId r = en_id e) \/
   (er_replayed r = false /\ er_entryId r = entryId /\ (cl = false -> sh_status s = OPEN) /\
    exists staff, let e := new_entry t input entryId (sh_branch s) staff now in check_entry e = true /\
      (forall y, y ∈ cash_entries d -> of_source t (ci_source input) y = false /\ en_id y <> entryId) /\
      d' = if closing (ci_kind input) then add_entry e d
           else set_shift (t, as_uuid (ci_shift input)) (moved s (ci_kind input) (ci_amount input)) (add_entry e d))).
Proof.
  unfold recordCashEntry. cbv zeta. intros H. inv_shift. destruct (pos_shifts _ !! _) as [s|]; inv_shift. exists s. split; [done|].
  destruct (List.find _ _) as [e|] eqn:Ef; inv_shift.
  { left. apply find_some in Ef as [He Hs]. apply list_elem_of_In in He. eauto 10. }
  right. match goal with H' : (if cl then _ else _) ?x = Ok (_, ?y) |- _ => assert (y = x /\ (cl = false -> sh_status s = OPEN)) as [-> Hst]
    by (destruct cl; [by inv_shift | by destruct (sh_status s); inv_shift]) end.
  destruct (ci_staff input) as [staff|]; inv_run. assert (er_replayed r = false /\ er_entryId r = entryId) as [-> ->].
  { by destruct (ci_kind input); inv_run. }
  split_and!; [done..|]. exists staff. split_and!; [done..|]. by destruct (ci_kind input); inv_run.
Qed.

(** An entry of a sale, a payment, a refund, a pay-in or a pay-out. *)
Lemma record_books t input entryId now d r d' : shift_books d -> closing (ci_kind input) = false -> (forall i, ci_source input <> close_key i) ->
  recordCashEntry t input false entryId now d = Ok (r, d') -> shift_books d'.
Proof.
  intros Hb Hk Hs (s & Hi & [(_ & -> & _) | (_ & _ & Ho & staff & He & Hf & ->)])%record_cases; [done|]. rewrite Hk. specialize (Ho eq_refl).
  pose proof (sb_shifts _ Hb _ _ Hi) as [O1 O2 O3 O4 O5 O6]. eapply (books_entry _ _ _ s); try done.
  - cbn. intros i Hx. by destruct (Hs i).
  - split; cbn [moved sh_expected sh_opening sh_sales sh_refunds sh_status sh_approvedBy sh_countedBy sh_requestedBy sh_actual sh_variance].
    + rewrite total_snoc, O1. unfold flow at 3. cbn. rewrite Hk. lia.
    + rewrite total_snoc, O2. done.
    + rewrite total_snoc, O3. done.
    + intros _. apply Forall_app. split; [apply O4; unfold is_active; by rewrite Ho | by constructor].
    + intros Hx. congruence.
    + done.
Qed.

(** Expected cash, read from the entries. *)
Lemma read_entries_Ok rows acc d es d' : for_each read_entry acc rows d = Ok (es, d') ->
  d' = d /\ es = acc ++ map (fun e => {| ce_kind := kind_name (en_kind e); ce_amount := int (en_amount e) |}) rows.
Proof.
  revert acc d. induction rows as [|e rows IH]; intros acc d; cbn; intros H; inv_shift; [by rewrite app_nil_r|].
  unfold read_entry in *. inv_run. apply IH in H as [-> ->]. by rewrite <- (assoc_L app).
Qed.

Lemma ledger_amount_flow e : ledger_amount {| ce_kind := kind_name (en_kind e); ce_amount := int (en_amount e) |} = flow e.
Proof. unfold ledger_amount, flow, is_closing. cbn. by destruct (en_kind e). Qed.

Lemma expectedFromEntries_Ok t i s d n d' : shift_books d -> pos_shifts d !! (t, i) = Some s -> expectedFromEntries t i s d = Ok (n, d') ->
  d' = d /\ n = int (sh_expected s) /\ Z.abs (sh_expected s) <= MAX_SAFE_INTEGER.
Proof.
  intros Hb Hi. unfold expectedFromEntries. intros H. inv_run.
  match goal with H' : for_each read_entry _ _ _ = Ok _ |- _ => apply read_entries_Ok in H' as [-> ->] end. split; [done|]. cbn [app] in H.
  apply (proj1 (expected_cash_is_ledger_sum _ _)) in H as (O & HO & _ & _ & -> & Hz). injection HO as <-.
  replace (sh_expected s) with (sh_opening s + total ledger_amount
    (map (fun e => {| ce_kind := kind_name (en_kind e); ce_amount := int (en_amount e) |}) (entries_of (t, i) d))); [done|].
  rewrite (ok_expected _ _ (sb_shifts _ Hb _ _ Hi)). f_equal. unfold total. rewrite map_map. f_equal. apply map_ext, ledger_amount_flow.
Qed.

Lemma as_uuid_idem s : as_uuid (as_uuid s) = as_uuid s.
Proof.
  unfold as_uuid, toLowerCase. induction s as [|c s IH]; [done|]. cbn. rewrite IH. f_equal. by destruct c as [[] [] [] [] [] [] [] []].
Qed.

(** ** The close flow *)

Lemma total_flow_active es : Forall (fun e => closing (en_kind e) = false) es -> total flow es = total en_amount es.
Proof. intros H. apply sumZ_map_ext. intros e He. rewrite Forall_forall in H. unfold flow. by rewrite H. Qed.

(** The closing entry, when the count differs. *)
Lemma variance_entry_cases t i p entryId now d x d1 s v : shift_books d -> pos_shifts d !! (t, i) = Some s -> is_active s = true -> as_uuid i = i ->
  cd_variance p = int v -> variance_entry t i p entryId now d = Ok (x, d1) ->
  (v = 0 /\ d1 = d) \/
  (v <> 0 /\ exists e, d1 = add_entry e d /\ (en_tenant e, en_shift e) = (t, i) /\ en_source e = close_key i /\ closing (en_kind e) = true /\ en_amount e = v /\
    forall y, y ∈ cash_entries d -> of_source (en_tenant e) (en_source e) y = false /\ en_id y <> en_id e).
Proof.
  intros Hb Hi Ha Hl Hv. unfold variance_entry. rewrite Hv, neq_int, nlt_int. destruct (Z.eqb_spec v 0) as [->|Hne]; cbn [negb]; intros H; inv_shift; [by left|].
  right. split; [done|]. match goal with H' : recordCashEntry _ _ _ _ _ _ = Ok _ |- _ => apply record_cases in H' as (s' & Hi' & Hc) end.
  cbn [ci_shift ci_source ci_kind ci_amount] in *. destruct Hc as [(_ & -> & e & He & Hs & _) | (_ & _ & _ & staff & _ & Hf & ->)].
  - exfalso. unfold of_source in Hs. apply andb_true_iff in Hs as [Ht%String.eqb_eq Hs%String.eqb_eq]. destruct (sb_close _ Hb e i He Hs) as [Hc Hi2].
    pose proof (ok_active _ _ (sb_shifts _ Hb _ _ Hi) Ha) as Hall. rewrite Forall_forall in Hall. rewrite (Hall e) in Hc; [done|].
    apply list_elem_of_In, filter_In. split; [by apply list_elem_of_In | apply of_shift_spec; congruence].
  - assert (Hk : closing (if v <? 0 then CASH_SHORTAGE else CASH_OVERAGE) = true) by (by destruct (v <? 0)). rewrite Hk.
    eexists. split; [reflexivity|]. split_and!; [change ((t, as_uuid i) = (t, i)); by rewrite Hl | done | done | done | exact Hf].
Qed.

Lemma finalizeClose_books t i s c p entryId now clock d v d' a : shift_books d -> pos_shifts d !! (t, i) = Some s -> is_active s = true -> as_uuid i = i ->
  cd_counted p = int a -> Z.abs a <= MAX_SAFE_INTEGER -> cd_expected p = int (sh_expected s) -> Z.abs (sh_expected s) <= MAX_SAFE_INTEGER ->
  cd_variance p = nsub (cd_counted p) (cd_expected p) ->
  (forall m, cd_approvedBy p = Some m -> cd_countedBy p <> Some m /\ sh_requestedBy s <> Some m) ->
  finalizeClose t i s c p entryId now clock d = Ok (v, d') -> shift_books d' /\ sh_status (ps_row v) = CLOSED /\ sh_variance (ps_row v) = Some (a - sh_expected s).
Proof.
  intros Hb Hi Ha Hl Hc Hac He Hae Hv Hap. unfold finalizeClose. cbv zeta. intros H. inv_run.
  match goal with H' : Z.abs (nval (cd_variance p)) <= _ |- _ => rewrite Hv, Hc, He in H'; apply nsub_exact in H' as Hx; [|done..] end.
  rewrite Hc, He, Hx in Hv. match goal with H' : variance_entry _ _ _ _ _ _ = Ok _ |- _ => eapply variance_entry_cases in H'; [|done..]; rename H' into Hcase end.
  match goal with E : ps_row v = _ |- _ => rewrite E end. split; [|cbn; by rewrite Hv].
  pose proof (sb_shifts _ Hb _ _ Hi) as [O1 O2 O3 O4 O5 O6]. specialize (O4 Ha). apply total_flow_active in O4 as Hfl.
  match goal with |- shift_books (add_event _ (set_shift _ ?row ?x)) => apply (books_same_tables (set_shift (t, i) row x)); [done..|] end.
  destruct Hcase as [(Hz & ->) | (Hz & e & -> & Hk & Hs & Hcl & Ham & Hf)].
  - eapply (books_row _ _ s); try done. split; cbn; rewrite ?Hc, ?He, ?Hv; cbn; try done; [|by intros m Hm; destruct (Hap m Hm)].
    intros _. eexists. split_and!; [done | lia | f_equal; lia].
  - eapply (books_entry _ _ e s); try done; [intros j Hj; split; [done|]; rewrite Hs in Hj; apply close_key_inj in Hj as <-; congruence|].
    split; cbn; rewrite ?Hc, ?He, ?Hv, ?total_snoc; cbn; try done.
    + unfold flow at 2. rewrite Hcl. lia.
    + rewrite O2. unfold sale_of at 3. destruct (en_kind e); try done; lia.
    + rewrite O3. unfold refund_of at 3. destruct (en_kind e); try done; lia.
    + intros _. eexists. split_and!; [done | lia | f_equal; lia].
    + intros m Hm. by destruct (Hap m Hm).
Qed.

(** A row of a shift that stays open: the money columns as the entries say. *)
Lemma still_active es s s' : shift_ok es s -> is_active s = true -> is_active s' = true -> sh_expected s' = sh_expected s -> sh_opening s' = sh_opening s ->
  sh_sales s' = sh_sales s -> sh_refunds s' = sh_refunds s -> sh_approvedBy s' = sh_approvedBy s -> shift_ok es s'.
Proof.
  intros [O1 O2 O3 O4 O5 O6] Ha Ha' E1 E2 E3 E4 E5. rewrite is_active_closed in *. split; rewrite ?E1, ?E2, ?E3, ?E4, ?E5; auto; [done|].
  intros m Hm. by destruct (O6 m Hm).
Qed.

Ltac expected_cash Hb :=
  match goal with H : expectedFromEntries _ _ _ _ = Ok _ |- _ => eapply (expectedFromEntries_Ok _ _ _ _ _ _ Hb) in H as (-> & -> & ?); [|eassumption] end.

Lemma countShift_books t i actor scope den version now clock d r d' : shift_books d ->
  countShift t i actor scope den version now clock d = Ok (r, d') -> shift_books d'.
Proof.
  intros Hb. unfold countShift. cbv zeta. intros H. inv_run. expected_cash Hb. inv_run.
  eapply (books_row _ _ a); try done. eapply still_active; [by apply (sb_shifts _ Hb) | done..].
Qed.

Lemma count_of_Ok s actor actual d c d' : count_of s actor actual d = Ok (c, d') -> d' = d /\ exists a, c.1.1 = int a /\ Z.abs a <= MAX_SAFE_INTEGER.
Proof.
  unfold count_of. destruct actual as [a|].
  - intros H. inv_shift. match goal with H' : vndNumber _ = Ok _ |- _ => apply vndNumber_Ok in H' as [-> ?] end. split; [done|]. by eexists.
  - destruct (sh_status s); try done. destruct (sh_actual s); [|done]. intros H. inv_run. split; [done|]. by eexists.
Qed.

Lemma closeShift_books t i actor scope dto entryId now clock d r d' : shift_books d ->
  closeShift t i actor scope dto entryId now clock d = Ok (r, d') -> shift_books d'.
Proof.
  intros Hb. unfold closeShift. cbv zeta. intros H. inv_run.
  match goal with H' : count_of _ _ _ _ = Ok _ |- _ => apply count_of_Ok in H' as (-> & n & Hn & Hna) end. expected_cash Hb.
  destruct (_ && _); inv_run. case_bool_decide; inv_run.
  - eapply (books_row _ _ a); try done. eapply still_active; [by apply (sb_shifts _ Hb) | done..].
  - eapply finalizeClose_books in H as [? _]; try done. by apply as_uuid_idem.
Qed.

Lemma approveClose_books t i actor scope note entryId now clock d r d' : shift_books d ->
  approveClose t i actor scope note entryId now clock d = Ok (r, d') -> shift_books d'.
Proof.
  intros Hb. unfold approveClose. cbv zeta. intros H. inv_run. destruct (sh_status a) eqn:Est; inv_run.
  destruct (_ || _) eqn:Eo; inv_run. apply orb_false_iff in Eo as [E1%bool_decide_eq_false E2%bool_decide_eq_false]. expected_cash Hb.
  match goal with H' : match sh_actual a with _ => _ end _ = Ok _ |- _ => destruct (sh_actual a); inv_run end.
  eapply finalizeClose_books in H as [? _]; try done; [unfold is_active; by rewrite Est | by apply as_uuid_idem | by intros m [= <-]].
Qed.

Lemma rejectClose_books t i actor scope note clock d r d' : shift_books d -> rejectClose t i actor scope note clock d = Ok (r, d') -> shift_books d'.
Proof.
  intros Hb. unfold rejectClose. cbv zeta. intros H. inv_run. assert (Hact : is_active a = true) by (unfold is_active; by destruct (sh_status a); inv_run).
  destruct (sh_status a); inv_run; (eapply (books_row _ _ a); try done; eapply still_active; [by apply (sb_shifts _ Hb) | done..]).
Qed.

Lemma patchPlannedEnd_books t i scope at_ clock d r d' : shift_books d -> patchPlannedEnd t i scope at_ clock d = Ok (r, d') -> shift_books d'.
Proof.
  intros Hb. unfold patchPlannedEnd. cbv zeta. intros H. inv_run. destruct (sh_status a) eqn:Est; inv_run.
  assert (Hact : is_active a = true) by (unfold is_active; by rewrite Est). assert (Hact' : is_active (with_planned_end a at_) = true) by exact Hact.
  eapply (books_row _ _ a); try done. by eapply still_active; [apply (sb_shifts _ Hb) | ..].
Qed.

(** ** Opening a drawer, and cash of other services *)

Lemma books_new_shift d k s : shift_books d -> is_active s = true -> sh_expected s = sh_opening s -> sh_sales s = 0 -> sh_refunds s = 0 -> sh_approvedBy s = None ->
  (forall k' s', pos_shifts d !! k' = Some s' -> k' <> k /\ (is_active s && same_register k.1 s (k', s') = false)) -> shift_books (set_shift k s d).
Proof.
  intros [B1 B2 B3 B4 B5 B6] Ha E1 E2 E3 E4 Hnew. rewrite Ha in Hnew. cbn [andb] in Hnew.
  assert (Hclash : forall k' s', pos_shifts d !! k' = Some s' -> is_active s' = true -> k'.1 = k.1 -> sh_branch s' = sh_branch s -> sh_register s' = sh_register s -> False).
  { intros k' s' Hk A T1 T2 T3. destruct (Hnew k' s' Hk) as [_ Hc]. unfold same_register in Hc. cbn in Hc.
    by rewrite A, T1, T2, T3, !String.eqb_refl in Hc. }
  split; cbn [set_shift pos_shifts cash_entries]; try done.
  - intros k0 s0. change (entries_of k0 (set_shift k s d)) with (entries_of k0 d). destruct (decide (k = k0)) as [<-|];
      [rewrite lookup_insert_eq; intros [= <-] | rewrite lookup_insert_ne by done; apply B1].
    assert (entries_of k d = []) as ->.
    { apply filter_none. intros e He. apply not_true_iff_false. intros Ho%of_shift_spec. destruct (B3 e He) as [s' Hs]. rewrite Ho in Hs.
      by destruct (Hnew _ _ Hs). }
    apply is_active_closed in Ha. split; rewrite ?E1, ?E2, ?E3, ?E4; try done. unfold total. cbn. lia.
  - intros k0 k1 s0 s1. destruct (decide (k = k0)) as [<-|Hne0], (decide (k = k1)) as [<-|Hne1];
      rewrite ?lookup_insert_eq, ?lookup_insert_ne by done; [done| | |apply B2].
    + intros [= <-] H1 A0 A1 T1 T2 T3. by destruct (Hclash k1 s1).
    + intros H1 [= <-] A0 A1 T1 T2 T3. by destruct (Hclash k0 s0).
  - intros e He. by apply lookup_insert_is_Some', B3.
Qed.

Lemma openShift_books t staff scope dto i day now clock d r d' : shift_books d -> openShift t staff scope dto i day now clock d = Ok (r, d') -> shift_books d'.
Proof.
  intros Hb. unfold openShift. destruct (negb _); [done|]. intros H. inv_shift. unfold catch_unique in H.
  destruct (open_shift_tx _ _ _ _ _ _ _ _ _) as [[x d1]|e] eqn:E; [|destruct e as [[] ?|]; done]. injection H as <- <-.
  unfold open_shift_tx in E. inv_run. destruct (_ && _); inv_run. destruct (negb _); inv_run. destruct (existsb _ _); inv_run.
  match goal with H' : nextTenantDocumentCode _ _ _ _ = Ok _ |- _ => apply next_code_Ok in H' as [Es Ee] end.
  match goal with |- shift_books (add_event _ (set_shift _ ?row ?x)) => apply (books_same_tables (set_shift (t, i) row x)); [done..|] end.
  apply books_new_shift; try done. by apply (books_same_tables d).
Qed.

(** A source key of the other services is never the key of a close. *)
Ltac recorded :=
  match goal with H : recordCashEntry _ _ _ _ _ _ = Ok _ |- _ =>
    eapply record_books in H; [exact H | assumption | try done | try (intros ?; discriminate)] end.

Lemma checkout_cash_books t sid amount order by_ entryId now d r d' : shift_books d ->
  checkout_cash t sid amount order by_ entryId now d = Ok (r, d') -> shift_books d'.
Proof.
  intros Hb. unfold checkout_cash. destruct sid as [sid|]; [|intros H; by inv_shift]. destruct (_ && _); intros H; inv_shift; [recorded | done].
Qed.

Lemma findCallers_Ok t staff branch d i d' : findCallersOpenShift t staff branch d = Ok (i, d') -> d' = d.
Proof. unfold findCallersOpenShift. intros H. inv_shift. by destruct (sort_by _ _); inv_shift. Qed.

Lemma assertOpen_Ok t i branch d u d' : assertOpenShiftOfBranch t i branch d = Ok (u, d') -> d' = d.
Proof. unfold assertOpenShiftOfBranch. intros H. inv_shift. destruct (pos_shifts _ !! _); inv_shift. by destruct (_ || _); inv_shift. Qed.

Lemma payment_shift_Ok t refund picked actor branch d sid d' : payment_shift t refund picked actor branch d = Ok (sid, d') -> d' = d.
Proof.
  unfold payment_shift. intros H. destruct picked as [p|]; [destruct (_ && _)|]; inv_shift; eauto using findCallers_Ok, assertOpen_Ok.
Qed.

Lemma payment_cash_books t refund picked actor branch order tender value entryId now d r d' : shift_books d ->
  payment_cash t refund picked actor branch order tender value entryId now d = Ok (r, d') -> shift_books d'.
Proof.
  intros Hb. unfold payment_cash. intros H. apply tx_bind_Ok in H as (sid & d1 & Hp & H). apply payment_shift_Ok in Hp as ->.
  inv_shift. recorded. by destruct refund.
Qed.

Lemma refund_cash_books t actor branch order ret refund value entryId now d r d' : shift_books d ->
  refund_cash t actor branch order ret refund value entryId now d = Ok (r, d') -> shift_books d'.
Proof.
  intros Hb. unfold refund_cash. intros H. inv_shift. match goal with H' : findCallersOpenShift _ _ _ _ = Ok _ |- _ => apply findCallers_Ok in H' as -> end.
  destruct (0 <? value); inv_shift; [recorded | done].
Qed.

Lemma addCashEntry_books t i actor scope k dto uuid entryId now d r d' : shift_books d ->
  addCashEntry t i actor scope k dto uuid entryId now d = Ok (r, d') -> shift_books d'.
Proof.
  intros Hb. unfold addCashEntry. intros H. inv_shift. destruct (pos_shifts _ !! _); inv_shift. destruct (negb _); inv_shift. cbv zeta in H. inv_shift.
  destruct (List.find _ _); inv_run. recorded; [by destruct (cq_payIn dto) | intros j; cbn; by destruct (blank k)].
Qed.

Definition same_drawers (d d' : db) : Prop := pos_shifts d' = pos_shifts d /\ cash_entries d' = cash_entries d.

#[local] Instance same_drawers_preorder : PreOrder same_drawers.
Proof. split; [by split | intros d1 d2 d3 [] []; split; congruence]. Qed.

Lemma updateCashSettings_drawers t dto : Keeps same_drawers (updateCashSettings t dto).
Proof. solve_keeps_with ltac:(idtac; done). Qed.

(** ** The service as a system *)

(** A call of the service, or of a service that puts cash into a drawer;
    [OtherTables] is any change of branches, registers, checkouts and drafts. *)
Inductive request :=
| OpenShift (tenantId staffId : string) (scope : BranchScope) (dto : OpenShiftReqDto) (shiftId datePart : string) (now clock : Z)
| CountShift (tenantId shiftId actorId : string) (scope : BranchScope) (denominations : list (string * number)) (version : option Z) (now clock : Z)
| CloseShift (tenantId shiftId actorId : string) (scope : BranchScope) (dto : CloseShiftReqDto) (entryId : string) (now clock : Z)
| ApproveClose (tenantId shiftId actorId : string) (scope : BranchScope) (note : option string) (entryId : string) (now clock : Z)
| RejectClose (tenantId shiftId actorId : string) (scope : BranchScope) (note : string) (clock : Z)
| AddCashEntry (tenantId shiftId actorId : string) (scope : BranchScope) (k : option string) (dto : CashEntryReqDto) (uuid entryId : string) (now : Z)
| PatchPlannedEnd (tenantId shiftId : string) (scope : BranchScope) (plannedEndAt clock : Z)
| UpdateCashSettings (tenantId : string) (dto : UpdateCashSettingsDto)
| CheckoutCash (tenantId : string) (shiftId : option string) (drawerCash : Z) (orderId createdBy entryId : string) (now : Z)
| PaymentCash (tenantId : string) (refund : bool) (picked : option string) (actorId branchId orderId tenderId : string) (value : Z) (entryId : string) (now : Z)
| RefundCash (tenantId actorId branchId orderId returnId refundId : string) (requestedVnd : Z) (entryId : string) (now : Z)
| OtherTables (branches : gmap key string) (regs : list RegisterRow) (wfs : list WorkflowRow) (dfs : list DraftRow).

Definition with_others (branches : gmap key string) (regs : list RegisterRow) (wfs : list WorkflowRow) (dfs : list DraftRow) (d : db) : db :=
  {| pos_shifts := pos_shifts d; cash_entries := cash_entries d; cash_setting := cash_setting d; sequences := sequences d;
     branch_projection := branches; registers := regs; workflows := wfs; drafts := dfs; outbox := outbox d |}.

Definition serve (d : db) (q : request) : db :=
  match q with
  | OpenShift t staff scope dto i day now clock => after (openShift t staff scope dto i day now clock) d
  | CountShift t i actor scope den version now clock => after (countShift t i actor scope den version now clock) d
  | CloseShift t i actor scope dto entryId now clock => after (closeShift t i actor scope dto entryId now clock) d
  | ApproveClose t i actor scope note entryId now clock => after (approveClose t i actor scope note entryId now clock) d
  | RejectClose t i actor scope note clock => after (rejectClose t i actor scope note clock) d
  | AddCashEntry t i actor scope k dto uuid entryId now => after (addCashEntry t i actor scope k dto uuid entryId now) d
  | PatchPlannedEnd t i scope at_ clock => after (patchPlannedEnd t i scope at_ clock) d
  | UpdateCashSettings t dto => after (updateCashSettings t dto) d
  | CheckoutCash t sid amount order by_ entryId now => after (checkout_cash t sid amount order by_ entryId now) d
  | PaymentCash t refund picked actor branch order tender value entryId now => after (payment_cash t refund picked actor branch order tender value entryId now) d
  | RefundCash t actor branch order ret refund value entryId now => after (refund_cash t actor branch order ret refund value entryId now) d
  | OtherTables branches regs wfs dfs => with_others branches regs wfs dfs d
  end.

Definition serve_all (d : db) (qs : list request) : db := foldl serve d qs.

Definition empty_db : db :=
  {| pos_shifts := ∅; cash_entries := []; cash_setting := ∅; sequences := ∅; branch_projection := ∅; registers := []; workflows := []; drafts := [];
     outbox := [] |}.

Definition reachable (d : db) : Prop := exists qs, d = serve_all empty_db qs.

Lemma shift_books_after {A} (m : tx A) d : shift_books d -> (forall a d', m d = Ok (a, d') -> shift_books d') -> shift_books (after m d).
Proof. intros Hb H. unfold after. destruct (m d) as [[a d']|]; [by eapply H | done]. Qed.

Lemma serve_shift_books d q : shift_books d -> shift_books (serve d q).
Proof.
  intros Hb. destruct q; cbn [serve]; try (apply shift_books_after; [done|]; intros a d' H).
  - by eapply openShift_books.
  - by eapply countShift_books.
  - by eapply closeShift_books.
  - by eapply approveClose_books.
  - by eapply rejectClose_books.
  - by eapply addCashEntry_books.
  - by eapply patchPlannedEnd_books.
  - apply updateCashSettings_drawers in H as [E1 E2]. by apply (books_same_tables d).
  - by eapply checkout_cash_books.
  - by eapply payment_cash_books.
  - by eapply refund_cash_books.
  - by apply (books_same_tables d).
Qed.

Lemma reachable_shift_books d : reachable d -> shift_books d.
Proof.
  intros [qs ->]. unfold serve_all. assert (H0 : shift_books empty_db).
  { split; cbn; [done | by intros k k' s s' Hk | by intros e He%elem_of_nil | by intros e i He%elem_of_nil | constructor | constructor]. }
  revert H0. generalize empty_db.
  induction qs as [|q qs IH]; intros d Hb; [done|]. cbn. apply IH. by apply serve_shift_books.
Qed.

(** ** What the drawers promise *)

(** C14.  The drawer and its ledger agree to the dong, in every state the services
    reach: the expected cash of a shift is its opening float and its entries, the
    totals of sales and refunds are those of its entries; a shift that is not closed
    has no closing entry; and a closed shift is settled: the float and all its
    entries, the shortage or overage included, make exactly the counted cash, and
    the stored variance is the count less the expected cash. *)
Theorem drawer_settles d k s : reachable d -> pos_shifts d !! k = Some s ->
  let es := entries_of k d in
  sh_expected s = sh_opening s + total flow es /\ sh_sales s = total sale_of es /\ sh_refunds s = total refund_of es /\
  (sh_status s <> CLOSED -> Forall (fun e => closing (en_kind e) = false) es) /\
  (sh_status s = CLOSED -> exists a, sh_actual s = Some a /\ a = sh_opening s + total en_amount es /\ sh_variance s = Some (a - sh_expected s)).
Proof.
  intros Hb%reachable_shift_books Hk. destruct (sb_shifts _ Hb _ _ Hk) as [O1 O2 O3 O4 O5 _]. split_and!; [done..| |done].
  intros Hs. by apply O4, is_active_closed.
Qed.

(** A register has one drawer: two shifts that are not closed are of different
    tenants, branches or registers, whatever was opened at the same time. *)
Theorem one_open_shift_per_register d k k' s s' : reachable d -> pos_shifts d !! k = Some s -> pos_shifts d !! k' = Some s' -> k <> k' ->
  sh_status s <> CLOSED -> sh_status s' <> CLOSED -> (k.1, sh_branch s, sh_register s) <> (k'.1, sh_branch s', sh_register s').
Proof.
  intros Hb%reachable_shift_books Hk Hk' Hne Hs%is_active_closed Hs'%is_active_closed [= H1 H2 H3]. apply Hne. by apply (sb_active _ Hb k k' s s').
Qed.

(** C28.  Four eyes: whoever approved the close of a shift neither counted its drawer
    nor asked to close it, and only a closed shift is approved. *)
Theorem approver_is_second_person d k s m : reachable d -> pos_shifts d !! k = Some s -> sh_approvedBy s = Some m ->
  sh_status s = CLOSED /\ sh_countedBy s <> Some m /\ sh_requestedBy s <> Some m.
Proof. intros Hb%reachable_shift_books Hk. apply (ok_approver _ _ (sb_shifts _ Hb _ _ Hk)). Qed.

(** ** A closed shift is final *)

Definition shift_identity (s : ShiftRow) := (sh_code s, sh_branch s, sh_register s, sh_registerId s, sh_staff s, sh_opening s, sh_openNote s, sh_openedAt s).

Definition shift_kept (d d' : db) : Prop :=
  cash_entries d `prefix_of` cash_entries d' /\
  forall k s, pos_shifts d !! k = Some s -> exists s', pos_shifts d' !! k = Some s' /\ shift_identity s' = shift_identity s /\
    sh_history s `prefix_of` sh_history s' /\ (sh_status s = CLOSED -> s' = s /\ entries_of k d' = entries_of k d).

#[export] Instance shift_kept_preorder : PreOrder shift_kept.
Proof.
  split; [intros d; split; [done | eauto 10]|]. intros d1 d2 d3 [A1 A2] [B1 B2]. split; [by etransitivity|]. intros k s Hk.
  destruct (A2 k s Hk) as (s1 & H1 & E1 & P1 & C1). destruct (B2 k s1 H1) as (s2 & H2 & E2 & P2 & C2). exists s2.
  split_and!; [done | congruence | by etransitivity|]. intros Hc. destruct (C1 Hc) as [-> F1]. destruct (C2 Hc) as [-> F2]. split; congruence.
Qed.

Lemma kept_drawers d d' : same_drawers d d' -> shift_kept d d'.
Proof. intros [E1 E2]. split; [by rewrite E2|]. unfold entries_of. rewrite E1, E2. eauto 10. Qed.

(** An update of a shift that is not closed, after new entries of it. *)
Lemma kept_active d d' k s s' : pos_shifts d !! k = Some s -> is_active s = true -> pos_shifts d' = <[k := s']> (pos_shifts d) ->
  shift_identity s' = shift_identity s -> sh_history s `prefix_of` sh_history s' ->
  (exists l, cash_entries d' = cash_entries d ++ l /\ Forall (fun e => of_shift k e = true) l) -> shift_kept d d'.
Proof.
  intros Hk Ha Hs Hi Hh (l & Hl & Hf). split; [rewrite Hl; by apply prefix_app_r|]. intros k0 s0 H0. rewrite Hs. destruct (decide (k = k0)) as [<-|Hne].
  - rewrite lookup_insert_eq. exists s'. rewrite Hk in H0. injection H0 as <-. split_and!; [done..|]. by apply is_active_closed in Ha.
  - rewrite lookup_insert_ne by done. exists s0. split_and!; [done..|]. intros _. split; [done|]. unfold entries_of. rewrite Hl, List.filter_app.
    rewrite (filter_none _ l); [by rewrite app_nil_r|]. intros e He. rewrite Forall_forall in Hf. apply Hf, of_shift_spec in He.
    apply not_true_iff_false. intros H1%of_shift_spec. congruence.
Qed.

Lemma kept_row d k s s' : pos_shifts d !! k = Some s -> is_active s = true -> shift_identity s' = shift_identity s -> sh_history s `prefix_of` sh_history s' ->
  shift_kept d (set_shift k s' d).
Proof. intros. eapply kept_active; try done. exists []. by rewrite app_nil_r. Qed.

Lemma kept_new_shift k s : Keeps shift_kept (insert_shift k s).
Proof.
  intros d u d' H. apply insert_shift_Ok in H as ([= -> ->] & Hnew). split; [done|]. intros k0 s0 H0. exists s0. cbn.
  rewrite lookup_insert_ne; [done|]. by destruct (Hnew k0 s0 H0).
Qed.

Lemma record_kept t input entryId now : closing (ci_kind input) = false -> Keeps shift_kept (recordCashEntry t input false entryId now).
Proof.
  intros Hk d r d' (s & Hi & [(_ & -> & _) | (_ & _ & Ho & staff & _ & _ & ->)])%record_cases; [reflexivity|]. rewrite Hk.
  eapply kept_active; [done | unfold is_active; by rewrite Ho | done | done | done |]. eexists. split; [done|]. constructor; [|done].
  by apply of_shift_spec.
Qed.

(** A close writes its closing entry and its row. *)
Lemma finalizeClose_kept t i s c p entryId now clock d v d' : pos_shifts d !! (t, i) = Some s -> is_active s = true -> as_uuid i = i ->
  finalizeClose t i s c p entryId now clock d = Ok (v, d') -> shift_kept d d'.
Proof.
  intros Hi Ha Hl. unfold finalizeClose. cbv zeta. intros H. apply tx_bind_Ok in H as (x & d1 & Hv & H). 
  assert (Hd1 : pos_shifts d1 = pos_shifts d /\ exists l, cash_entries d1 = cash_entries d ++ l /\ Forall (fun e => of_shift (t, i) e = true) l).
  { unfold variance_entry in Hv. destruct (negb _); inv_shift; [|split; [done|]; exists []; by rewrite app_nil_r].
    match goal with H' : recordCashEntry _ _ _ _ _ _ = Ok _ |- _ => apply record_cases in H' as (s' & _ & [(_ & -> & _) | (_ & _ & _ & staff & _ & _ & ->)]) end;
      [split; [done|]; exists []; by rewrite app_nil_r|]. cbn [ci_kind ci_shift].
    assert (closing (if nlt (cd_variance p) (int 0) then CASH_SHORTAGE else CASH_OVERAGE) = true) as -> by (by destruct (nlt _ _)).
    split; [done|]. eexists. split; [done|]. constructor; [|done]. apply of_shift_spec. change ((t, as_uuid i) = (t, i)). by rewrite Hl. }
  destruct Hd1 as [E1 Hl1]. inv_run. eapply (kept_active _ _ (t, i)); [done | done | cbn; by rewrite E1 | done | cbn; by apply prefix_app_r | done].
Qed.

#[export] Hint Resolve kept_new_shift : keeps.

Lemma expectedFromEntries_quiet t i s d n d' : expectedFromEntries t i s d = Ok (n, d') -> d' = d.
Proof.
  unfold expectedFromEntries. intros H. inv_run. match goal with H' : for_each read_entry _ _ _ = Ok _ |- _ => by apply read_entries_Ok in H' as [-> _] end.
Qed.

Ltac quiet_expected := match goal with H : expectedFromEntries _ _ _ _ = Ok _ |- _ => apply expectedFromEntries_quiet in H as -> end.
Ltac row_kept a := eapply (kept_row _ _ a); [eassumption | | done | cbn; by apply prefix_app_r].

Lemma countShift_kept t i actor scope den version now clock : Keeps shift_kept (countShift t i actor scope den version now clock).
Proof. intros d r d'. unfold countShift. cbv zeta. intros H. inv_run. quiet_expected. inv_run. by row_kept a. Qed.

Lemma closeShift_kept t i actor scope dto entryId now clock : Keeps shift_kept (closeShift t i actor scope dto entryId now clock).
Proof.
  intros d r d'. unfold closeShift. cbv zeta. intros H. inv_run. match goal with H' : count_of _ _ _ _ = Ok _ |- _ => apply count_of_Ok in H' as (-> & _) end.
  quiet_expected. destruct (_ && _); inv_run. case_bool_decide; inv_run; [by row_kept a|]. eapply finalizeClose_kept in H; eauto using as_uuid_idem.
Qed.

Lemma approveClose_kept t i actor scope note entryId now clock : Keeps shift_kept (approveClose t i actor scope note entryId now clock).
Proof.
  intros d r d'. unfold approveClose. cbv zeta. intros H. inv_run. destruct (sh_status a) eqn:Est; inv_run. destruct (_ || _); inv_run. quiet_expected.
  match goal with H' : match sh_actual a with _ => _ end _ = Ok _ |- _ => destruct (sh_actual a); inv_run end.
  eapply finalizeClose_kept in H; eauto using as_uuid_idem. unfold is_active. by rewrite Est.
Qed.

Lemma rejectClose_kept t i actor scope note clock : Keeps shift_kept (rejectClose t i actor scope note clock).
Proof.
  intros d r d'. unfold rejectClose. cbv zeta. intros H. inv_run. destruct (sh_status a) eqn:Est; inv_run; (row_kept a; unfold is_active; by rewrite Est).
Qed.

Lemma patchPlannedEnd_kept t i scope at_ clock : Keeps shift_kept (patchPlannedEnd t i scope at_ clock).
Proof.
  intros d r d'. unfold patchPlannedEnd. cbv zeta. intros H. inv_run. destruct (sh_status a) eqn:Est; inv_run.
  eapply (kept_row _ _ a); [done | unfold is_active; by rewrite Est | done | done].
Qed.

Lemma record_cash_kept t input entryId now d r d' : closing (ci_kind input) = false -> recordCashEntry t input false entryId now d = Ok (r, d') -> shift_kept d d'.
Proof. intros Hk. by apply record_kept. Qed.

Lemma addCashEntry_kept t i actor scope k dto uuid entryId now : Keeps shift_kept (addCashEntry t i actor scope k dto uuid entryId now).
Proof.
  intros d r d'. unfold addCashEntry. intros H. inv_shift. destruct (pos_shifts _ !! _); inv_shift. destruct (negb _); inv_shift. cbv zeta in H. inv_shift.
  destruct (List.find _ _); inv_run. eapply record_cash_kept; [|done]. by destruct (cq_payIn dto).
Qed.

Lemma checkout_cash_kept t sid amount order by_ entryId now : Keeps shift_kept (checkout_cash t sid amount order by_ entryId now).
Proof.
  intros d r d'. unfold checkout_cash. destruct sid as [sid|]; [|intros H; by inv_shift]. destruct (_ && _); intros H; inv_shift; [|done].
  eapply record_cash_kept; [|done]; done.
Qed.

Lemma payment_cash_kept t refund picked actor branch order tender value entryId now :
  Keeps shift_kept (payment_cash t refund picked actor branch order tender value entryId now).
Proof.
  intros d r d'. unfold payment_cash. intros H. apply tx_bind_Ok in H as (sid & d1 & Hp & H). apply payment_shift_Ok in Hp as ->.
  inv_shift. eapply record_cash_kept; [|done]. by destruct refund.
Qed.

Lemma refund_cash_kept t actor branch order ret refund value entryId now : Keeps shift_kept (refund_cash t actor branch order ret refund value entryId now).
Proof.
  intros d r d'. unfold refund_cash. intros H. inv_shift. match goal with H' : findCallersOpenShift _ _ _ _ = Ok _ |- _ => apply findCallers_Ok in H' as -> end.
  destruct (0 <? value); inv_shift; [eapply record_cash_kept; [|done]; done | done].
Qed.

Lemma openShift_kept t staff scope dto i day now clock : Keeps shift_kept (openShift t staff scope dto i day now clock).
Proof.
  intros d r d'. unfold openShift. destruct (negb _); [done|]. intros H. inv_shift. unfold catch_unique in H.
  destruct (open_shift_tx _ _ _ _ _ _ _ _ _) as [[x d1]|e] eqn:E; [|destruct e as [[] ?|]; done]. injection H as <- <-. revert E.
  match goal with |- ?m d = _ -> _ => assert (Hm : Keeps shift_kept m); [|apply Hm] end.
  solve_keeps_with ltac:(idtac; lazymatch goal with |- shift_kept _ _ => by apply kept_drawers end).
Qed.

Lemma serve_kept d q : shift_kept d (serve d q).
Proof.
  destruct q; cbn [serve]; try (apply (keeps_after shift_kept); try (by auto using countShift_kept, closeShift_kept, approveClose_kept, rejectClose_kept,
    patchPlannedEnd_kept, addCashEntry_kept, checkout_cash_kept, payment_cash_kept, refund_cash_kept, openShift_kept)).
  - intros d0 r d' H%updateCashSettings_drawers. by apply kept_drawers.
  - by apply kept_drawers.
Qed.

Lemma serve_all_kept d qs : shift_kept d (serve_all d qs).
Proof. unfold serve_all. revert d. induction qs as [|q qs IH]; intros d; [reflexivity|]. cbn. etransitivity; [apply serve_kept | apply IH]. Qed.

(** A closed shift is final: whatever requests follow, its row and its entries
    stay exactly as they are; the ledger of every shift only grows, a shift keeps its
    identity and its opening float, and no step is erased from its close history. *)
Theorem closed_shift_is_final d qs :
  cash_entries d `prefix_of` cash_entries (serve_all d qs) /\
  forall k s, pos_shifts d !! k = Some s -> exists s', pos_shifts (serve_all d qs) !! k = Some s' /\ shift_identity s' = shift_identity s /\
    sh_history s `prefix_of` sh_history s' /\ (sh_status s = CLOSED -> s' = s /\ entries_of k (serve_all d qs) = entries_of k d).
Proof. exact (serve_all_kept d qs). Qed.

(** ** The close policy *)

Lemma finalizeClose_row t i s c p entryId now clock d v d' : finalizeClose t i s c p entryId now clock d = Ok (v, d') ->
  pos_shifts d' !! (t, i) = Some (ps_row v) /\ sh_status (ps_row v) = CLOSED /\ sh_actual (ps_row v) = Some (nval (cd_counted p)) /\
  sh_variance (ps_row v) = Some (nval (cd_variance p)) /\ Z.abs (nval (cd_variance p)) <= MAX_SAFE_INTEGER.
Proof.
  unfold finalizeClose. cbv zeta. intros H. inv_run. match goal with E : ps_row v = _ |- _ => rewrite E end. cbn. by rewrite lookup_insert_eq.
Qed.

(** Where the count of a close comes from. *)
Definition count_source (s : ShiftRow) (dto : CloseShiftReqDto) (a : Z) : Prop :=
  cz_actual dto = Some a \/ (cz_actual dto = None /\ sh_status s = PENDING_CLOSE /\ sh_actual s = Some a).

Lemma count_of_source s actor dto d c d' : count_of s actor (cz_actual dto) d = Ok (c, d') -> exists a, c.1.1 = int a /\ count_source s dto a.
Proof.
  unfold count_of, count_source. destruct (cz_actual dto) as [a|].
  - intros H. inv_shift. exists a. split; [|by left]. cbn.
    match goal with H' : vndNumber _ = Ok _, H2 : parseVndAmount _ _ = Ok _ |- _ =>
      apply vndNumber_Ok in H' as [-> _]; apply parseVndAmount_num in H2 as [E _]; by rewrite E end.
  - destruct (sh_status s); try done. destruct (sh_actual s) as [a|]; [|done]. intros H. inv_run. eexists. split; [done|]. by right.
Qed.

Lemma no_pending_none t i now d u d' : assertNoPendingWork t i true now d = Ok (u, d') ->
  existsb (pending_workflow t i) (workflows d) = false /\ existsb (open_draft t i now) (drafts d) = false.
Proof. unfold assertNoPendingWork. intros H. inv_shift. destruct (existsb _ _); inv_shift. by destruct (existsb _ (drafts _)); inv_shift. Qed.

Lemma decide_within x t b : bool_decide (decideShiftClose (int x) (int t) (int b) = WITHIN_TOLERANCE) = (Z.abs x <=? t).
Proof. unfold decideShiftClose. change (mathAbs (int x)) with (int (Z.abs x)). cbv zeta. rewrite !nle_int. by repeat destruct (_ <=? _). Qed.

Lemma decide_approval x t b : bool_decide (decideShiftClose (int x) (int t) (int b) = APPROVAL_REQUIRED_CLOSE) = negb (Z.abs x <=? Z.max t b).
Proof.
  unfold decideShiftClose. change (mathAbs (int x)) with (int (Z.abs x)). cbv zeta. rewrite !nle_int. destruct (Z.leb_spec (Z.abs x) t), (Z.leb_spec (Z.abs x) b), (Z.leb_spec (Z.abs x) (Z.max t b)); (done || lia).
Qed.

Lemma reason_given x t r : negb (x <=? t) && match r with None => true | Some r => String.eqb r "" end = false -> t < x -> exists r', r = Some r' /\ r' <> "".
Proof.
  intros H Hlt. destruct (Z.leb_spec x t) as [|_]; [lia|]. cbn in H. destruct r as [r|]; [|done]. exists r. split; [done|]. by apply String.eqb_neq.
Qed.

(** C27.  A close follows the policy of the shop.  When [closeShift] answers, the shift
    had no pending checkout and no live draft, the variance is the count (given now,
    or the one made before) less the expected cash; a variance beyond the tolerance
    carries a reason; the shift is closed when the variance is within the tolerance
    or the approval limit, and waits for approval, with its ledger untouched,
    otherwise. *)
Theorem close_follows_policy d t i actor scope dto entryId now clock v d' : reachable d ->
  closeShift t i actor scope dto entryId now clock d = Ok (v, d') ->
  let k := (t, as_uuid i) in let c := default DEFAULT_CASH_SETTINGS (cash_setting d !! t) in
  existsb (pending_workflow t (as_uuid i)) (workflows d) = false /\ existsb (open_draft t (as_uuid i) now) (drafts d) = false /\
  exists s a, pos_shifts d !! k = Some s /\ count_source s dto a /\ pos_shifts d' !! k = Some (ps_row v) /\
    let x := a - sh_expected s in
    sh_actual (ps_row v) = Some a /\ sh_variance (ps_row v) = Some x /\
    (cs_tolerance c < Z.abs x -> exists r, cz_reason dto = Some r /\ r <> "") /\
    (if Z.abs x <=? Z.max (cs_tolerance c) (cs_approvalAbove c) then sh_status (ps_row v) = CLOSED
     else sh_status (ps_row v) = PENDING_APPROVAL /\ sh_requestedBy (ps_row v) = Some actor /\ cash_entries d' = cash_entries d).
Proof.
  intros Hb%reachable_shift_books. unfold closeShift. cbv zeta. intros H. inv_shift.
  match goal with H' : assertNoPendingWork _ _ _ _ _ = Ok _ |- _ => apply no_pending_none in H' as Hnp end. inv_run.
  match goal with H' : count_of _ _ _ _ = Ok _ |- _ => apply count_of_source in H' as Hsrc; apply count_of_Ok in H' as (-> & n & Hn & Hna) end.
  destruct Hsrc as (n0 & Hn0 & Hsrc). rewrite Hn in *. injection Hn0 as <-. expected_cash Hb. split_and!; [by destruct Hnp..|].
  exists a, n. split; [done|]. split; [done|].
  destruct (_ && _) eqn:Er in H; inv_run. assert (Hx : nsub (int n) (int (sh_expected a)) = int (n - sh_expected a)).
  { apply nsub_exact; [done..|]. case_bool_decide; inv_run; [done | by apply finalizeClose_row in H as (_ & _ & _ & _ & ?)]. }
  rewrite Hx in *. rewrite decide_within in Er. rewrite decide_approval in H. pose proof (reason_given _ _ _ Er) as Hr.
  destruct (_ <=? _ `max` _); cbn [negb] in H; inv_run.
  - apply finalizeClose_row in H as (? & ? & ? & ? & _). by split_and!.
  - match goal with E : ps_row v = _ |- _ => rewrite E end. cbn [set_shift pos_shifts]. by rewrite lookup_insert_eq.
Qed.

(** ** One entry per key *)

Lemma find_prefix {A} (p : A -> bool) l l' x : l `prefix_of` l' -> List.find p l = Some x -> List.find p l' = Some x.
Proof. intros [m ->]. induction l as [|y l IH]; [done|]. cbn. by destruct (p y). Qed.

(** After a call that succeeds, the key finds the entry the call answers. *)
Lemma record_found t input cl entryId now d r d' : recordCashEntry t input cl entryId now d = Ok (r, d') ->
  exists e, List.find (of_source t (ci_source input)) (cash_entries d') = Some e /\ en_id e = er_entryId r.
Proof.
  intros H. pose proof H as (s & Hi & _)%record_cases. unfold recordCashEntry in H. cbv zeta in H. inv_shift. rewrite Hi in H. inv_shift.
  destruct (List.find _ _) as [e|] eqn:Ef; inv_shift; [by exists e|].
  match goal with H' : (if cl then _ else _) ?x = Ok (_, ?y) |- _ => assert (y = x) as -> by (destruct cl; [by inv_shift | by destruct (sh_status s); inv_shift]) end.
  destruct (ci_staff input) as [staff|]; inv_run. exists (new_entry t input entryId (sh_branch s) staff now).
  assert (cash_entries d' = cash_entries d ++ [new_entry t input entryId (sh_branch s) staff now] /\ er_entryId r = entryId) as [-> ->]
    by (by destruct (ci_kind input); inv_run).
  split; [|done]. rewrite find_app_none by done. cbn. unfold of_source. cbn. by rewrite !String.eqb_refl.
Qed.

(** A call whose key is already written answers that entry and writes nothing. *)
Lemma record_replay t input cl entryId now d s e : pos_shifts d !! (t, as_uuid (ci_shift input)) = Some s ->
  List.find (of_source t (ci_source input)) (cash_entries d) = Some e ->
  recordCashEntry t input cl entryId now d = Ok ({| er_entryId := en_id e; er_replayed := true; er_branch := sh_branch s |}, d).
Proof. intros Hi He. unfold recordCashEntry, find_shift. cbv zeta. unfold gets, mbind, txn_bind. cbn. rewrite Hi. cbn. by rewrite He. Qed.

(** A pay-in or pay-out with an idempotency key is written once: after it was
    accepted, any later request with the same key on the same shift, whatever amount
    it asks for and whatever happened in between, answers the entry of the first one
    as a replay and leaves the drawer as it is, even when the shift is closed. *)
Theorem cash_entry_once d t i actor scope key dto uuid entryId now r d1 : blank (Some key) = false ->
  addCashEntry t i actor scope (Some key) dto uuid entryId now d = Ok (r, d1) ->
  forall qs actor' dto' uuid' entryId' now', let d2 := serve_all d1 qs in
    addCashEntry t i actor' scope (Some key) dto' uuid' entryId' now' d2 = Ok ({| ae_replayed := true; ae_entry := ae_entry r |}, d2).
Proof.
  intros Hk H qs actor' dto' uuid' entryId' now' d2. unfold addCashEntry in H. cbv zeta in H. rewrite Hk in H. inv_shift.
  destruct (pos_shifts _ !! _) as [s|] eqn:Hs; inv_shift. destruct (negb _) eqn:Hbr; inv_shift.
  destruct (List.find _ _) as [e0|] eqn:Hid; inv_run. pose proof (serve_all_kept d0 qs) as Hkept. fold d2 in Hkept. pose proof Hkept as [Hpre _].
  destruct (record_found _ _ _ _ _ _ _ _ Ha) as (e & Hsrc & He). apply record_cash_kept in Ha as Hk1; [|by destruct (cq_payIn dto)].
  destruct (proj2 (transitivity Hk1 Hkept) _ _ Hs) as (s2 & Hs2 & Hi2 & _). cbn [ci_source] in Hsrc.
  unfold addCashEntry, find_shift. cbv zeta. rewrite Hk. rewrite (tx_bind_run _ _ _ _ _ eq_refl), Hs2.
  assert (sh_branch s2 = sh_branch s) as -> by (unfold shift_identity in Hi2; congruence). rewrite Hbr.
  erewrite tx_bind_run; [|eapply record_replay; [exact Hs2 | exact (find_prefix _ _ _ _ Hpre Hsrc)]]. rewrite (tx_bind_run _ _ _ _ _ eq_refl).
  cbn [er_entryId er_replayed]. rewrite He, (find_prefix _ _ _ _ Hpre Hid). unfold toMoney. by rewrite (proj2 (Z.leb_le _ _)).
Qed.

(** ** A day at one drawer *)

Module DrawerDay.
(** A drawer opened with 500,000: a cash sale, a pay-out with a key, a count that is
    3,000 short. *)
Definition opened : list request :=
  [OtherTables (<[("t1", "b1") := "active"]> ∅) [] [] [];
   OpenShift "t1" "ann" None {| os_branch := "b1"; os_register := None; os_registerId := None; os_opening := 500000; os_note := None |} "s1" "20260101" 1000 1000;
   CheckoutCash "t1" (Some "s1") 120000 "o1" "ann" "e1" 2000].

Definition payout : CashEntryReqDto := {| cq_payIn := false; cq_amount := 50000; cq_reason := "taxi"; cq_note := None |}.
Definition pay (actor entryId : string) := addCashEntry "t1" "s1" actor None (Some "k1") payout "u1" entryId 3000.

Definition d_open := serve_all empty_db opened.
Definition d_paid := serve d_open (AddCashEntry "t1" "s1" "ann" None (Some "k1") payout "u1" "e2" 3000).

Definition count (z : Z) : CloseShiftReqDto := {| cz_version := None; cz_actual := Some z; cz_reason := Some "miscount"; cz_note := None |}.

(** Closed at once, and closed by a second person when 60,000 is missing. *)
Definition day (z : Z) : list request :=
  opened ++ [AddCashEntry "t1" "s1" "ann" None (Some "k1") payout "u1" "e2" 3000; CloseShift "t1" "s1" "ann" None (count z) "e3" 4000 4000].
Definition d_closed := serve_all empty_db (day 567000).
Definition d_waiting := serve_all empty_db (day 510000).
Definition d_approved := serve_all empty_db (day 510000 ++ [ApproveClose "t1" "s1" "bob" None None "e3" 5000 5000]).

(** A second drawer at another register of the branch. *)
Definition d_two := serve_all empty_db
  (opened ++ [OpenShift "t1" "eve" None {| os_branch := "b1"; os_register := Some "reg-02"; os_registerId := None; os_opening := 0; os_note := None |} "s2" "20260101" 6000 6000]).

Definition row (d : db) (k : key) : ShiftRow := default (open_row "" "" "" None "" 0 None 0 0) (pos_shifts d !! k).
End DrawerDay.
Import DrawerDay.

Lemma served_reachable qs : reachable (serve_all empty_db qs).
Proof. by exists qs. Qed.

Lemma drawer_settles_witness : sh_status (row d_closed ("t1", "s1")) = CLOSED /\
  sh_expected (row d_closed ("t1", "s1")) = sh_opening (row d_closed ("t1", "s1")) + total flow (entries_of ("t1", "s1") d_closed).
Proof.
  assert (H : pos_shifts d_closed !! ("t1", "s1") = Some (row d_closed ("t1", "s1"))) by (vm_compute; reflexivity).
  split; [vm_compute; reflexivity|]. exact (proj1 (drawer_settles d_closed ("t1", "s1") _ (served_reachable (day 567000)) H)).
Defined.

Lemma one_open_shift_per_register_witness :
  ("t1", sh_branch (row d_two ("t1", "s1")), sh_register (row d_two ("t1", "s1"))) <> ("t1", sh_branch (row d_two ("t1", "s2")), sh_register (row d_two ("t1", "s2"))).
Proof.
  assert (H1 : pos_shifts d_two !! ("t1", "s1") = Some (row d_two ("t1", "s1"))) by (vm_compute; reflexivity).
  assert (H2 : pos_shifts d_two !! ("t1", "s2") = Some (row d_two ("t1", "s2"))) by (vm_compute; reflexivity).
  refine (one_open_shift_per_register d_two ("t1", "s1") ("t1", "s2") _ _ (served_reachable _) H1 H2 _ _ _); vm_compute; discriminate.
Defined.

Lemma approver_is_second_person_witness : sh_countedBy (row d_approved ("t1", "s1")) <> Some "bob" /\ sh_requestedBy (row d_approved ("t1", "s1")) <> Some "bob".
Proof.
  assert (H1 : pos_shifts d_approved !! ("t1", "s1") = Some (row d_approved ("t1", "s1"))) by (vm_compute; reflexivity).
  assert (H2 : sh_approvedBy (row d_approved ("t1", "s1")) = Some "bob") by (vm_compute; reflexivity).
  exact (proj2 (approver_is_second_person d_approved ("t1", "s1") _ "bob" (served_reachable _) H1 H2)).
Defined.

Lemma close_follows_policy_witness : exists v d', closeShift "t1" "s1" "ann" None (count 567000) "e3" 4000 4000 d_paid = Ok (v, d') /\
  existsb (pending_workflow "t1" "s1") (workflows d_paid) = false.
Proof.
  assert (H : exists v d', closeShift "t1" "s1" "ann" None (count 567000) "e3" 4000 4000 d_paid = Ok (v, d')) by (eexists _, _; vm_compute; reflexivity).
  destruct H as (v & d' & E). exists v, d'. split; [exact E|].
  exact (proj1 (close_follows_policy d_paid _ _ _ _ _ _ _ _ _ _ (served_reachable (opened ++ [AddCashEntry "t1" "s1" "ann" None (Some "k1") payout "u1" "e2" 3000])) E)).
Defined.

Lemma cash_entry_once_witness : exists r d1, pay "ann" "e2" d_open = Ok (r, d1) /\
  let d2 := serve_all d1 [CloseShift "t1" "s1" "ann" None (count 567000) "e3" 4000 4000] in
  pay "bob" "e9" d2 = Ok ({| ae_replayed := true; ae_entry := ae_entry r |}, d2).
Proof.
  assert (H : exists r d1, pay "ann" "e2" d_open = Ok (r, d1)) by (eexists _, _; vm_compute; reflexivity).
  destruct H as (r & d1 & E). exists r, d1. split; [exact E|].
  exact (cash_entry_once d_open "t1" "s1" "ann" None "k1" payout "u1" "e2" 3000 r d1 eq_refl E _ "bob" payout "u1" "e9" 3000).
Defined.
