(* ===== verification/FinanceDomain.v ===== *)
(** * Finance domain layer

    apps/finance/src/domain/finance-domain.ts: money validation, the chart of
    accounts, balanced journals, customer credit, payment allocation (explicit
    and FIFO), refund eligibility, COD settlement lines, shift cash and
    maker-checker.  Unlike the other services this layer adds and subtracts
    plain [number]s, so the operators are those of JsNumber and the theorems
    say when they are exact. *)

From S2P Require Import Prelude JsNumber JsString.
From Stdlib Require Import QArith Ascii.

Open Scope Z_scope.

Inductive FinanceDomainErrorCode :=
| FINANCIAL_ACCOUNT_NOT_FOUND | FINANCIAL_ACCOUNT_INACTIVE | CASH_ACCOUNT_NOT_FOUND | CASH_ACCOUNT_INACTIVE
| CASH_ACCOUNT_CODE_CONFLICT | CASHBOOK_CATEGORY_NOT_FOUND | CASHBOOK_ENTRY_NOT_FOUND
| CASHBOOK_ENTRY_ALREADY_POSTED | CASHBOOK_ENTRY_INVALID_STATE | JOURNAL_NOT_BALANCED | JOURNAL_NOT_FOUND
| JOURNAL_ALREADY_POSTED | POSTING_ALREADY_REVERSED | RECEIVABLE_NOT_FOUND | RECEIVABLE_INVALID_STATE
| PAYMENT_ALLOCATION_EXCEEDED | CUSTOMER_CREDIT_LIMIT_EXCEEDED | CREDIT_AUTHORIZATION_NOT_FOUND
| CREDIT_AUTHORIZATION_INVALID_STATE | PAYABLE_NOT_FOUND | PAYABLE_INVALID_STATE | SUPPLIER_PAYMENT_EXCEEDED
| SETTLEMENT_NOT_FOUND | SETTLEMENT_AMOUNT_MISMATCH | SETTLEMENT_RECONCILIATION_REQUIRED | REFUND_NOT_FOUND
| REFUND_NOT_ELIGIBLE | REFUND_AMOUNT_EXCEEDED | REFUND_OUTCOME_UNKNOWN | REFUND_INVALID_STATE
| COD_RECEIVABLE_NOT_FOUND | COD_SETTLEMENT_NOT_FOUND | COD_SETTLEMENT_DUPLICATE | COD_SETTLEMENT_MISMATCH
| SHIFT_RECONCILIATION_NOT_FOUND | ADJUSTMENT_NOT_FOUND | ADJUSTMENT_INVALID_STATE | MAKER_CHECKER_VIOLATION
| IDEMPOTENCY_CONFLICT | RESOURCE_VERSION_CONFLICT | TENANT_ACCESS_DENIED | PERMISSION_DENIED | VALIDATION_ERROR.

#[export] Instance FinanceDomainErrorCode_eq_dec : EqDecision FinanceDomainErrorCode.
Proof. solve_decision. Defined.

Abbreviation res := (result FinanceDomainErrorCode).
Abbreviation throw c st := (Throw (DomainError c st)).

Definition DEFAULT_CUSTOMER_CREDIT_LIMIT_VND : number := int 2000000.
Definition MAX_MONETARY_VND : number := int MAX_SAFE_INTEGER.

(** ** Money, codes, masks *)

Definition parseVnd (raw : jsval) (allowZero allowNegative : bool) : res number :=
  match raw with
  | Undefined | Null => throw VALIDATION_ERROR 422
  | VNum n =>
      if negb (isSafeInteger n) then throw VALIDATION_ERROR 422
      else if nlt n (int 0) && negb allowNegative then throw VALIDATION_ERROR 422
      else if neq n (int 0) && negb allowZero then throw VALIDATION_ERROR 422
      else Ok n
  | _ => throw VALIDATION_ERROR 422
  end.

(** [[A-Z0-9_-]]. *)
Definition code_char (c : ascii) : bool :=
  is_upper c || is_digit c || Ascii.eqb c "_" || Ascii.eqb c "-".

Definition normalizeFinanceCode (raw : option string) : res string :=
  let cleaned := toUpperCase (trim (default "" raw)) in
  if String.eqb cleaned "" || negb (sall code_char cleaned && (2 <=? slen cleaned) && (slen cleaned <=? 64))
  then throw VALIDATION_ERROR 422 else Ok cleaned.

(** [s.replace(/\s+/g, '')]. *)
Fixpoint strip_ws (s : string) : string :=
  match s with
  | EmptyString => EmptyString
  | String c r => if is_ws c then strip_ws r else String c (strip_ws r)
  end.

Definition maskBankAccountNumber (raw : option string) : option string :=
  if negb (truthy raw) then None
  else
    let trimmed := strip_ws (trim (default "" raw)) in
    let n := String.length trimmed in
    if (slen trimmed <=? 4) then Some "****"
    else Some (srepeat (Nat.min 8 (n - 4)) "*" +:+ String.substring (n - 4) 4 trimmed).

(** ** Chart of accounts *)

Inductive AccountType := ASSET | LIABILITY | EQUITY | REVENUE | CONTRA_REVENUE | EXPENSE_ACCOUNT.
Inductive NormalSide := DEBIT | CREDIT.

#[export] Instance AccountType_eq_dec : EqDecision AccountType.
Proof. solve_decision. Defined.
#[export] Instance NormalSide_eq_dec : EqDecision NormalSide.
Proof. solve_decision. Defined.

Record StandardFinancialAccountSpec := {
  ac_code : string;
  ac_name : string;
  ac_accountType : AccountType;
  ac_normalSide : NormalSide }.

Module GL.
Definition CASH_ON_HAND := "1110".
Definition CASH_AT_BANK := "1120".
Definition ACCOUNTS_RECEIVABLE := "1310".
Definition COD_CARRIER_RECEIVABLE := "1315".
Definition PAYMENT_CLEARING := "1388".
Definition INVENTORY_PURCHASE_CLEARING := "1560".
Definition CUSTOMER_PREPAYMENT := "3315".
Definition ACCOUNTS_PAYABLE := "3310".
Definition SALES_REVENUE_CLEARING := "5110".
Definition SALES_RETURN_REFUND := "5210".
Definition CARRIER_FEE_EXPENSE := "6410".
Definition OPERATING_EXPENSE := "6420".
Definition OTHER_INCOME := "7110".
Definition CASH_VARIANCE := "8110".
End GL.

Definition DEFAULT_FINANCE_ACCOUNTS : list StandardFinancialAccountSpec :=
  [ Build_StandardFinancialAccountSpec GL.CASH_ON_HAND "Cash on Hand (Drawer / Safe)" ASSET DEBIT;
    Build_StandardFinancialAccountSpec GL.CASH_AT_BANK "Cash at Bank / E-Wallet" ASSET DEBIT;
    Build_StandardFinancialAccountSpec GL.ACCOUNTS_RECEIVABLE "Customer Accounts Receivable" ASSET DEBIT;
    Build_StandardFinancialAccountSpec GL.COD_CARRIER_RECEIVABLE "COD Carrier Receivable" ASSET DEBIT;
    Build_StandardFinancialAccountSpec GL.PAYMENT_CLEARING "Electronic Payment Clearing" ASSET DEBIT;
    Build_StandardFinancialAccountSpec GL.INVENTORY_PURCHASE_CLEARING "Inventory & Goods Receipt Clearing" ASSET DEBIT;
    Build_StandardFinancialAccountSpec GL.CUSTOMER_PREPAYMENT "Customer Prepayments & Overpayments" LIABILITY CREDIT;
    Build_StandardFinancialAccountSpec GL.ACCOUNTS_PAYABLE "Supplier Accounts Payable" LIABILITY CREDIT;
    Build_StandardFinancialAccountSpec GL.SALES_REVENUE_CLEARING "Sales Revenue Clearing" REVENUE CREDIT;
    Build_StandardFinancialAccountSpec GL.SALES_RETURN_REFUND "Sales Returns & Refunds" CONTRA_REVENUE DEBIT;
    Build_StandardFinancialAccountSpec GL.CARRIER_FEE_EXPENSE "Carrier Shipping & COD Fees" EXPENSE_ACCOUNT DEBIT;
    Build_StandardFinancialAccountSpec GL.OPERATING_EXPENSE "Store Operating Expenses" EXPENSE_ACCOUNT DEBIT;
    Build_StandardFinancialAccountSpec GL.OTHER_INCOME "Miscellaneous Income" REVENUE CREDIT;
    Build_StandardFinancialAccountSpec GL.CASH_VARIANCE "Cashier Shift Shortage / Overage" EXPENSE_ACCOUNT DEBIT ].

Inductive CashDirection := RECEIPT | EXPENSE.

Record StandardCashbookCategorySpec := {
  cc_code : string;
  cc_name : string;
  cc_direction : CashDirection;
  cc_glAccountCode : string }.

Definition DEFAULT_CASHBOOK_CATEGORIES : list StandardCashbookCategorySpec :=
  [ Build_StandardCashbookCategorySpec "SALES_RECEIPT" "POS / Order Cash Sale Receipt" RECEIPT GL.SALES_REVENUE_CLEARING;
    Build_StandardCashbookCategorySpec "DEBT_COLLECTION" "Customer Debt Collection" RECEIPT GL.ACCOUNTS_RECEIVABLE;
    Build_StandardCashbookCategorySpec "COD_SETTLEMENT_RECEIPT" "Carrier COD Remittance Receipt" RECEIPT GL.COD_CARRIER_RECEIVABLE;
    Build_StandardCashbookCategorySpec "OTHER_RECEIPT" "Miscellaneous Cash Receipt" RECEIPT GL.OTHER_INCOME;
    Build_StandardCashbookCategorySpec "SUPPLIER_PAYMENT" "Supplier Payable Payment" EXPENSE GL.ACCOUNTS_PAYABLE;
    Build_StandardCashbookCategorySpec "CUSTOMER_REFUND" "Customer Sales Return Refund" EXPENSE GL.SALES_RETURN_REFUND;
    Build_StandardCashbookCategorySpec "OPERATING_EXPENSE" "General Store Operating Expense" EXPENSE GL.OPERATING_EXPENSE ].

(** ** Balanced journals *)

Inductive PartyType := CUSTOMER | SUPPLIER | CARRIER.

Record JournalLineInput := {
  ji_accountCode : option string;
  ji_debitAmount : jsval;
  ji_creditAmount : jsval;
  ji_branchId : option string;
  ji_partyType : option PartyType;
  ji_partyId : option string;
  ji_referenceType : option string;
  ji_referenceId : option string;
  ji_memo : option string }.

Record ValidatedJournalLine := {
  jl_lineNo : Z;
  jl_accountCode : string;
  jl_debitAmount : number;
  jl_creditAmount : number;
  jl_debitVnd : number;
  jl_creditVnd : number;
  jl_branchId : option string;
  jl_partyType : option PartyType;
  jl_partyId : option string;
  jl_referenceType : option string;
  jl_referenceId : option string;
  jl_memo : option string }.

Record ValidatedJournalResult := {
  jr_totalDebit : number;
  jr_totalCredit : number;
  jr_totalDebitVnd : number;
  jr_totalCreditVnd : number;
  jr_lines : list ValidatedJournalLine }.

(** [v ?? 0]. *)
Definition or_zero (v : jsval) : jsval := if is_nullish v then VNum (int 0) else v.

Definition journal_line (i : Z) (line : JournalLineInput) : res ValidatedJournalLine :=
  let accountCode := toUpperCase (trim (default "" (ji_accountCode line))) in
  if String.eqb accountCode "" then throw VALIDATION_ERROR 422
  else
    debitVnd ← parseVnd (or_zero (ji_debitAmount line)) true false;
    creditVnd ← parseVnd (or_zero (ji_creditAmount line)) true false;
    if (neq debitVnd (int 0) && neq creditVnd (int 0)) || (nlt (int 0) debitVnd && nlt (int 0) creditVnd)
    then throw JOURNAL_NOT_BALANCED 422
    else Ok {| jl_lineNo := i + 1; jl_accountCode := accountCode; jl_debitAmount := debitVnd;
               jl_creditAmount := creditVnd; jl_debitVnd := debitVnd; jl_creditVnd := creditVnd;
               jl_branchId := ji_branchId line; jl_partyType := ji_partyType line; jl_partyId := ji_partyId line;
               jl_referenceType := ji_referenceType line; jl_referenceId := ji_referenceId line;
               jl_memo := ji_memo line |}.

(** The loop carries the index, the two running totals and the lines. *)
Record JournalTotals := { jt_index : Z; jt_debit : number; jt_credit : number; jt_lines : list ValidatedJournalLine }.

Definition journal_step (t : JournalTotals) (line : JournalLineInput) : res JournalTotals :=
  l ← journal_line (jt_index t) line;
  Ok {| jt_index := jt_index t + 1; jt_debit := nadd (jt_debit t) (jl_debitVnd l);
        jt_credit := nadd (jt_credit t) (jl_creditVnd l); jt_lines := jt_lines t ++ [l] |}.

Definition validateBalancedJournalLines (lines : list JournalLineInput) : res ValidatedJournalResult :=
  if Z.of_nat (length lines) <? 2 then throw JOURNAL_NOT_BALANCED 422
  else
    t ← foldM journal_step (Build_JournalTotals 0 (int 0) (int 0) []) lines;
    if nle (jt_debit t) (int 0) || negb (neq (jt_debit t) (jt_credit t)) then throw JOURNAL_NOT_BALANCED 422
    else Ok {| jr_totalDebit := jt_debit t; jr_totalCredit := jt_credit t; jr_totalDebitVnd := jt_debit t;
               jr_totalCreditVnd := jt_credit t; jr_lines := jt_lines t |}.

(** ** Customer credit *)

Record CreditAuthorizationEvaluationInput := {
  ci_creditLimit : number;
  ci_postedDebt : number;
  ci_heldCredit : number;
  ci_requestedAmount : number;
  ci_overrideApprovedBy : option string;
  ci_overrideReason : option string }.

Record CreditAuthorizationEvaluationResult := {
  ce_creditLimit : number;
  ce_postedDebt : number;
  ce_heldCreditBefore : number;
  ce_availableCreditBefore : number;
  ce_requestedAmount : number;
  ce_heldCreditAfter : number;
  ce_availableCreditAfter : number;
  ce_isOverride : bool }.

(** [limit > posted + held ? limit - posted - held : 0]. *)
Definition available_credit (limit posted held : number) : number :=
  if nlt (nadd posted held) limit then nsub (nsub limit posted) held else int 0.

Definition is_override (approver : option string) : bool :=
  match approver with
  | Some s => truthy (Some s) && (0 <? slen (trim s))
  | None => false
  end.

Definition evaluateCreditAuthorization (input : CreditAuthorizationEvaluationInput)
    : res CreditAuthorizationEvaluationResult :=
  limitVnd ← parseVnd (VNum (ci_creditLimit input)) true false;
  postedVnd ← parseVnd (VNum (ci_postedDebt input)) true false;
  heldVnd ← parseVnd (VNum (ci_heldCredit input)) true false;
  reqVnd ← parseVnd (VNum (ci_requestedAmount input)) false false;
  let availableBefore := available_credit limitVnd postedVnd heldVnd in
  let isOverride := is_override (ci_overrideApprovedBy input) in
  if nlt availableBefore reqVnd && negb isOverride then throw CUSTOMER_CREDIT_LIMIT_EXCEEDED 409
  else
    let heldAfter := nadd heldVnd reqVnd in
    let availableAfter := available_credit limitVnd postedVnd heldAfter in
    Ok {| ce_creditLimit := limitVnd; ce_postedDebt := postedVnd; ce_heldCreditBefore := heldVnd;
          ce_availableCreditBefore := availableBefore; ce_requestedAmount := reqVnd;
          ce_heldCreditAfter := heldAfter; ce_availableCreditAfter := availableAfter;
          ce_isOverride := isOverride |}.

(** ** Payment allocation *)

Record OpenObligationSnapshot := {
  ob_id : string;
  ob_code : string;
  ob_originalAmount : number;
  ob_paidAmount : number;
  ob_adjustedAmount : number;
  ob_outstandingAmount : number }.

Record RequestedAllocationLine := { ra_documentId : string; ra_amount : number }.

Inductive AllocationStatus := PARTIALLY_PAID | PAID.
#[export] Instance AllocationStatus_eq_dec : EqDecision AllocationStatus.
Proof. solve_decision. Defined.

Record CalculatedAllocationLine := {
  al_documentId : string;
  al_code : string;
  al_allocatedAmount : number;
  al_paidAmountAfter : number;
  al_outstandingBefore : number;
  al_outstandingAfter : number;
  al_statusAfter : AllocationStatus }.

Record CalculatedPaymentAllocationResult := {
  pa_paymentAmount : number;
  pa_totalAllocated : number;
  pa_overpaymentAmount : number;
  pa_allocations : list CalculatedAllocationLine }.

Inductive OverpaymentPolicy := REJECT | PREPAYMENT.
Inductive ObligationKind := RECEIVABLE | PAYABLE.

Definition exceeded_code (kind : ObligationKind) : FinanceDomainErrorCode :=
  match kind with RECEIVABLE => PAYMENT_ALLOCATION_EXCEEDED | PAYABLE => SUPPLIER_PAYMENT_EXCEEDED end.

(** The allocation pushed for a document. *)
Definition allocation_of (doc : OpenObligationSnapshot) (alloc outBefore paidBefore : number) : CalculatedAllocationLine :=
  let outAfter := nsub outBefore alloc in
  {| al_documentId := ob_id doc; al_code := ob_code doc; al_allocatedAmount := alloc;
     al_paidAmountAfter := nadd paidBefore alloc; al_outstandingBefore := outBefore; al_outstandingAfter := outAfter;
     al_statusAfter := if neq outAfter (int 0) then PAID else PARTIALLY_PAID |}.

(** [docMap]: a later document with the same id replaces the earlier one. *)
Definition doc_map (docs : list OpenObligationSnapshot) : gmap string OpenObligationSnapshot :=
  foldl (fun m d => <[ob_id d := d]> m) ∅ docs.

Record ExplicitState := { es_seen : gset string; es_total : number; es_allocations : list CalculatedAllocationLine }.

Definition explicit_step (kind : ObligationKind) (docMap : gmap string OpenObligationSnapshot) (s : ExplicitState)
    (req : RequestedAllocationLine) : res ExplicitState :=
  if bool_decide (ra_documentId req ∈ es_seen s) then throw VALIDATION_ERROR 422
  else
    match docMap !! ra_documentId req with
    | None => throw (match kind with RECEIVABLE => RECEIVABLE_NOT_FOUND | PAYABLE => PAYABLE_NOT_FOUND end) 404
    | Some doc =>
        allocVnd ← parseVnd (VNum (ra_amount req)) false false;
        outBeforeVnd ← parseVnd (VNum (ob_outstandingAmount doc)) true false;
        paidBeforeVnd ← parseVnd (VNum (ob_paidAmount doc)) true false;
        if nlt outBeforeVnd allocVnd then throw (exceeded_code kind) 409
        else Ok {| es_seen := {[ra_documentId req]} ∪ es_seen s; es_total := nadd (es_total s) allocVnd;
                   es_allocations := es_allocations s ++ [allocation_of doc allocVnd outBeforeVnd paidBeforeVnd] |}
    end.

(** FIFO over the open documents: stops when nothing is left, skips settled ones. *)
Fixpoint fifo (remaining totalAllocated : number) (docs : list OpenObligationSnapshot)
    : res (number * list CalculatedAllocationLine) :=
  match docs with
  | [] => Ok (totalAllocated, [])
  | doc :: rest =>
      if nle remaining (int 0) then Ok (totalAllocated, [])
      else
        outBeforeVnd ← parseVnd (VNum (ob_outstandingAmount doc)) true false;
        if nle outBeforeVnd (int 0) then fifo remaining totalAllocated rest
        else
          paidBeforeVnd ← parseVnd (VNum (ob_paidAmount doc)) true false;
          let allocVnd := if nle remaining outBeforeVnd then remaining else outBeforeVnd in
          '(t, als) ← fifo (nsub remaining allocVnd) (nadd totalAllocated allocVnd) rest;
          Ok (t, allocation_of doc allocVnd outBeforeVnd paidBeforeVnd :: als)
  end.

Definition allocate (paymentVnd : number) (openDocuments : list OpenObligationSnapshot)
    (explicitAllocations : list RequestedAllocationLine) (kind : ObligationKind)
    : res (number * list CalculatedAllocationLine) :=
  match explicitAllocations with
  | [] => fifo paymentVnd (int 0) openDocuments
  | _ =>
      s ← foldM (explicit_step kind (doc_map openDocuments)) (Build_ExplicitState ∅ (int 0) []) explicitAllocations;
      Ok (es_total s, es_allocations s)
  end.

(** An absent [explicitAllocations] is the empty list here: both take the FIFO branch. *)
Definition calculateDocumentAllocations (paymentAmountRaw : number) (openDocuments : list OpenObligationSnapshot)
    (explicitAllocations : list RequestedAllocationLine) (policy : OverpaymentPolicy) (kind : ObligationKind)
    : res CalculatedPaymentAllocationResult :=
  paymentVnd ← parseVnd (VNum paymentAmountRaw) false false;
  '(totalAllocatedVnd, allocations) ← allocate paymentVnd openDocuments explicitAllocations kind;
  if nlt paymentVnd totalAllocatedVnd then throw (exceeded_code kind) 409
  else
    let overpaymentVnd := nsub paymentVnd totalAllocatedVnd in
    if nlt (int 0) overpaymentVnd && match policy with REJECT => true | PREPAYMENT => false end
    then throw (exceeded_code kind) 409
    else Ok {| pa_paymentAmount := paymentVnd; pa_totalAllocated := totalAllocatedVnd;
               pa_overpaymentAmount := overpaymentVnd; pa_allocations := allocations |}.

(** ** Refunds *)

Record RefundEligibilityInput := {
  ri_originalPaidAmount : number;
  ri_alreadyRefundedAmount : number;
  ri_requestedRefundAmount : number }.

Record RefundEligibilityResult := {
  re_originalPaidAmount : number;
  re_alreadyRefundedAmount : number;
  re_remainingRefundableBefore : number;
  re_requestedRefundAmount : number;
  re_remainingRefundableAfter : number }.

Definition validateRefundAllocation (input : RefundEligibilityInput) : res RefundEligibilityResult :=
  paidVnd ← parseVnd (VNum (ri_originalPaidAmount input)) false false;
  refundedVnd ← parseVnd (VNum (ri_alreadyRefundedAmount input)) true false;
  reqVnd ← parseVnd (VNum (ri_requestedRefundAmount input)) false false;
  let remainingBefore := if nlt refundedVnd paidVnd then nsub paidVnd refundedVnd else int 0 in
  if nlt remainingBefore reqVnd then throw REFUND_AMOUNT_EXCEEDED 409
  else Ok {| re_originalPaidAmount := paidVnd; re_alreadyRefundedAmount := refundedVnd;
             re_remainingRefundableBefore := remainingBefore; re_requestedRefundAmount := reqVnd;
             re_remainingRefundableAfter := nsub remainingBefore reqVnd |}.

(** ** COD settlement *)

Record CodSettlementLineEvaluationInput := {
  cd_expectedGrossCod : number;
  cd_reportedGrossCod : number;
  cd_carrierFee : number;
  cd_reportedNetPayout : number }.

Inductive SettlementStatus := MATCHED | DISCREPANCY.
#[export] Instance SettlementStatus_eq_dec : EqDecision SettlementStatus.
Proof. solve_decision. Defined.

Record CodSettlementLineEvaluationResult := {
  cs_expectedGrossCod : number;
  cs_reportedGrossCod : number;
  cs_carrierFee : number;
  cs_expectedNetPayout : number;
  cs_reportedNetPayout : number;
  cs_discrepancyAmount : number;
  cs_status : SettlementStatus;
  cs_discrepancyReason : option string }.

Fixpoint sjoin (sep : string) (l : list string) : string :=
  match l with
  | [] => ""
  | [s] => s
  | s :: l => s +:+ sep +:+ sjoin sep l
  end.

Definition cod_reasons (expectedGross reportedGross fee reportedNet discrepancy : number) : list string :=
  let s := string_of_number in
  let r1 := if negb (neq reportedGross expectedGross)
            then ["Reported COD (" +:+ s reportedGross +:+ ") != expected COD (" +:+ s expectedGross +:+ ")"] else [] in
  let r2 := if negb (neq (nsub reportedGross fee) reportedNet)
            then ["Carrier statement math mismatch: reportedGross (" +:+ s reportedGross +:+ ") - fee (" +:+ s fee
                  +:+ ") != netPayout (" +:+ s reportedNet +:+ ")"] else [] in
  match r1 ++ r2 with
  | [] => if negb (neq discrepancy (int 0)) then ["Net payout discrepancy of " +:+ s discrepancy +:+ " VND"] else []
  | rs => rs
  end.

Definition evaluateCodSettlementLine (input : CodSettlementLineEvaluationInput) : res CodSettlementLineEvaluationResult :=
  expectedGrossVnd ← parseVnd (VNum (cd_expectedGrossCod input)) false false;
  reportedGrossVnd ← parseVnd (VNum (cd_reportedGrossCod input)) true false;
  feeVnd ← parseVnd (VNum (cd_carrierFee input)) true false;
  reportedNetVnd ← parseVnd (VNum (cd_reportedNetPayout input)) true true;
  let expectedNetVnd := nsub expectedGrossVnd feeVnd in
  let discrepancyVnd := nsub reportedNetVnd expectedNetVnd in
  let reasons := cod_reasons expectedGrossVnd reportedGrossVnd feeVnd reportedNetVnd discrepancyVnd in
  Ok {| cs_expectedGrossCod := expectedGrossVnd; cs_reportedGrossCod := reportedGrossVnd; cs_carrierFee := feeVnd;
        cs_expectedNetPayout := expectedNetVnd; cs_reportedNetPayout := reportedNetVnd;
        cs_discrepancyAmount := discrepancyVnd;
        cs_status := match reasons with [] => MATCHED | _ => DISCREPANCY end;
        cs_discrepancyReason := match reasons with [] => None | _ => Some (sjoin "; " reasons) end |}.

(** ** Shift cash *)

Record ShiftCashEvaluationInput := {
  si_openingCash : number;
  si_confirmedCashSales : number;
  si_confirmedCashRefunds : number;
  si_otherCashReceipts : jsval;
  si_otherCashExpenses : jsval;
  si_actualCountedCash : number }.

Inductive ShiftStatus := RECONCILED | VARIANCE_DETECTED.
#[export] Instance ShiftStatus_eq_dec : EqDecision ShiftStatus.
Proof. solve_decision. Defined.

Record ShiftCashEvaluationResult := {
  se_openingCash : number;
  se_confirmedCashSales : number;
  se_confirmedCashRefunds : number;
  se_otherCashReceipts : number;
  se_otherCashExpenses : number;
  se_expectedClosingCash : number;
  se_actualCountedCash : number;
  se_varianceAmount : number;
  se_status : ShiftStatus }.

Definition evaluateShiftCashReconciliation (input : ShiftCashEvaluationInput) : res ShiftCashEvaluationResult :=
  opening ← parseVnd (VNum (si_openingCash input)) true false;
  sales ← parseVnd (VNum (si_confirmedCashSales input)) true false;
  refunds ← parseVnd (VNum (si_confirmedCashRefunds input)) true false;
  otherIn ← parseVnd (or_zero (si_otherCashReceipts input)) true false;
  otherOut ← parseVnd (or_zero (si_otherCashExpenses input)) true false;
  actual ← parseVnd (VNum (si_actualCountedCash input)) true false;
  let expected := nsub (nadd (nsub (nadd opening sales) refunds) otherIn) otherOut in
  let variance := nsub actual expected in
  Ok {| se_openingCash := opening; se_confirmedCashSales := sales; se_confirmedCashRefunds := refunds;
        se_otherCashReceipts := otherIn; se_otherCashExpenses := otherOut; se_expectedClosingCash := expected;
        se_actualCountedCash := actual; se_varianceAmount := variance;
        se_status := if neq variance (int 0) then RECONCILED else VARIANCE_DETECTED |}.

(** ** Maker-checker *)

Definition assertMakerCheckerSeparation (requestedBy approvedBy : string) : res unit :=
  if negb (truthy (Some requestedBy)) || negb (truthy (Some approvedBy)) then throw VALIDATION_ERROR 422
  else if String.eqb (trim requestedBy) (trim approvedBy) then throw MAKER_CHECKER_VIOLATION 403
  else Ok tt.

(** * Properties *)

Section Money.
Lemma parseVnd_num n az an m : parseVnd (VNum n) az an = Ok m ->
  exists z, n = int z /\ m = int z /\ Z.abs z <= MAX_SAFE_INTEGER /\ (an = false -> 0 <= z) /\
    (az = false -> z <> 0).
Proof.
  unfold parseVnd. intros H. run_ok H. bool_prop; apply isSafeInteger_inv in E as (z & -> & Hz);
    rewrite ?nlt_int, ?neq_int in *; bool_prop; exists z; split_and!; try done; try lia;
    intros ->; cbn in *; discriminate || lia.
Qed.

Lemma parseVnd_int z az an : Z.abs z <= MAX_SAFE_INTEGER -> (an = false -> 0 <= z) -> (az = false -> z <> 0) ->
  parseVnd (VNum (int z)) az an = Ok (int z).
Proof.
  intros Hz Hn H0. unfold parseVnd. rewrite isSafeInteger_int, (proj2 (Z.leb_le _ _)) by done. cbn [negb].
  rewrite nlt_int, neq_int. destruct an; [|specialize (Hn eq_refl)]; (destruct az; [|specialize (H0 eq_refl)]);
    destruct (Z.ltb_spec z 0), (Z.eqb_spec z 0); cbn; done || lia.
Qed.

(** Every amount the layer accepts is a whole number in the safe range. *)
Lemma parseVnd_pos n m : parseVnd (VNum n) false false = Ok m -> exists z, n = int z /\ m = int z /\ 0 < z <= MAX_SAFE_INTEGER.
Proof.
  intros (z & -> & -> & Hz & Hn & H0)%parseVnd_num. specialize (Hn eq_refl). specialize (H0 eq_refl).
  exists z. split_and!; done || lia.
Qed.

Lemma parseVnd_nonneg n m : parseVnd (VNum n) true false = Ok m -> exists z, n = int z /\ m = int z /\ 0 <= z <= MAX_SAFE_INTEGER.
Proof.
  intros (z & -> & -> & Hz & Hn & _)%parseVnd_num. specialize (Hn eq_refl). exists z. split_and!; done || lia.
Qed.
End Money.

(** ** Journals *)

(** What an accepted journal line is: exactly one side, positive. *)
Definition journal_line_ok (i : Z) (j : JournalLineInput) (l : ValidatedJournalLine) : Prop :=
  exists d c, jl_debitVnd l = int d /\ jl_creditVnd l = int c /\ jl_debitAmount l = int d /\ jl_creditAmount l = int c /\
    or_zero (ji_debitAmount j) = VNum (int d) /\ or_zero (ji_creditAmount j) = VNum (int c) /\
    0 <= d <= MAX_SAFE_INTEGER /\ 0 <= c <= MAX_SAFE_INTEGER /\ (0 < d /\ c = 0 \/ d = 0 /\ 0 < c) /\
    jl_lineNo l = i + 1 /\ jl_accountCode l <> "".

Lemma parseVnd_jsval v az an n : parseVnd v az an = Ok n -> v = VNum n.
Proof. destruct v; try discriminate. unfold parseVnd. intros H. run_ok H. done. Qed.

Lemma journal_line_Ok i j l : journal_line i j = Ok l -> journal_line_ok i j l.
Proof.
  unfold journal_line. intros H. case_if_in H; [discriminate|]. inv_ok. case_if_in H; [discriminate|]. inv_ok.
  apply parseVnd_jsval in Ha as Ed. apply parseVnd_jsval in Ha0 as Ec. rewrite Ed in Ha. rewrite Ec in Ha0.
  apply parseVnd_nonneg in Ha as (d & _ & -> & Hd). apply parseVnd_nonneg in Ha0 as (c & _ & -> & Hc).
  rewrite !neq_int, !nlt_int in *. apply orb_false_iff in E0 as [E1 E2].
  exists d, c. cbn -[Z.lt Z.le]. split_and!; try done; try lia. by apply String.eqb_neq.
Qed.

Definition debits (ls : list ValidatedJournalLine) : Z := total (fun l => nval (jl_debitVnd l)) ls.
Definition credits (ls : list ValidatedJournalLine) : Z := total (fun l => nval (jl_creditVnd l)) ls.

Lemma journal_loop ls t : foldM journal_step (Build_JournalTotals 0 (int 0) (int 0) []) ls = Ok t ->
  jt_index t = Z.of_nat (length ls) /\ sums_to (jt_debit t) (debits (jt_lines t)) /\
  sums_to (jt_credit t) (credits (jt_lines t)) /\
  length (jt_lines t) = length ls /\
  forall i j l, ls !! i = Some j -> jt_lines t !! i = Some l -> journal_line_ok (Z.of_nat i) j l.
Proof.
  apply (foldM_ind (fun ls t => jt_index t = Z.of_nat (length ls) /\ sums_to (jt_debit t) (debits (jt_lines t)) /\
    sums_to (jt_credit t) (credits (jt_lines t)) /\ length (jt_lines t) = length ls /\
    forall i j l, ls !! i = Some j -> jt_lines t !! i = Some l -> journal_line_ok (Z.of_nat i) j l)).
  - intros done j s s' (I1 & I2 & I3 & I4 & I5) H. unfold journal_step in H. inv_ok.
    apply journal_line_Ok in Ha. pose proof Ha as (d & c & Ed & Ec & _ & _ & _ & _ & Hd & Hc & _).
    cbn [jt_index jt_debit jt_credit jt_lines]. unfold debits, credits in *. rewrite !total_snoc, Ed, Ec.
    rewrite !length_app, I1, I4. cbn [length nval int Qnum]. split_and!; [lia | | | lia |].
    + apply sums_to_add; [done | lia].
    + apply sums_to_add; [done | lia].
    + intros i j' l. destruct (decide (i < length done)%nat) as [Hi|Hi].
      * rewrite !lookup_app_l by lia. apply I5.
      * rewrite !lookup_app_r by lia. rewrite I4. destruct (i - length done)%nat eqn:Ei; [|done].
        cbn. intros [= <-] [= <-]. rewrite I1 in Ha. by replace (Z.of_nat i) with (Z.of_nat (length done)) by lia.
  - cbn. unfold debits, credits. split_and!; try done; apply sums_to_0.
Qed.

(** What a validated journal is, when its total is a safe integer. *)
Lemma validated_journal (ls : list JournalLineInput) (r : ValidatedJournalResult) :
  validateBalancedJournalLines ls = Ok r -> isSafeInteger (jr_totalDebit r) = true ->
  (2 <= length ls)%nat /\ length (jr_lines r) = length ls /\
  (forall i j l, ls !! i = Some j -> jr_lines r !! i = Some l -> journal_line_ok (Z.of_nat i) j l) /\
  debits (jr_lines r) = credits (jr_lines r) /\ 0 < debits (jr_lines r) <= MAX_SAFE_INTEGER /\
  jr_totalDebit r = int (debits (jr_lines r)) /\ jr_totalCredit r = int (credits (jr_lines r)).
Proof.
  unfold validateBalancedJournalLines. intros H Hs. case_if_in H; [discriminate|]. bool_prop. inv_ok.
  case_if_in H; [discriminate|]. inv_ok. apply orb_false_iff in E0 as [E1 E2%negb_false_iff].
  apply journal_loop in Ha as (_ & Hd & Hc & Hl & Hlines). cbn in *.
  destruct (sums_to_safe _ _ Hd Hs) as [Ed Hd'].
  assert (Ec : jt_credit a = int (credits (jt_lines a)) /\ 0 <= credits (jt_lines a) <= MAX_SAFE_INTEGER).
  { apply sums_to_safe; [done|]. rewrite Ed in E2. destruct Hc as [[Hq Hc] | [[Hq | (m & Hq & Hm)] Hc]]; rewrite Hq in *; [| discriminate E2 |].
    - rewrite isSafeInteger_int. apply Z.leb_le. unfold MAX_SAFE_INTEGER. lia.
    - rewrite neq_int in E2. apply Z.eqb_eq in E2. unfold MAX_SAFE_INTEGER in *. lia. }
  destruct Ec as [Ec Hc']. rewrite Ed, Ec in E2. rewrite Ed in E1. rewrite neq_int in E2. rewrite nle_int in E1. bool_prop.
  split_and!; (done || lia).
Qed.

(** Every accepted journal whose total is a safe integer balances exactly:
    at least two lines, numbered from 1, each with an account and exactly one
    positive side taken from the input, and the exact sum of the debits is the
    exact sum of the credits and the reported total, which is positive. *)
Theorem accepted_journal_balances (ls : list JournalLineInput) (r : ValidatedJournalResult) :
  validateBalancedJournalLines ls = Ok r -> isSafeInteger (jr_totalDebit r) = true ->
  (2 <= length ls)%nat /\ length (jr_lines r) = length ls /\
  (forall i j l, ls !! i = Some j -> jr_lines r !! i = Some l -> journal_line_ok (Z.of_nat i) j l) /\
  debits (jr_lines r) = credits (jr_lines r) /\ 0 < debits (jr_lines r) <= MAX_SAFE_INTEGER /\
  jr_totalDebit r = int (debits (jr_lines r)) /\ jr_totalCredit r = int (credits (jr_lines r)).
Proof. apply validated_journal. Qed.

Definition posting (acc : string) (d c : jsval) : JournalLineInput :=
  {| ji_accountCode := Some acc; ji_debitAmount := d; ji_creditAmount := c; ji_branchId := None; ji_partyType := None;
     ji_partyId := None; ji_referenceType := None; ji_referenceId := None; ji_memo := None |}.

Lemma accepted_journal_witness : exists r,
  validateBalancedJournalLines [posting GL.CASH_ON_HAND (VNum (int 150000)) Undefined;
    posting GL.CARRIER_FEE_EXPENSE (VNum (int 8000)) Undefined; posting " 1315" Undefined (VNum (int 158000))] = Ok r /\
  debits (jr_lines r) = 158000 /\ debits (jr_lines r) = credits (jr_lines r).
Proof.
  eexists. split; [vm_compute; reflexivity|]. split; [reflexivity|].
  eapply (accepted_journal_balances [posting GL.CASH_ON_HAND (VNum (int 150000)) Undefined;
    posting GL.CARRIER_FEE_EXPENSE (VNum (int 8000)) Undefined; posting " 1315" Undefined (VNum (int 158000))]);
    [vm_compute; reflexivity | reflexivity].
Defined.

(** Beyond the safe range the running totals are rounded and the balance
    check is fooled: five lines of amounts that are each accepted, debits of
    2^53 + 1 against credits of 2^53, pass as balanced. *)
Theorem journal_totals_can_round : exists r,
  validateBalancedJournalLines
    [posting "1110" (VNum (int (2 ^ 53 - 1))) Undefined; posting "1110" (VNum (int 1)) Undefined;
     posting "1110" (VNum (int 1)) Undefined; posting "5110" Undefined (VNum (int (2 ^ 53 - 1)));
     posting "5110" Undefined (VNum (int 1))] = Ok r /\
  debits (jr_lines r) = credits (jr_lines r) + 1 /\ jr_totalDebit r = jr_totalCredit r.
Proof. eexists. split; [vm_compute; reflexivity|]. split; vm_compute; reflexivity. Qed.

(** ** Credit *)

Lemma safe_lt z : z <= MAX_SAFE_INTEGER -> z < 2 ^ 53.
Proof. unfold MAX_SAFE_INTEGER. lia. Qed.

Lemma sums_to_int z : 0 <= z <= MAX_SAFE_INTEGER -> sums_to (int z) z.
Proof. intros Hz. left. split; [done|]. unfold MAX_SAFE_INTEGER in *. lia. Qed.

Lemma available_credit_int L P H : 0 <= L <= MAX_SAFE_INTEGER -> 0 <= P <= MAX_SAFE_INTEGER -> 0 <= H ->
  available_credit (int L) (int P) (int H) = int (Z.max 0 (L - P - H)).
Proof.
  intros HL HP HH. unfold available_credit.
  destruct (sums_to_lt (nadd (int P) (int H)) (P + H) L) as [-> _];
    [apply sums_to_add; [by apply sums_to_int | lia] | apply safe_lt; lia|].
  unfold MAX_SAFE_INTEGER in *. destruct (Z.ltb_spec (P + H) L).
  - rewrite !nsub_int by lia. f_equal. f_equal. lia.
  - f_equal. f_equal. lia.
Qed.

Definition credit_input (L P H R : Z) (approver why : option string) : CreditAuthorizationEvaluationInput :=
  {| ci_creditLimit := int L; ci_postedDebt := int P; ci_heldCredit := int H; ci_requestedAmount := int R;
     ci_overrideApprovedBy := approver; ci_overrideReason := why |}.

(** The evaluation of a request for credit. *)
Lemma credit_evaluation (L P H R : Z) (approver why : option string) :
  0 <= L <= MAX_SAFE_INTEGER -> 0 <= P <= MAX_SAFE_INTEGER -> 0 <= H <= MAX_SAFE_INTEGER ->
  0 < R <= MAX_SAFE_INTEGER ->
  let out ov := {| ce_creditLimit := int L; ce_postedDebt := int P; ce_heldCreditBefore := int H;
    ce_availableCreditBefore := int (Z.max 0 (L - P - H)); ce_requestedAmount := int R;
    ce_heldCreditAfter := int (H + R); ce_availableCreditAfter := int (Z.max 0 (L - P - H - R));
    ce_isOverride := ov |} in
  (is_override approver = false ->
     evaluateCreditAuthorization (credit_input L P H R approver why) =
       if P + H + R <=? L then Ok (out false) else throw CUSTOMER_CREDIT_LIMIT_EXCEEDED 409) /\
  (is_override approver = true -> H + R <= 2 ^ 53 ->
     evaluateCreditAuthorization (credit_input L P H R approver why) = Ok (out true)).
Proof.
  intros HL HP HH HR out. unfold evaluateCreditAuthorization, credit_input.
  cbn [ci_creditLimit ci_postedDebt ci_heldCredit ci_requestedAmount ci_overrideApprovedBy].
  rewrite !parseVnd_int by (lia || done). rewrite !bind_of_Ok. cbv zeta.
  rewrite (available_credit_int L P H), nlt_int by lia.
  assert (Hgo : H + R <= 2 ^ 53 ->
    nadd (int H) (int R) = int (H + R) /\ available_credit (int L) (int P) (int (H + R)) = int (Z.max 0 (L - P - H - R))).
  { intros Hs. rewrite nadd_int by lia. split; [done|]. rewrite available_credit_int by lia. f_equal. f_equal. lia. }
  split; intros ->; cbn [negb andb].
  - rewrite andb_true_r. destruct (Z.leb_spec (P + H + R) L) as [Hle|Hgt].
    + replace (Z.max 0 (L - P - H) <? R) with false by lia. unfold MAX_SAFE_INTEGER in *.
      destruct (Hgo ltac:(lia)) as [-> ->]. done.
    + by replace (Z.max 0 (L - P - H) <? R) with true by lia.
  - rewrite andb_false_r. intros Hs. destruct (Hgo Hs) as [-> ->]. done.
Qed.

(** Credit authorization, for every whole-VND input.  Without an override
    the request is granted exactly when posted debt, held credit and request
    together stay within the limit, the held credit grows and the available
    credit shrinks by the request (no rounding, although the sums of the code
    may leave the safe range); otherwise the limit error is thrown.  A named
    approver lifts the limit, and the available credit then stops at zero. *)
Theorem credit_authorization_enforces_limit (L P H R : Z) (approver why : option string) :
  0 <= L <= MAX_SAFE_INTEGER -> 0 <= P <= MAX_SAFE_INTEGER -> 0 <= H <= MAX_SAFE_INTEGER ->
  0 < R <= MAX_SAFE_INTEGER ->
  let out ov := {| ce_creditLimit := int L; ce_postedDebt := int P; ce_heldCreditBefore := int H;
    ce_availableCreditBefore := int (Z.max 0 (L - P - H)); ce_requestedAmount := int R;
    ce_heldCreditAfter := int (H + R); ce_availableCreditAfter := int (Z.max 0 (L - P - H - R));
    ce_isOverride := ov |} in
  (is_override approver = false ->
     evaluateCreditAuthorization (credit_input L P H R approver why) =
       if P + H + R <=? L then Ok (out false) else throw CUSTOMER_CREDIT_LIMIT_EXCEEDED 409) /\
  (is_override approver = true -> H + R <= 2 ^ 53 ->
     evaluateCreditAuthorization (credit_input L P H R approver why) = Ok (out true)).
Proof. apply credit_evaluation. Qed.

Lemma credit_authorization_witness :
  is_ok (evaluateCreditAuthorization (credit_input 2000000 1500000 300000 200000 None None)) = true /\
  evaluateCreditAuthorization (credit_input 2000000 1500000 300000 200001 None None) =
    throw CUSTOMER_CREDIT_LIMIT_EXCEEDED 409.
Proof.
  split.
  - rewrite (proj1 (credit_authorization_enforces_limit 2000000 1500000 300000 200000 None None
      ltac:(vm_compute; intuition congruence) ltac:(vm_compute; intuition congruence)
      ltac:(vm_compute; intuition congruence) ltac:(vm_compute; intuition congruence)) eq_refl). reflexivity.
  - exact (proj1 (credit_authorization_enforces_limit 2000000 1500000 300000 200001 None None
      ltac:(vm_compute; intuition congruence) ltac:(vm_compute; intuition congruence)
      ltac:(vm_compute; intuition congruence) ltac:(vm_compute; intuition congruence)) eq_refl).
Defined.

(** ** Payment allocation *)

(** An allocation to one of the documents: part of its outstanding amount. *)
Definition allocation_ok (docs : list OpenObligationSnapshot) (a : CalculatedAllocationLine) : Prop :=
  exists doc o p x, doc ∈ docs /\ al_documentId a = ob_id doc /\ al_code a = ob_code doc /\
    ob_outstandingAmount doc = int o /\ ob_paidAmount doc = int p /\ 0 < x <= o /\ o <= MAX_SAFE_INTEGER /\
    al_allocatedAmount a = int x /\ al_outstandingBefore a = int o /\ al_outstandingAfter a = int (o - x) /\
    (al_statusAfter a = PAID <-> x = o) /\ (p + x <= 2 ^ 53 -> al_paidAmountAfter a = int (p + x)).

Definition allocated (als : list CalculatedAllocationLine) : Z := total (fun a => nval (al_allocatedAmount a)) als.

Lemma allocation_of_ok docs doc x o p : doc ∈ docs -> ob_outstandingAmount doc = int o -> ob_paidAmount doc = int p ->
  0 < x <= o -> o <= MAX_SAFE_INTEGER -> 0 <= p -> allocation_ok docs (allocation_of doc (int x) (int o) (int p)).
Proof.
  intros Hd Ho Hp Hx Hm H0. exists doc, o, p, x. unfold allocation_of, MAX_SAFE_INTEGER in *. rewrite nsub_int, neq_int by lia.
  cbn [al_documentId al_code al_allocatedAmount al_outstandingBefore al_outstandingAfter al_statusAfter al_paidAmountAfter].
  split_and!; try done; try lia.
  - destruct (Z.eqb_spec (o - x) 0); split; (done || lia).
  - intros Hs. apply nadd_int. lia.
Qed.

Lemma doc_map_elem docs k d : doc_map docs !! k = Some d -> ob_id d = k /\ d ∈ docs.
Proof.
  unfold doc_map. revert k d. induction docs as [|x docs IH] using rev_ind; intros k d; cbn; [by rewrite lookup_empty|].
  rewrite foldl_snoc. destruct (decide (ob_id x = k)) as [<-|Hne].
  - rewrite lookup_insert_eq. intros [= <-]. split; [done|]. apply elem_of_app. right. left.
  - rewrite lookup_insert_ne by done. intros [? ?]%IH. split; [done|]. apply elem_of_app. by left.
Qed.

(** The explicit branch: the allocations are the requests, in order, no document twice. *)
Lemma explicit_loop kind docs reqs s :
  foldM (explicit_step kind (doc_map docs)) (Build_ExplicitState ∅ (int 0) []) reqs = Ok s ->
  sums_to (es_total s) (allocated (es_allocations s)) /\ Forall (allocation_ok docs) (es_allocations s) /\
  map al_documentId (es_allocations s) = map ra_documentId reqs /\
  map al_allocatedAmount (es_allocations s) = map ra_amount reqs /\
  (forall x, x ∈ es_seen s <-> x ∈ map ra_documentId reqs) /\ NoDup (map ra_documentId reqs).
Proof.
  apply (foldM_ind (fun reqs s => sums_to (es_total s) (allocated (es_allocations s)) /\
    Forall (allocation_ok docs) (es_allocations s) /\ map al_documentId (es_allocations s) = map ra_documentId reqs /\
    map al_allocatedAmount (es_allocations s) = map ra_amount reqs /\
    (forall x, x ∈ es_seen s <-> x ∈ map ra_documentId reqs) /\ NoDup (map ra_documentId reqs))).
  - intros done q s1 s2 (I1 & I2 & I3 & I4 & I5 & I6) H. unfold explicit_step in H. case_if_in H; [discriminate|]. bool_prop.
    destruct (doc_map docs !! ra_documentId q) as [doc|] eqn:Ed; [|discriminate]. inv_ok. case_if_in H; [discriminate|]. inv_ok.
    apply doc_map_elem in Ed as [Eid Hin]. apply parseVnd_pos in Ha as (x & Ex & -> & Hx).
    apply parseVnd_nonneg in Ha0 as (o & Eo & -> & Ho). apply parseVnd_nonneg in Ha1 as (p & Ep & -> & Hp).
    rewrite nlt_int in E0. bool_prop. cbn [es_total es_allocations es_seen]. unfold allocated in *. rewrite total_snoc.
    assert (Hok : allocation_ok docs (allocation_of doc (int x) (int o) (int p))) by (apply allocation_of_ok; (done || lia)).
    rewrite !map_app, I3, I4. cbn [map]. rewrite Ex, <- Eid in *. split_and!; try done.
    + apply sums_to_add; [done | cbn; lia].
    + apply Forall_app. split; [done | by constructor].
    + intros y. rewrite elem_of_union, elem_of_singleton, elem_of_app, list_elem_of_singleton, I5. tauto.
    + apply NoDup_app. split; [done|]. split; [|apply NoDup_singleton].
      intros y Hy ->%list_elem_of_singleton. by apply E, I5.
  - cbn [es_total es_allocations es_seen map]. split; [apply sums_to_0|]. split; [constructor|].
    split; [done|]. split; [done|]. split; [|apply NoDup_nil_2].
    intros x. split; intros Hx; [by apply elem_of_empty in Hx | by apply not_elem_of_nil in Hx].
Qed.

(** The reference for FIFO: pay each document in turn as far as the money goes. *)
Fixpoint greedy (money : Z) (docs : list OpenObligationSnapshot) : list (string * Z) :=
  match docs with
  | [] => []
  | d :: rest =>
      let o := nval (ob_outstandingAmount d) in
      if (money <=? 0) || (o <=? 0) then greedy money rest
      else (ob_id d, Z.min money o) :: greedy (money - Z.min money o) rest
  end.

(** A document with whole, non-negative safe amounts. *)
Definition doc_ok (d : OpenObligationSnapshot) : Prop :=
  exists o p, ob_outstandingAmount d = int o /\ ob_paidAmount d = int p /\
    0 <= o <= MAX_SAFE_INTEGER /\ 0 <= p <= MAX_SAFE_INTEGER.

Lemma greedy_zero docs : greedy 0 docs = [].
Proof. induction docs as [|d docs IH]; cbn; [done|]. exact IH. Qed.

Lemma greedy_total money docs : 0 <= money -> Forall doc_ok docs ->
  total snd (greedy money docs) = Z.min money (total (fun d => nval (ob_outstandingAmount d)) docs).
Proof.
  intros Hm Hd. revert money Hm. induction Hd as [|d docs (o & p & Eo & _ & Ho & _) Hd IH]; intros money Hm.
  - unfold total. cbn. lia.
  - unfold total in *. cbn [greedy map sumZ]. rewrite Eo. cbn [nval int Qnum].
    assert (0 <= sumZ (map (fun d => nval (ob_outstandingAmount d)) docs)).
    { apply total_nonneg. intros x Hx. rewrite Forall_forall in Hd. destruct (Hd x Hx) as (o' & ? & -> & _ & ? & _). cbn. lia. }
    destruct (Z.leb_spec money 0), (Z.leb_spec o 0); cbn [orb]; try (rewrite IH by done; lia).
    cbn [map sumZ snd]. rewrite IH by lia. lia.
Qed.

(** Greedy is first-in first-out: whatever comes after a partly paid document gets nothing. *)
Lemma greedy_partial money d docs : 0 < money -> money < nval (ob_outstandingAmount d) -> greedy money (d :: docs) = [(ob_id d, money)].
Proof.
  intros Hm Hlt. cbn [greedy]. replace (money <=? 0) with false by lia.
  replace (nval (ob_outstandingAmount d) <=? 0) with false by lia. cbn [orb].
  rewrite Z.min_l by lia. rewrite Z.sub_diag, greedy_zero. done.
Qed.

Definition pairs (als : list CalculatedAllocationLine) : list (string * Z) :=
  map (fun a => (al_documentId a, nval (al_allocatedAmount a))) als.

(** The FIFO branch refines [greedy] on well-formed documents, and never fails there. *)
Lemma fifo_greedy all docs : (forall d, d ∈ docs -> d ∈ all) -> Forall doc_ok docs ->
  forall r t, 0 <= r -> 0 <= t -> r + t <= MAX_SAFE_INTEGER ->
  exists als, fifo (int r) (int t) docs = Ok (int (t + allocated als), als) /\ pairs als = greedy r docs /\
    Forall (allocation_ok all) als /\ 0 <= allocated als <= r.
Proof.
  intros Hsub Hd. induction Hd as [|d docs (o & p & Eo & Ep & Ho & Hp) Hd IH]; intros r t Hr Ht Hs; cbn [fifo greedy].
  - exists []. unfold allocated, total. cbn. rewrite Z.add_0_r. split_and!; (done || lia || constructor).
  - assert (Hsub' : forall x, x ∈ docs -> x ∈ all) by (intros; apply Hsub; by right). rewrite nle_int.
    destruct (Z.leb_spec r 0).
    { exists []. unfold allocated, total. cbn. replace r with 0 by lia. rewrite greedy_zero, Z.add_0_r.
      split_and!; (done || lia || constructor). }
    rewrite Eo, parseVnd_int by (lia || done). rewrite bind_of_Ok, nle_int. cbn [nval int Qnum].
    destruct (Z.leb_spec o 0); cbn [orb]; [apply (IH Hsub'); lia|].
    rewrite Ep, parseVnd_int by (lia || done). rewrite bind_of_Ok, nle_int.
    assert (Ex : (if r <=? o then int r else int o) = int (Z.min r o)).
    { destruct (Z.leb_spec r o); f_equal; f_equal; lia. }
    cbv zeta. rewrite Ex. unfold MAX_SAFE_INTEGER in *. rewrite nsub_int, nadd_int by lia.
    destruct (IH Hsub' (r - Z.min r o) (t + Z.min r o)) as (als & Ef & Eg & Hf & Hb); [lia..|].
    rewrite Ef, bind_of_Ok.
    exists (allocation_of d (int (Z.min r o)) (int o) (int p) :: als).
    assert (Ea : allocated (allocation_of d (int (Z.min r o)) (int o) (int p) :: als) = Z.min r o + allocated als) by done.
    rewrite Ea. split_and!; try lia.
    + by rewrite Z.add_assoc.
    + cbn [pairs map]. unfold pairs in Eg. rewrite Eg. done.
    + constructor; [|done]. apply allocation_of_ok; try done; [apply Hsub; left | lia | unfold MAX_SAFE_INTEGER; lia | lia].
Qed.

(** FIFO takes documents in order, each at most once. *)
Lemma fifo_sublist docs : forall remaining t t' als, fifo remaining t docs = Ok (t', als) -> map al_documentId als `sublist_of` map ob_id docs.
Proof.
  induction docs as [|d docs IH]; intros remaining t t' als; cbn; [by intros [= _ <-]|]. destruct (nle remaining _); [intros [= _ <-]; apply sublist_nil_l|].
  intros H. inv_ok. destruct (nle a _) in H; [apply sublist_cons; by eapply IH|]. inv_ok. destruct a1 as [t1 als1]. inv_ok. cbn. apply sublist_skip.
  by eapply IH.
Qed.

(** The sum over the (document, amount) pairs is the total allocated. *)
Lemma pairs_total als : total snd (pairs als) = allocated als.
Proof. unfold pairs, allocated, total. by rewrite map_map. Qed.

(** What an accepted allocation is. *)
Lemma accepted_allocation (payment : number) (docs : list OpenObligationSnapshot)
    (reqs : list RequestedAllocationLine) (policy : OverpaymentPolicy) (kind : ObligationKind)
    (r : CalculatedPaymentAllocationResult) :
  Forall doc_ok docs -> calculateDocumentAllocations payment docs reqs policy kind = Ok r ->
  exists P, payment = int P /\ 0 < P <= MAX_SAFE_INTEGER /\
    Forall (allocation_ok docs) (pa_allocations r) /\
    pa_totalAllocated r = int (allocated (pa_allocations r)) /\
    0 <= allocated (pa_allocations r) <= P /\
    pa_overpaymentAmount r = int (P - allocated (pa_allocations r)) /\
    (policy = REJECT -> allocated (pa_allocations r) = P) /\
    (reqs <> [] -> NoDup (map ra_documentId reqs) /\
       map al_documentId (pa_allocations r) = map ra_documentId reqs /\
       map al_allocatedAmount (pa_allocations r) = map ra_amount reqs).
Proof.
  intros Hd H. unfold calculateDocumentAllocations in H. inv_ok_step.
  apply parseVnd_pos in Ha as (P & -> & -> & HP). inv_ok_step. destruct a as [t als].
  assert (Hal : sums_to t (allocated als) /\ Forall (allocation_ok docs) als /\
    (reqs <> [] -> NoDup (map ra_documentId reqs) /\ map al_documentId als = map ra_documentId reqs /\
       map al_allocatedAmount als = map ra_amount reqs)).
  { unfold allocate in Ha. destruct reqs as [|q reqs].
    - destruct (fifo_greedy docs docs (fun _ h => h) Hd P 0) as (als' & Ef & _ & Hf & Hb); [lia..|].
      rewrite Ha in Ef. injection Ef as -> ->. rewrite Z.add_0_l. split_and!; [apply sums_to_int; lia | done | done].
    - inv_ok. apply explicit_loop in Ha0 as (I1 & I2 & I3 & I4 & _ & I6). done. }
  destruct Hal as (Hsum & Hf & Hex). case_if_in H; [discriminate|].
  destruct (sums_to_lt t (allocated als) P Hsum ltac:(apply safe_lt; lia)) as [_ Elt]. rewrite Elt in E. bool_prop.
  assert (Et : t = int (allocated als) /\ 0 <= allocated als).
  { destruct Hsum as [[-> ?] | [_ ?]]; [split; [done | lia]|]. unfold MAX_SAFE_INTEGER in *. lia. }
  destruct Et as [-> H0]. unfold MAX_SAFE_INTEGER in HP. rewrite nsub_int, nlt_int in H by lia.
  case_if_in H; [discriminate|]. inv_ok. cbn [pa_allocations pa_totalAllocated pa_overpaymentAmount].
  exists P. split_and!; try done; try (unfold MAX_SAFE_INTEGER; lia).
  intros ->. rewrite andb_true_r in E0. bool_prop. lia.
Qed.

(** No document is paid twice by one payment. *)
Lemma allocation_ids payment docs reqs policy kind r : NoDup (map ob_id docs) ->
  calculateDocumentAllocations payment docs reqs policy kind = Ok r -> NoDup (map al_documentId (pa_allocations r)).
Proof.
  intros Hd H. unfold calculateDocumentAllocations in H. inv_ok_step. inv_ok_step. destruct a0 as [t als]. case_if_in H; [discriminate|].
  case_if_in H; [discriminate|]. inv_ok. cbn. unfold allocate in *. destruct reqs as [|q reqs].
  - eapply sublist_NoDup; [exact Hd | by eapply fifo_sublist].
  - inv_ok. apply explicit_loop in Ha1 as (_ & _ & -> & _ & _ & ?). done.
Qed.

(** C24.  A payment is never allocated beyond itself or beyond a document.  For
    every accepted allocation, explicit or FIFO, of documents with whole
    amounts: each allocation is positive and at most what its document owes, the
    outstanding amount drops by exactly it and PAID is reported exactly when it
    reaches zero; allocated plus overpaid is exactly the payment, nothing is
    overpaid under REJECT, and explicit allocations are the requested ones, in
    order, no document twice. *)
Theorem payment_allocation_conserves_money (payment : number) (docs : list OpenObligationSnapshot)
    (reqs : list RequestedAllocationLine) (policy : OverpaymentPolicy) (kind : ObligationKind)
    (r : CalculatedPaymentAllocationResult) :
  Forall doc_ok docs -> calculateDocumentAllocations payment docs reqs policy kind = Ok r ->
  exists P, payment = int P /\ 0 < P <= MAX_SAFE_INTEGER /\
    Forall (allocation_ok docs) (pa_allocations r) /\
    pa_totalAllocated r = int (allocated (pa_allocations r)) /\
    0 <= allocated (pa_allocations r) <= P /\
    pa_overpaymentAmount r = int (P - allocated (pa_allocations r)) /\
    (policy = REJECT -> allocated (pa_allocations r) = P) /\
    (reqs <> [] -> NoDup (map ra_documentId reqs) /\
       map al_documentId (pa_allocations r) = map ra_documentId reqs /\
       map al_allocatedAmount (pa_allocations r) = map ra_amount reqs).
Proof. apply accepted_allocation. Qed.

(** FIFO allocation is the greedy reference: with documents of whole
    amounts and no explicit requests, the call never fails under PREPAYMENT and
    under REJECT exactly when the payment is larger than everything owed; the
    allocations are those of [greedy] (each document in turn, as far as the
    money goes), so the total is the smaller of payment and total owed. *)
Theorem fifo_allocation_is_greedy (P : Z) (docs : list OpenObligationSnapshot) (policy : OverpaymentPolicy)
    (kind : ObligationKind) :
  0 < P <= MAX_SAFE_INTEGER -> Forall doc_ok docs ->
  let owed := total (fun d => nval (ob_outstandingAmount d)) docs in
  if match policy with REJECT => owed <? P | PREPAYMENT => false end
  then calculateDocumentAllocations (int P) docs [] policy kind = throw (exceeded_code kind) 409
  else exists r, calculateDocumentAllocations (int P) docs [] policy kind = Ok r /\
    pairs (pa_allocations r) = greedy P docs /\ pa_totalAllocated r = int (Z.min P owed).
Proof.
  intros HP Hd. cbv zeta. set (owed := total _ docs).
  destruct (fifo_greedy docs docs (fun _ h => h) Hd P 0) as (als & Ef & Eg & Hf & Hb); [lia..|].
  assert (Ea : allocated als = Z.min P owed).
  { rewrite <- pairs_total, Eg. apply greedy_total; [lia | done]. }
  unfold calculateDocumentAllocations. rewrite parseVnd_int by (lia || done). rewrite bind_of_Ok. cbn [allocate].
  rewrite Ef, bind_of_Ok, Z.add_0_l, nlt_int. replace (P <? allocated als) with false by lia.
  unfold MAX_SAFE_INTEGER in *. rewrite nsub_int, nlt_int by lia. cbv zeta.
  destruct policy; cbn [andb]; rewrite ?andb_true_r, ?andb_false_r.
  - destruct (Z.ltb_spec owed P); [by replace (0 <? P - allocated als) with true by lia|].
    replace (0 <? P - allocated als) with false by lia. eexists. split; [done|]. cbn. split; [done | congruence].
  - eexists. split; [done|]. cbn. split; [done | congruence].
Qed.

Definition open_doc (k : string) (o p : Z) : OpenObligationSnapshot :=
  {| ob_id := k; ob_code := k; ob_originalAmount := int (o + p); ob_paidAmount := int p; ob_adjustedAmount := int 0;
     ob_outstandingAmount := int o |}.
Definition demo_docs : list OpenObligationSnapshot := [open_doc "a" 100 50; open_doc "b" 0 70; open_doc "c" 300 0; open_doc "d" 20 0].

Lemma demo_docs_ok : Forall doc_ok demo_docs.
Proof. unfold demo_docs, MAX_SAFE_INTEGER. repeat constructor; eexists _, _; split_and!; (reflexivity || (unfold MAX_SAFE_INTEGER; lia)). Qed.

Lemma payment_allocation_witness : exists r,
  calculateDocumentAllocations (int 250) demo_docs [{| ra_documentId := "c"; ra_amount := int 200 |}] PREPAYMENT RECEIVABLE = Ok r /\
  pa_overpaymentAmount r = int 50.
Proof.
  eexists. split; [vm_compute; reflexivity|].
  edestruct (payment_allocation_conserves_money (int 250) demo_docs [{| ra_documentId := "c"; ra_amount := int 200 |}]
    PREPAYMENT RECEIVABLE) as (P & EP & _ & _ & _ & _ & Ho & _); [exact demo_docs_ok | vm_compute; reflexivity|].
  apply int_inj in EP as <-. exact Ho.
Defined.

Lemma fifo_allocation_witness : exists r,
  calculateDocumentAllocations (int 250) demo_docs [] REJECT PAYABLE = Ok r /\
  pairs (pa_allocations r) = [("a", 100); ("c", 150)].
Proof.
  destruct (fifo_allocation_is_greedy 250 demo_docs REJECT PAYABLE ltac:(unfold MAX_SAFE_INTEGER; lia) demo_docs_ok)
    as (r & Hr & Hp & _).
  exists r. split; [exact Hr|]. exact Hp.
Defined.

(** ** Refunds, COD, shifts, maker-checker *)

Definition refund_input (P F R : Z) : RefundEligibilityInput :=
  {| ri_originalPaidAmount := int P; ri_alreadyRefundedAmount := int F; ri_requestedRefundAmount := int R |}.

(** The refunded amount after a request: it grows by an accepted request only. *)
Definition refund_next (P F R : Z) : Z :=
  match validateRefundAllocation (refund_input P F R) with Ok _ => F + R | Throw _ => F end.

Lemma refund_spec P F R : 0 < P <= MAX_SAFE_INTEGER -> 0 <= F <= MAX_SAFE_INTEGER -> 0 < R <= MAX_SAFE_INTEGER ->
  validateRefundAllocation (refund_input P F R) =
    if F + R <=? P then
      Ok {| re_originalPaidAmount := int P; re_alreadyRefundedAmount := int F;
            re_remainingRefundableBefore := int (P - F); re_requestedRefundAmount := int R;
            re_remainingRefundableAfter := int (P - F - R) |}
    else throw REFUND_AMOUNT_EXCEEDED 409.
Proof.
  intros HP HF HR. unfold validateRefundAllocation, refund_input.
  cbn [ri_originalPaidAmount ri_alreadyRefundedAmount ri_requestedRefundAmount].
  rewrite !parseVnd_int by (lia || done). rewrite !bind_of_Ok. cbv zeta. rewrite nlt_int. unfold MAX_SAFE_INTEGER in *.
  destruct (Z.ltb_spec F P); rewrite ?nsub_int, nlt_int by lia.
  - destruct (Z.leb_spec (F + R) P); [by replace (P - F <? R) with false by lia|].
    by replace (P - F <? R) with true by lia.
  - replace (0 <? R) with true by lia. by replace (F + R <=? P) with false by lia.
Qed.

(** Refunds never exceed the payment: a request is accepted exactly when it
    fits in what is left, and over any sequence of requests (accepted ones
    added, rejected ones not) the refunded amount never shrinks and never passes
    the amount paid. *)
Theorem refunds_never_exceed_payment (P : Z) (reqs : list Z) :
  0 < P <= MAX_SAFE_INTEGER -> Forall (fun R => 0 < R <= MAX_SAFE_INTEGER) reqs ->
  (forall F R, 0 <= F <= P -> 0 < R <= MAX_SAFE_INTEGER ->
     is_ok (validateRefundAllocation (refund_input P F R)) = (F + R <=? P)) /\
  (forall F, 0 <= F <= P -> F <= foldl (refund_next P) F reqs <= P).
Proof.
  intros HP Hr. split.
  - intros F R HF HR. rewrite refund_spec by lia. by destruct (F + R <=? P).
  - induction Hr as [|R reqs HR Hr IH]; intros F HF; cbn [foldl]; [lia|].
    assert (F <= refund_next P F R <= P) as Hn.
    { unfold refund_next. rewrite refund_spec by lia. destruct (Z.leb_spec (F + R) P); lia. }
    specialize (IH (refund_next P F R) ltac:(lia)). lia.
Qed.

Lemma refunds_never_exceed_witness : foldl (refund_next 1000) 0 [400; 700; 500; 200; 100] <= 1000.
Proof.
  apply (refunds_never_exceed_payment 1000 [400; 700; 500; 200; 100]); unfold MAX_SAFE_INTEGER;
    [lia | repeat constructor; lia | lia].
Defined.

Definition cod_input (E G F N : Z) : CodSettlementLineEvaluationInput :=
  {| cd_expectedGrossCod := int E; cd_reportedGrossCod := int G; cd_carrierFee := int F; cd_reportedNetPayout := int N |}.

(** A carrier statement line is MATCHED exactly when the reported COD is
    the expected one and the net payout is it minus the fee; the line is then
    without discrepancy, and a line that is not matched carries a reason. *)
Theorem cod_line_matched_iff (E G F N : Z) :
  0 < E <= MAX_SAFE_INTEGER -> 0 <= G <= MAX_SAFE_INTEGER -> 0 <= F <= MAX_SAFE_INTEGER -> Z.abs N <= MAX_SAFE_INTEGER ->
  exists r, evaluateCodSettlementLine (cod_input E G F N) = Ok r /\
    cs_expectedNetPayout r = int (E - F) /\
    (cs_status r = MATCHED <-> G = E /\ N = G - F) /\
    (cs_status r = MATCHED -> cs_discrepancyAmount r = int 0 /\ cs_discrepancyReason r = None) /\
    (cs_status r = DISCREPANCY -> is_Some (cs_discrepancyReason r)) /\
    (Z.abs (N - (E - F)) <= 2 ^ 53 -> cs_discrepancyAmount r = int (N - (E - F))).
Proof.
  intros HE HG HF HN. unfold evaluateCodSettlementLine, cod_input.
  cbn [cd_expectedGrossCod cd_reportedGrossCod cd_carrierFee cd_reportedNetPayout].
  rewrite !parseVnd_int by (lia || done). rewrite !bind_of_Ok. cbv zeta. eexists. split; [done|].
  cbn [cs_expectedNetPayout cs_status cs_discrepancyAmount cs_discrepancyReason].
  unfold MAX_SAFE_INTEGER in *. rewrite (nsub_int E F) by lia. split; [done|].
  unfold cod_reasons. rewrite (nsub_int G F), !neq_int by lia. cbv zeta.
  destruct (Z.eqb_spec G E) as [HGE|HGE], (Z.eqb_spec (G - F) N) as [Hnet|Hnet]; cbn [negb app].
  1: { subst N G. rewrite (nsub_int (E - F) (E - F)), Z.sub_diag by lia. rewrite neq_int. cbn.
       split_and!; try done; intros; lia. }
  all: split_and!; try done; [split; [discriminate | lia] | intros; apply nsub_int; lia].
Qed.

Lemma cod_line_witness :
  (exists r, evaluateCodSettlementLine (cod_input 500000 500000 30000 470000) = Ok r /\ cs_status r = MATCHED).
Proof.
  destruct (cod_line_matched_iff 500000 500000 30000 470000) as (r & Hr & _ & Hm & _); unfold MAX_SAFE_INTEGER; try lia.
  exists r. split; [exact Hr|]. apply Hm. lia.
Defined.

(** Separation of duties: an approval passes exactly when both actors are
    named and differ after trimming; the same actor, however padded with
    blanks, is refused with 403. *)
Theorem maker_checker_separates (m c : string) :
  (assertMakerCheckerSeparation m c = Ok tt <-> m <> "" /\ c <> "" /\ trim m <> trim c) /\
  (m <> "" -> c <> "" -> trim m = trim c -> assertMakerCheckerSeparation m c = throw MAKER_CHECKER_VIOLATION 403).
Proof.
  unfold assertMakerCheckerSeparation. assert (Ht : forall s, truthy (Some s) = true <-> s <> "").
  { intros s. destruct s; cbn; split; (done || discriminate). }
  destruct (truthy (Some m)) eqn:Em, (truthy (Some c)) eqn:Ec; cbn [negb orb].
  - apply Ht in Em, Ec. destruct (String.eqb_spec (trim m) (trim c)); split; try split; (done || intuition).
  - split; [|intros _ H%Ht; congruence]. split; [discriminate|]. intros (_ & H%Ht & _). congruence.
  - split; [|intros H%Ht; congruence]. split; [discriminate|]. intros (H%Ht & _). congruence.
  - split; [|intros H%Ht; congruence]. split; [discriminate|]. intros (H%Ht & _). congruence.
Qed.

Lemma maker_checker_witness :
  assertMakerCheckerSeparation "alice" " alice " = throw MAKER_CHECKER_VIOLATION 403 /\
  assertMakerCheckerSeparation "alice" "bob" = Ok tt.
Proof.
  split; [apply (proj2 (maker_checker_separates "alice" " alice ")); [discriminate..|reflexivity]|].
  apply (maker_checker_separates "alice" "bob"). repeat split; discriminate.
Defined.
