(* ===== verification/FinanceLedger.v ===== *)
(** * Finance service: journals, cash accounts and the cashbook

    apps/finance/src/modules: the general ledger
    (financial-journal/financial-journal.service.ts), the cash accounts
    (cash-accounts/cash-accounts.service.ts) and the cashbook with its receipt and
    expense vouchers (cashbook/cashbook.service.ts), over the tables of the
    migration with their constraints; and the tables of customer credit, suppliers,
    settlements and refunds, which the next files work on.

    A handler is one transaction.  Money columns are [bigint]; the entity
    transformer reads them through [toMoney], which refuses what is not a safe
    integer, and the services compute with JS numbers ([plus], [minus] round as
    doubles do).  [now] is the clock, [uuid] the random ids of a request, named by
    what they are for.  The lines of a journal are kept with it, as the service
    writes and reads them.  A lookup without ORDER BY takes the first row of the
    table in the order of its keys.  Text widths, correlation ids, effective dates
    and row versions are left out. *)

From S2P Require Import Prelude Transaction JsNumber JsString FinanceDomain.
From Stdlib Require Import Ascii.

Open Scope Z_scope.

(** ** Errors *)

(** A [FinanceDomainError], or a statement the database refused. *)
Inductive FinanceError := Rule (code : FinanceDomainErrorCode) | QueryFailed.

(** ** Tables *)

Definition as_uuid (s : string) : string := toLowerCase s.

Abbreviation key := (string * string)%type.

(** [financial_accounts], by tenant and code. *)
Record AccountRow := { ga_id : string; ga_name : string; ga_type : AccountType; ga_side : NormalSide; ga_system : bool; ga_active : bool }.

Record LineRow := {
  ln_no : Z; ln_accountId : string; ln_account : string; ln_debit : Z; ln_credit : Z; ln_branch : option string; ln_partyType : option PartyType;
  ln_partyId : option string; ln_refType : string; ln_refId : string; ln_memo : option string }.

Inductive JournalStatus := JPOSTED | JREVERSED.
#[export] Instance JournalStatus_eq_dec : EqDecision JournalStatus.
Proof. solve_decision. Defined.

Record JournalRow := {
  j_code : string; j_type : string; j_sourceType : string; j_sourceId : string; j_key : string; j_branch : option string; j_debit : Z; j_credit : Z;
  j_status : JournalStatus; j_reversalOf : option string; j_reversedBy : option string; j_description : option string; j_postedBy : string;
  j_at : Z; j_lines : list LineRow }.

Inductive CashAccountType := CASH_DRAWER | SAFE | BANK | E_WALLET.
#[export] Instance CashAccountType_eq_dec : EqDecision CashAccountType.
Proof. solve_decision. Defined.

Inductive CashAccountStatus := ACTIVE | INACTIVE | CLOSED.
#[export] Instance CashAccountStatus_eq_dec : EqDecision CashAccountStatus.
Proof. solve_decision. Defined.

Record CashAccountRow := {
  ca_branch : option string; ca_code : string; ca_name : string; ca_type : CashAccountType; ca_gl : string; ca_balance : Z;
  ca_status : CashAccountStatus; ca_bank : option string; ca_masked : option string; ca_createdAt : Z }.

(** [cashbook_categories], by tenant and code. *)
Record CategoryRow := { ct_id : string; ct_name : string; ct_direction : CashDirection; ct_gl : string; ct_system : bool }.

Inductive VoucherStatus := DRAFT | APPROVED | POSTED | REVERSED | CANCELLED.
#[export] Instance VoucherStatus_eq_dec : EqDecision VoucherStatus.
Proof. solve_decision. Defined.
#[export] Instance CashDirection_eq_dec : EqDecision CashDirection.
Proof. solve_decision. Defined.

(** [cashbook_entries]. *)
Record VoucherRow := {
  v_code : string; v_branch : option string; v_account : string; v_category : string; v_direction : CashDirection; v_type : string; v_amount : Z;
  v_status : VoucherStatus; v_sourceType : option string; v_sourceId : option string; v_partyType : option PartyType; v_partyId : option string;
  v_shift : option string; v_journal : option string; v_reversalOf : option string; v_reversedByEntry : option string; v_key : option string;
  v_hash : option string; v_description : option string; v_refDoc : option string; v_createdBy : string; v_approvedBy : option string;
  v_postedBy : option string; v_reversedBy : option string; v_approvedAt : option Z; v_postedAt : option Z; v_reversedAt : option Z; v_createdAt : Z }.

(** [customer_credit_profiles], by tenant and customer. *)
Record ProfileRow := { cp_limit : Z; cp_posted : Z; cp_held : Z; cp_prepayment : Z }.

Inductive AuthState := HELD | COMMITTED | RELEASED | EXPIRED.
#[export] Instance AuthState_eq_dec : EqDecision AuthState.
Proof. solve_decision. Defined.

Record AuthRow := {
  au_code : string; au_customer : string; au_order : option string; au_branch : option string; au_amount : Z; au_state : AuthState;
  au_overrideBy : option string; au_overrideReason : option string; au_key : string; au_hash : string; au_caller : string; au_expiresAt : Z;
  au_receivable : option string; au_releasedReason : option string; au_createdBy : string; au_committedAt : option Z; au_releasedAt : option Z }.

Inductive DocumentStatus := DOC_OPEN | DOC_PARTIALLY_PAID | DOC_PAID | DOC_WRITTEN_OFF | DOC_REVERSED.
#[export] Instance DocumentStatus_eq_dec : EqDecision DocumentStatus.
Proof. solve_decision. Defined.

Record ReceivableRow := {
  rv_code : string; rv_customer : string; rv_order : option string; rv_branch : option string; rv_auth : option string; rv_original : Z; rv_paid : Z;
  rv_adjusted : Z; rv_outstanding : Z; rv_status : DocumentStatus; rv_sourceType : string; rv_sourceId : string; rv_journal : string; rv_key : string;
  rv_createdAt : Z }.

Inductive DebtEntryType := DEBT_RECOGNIZED | PAYMENT_APPLIED | WRITE_OFF | ADJUSTMENT | REVERSAL.

Record DebtRow := {
  dl_tenant : string; dl_customer : string; dl_receivable : string; dl_type : DebtEntryType; dl_delta : Z; dl_before : Z; dl_after : Z; dl_method : string;
  dl_voucher : option string; dl_journal : string; dl_refType : string; dl_refId : string; dl_key : string; dl_note : option string; dl_actor : string }.

Inductive PayableStatus := AP_OPEN | AP_PARTIALLY_PAID | AP_PAID | AP_ADJUSTED | AP_REVERSED.
#[export] Instance PayableStatus_eq_dec : EqDecision PayableStatus.
Proof. solve_decision. Defined.

(** [supplier_payables]. *)
Record PayableRow := {
  pb_code : string; pb_supplier : string; pb_po : option string; pb_receipt : option string; pb_warehouse : option string; pb_original : Z; pb_paid : Z;
  pb_adjusted : Z; pb_outstanding : Z; pb_status : PayableStatus; pb_sourceType : string; pb_sourceId : string; pb_journal : string; pb_key : string;
  pb_createdAt : Z }.

Inductive SupplierEntryType := PAYABLE_RECOGNIZED | SUPPLIER_PAYMENT_APPLIED | SUPPLIER_RETURN_CREDIT | SUPPLIER_ADJUSTMENT | SUPPLIER_REVERSAL.

(** [supplier_debt_ledger]. *)
Record SupplierDebtRow := {
  sl_tenant : string; sl_supplier : string; sl_payable : string; sl_type : SupplierEntryType; sl_delta : Z; sl_before : Z; sl_after : Z;
  sl_method : option string; sl_voucher : option string; sl_journal : string; sl_refType : string; sl_refId : string; sl_key : string;
  sl_note : option string; sl_actor : string }.

Inductive StlStatus := ST_PENDING | ST_AUTHORIZED | ST_CAPTURED | ST_SETTLEMENT_PENDING | ST_SETTLED | ST_FAILED | ST_REVERSED | ST_RECONCILIATION_REQUIRED.
#[export] Instance StlStatus_eq_dec : EqDecision StlStatus.
Proof. solve_decision. Defined.

(** [payment_settlements]. *)
Record SettlementRow := {
  st_code : string; st_order : string; st_checkout : option string; st_branch : option string; st_shift : option string; st_tender : string;
  st_method : string; st_provider : string; st_external : option string; st_requested : Z; st_confirmed : Z; st_settled : Z; st_refunded : Z;
  st_providerStatus : string; st_status : StlStatus; st_voucher : option string; st_journal : option string; st_key : string;
  st_settledAt : option Z; st_createdAt : Z }.

Inductive RefundStatus :=
| RF_REQUESTED | RF_APPROVED | RF_EXECUTING | RF_PENDING_CONFIRMATION | RF_COMPLETED | RF_REJECTED | RF_FAILED | RF_RECONCILIATION_REQUIRED.
#[export] Instance RefundStatus_eq_dec : EqDecision RefundStatus.
Proof. solve_decision. Defined.

(** [refund_operations]. *)
Record RefundRow := {
  rf_code : string; rf_request : option string; rf_return : option string; rf_order : string; rf_settlement : option string; rf_branch : option string;
  rf_shift : option string; rf_account : option string; rf_amount : Z; rf_method : string; rf_status : RefundStatus; rf_provider : string;
  rf_providerKey : string; rf_external : option string; rf_voucher : option string; rf_journal : option string; rf_key : string; rf_hash : string;
  rf_failure : option string; rf_requestedBy : string; rf_approvedBy : option string; rf_executedBy : option string; rf_approvedAt : option Z;
  rf_executedAt : option Z; rf_completedAt : option Z; rf_createdAt : Z }.

Inductive IssueStatus := ISSUE_OPEN | INVESTIGATING | RESOLVED | IGNORED.
#[export] Instance IssueStatus_eq_dec : EqDecision IssueStatus.
Proof. solve_decision. Defined.

(** [reconciliation_issues]. *)
Record IssueRow := {
  is_type : string; is_sourceType : string; is_sourceId : string; is_expected : Z; is_actual : Z; is_difference : Z; is_status : IssueStatus;
  is_description : string; is_note : option string; is_by : option string; is_at : option Z }.

Inductive FinanceEvent :=
| CashbookEntryPosted (entryId : string) (v : VoucherRow) (journalId postedBy : string) (occurredAt : Z)
| CreditChanged (authorizationId : string) (a : AuthRow) (postedAfter heldAfter availableAfter : Z) (receivableId : option string) (occurredAt : Z)
| ReceivableChanged (created : bool) (receivableId : string) (r : ReceivableRow) (debtAfter : Z) (journalId : string) (occurredAt : Z)
| PayableChanged (created : bool) (payableId : string) (p : PayableRow) (debtAfter : Z) (journalId : string) (occurredAt : Z)
| SettlementConfirmed (settlementId : string) (s : SettlementRow) (occurredAt : Z)
| RefundChanged (completed : bool) (refundId : string) (r : RefundRow) (occurredAt : Z).

(** The tables of suppliers, settlements and refunds. *)
Record trade_db := {
  payables : gmap key PayableRow; supplier_ledger : list SupplierDebtRow; settlements : gmap key SettlementRow; refunds : gmap key RefundRow;
  issues : gmap key IssueRow }.

Record db := {
  sequences : gmap key Z; accounts : gmap key AccountRow; journals : gmap key JournalRow; cash_accounts : gmap key CashAccountRow;
  categories : gmap key CategoryRow; vouchers : gmap key VoucherRow; profiles : gmap key ProfileRow; auths : gmap key AuthRow;
  receivables : gmap key ReceivableRow; debt_ledger : list DebtRow; trade : trade_db; outbox : list FinanceEvent }.

Abbreviation tx := (txn db FinanceError).

Definition rule {A} (c : FinanceDomainErrorCode) (status : Z) : tx A := fail (Rule c) status.
Definition query_failed {A} : tx A := fail QueryFailed 500.
Definition domain {A} (r : res A) : tx A := embed Rule r.

(** ** Numbers *)

(** [a + b] and [a - b] on JS numbers. *)
Definition plus (a b : Z) : Z := nval (nadd (int a) (int b)).
Definition minus (a b : Z) : Z := nval (nsub (int a) (int b)).

Definition int8 (z : Z) : bool := (- 2 ^ 63 <=? z) && (z <? 2 ^ 63).

(** common/money.ts: a money column as a JS number. *)
Definition toMoney (z : Z) : tx Z := if Z.abs z <=? MAX_SAFE_INTEGER then mret z else plain_error.

Definition vnd (z : Z) (allowZero allowNegative : bool) : tx Z :=
  n ← domain (parseVnd (VNum (int z)) allowZero allowNegative); mret (nval n).

(** [a ?? b]. *)
Definition coalesce {A} (a b : option A) : option A := match a with Some _ => a | None => b end.

(** ** Statements *)

(** A random id. *)
Definition fresh (uuid : string -> string) (what : string) : string := as_uuid (uuid what).

Definition set_sequence (k : key) (n : Z) (d : db) : db :=
  {| sequences := <[k := n]> (sequences d); accounts := accounts d; journals := journals d; cash_accounts := cash_accounts d;
     categories := categories d; vouchers := vouchers d; profiles := profiles d; auths := auths d; receivables := receivables d;
     debt_ledger := debt_ledger d; trade := trade d; outbox := outbox d |}.
Definition set_accounts (m : gmap key AccountRow) (d : db) : db :=
  {| sequences := sequences d; accounts := m; journals := journals d; cash_accounts := cash_accounts d; categories := categories d;
     vouchers := vouchers d; profiles := profiles d; auths := auths d; receivables := receivables d; debt_ledger := debt_ledger d;
     trade := trade d; outbox := outbox d |}.
Definition set_journal (k : key) (j : JournalRow) (d : db) : db :=
  {| sequences := sequences d; accounts := accounts d; journals := <[k := j]> (journals d); cash_accounts := cash_accounts d;
     categories := categories d; vouchers := vouchers d; profiles := profiles d; auths := auths d; receivables := receivables d;
     debt_ledger := debt_ledger d; trade := trade d; outbox := outbox d |}.
Definition set_cash_account (k : key) (a : CashAccountRow) (d : db) : db :=
  {| sequences := sequences d; accounts := accounts d; journals := journals d; cash_accounts := <[k := a]> (cash_accounts d);
     categories := categories d; vouchers := vouchers d; profiles := profiles d; auths := auths d; receivables := receivables d;
     debt_ledger := debt_ledger d; trade := trade d; outbox := outbox d |}.
Definition set_categories (m : gmap key CategoryRow) (d : db) : db :=
  {| sequences := sequences d; accounts := accounts d; journals := journals d; cash_accounts := cash_accounts d; categories := m;
     vouchers := vouchers d; profiles := profiles d; auths := auths d; receivables := receivables d; debt_ledger := debt_ledger d;
     trade := trade d; outbox := outbox d |}.
Definition set_voucher (k : key) (v : VoucherRow) (d : db) : db :=
  {| sequences := sequences d; accounts := accounts d; journals := journals d; cash_accounts := cash_accounts d; categories := categories d;
     vouchers := <[k := v]> (vouchers d); profiles := profiles d; auths := auths d; receivables := receivables d;
     debt_ledger := debt_ledger d; trade := trade d; outbox := outbox d |}.
Definition set_profile (k : key) (p : ProfileRow) (d : db) : db :=
  {| sequences := sequences d; accounts := accounts d; journals := journals d; cash_accounts := cash_accounts d; categories := categories d;
     vouchers := vouchers d; profiles := <[k := p]> (profiles d); auths := auths d; receivables := receivables d;
     debt_ledger := debt_ledger d; trade := trade d; outbox := outbox d |}.
Definition set_auth (k : key) (a : AuthRow) (d : db) : db :=
  {| sequences := sequences d; accounts := accounts d; journals := journals d; cash_accounts := cash_accounts d; categories := categories d;
     vouchers := vouchers d; profiles := profiles d; auths := <[k := a]> (auths d); receivables := receivables d;
     debt_ledger := debt_ledger d; trade := trade d; outbox := outbox d |}.
Definition set_receivable (k : key) (r : ReceivableRow) (d : db) : db :=
  {| sequences := sequences d; accounts := accounts d; journals := journals d; cash_accounts := cash_accounts d; categories := categories d;
     vouchers := vouchers d; profiles := profiles d; auths := auths d; receivables := <[k := r]> (receivables d);
     debt_ledger := debt_ledger d; trade := trade d; outbox := outbox d |}.
Definition add_debt (e : DebtRow) (d : db) : db :=
  {| sequences := sequences d; accounts := accounts d; journals := journals d; cash_accounts := cash_accounts d; categories := categories d;
     vouchers := vouchers d; profiles := profiles d; auths := auths d; receivables := receivables d; debt_ledger := debt_ledger d ++ [e];
     trade := trade d; outbox := outbox d |}.
Definition add_event (e : FinanceEvent) (d : db) : db :=
  {| sequences := sequences d; accounts := accounts d; journals := journals d; cash_accounts := cash_accounts d; categories := categories d;
     vouchers := vouchers d; profiles := profiles d; auths := auths d; receivables := receivables d; debt_ledger := debt_ledger d;
     trade := trade d; outbox := outbox d ++ [e] |}.

Definition set_trade (m : trade_db) (d : db) : db :=
  {| sequences := sequences d; accounts := accounts d; journals := journals d; cash_accounts := cash_accounts d; categories := categories d;
     vouchers := vouchers d; profiles := profiles d; auths := auths d; receivables := receivables d; debt_ledger := debt_ledger d; trade := m;
     outbox := outbox d |}.

Definition set_payable (k : key) (p : PayableRow) (d : db) : db :=
  let m := trade d in
  set_trade {| payables := <[k := p]> (payables m); supplier_ledger := supplier_ledger m; settlements := settlements m; refunds := refunds m;
               issues := issues m |} d.
Definition add_supplier_entry (e : SupplierDebtRow) (d : db) : db :=
  let m := trade d in
  set_trade {| payables := payables m; supplier_ledger := supplier_ledger m ++ [e]; settlements := settlements m; refunds := refunds m;
               issues := issues m |} d.
Definition set_settlement (k : key) (s : SettlementRow) (d : db) : db :=
  let m := trade d in
  set_trade {| payables := payables m; supplier_ledger := supplier_ledger m; settlements := <[k := s]> (settlements m); refunds := refunds m;
               issues := issues m |} d.
Definition set_refund (k : key) (r : RefundRow) (d : db) : db :=
  let m := trade d in
  set_trade {| payables := payables m; supplier_ledger := supplier_ledger m; settlements := settlements m; refunds := <[k := r]> (refunds m);
               issues := issues m |} d.
Definition set_issues (i : gmap key IssueRow) (d : db) : db :=
  let m := trade d in
  set_trade {| payables := payables m; supplier_ledger := supplier_ledger m; settlements := settlements m; refunds := refunds m; issues := i |} d.

Definition outbox_add (e : FinanceEvent) : tx unit := modify (add_event e).

(** The first row of a table that satisfies [p]. *)
Definition first {A} (p : key -> A -> bool) (m : gmap key A) : option (key * A) := List.find (fun e : key * A => p e.1 e.2) (map_to_list m).

(** A primary key that is taken. *)
Definition taken {A} (k : key) (m : gmap key A) : bool := existsb (fun e : key * A => String.eqb e.1.2 k.2) (map_to_list m).

(** infrastructure/persistence/finance-code.generator.ts. *)
Definition nextFinanceDocumentCode (tenantId docPrefix : string) : tx string :=
  last ← gets (fun d : db => sequences d !! (tenantId, docPrefix));
  let n := match last with Some n => n + 1 | None => 1 end in
  _ ← modify (set_sequence (tenantId, docPrefix) n);
  mret (docPrefix +:+ padStart 6 "0"%char (Z_string n)).

(** ** Journals (financial-journal.service.ts) *)

Definition has_account (tenantId code : string) (m : gmap key AccountRow) : bool := match m !! (tenantId, code) with Some _ => true | None => false end.

Definition default_account (tenantId : string) (uuid : string -> string) (m : gmap key AccountRow) (spec : StandardFinancialAccountSpec) : gmap key AccountRow :=
  if has_account tenantId (ac_code spec) m then m
  else <[(tenantId, ac_code spec) := {| ga_id := fresh uuid ("account:" +:+ ac_code spec); ga_name := ac_name spec; ga_type := ac_accountType spec;
           ga_side := ac_normalSide spec; ga_system := true; ga_active := true |}]> m.

Definition ensureDefaultAccountsInTx (tenantId : string) (uuid : string -> string) : tx unit :=
  modify (fun d => set_accounts (foldl (default_account tenantId uuid) (accounts d) DEFAULT_FINANCE_ACCOUNTS) d).

Definition createAccount (tenantId code name : string) (type : AccountType) (side : NormalSide) (uuid : string -> string) : tx AccountRow :=
  code ← domain (normalizeFinanceCode (Some code));
  _ ← ensureDefaultAccountsInTx tenantId uuid;
  dup ← gets (fun d : db => accounts d !! (tenantId, code));
  match dup with
  | Some a => mret a
  | None =>
      let a := {| ga_id := fresh uuid "account"; ga_name := trim name; ga_type := type; ga_side := side; ga_system := false; ga_active := true |} in
      _ ← modify (fun d => set_accounts (<[(tenantId, code) := a]> (accounts d)) d);
      mret a
  end.

Record PostJournalInput := {
  pj_type : string; pj_sourceType : string; pj_sourceId : string; pj_key : option string; pj_branch : option string; pj_description : option string;
  pj_postedBy : string; pj_reversalOf : option string; pj_lines : list JournalLineInput }.

Record PostedJournal := { po_id : string; po_row : JournalRow; po_replayed : bool }.

(** CHK_financial_journals_balanced and CHK_financial_journal_lines_side. *)
Definition check_line (l : LineRow) : bool :=
  ((0 <? ln_debit l) && (ln_credit l =? 0)) || ((0 <? ln_credit l) && (ln_debit l =? 0)).
Definition check_journal (j : JournalRow) : bool :=
  (0 <? j_debit j) && (j_debit j =? j_credit j) && int8 (j_debit j) && forallb check_line (j_lines j).

Definition same_source (tenantId sourceType sourceId : string) (k : key) (j : JournalRow) : bool :=
  String.eqb k.1 tenantId && String.eqb (j_sourceType j) sourceType && String.eqb (j_sourceId j) sourceId.
Definition same_journal_key (tenantId jkey : string) (k : key) (j : JournalRow) : bool := String.eqb k.1 tenantId && String.eqb (j_key j) jkey.

(** The unique keys of [financial_journals]: code, source, idempotency key and the
    journal it reverses. *)
Definition journal_clash (k : key) (j : JournalRow) (k' : key) (j' : JournalRow) : bool :=
  same_source k.1 (j_sourceType j) (j_sourceId j) k' j' || same_journal_key k.1 (j_key j) k' j' ||
  (String.eqb k'.1 k.1 && String.eqb (j_code j') (j_code j)) ||
  (String.eqb k'.1 k.1 && match j_reversalOf j with Some r => bool_decide (j_reversalOf j' = Some r) | None => false end).

Definition insert_journal (k : key) (j : JournalRow) : tx unit :=
  clash ← gets (fun d => taken k (journals d) || bool_decide (is_Some (first (journal_clash k j) (journals d))));
  if (clash : bool) || negb (check_journal j) then query_failed else modify (set_journal k j).

(** A journal as an entity: its money columns are read. *)
Definition read_line (u : unit) (l : LineRow) : tx unit := _ ← toMoney (ln_debit l); _ ← toMoney (ln_credit l); mret tt.
Definition read_journal (j : JournalRow) : tx JournalRow := _ ← toMoney (j_debit j); _ ← toMoney (j_credit j); mret j.

Definition usable_account (tenantId : string) (u : unit) (l : ValidatedJournalLine) : tx unit :=
  acc ← gets (fun d : db => accounts d !! (tenantId, jl_accountCode l));
  match acc with
  | None => rule FINANCIAL_ACCOUNT_NOT_FOUND 404
  | Some a => if ga_active a then mret tt else rule FINANCIAL_ACCOUNT_INACTIVE 409
  end.

Definition line_row (m : gmap key AccountRow) (tenantId sourceType sourceId : string) (description : option string) (l : ValidatedJournalLine) : LineRow :=
  {| ln_no := jl_lineNo l; ln_accountId := match m !! (tenantId, jl_accountCode l) with Some a => ga_id a | None => "" end;
     ln_account := jl_accountCode l; ln_debit := nval (jl_debitAmount l); ln_credit := nval (jl_creditAmount l); ln_branch := as_uuid <$> jl_branchId l;
     ln_partyType := jl_partyType l; ln_partyId := jl_partyId l; ln_refType := default sourceType (jl_referenceType l);
     ln_refId := default sourceId (jl_referenceId l); ln_memo := coalesce (jl_memo l) description |}.

Definition postJournalInTx (tenantId : string) (input : PostJournalInput) (uuid : string -> string) (now : Z) : tx PostedJournal :=
  validated ← domain (validateBalancedJournalLines (pj_lines input));
  let sourceType := toUpperCase (trim (pj_sourceType input)) in
  let sourceId := trim (pj_sourceId input) in
  let jkey := toLowerCase (trim (default ("jnl:" +:+ sourceType +:+ ":" +:+ sourceId) (pj_key input))) in
  existing ← gets (fun d => first (fun k j => same_source tenantId sourceType sourceId k j || same_journal_key tenantId jkey k j) (journals d));
  match existing with
  | Some (k, j) =>
      j ← read_journal j;
      if negb (neq (int (j_debit j)) (jr_totalDebit validated)) || negb (String.eqb (j_sourceType j) sourceType) || negb (String.eqb (j_sourceId j) sourceId)
      then rule IDEMPOTENCY_CONFLICT 409
      else _ ← for_each read_line tt (j_lines j); mret {| po_id := k.2; po_row := j; po_replayed := true |}
  | None =>
      _ ← ensureDefaultAccountsInTx tenantId uuid;
      _ ← for_each (usable_account tenantId) tt (jr_lines validated);
      code ← nextFinanceDocumentCode tenantId "JNL";
      accs ← gets accounts;
      let row := {| j_code := code; j_type := toUpperCase (trim (pj_type input)); j_sourceType := sourceType; j_sourceId := sourceId; j_key := jkey;
        j_branch := as_uuid <$> pj_branch input; j_debit := nval (jr_totalDebit validated); j_credit := nval (jr_totalCredit validated);
        j_status := JPOSTED; j_reversalOf := pj_reversalOf input; j_reversedBy := None; j_description := pj_description input;
        j_postedBy := pj_postedBy input; j_at := now;
        j_lines := map (line_row accs tenantId sourceType sourceId (pj_description input)) (jr_lines validated) |} in
      _ ← insert_journal (tenantId, fresh uuid "journal") row;
      mret {| po_id := fresh uuid "journal"; po_row := row; po_replayed := false |}
  end.

Definition with_reversal (j : JournalRow) (by_ : string) : JournalRow :=
  {| j_code := j_code j; j_type := j_type j; j_sourceType := j_sourceType j; j_sourceId := j_sourceId j; j_key := j_key j; j_branch := j_branch j;
     j_debit := j_debit j; j_credit := j_credit j; j_status := JREVERSED; j_reversalOf := j_reversalOf j; j_reversedBy := Some by_;
     j_description := j_description j; j_postedBy := j_postedBy j; j_at := j_at j; j_lines := j_lines j |}.

Definition mirror (orig : string) (j : JournalRow) (reason : string) (l : LineRow) : JournalLineInput :=
  {| ji_accountCode := Some (ln_account l); ji_debitAmount := VNum (int (ln_credit l)); ji_creditAmount := VNum (int (ln_debit l));
     ji_branchId := ln_branch l; ji_partyType := ln_partyType l; ji_partyId := ln_partyId l; ji_referenceType := Some "JOURNAL_REVERSAL";
     ji_referenceId := Some orig; ji_memo := Some ("Reversal of " +:+ j_code j +:+ ": " +:+ reason) |}.

Definition reversal_input (tenantId id : string) (j : JournalRow) (actorId reason : string) (jkey : option string) : PostJournalInput :=
  {| pj_type := j_type j +:+ "_REVERSAL"; pj_sourceType := "JOURNAL_REVERSAL"; pj_sourceId := id;
     pj_key := Some (default ("jnl-rev:" +:+ tenantId +:+ ":" +:+ id) jkey); pj_branch := j_branch j;
     pj_description := Some ("Reversal of " +:+ j_code j +:+ ": " +:+ reason); pj_postedBy := actorId; pj_reversalOf := Some id;
     pj_lines := map (mirror id j reason) (j_lines j) |}.

(** [key ? ... : undefined] on an optional key. *)
Definition given (k : option string) : option string := match k with Some s => if String.eqb s "" then None else Some s | None => None end.

Definition reverseJournalInTx (tenantId journalId actorId reason : string) (jkey : option string) (uuid : string -> string) (now : Z) : tx PostedJournal :=
  let id := as_uuid journalId in
  orig ← gets (fun d : db => journals d !! (tenantId, id));
  match orig with
  | None => rule JOURNAL_NOT_FOUND 404
  | Some j =>
      j ← read_journal j;
      match j_status j, given (j_reversedBy j) with
      | JREVERSED, Some by_ =>
          match given jkey with
          | None => rule POSTING_ALREADY_REVERSED 409
          | Some k =>
              rev ← gets (fun d : db => journals d !! (tenantId, by_));
              match rev with
              | None => rule POSTING_ALREADY_REVERSED 409
              | Some r =>
                  r ← read_journal r;
                  if String.eqb (j_key r) (toLowerCase (trim k))
                  then _ ← for_each read_line tt (j_lines r); mret {| po_id := by_; po_row := r; po_replayed := true |}
                  else rule POSTING_ALREADY_REVERSED 409
              end
          end
      | _, _ =>
          _ ← for_each read_line tt (j_lines j);
          posted ← postJournalInTx tenantId (reversal_input tenantId id j actorId reason jkey) uuid now;
          _ ← modify (fun d : db => match journals d !! (tenantId, id) with Some j => set_journal (tenantId, id) (with_reversal j (po_id posted)) d | None => d end);
          mret posted
      end
  end.

Record PostJournalDto := {
  dj_type : string; dj_sourceType : string; dj_sourceId : string; dj_key : option string; dj_branch : option string; dj_description : option string;
  dj_lines : list JournalLineInput }.

Definition postManualJournal (tenantId actorId : string) (keyHeader : option string) (dto : PostJournalDto) (uuid : string -> string) (now : Z) : tx PostedJournal :=
  postJournalInTx tenantId {| pj_type := dj_type dto; pj_sourceType := dj_sourceType dto; pj_sourceId := dj_sourceId dto;
    pj_key := coalesce keyHeader (dj_key dto); pj_branch := dj_branch dto; pj_description := dj_description dto; pj_postedBy := actorId;
    pj_reversalOf := None; pj_lines := dj_lines dto |} uuid now.

Definition reverseJournal (tenantId journalId actorId : string) (keyHeader : option string) (reason : string) (dtoKey : option string)
    (uuid : string -> string) (now : Z) : tx PostedJournal :=
  reverseJournalInTx tenantId journalId actorId reason (coalesce keyHeader dtoKey) uuid now.

(** ** Cash accounts (cash-accounts.service.ts) *)

Definition read_cash_account (a : CashAccountRow) : tx CashAccountRow := _ ← toMoney (ca_balance a); mret a.

(** The oldest active account of the tenant that satisfies [p]. *)
Definition oldest (tenantId : string) (p : CashAccountRow -> bool) (m : gmap key CashAccountRow) : option (key * CashAccountRow) :=
  head (sort_by (fun a b : key * CashAccountRow => ca_createdAt a.2 - ca_createdAt b.2)
    (List.filter (fun e : key * CashAccountRow => String.eqb e.1.1 tenantId && bool_decide (ca_status e.2 = ACTIVE) && p e.2) (map_to_list m))).

Definition insert_cash_account (k : key) (a : CashAccountRow) : tx unit :=
  clash ← gets (fun d => taken k (cash_accounts d) ||
    bool_decide (is_Some (first (fun k' a' => String.eqb k'.1 k.1 && String.eqb (ca_code a') (ca_code a)) (cash_accounts d))));
  if (clash : bool) then query_failed else modify (set_cash_account k a).

Definition default_cash_account (branchId : option string) (bank : bool) (now : Z) : CashAccountRow :=
  {| ca_branch := as_uuid <$> branchId; ca_code := if bank then "BANK-MAIN" else "CASH-MAIN";
     ca_name := if bank then "Main Company Bank Account" else "Main Store Cash Drawer"; ca_type := if bank then BANK else CASH_DRAWER;
     ca_gl := if bank then GL.CASH_AT_BANK else GL.CASH_ON_HAND; ca_balance := 0; ca_status := ACTIVE; ca_bank := None; ca_masked := None;
     ca_createdAt := now |}.

(** The accounts of a branch come first for a drawer; the code of the default account
    may be taken by an inactive one, which is then the answer. *)
Definition ensureDefaultCashAccountInTx (tenantId : string) (branchId : option string) (bank : bool) (uuid : string -> string) (now : Z)
    : tx (key * CashAccountRow) :=
  let type := if bank then BANK else CASH_DRAWER in
  let of_code k a := String.eqb k.1 tenantId && String.eqb (ca_code a) (ca_code (default_cash_account branchId bank now)) in
  branchAcc ← gets (fun d => match given branchId with
    | Some b => if bank then None
                else oldest tenantId (fun a => bool_decide (ca_type a = CASH_DRAWER) && bool_decide (ca_branch a = Some (as_uuid b))) (cash_accounts d)
    | None => None
    end);
  match branchAcc with
  | Some (k, a) => a ← read_cash_account a; mret (k, a)
  | None =>
      anyActive ← gets (fun d => oldest tenantId (fun a => bool_decide (ca_type a = type)) (cash_accounts d));
      match anyActive with
      | Some (k, a) => a ← read_cash_account a; mret (k, a)
      | None =>
          conflict ← gets (fun d => first of_code (cash_accounts d));
          _ ← match conflict with
              | Some _ => mret tt
              | None => insert_cash_account (tenantId, fresh uuid "cash-account") (default_cash_account branchId bank now)
              end;
          created ← gets (fun d => first of_code (cash_accounts d));
          match created with Some (k, a) => a ← read_cash_account a; mret (k, a) | None => type_error end
      end
  end.

Record CreateCashAccountDto := {
  na_code : string; na_name : string; na_type : option CashAccountType; na_branch : option string; na_bank : option string; na_number : option string }.

Definition createCashAccount (tenantId : string) (dto : CreateCashAccountDto) (uuid : string -> string) (now : Z) : tx CashAccountRow :=
  code ← domain (normalizeFinanceCode (Some (na_code dto)));
  let type := default CASH_DRAWER (na_type dto) in
  existing ← gets (fun d => first (fun k a => String.eqb k.1 tenantId && String.eqb (ca_code a) code) (cash_accounts d));
  match existing with
  | Some (_, a) => _ ← read_cash_account a; rule CASH_ACCOUNT_CODE_CONFLICT 409
  | None =>
      let row := {| ca_branch := as_uuid <$> na_branch dto; ca_code := code; ca_name := trim (na_name dto); ca_type := type;
        ca_gl := match type with BANK | E_WALLET => GL.CASH_AT_BANK | _ => GL.CASH_ON_HAND end; ca_balance := 0; ca_status := ACTIVE;
        ca_bank := trim <$> na_bank dto; ca_masked := maskBankAccountNumber (na_number dto); ca_createdAt := now |} in
      _ ← insert_cash_account (tenantId, fresh uuid "cash-account") row;
      mret row
  end.

Record UpdateCashAccountDto := { uc_name : option string; uc_status : option CashAccountStatus; uc_bank : option string }.

(** A voucher of the account that is not posted yet. *)
Definition unresolved (tenantId account : string) (k : key) (v : VoucherRow) : bool :=
  String.eqb k.1 tenantId && String.eqb (v_account v) account && match v_status v with DRAFT | APPROVED => true | _ => false end.

Definition updateCashAccount (tenantId idText : string) (dto : UpdateCashAccountDto) : tx CashAccountRow :=
  let id := as_uuid idText in
  account ← gets (fun d : db => cash_accounts d !! (tenantId, id));
  match account with
  | None => rule CASH_ACCOUNT_NOT_FOUND 404
  | Some a =>
      a ← read_cash_account a;
      _ ← (if bool_decide (uc_status dto = Some CLOSED) then
             bal ← vnd (ca_balance a) true true;
             if negb (bal =? 0) then rule CASH_ACCOUNT_INACTIVE 409
             else
               open ← gets (fun d => first (unresolved tenantId id) (vouchers d));
               match open with Some _ => rule CASH_ACCOUNT_INACTIVE 409 | None => mret tt end
           else mret tt);
      let row := {| ca_branch := ca_branch a; ca_code := ca_code a; ca_name := match uc_name dto with Some n => trim n | None => ca_name a end;
        ca_type := ca_type a; ca_gl := ca_gl a; ca_balance := ca_balance a; ca_status := default (ca_status a) (uc_status dto);
        ca_bank := match uc_bank dto with Some b => Some (trim b) | None => ca_bank a end; ca_masked := ca_masked a; ca_createdAt := ca_createdAt a |} in
      _ ← modify (set_cash_account (tenantId, id) row);
      mret row
  end.

Definition with_balance (a : CashAccountRow) (z : Z) : CashAccountRow :=
  {| ca_branch := ca_branch a; ca_code := ca_code a; ca_name := ca_name a; ca_type := ca_type a; ca_gl := ca_gl a; ca_balance := z;
     ca_status := ca_status a; ca_bank := ca_bank a; ca_masked := ca_masked a; ca_createdAt := ca_createdAt a |}.

(** ** The cashbook (cashbook.service.ts) *)

Definition default_category (tenantId : string) (uuid : string -> string) (m : gmap key CategoryRow) (spec : StandardCashbookCategorySpec) : gmap key CategoryRow :=
  match m !! (tenantId, cc_code spec) with
  | Some _ => m
  | None => <[(tenantId, cc_code spec) := {| ct_id := fresh uuid ("category:" +:+ cc_code spec); ct_name := cc_name spec;
               ct_direction := cc_direction spec; ct_gl := cc_glAccountCode spec; ct_system := true |}]> m
  end.

Definition ensureDefaultCategoriesInTx (tenantId : string) (uuid : string -> string) : tx unit :=
  modify (fun d => set_categories (foldl (default_category tenantId uuid) (categories d) DEFAULT_CASHBOOK_CATEGORIES) d).

Definition createCategory (tenantId codeText name : string) (direction : CashDirection) (gl : option string) (uuid : string -> string) : tx CategoryRow :=
  code ← domain (normalizeFinanceCode (Some codeText));
  _ ← ensureDefaultCategoriesInTx tenantId uuid;
  existing ← gets (fun d : db => categories d !! (tenantId, code));
  match existing with
  | Some c => mret c
  | None =>
      let c := {| ct_id := fresh uuid "category"; ct_name := trim name; ct_direction := direction;
        ct_gl := match gl with Some g => toUpperCase (trim g) | None => match direction with RECEIPT => GL.OTHER_INCOME | EXPENSE => GL.OPERATING_EXPENSE end end;
        ct_system := false |} in
      _ ← modify (fun d => set_categories (<[(tenantId, code) := c]> (categories d)) d);
      mret c
  end.

Definition category_by_id (tenantId id : string) (m : gmap key CategoryRow) : option CategoryRow :=
  snd <$> first (fun k c => String.eqb k.1 tenantId && String.eqb (ct_id c) id) m.

Record VoucherInput := {
  vi_actor : string; vi_direction : CashDirection; vi_account : string; vi_categoryId : option string; vi_categoryCode : option string; vi_amount : Z;
  vi_branch : option string; vi_shift : option string; vi_type : option string; vi_sourceType : option string; vi_sourceId : option string;
  vi_partyType : option PartyType; vi_partyId : option string; vi_description : option string; vi_refDoc : option string; vi_autoPost : bool;
  vi_key : option string; vi_hash : option string; vi_linkedJournal : option string }.

(** CHK_cashbook_entries_amount; the unique keys: code, idempotency key, reversed entry. *)
Definition check_voucher (v : VoucherRow) : bool := (0 <? v_amount v) && int8 (v_amount v).
Definition voucher_clash (k : key) (v : VoucherRow) (k' : key) (v' : VoucherRow) : bool :=
  String.eqb k'.1 k.1 && (String.eqb (v_code v') (v_code v) || match v_key v with Some x => bool_decide (v_key v' = Some x) | None => false end ||
    match v_reversalOf v with Some x => bool_decide (v_reversalOf v' = Some x) | None => false end).

Definition insert_voucher (k : key) (v : VoucherRow) : tx unit :=
  clash ← gets (fun d => taken k (vouchers d) || bool_decide (is_Some (first (voucher_clash k v) (vouchers d))));
  if (clash : bool) || negb (check_voucher v) then query_failed else modify (set_voucher k v).

(** UPDATE of a voucher; its key may have become one that is taken. *)
Definition update_voucher (k : key) (v : VoucherRow) : tx unit :=
  clash ← gets (fun d => bool_decide (is_Some (first (fun k' v' => negb (bool_decide (k' = k)) && voucher_clash k v k' v') (vouchers d))));
  if (clash : bool) then query_failed else modify (set_voucher k v).

Definition read_voucher (v : VoucherRow) : tx VoucherRow := _ ← toMoney (v_amount v); mret v.

Definition posted_voucher (v : VoucherRow) (actorId journalId : string) (cleanKey : option string) (now : Z) : VoucherRow :=
  {| v_code := v_code v; v_branch := v_branch v; v_account := v_account v; v_category := v_category v; v_direction := v_direction v; v_type := v_type v;
     v_amount := v_amount v; v_status := POSTED; v_sourceType := v_sourceType v; v_sourceId := v_sourceId v; v_partyType := v_partyType v;
     v_partyId := v_partyId v; v_shift := v_shift v; v_journal := Some journalId; v_reversalOf := v_reversalOf v; v_reversedByEntry := v_reversedByEntry v;
     v_key := match given cleanKey, given (v_key v) with Some k, None => Some k | _, _ => v_key v end; v_hash := v_hash v; v_description := v_description v;
     v_refDoc := v_refDoc v; v_createdBy := v_createdBy v; v_approvedBy := coalesce (v_approvedBy v) (Some actorId); v_postedBy := Some actorId;
     v_reversedBy := v_reversedBy v; v_approvedAt := coalesce (v_approvedAt v) (Some now); v_postedAt := Some now; v_reversedAt := v_reversedAt v;
     v_createdAt := v_createdAt v |}.

Definition one_line (account : string) (debit : bool) (amount : Z) (branch : option string) (partyType : option PartyType) (partyId memo : option string)
    : JournalLineInput :=
  {| ji_accountCode := Some account; ji_debitAmount := if debit then VNum (int amount) else Undefined;
     ji_creditAmount := if debit then Undefined else VNum (int amount); ji_branchId := branch; ji_partyType := partyType; ji_partyId := partyId;
     ji_referenceType := None; ji_referenceId := None; ji_memo := memo |}.

Definition direction_name (c : CashDirection) : string := match c with RECEIPT => "RECEIPT" | EXPENSE => "EXPENSE" end.

(** The journal of a voucher: cash against the account of the category. *)
Definition voucher_lines (v : VoucherRow) (cashGl categoryGl : string) : list JournalLineInput :=
  let cash debit name := one_line cashGl debit (v_amount v) (v_branch v) None None (Some (name +:+ v_code v)) in
  let other debit name := one_line categoryGl debit (v_amount v) (v_branch v) (v_partyType v) (v_partyId v)
    (coalesce (v_description v) (Some (name +:+ v_code v))) in
  match v_direction v with
  | RECEIPT => [cash true "Cash receipt "; other false "Cash receipt "]
  | EXPENSE => [other true "Cash expense "; cash false "Cash expense "]
  end.

Definition signed (v : VoucherRow) : Z := match v_direction v with RECEIPT => v_amount v | EXPENSE => - v_amount v end.

Definition lower_key (k : option string) : option string := given ((fun s => toLowerCase (trim s)) <$> k).

(** The posting of a voucher that is not posted yet. *)
Definition post_draft (tenantId id actorId : string) (cleanKey linkedJournal : option string) (v : VoucherRow) (uuid : string -> string) (now : Z)
    : tx (string * VoucherRow) :=
  account ← gets (fun d : db => cash_accounts d !! (tenantId, v_account v));
  match account with
  | None => rule CASH_ACCOUNT_NOT_FOUND 404
  | Some a =>
      a ← read_cash_account a;
      if negb (bool_decide (ca_status a = ACTIVE)) then rule CASH_ACCOUNT_INACTIVE 409
      else
        category ← gets (fun d => category_by_id tenantId (v_category v) (categories d));
        let categoryGl := match category with
          | Some c => ct_gl c
          | None => match v_direction v with RECEIPT => GL.OTHER_INCOME | EXPENSE => GL.OPERATING_EXPENSE end
          end in
        journalId ← match given linkedJournal with
          | Some j => mret j
          | None =>
              posted ← postJournalInTx tenantId {| pj_type := match v_direction v with RECEIPT => "CASHBOOK_RECEIPT" | EXPENSE => "CASHBOOK_EXPENSE" end;
                pj_sourceType := "CASHBOOK_ENTRY"; pj_sourceId := id; pj_key := Some (default ("cb-post:" +:+ id) cleanKey); pj_branch := v_branch v;
                pj_description := coalesce (v_description v) (Some (direction_name (v_direction v) +:+ " voucher " +:+ v_code v));
                pj_postedBy := actorId; pj_reversalOf := None; pj_lines := voucher_lines v (ca_gl a) categoryGl |} uuid now;
              mret (po_id posted)
          end;
        curBal ← vnd (ca_balance a) true true;
        amt ← vnd (v_amount v) false false;
        _ ← modify (set_cash_account (tenantId, v_account v)
              (with_balance a (match v_direction v with RECEIPT => plus curBal amt | EXPENSE => minus curBal amt end)));
        let row := posted_voucher v actorId journalId cleanKey now in
        _ ← update_voucher (tenantId, id) row;
        _ ← outbox_add (CashbookEntryPosted id row journalId actorId now);
        mret (id, row)
  end.

Definition postEntryInTx (tenantId entryId actorId : string) (vkey linkedJournal : option string) (uuid : string -> string) (now : Z)
    : tx (string * VoucherRow) :=
  let id := as_uuid entryId in
  entry ← gets (fun d : db => vouchers d !! (tenantId, id));
  match entry with
  | None => rule CASHBOOK_ENTRY_NOT_FOUND 404
  | Some v =>
      v ← read_voucher v;
      let cleanKey := lower_key vkey in
      match v_status v with
      | POSTED => match cleanKey with
                  | Some k => if bool_decide (v_key v = Some k) then mret (id, v) else rule CASHBOOK_ENTRY_ALREADY_POSTED 409
                  | None => rule CASHBOOK_ENTRY_ALREADY_POSTED 409
                  end
      | REVERSED | CANCELLED => rule CASHBOOK_ENTRY_INVALID_STATE 409
      | DRAFT | APPROVED => post_draft tenantId id actorId cleanKey linkedJournal v uuid now
      end
  end.

Definition postEntry (tenantId entryId actorId : string) (keyHeader : option string) (uuid : string -> string) (now : Z) : tx (string * VoucherRow) :=
  postEntryInTx tenantId entryId actorId keyHeader None uuid now.

Definition draft_voucher (input : VoucherInput) (code account : string) (a : CashAccountRow) (c : CategoryRow) (now : Z) : VoucherRow :=
  {| v_code := code; v_branch := coalesce (as_uuid <$> vi_branch input) (ca_branch a); v_account := account; v_category := ct_id c;
     v_direction := vi_direction input; v_type := default "MANUAL" (vi_type input); v_amount := vi_amount input; v_status := DRAFT;
     v_sourceType := vi_sourceType input; v_sourceId := vi_sourceId input; v_partyType := vi_partyType input; v_partyId := vi_partyId input;
     v_shift := as_uuid <$> vi_shift input; v_journal := None; v_reversalOf := None; v_reversedByEntry := None; v_key := vi_key input;
     v_hash := vi_hash input; v_description := vi_description input; v_refDoc := vi_refDoc input; v_createdBy := vi_actor input; v_approvedBy := None;
     v_postedBy := None; v_reversedBy := None; v_approvedAt := None; v_postedAt := None; v_reversedAt := None; v_createdAt := now |}.

Definition pick_category (tenantId : string) (input : VoucherInput) (m : gmap key CategoryRow) : option CategoryRow :=
  match given (vi_categoryId input), given (vi_categoryCode input) with
  | Some id, _ => category_by_id tenantId (as_uuid id) m
  | None, Some code => m !! (tenantId, toUpperCase (trim code))
  | None, None => m !! (tenantId, match vi_direction input with RECEIPT => "OTHER_RECEIPT" | EXPENSE => "OPERATING_EXPENSE" end)
  end.

Definition of_voucher_key (tenantId vkey : string) (k : key) (v : VoucherRow) : bool := String.eqb k.1 tenantId && bool_decide (v_key v = Some vkey).

(** A voucher that the key has not made yet. *)
Definition new_voucher (tenantId : string) (input : VoucherInput) (uuid : string -> string) (now : Z) : tx (string * VoucherRow) :=
  let accountId := as_uuid (vi_account input) in
  account ← gets (fun d : db => cash_accounts d !! (tenantId, accountId));
  match account with
  | None => rule CASH_ACCOUNT_NOT_FOUND 404
  | Some a =>
      a ← read_cash_account a;
      if negb (bool_decide (ca_status a = ACTIVE)) then rule CASH_ACCOUNT_INACTIVE 409
      else
        _ ← ensureDefaultCategoriesInTx tenantId uuid;
        category ← gets (fun d => pick_category tenantId input (categories d));
        match category with
        | None => rule CASHBOOK_CATEGORY_NOT_FOUND 404
        | Some c =>
            if negb (bool_decide (ct_direction c = vi_direction input)) then rule VALIDATION_ERROR 422
            else if bool_decide (vi_direction input = EXPENSE) && match vi_description input with Some s => String.eqb (trim s) "" | None => true end
            then rule VALIDATION_ERROR 422
            else
              code ← nextFinanceDocumentCode tenantId (match vi_direction input with RECEIPT => "PT" | EXPENSE => "PC" end);
              let row := draft_voucher input code accountId a c now in
              _ ← insert_voucher (tenantId, fresh uuid "voucher") row;
              if vi_autoPost input then postEntryInTx tenantId (fresh uuid "voucher") (vi_actor input) (vi_key input) (vi_linkedJournal input) uuid now
              else mret (fresh uuid "voucher", row)
        end
  end.

(** Both hashes are there and they differ. *)
Definition other_request (input : VoucherInput) (v : VoucherRow) : bool :=
  match given (vi_hash input), given (v_hash v) with Some h, Some h' => negb (String.eqb h' h) | _, _ => false end.

Definition createAndOptionallyPostVoucherInTx (tenantId : string) (input : VoucherInput) (uuid : string -> string) (now : Z) : tx (string * VoucherRow) :=
  match given (vi_key input) with
  | None => new_voucher tenantId input uuid now
  | Some vkey =>
      existing ← gets (fun d => first (of_voucher_key tenantId vkey) (vouchers d));
      match existing with
      | None => new_voucher tenantId input uuid now
      | Some (k, v) =>
          v ← read_voucher v;
          if other_request input v then rule IDEMPOTENCY_CONFLICT 409
          else if vi_autoPost input && negb (bool_decide (v_status v = POSTED))
          then postEntryInTx tenantId k.2 (vi_actor input) (vi_key input) (vi_linkedJournal input) uuid now
          else mret (k.2, v)
      end
  end.

Record CreateCashbookVoucherDto := {
  cv_account : string; cv_categoryId : option string; cv_categoryCode : option string; cv_amount : Z; cv_branch : option string; cv_shift : option string;
  cv_type : option string; cv_sourceType : option string; cv_sourceId : option string; cv_partyType : option PartyType; cv_partyId : option string;
  cv_description : option string; cv_refDoc : option string; cv_autoPost : bool; cv_key : option string }.

(** What the request hash of a voucher covers. *)
Record VoucherDigest := {
  vd_direction : CashDirection; vd_account : string; vd_categoryId : option string; vd_categoryCode : option string; vd_amount : Z;
  vd_branch : option string; vd_sourceType : option string; vd_sourceId : option string }.

(** A restricted member books only into a cash account of their branches. *)
Definition account_in_scope (tenantId accountId : string) (scope : option (list string)) : tx unit :=
  match scope with
  | None => mret tt
  | Some branches =>
      account ← gets (fun d : db => cash_accounts d !! (tenantId, as_uuid accountId));
      match account with
      | None => mret tt
      | Some a =>
          a ← read_cash_account a;
          match given (ca_branch a) with
          | Some b => if existsb (String.eqb b) branches then mret tt else rule CASH_ACCOUNT_NOT_FOUND 404
          | None => rule CASH_ACCOUNT_NOT_FOUND 404
          end
      end
  end.

Section Requests.
Context (sha256 : VoucherDigest -> string).

Definition createVoucher (tenantId actorId : string) (direction : CashDirection) (keyHeader : option string) (dto : CreateCashbookVoucherDto)
    (scope : option (list string)) (uuid : string -> string) (now : Z) : tx (string * VoucherRow) :=
  amount ← vnd (cv_amount dto) false false;
  let cleanKey := lower_key (coalesce keyHeader (cv_key dto)) in
  let reqHash := sha256 {| vd_direction := direction; vd_account := cv_account dto; vd_categoryId := cv_categoryId dto;
    vd_categoryCode := cv_categoryCode dto; vd_amount := amount; vd_branch := cv_branch dto; vd_sourceType := cv_sourceType dto;
    vd_sourceId := cv_sourceId dto |} in
  _ ← account_in_scope tenantId (cv_account dto) scope;
  createAndOptionallyPostVoucherInTx tenantId {| vi_actor := actorId; vi_direction := direction; vi_account := cv_account dto;
    vi_categoryId := cv_categoryId dto; vi_categoryCode := cv_categoryCode dto; vi_amount := amount; vi_branch := cv_branch dto; vi_shift := cv_shift dto;
    vi_type := Some (default "MANUAL" (cv_type dto)); vi_sourceType := cv_sourceType dto; vi_sourceId := cv_sourceId dto; vi_partyType := cv_partyType dto;
    vi_partyId := cv_partyId dto; vi_description := cv_description dto; vi_refDoc := cv_refDoc dto; vi_autoPost := cv_autoPost dto; vi_key := cleanKey;
    vi_hash := Some reqHash; vi_linkedJournal := None |} uuid now.
End Requests.

Definition approved_voucher (v : VoucherRow) (actorId : string) (now : Z) : VoucherRow :=
  {| v_code := v_code v; v_branch := v_branch v; v_account := v_account v; v_category := v_category v; v_direction := v_direction v; v_type := v_type v;
     v_amount := v_amount v; v_status := APPROVED; v_sourceType := v_sourceType v; v_sourceId := v_sourceId v; v_partyType := v_partyType v;
     v_partyId := v_partyId v; v_shift := v_shift v; v_journal := v_journal v; v_reversalOf := v_reversalOf v; v_reversedByEntry := v_reversedByEntry v;
     v_key := v_key v; v_hash := v_hash v; v_description := v_description v; v_refDoc := v_refDoc v; v_createdBy := v_createdBy v;
     v_approvedBy := Some actorId; v_postedBy := v_postedBy v; v_reversedBy := v_reversedBy v; v_approvedAt := Some now; v_postedAt := v_postedAt v;
     v_reversedAt := v_reversedAt v; v_createdAt := v_createdAt v |}.

Definition approveEntry (tenantId entryId actorId : string) (now : Z) : tx VoucherRow :=
  let id := as_uuid entryId in
  entry ← gets (fun d : db => vouchers d !! (tenantId, id));
  match entry with
  | None => rule CASHBOOK_ENTRY_NOT_FOUND 404
  | Some v =>
      v ← read_voucher v;
      match v_status v with
      | APPROVED | POSTED => mret v
      | DRAFT => let row := approved_voucher v actorId now in _ ← update_voucher (tenantId, id) row; mret row
      | _ => rule CASHBOOK_ENTRY_INVALID_STATE 409
      end
  end.

Definition opposite (c : CashDirection) : CashDirection := match c with RECEIPT => EXPENSE | EXPENSE => RECEIPT end.

Definition reversal_voucher (orig : string) (v : VoucherRow) (code actorId reason : string) (journal : option string) (vkey : string) (now : Z) : VoucherRow :=
  {| v_code := code; v_branch := v_branch v; v_account := v_account v; v_category := v_category v; v_direction := opposite (v_direction v);
     v_type := "REVERSAL"; v_amount := v_amount v; v_status := POSTED; v_sourceType := Some "CASHBOOK_REVERSAL"; v_sourceId := Some orig;
     v_partyType := v_partyType v; v_partyId := v_partyId v; v_shift := v_shift v; v_journal := journal; v_reversalOf := Some orig;
     v_reversedByEntry := None; v_key := Some vkey; v_hash := None; v_description := Some ("Reversal of " +:+ v_code v +:+ ": " +:+ reason);
     v_refDoc := Some (v_code v); v_createdBy := actorId; v_approvedBy := Some actorId; v_postedBy := Some actorId; v_reversedBy := None;
     v_approvedAt := Some now; v_postedAt := Some now; v_reversedAt := None; v_createdAt := now |}.

Definition reversed_voucher (v : VoucherRow) (actorId by_ : string) (now : Z) : VoucherRow :=
  {| v_code := v_code v; v_branch := v_branch v; v_account := v_account v; v_category := v_category v; v_direction := v_direction v; v_type := v_type v;
     v_amount := v_amount v; v_status := REVERSED; v_sourceType := v_sourceType v; v_sourceId := v_sourceId v; v_partyType := v_partyType v;
     v_partyId := v_partyId v; v_shift := v_shift v; v_journal := v_journal v; v_reversalOf := v_reversalOf v; v_reversedByEntry := Some by_;
     v_key := v_key v; v_hash := v_hash v; v_description := v_description v; v_refDoc := v_refDoc v; v_createdBy := v_createdBy v;
     v_approvedBy := v_approvedBy v; v_postedBy := v_postedBy v; v_reversedBy := Some actorId; v_approvedAt := v_approvedAt v; v_postedAt := v_postedAt v;
     v_reversedAt := Some now; v_createdAt := v_createdAt v |}.

(** The answer for a voucher that was reversed: its reversal under the same key. *)
Definition replay_reversal (tenantId by_ : string) (cleanKey : option string) : tx (string * VoucherRow) :=
  match cleanKey with
  | None => rule POSTING_ALREADY_REVERSED 409
  | Some k =>
      rev ← gets (fun d : db => vouchers d !! (tenantId, by_));
      match rev with
      | None => rule POSTING_ALREADY_REVERSED 409
      | Some r => r ← read_voucher r; if bool_decide (v_key r = Some k) then mret (by_, r) else rule POSTING_ALREADY_REVERSED 409
      end
  end.

(** The reversal of a posted voucher. *)
Definition reverse_posted (tenantId id actorId : string) (cleanKey : option string) (reason : string) (v : VoucherRow) (uuid : string -> string) (now : Z)
    : tx (string * VoucherRow) :=
  account ← gets (fun d : db => cash_accounts d !! (tenantId, v_account v));
  match account with
  | None => rule CASH_ACCOUNT_NOT_FOUND 404
  | Some a =>
      a ← read_cash_account a;
      journal ← match given (v_journal v) with
        | None => mret None
        | Some j =>
            rev ← reverseJournalInTx tenantId j actorId reason ((fun k => k +:+ ":jnl") <$> cleanKey) uuid now;
            mret (Some (po_id rev))
        end;
      code ← nextFinanceDocumentCode tenantId (match opposite (v_direction v) with RECEIPT => "PT" | EXPENSE => "PC" end);
      let revRow := reversal_voucher id v code actorId reason journal (default ("cb-rev:" +:+ id) cleanKey) now in
      _ ← insert_voucher (tenantId, fresh uuid "voucher") revRow;
      _ ← update_voucher (tenantId, id) (reversed_voucher v actorId (fresh uuid "voucher") now);
      curBal ← vnd (ca_balance a) true true;
      amt ← vnd (v_amount v) false false;
      _ ← modify (set_cash_account (tenantId, v_account v)
            (with_balance a (match v_direction v with RECEIPT => minus curBal amt | EXPENSE => plus curBal amt end)));
      mret (fresh uuid "voucher", revRow)
  end.

Definition reverseEntry (tenantId entryId actorId : string) (keyHeader : option string) (reason : string) (dtoKey : option string) (uuid : string -> string) (now : Z)
    : tx (string * VoucherRow) :=
  let id := as_uuid entryId in
  let cleanKey := lower_key (coalesce keyHeader dtoKey) in
  orig ← gets (fun d : db => vouchers d !! (tenantId, id));
  match orig with
  | None => rule CASHBOOK_ENTRY_NOT_FOUND 404
  | Some v =>
      v ← read_voucher v;
      match v_status v, given (v_reversedByEntry v) with
      | REVERSED, Some by_ => replay_reversal tenantId by_ cleanKey
      | POSTED, _ => reverse_posted tenantId id actorId cleanKey reason v uuid now
      | _, _ => rule CASHBOOK_ENTRY_INVALID_STATE 409
      end
  end.
