(* ===== verification/CustomerDebt.v ===== *)
(** * Finance service: customer credit and receivables

    apps/finance/src/modules/credit-authorization/credit-authorization.service.ts
    (credit profiles, holds of credit and their commit, release and expiry) and
    apps/finance/src/modules/receivables/receivables.service.ts (recognition of a
    debt, payments against one or several receivables), over the tables and the
    services of the ledger file. *)

From S2P Require Import Prelude Transaction JsNumber JsString FinanceDomain FinanceLedger.

Open Scope Z_scope.

(** ** Credit profiles *)

(** CHK_customer_credit_profiles_nonneg. *)
Definition check_profile (p : ProfileRow) : bool := (0 <=? cp_limit p) && (0 <=? cp_posted p) && (0 <=? cp_held p) && (0 <=? cp_prepayment p).

Definition save_profile (k : key) (p : ProfileRow) : tx unit := if check_profile p then modify (set_profile k p) else query_failed.

Definition new_profile : ProfileRow := {| cp_limit := nval DEFAULT_CUSTOMER_CREDIT_LIMIT_VND; cp_posted := 0; cp_held := 0; cp_prepayment := 0 |}.

Definition read_profile (p : ProfileRow) : tx ProfileRow :=
  _ ← toMoney (cp_limit p); _ ← toMoney (cp_posted p); _ ← toMoney (cp_held p); _ ← toMoney (cp_prepayment p); mret p.

(** INSERT ... ON CONFLICT DO NOTHING, then the row. *)
Definition lockOrCreateProfileInTx (tenantId customerId : string) : tx ProfileRow :=
  let k := (tenantId, as_uuid customerId) in
  found ← gets (fun d : db => profiles d !! k);
  match found with
  | Some p => read_profile p
  | None => _ ← modify (set_profile k new_profile); read_profile new_profile
  end.

Definition availVnd (limit posted held : Z) : Z := nval (available_credit (int limit) (int posted) (int held)).

(** The credit a profile has left, as the answers give it. *)
Definition formatProfileResponse (p : ProfileRow) : tx Z :=
  limit ← vnd (cp_limit p) true false;
  posted ← vnd (cp_posted p) true false;
  held ← vnd (cp_held p) true false;
  mret (availVnd limit posted held).

Definition getCreditProfile (tenantId customerId : string) : tx (ProfileRow * Z) :=
  p ← lockOrCreateProfileInTx tenantId customerId; avail ← formatProfileResponse p; mret (p, avail).

Definition with_limit (p : ProfileRow) (z : Z) : ProfileRow :=
  {| cp_limit := z; cp_posted := cp_posted p; cp_held := cp_held p; cp_prepayment := cp_prepayment p |}.
Definition with_held (p : ProfileRow) (z : Z) : ProfileRow :=
  {| cp_limit := cp_limit p; cp_posted := cp_posted p; cp_held := z; cp_prepayment := cp_prepayment p |}.
Definition with_posted (p : ProfileRow) (z : Z) : ProfileRow :=
  {| cp_limit := cp_limit p; cp_posted := z; cp_held := cp_held p; cp_prepayment := cp_prepayment p |}.
Definition with_prepayment (p : ProfileRow) (z : Z) : ProfileRow :=
  {| cp_limit := cp_limit p; cp_posted := cp_posted p; cp_held := cp_held p; cp_prepayment := z |}.

Definition updateCreditLimit (tenantId customerId : string) (creditLimit : Z) : tx (ProfileRow * Z) :=
  newLimit ← vnd creditLimit true false;
  p ← lockOrCreateProfileInTx tenantId customerId;
  let p' := with_limit p newLimit in
  _ ← save_profile (tenantId, as_uuid customerId) p';
  avail ← formatProfileResponse p';
  mret (p', avail).

(** ** Credit authorizations *)

(** CHK_customer_credit_auth_amount and the unique idempotency key. *)
Definition of_auth_key (tenantId akey : string) (k : key) (a : AuthRow) : bool := String.eqb k.1 tenantId && String.eqb (au_key a) akey.

Definition insert_auth (k : key) (a : AuthRow) : tx unit :=
  clash ← gets (fun d => taken k (auths d) || bool_decide (is_Some (first (of_auth_key k.1 (au_key a)) (auths d))));
  if (clash : bool) || negb (0 <? au_amount a) then query_failed else modify (set_auth k a).

Record CreateCreditAuthorizationDto := {
  xa_customer : string; xa_amount : Z; xa_order : option string; xa_branch : option string; xa_caller : option string; xa_ttl : option Z;
  xa_overrideBy : option string; xa_overrideReason : option string; xa_key : option string }.

(** What the request hash covers. *)
Record CreditDigest := {
  xd_customer : string; xd_amount : Z; xd_order : option string; xd_branch : option string; xd_overrideBy : option string }.

Record AuthorizationResponse := { ar_id : string; ar_auth : AuthRow; ar_profile : ProfileRow; ar_available : Z; ar_replayed : bool }.

Definition formatAuthorizationResponse (id : string) (a : AuthRow) (p : ProfileRow) (replayed : bool) : tx AuthorizationResponse :=
  avail ← formatProfileResponse p;
  mret {| ar_id := id; ar_auth := a; ar_profile := p; ar_available := avail; ar_replayed := replayed |}.

Definition read_auth (a : AuthRow) : tx AuthRow := _ ← toMoney (au_amount a); mret a.

Definition credit_check (p : ProfileRow) (amount : Z) (overrideBy overrideReason : option string) : tx CreditAuthorizationEvaluationResult :=
  domain (evaluateCreditAuthorization {| ci_creditLimit := int (cp_limit p); ci_postedDebt := int (cp_posted p); ci_heldCredit := int (cp_held p);
    ci_requestedAmount := int amount; ci_overrideApprovedBy := overrideBy; ci_overrideReason := overrideReason |}).

Section Requests.
Context (sha256 : CreditDigest -> string).

Definition authorizeCredit (tenantId actorId : string) (keyHeader : option string) (dto : CreateCreditAuthorizationDto) (uuid : string -> string) (now : Z)
    : tx AuthorizationResponse :=
  let rawKey := trim (default "" (coalesce keyHeader (xa_key dto))) in
  if String.eqb rawKey "" then rule VALIDATION_ERROR 422
  else
    let akey := toLowerCase rawKey in
    amount ← vnd (xa_amount dto) false false;
    let requestHash := sha256 {| xd_customer := xa_customer dto; xd_amount := amount; xd_order := xa_order dto; xd_branch := xa_branch dto;
      xd_overrideBy := xa_overrideBy dto |} in
    p ← lockOrCreateProfileInTx tenantId (xa_customer dto);
    existing ← gets (fun d => first (of_auth_key tenantId akey) (auths d));
    match existing with
    | Some (k, a) =>
        a ← read_auth a;
        if negb (String.eqb (au_hash a) requestHash) then rule IDEMPOTENCY_CONFLICT 409 else formatAuthorizationResponse k.2 a p true
    | None =>
        evaluation ← credit_check p amount (xa_overrideBy dto) (xa_overrideReason dto);
        code ← nextFinanceDocumentCode tenantId "CRD";
        let p' := with_held p (nval (ce_heldCreditAfter evaluation)) in
        _ ← save_profile (tenantId, as_uuid (xa_customer dto)) p';
        let a := {| au_code := code; au_customer := as_uuid (xa_customer dto); au_order := as_uuid <$> xa_order dto; au_branch := as_uuid <$> xa_branch dto;
          au_amount := amount; au_state := HELD; au_overrideBy := xa_overrideBy dto; au_overrideReason := xa_overrideReason dto; au_key := akey;
          au_hash := requestHash; au_caller := default "sales" (xa_caller dto); au_expiresAt := now + default 900 (xa_ttl dto) * 1000;
          au_receivable := None; au_releasedReason := None; au_createdBy := actorId; au_committedAt := None; au_releasedAt := None |} in
        _ ← insert_auth (tenantId, fresh uuid "authorization") a;
        _ ← outbox_add (CreditChanged (fresh uuid "authorization") a (cp_posted p') (cp_held p') (nval (ce_availableCreditAfter evaluation)) None now);
        formatAuthorizationResponse (fresh uuid "authorization") a p' false
    end.
End Requests.

(** The authorization a handler works on, and the profile of its customer. *)
Definition lock_auth (tenantId id : string) : tx (AuthRow * ProfileRow) :=
  auth ← gets (fun d : db => auths d !! (tenantId, id));
  match auth with
  | None => rule CREDIT_AUTHORIZATION_NOT_FOUND 404
  | Some a => a ← read_auth a; p ← lockOrCreateProfileInTx tenantId (au_customer a); mret (a, p)
  end.

Definition getAuthorizationById (tenantId idText : string) : tx AuthorizationResponse :=
  '(a, p) ← lock_auth tenantId (as_uuid idText); formatAuthorizationResponse (as_uuid idText) a p false.

Definition getAuthorizationByIdempotencyKey (tenantId keyText : string) : tx AuthorizationResponse :=
  found ← gets (fun d => first (of_auth_key tenantId (toLowerCase (trim keyText))) (auths d));
  match found with
  | None => rule CREDIT_AUTHORIZATION_NOT_FOUND 404
  | Some (k, a) =>
      a ← read_auth a;
      p ← lockOrCreateProfileInTx tenantId (au_customer a);
      formatAuthorizationResponse k.2 a p false
  end.

(** ** Receivables *)

(** CHK_customer_receivables_math; the unique keys: code, source, idempotency key. *)
Definition check_receivable (r : ReceivableRow) : bool :=
  (0 <? rv_original r) && (0 <=? rv_paid r) && (0 <=? rv_outstanding r) && (rv_paid r + rv_adjusted r + rv_outstanding r =? rv_original r).

Definition of_rv_source (tenantId sourceType sourceId : string) (k : key) (r : ReceivableRow) : bool :=
  String.eqb k.1 tenantId && String.eqb (rv_sourceType r) sourceType && String.eqb (rv_sourceId r) sourceId.
Definition of_rv_key (tenantId rkey : string) (k : key) (r : ReceivableRow) : bool := String.eqb k.1 tenantId && String.eqb (rv_key r) rkey.

Definition receivable_clash (k : key) (r : ReceivableRow) (k' : key) (r' : ReceivableRow) : bool :=
  of_rv_source k.1 (rv_sourceType r) (rv_sourceId r) k' r' || of_rv_key k.1 (rv_key r) k' r' || (String.eqb k'.1 k.1 && String.eqb (rv_code r') (rv_code r)).

Definition insert_receivable (k : key) (r : ReceivableRow) : tx unit :=
  clash ← gets (fun d => taken k (receivables d) || bool_decide (is_Some (first (receivable_clash k r) (receivables d))));
  if (clash : bool) || negb (check_receivable r) then query_failed else modify (set_receivable k r).

Definition update_receivable (k : key) (r : ReceivableRow) : tx unit := if check_receivable r then modify (set_receivable k r) else query_failed.

(** CHK_customer_debt_ledger_delta and the unique idempotency key. *)
Definition of_debt_key (tenantId dkey : string) (e : DebtRow) : bool := String.eqb (dl_tenant e) tenantId && String.eqb (dl_key e) dkey.

Definition insert_debt (e : DebtRow) : tx unit :=
  clash ← gets (fun d => existsb (of_debt_key (dl_tenant e) (dl_key e)) (debt_ledger d));
  if (clash : bool) || (dl_delta e =? 0) || negb (0 <=? dl_after e) then query_failed else modify (add_debt e).

Definition read_receivable (r : ReceivableRow) : tx ReceivableRow :=
  _ ← toMoney (rv_original r); _ ← toMoney (rv_paid r); _ ← toMoney (rv_adjusted r); _ ← toMoney (rv_outstanding r); mret r.

(** ** Commit, release and expiry of a hold *)

Definition with_state (a : AuthRow) (s : AuthState) (order branch receivable reason : option string) (committedAt releasedAt : option Z) : AuthRow :=
  {| au_code := au_code a; au_customer := au_customer a; au_order := order; au_branch := branch; au_amount := au_amount a; au_state := s;
     au_overrideBy := au_overrideBy a; au_overrideReason := au_overrideReason a; au_key := au_key a; au_hash := au_hash a; au_caller := au_caller a;
     au_expiresAt := au_expiresAt a; au_receivable := receivable; au_releasedReason := reason; au_createdBy := au_createdBy a;
     au_committedAt := committedAt; au_releasedAt := releasedAt |}.

(** [held >= auth ? held - auth : 0]. *)
Definition held_after (held auth : Z) : Z := if auth <=? held then minus held auth else 0.

(** Accounts receivable against sales revenue clearing. *)
Definition receivable_lines (amount : Z) (branch : option string) (customer memo memo' : string) : list JournalLineInput :=
  [one_line GL.ACCOUNTS_RECEIVABLE true amount branch (Some CUSTOMER) (Some customer) (Some memo);
   one_line GL.SALES_REVENUE_CLEARING false amount branch (Some CUSTOMER) (Some customer) (Some memo')].

Definition debt_entry (tenantId customer receivable : string) (type : DebtEntryType) (delta before after : Z) (method : string) (voucher : option string)
    (journal refType refId dkey : string) (note : option string) (actor : string) : DebtRow :=
  {| dl_tenant := tenantId; dl_customer := customer; dl_receivable := receivable; dl_type := type; dl_delta := delta; dl_before := before; dl_after := after;
     dl_method := method; dl_voucher := voucher; dl_journal := journal; dl_refType := refType; dl_refId := refId; dl_key := dkey; dl_note := note;
     dl_actor := actor |}.

Definition new_receivable (code customer : string) (order branch auth : option string) (amount : Z) (sourceType sourceId journal rkey : string) (now : Z) : ReceivableRow :=
  {| rv_code := code; rv_customer := customer; rv_order := order; rv_branch := branch; rv_auth := auth; rv_original := amount; rv_paid := 0; rv_adjusted := 0;
     rv_outstanding := amount; rv_status := DOC_OPEN; rv_sourceType := sourceType; rv_sourceId := sourceId; rv_journal := journal; rv_key := rkey;
     rv_createdAt := now |}.

Record CommitDto := { cm_order : option string; cm_branch : option string; cm_actor : option string }.

Definition commitAuthorization (tenantId authId actorId : string) (dto : CommitDto) (uuid : string -> string) (now : Z) : tx AuthorizationResponse :=
  let id := as_uuid authId in
  '(a, p) ← lock_auth tenantId id;
  match au_state a with
  | COMMITTED => formatAuthorizationResponse id a p true
  | RELEASED | EXPIRED => rule CREDIT_AUTHORIZATION_INVALID_STATE 409
  | HELD =>
      auth ← vnd (au_amount a) false false;
      heldBefore ← vnd (cp_held p) true false;
      postedBefore ← vnd (cp_posted p) true false;
      let heldAfter := held_after heldBefore auth in
      let postedAfter := plus postedBefore auth in
      let orderId := as_uuid <$> coalesce (cm_order dto) (au_order a) in
      let branchId := as_uuid <$> coalesce (cm_branch dto) (au_branch a) in
      let actor := default actorId (cm_actor dto) in
      journal ← postJournalInTx tenantId {| pj_type := "CREDIT_SALE_RECEIVABLE"; pj_sourceType := "CREDIT_AUTHORIZATION_COMMIT"; pj_sourceId := id;
        pj_key := Some ("crd-commit-jnl:" +:+ id); pj_branch := branchId;
        pj_description := Some ("Credit sale receivable for authorization " +:+ au_code a); pj_postedBy := actor; pj_reversalOf := None;
        pj_lines := receivable_lines (au_amount a) branchId (au_customer a) ("Customer receivable from credit authorization " +:+ au_code a)
          ("Credit sale clearing for " +:+ au_code a) |} uuid now;
      code ← nextFinanceDocumentCode tenantId "AR";
      let recId := fresh uuid "receivable" in
      let receivable := new_receivable code (as_uuid (au_customer a)) orderId branchId (Some id) (au_amount a)
        (if truthy orderId then "SALES_ORDER" else "CREDIT_AUTHORIZATION") (default id orderId) (po_id journal) ("ar-from-crd:" +:+ id) now in
      _ ← insert_receivable (tenantId, recId) receivable;
      _ ← insert_debt (debt_entry tenantId (as_uuid (au_customer a)) recId DEBT_RECOGNIZED (au_amount a) postedBefore postedAfter "CREDIT" None (po_id journal)
            "CREDIT_AUTHORIZATION" id ("ar-ldg-crd:" +:+ id) (Some ("Committed credit hold " +:+ au_code a)) actor);
      let p' := with_posted (with_held p heldAfter) postedAfter in
      _ ← save_profile (tenantId, as_uuid (au_customer a)) p';
      let a' := with_state a COMMITTED orderId branchId (Some recId) (au_releasedReason a) (Some now) (au_releasedAt a) in
      _ ← modify (set_auth (tenantId, id) a');
      limit ← vnd (cp_limit p') true false;
      let avail := availVnd limit postedAfter heldAfter in
      _ ← outbox_add (CreditChanged id a' (cp_posted p') (cp_held p') avail (Some recId) now);
      _ ← outbox_add (ReceivableChanged true recId receivable (cp_posted p') (po_id journal) now);
      formatAuthorizationResponse id a' p' false
  end.

Definition releaseAuthorization (tenantId authId actorId : string) (reason dtoActor : option string) (now : Z) : tx AuthorizationResponse :=
  let id := as_uuid authId in
  '(a, p) ← lock_auth tenantId id;
  match au_state a with
  | RELEASED | EXPIRED => formatAuthorizationResponse id a p true
  | COMMITTED => rule CREDIT_AUTHORIZATION_INVALID_STATE 409
  | HELD =>
      auth ← vnd (au_amount a) false false;
      heldBefore ← vnd (cp_held p) true false;
      let heldAfter := held_after heldBefore auth in
      let p' := with_held p heldAfter in
      _ ← save_profile (tenantId, as_uuid (au_customer a)) p';
      let a' := with_state a RELEASED (au_order a) (au_branch a) (au_receivable a)
        (Some (default ("Released by " +:+ default actorId dtoActor) reason)) (au_committedAt a) (Some now) in
      _ ← modify (set_auth (tenantId, id) a');
      limit ← vnd (cp_limit p') true false;
      posted ← vnd (cp_posted p') true false;
      _ ← outbox_add (CreditChanged id a' (cp_posted p') (cp_held p') (availVnd limit posted heldAfter) None now);
      formatAuthorizationResponse id a' p' false
  end.

(** A hold whose time is over. *)
Definition overdue (tenantId : string) (now : Z) (e : key * AuthRow) : bool :=
  String.eqb e.1.1 tenantId && bool_decide (au_state e.2 = HELD) && (au_expiresAt e.2 <=? now).

Definition expire_step (now : Z) (n : Z) (e : key * AuthRow) : tx Z :=
  let a := e.2 in
  amount ← toMoney (au_amount a);
  p ← lockOrCreateProfileInTx e.1.1 (au_customer a);
  heldBefore ← vnd (cp_held p) true false;
  auth ← vnd amount false false;
  _ ← save_profile (e.1.1, as_uuid (au_customer a)) (with_held p (held_after heldBefore auth));
  _ ← modify (set_auth e.1 (with_state a EXPIRED (au_order a) (au_branch a) (au_receivable a) (Some "TTL_EXPIRED") (au_committedAt a) (Some now)));
  mret (n + 1).

Definition expireStaleAuthorizations (tenantId : string) (now : Z) : tx Z :=
  rows ← gets (fun d : db => List.filter (overdue tenantId now) (map_to_list (auths d)));
  for_each (expire_step now) 0 rows.

(** ** Recognition of a debt *)

Record RecognizeReceivableDto := {
  rr_customer : string; rr_amount : Z; rr_order : option string; rr_branch : option string; rr_sourceType : option string; rr_sourceId : option string;
  rr_overrideBy : option string; rr_note : option string; rr_key : option string }.

Record RecognizeResult := { rg_id : string; rg_row : ReceivableRow; rg_debtAfter : Z; rg_replayed : bool }.

Definition recognizeReceivable (tenantId actorId : string) (keyHeader : option string) (dto : RecognizeReceivableDto) (uuid : string -> string) (now : Z)
    : tx RecognizeResult :=
  amount ← vnd (rr_amount dto) false false;
  let sourceType := toUpperCase (trim (default "SALES_ORDER" (rr_sourceType dto))) in
  let sourceId := trim (default ("manual:" +:+ rr_customer dto +:+ ":" +:+ Z_string amount) (coalesce (rr_sourceId dto) (rr_order dto))) in
  let rkey := toLowerCase (trim (default ("ar:" +:+ sourceType +:+ ":" +:+ sourceId) (coalesce keyHeader (rr_key dto)))) in
  let customer := as_uuid (rr_customer dto) in
  p ← lockOrCreateProfileInTx tenantId (rr_customer dto);
  existing ← gets (fun d => first (fun k r => of_rv_source tenantId sourceType sourceId k r || of_rv_key tenantId rkey k r) (receivables d));
  match existing with
  | Some (k, r) =>
      r ← read_receivable r;
      if negb (String.eqb (rv_customer r) (rr_customer dto)) || negb (rv_original r =? amount) then rule IDEMPOTENCY_CONFLICT 409
      else mret {| rg_id := k.2; rg_row := r; rg_debtAfter := cp_posted p; rg_replayed := true |}
  | None =>
      _ ← credit_check p amount (rr_overrideBy dto) (rr_note dto);
      postedBefore ← vnd (cp_posted p) true false;
      let postedAfter := plus postedBefore amount in
      journal ← postJournalInTx tenantId {| pj_type := "CREDIT_SALE_RECEIVABLE"; pj_sourceType := sourceType; pj_sourceId := sourceId;
        pj_key := Some ("ar-jnl:" +:+ rkey); pj_branch := rr_branch dto;
        pj_description := coalesce (rr_note dto) (Some ("Customer receivable recognized for " +:+ sourceType +:+ ":" +:+ sourceId)); pj_postedBy := actorId;
        pj_reversalOf := None; pj_lines := receivable_lines amount (rr_branch dto) (rr_customer dto) ("Receivable for " +:+ sourceType +:+ ":" +:+ sourceId)
          ("Sales clearing for " +:+ sourceType +:+ ":" +:+ sourceId) |} uuid now;
      code ← nextFinanceDocumentCode tenantId "AR";
      let recId := fresh uuid "receivable" in
      let receivable := new_receivable code customer (as_uuid <$> rr_order dto) (as_uuid <$> rr_branch dto) None amount sourceType sourceId (po_id journal) rkey now in
      _ ← insert_receivable (tenantId, recId) receivable;
      _ ← insert_debt (debt_entry tenantId customer recId DEBT_RECOGNIZED amount postedBefore postedAfter "CREDIT" None (po_id journal) sourceType sourceId
            ("ar-ldg:" +:+ rkey) (rr_note dto) actorId);
      let p' := with_posted p postedAfter in
      _ ← save_profile (tenantId, customer) p';
      _ ← outbox_add (ReceivableChanged true recId receivable (cp_posted p') (po_id journal) now);
      mret {| rg_id := recId; rg_row := receivable; rg_debtAfter := cp_posted p'; rg_replayed := false |}
  end.

(** ** Payments *)

Inductive PaymentMethod := PM_CASH | PM_BANK_TRANSFER | PM_CARD | PM_E_WALLET.
#[export] Instance PaymentMethod_eq_dec : EqDecision PaymentMethod.
Proof. solve_decision. Defined.

Definition method_name (m : PaymentMethod) : string :=
  match m with PM_CASH => "CASH" | PM_BANK_TRANSFER => "BANK_TRANSFER" | PM_CARD => "CARD" | PM_E_WALLET => "E_WALLET" end.

Record RecordReceivablePaymentDto := {
  rp_amount : Z; rp_method : option PaymentMethod; rp_account : option string; rp_branch : option string; rp_policy : option OverpaymentPolicy;
  rp_allocations : list (string * Z); rp_note : option string; rp_key : option string }.

Record PaymentResult := {
  pr_receivable : option ReceivableRow; pr_updated : list (string * ReceivableRow); pr_allocated : Z; pr_overpayment : Z; pr_debtAfter : Z;
  pr_prepaymentAfter : Z; pr_journal : string; pr_voucher : option string; pr_replayed : bool }.

Definition is_open_of (tenantId customer : string) (e : key * ReceivableRow) : bool :=
  String.eqb e.1.1 tenantId && String.eqb (rv_customer e.2) customer && match rv_status e.2 with DOC_OPEN | DOC_PARTIALLY_PAID => true | _ => false end.

(** [created_at ASC, id ASC]. *)
Definition by_age (a b : key * ReceivableRow) : Z :=
  if rv_createdAt a.2 =? rv_createdAt b.2 then match String.compare a.1.2 b.1.2 with Lt => -1 | Eq => 0 | Gt => 1 end
  else rv_createdAt a.2 - rv_createdAt b.2.

(** The documents a payment may go to, as they are locked. *)
Definition open_documents (tenantId customer : string) (target : option string) (d : db) : list (key * ReceivableRow) :=
  match target with
  | Some r => match receivables d !! (tenantId, r) with
              | Some row => if String.eqb (rv_customer row) customer then [((tenantId, r), row)] else []
              | None => []
              end
  | None => sort_by by_age (List.filter (is_open_of tenantId customer) (map_to_list (receivables d)))
  end.

Definition read_document (u : unit) (e : key * ReceivableRow) : tx unit := _ ← read_receivable e.2; mret tt.

Definition snapshot (e : key * ReceivableRow) : OpenObligationSnapshot :=
  {| ob_id := e.1.2; ob_code := rv_code e.2; ob_originalAmount := int (rv_original e.2); ob_paidAmount := int (rv_paid e.2);
     ob_adjustedAmount := int (rv_adjusted e.2); ob_outstandingAmount := int (rv_outstanding e.2) |}.

Definition with_payment (r : ReceivableRow) (al : CalculatedAllocationLine) : ReceivableRow :=
  {| rv_code := rv_code r; rv_customer := rv_customer r; rv_order := rv_order r; rv_branch := rv_branch r; rv_auth := rv_auth r; rv_original := rv_original r;
     rv_paid := nval (al_paidAmountAfter al); rv_adjusted := rv_adjusted r; rv_outstanding := nval (al_outstandingAfter al);
     rv_status := match al_statusAfter al with PAID => DOC_PAID | PARTIALLY_PAID => DOC_PARTIALLY_PAID end; rv_sourceType := rv_sourceType r;
     rv_sourceId := rv_sourceId r; rv_journal := rv_journal r; rv_key := rv_key r; rv_createdAt := rv_createdAt r |}.

(** The variables of the loop: the index, the running debt and the changed documents. *)
Record ApplyState := { ap_index : Z; ap_debt : Z; ap_updated : list (string * ReceivableRow) }.

Definition payment_key (cleanKey : string) (single : bool) (i : Z) : string := if single then cleanKey else cleanKey +:+ ":" +:+ Z_string (i + 1).

Definition apply_step (tenantId customer cleanKey journal voucher actor : string) (method : PaymentMethod) (note : option string) (single : bool)
    (docs : list (key * ReceivableRow)) (s : ApplyState) (al : CalculatedAllocationLine) : tx ApplyState :=
  match List.find (fun e => String.eqb e.1.2 (al_documentId al)) docs with
  | None => type_error
  | Some (k, r) =>
      n ← domain (parseVnd (VNum (al_allocatedAmount al)) false false);
      let alloc := nval n in
      let before := ap_debt s in
      let after := held_after before alloc in
      let r' := with_payment r al in
      _ ← update_receivable k r';
      _ ← insert_debt (debt_entry tenantId customer k.2 PAYMENT_APPLIED (- alloc) before after (method_name method) (Some voucher) journal "RECEIVABLE_PAYMENT"
            cleanKey (payment_key cleanKey single (ap_index s)) (Some (default ("Payment applied to " +:+ rv_code r) note)) actor);
      mret {| ap_index := ap_index s + 1; ap_debt := after; ap_updated := ap_updated s ++ [(k.2, r')] |}
  end.

(** The customer a payment is from: named, or the one of the named receivable. *)
Definition payer (tenantId : string) (targetReceivable targetCustomer : option string) : tx string :=
  match given targetCustomer, given targetReceivable with
  | Some c, _ => mret c
  | None, Some r =>
      target ← gets (fun d : db => receivables d !! (tenantId, as_uuid r));
      match target with Some row => row ← read_receivable row; mret (rv_customer row) | None => rule RECEIVABLE_NOT_FOUND 404 end
  | None, None => rule VALIDATION_ERROR 422
  end.

Definition payment_account (tenantId : string) (dto : RecordReceivablePaymentDto) (branch : option string) (uuid : string -> string) (now : Z)
    : tx (key * CashAccountRow) :=
  match given (rp_account dto) with
  | Some i =>
      found ← gets (fun d : db => cash_accounts d !! (tenantId, as_uuid i));
      match found with Some a => a ← read_cash_account a; mret ((tenantId, as_uuid i), a) | None => rule CASH_ACCOUNT_NOT_FOUND 404 end
  | None => ensureDefaultCashAccountInTx tenantId branch (negb (bool_decide (default PM_CASH (rp_method dto) = PM_CASH))) uuid now
  end.

(** Cash against receivables, and against prepayments for what is overpaid. *)
Definition payment_lines (r : CalculatedPaymentAllocationResult) (gl : string) (branch : option string) (customer memo codes : string) : list JournalLineInput :=
  [one_line gl true (nval (pa_paymentAmount r)) branch (Some CUSTOMER) (Some customer) (Some memo);
   one_line GL.ACCOUNTS_RECEIVABLE false (nval (pa_totalAllocated r)) branch (Some CUSTOMER) (Some customer) (Some ("Allocated to receivable(s): " +:+ codes))] ++
  (if 0 <? nval (pa_overpaymentAmount r)
   then [one_line GL.CUSTOMER_PREPAYMENT false (nval (pa_overpaymentAmount r)) branch (Some CUSTOMER) (Some customer) (Some "Customer overpayment credit")]
   else []).

Definition collection_voucher (actor account customer cleanKey description : string) (amount : Z) (branch : option string) (journal : string) : VoucherInput :=
  {| vi_actor := actor; vi_direction := RECEIPT; vi_account := account; vi_categoryId := None; vi_categoryCode := Some "DEBT_COLLECTION"; vi_amount := amount;
     vi_branch := branch; vi_shift := None; vi_type := Some "DEBT_COLLECTION"; vi_sourceType := Some "RECEIVABLE_PAYMENT"; vi_sourceId := Some cleanKey;
     vi_partyType := Some CUSTOMER; vi_partyId := Some customer; vi_description := Some description; vi_refDoc := None; vi_autoPost := true;
     vi_key := Some ("cb-ar-pay:" +:+ cleanKey); vi_hash := None; vi_linkedJournal := Some journal |}.

(** A payment whose key is new. *)
Definition apply_payment (tenantId : string) (targetReceivable targetCustomer : option string) (actorId cleanKey : string) (dto : RecordReceivablePaymentDto)
    (uuid : string -> string) (now : Z) : tx PaymentResult :=
  customer ← payer tenantId targetReceivable targetCustomer;
  p ← lockOrCreateProfileInTx tenantId customer;
  docs ← gets (open_documents tenantId (as_uuid customer) (as_uuid <$> given targetReceivable));
  _ ← for_each read_document tt docs;
  match docs with
  | [] => rule RECEIVABLE_NOT_FOUND 404
  | doc0 :: _ =>
      r ← domain (calculateDocumentAllocations (int (rp_amount dto)) (map snapshot docs)
            (map (fun a => {| ra_documentId := a.1; ra_amount := int a.2 |}) (rp_allocations dto)) (default REJECT (rp_policy dto)) FinanceDomain.RECEIVABLE);
      let branch := coalesce (rp_branch dto) (rv_branch doc0.2) in
      let method := default PM_CASH (rp_method dto) in
      account ← payment_account tenantId dto branch uuid now;
      overpay ← domain (parseVnd (VNum (pa_overpaymentAmount r)) true false);
      let codes := sjoin ", " (map al_code (pa_allocations r)) in
      journal ← postJournalInTx tenantId {| pj_type := "RECEIVABLE_COLLECTION"; pj_sourceType := "RECEIVABLE_PAYMENT"; pj_sourceId := cleanKey;
        pj_key := Some ("ar-pay-jnl:" +:+ cleanKey); pj_branch := branch;
        pj_description := Some (default ("Customer debt collection for " +:+ codes) (rp_note dto)); pj_postedBy := actorId; pj_reversalOf := None;
        pj_lines := payment_lines r (ca_gl account.2) branch customer
          (default ("Customer debt collection (" +:+ method_name method +:+ ")") (rp_note dto)) codes |} uuid now;
      voucher ← createAndOptionallyPostVoucherInTx tenantId (collection_voucher actorId account.1.2 customer cleanKey
            (default ("Debt collection for " +:+ codes) (rp_note dto)) (nval (pa_paymentAmount r)) branch (po_id journal)) uuid now;
      debt ← vnd (cp_posted p) true false;
      s ← for_each (apply_step tenantId (as_uuid customer) cleanKey (po_id journal) voucher.1 actorId method (rp_note dto)
            (bool_decide (length (pa_allocations r) = 1%nat)) docs) {| ap_index := 0; ap_debt := debt; ap_updated := [] |} (pa_allocations r);
      let p' := with_posted p (ap_debt s) in
      p'' ← (if nlt (int 0) overpay then prev ← vnd (cp_prepayment p') true false; mret (with_prepayment p' (plus prev (nval overpay))) else mret p');
      _ ← save_profile (tenantId, as_uuid customer) p'';
      match ap_updated s with
      | [] => type_error
      | (i0, r0) :: _ =>
          _ ← outbox_add (ReceivableChanged false i0 r0 (cp_posted p'') (po_id journal) now);
          mret {| pr_receivable := Some r0; pr_updated := ap_updated s; pr_allocated := nval (pa_totalAllocated r); pr_overpayment := nval (pa_overpaymentAmount r);
                  pr_debtAfter := cp_posted p''; pr_prepaymentAfter := cp_prepayment p''; pr_journal := po_id journal; pr_voucher := Some voucher.1;
                  pr_replayed := false |}
      end
  end.

Definition recordReceivablePayment (tenantId : string) (targetReceivable targetCustomer : option string) (actorId : string) (keyHeader : option string)
    (dto : RecordReceivablePaymentDto) (uuid : string -> string) (now : Z) : tx PaymentResult :=
  let cleanKey := toLowerCase (trim (default ("ar-pay:" +:+ uuid "payment") (coalesce keyHeader (rp_key dto)))) in
  existing ← gets (fun d => List.find (fun e => of_debt_key tenantId cleanKey e || of_debt_key tenantId (cleanKey +:+ ":1") e) (debt_ledger d));
  match existing with
  | Some e =>
      _ ← toMoney (dl_delta e); _ ← toMoney (dl_before e); _ ← toMoney (dl_after e);
      rec ← gets (fun d : db => receivables d !! (tenantId, dl_receivable e));
      _ ← match rec with Some r => _ ← read_receivable r; mret tt | None => mret tt end;
      p ← lockOrCreateProfileInTx tenantId (dl_customer e);
      mret {| pr_receivable := rec; pr_updated := []; pr_allocated := 0; pr_overpayment := 0; pr_debtAfter := cp_posted p; pr_prepaymentAfter := cp_prepayment p;
              pr_journal := dl_journal e; pr_voucher := dl_voucher e; pr_replayed := true |}
  | None => apply_payment tenantId targetReceivable targetCustomer actorId cleanKey dto uuid now
  end.
