(* ===== verification/SupplierDebt.v ===== *)
(** * Finance service: supplier payables

    apps/finance/src/modules/payables/payables.service.ts: recognition of a debt to a
    supplier (by hand, for an approved purchase order or a posted stock receipt),
    payments against one or several payables, and credits for returned goods, over
    the tables and the services of the ledger file.  The due date of a payable is
    left out: nothing reads it. *)

From S2P Require Import Prelude Transaction JsNumber JsString FinanceDomain FinanceLedger CustomerDebt.

Open Scope Z_scope.

(** ** Statements *)

(** CHK_supplier_payables_math; the unique keys: code, source, idempotency key and
    purchase order. *)
Definition check_payable (p : PayableRow) : bool :=
  (0 <? pb_original p) && (0 <=? pb_paid p) && (0 <=? pb_outstanding p) && (pb_paid p + pb_adjusted p + pb_outstanding p =? pb_original p).

Definition of_pb_source (tenantId sourceType sourceId : string) (k : key) (p : PayableRow) : bool :=
  String.eqb k.1 tenantId && String.eqb (pb_sourceType p) sourceType && String.eqb (pb_sourceId p) sourceId.
Definition of_pb_key (tenantId pkey : string) (k : key) (p : PayableRow) : bool := String.eqb k.1 tenantId && String.eqb (pb_key p) pkey.
Definition of_po (tenantId : string) (po : option string) (k : key) (p : PayableRow) : bool :=
  match po with Some i => String.eqb k.1 tenantId && bool_decide (pb_po p = Some i) | None => false end.

Definition payable_clash (k : key) (p : PayableRow) (k' : key) (p' : PayableRow) : bool :=
  of_pb_source k.1 (pb_sourceType p) (pb_sourceId p) k' p' || of_pb_key k.1 (pb_key p) k' p' || of_po k.1 (pb_po p) k' p' ||
  (String.eqb k'.1 k.1 && String.eqb (pb_code p') (pb_code p)).

Definition insert_payable (k : key) (p : PayableRow) : tx unit :=
  clash ← gets (fun d => taken k (payables (trade d)) || bool_decide (is_Some (first (payable_clash k p) (payables (trade d)))));
  if (clash : bool) || negb (check_payable p) then query_failed else modify (set_payable k p).

Definition update_payable (k : key) (p : PayableRow) : tx unit := if check_payable p then modify (set_payable k p) else query_failed.

(** CHK_supplier_debt_ledger_delta and the unique idempotency key. *)
Definition of_entry_key (tenantId ekey : string) (e : SupplierDebtRow) : bool := String.eqb (sl_tenant e) tenantId && String.eqb (sl_key e) ekey.

Definition insert_supplier_entry (e : SupplierDebtRow) : tx unit :=
  clash ← gets (fun d => existsb (of_entry_key (sl_tenant e) (sl_key e)) (supplier_ledger (trade d)));
  if (clash : bool) || (sl_delta e =? 0) || negb (0 <=? sl_after e) then query_failed else modify (add_supplier_entry e).

Definition read_payable (p : PayableRow) : tx PayableRow :=
  _ ← toMoney (pb_original p); _ ← toMoney (pb_paid p); _ ← toMoney (pb_adjusted p); _ ← toMoney (pb_outstanding p); mret p.
Definition read_entry (e : SupplierDebtRow) : tx SupplierDebtRow :=
  _ ← toMoney (sl_delta e); _ ← toMoney (sl_before e); _ ← toMoney (sl_after e); mret e.

(** The row of an id, if there is one. *)
Definition find_payable (tenantId id : string) : tx (option PayableRow) :=
  found ← gets (fun d : db => payables (trade d) !! (tenantId, id));
  match found with Some p => p ← read_payable p; mret (Some p) | None => mret None end.

Definition is_open_payable (tenantId supplier : string) (e : key * PayableRow) : bool :=
  String.eqb e.1.1 tenantId && String.eqb (pb_supplier e.2) supplier && match pb_status e.2 with AP_OPEN | AP_PARTIALLY_PAID => true | _ => false end.

Definition open_total (tenantId supplier : string) (m : gmap key PayableRow) : Z :=
  total (fun e => pb_outstanding e.2) (List.filter (is_open_payable tenantId supplier) (map_to_list m)).

(** [SUM(outstanding_amount)::bigint], as a JS number. *)
Definition computeSupplierTotalDebtInTx (tenantId supplierId : string) : tx Z :=
  sum ← gets (fun d => open_total tenantId (as_uuid supplierId) (payables (trade d)));
  if int8 sum then toMoney sum else query_failed.

(** ** Recognition *)

Record RecognizePayableDto := {
  pd_supplier : string; pd_amount : Z; pd_po : option string; pd_receipt : option string; pd_warehouse : option string; pd_sourceType : option string;
  pd_sourceId : option string; pd_note : option string; pd_key : option string }.

Record PayableResult := { py_id : string; py_row : PayableRow; py_debtAfter : Z; py_replayed : bool }.

Definition with_receipt (p : PayableRow) (receipt : string) : PayableRow :=
  {| pb_code := pb_code p; pb_supplier := pb_supplier p; pb_po := pb_po p; pb_receipt := Some receipt; pb_warehouse := pb_warehouse p;
     pb_original := pb_original p; pb_paid := pb_paid p; pb_adjusted := pb_adjusted p; pb_outstanding := pb_outstanding p; pb_status := pb_status p;
     pb_sourceType := pb_sourceType p; pb_sourceId := pb_sourceId p; pb_journal := pb_journal p; pb_key := pb_key p; pb_createdAt := pb_createdAt p |}.

Definition supplier_entry (tenantId supplier payable : string) (type : SupplierEntryType) (delta before after : Z) (method voucher : option string)
    (journal refType refId ekey : string) (note : option string) (actor : string) : SupplierDebtRow :=
  {| sl_tenant := tenantId; sl_supplier := supplier; sl_payable := payable; sl_type := type; sl_delta := delta; sl_before := before; sl_after := after;
     sl_method := method; sl_voucher := voucher; sl_journal := journal; sl_refType := refType; sl_refId := refId; sl_key := ekey; sl_note := note;
     sl_actor := actor |}.

(** Purchase clearing against accounts payable, or the other way round. *)
Definition payable_lines (clearing payable : bool) (amount : Z) (supplier memo memo' : string) : list JournalLineInput :=
  let clear := one_line GL.INVENTORY_PURCHASE_CLEARING clearing amount None (Some SUPPLIER) (Some supplier) (Some memo) in
  let owe := one_line GL.ACCOUNTS_PAYABLE payable amount None (Some SUPPLIER) (Some supplier) (Some memo') in
  if clearing then [clear; owe] else [owe; clear].

Definition recognize_new (tenantId actorId sourceType sourceId pkey : string) (amount : Z) (dto : RecognizePayableDto) (uuid : string -> string) (now : Z)
    : tx PayableResult :=
  before ← computeSupplierTotalDebtInTx tenantId (pd_supplier dto);
  let after := plus before amount in
  let what := sourceType +:+ ":" +:+ sourceId in
  journal ← postJournalInTx tenantId {| pj_type := "SUPPLIER_PAYABLE_RECOGNITION"; pj_sourceType := sourceType; pj_sourceId := sourceId;
    pj_key := Some ("ap-jnl:" +:+ pkey); pj_branch := None; pj_description := coalesce (pd_note dto) (Some ("Supplier payable recognized for " +:+ what));
    pj_postedBy := actorId; pj_reversalOf := None;
    pj_lines := payable_lines true false amount (pd_supplier dto) ("Inventory/purchase clearing for " +:+ what) ("Supplier payable for " +:+ what) |} uuid now;
  code ← nextFinanceDocumentCode tenantId "AP";
  let id := fresh uuid "payable" in
  let row := {| pb_code := code; pb_supplier := as_uuid (pd_supplier dto); pb_po := as_uuid <$> pd_po dto; pb_receipt := as_uuid <$> pd_receipt dto;
    pb_warehouse := as_uuid <$> pd_warehouse dto; pb_original := amount; pb_paid := 0; pb_adjusted := 0; pb_outstanding := amount; pb_status := AP_OPEN;
    pb_sourceType := sourceType; pb_sourceId := sourceId; pb_journal := po_id journal; pb_key := pkey; pb_createdAt := now |} in
  _ ← insert_payable (tenantId, id) row;
  _ ← insert_supplier_entry (supplier_entry tenantId (as_uuid (pd_supplier dto)) id PAYABLE_RECOGNIZED amount before after None None (po_id journal)
        sourceType sourceId ("ap-ldg:" +:+ pkey) (pd_note dto) actorId);
  _ ← outbox_add (PayableChanged true id row after (po_id journal) now);
  mret {| py_id := id; py_row := row; py_debtAfter := after; py_replayed := false |}.

(** A replay completes the receipt of the payable it found, which it read without a row
    lock, and saves the whole entity; a credit, which does not take the supplier's
    advisory lock, can come between the two. *)
Definition attach_receipt (k : key) (p : PayableRow) (receipt : option string) : tx PayableRow :=
  match given receipt, given (pb_receipt p) with
  | Some r, None => let p' := with_receipt p (as_uuid r) in _ ← update_payable k p'; mret p'
  | _, _ => mret p
  end.

Definition recognizePayable (tenantId actorId : string) (keyHeader : option string) (dto : RecognizePayableDto) (uuid : string -> string) (now : Z)
    : tx PayableResult :=
  amount ← vnd (pd_amount dto) false false;
  let sourceType := toUpperCase (trim (default (if truthy (pd_po dto) then "PURCHASE_ORDER" else "SUPPLIER_INVOICE") (pd_sourceType dto))) in
  let sourceId := trim (default ("manual:" +:+ pd_supplier dto +:+ ":" +:+ Z_string amount) (coalesce (coalesce (pd_sourceId dto) (pd_po dto)) (pd_receipt dto))) in
  let pkey := toLowerCase (trim (default ("ap:" +:+ sourceType +:+ ":" +:+ sourceId) (coalesce keyHeader (pd_key dto)))) in
  existing ← gets (fun d => first (fun k p => of_pb_source tenantId sourceType sourceId k p || of_pb_key tenantId pkey k p ||
    of_po tenantId (as_uuid <$> given (pd_po dto)) k p) (payables (trade d)));
  match existing with
  | Some (k, p) =>
      p ← read_payable p;
      p ← attach_receipt k p (pd_receipt dto);
      debt ← computeSupplierTotalDebtInTx tenantId (pd_supplier dto);
      mret {| py_id := k.2; py_row := p; py_debtAfter := debt; py_replayed := true |}
  | None => recognize_new tenantId actorId sourceType sourceId pkey amount dto uuid now
  end.

(** ** Payments *)

Inductive SupplierMethod := SM_CASH | SM_BANK_TRANSFER.

Definition supplier_method_name (m : SupplierMethod) : string := match m with SM_CASH => "CASH" | SM_BANK_TRANSFER => "BANK_TRANSFER" end.

Record RecordSupplierPaymentDto := {
  sp_amount : Z; sp_method : option SupplierMethod; sp_account : option string; sp_branch : option string; sp_allocations : list (string * Z);
  sp_note : option string; sp_key : option string }.

Record SupplierPaymentResult := {
  sr_payable : option PayableRow; sr_updated : list (string * PayableRow); sr_allocated : Z; sr_debtAfter : Z; sr_journal : string;
  sr_voucher : option string; sr_replayed : bool }.

(** [created_at ASC, id ASC]. *)
Definition payable_by_age (a b : key * PayableRow) : Z :=
  if pb_createdAt a.2 =? pb_createdAt b.2 then match String.compare a.1.2 b.1.2 with Lt => -1 | Eq => 0 | Gt => 1 end
  else pb_createdAt a.2 - pb_createdAt b.2.

(** The payables a payment may go to: the named one, or, when the payment names its
    allocations, all open ones of the supplier. *)
Definition open_payables (tenantId target supplier : string) (explicit : bool) (d : db) : list (key * PayableRow) :=
  if explicit then sort_by payable_by_age (List.filter (is_open_payable tenantId supplier) (map_to_list (payables (trade d))))
  else match payables (trade d) !! (tenantId, target) with Some p => [((tenantId, target), p)] | None => [] end.

Definition read_payable_doc (u : unit) (e : key * PayableRow) : tx unit := _ ← read_payable e.2; mret tt.

Definition payable_snapshot (e : key * PayableRow) : OpenObligationSnapshot :=
  {| ob_id := e.1.2; ob_code := pb_code e.2; ob_originalAmount := int (pb_original e.2); ob_paidAmount := int (pb_paid e.2);
     ob_adjustedAmount := int (pb_adjusted e.2); ob_outstandingAmount := int (pb_outstanding e.2) |}.

Definition with_amounts (p : PayableRow) (paid adjusted outstanding : Z) (status : PayableStatus) : PayableRow :=
  {| pb_code := pb_code p; pb_supplier := pb_supplier p; pb_po := pb_po p; pb_receipt := pb_receipt p; pb_warehouse := pb_warehouse p;
     pb_original := pb_original p; pb_paid := paid; pb_adjusted := adjusted; pb_outstanding := outstanding; pb_status := status;
     pb_sourceType := pb_sourceType p; pb_sourceId := pb_sourceId p; pb_journal := pb_journal p; pb_key := pb_key p; pb_createdAt := pb_createdAt p |}.

Definition with_supplier_payment (p : PayableRow) (al : CalculatedAllocationLine) : PayableRow :=
  with_amounts p (nval (al_paidAmountAfter al)) (pb_adjusted p) (nval (al_outstandingAfter al))
    (match al_statusAfter al with PAID => AP_PAID | PARTIALLY_PAID => AP_PARTIALLY_PAID end).

(** The variables of the loop: the index, the running debt and the changed payables. *)
Record SupplierApply := { sa_index : Z; sa_debt : Z; sa_updated : list (string * PayableRow) }.

Definition supplier_step (tenantId supplier cleanKey journal voucher actor : string) (method : SupplierMethod) (note : option string) (single : bool)
    (docs : list (key * PayableRow)) (s : SupplierApply) (al : CalculatedAllocationLine) : tx SupplierApply :=
  match List.find (fun e => String.eqb e.1.2 (al_documentId al)) docs with
  | None => type_error
  | Some (k, p) =>
      n ← domain (parseVnd (VNum (al_allocatedAmount al)) false false);
      let alloc := nval n in
      let before := sa_debt s in
      let after := held_after before alloc in
      let p' := with_supplier_payment p al in
      _ ← update_payable k p';
      _ ← insert_supplier_entry (supplier_entry tenantId supplier k.2 SUPPLIER_PAYMENT_APPLIED (- alloc) before after (Some (supplier_method_name method))
            (Some voucher) journal "SUPPLIER_PAYMENT" cleanKey (payment_key cleanKey single (sa_index s))
            (Some (default ("Supplier payment applied to " +:+ pb_code p) note)) actor);
      mret {| sa_index := sa_index s + 1; sa_debt := after; sa_updated := sa_updated s ++ [(k.2, p')] |}
  end.

Definition supplier_account (tenantId : string) (dto : RecordSupplierPaymentDto) (uuid : string -> string) (now : Z) : tx (key * CashAccountRow) :=
  match given (sp_account dto) with
  | Some i =>
      found ← gets (fun d : db => cash_accounts d !! (tenantId, as_uuid i));
      match found with Some a => a ← read_cash_account a; mret ((tenantId, as_uuid i), a) | None => rule CASH_ACCOUNT_NOT_FOUND 404 end
  | None => ensureDefaultCashAccountInTx tenantId (sp_branch dto) (match default SM_BANK_TRANSFER (sp_method dto) with SM_CASH => false | _ => true end) uuid now
  end.

Definition supplier_voucher (actor account supplier cleanKey description : string) (amount : Z) (branch : option string) (journal : string) : VoucherInput :=
  {| vi_actor := actor; vi_direction := EXPENSE; vi_account := account; vi_categoryId := None; vi_categoryCode := Some "SUPPLIER_PAYMENT"; vi_amount := amount;
     vi_branch := branch; vi_shift := None; vi_type := Some "SUPPLIER_PAYMENT"; vi_sourceType := Some "SUPPLIER_PAYMENT"; vi_sourceId := Some cleanKey;
     vi_partyType := Some SUPPLIER; vi_partyId := Some supplier; vi_description := Some description; vi_refDoc := None; vi_autoPost := true;
     vi_key := Some ("cb-ap-pay:" +:+ cleanKey); vi_hash := None; vi_linkedJournal := Some journal |}.

(** A payment of a payable whose key is new. *)
Definition pay_supplier (tenantId id actorId cleanKey : string) (target : PayableRow) (dto : RecordSupplierPaymentDto) (uuid : string -> string) (now : Z)
    : tx SupplierPaymentResult :=
  docs ← gets (open_payables tenantId id (pb_supplier target) (match sp_allocations dto with [] => false | _ => true end));
  _ ← for_each read_payable_doc tt docs;
  r ← domain (calculateDocumentAllocations (int (sp_amount dto)) (map payable_snapshot docs)
        (map (fun a => {| ra_documentId := a.1; ra_amount := int a.2 |}) (sp_allocations dto)) REJECT PAYABLE);
  let method := default SM_BANK_TRANSFER (sp_method dto) in
  account ← supplier_account tenantId dto uuid now;
  let codes := sjoin ", " (map al_code (pa_allocations r)) in
  let amount := nval (pa_totalAllocated r) in
  let line account debit memo := one_line account debit amount (sp_branch dto) (Some SUPPLIER) (Some (pb_supplier target)) (Some memo) in
  journal ← postJournalInTx tenantId {| pj_type := "SUPPLIER_PAYMENT"; pj_sourceType := "SUPPLIER_PAYMENT"; pj_sourceId := cleanKey;
    pj_key := Some ("ap-pay-jnl:" +:+ cleanKey); pj_branch := sp_branch dto;
    pj_description := Some (default ("Supplier payment for " +:+ codes) (sp_note dto)); pj_postedBy := actorId; pj_reversalOf := None;
    pj_lines := [line GL.ACCOUNTS_PAYABLE true ("Payment allocated to " +:+ codes);
                 line (ca_gl account.2) false ("Supplier payment (" +:+ supplier_method_name method +:+ ")")] |} uuid now;
  voucher ← createAndOptionallyPostVoucherInTx tenantId (supplier_voucher actorId account.1.2 (pb_supplier target) cleanKey
        (default ("Supplier payment for " +:+ codes) (sp_note dto)) amount (sp_branch dto) (po_id journal)) uuid now;
  debt ← computeSupplierTotalDebtInTx tenantId (pb_supplier target);
  s ← for_each (supplier_step tenantId (pb_supplier target) cleanKey (po_id journal) voucher.1 actorId method (sp_note dto)
        (bool_decide (length (pa_allocations r) = 1%nat)) docs) {| sa_index := 0; sa_debt := debt; sa_updated := [] |} (pa_allocations r);
  match sa_updated s with
  | [] => type_error
  | (i0, p0) :: _ =>
      _ ← outbox_add (PayableChanged false i0 p0 (sa_debt s) (po_id journal) now);
      mret {| sr_payable := Some p0; sr_updated := sa_updated s; sr_allocated := amount; sr_debtAfter := sa_debt s; sr_journal := po_id journal;
              sr_voucher := Some voucher.1; sr_replayed := false |}
  end.

Definition recordSupplierPayment (tenantId targetPayableId actorId : string) (keyHeader : option string) (dto : RecordSupplierPaymentDto)
    (uuid : string -> string) (now : Z) : tx SupplierPaymentResult :=
  let cleanKey := toLowerCase (trim (default ("ap-pay:" +:+ uuid "payment") (coalesce keyHeader (sp_key dto)))) in
  existing ← gets (fun d => List.find (fun e => of_entry_key tenantId cleanKey e || of_entry_key tenantId (cleanKey +:+ ":1") e) (supplier_ledger (trade d)));
  match existing with
  | Some e =>
      e ← read_entry e;
      ap ← find_payable tenantId (sl_payable e);
      debt ← computeSupplierTotalDebtInTx tenantId (sl_supplier e);
      mret {| sr_payable := ap; sr_updated := []; sr_allocated := 0; sr_debtAfter := debt; sr_journal := sl_journal e; sr_voucher := sl_voucher e;
              sr_replayed := true |}
  | None =>
      target ← find_payable tenantId (as_uuid targetPayableId);
      match target with
      | None => rule PAYABLE_NOT_FOUND 404
      | Some p => pay_supplier tenantId (as_uuid targetPayableId) actorId cleanKey p dto uuid now
      end
  end.

(** ** Credit for returned goods *)

Record ApplySupplierReturnCreditDto := { sc_amount : Z; sc_returnRef : string; sc_reason : option string; sc_key : option string }.

Record CreditResult := { cr_payable : option PayableRow; cr_debtAfter : option Z; cr_journal : option string; cr_replayed : bool }.

(** The writes of a credit, with the debt of the supplier it read: the payable is locked,
    the supplier is not, so another payable of the supplier can change between the sum
    and the entry. *)
Definition book_credit (tenantId id actorId cleanKey : string) (credit outBefore before : Z) (p : PayableRow) (dto : ApplySupplierReturnCreditDto)
    (uuid : string -> string) (now : Z) : tx CreditResult :=
  let after := held_after before credit in
  journal ← postJournalInTx tenantId {| pj_type := "SUPPLIER_RETURN_CREDIT"; pj_sourceType := "SUPPLIER_RETURN"; pj_sourceId := sc_returnRef dto;
    pj_key := Some ("ap-ret-jnl:" +:+ cleanKey); pj_branch := None;
    pj_description := Some (default ("Supplier return credit " +:+ sc_returnRef dto +:+ " on " +:+ pb_code p) (sc_reason dto)); pj_postedBy := actorId;
    pj_reversalOf := None; pj_lines := payable_lines false true credit (pb_supplier p) ("Inventory return reduction " +:+ sc_returnRef dto)
      ("Supplier return credit " +:+ sc_returnRef dto) |} uuid now;
  adjBefore ← vnd (pb_adjusted p) true false;
  let outAfter := minus outBefore credit in
  status ← (if outAfter =? 0 then paid ← vnd (pb_paid p) true false; mret (if 0 <? paid then AP_PAID else AP_ADJUSTED) else mret AP_PARTIALLY_PAID);
  let p' := with_amounts p (pb_paid p) (plus adjBefore credit) outAfter status in
  _ ← update_payable (tenantId, id) p';
  _ ← insert_supplier_entry (supplier_entry tenantId (pb_supplier p) id SUPPLIER_RETURN_CREDIT (- credit) before after None None (po_id journal)
        "SUPPLIER_RETURN" (sc_returnRef dto) cleanKey (sc_reason dto) actorId);
  mret {| cr_payable := Some p'; cr_debtAfter := Some after; cr_journal := Some (po_id journal); cr_replayed := false |}.

Definition credit_payable (tenantId id actorId cleanKey : string) (credit : Z) (p : PayableRow) (dto : ApplySupplierReturnCreditDto) (uuid : string -> string) (now : Z)
    : tx CreditResult :=
  outBefore ← vnd (pb_outstanding p) true false;
  if outBefore <? credit then rule SUPPLIER_PAYMENT_EXCEEDED 409
  else
    before ← computeSupplierTotalDebtInTx tenantId (pb_supplier p);
    book_credit tenantId id actorId cleanKey credit outBefore before p dto uuid now.

Definition applySupplierReturnCredit (tenantId payableId actorId : string) (keyHeader : option string) (dto : ApplySupplierReturnCreditDto)
    (uuid : string -> string) (now : Z) : tx CreditResult :=
  credit ← vnd (sc_amount dto) false false;
  let cleanKey := toLowerCase (trim (default ("ap-ret-credit:" +:+ sc_returnRef dto) (coalesce keyHeader (sc_key dto)))) in
  existing ← gets (fun d => List.find (of_entry_key tenantId cleanKey) (supplier_ledger (trade d)));
  match existing with
  | Some e =>
      e ← read_entry e;
      ap ← find_payable tenantId (sl_payable e);
      mret {| cr_payable := ap; cr_debtAfter := None; cr_journal := None; cr_replayed := true |}
  | None =>
      payable ← find_payable tenantId (as_uuid payableId);
      match payable with
      | None => rule PAYABLE_NOT_FOUND 404
      | Some p => credit_payable tenantId (as_uuid payableId) actorId cleanKey credit p dto uuid now
      end
  end.

(** ** Events from inventory *)

Record PurchaseOrderApprovedPayload := { oa_order : option string; oa_code : string; oa_supplier : option string; oa_warehouse : option string; oa_amount : number }.

(** The amount of an event, when there is something to book. *)
Definition event_amount (n : number) : tx (option Z) :=
  v ← domain (parseVnd (VNum n) true false); mret (if nle v (int 0) then None else Some (nval v)).

Definition onPurchaseOrderApproved (tenantId : string) (payload : PurchaseOrderApprovedPayload) (uuid : string -> string) (now : Z) : tx unit :=
  match given (Some tenantId), given (oa_order payload), given (oa_supplier payload) with
  | Some _, Some po, Some supplier =>
      amount ← event_amount (oa_amount payload);
      match amount with
      | None => mret tt
      | Some amount =>
          _ ← recognizePayable tenantId "event:inventory.purchase_order.approved" (Some ("po-approved:" +:+ po))
            {| pd_supplier := supplier; pd_amount := amount; pd_po := Some po; pd_receipt := None; pd_warehouse := oa_warehouse payload;
               pd_sourceType := Some "PURCHASE_ORDER"; pd_sourceId := Some po; pd_note := Some ("Auto-recognized from approved PO " +:+ oa_code payload);
               pd_key := None |} uuid now;
          mret tt
      end
  | _, _, _ => mret tt
  end.

Record StockReceivedPayload := {
  sv_receipt : string; sv_code : string; sv_warehouse : string; sv_order : option string; sv_supplier : option string; sv_amount : option number }.

(** [!n] for a number. *)
Definition falsy (n : number) : bool := match n with NaN => true | _ => neq n (int 0) end.

Definition onStockReceived (tenantId : string) (payload : StockReceivedPayload) (uuid : string -> string) (now : Z) : tx unit :=
  match given (Some tenantId), given (sv_supplier payload), sv_amount payload with
  | Some _, Some supplier, Some n =>
      if falsy n then mret tt
      else
        amount ← event_amount n;
        match amount with
        | None => mret tt
        | Some amount =>
            let source := default (sv_receipt payload) (sv_order payload) in
            _ ← recognizePayable tenantId "event:inventory.stock.received" (Some ("stock-rcv:" +:+ source))
              {| pd_supplier := supplier; pd_amount := amount; pd_po := sv_order payload; pd_receipt := Some (sv_receipt payload);
                 pd_warehouse := Some (sv_warehouse payload);
                 pd_sourceType := Some (if truthy (sv_order payload) then "PURCHASE_ORDER" else "STOCK_RECEIPT"); pd_sourceId := Some source;
                 pd_note := Some ("Auto-recognized from stock receipt " +:+ sv_code payload); pd_key := None |} uuid now;
            mret tt
        end
  | _, _, _ => mret tt
  end.

(** ** Queries *)

Definition getPayableById (tenantId idText : string) : tx PayableRow :=
  found ← find_payable tenantId (as_uuid idText);
  match found with Some p => mret p | None => rule PAYABLE_NOT_FOUND 404 end.
