(* ===== verification/Settlements.v ===== *)
(** * Finance service: settlements

    apps/finance/src/modules/settlements/settlements.service.ts: the confirmation of a
    payment by hand, by a provider's callback or by a sales event, over the tables and
    the services of the ledger file.  Payment methods are strings, as the events bring
    them.  The severity and the run of a reconciliation issue are left out. *)

From S2P Require Import Prelude Transaction JsNumber JsString FinanceDomain FinanceLedger SupplierDebt.

Open Scope Z_scope.

(** ** Statements *)

(** CHK_payment_settlements_amounts. *)
Definition check_settlement (s : SettlementRow) : bool :=
  (0 <? st_requested s) && (0 <=? st_confirmed s) && (0 <=? st_settled s) && (0 <=? st_refunded s) && (st_refunded s <=? st_confirmed s).

(** The unique keys: code, idempotency key, tender of the order, transaction of the provider. *)
Definition settlement_clash (k : key) (s : SettlementRow) (k' : key) (s' : SettlementRow) : bool :=
  String.eqb k'.1 k.1 && (String.eqb (st_code s') (st_code s) || String.eqb (st_key s') (st_key s) ||
    (String.eqb (st_order s') (st_order s) && String.eqb (st_tender s') (st_tender s)) ||
    match st_external s with Some x => String.eqb (st_provider s') (st_provider s) && bool_decide (st_external s' = Some x) | None => false end).

(** [repo.save]: an UPDATE for a row that was read, an INSERT for a new id. *)
Definition save_settlement (known : bool) (k : key) (s : SettlementRow) : tx unit :=
  clash ← gets (fun d : db => let m := settlements (trade d) in negb known && taken k m ||
    bool_decide (is_Some (first (fun k' s' => negb (bool_decide (k' = k)) && settlement_clash k s k' s') m)));
  if (clash : bool) || negb (check_settlement s) then query_failed else modify (set_settlement k s).

Definition read_settlement (s : SettlementRow) : tx SettlementRow :=
  _ ← toMoney (st_requested s); _ ← toMoney (st_confirmed s); _ ← toMoney (st_settled s); _ ← toMoney (st_refunded s); mret s.

(** [findOne] on a condition. *)
Definition find_settlement (p : key -> SettlementRow -> bool) : tx (option (key * SettlementRow)) :=
  found ← gets (fun d => first p (settlements (trade d)));
  match found with Some (k, s) => s ← read_settlement s; mret (Some (k, s)) | None => mret None end.

Definition insert_issue (k : key) (i : IssueRow) : tx unit :=
  clash ← gets (fun d => taken k (issues (trade d)));
  if (clash : bool) then query_failed else modify (fun d => set_issues (<[k := i]> (issues (trade d))) d).

Definition new_issue (type sourceType sourceId : string) (expected actual difference : Z) (description : string) : IssueRow :=
  {| is_type := type; is_sourceType := sourceType; is_sourceId := sourceId; is_expected := expected; is_actual := actual; is_difference := difference;
     is_status := ISSUE_OPEN; is_description := description; is_note := None; is_by := None; is_at := None |}.

(** [UPDATE ... WHERE source = ... AND status = 'OPEN']. *)
Definition resolved_issue (tenantId sourceType sourceId note actor : string) (now : Z) (k : key) (i : IssueRow) : IssueRow :=
  if String.eqb k.1 tenantId && String.eqb (is_sourceType i) sourceType && String.eqb (is_sourceId i) sourceId && bool_decide (is_status i = ISSUE_OPEN)
  then {| is_type := is_type i; is_sourceType := is_sourceType i; is_sourceId := is_sourceId i; is_expected := is_expected i; is_actual := is_actual i;
          is_difference := is_difference i; is_status := RESOLVED; is_description := is_description i; is_note := Some note; is_by := Some actor;
          is_at := Some now |}
  else i.

Definition resolve_issues (tenantId sourceType sourceId note actor : string) (now : Z) : tx unit :=
  modify (fun d => set_issues (map_imap (fun k i => Some (resolved_issue tenantId sourceType sourceId note actor now k i)) (issues (trade d))) d).

(** A line about an order. *)
Definition order_line (account : string) (debit : bool) (amount : Z) (branch : option string) (order memo : string) : JournalLineInput :=
  {| ji_accountCode := Some account; ji_debitAmount := if debit then VNum (int amount) else Undefined;
     ji_creditAmount := if debit then Undefined else VNum (int amount); ji_branchId := branch; ji_partyType := None; ji_partyId := None;
     ji_referenceType := Some "SALES_ORDER"; ji_referenceId := Some order; ji_memo := Some memo |}.

(** The methods that move a cash account. *)
Definition cash_method (m : string) : bool := existsb (String.eqb m) ["CASH"; "BANK_TRANSFER"; "CARD"; "EWALLET"].

(** The account the money goes to or comes from; a named one may not exist. *)
Definition money_account (tenantId method : string) (account branch : option string) (uuid : string -> string) (now : Z) : tx (option (key * CashAccountRow)) :=
  if cash_method method then
    match given account with
    | Some i =>
        found ← gets (fun d : db => cash_accounts d !! (tenantId, as_uuid i));
        match found with Some a => a ← read_cash_account a; mret (Some ((tenantId, as_uuid i), a)) | None => mret None end
    | None => a ← ensureDefaultCashAccountInTx tenantId branch (negb (String.eqb method "CASH")) uuid now; mret (Some a)
    end
  else mret None.

(** ** Settlements *)

Record ConfirmSettlementDto := {
  cf_order : string; cf_checkout : option string; cf_branch : option string; cf_shift : option string; cf_tender : option string; cf_method : string;
  cf_provider : option string; cf_external : option string; cf_requested : Z; cf_confirmed : option Z; cf_settled : option Z; cf_account : option string;
  cf_ambiguous : bool; cf_key : option string }.

Record SettlementResult := { sm_id : string; sm_row : SettlementRow; sm_replayed : bool }.

Definition resolveDebitGlForMethod (method : string) : string :=
  if String.eqb method "CASH" then GL.CASH_ON_HAND
  else if existsb (String.eqb method) ["BANK_TRANSFER"; "CARD"; "EWALLET"] then GL.CASH_AT_BANK
  else if String.eqb method "COD" then GL.COD_CARRIER_RECEIVABLE
  else if String.eqb method "ON_ACCOUNT" then GL.ACCOUNTS_RECEIVABLE
  else GL.CASH_ON_HAND.

(** [raw ? parseVnd(raw, { allowZero: true }) : other]. *)
Definition amount_or (raw : option Z) (other : Z) : tx Z :=
  match raw with Some z => if z =? 0 then mret other else vnd z true false | None => mret other end.

Definition settlement_row (dto : ConfirmSettlementDto) (code tender provider skey : string) (existing : option SettlementRow) (requested confirmed settled : Z)
    (providerStatus : string) (status : StlStatus) (voucher journal : option string) (settledAt : option Z) (now : Z) : SettlementRow :=
  {| st_code := code; st_order := as_uuid (cf_order dto); st_checkout := as_uuid <$> cf_checkout dto; st_branch := as_uuid <$> cf_branch dto;
     st_shift := as_uuid <$> cf_shift dto; st_tender := tender; st_method := cf_method dto; st_provider := provider; st_external := trim <$> cf_external dto;
     st_requested := requested; st_confirmed := confirmed; st_settled := settled; st_refunded := from_option st_refunded 0 existing;
     st_providerStatus := providerStatus; st_status := status; st_voucher := voucher; st_journal := journal; st_key := skey; st_settledAt := settledAt;
     st_createdAt := from_option st_createdAt now existing |}.

Definition receipt_voucher (dto : ConfirmSettlementDto) (actor account id code skey : string) (amount : Z) (journal : string) : VoucherInput :=
  {| vi_actor := actor; vi_direction := RECEIPT; vi_account := account; vi_categoryId := None; vi_categoryCode := Some "SALES_RECEIPT"; vi_amount := amount;
     vi_branch := cf_branch dto; vi_shift := cf_shift dto; vi_type := Some "SALES_SETTLEMENT"; vi_sourceType := Some "PAYMENT_SETTLEMENT";
     vi_sourceId := Some id; vi_partyType := None; vi_partyId := None; vi_description := Some ("Receipt for order " +:+ cf_order dto +:+ " (" +:+ code +:+ ")");
     vi_refDoc := Some code; vi_autoPost := true; vi_key := Some ("stl-cb:" +:+ skey); vi_hash := None; vi_linkedJournal := Some journal |}.

(** A confirmation that does not match: kept for reconciliation, nothing is booked. *)
Definition hold_settlement (tenantId id code tender provider skey : string) (dto : ConfirmSettlementDto) (existing : option SettlementRow)
    (requested confirmed : Z) (mismatch : bool) (uuid : string -> string) (now : Z) : tx SettlementResult :=
  let row := settlement_row dto code tender provider skey existing requested confirmed 0 (if mismatch then "AMOUNT_MISMATCH" else "AMBIGUOUS")
    ST_RECONCILIATION_REQUIRED None None None now in
  _ ← save_settlement (bool_decide (is_Some existing)) (tenantId, id) row;
  let what := "Order " +:+ cf_order dto +:+ " tender " +:+ tender in
  _ ← insert_issue (tenantId, fresh uuid "issue") (new_issue (if mismatch then "SETTLEMENT_AMOUNT_MISMATCH" else "AMBIGUOUS_SETTLEMENT") "PAYMENT_SETTLEMENT" id
        requested confirmed (minus confirmed requested)
        (if mismatch then what +:+ " confirmed amount (" +:+ Z_string confirmed +:+ ") != requested amount (" +:+ Z_string requested +:+ ")"
         else what +:+ " reported ambiguous settlement outcome"));
  mret {| sm_id := id; sm_row := row; sm_replayed := false |}.

(** A valid confirmation: journal, receipt voucher and the settled row. *)
Definition book_settlement (tenantId actorId id code tender provider skey : string) (dto : ConfirmSettlementDto) (existing : option SettlementRow)
    (requested confirmed settled : Z) (uuid : string -> string) (now : Z) : tx SettlementResult :=
  account ← money_account tenantId (cf_method dto) (cf_account dto) (cf_branch dto) uuid now;
  let debitGl := match account with Some (_, a) => ca_gl a | None => resolveDebitGlForMethod (cf_method dto) end in
  journal ← postJournalInTx tenantId {| pj_type := "PAYMENT_SETTLEMENT"; pj_sourceType := "PAYMENT_SETTLEMENT"; pj_sourceId := id;
    pj_key := Some ("stl-jnl:" +:+ skey); pj_branch := cf_branch dto;
    pj_description := Some ("Payment settlement " +:+ code +:+ " (" +:+ cf_method dto +:+ ") for order " +:+ cf_order dto); pj_postedBy := actorId;
    pj_reversalOf := None;
    pj_lines := [order_line debitGl true settled (cf_branch dto) (cf_order dto) ("Settlement " +:+ code +:+ " (" +:+ cf_method dto +:+ ")");
                 order_line GL.SALES_REVENUE_CLEARING false settled (cf_branch dto) (cf_order dto) ("Order " +:+ cf_order dto +:+ " settled revenue")] |} uuid now;
  voucher ← match account with
    | Some (k, _) =>
        v ← createAndOptionallyPostVoucherInTx tenantId (receipt_voucher dto actorId k.2 id code skey settled (po_id journal)) uuid now; mret (Some v.1)
    | None => mret None
    end;
  let row := settlement_row dto code tender provider skey existing requested confirmed settled "CONFIRMED" ST_SETTLED voucher (Some (po_id journal)) (Some now) now in
  _ ← save_settlement (bool_decide (is_Some existing)) (tenantId, id) row;
  _ ← match existing with
      | Some s => if bool_decide (st_status s = ST_RECONCILIATION_REQUIRED)
                  then resolve_issues tenantId "PAYMENT_SETTLEMENT" id ("Resolved by verified settlement confirmation (" +:+ code +:+ ")") actorId now
                  else mret tt
      | None => mret tt
      end;
  _ ← outbox_add (SettlementConfirmed id row now);
  mret {| sm_id := id; sm_row := row; sm_replayed := false |}.

(** A confirmation of a tender that is not settled yet. *)
Definition settle_tender (tenantId actorId tender provider skey : string) (dto : ConfirmSettlementDto) (existing : option (key * SettlementRow))
    (uuid : string -> string) (now : Z) : tx SettlementResult :=
  requested ← vnd (cf_requested dto) false false;
  confirmed ← amount_or (cf_confirmed dto) requested;
  settled ← amount_or (cf_settled dto) confirmed;
  let mismatch := negb (requested =? confirmed) || (confirmed <=? 0) in
  code ← match existing with Some (_, s) => mret (st_code s) | None => nextFinanceDocumentCode tenantId "STL" end;
  let id := match existing with Some (k, _) => k.2 | None => fresh uuid "settlement" end in
  let old := snd <$> existing in
  if cf_ambiguous dto || mismatch then hold_settlement tenantId id code tender provider skey dto old requested confirmed mismatch uuid now
  else book_settlement tenantId actorId id code tender provider skey dto old requested confirmed settled uuid now.

Definition confirmSettlementInTx (tenantId actorId : string) (keyHeader : option string) (dto : ConfirmSettlementDto) (uuid : string -> string) (now : Z)
    : tx SettlementResult :=
  let tender := trim (default ("tender:" +:+ cf_order dto +:+ ":" +:+ cf_method dto) (cf_tender dto)) in
  let provider := toUpperCase (trim (default "INTERNAL_POS" (cf_provider dto))) in
  let skey := toLowerCase (trim (default ("stl:" +:+ cf_order dto +:+ ":" +:+ tender) (coalesce keyHeader (cf_key dto)))) in
  byKey ← find_settlement (fun k s => String.eqb k.1 tenantId && String.eqb (st_key s) skey);
  match byKey with
  | Some (k, s) => mret {| sm_id := k.2; sm_row := s; sm_replayed := true |}
  | None =>
      byExternal ← match given (cf_external dto) with
        | Some x => find_settlement (fun k s => String.eqb k.1 tenantId && String.eqb (st_provider s) provider && bool_decide (st_external s = Some (trim x)))
        | None => mret None
        end;
      match byExternal with
      | Some (k, s) => mret {| sm_id := k.2; sm_row := s; sm_replayed := true |}
      | None =>
          byTender ← find_settlement (fun k s => String.eqb k.1 tenantId && String.eqb (st_order s) (as_uuid (cf_order dto)) && String.eqb (st_tender s) tender);
          match byTender with
          | Some (k, s) => if bool_decide (st_status s = ST_SETTLED) then mret {| sm_id := k.2; sm_row := s; sm_replayed := true |}
                           else settle_tender tenantId actorId tender provider skey dto byTender uuid now
          | None => settle_tender tenantId actorId tender provider skey dto None uuid now
          end
      end
  end.

Definition confirmSettlement (tenantId actorId : string) (keyHeader : option string) (dto : ConfirmSettlementDto) (uuid : string -> string) (now : Z)
    : tx SettlementResult := confirmSettlementInTx tenantId actorId keyHeader dto uuid now.

Record ProviderWebhookCallbackDto := {
  wh_provider : string; wh_external : string; wh_order : string; wh_checkout : option string; wh_branch : option string; wh_tender : option string;
  wh_method : option string; wh_confirmed : Z; wh_requested : option Z; wh_status : option string; wh_account : option string; wh_key : option string }.

Definition processProviderCallback (tenantId actorId : string) (keyHeader : option string) (dto : ProviderWebhookCallbackDto) (uuid : string -> string) (now : Z)
    : tx SettlementResult :=
  let ref := wh_provider dto +:+ ":" +:+ wh_external dto in
  confirmSettlement tenantId actorId (coalesce (coalesce keyHeader (wh_key dto)) (Some ("webhook:" +:+ ref)))
    {| cf_order := wh_order dto; cf_checkout := wh_checkout dto; cf_branch := wh_branch dto; cf_shift := None; cf_tender := Some (default ref (wh_tender dto));
       cf_method := default "EWALLET" (wh_method dto); cf_provider := Some (wh_provider dto); cf_external := Some (wh_external dto);
       cf_requested := default (wh_confirmed dto) (wh_requested dto); cf_confirmed := Some (wh_confirmed dto); cf_settled := Some (wh_confirmed dto);
       cf_account := wh_account dto;
       cf_ambiguous := match wh_status dto with Some s => existsb (String.eqb s) ["AMBIGUOUS"; "PENDING"; "FAILED"] | None => false end;
       cf_key := coalesce (wh_key dto) (Some ("webhook:" +:+ ref)) |} uuid now.

(** *** Events from sales *)

Record OrderCompletedPayload := {
  oc_order : option string; oc_branch : option string; oc_method : option string; oc_grandTotal : option number; oc_total : option number }.

(** A settlement that an event reports, all amounts the same. *)
Definition event_settlement (tenantId actor ekey order : string) (checkout branch shift : option string) (tender method provider : string)
    (external : option string) (amount : Z) (uuid : string -> string) (now : Z) : tx unit :=
  _ ← confirmSettlement tenantId actor (Some ekey)
    {| cf_order := order; cf_checkout := checkout; cf_branch := branch; cf_shift := shift; cf_tender := Some tender; cf_method := method;
       cf_provider := Some provider; cf_external := external; cf_requested := amount; cf_confirmed := Some amount; cf_settled := Some amount;
       cf_account := None; cf_ambiguous := false; cf_key := Some ekey |} uuid now;
  mret tt.

Definition on_credit (method : string) : bool := String.eqb method "ON_ACCOUNT" || String.eqb method "COD".
Definition pos_method (method : string) : string := if cash_method method then method else "CASH".

Definition onSalesOrderCompleted (tenantId : string) (payload : OrderCompletedPayload) (uuid : string -> string) (now : Z) : tx unit :=
  match given (Some tenantId), given (oc_order payload) with
  | Some _, Some order =>
      let method := toUpperCase (default "CASH" (oc_method payload)) in
      if on_credit method then mret tt
      else
        amount ← event_amount (default (int 0) (coalesce (oc_grandTotal payload) (oc_total payload)));
        match amount with
        | None => mret tt
        | Some z => event_settlement tenantId "event:sales.order.completed" ("evt:stl:order:" +:+ order) order None (oc_branch payload) None
                      ("order:" +:+ order) (pos_method method) "INTERNAL_POS" None z uuid now
        end
  | _, _ => mret tt
  end.

Record TenderRecordedPayload := {
  tr_tender : option string; tr_order : option string; tr_branch : option string; tr_shift : option string; tr_method : option string;
  tr_provider : option string; tr_external : option string; tr_amount : number }.

Definition onSalesTenderRecorded (tenantId : string) (payload : TenderRecordedPayload) (uuid : string -> string) (now : Z) : tx unit :=
  match given (Some tenantId), given (tr_order payload), given (tr_tender payload) with
  | Some _, Some order, Some tender =>
      let method := toUpperCase (default "CASH" (tr_method payload)) in
      if on_credit method then mret tt
      else
        amount ← event_amount (tr_amount payload);
        match amount with
        | None => mret tt
        | Some z => event_settlement tenantId "event:sales.tender.recorded" ("evt:stl:tender:" +:+ tender) order None (tr_branch payload) (tr_shift payload)
                      tender (pos_method method) (default "INTERNAL_POS" (tr_provider payload)) (tr_external payload) z uuid now
        end
  | _, _, _ => mret tt
  end.

Record PaymentConfirmedPayload := {
  pc_payment : option string; pc_order : option string; pc_checkout : option string; pc_branch : option string; pc_method : option string;
  pc_provider : option string; pc_external : option string; pc_amount : number }.

Definition onSalesPaymentConfirmed (tenantId : string) (payload : PaymentConfirmedPayload) (uuid : string -> string) (now : Z) : tx unit :=
  match given (Some tenantId), given (pc_order payload), given (pc_payment payload) with
  | Some _, Some order, Some payment =>
      amount ← event_amount (pc_amount payload);
      match amount with
      | None => mret tt
      | Some z => event_settlement tenantId "event:sales.payment.confirmed" ("evt:stl:pay:" +:+ payment) order (pc_checkout payload) (pc_branch payload) None
                    payment (default "EWALLET" (pc_method payload)) (default "GATEWAY" (pc_provider payload)) (pc_external payload) z uuid now
      end
  | _, _, _ => mret tt
  end.
