(* ===== verification/Refunds.v ===== *)
(** * Finance service: refunds

    apps/finance/src/modules/refunds/refunds.service.ts: request, approval, execution
    and outcome of a refund, and the event that asks for one. *)

From S2P Require Import Prelude Transaction JsNumber JsString FinanceDomain FinanceLedger SupplierDebt Settlements.

Open Scope Z_scope.

(** ** Statements *)

(** CHK_refund_operations_amount; the unique keys: code, idempotency key, provider key. *)
Definition refund_clash (k : key) (r : RefundRow) (k' : key) (r' : RefundRow) : bool :=
  String.eqb k'.1 k.1 && (String.eqb (rf_code r') (rf_code r) || String.eqb (rf_key r') (rf_key r) || String.eqb (rf_providerKey r') (rf_providerKey r)).

Definition insert_refund (k : key) (r : RefundRow) : tx unit :=
  clash ← gets (fun d => taken k (refunds (trade d)) || bool_decide (is_Some (first (refund_clash k r) (refunds (trade d)))));
  if (clash : bool) || negb (0 <? rf_amount r) then query_failed else modify (set_refund k r).

Definition read_refund (r : RefundRow) : tx RefundRow := _ ← toMoney (rf_amount r); mret r.

Definition find_refund (tenantId id : string) : tx RefundRow :=
  found ← gets (fun d : db => refunds (trade d) !! (tenantId, id));
  match found with Some r => read_refund r | None => rule REFUND_NOT_FOUND 404 end.

(** The settlements of an order, oldest first, or the named one of them (an id is
    never the empty string). *)
Definition order_settlements (tenantId order : string) (settlement : option string) (m : gmap key SettlementRow) : list (key * SettlementRow) :=
  sort_by (fun a b : key * SettlementRow => st_createdAt a.2 - st_createdAt b.2)
    (List.filter (fun e : key * SettlementRow => String.eqb e.1.1 tenantId && String.eqb (st_order e.2) order &&
       match settlement with Some i => String.eqb e.1.2 i | None => true end) (map_to_list m)).

Definition read_settlement_row (u : unit) (e : key * SettlementRow) : tx unit := _ ← read_settlement e.2; mret tt.

Definition lockOrderSettlementsInTx (tenantId orderId : string) (settlementId : option string) : tx (list (key * SettlementRow)) :=
  rows ← gets (fun d => order_settlements tenantId (as_uuid orderId) (as_uuid <$> settlementId) (settlements (trade d)));
  _ ← for_each read_settlement_row tt rows;
  match rows with [] => rule REFUND_NOT_ELIGIBLE 409 | _ => mret rows end.

(** [reduce] over an amount of each row that counts. *)
Definition add_amount {A} (counts : A -> bool) (amount : A -> Z) (sum : Z) (x : A) : tx Z :=
  if counts x then z ← vnd (amount x) true false; mret (plus sum z) else mret sum.

(** ** Completion *)

Definition with_refunded (s : SettlementRow) (z : Z) : SettlementRow :=
  {| st_code := st_code s; st_order := st_order s; st_checkout := st_checkout s; st_branch := st_branch s; st_shift := st_shift s; st_tender := st_tender s;
     st_method := st_method s; st_provider := st_provider s; st_external := st_external s; st_requested := st_requested s; st_confirmed := st_confirmed s;
     st_settled := st_settled s; st_refunded := z; st_providerStatus := st_providerStatus s; st_status := st_status s; st_voucher := st_voucher s;
     st_journal := st_journal s; st_key := st_key s; st_settledAt := st_settledAt s; st_createdAt := st_createdAt s |}.

(** What is left to refund goes to the settlements in order. *)
Definition refund_step (remaining : Z) (e : key * SettlementRow) : tx Z :=
  if remaining <=? 0 then mret remaining
  else
    settled ← vnd (st_settled e.2) true false;
    refunded ← vnd (st_refunded e.2) true false;
    let available := minus settled refunded in
    if available <=? 0 then mret remaining
    else
      let delta := if remaining <=? available then remaining else available in
      _ ← save_settlement true e.1 (with_refunded e.2 (plus refunded delta));
      mret (minus remaining delta).

Definition refund_gl (method : string) (account : option (key * CashAccountRow)) : string :=
  match account with
  | Some (_, a) => ca_gl a
  | None => if String.eqb method "CUSTOMER_CREDIT" then GL.ACCOUNTS_RECEIVABLE else if String.eqb method "CASH" then GL.CASH_ON_HAND else GL.CASH_AT_BANK
  end.

Definition refund_voucher (id actor account : string) (r : RefundRow) (journal : string) : VoucherInput :=
  {| vi_actor := actor; vi_direction := EXPENSE; vi_account := account; vi_categoryId := None; vi_categoryCode := Some "CUSTOMER_REFUND";
     vi_amount := rf_amount r; vi_branch := rf_branch r; vi_shift := rf_shift r; vi_type := Some "CUSTOMER_REFUND"; vi_sourceType := Some "REFUND_OPERATION";
     vi_sourceId := Some id; vi_partyType := None; vi_partyId := None;
     vi_description := Some ("Customer refund " +:+ rf_code r +:+ " for order " +:+ rf_order r); vi_refDoc := Some (rf_code r); vi_autoPost := true;
     vi_key := Some ("rf-cb:" +:+ id); vi_hash := None; vi_linkedJournal := Some journal |}.

Definition with_outcome (r : RefundRow) (status : RefundStatus) (account external voucher journal failure approvedBy executedBy : option string)
    (approvedAt executedAt completedAt : option Z) : RefundRow :=
  {| rf_code := rf_code r; rf_request := rf_request r; rf_return := rf_return r; rf_order := rf_order r; rf_settlement := rf_settlement r;
     rf_branch := rf_branch r; rf_shift := rf_shift r; rf_account := account; rf_amount := rf_amount r; rf_method := rf_method r; rf_status := status;
     rf_provider := rf_provider r; rf_providerKey := rf_providerKey r; rf_external := external; rf_voucher := voucher; rf_journal := journal;
     rf_key := rf_key r; rf_hash := rf_hash r; rf_failure := failure; rf_requestedBy := rf_requestedBy r; rf_approvedBy := approvedBy;
     rf_executedBy := executedBy; rf_approvedAt := approvedAt; rf_executedAt := executedAt; rf_completedAt := completedAt; rf_createdAt := rf_createdAt r |}.

(** The same refund in another state. *)
Definition with_status (r : RefundRow) (status : RefundStatus) (failure approvedBy executedBy : option string) (approvedAt executedAt : option Z) : RefundRow :=
  with_outcome r status (rf_account r) (rf_external r) (rf_voucher r) (rf_journal r) failure approvedBy executedBy approvedAt executedAt (rf_completedAt r).

Definition finalizeRefundCompletionInTx (tenantId actorId id : string) (r : RefundRow) (optAccount optExternal : option string) (uuid : string -> string) (now : Z)
    : tx RefundRow :=
  rows ← lockOrderSettlementsInTx tenantId (rf_order r) (rf_settlement r);
  amount ← vnd (rf_amount r) false false;
  paid ← for_each (add_amount (fun _ => true) (fun e : key * SettlementRow => st_settled e.2)) 0 rows;
  refunded ← for_each (add_amount (fun _ => true) (fun e : key * SettlementRow => st_refunded e.2)) 0 rows;
  _ ← domain (validateRefundAllocation {| ri_originalPaidAmount := int paid; ri_alreadyRefundedAmount := int refunded; ri_requestedRefundAmount := int (rf_amount r) |});
  _ ← for_each refund_step amount rows;
  account ← money_account tenantId (rf_method r) (coalesce optAccount (rf_account r)) (rf_branch r) uuid now;
  journal ← postJournalInTx tenantId {| pj_type := "REFUND"; pj_sourceType := "REFUND_OPERATION"; pj_sourceId := id; pj_key := Some ("rf-jnl:" +:+ id);
    pj_branch := rf_branch r; pj_description := Some ("Refund " +:+ rf_code r +:+ " (" +:+ rf_method r +:+ ") for order " +:+ rf_order r); pj_postedBy := actorId;
    pj_reversalOf := None;
    pj_lines := [order_line GL.SALES_RETURN_REFUND true (rf_amount r) (rf_branch r) (rf_order r) ("Sales return refund " +:+ rf_code r);
                 order_line (refund_gl (rf_method r) account) false (rf_amount r) (rf_branch r) (rf_order r)
                   ("Refund payout (" +:+ rf_method r +:+ ") " +:+ rf_code r)] |} uuid now;
  voucher ← match account with
    | Some (k, _) => v ← createAndOptionallyPostVoucherInTx tenantId (refund_voucher id actorId k.2 r (po_id journal)) uuid now; mret (Some v.1)
    | None => mret None
    end;
  let row := with_outcome r RF_COMPLETED (coalesce ((fun a : key * CashAccountRow => a.1.2) <$> account) (rf_account r)) (coalesce optExternal (rf_external r))
    voucher (Some (po_id journal)) None (rf_approvedBy r) (rf_executedBy r) (rf_approvedAt r) (rf_executedAt r) (Some now) in
  _ ← modify (set_refund (tenantId, id) row);
  _ ← resolve_issues tenantId "REFUND_OPERATION" id ("Refund " +:+ rf_code r +:+ " confirmed COMPLETED") actorId now;
  _ ← outbox_add (RefundChanged true id row now);
  mret row.

(** ** Execution *)

Record ExecuteRefundDto := { ed_account : option string; ed_external : option string; ed_timeout : bool; ed_reconcile : bool }.

Definition timed_out : string := "External payment provider timed out; awaiting reconciliation confirmation".

(** The provider did not answer: the refund waits, an issue is opened. *)
Definition suspend_refund (tenantId id : string) (r : RefundRow) (reconcile : bool) (uuid : string -> string) (now : Z) : tx RefundRow :=
  let row := with_status r (if reconcile then RF_RECONCILIATION_REQUIRED else RF_PENDING_CONFIRMATION) (Some timed_out) (rf_approvedBy r) (rf_executedBy r)
    (rf_approvedAt r) (rf_executedAt r) in
  _ ← modify (set_refund (tenantId, id) row);
  _ ← insert_issue (tenantId, fresh uuid "issue") (new_issue "REFUND_PROVIDER_TIMEOUT" "REFUND_OPERATION" id (rf_amount row) 0 (rf_amount row)
        ("Refund " +:+ rf_code row +:+ " timed out with provider " +:+ rf_provider row +:+ " (providerIdempotencyKey=" +:+ rf_providerKey row +:+ ")"));
  _ ← outbox_add (RefundChanged false id row now);
  mret row.

Definition executeRefundInTx (tenantId actorId refundId : string) (dto : ExecuteRefundDto) (uuid : string -> string) (now : Z) : tx RefundRow :=
  let id := as_uuid refundId in
  r ← find_refund tenantId id;
  match rf_status r with
  | RF_COMPLETED => mret r
  | RF_FAILED | RF_REJECTED => rule REFUND_INVALID_STATE 409
  | s =>
      let asked := bool_decide (s = RF_REQUESTED) in
      let r' := with_status r s (rf_failure r) (if asked then Some actorId else rf_approvedBy r) (Some actorId) (if asked then Some now else rf_approvedAt r)
        (Some now) in
      if ed_timeout dto then suspend_refund tenantId id r' (ed_reconcile dto) uuid now
      else finalizeRefundCompletionInTx tenantId actorId id r' (ed_account dto) (ed_external dto) uuid now
  end.

Definition executeRefund (tenantId refundId actorId : string) (dto : ExecuteRefundDto) (uuid : string -> string) (now : Z) : tx RefundRow :=
  executeRefundInTx tenantId actorId refundId dto uuid now.

Definition approveRefund (tenantId refundId actorId : string) (now : Z) : tx RefundRow :=
  let id := as_uuid refundId in
  r ← find_refund tenantId id;
  match rf_status r with
  | RF_APPROVED => mret r
  | RF_REQUESTED =>
      let row := with_status r RF_APPROVED (rf_failure r) (Some actorId) (rf_executedBy r) (Some now) (rf_executedAt r) in
      _ ← modify (set_refund (tenantId, id) row);
      mret row
  | _ => rule REFUND_INVALID_STATE 409
  end.

Inductive RefundOutcome := OUT_COMPLETED | OUT_FAILED | OUT_RECONCILIATION_REQUIRED.
#[export] Instance RefundOutcome_eq_dec : EqDecision RefundOutcome.
Proof. solve_decision. Defined.

Record ConfirmRefundOutcomeDto := { co_outcome : RefundOutcome; co_external : option string; co_cashAccount : option string; co_failure : option string }.

Definition confirmRefundOutcome (tenantId refundId actorId : string) (dto : ConfirmRefundOutcomeDto) (uuid : string -> string) (now : Z) : tx RefundRow :=
  let id := as_uuid refundId in
  r ← find_refund tenantId id;
  let status_only s failure := with_status r s (Some failure) (rf_approvedBy r) (rf_executedBy r) (rf_approvedAt r) (rf_executedAt r) in
  match co_outcome dto with
  | OUT_COMPLETED =>
      if bool_decide (rf_status r = RF_COMPLETED) then mret r
      else finalizeRefundCompletionInTx tenantId actorId id r (co_cashAccount dto) (co_external dto) uuid now
  | OUT_FAILED =>
      let failure := default "Confirmed failed by payment provider" (co_failure dto) in
      let row := status_only RF_FAILED failure in
      _ ← modify (set_refund (tenantId, id) row);
      _ ← resolve_issues tenantId "REFUND_OPERATION" id ("Provider confirmed refund failed: " +:+ failure) actorId now;
      mret row
  | OUT_RECONCILIATION_REQUIRED =>
      let row := status_only RF_RECONCILIATION_REQUIRED (default "Escalated to manual reconciliation" (co_failure dto)) in
      _ ← modify (set_refund (tenantId, id) row);
      mret row
  end.

(** ** Request *)

Record CreateRefundDto := {
  rd_order : string; rd_request : option string; rd_return : option string; rd_settlement : option string; rd_branch : option string; rd_shift : option string;
  rd_account : option string; rd_method : string; rd_provider : option string; rd_amount : Z; rd_autoApprove : bool; rd_autoExecute : bool; rd_key : option string }.

(** What the request hash covers. *)
Record RefundDigest := { fd_order : string; fd_return : option string; fd_method : string; fd_amount : Z }.

Record RefundResult := { rs_id : string; rs_row : RefundRow; rs_replayed : bool }.

Definition read_refund_row (u : unit) (e : key * RefundRow) : tx unit := _ ← read_refund e.2; mret tt.

(** A refund that still counts against the order. *)
Definition active_refund (e : key * RefundRow) : bool := match rf_status e.2 with RF_FAILED | RF_REJECTED => false | _ => true end.

Definition new_refund (tenantId actorId cleanKey hash code : string) (amount : Z) (target : key * SettlementRow) (dto : CreateRefundDto) (now : Z) : RefundRow :=
  let approved := rd_autoApprove dto || rd_autoExecute dto in
  {| rf_code := code; rf_request := as_uuid <$> rd_request dto; rf_return := as_uuid <$> rd_return dto; rf_order := as_uuid (rd_order dto);
     rf_settlement := Some target.1.2; rf_branch := coalesce (as_uuid <$> rd_branch dto) (st_branch target.2);
     rf_shift := coalesce (as_uuid <$> rd_shift dto) (st_shift target.2); rf_account := as_uuid <$> rd_account dto; rf_amount := amount;
     rf_method := rd_method dto; rf_status := if approved then RF_APPROVED else RF_REQUESTED;
     rf_provider := default (if String.eqb (rd_method dto) "CASH" then "MANUAL_CASH" else st_provider target.2) (rd_provider dto);
     rf_providerKey := "rf-prov:" +:+ tenantId +:+ ":" +:+ code; rf_external := None; rf_voucher := None; rf_journal := None; rf_key := cleanKey;
     rf_hash := hash; rf_failure := None; rf_requestedBy := actorId; rf_approvedBy := if approved then Some actorId else None; rf_executedBy := None;
     rf_approvedAt := if approved then Some now else None; rf_executedAt := None; rf_completedAt := None; rf_createdAt := now |}.

(** A refund that the key and the sales request have not made yet. *)
Definition request_refund (tenantId actorId cleanKey hash : string) (amount : Z) (dto : CreateRefundDto) (uuid : string -> string) (now : Z) : tx RefundResult :=
  rows ← lockOrderSettlementsInTx tenantId (rd_order dto) (rd_settlement dto);
  paid ← for_each (add_amount (fun e : key * SettlementRow => bool_decide (st_status e.2 = ST_SETTLED)) (fun e => st_settled e.2)) 0 rows;
  if paid <=? 0 then rule REFUND_NOT_ELIGIBLE 409
  else
    earlier ← gets (fun d => List.filter (fun e : key * RefundRow => String.eqb e.1.1 tenantId && String.eqb (rf_order e.2) (as_uuid (rd_order dto)))
      (map_to_list (refunds (trade d))));
    _ ← for_each read_refund_row tt earlier;
    active ← for_each (add_amount active_refund (fun e => rf_amount e.2)) 0 earlier;
    _ ← domain (validateRefundAllocation {| ri_originalPaidAmount := int paid; ri_alreadyRefundedAmount := int active; ri_requestedRefundAmount := int amount |});
    code ← nextFinanceDocumentCode tenantId "RFD";
    match rows with
    | [] => type_error
    | target :: _ =>
        let id := fresh uuid "refund" in
        let row := new_refund tenantId actorId cleanKey hash code amount target dto now in
        _ ← insert_refund (tenantId, id) row;
        row ← (if rd_autoExecute dto
               then executeRefundInTx tenantId actorId id {| ed_account := rd_account dto; ed_external := None; ed_timeout := false; ed_reconcile := false |} uuid now
               else mret row);
        mret {| rs_id := id; rs_row := row; rs_replayed := false |}
    end.

Section Requests.
Context (sha256 : RefundDigest -> string).

Definition createRefundInTx (tenantId actorId : string) (keyHeader : option string) (dto : CreateRefundDto) (uuid : string -> string) (now : Z) : tx RefundResult :=
  amount ← vnd (rd_amount dto) false false;
  let own := match given (rd_request dto) with
    | Some q => "rf:srr:" +:+ q
    | None => "rf:" +:+ rd_order dto +:+ ":" +:+ default (uuid "refund-key") (rd_return dto)
    end in
  let cleanKey := toLowerCase (trim (default own (coalesce keyHeader (rd_key dto)))) in
  let hash := sha256 {| fd_order := rd_order dto; fd_return := rd_return dto; fd_method := rd_method dto; fd_amount := amount |} in
  existing ← gets (fun d => first (fun k r => String.eqb k.1 tenantId &&
    (String.eqb (rf_key r) cleanKey || match given (rd_request dto) with Some q => bool_decide (rf_request r = Some (as_uuid q)) | None => false end))
    (refunds (trade d)));
  match existing with
  | Some (k, r) =>
      r ← read_refund r;
      if truthy (Some (rf_hash r)) && negb (String.eqb (rf_hash r) hash) then rule IDEMPOTENCY_CONFLICT 409
      else mret {| rs_id := k.2; rs_row := r; rs_replayed := true |}
  | None => request_refund tenantId actorId cleanKey hash amount dto uuid now
  end.

Definition createRefund (tenantId actorId : string) (keyHeader : option string) (dto : CreateRefundDto) (uuid : string -> string) (now : Z) : tx RefundResult :=
  createRefundInTx tenantId actorId keyHeader dto uuid now.

(** *** The event from sales *)

Record SalesRefundRequestedPayload := {
  rq_request : option string; rq_return : option string; rq_order : option string; rq_branch : option string; rq_amount : Z; rq_method : option string }.

Definition refund_method (m : string) : string := if cash_method m || String.eqb m "CUSTOMER_CREDIT" then m else "CASH".

Definition onSalesRefundRequested (tenantId : string) (payload : SalesRefundRequestedPayload) (uuid : string -> string) (now : Z) : tx unit :=
  match given (Some tenantId), given (rq_order payload) with
  | Some _, Some order =>
      if rq_amount payload =? 0 then mret tt
      else
        let method := toUpperCase (default "CASH" (rq_method payload)) in
        let ekey := "evt:rf:" +:+ default (default order (rq_return payload)) (rq_request payload) in
        _ ← createRefund tenantId "event:sales.refund.requested" (Some ekey)
          {| rd_order := order; rd_request := rq_request payload; rd_return := rq_return payload; rd_settlement := None; rd_branch := rq_branch payload;
             rd_shift := None; rd_account := None; rd_method := refund_method method; rd_provider := None; rd_amount := rq_amount payload; rd_autoApprove := true;
             rd_autoExecute := String.eqb method "CASH" || String.eqb method "CUSTOMER_CREDIT"; rd_key := Some ekey |} uuid now;
        mret tt
  | _, _ => mret tt
  end.
End Requests.
