(* ===== verification/FinanceLedgerBooks.v ===== *)
(** * The books of the ledger and the cashbook

    What every request to the journal, cash account and cashbook services keeps:
    every journal balances line by line, a reversal is the mirror of the one journal
    it names, and a cash account holds what its vouchers say. *)

From S2P Require Import Prelude Transaction JsNumber JsString FinanceDomain FinanceLedger.

Open Scope Z_scope.

(** ** Runs that succeed *)

Ltac inv_fin_step :=
  first [ inv_txn
  | match goal with
    | H : outbox_add _ _ = Ok _ |- _ => apply modify_Ok in H
    | H : domain _ _ = Ok (_, _) |- _ => apply embed_Ok in H as [H ?]
    | H : rule _ _ _ = Ok _ |- _ => discriminate H
    | H : query_failed _ = Ok _ |- _ => discriminate H
    end ].
Ltac inv_fin := repeat (inv_fin_step; try subst).

Section Reads.
Lemma money_Ok z d r : toMoney z d = Ok r -> r = (z, d) /\ Z.abs z <= MAX_SAFE_INTEGER.
Proof. unfold toMoney. destruct (Z.leb_spec (Z.abs z) MAX_SAFE_INTEGER); [|done]. by intros ->%tx_ret_Ok. Qed.

Lemma vnd_Ok z az an d n d' : vnd z az an d = Ok (n, d') ->
  n = z /\ d' = d /\ Z.abs z <= MAX_SAFE_INTEGER /\ (an = false -> 0 <= z) /\ (az = false -> z <> 0).
Proof. unfold vnd. intros H. inv_fin. apply parseVnd_num in Ha as (w & [= ->] & -> & Hw). by destruct Hw as (? & ? & ?). Qed.

Lemma read_line_Ok l d u d' : read_line tt l d = Ok (u, d') -> d' = d /\ Z.abs (ln_debit l) <= MAX_SAFE_INTEGER /\ Z.abs (ln_credit l) <= MAX_SAFE_INTEGER.
Proof.
  unfold read_line. intros H. inv_fin. repeat match goal with H' : toMoney _ _ = Ok _ |- _ => apply money_Ok in H' as [[= -> ->] ?] end. done.
Qed.

Lemma read_lines_Ok ls d u d' : for_each read_line tt ls d = Ok (u, d') -> d' = d.
Proof. revert d. induction ls as [|l ls IH]; intros d H; cbn in H; inv_fin; [done|]. destruct a. apply read_line_Ok in Ha as [-> _]. by apply IH. Qed.

Lemma read_journal_Ok j d r d' : read_journal j d = Ok (r, d') -> r = j /\ d' = d /\ Z.abs (j_debit j) <= MAX_SAFE_INTEGER.
Proof.
  unfold read_journal. intros H. inv_fin. repeat match goal with H' : toMoney _ _ = Ok _ |- _ => apply money_Ok in H' as [[= -> ->] ?] end. done.
Qed.

Lemma read_cash_account_Ok a d r d' : read_cash_account a d = Ok (r, d') -> r = a /\ d' = d /\ Z.abs (ca_balance a) <= MAX_SAFE_INTEGER.
Proof. unfold read_cash_account. intros H. inv_fin. by apply money_Ok in Ha as [[= -> ->] ?]. Qed.

Lemma read_voucher_Ok v d r d' : read_voucher v d = Ok (r, d') -> r = v /\ d' = d /\ Z.abs (v_amount v) <= MAX_SAFE_INTEGER.
Proof. unfold read_voucher. intros H. inv_fin. by apply money_Ok in Ha as [[= -> ->] ?]. Qed.
End Reads.

Ltac inv_reads :=
  match goal with
  | H : toMoney _ _ = Ok _ |- _ => apply money_Ok in H as [H ?]
  | H : vnd _ _ _ _ = Ok (_, _) |- _ => apply vnd_Ok in H as (? & ? & ? & ? & ?)
  | H : for_each read_line _ _ _ = Ok (_, _) |- _ => apply read_lines_Ok in H
  | H : read_journal _ _ = Ok (_, _) |- _ => apply read_journal_Ok in H as (? & ? & ?)
  | H : read_cash_account _ _ = Ok (_, _) |- _ => apply read_cash_account_Ok in H as (? & ? & ?)
  | H : read_voucher _ _ = Ok (_, _) |- _ => apply read_voucher_Ok in H as (? & ? & ?)
  end.
Ltac inv_all := repeat ((inv_fin_step || inv_reads); try subst).

(** ** Frames: the tables a part of the service does not touch *)

Definition same_debt (d d' : db) : Prop :=
  profiles d' = profiles d /\ auths d' = auths d /\ receivables d' = receivables d /\ debt_ledger d' = debt_ledger d.
Definition same_cash (d d' : db) : Prop := cash_accounts d' = cash_accounts d /\ vouchers d' = vouchers d.
Definition same_journals (d d' : db) : Prop := journals d' = journals d.

#[export] Instance same_debt_preorder : PreOrder same_debt.
Proof. split; [by repeat split | intros d1 d2 d3 (?&?&?&?) (?&?&?&?); repeat split; congruence]. Qed.
#[export] Instance same_cash_preorder : PreOrder same_cash.
Proof. split; [by repeat split | intros d1 d2 d3 (?&?) (?&?); repeat split; congruence]. Qed.
#[export] Instance same_journals_preorder : PreOrder same_journals.
Proof. split; [done | intros d1 d2 d3 H1 H2; unfold same_journals in *; congruence]. Qed.

Ltac frame := solve_keeps_with ltac:(idtac; first [done | by repeat split | lazymatch goal with |- context [match ?x with _ => _ end] => destruct x; by repeat split end]).

Lemma postJournal_debt t input uuid now : Keeps same_debt (postJournalInTx t input uuid now).
Proof. frame. Qed.
Lemma postJournal_cash t input uuid now : Keeps same_cash (postJournalInTx t input uuid now).
Proof. frame. Qed.
#[export] Hint Resolve postJournal_debt postJournal_cash : keeps.

Lemma reverseJournal_debt t i actor reason jkey uuid now : Keeps same_debt (reverseJournalInTx t i actor reason jkey uuid now).
Proof. frame. Qed.
Lemma reverseJournal_cash t i actor reason jkey uuid now : Keeps same_cash (reverseJournalInTx t i actor reason jkey uuid now).
Proof. frame. Qed.
#[export] Hint Resolve reverseJournal_debt reverseJournal_cash : keeps.

Lemma postEntry_debt t i actor vkey linked uuid now : Keeps same_debt (postEntryInTx t i actor vkey linked uuid now).
Proof. frame. Qed.
#[export] Hint Resolve postEntry_debt : keeps.

Lemma createAndPost_debt t input uuid now : Keeps same_debt (createAndOptionallyPostVoucherInTx t input uuid now).
Proof. frame. Qed.
Lemma ensureCashAccount_debt t branch bank uuid now : Keeps same_debt (ensureDefaultCashAccountInTx t branch bank uuid now).
Proof. frame. Qed.
Lemma ensureCashAccount_journals t branch bank uuid now : Keeps same_journals (ensureDefaultCashAccountInTx t branch bank uuid now).
Proof. frame. Qed.
#[export] Hint Resolve createAndPost_debt ensureCashAccount_debt ensureCashAccount_journals : keeps.

(** ** Text of account codes *)

Definition account_code (s : string) : string := toUpperCase (trim s).

Section Text.
Lemma ltrim_smap s : ltrim (smap to_upper s) = smap to_upper (ltrim s).
Proof.
  induction s as [|c s IH]; [done|]. cbn [smap ltrim]. assert (is_ws (to_upper c) = is_ws c) as -> by (by destruct c as [[] [] [] [] [] [] [] []]).
  destruct (is_ws c); [done|]. reflexivity.
Qed.

Lemma rtrim_smap s : rtrim (smap to_upper s) = smap to_upper (rtrim s).
Proof.
  induction s as [|c s IH]; [done|]. cbn [smap rtrim]. rewrite IH. destruct (rtrim s) as [|b t]; cbn [smap]; [|done].
  assert (is_ws (to_upper c) = is_ws c) as -> by (by destruct c as [[] [] [] [] [] [] [] []]). by destruct (is_ws c).
Qed.

Lemma rtrim_idem s : rtrim (rtrim s) = rtrim s.
Proof.
  induction s as [|c s IH]; [done|]. cbn [rtrim]. destruct (rtrim s) as [|b t] eqn:E.
  - destruct (is_ws c) eqn:Ec; cbn [rtrim]; by rewrite ?Ec.
  - change (rtrim (String c (String b t))) with (match rtrim (String b t) with "" => if is_ws c then "" else String c "" | t' => String c t' end). by rewrite IH.
Qed.

Lemma ltrim_rtrim s : ltrim s = s -> ltrim (rtrim s) = rtrim s.
Proof.
  destruct s as [|c s]; [done|]. cbn [ltrim]. destruct (is_ws c) eqn:Ec.
  - intros H. assert (Hl : (String.length (ltrim s) <= String.length s)%nat).
    { clear. induction s as [|c s IH]; [done|]. cbn [ltrim String.length]. destruct (is_ws c); cbn [String.length]; lia. }
    rewrite H in Hl. cbn in Hl. lia.
  - intros _. cbn [rtrim]. rewrite Ec. destruct (rtrim s); cbn [ltrim]; by rewrite Ec.
Qed.

Lemma ltrim_idem s : ltrim (ltrim s) = ltrim s.
Proof. induction s as [|c s IH]; [done|]. cbn [ltrim]. destruct (is_ws c) eqn:Ec; [done|]. cbn [ltrim]. by rewrite Ec. Qed.

Lemma account_code_idem s : account_code (account_code s) = account_code s.
Proof.
  unfold account_code, trim, toUpperCase. rewrite ltrim_smap, rtrim_smap, (ltrim_rtrim (ltrim s)), rtrim_idem by apply ltrim_idem.
  induction (rtrim (ltrim s)) as [|c t IH]; [done|]. cbn. rewrite IH. f_equal. by destruct c as [[] [] [] [] [] [] [] []].
Qed.
End Text.

(** ** Journals *)

(** What a line says: the account and the two sides. *)
Definition entry_of (l : LineRow) : string * Z * Z := (ln_account l, ln_debit l, ln_credit l).
Definition swap (e : string * Z * Z) : string * Z * Z := (e.1.1, e.2, e.1.2).

Record journal_ok (j : JournalRow) : Prop := {
  jo_total : 0 < j_debit j /\ j_debit j = j_credit j;
  jo_sides : Forall (fun l => check_line l = true /\ account_code (ln_account l) = ln_account l) (j_lines j);
  jo_exact : j_debit j <= MAX_SAFE_INTEGER -> total ln_debit (j_lines j) = j_debit j /\ total ln_credit (j_lines j) = j_credit j }.

Definition amount_of (v : jsval) : Z := match or_zero v with VNum n => nval n | _ => 0 end.
Definition input_entry (j : JournalLineInput) : string * Z * Z :=
  (account_code (default "" (ji_accountCode j)), amount_of (ji_debitAmount j), amount_of (ji_creditAmount j)).

Lemma validated_lines ls r : validateBalancedJournalLines ls = Ok r ->
  map (fun l => (jl_accountCode l, nval (jl_debitAmount l), nval (jl_creditAmount l))) (jr_lines r) = map input_entry ls /\
  Forall (fun l => account_code (jl_accountCode l) = jl_accountCode l) (jr_lines r).
Proof.
  unfold validateBalancedJournalLines. intros H. case_if_in H; [discriminate|]. inv_ok. case_if_in H; [discriminate|]. inv_ok. cbn [jr_lines]. revert Ha.
  apply (foldM_ind (fun ls t => map (fun l => (jl_accountCode l, nval (jl_debitAmount l), nval (jl_creditAmount l))) (jt_lines t) = map input_entry ls /\
    Forall (fun l => account_code (jl_accountCode l) = jl_accountCode l) (jt_lines t))); [|done].
  intros done j s s' [I1 I2] Hs. unfold journal_step in Hs. inv_ok. cbn [jt_lines]. rewrite !List.map_app, I1.
  pose proof (journal_line_Ok _ _ _ Ha) as (x & c & _ & _ & Ed & Ec & Od & Oc & _). unfold journal_line in Ha. case_if_in Ha; [discriminate|]. inv_ok.
  case_if_in Ha; [discriminate|]. inv_ok. cbn in Ed, Ec. subst. cbn [map jl_accountCode jl_debitAmount jl_creditAmount]. split.
  - f_equal. f_equal. unfold input_entry, amount_of. by rewrite Od, Oc.
  - apply Forall_app. split; [done|]. constructor; [|done]. cbn. apply account_code_idem.
Qed.

(** A total that is stored as a positive safe number is the exact sum. *)
Lemma validated_safe ls r : validateBalancedJournalLines ls = Ok r -> 0 < nval (jr_totalDebit r) <= MAX_SAFE_INTEGER -> isSafeInteger (jr_totalDebit r) = true.
Proof.
  unfold validateBalancedJournalLines. intros H. case_if_in H; [discriminate|]. inv_ok. case_if_in H; [discriminate|]. inv_ok. cbn [jr_totalDebit].
  apply journal_loop in Ha as (_ & [[Hq Hb] | [[Hq | (m & Hq & Hm)] Hb]] & _); rewrite Hq; unfold MAX_SAFE_INTEGER; intros Hz; [| cbn in Hz; lia | cbn in Hz; lia].
  rewrite isSafeInteger_int. apply Z.leb_le. unfold MAX_SAFE_INTEGER. lia.
Qed.

Lemma line_totals m t st si desc ls : total ln_debit (map (line_row m t st si desc) ls) = total (fun l => nval (jl_debitAmount l)) ls /\
  total ln_credit (map (line_row m t st si desc) ls) = total (fun l => nval (jl_creditAmount l)) ls.
Proof. unfold total. rewrite !map_map. done. Qed.

Lemma validated_amounts ls r : validateBalancedJournalLines ls = Ok r -> isSafeInteger (jr_totalDebit r) = true ->
  total (fun l => nval (jl_debitAmount l)) (jr_lines r) = nval (jr_totalDebit r) /\ total (fun l => nval (jl_creditAmount l)) (jr_lines r) = nval (jr_totalCredit r).
Proof.
  intros H Hs. destruct (validated_journal _ _ H Hs) as (_ & Hlen & Hl & _ & _ & -> & ->). cbn. unfold debits, credits.
  split; apply sumZ_map_ext; intros l (i & Hi)%list_elem_of_lookup_1; (destruct (lookup_lt_is_Some_2 ls i) as [j Hj];
    [rewrite <- Hlen; by eapply lookup_lt_Some|]); destruct (Hl i j l Hj Hi) as (x & c & E1 & E2 & E3 & E4 & _); by rewrite ?E1, ?E2, ?E3, ?E4.
Qed.

Lemma taken_none {A} (k : key) (m : gmap key A) : taken k m = false -> m !! k = None.
Proof.
  unfold taken. intros H. destruct (m !! k) as [x|] eqn:E; [|done]. apply elem_of_map_to_list in E.
  apply (proj1 (existsb_false _ _) H) in E. cbn in E. by rewrite String.eqb_refl in E.
Qed.

Lemma first_Some {A} (p : key -> A -> bool) (m : gmap key A) k x : first p m = Some (k, x) -> m !! k = Some x /\ p k x = true.
Proof. unfold first. intros [H1 H2]%find_some. split; [|done]. by apply elem_of_map_to_list, list_elem_of_In. Qed.

Lemma first_None {A} (p : key -> A -> bool) (m : gmap key A) k x : first p m = None -> m !! k = Some x -> p k x = false.
Proof.
  unfold first. intros H Hk%elem_of_map_to_list. apply (find_none _ _ H (k, x)). by apply list_elem_of_In.
Qed.

Lemma insert_journal_Ok k j d u d' : insert_journal k j d = Ok (u, d') ->
  d' = set_journal k j d /\ journals d !! k = None /\ check_journal j = true /\ forall k' j', journals d !! k' = Some j' -> journal_clash k j k' j' = false.
Proof.
  unfold insert_journal. intros H. inv_fin. destruct (_ || _) eqn:E in H; inv_fin. apply orb_false_iff in E as [[E1 E2]%orb_false_iff E3%negb_false_iff].
  split_and!; [done | by apply taken_none | done|]. apply bool_decide_eq_false in E2. intros k' j' Hk. eapply first_None; [|done].
  destruct (first _ _); [|done]. exfalso. by apply E2.
Qed.

Lemma usable_accounts_quiet t ls d u d' : for_each (usable_account t) tt ls d = Ok (u, d') -> d' = d.
Proof.
  revert d. induction ls as [|l ls IH]; intros d H; cbn in H; inv_fin; [done|]. unfold usable_account in Ha. inv_fin.
  destruct (accounts _ !! _) as [acc|]; [|inv_fin]. destruct (ga_active acc); inv_fin. by apply IH.
Qed.

Lemma ensure_accounts_Ok t uuid d u d' : ensureDefaultAccountsInTx t uuid d = Ok (u, d') -> exists m, d' = set_accounts m d.
Proof. intros H%modify_Ok. simplify_eq. by eexists. Qed.

(** A posting that succeeds: the journal it already made, or a new one. *)
Lemma post_cases t input uuid now d r d' : postJournalInTx t input uuid now d = Ok (r, d') ->
  (po_replayed r = true /\ d' = d /\ journals d !! (t, po_id r) = Some (po_row r)) \/
  (po_replayed r = false /\ journals d' = <[(t, po_id r) := po_row r]> (journals d) /\ journals d !! (t, po_id r) = None /\ journal_ok (po_row r) /\
   j_reversalOf (po_row r) = pj_reversalOf input /\ j_status (po_row r) = JPOSTED /\ j_reversedBy (po_row r) = None /\
   map entry_of (j_lines (po_row r)) = map input_entry (pj_lines input) /\
   forall k' j', journals d !! k' = Some j' -> journal_clash (t, po_id r) (po_row r) k' j' = false).
Proof.
  unfold postJournalInTx. cbv zeta. intros H. inv_fin. destruct (first _ _) as [[k j]|] eqn:Ef.
  - left. apply first_Some in Ef as [Hk Hp]. inv_all. destruct (_ || _) in H; inv_all. split_and!; [done..|]. cbn. destruct k as [k1 k2]. cbn.
    apply orb_true_iff in Hp as [Hp|Hp]; unfold same_source, same_journal_key in Hp; cbn in Hp;
      repeat (apply andb_true_iff in Hp as [Hp _]); apply String.eqb_eq in Hp; by subst.
  - right. inv_fin. match goal with H' : ensureDefaultAccountsInTx _ _ _ = Ok _ |- _ => apply ensure_accounts_Ok in H' as [m ->] end.
    match goal with H' : for_each (usable_account _) _ _ _ = Ok _ |- _ => apply usable_accounts_quiet in H' as -> end.
    match goal with H' : nextFinanceDocumentCode _ _ _ = Ok _ |- _ => unfold nextFinanceDocumentCode in H'; inv_fin end.
    match goal with H' : insert_journal _ _ _ = Ok _ |- _ => apply insert_journal_Ok in H' as (-> & Hn & Hc & Hcl) end. cbn in Hn, Hcl |- *.
    destruct (validated_lines _ _ Ha) as [Hl Hcodes]. split_and!; try done.
    + unfold check_journal in Hc. cbn in Hc. repeat (apply andb_true_iff in Hc as [Hc ?]). bool_prop. split; cbn; [lia| |].
      * match goal with Hf : forallb _ _ = true |- _ => rewrite forallb_forall in Hf; apply Forall_forall; intros l Hl0;
          split; [apply Hf; by apply list_elem_of_In|] end.
        apply list_elem_of_fmap in Hl0 as (w & -> & Hw). cbn. rewrite Forall_forall in Hcodes. by apply Hcodes.
      * intros Hmax. rewrite !(proj1 (line_totals _ _ _ _ _ _)), !(proj2 (line_totals _ _ _ _ _ _)).
        apply validated_amounts with (ls := pj_lines input); [done|]. eapply validated_safe; [done | lia].
    + unfold line_row. rewrite map_map. cbn. rewrite <- Hl. by apply map_ext.
Qed.

(** The journals of a database: all balance, and a reversal mirrors the one journal it
    names, which is then reversed. *)
Record journals_ok (m : gmap key JournalRow) : Prop := {
  jm_ok : forall k j, m !! k = Some j -> journal_ok j;
  jm_reversal : forall k r i, m !! k = Some r -> j_reversalOf r = Some i ->
    exists j, m !! (k.1, i) = Some j /\ j_status j = JREVERSED /\ map entry_of (j_lines r) = map swap (map entry_of (j_lines j));
  jm_once : forall k k' r r' i, m !! k = Some r -> m !! k' = Some r' -> k.1 = k'.1 -> j_reversalOf r = Some i -> j_reversalOf r' = Some i -> k = k' }.

Lemma with_reversal_ok j x : journal_ok j -> journal_ok (with_reversal j x).
Proof. intros []. by split. Qed.

Section Journals.
Implicit Types (m : gmap key JournalRow).

Lemma journals_ok_post m k row : journals_ok m -> m !! k = None -> journal_ok row -> j_reversalOf row = None -> journals_ok (<[k := row]> m).
Proof.
  intros [J1 J2 J3] Hk Hok Hr. split.
  - intros k0 j0. destruct (decide (k = k0)) as [<-|]; [rewrite lookup_insert_eq; by intros [= <-] | rewrite lookup_insert_ne by done; apply J1].
  - intros k0 r i. destruct (decide (k = k0)) as [<-|]; [rewrite lookup_insert_eq; intros [= <-]; congruence|]. rewrite lookup_insert_ne by done.
    intros H0 Hi. destruct (J2 k0 r i H0 Hi) as (j & Hj & ?). exists j. rewrite lookup_insert_ne; [done|]. intros ->. congruence.
  - intros k0 k1 r r' i. destruct (decide (k = k0)) as [<-|]; [rewrite lookup_insert_eq; intros [= <-]; congruence|]. rewrite lookup_insert_ne by done.
    destruct (decide (k = k1)) as [<-|]; [rewrite lookup_insert_eq; intros _ [= <-]; congruence|]. rewrite lookup_insert_ne by done. apply J3.
Qed.

Lemma journals_ok_mark m k j x : journals_ok m -> m !! k = Some j -> journals_ok (<[k := with_reversal j x]> m).
Proof.
  intros [J1 J2 J3] Hk.
  assert (Hl : forall k0 r, <[k := with_reversal j x]> m !! k0 = Some r -> exists r0, m !! k0 = Some r0 /\ j_reversalOf r = j_reversalOf r0 /\ j_lines r = j_lines r0).
  { intros k0 r. destruct (decide (k = k0)) as [<-|]; [rewrite lookup_insert_eq; intros [= <-]; by exists j | rewrite lookup_insert_ne by done; eauto]. }
  split.
  - intros k0 j0. destruct (decide (k = k0)) as [<-|]; [|rewrite lookup_insert_ne by done; apply J1]. rewrite lookup_insert_eq. intros [= <-].
    by apply with_reversal_ok, (J1 k).
  - intros k0 r i (r0 & H0 & E1 & E2)%Hl Hi. rewrite E1 in Hi. destruct (J2 k0 r0 i H0 Hi) as (j0 & Hj & Hs & Hm). rewrite E2.
    destruct (decide (k = (k0.1, i))) as [->|]; [|exists j0; by rewrite lookup_insert_ne]. rewrite lookup_insert_eq. eexists. split_and!; [done..|].
    rewrite Hk in Hj. injection Hj as <-. done.
  - intros k0 k1 r r' i (r0 & H0 & E0 & _)%Hl (r1 & H1 & E1 & _)%Hl Ht. rewrite E0, E1. by apply (J3 k0 k1 r0 r1 i).
Qed.

Lemma journals_ok_reverse m t i j rid row : journals_ok m -> m !! (t, i) = Some j -> m !! (t, rid) = None -> journal_ok row ->
  j_reversalOf row = Some i -> map entry_of (j_lines row) = map swap (map entry_of (j_lines j)) ->
  (forall k r, m !! k = Some r -> k.1 = t -> j_reversalOf r <> Some i) ->
  journals_ok (<[(t, i) := with_reversal j rid]> (<[(t, rid) := row]> m)).
Proof.
  intros J Hj Hn Hok Hr Hl Hno. assert (Hne : (t, rid) <> (t, i)) by congruence.
  destruct (journals_ok_mark m (t, i) j rid J Hj) as [M1 M2 M3]. rewrite insert_insert_ne by done.
  set (m' := <[(t, i) := with_reversal j rid]> m) in *. assert (Hn' : m' !! (t, rid) = None) by (unfold m'; by rewrite lookup_insert_ne).
  assert (Hno' : forall k r, m' !! k = Some r -> k.1 = t -> j_reversalOf r <> Some i).
  { intros k r. unfold m'. destruct (decide ((t, i) = k)) as [<-|]; [|rewrite lookup_insert_ne by done; apply Hno]. rewrite lookup_insert_eq.
    intros [= <-] Ht. by apply (Hno (t, i) j). }
  split.
  - intros k0 j0. destruct (decide ((t, rid) = k0)) as [<-|]; [rewrite lookup_insert_eq; by intros [= <-] | rewrite lookup_insert_ne by done; apply M1].
  - intros k0 r i0. destruct (decide ((t, rid) = k0)) as [<-|].
    + rewrite lookup_insert_eq. intros [= <-] Hi. rewrite Hr in Hi. injection Hi as <-. exists (with_reversal j rid). rewrite lookup_insert_ne by done.
      unfold m'. by rewrite lookup_insert_eq.
    + rewrite lookup_insert_ne by done. intros H0 Hi. destruct (M2 k0 r i0 H0 Hi) as (j0 & Hj0 & ?). exists j0. rewrite lookup_insert_ne; [done|]. congruence.
  - intros k0 k1 r r' i0. destruct (decide ((t, rid) = k0)) as [<-|], (decide ((t, rid) = k1)) as [<-|];
      rewrite ?lookup_insert_eq, ?lookup_insert_ne by done; [done| | |apply M3].
    + intros [= <-] H1 Ht Hi Hi'. rewrite Hr in Hi. injection Hi as <-. by destruct (Hno' k1 r').
    + intros H0 [= <-] Ht Hi Hi'. rewrite Hr in Hi'. injection Hi' as <-. by destruct (Hno' k0 r).
Qed.
End Journals.

Lemma post_journals t input uuid now d r d' : postJournalInTx t input uuid now d = Ok (r, d') -> journals_ok (journals d) ->
  pj_reversalOf input = None -> journals_ok (journals d').
Proof.
  intros Hp HJ Hr. apply post_cases in Hp as [(_ & -> & _) | (_ & -> & Hn & Hok & Hro & _)]; [done|]. apply journals_ok_post; [done..|]. congruence.
Qed.

Lemma mirror_entries id j reason ls : Forall (fun l => account_code (ln_account l) = ln_account l) ls ->
  map input_entry (map (mirror id j reason) ls) = map swap (map entry_of ls).
Proof.
  rewrite !map_map. induction ls as [|l ls IH]; intros Hf; [done|]. apply Forall_cons in Hf as [Hl Hf]. cbn [map]. rewrite IH by done. f_equal.
  change (input_entry (mirror id j reason l)) with (account_code (ln_account l), ln_credit l, ln_debit l). by rewrite Hl.
Qed.

Lemma reverse_journals t i actor reason jkey uuid now d r d' : journals_ok (journals d) ->
  reverseJournalInTx t i actor reason jkey uuid now d = Ok (r, d') -> journals_ok (journals d').
Proof.
  intros HJ. unfold reverseJournalInTx. cbv zeta. intros H. inv_fin. destruct (journals _ !! _) as [j|] eqn:Hj; inv_all.
  assert (Hpost : forall d1 po, postJournalInTx t (reversal_input t (as_uuid i) j actor reason jkey) uuid now d = Ok (po, d1) ->
    journals_ok (journals (match journals d1 !! (t, as_uuid i) with Some j => set_journal (t, as_uuid i) (with_reversal j (po_id po)) d1 | None => d1 end))).
  { intros d1 po [(_ & -> & _) | (_ & Hd & Hn & Hok & Hro & _ & _ & Hl & Hcl)]%post_cases.
    - rewrite Hj. cbn. by apply journals_ok_mark.
    - assert (Hne : (t, po_id po) <> (t, as_uuid i)) by congruence. rewrite Hd, lookup_insert_ne, Hj by done. cbn [pj_reversalOf pj_lines reversal_input set_journal journals] in *. rewrite Hd.
      apply journals_ok_reverse; try done.
      + rewrite Hl. apply mirror_entries. pose proof (jo_sides _ (jm_ok _ HJ _ _ Hj)) as Hs. eapply Forall_impl; [exact Hs|]. by intros l [_ ?].
      + intros k rr Hk Ht Hx. specialize (Hcl k rr Hk). unfold journal_clash in Hcl. cbn in Hcl. apply orb_false_iff in Hcl as [_ Hcl].
        rewrite Hro, Ht, String.eqb_refl, Hx in Hcl. by case_bool_decide. }
  destruct (j_status j), (given (j_reversedBy j)) as [by_|]; inv_all; try (by eapply Hpost).
  destruct (given jkey) as [k|]; inv_all. destruct (journals d !! (t, by_)) as [r0|]; inv_all. destruct (String.eqb _ _); by inv_all.
Qed.

(** ** Sums over a table, with the keys *)

Definition ksum {A} (f : key -> A -> Z) (m : gmap key A) : Z := total (fun e : key * A => f e.1 e.2) (map_to_list m).

Section Sums.
Context {A : Type}.
Implicit Types (f : key -> A -> Z) (m : gmap key A).

Lemma ksum_insert_new f m i x : m !! i = None -> ksum f (<[i := x]> m) = ksum f m + f i x.
Proof. intros Hi. unfold ksum. rewrite (total_perm _ _ ((i, x) :: map_to_list m)) by (by apply map_to_list_insert). unfold total. cbn. lia. Qed.

Lemma ksum_insert_old f m i x y : m !! i = Some y -> ksum f (<[i := x]> m) = ksum f m + f i x - f i y.
Proof.
  intros Hi. rewrite <- (insert_delete_eq m i x), ksum_insert_new by apply lookup_delete_eq.
  rewrite <- (insert_id m i y Hi) at 2. rewrite <- (insert_delete_eq m i y), ksum_insert_new by apply lookup_delete_eq. lia.
Qed.

Lemma ksum_zero f m : (forall k x, m !! k = Some x -> f k x = 0) -> ksum f m = 0.
Proof.
  intros H. unfold ksum, total. assert (Hl : forall e, e ∈ map_to_list m -> f e.1 e.2 = 0) by (intros [k x] He%elem_of_map_to_list; by apply H).
  induction (map_to_list m) as [|e l IH]; [done|]. cbn. rewrite (Hl e), IH; [done | | left]. intros e' He'. apply Hl. by right.
Qed.

Lemma ksum_ext f g m : (forall k x, m !! k = Some x -> f k x = g k x) -> ksum f m = ksum g m.
Proof. intros H. apply sumZ_map_ext. intros [k x] He%elem_of_map_to_list. by apply H. Qed.

Lemma ksum_nonneg f m : (forall k x, m !! k = Some x -> 0 <= f k x) -> 0 <= ksum f m.
Proof. intros H. apply total_nonneg. intros [k x] He%elem_of_map_to_list. by apply H. Qed.

Lemma ksum_elem_le f m i x : (forall k x, m !! k = Some x -> 0 <= f k x) -> m !! i = Some x -> f i x <= ksum f m.
Proof.
  intros H Hi. unfold ksum. apply (total_elem_le (fun e : key * A => f e.1 e.2) _ (i, x)); [intros [k y] He%elem_of_map_to_list; by apply H | by apply elem_of_map_to_list].
Qed.
End Sums.

(** A sum or difference of safe integers that is stored as a safe integer is exact. *)
Lemma minus_exact a b : Z.abs a <= MAX_SAFE_INTEGER -> Z.abs b <= MAX_SAFE_INTEGER -> Z.abs (minus a b) <= MAX_SAFE_INTEGER -> minus a b = a - b.
Proof. intros Ha Hb Hm. unfold minus in *. by rewrite (nsub_exact a b) by done. Qed.

Lemma plus_exact a b : Z.abs a <= MAX_SAFE_INTEGER -> Z.abs b <= MAX_SAFE_INTEGER -> Z.abs (plus a b) <= MAX_SAFE_INTEGER -> plus a b = a + b.
Proof.
  intros Ha Hb Hp. assert (E : plus a b = minus a (- b)) by (unfold plus, minus, nsub; by rewrite nopp_int, Z.opp_involutive).
  rewrite E in *. rewrite minus_exact by lia. lia.
Qed.

Lemma minus_small a b : 0 <= b <= a -> a <= MAX_SAFE_INTEGER -> minus a b = a - b.
Proof. intros H Ha. unfold minus, MAX_SAFE_INTEGER in *. by rewrite nsub_int by lia. Qed.

(** ** The cashbook *)

(** What a voucher moved on its cash account. *)
Definition moves (v : VoucherRow) : Z := match v_status v with POSTED | REVERSED => signed v | _ => 0 end.
Definition effect (account k : key) (v : VoucherRow) : Z := if String.eqb k.1 account.1 && String.eqb (v_account v) account.2 then moves v else 0.

Record cash_ok (d : db) : Prop := {
  co_account : forall k v, vouchers d !! k = Some v -> is_Some (cash_accounts d !! (k.1, v_account v));
  co_amount : forall k v, vouchers d !! k = Some v -> 0 < v_amount v;
  co_balance : forall k a, cash_accounts d !! k = Some a -> Z.abs (ca_balance a) <= MAX_SAFE_INTEGER -> ca_balance a = ksum (effect k) (vouchers d) }.

Lemma cash_same d d' : same_cash d d' -> cash_ok d -> cash_ok d'.
Proof. intros [E1 E2] []. split; rewrite ?E1, ?E2; done. Qed.

(** An account changes by [x], and so do its vouchers. *)
Lemma cash_moved d d' ka a z x : cash_ok d -> cash_accounts d !! ka = Some a -> Z.abs (ca_balance a) <= MAX_SAFE_INTEGER ->
  cash_accounts d' = <[ka := with_balance a z]> (cash_accounts d) -> (Z.abs z <= MAX_SAFE_INTEGER -> z = ca_balance a + x) ->
  (forall k v, vouchers d' !! k = Some v -> 0 < v_amount v /\ is_Some (cash_accounts d !! (k.1, v_account v))) ->
  (forall k, ksum (effect k) (vouchers d') = ksum (effect k) (vouchers d) + if decide (k = ka) then x else 0) -> cash_ok d'.
Proof.
  intros [C1 C2 C3] Ha Hs Hd Hz Hv Hsum. split.
  - intros k v Hk. rewrite Hd. destruct (Hv k v Hk) as [_ [a' H']]. destruct (decide (ka = (k.1, v_account v))) as [<-|];
      [rewrite lookup_insert_eq; by eexists | rewrite lookup_insert_ne by done; by eexists].
  - intros k v Hk. by apply (Hv k v).
  - intros k a'. rewrite Hd, Hsum. destruct (decide (k = ka)) as [->|Hne].
    + rewrite lookup_insert_eq. intros [= <-]. cbn. intros Hz'. rewrite (Hz Hz'), (C3 _ _ Ha Hs). done.
    + rewrite lookup_insert_ne by done. intros Hk Hs'. rewrite (C3 _ _ Hk Hs'). lia.
Qed.


(** The effect of a voucher on the accounts. *)
Lemma effect_split t acc i v : v_account v = acc -> forall k, effect k (t, i) v = if decide (k = (t, acc)) then moves v else 0.
Proof.
  intros <- [k1 k2]. unfold effect. cbn. destruct (String.eqb_spec t k1) as [->|], (String.eqb_spec (v_account v) k2) as [->|]; cbn;
    case_decide; (done || congruence).
Qed.

Lemma insert_voucher_Ok k v d u d' : insert_voucher k v d = Ok (u, d') -> d' = set_voucher k v d /\ vouchers d !! k = None /\ 0 < v_amount v.
Proof.
  unfold insert_voucher. intros H. inv_fin. destruct (_ || _) eqn:E in H; inv_fin. apply orb_false_iff in E as [[E1 E2]%orb_false_iff E3%negb_false_iff].
  split_and!; [done | by apply taken_none|]. unfold check_voucher in E3. apply andb_true_iff in E3 as [E3 _]. by apply Z.ltb_lt.
Qed.

Lemma update_voucher_Ok k v d u d' : update_voucher k v d = Ok (u, d') -> d' = set_voucher k v d.
Proof. unfold update_voucher. intros H. inv_fin. destruct (bool_decide _) in H; by inv_fin. Qed.

Ltac voucher_step := match goal with
  | H : insert_voucher _ _ _ = Ok _ |- _ => apply insert_voucher_Ok in H as (-> & ? & ?)
  | H : update_voucher _ _ _ = Ok _ |- _ => apply update_voucher_Ok in H as ->
  | H : nextFinanceDocumentCode _ _ _ = Ok _ |- _ => unfold nextFinanceDocumentCode in H
  end.
Ltac inv_cash := repeat ((inv_fin_step || inv_reads || voucher_step); try subst).

(** What holds of all rows of a table after one was written. *)
Lemma rows_insert {A} (P : key -> A -> Prop) (m : gmap key A) k v : P k v -> (forall k0 v0, m !! k0 = Some v0 -> P k0 v0) ->
  forall k0 v0, <[k := v]> m !! k0 = Some v0 -> P k0 v0.
Proof. intros Hv Hm k0 v0. destruct (decide (k = k0)) as [<-|]; [rewrite lookup_insert_eq; by intros [= <-] | rewrite lookup_insert_ne by done; apply Hm]. Qed.

(** A draft becomes posted and its account moves. *)
Lemma post_draft_cash t i actor k linked v uuid now d r d' : cash_ok d -> vouchers d !! (t, i) = Some v -> moves v = 0 ->
  post_draft t i actor k linked v uuid now d = Ok (r, d') -> cash_ok d'.
Proof.
  intros HC Hv Hm. unfold post_draft. intros H. inv_fin. destruct (cash_accounts _ !! _) as [a|] eqn:Ha; inv_cash. destruct (negb _); inv_cash.
  match goal with H' : match given linked with _ => _ end _ = Ok (_, ?x) |- _ => assert (same_cash d x) as [E1 E2] end.
  { destruct (given linked); inv_cash; [done|]. by eapply postJournal_cash. }
  inv_cash. eapply (cash_moved _ _ (t, v_account v) a _ (signed v) HC Ha); [done | cbn; by rewrite E1 | ..].
  - unfold signed. destruct (v_direction v); intros Hz; [rewrite plus_exact by done; lia | rewrite minus_exact by done; lia].
  - cbn. rewrite E2. apply rows_insert; [cbn; split; [by apply (co_amount _ HC (t, i)) | by apply (co_account _ HC (t, i))]|].
    intros k0 v0 H0. split; [by apply (co_amount _ HC k0) | by apply (co_account _ HC k0)].
  - intros k0. cbn. rewrite E2, (ksum_insert_old _ _ _ _ _ Hv), !(effect_split t (v_account v)) by done. case_decide; [|lia].
    rewrite Hm. unfold moves, signed. cbn. lia.
Qed.

Lemma postEntry_cash t i actor vkey linked uuid now d r d' : cash_ok d -> postEntryInTx t i actor vkey linked uuid now d = Ok (r, d') -> cash_ok d'.
Proof.
  intros HC. unfold postEntryInTx. cbv zeta. intros H. inv_fin. destruct (vouchers _ !! _) as [v|] eqn:Hv; inv_cash.
  destruct (v_status v) eqn:Es; [| |destruct (lower_key vkey); [destruct (bool_decide _)|]; by inv_cash|by inv_cash..];
    (eapply post_draft_cash; [done | done | unfold moves; by rewrite Es | done]).
Qed.

(** A new voucher, which moves nothing yet or moves the account with it. *)
Lemma cash_new_voucher d k v : cash_ok d -> vouchers d !! k = None -> 0 < v_amount v -> is_Some (cash_accounts d !! (k.1, v_account v)) -> moves v = 0 ->
  cash_ok (set_voucher k v d).
Proof.
  intros HC Hn Ha Hs Hm. split; cbn.
  - apply (rows_insert (fun k v => is_Some (cash_accounts d !! (k.1, v_account v)))); [done | apply HC].
  - apply (rows_insert (fun _ v => 0 < v_amount v)); [done | apply HC].
  - intros k0 a0 H0 Hz. rewrite ksum_insert_new by done. rewrite (co_balance _ HC _ _ H0 Hz). destruct k as [t i].
    rewrite (effect_split t (v_account v)) by done. case_decide; lia.
Qed.

Lemma cash_frame d d' : same_cash d d' -> cash_ok d <-> cash_ok d'.
Proof. intros [E1 E2]. split; apply cash_same; by split. Qed.

Lemma new_voucher_cash t input uuid now d r d' : cash_ok d -> new_voucher t input uuid now d = Ok (r, d') -> cash_ok d'.
Proof.
  intros HC. unfold new_voucher. cbv zeta. intros H. inv_fin. destruct (cash_accounts _ !! _) as [a|] eqn:Ha; inv_cash. destruct (negb _); inv_cash.
  match goal with H' : ensureDefaultCategoriesInTx _ _ _ = Ok _ |- _ => apply modify_Ok in H' as [= -> ->] end.
  match type of H with match ?c with _ => _ end _ = _ => destruct c as [c0|]; inv_cash end. destruct (negb _); inv_cash. destruct (_ && _); inv_cash.
  match goal with H' : (if vi_autoPost input then _ else _) ?x = Ok _ |- _ => assert (Hc : cash_ok x) end.
  { eapply cash_new_voucher; cbn; [eapply cash_same; [|exact HC]; done | done | done | by eexists | done]. }
  destruct (vi_autoPost input); inv_cash; [by eapply postEntry_cash | done].
Qed.

Lemma createAndPost_cash t input uuid now d r d' : cash_ok d -> createAndOptionallyPostVoucherInTx t input uuid now d = Ok (r, d') -> cash_ok d'.
Proof.
  intros HC. unfold createAndOptionallyPostVoucherInTx. destruct (given (vi_key input)) as [k|]; [|by apply new_voucher_cash]. intros H. inv_fin.
  destruct (first _ _) as [[k0 v]|]; [|by eapply new_voucher_cash]. inv_cash. destruct (other_request _ _); inv_cash. destruct (_ && _); inv_cash; [|done].
  by eapply postEntry_cash.
Qed.

(** A reversal writes the opposite voucher and moves the account back. *)
Lemma reverse_posted_cash t i actor k reason v uuid now d r d' : cash_ok d -> vouchers d !! (t, i) = Some v -> v_status v = POSTED ->
  reverse_posted t i actor k reason v uuid now d = Ok (r, d') -> cash_ok d'.
Proof.
  intros HC Hv Hs. unfold reverse_posted. intros H. inv_fin. destruct (cash_accounts _ !! _) as [a|] eqn:Ha; inv_cash.
  match goal with H' : match given (v_journal v) with _ => _ end _ = Ok (_, ?x) |- _ => assert (same_cash d x) as [E1 E2] end.
  { destruct (given (v_journal v)); inv_cash; [by eapply reverseJournal_cash | done]. }
  inv_cash. match goal with Hn : vouchers (set_sequence _ _ _) !! _ = None |- _ => cbn in Hn; rewrite E2 in Hn; rename Hn into Hnew end.
  assert (Hne : (t, fresh uuid "voucher") <> (t, i)) by congruence.
  assert (Hold : forall k0 v0, vouchers d !! k0 = Some v0 -> 0 < v_amount v0 /\ is_Some (cash_accounts d !! (k0.1, v_account v0))).
  { intros k0 v0 Hk0. split; [by apply (co_amount _ HC k0) | by apply (co_account _ HC k0)]. }
  eapply (cash_moved _ _ (t, v_account v) a _ (- signed v) HC Ha); [done | cbn; by rewrite E1 | ..].
  - unfold signed. destruct (v_direction v); intros Hz; [rewrite minus_exact by done; lia | rewrite plus_exact by done; lia].
  - cbn. rewrite E2. apply rows_insert; [exact (Hold (t, i) v Hv)|]. apply rows_insert; [exact (Hold (t, i) v Hv) | exact Hold].
  - intros k0. cbn. rewrite E2, (ksum_insert_old _ _ _ _ v), ksum_insert_new, !(effect_split t (v_account v)) by (done || by rewrite lookup_insert_ne).
    case_decide; [|lia]. unfold moves, signed. rewrite Hs. cbn. destruct (v_direction v); cbn; lia.
Qed.

Lemma reverseEntry_cash t i actor vkey reason dk uuid now d r d' : cash_ok d -> reverseEntry t i actor vkey reason dk uuid now d = Ok (r, d') -> cash_ok d'.
Proof.
  intros HC. unfold reverseEntry. cbv zeta. intros H. inv_fin. destruct (vouchers _ !! _) as [v|] eqn:Hv; inv_cash.
  destruct (v_status v) eqn:Es, (given (v_reversedByEntry v)) as [by_|]; inv_cash; try (by eapply reverse_posted_cash).
  unfold replay_reversal in H. destruct (lower_key (coalesce vkey dk)); inv_cash. destruct (vouchers d !! (t, by_)); inv_cash. destruct (bool_decide _); by inv_cash.
Qed.

Lemma approveEntry_cash t i actor now d r d' : cash_ok d -> approveEntry t i actor now d = Ok (r, d') -> cash_ok d'.
Proof.
  intros HC. unfold approveEntry. cbv zeta. intros H. inv_fin. destruct (vouchers _ !! _) as [v|] eqn:Hv; inv_cash.
  destruct (v_status v) eqn:Es; inv_cash; [|done..]. split; cbn.
  - apply (rows_insert (fun k v => is_Some (cash_accounts d !! (k.1, v_account v)))); [by apply (co_account _ HC (t, as_uuid i) v) | apply HC].
  - apply (rows_insert (fun _ v => 0 < v_amount v)); [by apply (co_amount _ HC (t, as_uuid i) v) | apply HC].
  - intros k0 a0 H0 Hz. rewrite (ksum_insert_old _ _ _ _ _ Hv), (co_balance _ HC _ _ H0 Hz), !(effect_split t (v_account v)) by done.
    case_decide; [|lia]. unfold moves. rewrite Es. cbn. lia.
Qed.

(** A new cash account is empty, and no voucher names it. *)
Lemma insert_cash_account_Ok k a d u d' : insert_cash_account k a d = Ok (u, d') -> d' = set_cash_account k a d /\ cash_accounts d !! k = None.
Proof.
  unfold insert_cash_account. intros H. inv_fin. destruct (_ || _) eqn:E in H; inv_fin. apply orb_false_iff in E as [E _]. split; [done|]. by apply taken_none.
Qed.

Lemma cash_new_account d k a : cash_ok d -> cash_accounts d !! k = None -> ca_balance a = 0 -> cash_ok (set_cash_account k a d).
Proof.
  intros [C1 C2 C3] Hn Ha. assert (Hs : forall k0, is_Some (cash_accounts d !! k0) -> is_Some (<[k := a]> (cash_accounts d) !! k0)).
  { intros k0 H0. destruct (decide (k = k0)) as [<-|]; [rewrite lookup_insert_eq; by eexists | by rewrite lookup_insert_ne]. }
  split; cbn; [eauto | done|]. intros k0 a0. destruct (decide (k = k0)) as [<-|]; [|rewrite lookup_insert_ne by done; apply C3]. rewrite lookup_insert_eq.
  intros [= <-] _. rewrite Ha. symmetry. apply ksum_zero. intros [t i] v Hv. rewrite (effect_split t (v_account v)) by done. case_decide as E; [|done].
  subst k. destruct (C1 _ _ Hv) as [x Hx]. cbn in Hx. congruence.
Qed.

Lemma ensureCashAccount_cash t branch bank uuid now d r d' : cash_ok d -> ensureDefaultCashAccountInTx t branch bank uuid now d = Ok (r, d') -> cash_ok d'.
Proof.
  intros HC. unfold ensureDefaultCashAccountInTx. cbv zeta. intros H. inv_fin.
  match type of H with match ?x with _ => _ end _ = _ => destruct x as [[k a]|]; [by inv_cash|] end. inv_fin.
  destruct (oldest _ _ _) as [[k a]|]; [by inv_cash|]. inv_fin.
  match goal with Hi : _ _ = Ok (?u, ?y) |- _ => is_var y; lazymatch type of u with unit => rename Hi into Hins; assert (cash_ok y) end end.
  { match type of Hins with match ?x with _ => _ end _ = _ => destruct x as [[k a1]|]; inv_fin; [done|] end.
    match goal with H' : insert_cash_account _ _ _ = Ok _ |- _ => apply insert_cash_account_Ok in H' as [-> Hn] end. by apply cash_new_account. }
  match type of H with match ?x with _ => _ end _ = _ => destruct x as [[k a1]|] end; by inv_cash.
Qed.

Lemma createCashAccount_cash t dto uuid now d r d' : cash_ok d -> createCashAccount t dto uuid now d = Ok (r, d') -> cash_ok d'.
Proof.
  intros HC. unfold createCashAccount. cbv zeta. intros H. inv_fin. destruct (first _ _) as [[k a0]|]; inv_cash.
  match goal with H' : insert_cash_account _ _ _ = Ok _ |- _ => apply insert_cash_account_Ok in H' as [-> Hn] end. by apply cash_new_account.
Qed.

Lemma updateCashAccount_cash t i dto d r d' : cash_ok d -> updateCashAccount t i dto d = Ok (r, d') -> cash_ok d'.
Proof.
  intros HC. unfold updateCashAccount. cbv zeta. intros H. inv_fin. destruct (cash_accounts _ !! _) as [a|] eqn:Ha; inv_cash.
  match goal with H' : (if bool_decide _ then _ else _) _ = Ok (_, ?y) |- _ => assert (y = d) as -> end.
  { case_bool_decide; inv_cash; [|done]. destruct (negb _); inv_cash. by destruct (first _ _); inv_cash. }
  destruct HC as [C1 C2 C3]. split; cbn; [|done|].
  - intros k v Hk. destruct (decide ((t, as_uuid i) = (k.1, v_account v))) as [->|]; [rewrite lookup_insert_eq; by eexists | rewrite lookup_insert_ne by done; by apply C1].
  - intros k a0. destruct (decide ((t, as_uuid i) = k)) as [<-|]; [|rewrite lookup_insert_ne by done; apply C3]. rewrite lookup_insert_eq. intros [= <-]. cbn.
    by apply C3.
Qed.

(** Journals stay in order through the cashbook. *)
Lemma post_draft_journals t i actor k linked v uuid now d r d' : journals_ok (journals d) -> post_draft t i actor k linked v uuid now d = Ok (r, d') -> journals_ok (journals d').
Proof.
  intros HJ. unfold post_draft. intros H. inv_fin. destruct (cash_accounts _ !! _) as [a|]; inv_cash. destruct (negb _); inv_cash. cbn.
  destruct (given linked); inv_cash; [done|]. by eapply post_journals.
Qed.

Lemma postEntry_journals t i actor vkey linked uuid now d r d' : journals_ok (journals d) -> postEntryInTx t i actor vkey linked uuid now d = Ok (r, d') ->
  journals_ok (journals d').
Proof.
  intros HJ. unfold postEntryInTx. cbv zeta. intros H. inv_fin. destruct (vouchers _ !! _) as [v|]; inv_cash.
  destruct (v_status v); try (exact (post_draft_journals _ _ _ _ _ _ _ _ _ _ _ HJ H)); [destruct (lower_key vkey); [destruct (bool_decide _)|]; by inv_cash | by inv_cash..].
Qed.

Lemma createAndPost_journals t input uuid now d r d' : journals_ok (journals d) -> createAndOptionallyPostVoucherInTx t input uuid now d = Ok (r, d') ->
  journals_ok (journals d').
Proof.
  intros HJ. assert (Hnew : new_voucher t input uuid now d = Ok (r, d') -> journals_ok (journals d')).
  { unfold new_voucher. cbv zeta. intros H. inv_fin. destruct (cash_accounts _ !! _) as [a|]; inv_cash. destruct (negb _); inv_cash.
    match goal with H' : ensureDefaultCategoriesInTx _ _ _ = Ok _ |- _ => apply modify_Ok in H' as [= -> ->] end.
    match type of H with match ?c with _ => _ end _ = _ => destruct c as [c0|]; inv_cash end. destruct (negb _); inv_cash. destruct (_ && _); inv_cash.
    destruct (vi_autoPost input); inv_cash; [eapply postEntry_journals; [|exact H]; exact HJ | exact HJ]. }
  unfold createAndOptionallyPostVoucherInTx. destruct (given (vi_key input)) as [k|]; [|exact Hnew]. intros H. inv_fin. destruct (first _ _) as [[k0 v]|]; [|by apply Hnew].
  inv_cash. destruct (other_request _ _); inv_cash. destruct (_ && _); inv_cash; [|done]. by eapply postEntry_journals.
Qed.

Lemma reverseEntry_journals t i actor vkey reason dk uuid now d r d' : journals_ok (journals d) -> reverseEntry t i actor vkey reason dk uuid now d = Ok (r, d') ->
  journals_ok (journals d').
Proof.
  intros HJ. unfold reverseEntry. cbv zeta. intros H. inv_fin. destruct (vouchers _ !! _) as [v|]; inv_cash.
  assert (Hrev : reverse_posted t (as_uuid i) actor (lower_key (coalesce vkey dk)) reason v uuid now d = Ok (r, d') -> journals_ok (journals d')).
  { unfold reverse_posted. clear H. intros H. inv_fin. destruct (cash_accounts _ !! _) as [a|]; inv_cash. cbn.
    destruct (given (v_journal v)); inv_cash; [by eapply reverse_journals | done]. }
  destruct (v_status v), (given (v_reversedByEntry v)) as [by_|]; inv_cash; try (by apply Hrev).
  unfold replay_reversal in H. destruct (lower_key (coalesce vkey dk)); inv_cash. destruct (vouchers d !! (t, by_)); inv_cash. destruct (bool_decide _); by inv_cash.
Qed.
