(* ===== verification/CustomerDebtBooks.v ===== *)
(** * What the finance service promises about customer debt, cash and journals

    The debt of a customer is what their receivables and the debt ledger say, held
    credit is that of the open authorizations, and, with the journals and the
    cashbook of FinanceLedgerBooks, all books agree in every database that requests
    lead to; exposure stays within the credit limit; and two places where the code
    departs from this. *)

From S2P Require Import Prelude Transaction JsNumber JsString FinanceDomain FinanceLedger CustomerDebt FinanceLedgerBooks.

Open Scope Z_scope.

(** ** Runs that succeed *)

Section Reads.
Lemma read_auth_Ok a d r d' : read_auth a d = Ok (r, d') -> r = a /\ d' = d /\ Z.abs (au_amount a) <= MAX_SAFE_INTEGER.
Proof. unfold read_auth. intros H. inv_fin. by apply money_Ok in Ha as [[= -> ->] ?]. Qed.

Lemma read_profile_Ok p d r d' : read_profile p d = Ok (r, d') ->
  r = p /\ d' = d /\ Z.abs (cp_limit p) <= MAX_SAFE_INTEGER /\ Z.abs (cp_posted p) <= MAX_SAFE_INTEGER /\ Z.abs (cp_held p) <= MAX_SAFE_INTEGER.
Proof.
  unfold read_profile. intros H. inv_fin. repeat match goal with H' : toMoney _ _ = Ok _ |- _ => apply money_Ok in H' as [[= -> ->] ?] end. done.
Qed.

Lemma read_receivable_Ok p d r d' : read_receivable p d = Ok (r, d') ->
  r = p /\ d' = d /\ Z.abs (rv_original p) <= MAX_SAFE_INTEGER /\ Z.abs (rv_paid p) <= MAX_SAFE_INTEGER /\ Z.abs (rv_outstanding p) <= MAX_SAFE_INTEGER.
Proof.
  unfold read_receivable. intros H. inv_fin. repeat match goal with H' : toMoney _ _ = Ok _ |- _ => apply money_Ok in H' as [[= -> ->] ?] end. done.
Qed.
End Reads.

Section Statements.
Lemma save_profile_Ok k p d u d' : save_profile k p d = Ok (u, d') -> d' = set_profile k p d /\ check_profile p = true.
Proof. unfold save_profile. destruct (check_profile p); intros H; by inv_fin. Qed.

Lemma insert_auth_Ok k a d u d' : insert_auth k a d = Ok (u, d') -> d' = set_auth k a d /\ auths d !! k = None /\ 0 < au_amount a.
Proof.
  unfold insert_auth. intros H. inv_fin. destruct (_ || _) eqn:E in H; inv_fin. apply orb_false_iff in E as [[E1 _]%orb_false_iff E2%negb_false_iff].
  split_and!; [done | by apply taken_none | by apply Z.ltb_lt].
Qed.

Lemma insert_receivable_Ok k r d u d' : insert_receivable k r d = Ok (u, d') ->
  d' = set_receivable k r d /\ receivables d !! k = None /\ check_receivable r = true.
Proof.
  unfold insert_receivable. intros H. inv_fin. destruct (_ || _) eqn:E in H; inv_fin. apply orb_false_iff in E as [[E1 _]%orb_false_iff E2%negb_false_iff].
  split_and!; [done | by apply taken_none | done].
Qed.

Lemma update_receivable_Ok k r d u d' : update_receivable k r d = Ok (u, d') -> d' = set_receivable k r d /\ check_receivable r = true.
Proof. unfold update_receivable. destruct (check_receivable r); intros H; by inv_fin. Qed.

Lemma insert_debt_Ok e d u d' : insert_debt e d = Ok (u, d') -> d' = add_debt e d.
Proof. unfold insert_debt. intros H. inv_fin. destruct (_ || _) in H; by inv_fin. Qed.

Lemma format_profile_Ok p d x d' : formatProfileResponse p d = Ok (x, d') -> d' = d.
Proof. unfold formatProfileResponse. intros H. by inv_all. Qed.

Lemma format_auth_Ok i a p b d x d' : formatAuthorizationResponse i a p b d = Ok (x, d') ->
  d' = d /\ x = {| ar_id := i; ar_auth := a; ar_profile := p; ar_available := ar_available x; ar_replayed := b |}.
Proof. unfold formatAuthorizationResponse. intros H. inv_fin. apply format_profile_Ok in Ha as ->. done. Qed.
End Statements.

Ltac inv_debt_step := first [ inv_fin_step | inv_reads
  | match goal with
    | H : read_auth _ _ = Ok (_, _) |- _ => apply read_auth_Ok in H as (? & ? & ?)
    | H : read_profile _ _ = Ok (_, _) |- _ => apply read_profile_Ok in H as (? & ? & ? & ? & ?)
    | H : read_receivable _ _ = Ok (_, _) |- _ => apply read_receivable_Ok in H as (? & ? & ? & ? & ?)
    | H : save_profile _ _ _ = Ok _ |- _ => apply save_profile_Ok in H as [-> ?]
    | H : insert_auth _ _ _ = Ok _ |- _ => apply insert_auth_Ok in H as (-> & ? & ?)
    | H : insert_receivable _ _ _ = Ok _ |- _ => apply insert_receivable_Ok in H as (-> & ? & ?)
    | H : insert_debt _ _ = Ok _ |- _ => apply insert_debt_Ok in H as ->
    | H : formatProfileResponse _ _ = Ok (_, _) |- _ => apply format_profile_Ok in H
    | H : formatAuthorizationResponse _ _ _ _ _ = Ok (_, _) |- _ => apply format_auth_Ok in H as [? ?]
    | H : nextFinanceDocumentCode _ _ _ = Ok _ |- _ => unfold nextFinanceDocumentCode in H
    end ].
Ltac inv_debt := repeat (inv_debt_step; try subst).

(** ** The figures of a customer *)

Definition is_of (k k' : key) (customer : string) : bool := String.eqb k'.1 k.1 && String.eqb customer k.2.

Definition owed (k : key) (m : gmap key ReceivableRow) : Z := ksum (fun k' r => if is_of k k' (rv_customer r) then rv_outstanding r else 0) m.
Definition held (k : key) (m : gmap key AuthRow) : Z :=
  ksum (fun k' a => if is_of k k' (au_customer a) then match au_state a with HELD => au_amount a | _ => 0 end else 0) m.
Definition of_customer (k : key) (e : DebtRow) : bool := String.eqb (dl_tenant e) k.1 && String.eqb (dl_customer e) k.2.
Definition booked (k : key) (l : list DebtRow) : Z := total dl_delta (List.filter (of_customer k) l).

Definition posted_of (d : db) (k : key) : Z := match profiles d !! k with Some p => cp_posted p | None => 0 end.
Definition held_of (d : db) (k : key) : Z := match profiles d !! k with Some p => cp_held p | None => 0 end.

Definition receivable_ok (r : ReceivableRow) : Prop :=
  check_receivable r = true /\ rv_adjusted r = 0 /\ (rv_status r = DOC_PAID <-> rv_outstanding r = 0) /\ as_uuid (rv_customer r) = rv_customer r.

Record debt_ok (d : db) : Prop := {
  dk_posted : forall k, posted_of d k <= MAX_SAFE_INTEGER -> posted_of d k = owed k (receivables d) /\ posted_of d k = booked k (debt_ledger d);
  dk_held : forall k, held_of d k <= MAX_SAFE_INTEGER -> held_of d k = held k (auths d);
  dk_profile : forall k p, profiles d !! k = Some p -> check_profile p = true;
  dk_receivable : forall k r, receivables d !! k = Some r -> receivable_ok r;
  dk_auth : forall k a, auths d !! k = Some a -> 0 < au_amount a /\ as_uuid (au_customer a) = au_customer a }.

Lemma debt_same d d' : same_debt d d' -> debt_ok d -> debt_ok d'.
Proof. intros (E1 & E2 & E3 & E4) []. split; unfold posted_of, held_of in *; rewrite ?E1, ?E2, ?E3, ?E4; done. Qed.

Lemma is_of_split (k : key) (t i customer : string) (x : Z) : (if is_of k (t, i) customer then x else 0) = if decide (k = (t, customer)) then x else 0.
Proof. destruct k as [k1 k2]. unfold is_of. cbn. destruct (String.eqb_spec t k1) as [->|], (String.eqb_spec customer k2) as [->|]; cbn; case_decide; (done || congruence). Qed.

Lemma uuid_idem s : as_uuid (as_uuid s) = as_uuid s.
Proof. unfold as_uuid, toLowerCase. induction s as [|c s IH]; [done|]. cbn. rewrite IH. f_equal. by destruct c as [[] [] [] [] [] [] [] []]. Qed.

(** A change of one customer: the debt by [x], the held credit by [y]. *)
Lemma debt_step d d' k p p' x y : debt_ok d -> profiles d !! k = Some p -> cp_posted p <= MAX_SAFE_INTEGER -> cp_held p <= MAX_SAFE_INTEGER ->
  profiles d' = <[k := p']> (profiles d) -> check_profile p' = true ->
  (cp_posted p' <= MAX_SAFE_INTEGER -> cp_posted p' = cp_posted p + x) -> (cp_held p' <= MAX_SAFE_INTEGER -> cp_held p' = cp_held p + y) ->
  (forall k0, owed k0 (receivables d') = owed k0 (receivables d) + if decide (k0 = k) then x else 0) ->
  (forall k0, booked k0 (debt_ledger d') = booked k0 (debt_ledger d) + if decide (k0 = k) then x else 0) ->
  (forall k0, held k0 (auths d') = held k0 (auths d) + if decide (k0 = k) then y else 0) ->
  (forall k0 r, receivables d' !! k0 = Some r -> receivable_ok r) ->
  (forall k0 a, auths d' !! k0 = Some a -> 0 < au_amount a /\ as_uuid (au_customer a) = au_customer a) -> debt_ok d'.
Proof.
  intros [D1 D2 D3 D4 D5] Hp Hm Hh Hd Hc Hx Hy S1 S2 S3 R A. specialize (D1 k) as D1k. specialize (D2 k) as D2k. unfold posted_of, held_of in D1k, D2k.
  rewrite Hp in D1k, D2k. destruct (D1k Hm) as [O1 O2]. specialize (D2k Hh). split; [| | |done..].
  - intros k0. unfold posted_of. rewrite Hd, S1, S2. destruct (decide (k0 = k)) as [->|Hne].
    + rewrite lookup_insert_eq. intros Hs. rewrite (Hx Hs). lia.
    + rewrite lookup_insert_ne by done. intros Hs. destruct (D1 k0 Hs) as [E1 E2]. unfold posted_of in *. lia.
  - intros k0. unfold held_of. rewrite Hd, S3. destruct (decide (k0 = k)) as [->|Hne].
    + rewrite lookup_insert_eq. intros Hs. rewrite (Hy Hs). lia.
    + rewrite lookup_insert_ne by done. intros Hs. pose proof (D2 k0 Hs) as E. unfold held_of in *. lia.
  - intros k0 p0. rewrite Hd. destruct (decide (k0 = k)) as [->|Hne]; [rewrite lookup_insert_eq; by intros [= <-] | rewrite lookup_insert_ne by done; apply D3].
Qed.

(** The locked profile of a customer. *)
Lemma lock_profile_Ok t c d p d' : lockOrCreateProfileInTx t c d = Ok (p, d') -> debt_ok d ->
  debt_ok d' /\ profiles d' !! (t, as_uuid c) = Some p /\ auths d' = auths d /\ receivables d' = receivables d /\ debt_ledger d' = debt_ledger d /\
  same_cash d d' /\ same_journals d d' /\ check_profile p = true /\ cp_posted p <= MAX_SAFE_INTEGER /\ cp_held p <= MAX_SAFE_INTEGER /\
  cp_limit p <= MAX_SAFE_INTEGER.
Proof.
  intros H HD. unfold lockOrCreateProfileInTx in H. cbv zeta in H. inv_fin. destruct (profiles _ !! _) as [p0|] eqn:Ep; inv_debt.
  - split_and!; try done; [by apply (dk_profile _ HD (t, as_uuid c)) | lia..].
  - destruct HD as [D1 D2 D3 D4 D5]. assert (Hpo : forall k, posted_of (set_profile (t, as_uuid c) new_profile d) k = posted_of d k).
    { intros k. unfold posted_of. cbn. destruct (decide (k = (t, as_uuid c))) as [->|]; [by rewrite lookup_insert_eq, Ep | by rewrite lookup_insert_ne]. }
    assert (Hho : forall k, held_of (set_profile (t, as_uuid c) new_profile d) k = held_of d k).
    { intros k. unfold held_of. cbn. destruct (decide (k = (t, as_uuid c))) as [->|]; [by rewrite lookup_insert_eq, Ep | by rewrite lookup_insert_ne]. }
    split_and!; try done; [|cbn; by rewrite lookup_insert_eq]. split; cbn; try done.
    + intros k. rewrite Hpo. apply D1.
    + intros k. rewrite Hho. apply D2.
    + intros k p0. destruct (decide (k = (t, as_uuid c))) as [->|]; [rewrite lookup_insert_eq; by intros [= <-] | rewrite lookup_insert_ne by done; apply D3].
Qed.

(** ** Figures after one write *)

Section Figures.
Lemma owed_new k t i r m : m !! (t, i) = None -> owed k (<[(t, i) := r]> m) = owed k m + if decide (k = (t, rv_customer r)) then rv_outstanding r else 0.
Proof. intros H. unfold owed. by rewrite ksum_insert_new, is_of_split. Qed.

Lemma owed_paid k t i r r' m : m !! (t, i) = Some r -> rv_customer r' = rv_customer r ->
  owed k (<[(t, i) := r']> m) = owed k m + if decide (k = (t, rv_customer r)) then rv_outstanding r' - rv_outstanding r else 0.
Proof. intros H E. unfold owed. rewrite (ksum_insert_old _ _ _ _ _ H), !is_of_split, E. case_decide; lia. Qed.

Lemma held_new k t i a m : m !! (t, i) = None -> au_state a = HELD ->
  held k (<[(t, i) := a]> m) = held k m + if decide (k = (t, au_customer a)) then au_amount a else 0.
Proof. intros H E. unfold held. by rewrite ksum_insert_new, is_of_split, E. Qed.

Lemma held_done k t i a a' m : m !! (t, i) = Some a -> au_state a = HELD -> au_state a' <> HELD -> au_customer a' = au_customer a ->
  held k (<[(t, i) := a']> m) = held k m + if decide (k = (t, au_customer a)) then - au_amount a else 0.
Proof. intros H E E' Ec. unfold held. rewrite (ksum_insert_old _ _ _ _ _ H), !is_of_split, Ec, E. destruct (au_state a'); [done|..]; case_decide; lia. Qed.

Lemma booked_snoc k l e : booked k (l ++ [e]) = booked k l + if decide (k = (dl_tenant e, dl_customer e)) then dl_delta e else 0.
Proof.
  unfold booked. rewrite List.filter_app, total_app. cbn. destruct k as [k1 k2]. unfold of_customer. cbn.
  destruct (String.eqb_spec (dl_tenant e) k1) as [<-|], (String.eqb_spec (dl_customer e) k2) as [<-|]; cbn; case_decide; unfold total; cbn; (congruence || lia).
Qed.

Lemma outstanding_le m t i r : (forall k x, m !! k = Some x -> receivable_ok x) -> m !! (t, i) = Some r -> 0 <= rv_outstanding r <= owed (t, rv_customer r) m.
Proof.
  intros HD Hr. assert (Hnn : forall k x, m !! k = Some x -> 0 <= rv_outstanding x).
  { intros k x (Hc & _)%HD. unfold check_receivable in Hc. bool_prop. lia. }
  split; [by eapply Hnn|]. unfold owed.
  pose proof (ksum_elem_le (fun k' r0 => if is_of (t, rv_customer r) k' (rv_customer r0) then rv_outstanding r0 else 0) m (t, i) r) as Hle.
  cbn in Hle. rewrite is_of_split, decide_True in Hle by done. apply Hle; [|done]. intros k x Hx. case_match; [by eapply Hnn | lia].
Qed.

Lemma amount_le d t i a : debt_ok d -> auths d !! (t, i) = Some a -> au_state a = HELD -> au_amount a <= held (t, au_customer a) (auths d).
Proof.
  intros HD Ha Hs. unfold held.
  pose proof (ksum_elem_le (fun k' a0 => if is_of (t, au_customer a) k' (au_customer a0) then match au_state a0 with HELD => au_amount a0 | _ => 0 end else 0)
    (auths d) (t, i) a) as Hle. cbn in Hle. rewrite is_of_split, decide_True, Hs in Hle by done. apply Hle; [|done]. intros k x [Hx _]%(dk_auth _ HD).
  case_match; [destruct (au_state x)|]; lia.
Qed.
End Figures.

Lemma add_zero (b : Prop) `{Decision b} x : x = x + if decide b then 0 else 0.
Proof. case_decide; lia. Qed.
#[local] Hint Resolve add_zero : core.

(** ** Exposure *)

Definition exposure (d : db) (k : key) : Z := posted_of d k + held_of d k.

(** No customer owes or holds more than before, but within their limit. *)
Definition within (d d' : db) : Prop := forall k p, profiles d' !! k = Some p -> cp_posted p <= MAX_SAFE_INTEGER -> cp_held p <= MAX_SAFE_INTEGER ->
  cp_posted p + cp_held p <= Z.max (cp_limit p) (exposure d k).

Lemma within_same d d' : profiles d' = profiles d -> within d d'.
Proof. intros E k p. rewrite E. intros Hp _ _. unfold exposure, posted_of, held_of. rewrite Hp. lia. Qed.

(** One profile changes, the figures of the others stay. *)
Lemma within_step d d1 d' k p p' : (forall k0, exposure d1 k0 = exposure d k0) -> profiles d1 !! k = Some p -> profiles d' = <[k := p']> (profiles d1) ->
  (cp_posted p' <= MAX_SAFE_INTEGER -> cp_held p' <= MAX_SAFE_INTEGER -> cp_posted p' + cp_held p' <= Z.max (cp_limit p') (cp_posted p + cp_held p)) ->
  within d d'.
Proof.
  intros He Hp Hd Hx k0 p0. rewrite Hd, <- He. unfold exposure, posted_of, held_of. destruct (decide (k = k0)) as [<-|].
  - rewrite lookup_insert_eq, Hp. by intros [= <-].
  - rewrite lookup_insert_ne by done. intros -> _ _. lia.
Qed.

(** ** Credit profiles and holds *)

Ltac locked HD :=
  match goal with H : lockOrCreateProfileInTx _ _ _ = Ok _ |- _ =>
    destruct (lock_profile_Ok _ _ _ _ _ H HD) as (HD1 & Hp & Eau & Erv & Edl & Hcash & Hjnl & Hcp & Hm & Hh & Hlim) end.

(** One customer changes, the debt by [x] and the held credit by [y]. *)
Ltac debt_move x y HD Hp :=
  eapply (debt_step _ _ _ _ _ x y HD Hp); [lia | lia | reflexivity | first [done | eassumption] | cbn; auto; try lia ..].

Lemma getCreditProfile_debt t c d r d' : debt_ok d -> getCreditProfile t c d = Ok (r, d') -> debt_ok d'.
Proof. intros HD. unfold getCreditProfile. intros H. inv_debt. locked HD. done. Qed.

Lemma updateCreditLimit_debt t c z d r d' : debt_ok d -> updateCreditLimit t c z d = Ok (r, d') -> debt_ok d'.
Proof.
  intros HD. unfold updateCreditLimit. cbv zeta. intros H. inv_debt.
  locked HD.
  debt_move 0 0 HD1 Hp; apply HD1.
Qed.

(** The figure a check leaves. *)
Lemma credit_check_Ok p amount by_ why d e d' : credit_check p amount by_ why d = Ok (e, d') ->
  d' = d /\ nval (ce_heldCreditAfter e) = plus (cp_held p) amount /\ 0 <= cp_limit p <= MAX_SAFE_INTEGER /\ 0 <= cp_posted p <= MAX_SAFE_INTEGER /\
  0 <= cp_held p <= MAX_SAFE_INTEGER /\ 0 < amount <= MAX_SAFE_INTEGER /\
  (is_override by_ = false -> cp_posted p + cp_held p + amount <= cp_limit p).
Proof.
  unfold credit_check. intros H. inv_fin. pose proof H as H0. unfold evaluateCreditAuthorization in H0.
  cbn [ci_creditLimit ci_postedDebt ci_heldCredit ci_requestedAmount ci_overrideApprovedBy] in H0. inv_ok. rename a into L, a0 into P, a1 into X, a2 into R.
  apply parseVnd_nonneg in Ha as (z & [= <-] & -> & Hz), Ha0 as (z0 & [= <-] & -> & Hz0), Ha1 as (z1 & [= <-] & -> & Hz1).
  apply parseVnd_pos in Ha2 as (z2 & [= <-] & -> & Hz2). split; [done|]. assert (Ho : is_override by_ = false -> cp_posted p + cp_held p + amount <= cp_limit p).
  { intros Eo. destruct (credit_evaluation (cp_limit p) (cp_posted p) (cp_held p) amount by_ why) as [Hn _]; [lia..|]. specialize (Hn Eo).
    unfold credit_input in Hn. rewrite Hn in H. destruct (Z.leb_spec (cp_posted p + cp_held p + amount) (cp_limit p)); [lia | discriminate H]. }
  split_and!; try lia; try done. clear Ho H. cbv zeta in H0. case_if_in H0; [discriminate|]. inv_ok. reflexivity.
Qed.

Section Authorize.
Context (sha256 : CreditDigest -> string).

Lemma authorizeCredit_debt t actor kh dto uuid now d r d' : debt_ok d -> authorizeCredit sha256 t actor kh dto uuid now d = Ok (r, d') -> debt_ok d'.
Proof.
  intros HD. unfold authorizeCredit. cbv zeta. destruct (String.eqb _ _); [done|]. intros H. inv_debt.
  locked HD.
  destruct (first _ _) as [[k a]|]; inv_debt; [destruct (negb _); by inv_debt|].
  match goal with H' : credit_check _ _ _ _ _ = Ok _ |- _ => apply credit_check_Ok in H' as (-> & He & Hl & Hp0 & Hh0 & Ha & _) end. cbn in *.
  debt_move 0 (xa_amount dto) HD1 Hp.
  - rewrite He. intros Hs. apply plus_exact; try lia. unfold plus in *. revert Hs. rewrite Z.abs_eq; [done|].
    match goal with H' : check_profile _ = true |- _ => unfold check_profile in H'; cbn in H'; rewrite He in H' end. unfold plus in *. bool_prop. lia.
  - intros k0. by rewrite held_new.
  - apply HD1.
  - apply rows_insert; [cbn; split; [lia | apply uuid_idem] | apply HD1].
Qed.
End Authorize.

Lemma lock_auth_Ok t i d a p d' : debt_ok d -> lock_auth t i d = Ok ((a, p), d') ->
  debt_ok d' /\ profiles d' !! (t, au_customer a) = Some p /\ auths d' !! (t, i) = Some a /\ 0 < au_amount a <= MAX_SAFE_INTEGER /\
  as_uuid (au_customer a) = au_customer a /\ same_cash d d' /\ same_journals d d' /\ check_profile p = true /\ cp_posted p <= MAX_SAFE_INTEGER /\
  cp_held p <= MAX_SAFE_INTEGER /\ auths d' = auths d.
Proof.
  intros HD. unfold lock_auth. intros H. inv_fin. destruct (auths _ !! _) as [a0|] eqn:Ea; inv_debt. pose proof (dk_auth _ HD _ _ Ea) as [Hpos Hu].
  locked HD.
  rewrite Hu in Hp. split_and!; try done; [by rewrite Eau | lia].
Qed.

(** A hold is never more than what the profile holds, so the subtraction never stops at zero. *)
Lemma held_after_exact d t i a p : debt_ok d -> auths d !! (t, i) = Some a -> au_state a = HELD -> profiles d !! (t, au_customer a) = Some p ->
  cp_held p <= MAX_SAFE_INTEGER -> held_after (cp_held p) (au_amount a) = cp_held p - au_amount a.
Proof.
  intros HD Ha Hs Hp Hm. pose proof (amount_le _ _ _ _ HD Ha Hs) as Hle. pose proof (dk_held _ HD (t, au_customer a)) as Hh. unfold held_of in Hh.
  rewrite Hp in Hh. rewrite <- (Hh Hm) in Hle. unfold held_after. destruct (dk_auth _ HD _ _ Ha) as [Hpos _]. rewrite (proj2 (Z.leb_le _ _) Hle).
  apply minus_small; lia.
Qed.

Lemma releaseAuthorization_debt t i actor reason by_ now d r d' : debt_ok d -> releaseAuthorization t i actor reason by_ now d = Ok (r, d') -> debt_ok d'.
Proof.
  intros HD. unfold releaseAuthorization. cbv zeta. intros H. inv_fin. destruct a as [a p].
  match goal with H' : lock_auth _ _ _ = Ok _ |- _ => apply (lock_auth_Ok _ _ _ _ _ _ HD) in H' as (HD1 & Hp & Hau & Ham & Hu & _ & _ & _ & Hm & Hh & _) end.
  destruct (au_state a) eqn:Es; inv_debt; try done. rewrite Hu in *. pose proof (held_after_exact _ _ _ _ _ HD1 Hau Es Hp Hh) as Hx.
  debt_move 0 (- au_amount a) HD1 Hp.
  - intros k0. by rewrite (held_done _ _ _ _ _ _ Hau).
  - apply HD1.
  - apply rows_insert; [cbn; by split; [lia|] | apply HD1].
Qed.

(** A receivable as it is recognized. *)
Lemma new_receivable_ok code customer order branch auth amount st si journal rkey now : 0 < amount -> as_uuid customer = customer ->
  receivable_ok (new_receivable code customer order branch auth amount st si journal rkey now).
Proof. intros Ha Hc. unfold receivable_ok, check_receivable. cbn. split_and!; [|done| |done]; [lia | split; [done | lia]]. Qed.

(** A debt is recognized: receivable, ledger entry and profile grow by the amount. *)
Lemma commitAuthorization_debt t i actor dto uuid now d r d' : debt_ok d -> commitAuthorization t i actor dto uuid now d = Ok (r, d') -> debt_ok d'.
Proof.
  intros HD. unfold commitAuthorization. cbv zeta. intros H. inv_fin. destruct a as [a p].
  match goal with H' : lock_auth _ _ _ = Ok _ |- _ => apply (lock_auth_Ok _ _ _ _ _ _ HD) in H' as (HD1 & Hp & Hau & Ham & Hu & _ & _ & Hcp & Hm & Hh & _) end.
  destruct (au_state a) eqn:Es; inv_debt; try done.
  match goal with H' : postJournalInTx _ _ _ _ _ = Ok _ |- _ => destruct (postJournal_debt _ _ _ _ _ _ _ H') as (E1 & E2 & E3 & E4) end.
  rewrite Hu in *. pose proof (held_after_exact _ _ _ _ _ HD1 Hau Es Hp Hh) as Hx. assert (Hp0 : 0 <= cp_posted p) by (unfold check_profile in Hcp; bool_prop; lia).
  match goal with Hn : receivables (set_sequence _ _ _) !! _ = None |- _ => cbn in Hn; rewrite E3 in Hn; rename Hn into Hnew end.
  eapply (debt_step _ _ _ _ _ (au_amount a) (- au_amount a) HD1 Hp); [lia | lia | cbn; by rewrite E1 | done | ..]; cbn.
  - match goal with H' : check_profile (with_posted _ _) = true |- _ => unfold check_profile in H'; cbn in H' end. bool_prop. intros Hs. apply plus_exact; lia.
  - lia.
  - intros k0. by rewrite E3, owed_new.
  - intros k0. by rewrite E4, booked_snoc.
  - intros k0. by rewrite E2, (held_done _ _ _ _ _ _ Hau).
  - rewrite E3. apply rows_insert; [apply new_receivable_ok; [lia | done] | apply HD1].
  - rewrite E2. apply rows_insert; [cbn; by split; [lia|] | apply HD1].
Qed.

Lemma recognizeReceivable_debt t actor kh dto uuid now d r d' : debt_ok d -> recognizeReceivable t actor kh dto uuid now d = Ok (r, d') -> debt_ok d'.
Proof.
  intros HD. unfold recognizeReceivable. cbv zeta. intros H. inv_debt. locked HD.
  destruct (first _ _) as [[k r0]|]; inv_debt; [destruct (_ || _); by inv_debt|].
  match goal with H' : credit_check _ _ _ _ _ = Ok _ |- _ => apply credit_check_Ok in H' as (-> & _ & Hl & Hp0 & Hh0 & Ha & _) end. inv_debt.
  match goal with H' : postJournalInTx _ _ _ _ _ = Ok _ |- _ => destruct (postJournal_debt _ _ _ _ _ _ _ H') as (E1 & E2 & E3 & E4) end.
  match goal with Hn : receivables (set_sequence _ _ _) !! _ = None |- _ => cbn in Hn; rewrite E3 in Hn; rename Hn into Hnew end.
  eapply (debt_step _ _ _ _ _ (rr_amount dto) 0 HD1 Hp); [lia | lia | cbn; by rewrite E1 | done | ..]; cbn.
  - match goal with H' : check_profile (with_posted _ _) = true |- _ => unfold check_profile in H'; cbn in H' end. bool_prop. intros Hs. apply plus_exact; lia.
  - lia.
  - intros k0. by rewrite E3, owed_new.
  - intros k0. by rewrite E4, booked_snoc.
  - intros k0. rewrite E2. auto.
  - rewrite E3. apply rows_insert; [apply new_receivable_ok; [lia | apply uuid_idem] | apply HD1].
  - rewrite E2. apply HD1.
Qed.

(** The holds that ran out, one after the other. *)
Lemma expire_step_debt now n e d n' d' : debt_ok d -> auths d !! e.1 = Some e.2 -> au_state e.2 = HELD -> expire_step now n e d = Ok (n', d') ->
  debt_ok d' /\ (forall k, k <> e.1 -> auths d' !! k = auths d !! k) /\ same_cash d d' /\ same_journals d d'.
Proof.
  intros HD Hau Es. unfold expire_step. cbv zeta. intros H. inv_debt. locked HD. destruct (dk_auth _ HD _ _ Hau) as [Hpos Hu]. rewrite Hu in *.
  destruct e as [[t i] a]. cbn in *. rewrite <- Eau in Hau. pose proof (held_after_exact _ _ _ _ _ HD1 Hau Es Hp Hh) as Hx. split_and!; [|..].
  - debt_move 0 (- au_amount a) HD1 Hp.
    + intros k0. by rewrite (held_done _ _ _ _ _ _ Hau).
    + apply HD1.
    + apply rows_insert; [cbn; by split; [lia|] | apply HD1].
  - intros k Hk. cbn. by rewrite lookup_insert_ne, Eau.
  - done.
  - done.
Qed.

Lemma expireStale_debt t now d n d' : debt_ok d -> expireStaleAuthorizations t now d = Ok (n, d') -> debt_ok d' /\ same_cash d d' /\ same_journals d d'.
Proof.
  intros HD. unfold expireStaleAuthorizations. intros H. inv_fin. set (rows := List.filter _ _) in H.
  assert (Hnd : NoDup (map fst rows)).
  { unfold rows. eapply sublist_NoDup; [apply (NoDup_fst_map_to_list (auths d))|]. generalize (map_to_list (auths d)). intros l.
    induction l as [|e l IH]; [done|]. cbn. destruct (overdue t now e); cbn; [by apply sublist_skip | by apply sublist_cons]. }
  assert (Hr : forall e, e ∈ rows -> auths d !! e.1 = Some e.2 /\ au_state e.2 = HELD).
  { intros e [He Ho]%list_elem_of_In%filter_In. destruct e as [k a]. apply list_elem_of_In, elem_of_map_to_list in He. split; [done|].
    unfold overdue in Ho. cbn in Ho. apply andb_true_iff in Ho as [[_ Ho]%andb_true_iff _]. by apply bool_decide_eq_true in Ho. }
  cut ((debt_ok d' /\ same_cash d d' /\ same_journals d d') /\ forall k, k ∉ map fst rows -> auths d' !! k = auths d !! k); [by intros []|].
  revert H. apply (for_each_ind (fun pre _ d1 => (debt_ok d1 /\ same_cash d d1 /\ same_journals d d1) /\ forall k, k ∉ map fst pre -> auths d1 !! k = auths d !! k)
    (expire_step now) rows 0 d n d'); [|by split; [split_and!|]].
  intros pre e post s d1 s' d2 El [(HD1 & HC & HJ) HI] Hs. rewrite El, map_app in Hnd. apply NoDup_app in Hnd as (_ & Hni & _).
  assert (He : e.1 ∉ map fst pre) by (intros Hin; apply (Hni e.1 Hin); cbn; left). pose proof (Hr e ltac:(rewrite El; apply elem_of_app; right; left)) as [Ha Es].
  rewrite <- (HI _ He) in Ha. destruct (expire_step_debt _ _ _ _ _ _ HD1 Ha Es Hs) as (HD2 & Hk & HC2 & HJ2). split.
  - split_and!; [done | by etransitivity | by etransitivity].
  - intros k Hn. rewrite map_app, not_elem_of_app in Hn. destruct Hn as [Hn1 Hn2]. rewrite Hk by (intros ->; apply Hn2; left). by apply HI.
Qed.

(** ** Payments *)

(** The documents of a payment: rows of the customer, each once. *)
Definition documents_of (t customer : string) (m : gmap key ReceivableRow) (docs : list (key * ReceivableRow)) : Prop :=
  NoDup (map (fun e => e.1.2) docs) /\ forall e, e ∈ docs -> m !! e.1 = Some e.2 /\ e.1.1 = t /\ rv_customer e.2 = customer.

Lemma open_documents_ok t customer target d : documents_of t customer (receivables d) (open_documents t customer target d).
Proof.
  unfold open_documents. destruct target as [i|].
  - destruct (receivables d !! (t, i)) as [r|] eqn:Er; [|split; [constructor | by intros e ?%not_elem_of_nil]].
    destruct (String.eqb_spec (rv_customer r) customer) as [<-|]; [|split; [constructor | by intros e ?%not_elem_of_nil]].
    split; [apply NoDup_singleton|]. intros e ->%list_elem_of_singleton. done.
  - set (l := List.filter (is_open_of t customer) (map_to_list (receivables d))).
    assert (Hl : forall e, e ∈ l -> receivables d !! e.1 = Some e.2 /\ e.1.1 = t /\ rv_customer e.2 = customer).
    { intros [k r] [He Ho]%list_elem_of_In%filter_In. apply list_elem_of_In, elem_of_map_to_list in He. unfold is_open_of in Ho. cbn in *.
      apply andb_true_iff in Ho as [[Ht Hc]%andb_true_iff _]. apply String.eqb_eq in Ht, Hc. done. }
    split; [|intros e; rewrite sort_by_perm; apply Hl]. rewrite (Permutation_map _ (sort_by_perm by_age l)).
    assert (Hk : NoDup (map fst l)).
    { unfold l. eapply sublist_NoDup; [apply (NoDup_fst_map_to_list (receivables d))|]. generalize (map_to_list (receivables d)). intros l0.
      induction l0 as [|e l0 IH]; [done|]. cbn. destruct (is_open_of t customer e); cbn; [by apply sublist_skip | by apply sublist_cons]. }
    clearbody l. induction l as [|e l IH]; [constructor|]. cbn in *. apply NoDup_cons in Hk as [Hn Hk]. constructor; [|apply IH; [intros e' He'; apply Hl; by right | done]].
    intros (e' & E & He')%list_elem_of_fmap. apply Hn. replace e.1 with e'.1; [by apply list_elem_of_fmap_2|].
    destruct (Hl e ltac:(left)) as (_ & T1 & _). destruct (Hl e' ltac:(by right)) as (_ & T2 & _). destruct e as [[] ?], e' as [[] ?]. cbn in *. congruence.
Qed.

Lemma read_documents_Ok docs d u d' : for_each read_document tt docs d = Ok (u, d') ->
  d' = d /\ forall e, e ∈ docs -> Z.abs (rv_original e.2) <= MAX_SAFE_INTEGER /\ Z.abs (rv_paid e.2) <= MAX_SAFE_INTEGER /\ Z.abs (rv_outstanding e.2) <= MAX_SAFE_INTEGER.
Proof.
  revert d. induction docs as [|e docs IH]; intros d H; cbn in H; inv_fin; [by split; [|intros e ?%not_elem_of_nil]|].
  unfold read_document in *. inv_debt. apply IH in H as [-> Hd]. split; [done|]. intros e' [->|He']%elem_of_cons; [done | by apply Hd].
Qed.

(** What the loop over the allocations has done after some of them. *)
Record applied (d1 : db) (k : key) (posted : Z) (docs : list (key * ReceivableRow)) (als : list CalculatedAllocationLine) (s : ApplyState) (d : db) : Prop := {
  ad_quiet : profiles d = profiles d1 /\ auths d = auths d1;
  ad_debt : ap_debt s = posted - allocated als;
  ad_fresh : forall e, e ∈ docs -> e.1.2 ∉ map al_documentId als -> receivables d !! e.1 = Some e.2;
  ad_owed : forall k0, owed k0 (receivables d) = owed k0 (receivables d1) + if decide (k0 = k) then - allocated als else 0;
  ad_booked : forall k0, booked k0 (debt_ledger d) = booked k0 (debt_ledger d1) + if decide (k0 = k) then - allocated als else 0;
  ad_rows : forall k0 r, receivables d !! k0 = Some r -> receivable_ok r }.

Lemma with_payment_ok r al docs : receivable_ok r -> check_receivable (with_payment r al) = true -> allocation_ok docs al ->
  al_outstandingBefore al = int (rv_outstanding r) -> receivable_ok (with_payment r al).
Proof.
  intros (Hc & Hadj & _ & Hu) Hck (doc & o & p & x & _ & _ & _ & _ & _ & Hx & _ & _ & Eo & Ea & Hs & _) Eb. rewrite Eb in Eo. injection Eo as <-.
  split_and!; [done | done | | done]. cbn. rewrite Ea. cbn. destruct (al_statusAfter al); split; intros E; try done.
  - assert (E' : x = rv_outstanding r) by lia. by apply Hs in E'.
  - assert (E' : x = rv_outstanding r) by (by apply Hs). lia.
Qed.

Section Payment.
Context (d1 : db) (t customer : string) (p : ProfileRow) (docs : list (key * ReceivableRow)) (als : list CalculatedAllocationLine).
Context (HD : debt_ok d1) (Hp : profiles d1 !! (t, customer) = Some p) (Hsafe : cp_posted p <= MAX_SAFE_INTEGER).
Context (Hdocs : documents_of t customer (receivables d1) docs) (Hids : NoDup (map al_documentId als)).
Context (Hals : Forall (allocation_ok (map snapshot docs)) als).

Lemma apply_step_applied cleanKey journal voucher actor method note single pre al post s d s' d' : als = pre ++ al :: post ->
  applied d1 (t, customer) (cp_posted p) docs pre s d ->
  apply_step t customer cleanKey journal voucher actor method note single docs s al d = Ok (s', d') ->
  applied d1 (t, customer) (cp_posted p) docs (pre ++ [al]) s' d'.
Proof using All.
  intros El HA H. revert El HA. unfold apply_step in H. destruct (List.find _ _) as [[[k1 k2] r]|] eqn:Ef; [|discriminate H]. cbv zeta in H.
  inv_fin. match goal with H' : update_receivable _ _ _ = Ok _ |- _ => apply update_receivable_Ok in H' as [-> Hck] end.
  match goal with H' : insert_debt _ _ = Ok _ |- _ => apply insert_debt_Ok in H' as -> end. intros El [[A1 A2] A3 A4 A5 A6 A7].
  apply find_some in Ef as [Hin%list_elem_of_In Eid%String.eqb_eq]. cbn in Eid. destruct Hdocs as [Hnd Hrow]. destruct (Hrow _ Hin) as (Hr & Et & Ec).
  cbn in Et, Ec. subst k1. assert (Hni : k2 ∉ map al_documentId pre).
  { rewrite El, map_app in Hids. apply NoDup_app in Hids as (_ & Hx & _). intros Hi. apply (Hx _ Hi). rewrite Eid. left. }
  pose proof (A4 _ Hin Hni) as Hcur. cbn in Hcur. pose proof (proj1 (Forall_forall _ _) Hals al ltac:(rewrite El; apply elem_of_app; right; left)) as Hal.
  pose proof Hal as (doc & o & q & x & (e & -> & He)%list_elem_of_fmap & Ed & _ & Eo & _ & Hx & Hm & Ex & Eb & Ea & _). cbn in Ed, Eo.
  assert (e = (t, k2, r)) as ->.
  { eapply (NoDup_map_inj (fun e : key * ReceivableRow => e.1.2)); [exact Hnd | done | done|]. cbn. congruence. }
  cbn in Eo. injection Eo as <-. match goal with H' : parseVnd _ _ _ = Ok _ |- _ => rewrite Ex in H'; apply parseVnd_pos in H' as (z & [= <-] & -> & _) end. cbn.
  assert (Htot : allocated (pre ++ [al]) = allocated pre + x) by (unfold allocated; by rewrite total_snoc, Ex).
  destruct (outstanding_le _ _ _ _ A7 Hcur) as [_ Hle]. rewrite Ec, A5, decide_True in Hle by done.
  pose proof (dk_posted _ HD (t, customer)) as Hpo. unfold posted_of in Hpo. rewrite Hp in Hpo. destruct (Hpo Hsafe) as [Hpo' _].
  split; cbn; [done | | | | |].
  - rewrite Htot, A3. unfold held_after. rewrite (proj2 (Z.leb_le _ _)) by lia. rewrite minus_small; [lia | lia |].
    assert (0 <= allocated pre); [|lia]. apply total_nonneg. intros a Ha. pose proof (proj1 (Forall_forall _ _) Hals a ltac:(rewrite El; apply elem_of_app; by left)) as Hpa.
    destruct Hpa as (? & ? & ? & y & _ & _ & _ & _ & _ & Hy & _ & -> & _). cbn. lia.
  - intros e' He' Hn'. rewrite map_app, not_elem_of_app in Hn'. destruct Hn' as [Hn1 Hn2]. rewrite lookup_insert_ne; [by apply A4|].
    intros E. apply Hn2. rewrite <- E. cbn. rewrite Eid. left.
  - intros k0. rewrite (owed_paid _ _ _ _ _ _ Hcur), A5, Htot, Ec by done. cbn. rewrite Ea. cbn. case_decide; lia.
  - intros k0. rewrite booked_snoc, A6, Htot. cbn. case_decide; lia.
  - apply rows_insert; [|done]. eapply with_payment_ok; [by eapply A7 | done | done | done].
Qed.

Lemma apply_loop_applied cleanKey journal voucher actor method note single s d s' d' :
  same_debt d1 d -> ap_debt s = cp_posted p ->
  for_each (apply_step t customer cleanKey journal voucher actor method note single docs) s als d = Ok (s', d') ->
  applied d1 (t, customer) (cp_posted p) docs als s' d'.
Proof using All.
  intros (E1 & E2 & E3 & E4) Es. apply (for_each_ind (fun pre s d => applied d1 (t, customer) (cp_posted p) docs pre s d)).
  - intros pre al post s0 d0 s1 d2 El HA Hs. by eapply apply_step_applied.
  - split; [done | unfold allocated, total; cbn; lia | | | |]; rewrite ?E3, ?E4.
    + intros e He _. by apply Hdocs.
    + intros k0. unfold allocated, total. cbn. auto.
    + intros k0. unfold allocated, total. cbn. auto.
    + apply HD.
Qed.
End Payment.

Lemma payer_Ok t rid cid d c d' : payer t rid cid d = Ok (c, d') -> d' = d.
Proof.
  unfold payer. destruct (given cid), (given rid); intros H; inv_fin; try done.
  destruct (receivables _ !! _); by inv_debt.
Qed.

Lemma payment_account_frame t dto branch uuid now d r d' : payment_account t dto branch uuid now d = Ok (r, d') -> same_debt d d' /\ same_journals d d'.
Proof.
  unfold payment_account. destruct (given (rp_account dto)); intros H; inv_fin.
  - destruct (cash_accounts _ !! _); by inv_debt.
  - split; [by eapply ensureCashAccount_debt | by eapply ensureCashAccount_journals].
Qed.

Lemma payment_account_cash t dto branch uuid now d r d' : cash_ok d -> payment_account t dto branch uuid now d = Ok (r, d') -> cash_ok d'.
Proof.
  intros HC. unfold payment_account. destruct (given (rp_account dto)); intros H; inv_fin; [destruct (cash_accounts _ !! _); by inv_debt|].
  by eapply ensureCashAccount_cash.
Qed.

Lemma documents_ok docs t customer m : documents_of t customer m docs -> (forall k r, m !! k = Some r -> receivable_ok r) ->
  (forall e, e ∈ docs -> Z.abs (rv_original e.2) <= MAX_SAFE_INTEGER /\ Z.abs (rv_paid e.2) <= MAX_SAFE_INTEGER /\ Z.abs (rv_outstanding e.2) <= MAX_SAFE_INTEGER) ->
  Forall doc_ok (map snapshot docs).
Proof.
  intros [_ Hr] Hok Hb. apply Forall_forall. intros s (e & -> & He)%list_elem_of_fmap. destruct (Hr e He) as (Hm & _ & _). apply Hok in Hm as (Hc & _).
  unfold check_receivable in Hc. bool_prop. destruct (Hb e He) as (_ & ? & ?). exists (rv_outstanding e.2), (rv_paid e.2). cbn. split_and!; (done || lia).
Qed.

(** The profile a payment leaves: the debt after the loop, and the prepayment. *)
Lemma prepayment_Ok (overpay : number) p d p' d' :
  (if nlt (int 0) overpay then prev ← vnd (cp_prepayment p) true false; mret (with_prepayment p (plus prev (nval overpay))) else mret p) d = Ok (p', d') ->
  d' = d /\ cp_posted p' = cp_posted p /\ cp_held p' = cp_held p /\ cp_limit p' = cp_limit p.
Proof. destruct (nlt _ _); intros H; by inv_debt. Qed.

Lemma apply_payment_debt t rid cid actor k dto uuid now d r d' : debt_ok d -> apply_payment t rid cid actor k dto uuid now d = Ok (r, d') -> debt_ok d'.
Proof.
  intros HD. unfold apply_payment. intros H. inv_fin. match goal with H' : payer _ _ _ _ = Ok _ |- _ => apply payer_Ok in H' as -> end. locked HD.
  match goal with H' : for_each read_document _ ?ds _ = Ok _ |- _ => set (docs := ds) in *; apply read_documents_Ok in H' as [-> Hb] end.
  pose proof (open_documents_ok t (as_uuid a) (as_uuid <$> given rid) d1) as Hdocs. fold docs in Hdocs. clearbody docs. destruct docs as [|doc0 docs']; [discriminate H|].
  set (docs := doc0 :: docs') in *. cbv zeta in H. inv_fin.
  match goal with H' : calculateDocumentAllocations _ _ _ _ _ = Ok ?x |- _ => rename H' into Hcalc; rename x into res end.
  destruct (accepted_allocation _ _ _ _ _ _ (documents_ok _ _ _ _ Hdocs (dk_receivable _ HD1) Hb) Hcalc) as (P & _ & _ & Hals & _).
  assert (Hids : NoDup (map ob_id (map snapshot docs))) by (rewrite map_map; exact (proj1 Hdocs)). apply (allocation_ids _ _ _ _ _ _) with (2 := Hcalc) in Hids.
  match goal with H' : payment_account _ _ _ _ _ _ = Ok (_, ?x) |- _ => destruct (payment_account_frame _ _ _ _ _ _ _ _ H') as [F1 _] end.
  match goal with H' : postJournalInTx _ _ _ _ _ = Ok _ |- _ => pose proof (postJournal_debt _ _ _ _ _ _ _ H') as F2 end.
  match goal with H' : createAndOptionallyPostVoucherInTx _ _ _ _ _ = Ok _ |- _ => pose proof (createAndPost_debt _ _ _ _ _ _ _ H') as F3 end.
  match goal with H' : vnd (cp_posted _) _ _ _ = Ok _ |- _ => apply vnd_Ok in H' as (-> & -> & _) end.
  match goal with H' : for_each (apply_step _ _ _ _ _ _ _ _ _ _) _ _ _ = Ok _ |- _ =>
    apply (apply_loop_applied _ _ _ _ _ _ HD1 Hp Hm Hdocs Hids Hals) in H'; [|etransitivity; [exact F1 | etransitivity; [exact F2 | exact F3]] | done] end.
  match goal with H' : applied _ _ _ _ _ _ _ |- _ => destruct H' as [[A1 A2] A3 _ A5 A6 A7] end.
  match goal with H' : (if nlt (int 0) _ then _ else _) _ = Ok _ |- _ => apply prepayment_Ok in H' as (-> & Q1 & Q2 & _) end.
  match goal with H' : save_profile _ _ _ = Ok _ |- _ => apply save_profile_Ok in H' as [-> Hck] end.
  match type of H with match ?u with _ => _ end _ = _ => destruct u as [|[i0 r0] us]; [discriminate H|] end. inv_fin. cbn in Q1, Q2.
  eapply (debt_step _ _ _ _ _ (- allocated (pa_allocations res)) 0 HD1 Hp); [lia | lia | cbn; by rewrite A1 | done | ..]; cbn; rewrite ?A2; auto; try lia.
  apply HD1.
Qed.

Lemma recordPayment_debt t rid cid actor kh dto uuid now d r d' : debt_ok d -> recordReceivablePayment t rid cid actor kh dto uuid now d = Ok (r, d') -> debt_ok d'.
Proof.
  intros HD. unfold recordReceivablePayment. cbv zeta. intros H. inv_fin. destruct (List.find _ _) as [e|]; [|by eapply apply_payment_debt].
  inv_debt. match goal with H' : match ?rec with _ => _ end ?x = Ok (_, ?y) |- _ => assert (y = x) as -> by (destruct rec; by inv_debt) end. locked HD. done.
Qed.

(** ** Exposure stays within the limit *)

Section Exposure.
Lemma within_exposure d d' : (forall k, exposure d' k = exposure d k) -> within d d'.
Proof. intros He k p Hp _ _. rewrite <- He. unfold exposure, posted_of, held_of. rewrite Hp. lia. Qed.

Lemma lock_exposure t c d p d' : lockOrCreateProfileInTx t c d = Ok (p, d') -> profiles d' !! (t, as_uuid c) = Some p /\ forall k, exposure d' k = exposure d k.
Proof.
  unfold lockOrCreateProfileInTx. cbv zeta. intros H. inv_fin. destruct (profiles _ !! _) as [p0|] eqn:Ep; inv_debt; [done|]. cbn. rewrite lookup_insert_eq.
  split; [done|]. intros k. unfold exposure, posted_of, held_of. cbn. destruct (decide (k = (t, as_uuid c))) as [->|]; [by rewrite lookup_insert_eq, Ep | by rewrite lookup_insert_ne].
Qed.

Lemma held_after_le h a : 0 <= h <= MAX_SAFE_INTEGER -> 0 < a -> 0 <= held_after h a <= h.
Proof. intros Hh Ha. unfold held_after. destruct (Z.leb_spec a h); [rewrite minus_small; lia | lia]. Qed.

Ltac exposed :=
  match goal with H : lockOrCreateProfileInTx _ _ _ = Ok _ |- _ => apply lock_exposure in H as [Hp He] end.

Lemma updateCreditLimit_within t c z d r d' : updateCreditLimit t c z d = Ok (r, d') -> within d d'.
Proof. unfold updateCreditLimit. cbv zeta. intros H. inv_debt. exposed. eapply within_step; [done | done | reflexivity|]. cbn. lia. Qed.

Lemma authorizeCredit_within hash t actor kh dto uuid now d r d' : is_override (xa_overrideBy dto) = false ->
  authorizeCredit hash t actor kh dto uuid now d = Ok (r, d') -> within d d'.
Proof.
  intros Ho. unfold authorizeCredit. cbv zeta. destruct (String.eqb _ _); [done|]. intros H. inv_debt. exposed.
  destruct (first _ _) as [[k a]|]; inv_debt; [destruct (negb _); inv_debt; by apply within_exposure|].
  match goal with H' : credit_check _ _ _ _ _ = Ok _ |- _ => apply credit_check_Ok in H' as (-> & Hx & Hl & Hp0 & Hh0 & Ha & Hle) end. specialize (Hle Ho).
  eapply within_step; [done | done | reflexivity|]. cbn. rewrite Hx. unfold plus, MAX_SAFE_INTEGER in *. rewrite nadd_int by lia. cbn. lia.
Qed.

Lemma recognizeReceivable_within t actor kh dto uuid now d r d' : is_override (rr_overrideBy dto) = false ->
  recognizeReceivable t actor kh dto uuid now d = Ok (r, d') -> within d d'.
Proof.
  intros Ho. unfold recognizeReceivable. cbv zeta. intros H. inv_debt. exposed.
  destruct (first _ _) as [[k r0]|]; inv_debt; [destruct (_ || _); inv_debt; by apply within_exposure|].
  match goal with H' : credit_check _ _ _ _ _ = Ok _ |- _ => apply credit_check_Ok in H' as (-> & Hx & Hl & Hp0 & Hh0 & Ha & Hle) end. specialize (Hle Ho). inv_debt.
  match goal with H' : postJournalInTx _ _ _ _ _ = Ok _ |- _ => destruct (postJournal_debt _ _ _ _ _ _ _ H') as (E1 & _) end.
  eapply within_step; [done | done | cbn; by rewrite E1|]. cbn. unfold plus, MAX_SAFE_INTEGER in *. rewrite nadd_int by lia. cbn. lia.
Qed.

Lemma releaseAuthorization_within t i actor reason by_ now d r d' : debt_ok d -> releaseAuthorization t i actor reason by_ now d = Ok (r, d') -> within d d'.
Proof.
  intros HD. unfold releaseAuthorization, lock_auth. cbv zeta. intros H. inv_fin. destruct a as [a p]. inv_fin. destruct (auths _ !! _) as [a0|] eqn:Ea; inv_debt.
  destruct (dk_auth _ HD _ _ Ea) as [Ham _]. exposed. destruct (au_state a0); inv_debt; try (by apply within_exposure).
  eapply within_step; [done | done | reflexivity|]. cbn. intros _ _. match goal with |- context [held_after ?h ?x] => pose proof (held_after_le h x ltac:(lia) Ham) end. lia.
Qed.

Lemma commitAuthorization_within t i actor dto uuid now d r d' : debt_ok d -> commitAuthorization t i actor dto uuid now d = Ok (r, d') -> within d d'.
Proof.
  intros HD. unfold commitAuthorization. cbv zeta. intros H. inv_fin. destruct a as [a p].
  assert (He : forall k, exposure d0 k = exposure d k).
  { unfold lock_auth in *. inv_fin. destruct (auths _ !! _); inv_debt. by exposed. }
  match goal with H' : lock_auth _ _ _ = Ok _ |- _ => apply (lock_auth_Ok _ _ _ _ _ _ HD) in H' as (HD1 & Hp & Hau & Ham & Hu & _ & _ & Hcp & Hm & Hh & _) end.
  destruct (au_state a) eqn:Es; inv_debt; try (by apply within_exposure).
  match goal with H' : postJournalInTx _ _ _ _ _ = Ok _ |- _ => destruct (postJournal_debt _ _ _ _ _ _ _ H') as (E1 & _) end. rewrite Hu in *.
  eapply within_step; [done | exact Hp | cbn; by rewrite E1|]. cbn. rewrite (held_after_exact _ _ _ _ _ HD1 Hau Es Hp Hh). unfold check_profile in *. cbn in *. bool_prop.
  intros Hs _. rewrite plus_exact by lia. lia.
Qed.

Lemma expireStale_within t now d n d' : debt_ok d -> expireStaleAuthorizations t now d = Ok (n, d') -> within d d'.
Proof.
  intros HD. unfold expireStaleAuthorizations. intros H. inv_fin. set (rows := List.filter _ _) in H.
  assert (Hr : forall e, e ∈ rows -> 0 < au_amount e.2).
  { intros [k a] [He _]%list_elem_of_In%filter_In. apply list_elem_of_In, elem_of_map_to_list in He. by apply (dk_auth _ HD _ _ He). }
  cut (forall k, exposure d' k <= exposure d k).
  { intros Hx k p Hp _ _. specialize (Hx k). unfold exposure at 1, posted_of, held_of in Hx. rewrite Hp in Hx. lia. }
  revert H. apply (for_each_inv (fun _ d1 => forall k, exposure d1 k <= exposure d k)); [|done].
  intros s e d1 s' d2 He0 HI Hs. unfold expire_step in Hs. cbv zeta in Hs. inv_debt. exposed. intros k. etransitivity; [|apply HI]. rewrite <- He.
  unfold exposure, posted_of, held_of. cbn. destruct (decide ((e.1.1, as_uuid (au_customer e.2)) = k)) as [<-|]; [|by rewrite lookup_insert_ne].
  rewrite lookup_insert_eq, Hp. cbn. match goal with |- context [held_after ?h ?a] => pose proof (held_after_le h a ltac:(lia) (Hr _ He0)) end. lia.
Qed.

Lemma apply_loop_le t c k j v actor method note single docs als s d s' d' : 0 <= ap_debt s <= MAX_SAFE_INTEGER ->
  for_each (apply_step t c k j v actor method note single docs) s als d = Ok (s', d') -> ap_debt s' <= ap_debt s /\ profiles d' = profiles d.
Proof.
  intros Hs H. cut (0 <= ap_debt s' <= ap_debt s /\ profiles d' = profiles d); [intros [[] ?]; done|]. revert H.
  apply (for_each_inv (fun s1 d1 => 0 <= ap_debt s1 <= ap_debt s /\ profiles d1 = profiles d)); [|by split; [lia|]].
  intros s1 al d1 s2 d2 _ [HI HE] Hst. unfold apply_step in Hst. destruct (List.find _ _) as [[k1 r]|]; [|discriminate Hst]. cbv zeta in Hst. inv_fin.
  match goal with H' : update_receivable _ _ _ = Ok _ |- _ => apply update_receivable_Ok in H' as [-> _] end.
  match goal with H' : insert_debt _ _ = Ok _ |- _ => apply insert_debt_Ok in H' as -> end.
  match goal with H' : parseVnd _ _ _ = Ok _ |- _ => apply parseVnd_pos in H' as (z & _ & -> & Hz) end. cbn.
  pose proof (held_after_le (ap_debt s1) z ltac:(lia) ltac:(lia)). split; [lia | done].
Qed.

Lemma apply_payment_within t rid cid actor k dto uuid now d r d' : apply_payment t rid cid actor k dto uuid now d = Ok (r, d') -> within d d'.
Proof.
  unfold apply_payment. intros H. inv_fin. match goal with H' : payer _ _ _ _ = Ok _ |- _ => apply payer_Ok in H' as -> end. exposed.
  match goal with H' : for_each read_document _ ?ds _ = Ok _ |- _ => set (docs := ds) in *; apply read_documents_Ok in H' as [-> _] end. clearbody docs.
  destruct docs as [|doc0 docs']; [discriminate H|]. cbv zeta in H. inv_fin.
  match goal with H' : payment_account _ _ _ _ _ _ = Ok (_, ?x) |- _ => destruct (payment_account_frame _ _ _ _ _ _ _ _ H') as [(F1 & _) _] end.
  match goal with H' : postJournalInTx _ _ _ _ _ = Ok _ |- _ => destruct (postJournal_debt _ _ _ _ _ _ _ H') as (F2 & _) end.
  match goal with H' : createAndOptionallyPostVoucherInTx _ _ _ _ _ = Ok _ |- _ => destruct (createAndPost_debt _ _ _ _ _ _ _ H') as (F3 & _) end.
  match goal with H' : vnd (cp_posted _) _ _ _ = Ok _ |- _ => apply vnd_Ok in H' as (-> & -> & Hb & Hn & _) end.
  match goal with H' : for_each (apply_step _ _ _ _ _ _ _ _ _ _) _ _ _ = Ok _ |- _ => apply apply_loop_le in H' as [Hle F4]; [|cbn; lia] end.
  match goal with H' : (if nlt (int 0) _ then _ else _) _ = Ok _ |- _ => apply prepayment_Ok in H' as (-> & Q1 & Q2 & Q3) end.
  match goal with H' : save_profile _ _ _ = Ok _ |- _ => apply save_profile_Ok in H' as [-> _] end.
  match type of H with match ?u with _ => _ end _ = _ => destruct u as [|[i0 r0] us]; [discriminate H|] end. inv_fin. cbn in Q1, Q2, Hle.
  eapply within_step; [done | done | cbn; by rewrite F4, F3, F2, F1|]. rewrite Q1, Q2. lia.
Qed.

Lemma recordPayment_within t rid cid actor kh dto uuid now d r d' : recordReceivablePayment t rid cid actor kh dto uuid now d = Ok (r, d') -> within d d'.
Proof.
  unfold recordReceivablePayment. cbv zeta. intros H. inv_fin. destruct (List.find _ _) as [e|]; [|by eapply apply_payment_within]. inv_debt.
  match goal with H' : match ?rec with _ => _ end ?x = Ok (_, ?y) |- _ => assert (y = x) as -> by (destruct rec; by inv_debt) end. exposed.
  by apply within_exposure.
Qed.
End Exposure.
