(* ===== verification/SupplierDebtBooks.v ===== *)
(** * The books on suppliers

    What every request to the payables service keeps: the debt to a supplier is what
    the open payables and the supplier ledger say, the ledger is a running balance,
    and a payable is paid plus credited plus outstanding; and what the handlers of the
    service leave alone. *)

From S2P Require Import Prelude Transaction JsNumber JsString FinanceDomain FinanceLedger CustomerDebt SupplierDebt FinanceLedgerBooks CustomerDebtBooks.

Open Scope Z_scope.

(** ** Frames *)

Definition same_trade (d d' : db) : Prop := trade d' = trade d.

#[export] Instance same_trade_preorder : PreOrder same_trade.
Proof. split; [done | intros d1 d2 d3 H1 H2; unfold same_trade in *; congruence]. Qed.

Lemma postJournal_trade t input uuid now : Keeps same_trade (postJournalInTx t input uuid now).
Proof. frame. Qed.
#[export] Hint Resolve postJournal_trade : keeps.
Lemma reverseJournal_trade t i actor reason jkey uuid now : Keeps same_trade (reverseJournalInTx t i actor reason jkey uuid now).
Proof. frame. Qed.
Lemma postEntry_trade t i actor vkey linked uuid now : Keeps same_trade (postEntryInTx t i actor vkey linked uuid now).
Proof. frame. Qed.
#[export] Hint Resolve reverseJournal_trade postEntry_trade : keeps.
Lemma createAndPost_trade t input uuid now : Keeps same_trade (createAndOptionallyPostVoucherInTx t input uuid now).
Proof. frame. Qed.
Lemma ensureCashAccount_trade t branch bank uuid now : Keeps same_trade (ensureDefaultCashAccountInTx t branch bank uuid now).
Proof. frame. Qed.
#[export] Hint Resolve createAndPost_trade ensureCashAccount_trade : keeps.

(** ** Runs that succeed *)

Definition safe_payable (p : PayableRow) : Prop :=
  Z.abs (pb_original p) <= MAX_SAFE_INTEGER /\ Z.abs (pb_paid p) <= MAX_SAFE_INTEGER /\ Z.abs (pb_outstanding p) <= MAX_SAFE_INTEGER.

Section Reads.
Lemma read_payable_Ok p d r d' : read_payable p d = Ok (r, d') -> r = p /\ d' = d /\ safe_payable p.
Proof.
  unfold read_payable. intros H. inv_fin. repeat match goal with H' : toMoney _ _ = Ok _ |- _ => apply money_Ok in H' as [[= -> ->] ?] end. done.
Qed.

Lemma read_entry_Ok e d r d' : read_entry e d = Ok (r, d') -> r = e /\ d' = d.
Proof.
  unfold read_entry. intros H. inv_fin. repeat match goal with H' : toMoney _ _ = Ok _ |- _ => apply money_Ok in H' as [[= -> ->] ?] end. done.
Qed.

Lemma find_payable_Ok t i d r d' : find_payable t i d = Ok (r, d') ->
  d' = d /\ r = payables (trade d) !! (t, i) /\
  forall p, r = Some p -> safe_payable p.
Proof.
  unfold find_payable. intros H. inv_fin. destruct (_ !! _) as [p|] eqn:Ep; inv_fin; [|done].
  match goal with H' : read_payable _ _ = Ok _ |- _ => apply read_payable_Ok in H' as (-> & -> & ?) end. split_and!; try done. by intros ? [= <-].
Qed.

Lemma insert_payable_Ok k p d u d' : insert_payable k p d = Ok (u, d') ->
  d' = set_payable k p d /\ payables (trade d) !! k = None /\ check_payable p = true.
Proof.
  unfold insert_payable. intros H. inv_fin. destruct (_ || _) eqn:E in H; inv_fin. apply orb_false_iff in E as [[E1 _]%orb_false_iff E2%negb_false_iff].
  split_and!; [done | by apply taken_none | done].
Qed.

Lemma update_payable_Ok k p d u d' : update_payable k p d = Ok (u, d') -> d' = set_payable k p d /\ check_payable p = true.
Proof. unfold update_payable. destruct (check_payable p); intros H; by inv_fin. Qed.

Lemma insert_supplier_entry_Ok e d u d' : insert_supplier_entry e d = Ok (u, d') -> d' = add_supplier_entry e d /\ 0 <= sl_after e /\
  forall x, x ∈ supplier_ledger (trade d) -> of_entry_key (sl_tenant e) (sl_key e) x = false.
Proof.
  unfold insert_supplier_entry. intros H. inv_fin. destruct (_ || _) eqn:E in H; inv_fin. apply orb_false_iff in E as [[E1 _]%orb_false_iff E2%negb_false_iff].
  split_and!; [done | by apply Z.leb_le|]. by apply existsb_false.
Qed.

Lemma supplier_debt_Ok t s d x d' : computeSupplierTotalDebtInTx t s d = Ok (x, d') ->
  d' = d /\ x = open_total t (as_uuid s) (payables (trade d)) /\ Z.abs x <= MAX_SAFE_INTEGER.
Proof. unfold computeSupplierTotalDebtInTx. intros H. inv_fin. destruct (int8 _); inv_fin. by apply money_Ok in H as [[= -> ->] ?]. Qed.

Lemma read_payable_docs_Ok docs d u d' : for_each read_payable_doc tt docs d = Ok (u, d') ->
  d' = d /\ forall e, e ∈ docs -> safe_payable e.2.
Proof.
  revert d. induction docs as [|e docs IH]; intros d H; cbn in H; inv_fin; [by split; [|intros e ?%not_elem_of_nil]|].
  unfold read_payable_doc in *. inv_fin. match goal with H' : read_payable _ _ = Ok _ |- _ => apply read_payable_Ok in H' as (-> & -> & ?) end.
  apply IH in H as [-> Hd]. split; [done|]. intros e' [->|He']%elem_of_cons; [done | by apply Hd].
Qed.
End Reads.

Ltac inv_ap_step := first [ inv_debt_step
  | match goal with
    | H : read_payable _ _ = Ok (_, _) |- _ => apply read_payable_Ok in H as (? & ? & ?)
    | H : read_entry _ _ = Ok (_, _) |- _ => apply read_entry_Ok in H as [? ?]
    | H : find_payable _ _ _ = Ok (_, _) |- _ => apply find_payable_Ok in H as (? & ? & ?)
    | H : computeSupplierTotalDebtInTx _ _ _ = Ok (_, _) |- _ => apply supplier_debt_Ok in H as (? & ? & ?)
    end ].
Ltac inv_ap := repeat (inv_ap_step; try subst).
Ltac vnd_facts := repeat match goal with H : false = false -> _ |- _ => specialize (H eq_refl) end.

(** ** The figures of a supplier *)

Definition owing (k : key) (m : gmap key PayableRow) : Z := ksum (fun k' p => if is_of k k' (pb_supplier p) then pb_outstanding p else 0) m.
Definition of_supplier (k : key) (e : SupplierDebtRow) : bool := String.eqb (sl_tenant e) k.1 && String.eqb (sl_supplier e) k.2.
Definition entered (k : key) (l : list SupplierDebtRow) : Z := total sl_delta (List.filter (of_supplier k) l).

Definition closed (s : PayableStatus) : bool := match s with AP_PAID | AP_ADJUSTED => true | _ => false end.

Definition payable_ok (p : PayableRow) : Prop :=
  check_payable p = true /\ 0 <= pb_adjusted p /\ pb_status p <> AP_REVERSED /\ (closed (pb_status p) = true <-> pb_outstanding p = 0) /\
  as_uuid (pb_supplier p) = pb_supplier p.

(** A ledger in which every entry starts where the supplier's last one ended. *)
Definition running (l : list SupplierDebtRow) : Prop := forall pre e post, l = pre ++ e :: post ->
  sl_before e = entered (sl_tenant e, sl_supplier e) pre /\ 0 <= sl_before e /\ 0 <= sl_after e /\
  (sl_after e <= MAX_SAFE_INTEGER -> sl_after e = sl_before e + sl_delta e).

Record supplier_ok (m : trade_db) : Prop := {
  so_debt : forall k, owing k (payables m) = entered k (supplier_ledger m);
  so_rows : forall k p, payables m !! k = Some p -> payable_ok p;
  so_ledger : running (supplier_ledger m) }.

Section Figures.
Lemma owing_new k t i p m : m !! (t, i) = None -> owing k (<[(t, i) := p]> m) = owing k m + if decide (k = (t, pb_supplier p)) then pb_outstanding p else 0.
Proof. intros H. unfold owing. by rewrite ksum_insert_new, is_of_split. Qed.

Lemma owing_changed k t i p p' m : m !! (t, i) = Some p -> pb_supplier p' = pb_supplier p ->
  owing k (<[(t, i) := p']> m) = owing k m + if decide (k = (t, pb_supplier p)) then pb_outstanding p' - pb_outstanding p else 0.
Proof. intros H E. unfold owing. rewrite (ksum_insert_old _ _ _ _ _ H), !is_of_split, E. case_decide; lia. Qed.

Lemma entered_snoc k l e : entered k (l ++ [e]) = entered k l + if decide (k = (sl_tenant e, sl_supplier e)) then sl_delta e else 0.
Proof.
  unfold entered. rewrite List.filter_app, total_app. cbn. destruct k as [k1 k2]. unfold of_supplier. cbn.
  destruct (String.eqb_spec (sl_tenant e) k1) as [<-|], (String.eqb_spec (sl_supplier e) k2) as [<-|]; cbn; case_decide; unfold total; cbn; (congruence || lia).
Qed.

Lemma payable_nonneg p : payable_ok p -> 0 <= pb_outstanding p.
Proof. intros (Hc & _). unfold check_payable in Hc. bool_prop. lia. Qed.

Lemma owing_le m t i p : (forall k x, m !! k = Some x -> payable_ok x) -> m !! (t, i) = Some p -> 0 <= pb_outstanding p <= owing (t, pb_supplier p) m.
Proof.
  intros HD Hp. split; [by eapply payable_nonneg, HD|]. unfold owing.
  pose proof (ksum_elem_le (fun k' r0 => if is_of (t, pb_supplier p) k' (pb_supplier r0) then pb_outstanding r0 else 0) m (t, i) p) as Hle.
  cbn in Hle. rewrite is_of_split, decide_True in Hle by done. apply Hle; [|done]. intros k x Hx. case_match; [by eapply payable_nonneg, HD | lia].
Qed.

(** The sum of the open payables is the whole debt: a closed one owes nothing. *)
Lemma open_total_owing t s m : (forall k x, m !! k = Some x -> payable_ok x) -> open_total t s m = owing (t, s) m.
Proof.
  intros HD. unfold open_total, owing, ksum.
  assert (Hl : forall e, e ∈ map_to_list m -> payable_ok e.2) by (intros [k x] He%elem_of_map_to_list; by eapply HD).
  induction (map_to_list m) as [|e l IH]; [done|]. specialize (IH ltac:(intros x Hx; apply Hl; by right)).
  assert (He : payable_ok e.2) by (apply Hl; left). destruct He as (_ & _ & Hr & Hs & _). unfold total in *. cbn. rewrite <- IH. unfold is_of. cbn. unfold is_open_payable at 1.
  destruct (String.eqb e.1.1 t), (String.eqb (pb_supplier e.2) s); cbn; try done.
  destruct (pb_status e.2); cbn in *; try done; symmetry; (replace (pb_outstanding e.2) with 0; [done|symmetry; by apply Hs]).
Qed.
End Figures.

(** One payable and one entry of its supplier. *)
Lemma supplier_move m m' t s k p e x : supplier_ok m ->
  payables m' = <[k := p]> (payables m) -> supplier_ledger m' = supplier_ledger m ++ [e] -> payable_ok p ->
  (forall k0, owing k0 (payables m') = owing k0 (payables m) + if decide (k0 = (t, s)) then x else 0) ->
  sl_tenant e = t -> sl_supplier e = s -> sl_delta e = x -> sl_before e = owing (t, s) (payables m) -> 0 <= sl_after e ->
  (sl_after e <= MAX_SAFE_INTEGER -> sl_after e = sl_before e + sl_delta e) -> supplier_ok m'.
Proof.
  intros [S1 S2 S3] Ep El Hp Ho <- <- <- Hb Ha Hs. split.
  - intros k0. rewrite Ho, El, entered_snoc, S1. done.
  - rewrite Ep. by apply (rows_insert (fun _ p => payable_ok p)).
  - rewrite El. intros pre e0 post E. destruct post as [|e1 post _] using rev_ind.
    + apply app_inj_tail in E as [<- <-]. split_and!; [by rewrite <- S1 | | done | done]. rewrite Hb. apply ksum_nonneg.
      intros k1 p1 H1. case_match; [by eapply payable_nonneg, S2 | lia].
    + rewrite app_comm_cons, app_assoc in E. apply app_inj_tail in E as [E _]. by eapply S3.
Qed.

(** A payable whose figures stay. *)
Lemma supplier_same_figures m m' k p p' : supplier_ok m -> payables m !! k = Some p -> payables m' = <[k := p']> (payables m) ->
  supplier_ledger m' = supplier_ledger m -> pb_supplier p' = pb_supplier p -> pb_outstanding p' = pb_outstanding p -> payable_ok p' -> supplier_ok m'.
Proof.
  intros [S1 S2 S3] Hk Ep El Es Eo Hp. destruct k as [t i]. split; rewrite ?El, ?Ep; [|by apply (rows_insert (fun _ p => payable_ok p))|done].
  intros k0. rewrite (owing_changed _ _ _ _ _ _ Hk Es), S1, Eo. case_decide; lia.
Qed.

(** ** Recognition *)

Lemma recognize_new_ok t actor st si pk z dto uuid now d r d' : supplier_ok (trade d) -> 0 < z <= MAX_SAFE_INTEGER ->
  recognize_new t actor st si pk z dto uuid now d = Ok (r, d') -> supplier_ok (trade d').
Proof.
  intros HS Hz. unfold recognize_new. cbv zeta. intros H. inv_ap.
  match goal with H' : postJournalInTx _ _ _ _ _ = Ok _ |- _ => pose proof (postJournal_trade _ _ _ _ _ _ _ H') as HT; unfold same_trade in HT; clear H' end.
  inv_ap. match goal with H' : insert_payable _ _ _ = Ok _ |- _ => apply insert_payable_Ok in H' as (-> & Hn & Hc) end.
  match goal with H' : insert_supplier_entry _ _ = Ok _ |- _ => apply insert_supplier_entry_Ok in H' as (-> & Ha & _) end. cbn in Hn, Ha |- *. rewrite HT in *.
  rewrite (open_total_owing _ _ _ (so_rows _ HS)) in *.
  eapply (supplier_move (trade d) _ t (as_uuid (pd_supplier dto))); [done | reflexivity | reflexivity | | | done..| |].
  - split_and!; cbn; try done; [|by apply uuid_idem]. split; [done|]. unfold check_payable in Hc. cbn in Hc. bool_prop. lia.
  - intros k0. cbn [payables]. by rewrite owing_new.
  - done.
  - cbn. intros Hs. rewrite plus_exact by lia. done.
Qed.

Lemma recognizePayable_ok t actor kh dto uuid now d r d' : supplier_ok (trade d) -> recognizePayable t actor kh dto uuid now d = Ok (r, d') -> supplier_ok (trade d').
Proof.
  intros HS. unfold recognizePayable. cbv zeta. intros H. inv_ap. destruct (first _ _) as [[k p]|] eqn:Ef; [|vnd_facts; eapply recognize_new_ok in H; [done | done | lia]].
  apply first_Some in Ef as [Hk _]. inv_ap.
  match goal with H' : attach_receipt _ _ _ _ = Ok _ |- _ => rename H' into Hr; unfold attach_receipt in Hr end.
  destruct (given (pd_receipt dto)) as [i|], (given (pb_receipt p)) as [j|]; inv_ap; try done.
  match goal with H' : update_payable _ _ _ = Ok _ |- _ => apply update_payable_Ok in H' as [-> Hc] end.
  eapply supplier_same_figures; [done | exact Hk | reflexivity..|]. destruct (so_rows _ HS _ _ Hk) as (_ & ? & ? & ? & ?). done.
Qed.

(** ** Credit for returned goods *)

Lemma credit_payable_ok t i actor k z p dto uuid now d r d' : supplier_ok (trade d) -> payables (trade d) !! (t, i) = Some p -> 0 < z ->
  safe_payable p -> credit_payable t i actor k z p dto uuid now d = Ok (r, d') -> supplier_ok (trade d').
Proof.
  intros HS Hk Hz (Hor & Hpd & Ho). unfold credit_payable, book_credit. cbv zeta. intros H. inv_ap. destruct (Z.ltb_spec (pb_outstanding p) z) as [|Hle]; inv_ap.
  match goal with H' : postJournalInTx _ _ _ _ _ = Ok _ |- _ => pose proof (postJournal_trade _ _ _ _ _ _ _ H') as HT; unfold same_trade in HT; clear H' end.
  destruct (so_rows _ HS _ _ Hk) as (Hc & Hadj & Hr & Hcl & Hu). rewrite Hu in *. rewrite (open_total_owing _ _ _ (so_rows _ HS)) in *.
  pose proof (owing_le _ _ _ _ (so_rows _ HS) Hk) as [_ Hw]. inv_fin.
  match goal with H' : (if _ =? 0 then _ else _) _ = Ok (?s, ?y) |- _ =>
    assert (y = d1 /\ s <> AP_REVERSED /\ (closed s = true <-> minus (pb_outstanding p) z = 0)) as (-> & Hs1 & Hs2) end.
  { match goal with H' : (if _ =? 0 then _ else _) _ = Ok _ |- _ => rename H' into Hif end.
    destruct (Z.eqb_spec (minus (pb_outstanding p) z) 0); inv_all; [destruct (0 <? _)|]; done. }
  match goal with H' : update_payable _ _ _ = Ok _ |- _ => apply update_payable_Ok in H' as (-> & Hck) end.
  match goal with H' : insert_supplier_entry _ _ = Ok _ |- _ => apply insert_supplier_entry_Ok in H' as (-> & Ha & _) end. inv_fin. cbn in Ha |- *. rewrite HT in *.
  eapply (supplier_move (trade d) _ t (pb_supplier p)); [done | reflexivity | reflexivity | | | done..|].
  - split_and!; cbn; try done. unfold check_payable in Hc. bool_prop. rewrite plus_exact; [lia..|].
    unfold plus, MAX_SAFE_INTEGER in *. rewrite nadd_int by lia. cbn. lia.
  - intros k0. cbn [payables]. rewrite (owing_changed _ _ _ _ _ _ Hk) by done. cbn. rewrite minus_small by lia. case_decide; lia.
  - cbn. intros _. unfold held_after. rewrite (proj2 (Z.leb_le _ _)) by lia. rewrite minus_small by lia. lia.
Qed.

Lemma returnCredit_ok t i actor kh dto uuid now d r d' : supplier_ok (trade d) -> applySupplierReturnCredit t i actor kh dto uuid now d = Ok (r, d') ->
  supplier_ok (trade d').
Proof.
  intros HS. unfold applySupplierReturnCredit. cbv zeta. intros H. inv_ap. destruct (List.find _ _); inv_ap; [done|].
  destruct (payables _ !! _) as [p|] eqn:Ep; inv_ap. match goal with H' : forall p0, Some p = Some p0 -> _ |- _ => specialize (H' _ eq_refl) end.
  vnd_facts. eapply credit_payable_ok in H; [done | done | done | lia | done].
Qed.

(** ** Payments *)

(** The payables of a payment: rows of the supplier, each once. *)
Definition payables_of (t supplier : string) (m : gmap key PayableRow) (docs : list (key * PayableRow)) : Prop :=
  NoDup (map (fun e => e.1.2) docs) /\ forall e, e ∈ docs -> m !! e.1 = Some e.2 /\ e.1.1 = t /\ pb_supplier e.2 = supplier.

Lemma open_payables_ok t i p explicit d : payables (trade d) !! (t, i) = Some p ->
  payables_of t (pb_supplier p) (payables (trade d)) (open_payables t i (pb_supplier p) explicit d).
Proof.
  intros Hp. unfold open_payables. destruct explicit; [|rewrite Hp; split; [apply NoDup_singleton | by intros e ->%list_elem_of_singleton]].
  set (s := pb_supplier p). set (m := payables (trade d)). set (l := List.filter (is_open_payable t s) (map_to_list m)).
  assert (Hl : forall e, e ∈ l -> m !! e.1 = Some e.2 /\ e.1.1 = t /\ pb_supplier e.2 = s).
  { intros [k r] [He Ho]%list_elem_of_In%filter_In. apply list_elem_of_In, elem_of_map_to_list in He. unfold is_open_payable in Ho. cbn in *.
    apply andb_true_iff in Ho as [[Ht Hc]%andb_true_iff _]. apply String.eqb_eq in Ht, Hc. done. }
  split; [|intros e; rewrite sort_by_perm; apply Hl]. rewrite (Permutation_map _ (sort_by_perm payable_by_age l)).
  assert (Hk : NoDup (map fst l)).
  { unfold l. eapply sublist_NoDup; [apply (NoDup_fst_map_to_list m)|]. generalize (map_to_list m). intros l0.
    induction l0 as [|e l0 IH]; [done|]. cbn. destruct (is_open_payable t s e); cbn; [by apply sublist_skip | by apply sublist_cons]. }
  clearbody l. induction l as [|e l IH]; [constructor|]. cbn in *. apply NoDup_cons in Hk as [Hn Hk]. constructor; [|apply IH; [intros e' He'; apply Hl; by right | done]].
  intros (e' & E & He')%list_elem_of_fmap. apply Hn. replace e.1 with e'.1; [by apply list_elem_of_fmap_2|].
  destruct (Hl e ltac:(left)) as (_ & T1 & _). destruct (Hl e' ltac:(by right)) as (_ & T2 & _). destruct e as [[] ?], e' as [[] ?]. cbn in *. congruence.
Qed.

Lemma payables_snapshot_ok docs t s m : payables_of t s m docs -> (forall k r, m !! k = Some r -> payable_ok r) ->
  (forall e, e ∈ docs -> safe_payable e.2) -> Forall doc_ok (map payable_snapshot docs).
Proof.
  intros [_ Hr] Hok Hb. apply Forall_forall. intros x (e & -> & He)%list_elem_of_fmap. destruct (Hr e He) as (Hm & _ & _). apply Hok in Hm as (Hc & _).
  unfold check_payable in Hc. bool_prop. destruct (Hb e He) as (_ & ? & ?). exists (pb_outstanding e.2), (pb_paid e.2). cbn. split_and!; (done || lia).
Qed.

Lemma with_supplier_payment_ok p al docs : payable_ok p -> check_payable (with_supplier_payment p al) = true -> allocation_ok docs al ->
  al_outstandingBefore al = int (pb_outstanding p) -> payable_ok (with_supplier_payment p al).
Proof.
  intros (Hc & Hadj & _ & _ & Hu) Hck (doc & o & q & x & _ & _ & _ & _ & _ & Hx & _ & _ & Eo & Ea & Hs & _) Eb. rewrite Eb in Eo. injection Eo as <-.
  split_and!; [done | done | cbn; by destruct (al_statusAfter al) | | done]. cbn. rewrite Ea. cbn. destruct (al_statusAfter al); split; intros E; try done.
  - assert (E' : x = pb_outstanding p) by lia. by apply Hs in E'.
  - assert (E' : x = pb_outstanding p) by (by apply Hs). lia.
Qed.

Section Paying.
Context (t s : string) (docs : list (key * PayableRow)) (als : list CalculatedAllocationLine) (m : gmap key PayableRow).
Context (Hdocs : payables_of t s m docs) (Hids : NoDup (map al_documentId als)) (Hals : Forall (allocation_ok (map payable_snapshot docs)) als).

(** After some allocations: the books are in order and the other documents untouched. *)
Definition paying (pre : list CalculatedAllocationLine) (st : SupplierApply) (d : db) : Prop :=
  supplier_ok (trade d) /\ sa_debt st = owing (t, s) (payables (trade d)) /\ sa_debt st <= MAX_SAFE_INTEGER /\
  forall e, e ∈ docs -> e.1.2 ∉ map al_documentId pre -> payables (trade d) !! e.1 = Some e.2.

Lemma supplier_step_paying k journal voucher actor method note single pre al post st d st' d' : als = pre ++ al :: post -> paying pre st d ->
  supplier_step t s k journal voucher actor method note single docs st al d = Ok (st', d') -> paying (pre ++ [al]) st' d'.
Proof using All.
  intros El (HS & Edebt & Hmax & Hfresh) H. unfold supplier_step in H. destruct (List.find _ _) as [[[k1 k2] p]|] eqn:Ef; [|discriminate H]. cbv zeta in H.
  inv_fin. match goal with H' : update_payable _ _ _ = Ok _ |- _ => apply update_payable_Ok in H' as [-> Hck] end.
  match goal with H' : insert_supplier_entry _ _ = Ok _ |- _ => apply insert_supplier_entry_Ok in H' as (-> & Haft & _) end.
  apply find_some in Ef as [Hin%list_elem_of_In Eid%String.eqb_eq]. cbn in Eid. destruct Hdocs as [Hnd Hrow]. destruct (Hrow _ Hin) as (_ & Et & Es).
  cbn in Et, Es. subst k1. assert (Hni : k2 ∉ map al_documentId pre).
  { rewrite map_app in Hids. apply NoDup_app in Hids as (_ & Hx & _). intros Hi. apply (Hx _ Hi). rewrite Eid. left. }
  pose proof (Hfresh _ Hin Hni) as Hcur. cbn in Hcur. pose proof (proj1 (Forall_forall _ _) Hals al ltac:(apply elem_of_app; right; left)) as Hal.
  pose proof Hal as (doc & o & q & x & (e & -> & He)%list_elem_of_fmap & Ed & _ & Eo & _ & Hx & Hm & Ex & Eb & Ea & _). cbn in Ed, Eo.
  assert (e = (t, k2, p)) as ->.
  { eapply (NoDup_map_inj (fun e : key * PayableRow => e.1.2)); [exact Hnd | done | done|]. cbn. congruence. }
  cbn in Eo. injection Eo as <-. match goal with H' : parseVnd _ _ _ = Ok _ |- _ => rewrite Ex in H'; apply parseVnd_pos in H' as (z & [= <-] & -> & _) end.
  cbn in Haft. destruct (owing_le _ _ _ _ (so_rows _ HS) Hcur) as [_ Hle]. rewrite Es in Hle.
  assert (Eaft : held_after (sa_debt st) x = sa_debt st - x) by (unfold held_after; rewrite (proj2 (Z.leb_le _ _)) by lia; apply minus_small; lia). rewrite Eaft in Haft.
  split_and!; cbn; rewrite ?Eaft; [| |lia|].
  - eapply (supplier_move (trade d) _ t s (t, k2)); [done | reflexivity | reflexivity | | | done..|].
    + eapply with_supplier_payment_ok; [by eapply so_rows | done | done | done].
    + intros k0. cbn [payables]. rewrite (owing_changed _ _ _ _ _ _ Hcur), Es by done. cbn. rewrite Ea. cbn. case_decide; lia.
    + cbn. lia.
  - rewrite (owing_changed _ _ _ _ _ _ Hcur), Es, decide_True by done. cbn. rewrite Ea. cbn. lia.
  - intros e' He' Hn'. rewrite map_app, not_elem_of_app in Hn'. destruct Hn' as [Hn1 Hn2]. rewrite lookup_insert_ne; [by apply Hfresh|].
    intros E. apply Hn2. rewrite <- E. cbn. rewrite Eid. left.
Qed.
End Paying.

Lemma supplier_account_frame t dto uuid now d r d' : supplier_account t dto uuid now d = Ok (r, d') -> same_trade d d' /\ same_debt d d' /\ same_journals d d'.
Proof.
  unfold supplier_account. destruct (given (sp_account dto)); intros H; inv_fin; [destruct (cash_accounts _ !! _); by inv_debt|].
  split_and!; [by eapply ensureCashAccount_trade | by eapply ensureCashAccount_debt | by eapply ensureCashAccount_journals].
Qed.

Lemma pay_supplier_ok t i actor k p dto uuid now d r d' : supplier_ok (trade d) -> payables (trade d) !! (t, i) = Some p ->
  pay_supplier t i actor k p dto uuid now d = Ok (r, d') -> supplier_ok (trade d').
Proof.
  intros HS Hp. unfold pay_supplier. intros H. inv_fin.
  match goal with H' : for_each read_payable_doc _ ?ds _ = Ok _ |- _ => set (docs := ds) in *; apply read_payable_docs_Ok in H' as [-> Hb] end.
  pose proof (open_payables_ok t i p (match sp_allocations dto with [] => false | _ => true end) d Hp) as Hdocs. fold docs in Hdocs. clearbody docs. cbv zeta in H. inv_fin.
  match goal with H' : calculateDocumentAllocations _ _ _ _ _ = Ok ?x |- _ => rename H' into Hcalc; rename x into res end.
  destruct (accepted_allocation _ _ _ _ _ _ (payables_snapshot_ok _ _ _ _ Hdocs (so_rows _ HS) Hb) Hcalc) as (P & _ & _ & Hals & _).
  assert (Hids : NoDup (map ob_id (map payable_snapshot docs))) by (rewrite map_map; exact (proj1 Hdocs)). apply (allocation_ids _ _ _ _ _ _) with (2 := Hcalc) in Hids.
  match goal with H' : supplier_account _ _ _ _ _ = Ok _ |- _ => destruct (supplier_account_frame _ _ _ _ _ _ _ H') as [F1 _] end.
  match goal with H' : postJournalInTx _ _ _ _ _ = Ok _ |- _ => pose proof (postJournal_trade _ _ _ _ _ _ _ H') as F2 end.
  match goal with H' : createAndOptionallyPostVoucherInTx _ _ _ _ _ = Ok _ |- _ => pose proof (createAndPost_trade _ _ _ _ _ _ _ H') as F3 end.
  unfold same_trade in F1, F2, F3. rewrite F1 in F2. rewrite F2 in F3. destruct (so_rows _ HS _ _ Hp) as (_ & _ & _ & _ & Hu).
  match goal with H' : computeSupplierTotalDebtInTx _ _ _ = Ok _ |- _ => apply supplier_debt_Ok in H' as (-> & -> & Hmax) end. rewrite F3, Hu in Hmax.
  rewrite (open_total_owing _ _ _ (so_rows _ HS)) in Hmax.
  match goal with H' : for_each (supplier_step _ _ _ _ _ _ _ _ _ _) _ _ _ = Ok _ |- _ => rename H' into Hloop end.
  eapply (for_each_ind (paying t (pb_supplier p) docs)) in Hloop; [| |].
  - match type of H with match ?u with _ => _ end _ = _ => destruct u as [|[i0 r0] us]; [discriminate H|] end. inv_fin. cbn. apply Hloop.
  - intros pre al post st d0 st' d0' El HP Hst. by eapply supplier_step_paying.
  - split_and!; cbn; rewrite ?F3, ?Hu, ?(open_total_owing _ _ _ (so_rows _ HS)); [done | done | lia|]. intros e He _. by apply Hdocs.
Qed.

Lemma supplierPayment_ok t i actor kh dto uuid now d r d' : supplier_ok (trade d) -> recordSupplierPayment t i actor kh dto uuid now d = Ok (r, d') ->
  supplier_ok (trade d').
Proof.
  intros HS. unfold recordSupplierPayment. cbv zeta. intros H. inv_fin. destruct (List.find _ _) as [e|]; inv_ap; [done|].
  destruct (payables _ !! _) as [p|] eqn:Ep; inv_ap. by eapply pay_supplier_ok.
Qed.

Lemma purchaseOrderApproved_ok t payload uuid now d r d' : supplier_ok (trade d) -> onPurchaseOrderApproved t payload uuid now d = Ok (r, d') -> supplier_ok (trade d').
Proof.
  intros HS. unfold onPurchaseOrderApproved, event_amount. destruct (given (Some t)), (given (oa_order payload)), (given (oa_supplier payload)); intros H; inv_fin; try done.
  match type of H with (if ?b then _ else _) _ = _ => destruct b | match ?a with _ => _ end _ = _ => destruct a end; inv_fin; [|done]. by eapply recognizePayable_ok.
Qed.

Lemma stockReceived_ok t payload uuid now d r d' : supplier_ok (trade d) -> onStockReceived t payload uuid now d = Ok (r, d') -> supplier_ok (trade d').
Proof.
  intros HS. unfold onStockReceived, event_amount. destruct (given (Some t)), (given (sv_supplier payload)), (sv_amount payload) as [n|]; intros H; inv_fin; try done.
  destruct (falsy n); inv_fin; [done|]. match type of H with (if ?b then _ else _) _ = _ => destruct b | match ?a with _ => _ end _ = _ => destruct a end; inv_fin; [|done].
  by eapply recognizePayable_ok.
Qed.
