(* ===== verification/SettlementBooks.v ===== *)
(** * The books on settlements and refunds

    What every request to the settlement and refund services keeps: a settlement is
    booked in full or not at all, no more is refunded than was settled, and the
    completed refunds of a settlement are covered by its refunded amount. *)

From S2P Require Import Prelude Transaction JsNumber JsString FinanceDomain FinanceLedger CustomerDebt SupplierDebt Settlements Refunds.
From S2P Require Import FinanceLedgerBooks CustomerDebtBooks SupplierDebtBooks.

Open Scope Z_scope.

(** ** Runs that succeed *)

Definition safe_settlement (s : SettlementRow) : Prop := Z.abs (st_settled s) <= MAX_SAFE_INTEGER /\ Z.abs (st_refunded s) <= MAX_SAFE_INTEGER.

Section Reads.
Lemma read_settlement_Ok s d r d' : read_settlement s d = Ok (r, d') -> r = s /\ d' = d /\ safe_settlement s.
Proof.
  unfold read_settlement. intros H. inv_fin. repeat match goal with H' : toMoney _ _ = Ok _ |- _ => apply money_Ok in H' as [[= -> ->] ?] end. done.
Qed.

Lemma find_settlement_Ok p d r d' : find_settlement p d = Ok (r, d') ->
  d' = d /\ forall k s, r = Some (k, s) -> settlements (trade d) !! k = Some s /\ p k s = true.
Proof.
  unfold find_settlement. intros H. inv_fin. destruct (first _ _) as [[k s]|] eqn:Ef; inv_fin; [|done].
  match goal with H' : read_settlement _ _ = Ok _ |- _ => apply read_settlement_Ok in H' as (-> & -> & ?) end. split; [done|]. intros ? ? [= <- <-].
  by apply first_Some.
Qed.

Lemma save_settlement_Ok known k s d u d' : save_settlement known k s d = Ok (u, d') ->
  d' = set_settlement k s d /\ check_settlement s = true /\ (known = false -> settlements (trade d) !! k = None).
Proof.
  unfold save_settlement. intros H. inv_fin. destruct (_ || _) eqn:E in H; inv_fin. apply orb_false_iff in E as [[E1 _]%orb_false_iff E%negb_false_iff].
  split_and!; [done | done|]. intros ->. by apply taken_none.
Qed.

Lemma read_settlement_rows_Ok rows d u d' : for_each read_settlement_row tt rows d = Ok (u, d') -> d' = d /\ forall e, e ∈ rows -> safe_settlement e.2.
Proof.
  revert d. induction rows as [|e rows IH]; intros d H; cbn in H; inv_fin; [by split; [|intros e ?%not_elem_of_nil]|].
  unfold read_settlement_row in *. inv_fin. match goal with H' : read_settlement _ _ = Ok _ |- _ => apply read_settlement_Ok in H' as (-> & -> & ?) end.
  apply IH in H as [-> Hd]. split; [done|]. intros e' [->|He']%elem_of_cons; [done | by apply Hd].
Qed.

Lemma find_refund_Ok t i d r d' : find_refund t i d = Ok (r, d') -> d' = d /\ refunds (trade d) !! (t, i) = Some r /\ Z.abs (rf_amount r) <= MAX_SAFE_INTEGER.
Proof.
  unfold find_refund. intros H. inv_fin. destruct (_ !! _) as [r0|] eqn:Er; inv_fin. unfold read_refund in *. inv_fin.
  by match goal with H' : toMoney _ _ = Ok _ |- _ => apply money_Ok in H' as [[= -> ->] ?] end.
Qed.

Lemma insert_refund_Ok k r d u d' : insert_refund k r d = Ok (u, d') -> d' = set_refund k r d /\ refunds (trade d) !! k = None /\ 0 < rf_amount r.
Proof.
  unfold insert_refund. intros H. inv_fin. destruct (_ || _) eqn:E in H; inv_fin. apply orb_false_iff in E as [[E1 _]%orb_false_iff E2%negb_false_iff].
  split_and!; [done | by apply taken_none | by apply Z.ltb_lt].
Qed.

Lemma open_issue_Ok k i d u d' : insert_issue k i d = Ok (u, d') -> exists m, d' = set_issues m d.
Proof. unfold insert_issue. intros H. inv_fin. destruct (taken _ _); inv_fin. by eexists. Qed.

(** The settlements a refund of a named settlement works on: that one. *)
Lemma order_settlements_one t o i m : forall e, e ∈ order_settlements t o (Some i) m -> e.1 = (t, i) /\ m !! e.1 = Some e.2 /\ st_order e.2 = o.
Proof.
  unfold order_settlements. intros [[t0 i0] s]. rewrite sort_by_perm. intros [He Ho]%list_elem_of_In%filter_In. apply list_elem_of_In, elem_of_map_to_list in He.
  cbn in *. apply andb_true_iff in Ho as [[Ht Ho]%andb_true_iff Hi]. apply String.eqb_eq in Ht, Ho, Hi. by subst.
Qed.

Lemma order_settlements_NoDup t o i m : NoDup (order_settlements t o i m).
Proof. unfold order_settlements. rewrite sort_by_perm. apply NoDup_ListNoDup, List.NoDup_filter, NoDup_ListNoDup, NoDup_map_to_list. Qed.

Lemma lock_one_Ok t o i d rows d' : lockOrderSettlementsInTx t o (Some i) d = Ok (rows, d') ->
  d' = d /\ exists s, rows = [((t, as_uuid i), s)] /\ settlements (trade d) !! (t, as_uuid i) = Some s /\ st_order s = as_uuid o /\ safe_settlement s.
Proof.
  unfold lockOrderSettlementsInTx. intros H. inv_fin. cbn in *. match goal with H' : for_each _ _ ?l _ = Ok _ |- _ => set (l0 := l) in *; apply read_settlement_rows_Ok in H' as [-> Hs] end.
  pose proof (order_settlements_one t (as_uuid o) (as_uuid i) (settlements (trade d))) as H1. pose proof (order_settlements_NoDup t (as_uuid o) (Some (as_uuid i)) (settlements (trade d))) as H2.
  fold l0 in H1, H2. clearbody l0. destruct l0 as [|e l0]; inv_fin. split; [done|]. destruct (H1 e ltac:(left)) as (E & Hm & Ho). destruct e as [k s]. cbn in *. subst k.
  exists s. destruct l0 as [|e' l0]; [split_and!; try done; apply (Hs (t, as_uuid i, s)); left|]. exfalso.
  destruct (H1 e' ltac:(right; left)) as (E' & Hm' & _). destruct e' as [k' s']. cbn in *. subst k'. apply NoDup_cons in H2 as [H2 _]. apply H2.
  assert (s' = s) as -> by congruence. left.
Qed.

Lemma lock_Ok t o i d rows d' : lockOrderSettlementsInTx t o i d = Ok (rows, d') -> d' = d /\
  forall e, e ∈ rows -> e.1.1 = t /\ settlements (trade d) !! e.1 = Some e.2 /\ st_order e.2 = as_uuid o.
Proof.
  unfold lockOrderSettlementsInTx. intros H. inv_fin. match goal with H' : for_each _ _ ?l _ = Ok _ |- _ => set (l0 := l) in *; apply read_settlement_rows_Ok in H' as [-> Hs] end.
  assert (H1 : forall e, e ∈ l0 -> e.1.1 = t /\ settlements (trade d) !! e.1 = Some e.2 /\ st_order e.2 = as_uuid o).
  { intros [[t0 i0] s]. unfold l0, order_settlements. rewrite sort_by_perm. intros [He Ho]%list_elem_of_In%filter_In. apply list_elem_of_In, elem_of_map_to_list in He.
    cbn in *. apply andb_true_iff in Ho as [[Ht Ho]%andb_true_iff _]. apply String.eqb_eq in Ht, Ho. by subst. }
  clearbody l0. destruct l0; by inv_fin.
Qed.
End Reads.

(** ** The figures of a settlement *)

Definition is_refund_of (k k' : key) (r : RefundRow) : bool := String.eqb k'.1 k.1 && bool_decide (rf_settlement r = Some k.2).
Definition done_amount (r : RefundRow) : Z := if bool_decide (rf_status r = RF_COMPLETED) then rf_amount r else 0.

(** What the completed refunds of a settlement add up to. *)
Definition repaid (k : key) (m : gmap key RefundRow) : Z := ksum (fun k' r => if is_refund_of k k' r then done_amount r else 0) m.

Definition settlement_row_ok (k : key) (s : SettlementRow) : Prop :=
  check_settlement s = true /\ 0 <= st_refunded s <= st_settled s /\ as_uuid k.2 = k.2 /\ as_uuid (st_order s) = st_order s /\
  (st_status s = ST_SETTLED \/ st_status s = ST_RECONCILIATION_REQUIRED /\ st_settled s = 0).

Definition refund_row_ok (m : gmap key SettlementRow) (k : key) (r : RefundRow) : Prop :=
  0 < rf_amount r /\ exists i s, rf_settlement r = Some i /\ m !! (k.1, i) = Some s /\ st_order s = rf_order r.

Record settlement_ok (m : trade_db) : Prop := {
  to_rows : forall k s, settlements m !! k = Some s -> settlement_row_ok k s;
  to_refunds : forall k r, refunds m !! k = Some r -> refund_row_ok (settlements m) k r;
  to_repaid : forall k s, settlements m !! k = Some s -> repaid k (refunds m) <= st_refunded s }.

Section Figures.
Lemma is_refund_split k t i r x : rf_settlement r = Some i -> (if is_refund_of k (t, x) r then done_amount r else 0) = if decide (k = (t, i)) then done_amount r else 0.
Proof.
  intros E. destruct k as [k1 k2]. unfold is_refund_of. cbn. rewrite E. destruct (String.eqb_spec t k1) as [->|]; cbn; [case_bool_decide|]; case_decide; (done || congruence).
Qed.

Lemma done_nonneg r : 0 < rf_amount r -> 0 <= done_amount r.
Proof. unfold done_amount. case_bool_decide; lia. Qed.

Lemma repaid_new k t x i r m : m !! (t, x) = None -> rf_settlement r = Some i -> rf_status r <> RF_COMPLETED -> repaid k (<[(t, x) := r]> m) = repaid k m.
Proof. intros Hn E Hs. unfold repaid. rewrite ksum_insert_new, (is_refund_split _ _ _ _ _ E) by done. unfold done_amount. rewrite bool_decide_false by done. case_decide; lia. Qed.

Lemma repaid_changed k t x i r r' m : m !! (t, x) = Some r -> rf_settlement r = Some i -> rf_settlement r' = Some i ->
  repaid k (<[(t, x) := r']> m) = repaid k m + if decide (k = (t, i)) then done_amount r' - done_amount r else 0.
Proof. intros Hn E E'. unfold repaid. rewrite (ksum_insert_old _ _ _ _ _ Hn), (is_refund_split _ _ _ _ _ E), (is_refund_split _ _ _ _ _ E'). case_decide; lia. Qed.

(** No refund names a settlement that is not there. *)
Lemma repaid_absent m k : settlement_ok m -> settlements m !! k = None -> repaid k (refunds m) = 0.
Proof.
  intros HS Hn. apply ksum_zero. intros [t x] r Hr. destruct (to_refunds _ HS _ _ Hr) as (_ & i & s & E & Hs & _). rewrite (is_refund_split _ _ _ _ _ E).
  case_decide; [|done]. subst k. cbn in Hs. congruence.
Qed.
(** A completed refund is among those its settlement counts. *)
Lemma repaid_covers m k r i : settlement_ok m -> refunds m !! k = Some r -> rf_settlement r = Some i -> rf_status r = RF_COMPLETED -> rf_amount r <= repaid (k.1, i) (refunds m).
Proof.
  intros HS Hk Ei Hst. destruct k as [t x]. pose proof (ksum_elem_le (fun k' r => if is_refund_of (t, i) k' r then done_amount r else 0) (refunds m) (t, x) r) as Hle.
  cbv beta in Hle. rewrite (is_refund_split _ _ _ _ _ Ei), decide_True in Hle by done. unfold done_amount at 2 in Hle. rewrite bool_decide_true in Hle by done. apply Hle; [|done].
  intros k0 r0 H0. case_match; [|done]. apply done_nonneg. by apply (to_refunds _ HS _ _ H0).
Qed.
End Figures.

(** ** Writes *)

(** A settlement that is new, or was waiting for reconciliation. *)
Lemma settlement_written m m' k s : settlement_ok m -> settlements m' = <[k := s]> (settlements m) -> refunds m' = refunds m -> settlement_row_ok k s ->
  st_refunded s = 0 -> (forall s0, settlements m !! k = Some s0 -> st_status s0 <> ST_SETTLED /\ st_order s0 = st_order s) -> settlement_ok m'.
Proof.
  intros HS Es Er Hs H0 Hold. split; rewrite Es, ?Er.
  - by apply rows_insert; [|apply HS].
  - intros k0 r Hr. destruct (to_refunds _ HS _ _ Hr) as (Ha & i & s0 & E & Hi & Ho). split; [done|]. exists i.
    destruct (decide (k = (k0.1, i))) as [->|]; [|exists s0; by rewrite lookup_insert_ne]. exists s. rewrite lookup_insert_eq. split_and!; [done | done|].
    destruct (Hold _ Hi) as [_ <-]. done.
  - apply (rows_insert (fun k s => repaid k (refunds m) <= st_refunded s)); [|apply HS]. rewrite H0. destruct (settlements m !! k) as [s0|] eqn:E0; [|by rewrite repaid_absent].
    pose proof (to_repaid _ HS _ _ E0). destruct (to_rows _ HS _ _ E0) as (_ & Hr & _ & _ & [Hst|[_ Hst]]); [by destruct (Hold _ eq_refl)|]. lia.
Qed.

Definition same_target (r r' : RefundRow) : Prop := rf_settlement r' = rf_settlement r /\ rf_order r' = rf_order r /\ rf_amount r' = rf_amount r.

(** A refund in another state that is not completion. *)
Lemma refund_moved m m' k r r' : settlement_ok m -> refunds m !! k = Some r -> settlements m' = settlements m -> refunds m' = <[k := r']> (refunds m) ->
  same_target r r' -> rf_status r' <> RF_COMPLETED -> settlement_ok m'.
Proof.
  intros HS Hk Es Er (E1 & E2 & E3) Hst. destruct k as [t x]. destruct (to_refunds _ HS _ _ Hk) as (Ha & i & s & Ei & Hi & Ho). split; rewrite Es, ?Er; [apply HS| |].
  - apply rows_insert; [|apply HS]. split; [lia|]. exists i, s. split_and!; [congruence | done | congruence].
  - intros k0 s0 H0. rewrite (repaid_changed _ _ _ _ _ _ _ Hk Ei) by congruence. pose proof (to_repaid _ HS _ _ H0). pose proof (done_nonneg _ Ha).
    assert (done_amount r' = 0) by (unfold done_amount; by rewrite bool_decide_false). case_decide; lia.
Qed.

(** A new refund. *)
Lemma refund_added m m' k r i s : settlement_ok m -> refunds m !! k = None -> settlements m' = settlements m -> refunds m' = <[k := r]> (refunds m) ->
  0 < rf_amount r -> rf_settlement r = Some i -> settlements m !! (k.1, i) = Some s -> st_order s = rf_order r -> rf_status r <> RF_COMPLETED -> settlement_ok m'.
Proof.
  intros HS Hk Es Er Ha Ei Hi Ho Hst. destruct k as [t x]. split; rewrite Es, ?Er; [apply HS| |].
  - apply rows_insert; [|apply HS]. split; [done|]. by exists i, s.
  - intros k0 s0 H0. rewrite (repaid_new _ _ _ _ _ _ Hk Ei Hst). by apply HS.
Qed.

(** A refund is completed: its settlement counts it. *)
Lemma refund_completed m m' k r r' i s : settlement_ok m -> refunds m !! k = Some r -> rf_settlement r = Some i -> settlements m !! (k.1, i) = Some s ->
  settlements m' = <[(k.1, i) := with_refunded s (st_refunded s + rf_amount r)]> (settlements m) -> refunds m' = <[k := r']> (refunds m) ->
  same_target r r' -> st_refunded s + rf_amount r <= st_settled s -> check_settlement (with_refunded s (st_refunded s + rf_amount r)) = true -> settlement_ok m'.
Proof.
  intros HS Hk Ei Hi Es Er (E1 & E2 & E3) Hle Hck. destruct k as [t x]. cbn in Hi, Es. destruct (to_refunds _ HS _ _ Hk) as (Ha & i' & s' & Ei' & Hi' & Ho).
  rewrite Ei in Ei'. injection Ei' as <-. cbn in Hi'. assert (s' = s) as -> by congruence. destruct (to_rows _ HS _ _ Hi) as (R1 & R2 & R3 & R4 & R5).
  assert (Hrow : forall k0 r0, refunds m !! k0 = Some r0 -> refund_row_ok (<[(t, i) := with_refunded s (st_refunded s + rf_amount r)]> (settlements m)) k0 r0).
  { intros k0 r0 H0. destruct (to_refunds _ HS _ _ H0) as (Ha0 & i0 & s0 & E0 & Hi0 & Ho0). split; [done|]. exists i0.
    destruct (decide ((t, i) = (k0.1, i0))) as [E|]; [|exists s0; by rewrite lookup_insert_ne]. rewrite E, lookup_insert_eq. eexists. split_and!; [done | done|].
    cbn. rewrite <- E in Hi0. congruence. }
  split; rewrite Es, ?Er.
  - apply rows_insert; [|apply HS]. split_and!; cbn; (done || lia).
  - apply rows_insert; [|done]. destruct (Hrow _ _ Hk) as (_ & j & sj & Hj). split; [lia|]. exists j, sj. by rewrite E1, E2.
  - intros k0 s0. rewrite (repaid_changed _ _ _ _ _ _ _ Hk Ei) by congruence. pose proof (done_nonneg _ Ha). unfold done_amount in *. rewrite E3.
    destruct (decide ((t, i) = k0)) as [<-|].
    + rewrite lookup_insert_eq. intros [= <-]. cbn. rewrite decide_True by done. pose proof (to_repaid _ HS _ _ Hi). repeat case_bool_decide; lia.
    + rewrite lookup_insert_ne by done. intros H0. rewrite decide_False by done. pose proof (to_repaid _ HS _ _ H0). lia.
Qed.

(** ** Settlements *)

Lemma money_account_trade t m acc branch uuid now : Keeps same_trade (money_account t m acc branch uuid now).
Proof. frame. Qed.

Ltac trade_step := match goal with
  | H : money_account _ _ _ _ _ _ _ = Ok _ |- _ => apply money_account_trade in H; unfold same_trade in H
  | H : postJournalInTx _ _ _ _ _ = Ok _ |- _ => apply postJournal_trade in H; unfold same_trade in H
  | H : createAndOptionallyPostVoucherInTx _ _ _ _ _ = Ok _ |- _ => apply createAndPost_trade in H; unfold same_trade in H
  end.

(** The row a confirmation replaces. *)
Definition waiting (m : gmap key SettlementRow) (t : string) (order : string) (existing : option (key * SettlementRow)) : Prop :=
  forall k s, existing = Some (k, s) -> m !! k = Some s /\ k.1 = t /\ st_status s <> ST_SETTLED /\ st_order s = order.

Lemma amount_or_Ok raw other d z d' : amount_or raw other d = Ok (z, d') -> 0 <= other -> d' = d /\ 0 <= z.
Proof.
  unfold amount_or. destruct raw as [x|]; [|by intros [= <- <-]%tx_ret_Ok]. destruct (x =? 0); [by intros [= <- <-]%tx_ret_Ok|].
  intros (-> & -> & _ & H & _)%vnd_Ok. by specialize (H eq_refl).
Qed.

(** What both ways of saving a confirmation keep. *)
Lemma saved_settlement_ok m m' t i s existing : settlement_ok m -> as_uuid i = i -> waiting (settlements m) t (st_order s) existing ->
  (forall k s0, existing = Some (k, s0) -> k.2 = i) -> (bool_decide (is_Some (snd <$> existing)) = false -> settlements m !! (t, i) = None) ->
  settlements m' = <[(t, i) := s]> (settlements m) -> refunds m' = refunds m -> check_settlement s = true -> 0 <= st_settled s ->
  st_refunded s = from_option st_refunded 0 (snd <$> existing) -> as_uuid (st_order s) = st_order s ->
  (st_status s = ST_SETTLED \/ st_status s = ST_RECONCILIATION_REQUIRED /\ st_settled s = 0) -> settlement_ok m'.
Proof.
  intros HS Hi Hw Hk Hnew Es Er Hc Hset Hr Ho Hst. assert (Hr0 : st_refunded s = 0).
  { rewrite Hr. destruct existing as [[k0 s0]|]; [|done]. cbn. destruct (Hw _ _ eq_refl) as (H0 & _ & Hn & _).
    destruct (to_rows _ HS _ _ H0) as (_ & Hb & _ & _ & [?|[_ ?]]); [done | lia]. }
  eapply (settlement_written m _ (t, i)); [done | done | done | split_and!; (done || lia) | done |].
  intros s0 H0. destruct existing as [[k0 s1]|]; [|by rewrite Hnew in H0]. destruct (Hw _ _ eq_refl) as (H1 & Ht & Hn & Ho1). specialize (Hk _ _ eq_refl).
  destruct k0 as [k1 k2]. cbn in *. subst. rewrite H1 in H0. by injection H0 as <-.
Qed.

Section Settle.
Context (t i : string) (dto : ConfirmSettlementDto) (existing : option (key * SettlementRow)).

Lemma hold_settlement_ok code tender provider k req conf mis uuid now d r d' : settlement_ok (trade d) -> as_uuid i = i ->
  waiting (settlements (trade d)) t (as_uuid (cf_order dto)) existing -> (forall k s, existing = Some (k, s) -> k.2 = i) ->
  hold_settlement t i code tender provider k dto (snd <$> existing) req conf mis uuid now d = Ok (r, d') -> settlement_ok (trade d').
Proof.
  intros HS Hi Hw Hk. unfold hold_settlement. cbv zeta. intros H. inv_fin.
  match goal with H' : save_settlement _ _ _ _ = Ok _ |- _ => apply save_settlement_Ok in H' as (-> & Hc & Hnew) end.
  match goal with H' : insert_issue _ _ _ = Ok _ |- _ => apply open_issue_Ok in H' as [m ->] end.
  eapply (saved_settlement_ok (trade d) _ t i _ existing HS Hi); [| exact Hk | done | reflexivity | done | done | done | done | apply uuid_idem | by right]. exact Hw.
Qed.

Lemma book_settlement_ok actor code tender provider k req conf set uuid now d r d' : settlement_ok (trade d) -> as_uuid i = i -> 0 <= set ->
  waiting (settlements (trade d)) t (as_uuid (cf_order dto)) existing -> (forall k s, existing = Some (k, s) -> k.2 = i) ->
  book_settlement t actor i code tender provider k dto (snd <$> existing) req conf set uuid now d = Ok (r, d') -> settlement_ok (trade d').
Proof.
  intros HS Hi Hset Hw Hk. unfold book_settlement. cbv zeta. intros H. inv_fin. repeat trade_step.
  match goal with H' : match ?acc with Some _ => _ | None => _ end _ = Ok (_, ?y) |- _ => is_var acc; assert (trade y = trade d) as HT end.
  { destruct a as [[ka a]|]; inv_fin; repeat trade_step; congruence. }
  match goal with H' : save_settlement _ _ _ _ = Ok _ |- _ => apply save_settlement_Ok in H' as (-> & Hc & Hnew) end. rewrite HT in Hnew.
  match goal with H' : match snd <$> existing with _ => _ end (set_settlement _ ?row ?y) = Ok (_, ?z) |- _ => assert (Hend :
    settlements (trade z) = <[(t, i) := row]> (settlements (trade d)) /\ refunds (trade z) = refunds (trade d)) end.
  { destruct existing as [[k0 s0]|]; cbn in *; [destruct (bool_decide _)|]; unfold resolve_issues in *; inv_fin; cbn; by rewrite HT. }
  destruct Hend as [E1 E2].
  eapply (saved_settlement_ok (trade d) _ t i _ existing HS Hi); [| exact Hk | done | exact E1 | done | done | done | done | apply uuid_idem | by left]. exact Hw.
Qed.
End Settle.

Lemma settle_tender_ok t actor tender provider k dto existing uuid now d r d' : settlement_ok (trade d) ->
  waiting (settlements (trade d)) t (as_uuid (cf_order dto)) existing ->
  settle_tender t actor tender provider k dto existing uuid now d = Ok (r, d') -> settlement_ok (trade d').
Proof.
  intros HS Hw. unfold settle_tender. cbv zeta. intros H. inv_fin. inv_all. vnd_facts.
  match goal with H' : amount_or (cf_confirmed dto) _ _ = Ok _ |- _ => apply amount_or_Ok in H' as [-> Hc]; [|lia] end.
  match goal with H' : amount_or (cf_settled dto) _ _ = Ok _ |- _ => apply amount_or_Ok in H' as [-> Hs]; [|lia] end.
  match goal with H' : match existing with _ => _ end _ = Ok (_, ?y) |- _ => assert (HT : trade y = trade d) by
    (destruct existing as [[]|]; unfold nextFinanceDocumentCode in *; by inv_fin) end.
  set (i := match existing with Some (k0, _) => k0.2 | None => fresh uuid "settlement" end) in H.
  assert (Hi : as_uuid i = i).
  { unfold i. destruct existing as [[k0 s0]|]; [|apply uuid_idem]. destruct (Hw _ _ eq_refl) as (H0 & _). by apply (to_rows _ HS _ _ H0). }
  assert (Hk : forall k0 s0, existing = Some (k0, s0) -> k0.2 = i) by (unfold i; by intros k0 s0 ->). rewrite <- HT in HS, Hw. clearbody i.
  destruct (_ || _); [by eapply hold_settlement_ok | by eapply book_settlement_ok].
Qed.

Lemma confirmSettlement_ok t actor kh dto uuid now d r d' : settlement_ok (trade d) -> confirmSettlement t actor kh dto uuid now d = Ok (r, d') -> settlement_ok (trade d').
Proof.
  intros HS. unfold confirmSettlement, confirmSettlementInTx. cbv zeta. intros H. inv_fin.
  match goal with H' : find_settlement _ _ = Ok (?x, _) |- _ => apply find_settlement_Ok in H' as [-> _]; destruct x as [[? ?]|] end; inv_fin; [done|].
  match goal with H' : match given _ with _ => _ end _ = Ok (?x, ?y) |- _ => assert (y = d) as -> by (destruct (given _); [by apply find_settlement_Ok in H' as [-> _] | by inv_fin]);
    destruct x as [[? ?]|] end; inv_fin; [done|].
  match goal with H' : find_settlement _ _ = Ok (?x, _) |- _ => apply find_settlement_Ok in H' as [-> Hf]; destruct x as [[k s]|] end.
  - destruct (Hf _ _ eq_refl) as [Hk Hp]. case_bool_decide; inv_fin; [done|]. eapply settle_tender_ok; [done | | done]. intros ? ? [= <- <-].
    apply andb_true_iff in Hp as [[Ht Ho]%andb_true_iff _]. apply String.eqb_eq in Ht, Ho. done.
  - eapply settle_tender_ok; [done | | done]. done.
Qed.

Lemma event_settlement_ok t actor k o ck br sh te m pr ex z uuid now d r d' : settlement_ok (trade d) ->
  event_settlement t actor k o ck br sh te m pr ex z uuid now d = Ok (r, d') -> settlement_ok (trade d').
Proof. intros HS H. unfold event_settlement in H. inv_fin. by eapply confirmSettlement_ok. Qed.

(** ** Refunds *)

(** The one settlement of a refund takes the whole amount. *)
Lemma refund_step_Ok z e d r d' : refund_step z e d = Ok (r, d') -> 0 < z <= MAX_SAFE_INTEGER -> 0 <= st_refunded e.2 -> st_refunded e.2 + z <= st_settled e.2 ->
  st_settled e.2 <= MAX_SAFE_INTEGER ->
  d' = set_settlement e.1 (with_refunded e.2 (st_refunded e.2 + z)) d /\ check_settlement (with_refunded e.2 (st_refunded e.2 + z)) = true.
Proof.
  intros H Hz Hr Hle Hm. unfold refund_step in H. rewrite (proj2 (Z.leb_gt _ _)) in H by lia. cbv zeta in H. inv_all. rewrite minus_small in H by lia.
  rewrite (proj2 (Z.leb_gt _ _)) in H by lia. rewrite (proj2 (Z.leb_le _ _)) in H by lia. inv_fin.
  match goal with H' : save_settlement _ _ _ _ = Ok _ |- _ => apply save_settlement_Ok in H' as (-> & Hc & _) end.
  assert (E : plus (st_refunded e.2) z = st_refunded e.2 + z) by (unfold plus, MAX_SAFE_INTEGER in *; by rewrite nadd_int by lia). by rewrite E in *.
Qed.

Lemma add_one_Ok {A} (f : A -> Z) x d r d' : for_each (add_amount (fun _ => true) f) 0 [x] d = Ok (r, d') -> Z.abs (f x) <= MAX_SAFE_INTEGER -> d' = d /\ r = f x /\ 0 <= f x.
Proof.
  cbn. intros H Hb. inv_fin. unfold add_amount in *. inv_all. vnd_facts. split_and!; [done | | done]. unfold plus, MAX_SAFE_INTEGER in *. by rewrite nadd_int by lia.
Qed.

Lemma refund_needs_payment P F R x : validateRefundAllocation (refund_input P F R) = Ok x -> 0 < P.
Proof. unfold validateRefundAllocation, refund_input. intros H. do 3 inv_ok_step. apply parseVnd_pos in Ha as (w & [= <-] & _ & Hw). lia. Qed.

(** A completion that succeeds: the settlement has room for it and counts it. *)
Lemma finalize_Ok t actor x r i acc ext uuid now d row d' : rf_settlement r = Some i -> as_uuid i = i -> 0 < rf_amount r -> 
  finalizeRefundCompletionInTx t actor x r acc ext uuid now d = Ok (row, d') -> exists s,
  settlements (trade d) !! (t, i) = Some s /\ st_refunded s + rf_amount r <= st_settled s /\
  settlements (trade d') = <[(t, i) := with_refunded s (st_refunded s + rf_amount r)]> (settlements (trade d)) /\
  check_settlement (with_refunded s (st_refunded s + rf_amount r)) = true /\
  refunds (trade d') = <[(t, x) := row]> (refunds (trade d)) /\ same_target r row /\ rf_status row = RF_COMPLETED.
Proof.
  intros Ei Hi Ha H. unfold finalizeRefundCompletionInTx in H. rewrite Ei in H. inv_fin.
  match goal with H' : lockOrderSettlementsInTx _ _ _ _ = Ok _ |- _ => apply lock_one_Ok in H' as (-> & s & -> & Hs & Ho & Hsafe) end. rewrite Hi in *.
  destruct Hsafe as [Hs1 Hs2].
  match goal with H' : vnd (rf_amount r) _ _ _ = Ok _ |- _ => apply vnd_Ok in H' as (-> & -> & Hm & _) end.
  match goal with H' : for_each (add_amount _ _) _ _ _ = Ok _ |- _ => apply add_one_Ok in H' as (-> & -> & Hp); [|done] end.
  match goal with H' : for_each (add_amount _ _) _ _ _ = Ok _ |- _ => apply add_one_Ok in H' as (-> & -> & Hq); [|done] end.
  cbn in Hp, Hq. match goal with H' : validateRefundAllocation _ = Ok ?w |- _ => rename H' into Hv;
    change (validateRefundAllocation (refund_input (st_settled s) (st_refunded s) (rf_amount r)) = Ok w) in Hv end.
  pose proof (refund_needs_payment _ _ _ _ Hv) as Hpos. rewrite refund_spec in Hv by lia.
  destruct (Z.leb_spec (st_refunded s + rf_amount r) (st_settled s)) as [Hle|]; [|discriminate Hv]. cbn [for_each] in *. inv_fin.
  match goal with H' : refund_step _ _ _ = Ok _ |- _ => apply refund_step_Ok in H' as [-> Hck]; cbn; [|lia..] end. cbn in Hck. repeat trade_step. cbn [fst snd] in *.
  match goal with H' : match ?acc0 with Some _ => _ | None => _ end _ = Ok (_, ?y) |- _ => assert (HT : trade y = trade (set_settlement (t, i) (with_refunded s (st_refunded s + rf_amount r)) d))
    by (destruct acc0 as [[]|]; inv_fin; repeat trade_step; congruence) end.
  unfold resolve_issues in *. inv_fin. exists s. cbn. rewrite HT. done.
Qed.

(** The settlement of a refund has an id as the database writes it. *)
Lemma refund_settlement m k r : settlement_ok m -> refunds m !! k = Some r -> exists i, rf_settlement r = Some i /\ as_uuid i = i.
Proof. intros HS Hk. destruct (to_refunds _ HS _ _ Hk) as (_ & i & s & Ei & Hi & _). exists i. split; [done|]. by destruct (to_rows _ HS _ _ Hi) as (_ & _ & ? & _). Qed.

Lemma finalize_ok t actor x r r0 acc ext uuid now d row d' : settlement_ok (trade d) -> refunds (trade d) !! (t, x) = Some r0 -> same_target r0 r ->
  finalizeRefundCompletionInTx t actor x r acc ext uuid now d = Ok (row, d') -> settlement_ok (trade d').
Proof.
  intros HS Hk (T1 & T2 & T3) H. destruct (refund_settlement _ _ _ HS Hk) as (i & Ei & Hu). destruct (to_refunds _ HS _ _ Hk) as (Ha & _).
  destruct (finalize_Ok _ _ _ r i _ _ _ _ _ _ _ ltac:(congruence) Hu ltac:(lia) H) as (s & Hs & Hle & E1 & Hck & E2 & (U1 & U2 & U3) & _). rewrite T3 in *.
  eapply (refund_completed _ _ (t, x) r0 row i s); try done. split_and!; congruence.
Qed.

Lemma suspend_ok t x r r0 rec uuid now d row d' : settlement_ok (trade d) -> refunds (trade d) !! (t, x) = Some r0 -> same_target r0 r ->
  suspend_refund t x r rec uuid now d = Ok (row, d') -> settlement_ok (trade d').
Proof.
  intros HS Hk (T1 & T2 & T3) H. unfold suspend_refund in H. cbv zeta in H. inv_fin. match goal with H' : insert_issue _ _ _ = Ok _ |- _ => apply open_issue_Ok in H' as [m ->] end.
  eapply (refund_moved _ _ (t, x) r0); [done | done | reflexivity | reflexivity | by split_and! | cbn; by destruct rec].
Qed.

Lemma executeRefund_ok t actor x dto uuid now d row d' : settlement_ok (trade d) -> executeRefundInTx t actor x dto uuid now d = Ok (row, d') -> settlement_ok (trade d').
Proof.
  intros HS. unfold executeRefundInTx. cbv zeta. intros H. inv_fin. match goal with H' : find_refund _ _ _ = Ok _ |- _ => apply find_refund_Ok in H' as (-> & Hk & _) end.
  destruct (rf_status a); inv_fin; try done;
    (destruct (ed_timeout dto); [eapply (suspend_ok _ _ _ a) in H | eapply (finalize_ok _ _ _ _ a) in H]; [done | done | done | by split_and! | done | done | done | by split_and!]).
Qed.

Lemma approveRefund_ok t x actor now d row d' : settlement_ok (trade d) -> approveRefund t x actor now d = Ok (row, d') -> settlement_ok (trade d').
Proof.
  intros HS. unfold approveRefund. cbv zeta. intros H. inv_fin. match goal with H' : find_refund _ _ _ = Ok _ |- _ => apply find_refund_Ok in H' as (-> & Hk & _) end.
  destruct (rf_status a); inv_fin; try done. eapply (refund_moved _ _ _ a); [done | done | reflexivity | reflexivity | by split_and! | done].
Qed.

Lemma confirmOutcome_ok t x actor dto uuid now d row d' : settlement_ok (trade d) -> confirmRefundOutcome t x actor dto uuid now d = Ok (row, d') -> settlement_ok (trade d').
Proof.
  intros HS. unfold confirmRefundOutcome. cbv zeta. intros H. inv_fin. match goal with H' : find_refund _ _ _ = Ok _ |- _ => apply find_refund_Ok in H' as (-> & Hk & _) end.
  destruct (co_outcome dto); [case_bool_decide; inv_fin; [done|]; (eapply (finalize_ok _ _ _ _ a); [done | done | by split_and! | done]) | |]; unfold resolve_issues in *; inv_fin;
    (eapply (refund_moved _ _ _ a); [done | done | reflexivity | reflexivity | by split_and! | done]).
Qed.

(** Reductions only read. *)
Lemma add_amounts_quiet {A} counts (f : A -> Z) z l d r d' : for_each (add_amount counts f) z l d = Ok (r, d') -> d' = d.
Proof.
  apply (for_each_inv (fun _ d1 => d1 = d)); [|done]. intros s a d1 s' d2 _ -> H. unfold add_amount in H. destruct (counts a); by inv_all.
Qed.

Lemma read_refunds_quiet l d u d' : for_each read_refund_row tt l d = Ok (u, d') -> d' = d.
Proof.
  apply (for_each_inv (fun _ d1 => d1 = d)); [|done]. intros s a d1 s' d2 _ -> H. unfold read_refund_row, read_refund in H. by inv_all.
Qed.

Lemma request_refund_ok t actor k h z dto uuid now d r d' : settlement_ok (trade d) -> request_refund t actor k h z dto uuid now d = Ok (r, d') -> settlement_ok (trade d').
Proof.
  intros HS. unfold request_refund. intros H. inv_fin. match goal with H' : lockOrderSettlementsInTx _ _ _ _ = Ok _ |- _ => apply lock_Ok in H' as (-> & Hrows) end.
  match goal with H' : for_each (add_amount _ _) _ _ _ = Ok _ |- _ => apply add_amounts_quiet in H' as -> end. destruct (_ <=? 0); inv_fin.
  match goal with H' : for_each read_refund_row _ _ _ = Ok _ |- _ => apply read_refunds_quiet in H' as -> end.
  match goal with H' : for_each (add_amount _ _) _ _ _ = Ok _ |- _ => apply add_amounts_quiet in H' as -> end. unfold nextFinanceDocumentCode in *. inv_fin.
  destruct a as [|target rows]; [discriminate H|]. cbv zeta in H. inv_fin. destruct (Hrows target ltac:(left)) as (Ht & Hs & Ho). destruct target as [[t0 i] s]. cbn in Ht, Hs, Ho. subst t0.
  match goal with H' : insert_refund _ _ _ = Ok _ |- _ => apply insert_refund_Ok in H' as (-> & Hn & Ha) end. cbn in Hn.
  match goal with H' : (if rd_autoExecute dto then _ else _) ?y = Ok _ |- _ => assert (HS' : settlement_ok (trade y)) end.
  { eapply (refund_added (trade d) _ (t, fresh uuid "refund")); [done | done | reflexivity | reflexivity | done | reflexivity | exact Hs | done|].
    cbn. by destruct (_ || _). }
  destruct (rd_autoExecute dto); inv_fin; [by eapply executeRefund_ok | done].
Qed.

Lemma createRefund_ok hash t actor kh dto uuid now d r d' : settlement_ok (trade d) -> createRefund hash t actor kh dto uuid now d = Ok (r, d') -> settlement_ok (trade d').
Proof.
  intros HS. unfold createRefund, createRefundInTx. cbv zeta. intros H. inv_all. destruct (first _ _) as [[k r0]|]; [|by eapply request_refund_ok].
  unfold read_refund in *. inv_all. destruct (_ && _); inv_all. done.
Qed.

(** ** Events from sales *)

Section Events.
Lemma orderCompleted_ok t payload uuid now d r d' : settlement_ok (trade d) -> onSalesOrderCompleted t payload uuid now d = Ok (r, d') -> settlement_ok (trade d').
Proof.
  intros HS. unfold onSalesOrderCompleted, event_amount. destruct (given (Some t)), (given (oc_order payload)); intros H; inv_fin; try done.
  destruct (on_credit _); inv_fin; [done|]. match type of H with match (if ?b then _ else _) with _ => _ end _ = _ => destruct b end; inv_fin; [done|].
  by eapply event_settlement_ok.
Qed.

Lemma tenderRecorded_ok t payload uuid now d r d' : settlement_ok (trade d) -> onSalesTenderRecorded t payload uuid now d = Ok (r, d') -> settlement_ok (trade d').
Proof.
  intros HS. unfold onSalesTenderRecorded, event_amount. destruct (given (Some t)), (given (tr_order payload)), (given (tr_tender payload)); intros H; inv_fin; try done.
  destruct (on_credit _); inv_fin; [done|]. match type of H with match (if ?b then _ else _) with _ => _ end _ = _ => destruct b end; inv_fin; [done|].
  by eapply event_settlement_ok.
Qed.

Lemma paymentConfirmed_ok t payload uuid now d r d' : settlement_ok (trade d) -> onSalesPaymentConfirmed t payload uuid now d = Ok (r, d') -> settlement_ok (trade d').
Proof.
  intros HS. unfold onSalesPaymentConfirmed, event_amount. destruct (given (Some t)), (given (pc_order payload)), (given (pc_payment payload)); intros H; inv_fin; try done.
  match type of H with match (if ?b then _ else _) with _ => _ end _ = _ => destruct b end; inv_fin; [done|]. by eapply event_settlement_ok.
Qed.

Lemma refundRequested_ok hash t payload uuid now d r d' : settlement_ok (trade d) -> onSalesRefundRequested hash t payload uuid now d = Ok (r, d') -> settlement_ok (trade d').
Proof.
  intros HS. unfold onSalesRefundRequested. destruct (given (Some t)), (given (rq_order payload)); intros H; inv_fin; try done.
  destruct (_ =? 0); cbv zeta in H; inv_fin; [done|]. by eapply createRefund_ok.
Qed.
End Events.
