(* ===== verification/FinanceSystem.v ===== *)
(** * The finance service as a whole

    Journals, cashbook, credit, receivables, payables, settlements and refunds behind
    one interface: a request of any handler or an event from another service, with its
    tenant, ids and time, is served in one transaction, and a request that throws
    changes nothing.  What all sequences of requests keep, what
    one request may do to the exposure of a customer, and where the books of
    different handlers part. *)

From S2P Require Import Prelude Transaction JsNumber JsString FinanceDomain FinanceLedger CustomerDebt SupplierDebt Settlements Refunds.
From S2P Require Import FinanceLedgerBooks CustomerDebtBooks SupplierDebtBooks SettlementBooks.

Open Scope Z_scope.

(** ** The service: one request after another *)

Inductive FinanceRequest :=
| AddAccount (code name : string) (type : AccountType) (side : NormalSide)
| PostManual (actor : string) (keyHeader : option string) (dto : PostJournalDto)
| ReverseManual (journal actor : string) (keyHeader : option string) (reason : string) (dtoKey : option string)
| AddCashAccount (dto : CreateCashAccountDto)
| ChangeCashAccount (account : string) (dto : UpdateCashAccountDto)
| AddCategory (code name : string) (direction : CashDirection) (gl : option string)
| AddVoucher (actor : string) (direction : CashDirection) (keyHeader : option string) (dto : CreateCashbookVoucherDto) (scope : option (list string))
| ApproveVoucher (entry actor : string)
| PostVoucher (entry actor : string) (keyHeader : option string)
| ReverseVoucher (entry actor : string) (keyHeader : option string) (reason : string) (dtoKey : option string)
| ShowCredit (customer : string)
| SetLimit (customer : string) (limit : Z)
| AuthorizeCredit (actor : string) (keyHeader : option string) (dto : CreateCreditAuthorizationDto)
| ShowAuthorization (authorization : string)
| ShowAuthorizationOf (akey : string)
| CommitCredit (authorization actor : string) (dto : CommitDto)
| ReleaseCredit (authorization actor : string) (reason dtoActor : option string)
| ExpireCredit
| Recognize (actor : string) (keyHeader : option string) (dto : RecognizeReceivableDto)
| Pay (receivable customer : option string) (actor : string) (keyHeader : option string) (dto : RecordReceivablePaymentDto)
| RecognizeSupplier (actor : string) (keyHeader : option string) (dto : RecognizePayableDto)
| PaySupplier (payable actor : string) (keyHeader : option string) (dto : RecordSupplierPaymentDto)
| CreditReturn (payable actor : string) (keyHeader : option string) (dto : ApplySupplierReturnCreditDto)
| PurchaseApproved (payload : PurchaseOrderApprovedPayload)
| GoodsReceived (payload : StockReceivedPayload)
| Settle (actor : string) (keyHeader : option string) (dto : ConfirmSettlementDto)
| ProviderCallback (actor : string) (keyHeader : option string) (dto : ProviderWebhookCallbackDto)
| OrderCompleted (payload : OrderCompletedPayload)
| TenderRecorded (payload : TenderRecordedPayload)
| PaymentConfirmed (payload : PaymentConfirmedPayload)
| AskRefund (actor : string) (keyHeader : option string) (dto : CreateRefundDto)
| ApproveRefund (refund actor : string)
| ExecuteRefund (refund actor : string) (dto : ExecuteRefundDto)
| ConfirmRefund (refund actor : string) (dto : ConfirmRefundOutcomeDto)
| RefundRequested (payload : SalesRefundRequestedPayload).

(** A request with its tenant, random ids and time. *)
Record Call := { cl_tenant : string; cl_request : FinanceRequest; cl_uuid : string -> string; cl_now : Z }.

Definition drop {A} (m : tx A) : tx unit := _ ← m; mret tt.

Section Service.
Context (voucher_hash : VoucherDigest -> string) (credit_hash : CreditDigest -> string) (refund_hash : RefundDigest -> string).

Definition serve (c : Call) : tx unit :=
  let t := cl_tenant c in let uuid := cl_uuid c in let now := cl_now c in
  match cl_request c with
  | AddAccount code name type side => drop (createAccount t code name type side uuid)
  | PostManual actor kh dto => drop (postManualJournal t actor kh dto uuid now)
  | ReverseManual j actor kh reason k => drop (reverseJournal t j actor kh reason k uuid now)
  | AddCashAccount dto => drop (createCashAccount t dto uuid now)
  | ChangeCashAccount a dto => drop (updateCashAccount t a dto)
  | AddCategory code name dir gl => drop (createCategory t code name dir gl uuid)
  | AddVoucher actor dir kh dto scope => drop (createVoucher voucher_hash t actor dir kh dto scope uuid now)
  | ApproveVoucher e actor => drop (approveEntry t e actor now)
  | PostVoucher e actor kh => drop (postEntry t e actor kh uuid now)
  | ReverseVoucher e actor kh reason k => drop (reverseEntry t e actor kh reason k uuid now)
  | ShowCredit c => drop (getCreditProfile t c)
  | SetLimit c z => drop (updateCreditLimit t c z)
  | AuthorizeCredit actor kh dto => drop (authorizeCredit credit_hash t actor kh dto uuid now)
  | ShowAuthorization a => drop (getAuthorizationById t a)
  | ShowAuthorizationOf k => drop (getAuthorizationByIdempotencyKey t k)
  | CommitCredit a actor dto => drop (commitAuthorization t a actor dto uuid now)
  | ReleaseCredit a actor reason by_ => drop (releaseAuthorization t a actor reason by_ now)
  | ExpireCredit => drop (expireStaleAuthorizations t now)
  | Recognize actor kh dto => drop (recognizeReceivable t actor kh dto uuid now)
  | Pay r c actor kh dto => drop (recordReceivablePayment t r c actor kh dto uuid now)
  | RecognizeSupplier actor kh dto => drop (recognizePayable t actor kh dto uuid now)
  | PaySupplier p actor kh dto => drop (recordSupplierPayment t p actor kh dto uuid now)
  | CreditReturn p actor kh dto => drop (applySupplierReturnCredit t p actor kh dto uuid now)
  | PurchaseApproved payload => onPurchaseOrderApproved t payload uuid now
  | GoodsReceived payload => onStockReceived t payload uuid now
  | Settle actor kh dto => drop (confirmSettlement t actor kh dto uuid now)
  | ProviderCallback actor kh dto => drop (processProviderCallback t actor kh dto uuid now)
  | OrderCompleted payload => onSalesOrderCompleted t payload uuid now
  | TenderRecorded payload => onSalesTenderRecorded t payload uuid now
  | PaymentConfirmed payload => onSalesPaymentConfirmed t payload uuid now
  | AskRefund actor kh dto => drop (createRefund refund_hash t actor kh dto uuid now)
  | ApproveRefund r actor => drop (approveRefund t r actor now)
  | ExecuteRefund r actor dto => drop (executeRefund t r actor dto uuid now)
  | ConfirmRefund r actor dto => drop (confirmRefundOutcome t r actor dto uuid now)
  | RefundRequested payload => onSalesRefundRequested refund_hash t payload uuid now
  end.

Definition serve_all (d : db) (cs : list Call) : db := foldl (fun d c => after (serve c) d) d cs.
End Service.

Definition empty_db : db :=
  {| sequences := ∅; accounts := ∅; journals := ∅; cash_accounts := ∅; categories := ∅; vouchers := ∅; profiles := ∅; auths := ∅; receivables := ∅;
     debt_ledger := []; trade := {| payables := ∅; supplier_ledger := []; settlements := ∅; refunds := ∅; issues := ∅ |}; outbox := [] |}.

(** The databases that requests lead to. *)
Definition reachable (voucher_hash : VoucherDigest -> string) (credit_hash : CreditDigest -> string) (refund_hash : RefundDigest -> string) (d : db) : Prop :=
  exists cs, d = serve_all voucher_hash credit_hash refund_hash empty_db cs.

(** ** All books *)

Record books (d : db) : Prop := { bk_journals : journals_ok (journals d); bk_cash : cash_ok d; bk_debt : debt_ok d }.

Lemma empty_books : books empty_db.
Proof.
  split.
  - split; [intros k j | intros k r i | intros k k' r r' i]; cbn; by rewrite lookup_empty.
  - split; [intros k v | intros k v | intros k a]; cbn; by rewrite lookup_empty.
  - split; [| | intros k p | intros k r | intros k a]; cbn; try by rewrite lookup_empty.
    + intros k. unfold posted_of. cbn. by rewrite lookup_empty.
    + intros k. unfold held_of. cbn. by rewrite lookup_empty.
Qed.

Lemma empty_trade : supplier_ok (trade empty_db) /\ settlement_ok (trade empty_db).
Proof.
  split; split; cbn; try done; try (intros k x; by rewrite lookup_empty). intros pre e post E. by destruct pre.
Qed.

(** *** The ledger handlers *)

Lemma same_books d d' : same_debt d d' -> same_cash d d' -> same_journals d d' -> books d -> books d'.
Proof. intros H1 H2 H3 [B1 B2 B3]. split; [by rewrite H3 | by eapply cash_same | by eapply debt_same]. Qed.

Section Ledger.
Lemma createAccount_books t code name type side uuid d r d' : books d -> createAccount t code name type side uuid d = Ok (r, d') -> books d'.
Proof.
  intros HB H. eapply same_books; [| | |exact HB].
  - assert (K : Keeps same_debt (createAccount t code name type side uuid)) by frame. by eapply K.
  - assert (K : Keeps same_cash (createAccount t code name type side uuid)) by frame. by eapply K.
  - assert (K : Keeps same_journals (createAccount t code name type side uuid)) by frame. by eapply K.
Qed.

Lemma createCategory_books t code name dir gl uuid d r d' : books d -> createCategory t code name dir gl uuid d = Ok (r, d') -> books d'.
Proof.
  intros HB H. eapply same_books; [| | |exact HB].
  - assert (K : Keeps same_debt (createCategory t code name dir gl uuid)) by frame. by eapply K.
  - assert (K : Keeps same_cash (createCategory t code name dir gl uuid)) by frame. by eapply K.
  - assert (K : Keeps same_journals (createCategory t code name dir gl uuid)) by frame. by eapply K.
Qed.

Lemma postManual_books t actor kh dto uuid now d r d' : books d -> postManualJournal t actor kh dto uuid now d = Ok (r, d') -> books d'.
Proof.
  intros [B1 B2 B3] H. split; [by eapply post_journals | eapply cash_same; [by eapply postJournal_cash | done] | eapply debt_same; [by eapply postJournal_debt | done]].
Qed.

Lemma reverseManual_books t i actor kh reason k uuid now d r d' : books d -> reverseJournal t i actor kh reason k uuid now d = Ok (r, d') -> books d'.
Proof.
  intros [B1 B2 B3] H. split; [by eapply reverse_journals | eapply cash_same; [by eapply reverseJournal_cash | done] | eapply debt_same; [by eapply reverseJournal_debt | done]].
Qed.

Lemma createCashAccount_books t dto uuid now d r d' : books d -> createCashAccount t dto uuid now d = Ok (r, d') -> books d'.
Proof.
  intros [B1 B2 B3] H. split; [|by eapply createCashAccount_cash|].
  - assert (K : Keeps same_journals (createCashAccount t dto uuid now)) by frame. by rewrite (K _ _ _ H).
  - assert (K : Keeps same_debt (createCashAccount t dto uuid now)) by frame. eapply debt_same; [by eapply K | done].
Qed.

Lemma updateCashAccount_books t i dto d r d' : books d -> updateCashAccount t i dto d = Ok (r, d') -> books d'.
Proof.
  intros [B1 B2 B3] H. split; [|by eapply updateCashAccount_cash|].
  - assert (K : Keeps same_journals (updateCashAccount t i dto)) by frame. by rewrite (K _ _ _ H).
  - assert (K : Keeps same_debt (updateCashAccount t i dto)) by frame. eapply debt_same; [by eapply K | done].
Qed.

Lemma createVoucher_books hash t actor dir kh dto scope uuid now d r d' : books d -> createVoucher hash t actor dir kh dto scope uuid now d = Ok (r, d') -> books d'.
Proof.
  intros [B1 B2 B3]. unfold createVoucher. cbv zeta. intros H. inv_all.
  match goal with H' : account_in_scope _ _ _ _ = Ok (_, ?y) |- _ => assert (y = d) as -> end.
  { unfold account_in_scope in *. destruct scope; inv_all; [|done]. destruct (cash_accounts _ !! _); inv_all; [|done]. destruct (given _); inv_all. destruct (existsb _ _); by inv_all. }
  split; [by eapply createAndPost_journals | by eapply createAndPost_cash | eapply debt_same; [by eapply createAndPost_debt | done]].
Qed.

Lemma postEntry_books t i actor kh uuid now d r d' : books d -> postEntry t i actor kh uuid now d = Ok (r, d') -> books d'.
Proof.
  intros [B1 B2 B3] H. split; [by eapply postEntry_journals | by eapply postEntry_cash | eapply debt_same; [by eapply postEntry_debt | done]].
Qed.

Lemma approveEntry_books t i actor now d r d' : books d -> approveEntry t i actor now d = Ok (r, d') -> books d'.
Proof.
  intros [B1 B2 B3] H. split; [|by eapply approveEntry_cash|].
  - assert (K : Keeps same_journals (approveEntry t i actor now)) by frame. by rewrite (K _ _ _ H).
  - assert (K : Keeps same_debt (approveEntry t i actor now)) by frame. eapply debt_same; [by eapply K | done].
Qed.

Lemma reverseEntry_books t i actor kh reason k uuid now d r d' : books d -> reverseEntry t i actor kh reason k uuid now d = Ok (r, d') -> books d'.
Proof.
  intros [B1 B2 B3] H. split; [by eapply reverseEntry_journals | by eapply reverseEntry_cash|].
  assert (K : Keeps same_debt (reverseEntry t i actor kh reason k uuid now)) by frame. eapply debt_same; [by eapply K | done].
Qed.
End Ledger.

(** *** The debt handlers *)

Section Debt.
Lemma lock_cash t c : Keeps same_cash (lockOrCreateProfileInTx t c).
Proof. frame. Qed.
Lemma lock_journals t c : Keeps same_journals (lockOrCreateProfileInTx t c).
Proof. frame. Qed.
#[local] Hint Resolve lock_cash lock_journals : keeps.

Lemma getCreditProfile_books t c d r d' : books d -> getCreditProfile t c d = Ok (r, d') -> books d'.
Proof.
  intros [B1 B2 B3] H. split; [| |by eapply getCreditProfile_debt].
  - assert (K : Keeps same_journals (getCreditProfile t c)) by frame. by rewrite (K _ _ _ H).
  - assert (K : Keeps same_cash (getCreditProfile t c)) by frame. eapply cash_same; [by eapply K | done].
Qed.

Lemma updateCreditLimit_books t c z d r d' : books d -> updateCreditLimit t c z d = Ok (r, d') -> books d'.
Proof.
  intros [B1 B2 B3] H. split; [| |by eapply updateCreditLimit_debt].
  - assert (K : Keeps same_journals (updateCreditLimit t c z)) by frame. by rewrite (K _ _ _ H).
  - assert (K : Keeps same_cash (updateCreditLimit t c z)) by frame. eapply cash_same; [by eapply K | done].
Qed.

Lemma authorizeCredit_books hash t actor kh dto uuid now d r d' : books d -> authorizeCredit hash t actor kh dto uuid now d = Ok (r, d') -> books d'.
Proof.
  intros [B1 B2 B3] H. split; [| |by eapply authorizeCredit_debt].
  - assert (K : Keeps same_journals (authorizeCredit hash t actor kh dto uuid now)) by frame. by rewrite (K _ _ _ H).
  - assert (K : Keeps same_cash (authorizeCredit hash t actor kh dto uuid now)) by frame. eapply cash_same; [by eapply K | done].
Qed.

Lemma getAuthorization_books t i d r d' : books d -> getAuthorizationById t i d = Ok (r, d') -> books d'.
Proof.
  intros [B1 B2 B3] H. unfold getAuthorizationById in H. inv_fin. destruct a as [a p]. inv_debt.
  match goal with H' : lock_auth _ _ _ = Ok _ |- _ => apply (lock_auth_Ok _ _ _ _ _ _ B3) in H' as (HD & _ & _ & _ & _ & HC & HJ & _) end.
  split; [by rewrite HJ | by eapply cash_same | done].
Qed.

Lemma getAuthorizationByKey_books t k d r d' : books d -> getAuthorizationByIdempotencyKey t k d = Ok (r, d') -> books d'.
Proof.
  intros [B1 B2 B3] H. unfold getAuthorizationByIdempotencyKey in H. inv_fin. destruct (first _ _) as [[]|]; inv_debt. locked B3.
  split; [by rewrite Hjnl | by eapply cash_same | done].
Qed.

Lemma releaseAuthorization_books t i actor reason by_ now d r d' : books d -> releaseAuthorization t i actor reason by_ now d = Ok (r, d') -> books d'.
Proof.
  intros [B1 B2 B3] H. split; [| |by eapply releaseAuthorization_debt].
  - assert (K : Keeps same_journals (releaseAuthorization t i actor reason by_ now)) by frame. by rewrite (K _ _ _ H).
  - assert (K : Keeps same_cash (releaseAuthorization t i actor reason by_ now)) by frame. eapply cash_same; [by eapply K | done].
Qed.

Lemma expireStale_books t now d r d' : books d -> expireStaleAuthorizations t now d = Ok (r, d') -> books d'.
Proof. intros [B1 B2 B3] H. apply expireStale_debt in H as (HD & HC & HJ); [|done]. split; [by rewrite HJ | by eapply cash_same | done]. Qed.

(** A handler that posts one journal. *)
Ltac posts_one B1 :=
  match goal with H : postJournalInTx _ _ _ _ _ = Ok _ |- _ => apply post_journals in H; [exact H | exact B1 | reflexivity] end.

Lemma commitAuthorization_books t i actor dto uuid now d r d' : books d -> commitAuthorization t i actor dto uuid now d = Ok (r, d') -> books d'.
Proof.
  intros [B1 B2 B3] H. split; [| |by eapply commitAuthorization_debt].
  - unfold commitAuthorization in H. cbv zeta in H. inv_fin. destruct a as [a p].
    match goal with H' : lock_auth _ _ _ = Ok _ |- _ => apply (lock_auth_Ok _ _ _ _ _ _ B3) in H' as (_ & _ & _ & _ & _ & _ & HJ & _) end.
    unfold same_journals in HJ. rewrite <- HJ in B1. destruct (au_state a); inv_debt; try done. cbn. posts_one B1.
  - assert (K : Keeps same_cash (commitAuthorization t i actor dto uuid now)) by frame. eapply cash_same; [by eapply K | done].
Qed.

Lemma recognizeReceivable_books t actor kh dto uuid now d r d' : books d -> recognizeReceivable t actor kh dto uuid now d = Ok (r, d') -> books d'.
Proof.
  intros [B1 B2 B3] H. split; [| |by eapply recognizeReceivable_debt].
  - unfold recognizeReceivable in H. cbv zeta in H. inv_debt.
    match goal with H' : lockOrCreateProfileInTx _ _ _ = Ok _ |- _ => pose proof (lock_journals _ _ _ _ _ H') as HJ end. unfold same_journals in HJ. rewrite <- HJ in B1.
    destruct (first _ _) as [[k r0]|]; inv_debt; [destruct (_ || _); by inv_debt|].
    match goal with H' : credit_check _ _ _ _ _ = Ok _ |- _ => apply credit_check_Ok in H' as (-> & _) end. inv_debt. cbn. posts_one B1.
  - assert (K : Keeps same_cash (recognizeReceivable t actor kh dto uuid now)) by frame. eapply cash_same; [by eapply K | done].
Qed.

Lemma apply_loop_quiet t c k j v actor method note single docs s als :
  Keeps same_cash (for_each (apply_step t c k j v actor method note single docs) s als) /\
  Keeps same_journals (for_each (apply_step t c k j v actor method note single docs) s als).
Proof. split; frame. Qed.

Lemma apply_payment_books t rid cid actor k dto uuid now d r d' : books d -> apply_payment t rid cid actor k dto uuid now d = Ok (r, d') -> books d'.
Proof.
  intros [B1 B2 B3] H. cut (journals_ok (journals d') /\ cash_ok d'); [intros []; split; try done; by eapply apply_payment_debt|].
  unfold apply_payment in H. inv_fin. match goal with H' : payer _ _ _ _ = Ok _ |- _ => apply payer_Ok in H' as -> end.
  match goal with H' : lockOrCreateProfileInTx _ _ _ = Ok _ |- _ => pose proof (lock_journals _ _ _ _ _ H') as HJ; pose proof (lock_cash _ _ _ _ _ H') as HC end.
  unfold same_journals in HJ. rewrite <- HJ in B1. apply (cash_same _ _ HC) in B2. clear HJ HC.
  match goal with H' : for_each read_document _ ?ds _ = Ok _ |- _ => set (docs := ds) in *; apply read_documents_Ok in H' as [-> _] end. clearbody docs.
  destruct docs as [|doc0 docs']; [discriminate H|]. cbv zeta in H. inv_fin.
  match goal with H' : payment_account _ _ _ _ _ _ = Ok _ |- _ => destruct (payment_account_frame _ _ _ _ _ _ _ _ H') as [_ HJ]; apply (payment_account_cash _ _ _ _ _ _ _ _ B2) in H' as HC end.
  unfold same_journals in HJ. rewrite <- HJ in B1. clear HJ B2.
  match goal with H' : postJournalInTx _ _ _ _ _ = Ok _ |- _ => apply (cash_same _ _ (postJournal_cash _ _ _ _ _ _ _ H')) in HC; apply (post_journals _ _ _ _ _ _ _) in H' as HJ; [|exact B1|reflexivity] end.
  match goal with H' : createAndOptionallyPostVoucherInTx _ _ _ _ _ = Ok _ |- _ => apply (createAndPost_journals _ _ _ _ _ _ _ HJ) in H' as HJ2; apply (createAndPost_cash _ _ _ _ _ _ _ HC) in H' as HC2 end.
  match goal with H' : vnd _ _ _ _ = Ok _ |- _ => apply vnd_Ok in H' as (_ & -> & _) end.
  match goal with H' : for_each (apply_step _ _ _ _ _ _ _ _ _ _) _ _ _ = Ok _ |- _ =>
    pose proof (proj1 (apply_loop_quiet _ _ _ _ _ _ _ _ _ _ _ _) _ _ _ H') as QC; pose proof (proj2 (apply_loop_quiet _ _ _ _ _ _ _ _ _ _ _ _) _ _ _ H') as QJ end.
  match goal with H' : (if nlt (int 0) _ then _ else _) _ = Ok _ |- _ => apply prepayment_Ok in H' as (-> & _) end.
  match goal with H' : save_profile _ _ _ = Ok _ |- _ => apply save_profile_Ok in H' as [-> _] end.
  match type of H with match ?u with _ => _ end _ = _ => destruct u as [|[i0 r0] us]; [discriminate H|] end. inv_fin. unfold same_journals in QJ.
  split; [cbn; by rewrite QJ | eapply cash_same; [|exact HC2]; exact QC].
Qed.

Lemma recordPayment_books t rid cid actor kh dto uuid now d r d' : books d -> recordReceivablePayment t rid cid actor kh dto uuid now d = Ok (r, d') -> books d'.
Proof.
  intros HB H. unfold recordReceivablePayment in H. cbv zeta in H. inv_fin. destruct (List.find _ _) as [e|]; [|by eapply apply_payment_books].
  destruct HB as [B1 B2 B3]. inv_debt.
  match goal with H' : match ?rec with _ => _ end ?x = Ok (_, ?y) |- _ => assert (y = x) as -> by (destruct rec; by inv_debt) end. locked B3.
  split; [by rewrite Hjnl | by eapply cash_same | done].
Qed.
End Debt.

(** *** Suppliers, settlements and refunds *)

(** What does not spoil the journals and the cash accounts. *)
Definition ledger_kept (d d' : db) : Prop := (journals_ok (journals d) -> journals_ok (journals d')) /\ (cash_ok d -> cash_ok d').
Definition same_suppliers (d d' : db) : Prop := payables (trade d') = payables (trade d) /\ supplier_ledger (trade d') = supplier_ledger (trade d).
Definition same_payments (d d' : db) : Prop := settlements (trade d') = settlements (trade d) /\ refunds (trade d') = refunds (trade d).

#[local] Instance ledger_kept_preorder : PreOrder ledger_kept.
Proof. split; [done | intros d1 d2 d3 [] []; split; auto]. Qed.
#[local] Instance same_suppliers_preorder : PreOrder same_suppliers.
Proof. split; [done | intros d1 d2 d3 [] []; split; congruence]. Qed.
#[local] Instance same_payments_preorder : PreOrder same_payments.
Proof. split; [done | intros d1 d2 d3 [] []; split; congruence]. Qed.

Lemma same_trade_suppliers {A} (m : tx A) : Keeps same_trade m -> Keeps same_suppliers m.
Proof. intros H d a d' E%H. unfold same_trade in E. split; by rewrite E. Qed.
Lemma same_trade_payments {A} (m : tx A) : Keeps same_trade m -> Keeps same_payments m.
Proof. intros H d a d' E%H. unfold same_trade in E. split; by rewrite E. Qed.

Lemma supplier_same d d' : same_suppliers d d' -> supplier_ok (trade d) -> supplier_ok (trade d').
Proof. intros [E1 E2] []. split; rewrite ?E1, ?E2; done. Qed.
Lemma settlement_same d d' : same_payments d d' -> settlement_ok (trade d) -> settlement_ok (trade d').
Proof. intros [E1 E2] []. split; rewrite ?E1, ?E2; done. Qed.

(** All books of the service. *)
Record all_books (d : db) : Prop := { ab_ledger : books d; ab_supplier : supplier_ok (trade d); ab_settlement : settlement_ok (trade d) }.

Definition keeps_books {A} (m : tx A) : Prop := forall d a d', all_books d -> m d = Ok (a, d') -> all_books d'.

Section Trade.
Lemma postJournal_kept t input uuid now : pj_reversalOf input = None -> Keeps ledger_kept (postJournalInTx t input uuid now).
Proof. intros Hr d a d' H. split; [intros HJ; by eapply post_journals | intros HC; eapply cash_same; [by eapply postJournal_cash | done]]. Qed.
Lemma createAndPost_kept t input uuid now : Keeps ledger_kept (createAndOptionallyPostVoucherInTx t input uuid now).
Proof. intros d a d' H. split; [intros HJ; by eapply createAndPost_journals | intros HC; by eapply createAndPost_cash]. Qed.
Lemma ensureCashAccount_kept t branch bank uuid now : Keeps ledger_kept (ensureDefaultCashAccountInTx t branch bank uuid now).
Proof.
  intros d a d' H. split; [|intros HC; by eapply ensureCashAccount_cash]. pose proof (ensureCashAccount_journals _ _ _ _ _ _ _ _ H) as E.
  unfold same_journals in E. by rewrite E.
Qed.
#[local] Hint Resolve createAndPost_kept ensureCashAccount_kept : keeps.
#[local] Hint Extern 1 (Keeps ledger_kept (postJournalInTx _ _ _ _)) => (apply postJournal_kept; reflexivity) : keeps.
#[local] Hint Extern 1 (Keeps same_suppliers (postJournalInTx _ _ _ _)) => (apply same_trade_suppliers, postJournal_trade) : keeps.
#[local] Hint Extern 1 (Keeps same_suppliers (createAndOptionallyPostVoucherInTx _ _ _ _)) => (apply same_trade_suppliers, createAndPost_trade) : keeps.
#[local] Hint Extern 1 (Keeps same_suppliers (ensureDefaultCashAccountInTx _ _ _ _ _)) => (apply same_trade_suppliers, ensureCashAccount_trade) : keeps.
#[local] Hint Extern 1 (Keeps same_payments (postJournalInTx _ _ _ _)) => (apply same_trade_payments, postJournal_trade) : keeps.
#[local] Hint Extern 1 (Keeps same_payments (createAndOptionallyPostVoucherInTx _ _ _ _)) => (apply same_trade_payments, createAndPost_trade) : keeps.
#[local] Hint Extern 1 (Keeps same_payments (ensureDefaultCashAccountInTx _ _ _ _ _)) => (apply same_trade_payments, ensureCashAccount_trade) : keeps.

Ltac kept := solve_keeps_with ltac:(idtac; split; [done | apply cash_same; by split]).

Lemma recognizePayable_kept t actor kh dto uuid now : Keeps ledger_kept (recognizePayable t actor kh dto uuid now).
Proof. kept. Qed.
Lemma recognizePayable_payments t actor kh dto uuid now : Keeps same_payments (recognizePayable t actor kh dto uuid now).
Proof. frame. Qed.
Lemma recognizePayable_debt t actor kh dto uuid now : Keeps same_debt (recognizePayable t actor kh dto uuid now).
Proof. frame. Qed.
#[local] Hint Resolve recognizePayable_kept recognizePayable_payments recognizePayable_debt : keeps.

Lemma confirmSettlement_kept t actor kh dto uuid now : Keeps ledger_kept (confirmSettlement t actor kh dto uuid now).
Proof. kept. Qed.
Lemma confirmSettlement_suppliers t actor kh dto uuid now : Keeps same_suppliers (confirmSettlement t actor kh dto uuid now).
Proof. frame. Qed.
Lemma confirmSettlement_debt t actor kh dto uuid now : Keeps same_debt (confirmSettlement t actor kh dto uuid now).
Proof. frame. Qed.
#[local] Hint Resolve confirmSettlement_kept confirmSettlement_suppliers confirmSettlement_debt : keeps.

Lemma finalize_kept t actor x r acc ext uuid now : Keeps ledger_kept (finalizeRefundCompletionInTx t actor x r acc ext uuid now).
Proof. kept. Qed.
Lemma finalize_suppliers t actor x r acc ext uuid now : Keeps same_suppliers (finalizeRefundCompletionInTx t actor x r acc ext uuid now).
Proof. frame. Qed.
Lemma finalize_debt t actor x r acc ext uuid now : Keeps same_debt (finalizeRefundCompletionInTx t actor x r acc ext uuid now).
Proof. frame. Qed.
#[local] Hint Resolve finalize_kept finalize_suppliers finalize_debt : keeps.

Lemma execute_kept t actor x dto uuid now : Keeps ledger_kept (executeRefundInTx t actor x dto uuid now).
Proof. kept. Qed.
Lemma execute_suppliers t actor x dto uuid now : Keeps same_suppliers (executeRefundInTx t actor x dto uuid now).
Proof. frame. Qed.
Lemma execute_debt t actor x dto uuid now : Keeps same_debt (executeRefundInTx t actor x dto uuid now).
Proof. frame. Qed.
#[local] Hint Resolve execute_kept execute_suppliers execute_debt : keeps.

(** A handler of suppliers, of settlements and refunds, or of the ledger and debts. *)
Lemma supplier_handler {A} (m : tx A) : Keeps ledger_kept m -> Keeps same_debt m -> Keeps same_payments m ->
  (forall d a d', supplier_ok (trade d) -> m d = Ok (a, d') -> supplier_ok (trade d')) -> keeps_books m.
Proof.
  intros K1 K2 K3 K4 d a d' [[B1 B2 B3] B4 B5] H. destruct (K1 _ _ _ H) as [L1 L2]. split; [split; [by apply L1 | by apply L2 | eapply debt_same; [by eapply K2 | done]]| by eapply K4|].
  eapply settlement_same; [by eapply K3 | done].
Qed.

Lemma payment_handler {A} (m : tx A) : Keeps ledger_kept m -> Keeps same_debt m -> Keeps same_suppliers m ->
  (forall d a d', settlement_ok (trade d) -> m d = Ok (a, d') -> settlement_ok (trade d')) -> keeps_books m.
Proof.
  intros K1 K2 K3 K4 d a d' [[B1 B2 B3] B4 B5] H. destruct (K1 _ _ _ H) as [L1 L2]. split; [split; [by apply L1 | by apply L2 | eapply debt_same; [by eapply K2 | done]]| |by eapply K4].
  eapply supplier_same; [by eapply K3 | done].
Qed.

Lemma ledger_handler {A} (m : tx A) : Keeps same_trade m -> (forall d a d', books d -> m d = Ok (a, d') -> books d') -> keeps_books m.
Proof. intros K1 K2 d a d' [B1 B2 B3] H. pose proof (K1 _ _ _ H) as E. unfold same_trade in E. split; [by eapply K2 | by rewrite E..]. Qed.

Lemma drop_keeps {A} (m : tx A) : keeps_books m -> keeps_books (drop m).
Proof. intros K d u d' HB H. unfold drop in H. inv_fin. by eapply K. Qed.

Lemma supplier_requests t uuid now :
  (forall actor kh dto, keeps_books (recognizePayable t actor kh dto uuid now)) /\
  (forall p actor kh dto, keeps_books (recordSupplierPayment t p actor kh dto uuid now)) /\
  (forall p actor kh dto, keeps_books (applySupplierReturnCredit t p actor kh dto uuid now)) /\
  (forall payload, keeps_books (onPurchaseOrderApproved t payload uuid now)) /\
  (forall payload, keeps_books (onStockReceived t payload uuid now)).
Proof.
  split_and!; intros; apply supplier_handler; lazymatch goal with |- Keeps ledger_kept _ => kept | |- Keeps _ _ => frame | _ => intros end; [by eapply recognizePayable_ok | by eapply supplierPayment_ok |
    by eapply returnCredit_ok | by eapply purchaseOrderApproved_ok | by eapply stockReceived_ok].
Qed.

Lemma settlement_requests t uuid now :
  (forall actor kh dto, keeps_books (confirmSettlement t actor kh dto uuid now)) /\
  (forall actor kh dto, keeps_books (processProviderCallback t actor kh dto uuid now)) /\
  (forall payload, keeps_books (onSalesOrderCompleted t payload uuid now)) /\
  (forall payload, keeps_books (onSalesTenderRecorded t payload uuid now)) /\
  (forall payload, keeps_books (onSalesPaymentConfirmed t payload uuid now)).
Proof.
  split_and!; intros; apply payment_handler; lazymatch goal with |- Keeps ledger_kept _ => kept | |- Keeps _ _ => frame | _ => intros end; [by eapply confirmSettlement_ok | by eapply confirmSettlement_ok |
    by eapply orderCompleted_ok | by eapply tenderRecorded_ok | by eapply paymentConfirmed_ok].
Qed.

Lemma refund_requests hash t uuid now :
  (forall actor kh dto, keeps_books (createRefund hash t actor kh dto uuid now)) /\
  (forall r actor, keeps_books (approveRefund t r actor now)) /\
  (forall r actor dto, keeps_books (executeRefundInTx t actor r dto uuid now)) /\
  (forall r actor dto, keeps_books (confirmRefundOutcome t r actor dto uuid now)) /\
  (forall payload, keeps_books (onSalesRefundRequested hash t payload uuid now)).
Proof.
  split_and!; intros; apply payment_handler; lazymatch goal with |- Keeps ledger_kept _ => kept | |- Keeps _ _ => frame | _ => intros end; [by eapply createRefund_ok | by eapply approveRefund_ok |
    by eapply executeRefund_ok | by eapply confirmOutcome_ok | by eapply refundRequested_ok].
Qed.
End Trade.
#[local] Hint Resolve recognizePayable_debt confirmSettlement_debt finalize_debt execute_debt : keeps.

Section Runs.
Context (voucher_hash : VoucherDigest -> string) (credit_hash : CreditDigest -> string) (refund_hash : RefundDigest -> string).

Ltac ledger_case L := apply drop_keeps, ledger_handler; [frame | intros d a d' HB H; exact (ltac:(eapply L; [exact HB | exact H]))].

Lemma served_request_books c : keeps_books (serve voucher_hash credit_hash refund_hash c).
Proof.
  destruct (supplier_requests (cl_tenant c) (cl_uuid c) (cl_now c)) as (S1 & S2 & S3 & S4 & S5).
  destruct (settlement_requests (cl_tenant c) (cl_uuid c) (cl_now c)) as (P1 & P2 & P3 & P4 & P5).
  destruct (refund_requests refund_hash (cl_tenant c) (cl_uuid c) (cl_now c)) as (R1 & R2 & R3 & R4 & R5).
  unfold serve, executeRefund. cbv zeta. destruct (cl_request c);
    [ledger_case createAccount_books | ledger_case postManual_books | ledger_case reverseManual_books | ledger_case createCashAccount_books |
     ledger_case updateCashAccount_books | ledger_case createCategory_books | ledger_case createVoucher_books | ledger_case approveEntry_books |
     ledger_case postEntry_books | ledger_case reverseEntry_books | ledger_case getCreditProfile_books | ledger_case updateCreditLimit_books |
     ledger_case authorizeCredit_books | ledger_case getAuthorization_books | ledger_case getAuthorizationByKey_books | ledger_case commitAuthorization_books |
     ledger_case releaseAuthorization_books | ledger_case expireStale_books | ledger_case recognizeReceivable_books | ledger_case recordPayment_books |
     apply drop_keeps, S1 | apply drop_keeps, S2 | apply drop_keeps, S3 | apply S4 |
     apply S5 | apply drop_keeps, P1 | apply drop_keeps, P2 | apply P3 |
     apply P4 | apply P5 | apply drop_keeps, R1 | apply drop_keeps, R2 |
     apply drop_keeps, R3 | apply drop_keeps, R4 | apply R5].
Qed.

Lemma served_books cs d : all_books d -> all_books (serve_all voucher_hash credit_hash refund_hash d cs).
Proof.
  revert d. induction cs as [|c cs IH]; intros d HB; [done|]. cbn. apply IH. unfold after.
  destruct (serve voucher_hash credit_hash refund_hash c d) as [[u d']|e] eqn:E; [by eapply served_request_books | done].
Qed.

Lemma all_finance_books d : reachable voucher_hash credit_hash refund_hash d -> all_books d.
Proof. intros [cs ->]. apply served_books. destruct empty_trade. by split; [apply empty_books|..]. Qed.

Lemma finance_books d : reachable voucher_hash credit_hash refund_hash d -> books d.
Proof. intros H. apply all_finance_books, H. Qed.
End Runs.

(** ** The debt ledger only grows *)

Definition ledger_grows (d d' : db) : Prop := debt_ledger d `prefix_of` debt_ledger d'.

#[local] Instance ledger_grows_preorder : PreOrder ledger_grows.
Proof. split; [intros d; unfold ledger_grows; reflexivity | intros d1 d2 d3 H1 H2; unfold ledger_grows in *; by etransitivity]. Qed.

Lemma same_debt_grows {A} (m : tx A) : Keeps same_debt m -> Keeps ledger_grows m.
Proof. intros H d a d' (_ & _ & _ & E)%H. unfold ledger_grows. rewrite E. reflexivity. Qed.

Ltac grows := solve_keeps_with ltac:(idtac; unfold ledger_grows; first [reflexivity | by cbn; apply prefix_app_r | lazymatch goal with |- context [match ?x with _ => _ end] => destruct x; reflexivity end]).

Section Grows.
Lemma postJournal_grows t input uuid now : Keeps ledger_grows (postJournalInTx t input uuid now).
Proof. apply same_debt_grows, postJournal_debt. Qed.
Lemma createAndPost_grows t input uuid now : Keeps ledger_grows (createAndOptionallyPostVoucherInTx t input uuid now).
Proof. apply same_debt_grows, createAndPost_debt. Qed.
Lemma ensureCashAccount_grows t branch bank uuid now : Keeps ledger_grows (ensureDefaultCashAccountInTx t branch bank uuid now).
Proof. apply same_debt_grows, ensureCashAccount_debt. Qed.
Lemma reverseJournal_grows t i actor reason k uuid now : Keeps ledger_grows (reverseJournalInTx t i actor reason k uuid now).
Proof. apply same_debt_grows, reverseJournal_debt. Qed.
Lemma insert_debt_grows e : Keeps ledger_grows (insert_debt e).
Proof. intros d u d' ->%insert_debt_Ok. unfold ledger_grows. cbn. by apply prefix_app_r. Qed.
#[local] Hint Resolve postJournal_grows createAndPost_grows ensureCashAccount_grows reverseJournal_grows insert_debt_grows : keeps.

#[local] Hint Extern 1 (Keeps ledger_grows (recognizePayable _ _ _ _ _ _)) => (apply same_debt_grows, recognizePayable_debt) : keeps.
#[local] Hint Extern 1 (Keeps ledger_grows (confirmSettlement _ _ _ _ _ _)) => (apply same_debt_grows, confirmSettlement_debt) : keeps.
#[local] Hint Extern 1 (Keeps ledger_grows (finalizeRefundCompletionInTx _ _ _ _ _ _ _ _)) => (apply same_debt_grows, finalize_debt) : keeps.
#[local] Hint Extern 1 (Keeps ledger_grows (executeRefundInTx _ _ _ _ _ _)) => (apply same_debt_grows, execute_debt) : keeps.

Lemma request_grows vh ch rh c : Keeps ledger_grows (serve vh ch rh c).
Proof. unfold serve, drop, executeRefund. cbv zeta. destruct (cl_request c); grows. Qed.

Lemma served_grows vh ch rh cs d : ledger_grows d (serve_all vh ch rh d cs).
Proof.
  revert d. induction cs as [|c cs IH]; intros d; [reflexivity|]. cbn. etransitivity; [|apply IH]. apply keeps_after; [exact _ | apply request_grows].
Qed.
End Grows.

(** *** A payment leaves its key *)

Definition pay_key (k : string) (e : DebtRow) (t : string) : bool := of_debt_key t k e || of_debt_key t (k +:+ ":1") e.

Lemma apply_loop_key t c k j v actor method note single docs al als s d s' d' : ap_index s = 0 ->
  for_each (apply_step t c k j v actor method note single docs) s (al :: als) d = Ok (s', d') -> exists e, e ∈ debt_ledger d' /\ pay_key k e t = true.
Proof.
  intros Hi H. cbn [for_each] in H. inv_fin.
  assert (Hg : Keeps ledger_grows (for_each (apply_step t c k j v actor method note single docs) a als)).
  { apply keeps_each; [exact _|]. intros s1 al1. unfold apply_step. destruct (List.find _ _) as [[]|]; [|apply keeps_type_error]. grows. }
  specialize (Hg _ _ _ H). unfold apply_step in Ha. destruct (List.find _ _) as [[k1 r]|]; [|discriminate Ha]. cbv zeta in Ha. inv_fin.
  match goal with H' : insert_debt ?e _ = Ok _ |- _ => apply insert_debt_Ok in H' as ->; exists e end. split.
  - destruct Hg as [l ->]. cbn. apply elem_of_app. left. apply elem_of_app. right. left.
  - unfold pay_key, of_debt_key. cbn. rewrite Hi, String.eqb_refl. unfold payment_key. destruct single; [by rewrite String.eqb_refl|]. cbn.
    by rewrite String.eqb_refl, orb_true_r.
Qed.

Lemma recordPayment_replay t rid cid actor kh dto uuid now d : let k := toLowerCase (trim (default ("ar-pay:" +:+ uuid "payment") (coalesce kh (rp_key dto)))) in
  (exists e, e ∈ debt_ledger d /\ pay_key k e t = true) -> forall r d', recordReceivablePayment t rid cid actor kh dto uuid now d = Ok (r, d') ->
  pr_replayed r = true /\ receivables d' = receivables d /\ debt_ledger d' = debt_ledger d /\ same_cash d d' /\ same_journals d d' /\
  forall k0, exposure d' k0 = exposure d k0.
Proof.
  intros k (e0 & He0 & Hk0) r d' H. unfold recordReceivablePayment in H. cbv zeta in H. fold k in H. inv_fin. destruct (List.find _ _) as [e|] eqn:Ef.
  - inv_debt. match goal with H' : match ?rec with _ => _ end ?x = Ok (_, ?y) |- _ => assert (y = x) as -> by (destruct rec; by inv_debt) end.
    match goal with H' : lockOrCreateProfileInTx _ _ _ = Ok _ |- _ => pose proof (lock_exposure _ _ _ _ _ H') as [_ He]; unfold lockOrCreateProfileInTx in H'; cbv zeta in H'; inv_fin end.
    destruct (profiles _ !! _); by inv_debt.
  - apply list_elem_of_In in He0. pose proof (find_none _ _ Ef _ He0) as Hn. unfold pay_key in Hk0. cbn in Hn. congruence.
Qed.

Lemma apply_payment_key t rid cid actor k dto uuid now d r d' : apply_payment t rid cid actor k dto uuid now d = Ok (r, d') ->
  exists e, e ∈ debt_ledger d' /\ pay_key k e t = true.
Proof.
  unfold apply_payment. intros H. inv_fin. match goal with H' : context [open_documents] |- _ => clear H' end.
  match type of H with match ?ds with _ => _ end _ = _ => set (docs := ds) in H; clearbody docs end. destruct docs as [|doc0 docs']; [discriminate H|]. cbv zeta in H. inv_fin.
  match goal with H' : (if nlt (int 0) _ then _ else _) _ = Ok _ |- _ => apply prepayment_Ok in H' as (-> & _) end.
  match goal with H' : save_profile _ _ _ = Ok _ |- _ => apply save_profile_Ok in H' as [-> _] end.
  match type of H with match ?u with _ => _ end _ = _ => destruct u as [|[i0 r0] us] eqn:Eu; [discriminate H|] end. inv_fin. cbn.
  match goal with H' : for_each (apply_step _ _ _ _ _ _ _ _ _ _) _ (pa_allocations ?x) _ = Ok _ |- _ => destruct (pa_allocations x) as [|al als]; [|by eapply apply_loop_key in H'] end.
  match goal with H' : for_each _ _ [] _ = Ok _ |- _ => cbn [for_each] in H'; inv_fin end. discriminate Eu.
Qed.

Lemma recordPayment_key t rid cid actor kh dto uuid now d r d' : recordReceivablePayment t rid cid actor kh dto uuid now d = Ok (r, d') ->
  exists e, e ∈ debt_ledger d' /\ pay_key (toLowerCase (trim (default ("ar-pay:" +:+ uuid "payment") (coalesce kh (rp_key dto))))) e t = true.
Proof.
  intros H. pose proof (recordPayment_replay t rid cid actor kh dto uuid now d) as Hr. cbv zeta in Hr. set (k := toLowerCase _) in *.
  destruct (List.find (fun e => pay_key k e t) (debt_ledger d)) as [e|] eqn:Ef.
  - apply find_some in Ef as [He%list_elem_of_In Hk]. destruct (Hr ltac:(eauto) r d' H) as (_ & _ & -> & _). eauto.
  - unfold recordReceivablePayment in H. cbv zeta in H. fold k in H. inv_fin. unfold pay_key in Ef. rewrite Ef in H. by eapply apply_payment_key.
Qed.

(** ** What the service keeps *)

Definition overrides (q : FinanceRequest) : bool :=
  match q with
  | AuthorizeCredit _ _ dto => is_override (xa_overrideBy dto)
  | Recognize _ _ dto => is_override (rr_overrideBy dto)
  | _ => false
  end.

Lemma serve_within vh ch rh c d u d' : debt_ok d -> overrides (cl_request c) = false -> serve vh ch rh c d = Ok (u, d') -> within d d'.
Proof.
  intros HD Ho. unfold serve, drop, executeRefund. cbv zeta. destruct (cl_request c); intros H; inv_fin;
    try match goal with H' : ?m _ = Ok _ |- _ => assert (K : Keeps same_debt m) by frame; apply within_same; by destruct (K _ _ _ H') as (? & _) end.
  - unfold getCreditProfile in *. inv_debt. match goal with H' : lockOrCreateProfileInTx _ _ _ = Ok _ |- _ => apply lock_exposure in H' as [_ ?] end. by apply within_exposure.
  - by eapply updateCreditLimit_within.
  - by eapply authorizeCredit_within.
  - unfold getAuthorizationById, lock_auth in *. inv_fin. destruct (auths _ !! _); inv_debt.
    match goal with H' : lockOrCreateProfileInTx _ _ _ = Ok _ |- _ => apply lock_exposure in H' as [_ ?] end. by apply within_exposure.
  - unfold getAuthorizationByIdempotencyKey in *. inv_fin. destruct (first _ _) as [[]|]; inv_debt.
    match goal with H' : lockOrCreateProfileInTx _ _ _ = Ok _ |- _ => apply lock_exposure in H' as [_ ?] end. by apply within_exposure.
  - by eapply commitAuthorization_within.
  - by eapply releaseAuthorization_within.
  - by eapply expireStale_within.
  - by eapply recognizeReceivable_within.
  - by eapply recordPayment_within.
Qed.

Section Theorems.
Context (voucher_hash : VoucherDigest -> string) (credit_hash : CreditDigest -> string) (refund_hash : RefundDigest -> string).

(** C9.  The general ledger always balances.  In every database that requests lead to,
    every journal has equal positive totals, each of its lines is a debit or a credit,
    and, as long as its total is a safe integer, the lines add up to the totals; so
    the ledger as a whole is in balance.  A reversal has exactly the lines of the one
    journal it names with the sides exchanged, that journal is marked reversed, and no
    journal has two reversals. *)
Theorem journals_always_balance (d : db) : reachable voucher_hash credit_hash refund_hash d ->
  (forall k j, journals d !! k = Some j ->
     0 < j_debit j /\ j_debit j = j_credit j /\ Forall (fun l => check_line l = true) (j_lines j) /\
     (j_debit j <= MAX_SAFE_INTEGER -> total ln_debit (j_lines j) = j_debit j /\ total ln_credit (j_lines j) = j_credit j)) /\
  ((forall k j, journals d !! k = Some j -> j_debit j <= MAX_SAFE_INTEGER) ->
     ksum (fun _ j => total ln_debit (j_lines j)) (journals d) = ksum (fun _ j => total ln_credit (j_lines j)) (journals d)) /\
  (forall k r i, journals d !! k = Some r -> j_reversalOf r = Some i ->
     exists j, journals d !! (k.1, i) = Some j /\ j_status j = JREVERSED /\ map entry_of (j_lines r) = map swap (map entry_of (j_lines j))) /\
  (forall k k' r r' i, journals d !! k = Some r -> journals d !! k' = Some r' -> k.1 = k'.1 ->
     j_reversalOf r = Some i -> j_reversalOf r' = Some i -> k = k').
Proof.
  intros [[J1 J2 J3] _ _]%finance_books. split_and!; [| |exact J2|exact J3].
  - intros k j [[H1 H2] H3 H4]%J1. split_and!; [done | done | |done]. eapply Forall_impl; [exact H3|]. by intros l [].
  - intros Hs. apply ksum_ext. intros k j Hj. destruct (J1 k j Hj) as [[_ E] _ H]. destruct (H (Hs k j Hj)) as [-> ->]. done.
Qed.

(** C10.  A cash account holds what its vouchers say.  In every database that requests
    lead to, the balance of every cash account is the receipts minus the expenses of
    its posted vouchers, a reversed voucher counting together with its reversal, as
    long as the balance is a safe integer; and every voucher is of a positive amount
    and names an account of its tenant. *)
Theorem cash_accounts_match_vouchers (d : db) : reachable voucher_hash credit_hash refund_hash d ->
  (forall k a, cash_accounts d !! k = Some a -> Z.abs (ca_balance a) <= MAX_SAFE_INTEGER -> ca_balance a = ksum (effect k) (vouchers d)) /\
  (forall k v, vouchers d !! k = Some v -> 0 < v_amount v /\ is_Some (cash_accounts d !! (k.1, v_account v))).
Proof. intros [_ [C1 C2 C3] _]%finance_books. split; [exact C3|]. intros k v Hv. split; [by eapply C2 | by eapply C1]. Qed.

(** C11.  The books on a customer agree.  In every database that requests lead to, the
    posted debt of every credit profile is what the receivables of the customer still
    owe and what the debt ledger adds up to, and the held credit is the sum of the
    open authorizations, as long as the figure is a safe integer; a receivable is
    always paid plus outstanding, and PAID exactly when nothing is outstanding. *)
Theorem customer_debt_reconciles (d : db) : reachable voucher_hash credit_hash refund_hash d ->
  (forall k p, profiles d !! k = Some p ->
     0 <= cp_posted p /\ 0 <= cp_held p /\
     (cp_posted p <= MAX_SAFE_INTEGER -> cp_posted p = owed k (receivables d) /\ cp_posted p = booked k (debt_ledger d)) /\
     (cp_held p <= MAX_SAFE_INTEGER -> cp_held p = held k (auths d))) /\
  (forall k r, receivables d !! k = Some r ->
     0 < rv_original r /\ 0 <= rv_outstanding r /\ rv_paid r + rv_outstanding r = rv_original r /\ (rv_status r = DOC_PAID <-> rv_outstanding r = 0)).
Proof.
  intros [_ _ [D1 D2 D3 D4 _]]%finance_books. split.
  - intros k p Hp. specialize (D1 k). specialize (D2 k). specialize (D3 k p Hp). unfold posted_of, held_of in *. rewrite Hp in *. unfold check_profile in D3. bool_prop.
    done.
  - intros k r (Hc & Ha & Hs & _)%D4. unfold check_receivable in Hc. bool_prop. split_and!; (done || lia || apply Hs).
Qed.

(** C21.  Without an override, credit is given within the limit.  Whatever was done
    before, a request that does not carry an override leaves every customer with debt
    plus held credit within the limit then in force, or with no more than before: no
    sequence of holds, commits, releases, expiries, recognitions, payments and limit
    changes lets the exposure grow past the limit.  The customer's debt and held credit
    are then safe integers (at most 2^53 - 1), as sums in JavaScript need. *)
Theorem exposure_grows_only_within_limit (d d' : db) (c : Call) : reachable voucher_hash credit_hash refund_hash d ->
  overrides (cl_request c) = false -> serve voucher_hash credit_hash refund_hash c d = Ok (tt, d') ->
  forall k p, profiles d' !! k = Some p -> cp_posted p <= MAX_SAFE_INTEGER -> cp_held p <= MAX_SAFE_INTEGER ->
  cp_posted p + cp_held p <= cp_limit p \/ cp_posted p + cp_held p <= exposure d k.
Proof. intros HB%finance_books Ho Hs k p Hp Hm Hh. pose proof (serve_within _ _ _ _ _ _ _ (bk_debt _ HB) Ho Hs k p Hp Hm Hh). lia. Qed.

(** C22.  A payment is taken once.  After a payment with a key was recorded, and after
    any requests since, a payment of the tenant with the same key, whatever else it
    says and however it ends, changes no receivable, ledger entry, voucher, cash
    account, journal or debt, and if it is answered the answer says it is a replay. *)
Theorem payment_recorded_once (t k : string) (rid cid rid' cid' : option string) (actor actor' : string) (dto dto' : RecordReceivablePaymentDto)
    (uuid uuid' : string -> string) (now now' : Z) (r : PaymentResult) (d d1 : db) (cs : list Call) :
  recordReceivablePayment t rid cid actor (Some k) dto uuid now d = Ok (r, d1) ->
  let d2 := serve_all voucher_hash credit_hash refund_hash d1 cs in
  let again := recordReceivablePayment t rid' cid' actor' (Some k) dto' uuid' now' in
  let d3 := after again d2 in
  receivables d3 = receivables d2 /\ debt_ledger d3 = debt_ledger d2 /\ vouchers d3 = vouchers d2 /\ cash_accounts d3 = cash_accounts d2 /\
  journals d3 = journals d2 /\ (forall c, exposure d3 c = exposure d2 c) /\ forall r' d', again d2 = Ok (r', d') -> pr_replayed r' = true.
Proof.
  intros (e & He & Hk)%recordPayment_key d2 again d3. assert (He2 : e ∈ debt_ledger d2).
  { destruct (served_grows voucher_hash credit_hash refund_hash cs d1) as [l El]. unfold d2. rewrite El. apply elem_of_app. by left. }
  pose proof (recordPayment_replay t rid' cid' actor' (Some k) dto' uuid' now' d2 ltac:(eauto)) as Hr. fold again in Hr. unfold d3, after.
  destruct (again d2) as [[r' d']|x]; [|split_and!; done]. destruct (Hr _ _ eq_refl) as (Hp & ? & ? & [] & ? & ?). split_and!; try done. by intros r0 d0 [= <- <-].
Qed.
End Theorems.

(** ** Runs *)

Definition call (n : Z) (q : FinanceRequest) : Call :=
  {| cl_tenant := "t"; cl_request := q; cl_uuid := fun what => "u" +:+ Z_string n +:+ what; cl_now := n |}.

Definition no_hash {A} (x : A) : string := "h".

Definition debt_of (amount : Z) (source : string) : FinanceRequest :=
  Recognize "anna" (Some source) {| rr_customer := "c1"; rr_amount := amount; rr_order := None; rr_branch := None; rr_sourceType := None;
    rr_sourceId := Some source; rr_overrideBy := None; rr_note := None; rr_key := None |}.

Definition cash_payment (amount : Z) (policy : option OverpaymentPolicy) : RecordReceivablePaymentDto :=
  {| rp_amount := amount; rp_method := None; rp_account := None; rp_branch := None; rp_policy := policy; rp_allocations := []; rp_note := None; rp_key := None |}.

Definition hold_of (amount : Z) (akey : string) : FinanceRequest :=
  AuthorizeCredit "anna" (Some akey) {| xa_customer := "c1"; xa_amount := amount; xa_order := None; xa_branch := None; xa_caller := None; xa_ttl := None;
    xa_overrideBy := None; xa_overrideReason := None; xa_key := None |}.

Definition demo_calls : list Call :=
  [call 1 (debt_of 500000 "s1"); call 2 (debt_of 300000 "s2"); call 3 (Pay None (Some "c1") "anna" (Some "pay") (cash_payment 600000 None));
   call 4 (hold_of 400000 "h1"); call 5 (CommitCredit "u4authorization" "anna" {| cm_order := None; cm_branch := None; cm_actor := None |});
   call 6 (hold_of 700000 "h2"); call 7 (ReverseVoucher "u3voucher" "anna" (Some "undo") "mistake" None)].

Definition demo_db : db := serve_all no_hash no_hash no_hash empty_db demo_calls.

Lemma demo_reachable : reachable no_hash no_hash no_hash demo_db.
Proof. by exists demo_calls. Qed.

Lemma journals_always_balance_witness : exists r j, journals demo_db !! ("t", "u7journal") = Some r /\ journals demo_db !! ("t", "u3journal") = Some j /\
  j_status j = JREVERSED /\ map entry_of (j_lines r) = map swap (map entry_of (j_lines j)) /\ total ln_debit (j_lines j) = j_debit j.
Proof.
  assert (Hr : exists r, journals demo_db !! ("t", "u7journal") = Some r /\ j_reversalOf r = Some "u3journal") by (vm_compute; eexists; by split).
  destruct Hr as (r & Hr & Hi). destruct (journals_always_balance no_hash no_hash no_hash demo_db demo_reachable) as (H1 & _ & H3 & _).
  destruct (H3 _ _ _ Hr Hi) as (j & Hj & Hs & Hl). change (journals demo_db !! ("t", "u3journal") = Some j) in Hj. exists r, j. split_and!; [done | done | done | done|].
  destruct (H1 _ _ Hj) as (_ & _ & _ & Ht). apply Ht. assert (E : j_debit <$> journals demo_db !! ("t", "u3journal") = Some 600000) by (vm_compute; reflexivity).
  rewrite Hj in E. injection E as ->. vm_compute. congruence.
Defined.

Lemma cash_accounts_match_vouchers_witness : exists a, cash_accounts demo_db !! ("t", "u3cash-account") = Some a /\ ca_balance a = ksum (effect ("t", "u3cash-account")) (vouchers demo_db).
Proof.
  destruct (cash_accounts_match_vouchers no_hash no_hash no_hash demo_db demo_reachable) as [H _].
  assert (E : ca_balance <$> cash_accounts demo_db !! ("t", "u3cash-account") = Some 0) by (vm_compute; reflexivity).
  destruct (cash_accounts demo_db !! ("t", "u3cash-account")) as [a|] eqn:Ea; [|discriminate E]. exists a. split; [done|]. apply H; [done|]. injection E as ->.
  vm_compute. congruence.
Defined.

Lemma customer_debt_reconciles_witness : exists p, profiles demo_db !! ("t", "c1") = Some p /\ cp_posted p = 600000 /\ cp_posted p = owed ("t", "c1") (receivables demo_db) /\
  cp_held p = 700000 /\ cp_held p = held ("t", "c1") (auths demo_db).
Proof.
  destruct (customer_debt_reconciles no_hash no_hash no_hash demo_db demo_reachable) as [H _].
  assert (E : (fun p => (cp_posted p, cp_held p)) <$> profiles demo_db !! ("t", "c1") = Some (600000, 700000)) by (vm_compute; reflexivity).
  destruct (profiles demo_db !! ("t", "c1")) as [p|] eqn:Ep; [|discriminate E]. injection E as E1 E2. destruct (H _ _ Ep) as (_ & _ & H1 & H2). exists p.
  split_and!; [done | done | | done|]; [apply H1 | apply H2]; rewrite ?E1, ?E2; vm_compute; congruence.
Defined.

(** A hold of the last 700,000 of credit. *)
Lemma exposure_grows_only_within_limit_witness : exists d', serve no_hash no_hash no_hash (call 8 (hold_of 700000 "h3")) demo_db = Ok (tt, d') /\
  exists p, profiles d' !! ("t", "c1") = Some p /\ cp_posted p + cp_held p = 2000000 /\ (cp_posted p + cp_held p <= cp_limit p \/ cp_posted p + cp_held p <= exposure demo_db ("t", "c1")).
Proof.
  assert (E : match serve no_hash no_hash no_hash (call 8 (hold_of 700000 "h3")) demo_db with
    | Ok (_, d') => (fun p => (cp_posted p, cp_held p)) <$> profiles d' !! ("t", "c1") | Throw _ => None end = Some (600000, 1400000)) by (vm_compute; reflexivity).
  destruct (serve _ _ _ _) as [[[] d']|] eqn:Es; [|discriminate E]. exists d'. split; [done|].
  destruct (profiles d' !! ("t", "c1")) as [p|] eqn:Ep; [|discriminate E]. injection E as E1 E2. exists p. split_and!; [done | lia|].
  apply (exposure_grows_only_within_limit no_hash no_hash no_hash demo_db d' (call 8 (hold_of 700000 "h3")) demo_reachable eq_refl Es ("t", "c1") p Ep); rewrite ?E1, ?E2; vm_compute; congruence.
Defined.

(** The third request of the run. *)
Definition two_debts : db := serve_all no_hash no_hash no_hash empty_db (take 2 demo_calls).
Definition first_payment : tx PaymentResult := recordReceivablePayment "t" None (Some "c1") "anna" (Some "pay") (cash_payment 600000 None) (fun w => "u3" +:+ w) 3.

(** The same key again, with another amount. *)
Lemma payment_recorded_once_witness : exists r d1, first_payment two_debts = Ok (r, d1) /\ pr_replayed r = false /\
  receivables (after (recordReceivablePayment "t" None (Some "c1") "bert" (Some "pay") (cash_payment 50000 None) (fun w => "u9" +:+ w) 9) d1) = receivables d1.
Proof.
  assert (H : match first_payment two_debts with Ok (r, _) => pr_replayed r = false | Throw _ => False end) by (vm_compute; reflexivity).
  destruct (first_payment two_debts) as [[r d1]|x] eqn:E; [|destruct H]. exists r, d1. split_and!; [done | done|].
  apply (payment_recorded_once no_hash no_hash no_hash "t" "pay" None (Some "c1") None (Some "c1") "anna" "bert" (cash_payment 600000 None) (cash_payment 50000 None)
    (fun w => "u3" +:+ w) (fun w => "u9" +:+ w) 3 9 r two_debts d1 [] E).
Defined.

(** ** Where the books part *)

(** The balance of an account in the general ledger of a tenant. *)
Definition gl_balance (t code : string) (d : db) : Z :=
  ksum (fun k j => if String.eqb k.1 t then total (fun l => if String.eqb (ln_account l) code then ln_debit l - ln_credit l else 0) (j_lines j) else 0) (journals d).

(** C38.  Reversing a debt collection does not reopen the debt.  The reversal of a
    voucher touches no receivable, profile or debt ledger entry; so after a payment is
    collected and its voucher reversed, the money is out of the drawer and the general
    ledger has the customer owing 800,000 again, while the receivables and the credit
    profile say 200,000. *)
Theorem voided_collection_keeps_debt_paid :
  (forall t entry actor kh reason k uuid now d r d', reverseEntry t entry actor kh reason k uuid now d = Ok (r, d') ->
     receivables d' = receivables d /\ profiles d' = profiles d /\ debt_ledger d' = debt_ledger d) /\
  let d := serve_all no_hash no_hash no_hash empty_db (take 3 demo_calls ++ [call 7 (ReverseVoucher "u3voucher" "anna" (Some "undo") "mistake" None)]) in
  (fun v => (v_type v, v_status v)) <$> vouchers d !! ("t", "u3voucher") = Some ("DEBT_COLLECTION", REVERSED) /\
  ca_balance <$> cash_accounts d !! ("t", "u3cash-account") = Some 0 /\
  gl_balance "t" GL.ACCOUNTS_RECEIVABLE d = 800000 /\ owed ("t", "c1") (receivables d) = 200000 /\ posted_of d ("t", "c1") = 200000.
Proof.
  split; [|vm_compute; by split_and!]. intros t entry actor kh reason k uuid now d r d' H.
  assert (K : Keeps same_debt (reverseEntry t entry actor kh reason k uuid now)) by frame. by destruct (K _ _ _ H) as (? & _ & ? & ?).
Qed.

Definition debt_journal (st si jkey : string) : FinanceRequest :=
  PostManual "anna" (Some jkey) {| dj_type := "MANUAL"; dj_sourceType := st; dj_sourceId := si; dj_key := None; dj_branch := None; dj_description := None;
    dj_lines := [posting GL.CASH_ON_HAND (VNum (int 100)) Undefined; posting GL.OTHER_INCOME Undefined (VNum (int 100))] |}.

(** A journal can be marked reversed though nothing reverses it.  A manual journal
    may take the source JOURNAL_REVERSAL with the id of another journal; when that one
    is then reversed, the posting finds the source taken and answers with the manual
    journal, which has the same sides: the original is marked reversed by it, no
    mirror exists and the account keeps both. *)
Theorem manual_journal_passes_for_a_reversal :
  let d := serve_all no_hash no_hash no_hash empty_db
    [call 1 (debt_journal "MANUAL" "m1" "k1"); call 2 (debt_journal "JOURNAL_REVERSAL" "u1journal" "k2"); call 3 (ReverseManual "u1journal" "anna" None "void" None)] in
  (fun j => (j_status j, j_reversedBy j)) <$> journals d !! ("t", "u1journal") = Some (JREVERSED, Some "u2journal") /\
  j_reversalOf <$> journals d !! ("t", "u2journal") = Some None /\ size (journals d) = 2%nat /\ gl_balance "t" GL.CASH_ON_HAND d = 200.
Proof. vm_compute. by split_and!. Qed.

(** A new payment can be taken for a replay.  A payment "pay" that went to two
    receivables leaves the keys "pay:1" and "pay:2"; a later, different payment with
    the key "pay:2" is answered as a replay and never recorded. *)
Theorem payment_key_collision :
  let d := serve_all no_hash no_hash no_hash empty_db (take 3 demo_calls) in
  match recordReceivablePayment "t" None (Some "c1") "bert" (Some "pay:2") (cash_payment 150000 None) (fun w => "u8" +:+ w) 8 d with
  | Ok (r, d') => pr_replayed r = true /\ pr_allocated r = 0 /\ posted_of d' ("t", "c1") = 200000 /\ length (debt_ledger d') = 4%nat /\
      ca_balance <$> cash_accounts d' !! ("t", "u3cash-account") = Some 600000
  | Throw _ => False
  end.
Proof. vm_compute. by split_and!. Qed.
