(* ===== verification/FinanceTrade.v ===== *)
(** * What the finance service promises to suppliers and buyers

    Over all requests, served one at a time: the debt to a supplier is what the payables
    and the running ledger say, and no more of a payment is refunded than was settled.  And the places
    where the handlers of payables, settlements and refunds part from what they mean. *)

From S2P Require Import Prelude Transaction JsNumber JsString FinanceDomain FinanceLedger CustomerDebt SupplierDebt Settlements Refunds.
From S2P Require Import FinanceLedgerBooks CustomerDebtBooks SupplierDebtBooks SettlementBooks FinanceSystem.

Open Scope Z_scope.

(** ** Over all requests *)

Section Theorems.
Context (voucher_hash : VoucherDigest -> string) (credit_hash : CreditDigest -> string) (refund_hash : RefundDigest -> string).

(** C12.  The books on a supplier agree, as long as requests are served one at a time:
    in every database that a sequence of requests leads to, each after the one before it
    has finished, what the payables of a supplier still owe is what the supplier ledger
    adds up to, and it is the debt the service reports; the ledger is a running balance,
    every entry starting where the supplier's last one ended, as long as the figures are
    safe integers; a payable is always paid plus credited plus outstanding, and it is
    closed exactly when nothing is outstanding.  A credit for returned goods that runs
    at the same time as another request on the supplier is excluded: it takes no lock on
    the supplier, and [credit_during_payment_breaks_running_balance] and
    [replay_during_credit_restores_debt] show what that can do. *)
Theorem supplier_debt_reconciles (d : db) : reachable voucher_hash credit_hash refund_hash d ->
  (forall k, owing k (payables (trade d)) = entered k (supplier_ledger (trade d))) /\
  (forall t s z d', computeSupplierTotalDebtInTx t s d = Ok (z, d') -> z = owing (t, as_uuid s) (payables (trade d))) /\
  (forall pre e post, supplier_ledger (trade d) = pre ++ e :: post ->
     sl_before e = entered (sl_tenant e, sl_supplier e) pre /\ 0 <= sl_after e /\ (sl_after e <= MAX_SAFE_INTEGER -> sl_after e = sl_before e + sl_delta e)) /\
  (forall k p, payables (trade d) !! k = Some p ->
     0 < pb_original p /\ 0 <= pb_paid p /\ 0 <= pb_adjusted p /\ 0 <= pb_outstanding p /\ pb_paid p + pb_adjusted p + pb_outstanding p = pb_original p /\
     (closed (pb_status p) = true <-> pb_outstanding p = 0)).
Proof.
  intros [_ [S1 S2 S3] _]%all_finance_books. split_and!; [done | | |].
  - intros t s z d' (_ & -> & _)%supplier_debt_Ok. by apply open_total_owing.
  - intros pre e post (H1 & _ & H2 & H3)%S3. done.
  - intros k p (Hc & Ha & _ & Hs & _)%S2. unfold check_payable in Hc. bool_prop. split_and!; (done || lia || apply Hs).
Qed.

(** C13.  No more is refunded than was settled.  In every database that requests lead
    to, and for every settlement, the completed refunds on it are covered by its
    refunded amount, which is at most the amount settled; only a settlement that is
    SETTLED holds money; and every refund belongs to one settlement of its order, so a
    completed refund was within what that settlement took in. *)
Theorem refunds_stay_within_settlements (d : db) : reachable voucher_hash credit_hash refund_hash d ->
  (forall k s, settlements (trade d) !! k = Some s ->
     repaid k (refunds (trade d)) <= st_refunded s <= st_settled s /\ (st_settled s <> 0 -> st_status s = ST_SETTLED)) /\
  (forall k r, refunds (trade d) !! k = Some r -> exists i s,
     rf_settlement r = Some i /\ settlements (trade d) !! (k.1, i) = Some s /\ st_order s = rf_order r /\
     (rf_status r = RF_COMPLETED -> rf_amount r <= st_settled s)).
Proof.
  intros [_ _ HS]%all_finance_books. split.
  - intros k s Hs. pose proof (to_repaid _ HS _ _ Hs). destruct (to_rows _ HS _ _ Hs) as (_ & Hb & _ & _ & [Hst|[_ Hst]]); split; (done || lia).
  - intros k r Hr. destruct (to_refunds _ HS _ _ Hr) as (_ & i & s & Ei & Hs & Ho). exists i, s. split_and!; try done. intros Hd.
    pose proof (to_repaid _ HS _ _ Hs). destruct (to_rows _ HS _ _ Hs) as (_ & Hb & _). pose proof (repaid_covers _ _ _ _ HS Hr Ei Hd). lia.
Qed.

(** C39.  A refund is paid from one settlement only.  Whatever was done before, a
    refund that is larger than what its settlement has left cannot be completed, by
    execution or by a confirmed outcome, however much the order's other payments hold. *)
Theorem refund_bound_to_one_settlement (d : db) (t x i : string) (r : RefundRow) (s : SettlementRow) : reachable voucher_hash credit_hash refund_hash d ->
  refunds (trade d) !! (t, as_uuid x) = Some r -> rf_status r <> RF_COMPLETED -> rf_settlement r = Some i -> settlements (trade d) !! (t, i) = Some s ->
  st_settled s < st_refunded s + rf_amount r ->
  (forall actor acc ext rec uuid now, exists e, executeRefund t x actor {| ed_account := acc; ed_external := ext; ed_timeout := false; ed_reconcile := rec |} uuid now d = Throw e) /\
  (forall actor dto uuid now, co_outcome dto = OUT_COMPLETED -> exists e, confirmRefundOutcome t x actor dto uuid now d = Throw e).
Proof.
  intros [_ _ HS]%all_finance_books Hr Hst Ei Hs Hlt. destruct (to_refunds _ HS _ _ Hr) as (Ha & _).
  assert (Hu : as_uuid i = i) by (by destruct (to_rows _ HS _ _ Hs) as (_ & _ & ? & _)).
  assert (Hf : forall actor r' acc ext uuid now row d', same_target r r' -> finalizeRefundCompletionInTx t actor (as_uuid x) r' acc ext uuid now d = Ok (row, d') -> False).
  { intros actor r' acc ext uuid now row d' (T1 & _ & T3) H.
    destruct (finalize_Ok _ _ _ r' i _ _ _ _ _ _ _ ltac:(congruence) Hu ltac:(lia) H) as (s' & Hs' & Hle & _). rewrite Hs in Hs'. injection Hs' as <-. lia. }
  split.
  - intros actor acc ext rec uuid now. destruct (executeRefund _ _ _ _ _ _ _) as [[row d']|e] eqn:E; [|by eexists]. exfalso. unfold executeRefund, executeRefundInTx in E. cbv zeta in E.
    inv_fin. match goal with H' : find_refund _ _ _ = Ok _ |- _ => apply find_refund_Ok in H' as (-> & Hk & _) end. rewrite Hr in Hk. injection Hk as <-.
    destruct (rf_status r); inv_fin; try done; (eapply Hf; [|exact E]; by split_and!).
  - intros actor dto uuid now Ho. destruct (confirmRefundOutcome _ _ _ _ _ _ _) as [[row d']|e] eqn:E; [|by eexists]. exfalso. unfold confirmRefundOutcome in E. cbv zeta in E.
    inv_fin. match goal with H' : find_refund _ _ _ = Ok _ |- _ => apply find_refund_Ok in H' as (-> & Hk & _) end. rewrite Hr in Hk. injection Hk as <-.
    rewrite Ho, bool_decide_false in E by done. eapply Hf; [|exact E]; by split_and!.
Qed.
End Theorems.

(** ** Runs *)

Definition payable_of (amount : Z) (source : string) : FinanceRequest :=
  RecognizeSupplier "anna" (Some source) {| pd_supplier := "s1"; pd_amount := amount; pd_po := None; pd_receipt := None; pd_warehouse := None;
    pd_sourceType := None; pd_sourceId := Some source; pd_note := None; pd_key := None |}.

Definition supplier_payment (amount : Z) (allocations : list (string * Z)) : RecordSupplierPaymentDto :=
  {| sp_amount := amount; sp_method := None; sp_account := None; sp_branch := None; sp_allocations := allocations; sp_note := None; sp_key := None |}.

Definition return_credit (amount : Z) : ApplySupplierReturnCreditDto := {| sc_amount := amount; sc_returnRef := "ret1"; sc_reason := None; sc_key := None |}.

Definition cash_tender (order tender : string) (amount : Z) : FinanceRequest :=
  Settle "anna" None {| cf_order := order; cf_checkout := None; cf_branch := None; cf_shift := None; cf_tender := Some tender; cf_method := "CASH"; cf_provider := None;
    cf_external := None; cf_requested := amount; cf_confirmed := None; cf_settled := None; cf_account := None; cf_ambiguous := false; cf_key := None |}.

Definition cash_refund (order rkey : string) (amount : Z) : FinanceRequest :=
  AskRefund "anna" (Some rkey) {| rd_order := order; rd_request := None; rd_return := None; rd_settlement := None; rd_branch := None; rd_shift := None;
    rd_account := None; rd_method := "CASH"; rd_provider := None; rd_amount := amount; rd_autoApprove := true; rd_autoExecute := false; rd_key := None |}.

Definition pay_out : ExecuteRefundDto := {| ed_account := None; ed_external := None; ed_timeout := false; ed_reconcile := false |}.
Definition reported (o : RefundOutcome) : ConfirmRefundOutcomeDto := {| co_outcome := o; co_external := None; co_cashAccount := None; co_failure := None |}.

Definition trade_calls : list Call :=
  [call 1 (payable_of 900000 "p1"); call 2 (payable_of 400000 "p2"); call 3 (PaySupplier "u1payable" "anna" (Some "pay") (supplier_payment 600000 [("u1payable", 500000); ("u2payable", 100000)]));
   call 4 (CreditReturn "u1payable" "anna" None (return_credit 150000)); call 5 (cash_tender "o1" "a" 300000); call 6 (cash_tender "o1" "b" 200000);
   call 7 (cash_refund "o1" "r1" 100000); call 8 (ExecuteRefund "u7refund" "anna" pay_out); call 9 (cash_refund "o1" "r2" 250000)].

Definition trade_demo : db := serve_all no_hash no_hash no_hash empty_db trade_calls.

Lemma trade_demo_reachable : reachable no_hash no_hash no_hash trade_demo.
Proof. by exists trade_calls. Qed.

Lemma supplier_debt_reconciles_witness : owing ("t", "s1") (payables (trade trade_demo)) = entered ("t", "s1") (supplier_ledger (trade trade_demo)) /\
  owing ("t", "s1") (payables (trade trade_demo)) = 550000 /\
  map (fun e => (sl_before e, sl_delta e, sl_after e)) (supplier_ledger (trade trade_demo)) =
    [(0, 900000, 900000); (900000, 400000, 1300000); (1300000, -500000, 800000); (800000, -100000, 700000); (700000, -150000, 550000)].
Proof.
  destruct (supplier_debt_reconciles no_hash no_hash no_hash trade_demo trade_demo_reachable) as (H & _). split; [apply H|]. split; vm_compute; reflexivity.
Defined.

Lemma refunds_stay_within_settlements_witness : exists s, settlements (trade trade_demo) !! ("t", "u5settlement") = Some s /\
  repaid ("t", "u5settlement") (refunds (trade trade_demo)) = 100000 /\ repaid ("t", "u5settlement") (refunds (trade trade_demo)) <= st_refunded s <= st_settled s.
Proof.
  destruct (refunds_stay_within_settlements no_hash no_hash no_hash trade_demo trade_demo_reachable) as [H _].
  assert (E : st_settled <$> settlements (trade trade_demo) !! ("t", "u5settlement") = Some 300000) by (vm_compute; reflexivity).
  destruct (settlements (trade trade_demo) !! ("t", "u5settlement")) as [s|] eqn:Es; [|discriminate E]. exists s. split_and!; [done | vm_compute; reflexivity | |];
    apply (H _ _ Es).
Defined.

(** A refund of 250,000 is accepted for an order that took 500,000 in two payments and
    gave 100,000 back; its first payment of 300,000 has 200,000 left. *)
Lemma refund_bound_to_one_settlement_witness : exists e, executeRefund "t" "u9refund" "anna" pay_out (fun w => "u10" +:+ w) 10 trade_demo = Throw e.
Proof.
  assert (E : (fun r => (rf_amount r, rf_status r, rf_settlement r)) <$> refunds (trade trade_demo) !! ("t", as_uuid "u9refund") = Some (250000, RF_APPROVED, Some "u5settlement"))
    by (vm_compute; reflexivity).
  assert (F : (fun s => (st_settled s, st_refunded s)) <$> settlements (trade trade_demo) !! ("t", "u5settlement") = Some (300000, 100000)) by (vm_compute; reflexivity).
  destruct (refunds (trade trade_demo) !! ("t", as_uuid "u9refund")) as [r|] eqn:Er; [|discriminate E]. injection E as E1 E2 E3.
  destruct (settlements (trade trade_demo) !! ("t", "u5settlement")) as [s|] eqn:Es; [|discriminate F]. injection F as F1 F2.
  assert (Hst : rf_status r <> RF_COMPLETED) by (by rewrite E2). assert (Hlt : st_settled s < st_refunded s + rf_amount r) by lia.
  exact (proj1 (refund_bound_to_one_settlement no_hash no_hash no_hash trade_demo "t" "u9refund" "u5settlement" r s trade_demo_reachable Er Hst E3 Es Hlt)
    "anna" None None false (fun w => "u10" +:+ w) 10).
Defined.

(** ** Where the handlers part from what they mean *)

(** A credit on one payable while another payable of the supplier is paid.  The credit
    has locked its payable and read the debt of 1,300,000; a payment of 600,000 on the
    other payable commits; then the credit of 150,000 is entered from 1,300,000.  What is
    owed still adds up, but the ledger's last balance is 1,150,000 while 550,000 is
    owed. *)
Definition two_payables : db := serve_all no_hash no_hash no_hash empty_db (take 2 trade_calls).
Definition other_paid : db :=
  serve_all no_hash no_hash no_hash two_payables [call 3 (PaySupplier "u1payable" "anna" (Some "pay") (supplier_payment 600000 []))].

Theorem credit_during_payment_breaks_running_balance : exists p,
  find_payable "t" "u2payable" two_payables = Ok (Some p, two_payables) /\
  computeSupplierTotalDebtInTx "t" "s1" two_payables = Ok (1300000, two_payables) /\
  let late := after (book_credit "t" "u2payable" "anna" "credit" 150000 400000 1300000 p (return_credit 150000) (fun w => "u4" +:+ w) 4) other_paid in
  map (fun e => (sl_before e, sl_delta e, sl_after e)) (supplier_ledger (trade late)) =
    [(0, 900000, 900000); (900000, 400000, 1300000); (1300000, -600000, 700000); (1300000, -150000, 1150000)] /\
  owing ("t", "s1") (payables (trade late)) = 550000.
Proof. eexists. split; [vm_compute; reflexivity|]. split; [vm_compute; reflexivity|]. cbv zeta. split; vm_compute; reflexivity. Qed.

(** A payable recognized again, with its receipt, while it is credited.  The replay has
    read the payable; a credit of 150,000 commits; then the entity is saved as it was
    read.  The 150,000 are owed again, and the ledger says they are not. *)
Definition one_credited : db := serve_all no_hash no_hash no_hash two_payables [call 4 (CreditReturn "u1payable" "anna" None (return_credit 150000))].

Theorem replay_during_credit_restores_debt : exists p,
  find_payable "t" "u1payable" two_payables = Ok (Some p, two_payables) /\
  owing ("t", "s1") (payables (trade one_credited)) = 1150000 /\
  let late := after (attach_receipt ("t", "u1payable") p (Some "r1")) one_credited in
  owing ("t", "s1") (payables (trade late)) = 1300000 /\ entered ("t", "s1") (supplier_ledger (trade late)) = 1150000.
Proof. eexists. split; [vm_compute; reflexivity|]. split; [vm_compute; reflexivity|]. cbv zeta. split; vm_compute; reflexivity. Qed.

Definition balance_of (d : db) (account : string) : option Z := ca_balance <$> cash_accounts d !! ("t", account).

(** A payment confirmed as nothing is booked in full.  A provider's callback that
    asks for 500,000 and confirms 0 is neither a mismatch nor ambiguous: the zero is
    read as "no amount given", so the settlement is SETTLED with 500,000, the bank
    account is credited and the journal posted. *)
Theorem zero_confirmation_settles_in_full :
  let d := serve_all no_hash no_hash no_hash empty_db
    [call 1 (ProviderCallback "gateway" None {| wh_provider := "momo"; wh_external := "x1"; wh_order := "o1"; wh_checkout := None; wh_branch := None; wh_tender := None;
       wh_method := None; wh_confirmed := 0; wh_requested := Some 500000; wh_status := Some "CONFIRMED"; wh_account := None; wh_key := None |})] in
  (fun s => (st_status s, st_confirmed s, st_settled s)) <$> settlements (trade d) !! ("t", "u1settlement") = Some (ST_SETTLED, 500000, 500000) /\
  balance_of d "u1cash-account" = Some 500000 /\ gl_balance "t" GL.CASH_AT_BANK d = 500000 /\ issues (trade d) = ∅.
Proof. vm_compute. by split_and!. Qed.

(** A refund that was paid out can be marked FAILED and counted twice.  Confirming
    the outcome FAILED is not refused for a COMPLETED refund; confirming COMPLETED
    after that raises the refunded amount of the settlement a second time, while the
    journal and the voucher of the first payout are found again: 200,000 left the
    drawer, and the settlement says 400,000. *)
Theorem refund_outcome_counted_twice :
  let paid := [call 1 (cash_tender "o1" "a" 500000); call 2 (cash_refund "o1" "r1" 200000); call 3 (ExecuteRefund "u2refund" "anna" pay_out)] in
  let failed := serve_all no_hash no_hash no_hash empty_db (paid ++ [call 4 (ConfirmRefund "u2refund" "anna" (reported OUT_FAILED))]) in
  let again := serve_all no_hash no_hash no_hash failed [call 5 (ConfirmRefund "u2refund" "anna" (reported OUT_COMPLETED))] in
  (rf_status <$> refunds (trade failed) !! ("t", "u2refund") = Some RF_FAILED /\ balance_of failed "u1cash-account" = Some 300000) /\
  rf_status <$> refunds (trade again) !! ("t", "u2refund") = Some RF_COMPLETED /\ balance_of again "u1cash-account" = Some 300000 /\
  st_refunded <$> settlements (trade again) !! ("t", "u1settlement") = Some 400000 /\ repaid ("t", "u1settlement") (refunds (trade again)) = 200000.
Proof. vm_compute. by split_and!. Qed.

(** One return can be credited twice.  Applying the credit of a return again with
    another key takes it off the payable a second time, while the posting finds the
    journal of the return and books nothing: the supplier is owed 300,000 by the
    payables and 400,000 by the general ledger. *)
Theorem return_credited_twice :
  let d := serve_all no_hash no_hash no_hash empty_db
    [call 1 (payable_of 500000 "p1"); call 2 (CreditReturn "u1payable" "anna" (Some "k1") (return_credit 100000));
     call 3 (CreditReturn "u1payable" "anna" (Some "k2") (return_credit 100000))] in
  owing ("t", "s1") (payables (trade d)) = 300000 /\ gl_balance "t" GL.ACCOUNTS_PAYABLE d = -400000 /\ size (journals d) = 2%nat.
Proof. vm_compute. by split_and!. Qed.

(** The events of sales name no tender and no payment, so these two handlers of finance
    do nothing with them. *)
Theorem sales_payment_events_ignored (t : string) (p : TenderRecordedPayload) (q : PaymentConfirmedPayload) (uuid : string -> string) (now : Z) (d : db) :
  tr_tender p = None -> pc_payment q = None -> onSalesTenderRecorded t p uuid now d = Ok (tt, d) /\ onSalesPaymentConfirmed t q uuid now d = Ok (tt, d).
Proof.
  intros H1 H2. unfold onSalesTenderRecorded, onSalesPaymentConfirmed. rewrite H1, H2. split; destruct (given (Some t)); try done; [destruct (given (tr_order p)) | destruct (given (pc_order q))]; done.
Qed.
