(* ===== verification/CrossService.v ===== *)
(** * Agreements between services

    The sales service closes a shift and the finance service reconciles it
    again from the same figures; the two computations live in different
    modules (bigint arithmetic in sales, plain numbers in finance) and have to
    give the same answer. *)

From S2P Require Import Prelude JsNumber JsString SalesMoney SalesPricing SalesTender FinanceDomain.

Open Scope Z_scope.

(** Sales and finance agree on a shift.  Whenever the sales close summary
    returns and opening float plus cash sales stay below 2^53, the finance
    reconciliation of the same figures (no other receipts or expenses) returns
    the same expected cash and the same variance, and reports RECONCILED exactly
    when the sales variance is zero. *)
Theorem shift_cash_agrees_across_services (o s r a : number) (rec : ShiftCashReconciliation) :
  calculateShiftCloseSummary o s r a = Ok rec -> nval o + nval s <= 2 ^ 53 ->
  exists fin, evaluateShiftCashReconciliation
      {| si_openingCash := o; si_confirmedCashSales := s; si_confirmedCashRefunds := r;
         si_otherCashReceipts := Undefined; si_otherCashExpenses := Undefined; si_actualCountedCash := a |} = Ok fin /\
    se_expectedClosingCash fin = sr_expectedCash rec /\ se_varianceAmount fin = sr_variance rec /\
    (se_status fin = RECONCILED <-> sr_variance rec = int 0).
Proof.
  intros H Hs. unfold calculateShiftCloseSummary in H. inv_ok.
  repeat match goal with
  | Hv : vndNumber _ = Ok _ |- _ => apply vndNumber_Ok in Hv as [-> ?]
  | Hv : parseVndAmount _ _ = Ok _ |- _ => apply parseVndAmount_num in Hv as (-> & ? & _)
  end. cbn [sr_expectedCash sr_variance nval int QArith_base.Qnum] in *.
  unfold evaluateShiftCashReconciliation.
  cbn [si_openingCash si_confirmedCashSales si_confirmedCashRefunds si_otherCashReceipts si_otherCashExpenses
    si_actualCountedCash]. change (or_zero Undefined) with (VNum (int 0)).
  rewrite !parseVnd_int by (unfold MAX_SAFE_INTEGER in *; lia || done). rewrite !bind_of_Ok. cbv zeta.
  unfold MAX_SAFE_INTEGER in *. rewrite (nadd_int a0 a1), (nsub_int (a0 + a1) a2) by lia.
  rewrite (nadd_int _ 0), Z.add_0_r, (nsub_int _ 0), Z.sub_0_r, (nsub_int a3) by lia. rewrite neq_int.
  eexists. split; [done|]. cbn [se_expectedClosingCash se_varianceAmount se_status]. split; [done|]. split; [done|].
  destruct (Z.eqb_spec (a3 - (a0 + a1 - a2)) 0) as [E|E]; split; try done; [by rewrite E|].
  intros Hz%int_inj. lia.
Qed.

Lemma shift_cash_agrees_witness : exists rec fin,
  calculateShiftCloseSummary (int 500000) (int 150000) (int 20000) (int 630000) = Ok rec /\
  evaluateShiftCashReconciliation
      {| si_openingCash := int 500000; si_confirmedCashSales := int 150000; si_confirmedCashRefunds := int 20000;
         si_otherCashReceipts := Undefined; si_otherCashExpenses := Undefined; si_actualCountedCash := int 630000 |} = Ok fin /\
  se_varianceAmount fin = sr_variance rec.
Proof.
  eexists. edestruct (shift_cash_agrees_across_services (int 500000) (int 150000) (int 20000) (int 630000))
    as (fin & Hf & _ & Hv & _); [vm_compute; reflexivity | vm_compute; discriminate|].
  exists fin. split; [vm_compute; reflexivity|]. split; [exact Hf | exact Hv].
Defined.
