(* ===== verification/Reservations.v ===== *)
(** * Inventory service: order holds on the branch stock store

    ReservationsService (reserve, release, commit, expireDue) and
    StockService.receive of apps/inventory/src/stock, over the four tables they
    write: [stock_item], [stock_reservation], [stock_reservation_item] (grouped
    by its foreign key, which deletes in cascade) and [inventory_ledger].  Every
    operation is one database transaction, taken here as one atomic step: a
    throw rolls back, so it leaves the database as it was.  The table
    constraints of the migration (primary key, unique (tenant, order), the
    quantity CHECK, 32-bit integer columns) are enforced by the statements and
    raise [QueryFailedError].  Clock and [randomUUID] are arguments. *)

From stdpp Require Import relations.
From S2P Require Import Prelude JsNumber JsString.
From Stdlib Require Import Ascii.

Open Scope Z_scope.

(** ** Lines (stock-lines.ts) *)

Record StockLine := { sku : string; quantity : Z }.

#[export] Instance StockLine_eq_dec : EqDecision StockLine.
Proof. solve_decision. Defined.

(** [Buffer.compare] of the encoded strings. *)
Definition compareSku (a b : string) : Z :=
  match String.compare a b with Lt => -1 | Eq => 0 | Gt => 1 end.

Definition merge_step (bySku : list (string * Z)) (l : StockLine) : list (string * Z) :=
  mset (sku l) (default 0 (mget (sku l) bySku) + quantity l) bySku.

Definition mergeLines (lines : list StockLine) : list StockLine :=
  map (fun e => {| sku := e.1; quantity := e.2 |})
    (sort_by (fun a b => compareSku a.1 b.1) (foldl merge_step [] lines)).

Definition sameLines (a b : list StockLine) : bool := bool_decide (mergeLines a = mergeLines b).

(** ** Tables *)

Record StockItem := { quantity_on_hand : Z; quantity_reserved : Z }.

Inductive ReservationStatus := held | committed | released | expired.
#[export] Instance ReservationStatus_eq_dec : EqDecision ReservationStatus.
Proof. solve_decision. Defined.

Record ReservationRow := {
  rv_id : string;
  rv_tenant : string;
  rv_order_id : string;
  rv_branch_id : string;
  rv_status : ReservationStatus;
  rv_expires_at : Z }.

Record LedgerRow := {
  lg_tenant : string;
  lg_branch : string;
  lg_sku : string;
  lg_change_qty : Z;
  lg_balance_after : Z;
  lg_ref_type : string;
  lg_ref_id : string }.

Abbreviation stock_key := (string * string * string)%type.

Record db := {
  stock_item : gmap stock_key StockItem;
  stock_reservation : list ReservationRow;
  stock_reservation_item : gmap string (list StockLine);
  inventory_ledger : list LedgerRow }.

Record StockShortage := { sh_sku : string; sh_requested : Z; sh_available : Z }.

Inductive ReservationError :=
| StockShortageError (shortages : list StockShortage)
| ReservationMismatchError
| UnknownBranchError
| QueryFailedError.

Abbreviation res := (result ReservationError).

(** The controller answers a shortage and a mismatch with 409, [receive] an unknown
    branch with 400; a failed statement is a 500. *)
Definition shortage {A} (l : list StockShortage) : res A := Throw (DomainError (StockShortageError l) 409).
Definition mismatch {A} : res A := Throw (DomainError ReservationMismatchError 409).
Definition query_failed {A} : res A := Throw (DomainError QueryFailedError 500).

Definition with_stock (d : db) (s : gmap stock_key StockItem) : db :=
  {| stock_item := s; stock_reservation := stock_reservation d;
     stock_reservation_item := stock_reservation_item d; inventory_ledger := inventory_ledger d |}.
Definition with_reservations (d : db) (r : list ReservationRow) : db :=
  {| stock_item := stock_item d; stock_reservation := r;
     stock_reservation_item := stock_reservation_item d; inventory_ledger := inventory_ledger d |}.

(** The CHECK constraint and the column type of [stock_item]. *)
Definition int4 (z : Z) : bool := (- 2 ^ 31 <=? z) && (z <? 2 ^ 31).
Definition check_item (i : StockItem) : bool :=
  (0 <=? quantity_reserved i) && (quantity_reserved i <=? quantity_on_hand i) &&
  int4 (quantity_on_hand i) && int4 (quantity_reserved i).

(** [UPDATE stock_item SET ... WHERE tenant, branch and sku]: the updated row, or
    none when no row matches. *)
Definition update_item (d : db) (k : stock_key) (dOnHand dReserved : Z) : res (option StockItem * db) :=
  match stock_item d !! k with
  | None => Ok (None, d)
  | Some i =>
      let i' := {| quantity_on_hand := quantity_on_hand i + dOnHand;
                   quantity_reserved := quantity_reserved i + dReserved |} in
      if check_item i' then Ok (Some i', with_stock d (<[k := i']> (stock_item d))) else query_failed
  end.

(** [quantity_on_hand - quantity_reserved] of a row. *)
Definition free (d : db) (k : stock_key) : option Z :=
  (fun i => quantity_on_hand i - quantity_reserved i) <$> stock_item d !! k.

Definition ledger (d : db) (k : stock_key) (changeQty balanceAfter : Z) (refType refId : string) : db :=
  {| stock_item := stock_item d; stock_reservation := stock_reservation d;
     stock_reservation_item := stock_reservation_item d;
     inventory_ledger := inventory_ledger d ++
       [{| lg_tenant := k.1.1; lg_branch := k.1.2; lg_sku := k.2; lg_change_qty := changeQty;
           lg_balance_after := balanceAfter; lg_ref_type := refType; lg_ref_id := refId |}] |}.

(** ** Internals of the service *)

Definition of_order (tenantId orderId : string) (r : ReservationRow) : bool :=
  String.eqb (rv_tenant r) tenantId && String.eqb (rv_order_id r) orderId.

Definition findByOrder (d : db) (tenantId orderId : string) : option ReservationRow :=
  List.find (of_order tenantId orderId) (stock_reservation d).

Record ReserveStockRequest := { orderId : string; branchId : string; lines : list StockLine }.

(** [INSERT ... ON CONFLICT (tenant_id, order_id) DO NOTHING RETURNING id]. *)
Definition insertReservation (d : db) (tenantId : string) (request : ReserveStockRequest) (uuid : string) (expiresAt : Z)
    : res (option string * db) :=
  match findByOrder d tenantId (orderId request) with
  | Some _ => Ok (None, d)
  | None =>
      if existsb (fun r => String.eqb (rv_id r) uuid) (stock_reservation d) then query_failed
      else Ok (Some uuid,
        with_reservations d (stock_reservation d ++
          [{| rv_id := uuid; rv_tenant := tenantId; rv_order_id := orderId request; rv_branch_id := branchId request;
              rv_status := held; rv_expires_at := expiresAt |}]))
  end.

(** [SELECT ... WHERE reservation_id = $1 ORDER BY sku COLLATE C]. *)
Definition itemsOf (d : db) (reservationId : string) : list StockLine :=
  sort_by (fun a b => compareSku (sku a) (sku b)) (default [] (stock_reservation_item d !! reservationId)).

Record StockReservation := {
  sr_orderId : string;
  sr_branchId : string;
  sr_status : ReservationStatus;
  sr_expiresAt : Z;
  sr_lines : list StockLine }.

Definition toReservation (d : db) (row : ReservationRow) : StockReservation :=
  {| sr_orderId := rv_order_id row; sr_branchId := rv_branch_id row; sr_status := rv_status row;
     sr_expiresAt := rv_expires_at row; sr_lines := itemsOf d (rv_id row) |}.

Definition set_status (d : db) (reservationId : string) (s : ReservationStatus) : db :=
  with_reservations d (map (fun r =>
    if String.eqb (rv_id r) reservationId
    then {| rv_id := rv_id r; rv_tenant := rv_tenant r; rv_order_id := rv_order_id r; rv_branch_id := rv_branch_id r;
            rv_status := s; rv_expires_at := rv_expires_at r |}
    else r) (stock_reservation d)).

(** [DELETE FROM stock_reservation WHERE id], with its cascade. *)
Definition delete_reservation (d : db) (reservationId : string) : db :=
  {| stock_item := stock_item d;
     stock_reservation := List.filter (fun r => negb (String.eqb (rv_id r) reservationId)) (stock_reservation d);
     stock_reservation_item := delete reservationId (stock_reservation_item d);
     inventory_ledger := inventory_ledger d |}.

Definition insert_item (reservationId : string) (d : db) (l : StockLine) : db :=
  {| stock_item := stock_item d; stock_reservation := stock_reservation d;
     stock_reservation_item :=
       <[reservationId := default [] (stock_reservation_item d !! reservationId) ++ [l]]> (stock_reservation_item d);
     inventory_ledger := inventory_ledger d |}.

(** ** reserve *)

Record ReserveResult := { created : bool; reservation : StockReservation }.

(** One conditional UPDATE: take the quantity when enough is free, else note the shortage. *)
Definition hold_step (tenantId branch : string) (s : db * list StockShortage) (line : StockLine)
    : res (db * list StockShortage) :=
  let (d, shortages) := s in
  let k := (tenantId, branch, sku line) in
  let short := {| sh_sku := sku line; sh_requested := quantity line; sh_available := default 0 (free d k) |} in
  if match free d k with Some f => quantity line <=? f | None => false end
  then '(_, d') ← update_item d k 0 (quantity line); Ok (d', shortages)
  else Ok (d, shortages ++ [short]).

(** Hold the lines for the reservation [rid] just inserted. *)
Definition hold_lines (d : db) (tenantId : string) (request : ReserveStockRequest) (rid : string)
    : res (ReserveResult * db) :=
  let ls := mergeLines (lines request) in
  '(d1, shortages) ← foldM (hold_step tenantId (branchId request)) (d, []) ls;
  match shortages with
  | _ :: _ => shortage shortages
  | [] =>
      let d2 := foldl (insert_item rid) d1 ls in
      match findByOrder d2 tenantId (orderId request) with
      | Some row => Ok ({| created := true; reservation := toReservation d2 row |}, d2)
      | None => Throw (JsError TypeError)
      end
  end.

Definition reserve (d : db) (tenantId : string) (request : ReserveStockRequest) (uuid1 uuid2 : string) (expiresAt : Z)
    : res (ReserveResult * db) :=
  '(id, d1) ← insertReservation d tenantId request uuid1 expiresAt;
  match id with
  | Some rid => hold_lines d1 tenantId request rid
  | None =>
      match findByOrder d1 tenantId (orderId request) with
      | None => Throw (JsError TypeError)
      | Some existing =>
          if bool_decide (rv_status existing = held) || bool_decide (rv_status existing = committed) then
            let heldRes := toReservation d1 existing in
            if negb (String.eqb (rv_branch_id existing) (branchId request)) ||
               negb (sameLines (sr_lines heldRes) (lines request))
            then mismatch
            else Ok ({| created := false; reservation := heldRes |}, d1)
          else
            let d2 := delete_reservation d1 (rv_id existing) in
            '(id2, d3) ← insertReservation d2 tenantId request uuid2 expiresAt;
            match id2 with
            | Some rid => hold_lines d3 tenantId request rid
            | None => query_failed
            end
      end
  end.

(** ** release and expiry *)

Definition give_step (tenantId branch : string) (d : db) (line : StockLine) : res db :=
  '(_, d') ← update_item d (tenantId, branch, sku line) 0 (- quantity line); Ok d'.

Definition giveBack (d : db) (tenantId : string) (row : ReservationRow) (status : ReservationStatus) : res db :=
  d1 ← foldM (give_step tenantId (rv_branch_id row)) d (itemsOf d (rv_id row));
  Ok (set_status d1 (rv_id row) status).

Definition release (d : db) (tenantId order : string) : res db :=
  match findByOrder d tenantId order with
  | Some row => if bool_decide (rv_status row = held) then giveBack d tenantId row released else Ok d
  | None => Ok d
  end.

Definition is_due (now : Z) (r : ReservationRow) : bool :=
  bool_decide (rv_status r = held) && (rv_expires_at r <? now).

(** The transaction of one hold: selected again, since it may have changed. *)
Definition expire_one (now : Z) (d : db) (rid : string) : res (bool * db) :=
  match List.find (fun r => String.eqb (rv_id r) rid && is_due now r) (stock_reservation d) with
  | None => Ok (false, d)
  | Some row => d' ← giveBack d (rv_tenant row) row expired; Ok (true, d')
  end.

(** A transaction that fails is logged and the next hold is tried. *)
Definition expire_step (now : Z) (s : db * Z) (rid : string) : db * Z :=
  match expire_one now s.1 rid with
  | Ok (true, d') => (d', s.2 + 1)
  | Ok (false, d') => (d', s.2)
  | Throw _ => s
  end.

Definition due_ids (d : db) (now : Z) (limit : nat) : list string :=
  take limit (map rv_id (sort_by (fun a b => rv_expires_at a - rv_expires_at b)
    (List.filter (is_due now) (stock_reservation d)))).

Definition expireDue (d : db) (now : Z) (limit : nat) : db * Z :=
  foldl (expire_step now) (d, 0) (due_ids d now limit).

(** ** commit *)

Record CompletedOrder := { oc_orderId : string; oc_branchId : string; oc_items : list StockLine }.

(** The UPDATE and its ledger row; [rows[0]] of an empty answer is a TypeError. *)
Definition deduct (d : db) (k : stock_key) (take dReserved : Z) (orderRef : string) : res db :=
  '(row, d1) ← update_item d k (- take) (- dReserved);
  match row with
  | Some i => Ok (ledger d1 k (- take) (quantity_on_hand i) "sale" orderRef)
  | None => Throw (JsError TypeError)
  end.

Definition commit_step (tenantId branch orderRef : string) (isHeld : bool) (d : db) (line : StockLine) : res db :=
  let k := (tenantId, branch, sku line) in
  if isHeld then deduct d k (quantity line) (quantity line) orderRef
  else
    let f := default 0 (free d k) in
    let take := Z.min (quantity line) (Z.max 0 f) in
    let d1 := if take <? quantity line then ledger d k 0 f "sale_shortfall" orderRef else d in
    if take =? 0 then Ok d1 else deduct d1 k take 0 orderRef.

Definition commit (d : db) (tenantId : string) (order : CompletedOrder) : res db :=
  let row := findByOrder d tenantId (oc_orderId order) in
  if match row with Some r => bool_decide (rv_status r = committed) | None => false end then Ok d
  else
    let isHeld := match row with Some r => bool_decide (rv_status r = held) | None => false end in
    let branch := match row with Some r => rv_branch_id r | None => oc_branchId order end in
    let ls := match row with
              | Some r => if isHeld then itemsOf d (rv_id r) else mergeLines (oc_items order)
              | None => mergeLines (oc_items order)
              end in
    d1 ← foldM (commit_step tenantId branch (oc_orderId order) isHeld) d ls;
    Ok match row with Some r => set_status d1 (rv_id r) committed | None => d1 end.

(** ** StockService.receive *)

Record StockRes := { st_branchId : string; st_sku : string; st_onHand : Z; st_reserved : Z; st_available : Z }.

Definition receive_step (tenantId branch receiptId : string) (s : db * list StockRes) (line : StockLine)
    : res (db * list StockRes) :=
  let (d, out) := s in
  let k := (tenantId, branch, sku line) in
  let old := default {| quantity_on_hand := 0; quantity_reserved := 0 |} (stock_item d !! k) in
  let i := {| quantity_on_hand := quantity_on_hand old + quantity line; quantity_reserved := quantity_reserved old |} in
  if check_item i then
    let d1 := with_stock d (<[k := i]> (stock_item d)) in
    Ok (ledger d1 k (quantity line) (quantity_on_hand i) "receipt" receiptId,
        out ++ [{| st_branchId := branch; st_sku := sku line; st_onHand := quantity_on_hand i;
                   st_reserved := quantity_reserved i;
                   st_available := quantity_on_hand i - quantity_reserved i |}])
  else query_failed.

(** [branchStatus] is the status of the branch's projection row, if there is one. *)
Definition receive (d : db) (tenantId branch : string) (branchStatus : option string) (items : list StockLine) (receiptId : string)
    : res (db * list StockRes) :=
  if negb (match branchStatus with Some s => String.eqb s "active" | None => false end)
  then Throw (DomainError UnknownBranchError 400)
  else foldM (receive_step tenantId branch receiptId) (d, []) (mergeLines items).

(** * Properties *)

(** ** Lines *)

Definition lines_qty (s : string) (ls : list StockLine) : Z :=
  total (fun l => if String.eqb (sku l) s then quantity l else 0) ls.

Definition positive (ls : list StockLine) : Prop := forall l, l ∈ ls -> 0 < quantity l.

#[export] Instance compareSku_comparator {A} (f : A -> string) : Comparator (fun a b => compareSku (f a) (f b)).
Proof.
  split; unfold compareSku.
  - intros a b. rewrite (String.compare_antisym (f a) (f b)). destruct (String.compare (f b) (f a)); cbn; lia.
  - intros a b c. assert (Hle : forall x y, match String.compare x y with Lt => -1 | Eq => 0 | Gt => 1 end <= 0 <->
      String.compare x y <> Gt) by (intros x y; destruct (String.compare x y); split; (lia || done)).
    rewrite !Hle. generalize (f a) (f b) (f c). clear.
    induction s as [|x s IH]; intros [|y t] [|z u]; cbn; try done.
    unfold Ascii.compare.
    destruct (N.compare_spec (N_of_ascii x) (N_of_ascii y)), (N.compare_spec (N_of_ascii y) (N_of_ascii z)),
      (N.compare_spec (N_of_ascii x) (N_of_ascii z)); try done; try lia; eauto.
Qed.

Section Lines.
Lemma lines_qty_app s l1 l2 : lines_qty s (l1 ++ l2) = lines_qty s l1 + lines_qty s l2.
Proof. unfold lines_qty, total. by rewrite map_app, sumZ_app. Qed.

Lemma lines_qty_cons s l ls : lines_qty s (l :: ls) = (if String.eqb (sku l) s then quantity l else 0) + lines_qty s ls.
Proof. done. Qed.

Lemma lines_qty_perm s l1 l2 : l1 ≡ₚ l2 -> lines_qty s l1 = lines_qty s l2.
Proof. intros H. apply sumZ_perm. by rewrite H. Qed.

Lemma lines_qty_nonneg s ls : positive ls -> 0 <= lines_qty s ls.
Proof. intros H. apply total_nonneg. intros l Hl. specialize (H l Hl). destruct (String.eqb _ _); lia. Qed.

Lemma lines_qty_elem ls l : positive ls -> l ∈ ls -> quantity l <= lines_qty (sku l) ls.
Proof.
  intros H Hl. unfold lines_qty.
  assert (Hle := total_elem_le (fun x => if String.eqb (sku x) (sku l) then quantity x else 0) ls l). cbn beta in Hle.
  rewrite String.eqb_refl in Hle. apply Hle; [|done]. intros x Hx. specialize (H x Hx). destruct (String.eqb _ _); lia.
Qed.

Definition to_line (e : string * Z) : StockLine := {| sku := e.1; quantity := e.2 |}.

Lemma entries_qty s m : NoDup m.*1 -> lines_qty s (map to_line m) = default 0 (mget s m).
Proof.
  induction m as [|[k q] m IH]; cbn; [done|]. intros [Hn Hd]%NoDup_cons. rewrite lines_qty_cons. cbn.
  rewrite IH by done. destruct (String.eqb_spec k s) as [->|]; [|lia].
  rewrite (proj2 (mget_None s m)) by done. cbn. lia.
Qed.

(** Merging keeps the quantity of every SKU and has one entry per SKU. *)
Lemma merge_entries ls : NoDup (foldl merge_step [] ls).*1 /\
  (forall s, default 0 (mget s (foldl merge_step [] ls)) = lines_qty s ls) /\
  (positive ls -> forall e, e ∈ foldl merge_step [] ls -> 0 < e.2).
Proof.
  induction ls as [|l ls IH] using rev_ind; [split_and!; [apply NoDup_nil_2 | done | intros _ e He; by apply not_elem_of_nil in He]|].
  rewrite foldl_snoc. destruct IH as (I1 & I2 & I3). unfold merge_step at 1 3 5. split_and!.
  - by apply mset_NoDup.
  - intros s. rewrite mget_mset, lines_qty_app, lines_qty_cons, <- I2. unfold lines_qty, total. cbn.
    destruct (String.eqb_spec (sku l) s) as [<-|]; cbn; lia.
  - intros Hp [k q] He. assert (Hp' : positive ls) by (intros x Hx; apply Hp, elem_of_app; by left).
    specialize (Hp l ltac:(apply elem_of_app; right; left)).
    assert (Hd : NoDup (mset (sku l) (default 0 (mget (sku l) (foldl merge_step [] ls)) + quantity l) (foldl merge_step [] ls)).*1)
      by (by apply mset_NoDup).
    apply (elem_mget _ _ _ Hd) in He. rewrite mget_mset in He.
    destruct (String.eqb_spec (sku l) k) as [<-|].
    + injection He as <-. cbn. pose proof (lines_qty_nonneg (sku l) ls Hp'). rewrite I2. lia.
    + apply (I3 Hp' (k, q)). by apply mget_elem.
Qed.

Lemma mergeLines_perm ls : mergeLines ls ≡ₚ map to_line (foldl merge_step [] ls).
Proof. unfold mergeLines. apply Permutation_map. apply sort_by_perm. Qed.

Lemma mergeLines_qty s ls : lines_qty s (mergeLines ls) = lines_qty s ls.
Proof.
  destruct (merge_entries ls) as (Hd & Hq & _). rewrite (lines_qty_perm s _ _ (mergeLines_perm ls)).
  by rewrite entries_qty.
Qed.

Lemma mergeLines_positive ls : positive ls -> positive (mergeLines ls).
Proof.
  intros H l Hl. rewrite (mergeLines_perm ls) in Hl. apply list_elem_of_fmap in Hl as (e & -> & He).
  by apply (merge_entries ls).
Qed.

Lemma mergeLines_NoDup ls : NoDup (map sku (mergeLines ls)).
Proof.
  rewrite (mergeLines_perm ls), map_map. destruct (merge_entries ls) as (Hd & _). exact Hd.
Qed.

Lemma sort_by_sorted_id {A} (cmp : A -> A -> Z) l :
  StronglySorted (fun a b => cmp a b <= 0) l -> sort_by cmp l = l.
Proof.
  induction 1 as [|a l Hs IH Hf]; [done|]. unfold sort_by in *. cbn [foldr]. rewrite IH. destruct l as [|b l]; [done|].
  cbn. inversion Hf; subst. by rewrite (proj2 (Z.leb_le _ 0)).
Qed.

Lemma mergeLines_sorted ls : StronglySorted (fun a b => compareSku (sku a) (sku b) <= 0) (mergeLines ls).
Proof.
  unfold mergeLines. pose proof (sort_by_sorted (fun a b : string * Z => compareSku a.1 b.1) (foldl merge_step [] ls)) as H.
  induction H as [|e l Hs IH Hf]; cbn; constructor; [done|]. apply Forall_map. exact Hf.
Qed.

(** Lines already one per SKU are only sorted. *)
Lemma merge_entries_NoDup ls : NoDup (map sku ls) -> foldl merge_step [] ls = map (fun l => (sku l, quantity l)) ls.
Proof.
  induction ls as [|l ls IH] using rev_ind; [done|]. rewrite map_app, foldl_snoc. intros (Hd & Hx & _)%NoDup_app.
  rewrite IH by done. unfold merge_step. rewrite map_app. cbn [map].
  assert (Hn : mget (sku l) (map (fun l => (sku l, quantity l)) ls) = None).
  { apply mget_None. intros Hin. apply (Hx (sku l)); [|left].
    rewrite <- list_fmap_compose in Hin. exact Hin. }
  rewrite Hn. cbn [default]. rewrite Z.add_0_l. revert Hn. generalize (map (fun l => (sku l, quantity l)) ls). clear.
  induction l0 as [|[k v] m IH]; cbn; [done|]. destruct (String.eqb_spec k (sku l)); [done|]. intros H. by rewrite IH.
Qed.

Lemma mergeLines_idem ls : mergeLines (mergeLines ls) = mergeLines ls.
Proof.
  pose proof (mergeLines_sorted ls) as Hs. pose proof (mergeLines_NoDup ls) as Hd. revert Hs Hd.
  generalize (mergeLines ls). clear ls. intros ls Hs Hd. unfold mergeLines. rewrite merge_entries_NoDup by done.
  rewrite sort_by_sorted_id.
  - rewrite map_map. clear. induction ls as [|[k q] ls IH]; cbn; [done|]. f_equal. exact IH.
  - clear Hd. induction Hs as [|l ls Hs IH Hf]; cbn; constructor; [done|]. apply Forall_map. exact Hf.
Qed.
End Lines.

(** ** Database: quantities per key *)

Definition reserved_of (d : db) (k : stock_key) : Z := default 0 (quantity_reserved <$> stock_item d !! k).
Definition on_hand_of (d : db) (k : stock_key) : Z := default 0 (quantity_on_hand <$> stock_item d !! k).

Definition items (d : db) (rid : string) : list StockLine := default [] (stock_reservation_item d !! rid).

(** The quantity a reservation row holds of a key: its lines while it is held. *)
Definition row_qty (d : db) (k : stock_key) (r : ReservationRow) : Z :=
  if bool_decide (rv_status r = held) && bool_decide ((rv_tenant r, rv_branch_id r) = k.1)
  then lines_qty k.2 (items d (rv_id r)) else 0.

Definition held_qty (d : db) (k : stock_key) : Z := total (row_qty d k) (stock_reservation d).

Definition ledger_sum (d : db) (k : stock_key) : Z :=
  total (fun g => if bool_decide ((lg_tenant g, lg_branch g, lg_sku g) = k) then lg_change_qty g else 0) (inventory_ledger d).

(** The invariant of the store. *)
Record wf (d : db) : Prop := {
  wf_ids : NoDup (map rv_id (stock_reservation d));
  wf_orders : NoDup (map (fun r => (rv_tenant r, rv_order_id r)) (stock_reservation d));
  wf_fk : forall rid ls, stock_reservation_item d !! rid = Some ls -> rid ∈ map rv_id (stock_reservation d);
  wf_positive : forall rid, positive (items d rid);
  wf_check : forall k i, stock_item d !! k = Some i -> check_item i = true;
  wf_reserved : forall k, reserved_of d k = held_qty d k;
  wf_ledger : forall k, on_hand_of d k = ledger_sum d k }.

(** A step that changes the quantities of keys by [fOn] and [fRes] and touches
    neither the reservations nor their lines. *)
Record moves (d d' : db) (fOn fRes : stock_key -> Z) : Prop := {
  mv_on : forall k, on_hand_of d' k = on_hand_of d k + fOn k;
  mv_res : forall k, reserved_of d' k = reserved_of d k + fRes k;
  mv_dom : forall k, is_Some (stock_item d !! k) -> is_Some (stock_item d' !! k);
  mv_check : (forall k i, stock_item d !! k = Some i -> check_item i = true) ->
             forall k i, stock_item d' !! k = Some i -> check_item i = true;
  mv_rows : stock_reservation d' = stock_reservation d;
  mv_items : stock_reservation_item d' = stock_reservation_item d }.

Definition at_key (k : stock_key) (q : Z) (k' : stock_key) : Z := if bool_decide (k' = k) then q else 0.
Definition lines_at (t b : string) (ls : list StockLine) (k : stock_key) : Z :=
  if bool_decide (k.1 = (t, b)) then lines_qty k.2 ls else 0.

Section Moves.
Lemma moves_refl d : moves d d (fun _ => 0) (fun _ => 0).
Proof. split; intros; rewrite ?Z.add_0_r; auto. eauto. Qed.

Lemma moves_trans d1 d2 d3 f1 g1 f2 g2 : moves d1 d2 f1 g1 -> moves d2 d3 f2 g2 ->
  moves d1 d3 (fun k => f1 k + f2 k) (fun k => g1 k + g2 k).
Proof.
  intros [A1 A2 A3 A4 A5 A6] [B1 B2 B3 B4 B5 B6]. split; intros.
  - rewrite B1, A1. lia.
  - rewrite B2, A2. lia.
  - auto.
  - eauto.
  - congruence.
  - congruence.
Qed.

Lemma moves_ext d d' f g f' g' : (forall k, f k = f' k) -> (forall k, g k = g' k) -> moves d d' f g -> moves d d' f' g'.
Proof. intros Hf Hg [A1 A2 A3 A4 A5 A6]. split; intros; rewrite <- ?Hf, <- ?Hg; auto. by apply (A4 H k). Qed.

Lemma lines_at_cons t b l ls k : lines_at t b (l :: ls) k = at_key (t, b, sku l) (quantity l) k + lines_at t b ls k.
Proof.
  unfold lines_at, at_key. destruct k as [[t' b'] s]. cbn [fst snd]. rewrite lines_qty_cons.
  destruct (String.eqb_spec (sku l) s) as [<-|Hne]; repeat case_bool_decide; simplify_eq; lia || congruence.
Qed.

Lemma lines_at_perm t b l1 l2 k : l1 ≡ₚ l2 -> lines_at t b l1 k = lines_at t b l2 k.
Proof. intros H. unfold lines_at. by rewrite (lines_qty_perm _ _ _ H). Qed.

Lemma lines_at_nonneg t b ls k : positive ls -> 0 <= lines_at t b ls k.
Proof. intros H. unfold lines_at. case_bool_decide; [by apply lines_qty_nonneg | lia]. Qed.

Lemma set_item_moves d k i x y : stock_item d !! k = Some i ->
  let i' := {| quantity_on_hand := quantity_on_hand i + x; quantity_reserved := quantity_reserved i + y |} in
  check_item i' = true -> moves d (with_stock d (<[k := i']> (stock_item d))) (at_key k x) (at_key k y).
Proof.
  intros Hi i' Hc. split; cbn; try done; [..|intros Hall]; intros k'; unfold on_hand_of, reserved_of, at_key; cbn.
  - case_bool_decide as E; [subst; rewrite lookup_insert_eq, Hi; done | rewrite lookup_insert_ne by congruence; lia].
  - case_bool_decide as E; [subst; rewrite lookup_insert_eq, Hi; done | rewrite lookup_insert_ne by congruence; lia].
  - destruct (decide (k' = k)) as [->|]; [rewrite lookup_insert_eq; eauto | by rewrite lookup_insert_ne by congruence].
  - intros i0. destruct (decide (k' = k)) as [->|]; [rewrite lookup_insert_eq; by intros [= <-] |].
    rewrite lookup_insert_ne by congruence. apply Hall.
Qed.

(** The UPDATE of an existing row succeeds exactly when the constraint holds. *)
Lemma update_item_hit d k i x y : stock_item d !! k = Some i ->
  let i' := {| quantity_on_hand := quantity_on_hand i + x; quantity_reserved := quantity_reserved i + y |} in
  check_item i' = true ->
  exists d', update_item d k x y = Ok (Some i', d') /\ moves d d' (at_key k x) (at_key k y) /\
    inventory_ledger d' = inventory_ledger d.
Proof.
  intros Hi i' Hc. unfold update_item. rewrite Hi. fold i'. rewrite Hc. eexists. split; [done|].
  split; [by apply set_item_moves | done].
Qed.

Lemma update_item_Ok d k x y o d' : update_item d k x y = Ok (o, d') ->
  (stock_item d !! k = None /\ o = None /\ d' = d) \/
  (exists i, stock_item d !! k = Some i /\ o = Some {| quantity_on_hand := quantity_on_hand i + x;
       quantity_reserved := quantity_reserved i + y |} /\
     moves d d' (at_key k x) (at_key k y) /\ inventory_ledger d' = inventory_ledger d).
Proof.
  unfold update_item. destruct (stock_item d !! k) as [i|] eqn:Hi; intros H; [|inv_ok; by left].
  case_if_in H; [|discriminate]. inv_ok. right. exists i. split; [done|]. split; [done|].
  split; [by apply set_item_moves | done].
Qed.

(** A row that passes the check stays legal when reserved stock leaves. *)
Lemma check_sub i q a : check_item i = true -> 0 <= q <= quantity_reserved i -> 0 <= a <= q ->
  check_item {| quantity_on_hand := quantity_on_hand i + - a; quantity_reserved := quantity_reserved i + - q |} = true.
Proof.
  unfold check_item, int4. cbn [quantity_on_hand quantity_reserved]. intros H Hq Ha.
  bool_prop. repeat (apply andb_true_iff; split); lia.
Qed.

Lemma check_free i q : check_item i = true -> 0 <= q <= quantity_on_hand i - quantity_reserved i ->
  check_item {| quantity_on_hand := quantity_on_hand i + - q; quantity_reserved := quantity_reserved i + - 0 |} = true /\
  check_item {| quantity_on_hand := quantity_on_hand i + 0; quantity_reserved := quantity_reserved i + q |} = true.
Proof.
  unfold check_item, int4. cbn [quantity_on_hand quantity_reserved]. intros H Hq.
  bool_prop. split; repeat (apply andb_true_iff; split); lia.
Qed.
End Moves.

(** ** The loops *)

(** Giving back lines that are all reserved never fails. *)
Lemma give_loop t b ls : positive ls -> forall d,
  (forall k i, stock_item d !! k = Some i -> check_item i = true) ->
  (forall k, lines_at t b ls k <= reserved_of d k) ->
  exists d', foldM (give_step t b) d ls = Ok d' /\ moves d d' (fun _ => 0) (fun k => - lines_at t b ls k) /\
    inventory_ledger d' = inventory_ledger d.
Proof.
  induction ls as [|l ls IH]; intros Hp d Hc Hr; cbn [foldM].
  - exists d. split; [done|]. split; [|done]. eapply moves_ext; [| |apply moves_refl]; intros k; [done|].
    unfold lines_at. case_bool_decide; done.
  - assert (Hp' : positive ls) by (intros x Hx; apply Hp; by right). specialize (Hp l ltac:(left)).
    pose proof (Hr (t, b, sku l)) as Hk. rewrite lines_at_cons in Hk. unfold at_key in Hk.
    rewrite bool_decide_eq_true_2 in Hk by done. pose proof (lines_at_nonneg t b ls (t, b, sku l) Hp') as Hn.
    unfold reserved_of in Hk. destruct (stock_item d !! (t, b, sku l)) as [i|] eqn:Hi; cbn in Hk; [|lia].
    destruct (update_item_hit d (t, b, sku l) i 0 (- quantity l) Hi) as (d1 & Eu & Hm & Hl).
    { pose proof (check_sub i (quantity l) 0 (Hc _ _ Hi) ltac:(lia) ltac:(lia)) as H. exact H. }
    destruct (IH Hp' d1) as (d' & Ef & Hm' & Hl').
    { exact (mv_check _ _ _ _ Hm Hc). }
    { intros k. rewrite (mv_res _ _ _ _ Hm). specialize (Hr k). rewrite lines_at_cons in Hr.
      unfold at_key in *. case_bool_decide; lia. }
    assert (Es : give_step t b d l = Ok d1) by (unfold give_step; by rewrite Eu).
    exists d'. rewrite Es, bind_of_Ok, Ef. split; [done|]. split; [|congruence].
    eapply moves_ext; [| |exact (moves_trans _ _ _ _ _ _ _ Hm Hm')]; intros k; cbn beta; [unfold at_key; by case_bool_decide|].
    rewrite lines_at_cons. unfold at_key. case_bool_decide; lia.
Qed.

(** Committing held lines never fails: on hand and reserved drop together. *)
Lemma commit_held_loop t b o ls : positive ls -> forall d,
  (forall k i, stock_item d !! k = Some i -> check_item i = true) ->
  (forall k, lines_at t b ls k <= reserved_of d k) ->
  exists d', foldM (commit_step t b o true) d ls = Ok d' /\
    moves d d' (fun k => - lines_at t b ls k) (fun k => - lines_at t b ls k) /\
    (forall k, ledger_sum d' k = ledger_sum d k - lines_at t b ls k).
Proof.
  induction ls as [|l ls IH]; intros Hp d Hc Hr; cbn [foldM].
  - exists d. assert (Hz : forall k, lines_at t b [] k = 0) by (intros k; unfold lines_at; by case_bool_decide).
    split; [done|]. split; [|intros k; rewrite Hz; lia].
    eapply moves_ext; [| |apply moves_refl]; intros k; cbn beta; rewrite Hz; done.
  - assert (Hp' : positive ls) by (intros x Hx; apply Hp; by right). specialize (Hp l ltac:(left)).
    pose proof (Hr (t, b, sku l)) as Hk. rewrite lines_at_cons in Hk. unfold at_key in Hk.
    rewrite bool_decide_eq_true_2 in Hk by done. pose proof (lines_at_nonneg t b ls (t, b, sku l) Hp') as Hn.
    unfold reserved_of in Hk. destruct (stock_item d !! (t, b, sku l)) as [i|] eqn:Hi; cbn in Hk; [|lia].
    destruct (update_item_hit d (t, b, sku l) i (- quantity l) (- quantity l) Hi) as (d1 & Eu & Hm & Hl).
    { apply (check_sub i (quantity l) (quantity l) (Hc _ _ Hi)); lia. }
    set (d2 := ledger d1 (t, b, sku l) (- quantity l) (quantity_on_hand i + - quantity l) "sale" o).
    assert (Hm2 : moves d d2 (at_key (t, b, sku l) (- quantity l)) (at_key (t, b, sku l) (- quantity l))).
    { destruct Hm as [M1 M2 M3 M4 M5 M6]. by split. }
    assert (Hls : forall k, ledger_sum d2 k = ledger_sum d k - at_key (t, b, sku l) (quantity l) k).
    { intros k. unfold ledger_sum, d2. cbn [inventory_ledger ledger]. rewrite total_snoc, Hl. cbn. unfold at_key.
      repeat case_bool_decide; simplify_eq; lia || congruence. }
    destruct (IH Hp' d2) as (d' & Ef & Hm' & Hl').
    { exact (mv_check _ _ _ _ Hm2 Hc). }
    { intros k. rewrite (mv_res _ _ _ _ Hm2). specialize (Hr k). rewrite lines_at_cons in Hr.
      unfold at_key in *. case_bool_decide; lia. }
    assert (Es : commit_step t b o true d l = Ok d2) by (unfold commit_step, deduct; by rewrite Eu).
    exists d'. rewrite Es, bind_of_Ok, Ef. split; [done|]. split.
    + eapply moves_ext; [| |exact (moves_trans _ _ _ _ _ _ _ Hm2 Hm')]; intros k; cbn beta;
        rewrite lines_at_cons; unfold at_key; case_bool_decide; lia.
    + intros k. rewrite Hl', Hls, lines_at_cons. lia.
Qed.

(** Is there enough free stock for a line? *)
Definition enough (d : db) (k : stock_key) (q : Z) : bool :=
  match free d k with Some f => q <=? f | None => false end.

Definition short_of (d : db) (t b : string) (l : StockLine) : StockShortage :=
  {| sh_sku := sku l; sh_requested := quantity l; sh_available := default 0 (free d (t, b, sku l)) |}.

Lemma update_item_other d k x y o d' k' : update_item d k x y = Ok (o, d') -> k' <> k ->
  stock_item d' !! k' = stock_item d !! k'.
Proof.
  unfold update_item. destruct (stock_item d !! k); intros H Hne; [|by inv_ok]. case_if_in H; [|discriminate]. inv_ok.
  cbn. by rewrite lookup_insert_ne by congruence.
Qed.

(** Holding merged lines never fails with an error: a line is taken when enough
    is free, else listed as short. *)
Lemma hold_loop t b ls : positive ls -> NoDup (map sku ls) -> forall d sh,
  (forall k i, stock_item d !! k = Some i -> check_item i = true) ->
  exists d', foldM (hold_step t b) (d, sh) ls =
      Ok (d', sh ++ map (short_of d t b) (List.filter (fun l => negb (enough d (t, b, sku l) (quantity l))) ls)) /\
    moves d d' (fun _ => 0) (lines_at t b (List.filter (fun l => enough d (t, b, sku l) (quantity l)) ls)) /\
    inventory_ledger d' = inventory_ledger d.
Proof.
  induction ls as [|l ls IH]; intros Hp Hd d sh Hc; cbn [foldM List.filter map].
  - exists d. rewrite app_nil_r. split; [done|]. split; [|done]. eapply moves_ext; [| |apply moves_refl]; intros k; [done|].
    unfold lines_at. by case_bool_decide.
  - assert (Hp' : positive ls) by (intros x Hx; apply Hp; by right). specialize (Hp l ltac:(left)).
    cbn [map] in Hd. apply NoDup_cons in Hd as [Hn Hd].
    destruct (enough d (t, b, sku l) (quantity l)) eqn:He; cbn [negb].
    + pose proof He as He'. unfold enough, free in He'.
      destruct (stock_item d !! (t, b, sku l)) as [i|] eqn:Hi; [|discriminate]. cbn in He'. apply Z.leb_le in He'.
      destruct (update_item_hit d (t, b, sku l) i 0 (quantity l) Hi) as (d1 & Eu & Hm & Hl).
      { by apply (check_free i (quantity l) (Hc _ _ Hi)); lia. }
      assert (Hfree : forall x, x ∈ ls -> free d1 (t, b, sku x) = free d (t, b, sku x)).
      { intros x Hx. unfold free. rewrite (update_item_other _ _ _ _ _ _ _ Eu); [done|].
        intros [= E]. apply Hn. rewrite <- E. by apply list_elem_of_fmap_2. }
      destruct (IH Hp' Hd d1 sh (mv_check _ _ _ _ Hm Hc)) as (d' & Ef & Hm' & Hl').
      assert (Hf1 : forall p : bool -> bool, List.filter (fun x => p (enough d1 (t, b, sku x) (quantity x))) ls =
        List.filter (fun x => p (enough d (t, b, sku x) (quantity x))) ls).
      { intros p. clear - Hfree. unfold enough. induction ls as [|x ls IH]; cbn; [done|].
        rewrite Hfree by left. rewrite IH by (intros; apply Hfree; by right). done. }
      rewrite (Hf1 negb) in Ef. rewrite (Hf1 (fun z => z)) in Hm'.
      assert (Hs : map (short_of d1 t b) (List.filter (fun x => negb (enough d (t, b, sku x) (quantity x))) ls) =
        map (short_of d t b) (List.filter (fun x => negb (enough d (t, b, sku x) (quantity x))) ls)).
      { apply map_ext_in. intros x [Hx _]%List.filter_In. unfold short_of. by rewrite Hfree by (by apply list_elem_of_In). }
      rewrite Hs in Ef. exists d'. assert (Es : hold_step t b (d, sh) l = Ok (d1, sh)).
      { unfold hold_step. unfold enough in He. rewrite He, Eu. done. }
      rewrite Es, bind_of_Ok, Ef. split; [done|]. split; [|congruence].
      eapply moves_ext; [| |exact (moves_trans _ _ _ _ _ _ _ Hm Hm')]; intros k; cbn beta; [unfold at_key; by case_bool_decide|].
      by rewrite lines_at_cons.
    + destruct (IH Hp' Hd d (sh ++ [short_of d t b l]) Hc) as (d' & Ef & Hm & Hl). exists d'.
      assert (Es : hold_step t b (d, sh) l = Ok (d, sh ++ [short_of d t b l])).
      { unfold hold_step. unfold enough in He. by rewrite He. }
      rewrite Es, bind_of_Ok, Ef, <- (assoc_L app). done.
Qed.

(** Without a hold a sale takes at most what is free, and never fails. *)
Definition free_of (d : db) (k : stock_key) : Z := on_hand_of d k - reserved_of d k.

Lemma free_nonneg d k : (forall k i, stock_item d !! k = Some i -> check_item i = true) ->
  0 <= free_of d k /\ default 0 (free d k) = free_of d k.
Proof.
  intros Hc. unfold free_of, on_hand_of, reserved_of, free. destruct (stock_item d !! k) as [i|] eqn:Hi; cbn; [|lia].
  specialize (Hc k i Hi). unfold check_item in Hc. bool_prop. lia.
Qed.

Lemma ledger_moves d k q a ty o : moves d (ledger d k q a ty o) (fun _ => 0) (fun _ => 0).
Proof. destruct (moves_refl d) as [M1 M2 M3 M4 M5 M6]. by split. Qed.

Lemma ledger_sum_snoc d k q a ty o k' : ledger_sum (ledger d k q a ty o) k' = ledger_sum d k' + at_key k q k'.
Proof.
  unfold ledger_sum. cbn [inventory_ledger ledger]. rewrite total_snoc. cbn. unfold at_key. destruct k as [[t b] s]. cbn.
  repeat case_bool_decide; congruence || lia.
Qed.

Lemma deduct_hit d k i q r o : stock_item d !! k = Some i ->
  check_item {| quantity_on_hand := quantity_on_hand i + - q; quantity_reserved := quantity_reserved i + - r |} = true ->
  exists d', deduct d k q r o = Ok d' /\ moves d d' (at_key k (- q)) (at_key k (- r)) /\
    forall k', ledger_sum d' k' = ledger_sum d k' + at_key k (- q) k'.
Proof.
  intros Hi Hc. destruct (update_item_hit d k i (- q) (- r) Hi Hc) as (d1 & Eu & Hm & Hl).
  unfold deduct. rewrite Eu, bind_of_Ok. eexists. split; [done|]. split.
  - eapply moves_ext; [| |exact (moves_trans _ _ _ _ _ _ _ Hm (ledger_moves d1 _ _ _ _ _))]; intros; cbn beta; lia.
  - intros k'. rewrite ledger_sum_snoc. unfold ledger_sum. by rewrite Hl.
Qed.

Lemma commit_free_step t b o d l : 0 < quantity l ->
  (forall k i, stock_item d !! k = Some i -> check_item i = true) ->
  exists d', commit_step t b o false d l = Ok d' /\
    let q := Z.min (quantity l) (free_of d (t, b, sku l)) in
    moves d d' (at_key (t, b, sku l) (- q)) (fun _ => 0) /\
    forall k, ledger_sum d' k = ledger_sum d k + at_key (t, b, sku l) (- q) k.
Proof.
  intros Hp Hc. unfold commit_step. destruct (free_nonneg d (t, b, sku l) Hc) as [Hf ->].
  rewrite (Z.max_r 0) by done. set (q := Z.min _ _).
  set (d1 := if q <? quantity l then _ else d).
  assert (Hd1 : moves d d1 (fun _ => 0) (fun _ => 0) /\ (forall k, ledger_sum d1 k = ledger_sum d k) /\ stock_item d1 = stock_item d).
  { unfold d1. destruct (q <? quantity l); [|split; [apply moves_refl | done]].
    split; [apply ledger_moves|]. split; [|done]. intros k. rewrite ledger_sum_snoc. unfold at_key. case_bool_decide; lia. }
  destruct Hd1 as (Hm1 & Hl1 & Hs1). clearbody d1. cbv zeta. destruct (Z.eqb_spec q 0) as [E|E].
  - exists d1. split; [done|]. rewrite E. cbn [Z.opp].
    split; [eapply moves_ext; [| |exact Hm1]; intros; unfold at_key; try case_bool_decide; done|].
    intros k. rewrite Hl1. unfold at_key. case_bool_decide; lia.
  - pose proof Hf as Hf'. unfold free_of, on_hand_of, reserved_of in *.
    destruct (stock_item d !! (t, b, sku l)) as [i|] eqn:Hi; cbn in *; [|subst q; lia].
    destruct (deduct_hit d1 (t, b, sku l) i q 0 o) as (d' & Ed & Hm & Hl); [by rewrite Hs1 | by apply (check_free i q (Hc _ _ Hi)); lia |].
    exists d'. split; [done|]. split.
    + eapply moves_ext; [| |exact (moves_trans _ _ _ _ _ _ _ Hm1 Hm)]; intros k; cbn beta; unfold at_key; try case_bool_decide; lia.
    + intros k. by rewrite Hl, Hl1.
Qed.

Lemma commit_free_loop t b o ls : positive ls -> forall d,
  (forall k i, stock_item d !! k = Some i -> check_item i = true) ->
  exists d', foldM (commit_step t b o false) d ls = Ok d' /\
    let taken k := Z.min (lines_at t b ls k) (free_of d k) in
    moves d d' (fun k => - taken k) (fun _ => 0) /\
    (forall k, ledger_sum d' k = ledger_sum d k - taken k).
Proof.
  induction ls as [|l ls IH]; intros Hp d Hc; cbn [foldM].
  - exists d. split; [done|]. cbv zeta. assert (Hz : forall k, Z.min (lines_at t b [] k) (free_of d k) = 0).
    { intros k. destruct (free_nonneg d k Hc) as [? _]. unfold lines_at. case_bool_decide; [change (lines_qty k.2 []) with 0|]; lia. }
    split; [|intros k; rewrite Hz; lia]. eapply moves_ext; [| |apply moves_refl]; intros k; cbn beta; rewrite ?Hz; done.
  - assert (Hp' : positive ls) by (intros x Hx; apply Hp; by right). specialize (Hp l ltac:(left)).
    destruct (commit_free_step t b o d l Hp Hc) as (d1 & Es & Hm & Hl). cbv zeta in Hm, Hl.
    destruct (IH Hp' d1 (mv_check _ _ _ _ Hm Hc)) as (d' & Ef & Hm' & Hl'). cbv zeta in Hm', Hl'.
    exists d'. rewrite Es, bind_of_Ok, Ef. split; [done|]. cbv zeta.
    assert (Hsum : forall k, at_key (t, b, sku l) (- Z.min (quantity l) (free_of d (t, b, sku l))) k +
      - Z.min (lines_at t b ls k) (free_of d1 k) = - Z.min (lines_at t b (l :: ls) k) (free_of d k)).
    { intros k. unfold free_of at 2. rewrite (mv_on _ _ _ _ Hm), (mv_res _ _ _ _ Hm), lines_at_cons.
      destruct (free_nonneg d k Hc) as [Hf _]. pose proof (lines_at_nonneg t b ls k Hp').
      unfold free_of in *. unfold at_key. case_bool_decide; subst; lia. }
    split.
    + eapply moves_ext; [| |exact (moves_trans _ _ _ _ _ _ _ Hm Hm')]; intros k; cbn beta; [apply Hsum | done].
    + intros k. rewrite Hl', Hl. specialize (Hsum k). lia.
Qed.

(** ** The reservation tables *)

Section Rows.
Lemma find_row d t o r : findByOrder d t o = Some r ->
  r ∈ stock_reservation d /\ rv_tenant r = t /\ rv_order_id r = o.
Proof.
  intros [Hin He]%List.find_some. apply list_elem_of_In in Hin. unfold of_order in He.
  apply andb_true_iff in He as [H1%String.eqb_eq H2%String.eqb_eq]. done.
Qed.

Lemma find_row_None d t o r : findByOrder d t o = None -> r ∈ stock_reservation d -> (rv_tenant r, rv_order_id r) <> (t, o).
Proof.
  intros Hn Hr [= E1 E2]. apply list_elem_of_In in Hr. pose proof (List.find_none _ _ Hn r Hr) as H.
  unfold of_order in H. by rewrite E1, E2, !String.eqb_refl in H.
Qed.

Lemma row_split rows r : NoDup (map rv_id rows) -> r ∈ rows ->
  exists l1 l2, rows = l1 ++ r :: l2 /\ forall x, x ∈ l1 ++ l2 -> rv_id x <> rv_id r.
Proof.
  intros Hd (l1 & l2 & ->)%list_elem_of_split. exists l1, l2. split; [done|].
  rewrite map_app in Hd. cbn [map] in Hd. apply NoDup_app in Hd as (_ & H1 & [H2 _]%NoDup_cons).
  intros x [Hx|Hx]%elem_of_app E.
  - apply (H1 (rv_id x)); [by apply list_elem_of_fmap_2|]. rewrite E. left.
  - apply H2. rewrite <- E. by apply list_elem_of_fmap_2.
Qed.

Lemma total_change f (h : ReservationRow -> ReservationRow) rows r : NoDup (map rv_id rows) -> r ∈ rows ->
  total f (map (fun x => if String.eqb (rv_id x) (rv_id r) then h x else x) rows) = total f rows - f r + f (h r).
Proof.
  intros Hd Hr. destruct (row_split rows r Hd Hr) as (l1 & l2 & -> & Hne).
  assert (Hid : forall l, (forall x, x ∈ l -> rv_id x <> rv_id r) ->
    map (fun x => if String.eqb (rv_id x) (rv_id r) then h x else x) l = l).
  { clear. induction l as [|x l IH]; intros H; cbn; [done|].
    rewrite (proj2 (String.eqb_neq _ _)) by (apply H; left). by rewrite IH by (intros; apply H; by right). }
  rewrite map_app. cbn [map]. rewrite String.eqb_refl, !Hid by (intros; apply Hne, elem_of_app; auto).
  unfold total. rewrite !map_app, !sumZ_app. cbn. lia.
Qed.

Lemma total_drop f rows r : NoDup (map rv_id rows) -> r ∈ rows ->
  total f (List.filter (fun x => negb (String.eqb (rv_id x) (rv_id r))) rows) = total f rows - f r.
Proof.
  intros Hd Hr. destruct (row_split rows r Hd Hr) as (l1 & l2 & -> & Hne).
  assert (Hid : forall l, (forall x, x ∈ l -> rv_id x <> rv_id r) ->
    List.filter (fun x => negb (String.eqb (rv_id x) (rv_id r))) l = l).
  { clear. induction l as [|x l IH]; intros H; cbn; [done|].
    rewrite (proj2 (String.eqb_neq _ _)) by (apply H; left). cbn. by rewrite IH by (intros; apply H; by right). }
  rewrite List.filter_app. cbn [List.filter]. rewrite String.eqb_refl. cbn [negb].
  rewrite !Hid by (intros; apply Hne, elem_of_app; auto). unfold total. rewrite !map_app, !sumZ_app. cbn. lia.
Qed.

Lemma row_qty_nonneg d k r : wf d -> 0 <= row_qty d k r.
Proof.
  intros Hw. unfold row_qty. destruct (_ && _); [|lia]. apply lines_qty_nonneg. by apply wf_positive.
Qed.

Lemma row_qty_le d k r : wf d -> r ∈ stock_reservation d -> row_qty d k r <= reserved_of d k.
Proof.
  intros Hw Hr. rewrite (wf_reserved _ Hw). apply total_elem_le; [|done]. intros. by apply row_qty_nonneg.
Qed.

Lemma row_qty_held d k r : rv_status r = held ->
  row_qty d k r = lines_at (rv_tenant r) (rv_branch_id r) (items d (rv_id r)) k.
Proof.
  intros H. unfold row_qty, lines_at. rewrite (bool_decide_eq_true_2 _ H). cbn [andb]. repeat case_bool_decide; congruence.
Qed.

Lemma row_qty_not_held d k r : rv_status r <> held -> row_qty d k r = 0.
Proof. intros H. unfold row_qty. by rewrite bool_decide_eq_false_2. Qed.
End Rows.

(** ** The invariant is preserved *)

Section Preservation.
(** Quantities move in step with the ledger, reservations untouched. *)
Lemma wf_moves d d1 f : wf d -> moves d d1 f (fun _ => 0) -> (forall k, ledger_sum d1 k = ledger_sum d k + f k) -> wf d1.
Proof.
  intros Hw Hm Hl. destruct Hm as [M1 M2 M3 M4 M5 M6]. split.
  - rewrite M5. apply Hw.
  - rewrite M5. apply Hw.
  - rewrite M5, M6. apply Hw.
  - unfold items. rewrite M6. apply Hw.
  - apply M4, Hw.
  - intros k. rewrite M2, Z.add_0_r, (wf_reserved _ Hw). unfold held_qty, row_qty, items. by rewrite M5, M6.
  - intros k. by rewrite M1, Hl, (wf_ledger _ Hw).
Qed.

(** A reservation is closed and what it held leaves the reserved quantity. *)
Lemma wf_close d d1 r f s : wf d -> r ∈ stock_reservation d -> s <> held ->
  moves d d1 f (fun k => - row_qty d k r) -> (forall k, ledger_sum d1 k = ledger_sum d k + f k) ->
  wf (set_status d1 (rv_id r) s).
Proof.
  intros Hw Hr Hs [M1 M2 M3 M4 M5 M6] Hl.
  assert (Hkeys : forall {B} (g : ReservationRow -> B), (forall x s', g {| rv_id := rv_id x; rv_tenant := rv_tenant x;
      rv_order_id := rv_order_id x; rv_branch_id := rv_branch_id x; rv_status := s'; rv_expires_at := rv_expires_at x |} = g x) ->
    map g (stock_reservation (set_status d1 (rv_id r) s)) = map g (stock_reservation d)).
  { intros B g Hg. cbn. rewrite M5, map_map. apply map_ext. intros x. destruct (String.eqb _ _); [apply Hg | done]. }
  split.
  - rewrite Hkeys by done. apply Hw.
  - rewrite Hkeys by done. apply Hw.
  - rewrite Hkeys by done. cbn. rewrite M6. apply Hw.
  - unfold items. cbn. rewrite M6. apply Hw.
  - apply M4, Hw.
  - intros k. change (reserved_of (set_status d1 (rv_id r) s) k) with (reserved_of d1 k). rewrite M2, (wf_reserved _ Hw).
    unfold held_qty. cbn [stock_reservation set_status with_reservations]. rewrite M5.
    assert (Hrow : forall x, row_qty (set_status d1 (rv_id r) s) k x = row_qty d k x).
    { intros x. unfold row_qty, items. cbn. by rewrite M6. }
    rewrite (total_change _ (fun x => {| rv_id := rv_id x; rv_tenant := rv_tenant x; rv_order_id := rv_order_id x;
      rv_branch_id := rv_branch_id x; rv_status := s; rv_expires_at := rv_expires_at x |})) by (apply Hw || done).
    rewrite !Hrow. rewrite (row_qty_not_held d k {| rv_status := s |}) by done.
    unfold total. rewrite (map_ext _ _ Hrow). lia.
  - intros k. change (on_hand_of (set_status d1 (rv_id r) s) k) with (on_hand_of d1 k).
    change (ledger_sum (set_status d1 (rv_id r) s) k) with (ledger_sum d1 k). by rewrite M1, Hl, (wf_ledger _ Hw).
Qed.

(** A reservation that holds nothing is deleted, its lines with it. *)
Lemma wf_delete d r : wf d -> r ∈ stock_reservation d -> rv_status r <> held -> wf (delete_reservation d (rv_id r)).
Proof.
  intros Hw Hr Hs.
  assert (Hsub : forall {B} (g : ReservationRow -> B), NoDup (map g (stock_reservation d)) ->
    NoDup (map g (stock_reservation (delete_reservation d (rv_id r))))).
  { intros B g. clear Hr. cbn. induction (stock_reservation d) as [|x l IH]; cbn; [done|]. intros [Hn Hd]%NoDup_cons.
    destruct (negb _); cbn; [|auto]. constructor; [|auto]. intros (y & E & [Hy _]%list_elem_of_In%List.filter_In)%list_elem_of_fmap.
    apply Hn. rewrite E. by apply list_elem_of_fmap_2, list_elem_of_In. }
  split.
  - apply Hsub, Hw.
  - apply Hsub, Hw.
  - intros rid ls. cbn. destruct (decide (rid = rv_id r)) as [->|Hne]; [by rewrite lookup_delete_eq|].
    rewrite lookup_delete_ne by congruence. intros (x & -> & Hx)%(wf_fk _ Hw)%list_elem_of_fmap.
    apply list_elem_of_fmap_2, list_elem_of_In, List.filter_In. split; [by apply list_elem_of_In|].
    by apply negb_true_iff, String.eqb_neq.
  - intros rid. unfold items. cbn. destruct (decide (rid = rv_id r)) as [->|Hne].
    + rewrite lookup_delete_eq. intros l Hl. by apply not_elem_of_nil in Hl.
    + rewrite lookup_delete_ne by congruence. apply Hw.
  - apply Hw.
  - intros k. change (reserved_of (delete_reservation d (rv_id r)) k) with (reserved_of d k). rewrite (wf_reserved _ Hw).
    unfold held_qty. cbn [stock_reservation delete_reservation]. unfold total at 2.
    rewrite (sumZ_map_ext (row_qty (delete_reservation d (rv_id r)) k) (row_qty d k)).
    + change (total (row_qty d k) (stock_reservation d) =
        total (row_qty d k) (List.filter (fun x => negb (String.eqb (rv_id x) (rv_id r))) (stock_reservation d))).
      rewrite total_drop by (apply Hw || done). rewrite (row_qty_not_held d k r Hs). lia.
    + intros x [_ Hx%negb_true_iff%String.eqb_neq]%list_elem_of_In%List.filter_In. unfold row_qty, items. cbn.
      by rewrite lookup_delete_ne by congruence.
  - apply Hw.
Qed.
End Preservation.

(** ** reserve *)

Section Reserve.
Lemma insert_items rid ls : forall d,
  let d' := foldl (insert_item rid) d ls in
  stock_item d' = stock_item d /\ stock_reservation d' = stock_reservation d /\
  inventory_ledger d' = inventory_ledger d /\
  (forall x, items d' x = if bool_decide (x = rid) then items d rid ++ ls else items d x) /\
  (forall x l, stock_reservation_item d' !! x = Some l -> x = rid \/ is_Some (stock_reservation_item d !! x)).
Proof.
  induction ls as [|l ls IH]; intros d; cbn [foldl].
  - split_and!; try done; [|eauto]. intros x. rewrite app_nil_r. case_bool_decide; congruence.
  - destruct (IH (insert_item rid d l)) as (I1 & I2 & I3 & I4 & I5). split_and!; try done.
    + intros x. rewrite I4. unfold items, insert_item. cbn. case_bool_decide; subst.
      * rewrite lookup_insert_eq. cbn. by rewrite <- (assoc_L app).
      * by rewrite lookup_insert_ne by congruence.
    + intros x y Hx. destruct (I5 x y Hx) as [-> | Hs]; [by left|]. cbn in Hs.
      destruct (decide (x = rid)) as [->|]; [by left|]. right. by rewrite lookup_insert_ne in Hs by congruence.
Qed.

Lemma find_snoc {A} (p : A -> bool) l x : List.find p l = None -> p x = true -> List.find p (l ++ [x]) = Some x.
Proof. induction l as [|y l IH]; cbn; [by intros _ ->|]. by destruct (p y). Qed.

Lemma filter_none_left {A} (p : A -> bool) l : List.filter (fun x => negb (p x)) l = [] -> List.filter p l = l.
Proof. induction l as [|x l IH]; cbn; [done|]. destruct (p x); cbn; [intros H; by rewrite IH | done]. Qed.

Context (d : db) (t rid : string) (e : Z) (req : ReserveStockRequest).
Let ls := mergeLines (lines req).
Let row := {| rv_id := rid; rv_tenant := t; rv_order_id := orderId req; rv_branch_id := branchId req;
              rv_status := held; rv_expires_at := e |}.
Let d1 := with_reservations d (stock_reservation d ++ [row]).

(** The new row and its lines enter the tables together with the reserved quantity. *)
Lemma wf_insert d2 : wf d -> findByOrder d t (orderId req) = None -> rid ∉ map rv_id (stock_reservation d) ->
  positive (lines req) -> moves d1 d2 (fun _ => 0) (lines_at t (branchId req) ls) ->
  inventory_ledger d2 = inventory_ledger d -> wf (foldl (insert_item rid) d2 ls).
Proof using d1 row.
  intros Hw Hf Hr Hp [M1 M2 M3 M4 M5 M6] Hl. destruct (insert_items rid ls d2) as (I1 & I2 & I3 & I4 & I5).
  set (d3 := foldl (insert_item rid) d2 ls) in *. cbv zeta in *.
  assert (Hnone : stock_reservation_item d !! rid = None).
  { destruct (stock_reservation_item d !! rid) eqn:E; [|done]. by apply (wf_fk _ Hw) in E. }
  assert (Hi : forall x, items d3 x = if bool_decide (x = rid) then ls else items d x).
  { intros x. rewrite I4. unfold items. rewrite M6. cbn. case_bool_decide; [|done]. by rewrite Hnone. }
  assert (Hrows : stock_reservation d3 = stock_reservation d ++ [row]) by (by rewrite I2, M5).
  split.
  - rewrite Hrows, map_app. apply NoDup_app. split; [apply Hw|]. split; [|apply NoDup_singleton].
    intros x Hx ->%list_elem_of_singleton. done.
  - rewrite Hrows, map_app. apply NoDup_app. split; [apply Hw|]. split; [|apply NoDup_singleton].
    intros x (r & -> & Hx)%list_elem_of_fmap E%list_elem_of_singleton. by apply (find_row_None _ _ _ r Hf).
  - intros x l Hx. rewrite Hrows, map_app. apply elem_of_app. apply I5 in Hx as [-> | [l' Hx]]; [right; left|left].
    rewrite M6 in Hx. by apply (wf_fk _ Hw) in Hx.
  - intros x. rewrite Hi. case_bool_decide; [by apply mergeLines_positive | apply Hw].
  - rewrite I1. apply M4, Hw.
  - intros k. assert (Er : reserved_of d3 k = reserved_of d k + lines_at t (branchId req) ls k).
    { unfold reserved_of at 1. rewrite I1. apply M2. }
    rewrite Er, (wf_reserved _ Hw). unfold held_qty. rewrite Hrows, total_snoc. f_equal.
    + apply sumZ_map_ext. intros x Hx. unfold row_qty. rewrite Hi, (bool_decide_eq_false_2 (rv_id x = rid)); [done|].
      intros E. apply Hr. rewrite <- E. by apply list_elem_of_fmap_2.
    + rewrite row_qty_held by done. rewrite Hi. cbn [rv_id row]. by rewrite bool_decide_eq_true_2.
  - intros k. unfold on_hand_of. rewrite I1. fold (on_hand_of d2 k). rewrite M1, Z.add_0_r.
    change (on_hand_of d1 k) with (on_hand_of d k). rewrite (wf_ledger _ Hw). unfold ledger_sum. by rewrite I3, Hl.
Qed.

(** What is short when the lines are asked for. *)
Definition shorts (dd : db) (ten : string) (request : ReserveStockRequest) : list StockLine :=
  List.filter (fun l => negb (enough dd (ten, branchId request, sku l) (quantity l))) (mergeLines (lines request)).

Lemma hold_lines_spec : wf d -> findByOrder d t (orderId req) = None -> rid ∉ map rv_id (stock_reservation d) ->
  positive (lines req) ->
  (shorts d t req <> [] -> hold_lines d1 t req rid = shortage (map (short_of d t (branchId req)) (shorts d t req))) /\
  (shorts d t req = [] -> exists d2,
     hold_lines d1 t req rid =
       Ok ({| created := true; reservation := {| sr_orderId := orderId req; sr_branchId := branchId req;
                sr_status := held; sr_expiresAt := e; sr_lines := ls |} |}, d2) /\
     wf d2 /\ findByOrder d2 t (orderId req) = Some row /\ itemsOf d2 rid = ls /\
     (forall k, on_hand_of d2 k = on_hand_of d k) /\
     (forall k, reserved_of d2 k = reserved_of d k + lines_at t (branchId req) (lines req) k)).
Proof using d1 row.
  intros Hw Hf Hr Hp.
  destruct (hold_loop t (branchId req) ls (mergeLines_positive _ Hp) (mergeLines_NoDup _) d1 []) as (d2 & El & Hm & Hl).
  { apply Hw. }
  unfold hold_lines. fold ls. rewrite El, bind_of_Ok. cbn [app].
  change (List.filter (fun l => negb (enough d1 (t, branchId req, sku l) (quantity l))) ls) with (shorts d t req).
  change (map (short_of d1 t (branchId req))) with (map (short_of d t (branchId req))). split.
  - intros Hne. destruct (shorts d t req); [done|]. done.
  - intros Hz. rewrite Hz. cbn [map].
    assert (Hall : List.filter (fun l => enough d1 (t, branchId req, sku l) (quantity l)) ls = ls).
    { by apply filter_none_left. }
    rewrite Hall in Hm. pose proof (wf_insert d2 Hw Hf Hr Hp Hm Hl) as Hw'.
    destruct (insert_items rid ls d2) as (I1 & I2 & I3 & I4 & I5). set (d3 := foldl (insert_item rid) d2 ls) in *.
    cbv zeta in *.
    assert (Hfind : findByOrder d3 t (orderId req) = Some row).
    { unfold findByOrder. rewrite I2, (mv_rows _ _ _ _ Hm). apply find_snoc; [exact Hf|].
      unfold of_order. cbn. by rewrite !String.eqb_refl. }
    assert (Hit : itemsOf d3 rid = ls).
    { unfold itemsOf. fold (items d3 rid). rewrite I4, bool_decide_eq_true_2 by done. unfold items.
      rewrite (mv_items _ _ _ _ Hm). cbn. destruct (stock_reservation_item d !! rid) eqn:E; [by apply (wf_fk _ Hw) in E|].
      cbn. apply sort_by_sorted_id, mergeLines_sorted. }
    rewrite Hfind. exists d3. unfold toReservation. cbn [rv_id row rv_order_id rv_branch_id rv_status rv_expires_at].
    rewrite Hit. split; [done|]. split; [done|]. split; [done|]. split; [done|]. split.
    + intros k. unfold on_hand_of at 1. rewrite I1. etrans; [apply (mv_on _ _ _ _ Hm)|]. by rewrite Z.add_0_r.
    + intros k. unfold reserved_of at 1. rewrite I1. etrans; [apply (mv_res _ _ _ _ Hm)|].
      f_equal. unfold lines_at, ls. by rewrite mergeLines_qty.
Qed.
End Reserve.

(** An existing reservation that answers for the order. *)
Definition active (o : option ReservationRow) : option ReservationRow :=
  match o with
  | Some r => if bool_decide (rv_status r = held) || bool_decide (rv_status r = committed) then Some r else None
  | None => None
  end.

Lemma existsb_id rows u : existsb (fun r => String.eqb (rv_id r) u) rows = false <-> u ∉ map rv_id rows.
Proof.
  rewrite <- not_true_iff_false, existsb_exists. split; intros H Hin; apply H.
  - apply list_elem_of_fmap in Hin as (r & -> & Hr). exists r. split; [by apply list_elem_of_In | apply String.eqb_refl].
  - destruct Hin as (r & Hr%list_elem_of_In & <-%String.eqb_eq). by apply list_elem_of_fmap_2.
Qed.

(** The database in which a new hold is placed: the order's closed reservation is gone. *)
Definition cleared (d : db) (t o : string) : db :=
  match findByOrder d t o with Some r => delete_reservation d (rv_id r) | None => d end.

Lemma cleared_wf d t o : wf d -> active (findByOrder d t o) = None ->
  wf (cleared d t o) /\ findByOrder (cleared d t o) t o = None /\ stock_item (cleared d t o) = stock_item d /\
  (forall u, u ∉ map rv_id (stock_reservation d) -> u ∉ map rv_id (stock_reservation (cleared d t o))).
Proof.
  intros Hw Ha. unfold cleared. destruct (findByOrder d t o) as [r|] eqn:Ef; [|done].
  pose proof (find_row _ _ _ _ Ef) as (Hr & Ht & Ho). cbn in Ha. destruct (decide (rv_status r = held)) as [E|E].
  { by rewrite (bool_decide_eq_true_2 _ E) in Ha. }
  split; [by apply wf_delete|]. split; [|split; [done|]].
  - unfold findByOrder. destruct (List.find _ _) as [x|] eqn:E2; [|done]. apply List.find_some in E2 as [Hx Hp].
    cbn in Hx. apply List.filter_In in Hx as [Hx%list_elem_of_In Hne%negb_true_iff%String.eqb_neq].
    exfalso. apply Hne. unfold of_order in Hp. apply andb_true_iff in Hp as [P1%String.eqb_eq P2%String.eqb_eq].
    pose proof (wf_orders _ Hw) as Hd. apply list_elem_of_split in Hr as (l1 & l2 & El). rewrite El in Hx, Hd.
    rewrite map_app in Hd. cbn [map] in Hd. apply NoDup_app in Hd as (_ & H1 & [H2 _]%NoDup_cons).
    apply elem_of_app in Hx as [Hx | [-> | Hx]%elem_of_cons]; [|done|].
    + exfalso. apply (H1 (rv_tenant x, rv_order_id x)); [by apply (list_elem_of_fmap_2 (fun r => (rv_tenant r, rv_order_id r)))|].
      rewrite P1, P2, Ht, Ho. left.
    + exfalso. apply H2. rewrite Ht, Ho, <- P1, <- P2. by apply (list_elem_of_fmap_2 (fun r => (rv_tenant r, rv_order_id r))).
  - intros u Hu (x & -> & [Hx%list_elem_of_In _]%list_elem_of_In%List.filter_In)%list_elem_of_fmap.
    apply Hu. by apply list_elem_of_fmap_2.
Qed.

(** The code of [reserve], by cases. *)
Lemma reserve_cases d t req u1 u2 e : wf d ->
  (forall r, active (findByOrder d t (orderId req)) = Some r ->
     reserve d t req u1 u2 e =
       if String.eqb (rv_branch_id r) (branchId req) && sameLines (itemsOf d (rv_id r)) (lines req)
       then Ok ({| created := false; reservation := toReservation d r |}, d) else mismatch) /\
  (active (findByOrder d t (orderId req)) = None ->
     let rid := match findByOrder d t (orderId req) with Some _ => u2 | None => u1 end in
     let d0 := cleared d t (orderId req) in
     reserve d t req u1 u2 e =
       if existsb (fun r => String.eqb (rv_id r) rid) (stock_reservation d0) then query_failed
       else hold_lines (with_reservations d0 (stock_reservation d0 ++
         [{| rv_id := rid; rv_tenant := t; rv_order_id := orderId req; rv_branch_id := branchId req;
             rv_status := held; rv_expires_at := e |}])) t req rid).
Proof.
  intros Hw. unfold reserve. destruct (findByOrder d t (orderId req)) as [r|] eqn:Ef.
  - assert (Ei : insertReservation d t req u1 e = Ok (None, d)) by (unfold insertReservation; by rewrite Ef).
    rewrite Ei, !bind_of_Ok, !Ef. unfold active.
    destruct (bool_decide (rv_status r = held) || bool_decide (rv_status r = committed)) eqn:Ea.
    + split; [|discriminate]. intros r' [= <-]. cbn [sr_lines toReservation].
      destruct (String.eqb _ _), (sameLines _ _); done.
    + split; [discriminate|]. intros _. cbv zeta. unfold cleared. rewrite Ef.
      destruct (cleared_wf d t (orderId req) Hw) as (_ & Hn & _); [rewrite Ef; unfold active; by rewrite Ea|].
      unfold cleared in Hn. rewrite Ef in Hn. unfold insertReservation. rewrite Hn. by destruct (existsb _ _).
  - split; [discriminate|]. intros _. cbv zeta. unfold cleared, insertReservation. rewrite Ef. by destruct (existsb _ _).
Qed.

(** ** release, expiry and commit on a well-formed store *)

Section Closing.
Lemma itemsOf_perm d rid : itemsOf d rid ≡ₚ items d rid.
Proof. apply sort_by_perm. Qed.

Lemma itemsOf_positive d rid : wf d -> positive (itemsOf d rid).
Proof. intros Hw l Hl. rewrite itemsOf_perm in Hl. by apply (wf_positive _ Hw rid). Qed.

Lemma held_lines_at d r k : rv_status r = held ->
  lines_at (rv_tenant r) (rv_branch_id r) (itemsOf d (rv_id r)) k = row_qty d k r.
Proof. intros H. rewrite row_qty_held by done. apply lines_at_perm, itemsOf_perm. Qed.

Lemma giveBack_ok d r s : wf d -> r ∈ stock_reservation d -> rv_status r = held -> s <> held ->
  exists d', giveBack d (rv_tenant r) r s = Ok d' /\ wf d' /\
    stock_reservation d' = stock_reservation (set_status d (rv_id r) s) /\
    (forall k, on_hand_of d' k = on_hand_of d k) /\ (forall k, reserved_of d' k = reserved_of d k - row_qty d k r) /\
    stock_reservation_item d' = stock_reservation_item d.
Proof.
  intros Hw Hr Hh Hs.
  destruct (give_loop (rv_tenant r) (rv_branch_id r) (itemsOf d (rv_id r)) (itemsOf_positive _ _ Hw) d) as (d1 & E & Hm & Hl).
  { apply Hw. }
  { intros k. rewrite held_lines_at by done. by apply row_qty_le. }
  assert (Hm' : moves d d1 (fun _ => 0) (fun k => - row_qty d k r)).
  { eapply moves_ext; [| |exact Hm]; intros k; cbn beta; [done | by rewrite held_lines_at]. }
  unfold giveBack. rewrite E, bind_of_Ok. eexists. split; [done|]. split.
  - eapply wf_close; try done. intros k. unfold ledger_sum. rewrite Hl. lia.
  - split; [|split; [|split]].
    + cbn. by rewrite (mv_rows _ _ _ _ Hm).
    + intros k. etrans; [apply (mv_on _ _ _ _ Hm')|]. by rewrite Z.add_0_r.
    + intros k. apply (mv_res _ _ _ _ Hm').
    + apply (mv_items _ _ _ _ Hm').
Qed.

Lemma release_ok d t o : wf d -> exists d', release d t o = Ok d' /\ wf d' /\
  (forall k, on_hand_of d' k = on_hand_of d k) /\
  (forall k, reserved_of d' k = reserved_of d k -
     match findByOrder d t o with Some r => row_qty d k r | None => 0 end).
Proof.
  intros Hw. unfold release. destruct (findByOrder d t o) as [r|] eqn:Ef.
  - pose proof (find_row _ _ _ _ Ef) as (Hr & <- & _). case_bool_decide as Hh.
    + destruct (giveBack_ok d r released Hw Hr Hh) as (d' & E & Hw' & _ & H1 & H2 & _); [done|]. by exists d'.
    + exists d. split_and!; try done. intros k. rewrite row_qty_not_held by done. lia.
  - exists d. split_and!; try done. intros k. lia.
Qed.

(** What a completed order takes of a key: its held lines, or what is free of its items. *)
Definition taken (d : db) (t : string) (order : CompletedOrder) (k : stock_key) : Z :=
  match findByOrder d t (oc_orderId order) with
  | Some r =>
      if bool_decide (rv_status r = committed) then 0
      else if bool_decide (rv_status r = held) then row_qty d k r
      else Z.min (lines_at t (rv_branch_id r) (oc_items order) k) (free_of d k)
  | None => Z.min (lines_at t (oc_branchId order) (oc_items order) k) (free_of d k)
  end.

Definition hold_of (d : db) (t o : string) (k : stock_key) : Z :=
  match findByOrder d t o with Some r => row_qty d k r | None => 0 end.

Lemma commit_ok d t order : wf d -> positive (oc_items order) ->
  exists d', commit d t order = Ok d' /\ wf d' /\
    (forall k, on_hand_of d' k = on_hand_of d k - taken d t order k) /\
    (forall k, reserved_of d' k = reserved_of d k - hold_of d t (oc_orderId order) k).
Proof.
  intros Hw Hp. unfold commit, taken, hold_of.
  assert (Hfree : forall b, exists d1, foldM (commit_step t b (oc_orderId order) false) d (mergeLines (oc_items order)) = Ok d1 /\
    moves d d1 (fun k => - Z.min (lines_at t b (oc_items order) k) (free_of d k)) (fun _ => 0) /\
    forall k, ledger_sum d1 k = ledger_sum d k - Z.min (lines_at t b (oc_items order) k) (free_of d k)).
  { intros b. destruct (commit_free_loop t b (oc_orderId order) (mergeLines (oc_items order)) (mergeLines_positive _ Hp) d)
      as (d1 & E & Hm & Hl); [apply Hw|].
    assert (Hq : forall k, lines_at t b (mergeLines (oc_items order)) k = lines_at t b (oc_items order) k).
    { intros k. unfold lines_at. by rewrite mergeLines_qty. }
    exists d1. split; [done|]. split; [eapply moves_ext; [| |exact Hm]; intros k; cbn beta; by rewrite ?Hq|].
    intros k. rewrite <- Hq. apply Hl. }
  destruct (findByOrder d t (oc_orderId order)) as [r|] eqn:Ef.
  - pose proof (find_row _ _ _ _ Ef) as (Hr & <- & _).
    destruct (decide (rv_status r = committed)) as [Hc|Hc].
    { rewrite (bool_decide_eq_true_2 _ Hc). exists d. split_and!; try done; intros k; [lia|].
      rewrite row_qty_not_held by congruence. lia. }
    rewrite (bool_decide_eq_false_2 _ Hc). destruct (decide (rv_status r = held)) as [Hh|Hh].
    + rewrite (bool_decide_eq_true_2 _ Hh).
      destruct (commit_held_loop (rv_tenant r) (rv_branch_id r) (oc_orderId order) (itemsOf d (rv_id r))
        (itemsOf_positive _ _ Hw) d) as (d1 & E & Hm & Hl).
      { apply Hw. } { intros k. rewrite held_lines_at by done. by apply row_qty_le. }
      assert (Hm' : moves d d1 (fun k => - row_qty d k r) (fun k => - row_qty d k r)).
      { eapply moves_ext; [| |exact Hm]; intros k; cbn beta; by rewrite held_lines_at. }
      rewrite E, bind_of_Ok. eexists. split; [done|]. split.
      * eapply wf_close; try done. intros k. rewrite Hl, held_lines_at by done. lia.
      * split; intros k; [apply (mv_on _ _ _ _ Hm') | apply (mv_res _ _ _ _ Hm')].
    + rewrite (bool_decide_eq_false_2 _ Hh). destruct (Hfree (rv_branch_id r)) as (d1 & E & Hm & Hl).
      rewrite E, bind_of_Ok. eexists. split; [done|]. split.
      * eapply wf_close; try done; [|intros k; rewrite Hl; reflexivity].
        eapply moves_ext; [| |exact Hm]; intros k; cbn beta; [done | by rewrite row_qty_not_held].
      * split; intros k; [apply (mv_on _ _ _ _ Hm)|]. rewrite row_qty_not_held, Z.sub_0_r by done.
        etrans; [apply (mv_res _ _ _ _ Hm)|]. apply Z.add_0_r.
  - destruct (Hfree (oc_branchId order)) as (d1 & E & Hm & Hl). rewrite E, bind_of_Ok. eexists. split; [done|]. split.
    + eapply wf_moves; [done | exact Hm |]. intros k. rewrite Hl. lia.
    + split; intros k; [apply (mv_on _ _ _ _ Hm)|]. rewrite (mv_res _ _ _ _ Hm). lia.
Qed.

Lemma expire_one_wf now d rid b d' : wf d -> expire_one now d rid = Ok (b, d') -> wf d'.
Proof.
  intros Hw. unfold expire_one. destruct (List.find _ _) as [r|] eqn:Ef; intros H; inv_ok; [|done].
  apply List.find_some in Ef as [Hr%list_elem_of_In He]. unfold is_due in He.
  apply andb_true_iff in He as [_ [Hh%bool_decide_eq_true _]%andb_true_iff].
  destruct (giveBack_ok d r expired Hw Hr Hh) as (d2 & E & Hw' & _); [done|]. congruence.
Qed.

Lemma expire_loop_wf now ids : forall s, wf s.1 -> wf (foldl (expire_step now) s ids).1.
Proof.
  induction ids as [|rid ids IH]; intros [d n] Hw; cbn [foldl]; [done|]. apply IH. unfold expire_step. cbn [fst snd].
  destruct (expire_one now d rid) as [[[] d']|] eqn:E; cbn; try done; by eapply expire_one_wf.
Qed.

Lemma receive_loop t b rc ls : forall d out d' out', foldM (receive_step t b rc) (d, out) ls = Ok (d', out') ->
  moves d d' (lines_at t b ls) (fun _ => 0) /\ (forall k, ledger_sum d' k = ledger_sum d k + lines_at t b ls k).
Proof.
  induction ls as [|l ls IH]; intros d out d' out' H; cbn [foldM] in H.
  - inv_ok. assert (Hz : forall k, lines_at t b [] k = 0) by (intros k; unfold lines_at; by case_bool_decide).
    split; [|intros k; rewrite Hz; lia]. eapply moves_ext; [| |apply moves_refl]; intros k; cbn beta; by rewrite ?Hz.
  - inv_ok. destruct a as [d1 o1]. unfold receive_step in Ha. case_if_in Ha; [|discriminate]. inv_ok.
    apply IH in H as [Hm Hl]. set (k0 := (t, b, sku l)) in *. set (i' := {| quantity_reserved := _ |}) in *.
    assert (Hm1 : moves d (with_stock d (<[k0 := i']> (stock_item d))) (at_key k0 (quantity l)) (fun _ => 0)).
    { split; cbn; try done; [..|intros Hall]; intros k; unfold on_hand_of, reserved_of, at_key; cbn.
      - case_bool_decide as Ek; [subst; rewrite lookup_insert_eq | rewrite lookup_insert_ne by congruence; lia].
        subst i'. cbn. by destruct (stock_item d !! k0).
      - destruct (decide (k = k0)) as [->|]; [rewrite lookup_insert_eq | rewrite lookup_insert_ne by congruence; lia].
        subst i'. cbn. destruct (stock_item d !! k0); cbn; lia.
      - destruct (decide (k = k0)) as [->|]; [rewrite lookup_insert_eq; eauto | by rewrite lookup_insert_ne by congruence].
      - intros i0. destruct (decide (k = k0)) as [->|]; [rewrite lookup_insert_eq; by intros [= <-]|].
        rewrite lookup_insert_ne by congruence. apply Hall. }
    split.
    + eapply moves_ext; [| |exact (moves_trans _ _ _ _ _ _ _ (moves_trans _ _ _ _ _ _ _ Hm1 (ledger_moves _ _ _ _ _ _)) Hm)];
        intros k; cbn beta; [rewrite lines_at_cons; fold k0; lia | done].
    + intros k. rewrite Hl, ledger_sum_snoc, lines_at_cons. fold k0. change (ledger_sum (with_stock _ _) k) with (ledger_sum d k). lia.
Qed.
End Closing.

(** ** Reachable stores *)

Inductive store_step : db -> db -> Prop :=
| step_reserve d t req u1 u2 e out d' :
    positive (lines req) -> reserve d t req u1 u2 e = Ok (out, d') -> store_step d d'
| step_release d t o d' : release d t o = Ok d' -> store_step d d'
| step_commit d t order d' : positive (oc_items order) -> commit d t order = Ok d' -> store_step d d'
| step_expire d now limit : store_step d (expireDue d now limit).1
| step_receive d t b st its rc d' out : receive d t b st its rc = Ok (d', out) -> store_step d d'.

Definition empty_db : db :=
  {| stock_item := ∅; stock_reservation := []; stock_reservation_item := ∅; inventory_ledger := [] |}.

Lemma wf_empty : wf empty_db.
Proof.
  split.
  - apply NoDup_nil_2.
  - apply NoDup_nil_2.
  - intros rid ls. cbn. by rewrite lookup_empty.
  - intros rid l Hl. unfold items in Hl. cbn in Hl. rewrite lookup_empty in Hl. by apply not_elem_of_nil in Hl.
  - intros k i. cbn. by rewrite lookup_empty.
  - intros k. unfold reserved_of, held_qty, total. cbn. by rewrite lookup_empty.
  - intros k. unfold on_hand_of, ledger_sum, total. cbn. by rewrite lookup_empty.
Qed.

Lemma reserve_wf d t req u1 u2 e out d' : wf d -> positive (lines req) -> reserve d t req u1 u2 e = Ok (out, d') -> wf d'.
Proof.
  intros Hw Hp H. destruct (reserve_cases d t req u1 u2 e Hw) as [H1 H2].
  destruct (active (findByOrder d t (orderId req))) as [r|] eqn:Ea.
  - rewrite (H1 r eq_refl) in H. case_if_in H; [by inv_ok | discriminate].
  - rewrite (H2 eq_refl) in H. cbv zeta in H. set (rid := match findByOrder _ _ _ with Some _ => u2 | None => u1 end) in *.
    destruct (cleared_wf d t (orderId req) Hw Ea) as (Hw0 & Hf0 & _). case_if_in H; [discriminate|]. apply existsb_id in E.
    destruct (hold_lines_spec _ t rid e req Hw0 Hf0 E Hp) as [S1 S2].
    destruct (shorts (cleared d t (orderId req)) t req) eqn:Es.
    + destruct (S2 eq_refl) as (d2 & Eh & Hw2 & _). rewrite Eh in H. by inv_ok.
    + rewrite S1 in H by done. discriminate.
Qed.

Lemma store_step_wf d d' : store_step d d' -> wf d -> wf d'.
Proof.
  destruct 1 as [d t req u1 u2 e out d' Hp H | d t o d' H | d t order d' Hp H | d now limit | d t b st its rc d' out H]; intros Hw.
  - by eapply reserve_wf.
  - destruct (release_ok d t o Hw) as (d2 & E & Hw' & _). congruence.
  - destruct (commit_ok d t order Hw Hp) as (d2 & E & Hw' & _). congruence.
  - by apply expire_loop_wf.
  - unfold receive in H. case_if_in H; [discriminate|]. apply receive_loop in H as [Hm Hl]. by eapply wf_moves.
Qed.

(** C2.  The branch stock store is never oversold and its books always balance.
    Whatever sequence of holds, releases, sales, expiries and receipts is run
    from an empty store (by any tenants, in any order): for every tenant, branch
    and SKU the reserved quantity is exactly the sum of the lines of the holds
    still open on it, lies between zero and the quantity on hand, and the
    quantity on hand is exactly the sum of its ledger entries. *)
Theorem store_never_oversold (d : db) :
  rtc store_step empty_db d ->
  forall k, reserved_of d k = held_qty d k /\ 0 <= reserved_of d k <= on_hand_of d k /\ on_hand_of d k = ledger_sum d k.
Proof.
  intros H. assert (Hw : wf d).
  { revert H. apply (rtc_ind_r (fun d => wf d)); [exact wf_empty|]. intros d1 d2 _ Hs Hw. by eapply store_step_wf. }
  intros k. split; [apply Hw|]. split; [|apply Hw]. rewrite (wf_reserved _ Hw).
  pose proof (free_nonneg d k (wf_check _ Hw)) as [Hf _]. unfold free_of in Hf. rewrite (wf_reserved _ Hw) in Hf.
  split; [|lia]. apply total_nonneg. intros. by apply row_qty_nonneg.
Qed.

Definition line (s : string) (q : Z) : StockLine := {| sku := s; quantity := q |}.
Definition demo_request : ReserveStockRequest :=
  {| orderId := "o1"; branchId := "b"; lines := [line "AO-02" 2; line "AO-01" 3; line "AO-02" 1] |}.
Definition ok_db {A} (r : res (A * db)) : db := match r with Ok (_, d) => d | Throw _ => empty_db end.
Definition demo_stock : db :=
  match receive empty_db "t" "b" (Some "active") [line "AO-01" 5; line "AO-02" 4] "rc" with
  | Ok (d, _) => d | Throw _ => empty_db end.
Definition demo_held : db := ok_db (reserve demo_stock "t" demo_request "u1" "u2" 100).

Lemma demo_positive : positive (lines demo_request).
Proof. intros l. cbn. rewrite !elem_of_cons. intros [-> | [-> | [-> | Hl]]]; cbn; (lia || by apply not_elem_of_nil in Hl). Qed.

Lemma demo_stock_step : store_step empty_db demo_stock.
Proof. eapply (step_receive empty_db "t" "b" (Some "active") [line "AO-01" 5; line "AO-02" 4] "rc"). vm_compute. reflexivity. Qed.

Lemma demo_held_step : store_step demo_stock demo_held.
Proof. eapply (step_reserve demo_stock "t" demo_request "u1" "u2" 100); [exact demo_positive|]. vm_compute. reflexivity. Qed.

Lemma store_never_oversold_witness :
  reserved_of demo_held ("t", "b", "AO-02") = 3 /\ 0 <= reserved_of demo_held ("t", "b", "AO-02") <= on_hand_of demo_held ("t", "b", "AO-02").
Proof.
  split; [vm_compute; reflexivity|].
  apply (store_never_oversold demo_held). eapply rtc_l; [exact demo_stock_step|]. eapply rtc_l; [exact demo_held_step|]. constructor.
Defined.

(** What an accepted new hold does, and what the row it leaves looks like. *)
Lemma reserve_new d t req u1 u2 e : wf d -> positive (lines req) ->
  u1 ∉ map rv_id (stock_reservation d) -> u2 ∉ map rv_id (stock_reservation d) ->
  active (findByOrder d t (orderId req)) = None ->
  (shorts d t req <> [] -> reserve d t req u1 u2 e = shortage (map (short_of d t (branchId req)) (shorts d t req))) /\
  (shorts d t req = [] -> exists d' row,
     reserve d t req u1 u2 e = Ok ({| created := true; reservation := toReservation d' row |}, d') /\
     wf d' /\ findByOrder d' t (orderId req) = Some row /\ rv_status row = held /\ rv_branch_id row = branchId req /\
     itemsOf d' (rv_id row) = mergeLines (lines req) /\
     (forall k, on_hand_of d' k = on_hand_of d k) /\
     (forall k, reserved_of d' k = reserved_of d k + lines_at t (branchId req) (lines req) k)).
Proof.
  intros Hw Hp Hu1 Hu2 Ha. destruct (reserve_cases d t req u1 u2 e Hw) as [_ H2]. rewrite (H2 Ha). cbv zeta.
  set (rid := match findByOrder _ _ _ with Some _ => u2 | None => u1 end).
  destruct (cleared_wf d t (orderId req) Hw Ha) as (Hw0 & Hf0 & Hst & Hids).
  assert (Hr : rid ∉ map rv_id (stock_reservation (cleared d t (orderId req)))).
  { apply Hids. unfold rid. by destruct (findByOrder _ _ _). }
  rewrite (proj2 (existsb_id _ _) Hr).
  assert (Hsh : shorts (cleared d t (orderId req)) t req = shorts d t req) by (unfold shorts, enough, free; by rewrite Hst).
  assert (Hso : forall l, short_of (cleared d t (orderId req)) t (branchId req) l = short_of d t (branchId req) l)
    by (intros l; unfold short_of, free; by rewrite Hst).
  destruct (hold_lines_spec _ t rid e req Hw0 Hf0 Hr Hp) as [S1 S2]. rewrite Hsh in S1, S2. split.
  - intros Hne. rewrite (S1 Hne). unfold shortage. by rewrite (map_ext _ _ Hso).
  - intros Hz. destruct (S2 Hz) as (d2 & Eh & Hw2 & Hfind & Hit & Hon & Hre).
    eexists d2, _. rewrite Eh. split; [|split; [done|]; split; [exact Hfind|]; cbn; split_and!; try done].
    + unfold toReservation. cbn [rv_id rv_order_id rv_branch_id rv_status rv_expires_at]. by rewrite Hit.
    + intros k. rewrite Hon. unfold on_hand_of. by rewrite Hst.
    + intros k. rewrite Hre. unfold reserved_of. by rewrite Hst.
Qed.

(** A hold is all or nothing.  For a consistent store, an order without an
    open or committed reservation, and fresh ids: when some line is short
    (counted per SKU after merging the request's lines) the call throws exactly
    the list of short lines with what is available and, being a throw, changes
    nothing; otherwise it succeeds, holds exactly the requested quantities, one
    line per SKU in lock order, and moves no other quantity. *)
Theorem reserve_holds_all_or_nothing (d : db) (t : string) (req : ReserveStockRequest) (u1 u2 : string) (e : Z) :
  wf d -> positive (lines req) ->
  u1 ∉ map rv_id (stock_reservation d) -> u2 ∉ map rv_id (stock_reservation d) ->
  active (findByOrder d t (orderId req)) = None ->
  (shorts d t req <> [] -> reserve d t req u1 u2 e = shortage (map (short_of d t (branchId req)) (shorts d t req))) /\
  (shorts d t req = [] -> exists out d', reserve d t req u1 u2 e = Ok (out, d') /\ created out = true /\
     sr_status (reservation out) = held /\ sr_lines (reservation out) = mergeLines (lines req) /\ wf d' /\
     (forall k, on_hand_of d' k = on_hand_of d k) /\
     (forall k, reserved_of d' k = reserved_of d k + lines_at t (branchId req) (lines req) k)).
Proof.
  intros Hw Hp Hu1 Hu2 Ha. destruct (reserve_new d t req u1 u2 e Hw Hp Hu1 Hu2 Ha) as [S1 S2]. split; [exact S1|].
  intros Hz. destruct (S2 Hz) as (d' & row & E & Hw' & Hf & Hh & _ & Hit & Hon & Hre).
  eexists _, d'. split; [exact E|]. cbn. split_and!; done.
Qed.

Lemma demo_stock_wf : wf demo_stock.
Proof. eapply store_step_wf; [exact demo_stock_step | exact wf_empty]. Qed.
Lemma demo_held_wf : wf demo_held.
Proof. eapply store_step_wf; [exact demo_held_step | exact demo_stock_wf]. Qed.

Lemma reserve_all_or_nothing_witness : exists out d',
  reserve demo_stock "t" demo_request "u1" "u2" 100 = Ok (out, d') /\
  reserved_of d' ("t", "b", "AO-02") = reserved_of demo_stock ("t", "b", "AO-02") + 3.
Proof.
  destruct (reserve_holds_all_or_nothing demo_stock "t" demo_request "u1" "u2" 100) as [_ H].
  - exact demo_stock_wf.
  - exact demo_positive.
  - apply not_elem_of_nil.
  - apply not_elem_of_nil.
  - reflexivity.
  - destruct (H ltac:(vm_compute; reflexivity)) as (out & d' & E & _ & _ & _ & _ & _ & Hr).
    exists out, d'. split; [exact E|]. rewrite Hr. f_equal.
Defined.

(** Retries are safe.  After an accepted hold, the same request sent again
    (with any new ids, at any time) answers with the same reservation, marked as
    not created, and leaves the store unchanged; the same order with another
    branch or other quantities is refused. *)
Theorem reserve_retry_is_idempotent (d : db) (t : string) (req req' : ReserveStockRequest) (u1 u2 : string) (e : Z)
    (out : ReserveResult) (d' : db) :
  wf d -> positive (lines req) ->
  u1 ∉ map rv_id (stock_reservation d) -> u2 ∉ map rv_id (stock_reservation d) ->
  active (findByOrder d t (orderId req)) = None ->
  reserve d t req u1 u2 e = Ok (out, d') -> orderId req' = orderId req ->
  forall u1' u2' e', reserve d' t req' u1' u2' e' =
    if String.eqb (branchId req) (branchId req') && sameLines (lines req) (lines req')
    then Ok ({| created := false; reservation := reservation out |}, d') else mismatch.
Proof.
  intros Hw Hp Hu1 Hu2 Ha H Ho u1' u2' e'. destruct (reserve_new d t req u1 u2 e Hw Hp Hu1 Hu2 Ha) as [S1 S2].
  destruct (shorts d t req) eqn:Es; [|rewrite S1 in H by done; discriminate].
  destruct (S2 eq_refl) as (d2 & row & E & Hw2 & Hf & Hh & Hb & Hit & _). rewrite E in H. injection H as <- <-. cbn [reservation].
  destruct (reserve_cases d2 t req' u1' u2' e' Hw2) as [R1 _]. rewrite (R1 row).
  - rewrite Hb, Hit. unfold sameLines. rewrite mergeLines_idem. done.
  - rewrite Ho, Hf. unfold active. by rewrite (bool_decide_eq_true_2 _ Hh).
Qed.

Lemma reserve_retry_witness :
  reserve demo_held "t" {| orderId := "o1"; branchId := "b"; lines := [line "AO-01" 3; line "AO-02" 3] |} "u3" "u4" 200 =
    Ok ({| created := false; reservation := {| sr_orderId := "o1"; sr_branchId := "b"; sr_status := held; sr_expiresAt := 100;
           sr_lines := [line "AO-01" 3; line "AO-02" 3] |} |}, demo_held).
Proof.
  etransitivity; [eapply (reserve_retry_is_idempotent demo_stock "t" demo_request _ "u1" "u2" 100)|].
  - exact demo_stock_wf.
  - exact demo_positive.
  - apply not_elem_of_nil.
  - apply not_elem_of_nil.
  - reflexivity.
  - vm_compute. reflexivity.
  - reflexivity.
  - vm_compute. reflexivity.
Defined.

(** Giving stock back and selling it never fail on a consistent store.
    Releasing an order returns exactly what its open hold keeps (nothing when it
    has none) and takes nothing off the shelf.  Completing an order takes its
    held lines off hand and off reserved together, so what others can buy is
    unchanged; without a hold it takes of each SKU the smaller of what was sold
    and what is free, never touching what other orders hold; an order already
    committed is left alone. *)
Theorem release_and_commit_always_succeed (d : db) (t o : string) (order : CompletedOrder) :
  wf d -> positive (oc_items order) ->
  (exists d', release d t o = Ok d' /\ wf d' /\ (forall k, on_hand_of d' k = on_hand_of d k) /\
     (forall k, reserved_of d' k = reserved_of d k - hold_of d t o k)) /\
  (exists d', commit d t order = Ok d' /\ wf d' /\
     (forall k, on_hand_of d' k = on_hand_of d k - taken d t order k) /\
     (forall k, reserved_of d' k = reserved_of d k - hold_of d t (oc_orderId order) k) /\
     (forall k, 0 <= taken d t order k)).
Proof.
  intros Hw Hp. split; [by apply release_ok|].
  destruct (commit_ok d t order Hw Hp) as (d' & E & Hw' & H1 & H2). exists d'. split_and!; try done.
  intros k. unfold taken. assert (Hm : forall b, 0 <= Z.min (lines_at t b (oc_items order) k) (free_of d k)).
  { intros b. destruct (free_nonneg d k (wf_check _ Hw)) as [Hf _]. pose proof (lines_at_nonneg t b _ k Hp). lia. }
  destruct (findByOrder d t (oc_orderId order)) as [r|]; [|apply Hm].
  repeat case_bool_decide; [lia | by apply row_qty_nonneg | apply Hm].
Qed.

Lemma release_and_commit_witness : exists d1 d2,
  release demo_held "t" "o1" = Ok d1 /\ reserved_of d1 ("t", "b", "AO-02") = 0 /\
  commit demo_held "t" {| oc_orderId := "o1"; oc_branchId := "b"; oc_items := [] |} = Ok d2 /\
  on_hand_of d2 ("t", "b", "AO-02") = 1.
Proof.
  destruct (release_and_commit_always_succeed demo_held "t" "o1" {| oc_orderId := "o1"; oc_branchId := "b"; oc_items := [] |})
    as [(d1 & E1 & _ & _ & R1) (d2 & E2 & _ & O2 & _)].
  - exact demo_held_wf.
  - intros l Hl. by apply not_elem_of_nil in Hl.
  - exists d1, d2. split; [exact E1|]. split; [rewrite R1; vm_compute; reflexivity|].
    split; [exact E2|]. rewrite O2. vm_compute. reflexivity.
Defined.

(** The shortfall row of the ledger does not carry the balance: when an
    order is completed without its hold and stock is short, the zero-change
    [sale_shortfall] row records the free quantity as its balance, while on
    hand is higher because another order holds the rest. *)
Theorem shortfall_row_understates_balance :
  exists d' row, commit demo_held "t" {| oc_orderId := "o2"; oc_branchId := "b"; oc_items := [line "AO-02" 2] |} = Ok d' /\
    row ∈ inventory_ledger d' /\ lg_ref_type row = "sale_shortfall" /\ lg_sku row = "AO-02" /\ lg_change_qty row = 0 /\
    lg_balance_after row = 1 /\ on_hand_of demo_held ("t", "b", "AO-02") = 4.
Proof.
  eexists _, {| lg_tenant := "t"; lg_branch := "b"; lg_sku := "AO-02"; lg_change_qty := 0; lg_balance_after := 1;
    lg_ref_type := "sale_shortfall"; lg_ref_id := "o2" |}.
  split; [vm_compute; reflexivity|]. cbn [inventory_ledger lg_ref_type lg_sku lg_change_qty lg_balance_after].
  split; [|vm_compute; done]. do 2 right. left.
Qed.

(** ** Expiry *)

Lemma find_by_id now rows r : NoDup (map rv_id rows) -> r ∈ rows -> is_due now r = true ->
  List.find (fun x => String.eqb (rv_id x) (rv_id r) && is_due now x) rows = Some r.
Proof.
  intros Hd Hr Hdue. destruct (row_split rows r Hd Hr) as (l1 & l2 & -> & Hne).
  assert (H1 : forall x, x ∈ l1 -> rv_id x <> rv_id r) by (intros; apply Hne, elem_of_app; auto). clear Hd Hr Hne.
  induction l1 as [|x l1 IH]; cbn; [by rewrite String.eqb_refl, Hdue|].
  rewrite (proj2 (String.eqb_neq _ _)) by (apply H1; left). cbn. apply IH. intros; apply H1; by right.
Qed.

Lemma expire_loop now rs : NoDup (map rv_id rs) -> forall d n, wf d ->
  (forall r, r ∈ rs -> r ∈ stock_reservation d /\ is_due now r = true) ->
  exists d', foldl (expire_step now) (d, n) (map rv_id rs) = (d', n + Z.of_nat (length rs)) /\ wf d' /\
    (forall x, x ∈ stock_reservation d' -> is_due now x = true -> x ∈ stock_reservation d /\ rv_id x ∉ map rv_id rs) /\
    (forall k, on_hand_of d' k = on_hand_of d k) /\
    (forall k, reserved_of d' k = reserved_of d k - total (row_qty d k) rs).
Proof.
  induction rs as [|r rs IH]; intros Hnd d n Hw Hrs; cbn [map foldl length].
  - exists d. rewrite Z.add_0_r. split_and!; try done; [intros x Hx _; split; [done | apply not_elem_of_nil]|].
    intros k. unfold total. cbn. lia.
  - cbn [map] in Hnd. apply NoDup_cons in Hnd as [Hn Hnd]. destruct (Hrs r ltac:(left)) as [Hr Hdue].
    pose proof Hdue as Hh. unfold is_due in Hh. apply andb_true_iff in Hh as [Hh%bool_decide_eq_true _].
    destruct (giveBack_ok d r expired Hw Hr Hh) as (d1 & E & Hw1 & Hrows & Hon & Hre & Hit); [done|].
    assert (Hstep : expire_step now (d, n) (rv_id r) = (d1, n + 1)).
    { unfold expire_step, expire_one. cbn [fst snd]. by rewrite (find_by_id now _ r (wf_ids _ Hw) Hr Hdue), E. }
    assert (Hkeep : forall x, x ∈ stock_reservation d -> rv_id x <> rv_id r -> x ∈ stock_reservation d1).
    { intros x Hx Hne. rewrite Hrows. apply list_elem_of_fmap. exists x. by rewrite (proj2 (String.eqb_neq _ _)). }
    destruct (IH Hnd d1 (n + 1) Hw1) as (d' & Ef & Hw' & Hdone & Hon' & Hre').
    { intros x Hx. destruct (Hrs x ltac:(by right)) as [Hx1 Hx2]. split; [|done]. apply Hkeep; [done|].
      intros Eid. apply Hn. rewrite <- Eid. by apply list_elem_of_fmap_2. }
    exists d'. rewrite Hstep, Ef. split; [f_equal; lia|]. split; [done|]. split.
    { intros x Hx Hd. destruct (Hdone x Hx Hd) as [Hx1 Hx2]. rewrite Hrows in Hx1.
      apply list_elem_of_fmap in Hx1 as (y & -> & Hy). destruct (String.eqb_spec (rv_id y) (rv_id r)) as [Eid|Eid]; [discriminate|].
      split; [done|]. apply not_elem_of_cons. done. }
    split; [intros k; by rewrite Hon', Hon|].
    intros k. rewrite Hre', Hre. unfold total. cbn [map sumZ].
    rewrite (sumZ_map_ext (row_qty d1 k) (row_qty d k)); [lia|]. intros x _. unfold row_qty, items. by rewrite Hit.
Qed.

(** The expiry job gives everything back.  When its limit covers the holds
    that are due, one run expires every one of them (none fails), reports their
    number, leaves no due hold behind, takes nothing off hand and lowers the
    reserved quantities by exactly what those holds kept. *)
Theorem expiry_returns_all_due_holds (d : db) (now : Z) (limit : nat) :
  let due := List.filter (is_due now) (stock_reservation d) in
  wf d -> (length due <= limit)%nat ->
  exists d', expireDue d now limit = (d', Z.of_nat (length due)) /\ wf d' /\
    List.filter (is_due now) (stock_reservation d') = [] /\
    (forall k, on_hand_of d' k = on_hand_of d k) /\
    (forall k, reserved_of d' k = reserved_of d k - total (row_qty d k) due).
Proof.
  intros due Hw Hlim. unfold expireDue, due_ids. fold due.
  set (rs := sort_by _ due). assert (Hp : rs ≡ₚ due) by apply sort_by_perm.
  rewrite take_ge by (rewrite length_map, Hp; done).
  assert (Hsub : forall r, r ∈ rs <-> r ∈ stock_reservation d /\ is_due now r = true).
  { intros r. rewrite Hp. unfold due. rewrite !list_elem_of_In. apply List.filter_In. }
  destruct (expire_loop now rs) with (d := d) (n := 0) as (d' & E & Hw' & Hdone & Hon & Hre).
  - rewrite Hp. unfold due. pose proof (wf_ids _ Hw) as Hd. clear - Hd.
    induction (stock_reservation d) as [|x l IH]; cbn in *; [done|]. apply NoDup_cons in Hd as [Hn Hd].
    destruct (is_due now x); cbn; [|auto]. constructor; [|auto].
    intros (y & Ey & [Hy _]%list_elem_of_In%List.filter_In)%list_elem_of_fmap. apply Hn. rewrite Ey.
    by apply list_elem_of_fmap_2, list_elem_of_In.
  - done.
  - intros r Hr. by apply Hsub.
  - exists d'. rewrite E, Hp. split; [done|]. split; [done|]. split; [|split; [done|]].
    + destruct (List.filter (is_due now) (stock_reservation d')) as [|x l] eqn:Ef; [done|]. exfalso.
      assert (Hx : In x (List.filter (is_due now) (stock_reservation d'))) by (rewrite Ef; by left).
      apply List.filter_In in Hx as [Hx%list_elem_of_In Hd]. destruct (Hdone x Hx Hd) as [H1 H2]. apply H2.
      apply list_elem_of_fmap_2. by apply Hsub.
    + intros k. rewrite Hre. f_equal. apply sumZ_perm. by rewrite Hp.
Qed.

Lemma expiry_witness : exists d', expireDue demo_held 101 50 = (d', 1) /\ reserved_of d' ("t", "b", "AO-02") = 0.
Proof.
  destruct (expiry_returns_all_due_holds demo_held 101 50 demo_held_wf ltac:(vm_compute; lia)) as (d' & E & _ & _ & _ & Hr).
  exists d'. split; [exact E|]. rewrite Hr. vm_compute. reflexivity.
Defined.
