(* ===== verification/HoldService.v ===== *)
(** * The stock-hold service that sales relies on

    Sales holds stock before it sells, gives it back when the sale fails, and
    the completed order turns the hold into a deduction.  [HoldOps] and
    [HoldLaws] state what the store promises to such a client: which hold an
    order has ([h_hold]) and how much of an SKU an order has taken off the shelf
    ([h_sold]), and how each call changes them.  The theorems of the counter
    sale are proved against this interface; the instance at the end discharges
    it for the branch stock store of [Reservations]. *)

From S2P Require Import Prelude Reservations.

Open Scope Z_scope.

(** A hold as a client sees it: status, branch and lines. *)
Definition hold : Type := ReservationStatus * string * list StockLine.

Class HoldOps (St : Type) := {
  h_reserve : St -> string -> ReserveStockRequest -> string -> string -> Z -> res (ReserveResult * St);
  h_release : St -> string -> string -> res St;
  h_commit : St -> string -> CompletedOrder -> res St;
  h_env : St -> St -> Prop;
  h_ok : St -> Prop;
  h_hold : St -> string -> string -> option hold;
  h_sold : St -> string -> string -> string -> Z }.



(** Closing a held hold; any other status stays. *)
Definition close_as (s : ReservationStatus) (h : hold) : hold :=
  if bool_decide (h.1.1 = held) then (s, h.1.2, h.2) else h.

Definition committed_as (h : hold) : hold := (committed, h.1.2, h.2).

Definition is_committed (h : option hold) : bool :=
  match h with Some h => bool_decide (h.1.1 = committed) | None => false end.

Class HoldLaws (St : Type) `{HoldOps St} := {
  reserve_law s t req u1 u2 e out s' :
    h_ok s -> positive (lines req) -> h_reserve s t req u1 u2 e = Ok (out, s') ->
    h_ok s' /\ (forall t' o', (t', o') <> (t, orderId req) -> h_hold s' t' o' = h_hold s t' o') /\
    (forall t' o' k, h_sold s' t' o' k = h_sold s t' o' k) /\
    exists h, h_hold s' t (orderId req) = Some h /\ h.1.2 = branchId req /\
      (forall k, lines_qty k h.2 = lines_qty k (lines req)) /\
      (h.1.1 = held \/ h.1.1 = committed) /\ is_committed (h_hold s t (orderId req)) = bool_decide (h.1.1 = committed) /\
      (h.1.1 = committed -> h_hold s t (orderId req) = Some h);
  release_law s t o : h_ok s ->
    exists s', h_release s t o = Ok s' /\ h_ok s' /\ h_hold s' t o = close_as released <$> h_hold s t o /\
      (forall t' o', (t', o') <> (t, o) -> h_hold s' t' o' = h_hold s t' o') /\
      (forall t' o' k, h_sold s' t' o' k = h_sold s t' o' k);
  commit_law s t order : h_ok s -> positive (oc_items order) ->
    exists s', h_commit s t order = Ok s' /\ h_ok s' /\
      h_hold s' t (oc_orderId order) = committed_as <$> h_hold s t (oc_orderId order) /\
      (forall t' o', (t', o') <> (t, oc_orderId order) -> h_hold s' t' o' = h_hold s t' o') /\
      (forall t' o' k, (t', o') <> (t, oc_orderId order) -> h_sold s' t' o' k = h_sold s t' o' k) /\
      forall k, let d := h_sold s' t (oc_orderId order) k - h_sold s t (oc_orderId order) k in
        match h_hold s t (oc_orderId order) with
        | Some (committed, _, _) => d = 0
        | Some (held, _, ls) => d = lines_qty k ls
        | _ => 0 <= d <= lines_qty k (oc_items order)
        end;
  env_law s s' : h_env s s' -> h_ok s ->
    h_ok s' /\ (forall t o, h_hold s' t o = h_hold s t o \/ h_hold s' t o = close_as expired <$> h_hold s t o) /\
    (forall t o k, h_sold s' t o k = h_sold s t o k) }.

(** ** The branch stock store as a hold service *)

Definition hold_of_order (d : db) (t o : string) : option hold :=
  (fun r => (rv_status r, rv_branch_id r, itemsOf d (rv_id r))) <$> findByOrder d t o.

(** What the sale rows of the ledger took of an SKU for an order. *)
Definition sale_row (t o s : string) (g : LedgerRow) : Z :=
  if bool_decide ((lg_tenant g, lg_ref_id g, lg_sku g, lg_ref_type g) = (t, o, s, "sale")) then - lg_change_qty g else 0.
Definition sold_of (d : db) (t o s : string) : Z := total (sale_row t o s) (inventory_ledger d).

Inductive store_env : db -> db -> Prop :=
| env_expire d now limit : store_env d (expireDue d now limit).1
| env_receive d t b st its rc d' out : receive d t b st its rc = Ok (d', out) -> store_env d d'.

#[export] Instance store_ops : HoldOps db := {
  h_reserve := reserve; h_release := release; h_commit := commit; h_env := store_env; h_ok := wf;
  h_hold := hold_of_order; h_sold := sold_of }.

(** *** Steps that keep the reservation tables or the ledger *)

Definition same_tables (d d' : db) : Prop :=
  stock_reservation d' = stock_reservation d /\ stock_reservation_item d' = stock_reservation_item d.

Lemma same_tables_hold d d' t o : same_tables d d' -> hold_of_order d' t o = hold_of_order d t o.
Proof. intros [H1 H2]. unfold hold_of_order, findByOrder, itemsOf. by rewrite H1, H2. Qed.

Lemma same_ledger_sold d d' t o s : inventory_ledger d' = inventory_ledger d -> sold_of d' t o s = sold_of d t o s.
Proof. unfold sold_of. by intros ->. Qed.

Lemma update_item_frame d k x y i d' : update_item d k x y = Ok (i, d') ->
  same_tables d d' /\ inventory_ledger d' = inventory_ledger d.
Proof. unfold update_item. destruct (stock_item d !! k); intros H; run_ok H; done. Qed.

Lemma sold_snoc d k q a ty o t' o' s : sold_of (ledger d k q a ty o) t' o' s =
  sold_of d t' o' s + (if bool_decide ((k.1.1, o, k.2, ty) = (t', o', s, "sale")) then - q else 0).
Proof. unfold sold_of. cbn [inventory_ledger ledger]. rewrite total_snoc. done. Qed.

Lemma deduct_sold d k q r o d' : deduct d k q r o = Ok d' ->
  same_tables d d' /\ forall t' o' s, sold_of d' t' o' s =
    sold_of d t' o' s + (if bool_decide ((k.1.1, o, k.2) = (t', o', s)) then q else 0).
Proof.
  unfold deduct. intros H. inv_ok. destruct a as [[i|] d1]; inv_ok. apply update_item_frame in Ha as [Ht Hl].
  split; [exact Ht|]. intros t' o' s. rewrite sold_snoc, (same_ledger_sold _ _ _ _ _ Hl).
  repeat case_bool_decide; simplify_eq; lia || congruence.
Qed.

Lemma commit_step_sold t b o h d l d' : 0 < quantity l -> commit_step t b o h d l = Ok d' ->
  same_tables d d' /\ exists q, 0 <= q <= quantity l /\ (h = true -> q = quantity l) /\
    forall t' o' s, sold_of d' t' o' s = sold_of d t' o' s + (if bool_decide ((t, o, sku l) = (t', o', s)) then q else 0).
Proof.
  intros Hp. unfold commit_step. destruct h.
  - intros [Ht Hs]%deduct_sold. split; [done|]. exists (quantity l). split; [lia|]. done.
  - set (take := Z.min _ _). cbv zeta. set (d1 := if take <? quantity l then _ else d). intros H.
    assert (H1 : same_tables d d1 /\ forall t' o' s, sold_of d1 t' o' s = sold_of d t' o' s).
    { unfold d1. destruct (take <? quantity l); [|done]. split; [done|]. intros t' o' s. rewrite sold_snoc.
      rewrite bool_decide_eq_false_2 by (by intros [=]). lia. }
    clearbody d1. destruct H1 as [[T1 T2] S1]. destruct (Z.eqb_spec take 0).
    + inv_ok. split; [done|]. exists 0. split; [lia|]. split; [done|]. intros. rewrite S1. case_bool_decide; lia.
    + apply deduct_sold in H as [[U1 U2] S2]. split; [split; congruence|]. exists take. split; [lia|]. split; [done|].
      intros. by rewrite S2, S1.
Qed.

Lemma commit_loop_sold t b o h ls : positive ls -> forall d d', foldM (commit_step t b o h) d ls = Ok d' ->
  same_tables d d' /\
  (forall t' o' s, (t', o') <> (t, o) -> sold_of d' t' o' s = sold_of d t' o' s) /\
  forall s, 0 <= sold_of d' t o s - sold_of d t o s <= lines_qty s ls /\
    (h = true -> sold_of d' t o s - sold_of d t o s = lines_qty s ls).
Proof.
  intros Hp d d' H. revert Hp. pattern ls, d'. revert H. apply foldM_ind.
  - clear. intros ls l d1 d2 IH H Hp.
    assert (Hp' : positive ls) by (intros x Hx; apply Hp, elem_of_app; by left).
    specialize (Hp l ltac:(apply elem_of_app; right; left)). destruct (IH Hp') as ([T1 T2] & I1 & I2).
    apply commit_step_sold in H as ([U1 U2] & q & Hq & Hh & Hs); [|done]. split; [split; congruence|]. split.
    + intros t' o' s Hne. rewrite Hs, I1 by done. rewrite bool_decide_eq_false_2 by congruence. lia.
    + intros s. rewrite Hs, lines_qty_app, lines_qty_cons. change (lines_qty s []) with 0. specialize (I2 s).
      destruct (String.eqb_spec (sku l) s) as [E|E];
        [rewrite bool_decide_eq_true_2 by congruence | rewrite bool_decide_eq_false_2 by congruence];
        (split; [lia | intros E2; specialize (Hh E2); destruct I2 as [_ I2]; specialize (I2 E2); lia]).
  - intros _. split; [done|]. split; [done|]. intros s. change (lines_qty s []) with 0. lia.
Qed.

(** *** Finding an order's row after a change of the reservation table *)

Definition with_status (s : ReservationStatus) (r : ReservationRow) : ReservationRow :=
  {| rv_id := rv_id r; rv_tenant := rv_tenant r; rv_order_id := rv_order_id r; rv_branch_id := rv_branch_id r;
     rv_status := s; rv_expires_at := rv_expires_at r |}.

Lemma find_map {A} (p : A -> bool) (f : A -> A) l : (forall x, p (f x) = p x) ->
  List.find p (map f l) = f <$> List.find p l.
Proof. intros H. induction l as [|x l IH]; cbn; [done|]. rewrite H. by destruct (p x). Qed.

Lemma find_filter {A} (p q : A -> bool) l : (forall x, x ∈ l -> p x = true -> q x = true) ->
  List.find p (List.filter q l) = List.find p l.
Proof.
  induction l as [|x l IH]; intros H; cbn; [done|]. destruct (p x) eqn:E.
  - rewrite (H x) by (left || done). cbn. by rewrite E.
  - destruct (q x); cbn; rewrite ?E; apply IH; intros; apply H; (by right) || done.
Qed.

Lemma find_app_other {A} (p : A -> bool) l x : p x = false -> List.find p (l ++ [x]) = List.find p l.
Proof. intros H. induction l as [|y l IH]; cbn; [by rewrite H|]. by destruct (p y). Qed.

Lemma of_order_true t o r : of_order t o r = true <-> rv_tenant r = t /\ rv_order_id r = o.
Proof. unfold of_order. by rewrite andb_true_iff, !String.eqb_eq. Qed.

Lemma id_inj d r r' : wf d -> r ∈ stock_reservation d -> r' ∈ stock_reservation d -> rv_id r = rv_id r' -> r = r'.
Proof. intros Hw. by apply NoDup_map_inj, wf_ids. Qed.

(** The row of an order is unique. *)
Lemma find_own d r : wf d -> r ∈ stock_reservation d -> findByOrder d (rv_tenant r) (rv_order_id r) = Some r.
Proof.
  intros Hw Hr. destruct (findByOrder d (rv_tenant r) (rv_order_id r)) as [x|] eqn:Ef; [|by destruct (find_row_None _ _ _ r Ef)].
  pose proof (find_row _ _ _ _ Ef) as (Hx & E1 & E2). f_equal. eapply NoDup_map_inj; [by apply wf_orders | done..|].
  cbn. congruence.
Qed.

(** Closing a row changes the hold of its own order only. *)
Lemma hold_set_status d d1 r s t o : wf d -> r ∈ stock_reservation d -> same_tables d d1 ->
  hold_of_order (set_status d1 (rv_id r) s) t o =
    if bool_decide ((t, o) = (rv_tenant r, rv_order_id r)) then Some (s, rv_branch_id r, itemsOf d (rv_id r))
    else hold_of_order d t o.
Proof.
  intros Hw Hr [H1 H2]. unfold hold_of_order, findByOrder at 1. cbn [stock_reservation set_status with_reservations]. rewrite H1.
  rewrite (find_map _ (fun x => if String.eqb (rv_id x) (rv_id r) then with_status s x else x))
    by (intros x; by destruct (String.eqb _ _)).
  change (List.find (of_order t o) (stock_reservation d)) with (findByOrder d t o).
  assert (Hi : forall x, itemsOf (set_status d1 (rv_id r) s) x = itemsOf d x) by (intros x; unfold itemsOf; cbn; by rewrite H2).
  case_bool_decide as E.
  - injection E as -> ->. rewrite find_own by done. cbn. rewrite String.eqb_refl. cbn. by rewrite Hi.
  - destruct (findByOrder d t o) as [x|] eqn:Ef; [|done]. pose proof (find_row _ _ _ _ Ef) as (Hx & <- & <-). cbn.
    destruct (String.eqb_spec (rv_id x) (rv_id r)) as [E2|_]; [|by rewrite Hi].
    exfalso. apply E. by rewrite (id_inj _ _ _ Hw Hx Hr E2).
Qed.

(** *** reserve *)

Lemma hold_loop_frame t b ls d sh d' sh' : foldM (hold_step t b) (d, sh) ls = Ok (d', sh') ->
  same_tables d d' /\ inventory_ledger d' = inventory_ledger d.
Proof.
  intros H. apply (foldM_inv (fun s => same_tables d s.1 /\ inventory_ledger s.1 = inventory_ledger d)) in H; [done| |done].
  clear. intros [d1 s1] l [d2 s2] _ [[T1 T2] L] E. cbn in *. unfold hold_step in E. case_if_in E; inv_ok; [|done].
  destruct a as [i d3]. cbn in E. inv_ok. apply update_item_frame in Ha as [[U1 U2] U3]. repeat split; congruence.
Qed.

Lemma hold_lines_frame d t req rid out d' : hold_lines d t req rid = Ok (out, d') ->
  stock_reservation d' = stock_reservation d /\ inventory_ledger d' = inventory_ledger d /\
  forall x, x <> rid -> itemsOf d' x = itemsOf d x.
Proof.
  unfold hold_lines. intros H. inv_ok. destruct a as [d1 [|? ?]]; [|discriminate]. apply hold_loop_frame in Ha as [[T1 T2] L].
  destruct (findByOrder _ _ _); inv_ok. destruct (insert_items rid (mergeLines (lines req)) d1) as (I1 & I2 & I3 & I4 & I5).
  cbv zeta in *. split_and!; [congruence..|]. intros x Hx. unfold itemsOf.
  change (default [] (stock_reservation_item ?d !! x)) with (items d x). rewrite I4, bool_decide_eq_false_2 by done.
  unfold items. by rewrite T2.
Qed.

Lemma cleared_other d t o t' o' : wf d -> (t', o') <> (t, o) -> hold_of_order (cleared d t o) t' o' = hold_of_order d t' o'.
Proof.
  intros Hw Hne. unfold cleared. destruct (findByOrder d t o) as [r|] eqn:Ef; [|done].
  pose proof (find_row _ _ _ _ Ef) as (Hr & <- & <-). unfold hold_of_order. unfold findByOrder at 1.
  cbn [stock_reservation delete_reservation]. rewrite find_filter.
  - change (List.find (of_order t' o') (stock_reservation d)) with (findByOrder d t' o').
    destruct (findByOrder d t' o') as [x|] eqn:Ex; [|done]. pose proof (find_row _ _ _ _ Ex) as (Hx & <- & <-). cbn.
    f_equal. f_equal. unfold itemsOf. cbn. rewrite lookup_delete_ne; [done|]. intros E. apply Hne.
    by rewrite (id_inj _ _ _ Hw Hx Hr (eq_sym E)).
  - intros x Hx [<- <-]%of_order_true. apply negb_true_iff, String.eqb_neq. intros E. apply Hne.
    by rewrite (id_inj _ _ _ Hw Hx Hr E).
Qed.

Lemma hold_snoc_other d row t o : (t, o) <> (rv_tenant row, rv_order_id row) ->
  findByOrder (with_reservations d (stock_reservation d ++ [row])) t o = findByOrder d t o.
Proof.
  intros Hne. unfold findByOrder. cbn. apply find_app_other. apply not_true_iff_false. rewrite of_order_true.
  intros [<- <-]. done.
Qed.

Lemma active_committed d t o : active (findByOrder d t o) = None -> is_committed (hold_of_order d t o) = false.
Proof.
  unfold hold_of_order, active, is_committed. destruct (findByOrder d t o) as [r|]; [|done]. cbn.
  destruct (bool_decide (rv_status r = held)); [done|]. cbn. by case_bool_decide.
Qed.

Lemma reserve_hold d t req u1 u2 e out d' : wf d -> positive (lines req) -> reserve d t req u1 u2 e = Ok (out, d') ->
  (forall t' o', (t', o') <> (t, orderId req) -> hold_of_order d' t' o' = hold_of_order d t' o') /\
  inventory_ledger d' = inventory_ledger d /\
  exists h, hold_of_order d' t (orderId req) = Some h /\ h.1.2 = branchId req /\
    (forall k, lines_qty k h.2 = lines_qty k (lines req)) /\
    (h.1.1 = held \/ h.1.1 = committed) /\ is_committed (hold_of_order d t (orderId req)) = bool_decide (h.1.1 = committed) /\
    (h.1.1 = committed -> hold_of_order d t (orderId req) = Some h).
Proof.
  intros Hw Hp H. destruct (reserve_cases d t req u1 u2 e Hw) as [H1 H2].
  destruct (active (findByOrder d t (orderId req))) as [r|] eqn:Ea.
  - rewrite (H1 r eq_refl) in H. case_if_in H; [|discriminate]. inv_ok. bool_prop. split; [done|]. split; [done|].
    exists (rv_status r, rv_branch_id r, itemsOf d' (rv_id r)).
    assert (Ef : findByOrder d' t (orderId req) = Some r /\ (rv_status r = held \/ rv_status r = committed)).
    { clear - Ea. unfold active in Ea. destruct (findByOrder _ _ _); [|done]. case_if_in Ea; simplify_eq. split; [done|].
      bool_prop; auto. }
    destruct Ef as [Ef Hs]. unfold hold_of_order. rewrite Ef. cbn. split_and!; try done; [by apply String.eqb_eq|].
    intros k. match goal with H : sameLines _ _ = true |- _ => apply bool_decide_eq_true in H;
      by rewrite <- (mergeLines_qty k (itemsOf _ _)), H, mergeLines_qty end.
  - rewrite (H2 eq_refl) in H. cbv zeta in H. set (rid := match findByOrder _ _ _ with Some _ => u2 | None => u1 end) in *.
    destruct (cleared_wf d t (orderId req) Hw Ea) as (Hw0 & Hf0 & _). case_if_in H; [discriminate|]. apply existsb_id in E.
    destruct (hold_lines_spec _ t rid e req Hw0 Hf0 E Hp) as [S1 S2].
    destruct (shorts (cleared d t (orderId req)) t req) eqn:Es; [|rewrite S1 in H by done; discriminate].
    destruct (S2 eq_refl) as (d2 & Eh & Hw2 & Hfind & Hit & _). rewrite Eh in H. inv_ok.
    apply hold_lines_frame in Eh as (F1 & F2 & F3). split_and!.
    + intros t' o' Hne. rewrite <- (cleared_other d t (orderId req) t' o' Hw Hne). unfold hold_of_order.
      assert (Ef : findByOrder d' t' o' = findByOrder (cleared d t (orderId req)) t' o').
      { unfold findByOrder. rewrite F1. apply hold_snoc_other. exact Hne. }
      rewrite Ef. destruct (findByOrder (cleared d t (orderId req)) t' o') as [x|] eqn:Ex; [|done]. cbn. rewrite F3; [done|].
      intros <-. apply E. apply list_elem_of_fmap_2. by apply find_row in Ex as (? & _).
    + rewrite F2. cbn. unfold cleared. by destruct (findByOrder d t (orderId req)).
    + eexists. unfold hold_of_order at 1. rewrite Hfind. cbn [fmap option_fmap option_map rv_status rv_branch_id rv_id].
      rewrite Hit. split; [done|]. cbn. split_and!; try done; [intros k; apply mergeLines_qty | by left |].
      by rewrite (active_committed d t (orderId req) Ea).
Qed.

(** *** release, expiry, receipts and commit *)

Lemma giveBack_frame d t r s d' : giveBack d t r s = Ok d' ->
  exists d1, d' = set_status d1 (rv_id r) s /\ same_tables d d1 /\ inventory_ledger d1 = inventory_ledger d.
Proof.
  unfold giveBack. intros H. inv_ok. exists a. split; [done|].
  apply (foldM_inv (fun x => same_tables d x /\ inventory_ledger x = inventory_ledger d)) in Ha; [done| |done].
  clear. intros d1 l d2 _ [[T1 T2] L] E. unfold give_step in E. inv_ok. destruct a as [i d3]. inv_ok.
  apply update_item_frame in Ha as [[U1 U2] U3]. repeat split; congruence.
Qed.

(** Giving back the hold of a row that is held. *)
Lemma giveBack_hold d r s d' : wf d -> r ∈ stock_reservation d -> rv_status r = held -> giveBack d (rv_tenant r) r s = Ok d' ->
  (forall t o, hold_of_order d' t o =
     if bool_decide ((t, o) = (rv_tenant r, rv_order_id r)) then close_as s <$> hold_of_order d t o else hold_of_order d t o) /\
  inventory_ledger d' = inventory_ledger d.
Proof.
  intros Hw Hr Hh (d1 & -> & Ht & Hl)%giveBack_frame. split; [|exact Hl]. intros t o.
  rewrite (hold_set_status d d1 r s t o Hw Hr Ht). case_bool_decide as E; [|done]. injection E as -> ->.
  unfold hold_of_order. rewrite find_own by done. cbn. unfold close_as. cbn. by rewrite bool_decide_eq_true_2.
Qed.

Lemma hold_None d t o : findByOrder d t o = None -> hold_of_order d t o = None.
Proof. unfold hold_of_order. by intros ->. Qed.

Lemma release_hold d t o : wf d -> exists d', release d t o = Ok d' /\ wf d' /\
  hold_of_order d' t o = close_as released <$> hold_of_order d t o /\
  (forall t' o', (t', o') <> (t, o) -> hold_of_order d' t' o' = hold_of_order d t' o') /\
  inventory_ledger d' = inventory_ledger d.
Proof.
  intros Hw. destruct (release_ok d t o Hw) as (d' & E & Hw' & _). exists d'. split; [done|]. split; [done|].
  unfold release in E. destruct (findByOrder d t o) as [r|] eqn:Ef; [|inv_ok; by rewrite hold_None].
  pose proof (find_row _ _ _ _ Ef) as (Hr & <- & <-). case_bool_decide as Hh.
  - apply giveBack_hold in E as [H1 H2]; [|done..]. split; [by rewrite H1, bool_decide_eq_true_2|]. split; [|done].
    intros t' o' Hne. by rewrite H1, bool_decide_eq_false_2.
  - inv_ok. split; [|done]. unfold hold_of_order. rewrite Ef. cbn. unfold close_as. cbn. by rewrite bool_decide_eq_false_2.
Qed.

Definition may_close (s : ReservationStatus) (d d' : db) : Prop :=
  forall t o, hold_of_order d' t o = hold_of_order d t o \/ hold_of_order d' t o = close_as s <$> hold_of_order d t o.

Lemma close_as_idem s (h : option hold) : s <> held -> close_as s <$> (close_as s <$> h) = close_as s <$> h.
Proof.
  intros Hs. destruct h as [[[st b] ls]|]; [|done]. cbn. f_equal. unfold close_as. cbn.
  destruct (decide (st = held)) as [->|E].
  - by rewrite (bool_decide_eq_false_2 (s = held)).
  - rewrite (bool_decide_eq_false_2 (st = held)) by done. cbn. by rewrite (bool_decide_eq_false_2 (st = held)).
Qed.

Lemma may_close_trans s d1 d2 d3 : s <> held -> may_close s d1 d2 -> may_close s d2 d3 -> may_close s d1 d3.
Proof.
  intros Hs H1 H2 t o. destruct (H2 t o) as [-> | ->], (H1 t o) as [-> | ->]; auto. right. by apply close_as_idem.
Qed.

Lemma expire_hold now ids : forall s, wf s.1 ->
  may_close expired s.1 (foldl (expire_step now) s ids).1 /\
  inventory_ledger (foldl (expire_step now) s ids).1 = inventory_ledger s.1.
Proof.
  induction ids as [|rid ids IH]; intros [d n] Hw; cbn [foldl]; [split; [by left | done]|].
  assert (Hs : wf (expire_step now (d, n) rid).1 /\ may_close expired d (expire_step now (d, n) rid).1 /\
    inventory_ledger (expire_step now (d, n) rid).1 = inventory_ledger d).
  { split; [apply (expire_loop_wf now [rid] (d, n) Hw)|]. unfold expire_step. cbn [fst snd].
    destruct (expire_one now d rid) as [[[] d']|] eqn:E; cbn; try (split; [by left | done]); unfold expire_one in E;
      (destruct (List.find _ _) as [r|] eqn:Ef; inv_ok); try (split; [by left | done]).
    apply List.find_some in Ef as [Hr%list_elem_of_In He]. unfold is_due in He.
    apply andb_true_iff in He as [_ [Hh%bool_decide_eq_true _]%andb_true_iff].
    apply giveBack_hold in Ha as [H1 H2]; [|done..]. split; [|done]. intros t o. rewrite H1. case_bool_decide; auto. }
  destruct Hs as (Hw' & H1 & H2). destruct (IH _ Hw') as [I1 I2]. cbn [fst]. split; [by eapply may_close_trans|]. congruence.
Qed.

Lemma receive_frame d t b st its rc d' out : receive d t b st its rc = Ok (d', out) ->
  same_tables d d' /\ forall t' o' s, sold_of d' t' o' s = sold_of d t' o' s.
Proof.
  unfold receive. intros H. case_if_in H; [discriminate|].
  apply (foldM_inv (fun s => same_tables d s.1 /\ forall t' o' k, sold_of s.1 t' o' k = sold_of d t' o' k)) in H; [done| |done].
  clear. intros [d1 o1] l [d2 o2] _ [[T1 T2] S] E. unfold receive_step in E. case_if_in E; [|discriminate]. inv_ok.
  cbn [fst] in *. split; [done|]. intros t' o' k. rewrite sold_snoc, bool_decide_eq_false_2 by (by intros [=]).
  rewrite Z.add_0_r. apply S.
Qed.

Lemma commit_hold d t order : wf d -> positive (oc_items order) ->
  exists d', commit d t order = Ok d' /\ wf d' /\
    hold_of_order d' t (oc_orderId order) = committed_as <$> hold_of_order d t (oc_orderId order) /\
    (forall t' o', (t', o') <> (t, oc_orderId order) -> hold_of_order d' t' o' = hold_of_order d t' o') /\
    (forall t' o' k, (t', o') <> (t, oc_orderId order) -> sold_of d' t' o' k = sold_of d t' o' k) /\
    forall k, let x := sold_of d' t (oc_orderId order) k - sold_of d t (oc_orderId order) k in
      match hold_of_order d t (oc_orderId order) with
      | Some (committed, _, _) => x = 0
      | Some (held, _, ls) => x = lines_qty k ls
      | _ => 0 <= x <= lines_qty k (oc_items order)
      end.
Proof.
  intros Hw Hp. destruct (commit_ok d t order Hw Hp) as (d' & E & Hw' & _). exists d'. split; [done|]. split; [done|].
  unfold commit in E. set (o := oc_orderId order) in *. unfold hold_of_order at 2 5.
  destruct (findByOrder d t o) as [r|] eqn:Ef; cbn [fmap option_fmap option_map].
  - assert (Hr : r ∈ stock_reservation d /\ (t, o) = (rv_tenant r, rv_order_id r)).
    { pose proof (find_row _ _ _ _ Ef) as (? & ? & ?). split; [done | congruence]. }
    destruct Hr as [Hr Eto]. destruct (decide (rv_status r = committed)) as [Hc|Hc].
    { rewrite bool_decide_eq_true_2 in E by done. inv_ok. rewrite Hc. split_and!; try done; [|intros; lia].
      unfold hold_of_order. rewrite Ef. cbn. unfold committed_as. cbn. by rewrite Hc. }
    rewrite bool_decide_eq_false_2 in E by done. inv_ok.
    set (ls := if bool_decide (rv_status r = held) then _ else _) in *.
    assert (Hls : positive ls) by (unfold ls; destruct (bool_decide _); [by apply itemsOf_positive | by apply mergeLines_positive]).
    apply commit_loop_sold in Ha as (Ht & S1 & S2); [|done]. split_and!.
    + rewrite (hold_set_status d a r committed t o Hw Hr Ht). by rewrite bool_decide_eq_true_2 by congruence.
    + intros t' o' Hne. rewrite (hold_set_status d a r committed t' o' Hw Hr Ht). by rewrite bool_decide_eq_false_2 by congruence.
    + exact S1.
    + intros k. specialize (S2 k). unfold ls in S2. change (sold_of (set_status ?x _ _)) with (sold_of x).
      cbv zeta. destruct (rv_status r); [apply S2; done | done | |];
        rewrite bool_decide_eq_false_2 in S2 by done; rewrite mergeLines_qty in S2; apply S2.
  - inv_ok. apply commit_loop_sold in Ha as (Ht & S1 & S2); [|by apply mergeLines_positive]. split_and!.
    + rewrite (same_tables_hold d d' t o Ht). by apply hold_None.
    + intros t' o' _. by apply same_tables_hold.
    + exact S1.
    + intros k. specialize (S2 k). rewrite mergeLines_qty in S2. apply S2.
Qed.

#[export] Instance store_laws : HoldLaws db.
Proof.
  split; cbn.
  - intros d t req u1 u2 e out d' Hw Hp H. split; [by eapply reserve_wf|].
    destruct (reserve_hold d t req u1 u2 e out d' Hw Hp H) as (H1 & H2 & H3). split; [done|]. split; [|done].
    intros. by apply same_ledger_sold.
  - intros d t o Hw. destruct (release_hold d t o Hw) as (d' & ? & ? & ? & ? & ?). exists d'. split_and!; try done.
    intros. by apply same_ledger_sold.
  - intros d t order Hw Hp. by apply commit_hold.
  - intros d d' [d0 now limit | d0 t b st its rc d1 out H] Hw.
    + destruct (expire_hold now (due_ids d0 now limit) (d0, 0) Hw) as [H1 H2]. split_and!; [by apply expire_loop_wf | exact H1 |].
      intros. by apply same_ledger_sold.
    + split; [by eapply store_step_wf; [econstructor|]|]. apply receive_frame in H as [H1 H2]. split; [|done].
      intros t' o'. left. by apply same_tables_hold.
Qed.
