(* ===== verification/CounterSale.v ===== *)
(** * The counter sale: sales and inventory together

    [OrdersService.create] of apps/sales/src/orders/orders.service.ts sells at
    the counter: it holds the stock in inventory, writes the order, its lines and
    the [sales.order.completed] event in one transaction, and gives the hold back
    when that fails; the event consumer of inventory turns the hold into a
    deduction.  The method is cut where other requests can run in between: the
    lookup, the call to inventory, the transaction, the lookups of the error path
    and the release.  Every segment is a function; [sys_step] interleaves any
    number of requests with event deliveries (at least once, in any order),
    expiries and receipts, and lets calls lose their request or their answer and
    transactions abort or lose their connection after the commit.  A request that
    crashes is one that takes no further step.

    Inventory is any hold service ([HoldService]); the theorems hold for the
    branch stock store by its instance.  SHA-256 is a parameter.  Not modelled:
    the circuit breaker of the client (an open breaker is a lost request), the
    ids of order lines. *)

From Stdlib Require Import Ascii.
From stdpp Require Import relations.
From S2P Require Import Prelude JsNumber JsString Reservations HoldService.

Open Scope Z_scope.

(** ** Data *)

Record OrderLineReqDto := { li_sku : string; li_name : string; li_quantity : Z; li_unitPrice : Z }.

Record CreateOrderReqDto := {
  dto_branchId : string;
  dto_paymentMethod : string;
  dto_customerName : option string;
  dto_items : list OrderLineReqDto }.

(** The decorators of the line and of the list of lines. *)
Definition line_valid (l : OrderLineReqDto) : bool :=
  (1 <=? slen (li_sku l)) && (slen (li_sku l) <=? 64) && (1 <=? slen (li_name l)) && (slen (li_name l) <=? 200) &&
  (1 <=? li_quantity l) && (li_quantity l <=? 10000) && (0 <=? li_unitPrice l) && (li_unitPrice l <=? 1000000000).
Definition items_valid (ls : list OrderLineReqDto) : bool :=
  (1 <=? Z.of_nat (length ls)) && (Z.of_nat (length ls) <=? 100) && forallb line_valid ls.

Record OrderItemEntity := {
  oi_orderId : string; oi_sku : string; oi_name : string; oi_quantity : Z; oi_unitPrice : Z; oi_lineTotal : number }.

Record OrderEntity := {
  o_id : string;
  o_tenantId : string;
  o_code : string;
  o_branchId : string;
  o_status : string;
  o_paymentMethod : string;
  o_customerName : option string;
  o_totalAmount : number;
  o_itemCount : number;
  o_createdBy : string;
  o_createdAt : Z;
  o_idempotencyKey : string;
  o_requestHash : string;
  o_items : list OrderItemEntity }.

Record OrderResItem := { ri_sku : string; ri_name : string; ri_quantity : Z; ri_unitPrice : Z; ri_lineTotal : number }.

Record OrderRes := {
  or_id : string;
  or_code : string;
  or_branchId : string;
  or_status : string;
  or_paymentMethod : string;
  or_customerName : option string;
  or_totalAmount : number;
  or_itemCount : number;
  or_createdBy : string;
  or_createdAt : Z;
  or_items : list OrderResItem }.

Definition toOrderRes (o : OrderEntity) : OrderRes :=
  {| or_id := o_id o; or_code := o_code o; or_branchId := o_branchId o; or_status := o_status o;
     or_paymentMethod := o_paymentMethod o; or_customerName := o_customerName o; or_totalAmount := o_totalAmount o;
     or_itemCount := o_itemCount o; or_createdBy := o_createdBy o; or_createdAt := o_createdAt o;
     or_items := map (fun i => {| ri_sku := oi_sku i; ri_name := oi_name i; ri_quantity := oi_quantity i;
       ri_unitPrice := oi_unitPrice i; ri_lineTotal := oi_lineTotal i |}) (o_items o) |}.

Record CreateOrderResult := { cr_order : OrderRes; cr_replayed : bool }.

(** The error codes the method answers with; [TX_FAILED] stands for the error of
    the transaction, rethrown as it is. *)
Inductive SaleError :=
| ORDER_NOT_FOUND | UNKNOWN_BRANCH | IDEMPOTENCY_KEY_REUSED | OUT_OF_STOCK (shortages : list StockShortage)
| UNAVAILABLE | TX_FAILED.

Abbreviation sale := (result SaleError).
Definition fail {A} (e : SaleError) (status : Z) : sale A := Throw (DomainError e status).

(** The payload of [sales.order.completed] that the method writes, in its
    envelope (id and tenant). *)
Record CompletedItem := { ci_sku : string; ci_name : string; ci_quantity : Z; ci_unitPrice : Z }.
Record CompletedEvent := {
  ev_id : string;
  ev_tenantId : string;
  ev_orderId : string;
  ev_code : string;
  ev_branchId : string;
  ev_totalAmount : number;
  ev_itemCount : number;
  ev_paymentMethod : string;
  ev_createdBy : string;
  ev_completedAt : Z;
  ev_items : list CompletedItem;
  ev_channel : string }.

(** The tables of sales: orders with their lines, and the outbox. *)
Record Sales := { orders : list OrderEntity; outbox : list CompletedEvent }.

(** One HTTP request: the caller, its store and branch scope, the key and the body. *)
Record Request := {
  rq_tenant : string;
  rq_account : string;
  rq_scope : option (list string);
  rq_key : string;
  rq_dto : CreateOrderReqDto }.

Definition branchAllowed (scope : option (list string)) (branchId : string) : bool :=
  match scope with
  | None => true
  | Some bs => negb (String.eqb branchId "") && existsb (String.eqb branchId) bs
  end.

(** What the network does to a call. *)
Inductive net := Delivered | RequestLost | ResponseLost.

(** What happens to a transaction: it commits, aborts with an error (of one of
    the two key constraints, or another), or commits and loses the connection. *)
Inductive tx := Commits | Aborts (keyViolation : bool) | CommitsThenLost.

(** Where a request stands. *)
Inductive pc :=
| Start
| Looked_up
| Stock_held (o : OrderEntity)
| Tx_failed (keyViolation : bool)
| Not_created
| Finished (r : sale CreateOrderResult).

(** ** Request hash and order id *)

Definition dquote : ascii := ascii_of_nat 34.
Definition backslash : ascii := ascii_of_nat 92.
Definition hex_digit (n : nat) : ascii := if Nat.ltb n 10 then ascii_of_nat (48 + n) else ascii_of_nat (87 + n).

(** One character of a string in [JSON.stringify]. *)
Definition json_char (c : ascii) : string :=
  let n := nat_of_ascii c in
  let esc (d : ascii) := String backslash (String d EmptyString) in
  if Nat.eqb n 34 || Nat.eqb n 92 then esc c
  else if Nat.eqb n 8 then esc "b"%char
  else if Nat.eqb n 9 then esc "t"%char
  else if Nat.eqb n 10 then esc "n"%char
  else if Nat.eqb n 12 then esc "f"%char
  else if Nat.eqb n 13 then esc "r"%char
  else if Nat.ltb n 32 then String backslash ("u00" +:+ String (hex_digit (n / 16)) (String (hex_digit (n mod 16)) EmptyString))
  else String c EmptyString.

Fixpoint json_chars (s : string) : string :=
  match s with EmptyString => EmptyString | String c s => json_char c +:+ json_chars s end.
Definition json_string (s : string) : string := String dquote (json_chars s +:+ String dquote EmptyString).
Definition json_field (k v : string) : string := json_string k +:+ ":" +:+ v.
Fixpoint comma (l : list string) : string :=
  match l with [] => EmptyString | [s] => s | s :: l => s +:+ "," +:+ comma l end.
Definition json_array (l : list string) : string := "[" +:+ comma l +:+ "]".

Definition json_request (d : CreateOrderReqDto) : string :=
  "{" +:+ comma
    [json_field "branchId" (json_string (dto_branchId d));
     json_field "paymentMethod" (json_string (dto_paymentMethod d));
     json_field "customerName" (match dto_customerName d with Some n => json_string n | None => "null" end);
     json_field "items" (json_array (map (fun i => json_array
       [json_string (li_sku i); json_string (li_name i); Z_string (li_quantity i); Z_string (li_unitPrice i)])
       (dto_items d)))] +:+ "}".

(** [h.slice(a, b)]. *)
Definition slice (a b : nat) (h : string) : string := String.substring a (b - a) h.

Section Sale.
(** [createHash('sha256').update(s).digest('hex')]. *)
Variable sha256 : string -> string.
Context {St : Type} `{HO : HoldOps St}.

Definition hashRequest (d : CreateOrderReqDto) : string := sha256 (json_request d).

Definition orderIdFor (tenantId idempotencyKey : string) : string :=
  let h := sha256 (tenantId +:+ ":" +:+ idempotencyKey) in
  slice 0 8 h +:+ "-" +:+ slice 8 12 h +:+ "-4" +:+ slice 13 16 h +:+ "-a" +:+ slice 17 20 h +:+ "-" +:+ slice 20 32 h.

(** The hold is keyed by the order id, so it exists before the order does. *)
Definition rq_orderId (r : Request) : string := orderIdFor (rq_tenant r) (rq_key r).

Definition rq_lines (r : Request) : list StockLine :=
  map (fun i => {| sku := li_sku i; quantity := li_quantity i |}) (dto_items (rq_dto r)).

(** ** The segments of [create] *)

Definition findByKey (s : Sales) (tenantId idempotencyKey : string) : option OrderEntity :=
  List.find (fun o => String.eqb (o_tenantId o) tenantId && String.eqb (o_idempotencyKey o) idempotencyKey) (orders s).

Definition replay (o : OrderEntity) (requestHash : string) : sale CreateOrderResult :=
  if negb (String.eqb (o_requestHash o) requestHash) then fail IDEMPOTENCY_KEY_REUSED 409
  else Ok {| cr_order := toOrderRes o; cr_replayed := true |}.

(** Branch scope, earlier order with this key, active branch ([branchStatus] is
    the status of the branch's projection row). *)
Definition look_up (s : Sales) (branchStatus : option string) (r : Request) : pc :=
  if negb (branchAllowed (rq_scope r) (dto_branchId (rq_dto r))) then Finished (fail ORDER_NOT_FOUND 404)
  else match findByKey s (rq_tenant r) (rq_key r) with
       | Some earlier => Finished (replay earlier (hashRequest (rq_dto r)))
       | None => if match branchStatus with Some st => String.eqb st "active" | None => false end
                 then Looked_up else Finished (fail UNKNOWN_BRANCH 400)
       end.

Definition item_of (orderId : string) (l : OrderLineReqDto) : OrderItemEntity :=
  {| oi_orderId := orderId; oi_sku := li_sku l; oi_name := li_name l; oi_quantity := li_quantity l;
     oi_unitPrice := li_unitPrice l; oi_lineTotal := nmul (int (li_quantity l)) (int (li_unitPrice l)) |}.

(** The entities, built after the stock is held. *)
Definition build_order (r : Request) (code : string) (now : Z) : OrderEntity :=
  let items := map (item_of (rq_orderId r)) (dto_items (rq_dto r)) in
  {| o_id := rq_orderId r; o_tenantId := rq_tenant r; o_code := code; o_branchId := dto_branchId (rq_dto r);
     o_status := "completed"; o_paymentMethod := dto_paymentMethod (rq_dto r);
     o_customerName := dto_customerName (rq_dto r);
     o_totalAmount := foldl (fun sum i => nadd sum (oi_lineTotal i)) (int 0) items;
     o_itemCount := foldl (fun sum i => nadd sum (int (oi_quantity i))) (int 0) items;
     o_createdBy := rq_account r; o_createdAt := now; o_idempotencyKey := rq_key r;
     o_requestHash := hashRequest (rq_dto r); o_items := items |}.

(** The client's reading of inventory's answer: [null] when held (200, 201), the
    shortages on a 409 (none listed when the hold is for other lines), otherwise
    an error. *)
Definition read_answer (a : res (ReserveResult * St)) : sale (option (list StockShortage)) :=
  match a with
  | Ok _ => Ok None
  | Throw (DomainError (StockShortageError l) _) => Ok (Some l)
  | Throw (DomainError ReservationMismatchError _) => Ok (Some [])
  | Throw _ => fail UNAVAILABLE 503
  end.

(** The body of the call. *)
Definition hold_request (r : Request) : ReserveStockRequest :=
  {| orderId := rq_orderId r; branchId := dto_branchId (rq_dto r); lines := rq_lines r |}.

(** The call [inventory.reserve] and what follows until the transaction opens;
    an empty list of shortages is truthy. *)
Definition reserve_stock (n : net) (inv : St) (r : Request) (uuid1 uuid2 : string) (expiresAt : Z) (code : string) (now : Z)
    : pc * St :=
  match n with
  | RequestLost => (Finished (fail UNAVAILABLE 503), inv)
  | _ =>
      let a := h_reserve inv (rq_tenant r) (hold_request r) uuid1 uuid2 expiresAt in
      let inv' := match a with Ok (_, s) => s | Throw _ => inv end in
      match n, read_answer a with
      | Delivered, Ok None => (Stock_held (build_order r code now), inv')
      | Delivered, Ok (Some shortages) => (Finished (fail (OUT_OF_STOCK shortages) 409), inv')
      | Delivered, Throw e => (Finished (Throw e), inv')
      | _, _ => (Finished (fail UNAVAILABLE 503), inv')
      end
  end.

(** [orders.save(order)]: refuses an id of another tenant and a code already
    used in this one, updates the row of an id it finds, else inserts. *)
Definition save_order (os : list OrderEntity) (o : OrderEntity) : option (list OrderEntity) :=
  let same_id x := String.eqb (o_id x) (o_id o) in
  if existsb (fun x => same_id x && negb (String.eqb (o_tenantId x) (o_tenantId o))) os then None
  else if existsb (fun x => negb (same_id x) && String.eqb (o_tenantId x) (o_tenantId o) && String.eqb (o_code x) (o_code o)) os
  then None
  else if existsb same_id os then Some (map (fun x => if same_id x then o else x) os)
  else Some (os ++ [o]).

Definition completed_event (eventId : string) (now : Z) (o : OrderEntity) : CompletedEvent :=
  {| ev_id := eventId; ev_tenantId := o_tenantId o; ev_orderId := o_id o; ev_code := o_code o;
     ev_branchId := o_branchId o; ev_totalAmount := o_totalAmount o; ev_itemCount := o_itemCount o;
     ev_paymentMethod := o_paymentMethod o; ev_createdBy := o_createdBy o; ev_completedAt := now;
     ev_items := map (fun i => {| ci_sku := oi_sku i; ci_name := oi_name i; ci_quantity := oi_quantity i;
       ci_unitPrice := oi_unitPrice i |}) (o_items o);
     ev_channel := "pos" |}.

(** The transaction, under the advisory lock of the key: the order of a racing
    request wins, else order, lines and event are written together. *)
Definition write_order (s : Sales) (r : Request) (o : OrderEntity) (eventId : string) (now : Z)
    : option (Sales * (OrderEntity * bool)) :=
  match findByKey s (rq_tenant r) (rq_key r) with
  | Some winner => Some (s, (winner, true))
  | None =>
      os ← save_order (orders s) o;
      if existsb (fun e => String.eqb (ev_id e) eventId) (outbox s) then None
      else Some ({| orders := os; outbox := outbox s ++ [completed_event eventId now o] |}, (o, false))
  end.

Definition run_transaction (t : tx) (s : Sales) (r : Request) (o : OrderEntity) (eventId : string) (now : Z) : pc * Sales :=
  match t, write_order s r o eventId now with
  | Aborts kv, _ => (Tx_failed kv, s)
  | _, None => (Tx_failed false, s)
  | CommitsThenLost, Some (s', _) => (Tx_failed false, s')
  | Commits, Some (s', (row, true)) => (Finished (replay row (hashRequest (rq_dto r))), s')
  | Commits, Some (s', (row, false)) => (Finished (Ok {| cr_order := toOrderRes row; cr_replayed := false |}), s')
  end.

(** The error path: a key violation looks for the winner first. *)
Definition after_key_violation (s : Sales) (r : Request) : pc :=
  match findByKey s (rq_tenant r) (rq_key r) with
  | Some winner => Finished (replay winner (hashRequest (rq_dto r)))
  | None => Tx_failed false
  end.

(** [releaseUnlessCreated]: the lookup, which may fail, and the release, whose
    failures are swallowed; the error is thrown again. *)
Definition check_created (lookupFails : bool) (s : Sales) (r : Request) : pc :=
  if lookupFails then Finished (fail TX_FAILED 500)
  else match findByKey s (rq_tenant r) (rq_key r) with
       | Some _ => Finished (fail TX_FAILED 500)
       | None => Not_created
       end.

Definition release_hold (n : net) (inv : St) (r : Request) : pc * St :=
  (Finished (fail TX_FAILED 500),
   match n with
   | RequestLost => inv
   | _ => match h_release inv (rq_tenant r) (rq_orderId r) with Ok s => s | Throw _ => inv end
   end).

(** ** The event consumer of inventory *)

Definition completed_order (e : CompletedEvent) : CompletedOrder :=
  {| oc_orderId := ev_orderId e; oc_branchId := ev_branchId e;
     oc_items := map (fun i => {| sku := ci_sku i; quantity := ci_quantity i |}) (ev_items e) |}.

(** A row of inventory's [warehouse_reservation] table, as far as the handler reads it. *)
Record WarehouseRow := { wr_tenant : string; wr_source_ref_type : string; wr_source_ref_id : string }.

Definition hasWarehouseReservation (rows : list WarehouseRow) (tenantId order : string) : bool :=
  existsb (fun w => String.eqb (wr_tenant w) tenantId && String.eqb (wr_source_ref_type w) "ORDER" &&
    String.eqb (wr_source_ref_id w) order) rows.

Definition onCompleted (rows : list WarehouseRow) (inv : St) (e : CompletedEvent) : res St :=
  if hasWarehouseReservation rows (ev_tenantId e) (ev_orderId e) then Ok inv
  else h_commit inv (ev_tenantId e) (completed_order e).

(** [handleBody]: the inbox row and the handler in one transaction; a duplicate
    is skipped, a failing handler rolls both back. *)
Definition handleBody (rows : list WarehouseRow) (inv : St) (inbox : gset string) (e : CompletedEvent) : St * gset string :=
  if bool_decide (ev_id e ∈ inbox) then (inv, inbox)
  else match onCompleted rows inv e with
       | Ok inv' => (inv', {[ev_id e]} ∪ inbox)
       | Throw _ => (inv, inbox)
       end.

(** ** The whole system as a step relation *)

Record sys := {
  y_sales : Sales;
  y_inv : St;
  y_inbox : gset string;
  y_threads : list (Request * pc) }.

Definition set_thread (y : sys) (i : nat) (r : Request) (p : pc) (s : Sales) (inv : St) : sys :=
  {| y_sales := s; y_inv := inv; y_inbox := y_inbox y; y_threads := <[i := (r, p)]> (y_threads y) |}.

Definition at_pc (y : sys) (i : nat) (r : Request) (p : pc) : Prop := y_threads y !! i = Some (r, p).

Inductive sys_step : sys -> sys -> Prop :=
| step_request y r :
    items_valid (dto_items (rq_dto r)) = true ->
    sys_step y {| y_sales := y_sales y; y_inv := y_inv y; y_inbox := y_inbox y; y_threads := y_threads y ++ [(r, Start)] |}
| step_look_up y i r branchStatus :
    at_pc y i r Start ->
    sys_step y (set_thread y i r (look_up (y_sales y) branchStatus r) (y_sales y) (y_inv y))
| step_reserve y i r n u1 u2 e code now p inv :
    at_pc y i r Looked_up -> reserve_stock n (y_inv y) r u1 u2 e code now = (p, inv) ->
    sys_step y (set_thread y i r p (y_sales y) inv)
| step_tx y i r o t eventId now p s :
    at_pc y i r (Stock_held o) -> run_transaction t (y_sales y) r o eventId now = (p, s) ->
    sys_step y (set_thread y i r p s (y_inv y))
| step_key_violation y i r :
    at_pc y i r (Tx_failed true) ->
    sys_step y (set_thread y i r (after_key_violation (y_sales y) r) (y_sales y) (y_inv y))
| step_check y i r lookupFails :
    at_pc y i r (Tx_failed false) ->
    sys_step y (set_thread y i r (check_created lookupFails (y_sales y) r) (y_sales y) (y_inv y))
| step_release y i r n p inv :
    at_pc y i r Not_created -> release_hold n (y_inv y) r = (p, inv) ->
    sys_step y (set_thread y i r p (y_sales y) inv)
| step_deliver y e rows inv inbox :
    e ∈ outbox (y_sales y) -> handleBody rows (y_inv y) (y_inbox y) e = (inv, inbox) ->
    sys_step y {| y_sales := y_sales y; y_inv := inv; y_inbox := inbox; y_threads := y_threads y |}
| step_env y inv :
    h_env (y_inv y) inv ->
    sys_step y {| y_sales := y_sales y; y_inv := inv; y_inbox := y_inbox y; y_threads := y_threads y |}.

(** The system before the first request. *)
Definition idle (inv : St) : sys :=
  {| y_sales := {| orders := []; outbox := [] |}; y_inv := inv; y_inbox := ∅; y_threads := [] |}.

Definition requests (y : sys) : list Request := map fst (y_threads y).

(** The requests met so far: no two keys of them share an order id (the ids are
    cut from SHA-256 digests), and, for some theorems, a key always comes with
    the same body. *)
Definition no_collision (y : sys) : Prop := forall r r', r ∈ requests y -> r' ∈ requests y ->
  rq_orderId r = rq_orderId r' -> rq_tenant r = rq_tenant r' /\ rq_key r = rq_key r'.
Definition same_bodies (y : sys) : Prop := forall r r', r ∈ requests y -> r' ∈ requests y ->
  rq_tenant r = rq_tenant r' -> rq_key r = rq_key r' -> rq_dto r = rq_dto r'.

(** * Properties *)

(** ** Orders, events and answers *)

Definition order_key (o : OrderEntity) : string * string := (o_tenantId o, o_idempotencyKey o).

(** An order stored for a request, and the answer a finished request gave. *)
Definition built_for (y : sys) (o : OrderEntity) : Prop :=
  exists r code now, r ∈ requests y /\ o = build_order r code now.
Definition answered (y : sys) (r : Request) (a : CreateOrderResult) : Prop :=
  exists o, o ∈ orders (y_sales y) /\ order_key o = (rq_tenant r, rq_key r) /\
    o_requestHash o = hashRequest (rq_dto r) /\ cr_order a = toOrderRes o.

Record sales_ok (y : sys) : Prop := {
  so_keys : NoDup (map order_key (orders (y_sales y)));
  so_ids : NoDup (map o_id (orders (y_sales y)));
  so_built : forall o, o ∈ orders (y_sales y) -> built_for y o;
  so_events : exists meta, outbox (y_sales y) = zip_with (fun m o => completed_event m.1 m.2 o) meta (orders (y_sales y)) /\
                length meta = length (orders (y_sales y));
  so_event_ids : NoDup (map ev_id (outbox (y_sales y)));
  so_valid : forall r, r ∈ requests y -> items_valid (dto_items (rq_dto r)) = true;
  so_held : forall i r o, at_pc y i r (Stock_held o) -> exists code now, o = build_order r code now;
  so_answers : forall i r a, at_pc y i r (Finished (Ok a)) -> answered y r a }.

Lemma find_key s t k o : findByKey s t k = Some o -> o ∈ orders s /\ order_key o = (t, k).
Proof.
  intros [Ho%list_elem_of_In He]%List.find_some. split; [done|].
  apply andb_true_iff in He as [E1%String.eqb_eq E2%String.eqb_eq]. unfold order_key. congruence.
Qed.

Lemma find_key_None s t k o : findByKey s t k = None -> o ∈ orders s -> order_key o <> (t, k).
Proof.
  intros Hn Ho [= E1 E2]. apply list_elem_of_In in Ho. pose proof (List.find_none _ _ Hn o Ho) as E.
  cbn in E. by rewrite E1, E2, !String.eqb_refl in E.
Qed.

Lemma requests_set y i r p p' s inv : at_pc y i r p -> requests (set_thread y i r p' s inv) = requests y.
Proof.
  unfold at_pc, requests. intros Hi. cbn. rewrite list_fmap_insert. apply list_insert_id.
  change (fst <$> y_threads y !! i = Some r) with ((fst <$> y_threads y) !! i = Some r). by rewrite list_lookup_fmap, Hi.
Qed.

Lemma at_pc_set y i r p p' s inv j r' q : at_pc y i r p -> at_pc (set_thread y i r p' s inv) j r' q ->
  (j = i /\ r' = r /\ q = p') \/ (j <> i /\ at_pc y j r' q).
Proof.
  unfold at_pc. cbn. intros Hi. destruct (decide (j = i)) as [->|Hne].
  - rewrite list_lookup_insert_eq by (by eapply lookup_lt_Some). intros [= -> ->]. by left.
  - rewrite list_lookup_insert_ne by done. auto.
Qed.

Lemma at_pc_request y i r p : at_pc y i r p -> r ∈ requests y.
Proof. intros H. apply list_elem_of_fmap. exists (r, p). split; [done|]. by eapply list_elem_of_lookup_2. Qed.

(** A step that leaves the tables of sales alone and moves one request on. *)
Lemma sales_ok_move y i r p p' inv : sales_ok y -> at_pc y i r p ->
  (forall o, p' = Stock_held o -> exists code now, o = build_order r code now) ->
  (forall a, p' = Finished (Ok a) -> answered y r a) -> sales_ok (set_thread y i r p' (y_sales y) inv).
Proof.
  intros [S1 S2 S3 S4 S5 S6 S7 S8] Hi Hh Ha. split; try done.
  - intros o Ho. destruct (S3 o Ho) as (r' & c & n & Hr & E). exists r', c, n. by rewrite (requests_set _ _ _ _ _ _ _ Hi).
  - by rewrite (requests_set _ _ _ _ _ _ _ Hi).
  - intros j r' o [(-> & -> & <-) | [_ Hj]]%(at_pc_set _ _ _ _ _ _ _ _ _ _ Hi); [by apply Hh | by eapply S7].
  - intros j r' a [(-> & -> & <-) | [_ Hj]]%(at_pc_set _ _ _ _ _ _ _ _ _ _ Hi); [by apply Ha | by eapply S8].
Qed.

Lemma replay_answered y r o a : o ∈ orders (y_sales y) -> order_key o = (rq_tenant r, rq_key r) ->
  replay o (hashRequest (rq_dto r)) = Ok a -> answered y r a.
Proof.
  intros Ho Hk Ha. unfold replay in Ha. case_if_in Ha; [discriminate|]. inv_ok. apply negb_false_iff, String.eqb_eq in E.
  by exists o.
Qed.

(** The order is new: with no collision of ids the row is inserted. *)
Lemma save_order_new y r code now os : sales_ok y -> no_collision y -> r ∈ requests y ->
  findByKey (y_sales y) (rq_tenant r) (rq_key r) = None ->
  save_order (orders (y_sales y)) (build_order r code now) = Some os ->
  os = orders (y_sales y) ++ [build_order r code now] /\ rq_orderId r ∉ map o_id (orders (y_sales y)).
Proof.
  intros Hs Hc Hr Hf. assert (Hn : forall x, x ∈ orders (y_sales y) -> o_id x <> rq_orderId r).
  { intros x Hx E. destruct (so_built _ Hs x Hx) as (r' & c & n & Hr' & ->). cbn in E.
    destruct (Hc r' r Hr' Hr E) as [E1 E2]. apply (find_key_None _ _ _ _ Hf Hx). unfold order_key. cbn. congruence. }
  assert (He : existsb (fun x => String.eqb (o_id x) (o_id (build_order r code now))) (orders (y_sales y)) = false).
  { apply not_true_iff_false. rewrite existsb_exists. intros (x & Hx%list_elem_of_In & E%String.eqb_eq). by apply (Hn x Hx). }
  unfold save_order. cbv zeta. rewrite He. clear He. do 2 (destruct (existsb _ _); [done|]). intros [= <-]. split; [done|].
  intros (x & E & Hx)%list_elem_of_fmap. by apply (Hn x Hx).
Qed.

Lemma zip_with_snoc {A B C} (f : A -> B -> C) l1 l2 a b : length l1 = length l2 ->
  zip_with f (l1 ++ [a]) (l2 ++ [b]) = zip_with f l1 l2 ++ [f a b].
Proof. intros H. by rewrite zip_with_app. Qed.

(** The write of a new order keeps the tables consistent. *)
Lemma sales_ok_write y i r p code now eventId now' p' inv :
  let o := build_order r code now in
  let s' := {| orders := orders (y_sales y) ++ [o]; outbox := outbox (y_sales y) ++ [completed_event eventId now' o] |} in
  sales_ok y -> at_pc y i r p -> findByKey (y_sales y) (rq_tenant r) (rq_key r) = None ->
  o_id o ∉ map o_id (orders (y_sales y)) -> eventId ∉ map ev_id (outbox (y_sales y)) ->
  p' = Tx_failed false \/ p' = Finished (Ok {| cr_order := toOrderRes o; cr_replayed := false |}) ->
  sales_ok (set_thread y i r p' s' inv).
Proof.
  intros o s' [S1 S2 S3 S4 S5 S6 S7 S8] Hi Hf Hid Hev Hp'. pose proof (requests_set y i r p p' s' inv Hi) as Hrq. split.
  - cbn. rewrite map_app. apply NoDup_app. split; [done|]. split; [|apply NoDup_singleton].
    intros k (x & -> & Hx)%list_elem_of_fmap E%list_elem_of_singleton. by apply (find_key_None _ _ _ _ Hf Hx).
  - cbn. rewrite map_app. apply NoDup_app. split; [done|]. split; [|apply NoDup_singleton].
    by intros k Hk ->%list_elem_of_singleton.
  - unfold built_for. rewrite Hrq. intros x [Hx | ->%list_elem_of_singleton]%elem_of_app; [by apply S3|].
    exists r, code, now. split; [by eapply at_pc_request | done].
  - destruct S4 as (meta & E & Hl). exists (meta ++ [(eventId, now')]). cbn. rewrite E, zip_with_snoc, !length_app by done. cbn. auto.
  - cbn. rewrite map_app. apply NoDup_app. split; [done|]. split; [|apply NoDup_singleton].
    by intros k Hk ->%list_elem_of_singleton.
  - by rewrite Hrq.
  - intros j r' o' [(-> & -> & <-) | [_ Hj]]%(at_pc_set _ _ _ _ _ _ _ _ _ _ Hi); [by destruct Hp' | by eapply S7].
  - intros j r' a [(-> & -> & <-) | [_ Hj]]%(at_pc_set _ _ _ _ _ _ _ _ _ _ Hi).
    + destruct Hp' as [|[= ->]]; [done|]. exists o. cbn. split; [apply elem_of_app; right; left | done].
    + destruct (S8 j r' a Hj) as (x & Hx & ?). exists x. cbn. split; [apply elem_of_app; by left | done].
Qed.

Lemma requests_mono y y' r : sys_step y y' -> r ∈ requests y -> r ∈ requests y'.
Proof.
  destruct 1; intros Hr; try done; try (by erewrite requests_set).
  unfold requests in *. cbn. rewrite map_app. apply elem_of_app. by left.
Qed.

Lemma no_collision_mono y y' : sys_step y y' -> no_collision y' -> no_collision y.
Proof. intros Hs Hc r r' Hr Hr'. apply Hc; by eapply requests_mono. Qed.

Lemma same_bodies_mono y y' : sys_step y y' -> same_bodies y' -> same_bodies y.
Proof. intros Hs Hc r r' Hr Hr'. apply Hc; by eapply requests_mono. Qed.

(** What a transaction can do: nothing, or write the order and its event. *)
Lemma run_transaction_cases t s r o eventId now p s' : run_transaction t s r o eventId now = (p, s') ->
  (s' = s /\ ((exists kv, p = Tx_failed kv) \/
     exists w, findByKey s (rq_tenant r) (rq_key r) = Some w /\ p = Finished (replay w (hashRequest (rq_dto r))))) \/
  (findByKey s (rq_tenant r) (rq_key r) = None /\ (eventId ∉ map ev_id (outbox s)) /\
   exists os, save_order (orders s) o = Some os /\
     s' = {| orders := os; outbox := outbox s ++ [completed_event eventId now o] |} /\
     (p = Tx_failed false \/ p = Finished (Ok {| cr_order := toOrderRes o; cr_replayed := false |}))).
Proof.
  unfold run_transaction, write_order. destruct (findByKey _ _ _) as [w|] eqn:Ef.
  { destruct t; intros [= <- <-]; left; split; eauto. }
  destruct (save_order _ _) as [os|] eqn:Es; cbn [mbind option_bind].
  2: { destruct t; intros [= <- <-]; left; eauto. }
  destruct (existsb _ _) eqn:Ee.
  { destruct t; intros [= <- <-]; left; eauto. }
  assert (Hev : eventId ∉ map ev_id (outbox s)).
  { intros (x & -> & Hx)%list_elem_of_fmap. apply not_true_iff_false in Ee. apply Ee, existsb_exists. exists x.
    split; [by apply list_elem_of_In | apply String.eqb_refl]. }
  destruct t; intros [= <- <-]; [right | left; eauto | right]; split_and!; eauto 10.
Qed.

Lemma look_up_cases s b r : look_up s b r = Looked_up \/ (exists e, look_up s b r = Finished (Throw e)) \/
  exists o, findByKey s (rq_tenant r) (rq_key r) = Some o /\ look_up s b r = Finished (replay o (hashRequest (rq_dto r))).
Proof.
  unfold look_up. destruct (negb _); [unfold fail; eauto|]. destruct (findByKey _ _ _); [eauto|].
  unfold fail. case_match; eauto.
Qed.

Lemma reserve_stock_cases n inv r u1 u2 e code now p inv' : reserve_stock n inv r u1 u2 e code now = (p, inv') ->
  (inv' = inv /\ exists er, p = Finished (Throw er)) \/
  (exists out, h_reserve inv (rq_tenant r) (hold_request r) u1 u2 e = Ok (out, inv') /\
     (p = Stock_held (build_order r code now) \/ exists er, p = Finished (Throw er))).
Proof.
  unfold reserve_stock, fail. cbv zeta. destruct n; [|intros [= <- <-]; left; eauto|];
    destruct (h_reserve _ _ _ _ _ _) as [[out s]|[[l| | |] ?|?]]; cbn; intros [= <- <-]; eauto 10.
Qed.

Lemma sales_ok_step y y' : sys_step y y' -> no_collision y' -> sales_ok y -> sales_ok y'.
Proof.
  intros Hs Hc' Hok. pose proof (no_collision_mono _ _ Hs Hc') as Hc. clear Hc'.
  destruct Hs as [y r Hv | y i r b Hi | y i r n u1 u2 e code now p inv Hi E | y i r o t ev now p s Hi E | y i r Hi
    | y i r lf Hi | y i r n p inv Hi E | y ev rows inv inbox He E | y inv He].
  - destruct Hok as [S1 S2 S3 S4 S5 S6 S7 S8].
    assert (Hrq : forall x, x ∈ requests {| y_sales := y_sales y; y_inv := y_inv y; y_inbox := y_inbox y;
      y_threads := y_threads y ++ [(r, Start)] |} <-> x ∈ requests y \/ x = r).
    { intros x. unfold requests. cbn. rewrite map_app, elem_of_app. cbn. by rewrite list_elem_of_singleton. }
    split; try done.
    + intros o Ho. destruct (S3 o Ho) as (r' & c & n & Hr & E). exists r', c, n. by rewrite Hrq; auto.
    + intros x [Hx | ->]%Hrq; auto.
    + intros j r' o Hj. unfold at_pc in Hj. cbn in Hj.
      apply lookup_app_Some in Hj as [Hj | [_ Hj]]; [by eapply S7|]. by apply list_lookup_singleton_Some in Hj as [_ [=]].
    + intros j r' a Hj. unfold at_pc in Hj. cbn in Hj.
      apply lookup_app_Some in Hj as [Hj | [_ Hj]]; [by eapply S8|]. by apply list_lookup_singleton_Some in Hj as [_ [=]].
  - apply (sales_ok_move _ _ _ _ _ _ Hok Hi); destruct (look_up_cases (y_sales y) b r) as [E | [[er E] | (o & Hf & E)]];
      rewrite E; try done. intros a [= Ha]. apply find_key in Hf as [? ?]. by eapply replay_answered.
  - apply (sales_ok_move _ _ _ _ _ _ Hok Hi); apply reserve_stock_cases in E as [[_ [er ->]] | (out & _ & [-> | [er ->]])];
      try done. intros o [= <-]. eauto.
  - destruct (run_transaction_cases _ _ _ _ _ _ _ _ E) as [[-> Hp] | (Hf & Hev & os & Hsv & -> & Hp)].
    + apply (sales_ok_move _ _ _ _ _ _ Hok Hi); destruct Hp as [[kv ->] | (w & Hf & ->)]; try done.
      intros a [= Ha]. apply find_key in Hf as [? ?]. by eapply replay_answered.
    + destruct (so_held _ Hok i r o Hi) as (code & nw & ->).
      destruct (save_order_new y r code nw os Hok Hc (at_pc_request _ _ _ _ Hi) Hf Hsv) as [-> Hid].
      by apply (sales_ok_write _ _ _ _ _ _ _ _ _ _ Hok Hi).
  - apply (sales_ok_move _ _ _ _ _ _ Hok Hi); unfold after_key_violation; destruct (findByKey _ _ _) as [w|] eqn:Hf; try done.
    intros a [= Ha]. apply find_key in Hf as [? ?]. by eapply replay_answered.
  - apply (sales_ok_move _ _ _ _ _ _ Hok Hi); unfold check_created; destruct lf; try done; by destruct (findByKey _ _ _).
  - unfold release_hold in E. injection E as <- <-. by apply (sales_ok_move _ _ _ _ _ _ Hok Hi).
  - by destruct Hok.
  - by destruct Hok.
Qed.

Lemma sales_ok_idle inv : sales_ok (idle inv).
Proof.
  split; cbn; try apply NoDup_nil_2.
  - intros o Ho. by apply not_elem_of_nil in Ho.
  - by exists [].
  - intros r Hr. by apply not_elem_of_nil in Hr.
  - intros i r o Hi. unfold at_pc in Hi. cbn in Hi. done.
  - intros i r a Hi. unfold at_pc in Hi. cbn in Hi. done.
Qed.

(** Facts of the requests met so far hold along the whole run. *)
Lemma run_inv (P : sys -> Prop) (C : sys -> Prop) inv y :
  (forall y y', sys_step y y' -> C y' -> C y) -> P (idle inv) ->
  (forall y y', sys_step y y' -> C y' -> P y -> P y') ->
  rtc sys_step (idle inv) y -> C y -> P y.
Proof.
  intros Hmono H0 Hstep Hr. revert y Hr. apply (rtc_ind_r (fun y => C y -> P y)); [done|].
  intros y y' _ Hs IH HC. eapply Hstep; eauto.
Qed.

(** ** Stock: every order is deducted at most once *)

Context {HL : HoldLaws St}.

Definition matches (h : option hold) (branch : string) (ls : list StockLine) : Prop :=
  exists x, h = Some x /\ x.1.2 = branch /\ forall k, lines_qty k x.2 = lines_qty k ls.

Definition order_lines (o : OrderEntity) : list StockLine :=
  map (fun i => {| sku := oi_sku i; quantity := oi_quantity i |}) (o_items o).

(** With one body per key, the hold of a request that holds stock, and of an
    order, is for exactly its lines. *)
Definition holds_match (y : sys) : Prop := same_bodies y ->
  (forall i r o, at_pc y i r (Stock_held o) ->
     matches (h_hold (y_inv y) (rq_tenant r) (rq_orderId r)) (dto_branchId (rq_dto r)) (rq_lines r)) /\
  (forall o, o ∈ orders (y_sales y) -> matches (h_hold (y_inv y) (o_tenantId o) (o_id o)) (o_branchId o) (order_lines o)).

(** The one deduction of an order: its held lines, or at most what the event lists. *)
Definition taken_once (y : sys) (e : CompletedEvent) : Prop :=
  exists h, h_hold (y_inv y) (ev_tenantId e) (ev_orderId e) = Some h /\
    ((forall k, h_sold (y_inv y) (ev_tenantId e) (ev_orderId e) k = lines_qty k h.2) \/
     (forall k, 0 <= h_sold (y_inv y) (ev_tenantId e) (ev_orderId e) k <= lines_qty k (oc_items (completed_order e)))).

Record stock_ok (y : sys) : Prop := {
  sk_ok : h_ok (y_inv y);
  sk_inbox : forall id, id ∈ y_inbox y -> id ∈ map ev_id (outbox (y_sales y));
  sk_held : forall i r o, at_pc y i r (Stock_held o) -> is_Some (h_hold (y_inv y) (rq_tenant r) (rq_orderId r));
  sk_order : forall e, e ∈ outbox (y_sales y) -> is_Some (h_hold (y_inv y) (ev_tenantId e) (ev_orderId e));
  sk_none : forall t o, (t, o) ∉ map (fun e => (ev_tenantId e, ev_orderId e)) (outbox (y_sales y)) ->
    is_committed (h_hold (y_inv y) t o) = false /\ forall k, h_sold (y_inv y) t o k = 0;
  sk_event : forall e, e ∈ outbox (y_sales y) ->
    (ev_id e ∉ y_inbox y -> is_committed (h_hold (y_inv y) (ev_tenantId e) (ev_orderId e)) = false) /\
    if is_committed (h_hold (y_inv y) (ev_tenantId e) (ev_orderId e)) then taken_once y e
    else forall k, h_sold (y_inv y) (ev_tenantId e) (ev_orderId e) k = 0;
  sk_lines : holds_match y }.

(** A step of inventory that closes or renews holds but sells nothing. *)
Record unsold (inv inv' : St) : Prop := {
  un_ok : h_ok inv';
  un_sold : forall t o k, h_sold inv' t o k = h_sold inv t o k;
  un_committed : forall t o, is_committed (h_hold inv' t o) = is_committed (h_hold inv t o);
  un_some : forall t o, is_Some (h_hold inv t o) -> is_Some (h_hold inv' t o);
  un_same : forall t o, is_committed (h_hold inv t o) = true -> h_hold inv' t o = h_hold inv t o }.

Lemma unsold_refl inv : h_ok inv -> unsold inv inv.
Proof. by split. Qed.

Lemma close_committed s h : s <> committed -> is_committed (close_as s <$> h) = is_committed h /\
  (is_committed h = true -> close_as s <$> h = h).
Proof.
  intros Hs. destruct h as [[[st b] ls]|]; [|done]. cbn. unfold close_as. cbn. destruct (decide (st = held)) as [->|E].
  - rewrite (bool_decide_eq_true_2 (held = held)) by done. cbn.
    by rewrite (bool_decide_eq_false_2 (s = committed)), (bool_decide_eq_false_2 (held = committed)).
  - rewrite (bool_decide_eq_false_2 (st = held)) by done. done.
Qed.

Lemma close_some s (h : option hold) : is_Some h -> is_Some (close_as s <$> h).
Proof. intros [x ->]. by eexists. Qed.

Lemma close_matches s h b ls : matches h b ls -> matches (close_as s <$> h) b ls.
Proof.
  intros (x & -> & H1 & H2). exists (close_as s x). split; [done|]. unfold close_as. by destruct (bool_decide _).
Qed.

Lemma unsold_release inv t o inv' : h_ok inv -> h_release inv t o = Ok inv' ->
  unsold inv inv' /\ forall t' o', h_hold inv' t' o' = h_hold inv t' o' \/ h_hold inv' t' o' = close_as released <$> h_hold inv t' o'.
Proof.
  intros Hok E. destruct (release_law inv t o Hok) as (s & E' & H1 & H2 & H3 & H4). assert (s = inv') as -> by congruence.
  assert (Hh : forall t' o', h_hold inv' t' o' = h_hold inv t' o' \/ h_hold inv' t' o' = close_as released <$> h_hold inv t' o').
  { intros t' o'. destruct (decide ((t', o') = (t, o))) as [[= -> ->]|Hne]; auto. }
  split; [|done]. split; try done; intros t' o'; destruct (Hh t' o') as [-> | ->];
    try done; try (by apply close_committed); by apply close_some.
Qed.

Lemma unsold_env inv inv' : h_ok inv -> h_env inv inv' ->
  unsold inv inv' /\ forall t o, h_hold inv' t o = h_hold inv t o \/ h_hold inv' t o = close_as expired <$> h_hold inv t o.
Proof.
  intros Hok E. destruct (env_law inv inv' E Hok) as (H1 & H2 & H3). split; [|done].
  split; try done; intros t o; destruct (H2 t o) as [-> | ->]; try done; try (by apply close_committed); by apply close_some.
Qed.

Lemma rq_lines_positive r : items_valid (dto_items (rq_dto r)) = true -> positive (rq_lines r).
Proof.
  unfold items_valid. intros [_ Hf]%andb_true_iff l (i & -> & Hi)%list_elem_of_fmap. cbn.
  rewrite forallb_forall in Hf. specialize (Hf i ltac:(by apply list_elem_of_In)). unfold line_valid in Hf. bool_prop. lia.
Qed.

Lemma unsold_reserve inv r u1 u2 e out inv' : h_ok inv -> items_valid (dto_items (rq_dto r)) = true ->
  h_reserve inv (rq_tenant r) (hold_request r) u1 u2 e = Ok (out, inv') ->
  unsold inv inv' /\ matches (h_hold inv' (rq_tenant r) (rq_orderId r)) (dto_branchId (rq_dto r)) (rq_lines r) /\
  forall t o, (t, o) <> (rq_tenant r, rq_orderId r) -> h_hold inv' t o = h_hold inv t o.
Proof.
  intros Hok Hv E. destruct (reserve_law inv (rq_tenant r) (hold_request r) u1 u2 e out inv' Hok (rq_lines_positive r Hv) E)
    as (H1 & H2 & H3 & h & H4 & H5 & H6 & H7 & H8 & H9).
  cbn [orderId branchId lines hold_request] in *. split; [|split; [by exists h | done]].
  split; try done; intros t o; destruct (decide ((t, o) = (rq_tenant r, rq_orderId r))) as [[= -> ->]|Hne]; rewrite ?H2 by done; try done.
  - rewrite H4, H8. done.
  - rewrite H8, H4. intros Hc%bool_decide_eq_true. by rewrite H9.
Qed.

Lemma stock_ok_unsold y y' : stock_ok y -> unsold (y_inv y) (y_inv y') -> y_sales y' = y_sales y -> y_inbox y' = y_inbox y ->
  (forall i r o, at_pc y' i r (Stock_held o) -> is_Some (h_hold (y_inv y') (rq_tenant r) (rq_orderId r))) ->
  holds_match y' -> stock_ok y'.
Proof.
  intros [K1 K2 K3 K4 K5 K6 K7] [U1 U2 U3 U4 U5] Es Ei Hh Hm. split; rewrite ?Es, ?Ei; try done.
  - intros e He. by apply U4, K4.
  - intros t o Hn. rewrite U3. split; [by apply K5|]. intros k. rewrite U2. by apply K5.
  - intros e He. destruct (K6 e He) as [Hc Ht]. rewrite U3. split; [done|].
    destruct (is_committed (h_hold (y_inv y) (ev_tenantId e) (ev_orderId e))) eqn:Ed; [|intros k; rewrite U2; apply Ht].
    destruct Ht as (h & Hx & Ht). exists h. rewrite U5 by done. split; [done|].
    destruct Ht as [Ht | Ht]; [left | right]; intros k; rewrite U2; apply Ht.
Qed.

(** Holds that keep their lines keep matching. *)
Lemma holds_match_keep y y' : holds_match y -> (same_bodies y' -> same_bodies y) ->
  (forall t o b ls, matches (h_hold (y_inv y) t o) b ls -> matches (h_hold (y_inv y') t o) b ls) ->
  (forall i r o, at_pc y' i r (Stock_held o) -> at_pc y i r (Stock_held o)) ->
  orders (y_sales y') = orders (y_sales y) -> holds_match y'.
Proof.
  intros Hm Hb Hk Hr Ho HB. destruct (Hm (Hb HB)) as [M1 M2]. rewrite Ho. split; intros; apply Hk; eauto.
Qed.

(** Moving a request on without holding or selling anything new. *)
Lemma stock_ok_move y i r p p' inv : stock_ok y -> at_pc y i r p -> (forall o, p' <> Stock_held o) ->
  unsold (y_inv y) inv -> (forall t o b ls, matches (h_hold (y_inv y) t o) b ls -> matches (h_hold inv t o) b ls) ->
  stock_ok (set_thread y i r p' (y_sales y) inv).
Proof.
  intros Hok Hi Hp Hu Hk.
  assert (Hback : forall j x o, at_pc (set_thread y i r p' (y_sales y) inv) j x (Stock_held o) -> at_pc y j x (Stock_held o)).
  { intros j x o [(-> & -> & E) | [_ Hj]]%(at_pc_set _ _ _ _ _ _ _ _ _ _ Hi); [by destruct (Hp o) | done]. }
  apply (stock_ok_unsold y); try done.
  - intros j x o Hj%Hback. by eapply un_some, sk_held.
  - apply (holds_match_keep y); [apply Hok | | exact Hk | exact Hback | done].
    unfold same_bodies. by rewrite (requests_set _ _ _ _ _ _ _ Hi).
Qed.

Lemma event_order y e : sales_ok y -> e ∈ outbox (y_sales y) ->
  exists id now o, o ∈ orders (y_sales y) /\ e = completed_event id now o.
Proof.
  intros Hs He. destruct (so_events _ Hs) as (meta & E & _). rewrite E in He.
  apply elem_of_lookup_zip_with in He as (i & m & o & -> & _ & Ho). exists m.1, m.2, o. split; [|done].
  by eapply list_elem_of_lookup_2.
Qed.

Lemma event_ids y : sales_ok y -> map (fun e => (ev_tenantId e, ev_orderId e)) (outbox (y_sales y)) =
  map (fun o => (o_tenantId o, o_id o)) (orders (y_sales y)).
Proof.
  intros Hs. destruct (so_events _ Hs) as (meta & -> & Hl). revert Hl. generalize (orders (y_sales y)).
  induction meta as [|m meta IH]; intros [|o os] Hl; try done. cbn. f_equal. apply IH. by injection Hl.
Qed.

Lemma event_inj y e e' : sales_ok y -> e ∈ outbox (y_sales y) -> e' ∈ outbox (y_sales y) ->
  (ev_tenantId e, ev_orderId e) = (ev_tenantId e', ev_orderId e') -> e = e'.
Proof.
  intros Hs. apply (NoDup_map_inj (fun e => (ev_tenantId e, ev_orderId e))). rewrite event_ids by done.
  apply (NoDup_fmap_1 snd). change (NoDup (map snd (map (fun o => (o_tenantId o, o_id o)) (orders (y_sales y))))).
  rewrite map_map. apply Hs.
Qed.

Lemma event_positive y e : sales_ok y -> e ∈ outbox (y_sales y) -> positive (oc_items (completed_order e)).
Proof.
  intros Hs He. destruct (event_order y e Hs He) as (id & now & o & Ho & ->).
  destruct (so_built _ Hs o Ho) as (r & c & n & Hr & ->). cbn. rewrite !map_map. cbn.
  apply (rq_lines_positive r). by apply (so_valid _ Hs).
Qed.

(** Processing an event once. *)
Lemma stock_ok_deliver y e rows inv inbox : sales_ok y -> stock_ok y -> e ∈ outbox (y_sales y) ->
  handleBody rows (y_inv y) (y_inbox y) e = (inv, inbox) ->
  stock_ok {| y_sales := y_sales y; y_inv := inv; y_inbox := inbox; y_threads := y_threads y |}.
Proof.
  intros Hs Hok He E. unfold handleBody in E. case_bool_decide as Hin; [injection E as <- <-; by destruct Hok|].
  destruct Hok as [K1 K2 K3 K4 K5 K6 K7]. unfold onCompleted in E.
  assert (Hinb : forall id, id ∈ ({[ev_id e]} ∪ y_inbox y : gset string) -> id ∈ map ev_id (outbox (y_sales y))).
  { intros id [->%elem_of_singleton | Hid]%elem_of_union; [by apply list_elem_of_fmap_2 | auto]. }
  assert (Hself : ev_id e ∈ ({[ev_id e]} ∪ y_inbox y : gset string)) by (apply elem_of_union; left; by apply elem_of_singleton).
  assert (Hother : forall id, id ∉ ({[ev_id e]} ∪ y_inbox y : gset string) -> id ∉ y_inbox y).
  { intros id Hn Hi. apply Hn, elem_of_union. by right. }
  assert (Hcase : forall e', e' ∈ outbox (y_sales y) -> e' = e \/ e' <> e).
  { intros e' He'. destruct (decide (ev_id e' = ev_id e)) as [E1|E1]; [left | right; congruence].
    eapply (NoDup_map_inj ev_id); [apply Hs | done..]. }
  destruct (K6 e He) as [Hc0 Ht0]. specialize (Hc0 Hin). rewrite Hc0 in Ht0.
  destruct (hasWarehouseReservation rows (ev_tenantId e) (ev_orderId e)) eqn:Ew.
  - injection E as <- <-. split; try done. intros e' He'. cbn [y_inbox y_inv]. destruct (K6 e' He') as [Hc Ht].
    split; [|exact Ht]. intros Hn. by apply Hc, Hother.
  - destruct (commit_law (y_inv y) (ev_tenantId e) (completed_order e) K1 (event_positive y e Hs He))
      as (s' & Ec & C1 & C2 & C3 & C4 & C5). cbn [oc_orderId completed_order] in *. rewrite Ec in E. injection E as <- <-.
    destruct (K4 e He) as [h Hh]. split; cbn [y_inv y_inbox y_sales]; try done.
    + intros i r o Hi. destruct (K3 i r o Hi) as [x Hx].
      destruct (decide ((rq_tenant r, rq_orderId r) = (ev_tenantId e, ev_orderId e))) as [[= -> ->]|Hne].
      * rewrite C2, Hh. by eexists.
      * rewrite C3 by done. by eexists.
    + intros e' He'. destruct (decide ((ev_tenantId e', ev_orderId e') = (ev_tenantId e, ev_orderId e))) as [[= -> ->]|Hne].
      * rewrite C2, Hh. by eexists.
      * rewrite C3 by done. by apply K4.
    + intros t o Hn. assert (Hne : (t, o) <> (ev_tenantId e, ev_orderId e)).
      { intros [= -> ->]. apply Hn. by apply (list_elem_of_fmap_2 (fun e => (ev_tenantId e, ev_orderId e))). }
      rewrite C3 by done. destruct (K5 t o Hn) as [? Hz]. split; [done|]. intros k. by rewrite C4.
    + intros e' He'. unfold taken_once. cbn [y_inbox y_inv]. destruct (Hcase e' He') as [->|Hne].
      * split; [done|]. rewrite C2, Hh. cbn [fmap option_fmap option_map committed_as is_committed fst]. rewrite bool_decide_eq_true_2 by done.
        exists (committed_as h). split; [done|]. cbn. rewrite Hh in C5. destruct h as [[st b] ls]. cbn in Hc0.
        rewrite Hh in Hc0. cbn in Hc0. destruct st; [left | done | right | right]; intros k; specialize (C5 k); cbn beta iota zeta in C5;
          rewrite Ht0, Z.sub_0_r in C5; exact C5.
      * assert (Hk : (ev_tenantId e', ev_orderId e') <> (ev_tenantId e, ev_orderId e)) by (intros Hk; by apply Hne, (event_inj y)).
        rewrite C3 by done. destruct (K6 e' He') as [Hc Ht]. unfold taken_once in *. split; [intros Hn; by apply Hc, Hother|].
        destruct (is_committed (h_hold (y_inv y) (ev_tenantId e') (ev_orderId e'))); [|intros k; rewrite C4 by done; apply Ht].
        destruct Ht as (x & Hx & [Ht | Ht]); exists x; (split; [done|]); [left | right]; intros k; rewrite C4 by done; apply Ht.
    + apply (holds_match_keep y); try done. intros t o b ls (x & Hx & M1 & M2). cbn [y_inv].
      destruct (decide ((t, o) = (ev_tenantId e, ev_orderId e))) as [[= -> ->]|Hne].
      * exists (committed_as x). by rewrite C2, Hx.
      * exists x. by rewrite C3.
Qed.

Lemma order_lines_of r code now : order_lines (build_order r code now) = rq_lines r.
Proof. unfold order_lines, rq_lines. cbn. by rewrite map_map. Qed.

Lemma stock_ok_reserve y i r u1 u2 e out inv' p' : sales_ok y -> stock_ok y -> no_collision y -> at_pc y i r Looked_up ->
  h_reserve (y_inv y) (rq_tenant r) (hold_request r) u1 u2 e = Ok (out, inv') ->
  (forall o, p' = Stock_held o -> exists code now, o = build_order r code now) ->
  stock_ok (set_thread y i r p' (y_sales y) inv').
Proof.
  intros Hs Hok Hc Hi E Hp'. pose proof (at_pc_request _ _ _ _ Hi) as Hr.
  destruct (unsold_reserve _ _ _ _ _ _ _ (sk_ok _ Hok) (so_valid _ Hs r Hr) E) as (Hu & Hm & Ho).
  apply (stock_ok_unsold y); try done.
  - intros j x o [(-> & -> & _) | [_ Hj]]%(at_pc_set _ _ _ _ _ _ _ _ _ _ Hi).
    + destruct Hm as (h & Hh & _). by exists h.
    + by eapply un_some, sk_held.
  - intros HB. assert (HB' : same_bodies y) by (unfold same_bodies in *; by rewrite (requests_set _ _ _ _ _ _ _ Hi) in HB).
    destruct (sk_lines _ Hok HB') as [M1 M2]. cbn [y_inv set_thread y_sales].
    assert (Hsame : forall x, x ∈ requests y -> (rq_tenant x, rq_orderId x) = (rq_tenant r, rq_orderId r) -> rq_dto x = rq_dto r).
    { intros x Hx [= E1 E2]. destruct (Hc x r Hx Hr E2) as [E3 E4]. by apply HB'. }
    split.
    + intros j x o [(-> & -> & _) | [_ Hj]]%(at_pc_set _ _ _ _ _ _ _ _ _ _ Hi); [done|].
      destruct (decide ((rq_tenant x, rq_orderId x) = (rq_tenant r, rq_orderId r))) as [Ex|Hne]; [|rewrite Ho by done; by eapply M1].
      pose proof (Hsame x (at_pc_request _ _ _ _ Hj) Ex) as Ed. injection Ex as -> ->. unfold rq_lines. rewrite Ed. exact Hm.
    + intros o Hin. destruct (so_built _ Hs o Hin) as (x & c & n & Hx & ->).
      destruct (decide ((rq_tenant x, rq_orderId x) = (rq_tenant r, rq_orderId r))) as [Ex|Hne]; [|rewrite Ho by done; by apply M2].
      pose proof (Hsame x Hx Ex) as Ed. rewrite order_lines_of. cbn. injection Ex as -> ->. unfold rq_lines. rewrite Ed. exact Hm.
Qed.

(** Writing the order of a held request and its event. *)
Lemma stock_ok_write y i r code now eventId now' p' :
  let o := build_order r code now in
  let s' := {| orders := orders (y_sales y) ++ [o]; outbox := outbox (y_sales y) ++ [completed_event eventId now' o] |} in
  sales_ok y -> stock_ok y -> at_pc y i r (Stock_held o) -> (forall o, p' <> Stock_held o) ->
  rq_orderId r ∉ map o_id (orders (y_sales y)) -> eventId ∉ map ev_id (outbox (y_sales y)) ->
  stock_ok (set_thread y i r p' s' (y_inv y)).
Proof.
  intros o s' Hs Hok Hi Hp Hid Hev.
  assert (Hback : forall j x q, at_pc (set_thread y i r p' s' (y_inv y)) j x (Stock_held q) -> at_pc y j x (Stock_held q)).
  { intros j x q [(-> & -> & E) | [_ Hj]]%(at_pc_set _ _ _ _ _ _ _ _ _ _ Hi); [by destruct (Hp q) | done]. }
  assert (Hnew : (rq_tenant r, rq_orderId r) ∉ map (fun e => (ev_tenantId e, ev_orderId e)) (outbox (y_sales y))).
  { rewrite event_ids by done. intros (x & [= E1 E2] & Hx)%list_elem_of_fmap. apply Hid. rewrite E2. by apply list_elem_of_fmap_2. }
  assert (Hno : eventId ∉ y_inbox y) by (intros Hin; by apply Hev, (sk_inbox _ Hok)).
  destruct (sk_none _ Hok _ _ Hnew) as [Hc0 Hz0]. destruct (sk_held _ Hok _ _ _ Hi) as [h Hh].
  destruct Hok as [K1 K2 K3 K4 K5 K6 K7]. split; cbn [y_inv y_inbox y_sales set_thread outbox s']; try done.
  - intros id Hin. rewrite map_app. apply elem_of_app. left. auto.
  - intros j x q Hj%Hback. by eapply K3.
  - intros e [He | ->%list_elem_of_singleton]%elem_of_app; [auto|]. cbn. by exists h.
  - intros t q Hn. apply K5. intros Hin. apply Hn. rewrite map_app. apply elem_of_app. by left.
  - intros e [He | ->%list_elem_of_singleton]%elem_of_app; [by apply K6|]. cbn. by rewrite Hc0.
  - intros HB. assert (HB' : same_bodies y) by (unfold same_bodies in *; by rewrite (requests_set _ _ _ _ _ _ _ Hi) in HB).
    destruct (K7 HB') as [M1 M2]. split; [intros j x q Hj%Hback; by eapply M1|].
    intros x [Hx | ->%list_elem_of_singleton]%elem_of_app; [by apply M2|]. unfold o. rewrite order_lines_of. by eapply M1.
Qed.

Lemma stock_ok_step y y' : sys_step y y' -> no_collision y' -> sales_ok y -> stock_ok y -> stock_ok y'.
Proof.
  intros Hst Hc' Hs Hok. pose proof (no_collision_mono _ _ Hst Hc') as Hc. clear Hc'. pose proof (sk_ok _ Hok) as Hk.
  destruct Hst as [y r Hv | y i r b Hi | y i r n u1 u2 e code now p inv Hi E | y i r o t ev now p s Hi E | y i r Hi
    | y i r lf Hi | y i r n p inv Hi E | y ev rows inv inbox He E | y inv He].
  - assert (Hback : forall j x q, at_pc {| y_sales := y_sales y; y_inv := y_inv y; y_inbox := y_inbox y;
      y_threads := y_threads y ++ [(r, Start)] |} j x (Stock_held q) -> at_pc y j x (Stock_held q)).
    { intros j x q Hj. unfold at_pc in Hj. cbn in Hj. apply lookup_app_Some in Hj as [Hj | [_ Hj]]; [done|].
      by apply list_lookup_singleton_Some in Hj as [_ [=]]. }
    apply (stock_ok_unsold y); try done; [intros j x q Hj%Hback; exact (sk_held _ Hok _ _ _ Hj)|].
    apply (holds_match_keep y); try done; [apply Hok|]. intros HB. by eapply same_bodies_mono, HB; apply step_request.
  - apply (stock_ok_move _ _ _ _ _ _ Hok Hi); [|by apply unsold_refl | done].
    intros o. by destruct (look_up_cases (y_sales y) b r) as [-> | [[er ->] | (w & _ & ->)]].
  - destruct (reserve_stock_cases _ _ _ _ _ _ _ _ _ _ E) as [[-> [er ->]] | (out & Er & Hp)].
    + by apply (stock_ok_move _ _ _ _ _ _ Hok Hi); [| apply unsold_refl |].
    + apply (stock_ok_reserve y i r u1 u2 e out); try done. destruct Hp as [-> | [er ->]]; [|done]. intros o [= <-]. eauto.
  - destruct (run_transaction_cases _ _ _ _ _ _ _ _ E) as [[-> Hp] | (Hf & Hev & os & Hsv & -> & Hp)].
    + apply (stock_ok_move _ _ _ _ _ _ Hok Hi); [|by apply unsold_refl | done]. by destruct Hp as [[kv ->] | (w & _ & ->)].
    + destruct (so_held _ Hs i r o Hi) as (code & nw & ->).
      destruct (save_order_new y r code nw os Hs Hc (at_pc_request _ _ _ _ Hi) Hf Hsv) as [-> Hid].
      apply stock_ok_write; try done. by destruct Hp as [-> | ->].
  - apply (stock_ok_move _ _ _ _ _ _ Hok Hi); [|by apply unsold_refl | done].
    intros o. unfold after_key_violation. by destruct (findByKey _ _ _).
  - apply (stock_ok_move _ _ _ _ _ _ Hok Hi); [|by apply unsold_refl | done].
    intros o. unfold check_created. destruct lf; [done|]. by destruct (findByKey _ _ _).
  - unfold release_hold in E. injection E as <- <-.
    destruct (release_law (y_inv y) (rq_tenant r) (rq_orderId r) Hk) as (s & Er & _).
    destruct (unsold_release _ _ _ _ Hk Er) as [Hu Hh]. rewrite Er.
    assert (Hm : forall t o b ls, matches (h_hold (y_inv y) t o) b ls -> matches (h_hold s t o) b ls).
    { intros t o b ls Hm. destruct (Hh t o) as [-> | ->]; [done | by apply close_matches]. }
    by destruct n; apply (stock_ok_move _ _ _ _ _ _ Hok Hi); try done; apply unsold_refl.
  - by eapply stock_ok_deliver.
  - destruct (unsold_env _ _ Hk He) as [Hu Hh]. apply (stock_ok_unsold y); try done.
    + intros i r o Hi. by eapply un_some, sk_held.
    + apply (holds_match_keep y); try done; [apply Hok|]. intros t o b ls Hm. cbn [y_inv].
      destruct (Hh t o) as [-> | ->]; [done | by apply close_matches].
Qed.

(** A hold service that knows no order yet. *)
Definition fresh (inv : St) : Prop := h_ok inv /\ forall t o, h_hold inv t o = None /\ forall k, h_sold inv t o k = 0.

Lemma stock_ok_idle inv : fresh inv -> stock_ok (idle inv).
Proof.
  intros [Hok Hf]. split; cbn; try done; try (intros e He; by apply not_elem_of_nil in He).
  - intros t o _. destruct (Hf t o) as [-> ?]. done.
  - intros _. split; [done|]. intros o Ho. by apply not_elem_of_nil in Ho.
Qed.

Lemma reachable_ok inv y : fresh inv -> rtc sys_step (idle inv) y -> no_collision y -> sales_ok y /\ stock_ok y.
Proof.
  intros Hf. apply (run_inv (fun y => sales_ok y /\ stock_ok y) no_collision).
  - apply no_collision_mono.
  - split; [apply sales_ok_idle | by apply stock_ok_idle].
  - intros y1 y2 Hs Hc [H1 H2]. split; [by eapply sales_ok_step | by eapply stock_ok_step].
Qed.

(** ** Totals *)

Definition dto_total (ls : list OrderLineReqDto) : Z := total (fun l => li_quantity l * li_unitPrice l) ls.
Definition dto_count (ls : list OrderLineReqDto) : Z := total li_quantity ls.

Lemma sum_numbers {A} (f : A -> number) (g : A -> Z) (m : Z) (l : list A) :
  0 <= m -> (forall a, a ∈ l -> f a = int (g a) /\ 0 <= g a <= m) -> forall z, 0 <= z ->
  z + m * Z.of_nat (length l) <= 2 ^ 53 -> foldl (fun s a => nadd s (f a)) (int z) l = int (z + total g l) /\
  0 <= total g l <= m * Z.of_nat (length l).
Proof.
  intros Hm. induction l as [|a l IH]; intros Hf z Hz Hb; cbn [foldl length] in *.
  - change (total g []) with 0. split; [f_equal; lia | lia].
  - destruct (Hf a ltac:(left)) as [-> Ha]. rewrite nadd_int by lia.
    destruct (IH ltac:(intros; apply Hf; by right) (z + g a)) as [-> ?]; [lia..|].
    change (total g (a :: l)) with (g a + total g l). split; [f_equal; lia | lia].
Qed.

(** The bounds of the request body keep every sum exact. *)
Lemma order_totals r code now : items_valid (dto_items (rq_dto r)) = true ->
  let o := build_order r code now in
  o_totalAmount o = int (dto_total (dto_items (rq_dto r))) /\ o_itemCount o = int (dto_count (dto_items (rq_dto r))) /\
  0 <= dto_total (dto_items (rq_dto r)) <= 10 ^ 15 /\ 1 <= dto_count (dto_items (rq_dto r)) <= 10 ^ 6.
Proof.
  intros Hv. cbv zeta. cbn [o_totalAmount o_itemCount build_order]. unfold items_valid in Hv. bool_prop.
  match goal with H : forallb _ _ = true |- _ => rewrite forallb_forall in H; rename H into Hf end.
  set (ls := dto_items (rq_dto r)) in *.
  assert (Hl : forall l, l ∈ ls -> 1 <= li_quantity l <= 10000 /\ 0 <= li_unitPrice l <= 1000000000).
  { intros l Hl. specialize (Hf l ltac:(by apply list_elem_of_In)). unfold line_valid in Hf. bool_prop. lia. }
  assert (Hfold : forall {B} (h : B -> number) (m : OrderLineReqDto -> B) z, foldl (fun s i => nadd s (h i)) z (map m ls) =
    foldl (fun s l => nadd s (h (m l))) z ls).
  { intros B h m. clear. induction ls as [|l ls IH]; intros z; cbn; [done|]. apply IH. }
  rewrite !Hfold. cbn [oi_lineTotal item_of oi_quantity].
  destruct (sum_numbers (fun l => nmul (int (li_quantity l)) (int (li_unitPrice l))) (fun l => li_quantity l * li_unitPrice l)
    (10 ^ 13) ls ltac:(lia)) with (z := 0) as [E1 B1]; [|lia..|].
  { intros l [? ?]%Hl. rewrite nmul_int by nia. split; [done | nia]. }
  destruct (sum_numbers (fun l => int (li_quantity l)) li_quantity (10 ^ 4) ls ltac:(lia)) with (z := 0) as [E2 B2]; [|lia..|].
  { intros l [? ?]%Hl. split; [done | lia]. }
  rewrite E1, E2. unfold dto_total, dto_count. split_and!; try done; try lia.
  destruct ls as [|l ls']; [cbn in *; lia|]. pose proof (Hl l ltac:(left)).
  change (total li_quantity (l :: ls')) with (li_quantity l + total li_quantity ls').
  assert (0 <= total li_quantity ls') by (apply total_nonneg; intros x Hx; destruct (Hl x ltac:(by right)); lia). lia.
Qed.

(** ** Running the system *)

(** The steps as data, so that concrete runs evaluate. *)
Inductive action :=
| A_request (r : Request)
| A_look_up (i : nat) (branchStatus : option string)
| A_reserve (i : nat) (n : net) (u1 u2 : string) (e : Z) (code : string) (now : Z)
| A_tx (i : nat) (t : tx) (eventId : string) (now : Z)
| A_key_violation (i : nat)
| A_check (i : nat) (lookupFails : bool)
| A_release (i : nat) (n : net)
| A_deliver (j : nat) (rows : list WarehouseRow).

Definition exec (y : sys) (a : action) : option sys :=
  match a with
  | A_request r =>
      if items_valid (dto_items (rq_dto r))
      then Some {| y_sales := y_sales y; y_inv := y_inv y; y_inbox := y_inbox y; y_threads := y_threads y ++ [(r, Start)] |}
      else None
  | A_look_up i b =>
      match y_threads y !! i with
      | Some (r, Start) => Some (set_thread y i r (look_up (y_sales y) b r) (y_sales y) (y_inv y))
      | _ => None
      end
  | A_reserve i n u1 u2 e code now =>
      match y_threads y !! i with
      | Some (r, Looked_up) =>
          let x := reserve_stock n (y_inv y) r u1 u2 e code now in Some (set_thread y i r x.1 (y_sales y) x.2)
      | _ => None
      end
  | A_tx i t ev now =>
      match y_threads y !! i with
      | Some (r, Stock_held o) =>
          let x := run_transaction t (y_sales y) r o ev now in Some (set_thread y i r x.1 x.2 (y_inv y))
      | _ => None
      end
  | A_key_violation i =>
      match y_threads y !! i with
      | Some (r, Tx_failed true) => Some (set_thread y i r (after_key_violation (y_sales y) r) (y_sales y) (y_inv y))
      | _ => None
      end
  | A_check i lf =>
      match y_threads y !! i with
      | Some (r, Tx_failed false) => Some (set_thread y i r (check_created lf (y_sales y) r) (y_sales y) (y_inv y))
      | _ => None
      end
  | A_release i n =>
      match y_threads y !! i with
      | Some (r, Not_created) => let x := release_hold n (y_inv y) r in Some (set_thread y i r x.1 (y_sales y) x.2)
      | _ => None
      end
  | A_deliver j rows =>
      match outbox (y_sales y) !! j with
      | Some e => let x := handleBody rows (y_inv y) (y_inbox y) e in
                  Some {| y_sales := y_sales y; y_inv := x.1; y_inbox := x.2; y_threads := y_threads y |}
      | None => None
      end
  end.

Fixpoint run (y : sys) (l : list action) : option sys :=
  match l with [] => Some y | a :: l => y' ← exec y a; run y' l end.

Lemma exec_step y a y' : exec y a = Some y' -> sys_step y y'.
Proof.
  destruct a as [r | i b | i n u1 u2 e code now | i t ev now | i | i lf | i n | j rows]; cbn; intros H.
  - destruct (items_valid _) eqn:E; [|done]. injection H as <-. by constructor.
  - destruct (y_threads y !! i) as [[r []]|] eqn:E; try done. injection H as <-. by constructor.
  - destruct (y_threads y !! i) as [[r []]|] eqn:E; try done. injection H as <-. eapply step_reserve; [done | apply surjective_pairing].
  - destruct (y_threads y !! i) as [[r []]|] eqn:E; try done. injection H as <-. eapply step_tx; [done | apply surjective_pairing].
  - destruct (y_threads y !! i) as [[r [| | |[]| |]]|] eqn:E; try done. injection H as <-. by constructor.
  - destruct (y_threads y !! i) as [[r [| | |[]| |]]|] eqn:E; try done. injection H as <-. by constructor.
  - destruct (y_threads y !! i) as [[r []]|] eqn:E; try done. injection H as <-. by eapply step_release.
  - destruct (outbox (y_sales y) !! j) as [e|] eqn:E; [|done]. injection H as <-.
    eapply step_deliver; [by eapply list_elem_of_lookup_2 | apply surjective_pairing].
Qed.

Lemma run_steps l : forall y y', run y l = Some y' -> rtc sys_step y y'.
Proof.
  induction l as [|a l IH]; intros y y'; cbn; [by intros [= <-]|].
  intros (y1 & E & H)%bind_Some. eapply rtc_l; [by eapply exec_step | auto].
Qed.

(** ** What the counter sale guarantees *)

(** C4.  One key, one sale.  Whatever the interleaving of requests, lost calls,
    aborted or cut-off transactions, deliveries and expiries: a store has at most
    one order per Idempotency-Key, and all requests with that key that were
    answered with an order were answered with that order, for the same request
    hash; a retried sale is never sold twice. *)
Theorem one_order_per_key (inv : St) (y : sys) :
  rtc sys_step (idle inv) y -> no_collision y ->
  NoDup (map order_key (orders (y_sales y))) /\
  (forall i j r r' a a', at_pc y i r (Finished (Ok a)) -> at_pc y j r' (Finished (Ok a')) ->
     rq_tenant r = rq_tenant r' -> rq_key r = rq_key r' ->
     cr_order a = cr_order a' /\ hashRequest (rq_dto r) = hashRequest (rq_dto r')) /\
  (forall i r a, at_pc y i r (Finished (Ok a)) ->
     exists o, o ∈ orders (y_sales y) /\ order_key o = (rq_tenant r, rq_key r) /\ cr_order a = toOrderRes o).
Proof.
  intros Hr Hc.
  assert (Hs : sales_ok y)
    by exact (run_inv sales_ok no_collision inv y no_collision_mono (sales_ok_idle inv) sales_ok_step Hr Hc).
  split; [apply Hs|]. split.
  - intros i j r r' a a' Hi Hj E1 E2. destruct (so_answers _ Hs i r a Hi) as (o & Ho & Hk & Hh & ->).
    destruct (so_answers _ Hs j r' a' Hj) as (o' & Ho' & Hk' & Hh' & ->).
    assert (o = o') as <- by (eapply (NoDup_map_inj order_key); [apply Hs | done.. | congruence]). by rewrite <- Hh, <- Hh'.
  - intros i r a Hi. destruct (so_answers _ Hs i r a Hi) as (o & ? & ? & _ & ?). by exists o.
Qed.

(** Orders and events go together and their money is exact: the outbox has
    exactly one completed event per order, in the order of the sales, with the
    order's id, branch, total and lines; every stored total and item count is the
    exact sum over the request's lines (the bounds of the request keep them under
    10^15, far from where numbers round). *)
Theorem orders_and_events_agree (inv : St) (y : sys) :
  rtc sys_step (idle inv) y -> no_collision y ->
  NoDup (map ev_id (outbox (y_sales y))) /\
  Forall2 (fun o e => ev_tenantId e = o_tenantId o /\ ev_orderId e = o_id o /\ ev_branchId e = o_branchId o /\
             ev_totalAmount e = o_totalAmount o /\ oc_items (completed_order e) = order_lines o)
    (orders (y_sales y)) (outbox (y_sales y)) /\
  (forall o, o ∈ orders (y_sales y) -> exists r, r ∈ requests y /\ order_key o = (rq_tenant r, rq_key r) /\
     o_totalAmount o = int (dto_total (dto_items (rq_dto r))) /\
     o_itemCount o = int (dto_count (dto_items (rq_dto r))) /\
     0 <= dto_total (dto_items (rq_dto r)) <= 10 ^ 15).
Proof.
  intros Hr Hc.
  assert (Hs : sales_ok y)
    by exact (run_inv sales_ok no_collision inv y no_collision_mono (sales_ok_idle inv) sales_ok_step Hr Hc).
  split; [apply Hs|]. split.
  - destruct (so_events _ Hs) as (meta & -> & Hl). revert Hl. generalize (orders (y_sales y)). clear.
    induction meta as [|m meta IH]; intros [|o os] Hl; try done; constructor; [|apply IH; by injection Hl].
    cbn. unfold order_lines. by rewrite map_map.
  - intros o Ho. destruct (so_built _ Hs o Ho) as (r & c & n & Hin & ->). exists r.
    destruct (order_totals r c n (so_valid _ Hs r Hin)) as (E1 & E2 & B & _). done.
Qed.

(** C3.  Stock leaves the shelf once per order.  From a store that knows no
    order, in every reachable state: nothing is ever deducted for an order that
    was not sold; an order whose event has not been processed, or was skipped, has
    taken nothing, and its hold is not committed; and, when a key always comes with the same
    body, an order never takes more of an SKU than it sold, however often its
    event is delivered and whatever happened to its hold. *)
Theorem stock_deducted_once (inv : St) (y : sys) :
  fresh inv -> rtc sys_step (idle inv) y -> no_collision y ->
  (forall t o, (forall x, x ∈ orders (y_sales y) -> (o_tenantId x, o_id x) <> (t, o)) ->
     is_committed (h_hold (y_inv y) t o) = false /\ forall k, h_sold (y_inv y) t o k = 0) /\
  (forall o, o ∈ orders (y_sales y) -> exists e, e ∈ outbox (y_sales y) /\ ev_orderId e = o_id o /\
     is_Some (h_hold (y_inv y) (o_tenantId o) (o_id o)) /\
     (ev_id e ∉ y_inbox y -> is_committed (h_hold (y_inv y) (o_tenantId o) (o_id o)) = false) /\
     (is_committed (h_hold (y_inv y) (o_tenantId o) (o_id o)) = false -> forall k, h_sold (y_inv y) (o_tenantId o) (o_id o) k = 0) /\
     (same_bodies y -> forall k, 0 <= h_sold (y_inv y) (o_tenantId o) (o_id o) k <= lines_qty k (order_lines o))).
Proof.
  intros Hf Hr Hc. destruct (reachable_ok inv y Hf Hr Hc) as [Hs Hk]. split.
  - intros t o Hn. apply (sk_none _ Hk). rewrite event_ids by done. intros (x & E & Hx)%list_elem_of_fmap. by apply (Hn x Hx).
  - intros o Ho. assert (He : exists e, e ∈ outbox (y_sales y) /\ ev_tenantId e = o_tenantId o /\ ev_orderId e = o_id o /\
      oc_items (completed_order e) = order_lines o).
    { assert (Hin : (o_tenantId o, o_id o) ∈ map (fun e => (ev_tenantId e, ev_orderId e)) (outbox (y_sales y))).
      { rewrite event_ids by done. by apply (list_elem_of_fmap_2 (fun o => (o_tenantId o, o_id o))). }
      apply list_elem_of_fmap in Hin as (e & [= E1 E2] & He). exists e. split; [done|]. split; [done|]. split; [done|].
      destruct (event_order y e Hs He) as (id & n & o' & Ho' & ->). cbn in E2.
      assert (o = o') as <- by (eapply (NoDup_map_inj o_id); [apply Hs | done..]). cbn. unfold order_lines. by rewrite map_map. }
    destruct He as (e & He & E1 & E2 & E3). exists e. destruct (sk_event _ Hk e He) as [Hcm Ht]. unfold taken_once in Ht.
    rewrite E1, E2, E3 in *. split_and!; try done.
    + pose proof (sk_order _ Hk e He) as Hsome. by rewrite E1, E2 in Hsome.
    + intros Ed. by rewrite Ed in Ht.
    + intros HB k. pose proof (event_positive y e Hs He) as Hp. rewrite E3 in Hp. pose proof (lines_qty_nonneg k _ Hp).
      destruct (is_committed (h_hold (y_inv y) (o_tenantId o) (o_id o))); [|rewrite Ht; lia]. destruct (sk_lines _ Hk HB) as [_ M]. destruct (M o Ho) as (x & Hx & _ & Hq).
      destruct Ht as (h & Hh & [Ht | Ht]); [|apply Ht]. rewrite Ht. replace h with x by congruence. rewrite Hq. lia.
Qed.

(** A delivered sale takes exactly its lines.  In a reachable state with one
    body per key, let an event be delivered for the first time while its order
    still holds its stock (and has no warehouse reservation): the delivery succeeds,
    commits the hold and takes of every SKU exactly what the order sold, and
    delivering the event again changes nothing. *)
Theorem delivery_takes_the_sold_lines (inv : St) (y : sys) (o : OrderEntity) (e : CompletedEvent)
    (rows rows' : list WarehouseRow) (b : string) (ls : list StockLine) :
  fresh inv -> rtc sys_step (idle inv) y -> no_collision y -> same_bodies y ->
  o ∈ orders (y_sales y) -> e ∈ outbox (y_sales y) -> ev_orderId e = o_id o -> ev_id e ∉ y_inbox y ->
  hasWarehouseReservation rows (ev_tenantId e) (ev_orderId e) = false ->
  h_hold (y_inv y) (o_tenantId o) (o_id o) = Some (held, b, ls) ->
  exists inv', handleBody rows (y_inv y) (y_inbox y) e = (inv', {[ev_id e]} ∪ y_inbox y) /\
    h_hold inv' (o_tenantId o) (o_id o) = Some (committed, b, ls) /\ b = o_branchId o /\
    (forall k, h_sold inv' (o_tenantId o) (o_id o) k = lines_qty k (order_lines o)) /\
    handleBody rows' inv' ({[ev_id e]} ∪ y_inbox y) e = (inv', {[ev_id e]} ∪ y_inbox y).
Proof.
  intros Hf Hr Hc HB Ho He Eo Hin Hw Hh. destruct (reachable_ok inv y Hf Hr Hc) as [Hs Hk].
  destruct (event_order y e Hs He) as (id & n & o' & Ho' & E). assert (o = o') as <-.
  { eapply (NoDup_map_inj o_id); [apply Hs | done..|]. rewrite <- Eo, E. done. }
  assert (Et : ev_tenantId e = o_tenantId o) by (by rewrite E).
  destruct (sk_event _ Hk e He) as [Hcm Hz]. rewrite (Hcm Hin) in Hz.
  destruct (commit_law (y_inv y) (ev_tenantId e) (completed_order e) (sk_ok _ Hk) (event_positive y e Hs He))
    as (s' & Ec & _ & C2 & _ & _ & C5). cbn [oc_orderId completed_order] in *. rewrite Et, Eo in *. rewrite Hh in C2, C5.
  destruct (sk_lines _ Hk HB) as [_ M]. destruct (M o Ho) as (x & Hx & M1 & M2). assert (x = (held, b, ls)) as -> by congruence.
  exists s'. assert (Hb : handleBody rows (y_inv y) (y_inbox y) e = (s', {[ev_id e]} ∪ y_inbox y)).
  { unfold handleBody, onCompleted. rewrite bool_decide_eq_false_2 by done. rewrite Et, Eo, Hw, Ec. done. }
  split; [done|]. split; [done|]. split; [done|]. split.
  - intros k. specialize (C5 k). cbn beta iota zeta in C5. rewrite Hz, Z.sub_0_r in C5. rewrite C5. apply M2.
  - unfold handleBody. rewrite bool_decide_eq_true_2; [done|]. apply elem_of_union. left. by apply elem_of_singleton.
Qed.

(** A sale that is not disturbed succeeds.  In a reachable state let a
    request in scope, with a new key and an active branch, run its three segments
    in a row with fresh ids and code: when inventory grants the hold the answer is
    a new order, stored with exactly one event, and the hold is for its lines;
    when inventory refuses, the answer is an error and sales has stored nothing. *)
Theorem undisturbed_sale_succeeds (inv : St) (y : sys) (i : nat) (r : Request) (u1 u2 code eventId : string) (e now now' : Z) :
  fresh inv -> rtc sys_step (idle inv) y -> no_collision y -> at_pc y i r Start ->
  branchAllowed (rq_scope r) (dto_branchId (rq_dto r)) = true ->
  findByKey (y_sales y) (rq_tenant r) (rq_key r) = None ->
  code ∉ map o_code (orders (y_sales y)) -> eventId ∉ map ev_id (outbox (y_sales y)) ->
  match h_reserve (y_inv y) (rq_tenant r) (hold_request r) u1 u2 e with
  | Ok (_, inv') =>
      let o := build_order r code now in
      exists y', run y [A_look_up i (Some "active"); A_reserve i Delivered u1 u2 e code now; A_tx i Commits eventId now'] = Some y' /\
        at_pc y' i r (Finished (Ok {| cr_order := toOrderRes o; cr_replayed := false |})) /\
        y_sales y' = {| orders := orders (y_sales y) ++ [o]; outbox := outbox (y_sales y) ++ [completed_event eventId now' o] |} /\
        y_inv y' = inv' /\ matches (h_hold inv' (rq_tenant r) (rq_orderId r)) (o_branchId o) (order_lines o)
  | Throw _ =>
      exists y' err, run y [A_look_up i (Some "active"); A_reserve i Delivered u1 u2 e code now] = Some y' /\
        at_pc y' i r (Finished (Throw err)) /\ y_sales y' = y_sales y /\ y_inv y' = y_inv y
  end.
Proof.
  intros Hf Hr Hc Hi Hb Hn Hcode Hev. destruct (reachable_ok inv y Hf Hr Hc) as [Hs Hk]. pose proof (at_pc_request _ _ _ _ Hi) as Hin.
  pose proof (lookup_lt_Some _ _ _ Hi) as Hlt. unfold at_pc in Hi.
  assert (El : look_up (y_sales y) (Some "active") r = Looked_up) by (unfold look_up; by rewrite Hb, Hn).
  destruct (h_reserve (y_inv y) (rq_tenant r) (hold_request r) u1 u2 e) as [[out inv']|er] eqn:Er.
  - cbv zeta. set (o := build_order r code now).
    assert (Ew : write_order (y_sales y) r o eventId now' = Some
      ({| orders := orders (y_sales y) ++ [o]; outbox := outbox (y_sales y) ++ [completed_event eventId now' o] |}, (o, false))).
    { unfold write_order. rewrite Hn. assert (Esv : save_order (orders (y_sales y)) o = Some (orders (y_sales y) ++ [o])).
      { assert (Hid : forall x, x ∈ orders (y_sales y) -> String.eqb (o_id x) (o_id o) = false).
        { intros x Hx. apply String.eqb_neq. intros E. destruct (so_built _ Hs x Hx) as (r' & c & n & Hr' & ->).
          destruct (Hc r' r Hr' Hin E) as [E1 E2]. apply (find_key_None _ _ _ _ Hn Hx). unfold order_key. cbn. congruence. }
        unfold save_order. cbv zeta. rewrite !(proj2 (existsb_false _ _)); [done|..]; intros x Hx; rewrite Hid by done; try done.
        cbn. apply andb_false_iff. right. apply String.eqb_neq. intros E. apply Hcode. rewrite <- E.
        by apply list_elem_of_fmap_2. }
      rewrite Esv. cbn [mbind option_bind]. rewrite (proj2 (existsb_false _ _)); [done|].
      intros x Hx. apply String.eqb_neq. intros E. apply Hev. rewrite <- E. by apply list_elem_of_fmap_2. }
    eexists. cbn [run exec]. rewrite Hi. cbn [mbind option_bind]. rewrite El. cbn [run exec set_thread y_threads y_inv y_sales y_inbox].
    rewrite list_lookup_insert_eq by done. unfold reserve_stock. rewrite Er. cbn [read_answer mbind option_bind fst snd].
    cbn [run exec set_thread y_threads y_inv y_sales y_inbox].
    rewrite list_insert_insert_eq, list_lookup_insert_eq by done. unfold run_transaction. fold o. rewrite Ew. cbn [mbind option_bind fst snd].
    split; [done|]. split; [unfold at_pc; cbn; rewrite list_lookup_insert_eq; [done | by rewrite ?length_insert]|].
    split; [done|]. split; [done|]. unfold o. rewrite order_lines_of.
    by destruct (unsold_reserve _ _ _ _ _ _ _ (sk_ok _ Hk) (so_valid _ Hs r Hin) Er) as (_ & Hm & _).
  - assert (Ea : exists err, reserve_stock Delivered (y_inv y) r u1 u2 e code now = (Finished (Throw err), y_inv y)).
    { unfold reserve_stock. rewrite Er. cbv zeta. unfold fail. destruct er as [[l| | |] ?|?]; cbn; eauto. }
    destruct Ea as [err Ea]. eexists. exists err. cbn [run exec]. rewrite Hi. cbn [mbind option_bind]. rewrite El.
    cbn [run exec set_thread y_threads y_inv y_sales y_inbox]. rewrite list_lookup_insert_eq by done. cbv zeta. rewrite Ea. cbn [mbind option_bind fst snd].
    split; [done|]. split; [|done]. unfold at_pc. cbn. rewrite list_lookup_insert_eq; [done | by rewrite ?length_insert].
Qed.
End Sale.

(** ** Concrete runs on the branch stock store *)

(** A stand-in for the hash: long enough to be cut, and different for the keys used here. *)
Definition demo_hash (s : string) : string := s +:+ "0123456789abcdef0123456789abcdef".

Definition demo_sale (key : string) (qty : Z) : Request :=
  {| rq_tenant := "t"; rq_account := "u"; rq_scope := None; rq_key := key;
     rq_dto := {| dto_branchId := "b"; dto_paymentMethod := "cash"; dto_customerName := None;
       dto_items := [{| li_sku := "AO-02"; li_name := "Ao thun"; li_quantity := qty; li_unitPrice := 150000 |}] |} |}.

Definition demo_run (acts : list action) : option sys := run demo_hash (idle demo_stock) acts.

(** The two side conditions on the requests of a run, decided. *)
#[export] Instance OrderLineReqDto_eq_dec : EqDecision OrderLineReqDto.
Proof. solve_decision. Defined.
#[export] Instance CreateOrderReqDto_eq_dec : EqDecision CreateOrderReqDto.
Proof. solve_decision. Defined.

Definition pairs_ok (sha256 : string -> string) (l : list Request) : bool :=
  forallb (fun r => forallb (fun r' =>
    (negb (String.eqb (rq_orderId sha256 r) (rq_orderId sha256 r')) ||
       (String.eqb (rq_tenant r) (rq_tenant r') && String.eqb (rq_key r) (rq_key r'))) &&
    (negb (String.eqb (rq_tenant r) (rq_tenant r') && String.eqb (rq_key r) (rq_key r')) ||
       bool_decide (rq_dto r = rq_dto r'))) l) l.

Lemma pairs_ok_sound {St} sha256 (y : @sys St) : pairs_ok sha256 (requests y) = true ->
  no_collision sha256 y /\ same_bodies y.
Proof.
  unfold pairs_ok. rewrite forallb_forall. intros Hp.
  assert (H : forall r r', r ∈ requests y -> r' ∈ requests y ->
    (rq_orderId sha256 r = rq_orderId sha256 r' -> rq_tenant r = rq_tenant r' /\ rq_key r = rq_key r') /\
    (rq_tenant r = rq_tenant r' -> rq_key r = rq_key r' -> rq_dto r = rq_dto r')).
  { intros r r' Hr%list_elem_of_In Hr'%list_elem_of_In. specialize (Hp r Hr). rewrite forallb_forall in Hp.
    specialize (Hp r' Hr'). apply andb_true_iff in Hp as [P1 P2]. split.
    - intros E. rewrite E, String.eqb_refl in P1. cbn in P1. apply andb_true_iff in P1 as [?%String.eqb_eq ?%String.eqb_eq]. done.
    - intros E1 E2. rewrite E1, E2, !String.eqb_refl in P2. by apply bool_decide_eq_true in P2. }
  split; intros r r' Hr Hr'; by apply H.
Qed.

Lemma nothing_sold d t o k : forallb (fun g => negb (String.eqb (lg_ref_type g) "sale")) (inventory_ledger d) = true ->
  sold_of d t o k = 0.
Proof.
  unfold sold_of. induction (inventory_ledger d) as [|g l IH]; cbn; [done|]. intros [H1%negb_true_iff%String.eqb_neq H2]%andb_true_iff.
  change (sale_row t o k g + total (sale_row t o k) l = 0). rewrite IH by done. unfold sale_row.
  rewrite bool_decide_eq_false_2 by congruence. done.
Qed.

Lemma demo_fresh : fresh demo_stock.
Proof.
  split; [exact demo_stock_wf|]. intros t o. split; [reflexivity|]. intros k. apply nothing_sold. vm_compute. reflexivity.
Qed.

(** Two requests with one key race; both hold the same stock, one writes the order. *)
Definition race : list action :=
  [A_request (demo_sale "k" 2); A_request (demo_sale "k" 2); A_look_up 0 (Some "active"); A_look_up 1 (Some "active");
   A_reserve 0 Delivered "r1" "r2" 100 "DH-1" 5; A_reserve 1 Delivered "r3" "r4" 100 "DH-2" 6;
   A_tx 1 CommitsThenLost "e1" 7; A_check 1 false; A_tx 0 Commits "e2" 8].

Definition run_of (acts : list action) : sys := default (idle demo_stock) (demo_run acts).

(** A run that goes through is reachable, and its side conditions evaluate. *)
Lemma run_of_ok acts : is_Some (demo_run acts) -> pairs_ok demo_hash (requests (run_of acts)) = true ->
  rtc (sys_step demo_hash) (idle demo_stock) (run_of acts) /\
  no_collision demo_hash (run_of acts) /\ same_bodies (run_of acts).
Proof.
  intros [y E] Hp%pairs_ok_sound. split; [|done]. unfold run_of. rewrite E. by eapply run_steps.
Qed.

Lemma one_order_per_key_witness : NoDup (map order_key (orders (y_sales (run_of race)))) /\
  length (orders (y_sales (run_of race))) = 1%nat.
Proof.
  destruct (run_of_ok race) as (Hr & Hc & _); [vm_compute; eauto | vm_compute; reflexivity |]. split.
  - exact (proj1 (one_order_per_key demo_hash demo_stock (run_of race) Hr Hc)).
  - vm_compute. reflexivity.
Defined.

Lemma orders_and_events_agree_witness : NoDup (map ev_id (outbox (y_sales (run_of race)))) /\
  map ev_totalAmount (outbox (y_sales (run_of race))) = [int 300000].
Proof.
  destruct (run_of_ok race) as (Hr & Hc & _); [vm_compute; eauto | vm_compute; reflexivity |]. split.
  - exact (proj1 (orders_and_events_agree demo_hash demo_stock (run_of race) Hr Hc)).
  - vm_compute. reflexivity.
Defined.

Lemma stock_deducted_once_witness :
  let y := run_of (race ++ [A_deliver 0 []; A_deliver 0 []]) in
  (forall k, sold_of (y_inv y) "t" "other" k = 0) /\ sold_of (y_inv y) "t" (orderIdFor demo_hash "t" "k") "AO-02" = 2.
Proof.
  destruct (run_of_ok (race ++ [A_deliver 0 []; A_deliver 0 []])) as (Hr & Hc & _); [vm_compute; eauto | vm_compute; reflexivity |].
  cbv zeta. split; [|vm_compute; reflexivity].
  destruct (stock_deducted_once demo_hash demo_stock _ demo_fresh Hr Hc) as [H _].
  refine (proj2 (H "t" "other" _)). intros x Hx.
  assert (Hall : forallb (fun x => negb (String.eqb (o_id x) "other"))
    (orders (y_sales (run_of (race ++ [A_deliver 0 []; A_deliver 0 []])))) = true) by (vm_compute; reflexivity).
  rewrite forallb_forall in Hall. specialize (Hall x (proj1 (list_elem_of_In _ _) Hx)).
  intros [= _ E]. rewrite E in Hall. discriminate.
Defined.

Lemma delivery_takes_the_sold_lines_witness : exists e inv', e ∈ outbox (y_sales (run_of race)) /\
  handleBody [] (y_inv (run_of race)) (y_inbox (run_of race)) e = (inv', {[ev_id e]} ∪ y_inbox (run_of race)) /\
  sold_of inv' "t" (orderIdFor demo_hash "t" "k") "AO-02" = 2.
Proof.
  destruct (run_of_ok race) as (Hr & Hc & HB); [vm_compute; eauto | vm_compute; reflexivity |].
  eassert (Ho : orders (y_sales (run_of race)) !! 0%nat = Some _) by (vm_compute; reflexivity).
  eassert (He : outbox (y_sales (run_of race)) !! 0%nat = Some _) by (vm_compute; reflexivity).
  apply list_elem_of_lookup_2 in Ho, He.
  edestruct (delivery_takes_the_sold_lines demo_hash demo_stock (run_of race) _ _ [] [] "b"
    [{| sku := "AO-02"; quantity := 2 |}] demo_fresh Hr Hc HB Ho He) as (inv' & H1 & _ & _ & H2 & _).
  - reflexivity.
  - apply not_elem_of_empty.
  - reflexivity.
  - vm_compute. reflexivity.
  - eexists _, inv'. split; [exact He|]. split; [exact H1|]. specialize (H2 "AO-02"). exact H2.
Defined.

Lemma undisturbed_sale_witness : exists y',
  run demo_hash (run_of [A_request (demo_sale "k" 2)])
    [A_look_up 0 (Some "active"); A_reserve 0 Delivered "r1" "r2" 100 "DH-1" 5; A_tx 0 Commits "e1" 7] = Some y' /\
  length (orders (y_sales y')) = 1%nat.
Proof.
  destruct (run_of_ok [A_request (demo_sale "k" 2)]) as (Hr & Hc & _); [vm_compute; eauto | vm_compute; reflexivity |].
  pose proof (undisturbed_sale_succeeds demo_hash demo_stock _ 0 (demo_sale "k" 2) "r1" "r2" "DH-1" "e1" 100 5 7
    demo_fresh Hr Hc eq_refl eq_refl eq_refl (not_elem_of_nil _) (not_elem_of_nil _)) as H.
  eassert (E : h_reserve (y_inv (run_of [A_request (demo_sale "k" 2)])) (rq_tenant (demo_sale "k" 2))
    (hold_request demo_hash (demo_sale "k" 2)) "r1" "r2" 100 = Ok (_, _)) by (vm_compute; reflexivity).
  rewrite E in H. destruct H as (y' & H1 & _ & H2 & _). exists y'. split; [exact H1|]. rewrite H2. reflexivity.
Defined.

(** The release of a failed request can free stock that an order has sold.
    Two requests race with one key and share the hold; one transaction aborts,
    its check finds no order yet, the other request writes the order, and then
    the first gives the hold back.  The freed pieces are sold again: two answered
    sales take six pieces of an SKU of which four were on the shelf, with no lost
    call and no expiry. *)
Theorem release_race_sells_twice : exists y,
  rtc (sys_step demo_hash) (idle demo_stock) y /\ no_collision demo_hash y /\ same_bodies y /\
  (exists b ls, h_hold (y_inv y) "t" (orderIdFor demo_hash "t" "k") = Some (released, b, ls)) /\
  (exists a1 a2, at_pc y 1 (demo_sale "k" 2) (Finished (Ok a1)) /\ at_pc y 2 (demo_sale "k2" 4) (Finished (Ok a2))) /\
  on_hand_of demo_stock ("t", "b", "AO-02") = 4 /\
  total (fun o => lines_qty "AO-02" (order_lines o)) (orders (y_sales y)) = 6.
Proof.
  set (acts := [A_request (demo_sale "k" 2); A_request (demo_sale "k" 2); A_request (demo_sale "k2" 4);
    A_look_up 0 (Some "active"); A_look_up 1 (Some "active");
    A_reserve 0 Delivered "r1" "r2" 100 "DH-1" 5; A_reserve 1 Delivered "r3" "r4" 100 "DH-2" 6;
    A_tx 0 (Aborts false) "e1" 7; A_check 0 false; A_tx 1 Commits "e2" 8; A_release 0 Delivered;
    A_look_up 2 (Some "active"); A_reserve 2 Delivered "r5" "r6" 100 "DH-3" 9; A_tx 2 Commits "e3" 10]).
  destruct (run_of_ok acts) as (Hr & Hc & HB); [vm_compute; eauto | vm_compute; reflexivity |].
  exists (run_of acts). split; [exact Hr|]. split; [exact Hc|]. split; [exact HB|].
  split; [eexists _, _; vm_compute; reflexivity|].
  split; [eexists _, _; split; vm_compute; reflexivity|]. split; vm_compute; reflexivity.
Qed.
