(* ===== verification/CustomerDomain.v ===== *)
(** * Customer domain layer

    apps/customer/src/domain/customer-domain.ts: phone and e-mail
    normalization, masking, CSV cells, money, loyalty points (earning,
    redemption, reversal on returns) and membership tiers. *)

From S2P Require Import Prelude JsNumber JsString.
From Stdlib Require Import QArith Ascii.

Open Scope Z_scope.

Inductive CustomerDomainErrorCode :=
| CUSTOMER_NOT_FOUND | CUSTOMER_ALREADY_EXISTS | INVALID_PHONE_NUMBER | CUSTOMER_INACTIVE | CUSTOMER_MERGE_CONFLICT
| CUSTOMER_GROUP_NOT_FOUND | CUSTOMER_GROUP_ALREADY_EXISTS | CUSTOMER_GROUP_NOT_EMPTY | CUSTOMER_ADDRESS_NOT_FOUND
| MEMBERSHIP_TIER_NOT_FOUND | MEMBERSHIP_TIER_ALREADY_EXISTS | LOYALTY_NOT_ENABLED | LOYALTY_ACCOUNT_NOT_FOUND
| INSUFFICIENT_LOYALTY_POINTS | LOYALTY_HOLD_NOT_FOUND | LOYALTY_HOLD_EXPIRED | LOYALTY_HOLD_ALREADY_COMMITTED
| LOYALTY_STATE_CONFLICT | LOYALTY_REVERSAL_CONFLICT | LOYALTY_MINIMUM_NOT_MET | LOYALTY_MAXIMUM_EXCEEDED
| IDEMPOTENCY_CONFLICT | RESOURCE_VERSION_CONFLICT | TENANT_ACCESS_DENIED | PERMISSION_DENIED | VALIDATION_ERROR
| IMPORT_LIMIT_EXCEEDED | CUSTOMER_GROUP_SEEDED | CUSTOMER_TAG_NOT_FOUND | CUSTOMER_TAG_ALREADY_EXISTS
| CUSTOMER_HAS_OUTSTANDING_DEBT.

Abbreviation res := (result CustomerDomainErrorCode).
Abbreviation throw c st := (Throw (DomainError c st)).

(** ** Phone numbers *)

(** [s.replace(/[^class]/g, '')]. *)
Fixpoint sfilter (p : ascii -> bool) (s : string) : string :=
  match s with
  | EmptyString => EmptyString
  | String c r => if p c then String c (sfilter p r) else sfilter p r
  end.

(** [[+\d\s().-]]. *)
Definition phone_char (c : ascii) : bool :=
  is_digit c || is_ws c || Ascii.eqb c "+" || Ascii.eqb c "(" || Ascii.eqb c ")" || Ascii.eqb c "." || Ascii.eqb c "-".

Definition startsWith (p s : string) : bool := String.prefix p s.

(** [rest.startsWith('0') ? rest : `0${rest}`]. *)
Definition national (rest : string) : string := if startsWith "0" rest then rest else "0" +:+ rest.

Definition drop2 (s : string) : string := String.substring 2 (String.length s - 2) s.

(** [/^0[35789]\d{8}$/] and [/^02\d{8,9}$/]. *)
Definition isVnMobile (s : string) : bool :=
  match s with
  | String c (String d r) =>
      Ascii.eqb c "0" && (Ascii.eqb d "3" || Ascii.eqb d "5" || Ascii.eqb d "7" || Ascii.eqb d "8" || Ascii.eqb d "9") &&
      sall is_digit r && (String.length r =? 8)%nat
  | _ => false
  end.
Definition isVnLandline (s : string) : bool :=
  match s with
  | String c (String d r) =>
      Ascii.eqb c "0" && Ascii.eqb d "2" && sall is_digit r &&
      ((String.length r =? 8)%nat || (String.length r =? 9)%nat)
  | _ => false
  end.

(** The final check of a Vietnamese number. *)
Definition check_vn (candidate : string) : res (option string) :=
  if negb (isVnMobile candidate) && negb (isVnLandline candidate) then throw INVALID_PHONE_NUMBER 422
  else Ok (Some candidate).

Definition normalizePhoneNumber (raw : option string) : res (option string) :=
  match raw with
  | None => Ok None
  | Some raw =>
      let trimmed := trim raw in
      if String.eqb trimmed "" then Ok None
      else if negb (sall phone_char trimmed) then throw INVALID_PHONE_NUMBER 422
      else
        let hasPlus := startsWith "+" trimmed in
        let digitsOnly := sfilter is_digit trimmed in
        let len := String.length digitsOnly in
        if String.eqb digitsOnly "" then throw INVALID_PHONE_NUMBER 422
        else if hasPlus && startsWith "84" digitsOnly then check_vn (national (drop2 digitsOnly))
        else if negb hasPlus && startsWith "84" digitsOnly && ((len =? 11)%nat || (len =? 12)%nat)
        then check_vn (national (drop2 digitsOnly))
        else if hasPlus && negb (startsWith "84" digitsOnly) then
          if (len <? 8)%nat || (15 <? len)%nat then throw INVALID_PHONE_NUMBER 422
          else Ok (Some ("+" +:+ digitsOnly))
        else check_vn digitsOnly
  end.

(** ** E-mail *)

(** A dot with something on both sides: [[^\s@]+\.[^\s@]+]. *)
Fixpoint has_inner_dot (seen : bool) (s : string) : bool :=
  match s with
  | EmptyString => false
  | String c r => (seen && Ascii.eqb c "." && negb (String.eqb r "")) || has_inner_dot true r
  end.

(** The text before and after the first [@]. *)
Fixpoint split_at (s : string) : option (string * string) :=
  match s with
  | EmptyString => None
  | String c r =>
      if Ascii.eqb c "@" then Some ("", r)
      else match split_at r with Some (l, d) => Some (String c l, d) | None => None end
  end.

Definition email_char (c : ascii) : bool := negb (is_ws c) && negb (Ascii.eqb c "@").

(** [/^[^\s@]+@[^\s@]+\.[^\s@]+$/]. *)
Definition is_email (s : string) : bool :=
  match split_at s with
  | Some (l, d) => negb (String.eqb l "") && sall email_char l && sall email_char d && has_inner_dot false d
  | None => false
  end.

Definition normalizeEmail (raw : option string) : res (option string) :=
  match raw with
  | None => Ok None
  | Some raw =>
      let trimmed := toLowerCase (trim raw) in
      if String.eqb trimmed "" then Ok None
      else if (160 <? slen trimmed) || negb (is_email trimmed) then throw VALIDATION_ERROR 422
      else Ok (Some trimmed)
  end.

(** ** Masks and CSV cells *)

Definition slice_last (n : nat) (s : string) : string :=
  String.substring (String.length s - n) n s.

Definition maskPhoneNumber (phone : option string) : option string :=
  match phone with
  | None | Some "" => None
  | Some p => if slen p <? 7 then Some "***" else Some (String.substring 0 3 p +:+ "***" +:+ slice_last 4 p)
  end.

Record AddressPhones := { ap_phone : option string; ap_phoneNormalized : option string }.

Definition maskAddressPhones (address : option AddressPhones) (fullPhone : bool) : option AddressPhones :=
  match address with
  | None => None
  | Some a =>
      if fullPhone then Some a
      else Some {| ap_phone := maskPhoneNumber (ap_phone a); ap_phoneNormalized := maskPhoneNumber (ap_phoneNormalized a) |}
  end.

(** The second piece of [email.split('@')]: up to the next [@]. *)
Definition until_at (s : string) : string := match split_at s with Some (d, _) => d | None => s end.

Definition maskEmailAddress (email : option string) : option string :=
  match email with
  | None | Some "" => None
  | Some e =>
      match split_at e with
      | None => Some "***"
      | Some (local, rest) =>
          let domain := until_at rest in
          if String.eqb local "" || String.eqb domain "" then Some "***"
          else if slen local <=? 2 then Some (String.substring 0 1 local +:+ "***@" +:+ domain)
          else Some (String.substring 0 2 local +:+ "***" +:+ slice_last 1 local +:+ "@" +:+ domain)
      end
  end.

Definition quote : ascii := char 34.

Definition starts_in (cls : ascii -> bool) (s : string) : bool :=
  match s with String c _ => cls c | EmptyString => false end.

(** [[=+\-@]] and [[=+\-@|\t\r]]. *)
Definition formula_char (c : ascii) : bool :=
  Ascii.eqb c "=" || Ascii.eqb c "+" || Ascii.eqb c "-" || Ascii.eqb c "@".
Definition risky_char (c : ascii) : bool :=
  formula_char c || Ascii.eqb c "|" || (code c =? 9) || (code c =? 13).

(** [[QUOTE , \n \r]]: what makes a cell need quoting. *)
Definition special_char (c : ascii) : bool :=
  Ascii.eqb c quote || Ascii.eqb c "," || (code c =? 10) || (code c =? 13).

Fixpoint double_quotes (s : string) : string :=
  match s with
  | EmptyString => EmptyString
  | String c r => if Ascii.eqb c quote then String c (String c (double_quotes r)) else String c (double_quotes r)
  end.

Definition sanitizeCsvCell (value : jsval) : string :=
  if is_nullish value then ""
  else
    let str := to_str value in
    let safe := if starts_in risky_char str || starts_in formula_char (ltrim str) then "'" +:+ str else str in
    if negb (sall (fun c => negb (special_char c)) safe)
    then String quote (double_quotes safe +:+ String quote "")
    else safe.

(** ** Money *)

Definition parseVndBigInt (raw : jsval) (allowZero : bool) : res Z :=
  if is_nullish raw then (if allowZero then Ok 0 else throw VALIDATION_ERROR 422)
  else
    val ← match raw with
          | VBig z => Ok z
          | VNum n => if isSafeInteger n then bigint_of_number n else throw VALIDATION_ERROR 422
          | _ => throw VALIDATION_ERROR 422
          end;
    if val <? 0 then throw VALIDATION_ERROR 422
    else if negb allowZero && (val =? 0) then throw VALIDATION_ERROR 422
    else Ok val.

Definition toVndNumber (amount : Z) : res number :=
  let n := number_of_bigint amount in
  if isSafeInteger n then Ok n else throw VALIDATION_ERROR 422.

(** ** Loyalty *)

Record LoyaltySettingConfig := {
  isEnabled : bool;
  earnAmountPerPoint : number;
  redeemValuePerPoint : number;
  minRedeemPoints : number;
  maxRedeemPointsPerOrder : option number;
  holdTtlSeconds : number }.

Record EarnResult := { er_earnedPoints : number; er_eligibleSpendVnd : number; er_appliedRateVnd : number }.

Definition calculateEarnedPoints (eligibleSpendVnd : jsval) (settings : LoyaltySettingConfig) : res EarnResult :=
  spend ← parseVndBigInt eligibleSpendVnd true;
  rate ← parseVndBigInt (VNum (earnAmountPerPoint settings)) false;
  if negb (isEnabled settings) || (spend <=? 0) then
    spendN ← toVndNumber spend;
    rateN ← toVndNumber rate;
    Ok {| er_earnedPoints := int 0; er_eligibleSpendVnd := spendN; er_appliedRateVnd := rateN |}
  else
    q ← bdiv spend rate;
    let points := number_of_bigint q in
    spendN ← toVndNumber spend;
    rateN ← toVndNumber rate;
    Ok {| er_earnedPoints := mathMax (int 0) points; er_eligibleSpendVnd := spendN; er_appliedRateVnd := rateN |}.

Definition computeAvailablePoints (postedPointsBalance heldPoints : number) : number :=
  mathMax (int 0) (nsub postedPointsBalance heldPoints).

Record RedemptionResult := {
  rd_requestedPoints : number;
  rd_availableBefore : number;
  rd_availableAfter : number;
  rd_discountValueVnd : number }.

Definition validatePointRedemption (requestedPoints postedPointsBalance heldPoints : number)
    (settings : LoyaltySettingConfig) : res RedemptionResult :=
  if negb (isEnabled settings) then throw LOYALTY_NOT_ENABLED 409
  else if negb (isInteger requestedPoints) || nle requestedPoints (int 0) then throw VALIDATION_ERROR 422
  else if nlt requestedPoints (minRedeemPoints settings) then throw LOYALTY_MINIMUM_NOT_MET 422
  else if match maxRedeemPointsPerOrder settings with Some m => nlt m requestedPoints | None => false end
  then throw LOYALTY_MAXIMUM_EXCEEDED 422
  else
    let availableBefore := computeAvailablePoints postedPointsBalance heldPoints in
    if nlt availableBefore requestedPoints then throw INSUFFICIENT_LOYALTY_POINTS 409
    else
      redeemRate ← parseVndBigInt (VNum (redeemValuePerPoint settings)) false;
      pts ← bigint_of_number requestedPoints;
      let discountVnd := pts * redeemRate in
      discountN ← toVndNumber discountVnd;
      Ok {| rd_requestedPoints := requestedPoints; rd_availableBefore := availableBefore;
            rd_availableAfter := nsub availableBefore requestedPoints; rd_discountValueVnd := discountN |}.

Record ReversalInput := {
  rv_originalEarnedPoints : number;
  rv_alreadyReversedPoints : number;
  rv_originalEligibleSpendVnd : number;
  rv_returnRefundAmountVnd : number;
  rv_cumulativeRefundedAmountVnd : option number }.

Record ReversalResult := { pointsToReverse : number; remainingReversibleAfter : number }.

(** [Number((BigInt(earned) * part) / spend)]. *)
Definition proportional_points (earned : number) (part spend : Z) : res number :=
  e ← bigint_of_number earned;
  q ← bdiv (e * part) spend;
  Ok (number_of_bigint q).

Definition calculateReturnPointReversal (p : ReversalInput) : res ReversalResult :=
  if nle (rv_originalEarnedPoints p) (int 0) then Ok {| pointsToReverse := int 0; remainingReversibleAfter := int 0 |}
  else
    let remainingPoints := mathMax (int 0) (nsub (rv_originalEarnedPoints p) (rv_alreadyReversedPoints p)) in
    if neq remainingPoints (int 0) then Ok {| pointsToReverse := int 0; remainingReversibleAfter := int 0 |}
    else
      origSpend ← parseVndBigInt (VNum (rv_originalEligibleSpendVnd p)) true;
      returnRefund ← parseVndBigInt (VNum (rv_returnRefundAmountVnd p)) true;
      if (origSpend <=? 0) || (returnRefund <=? 0)
      then Ok {| pointsToReverse := int 0; remainingReversibleAfter := remainingPoints |}
      else
        match rv_cumulativeRefundedAmountVnd p with
        | Some cum =>
            cumRefund ← parseVndBigInt (VNum cum) true;
            if origSpend <=? cumRefund
            then Ok {| pointsToReverse := remainingPoints; remainingReversibleAfter := int 0 |}
            else
              target ← proportional_points (rv_originalEarnedPoints p) cumRefund origSpend;
              let delta := mathMax (int 0) (mathMin remainingPoints (nsub target (rv_alreadyReversedPoints p))) in
              Ok {| pointsToReverse := delta; remainingReversibleAfter := nsub remainingPoints delta |}
        | None =>
            if origSpend <=? returnRefund
            then Ok {| pointsToReverse := remainingPoints; remainingReversibleAfter := int 0 |}
            else
              proportional ← proportional_points (rv_originalEarnedPoints p) returnRefund origSpend;
              let toReverse := mathMax (int 0) (mathMin remainingPoints proportional) in
              Ok {| pointsToReverse := toReverse; remainingReversibleAfter := nsub remainingPoints toReverse |}
        end.

(** ** Membership tiers *)

Record MembershipTierCandidate := {
  mt_id : string;
  mt_code : string;
  mt_name : string;
  mt_minPoints : number;
  mt_discountRate : string;
  mt_status : string }.

(** The sign a sort reads off a comparator's number; [NaN] counts as 0. *)
Definition nsign (n : number) : Z := if nlt n (int 0) then -1 else if nlt (int 0) n then 1 else 0.

Section Tiers.
(** [String.prototype.localeCompare], implemented by the ICU library. *)
Context (localeCompare : string -> string -> Z).

Definition compare_tiers (a b : MembershipTierCandidate) : Z :=
  if negb (neq (mt_minPoints b) (mt_minPoints a)) then nsign (nsub (mt_minPoints b) (mt_minPoints a))
  else
    let discDiff := nsub (number_of_string (mt_discountRate b)) (number_of_string (mt_discountRate a)) in
    if negb (neq discDiff (int 0)) then nsign discDiff
    else localeCompare (mt_code a) (mt_code b).

Definition eligible (qualifyingPoints : number) (t : MembershipTierCandidate) : bool :=
  String.eqb (mt_status t) "ACTIVE" && nle (mt_minPoints t) qualifyingPoints.

Definition resolveEligibleMembershipTier (qualifyingPoints : number) (tiers : list MembershipTierCandidate)
    : option MembershipTierCandidate :=
  let active := List.filter (eligible qualifyingPoints) tiers in
  match active with
  | [] => None
  | _ => head (sort_by compare_tiers active)
  end.
End Tiers.

(** * Properties *)

(** ** Phone numbers *)

Section Phones.
Lemma sfilter_digits s : sall is_digit (sfilter is_digit s) = true.
Proof. induction s as [|c s IH]; cbn; [done|]. destruct (is_digit c) eqn:E; cbn; [by rewrite E | done]. Qed.

Lemma sfilter_id p s : sall p s = true -> sfilter p s = s.
Proof. induction s as [|c s IH]; cbn; [done|]. intros [-> Hs]%andb_true_iff. by rewrite IH. Qed.

Lemma digits_phone_chars s : sall is_digit s = true -> sall phone_char s = true.
Proof. apply sall_impl. intros c H. unfold phone_char. by rewrite H. Qed.

Lemma vn_digits s : isVnMobile s = true \/ isVnLandline s = true ->
  exists c r, s = String "0" (String c r) /\ sall is_digit s = true.
Proof.
  unfold isVnMobile, isVnLandline. destruct s as [|z [|c r]]; [by intros [?|?].. |].
  destruct (Ascii.eqb_spec z "0") as [->|]; [|by intros [?|?]]. intros H. exists c, r. split; [done|].
  assert (Hc : is_digit c = true /\ sall is_digit r = true).
  { cbn [andb] in H. destruct H as [H|H]; bool_prop;
      repeat match goal with E : Ascii.eqb _ _ = true |- _ => apply Ascii.eqb_eq in E as -> end; done. }
  destruct Hc as [H1 H2]. cbn [sall]. by rewrite H1, H2.
Qed.

(** A canonical Vietnamese number is its own normal form. *)
Lemma normalize_vn s : isVnMobile s = true \/ isVnLandline s = true -> normalizePhoneNumber (Some s) = Ok (Some s).
Proof.
  intros H. destruct (vn_digits s H) as (c & r & E & Hd). unfold normalizePhoneNumber.
  rewrite digits_trim, digits_phone_chars, sfilter_id by done. cbv zeta.
  assert (Hp : startsWith "+" s = false /\ startsWith "84" s = false /\ String.eqb s "" = false) by (by subst s).
  destruct Hp as (-> & -> & ->). cbn [negb andb].
  unfold check_vn. destruct H as [-> | ->]; cbn [negb andb]; [done|]. by rewrite andb_false_r.
Qed.

Lemma normalize_plus ds : sall is_digit ds = true -> startsWith "84" ds = false ->
  (8 <= String.length ds <= 15)%nat -> normalizePhoneNumber (Some ("+" +:+ ds)) = Ok (Some ("+" +:+ ds)).
Proof.
  intros Hd H84 Hl. unfold normalizePhoneNumber. change ("+" +:+ ds) with (String "+" ds).
  assert (Ht : trim (String "+" ds) = String "+" ds).
  { apply trim_id. cbn [sall]. apply andb_true_iff. split; [done|]. eapply sall_impl; [exact digit_not_ws | exact Hd]. }
  rewrite Ht. cbv zeta. cbn [sall sfilter]. rewrite digits_phone_chars, sfilter_id by done.
  change (is_digit "+") with false. cbn [String.eqb negb andb]. change (phone_char "+") with true.
  change (startsWith "+" (String "+" ds)) with (String.prefix "" ds).
  replace (String.prefix "" ds) with true by (by destruct ds). cbn [negb andb]. rewrite H84. cbn [negb].
  destruct ds as [|c ds']; [cbn in Hl; lia|]. cbn [String.eqb].
  replace (_ <? 8)%nat with false by (symmetry; apply Nat.ltb_ge; lia).
  replace (15 <? _)%nat with false by (symmetry; apply Nat.ltb_ge; lia). done.
Qed.

Lemma check_vn_Ok c p : check_vn c = Ok (Some p) -> p = c /\ (isVnMobile p = true \/ isVnLandline p = true).
Proof.
  unfold check_vn. intros H. case_if_in H; [discriminate|]. injection H as <-. split; [done|].
  destruct (isVnMobile c); [by left|]. destruct (isVnLandline c); [by right | discriminate].
Qed.
End Phones.

(** Phone normalization yields a normal form: every accepted number is
    either a 10- or 11-digit Vietnamese number starting with 0 or a plus sign
    followed by 8 to 15 digits of another country, and normalizing it again
    changes nothing, so one person's number has one stored spelling. *)
Theorem phone_normal_form (raw p : string) :
  normalizePhoneNumber (Some raw) = Ok (Some p) ->
  normalizePhoneNumber (Some p) = Ok (Some p) /\
  (isVnMobile p = true \/ isVnLandline p = true \/
   exists ds, p = "+" +:+ ds /\ sall is_digit ds = true /\ startsWith "84" ds = false /\ (8 <= String.length ds <= 15)%nat).
Proof.
  intros H. assert (Hform : (isVnMobile p = true \/ isVnLandline p = true) \/
    exists ds, p = "+" +:+ ds /\ sall is_digit ds = true /\ startsWith "84" ds = false /\ (8 <= String.length ds <= 15)%nat).
  { unfold normalizePhoneNumber in H. cbv zeta in H.
    repeat (case_if_in H; [try discriminate; try (left; by apply check_vn_Ok in H as [_ ?])|]).
    - right. eexists. injection H as <-. split; [done|]. split; [apply sfilter_digits|].
      apply orb_false_iff in E5 as [L1%Nat.ltb_ge L2%Nat.ltb_ge]. apply andb_true_iff in E4 as [_ E4%negb_true_iff]. done.
    - left. by apply check_vn_Ok in H as [_ ?]. }
  destruct Hform as [Hv | (ds & -> & Hd & H84 & Hl)].
  - split; [by apply normalize_vn | tauto].
  - split; [by apply normalize_plus|]. right. right. by exists ds.
Qed.

Lemma phone_normal_form_witness :
  normalizePhoneNumber (Some "+84 0912-345-678") = Ok (Some "0912345678") /\
  normalizePhoneNumber (Some "0912345678") = Ok (Some "0912345678").
Proof.
  assert (H : normalizePhoneNumber (Some "+84 0912-345-678") = Ok (Some "0912345678")) by (vm_compute; reflexivity).
  split; [exact H|]. exact (proj1 (phone_normal_form _ _ H)).
Defined.

(** ** Loyalty *)

Section Loyalty.
Lemma parseVndBigInt_int z az : 0 <= z <= MAX_SAFE_INTEGER -> (az = false -> z <> 0) ->
  parseVndBigInt (VNum (int z)) az = Ok z.
Proof.
  intros Hz H0. unfold parseVndBigInt. cbn [is_nullish]. rewrite isSafeInteger_int, (proj2 (Z.leb_le _ _)) by lia.
  cbn. replace (z <? 0) with false by lia. destruct az; [done|]. specialize (H0 eq_refl). by replace (z =? 0) with false by lia.
Qed.

Lemma toVndNumber_safe z : Z.abs z <= MAX_SAFE_INTEGER -> toVndNumber z = Ok (int z).
Proof.
  intros H. unfold toVndNumber. rewrite number_of_bigint_isSafe, (proj2 (Z.leb_le _ _)) by done.
  by rewrite number_of_bigint_safe.
Qed.

Lemma proportional_points_int E c S : 0 <= E <= MAX_SAFE_INTEGER -> 0 <= c -> 0 < S -> c <= S ->
  proportional_points (int E) c S = Ok (int (E * c / S)) /\ 0 <= E * c / S <= E.
Proof.
  intros HE Hc HS Hle. assert (Hb : 0 <= E * c / S <= E).
  { split; [apply Z.div_pos; nia | apply Z.div_le_upper_bound; nia]. }
  split; [|done]. unfold proportional_points. cbn [bigint_of_number int Qden Qnum Pos.eqb]. rewrite bind_of_Ok.
  unfold bdiv. replace (S =? 0) with false by lia. rewrite bind_of_Ok, Z.quot_div_nonneg by nia.
  rewrite number_of_bigint_safe; [done | lia].
Qed.
End Loyalty.

Definition reversal (E R S refund cum : Z) : ReversalInput :=
  {| rv_originalEarnedPoints := int E; rv_alreadyReversedPoints := int R; rv_originalEligibleSpendVnd := int S;
     rv_returnRefundAmountVnd := int refund; rv_cumulativeRefundedAmountVnd := Some (int cum) |}.

(** The points that must have been taken back once [c] of the spend [S] is refunded. *)
Definition reversal_target (E S c : Z) : Z := if S <=? c then E else E * c / S.

(** The points reversed so far after a return of [x.1], [x.2] refunded in all. *)
Definition reverse_next (E S R : Z) (x : Z * Z) : Z :=
  match calculateReturnPointReversal (reversal E R S x.1 x.2) with
  | Ok r => R + nval (pointsToReverse r)
  | Throw _ => R
  end.

Lemma reversal_target_bounds E S c : 0 <= E -> 0 < S -> 0 <= c -> 0 <= reversal_target E S c <= E.
Proof.
  intros HE HS Hc. unfold reversal_target. destruct (Z.leb_spec S c); [lia|].
  split; [apply Z.div_pos; nia | apply Z.div_le_upper_bound; nia].
Qed.

Lemma reversal_target_mono E S c c' : 0 <= E -> 0 < S -> 0 <= c <= c' -> reversal_target E S c <= reversal_target E S c'.
Proof.
  intros HE HS Hc. pose proof (reversal_target_bounds E S c HE HS ltac:(lia)).
  unfold reversal_target in *. destruct (Z.leb_spec S c'), (Z.leb_spec S c); try lia. apply Z.div_le_mono; nia.
Qed.

Lemma reversal_step E S R refund cum : 0 < E <= MAX_SAFE_INTEGER -> 0 < S <= MAX_SAFE_INTEGER ->
  0 < refund <= MAX_SAFE_INTEGER -> 0 <= cum <= MAX_SAFE_INTEGER -> 0 <= R <= reversal_target E S cum ->
  exists r, calculateReturnPointReversal (reversal E R S refund cum) = Ok r /\
    pointsToReverse r = int (reversal_target E S cum - R) /\
    remainingReversibleAfter r = int (E - reversal_target E S cum).
Proof.
  intros HE HS Hr Hc HR. pose proof (reversal_target_bounds E S cum ltac:(lia) ltac:(lia) ltac:(lia)) as Hb.
  unfold calculateReturnPointReversal, reversal.
  cbn [rv_originalEarnedPoints rv_alreadyReversedPoints rv_originalEligibleSpendVnd rv_returnRefundAmountVnd
    rv_cumulativeRefundedAmountVnd]. rewrite nle_int. replace (E <=? 0) with false by lia. cbv zeta.
  unfold MAX_SAFE_INTEGER in *. rewrite nsub_int, mathMax_int, neq_int by lia. rewrite Z.max_r by lia.
  destruct (Z.eqb_spec (E - R) 0) as [Hz|Hz].
  { eexists. split; [done|]. cbn [pointsToReverse remainingReversibleAfter]. split; apply (f_equal int); lia. }
  rewrite !parseVndBigInt_int by (unfold MAX_SAFE_INTEGER; lia || done). rewrite !bind_of_Ok.
  replace (S <=? 0) with false by lia. replace (refund <=? 0) with false by lia. cbn [orb].
  unfold reversal_target in *. destruct (Z.leb_spec S cum).
  { eexists. split; [done|]. cbn [pointsToReverse remainingReversibleAfter]. split; apply (f_equal int); lia. }
  destruct (proportional_points_int E cum S) as [-> _]; [unfold MAX_SAFE_INTEGER; lia | lia | lia | lia |].
  rewrite bind_of_Ok. rewrite (nsub_int (E * cum / S) R), mathMin_int, mathMax_int by lia.
  rewrite Z.min_r, Z.max_r by lia. rewrite nsub_int by lia. eexists. split; [done|]. cbn [pointsToReverse remainingReversibleAfter]. split; apply (f_equal int); lia.
Qed.

(** Reversing loyalty points does not depend on how a refund is split.
    Over any sequence of returns of an order, each with the amount refunded so
    far, every call succeeds and the points taken back in all are exactly the
    pro-rated share of the cumulative refund (rounded down), all the points once
    the whole spend is refunded, and never more than were earned. *)
Theorem reversal_is_path_independent (E S : Z) (xs : list (Z * Z)) :
  0 < E <= MAX_SAFE_INTEGER -> 0 < S <= MAX_SAFE_INTEGER ->
  Forall (fun x => 0 < x.1 <= MAX_SAFE_INTEGER /\ 0 <= x.2 <= MAX_SAFE_INTEGER) xs ->
  Sorted Z.le (0 :: map snd xs) ->
  let reversed := foldl (reverse_next E S) 0 xs in
  reversed = reversal_target E S (List.last (map snd xs) 0) /\ 0 <= reversed <= E.
Proof.
  intros HE HS Hx Hs. cbv zeta.
  enough (H : forall c R, 0 <= c -> Sorted Z.le (c :: map snd xs) -> R = reversal_target E S c ->
    foldl (reverse_next E S) R xs = reversal_target E S (List.last (map snd xs) c) /\ 0 <= List.last (map snd xs) c).
  { destruct (H 0 0) as [H1 H2]; [lia | done | |].
    - unfold reversal_target. replace (S <=? 0) with false by lia. rewrite Z.mul_0_r. by rewrite Z.div_0_l by lia.
    - rewrite H1. split; [done|]. apply reversal_target_bounds; lia. }
  clear Hs. induction Hx as [|[refund cum] xs [Hr Hc] Hx IH]; intros c R H0 Hs ->; cbn [foldl map snd]; [done|].
  cbn [map snd fst] in *. apply Sorted_inv in Hs as [Hs Hhd]. inversion Hhd as [|? ? Hle]; subst.
  assert (Hn : reverse_next E S (reversal_target E S c) (refund, cum) = reversal_target E S cum).
  { unfold reverse_next. cbn [fst snd].
    destruct (reversal_step E S (reversal_target E S c) refund cum HE HS Hr Hc) as (r & -> & -> & _).
    - split; [apply reversal_target_bounds; lia | apply reversal_target_mono; lia].
    - cbn. lia. }
  rewrite Hn. destruct (IH cum _ ltac:(lia) Hs eq_refl) as [H1 H2].
  assert (El : List.last (cum :: map snd xs) c = List.last (map snd xs) cum).
  { clear. generalize (map snd xs). intros l. revert c cum. induction l as [|y l IH]; intros; [done|].
    transitivity (List.last (y :: l) c); [done|]. rewrite IH. symmetry. transitivity (List.last (y :: l) cum); [done|]. apply IH. }
  rewrite El. done.
Qed.

Lemma reversal_path_witness : foldl (reverse_next 100 333) 0 [(100, 100); (100, 200); (133, 333)] = 100.
Proof.
  destruct (reversal_is_path_independent 100 333 [(100, 100); (100, 200); (133, 333)]) as [H _];
    [unfold MAX_SAFE_INTEGER; lia | unfold MAX_SAFE_INTEGER; lia | | | exact H].
  - unfold MAX_SAFE_INTEGER. repeat constructor; cbn; lia.
  - repeat constructor; cbn; lia.
Defined.

(** Redeeming points, for whole balances: with the programme enabled a
    request is accepted exactly when it is positive, within the configured
    minimum and maximum, covered by posted minus held points, and its value is
    a safe amount; then the value is points times rate and the points left are
    non-negative, so concurrent holds can never spend a point twice. *)
Theorem redemption_within_available (R P H v m : Z) (mx : option Z) (ttl : number) (rate : number) :
  Z.abs P <= 2 ^ 52 -> 0 <= H <= 2 ^ 52 -> 0 < v <= MAX_SAFE_INTEGER ->
  let settings := {| isEnabled := true; earnAmountPerPoint := rate; redeemValuePerPoint := int v; minRedeemPoints := int m;
                     maxRedeemPointsPerOrder := int <$> mx; holdTtlSeconds := ttl |} in
  let fits := (0 <? R) && (m <=? R) && match mx with Some x => R <=? x | None => true end && (R <=? P - H) in
  (fits = false -> is_ok (validatePointRedemption (int R) (int P) (int H) settings) = false) /\
  (fits = true -> R * v <= MAX_SAFE_INTEGER ->
     validatePointRedemption (int R) (int P) (int H) settings =
       Ok {| rd_requestedPoints := int R; rd_availableBefore := int (P - H); rd_availableAfter := int (P - H - R);
             rd_discountValueVnd := int (R * v) |} /\ 0 <= P - H - R).
Proof.
  intros HP HH Hv. cbv zeta. unfold validatePointRedemption, computeAvailablePoints.
  cbn [isEnabled minRedeemPoints maxRedeemPointsPerOrder redeemValuePerPoint negb].
  assert (E53 : 2 ^ 53 = 2 * 2 ^ 52) by reflexivity.
  rewrite (nsub_int P H), mathMax_int by lia. rewrite nle_int, !nlt_int. change (isInteger (int R)) with true. cbn [negb orb].
  assert (Emx : match int <$> mx with Some x => nlt x (int R) | None => false end =
    negb match mx with Some x => R <=? x | None => true end).
  { destruct mx as [x|]; cbn -[nlt]; [|done]. rewrite nlt_int. destruct (Z.ltb_spec x R), (Z.leb_spec R x); (done || lia). }
  rewrite Emx. generalize (match mx with Some x => R <=? x | None => true end). intros bm. split.
  - intros Hf. destruct (Z.leb_spec R 0); [done|]. destruct (Z.ltb_spec R m); [done|]. destruct bm; [|done]. cbn [negb].
    replace (0 <? R) with true in Hf by lia. replace (m <=? R) with true in Hf by lia. cbn [andb] in Hf. bool_prop.
    by replace (Z.max 0 (P - H) <? R) with true by lia.
  - intros Hf Hs. bool_prop. subst bm. replace (R <=? 0) with false by lia. replace (R <? m) with false by lia. cbn [negb].
    rewrite Z.max_r by lia. replace (P - H <? R) with false by lia.
    rewrite parseVndBigInt_int by (lia || done). rewrite bind_of_Ok. cbn [bigint_of_number int Qden Qnum Pos.eqb].
    rewrite bind_of_Ok, toVndNumber_safe by nia. rewrite bind_of_Ok. fold (int (P - H)) (int R). rewrite nsub_int by lia.
    split; [done | lia].
Qed.

Lemma redemption_witness :
  let settings := {| isEnabled := true; earnAmountPerPoint := int 1000; redeemValuePerPoint := int 100; minRedeemPoints := int 10;
                     maxRedeemPointsPerOrder := int <$> Some 500; holdTtlSeconds := int 900 |} in
  validatePointRedemption (int 50) (int 120) (int 60) settings =
    Ok {| rd_requestedPoints := int 50; rd_availableBefore := int 60; rd_availableAfter := int 10;
          rd_discountValueVnd := int 5000 |}.
Proof.
  exact (proj1 (proj2 (redemption_within_available 50 120 60 100 10 (Some 500) (int 900) (int 1000)
    ltac:(vm_compute; discriminate) ltac:(vm_compute; intuition discriminate) ltac:(vm_compute; intuition discriminate))
    eq_refl ltac:(vm_compute; discriminate))).
Defined.

(** ** Tiers *)

Section TierChoice.
Lemma sort_head_max {A} (cmp : A -> A -> Z) (key : A -> Z) l x :
  (forall a b, a ∈ l -> b ∈ l -> (cmp a b <= 0 -> key b <= key a) /\ (0 < cmp a b -> key a <= key b)) ->
  head (sort_by cmp l) = Some x -> x ∈ l /\ forall y, y ∈ l -> key y <= key x.
Proof.
  revert x. induction l as [|a l IH]; intros x Hc; [done|]. unfold sort_by in *. cbn [foldr].
  assert (Hc' : forall a b, a ∈ l -> b ∈ l -> (cmp a b <= 0 -> key b <= key a) /\ (0 < cmp a b -> key a <= key b)).
  { intros; apply Hc; by right. }
  destruct (foldr (insert_sorted cmp) [] l) as [|b l'] eqn:Es.
  - cbn. intros [= <-]. assert (l = []) as ->.
    { pose proof (sort_by_perm cmp l) as Hp. unfold sort_by in Hp. rewrite Es in Hp. by apply Permutation_nil in Hp. }
    split; [left|]. intros y ->%list_elem_of_singleton. done.
  - destruct (IH b Hc' eq_refl) as [Hb Hmax]. cbn. destruct (Hc a b) as [H1 H2]; [left | by right |].
    destruct (Z.leb_spec (cmp a b) 0) as [Hle|Hgt]; cbn; intros [= <-].
    + split; [left|]. intros y [-> | Hy]%elem_of_cons; [done|]. specialize (Hmax y Hy). specialize (H1 Hle). lia.
    + split; [by right|]. intros y [-> | Hy]%elem_of_cons; [by apply H2 | by apply Hmax].
Qed.

Lemma nsign_int z : nsign (int z) = Z.sgn z.
Proof. unfold nsign. rewrite !nlt_int. destruct (Z.ltb_spec z 0), (Z.ltb_spec 0 z); lia. Qed.
End TierChoice.

(** The membership tier is the highest one reached: for tiers with whole
    thresholds and any string collation, no tier is returned exactly when no
    active tier is reached, and a returned tier is one of the active tiers
    reached, with the highest threshold among them. *)
Theorem tier_is_highest_reached (lc : string -> string -> Z) (q : number) (tiers : list MembershipTierCandidate) :
  Forall (fun t => exists z, mt_minPoints t = int z /\ Z.abs z <= 2 ^ 52) tiers ->
  (resolveEligibleMembershipTier lc q tiers = None <-> forall t, t ∈ tiers -> eligible q t = false) /\
  (forall t, resolveEligibleMembershipTier lc q tiers = Some t ->
     t ∈ tiers /\ eligible q t = true /\
     forall u, u ∈ tiers -> eligible q u = true -> nval (mt_minPoints u) <= nval (mt_minPoints t)).
Proof.
  intros Hz. unfold resolveEligibleMembershipTier. set (act := List.filter (eligible q) tiers).
  assert (Hact : forall t, t ∈ act <-> t ∈ tiers /\ eligible q t = true).
  { intros t. unfold act. rewrite !list_elem_of_In. apply List.filter_In. }
  assert (Hhead : forall t, head (sort_by (compare_tiers lc) act) = Some t ->
    t ∈ act /\ forall u, u ∈ act -> nval (mt_minPoints u) <= nval (mt_minPoints t)).
  { intros t. apply (sort_head_max _ (fun u => nval (mt_minPoints u))). intros a b [Ha _]%Hact [Hb _]%Hact. rewrite Forall_forall in Hz.
    destruct (Hz a Ha) as (za & Ea & Hza), (Hz b Hb) as (zb & Eb & Hzb). unfold compare_tiers. rewrite Ea, Eb, neq_int.
    cbn [nval int Qnum]. destruct (Z.eqb_spec zb za) as [->|Hne]; cbn [negb]; [lia|].
    assert (E53 : 2 ^ 53 = 2 * 2 ^ 52) by reflexivity. rewrite nsub_int, nsign_int by lia. lia. }
  destruct act as [|a act'] eqn:Ea.
  - split; [|discriminate]. split; [|done]. intros _ t Ht. destruct (eligible q t) eqn:E; [|done].
    assert (Hin : t ∈ @nil MembershipTierCandidate) by (apply Hact; done). by apply not_elem_of_nil in Hin.
  - split.
    + split; [|intros Hn; exfalso; destruct (proj1 (Hact a) ltac:(left)) as [H1 H2]; by rewrite Hn in H2].
      intros Hn. exfalso. pose proof (sort_by_perm (compare_tiers lc) (a :: act')) as Hp.
      destruct (sort_by (compare_tiers lc) (a :: act')); [by apply Permutation_nil_cons in Hp | discriminate].
    + intros t Ht. destruct (Hhead t Ht) as [H1 H2]. apply Hact in H1 as [H1 H3]. split_and!; try done.
      intros u Hu He. apply H2. by apply Hact.
Qed.

Definition tier (c : string) (m : Z) (st : string) : MembershipTierCandidate :=
  {| mt_id := c; mt_code := c; mt_name := c; mt_minPoints := int m; mt_discountRate := "1.5"; mt_status := st |}.

Lemma tier_is_highest_witness :
  let lc := fun a b => match String.compare a b with Lt => -1 | Eq => 0 | Gt => 1 end in
  exists t, resolveEligibleMembershipTier lc (int 600)
    [tier "SILVER" 100 "ACTIVE"; tier "GOLD" 500 "ACTIVE"; tier "OLD" 550 "INACTIVE"; tier "VIP" 1000 "ACTIVE"] = Some t /\
  mt_code t = "GOLD" /\ 100 <= nval (mt_minPoints t).
Proof.
  cbv zeta. eexists. split; [vm_compute; reflexivity|]. split; [reflexivity|].
  edestruct (tier_is_highest_reached (fun a b => match String.compare a b with Lt => -1 | Eq => 0 | Gt => 1 end) (int 600)
    [tier "SILVER" 100 "ACTIVE"; tier "GOLD" 500 "ACTIVE"; tier "OLD" 550 "INACTIVE"; tier "VIP" 1000 "ACTIVE"]) as [_ H].
  - repeat constructor; (eexists; split; [reflexivity | vm_compute; discriminate]).
  - edestruct H as (_ & _ & Hm); [vm_compute; reflexivity|]. apply (Hm (tier "SILVER" 100 "ACTIVE")); [left | reflexivity].
Defined.

(** ** CSV *)

(** A reader of one CSV cell: a quoted cell ends at the first lone quote. *)
Fixpoint unquote (s : string) : option string :=
  match s with
  | EmptyString => None
  | String c r =>
      if Ascii.eqb c quote then
        match r with
        | EmptyString => Some EmptyString
        | String c' r' => if Ascii.eqb c' quote then option_map (String quote) (unquote r') else None
        end
      else option_map (String c) (unquote r)
  end.

Definition csv_read (s : string) : option string :=
  match s with
  | String c r => if Ascii.eqb c quote then unquote r else Some s
  | EmptyString => Some s
  end.

Lemma unquote_double s : unquote (double_quotes s +:+ String quote "") = Some s.
Proof.
  induction s as [|c s IH]; [done|]. cbn [double_quotes]. destruct (Ascii.eqb_spec c quote) as [->|Hne].
  - rewrite !sapp_cons. cbn [unquote]. rewrite Ascii.eqb_refl, IH. done.
  - rewrite sapp_cons. cbn [unquote]. rewrite (proj2 (Ascii.eqb_neq _ _)) by done. by rewrite IH.
Qed.

(** An exported cell is read back as the value (or the value after a leading
    apostrophe) and never as a spreadsheet formula: whatever the value, a CSV
    reader gets a text that neither starts with a formula character nor hides
    one behind leading blanks, and an unquoted cell holds no separator, quote or
    line break. *)
Theorem csv_cell_is_safe (v : jsval) :
  exists text, csv_read (sanitizeCsvCell v) = Some text /\
    (text = (if is_nullish v then "" else to_str v) \/ text = "'" +:+ to_str v) /\
    starts_in risky_char text = false /\ starts_in formula_char (ltrim text) = false /\
    (starts_in (Ascii.eqb quote) (sanitizeCsvCell v) = false ->
       sall (fun c => negb (special_char c)) (sanitizeCsvCell v) = true).
Proof.
  unfold sanitizeCsvCell. destruct (is_nullish v); [exists ""; split_and!; try done; by left|].
  set (str := to_str v). set (safe := if _ : bool then "'" +:+ str else str). cbv zeta.
  assert (Hsafe : (safe = str \/ safe = "'" +:+ str) /\ starts_in risky_char safe = false /\
    starts_in formula_char (ltrim safe) = false).
  { unfold safe. destruct (starts_in risky_char str || starts_in formula_char (ltrim str)) eqn:E.
    - split; [by right|]. split; reflexivity.
    - apply orb_false_iff in E as [E1 E2]. split; [by left|]. done. }
  destruct Hsafe as (Hs & Hr & Hf). exists safe. destruct (sall _ safe) eqn:Ea; cbn [negb].
  - split_and!; try done. unfold csv_read. destruct safe as [|c r]; [done|].
    destruct (Ascii.eqb_spec c quote) as [->|]; [|done]. cbn [sall] in Ea.
    apply andb_true_iff in Ea as [Ea _]. discriminate.
  - split_and!; try done. unfold csv_read. rewrite Ascii.eqb_refl. apply unquote_double.
Qed.
