(* ===== verification/LoyaltyStore.v ===== *)
(** * Customer service: the tables of the loyalty programme

    customers (the columns the programme reads and writes), membership tiers,
    settings, accounts, the append-only ledger of point movements, holds,
    purchase projections, addresses and the history of merges, as the entities
    and the migration 1791900000200 define them; the statements the services run
    on them, and the lookups they share.

    Points are [integer] columns: sums of them stay far below 2^53, where JS
    numbers are exact, so they are [Z]; a value that does not fit the column
    fails the statement.  A client's integer that is too large for the column
    fails there too, rounded or not.  Money columns are [bigint].  Reason texts
    and the widths of text columns are left out.  A [uuid] parameter is compared
    without regard to case ([as_uuid]); ids inside events come from [uuid]
    columns of other services and are lower case. *)

From S2P Require Import Prelude Transaction JsNumber JsString CustomerDomain.

Open Scope Z_scope.

(** ** Errors *)

(** A [CustomerDomainError], a violated unique constraint (SQLSTATE 23505), or
    another failed statement. *)
Inductive LoyaltyError := Rule (code : CustomerDomainErrorCode) | UniqueViolation | QueryFailed.

(** ** Tables *)

Definition as_uuid (s : string) : string := toLowerCase s.

(** A row of a tenant: tenant and id. *)
Abbreviation key := (string * string)%type.

Record CustomerRow := {
  c_code : string; c_group : option string; c_tier : option string; c_phone : option string; c_phoneNormalized : option string;
  c_email : option string; c_status : string; c_mergedInto : option string; c_version : Z;
  c_deletedAt : option Z; c_currentDebt : Z }.

Record SettingRow := {
  ls_enabled : bool; ls_earn : Z; ls_redeem : Z; ls_min : Z; ls_max : option Z; ls_ttl : Z; ls_expirationDays : option Z;
  ls_version : Z; ls_updatedBy : option string }.

Record AccountRow := {
  la_id : string; la_posted : Z; la_held : Z; la_earned : Z; la_redeemed : Z; la_qualifying : Z; la_tier : option string;
  la_status : string; la_version : Z }.

Inductive TransactionType := EARN | REDEEM | EARN_REVERSAL | REDEMPTION_REVERSAL | MANUAL_ADJUSTMENT | EXPIRE | MERGE_IN | MERGE_OUT.
#[export] Instance TransactionType_eq_dec : EqDecision TransactionType.
Proof. solve_decision. Defined.

Record TxRow := {
  lt_id : string; lt_tenant : string; lt_customer : string; lt_account : string; lt_type : TransactionType; lt_delta : Z;
  lt_before : Z; lt_after : Z; lt_sourceType : string; lt_sourceRef : string; lt_key : string; lt_order : option string;
  lt_return : option string; lt_hold : option string; lt_original : option string; lt_spend : option Z; lt_rate : option Z;
  lt_actor : option string; lt_correlation : option string }.

Inductive HoldState := HELD | COMMITTED | RELEASED | EXPIRED.
#[export] Instance HoldState_eq_dec : EqDecision HoldState.
Proof. solve_decision. Defined.

Record HoldRow := {
  h_tenant : string; h_customer : string; h_account : string; h_caller : string; h_operation : string; h_key : string;
  h_hash : string; h_refType : string; h_refId : string; h_points : Z; h_discount : Z; h_state : HoldState; h_expiresAt : Z;
  h_committedAt : option Z; h_releasedAt : option Z; h_releaseReason : option string; h_version : Z }.

Record ProjectionRow := {
  pp_customer : string; pp_code : string; pp_branch : option string; pp_channel : string; pp_status : string; pp_total : Z;
  pp_spend : Z; pp_returned : Z; pp_earned : Z; pp_reversed : Z; pp_completedAt : Z; pp_lastEvent : option string }.

Record AddressRow := { ad_tenant : string; ad_customer : string; ad_default : bool; ad_status : string }.

Record MergeRow := {
  mg_tenant : string; mg_source : string; mg_target : string; mg_key : string; mg_points : Z; mg_addresses : Z; mg_orders : Z;
  mg_actor : string }.

Inductive Event :=
| PointsEvent (name transactionId customerId accountId : string) (type : TransactionType) (delta balance : Z) (order hold return_ : option string)
| HoldEvent (name holdId customerId accountId : string) (points : Z) (state : HoldState) (refType refId : string) (expiresAt : Z)
| MembershipChanged (customerId : string) (previous new : option string) (qualifying : Z)
| CustomerEvent (name customerId code status : string) (group tier : option string) (version : Z).

Record db := {
  customers : gmap key CustomerRow; membership_tiers : list (string * MembershipTierCandidate); loyalty_settings : gmap string SettingRow;
  loyalty_accounts : gmap key AccountRow; loyalty_transactions : list TxRow; loyalty_holds : gmap string HoldRow;
  customer_purchase_projections : gmap key ProjectionRow; customer_addresses : gmap string AddressRow;
  customer_merge_history : list MergeRow; outbox : list Event }.

Abbreviation tx := (txn db LoyaltyError).

Definition rule {A} (c : CustomerDomainErrorCode) (status : Z) : tx A := fail (Rule c) status.
Definition unique_violation {A} : tx A := fail UniqueViolation 500.
Definition query_failed {A} : tx A := fail QueryFailed 500.
Definition domain {A} (r : res A) : tx A := embed Rule r.

(** ** Columns *)

Definition int4 (z : Z) : bool := (- 2 ^ 31 <=? z) && (z <? 2 ^ 31).
Definition int8 (z : Z) : bool := (- 2 ^ 63 <=? z) && (z <? 2 ^ 63).

(** The constraints of [loyalty_accounts]; the balance may be negative. *)
Definition check_account (a : AccountRow) : bool :=
  (0 <=? la_held a) && (0 <=? la_earned a) && (0 <=? la_redeemed a) && (0 <=? la_qualifying a) &&
  int4 (la_posted a) && int4 (la_held a) && int4 (la_earned a) && int4 (la_redeemed a) && int4 (la_qualifying a) && int4 (la_version a).

Definition check_settings (s : SettingRow) : bool :=
  (0 <? ls_earn s) && (0 <? ls_redeem s) && (1 <=? ls_min s) && (1 <=? ls_ttl s) && int8 (ls_earn s) && int8 (ls_redeem s) &&
  int4 (ls_min s) && int4 (default 0 (ls_max s)) && int4 (ls_ttl s) && int4 (default 0 (ls_expirationDays s)).

(** CHK_loyalty_tx_non_zero and CHK_loyalty_tx_balance_math. *)
Definition check_tx (r : TxRow) : bool :=
  negb (lt_delta r =? 0) && (lt_before r + lt_delta r =? lt_after r) && int4 (lt_delta r) && int4 (lt_before r) && int4 (lt_after r) &&
  int8 (default 0 (lt_spend r)) && int8 (default 0 (lt_rate r)).

Definition check_hold (h : HoldRow) : bool := (0 <? h_points h) && int4 (h_points h) && int8 (h_discount h).

Definition check_projection (p : ProjectionRow) : bool :=
  (0 <=? pp_total p) && (0 <=? pp_spend p) && (0 <=? pp_returned p) && int8 (pp_total p) && int8 (pp_spend p) && int8 (pp_returned p) &&
  int4 (pp_earned p) && int4 (pp_reversed p).

(** ** Statements *)

Definition set_customer (k : key) (c : CustomerRow) (d : db) : db :=
  {| customers := <[k := c]> (customers d); membership_tiers := membership_tiers d; loyalty_settings := loyalty_settings d;
     loyalty_accounts := loyalty_accounts d; loyalty_transactions := loyalty_transactions d; loyalty_holds := loyalty_holds d;
     customer_purchase_projections := customer_purchase_projections d; customer_addresses := customer_addresses d;
     customer_merge_history := customer_merge_history d; outbox := outbox d |}.

Definition set_settings (t : string) (s : SettingRow) (d : db) : db :=
  {| customers := customers d; membership_tiers := membership_tiers d; loyalty_settings := <[t := s]> (loyalty_settings d);
     loyalty_accounts := loyalty_accounts d; loyalty_transactions := loyalty_transactions d; loyalty_holds := loyalty_holds d;
     customer_purchase_projections := customer_purchase_projections d; customer_addresses := customer_addresses d;
     customer_merge_history := customer_merge_history d; outbox := outbox d |}.

Definition set_account (k : key) (a : AccountRow) (d : db) : db :=
  {| customers := customers d; membership_tiers := membership_tiers d; loyalty_settings := loyalty_settings d;
     loyalty_accounts := <[k := a]> (loyalty_accounts d); loyalty_transactions := loyalty_transactions d; loyalty_holds := loyalty_holds d;
     customer_purchase_projections := customer_purchase_projections d; customer_addresses := customer_addresses d;
     customer_merge_history := customer_merge_history d; outbox := outbox d |}.

Definition add_tx (r : TxRow) (d : db) : db :=
  {| customers := customers d; membership_tiers := membership_tiers d; loyalty_settings := loyalty_settings d;
     loyalty_accounts := loyalty_accounts d; loyalty_transactions := loyalty_transactions d ++ [r]; loyalty_holds := loyalty_holds d;
     customer_purchase_projections := customer_purchase_projections d; customer_addresses := customer_addresses d;
     customer_merge_history := customer_merge_history d; outbox := outbox d |}.

Definition set_hold (i : string) (h : HoldRow) (d : db) : db :=
  {| customers := customers d; membership_tiers := membership_tiers d; loyalty_settings := loyalty_settings d;
     loyalty_accounts := loyalty_accounts d; loyalty_transactions := loyalty_transactions d; loyalty_holds := <[i := h]> (loyalty_holds d);
     customer_purchase_projections := customer_purchase_projections d; customer_addresses := customer_addresses d;
     customer_merge_history := customer_merge_history d; outbox := outbox d |}.

Definition set_projections (f : gmap key ProjectionRow -> gmap key ProjectionRow) (d : db) : db :=
  {| customers := customers d; membership_tiers := membership_tiers d; loyalty_settings := loyalty_settings d;
     loyalty_accounts := loyalty_accounts d; loyalty_transactions := loyalty_transactions d; loyalty_holds := loyalty_holds d;
     customer_purchase_projections := f (customer_purchase_projections d); customer_addresses := customer_addresses d;
     customer_merge_history := customer_merge_history d; outbox := outbox d |}.

Definition set_addresses (f : gmap string AddressRow -> gmap string AddressRow) (d : db) : db :=
  {| customers := customers d; membership_tiers := membership_tiers d; loyalty_settings := loyalty_settings d;
     loyalty_accounts := loyalty_accounts d; loyalty_transactions := loyalty_transactions d; loyalty_holds := loyalty_holds d;
     customer_purchase_projections := customer_purchase_projections d; customer_addresses := f (customer_addresses d);
     customer_merge_history := customer_merge_history d; outbox := outbox d |}.

Definition add_merge (m : MergeRow) (d : db) : db :=
  {| customers := customers d; membership_tiers := membership_tiers d; loyalty_settings := loyalty_settings d;
     loyalty_accounts := loyalty_accounts d; loyalty_transactions := loyalty_transactions d; loyalty_holds := loyalty_holds d;
     customer_purchase_projections := customer_purchase_projections d; customer_addresses := customer_addresses d;
     customer_merge_history := customer_merge_history d ++ [m]; outbox := outbox d |}.

Definition add_event (e : Event) (d : db) : db :=
  {| customers := customers d; membership_tiers := membership_tiers d; loyalty_settings := loyalty_settings d;
     loyalty_accounts := loyalty_accounts d; loyalty_transactions := loyalty_transactions d; loyalty_holds := loyalty_holds d;
     customer_purchase_projections := customer_purchase_projections d; customer_addresses := customer_addresses d;
     customer_merge_history := customer_merge_history d; outbox := outbox d ++ [e] |}.

Definition outbox_add (e : Event) : tx unit := modify (add_event e).

Definition find_customer (k : key) : tx (option CustomerRow) := gets (fun d : db => customers d !! k).
Definition find_account (k : key) : tx (option AccountRow) := gets (fun d : db => loyalty_accounts d !! k).

Definition save_account (k : key) (a : AccountRow) : tx unit :=
  if check_account a then modify (set_account k a) else query_failed.

(** INSERT: the primary key, and the foreign key to the customer. *)
Definition insert_account (k : key) (a : AccountRow) : tx unit :=
  used ← gets (fun d => existsb (fun e : key * AccountRow => String.eqb (la_id e.2) (la_id a)) (map_to_list (loyalty_accounts d)));
  c ← find_customer k;
  if (used : bool) then unique_violation
  else match c with None => query_failed | Some _ => if check_account a then modify (set_account k a) else query_failed end.

Definition of_key (tenantId k : string) (r : TxRow) : bool := String.eqb (lt_tenant r) tenantId && String.eqb (lt_key r) k.

(** UQ_loyalty_tx_source_effect. *)
Definition same_effect (r r' : TxRow) : bool :=
  String.eqb (lt_tenant r) (lt_tenant r') && bool_decide (lt_type r = lt_type r') && String.eqb (lt_sourceRef r) (lt_sourceRef r').

Definition find_tx (tenantId k : string) : tx (option TxRow) := gets (fun d : db => List.find (of_key tenantId k) (loyalty_transactions d)).

Definition insert_tx (r : TxRow) : tx unit :=
  ledger ← gets loyalty_transactions;
  if existsb (of_key (lt_tenant r) (lt_key r)) ledger || existsb (fun r' => same_effect r' r) ledger ||
     existsb (fun r' => String.eqb (lt_id r') (lt_id r)) ledger
  then unique_violation
  else if check_tx r then modify (add_tx r) else query_failed.

Definition of_hold_key (tenantId caller operation k : string) (h : HoldRow) : bool :=
  String.eqb (h_tenant h) tenantId && String.eqb (h_caller h) caller && String.eqb (h_operation h) operation && String.eqb (h_key h) k.

Definition find_hold_by_key (tenantId caller operation k : string) : tx (option (string * HoldRow)) :=
  gets (fun d : db => List.find (fun e => of_hold_key tenantId caller operation k e.2) (map_to_list (loyalty_holds d))).

Definition insert_hold (i : string) (h : HoldRow) : tx unit :=
  clash ← find_hold_by_key (h_tenant h) (h_caller h) (h_operation h) (h_key h);
  used ← gets (fun d : db => loyalty_holds d !! i);
  match clash, used with
  | None, None => if check_hold h then modify (set_hold i h) else query_failed
  | _, _ => unique_violation
  end.

(** [findOne({ where: { id, tenantId } })]. *)
Definition find_hold (tenantId i : string) : tx (option HoldRow) :=
  gets (fun d : db => match loyalty_holds d !! i with Some h => if String.eqb (h_tenant h) tenantId then Some h else None | None => None end).

Definition save_hold (i : string) (h : HoldRow) : tx unit := if check_hold h then modify (set_hold i h) else query_failed.

Definition find_projection (k : key) : tx (option ProjectionRow) := gets (fun d : db => customer_purchase_projections d !! k).
Definition save_projection (k : key) (p : ProjectionRow) : tx unit :=
  if check_projection p then modify (set_projections (insert k p)) else query_failed.

(** ** Shared steps of the services *)

Definition default_settings : SettingRow :=
  {| ls_enabled := true; ls_earn := 10000; ls_redeem := 1000; ls_min := 10; ls_max := Some 10000; ls_ttl := 900; ls_expirationDays := None;
     ls_version := 1; ls_updatedBy := None |}.

Definition getOrCreateSettingsInTx (tenantId : string) : tx SettingRow :=
  existing ← gets (fun d : db => loyalty_settings d !! tenantId);
  match existing with
  | Some s => mret s
  | None => _ ← modify (set_settings tenantId default_settings); mret default_settings
  end.

(** The settings as the domain layer takes them. *)
Definition config_of (s : SettingRow) : LoyaltySettingConfig :=
  {| isEnabled := ls_enabled s; earnAmountPerPoint := int (ls_earn s); redeemValuePerPoint := int (ls_redeem s);
     minRedeemPoints := int (ls_min s); maxRedeemPointsPerOrder := int <$> ls_max s; holdTtlSeconds := int (ls_ttl s) |}.

Definition new_account (uuid : string) : AccountRow :=
  {| la_id := uuid; la_posted := 0; la_held := 0; la_earned := 0; la_redeemed := 0; la_qualifying := 0; la_tier := None;
     la_status := "ACTIVE"; la_version := 1 |}.

(** [uuid] is the id of the account in case it is created. *)
Definition ensureAccountInTx (uuid tenantId customerId : string) : tx AccountRow :=
  existing ← find_account (tenantId, customerId);
  match existing with
  | Some a => mret a
  | None => _ ← insert_account (tenantId, customerId) (new_account uuid); mret (new_account uuid)
  end.

Definition available (a : AccountRow) : number := computeAvailablePoints (int (la_posted a)) (int (la_held a)).

(** Field updates of an entity before it is saved. *)
Definition with_balance (a : AccountRow) (posted held earned redeemed qualifying : Z) : AccountRow :=
  {| la_id := la_id a; la_posted := posted; la_held := held; la_earned := earned; la_redeemed := redeemed; la_qualifying := qualifying;
     la_tier := la_tier a; la_status := la_status a; la_version := la_version a + 1 |}.
Definition with_tier (a : AccountRow) (tier : option string) : AccountRow :=
  {| la_id := la_id a; la_posted := la_posted a; la_held := la_held a; la_earned := la_earned a; la_redeemed := la_redeemed a;
     la_qualifying := la_qualifying a; la_tier := tier; la_status := la_status a; la_version := la_version a |}.
Definition with_state (h : HoldRow) (state : HoldState) (committed released : option Z) (reason : option string) : HoldRow :=
  {| h_tenant := h_tenant h; h_customer := h_customer h; h_account := h_account h; h_caller := h_caller h; h_operation := h_operation h;
     h_key := h_key h; h_hash := h_hash h; h_refType := h_refType h; h_refId := h_refId h; h_points := h_points h;
     h_discount := h_discount h; h_state := state; h_expiresAt := h_expiresAt h; h_committedAt := committed; h_releasedAt := released;
     h_releaseReason := reason; h_version := h_version h + 1 |}.
Definition with_membership (c : CustomerRow) (tier : option string) : CustomerRow :=
  {| c_code := c_code c; c_group := c_group c; c_tier := tier; c_phone := c_phone c; c_phoneNormalized := c_phoneNormalized c;
     c_email := c_email c; c_status := c_status c; c_mergedInto := c_mergedInto c; c_version := c_version c + 1; c_deletedAt := c_deletedAt c;
     c_currentDebt := c_currentDebt c |}.

Definition active_tiers (tenantId : string) (d : db) : list MembershipTierCandidate :=
  map snd (List.filter (fun e => String.eqb e.1 tenantId && String.eqb (mt_status e.2) "ACTIVE") (membership_tiers d)).

Section Tiers.
Context (localeCompare : string -> string -> Z).

(** [MembershipsService.recalculateCustomerTierWithinTransaction]. *)
Definition recalculateCustomerTierWithinTransaction (tenantId customerId : string) (qualifyingPoints : Z) : tx unit :=
  tiers ← gets (active_tiers tenantId);
  let newTierId := mt_id <$> resolveEligibleMembershipTier localeCompare (int qualifyingPoints) tiers in
  customer ← find_customer (tenantId, customerId);
  match customer with
  | None => mret tt
  | Some c =>
      if bool_decide (c_tier c = newTierId) then mret tt
      else
        _ ← modify (set_customer (tenantId, customerId) (with_membership c newTierId));
        account ← find_account (tenantId, customerId);
        _ ← match account with Some a => modify (set_account (tenantId, customerId) (with_tier a newTierId)) | None => mret tt end;
        outbox_add (MembershipChanged customerId (c_tier c) newTierId qualifyingPoints)
  end.
End Tiers.

(** A live customer of the tenant. *)
Definition live (c : option CustomerRow) : option CustomerRow :=
  match c with Some c => if bool_decide (is_Some (c_deletedAt c)) then None else Some c | None => None end.
