(* ===== verification/Loyalty.v ===== *)
(** * Customer service: the loyalty programme

    apps/customer/src/modules/loyalty/loyalty.service.ts: settings, manual
    adjustments, point holds (create, commit, release, expire), the handlers of
    completed sales and returns, and the reconciliation report; the merge of two
    customers (data-management.service.ts) and the accounts the profiles service
    opens.

    A handler is one transaction.  The handlers that change points lock the account
    first; the change of a tier by the profiles service does not, and is written as the
    read and the save it consists of.  A lookup that takes no lock may have run before
    a concurrent request with the same key committed: the flag [raced] of the
    handlers that look a key up first says so.  [uuid] arguments are results of
    randomUUID, [now] and [dbnow] the clocks of the process and of the database. *)

From S2P Require Import Prelude Transaction JsNumber JsString CustomerDomain LoyaltyStore.

Open Scope Z_scope.

(** ** Requests and answers *)

Record UpdateLoyaltySettingsDto := {
  us_enabled : option bool; us_earn : option Z; us_redeem : option Z; us_min : option Z; us_max : option (option Z);
  us_ttl : option Z; us_expirationDays : option (option Z) }.

Record ManualLoyaltyAdjustmentDto := { ma_delta : Z; ma_reason : option string; ma_key : option string }.

Record CreateLoyaltyHoldDto := {
  ch_customer : string; ch_points : Z; ch_refType : option string; ch_refId : string; ch_caller : option string; ch_ttl : option Z;
  ch_key : option string }.

Record AdjustResponse := { ar_transaction : TxRow; ar_account : AccountRow; ar_available : number; ar_replayed : bool }.

Record HoldResponse := {
  hr_id : string; hr_hold : HoldRow; hr_posted : Z; hr_held : Z; hr_available : number; hr_transaction : option string; hr_replayed : bool }.

Definition formatHoldResponse (i : string) (h : HoldRow) (a : AccountRow) (transaction : option string) (replayed : bool) : HoldResponse :=
  {| hr_id := i; hr_hold := h; hr_posted := la_posted a; hr_held := la_held a; hr_available := available a;
     hr_transaction := transaction; hr_replayed := replayed |}.

(** What [computeCanonicalHash] hashes: the fields in the order of their names. *)
Record HoldDigest := { hd_customerId : string; hd_points : Z; hd_sourceRefId : string; hd_sourceRefType : string }.

Section Service.
Context (localeCompare : string -> string -> Z) (sha256 : HoldDigest -> string).

(** ** Settings *)

Definition getSettings (tenantId : string) : tx SettingRow := getOrCreateSettingsInTx tenantId.

Definition vnd_setting (current : Z) (dto : option Z) : tx Z :=
  match dto with
  | None => mret current
  | Some v => val ← domain (parseVndBigInt (VNum (int v)) false); n ← domain (toVndNumber val); mret (nval n)
  end.

Definition updateSettings (tenantId actorId : string) (dto : UpdateLoyaltySettingsDto) : tx SettingRow :=
  s ← getOrCreateSettingsInTx tenantId;
  earn ← vnd_setting (ls_earn s) (us_earn dto);
  redeem ← vnd_setting (ls_redeem s) (us_redeem dto);
  let s' := {| ls_enabled := default (ls_enabled s) (us_enabled dto); ls_earn := earn; ls_redeem := redeem;
               ls_min := default (ls_min s) (us_min dto); ls_max := default (ls_max s) (us_max dto);
               ls_ttl := default (ls_ttl s) (us_ttl dto); ls_expirationDays := default (ls_expirationDays s) (us_expirationDays dto);
               ls_version := ls_version s + 1; ls_updatedBy := Some actorId |} in
  if check_settings s' then _ ← modify (set_settings tenantId s'); mret s' else query_failed.

(** ** The account on the screen *)

Record AccountView := { av_account : AccountRow; av_available : number; av_debt : number }.

Definition getLoyaltyAccount (tenantId customerIdText aid : string) : tx AccountView :=
  let customerId := as_uuid customerIdText in
  customer ← find_customer (tenantId, customerId);
  match live customer with
  | None => rule CUSTOMER_NOT_FOUND 404
  | Some _ =>
      account ← ensureAccountInTx aid tenantId customerId;
      mret {| av_account := account; av_available := available account; av_debt := mathMax (int 0) (int (- la_posted account)) |}
  end.

(** ** Manual adjustment *)

Definition posted_tx (tenantId customerId : string) (a : AccountRow) (i : string) (type : TransactionType) (delta before : Z)
    (sourceType sourceRef k : string) (actor : option string) : TxRow :=
  {| lt_id := i; lt_tenant := tenantId; lt_customer := customerId; lt_account := la_id a; lt_type := type; lt_delta := delta;
     lt_before := before; lt_after := before + delta; lt_sourceType := sourceType; lt_sourceRef := sourceRef; lt_key := k;
     lt_order := None; lt_return := None; lt_hold := None; lt_original := None; lt_spend := None; lt_rate := None; lt_actor := actor;
     lt_correlation := None |}.

Definition adjusted (a : AccountRow) (delta : Z) : AccountRow :=
  with_balance a (la_posted a + delta) (la_held a) (if 0 <? delta then la_earned a + delta else la_earned a) (la_redeemed a)
    (if 0 <? delta then la_qualifying a + delta else Z.max 0 (la_qualifying a + delta)).

Definition adjustPoints (raced : bool) (tenantId customerIdText actorId : string) (header : option string)
    (dto : ManualLoyaltyAdjustmentDto) (uuid aid tid : string) : tx AdjustResponse :=
  if ma_delta dto =? 0 then rule VALIDATION_ERROR 422
  else if String.eqb (trim (default "" (ma_reason dto))) "" then rule VALIDATION_ERROR 422
  else
    let rawKey := trim (default (default uuid (ma_key dto)) header) in
    let k := "manual_adj:" +:+ customerIdText +:+ ":" +:+ rawKey in
    let customerId := as_uuid customerIdText in
    existingTx ← (if raced then mret None else find_tx tenantId k);
    match existingTx with
    | Some r => account ← ensureAccountInTx aid tenantId customerId;
        mret {| ar_transaction := r; ar_account := account; ar_available := available account; ar_replayed := true |}
    | None =>
        customer ← find_customer (tenantId, customerId);
        match live customer with
        | None => rule CUSTOMER_NOT_FOUND 404
        | Some _ =>
            account ← ensureAccountInTx aid tenantId customerId;
            let before := la_posted account in
            let after := before + ma_delta dto in
            if (ma_delta dto <? 0) && (after - la_held account <? 0) then rule INSUFFICIENT_LOYALTY_POINTS 409
            else
              let account' := adjusted account (ma_delta dto) in
              _ ← save_account (tenantId, customerId) account';
              let row := posted_tx tenantId customerId account tid MANUAL_ADJUSTMENT (ma_delta dto) before "MANUAL" rawKey k (Some actorId) in
              _ ← insert_tx row;
              _ ← recalculateCustomerTierWithinTransaction localeCompare tenantId customerId (la_qualifying account');
              _ ← outbox_add (PointsEvent (if 0 <? ma_delta dto then "customer.loyalty.points_earned" else "customer.loyalty.points_reversed")
                    tid customerIdText (la_id account) MANUAL_ADJUSTMENT (ma_delta dto) after None None None);
              mret {| ar_transaction := row; ar_account := account'; ar_available := available account'; ar_replayed := false |}
        end
    end.

(** ** Holds *)

Definition replay_hold (aid tenantId hash : string) (e : string * HoldRow) : tx HoldResponse :=
  if negb (String.eqb (h_hash e.2) hash) then rule IDEMPOTENCY_CONFLICT 409
  else acc ← ensureAccountInTx aid tenantId (h_customer e.2); mret (formatHoldResponse e.1 e.2 acc None true).

Definition hold_event (name i : string) (h : HoldRow) (account : string) : tx unit :=
  outbox_add (HoldEvent name i (h_customer h) account (h_points h) (h_state h) (h_refType h) (h_refId h) (h_expiresAt h)).

(** The transaction of [createHold]. *)
Definition create_hold_tx (raced : bool) (tenantId caller k hash refType : string) (dto : CreateLoyaltyHoldDto) (hid aid : string) (now : Z)
    : tx HoldResponse :=
  existingHold ← (if raced then mret None else find_hold_by_key tenantId caller "HOLD" k);
  match existingHold with
  | Some e => replay_hold aid tenantId hash e
  | None =>
      let customerId := as_uuid (ch_customer dto) in
      customer ← find_customer (tenantId, customerId);
      match live customer with
      | None => rule CUSTOMER_NOT_FOUND 404
      | Some c =>
          if negb (String.eqb (c_status c) "ACTIVE") then rule CUSTOMER_INACTIVE 409
          else
            settings ← getOrCreateSettingsInTx tenantId;
            account ← ensureAccountInTx aid tenantId customerId;
            if negb (String.eqb (la_status account) "ACTIVE") then rule LOYALTY_STATE_CONFLICT 409
            else
              validated ← domain (validatePointRedemption (int (ch_points dto)) (int (la_posted account)) (int (la_held account)) (config_of settings));
              let expiresAt := now + default (ls_ttl settings) (ch_ttl dto) * 1000 in
              let account' := with_balance account (la_posted account) (la_held account + ch_points dto) (la_earned account)
                                (la_redeemed account) (la_qualifying account) in
              _ ← save_account (tenantId, customerId) account';
              let hold := {| h_tenant := tenantId; h_customer := customerId; h_account := la_id account; h_caller := caller;
                 h_operation := "HOLD"; h_key := k; h_hash := hash; h_refType := refType; h_refId := ch_refId dto; h_points := ch_points dto;
                 h_discount := nval (rd_discountValueVnd validated); h_state := HELD; h_expiresAt := expiresAt; h_committedAt := None;
                 h_releasedAt := None; h_releaseReason := None; h_version := 1 |} in
              _ ← insert_hold hid hold;
              _ ← hold_event "customer.loyalty.hold_created" hid hold (la_id account);
              mret (formatHoldResponse hid hold account' None false)
      end
  end.

(** [createHold]: on a unique violation the transaction is rolled back and the hold
    of the key is looked up in a new one. *)
Definition createHold (raced : bool) (tenantId : string) (header : option string) (dto : CreateLoyaltyHoldDto) (hid aid : string) (now : Z)
    : tx HoldResponse :=
  let k := trim (default (default "" (ch_key dto)) header) in
  if String.eqb k "" then rule VALIDATION_ERROR 422
  else
    let caller := toLowerCase (trim (default "sales" (ch_caller dto))) in
    let refType := toUpperCase (trim (default "CHECKOUT" (ch_refType dto))) in
    let hash := sha256 {| hd_customerId := ch_customer dto; hd_points := ch_points dto; hd_sourceRefId := ch_refId dto;
                          hd_sourceRefType := refType |} in
    fun d =>
      match create_hold_tx raced tenantId caller k hash refType dto hid aid now d with
      | Throw (DomainError UniqueViolation _) =>
          (racedHold ← find_hold_by_key tenantId caller "HOLD" k;
           match racedHold with Some e => replay_hold aid tenantId hash e | None => unique_violation end) d
      | r => r
      end.

Definition getHoldById (tenantId holdIdText aid : string) : tx HoldResponse :=
  let holdId := as_uuid holdIdText in
  hold ← find_hold tenantId holdId;
  match hold with
  | None => rule LOYALTY_HOLD_NOT_FOUND 404
  | Some h => account ← ensureAccountInTx aid tenantId (h_customer h); mret (formatHoldResponse holdId h account None false)
  end.

(** What a hold gives back, [Math.max(0, held - points)]. *)
Definition unhold (a : AccountRow) (points : Z) : AccountRow :=
  with_balance a (la_posted a) (Z.max 0 (la_held a - points)) (la_earned a) (la_redeemed a) (la_qualifying a).

Definition redeemed (a : AccountRow) (points : Z) : AccountRow :=
  with_balance a (la_posted a - points) (Z.max 0 (la_held a - points)) (la_earned a) (la_redeemed a + points) (la_qualifying a).

Definition redeem_tx (tenantId : string) (i : string) (h : HoldRow) (a : AccountRow) (tid : string) (orderId actorId : option string) : TxRow :=
  {| lt_id := tid; lt_tenant := tenantId; lt_customer := h_customer h; lt_account := la_id a; lt_type := REDEEM; lt_delta := - h_points h;
     lt_before := la_posted a; lt_after := la_posted a - h_points h; lt_sourceType := h_refType h; lt_sourceRef := i;
     lt_key := "redeem:hold:" +:+ i; lt_order := as_uuid <$> orderId; lt_return := None; lt_hold := Some i; lt_original := None;
     lt_spend := None; lt_rate := None; lt_actor := actorId; lt_correlation := None |}.

Definition commitHold (tenantId holdIdText : string) (orderId actorId : option string) (aid tid : string) (now : Z) : tx HoldResponse :=
  let holdId := as_uuid holdIdText in
  hold ← find_hold tenantId holdId;
  match hold with
  | None => rule LOYALTY_HOLD_NOT_FOUND 404
  | Some h =>
      account ← ensureAccountInTx aid tenantId (h_customer h);
      match h_state h with
      | COMMITTED => mret (formatHoldResponse holdId h account None true)
      | RELEASED => rule LOYALTY_STATE_CONFLICT 409
      | EXPIRED => rule LOYALTY_HOLD_EXPIRED 409
      | HELD =>
          if h_expiresAt h <=? now then
            _ ← save_account (tenantId, h_customer h) (unhold account (h_points h));
            _ ← save_hold holdId (with_state h EXPIRED (h_committedAt h) (Some now) (Some "TTL_EXPIRED"));
            rule LOYALTY_HOLD_EXPIRED 409
          else
            let account' := redeemed account (h_points h) in
            _ ← save_account (tenantId, h_customer h) account';
            let h' := with_state h COMMITTED (Some now) (h_releasedAt h) (h_releaseReason h) in
            _ ← save_hold holdId h';
            _ ← insert_tx (redeem_tx tenantId holdId h account tid orderId actorId);
            _ ← hold_event "customer.loyalty.hold_committed" holdId h' (la_id account);
            _ ← outbox_add (PointsEvent "customer.loyalty.points_redeemed" tid (h_customer h) (la_id account) REDEEM (- h_points h)
                  (la_posted account') orderId (Some holdId) None);
            mret (formatHoldResponse holdId h' account' (Some tid) false)
      end
  end.

Definition releaseHold (tenantId holdIdText : string) (reason : option string) (aid : string) (now : Z) : tx HoldResponse :=
  let holdId := as_uuid holdIdText in
  hold ← find_hold tenantId holdId;
  match hold with
  | None => rule LOYALTY_HOLD_NOT_FOUND 404
  | Some h =>
      account ← ensureAccountInTx aid tenantId (h_customer h);
      match h_state h with
      | RELEASED | EXPIRED => mret (formatHoldResponse holdId h account None true)
      | COMMITTED => rule LOYALTY_HOLD_ALREADY_COMMITTED 409
      | HELD =>
          let account' := unhold account (h_points h) in
          _ ← save_account (tenantId, h_customer h) account';
          let h' := with_state h RELEASED (h_committedAt h) (Some now) (Some (default "CHECKOUT_CANCELLED" (trim <$> reason))) in
          _ ← save_hold holdId h';
          _ ← hold_event "customer.loyalty.hold_released" holdId h' (la_id account);
          mret (formatHoldResponse holdId h' account' None false)
      end
  end.

(** The rows [expireOverdueHolds] selects; those another transaction has locked
    are skipped. *)
Definition overdue (tenantId : string) (dbnow : Z) (limit : nat) (locked : string -> bool) (d : db) : list (string * HoldRow) :=
  take limit (sort_by (fun a b => h_expiresAt a.2 - h_expiresAt b.2)
    (List.filter (fun e => String.eqb (h_tenant e.2) tenantId && bool_decide (h_state e.2 = HELD) && (h_expiresAt e.2 <=? dbnow) && negb (locked e.1))
       (map_to_list (loyalty_holds d)))).

Definition expire_step (tenantId aid : string) (now : Z) (expiredCount : Z) (e : string * HoldRow) : tx Z :=
  hold ← find_hold tenantId e.1;
  match hold with
  | None => mret expiredCount
  | Some h =>
      if negb (bool_decide (h_state h = HELD)) then mret expiredCount
      else
        account ← ensureAccountInTx aid tenantId (h_customer h);
        _ ← save_account (tenantId, h_customer h) (unhold account (h_points h));
        let h' := with_state h EXPIRED (h_committedAt h) (Some now) (Some "TTL_EXPIRED") in
        _ ← save_hold e.1 h';
        _ ← hold_event "customer.loyalty.hold_expired" e.1 h' (la_id account);
        mret (expiredCount + 1)
  end.

Definition expireOverdueHolds (tenantId : string) (limit : nat) (locked : string -> bool) (aid : string) (dbnow now : Z) : tx Z :=
  rows ← gets (overdue tenantId dbnow limit locked);
  for_each (expire_step tenantId aid now) 0 rows.

(** ** Completed sales *)

Record SaleParams := {
  sp_event : string; sp_customer : string; sp_order : string; sp_code : string; sp_branch : option string; sp_channel : option string;
  sp_total : Z; sp_spend : Z; sp_completedAt : Z }.

Record SaleResult := { sr_awarded : Z; sr_replayed : bool }.

Definition sale_projection (p : SaleParams) (earned eligible : Z) (existing : option ProjectionRow) : ProjectionRow :=
  match existing with
  | None =>
      {| pp_customer := sp_customer p; pp_code := sp_code p; pp_branch := sp_branch p; pp_channel := default "POS" (sp_channel p);
         pp_status := "COMPLETED"; pp_total := sp_total p; pp_spend := eligible; pp_returned := 0; pp_earned := earned; pp_reversed := 0;
         pp_completedAt := sp_completedAt p; pp_lastEvent := Some (sp_event p) |}
  | Some old =>
      {| pp_customer := sp_customer p; pp_code := sp_code p; pp_branch := match sp_branch p with Some b => Some b | None => pp_branch old end;
         pp_channel := pp_channel old; pp_status := "COMPLETED"; pp_total := sp_total p; pp_spend := eligible; pp_returned := pp_returned old;
         pp_earned := earned; pp_reversed := pp_reversed old; pp_completedAt := pp_completedAt old; pp_lastEvent := Some (sp_event p) |}
  end.

Definition with_reversed (p : ProjectionRow) (points : Z) : ProjectionRow :=
  {| pp_customer := pp_customer p; pp_code := pp_code p; pp_branch := pp_branch p; pp_channel := pp_channel p; pp_status := pp_status p;
     pp_total := pp_total p; pp_spend := pp_spend p; pp_returned := pp_returned p; pp_earned := pp_earned p; pp_reversed := points;
     pp_completedAt := pp_completedAt p; pp_lastEvent := pp_lastEvent p |}.

Definition credited (a : AccountRow) (points : Z) : AccountRow :=
  with_balance a (la_posted a + points) (la_held a) (la_earned a + points) (la_redeemed a) (la_qualifying a + points).

Definition clawed_back (a : AccountRow) (points : Z) : AccountRow :=
  with_balance a (la_posted a - points) (la_held a) (la_earned a) (la_redeemed a) (Z.max 0 (la_qualifying a - points)).

Definition earn_tx (tenantId : string) (p : SaleParams) (a : AccountRow) (tid : string) (earned eligible rate : Z) : TxRow :=
  {| lt_id := tid; lt_tenant := tenantId; lt_customer := sp_customer p; lt_account := la_id a; lt_type := EARN; lt_delta := earned;
     lt_before := la_posted a; lt_after := la_posted a + earned; lt_sourceType := "ORDER"; lt_sourceRef := sp_order p;
     lt_key := "earn:order:" +:+ sp_order p; lt_order := Some (sp_order p); lt_return := None; lt_hold := None; lt_original := None;
     lt_spend := Some eligible; lt_rate := Some rate; lt_actor := None; lt_correlation := Some (sp_event p) |}.

Definition reversal_tx (tenantId customerId orderId : string) (a : AccountRow) (tid : string) (points : Z) (sourceRef k : string)
    (returnId original correlation : option string) (rate : option Z) : TxRow :=
  {| lt_id := tid; lt_tenant := tenantId; lt_customer := customerId; lt_account := la_id a; lt_type := EARN_REVERSAL; lt_delta := - points;
     lt_before := la_posted a; lt_after := la_posted a - points; lt_sourceType := "RETURN"; lt_sourceRef := sourceRef; lt_key := k;
     lt_order := Some orderId; lt_return := returnId; lt_hold := None; lt_original := original; lt_spend := None; lt_rate := rate;
     lt_actor := None; lt_correlation := correlation |}.

(** Posting the points an order earned. *)
Definition award (tenantId : string) (p : SaleParams) (account : AccountRow) (tid : string) (earned eligible rate : Z) : tx AccountRow :=
  if 0 <? earned then
    let account' := credited account earned in
    _ ← save_account (tenantId, sp_customer p) account';
    _ ← insert_tx (earn_tx tenantId p account tid earned eligible rate);
    _ ← outbox_add (PointsEvent "customer.loyalty.points_earned" tid (sp_customer p) (la_id account) EARN earned (la_posted account')
          (Some (sp_order p)) None None);
    mret account'
  else mret account.

(** The reversal of returns that arrived before the sale. *)
Definition deferred_reversal (tenantId : string) (p : SaleParams) (account : AccountRow) (projection : ProjectionRow) (preReturned : Z)
    (tid tid2 : string) (earned eligible rate : Z) : tx (AccountRow * ProjectionRow) :=
  pre ← domain (if 0 <? earned then parseVndBigInt (VNum (int preReturned)) true else Ok 0);
  if (0 <? earned) && (0 <? pre) && (pp_reversed projection =? 0) then
    revCalc ← domain (calculateReturnPointReversal {| rv_originalEarnedPoints := int earned; rv_alreadyReversedPoints := int 0;
      rv_originalEligibleSpendVnd := int eligible; rv_returnRefundAmountVnd := int preReturned; rv_cumulativeRefundedAmountVnd := Some (int preReturned) |});
    let points := nval (pointsToReverse revCalc) in
    if 0 <? points then
      let account' := clawed_back account points in
      _ ← save_account (tenantId, sp_customer p) account';
      _ ← insert_tx (reversal_tx tenantId (sp_customer p) (sp_order p) account tid2 points ("deferred:" +:+ sp_order p)
            ("earn_reversal:deferred:" +:+ sp_order p) None (Some tid) None (Some rate));
      _ ← outbox_add (PointsEvent "customer.loyalty.points_reversed" tid2 (sp_customer p) (la_id account) EARN_REVERSAL (- points)
            (la_posted account') (Some (sp_order p)) None None);
      mret (account', with_reversed projection points)
    else mret (account, projection)
  else mret (account, projection).

Definition processCompletedSale (tenantId : string) (p : SaleParams) (aid tid tid2 : string) : tx SaleResult :=
  customer ← find_customer (tenantId, sp_customer p);
  match live customer with
  | None => mret {| sr_awarded := 0; sr_replayed := false |}
  | Some _ =>
      existingEarnTx ← find_tx tenantId ("earn:order:" +:+ sp_order p);
      match existingEarnTx with
      | Some r => mret {| sr_awarded := lt_delta r; sr_replayed := true |}
      | None =>
          settings ← getOrCreateSettingsInTx tenantId;
          account ← ensureAccountInTx aid tenantId (sp_customer p);
          e ← domain (calculateEarnedPoints (VNum (int (sp_spend p))) (config_of settings));
          let earned := nval (er_earnedPoints e) in
          let eligible := nval (er_eligibleSpendVnd e) in
          let rate := nval (er_appliedRateVnd e) in
          existing ← find_projection (tenantId, sp_order p);
          let preReturned := match existing with Some old => pp_returned old | None => 0 end in
          account1 ← award tenantId p account tid earned eligible rate;
          out ← deferred_reversal tenantId p account1 (sale_projection p earned eligible existing) preReturned tid tid2 earned eligible rate;
          _ ← save_projection (tenantId, sp_order p) out.2;
          _ ← recalculateCustomerTierWithinTransaction localeCompare tenantId (sp_customer p) (la_qualifying out.1);
          mret {| sr_awarded := earned; sr_replayed := false |}
      end
  end.

(** [sales.order.completed]: amounts that are absent or zero fall back. *)
Record OrderCompleted := {
  oc_event : string; oc_order : string; oc_code : string; oc_branch : option string; oc_customer : option string; oc_subtotal : option number;
  oc_discount : option number; oc_grand : option number; oc_totalAmount : number; oc_completedAt : Z }.

Definition truthy_text (s : option string) : option string := match s with Some s => if String.eqb s "" then None else Some s | None => None end.
Definition truthy_number (n : option number) : option number :=
  match n with Some n => if neq n (int 0) || negb (neq n n) then None else Some n | None => None end.

Definition rounded_total (n : number) : res Z := bigint_of_number (mathMax (int 0) (mathRound n)).

Definition net_spend (subtotal discount : Z) : Z := if discount <? subtotal then subtotal - discount else 0.

Definition onSalesOrderCompleted (tenantId : string) (p : OrderCompleted) (aid tid tid2 : string) : tx unit :=
  match truthy_text (oc_customer p) with
  | None => mret tt
  | Some customerId =>
      subtotalVnd ← domain (match truthy_number (oc_subtotal p) with Some n => parseVndBigInt (VNum n) true | None => rounded_total (oc_totalAmount p) end);
      discountVnd ← domain (match truthy_number (oc_discount p) with Some n => parseVndBigInt (VNum n) true | None => Ok 0 end);
      grandTotalVnd ← domain (match truthy_number (oc_grand p) with Some n => parseVndBigInt (VNum n) true | None => rounded_total (oc_totalAmount p) end);
      total ← domain (toVndNumber grandTotalVnd);
      spend ← domain (toVndNumber (net_spend subtotalVnd discountVnd));
      _ ← processCompletedSale tenantId {| sp_event := oc_event p; sp_customer := customerId; sp_order := oc_order p; sp_code := oc_code p;
        sp_branch := oc_branch p; sp_channel := Some "POS"; sp_total := nval total; sp_spend := nval spend; sp_completedAt := oc_completedAt p |} aid tid tid2;
      mret tt
  end.

(** [sales.checkout.completed]. *)
Record CheckoutCompleted := {
  cc_event : string; cc_order : string; cc_code : string; cc_branch : option string; cc_customer : option string; cc_channel : option string;
  cc_subtotal : number; cc_discount : number; cc_grand : number; cc_occurredAt : Z }.

Definition onSalesCheckoutCompleted (tenantId : string) (p : CheckoutCompleted) (aid tid tid2 : string) : tx unit :=
  match truthy_text (cc_customer p) with
  | None => mret tt
  | Some customerId =>
      subtotalVnd ← domain (parseVndBigInt (VNum (cc_subtotal p)) true);
      discountVnd ← domain (parseVndBigInt (VNum (cc_discount p)) true);
      grandTotalVnd ← domain (parseVndBigInt (VNum (cc_grand p)) true);
      total ← domain (toVndNumber grandTotalVnd);
      spend ← domain (toVndNumber (net_spend subtotalVnd discountVnd));
      _ ← processCompletedSale tenantId {| sp_event := cc_event p; sp_customer := customerId; sp_order := cc_order p; sp_code := cc_code p;
        sp_branch := cc_branch p; sp_channel := Some (default "POS" (cc_channel p)); sp_total := nval total; sp_spend := nval spend;
        sp_completedAt := cc_occurredAt p |} aid tid tid2;
      mret tt
  end.

(** ** Completed returns *)

Record ReturnParams := {
  rp_event : string; rp_return : string; rp_order : string; rp_customer : option string; rp_refund : number }.

Record ReturnResult := { rr_reversed : Z; rr_replayed : bool; rr_deferred : bool }.

Definition early_projection (customerId orderId returnId : string) (returned now : Z) : ProjectionRow :=
  {| pp_customer := customerId; pp_code := "PENDING-" +:+ String.substring 0 8 orderId; pp_branch := None; pp_channel := "POS";
     pp_status := "PENDING_ORDER_EVENT"; pp_total := 0; pp_spend := 0; pp_returned := returned; pp_earned := 0; pp_reversed := 0;
     pp_completedAt := now; pp_lastEvent := Some ("return:" +:+ returnId) |}.

Definition with_returned (p : ProjectionRow) (returned : Z) (returnId : string) : ProjectionRow :=
  {| pp_customer := pp_customer p; pp_code := pp_code p; pp_branch := pp_branch p; pp_channel := pp_channel p; pp_status := pp_status p;
     pp_total := pp_total p; pp_spend := pp_spend p; pp_returned := returned; pp_earned := pp_earned p; pp_reversed := pp_reversed p;
     pp_completedAt := pp_completedAt p; pp_lastEvent := Some ("return:" +:+ returnId) |}.

Definition of_order (tenantId orderId : string) (type : TransactionType) (r : TxRow) : bool :=
  String.eqb (lt_tenant r) tenantId && bool_decide (lt_order r = Some orderId) && bool_decide (lt_type r = type).

(** [SELECT COALESCE(SUM(ABS(points_delta)), 0) ... 'EARN_REVERSAL']. *)
Definition reversed_of (tenantId orderId : string) (d : db) : Z :=
  total (fun r => Z.abs (lt_delta r)) (List.filter (of_order tenantId orderId EARN_REVERSAL) (loyalty_transactions d)).

(** The reversal of an order whose points were posted. *)
Definition reverse_return (tenantId : string) (p : ReturnParams) (projection : ProjectionRow) (earnTx : TxRow) (refund cumulative : Z)
    (aid tid : string) : tx ReturnResult :=
  already ← gets (reversed_of tenantId (rp_order p));
  refundN ← domain (toVndNumber refund);
  cumulativeN ← domain (toVndNumber cumulative);
  r ← domain (calculateReturnPointReversal {| rv_originalEarnedPoints := int (lt_delta earnTx); rv_alreadyReversedPoints := int already;
     rv_originalEligibleSpendVnd := int (default (pp_spend projection) (lt_spend earnTx)); rv_returnRefundAmountVnd := refundN;
     rv_cumulativeRefundedAmountVnd := Some cumulativeN |});
  let points := nval (pointsToReverse r) in
  _ ← save_projection (tenantId, rp_order p) (with_reversed projection (already + points));
  if points <=? 0 then mret {| rr_reversed := 0; rr_replayed := false; rr_deferred := false |}
  else
    account ← ensureAccountInTx aid tenantId (pp_customer projection);
    let account' := clawed_back account points in
    _ ← save_account (tenantId, pp_customer projection) account';
    _ ← insert_tx (reversal_tx tenantId (pp_customer projection) (rp_order p) account tid points (rp_return p)
          ("earn_reversal:return:" +:+ rp_return p) (Some (rp_return p)) (Some (lt_id earnTx)) (Some (rp_event p)) (lt_rate earnTx));
    _ ← recalculateCustomerTierWithinTransaction localeCompare tenantId (pp_customer projection) (la_qualifying account');
    _ ← outbox_add (PointsEvent "customer.loyalty.points_reversed" tid (pp_customer projection) (la_id account) EARN_REVERSAL (- points)
          (la_posted account') (Some (rp_order p)) None (Some (rp_return p)));
    mret {| rr_reversed := points; rr_replayed := false; rr_deferred := false |}.

Definition processCompletedReturn (raced : bool) (tenantId : string) (p : ReturnParams) (aid tid : string) (now : Z) : tx ReturnResult :=
  existingRev ← (if raced then mret None else find_tx tenantId ("earn_reversal:return:" +:+ rp_return p));
  match existingRev with
  | Some r => mret {| rr_reversed := Z.abs (lt_delta r); rr_replayed := true; rr_deferred := false |}
  | None =>
      found ← find_projection (tenantId, rp_order p);
      refundVnd ← domain (parseVndBigInt (VNum (rp_refund p)) true);
      match found with
      | None =>
          match truthy_text (rp_customer p) with
          | None => mret {| rr_reversed := 0; rr_replayed := false; rr_deferred := true |}
          | Some customerId =>
              n ← domain (toVndNumber refundVnd);
              _ ← save_projection (tenantId, rp_order p) (early_projection customerId (rp_order p) (rp_return p) (nval n) now);
              mret {| rr_reversed := 0; rr_replayed := false; rr_deferred := true |}
          end
      | Some projection =>
          if bool_decide (pp_lastEvent projection = Some ("return:" +:+ rp_return p))
          then mret {| rr_reversed := 0; rr_replayed := true; rr_deferred := false |}
          else
            prev ← domain (parseVndBigInt (VNum (int (pp_returned projection))) true);
            n ← domain (toVndNumber (prev + refundVnd));
            let projection' := with_returned projection (nval n) (rp_return p) in
            earnTx ← gets (fun d => List.find (of_order tenantId (rp_order p) EARN) (loyalty_transactions d));
            match earnTx with
            | None => _ ← save_projection (tenantId, rp_order p) projection';
                mret {| rr_reversed := 0; rr_replayed := false; rr_deferred := true |}
            | Some e => reverse_return tenantId p projection' e refundVnd (prev + refundVnd) aid tid
            end
      end
  end.

(** ** Reconciliation *)

Record Discrepancy := { di_account : string; di_customer : string; di_posted : Z; di_ledger : Z; di_held : Z; di_holds : Z }.

Definition ledger_sum (tenantId account : string) (d : db) : Z :=
  total lt_delta (List.filter (fun r => String.eqb (lt_tenant r) tenantId && String.eqb (lt_account r) account) (loyalty_transactions d)).

Definition is_open (tenantId account : string) (h : HoldRow) : bool :=
  String.eqb (h_tenant h) tenantId && String.eqb (h_account h) account && bool_decide (h_state h = HELD).

Definition active_holds_sum (tenantId account : string) (d : db) : Z :=
  msum (fun h => if is_open tenantId account h then h_points h else 0) (loyalty_holds d).

Definition account_row (tenantId : string) (d : db) (e : key * AccountRow) : list Discrepancy :=
  if negb (String.eqb e.1.1 tenantId) then []
  else
    let ls := ledger_sum tenantId (la_id e.2) d in
    let hs := active_holds_sum tenantId (la_id e.2) d in
    if negb (la_posted e.2 =? ls) || negb (la_held e.2 =? hs)
    then [{| di_account := la_id e.2; di_customer := e.1.2; di_posted := la_posted e.2; di_ledger := ls; di_held := la_held e.2; di_holds := hs |}]
    else [].

(** The second transaction of the worker. *)
Definition discrepancies (tenantId : string) (d : db) : list Discrepancy :=
  flat_map (account_row tenantId d) (map_to_list (loyalty_accounts d)).

Definition reconcileTenantLoyalty (tenantId aid : string) (locked : string -> bool) (dbnow now : Z) : tx (Z * list Discrepancy) :=
  expiredCount ← expireOverdueHolds tenantId 500 locked aid dbnow now;
  report ← gets (discrepancies tenantId);
  mret (expiredCount, report).

(** ** Merging two customers (data-management.service.ts) *)

Record MergeCustomersDto := { mc_source : string; mc_target : string; mc_key : option string }.
Record MergeResult := { mr_replay : bool; mr_record : option MergeRow }.

(** [lockedCustomers.find((c) => c.id === id)]: the id as the database prints it. *)
Definition find_exact {A} (f : key -> tx (option A)) (tenantId id : string) : tx (option A) :=
  if String.eqb (as_uuid id) id then f (tenantId, id) else mret None.

Definition merge_tx (tenantId customerId : string) (a : AccountRow) (i : string) (type : TransactionType) (delta : Z) (ref k actorId : string) : TxRow :=
  posted_tx tenantId customerId a i type delta (la_posted a) "CUSTOMER_MERGE" ref k (Some actorId).

(** Moving the points: the two ledger rows, in one save. *)
Definition merge_points (tenantId source target k actorId : string) (s t : AccountRow) (tid1 tid2 : string) : tx unit :=
  if la_posted s =? 0 then mret tt
  else
    _ ← insert_tx (merge_tx tenantId source s tid1 MERGE_OUT (- la_posted s) target ("merge:" +:+ k +:+ ":out") actorId);
    insert_tx (merge_tx tenantId target t tid2 MERGE_IN (la_posted s) source ("merge:" +:+ k +:+ ":in") actorId).

Definition closed (s : AccountRow) : AccountRow :=
  {| la_id := la_id s; la_posted := 0; la_held := la_held s; la_earned := la_earned s; la_redeemed := la_redeemed s; la_qualifying := 0;
     la_tier := la_tier s; la_status := "CLOSED"; la_version := la_version s + 1 |}.

(** [targetLoyalty] with the sums of the source, [None] when it has no account. *)
Definition absorbed (t : AccountRow) (s : option AccountRow) (tier : option string) : AccountRow :=
  {| la_id := la_id t; la_posted := la_posted t + default 0 (la_posted <$> s); la_held := la_held t;
     la_earned := la_earned t + default 0 (la_earned <$> s); la_redeemed := la_redeemed t + default 0 (la_redeemed <$> s);
     la_qualifying := la_qualifying t + default 0 (la_qualifying <$> s); la_tier := tier; la_status := la_status t; la_version := la_version t + 1 |}.

Definition merged_away (c : CustomerRow) (target : string) (now : Z) : CustomerRow :=
  {| c_code := c_code c; c_group := c_group c; c_tier := c_tier c; c_phone := c_phone c; c_phoneNormalized := None; c_email := c_email c;
     c_status := "INACTIVE"; c_mergedInto := Some target; c_version := c_version c + 1; c_deletedAt := Some now;
     c_currentDebt := c_currentDebt c |}.

Definition inherited (t s : CustomerRow) (tier : option string) : CustomerRow :=
  let takePhone := match truthy_text (c_phoneNormalized t), truthy_text (c_phoneNormalized s) with None, Some _ => true | _, _ => false end in
  let takeEmail := match truthy_text (c_email t), truthy_text (c_email s) with None, Some _ => true | _, _ => false end in
  {| c_code := c_code t; c_group := c_group t; c_tier := tier; c_phone := if takePhone then c_phone s else c_phone t;
     c_phoneNormalized := if takePhone then c_phoneNormalized s else c_phoneNormalized t;
     c_email := if takeEmail then c_email s else c_email t; c_status := c_status t; c_mergedInto := c_mergedInto t;
     c_version := c_version t + 1; c_deletedAt := c_deletedAt t; c_currentDebt := c_currentDebt t |}.

Definition owned_by (tenantId customerId : string) (a : AddressRow) : bool :=
  String.eqb (ad_tenant a) tenantId && String.eqb (ad_customer a) customerId && String.eqb (ad_status a) "ACTIVE".

Definition move_address (tenantId source target : string) (targetHasDefault : bool) (a : AddressRow) : AddressRow :=
  if owned_by tenantId source a
  then {| ad_tenant := ad_tenant a; ad_customer := target; ad_default := ad_default a && negb targetHasDefault; ad_status := ad_status a |}
  else a.

Definition in_projection (tenantId customerId : string) (e : key * ProjectionRow) : bool :=
  String.eqb e.1.1 tenantId && String.eqb (pp_customer e.2) customerId.

Definition move_projection (tenantId source target : string) (k : key) (p : ProjectionRow) : ProjectionRow :=
  if in_projection tenantId source (k, p)
  then {| pp_customer := target; pp_code := pp_code p; pp_branch := pp_branch p; pp_channel := pp_channel p; pp_status := pp_status p;
          pp_total := pp_total p; pp_spend := pp_spend p; pp_returned := pp_returned p; pp_earned := pp_earned p; pp_reversed := pp_reversed p;
          pp_completedAt := pp_completedAt p; pp_lastEvent := pp_lastEvent p |}
  else p.

Definition customer_event (name customerId : string) (c : CustomerRow) : Event :=
  CustomerEvent name customerId (c_code c) (c_status c) (c_group c) (c_tier c) (c_version c).

Definition insert_merge (m : MergeRow) : tx unit :=
  clash ← gets (fun d => existsb (fun m' => String.eqb (mg_tenant m') (mg_tenant m) && String.eqb (mg_key m') (mg_key m)) (customer_merge_history d));
  if (clash : bool) then unique_violation else if int4 (mg_points m) then modify (add_merge m) else query_failed.

(** The accounts: the source's points and totals go to the target's. *)
Definition merge_accounts (tenantId source target k actorId : string) (targetCustomer : CustomerRow) (aid tid1 tid2 : string)
    : tx (option AccountRow * AccountRow * option MembershipTierCandidate) :=
  sourceLoyalty ← find_account (tenantId, source);
  targetLoyalty ← (existing ← find_account (tenantId, target);
    match existing with
    | Some a => mret a
    | None => let a := with_tier (new_account aid) (c_tier targetCustomer) in _ ← insert_account (tenantId, target) a; mret a
    end);
  _ ← match sourceLoyalty with
      | None => mret tt
      | Some s =>
          _ ← merge_points tenantId source target k actorId s targetLoyalty tid1 tid2;
          save_account (tenantId, source) (closed s)
      end;
  tiers ← gets (active_tiers tenantId);
  let newTier := resolveEligibleMembershipTier localeCompare (int (la_qualifying (absorbed targetLoyalty sourceLoyalty None))) tiers in
  let tier := match newTier with
              | Some n => if bool_decide (c_tier targetCustomer = Some (mt_id n)) then la_tier targetLoyalty else Some (mt_id n)
              | None => la_tier targetLoyalty end in
  let t' := absorbed targetLoyalty sourceLoyalty tier in
  _ ← save_account (tenantId, target) t';
  mret (sourceLoyalty, t', newTier).

(** The driver answers UPDATE ... RETURNING with the pair [rows, affected]; the merge
    counts the pair. *)
Definition driver_result_length : Z := 2.

(** What follows the accounts: addresses, purchases, the two customers, the record. *)
Definition finish_merge (tenantId source target k actorId : string) (sc tc : CustomerRow) (now : Z)
    (sourceLoyalty : option AccountRow) (t' : AccountRow) (newTier : option MembershipTierCandidate) : tx MergeResult :=
  targetHasDefault ← gets (fun d => existsb (fun e : string * AddressRow => owned_by tenantId target e.2 && ad_default e.2) (map_to_list (customer_addresses d)));
  moved ← gets (fun d => length (List.filter (fun e : string * AddressRow => owned_by tenantId source e.2) (map_to_list (customer_addresses d))));
  _ ← modify (set_addresses (fmap (move_address tenantId source target targetHasDefault)));
  _ ← modify (set_projections (map_imap (fun k p => Some (move_projection tenantId source target k p))));
  let sc' := merged_away sc target now in
  _ ← modify (set_customer (tenantId, source) sc');
  let tier := match newTier with Some n => Some (mt_id n) | None => c_tier tc end in
  let tc' := inherited tc sc tier in
  _ ← modify (set_customer (tenantId, target) tc');
  let m := {| mg_tenant := tenantId; mg_source := source; mg_target := target; mg_key := k;
              mg_points := default 0 (la_posted <$> sourceLoyalty); mg_addresses := Z.of_nat moved; mg_orders := driver_result_length;
              mg_actor := actorId |} in
  _ ← insert_merge m;
  _ ← outbox_add (customer_event "customer.deactivated" source sc');
  _ ← match newTier with
      | Some n => if bool_decide (c_tier tc = c_tier tc') then mret tt
                  else outbox_add (MembershipChanged target (c_tier tc) (Some (mt_id n)) (la_qualifying t'))
      | None => mret tt
      end;
  _ ← outbox_add (customer_event "customer.updated" target tc');
  mret {| mr_replay := false; mr_record := Some m |}.

(** The open holds of a customer. *)
Definition active_holds (tenantId customerId : string) (d : db) : nat :=
  length (List.filter (fun e : string * HoldRow => String.eqb (h_tenant e.2) tenantId && String.eqb (h_customer e.2) customerId &&
    bool_decide (h_state e.2 = HELD)) (map_to_list (loyalty_holds d))).

Definition mergeCustomers (tenantId actorId : string) (dto : MergeCustomersDto) (header : option string) (aid tid1 tid2 : string) (now : Z)
    : tx MergeResult :=
  let source := mc_source dto in
  let target := mc_target dto in
  if String.eqb source target then rule CUSTOMER_MERGE_CONFLICT 409
  else
    let k := default (default ("merge:" +:+ source +:+ ":" +:+ target) (truthy_text (trim <$> mc_key dto))) (truthy_text (trim <$> header)) in
    existingMerge ← gets (fun d => List.find (fun m => String.eqb (mg_tenant m) tenantId &&
        (String.eqb (mg_key m) k || String.eqb (mg_source m) (as_uuid source))) (customer_merge_history d));
    match existingMerge with
    | Some m => if String.eqb (mg_target m) target then mret {| mr_replay := true; mr_record := Some m |} else rule CUSTOMER_MERGE_CONFLICT 409
    | None =>
        sourceCustomer ← find_exact find_customer tenantId source;
        targetCustomer ← find_exact find_customer tenantId target;
        match sourceCustomer, targetCustomer with
        | None, _ | _, None => rule CUSTOMER_NOT_FOUND 404
        | Some sc, Some tc =>
            match truthy_text (c_mergedInto sc) with
            | Some into =>
                if String.eqb into target then
                  hist ← gets (fun d => List.find (fun m => String.eqb (mg_tenant m) tenantId && String.eqb (mg_source m) source) (customer_merge_history d));
                  mret {| mr_replay := true; mr_record := hist |}
                else rule CUSTOMER_MERGE_CONFLICT 409
            | None =>
                if negb (String.eqb (c_status tc) "ACTIVE") || bool_decide (is_Some (c_deletedAt tc)) then rule CUSTOMER_INACTIVE 409
                else
                  activeSourceHolds ← gets (active_holds tenantId source);
                  if (0 <? activeSourceHolds)%nat then rule LOYALTY_STATE_CONFLICT 409
                  else
                    out ← merge_accounts tenantId source target k actorId tc aid tid1 tid2;
                    finish_merge tenantId source target k actorId sc tc now out.1.1 out.1.2 out.2
            end
        end
    end.

(** ** Accounts the profiles service opens *)

(** The part of [createCustomer] after the customer row: the account, and the ledger
    row of the initial points. *)
Definition open_account (tenantId customerId actorId : string) (initialPoints : Z) (tier : option string) (aid tid : string) : tx unit :=
  let a := {| la_id := aid; la_posted := initialPoints; la_held := 0; la_earned := initialPoints; la_redeemed := 0; la_qualifying := initialPoints;
              la_tier := tier; la_status := "ACTIVE"; la_version := 1 |} in
  existing ← find_account (tenantId, customerId);
  match existing with
  | Some _ => unique_violation
  | None =>
      _ ← insert_account (tenantId, customerId) a;
      if 0 <? initialPoints then
        _ ← insert_tx (posted_tx tenantId customerId a tid MANUAL_ADJUSTMENT initialPoints 0 "INITIAL" ("initial:" +:+ customerId)
              ("initial_points:" +:+ customerId) (Some actorId));
        outbox_add (PointsEvent "customer.loyalty.points_earned" tid customerId aid MANUAL_ADJUSTMENT initialPoints initialPoints None None None)
      else mret tt
  end.

(** The part of [updateCustomer] that follows a change of the tier: the account is read
    without a lock (profiles.service.ts:1216-1220), and the whole entity, if its tier
    changes, is what is saved. *)
Definition plan_follow_tier (tenantId customerId : string) (tier : option string) : tx (option AccountRow) :=
  account ← find_account (tenantId, customerId);
  mret (a ← account;
        if bool_decide (la_tier a = tier) then None
        else Some (with_balance (with_tier a tier) (la_posted a) (la_held a) (la_earned a) (la_redeemed a) (la_qualifying a))).

Definition save_follow_tier (tenantId customerId : string) (account : option AccountRow) : tx unit :=
  match account with Some a => save_account (tenantId, customerId) a | None => mret tt end.

(** Both, with no other request in between. *)
Definition follow_tier (tenantId customerId : string) (tier : option string) : tx unit :=
  account ← plan_follow_tier tenantId customerId tier;
  save_follow_tier tenantId customerId account.

(** [deactivateCustomer], with the columns of customers and addresses modelled here. *)
Definition deactivated (c : CustomerRow) (anonymize : bool) (now : Z) : CustomerRow :=
  {| c_code := c_code c; c_group := c_group c; c_tier := c_tier c; c_phone := if anonymize then None else c_phone c;
     c_phoneNormalized := if anonymize then None else c_phoneNormalized c; c_email := if anonymize then None else c_email c;
     c_status := if anonymize then "ANONYMIZED" else "INACTIVE"; c_mergedInto := c_mergedInto c; c_version := c_version c + 1;
     c_deletedAt := Some now; c_currentDebt := c_currentDebt c |}.

Definition anonymize_address (tenantId customerId : string) (a : AddressRow) : AddressRow :=
  if String.eqb (ad_tenant a) tenantId && String.eqb (ad_customer a) customerId
  then {| ad_tenant := ad_tenant a; ad_customer := ad_customer a; ad_default := false; ad_status := "INACTIVE" |}
  else a.

Definition shut (a : AccountRow) : AccountRow :=
  {| la_id := la_id a; la_posted := la_posted a; la_held := la_held a; la_earned := la_earned a; la_redeemed := la_redeemed a;
     la_qualifying := la_qualifying a; la_tier := la_tier a; la_status := "CLOSED"; la_version := la_version a + 1 |}.

Definition close_account (tenantId customerId : string) : tx unit :=
  account ← find_account (tenantId, customerId);
  match account with Some a => save_account (tenantId, customerId) (shut a) | None => mret tt end.

Definition deactivateCustomer (tenantId customerIdText : string) (anonymize : bool) (now : Z) : tx CustomerRow :=
  let customerId := as_uuid customerIdText in
  customer ← find_customer (tenantId, customerId);
  match customer with
  | None => rule CUSTOMER_NOT_FOUND 404
  | Some c =>
      activeHoldsCount ← gets (active_holds tenantId customerId);
      if (0 <? activeHoldsCount)%nat then rule LOYALTY_STATE_CONFLICT 409
      else if 0 <? c_currentDebt c then rule CUSTOMER_HAS_OUTSTANDING_DEBT 409
      else
        _ ← (if anonymize then
               _ ← modify (set_addresses (fmap (anonymize_address tenantId customerId)));
               close_account tenantId customerId
             else mret tt);
        let saved := deactivated c anonymize now in
        _ ← modify (set_customer (tenantId, customerId) saved);
        _ ← outbox_add (customer_event "customer.deactivated" customerId saved);
        mret saved
  end.
End Service.
