(* ===== verification/LoyaltyBooks.v ===== *)
(** * The books of the loyalty programme

    What every sequence of requests to the loyalty service, served one at a time,
    keeps: balances that equal the ledger, held points that equal the open holds, a
    ledger that is a running balance, one award per order and no more taken back than awarded, one
    redemption per committed hold; holds settle once, and the ledger only grows. *)

From S2P Require Import Prelude Transaction JsNumber JsString CustomerDomain LoyaltyStore Loyalty.

Open Scope Z_scope.

(** ** Statements, when they succeed *)

Ltac inv_tx_step :=
  first [ inv_txn
  | match goal with
    | H : find_customer _ _ = Ok _ |- _ => apply gets_Ok in H
    | H : find_account _ _ = Ok _ |- _ => apply gets_Ok in H
    | H : find_tx _ _ _ = Ok _ |- _ => apply gets_Ok in H
    | H : find_hold _ _ _ = Ok _ |- _ => apply gets_Ok in H
    | H : find_hold_by_key _ _ _ _ _ = Ok _ |- _ => apply gets_Ok in H
    | H : find_projection _ _ = Ok _ |- _ => apply gets_Ok in H
    | H : outbox_add _ _ = Ok _ |- _ => apply modify_Ok in H
    | H : hold_event _ _ _ _ _ = Ok _ |- _ => apply modify_Ok in H
    | H : domain _ _ = Ok (_, _) |- _ => apply embed_Ok in H as [H ?]
    | H : rule _ _ _ = Ok _ |- _ => discriminate H
    | H : unique_violation _ = Ok _ |- _ => discriminate H
    | H : query_failed _ = Ok _ |- _ => discriminate H
    end ].
Ltac inv_tx := repeat (inv_tx_step; try subst).

(** A row that violates no unique constraint of the ledger. *)
Definition fresh_in (d : db) (r : TxRow) : Prop :=
  forall y, y ∈ loyalty_transactions d -> of_key (lt_tenant r) (lt_key r) y = false /\ same_effect y r = false /\ lt_id y <> lt_id r.

Section Statements.
Lemma save_account_Ok k a d r : save_account k a d = Ok r -> r = (tt, set_account k a d) /\ check_account a = true.
Proof. unfold save_account. destruct (check_account a); [|done]. by intros ->%modify_Ok. Qed.

Lemma insert_account_Ok k a d r : insert_account k a d = Ok r ->
  r = (tt, set_account k a d) /\ check_account a = true /\ forall k' a', loyalty_accounts d !! k' = Some a' -> la_id a' <> la_id a.
Proof.
  unfold insert_account. intros H. inv_tx. destruct (existsb _ _) eqn:Eu; inv_tx. destruct (customers _ !! k); inv_tx.
  destruct (check_account a); inv_tx. do 2 (split; [done|]). intros k' a' Hk E. apply not_true_iff_false in Eu. apply Eu, existsb_exists.
  exists (k', a'). split; [by apply list_elem_of_In, elem_of_map_to_list | cbn; by apply String.eqb_eq].
Qed.

Lemma insert_tx_Ok x d r : insert_tx x d = Ok r -> r = (tt, add_tx x d) /\ check_tx x = true /\ fresh_in d x.
Proof.
  unfold insert_tx. intros H. inv_tx. destruct (_ || _) eqn:Eu; inv_tx. apply orb_false_iff in Eu as [Eu E3]. apply orb_false_iff in Eu as [E1 E2].
  destruct (check_tx x); inv_tx. split_and!; [done..|]. intros y Hy%list_elem_of_In.
  assert (Hno : forall f, existsb f (loyalty_transactions d) = false -> f y = false).
  { intros f Hf. apply not_true_iff_false. intros Hfy. apply not_true_iff_false in Hf. apply Hf, existsb_exists. eauto. }
  split_and!; [by apply Hno in E1 | by apply Hno in E2 | apply Hno in E3; by apply String.eqb_neq].
Qed.

Lemma insert_hold_Ok i h d r : insert_hold i h d = Ok r -> r = (tt, set_hold i h d) /\ check_hold h = true /\ loyalty_holds d !! i = None /\
  (forall j g, loyalty_holds d !! j = Some g -> of_hold_key (h_tenant h) (h_caller h) (h_operation h) (h_key h) g = false).
Proof.
  unfold insert_hold. intros H. inv_tx. destruct (List.find _ _) eqn:Ef; inv_tx.
  destruct (loyalty_holds _ !! i) eqn:Ei; inv_tx. destruct (check_hold h); inv_tx. split_and!; try done. intros j g Hj.
  apply (find_none _ _ Ef (j, g)). by apply list_elem_of_In, elem_of_map_to_list.
Qed.

Lemma save_hold_Ok i h d r : save_hold i h d = Ok r -> r = (tt, set_hold i h d) /\ check_hold h = true.
Proof. unfold save_hold. destruct (check_hold h); [|done]. by intros ->%modify_Ok. Qed.

Lemma save_projection_Ok k p d r : save_projection k p d = Ok r -> r = (tt, set_projections (insert k p) d) /\ check_projection p = true.
Proof. unfold save_projection. destruct (check_projection p); [|done]. by intros ->%modify_Ok. Qed.

Lemma find_hold_spec t i d h :
  match loyalty_holds d !! i with Some h => if String.eqb (h_tenant h) t then Some h else None | None => None end = Some h ->
  loyalty_holds d !! i = Some h /\ h_tenant h = t.
Proof. destruct (loyalty_holds d !! i); [|done]. destruct (String.eqb_spec (h_tenant h0) t); [|done]. by intros [= ->]. Qed.
End Statements.

Ltac inv_stmt :=
  match goal with
  | H : save_account _ _ _ = Ok _ |- _ => apply save_account_Ok in H as [H ?]
  | H : insert_account _ _ _ = Ok _ |- _ => apply insert_account_Ok in H as (H & ? & ?)
  | H : insert_tx _ _ = Ok _ |- _ => apply insert_tx_Ok in H as (H & ? & ?)
  | H : insert_hold _ _ _ = Ok _ |- _ => apply insert_hold_Ok in H as (H & ? & ? & ?)
  | H : save_hold _ _ _ = Ok _ |- _ => apply save_hold_Ok in H as [H ?]
  | H : save_projection _ _ _ = Ok _ |- _ => apply save_projection_Ok in H as [H ?]
  end.
Ltac inv_all := repeat ((inv_tx_step || inv_stmt); try subst).

(** ** The invariant *)

(** The tables the books are about. *)
Definition core (d : db) := (loyalty_accounts d, loyalty_transactions d, loyalty_holds d).

Definition rows_of (t account : string) : TxRow -> bool := fun r => String.eqb (lt_tenant r) t && String.eqb (lt_account r) account.

Record row_in_books (d : db) (r : TxRow) : Prop := {
  row_account : exists a, loyalty_accounts d !! (lt_tenant r, lt_customer r) = Some a /\ la_id a = lt_account r;
  row_earn : lt_type r = EARN -> exists o, lt_order r = Some o /\ lt_key r = "earn:order:" +:+ o;
  row_width : Z.abs (lt_delta r) <= 2 ^ 31;
  row_sign : lt_type r = EARN_REVERSAL -> lt_delta r < 0;
  row_redeem : lt_type r = REDEEM -> exists h, loyalty_holds d !! lt_sourceRef r = Some h /\ h_tenant h = lt_tenant r /\
    h_state h = COMMITTED /\ lt_delta r = - h_points h }.

Record hold_in_books (d : db) (i : string) (h : HoldRow) : Prop := {
  hold_account : exists a, loyalty_accounts d !! (h_tenant h, h_customer h) = Some a /\ la_id a = h_account h;
  hold_points : 0 < h_points h;
  hold_redeemed : h_state h = COMMITTED -> exists r, r ∈ loyalty_transactions d /\ lt_type r = REDEEM /\ lt_sourceRef r = i }.

Record books (d : db) : Prop := {
  books_ids : forall k k' a a', loyalty_accounts d !! k = Some a -> loyalty_accounts d !! k' = Some a' -> la_id a = la_id a' -> k = k';
  books_posted : forall k a, loyalty_accounts d !! k = Some a -> la_posted a = ledger_sum k.1 (la_id a) d;
  books_held : forall k a, loyalty_accounts d !! k = Some a -> la_held a = active_holds_sum k.1 (la_id a) d;
  books_rows : Forall (row_in_books d) (loyalty_transactions d);
  books_running : forall i r, loyalty_transactions d !! i = Some r ->
    lt_before r = total lt_delta (List.filter (rows_of (lt_tenant r) (lt_account r)) (take i (loyalty_transactions d))) /\
    lt_after r = lt_before r + lt_delta r;
  books_keys : NoDup (map (fun r => (lt_tenant r, lt_key r)) (loyalty_transactions d));
  books_effects : NoDup (map (fun r => (lt_tenant r, lt_type r, lt_sourceRef r)) (loyalty_transactions d));
  books_orders : forall t o, reversed_of t o d <= total lt_delta (List.filter (of_order t o EARN) (loyalty_transactions d));
  books_holds : map_Forall (hold_in_books d) (loyalty_holds d) }.

Lemma books_core d d' : core d' = core d -> books d -> books d'.
Proof.
  unfold core. intros [= E1 E2 E3] [B1 B2 B3 B4 B5 B6 B7 B8 B9].
  assert (Hr : forall r, row_in_books d r -> row_in_books d' r) by (intros r []; split; rewrite ?E1, ?E3; done).
  assert (Hh : forall i h, hold_in_books d i h -> hold_in_books d' i h) by (intros i h []; split; rewrite ?E1, ?E2; done).
  split; unfold ledger_sum, active_holds_sum, reversed_of in *; rewrite ?E1, ?E2, ?E3; try done.
  - eapply Forall_impl; [exact B4 | done].
  - intros i h Hi. apply Hh, B9, Hi.
Qed.

(** ** Moves *)

Definition accounts_stay (d d' : db) : Prop :=
  forall k a, loyalty_accounts d !! k = Some a -> exists a', loyalty_accounts d' !! k = Some a' /\ la_id a' = la_id a.

Section Moves.
Lemma row_mono d d' r : accounts_stay d d' ->
  (forall i h, loyalty_holds d !! i = Some h -> h_state h = COMMITTED -> loyalty_holds d' !! i = Some h) ->
  row_in_books d r -> row_in_books d' r.
Proof.
  intros Ha Hh [(a & H1 & H2) He Hw Hs Hr]. split; [| done | done | done |].
  - destruct (Ha _ _ H1) as (a' & ? & ?). exists a'. split; [done | congruence].
  - intros E. destruct (Hr E) as (h & G1 & G2 & G3 & G4). exists h. split_and!; auto.
Qed.

Lemma hold_mono d d' i h : accounts_stay d d' -> (forall r, r ∈ loyalty_transactions d -> r ∈ loyalty_transactions d') ->
  hold_in_books d i h -> hold_in_books d' i h.
Proof.
  intros Ha Hl [(a & H1 & H2) Hp Hr]. split; [| done |].
  - destruct (Ha _ _ H1) as (a' & ? & ?). exists a'. split; [done | congruence].
  - intros E. destruct (Hr E) as (r & ? & ?). eauto.
Qed.

Lemma set_account_stays d k a a' : loyalty_accounts d !! k = Some a -> la_id a' = la_id a -> accounts_stay d (set_account k a' d).
Proof.
  intros Hk Hid k' x Hx. cbn. destruct (decide (k = k')) as [<-|Hne]; [rewrite lookup_insert_eq; exists a'; split; [done | congruence]|].
  rewrite lookup_insert_ne by done. eauto.
Qed.

Lemma ledger_sum_app t i d d' rows : loyalty_transactions d' = loyalty_transactions d ++ rows ->
  ledger_sum t i d' = ledger_sum t i d + total lt_delta (List.filter (rows_of t i) rows).
Proof. intros E. unfold ledger_sum. rewrite E, List.filter_app. apply total_app. Qed.
End Moves.

(** What a ledger row must be when it is posted on account [a] of [k]. *)
Record posts (d' : db) (k : key) (a : AccountRow) (r : TxRow) : Prop := {
  post_tenant : lt_tenant r = k.1; post_customer : lt_customer r = k.2; post_account : lt_account r = la_id a;
  post_before : lt_before r = la_posted a; post_after : lt_after r = lt_before r + lt_delta r; post_row : row_in_books d' r }.

Lemma fresh_keys d r : fresh_in d r ->
  ((lt_tenant r, lt_key r) ∉ map (fun r => (lt_tenant r, lt_key r)) (loyalty_transactions d)) /\
  ((lt_tenant r, lt_type r, lt_sourceRef r) ∉ map (fun r => (lt_tenant r, lt_type r, lt_sourceRef r)) (loyalty_transactions d)).
Proof.
  intros Hf. split; intros (y & E & Hy)%list_elem_of_fmap; destruct (Hf y Hy) as (H1 & H2 & _).
  - injection E as E1 E2. unfold of_key in H1. by rewrite E1, E2, !String.eqb_refl in H1.
  - injection E as E1 E2 E3. unfold same_effect in H2. rewrite E1, E2, E3, !String.eqb_refl in H2. by rewrite bool_decide_eq_true_2 in H2.
Qed.

(** The general move: one account, at most one ledger row, the holds around it. *)
Lemma account_books_move d d' k a a' rows :
  books d -> loyalty_accounts d !! k = Some a -> loyalty_accounts d' = <[k := a']> (loyalty_accounts d) -> la_id a' = la_id a ->
  loyalty_transactions d' = loyalty_transactions d ++ rows -> (rows = [] \/ exists r, rows = [r] /\ fresh_in d r /\ posts d' k a r) ->
  la_posted a' = la_posted a + total lt_delta rows ->
  (forall t o, reversed_of t o d' <= total lt_delta (List.filter (of_order t o EARN) (loyalty_transactions d'))) ->
  (forall i h, loyalty_holds d !! i = Some h -> h_state h = COMMITTED -> loyalty_holds d' !! i = Some h) ->
  map_Forall (hold_in_books d') (loyalty_holds d') ->
  (forall t i, t <> k.1 \/ i <> la_id a -> active_holds_sum t i d' = active_holds_sum t i d) -> la_held a' = active_holds_sum k.1 (la_id a) d' ->
  books d'.
Proof.
  intros [B1 B2 B3 B4 B5 B6 B7 B8 B9] Hk Ha Hid Hl Hrows Hp Ho Hc Hh Hs Hheld.
  assert (Hstay : accounts_stay d d').
  { intros k' x Hx. rewrite Ha. destruct (decide (k = k')) as [<-|]; [rewrite lookup_insert_eq; exists a'; split; [done | congruence]|].
    rewrite lookup_insert_ne by done. eauto. }
  assert (Hother : forall k' x, k' <> k -> loyalty_accounts d !! k' = Some x -> k'.1 <> k.1 \/ la_id x <> la_id a).
  { intros k' x Hne Hx. destruct (decide (la_id x = la_id a)) as [E|]; [|by right]. by rewrite (B1 _ _ _ _ Hx Hk E) in Hne. }
  assert (Hlook : forall k' x, loyalty_accounts d' !! k' = Some x -> (k' = k /\ x = a') \/ (k' <> k /\ loyalty_accounts d !! k' = Some x)).
  { intros k' x. rewrite Ha. destruct (decide (k = k')) as [<-|]; [rewrite lookup_insert_eq; intros [= ->]; by left | rewrite lookup_insert_ne by done; by right]. }
  assert (Hnone : forall t i, t <> k.1 \/ i <> la_id a -> total lt_delta (List.filter (rows_of t i) rows) = 0).
  { intros t i Hne. destruct Hrows as [->|(r & -> & _ & [T _ A _ _ _])]; [done|]. cbn. unfold rows_of. rewrite T, A.
    destruct (String.eqb_spec k.1 t); [|done]. destruct (String.eqb_spec (la_id a) i); [|done]. destruct Hne; congruence. }
  split; [| | | | | | | exact Ho | exact Hh].
  - intros k1 k2 a1 a2 [[-> ->]|[N1 H1]]%Hlook [[-> ->]|[N2 H2]]%Hlook E; [done | | | by apply (B1 _ _ _ _ H1 H2)].
    + exfalso. apply N2. symmetry. apply (B1 _ _ _ _ Hk H2). congruence.
    + exfalso. apply N1. apply (B1 _ _ _ _ H1 Hk). congruence.
  - intros k' x [[-> ->]|[N Hx]]%Hlook; rewrite (ledger_sum_app _ _ d d' rows Hl).
    + rewrite Hid, <- (B2 _ _ Hk), Hp. f_equal. destruct Hrows as [->|(r & -> & _ & [T _ A _ _ _])]; [done|]. cbn. unfold rows_of. by rewrite T, A, !String.eqb_refl.
    + rewrite Hnone by (by apply Hother). rewrite <- (B2 _ _ Hx). lia.
  - intros k' x [[-> ->]|[N Hx]]%Hlook; [congruence|]. rewrite Hs by (by apply Hother). by apply B3.
  - rewrite Hl, Forall_app. split; [eapply Forall_impl; [exact B4|]; intros r; by apply row_mono|].
    destruct Hrows as [->|(r & -> & _ & [])]; [done | by apply Forall_singleton].
  - intros i r. rewrite Hl. destruct (Nat.lt_ge_cases i (length (loyalty_transactions d))) as [Hi|Hi].
    + rewrite lookup_app_l by done. intros Hr. rewrite take_app_le by lia. by apply B5.
    + rewrite lookup_app_r by done. destruct Hrows as [->|(r' & -> & _ & [T _ A Bf Af _])]; [by rewrite lookup_nil|].
      intros [Hi' <-]%list_lookup_singleton_Some. rewrite take_app_ge by lia. rewrite (proj2 (Nat.sub_0_le i _)) by lia. cbn [take].
      rewrite app_nil_r. split; [|done]. rewrite T, A, Bf. apply (B2 _ _ Hk).
  - rewrite Hl, map_app. destruct Hrows as [->|(r & -> & Hf & _)]; [by rewrite app_nil_r|]. apply NoDup_app. split_and!; [done | | apply NoDup_singleton].
    intros x Hx ->%list_elem_of_singleton. by destruct (fresh_keys _ _ Hf).
  - rewrite Hl, map_app. destruct Hrows as [->|(r & -> & Hf & _)]; [by rewrite app_nil_r|]. apply NoDup_app. split_and!; [done | | apply NoDup_singleton].
    intros x Hx ->%list_elem_of_singleton. by destruct (fresh_keys _ _ Hf).
Qed.

(** ** The moves the handlers make *)

Section Handlers.
Implicit Types (d : db) (k : key) (a : AccountRow).

Lemma of_order_other t o ty r : lt_type r <> ty -> of_order t o ty r = false.
Proof. intros H. unfold of_order. rewrite (bool_decide_eq_false_2 (lt_type r = ty)) by done. by rewrite andb_false_r. Qed.

(** A row keeps what is taken back of an order within what it earned: it is an
    award, or takes back no more than is left. *)
Definition order_fits d (r : TxRow) : Prop :=
  (lt_type r = EARN -> 0 <= lt_delta r) /\
  (lt_type r = EARN_REVERSAL -> forall o, lt_order r = Some o ->
     Z.abs (lt_delta r) + reversed_of (lt_tenant r) o d <= total lt_delta (List.filter (of_order (lt_tenant r) o EARN) (loyalty_transactions d))).

Lemma orders_post d d' r : books d -> loyalty_transactions d' = loyalty_transactions d ++ [r] -> order_fits d r ->
  forall t o, reversed_of t o d' <= total lt_delta (List.filter (of_order t o EARN) (loyalty_transactions d')).
Proof.
  intros Hb El [HE HR] t o. unfold reversed_of in *. rewrite El, !List.filter_app, !total_app. pose proof (books_orders _ Hb t o) as H0.
  unfold reversed_of in H0. cbn [List.filter]. destruct (of_order t o EARN r) eqn:E1, (of_order t o EARN_REVERSAL r) eqn:E2; cbn -[total].
  - unfold of_order in E1, E2. apply andb_true_iff in E1 as [_ E1%bool_decide_eq_true], E2 as [_ E2%bool_decide_eq_true]. congruence.
  - unfold of_order in E1. apply andb_true_iff in E1 as [_ E1%bool_decide_eq_true]. specialize (HE E1). unfold total in *. cbn. lia.
  - unfold of_order in E2. apply andb_true_iff in E2 as [E2 E3%bool_decide_eq_true]. apply andb_true_iff in E2 as [<-%String.eqb_eq E2%bool_decide_eq_true].
    specialize (HR E3 o E2). unfold total in *. cbn. lia.
  - unfold total in *. cbn. lia.
Qed.

Lemma order_fits_other d r : lt_type r <> EARN -> lt_type r <> EARN_REVERSAL -> order_fits d r.
Proof. by split. Qed.

Lemma holds_same d d' : books d -> accounts_stay d d' -> loyalty_holds d' = loyalty_holds d ->
  (forall r, r ∈ loyalty_transactions d -> r ∈ loyalty_transactions d') -> map_Forall (hold_in_books d') (loyalty_holds d').
Proof. intros Hb Hs E Hl i h. rewrite E. intros Hi. eapply hold_mono; [done..|]. by apply (books_holds _ Hb). Qed.

Lemma books_same d k a a' : books d -> loyalty_accounts d !! k = Some a -> la_id a' = la_id a -> la_posted a' = la_posted a -> la_held a' = la_held a ->
  books (set_account k a' d).
Proof.
  intros Hb Hk E1 E2 E3. pose proof (set_account_stays d k a a' Hk E1) as Hs.
  eapply (account_books_move d _ k a a' []); try done; [by rewrite app_nil_r | by left | rewrite E2; unfold total; cbn; lia | apply Hb | by apply (holds_same d) |].
  rewrite E3. by apply (books_held _ Hb).
Qed.

Lemma books_post d k a a' r : books d -> loyalty_accounts d !! k = Some a -> la_id a' = la_id a -> la_posted a' = la_posted a + lt_delta r ->
  la_held a' = la_held a -> fresh_in d r -> posts (add_tx r (set_account k a' d)) k a r -> order_fits d r -> books (add_tx r (set_account k a' d)).
Proof.
  intros Hb Hk E1 E2 E3 Hf Hp Ho. pose proof (set_account_stays d k a a' Hk E1) as Hs.
  eapply (account_books_move d _ k a a' [r]); try done.
  - right. exists r. done.
  - rewrite E2. unfold total. cbn. lia.
  - by eapply (orders_post d).
  - apply (holds_same d); [done | exact Hs | done |]. intros x Hx. cbn. apply elem_of_app. by left.
  - rewrite E3. by apply (books_held _ Hb).
Qed.

(** A new account: nothing refers to its id. *)
Lemma books_new d k a : books d -> loyalty_accounts d !! k = None -> (forall k' a', loyalty_accounts d !! k' = Some a' -> la_id a' <> la_id a) ->
  la_posted a = 0 -> la_held a = 0 -> books (set_account k a d).
Proof.
  intros [B1 B2 B3 B4 B5 B6 B7 B8 B9] Hk Hid E1 E2.
  assert (Hstay : accounts_stay d (set_account k a d)).
  { intros k' x Hx. cbn. exists x. split; [|done]. rewrite lookup_insert_ne; [done|]. intros <-. congruence. }
  assert (Hlook : forall k' x, <[k := a]> (loyalty_accounts d) !! k' = Some x -> (k' = k /\ x = a) \/ loyalty_accounts d !! k' = Some x).
  { intros k' x. destruct (decide (k = k')) as [<-|]; [rewrite lookup_insert_eq; intros [= ->]; by left | rewrite lookup_insert_ne by done; by right]. }
  assert (Hno : ledger_sum k.1 (la_id a) d = 0).
  { unfold ledger_sum. rewrite filter_none; [done|]. intros r Hr. apply not_true_iff_false. intros [_ Hx%String.eqb_eq]%andb_true_iff.
    rewrite Forall_forall in B4. destruct (row_account _ _ (B4 r Hr)) as (x & Hxk & E). apply (Hid _ _ Hxk). congruence. }
  assert (Hnh : active_holds_sum k.1 (la_id a) d = 0).
  { unfold active_holds_sum. rewrite (msum_ext _ (fun _ => 0)); [unfold msum, total; by induction (map snd _)|]. intros i h Hi.
    destruct (is_open k.1 (la_id a) h) eqn:Eo; [|done]. unfold is_open in Eo. apply andb_true_iff in Eo as [Eo _]. apply andb_true_iff in Eo as [_ Eo%String.eqb_eq].
    destruct (hold_account _ _ _ (B9 i h Hi)) as (x & Hxk & E). exfalso. apply (Hid _ _ Hxk). congruence. }
  split; cbn; try done.
  - intros k1 k2 a1 a2 [[-> ->]|H1]%Hlook [[-> ->]|H2]%Hlook E; [done | | | by apply (B1 _ _ _ _ H1 H2)].
    + exfalso. by apply (Hid _ _ H2).
    + exfalso. by apply (Hid _ _ H1).
  - intros k' x [[-> ->]|Hx]%Hlook; [by rewrite E1 | by apply B2].
  - intros k' x [[-> ->]|Hx]%Hlook; [by rewrite E2 | by apply B3].
  - eapply Forall_impl; [exact B4|]. intros r. by apply row_mono.
  - intros i h Hi. eapply hold_mono; [exact Hstay | done |]. by apply B9.
Qed.
End Handlers.

(** ** Holds *)

Section Holds.
Implicit Types (d : db) (a : AccountRow) (h : HoldRow).

Definition open_points (t account : string) h : Z := if is_open t account h then h_points h else 0.

Lemma open_points_other t account h : t <> h_tenant h \/ account <> h_account h -> open_points t account h = 0.
Proof.
  unfold open_points, is_open. intros H. destruct (String.eqb_spec (h_tenant h) t); [|done]. destruct (String.eqb_spec (h_account h) account); [|done].
  destruct H; congruence.
Qed.

Lemma open_points_own h : h_state h = HELD -> open_points (h_tenant h) (h_account h) h = h_points h.
Proof. intros E. unfold open_points, is_open. by rewrite !String.eqb_refl, bool_decide_eq_true_2. Qed.

Lemma settled_points t account h : h_state h <> HELD -> open_points t account h = 0.
Proof. intros E. unfold open_points, is_open. rewrite (bool_decide_eq_false_2 _ E). by rewrite andb_false_r. Qed.

(** An open hold is part of what its account holds. *)
Lemma open_hold_account d i h a : books d -> loyalty_holds d !! i = Some h -> loyalty_accounts d !! (h_tenant h, h_customer h) = Some a ->
  la_id a = h_account h /\ (h_state h = HELD -> h_points h <= la_held a).
Proof.
  intros Hb Hi Ha. destruct (hold_account _ _ _ (books_holds _ Hb i h Hi)) as (x & Hx & E). rewrite Ha in Hx. injection Hx as <-. split; [done|].
  intros Hs. rewrite (books_held _ Hb _ _ Ha), E. cbn [fst]. unfold active_holds_sum.
  rewrite <- (open_points_own h Hs) at 1. apply (msum_elem_le (open_points (h_tenant h) (h_account h)) (loyalty_holds d) i h); [|done].
  intros j g Hj. unfold open_points. destruct (is_open _ _ g); [|done]. pose proof (hold_points _ _ _ (books_holds _ Hb j g Hj)). lia.
Qed.

Lemma books_hold d a a' i h : books d -> loyalty_accounts d !! (h_tenant h, h_customer h) = Some a -> la_id a' = la_id a -> la_posted a' = la_posted a ->
  la_held a' = la_held a + h_points h -> loyalty_holds d !! i = None -> h_account h = la_id a -> h_state h = HELD -> 0 < h_points h ->
  books (set_hold i h (set_account (h_tenant h, h_customer h) a' d)).
Proof.
  intros Hb Hk E1 E2 E3 Hi Ha Hst Hp. pose proof (set_account_stays d _ a a' Hk E1) as Hs.
  assert (Hsum : forall t x, active_holds_sum t x (set_hold i h (set_account (h_tenant h, h_customer h) a' d)) = active_holds_sum t x d + open_points t x h).
  { intros t x. unfold active_holds_sum. cbn. by rewrite msum_insert_new. }
  eapply (account_books_move d _ _ a a' []); try done; [by rewrite app_nil_r | by left | rewrite E2; unfold total; cbn; lia | apply Hb | | | |].
  - intros j g Hj Hc. cbn. rewrite lookup_insert_ne; [done | congruence].
  - intros j g. cbn. intros [[<- <-]|[Hne Hj]]%lookup_insert_Some.
    + split; [|done|congruence]. exists a'. cbn. rewrite lookup_insert_eq. split; [done | congruence].
    + eapply hold_mono; [exact Hs | done |]. by apply (books_holds _ Hb).
  - intros t x Hne. rewrite Hsum, open_points_other; [lia|]. cbn in Hne. destruct Hne; [by left | right; congruence].
  - cbn. rewrite Hsum, E3. rewrite <- Ha. cbn. rewrite open_points_own by done. rewrite (books_held _ Hb _ _ Hk). cbn. by rewrite Ha.
Qed.

Definition settles (h h' : HoldRow) : Prop :=
  h_tenant h' = h_tenant h /\ h_customer h' = h_customer h /\ h_account h' = h_account h /\ h_points h' = h_points h /\ h_state h' <> HELD.

Lemma books_settle d d' a a' i h h' rows : books d -> loyalty_holds d !! i = Some h -> h_state h = HELD -> settles h h' ->
  loyalty_accounts d !! (h_tenant h, h_customer h) = Some a -> la_id a' = la_id a -> la_held a' = la_held a - h_points h ->
  loyalty_accounts d' = <[(h_tenant h, h_customer h) := a']> (loyalty_accounts d) -> loyalty_holds d' = <[i := h']> (loyalty_holds d) ->
  loyalty_transactions d' = loyalty_transactions d ++ rows -> la_posted a' = la_posted a + total lt_delta rows ->
  (rows = [] /\ h_state h' <> COMMITTED \/
   exists r, rows = [r] /\ fresh_in d r /\ posts d' (h_tenant h, h_customer h) a r /\ order_fits d r /\ lt_type r = REDEEM /\ lt_sourceRef r = i) ->
  books d'.
Proof.
  intros Hb Hi Hst (S1 & S2 & S3 & S4 & S5) Hk E1 E3 HA HH HL E2 Hrows. destruct (open_hold_account d i h a Hb Hi Hk) as [Eid _].
  assert (Hs : accounts_stay d d').
  { intros k x Hx. rewrite HA. by apply (set_account_stays d _ a a' Hk E1). }
  assert (Hsum : forall t x, active_holds_sum t x d' = active_holds_sum t x d - open_points t x h).
  { intros t x. unfold active_holds_sum. rewrite HH, (msum_insert_old _ _ i h' h Hi). change (if is_open t x h' then _ else 0) with (open_points t x h').
    rewrite settled_points by done. unfold open_points. lia. }
  eapply (account_books_move d d' _ a a' rows); try done.
  - destruct Hrows as [[-> _]|(r & -> & Hf & Hp & _)]; [by left | right; eauto].
  - destruct Hrows as [[-> _]|(r & -> & Hf & Hp & Ho & _)]; [|by eapply orders_post].
    unfold reversed_of. rewrite HL, app_nil_r. apply Hb.
  - intros j g Hj Hc. rewrite HH, lookup_insert_ne; [done | congruence].
  - intros j g. rewrite HH. intros [[<- <-]|[Hne Hj]]%lookup_insert_Some.
    + destruct (books_holds _ Hb i h Hi) as [_ Hp _]. split; [exists a'; rewrite HA, S1, S2, lookup_insert_eq; split; [done | congruence] | by rewrite S4 |].
      intros Hc. destruct Hrows as [[_ ?]|(r & -> & _ & _ & _ & Ht & Hr)]; [done|]. exists r. rewrite HL. split; [|done]. apply elem_of_app. right. left.
    + eapply hold_mono; [exact Hs | | by apply (books_holds _ Hb)]. intros r Hr. rewrite HL. apply elem_of_app. by left.
  - intros t x Hne. rewrite Hsum, open_points_other; [lia|]. cbn in Hne. destruct Hne; [by left | right; congruence].
  - cbn. rewrite Hsum, E3, (books_held _ Hb _ _ Hk), Eid. cbn. by rewrite open_points_own.
Qed.
End Holds.

(** ** Every handler keeps the books *)

(** A table of no concern to the books was written. *)
Ltac quiet d := apply (books_core d); [reflexivity|].

(** An event was added. *)
Ltac drop_event := match goal with |- books (add_event _ ?d) => quiet d end.

Section KeepBooks.
Context (lc : string -> string -> Z) (sha : HoldDigest -> string).

Lemma ensure_spec aid t c d a d1 : books d -> ensureAccountInTx aid t c d = Ok (a, d1) ->
  books d1 /\ loyalty_accounts d1 !! (t, c) = Some a /\ loyalty_transactions d1 = loyalty_transactions d /\ loyalty_holds d1 = loyalty_holds d.
Proof.
  intros Hb. unfold ensureAccountInTx. intros H. inv_tx. destruct (loyalty_accounts _ !! _) as [x|] eqn:E; inv_all; [done|]. split_and!; [by apply books_new | | done | done]. cbn. by rewrite lookup_insert_eq.
Qed.

Lemma settings_spec t d s d1 : getOrCreateSettingsInTx t d = Ok (s, d1) -> core d1 = core d.
Proof. unfold getOrCreateSettingsInTx. intros H. inv_tx. destruct (loyalty_settings _ !! t); by inv_tx. Qed.

Lemma recalculate_books t c q d u d' : books d -> recalculateCustomerTierWithinTransaction lc t c q d = Ok (u, d') -> books d'.
Proof.
  intros Hb. unfold recalculateCustomerTierWithinTransaction. intros H. inv_tx. destruct (customers _ !! _) as [x|]; inv_tx; [|done].
  case_bool_decide; inv_tx; [done|]. cbn [set_customer loyalty_accounts] in *. destruct (loyalty_accounts d !! _) as [a|] eqn:E; inv_tx; [|by quiet d].
  eapply (books_core (set_account (t, c) (with_tier a _) d)); [reflexivity|]. by apply (books_same _ _ a).
Qed.

(** The account a handler works on, and the tiers at its end. *)
Ltac ensured Hb :=
  match goal with H : ensureAccountInTx _ _ _ _ = Ok _ |- _ =>
    let Hb1 := fresh "Hb" in let Hk := fresh "Hk" in let Hl := fresh "Hl" in let Hh := fresh "Hh" in
    apply (ensure_spec _ _ _ _ _ _ Hb) in H as (Hb1 & Hk & Hl & Hh) end.
Ltac recalculated :=
  match goal with H : recalculateCustomerTierWithinTransaction _ _ _ _ _ = Ok _ |- _ => eapply recalculate_books; [|exact H]; clear H end.

Lemma parseVndBigInt_nonneg raw az z : parseVndBigInt raw az = Ok z -> 0 <= z.
Proof.
  unfold parseVndBigInt. destruct (is_nullish raw); [destruct az; by intros [= <-]|]. intros (v & _ & H)%bind_Ok.
  destruct (Z.ltb_spec v 0); [done|]. destruct (_ && _); [done|]. by injection H as <-.
Qed.

Lemma check_tx_spec r : check_tx r = true -> lt_delta r <> 0 /\ lt_after r = lt_before r + lt_delta r /\ Z.abs (lt_delta r) <= 2 ^ 31.
Proof. unfold check_tx, int4. intros H. bool_prop. lia. Qed.

(** The row a handler posts, as the account has it. *)
Lemma posts_row d k a a' r : lt_tenant r = k.1 -> lt_customer r = k.2 -> lt_account r = la_id a -> lt_before r = la_posted a -> check_tx r = true ->
  la_id a' = la_id a -> (lt_type r = EARN -> exists o, lt_order r = Some o /\ lt_key r = "earn:order:" +:+ o) ->
  (lt_type r = EARN_REVERSAL -> lt_delta r < 0) -> lt_type r <> REDEEM ->
  posts (add_tx r (set_account k a' d)) k a r.
Proof.
  intros T C A B Hc Hid He Hs Hr. apply check_tx_spec in Hc as (_ & Hc & Hw). split; try (done || lia). split; try done.
  exists a'. rewrite T, C, A. destruct k. cbn. rewrite lookup_insert_eq. split; [done | congruence].
Qed.

(** A key that was looked up before, perhaps too early. *)
Lemma raced_lookup {A} raced (m : tx (option A)) d x d1 : (forall y d2, m d = Ok (y, d2) -> d2 = d) ->
  (if raced : bool then mret None else m) d = Ok (x, d1) -> d1 = d /\ (x = None \/ m d = Ok (x, d)).
Proof. destruct raced; intros Hm H; [inv_tx; auto|]. pose proof (Hm _ _ H). subst. auto. Qed.

Lemma adjustPoints_books raced t c actor header dto uuid aid tid d r d' : books d ->
  adjustPoints lc raced t c actor header dto uuid aid tid d = Ok (r, d') -> books d'.
Proof.
  intros Hb. unfold adjustPoints. destruct (ma_delta dto =? 0); [done|]. destruct (String.eqb _ ""); [done|]. cbv zeta. intros H.
  apply tx_bind_Ok in H as (ex & d0 & Hex & H). apply raced_lookup in Hex as [-> _]; [|intros; by inv_tx].
  destruct ex as [x|]; [inv_tx; by ensured Hb|]. inv_tx. destruct (live _); inv_tx. ensured Hb. destruct (_ && _); inv_all.
  drop_event. recalculated. eapply books_post; try done. by apply posts_row.
Qed.

Ltac settings_kept Hb :=
  match goal with H : getOrCreateSettingsInTx _ _ = Ok _ |- _ => let Hs := fresh "Hs" in pose proof (books_core _ _ (settings_spec _ _ _ _ H) Hb) as Hs end.

Lemma updateSettings_books t actor dto d r d' : books d -> updateSettings t actor dto d = Ok (r, d') -> books d'.
Proof.
  intros Hb. unfold updateSettings. intros H. inv_tx. settings_kept Hb. unfold vnd_setting in *.
  match goal with H1 : match us_earn dto with _ => _ end ?x = Ok (_, ?y), H2 : match us_redeem dto with _ => _ end ?y = Ok (_, ?z) |- _ =>
    assert (y = x) as Ey by (destruct (us_earn dto); by inv_tx); assert (z = y) as Ez by (destruct (us_redeem dto); by inv_tx) end.
  subst. destruct (check_settings _); inv_tx. match goal with H : books ?x |- _ => by quiet x end.
Qed.

Lemma replay_books aid t hash e d r d' : books d -> replay_hold aid t hash e d = Ok (r, d') -> books d'.
Proof. intros Hb. unfold replay_hold. destruct (negb _); [done|]. intros H. inv_tx. by ensured Hb. Qed.

Lemma create_hold_books raced t caller k hash refType dto hid aid now d r d' : books d ->
  create_hold_tx raced t caller k hash refType dto hid aid now d = Ok (r, d') -> books d'.
Proof.
  intros Hb. unfold create_hold_tx. intros H. apply tx_bind_Ok in H as (ex & d0 & Hex & H). apply raced_lookup in Hex as [-> _]; [|intros; by inv_tx].
  destruct ex as [x|]; [by eapply replay_books|]. cbv zeta in H. inv_tx. destruct (live _); inv_tx. destruct (negb _); inv_tx. settings_kept Hb.
  ensured Hs. destruct (negb _); inv_all. drop_event. match goal with |- books (set_hold hid ?h _) => eapply (books_hold _ a0 _ hid h); try done end.
  match goal with H : check_hold _ = true |- _ => unfold check_hold in H; bool_prop; cbn in *; lia end.
Qed.

Lemma createHold_books raced t header dto hid aid now d r d' : books d -> createHold sha raced t header dto hid aid now d = Ok (r, d') -> books d'.
Proof.
  intros Hb. unfold createHold. destruct (String.eqb _ ""); [done|]. cbv zeta. destruct (create_hold_tx _ _ _ _ _ _ _ _ _ _ d) as [[x d1]|e] eqn:E.
  - intros [= -> ->]. by eapply create_hold_books.
  - destruct e as [[c| |] st|]; try done. intros H. inv_tx. destruct (List.find _ _); inv_tx. by eapply replay_books.
Qed.

Lemma getLoyaltyAccount_books t c aid d r d' : books d -> getLoyaltyAccount t c aid d = Ok (r, d') -> books d'.
Proof. intros Hb. unfold getLoyaltyAccount. cbv zeta. intros H. inv_tx. destruct (live _); inv_tx. by ensured Hb. Qed.

Lemma getHold_books t i aid d r d' : books d -> getHoldById t i aid d = Ok (r, d') -> books d'.
Proof. intros Hb. unfold getHoldById. cbv zeta. intros H. inv_tx. destruct (match loyalty_holds d !! _ with Some _ => _ | None => _ end); inv_tx. by ensured Hb. Qed.

Lemma unhold_exact d i h a : books d -> loyalty_holds d !! i = Some h -> loyalty_accounts d !! (h_tenant h, h_customer h) = Some a -> h_state h = HELD ->
  Z.max 0 (la_held a - h_points h) = la_held a - h_points h.
Proof. intros Hb Hi Ha Hs. pose proof (proj2 (open_hold_account d i h a Hb Hi Ha) Hs). lia. Qed.

(** Giving the points of a hold back. *)
Lemma books_unhold d i h a st committed released reason : books d -> loyalty_holds d !! i = Some h -> h_state h = HELD ->
  loyalty_accounts d !! (h_tenant h, h_customer h) = Some a -> st <> HELD -> st <> COMMITTED ->
  books (set_hold i (with_state h st committed released reason) (set_account (h_tenant h, h_customer h) (unhold a (h_points h)) d)).
Proof.
  intros Hb Hi Hst Ha S1 S2. eapply (books_settle d _ a (unhold a (h_points h)) i h (with_state h st committed released reason) []); try done.
  - cbn. by eapply unhold_exact.
  - by rewrite app_nil_r.
  - cbn. unfold total. cbn. lia.
  - by left.
Qed.

Lemma commitHold_books t i order actor aid tid now d r d' : books d -> commitHold t i order actor aid tid now d = Ok (r, d') -> books d'.
Proof.
  intros Hb. unfold commitHold. cbv zeta. intros H. inv_tx. destruct (match loyalty_holds d !! _ with Some _ => _ | None => _ end) as [h|] eqn:Eh; inv_tx.
  apply find_hold_spec in Eh as [Eh <-]. ensured Hb. destruct (h_state h) eqn:Est; inv_tx; [|done]. destruct (_ <=? now); inv_all.
  do 2 drop_event. rewrite <- Hh in Eh. destruct (open_hold_account _ _ _ _ Hb0 Eh Hk) as [Eid _].
  eapply (books_settle d0 _ a (redeemed a (h_points h)) (as_uuid i) h
    (with_state h COMMITTED (Some now) (h_releasedAt h) (h_releaseReason h)) [redeem_tx (h_tenant h) (as_uuid i) h a tid order actor]); try done.
  - cbn. by eapply unhold_exact.
  - cbn. unfold total. cbn. lia.
  - right. eexists. split; [done|]. split; [done|]. split; [|split_and!; try done; by apply order_fits_other]. split; try done. split; try done.
    + exists (redeemed a (h_points h)). cbn. by rewrite lookup_insert_eq.
    + match goal with H : check_tx _ = true |- _ => by apply check_tx_spec in H as (_ & _ & ?) end.
    + intros _. cbn. rewrite lookup_insert_eq. eexists. split; [done|]. done.
Qed.

Lemma releaseHold_books t i reason aid now d r d' : books d -> releaseHold t i reason aid now d = Ok (r, d') -> books d'.
Proof.
  intros Hb. unfold releaseHold. cbv zeta. intros H. inv_tx. destruct (match loyalty_holds d !! _ with Some _ => _ | None => _ end) as [h|] eqn:Eh; inv_tx.
  apply find_hold_spec in Eh as [Eh <-]. ensured Hb. destruct (h_state h) eqn:Est; inv_all; try done. drop_event. rewrite <- Hh in Eh. by apply books_unhold.
Qed.

Lemma expire_step_books t aid now n e d r d' : books d -> expire_step t aid now n e d = Ok (r, d') -> books d'.
Proof.
  intros Hb. unfold expire_step. intros H. inv_tx. destruct (match loyalty_holds d !! _ with Some _ => _ | None => _ end) as [h|] eqn:Eh; inv_tx; [|done].
  apply find_hold_spec in Eh as [Eh <-]. case_bool_decide as Est; cbn [negb] in *; inv_tx; [|done]. ensured Hb. inv_all. drop_event. rewrite <- Hh in Eh.
  by apply books_unhold.
Qed.

Lemma expire_books t limit locked aid dbnow now d r d' : books d -> expireOverdueHolds t limit locked aid dbnow now d = Ok (r, d') -> books d'.
Proof.
  intros Hb. unfold expireOverdueHolds. intros H. inv_tx. eapply (for_each_inv (fun _ d => books d)); [|exact Hb | exact H].
  intros s x d1 s' d2 _ Hb1. by apply expire_step_books.
Qed.

(** *** Sales and returns *)

(** What is taken back is within what is left of the award. *)
Lemma reversal_bounds E R spend refund cum r : Z.abs E <= 2 ^ 31 -> 0 <= R <= 2 ^ 31 ->
  calculateReturnPointReversal {| rv_originalEarnedPoints := int E; rv_alreadyReversedPoints := int R; rv_originalEligibleSpendVnd := spend;
    rv_returnRefundAmountVnd := refund; rv_cumulativeRefundedAmountVnd := Some cum |} = Ok r ->
  exists x, pointsToReverse r = int x /\ 0 <= x <= Z.max 0 (E - R).
Proof.
  intros HE HR. unfold calculateReturnPointReversal. cbn [rv_originalEarnedPoints rv_alreadyReversedPoints rv_originalEligibleSpendVnd rv_returnRefundAmountVnd
    rv_cumulativeRefundedAmountVnd]. rewrite nle_int. destruct (Z.leb_spec E 0) as [HE0|HE0].
  { intros [= <-]. exists 0. cbn. split; [done | lia]. }
  cbv zeta. rewrite nsub_int, mathMax_int, neq_int by lia. destruct (Z.eqb_spec (Z.max 0 (E - R)) 0).
  { intros [= <-]. exists 0. cbn. split; [done | lia]. }
  intros (S & _ & H)%bind_Ok. apply bind_Ok in H as (rf & _ & H). destruct (_ || _) eqn:Eo.
  { injection H as <-. exists 0. cbn. split; [done | lia]. }
  apply orb_false_iff in Eo as [ES%Z.leb_gt _]. apply bind_Ok in H as (c & Hc & H). destruct (Z.leb_spec S c) as [HSc|HSc].
  { injection H as <-. exists (Z.max 0 (E - R)). cbn. split; [done | lia]. }
  assert (0 <= c) by (by eapply parseVndBigInt_nonneg).
  destruct (proportional_points_int E c S) as [Hp Hb]; [unfold MAX_SAFE_INTEGER; lia | lia | lia | lia |].
  rewrite Hp, bind_of_Ok in H. rewrite (nsub_int (E * c / S) R), mathMin_int, mathMax_int in H by lia. injection H as <-. eexists. split; [done | lia].
Qed.

Lemma reversed_nonneg t o d : 0 <= reversed_of t o d.
Proof. apply total_nonneg. intros. lia. Qed.

Lemma earn_key d t o r : books d -> r ∈ loyalty_transactions d -> of_order t o EARN r = true -> lt_tenant r = t /\ lt_key r = "earn:order:" +:+ o.
Proof.
  intros Hb Hr Ho. unfold of_order in Ho. apply andb_true_iff in Ho as [Ho Ht%bool_decide_eq_true]. apply andb_true_iff in Ho as [<-%String.eqb_eq Ho%bool_decide_eq_true].
  split; [done|]. pose proof (books_rows _ Hb) as HR. rewrite Forall_forall in HR. destruct (row_earn _ _ (HR r Hr) Ht) as (o' & E1 & E2). congruence.
Qed.

(** An order has at most one award, found by its key. *)
Lemma earn_unique d t o e : books d -> List.find (of_order t o EARN) (loyalty_transactions d) = Some e ->
  List.filter (of_order t o EARN) (loyalty_transactions d) = [e] /\ Z.abs (lt_delta e) <= 2 ^ 31.
Proof.
  intros Hb He. apply find_some in He as He'. destruct He' as [Hin Hp]. apply list_elem_of_In in Hin. split.
  - eapply filter_found; [apply (books_keys _ Hb) | done |]. intros y Hy Hyp. destruct (earn_key d t o y Hb Hy Hyp), (earn_key d t o e Hb Hin Hp). congruence.
  - pose proof (books_rows _ Hb) as HR. rewrite Forall_forall in HR. by apply (HR e Hin).
Qed.

Lemma no_award d t o : books d -> List.find (of_key t ("earn:order:" +:+ o)) (loyalty_transactions d) = None ->
  List.filter (of_order t o EARN) (loyalty_transactions d) = [] /\ reversed_of t o d = 0.
Proof.
  intros Hb Hn. assert (E : List.filter (of_order t o EARN) (loyalty_transactions d) = []).
  { apply filter_none. intros r Hr. apply not_true_iff_false. intros Ho. destruct (earn_key d t o r Hb Hr Ho) as [E1 E2].
    apply list_elem_of_In in Hr. pose proof (find_none _ _ Hn r Hr) as Hx. unfold of_key in Hx. by rewrite E1, E2, !String.eqb_refl in Hx. }
  split; [done|]. pose proof (books_orders _ Hb t o) as Hle. rewrite E in Hle. pose proof (reversed_nonneg t o d). unfold total in Hle. cbn in Hle. lia.
Qed.

Lemma reversal_fits d t c o a tid x ref k ret orig corr rate : 0 <= x ->
  x + reversed_of t o d <= total lt_delta (List.filter (of_order t o EARN) (loyalty_transactions d)) ->
  order_fits d (reversal_tx t c o a tid x ref k ret orig corr rate).
Proof. intros Hx H. split; [done|]. intros _ o' [= <-]. cbn. lia. Qed.

(** Taking points back from the account. *)
Lemma books_claw d t c o a tid x ref k ret orig corr rate : books d -> loyalty_accounts d !! (t, c) = Some a ->
  let r := reversal_tx t c o a tid x ref k ret orig corr rate in
  check_tx r = true -> fresh_in d r -> 0 < x -> x + reversed_of t o d <= total lt_delta (List.filter (of_order t o EARN) (loyalty_transactions d)) ->
  books (add_tx r (set_account (t, c) (clawed_back a x) d)).
Proof.
  intros Hb Hk r Hc Hf Hx Ho. eapply books_post; try done; [by apply posts_row; [done..| cbn; lia | done] | apply reversal_fits; lia].
Qed.

Lemma award_spec t p a tid earned eligible rate d a1 d2 : books d -> loyalty_accounts d !! (t, sp_customer p) = Some a ->
  award t p a tid earned eligible rate d = Ok (a1, d2) ->
  books d2 /\ loyalty_accounts d2 !! (t, sp_customer p) = Some a1 /\
  loyalty_transactions d2 = loyalty_transactions d ++ (if 0 <? earned then [earn_tx t p a tid earned eligible rate] else []).
Proof.
  intros Hb Hk. unfold award. destruct (Z.ltb_spec 0 earned); [|intros H0; inv_tx; by rewrite app_nil_r]. cbv zeta. intros H0. inv_all.
  split_and!; [drop_event | cbn; by rewrite lookup_insert_eq | done]. eapply books_post; try done; [apply posts_row; try done; intros _; eauto|].
  split; [cbn; lia | done].
Qed.

Lemma deferred_books t p a proj pre tid tid2 earned eligible rate d out d' : books d -> loyalty_accounts d !! (t, sp_customer p) = Some a ->
  (0 < earned -> total lt_delta (List.filter (of_order t (sp_order p) EARN) (loyalty_transactions d)) = earned /\ Z.abs earned <= 2 ^ 31 /\
     reversed_of t (sp_order p) d = 0) ->
  deferred_reversal t p a proj pre tid tid2 earned eligible rate d = Ok (out, d') -> books d'.
Proof.
  intros Hb Hk Ho. unfold deferred_reversal. intros H. inv_tx. destruct (Z.ltb_spec 0 earned) as [He|]; cbn [andb] in H; [|by inv_tx].
  destruct (Ho He) as (E1 & E2 & E3). destruct (_ && _); inv_tx; [|done]. destruct (0 <? nval _) eqn:Ex; inv_tx; [|done].
  match goal with H : calculateReturnPointReversal _ = Ok _ |- _ => apply reversal_bounds in H as (x & Hx & Hb'); [|done|lia] end.
  rewrite Hx in *. change (nval (int x)) with x in *. apply Z.ltb_lt in Ex. inv_all. drop_event. apply books_claw; try done. lia.
Qed.

Lemma processCompletedSale_books t p aid tid tid2 d r d' : books d -> processCompletedSale lc t p aid tid tid2 d = Ok (r, d') -> books d'.
Proof.
  intros Hb. unfold processCompletedSale. intros H. inv_tx. destruct (live _); inv_tx; [|done].
  destruct (List.find _ _) eqn:Ef; inv_tx; [done|].
  match goal with H : getOrCreateSettingsInTx _ _ = Ok _ |- _ => pose proof (settings_spec _ _ _ _ H) as Hc end. pose proof (books_core _ _ Hc Hb) as Hs.
  injection Hc as _ Hlt _. ensured Hs. inv_tx.
  match goal with H : award _ _ _ _ _ _ _ _ = Ok _ |- _ => apply (award_spec _ _ _ _ _ _ _ _ _ _ Hb0 Hk) in H as (Hb1 & Hk1 & Hl1) end.
  rewrite <- Hlt, <- Hl in Ef. destruct (no_award _ _ _ Hb0 Ef) as [N1 N2]. inv_all. recalculated.
  match goal with |- books (set_projections _ ?x) => quiet x end.
  match goal with H : deferred_reversal _ _ _ _ _ _ _ ?e _ _ _ = Ok _ |- _ => eapply (deferred_books _ _ _ _ _ _ _ e); [exact Hb1 | exact Hk1 | | exact H] end.
  intros He. apply Z.ltb_lt in He as He'. rewrite He' in Hl1. unfold reversed_of in *. rewrite Hl1, !List.filter_app, N1. cbn [List.filter app].
  unfold of_order at 1 3. cbn. rewrite String.eqb_refl, !bool_decide_eq_true_2 by done. cbn. rewrite app_nil_r. split_and!; [unfold total; cbn; lia | | done].
  pose proof (books_rows _ Hb1) as HR. rewrite Hl1 in HR. apply Forall_app in HR as [_ HR]. apply Forall_cons in HR as [HR _]. apply (row_width _ _ HR).
Qed.

Lemma onSalesOrderCompleted_books t p aid tid tid2 d r d' : books d -> onSalesOrderCompleted lc t p aid tid tid2 d = Ok (r, d') -> books d'.
Proof.
  intros Hb. unfold onSalesOrderCompleted. destruct (truthy_text _); intros H; inv_tx; [|done]. by eapply processCompletedSale_books.
Qed.

Lemma onSalesCheckoutCompleted_books t p aid tid tid2 d r d' : books d -> onSalesCheckoutCompleted lc t p aid tid tid2 d = Ok (r, d') -> books d'.
Proof.
  intros Hb. unfold onSalesCheckoutCompleted. destruct (truthy_text _); intros H; inv_tx; [|done]. by eapply processCompletedSale_books.
Qed.

Lemma reverse_return_books t p proj e refund cum aid tid d r d' : books d ->
  List.find (of_order t (rp_order p) EARN) (loyalty_transactions d) = Some e -> reverse_return lc t p proj e refund cum aid tid d = Ok (r, d') -> books d'.
Proof.
  intros Hb He. unfold reverse_return. cbv zeta. intros H. destruct (earn_unique _ _ _ _ Hb He) as [Ef Hw]. pose proof (reversed_nonneg t (rp_order p) d).
  pose proof (books_orders _ Hb t (rp_order p)) as Ho. rewrite Ef in Ho. unfold total in Ho. cbn in Ho. inv_tx.
  match goal with H : calculateReturnPointReversal _ = Ok _ |- _ => apply reversal_bounds in H as (x & Hx & Hbx); [|done|lia] end.
  rewrite Hx in *. change (nval (int x)) with x in *. inv_all.
  match goal with _ : check_projection ?pr = true |- _ => assert (Hb1 : books (set_projections (insert (t, rp_order p) pr) d)) by (by quiet d) end.
  destruct (Z.leb_spec x 0); inv_tx; [done|]. ensured Hb1. inv_all. drop_event. recalculated. apply books_claw; try done.
  cbn [set_projections loyalty_transactions] in Hl. unfold reversed_of in *. rewrite Hl, Ef. unfold total at 2. cbn. lia.
Qed.

Lemma processCompletedReturn_books raced t p aid tid now d r d' : books d -> processCompletedReturn lc raced t p aid tid now d = Ok (r, d') -> books d'.
Proof.
  intros Hb. unfold processCompletedReturn. intros H. apply tx_bind_Ok in H as (ex & d0 & Hex & H). apply raced_lookup in Hex as [-> _]; [|intros; by inv_tx].
  destruct ex as [x|]; inv_tx; [done|]. destruct (customer_purchase_projections d !! _) as [proj|].
  - case_bool_decide; inv_tx; [done|]. destruct (List.find _ _) as [e|] eqn:Ee; [by eapply reverse_return_books|]. inv_all. by quiet d.
  - destruct (truthy_text _); inv_all; [by quiet d | done].
Qed.

(** *** Merging customers *)

Definition same_core (d d' : db) : Prop := core d' = core d.

#[local] Instance same_core_preorder : PreOrder same_core.
Proof. split; [by intros d | intros d1 d2 d3 H1 H2; unfold same_core in *; congruence]. Qed.

(** The two rows and the two accounts of a merge. *)
Lemma merge_rows_books d t source target k actor s a tid1 tid2 tier u d1 : books d -> source <> target ->
  loyalty_accounts d !! (t, source) = Some s -> loyalty_accounts d !! (t, target) = Some a ->
  merge_points t source target k actor s a tid1 tid2 d = Ok (u, d1) ->
  books (set_account (t, target) (absorbed a (Some s) tier) (set_account (t, source) (closed s) d1)).
Proof.
  intros Hb Hne Hs Ht. unfold merge_points. assert (Ht' : forall x, <[(t, source) := x]> (loyalty_accounts d) !! (t, target) = Some a).
  { intros x. rewrite lookup_insert_ne; [done | congruence]. }
  destruct (Z.eqb_spec (la_posted s) 0) as [Hz|Hz]; intros H; inv_all.
  - eapply (books_same _ _ a); [by eapply (books_same _ _ s) | apply Ht' | done | cbn; lia | done].
  - set (out := merge_tx t source s tid1 MERGE_OUT _ _ _ _) in *. set (inn := merge_tx t target a tid2 MERGE_IN _ _ _ _) in *.
    apply (books_core (add_tx inn (set_account (t, target) (absorbed a (Some s) tier) (add_tx out (set_account (t, source) (closed s) d))))); [done|].
    eapply (books_post _ _ a); [ | apply Ht' | done | cbn; lia | done | done | by apply posts_row | by apply order_fits_other].
    eapply (books_post _ _ s); [done | done | done | cbn; lia | done | done | by apply posts_row | by apply order_fits_other].
Qed.

Lemma merge_accounts_books d t source target k actor tc aid tid1 tid2 out d' : books d -> source <> target ->
  merge_accounts lc t source target k actor tc aid tid1 tid2 d = Ok (out, d') -> books d'.
Proof.
  intros Hb Hne. unfold merge_accounts. cbv zeta. intros H. inv_tx.
  match goal with H : match loyalty_accounts d !! (t, target) with _ => _ end d = Ok (?a, ?d1) |- _ =>
    assert (Ht : books d1 /\ loyalty_accounts d1 !! (t, target) = Some a /\ loyalty_accounts d1 !! (t, source) = loyalty_accounts d !! (t, source));
    [destruct (loyalty_accounts d !! (t, target)) as [b|] eqn:Eb; inv_all; [done|] |] end.
  { split; [by apply books_new|]. cbn. rewrite lookup_insert_eq. split; [done|]. rewrite lookup_insert_ne; [done | congruence]. }
  destruct Ht as (Hb1 & Ht & Hs). destruct (loyalty_accounts d !! (t, source)) as [s|].
  - inv_all. by eapply merge_rows_books.
  - inv_all. eapply books_same; [done | exact Ht | done | cbn; lia | done].
Qed.

Lemma finish_merge_core t source target k actor sc tc now sl t' newTier : Keeps same_core (finish_merge t source target k actor sc tc now sl t' newTier).
Proof. solve_keeps_with ltac:(idtac; match goal with |- same_core _ _ => reflexivity end). Qed.

(** What a merge does: it answers from the history, or moves the accounts. *)
Lemma mergeCustomers_cases t actor dto header aid tid1 tid2 now d r d' : mergeCustomers lc t actor dto header aid tid1 tid2 now d = Ok (r, d') ->
  (mr_replay r = true /\ d' = d) \/
  mc_source dto <> mc_target dto /\ exists k sc tc out d1, merge_accounts lc t (mc_source dto) (mc_target dto) k actor tc aid tid1 tid2 d = Ok (out, d1) /\
    finish_merge t (mc_source dto) (mc_target dto) k actor sc tc now out.1.1 out.1.2 out.2 d1 = Ok (r, d').
Proof.
  unfold mergeCustomers. cbv zeta. destruct (String.eqb_spec (mc_source dto) (mc_target dto)) as [|Hne]; [done|]. intros H. inv_tx.
  destruct (List.find _ _); [destruct (String.eqb _ _); inv_tx; by left|]. inv_tx. unfold find_exact in *.
  repeat match goal with H : (if ?b then find_customer _ else mret None) ?x = Ok (_, ?y) |- _ => assert (y = x) as -> by (destruct b; by inv_tx); clear H end.
  match goal with H : match ?x with _ => _ end d = Ok _ |- _ => destruct x as [sc|]; [|by inv_tx] end.
  match goal with H : match ?x with _ => _ end d = Ok _ |- _ => destruct x as [tc|]; [|by inv_tx] end.
  destruct (truthy_text _); [destruct (String.eqb _ _); inv_tx; by left|]. destruct (_ || _); [by inv_tx|]. inv_tx. destruct (Nat.ltb _ _); [by inv_tx|].
  inv_tx. right. split; [done|]. eauto 10.
Qed.

Lemma mergeCustomers_books t actor dto header aid tid1 tid2 now d r d' : books d -> mergeCustomers lc t actor dto header aid tid1 tid2 now d = Ok (r, d') -> books d'.
Proof.
  intros Hb [[_ ->] | (Hne & k & sc & tc & out & d1 & H1 & H2)]%mergeCustomers_cases; [done|]. apply merge_accounts_books in H1 as Hb1; [|done..].
  apply (books_core _ _ (finish_merge_core _ _ _ _ _ _ _ _ _ _ _ _ _ _ H2) Hb1).
Qed.

(** *** Accounts of the profiles service *)

Lemma open_account_books t c actor p tier aid tid d r d' : books d -> open_account t c actor p tier aid tid d = Ok (r, d') -> books d'.
Proof.
  intros Hb. unfold open_account. cbv zeta. intros H. inv_tx. destruct (loyalty_accounts _ !! _) eqn:E; inv_all.
  set (a := {| la_id := aid; la_posted := p |}) in *. set (a0 := with_balance (new_account aid) 0 0 0 0 0).
  assert (Hb0 : books (set_account (t, c) a0 d)) by (by apply books_new). destruct (Z.ltb_spec 0 p); inv_all.
  - drop_event. match goal with |- books (add_tx ?r _) => apply (books_core (add_tx r (set_account (t, c) a (set_account (t, c) a0 d)))) end.
    + unfold core. cbn. by rewrite insert_insert_eq.
    + eapply (books_post _ _ a0); [done | cbn; by rewrite lookup_insert_eq | done | done | done | done | by apply posts_row | by apply order_fits_other].
  - assert (p = 0) as ->. { match goal with H : check_account a = true |- _ => unfold check_account in H; cbn in H; bool_prop; lia end. }
    by apply books_new.
Qed.

Lemma follow_tier_books t c tier d r d' : books d -> follow_tier t c tier d = Ok (r, d') -> books d'.
Proof.
  intros Hb. unfold follow_tier, plan_follow_tier. intros H. inv_tx. destruct (loyalty_accounts _ !! _) as [a|] eqn:E; cbn in H; [|by inv_tx].
  case_bool_decide; cbn in H; inv_all; [done|]. by apply (books_same _ _ a).
Qed.

Lemma close_account_books t c d r d' : books d -> close_account t c d = Ok (r, d') -> books d'.
Proof.
  intros Hb. unfold close_account. intros H. inv_tx. destruct (loyalty_accounts _ !! _) as [a|] eqn:E; inv_all; [|done]. by apply (books_same _ _ a).
Qed.

Lemma deactivateCustomer_books t c anonymize now d r d' : books d -> deactivateCustomer t c anonymize now d = Ok (r, d') -> books d'.
Proof.
  intros Hb. unfold deactivateCustomer. cbv zeta. intros H. inv_tx. destruct (customers _ !! _); inv_tx. destruct (Nat.ltb _ _); inv_tx.
  destruct (0 <? _); inv_tx. drop_event. match goal with |- books (set_customer _ _ ?x) => quiet x end.
  destruct anonymize; inv_tx; [|done]. eapply close_account_books; [|done]. by quiet d.
Qed.
End KeepBooks.

(** ** The service as a system *)

(** A call of the service; [Profiles] is a change of customers, tiers and addresses
    by the services that keep them. *)
Inductive request :=
| GetSettings (tenantId : string)
| UpdateSettings (tenantId actorId : string) (dto : UpdateLoyaltySettingsDto)
| GetAccount (tenantId customerId aid : string)
| AdjustPoints (raced : bool) (tenantId customerId actorId : string) (header : option string) (dto : ManualLoyaltyAdjustmentDto) (uuid aid tid : string)
| CreateHold (raced : bool) (tenantId : string) (header : option string) (dto : CreateLoyaltyHoldDto) (hid aid : string) (now : Z)
| GetHold (tenantId holdId aid : string)
| CommitHold (tenantId holdId : string) (orderId actorId : option string) (aid tid : string) (now : Z)
| ReleaseHold (tenantId holdId : string) (reason : option string) (aid : string) (now : Z)
| Reconcile (tenantId aid : string) (locked : string -> bool) (dbnow now : Z)
| ExpireHolds (tenantId : string) (limit : nat) (locked : string -> bool) (aid : string) (dbnow now : Z)
| OrderCompletedEvent (tenantId : string) (p : OrderCompleted) (aid tid tid2 : string)
| CheckoutCompletedEvent (tenantId : string) (p : CheckoutCompleted) (aid tid tid2 : string)
| ReturnCompletedEvent (raced : bool) (tenantId : string) (p : ReturnParams) (aid tid : string) (now : Z)
| MergeCustomers (tenantId actorId : string) (dto : MergeCustomersDto) (header : option string) (aid tid1 tid2 : string) (now : Z)
| OpenAccount (tenantId customerId actorId : string) (initialPoints : Z) (tier : option string) (aid tid : string)
| FollowTier (tenantId customerId : string) (tier : option string)
| DeactivateCustomer (tenantId customerId : string) (anonymize : bool) (now : Z)
| Profiles (cs : gmap key CustomerRow) (tiers : list (string * MembershipTierCandidate)) (addresses : gmap string AddressRow).

Definition with_profiles (cs : gmap key CustomerRow) (tiers : list (string * MembershipTierCandidate)) (addresses : gmap string AddressRow) (d : db) : db :=
  {| customers := cs; membership_tiers := tiers; loyalty_settings := loyalty_settings d; loyalty_accounts := loyalty_accounts d;
     loyalty_transactions := loyalty_transactions d; loyalty_holds := loyalty_holds d;
     customer_purchase_projections := customer_purchase_projections d; customer_addresses := addresses;
     customer_merge_history := customer_merge_history d; outbox := outbox d |}.

Section System.
Context (lc : string -> string -> Z) (sha : HoldDigest -> string).

Definition serve (d : db) (q : request) : db :=
  match q with
  | GetSettings t => after (getSettings t) d
  | UpdateSettings t actor dto => after (updateSettings t actor dto) d
  | GetAccount t c aid => after (getLoyaltyAccount t c aid) d
  | AdjustPoints raced t c actor header dto uuid aid tid => after (adjustPoints lc raced t c actor header dto uuid aid tid) d
  | CreateHold raced t header dto hid aid now => after (createHold sha raced t header dto hid aid now) d
  | GetHold t i aid => after (getHoldById t i aid) d
  | CommitHold t i order actor aid tid now => after (commitHold t i order actor aid tid now) d
  | ReleaseHold t i reason aid now => after (releaseHold t i reason aid now) d
  | Reconcile t aid locked dbnow now => after (reconcileTenantLoyalty t aid locked dbnow now) d
  | ExpireHolds t limit locked aid dbnow now => after (expireOverdueHolds t limit locked aid dbnow now) d
  | OrderCompletedEvent t p aid tid tid2 => after (onSalesOrderCompleted lc t p aid tid tid2) d
  | CheckoutCompletedEvent t p aid tid tid2 => after (onSalesCheckoutCompleted lc t p aid tid tid2) d
  | ReturnCompletedEvent raced t p aid tid now => after (processCompletedReturn lc raced t p aid tid now) d
  | MergeCustomers t actor dto header aid tid1 tid2 now => after (mergeCustomers lc t actor dto header aid tid1 tid2 now) d
  | OpenAccount t c actor p tier aid tid => after (open_account t c actor p tier aid tid) d
  | FollowTier t c tier => after (follow_tier t c tier) d
  | DeactivateCustomer t c anonymize now => after (deactivateCustomer t c anonymize now) d
  | Profiles cs tiers addresses => with_profiles cs tiers addresses d
  end.

Definition serve_all (d : db) (qs : list request) : db := foldl serve d qs.

Definition empty_db : db :=
  {| customers := ∅; membership_tiers := []; loyalty_settings := ∅; loyalty_accounts := ∅; loyalty_transactions := []; loyalty_holds := ∅;
     customer_purchase_projections := ∅; customer_addresses := ∅; customer_merge_history := []; outbox := [] |}.

Definition reachable (d : db) : Prop := exists qs, d = serve_all empty_db qs.

Lemma books_empty : books empty_db.
Proof. split; cbn; try done; [constructor | constructor..]. Qed.

Lemma books_after {A} (m : tx A) d : books d -> (forall a d', m d = Ok (a, d') -> books d') -> books (after m d).
Proof. intros Hb H. unfold after. destruct (m d) as [[a d']|]; [by eapply H | done]. Qed.

Lemma serve_books d q : books d -> books (serve d q).
Proof.
  intros Hb. destruct q; cbn [serve]; try (apply books_after; [done|]; intros a d' H).
  - by apply settings_spec in H as ?; apply (books_core d).
  - by eapply updateSettings_books.
  - by eapply getLoyaltyAccount_books.
  - by eapply adjustPoints_books.
  - by eapply createHold_books.
  - by eapply getHold_books.
  - by eapply commitHold_books.
  - by eapply releaseHold_books.
  - unfold reconcileTenantLoyalty in H. inv_tx. by eapply expire_books.
  - by eapply expire_books.
  - by eapply onSalesOrderCompleted_books.
  - by eapply onSalesCheckoutCompleted_books.
  - by eapply processCompletedReturn_books.
  - by eapply mergeCustomers_books.
  - by eapply open_account_books.
  - by eapply follow_tier_books.
  - by eapply deactivateCustomer_books.
  - by quiet d.
Qed.

Lemma reachable_books d : reachable d -> books d.
Proof.
  intros [qs ->]. unfold serve_all. generalize books_empty. generalize empty_db. induction qs as [|q qs IH]; intros d Hb; [done|].
  cbn. apply IH. by apply serve_books.
Qed.

(** ** What the service promises *)

(** C18.  The loyalty books balance in every state the service reaches by requests
    served one at a time (any sequence of them, each after the one before it has
    finished): the posted balance of an account is the sum of its ledger, the held
    points are those of its open holds and never negative, each ledger row starts where
    the one before it on the account ended; so the reconciliation report of every tenant
    is empty.  A change of a customer's tier that runs at the same time as a change of
    points is excluded: it reads the account without a lock and saves all of it, and
    [late_tier_save_restores_spent_points] shows the balance it can leave. *)
Theorem loyalty_books_balance d : reachable d ->
  (forall k a, loyalty_accounts d !! k = Some a ->
     la_posted a = ledger_sum k.1 (la_id a) d /\ la_held a = active_holds_sum k.1 (la_id a) d /\ 0 <= la_held a) /\
  (forall i r, loyalty_transactions d !! i = Some r ->
     lt_before r = total lt_delta (List.filter (rows_of (lt_tenant r) (lt_account r)) (take i (loyalty_transactions d))) /\
     lt_after r = lt_before r + lt_delta r) /\
  (forall t, discrepancies t d = []).
Proof.
  intros Hb%reachable_books. split; [|split; [apply (books_running _ Hb)|]].
  - intros k a Hk. split_and!; [by apply Hb | by apply Hb |]. rewrite (books_held _ Hb k a Hk). apply msum_nonneg. intros i h Hi.
    destruct (is_open _ _ h); [|done]. pose proof (hold_points _ _ _ (books_holds _ Hb i h Hi)). lia.
  - intros t. unfold discrepancies. apply flat_map_none. intros [k a] Hk%elem_of_map_to_list. unfold account_row. cbn.
    destruct (String.eqb_spec k.1 t) as [<-|]; [|done]. cbn. rewrite <- (books_posted _ Hb k a Hk), <- (books_held _ Hb k a Hk), !Z.eqb_refl. done.
Qed.

(** C19.  Points of an order: whatever events arrive, in which order and how often,
    an order is awarded points at most once, and returns never take back more than
    it was awarded. *)
Theorem order_points_once d t o : reachable d ->
  (length (List.filter (of_order t o EARN) (loyalty_transactions d)) <= 1)%nat /\
  0 <= reversed_of t o d <= total lt_delta (List.filter (of_order t o EARN) (loyalty_transactions d)).
Proof.
  intros Hb%reachable_books. split; [|split; [apply reversed_nonneg | apply (books_orders _ Hb)]].
  destruct (List.find (of_order t o EARN) (loyalty_transactions d)) as [e|] eqn:E; [by rewrite (proj1 (earn_unique _ _ _ _ Hb E))|].
  rewrite filter_none; [cbn; lia|]. intros r Hr. apply (find_none _ _ E). by apply list_elem_of_In.
Qed.

Definition redeems (t i : string) (r : TxRow) : bool := String.eqb (lt_tenant r) t && bool_decide (lt_type r = REDEEM) && String.eqb (lt_sourceRef r) i.

(** A hold is spent at most once: the ledger has one redemption, of exactly its
    points, for a committed hold, and none for a hold that is open, released or
    expired. *)
Theorem hold_redeemed_once d i h : reachable d -> loyalty_holds d !! i = Some h ->
  map lt_delta (List.filter (redeems (h_tenant h) i) (loyalty_transactions d)) = if decide (h_state h = COMMITTED) then [- h_points h] else [].
Proof.
  intros Hb%reachable_books Hi. pose proof (books_rows _ Hb) as HR. rewrite Forall_forall in HR.
  assert (Hred : forall r, r ∈ loyalty_transactions d -> redeems (h_tenant h) i r = true ->
    (lt_tenant r, lt_type r, lt_sourceRef r) = (h_tenant h, REDEEM, i) /\ h_state h = COMMITTED /\ lt_delta r = - h_points h).
  { intros r Hr Hp. unfold redeems in Hp. apply andb_true_iff in Hp as [Hp E3%String.eqb_eq]. apply andb_true_iff in Hp as [E1%String.eqb_eq E2%bool_decide_eq_true].
    destruct (row_redeem _ _ (HR r Hr) E2) as (g & G1 & G2 & G3 & G4). rewrite E3, Hi in G1. injection G1 as <-. split_and!; [congruence | done..]. }
  case_decide as Hc; [|rewrite filter_none; [done|]; intros r Hr; apply not_true_iff_false; intros Hp; by destruct (Hred r Hr Hp) as (_ & ? & _)].
  destruct (hold_redeemed _ _ _ (books_holds _ Hb i h Hi) Hc) as (r & Hr & Ht & Hs).
  destruct (row_redeem _ _ (HR r Hr) Ht) as (g & G1 & G2 & _). rewrite Hs in G1. simplify_eq.
  destruct (List.find (redeems (h_tenant h) (lt_sourceRef r)) (loyalty_transactions d)) as [e|] eqn:E.
  - apply find_some in E as E'. destruct E' as [Hin Hp]. apply list_elem_of_In in Hin.
    rewrite (filter_found _ _ _ _ (books_effects _ Hb) E); [cbn; by destruct (Hred e Hin Hp) as (_ & _ & ->)|].
    intros y Hy Hyp. destruct (Hred y Hy Hyp) as [-> _], (Hred e Hin Hp) as [-> _]. done.
  - apply list_elem_of_In in Hr. pose proof (find_none _ _ E r Hr) as Hx. unfold redeems in Hx. by rewrite G2, Ht, !String.eqb_refl in Hx.
Qed.
End System.

(** ** The ledger only grows, and a settled hold stays as it is *)

Definition hold_identity (h : HoldRow) :=
  (h_tenant h, h_customer h, h_account h, h_caller h, h_operation h, h_key h, h_hash h, h_refType h, h_refId h, h_points h, h_discount h, h_expiresAt h).

Definition kept (d d' : db) : Prop :=
  loyalty_transactions d `prefix_of` loyalty_transactions d' /\
  forall i h, loyalty_holds d !! i = Some h -> exists h', loyalty_holds d' !! i = Some h' /\ hold_identity h' = hold_identity h /\
    (h_state h <> HELD -> h' = h).

#[export] Instance kept_preorder : PreOrder kept.
Proof.
  split; [intros d; split; [done | eauto]|]. intros d1 d2 d3 [A1 A2] [B1 B2]. split; [by etransitivity|]. intros i h Hi.
  destruct (A2 i h Hi) as (h' & Hi' & E1 & S1). destruct (B2 i h' Hi') as (h'' & Hi'' & E2 & S2). exists h''. split_and!; [done | congruence |].
  intros Hs. specialize (S1 Hs). subst h'. auto.
Qed.

Section Kept.
Context (lc : string -> string -> Z) (sha : HoldDigest -> string).

Lemma kept_quiet d d' : loyalty_transactions d' = loyalty_transactions d -> loyalty_holds d' = loyalty_holds d -> kept d d'.
Proof. intros E1 E2. split; [by rewrite E1|]. rewrite E2. eauto. Qed.

Lemma kept_add r d : kept d (add_tx r d).
Proof. split; cbn; [by apply prefix_app_r | eauto]. Qed.

Lemma kept_hold d d' i h h' : loyalty_holds d !! i = Some h -> h_state h = HELD -> loyalty_holds d' = <[i := h']> (loyalty_holds d) ->
  hold_identity h' = hold_identity h -> loyalty_transactions d `prefix_of` loyalty_transactions d' -> kept d d'.
Proof.
  intros Hi Hs Hh He Hl. split; [done|]. intros j g Hj. rewrite Hh. destruct (decide (i = j)) as [<-|Hne].
  - rewrite Hi in Hj. injection Hj as <-. rewrite lookup_insert_eq. exists h'. split_and!; [done | done | by intros []].
  - rewrite lookup_insert_ne by done. eauto.
Qed.

Lemma kept_new_hold i h : Keeps kept (insert_hold i h).
Proof.
  intros d u d' H. apply insert_hold_Ok in H as ([= -> ->] & _ & Hi & _). split; [done|]. intros j g Hj. cbn.
  rewrite lookup_insert_ne; [eauto|]. intros ->. congruence.
Qed.

Lemma ensure_quiet aid t c d a d1 : ensureAccountInTx aid t c d = Ok (a, d1) ->
  loyalty_transactions d1 = loyalty_transactions d /\ loyalty_holds d1 = loyalty_holds d.
Proof. unfold ensureAccountInTx. intros H. inv_tx. destruct (loyalty_accounts _ !! _); by inv_all. Qed.
End Kept.

Create HintDb kept.
#[export] Hint Resolve kept_add : kept.
#[export] Hint Extern 1 (kept _ _) => (apply kept_quiet; reflexivity) : kept.
#[export] Hint Resolve kept_new_hold : keeps.

Ltac solve_kept := solve_keeps_with ltac:(idtac; lazymatch goal with |- kept _ _ => solve [eauto 2 with kept] end).

Section KeptBy.
Context (lc : string -> string -> Z) (sha : HoldDigest -> string).

(** The hold a handler settles, and the account it read. *)
Ltac settled_hold d Eh Hl Hh :=
  destruct (match loyalty_holds d !! _ with Some _ => _ | None => _ end) as [h|] eqn:Eh; inv_tx;
  apply find_hold_spec in Eh as [Eh _];
  match goal with H : ensureAccountInTx _ _ _ _ = Ok _ |- _ => apply ensure_quiet in H as [Hl Hh] end.

Lemma commitHold_kept t i order actor aid tid now : Keeps kept (commitHold t i order actor aid tid now).
Proof.
  intros d r d'. unfold commitHold. cbv zeta. intros H. inv_tx. settled_hold d Eh Hl Hh. destruct (h_state h) eqn:Est; inv_tx; [|by apply kept_quiet].
  destruct (_ <=? now); inv_all. eapply kept_hold; [exact Eh | done | cbn; by rewrite Hh | done | cbn; rewrite Hl; by apply prefix_app_r].
Qed.

Lemma releaseHold_kept t i reason aid now : Keeps kept (releaseHold t i reason aid now).
Proof.
  intros d r d'. unfold releaseHold. cbv zeta. intros H. inv_tx. settled_hold d Eh Hl Hh. destruct (h_state h) eqn:Est; inv_all; try (by apply kept_quiet).
  eapply kept_hold; [exact Eh | done | cbn; by rewrite Hh | done | cbn; by rewrite Hl].
Qed.

Lemma expire_step_kept t aid now n e : Keeps kept (expire_step t aid now n e).
Proof.
  intros d r d'. unfold expire_step. intros H. inv_tx. destruct (match loyalty_holds d !! _ with Some _ => _ | None => _ end) as [h|] eqn:Eh; inv_tx; [|done].
  apply find_hold_spec in Eh as [Eh _]. case_bool_decide as Est; cbn [negb] in *; inv_all; [|done].
  match goal with H : ensureAccountInTx _ _ _ _ = Ok _ |- _ => apply ensure_quiet in H as [H1 Hh] end.
  eapply kept_hold; [exact Eh | done | cbn; by rewrite Hh | done | cbn; by rewrite H1].
Qed.

Lemma createHold_kept raced t header dto hid aid now : Keeps kept (createHold sha raced t header dto hid aid now).
Proof.
  intros d r d'. unfold createHold. destruct (String.eqb _ ""); [done|]. cbv zeta. destruct (create_hold_tx _ _ _ _ _ _ _ _ _ _ d) as [[x d1]|e] eqn:E.
  - intros [= -> ->]. revert E. set (m := create_hold_tx _ _ _ _ _ _ _ _ _ _). assert (Hm : Keeps kept m) by (subst m; solve_kept). apply Hm.
  - destruct e as [[c| |] st|]; try done. match goal with |- ?m d = _ -> _ => assert (Hm : Keeps kept m) by solve_kept; apply Hm end.
Qed.
End KeptBy.

#[export] Hint Resolve commitHold_kept releaseHold_kept expire_step_kept createHold_kept : keeps.

(** Nothing is rewritten: whatever requests follow, the ledger keeps its rows
    in place, a hold keeps its terms, and a hold that was committed, released or
    expired stays exactly as it is. *)
Theorem loyalty_history_is_kept lc sha d qs :
  loyalty_transactions d `prefix_of` loyalty_transactions (serve_all lc sha d qs) /\
  forall i h, loyalty_holds d !! i = Some h -> exists h', loyalty_holds (serve_all lc sha d qs) !! i = Some h' /\ hold_identity h' = hold_identity h /\
    (h_state h <> HELD -> h' = h).
Proof.
  change (kept d (serve_all lc sha d qs)). unfold serve_all. revert d. induction qs as [|q qs IH]; intros d; [reflexivity|]. cbn [foldl].
  etransitivity; [|apply IH]. destruct q; cbn [serve]; try (apply (keeps_after kept); solve_kept). by apply kept_quiet.
Qed.

(** ** A day of a shop *)

Module LoyaltyDay.
Definition lc (a b : string) : Z := if String.eqb a b then 0 else 1.
Definition sha (h : HoldDigest) : string := hd_customerId h +:+ "/" +:+ hd_sourceRefId h.

Definition member (code : string) : CustomerRow :=
  {| c_code := code; c_group := None; c_tier := None; c_phone := None; c_phoneNormalized := None; c_email := None; c_status := "ACTIVE";
     c_mergedInto := None; c_version := 1; c_deletedAt := None; c_currentDebt := 0 |}.

Definition people : gmap key CustomerRow :=
  <[("t1", "c1") := member "KH1"]> (<[("t1", "c2") := member "KH2"]> {[("t1", "c3") := member "KH3"]}).

Definition opening : list request :=
  [Profiles people [] ∅; OpenAccount "t1" "c1" "u1" 100 None "a1" "x1"; OpenAccount "t1" "c2" "u1" 40 None "a2" "x2";
   OpenAccount "t1" "c3" "u1" 0 None "a3" "x3"].

Definition redeem_order : list request :=
  [CreateHold false "t1" (Some "k1") {| ch_customer := "c1"; ch_points := 30; ch_refType := None; ch_refId := "o1"; ch_caller := None; ch_ttl := None;
      ch_key := None |} "h1" "z" 1000;
   CreateHold false "t1" (Some "k2") {| ch_customer := "c1"; ch_points := 20; ch_refType := None; ch_refId := "o2"; ch_caller := None; ch_ttl := None;
      ch_key := None |} "h2" "z" 1000;
   CommitHold "t1" "h1" (Some "o1") None "z" "x4" 2000].

Definition order (id : string) (amount : Z) : OrderCompleted :=
  {| oc_event := "e:" +:+ id; oc_order := id; oc_code := "DH"; oc_branch := None; oc_customer := Some "c1"; oc_subtotal := Some (int amount);
     oc_discount := None; oc_grand := Some (int amount); oc_totalAmount := int amount; oc_completedAt := 3000 |}.

Definition sale_and_return : list request :=
  [OrderCompletedEvent "t1" (order "o1" 500000) "z" "x5" "x6"; OrderCompletedEvent "t1" (order "o1" 500000) "z" "x7" "x8";
   ReturnCompletedEvent false "t1" {| rp_event := "e9"; rp_return := "r1"; rp_order := "o1"; rp_customer := Some "c1"; rp_refund := int 200000 |} "z" "x9" 4000].

Definition opened : db := serve_all lc sha empty_db opening.
Definition day : db := serve_all lc sha empty_db (opening ++ redeem_order ++ sale_and_return).

Lemma loyalty_day_reachable : reachable lc sha day.
Proof. by eexists. Qed.

Lemma opened_reachable : reachable lc sha opened.
Proof. by eexists. Qed.
End LoyaltyDay.
Import LoyaltyDay.

Lemma loyalty_books_balance_witness :
  (fun a => (la_posted a, la_held a)) <$> loyalty_accounts day !! ("t1", "c1") = Some (100, 20) /\ map lt_delta (loyalty_transactions day) = [100; 40; -30; 50; -20] /\
  discrepancies "t1" day = [].
Proof. split_and!; [by vm_compute | by vm_compute | apply (loyalty_books_balance lc sha day loyalty_day_reachable)]. Defined.

(** ** A tier changed during a redemption *)

Definition with_hold : db := serve_all lc sha empty_db (opening ++ take 1 redeem_order).
Definition redeemed : db := serve lc sha with_hold (CommitHold "t1" "h1" (Some "o1") None "z" "x4" 2000).

(** [updateCustomer] reads the account of 100 points, 30 of them held; the hold is
    committed; then the entity is saved as it was read.  The account has its 100 points
    and the held 30 again, while the ledger says 70 and no hold is open: the points can
    be spent twice, and the reconciliation report names the account. *)
Theorem late_tier_save_restores_spent_points : exists plan,
  plan_follow_tier "t1" "c1" (Some "gold") with_hold = Ok (plan, with_hold) /\
  discrepancies "t1" redeemed = [] /\
  let late := after (save_follow_tier "t1" "c1" plan) redeemed in
  (exists a, loyalty_accounts late !! ("t1", "c1") = Some a /\ la_posted a = 100 /\ la_held a = 30) /\
  ledger_sum "t1" "a1" late = 70 /\ active_holds_sum "t1" "a1" late = 0 /\ map di_account (discrepancies "t1" late) = ["a1"].
Proof.
  eexists. split; [vm_compute; reflexivity|]. split; [vm_compute; reflexivity|]. cbv zeta.
  split; [eexists; split; [vm_compute; reflexivity | done]|]. split_and!; vm_compute; reflexivity.
Qed.

Lemma order_points_once_witness :
  reversed_of "t1" "o1" day = 20 /\ (length (List.filter (of_order "t1" "o1" EARN) (loyalty_transactions day)) <= 1)%nat.
Proof. split; [by vm_compute | apply (order_points_once lc sha day "t1" "o1" loyalty_day_reachable)]. Defined.

Lemma hold_redeemed_once_witness : exists h, loyalty_holds day !! "h1" = Some h /\ h_state h = COMMITTED /\
  map lt_delta (List.filter (redeems (h_tenant h) "h1") (loyalty_transactions day)) = if decide (h_state h = COMMITTED) then [- h_points h] else [].
Proof.
  eexists. split_and!; [vm_compute; reflexivity | done | apply (hold_redeemed_once lc sha day); [apply loyalty_day_reachable | vm_compute; reflexivity]].
Defined.
