(* ===== verification/LoyaltyReturns.v ===== *)
(** * Returns that overtake sales, late commits and repeated merges

    What the loyalty service does with events out of order: the points of an order
    are the same whichever of its sale and its return is processed first.  And two
    limits of it: a commit past the time of the hold leaves the hold open, and a
    customer receives points by a merge at most once. *)

From S2P Require Import Prelude Transaction JsNumber JsString CustomerDomain LoyaltyStore Loyalty LoyaltyBooks.

Open Scope Z_scope.

(** ** A return that overtakes its sale *)

(** The figures of an account; the tier is apart. *)
Definition figures (a : AccountRow) := (la_id a, la_posted a, la_held a, la_earned a, la_redeemed a, la_qualifying a).

Section OutOfOrder.
Context (lc : string -> string -> Z).

Lemma recalculate_effect t c q d u d' k a : recalculateCustomerTierWithinTransaction lc t c q d = Ok (u, d') -> loyalty_accounts d !! k = Some a ->
  loyalty_transactions d' = loyalty_transactions d /\ customer_purchase_projections d' = customer_purchase_projections d /\
  exists a', loyalty_accounts d' !! k = Some a' /\ figures a' = figures a.
Proof.
  unfold recalculateCustomerTierWithinTransaction. intros H Hk. inv_tx. destruct (customers _ !! _); inv_tx; [|eauto].
  case_bool_decide; inv_tx; [eauto|]. cbn [set_customer loyalty_accounts] in *. destruct (loyalty_accounts d !! (t, c)) as [b|] eqn:E; inv_tx; [|eauto].
  split_and!; [done..|]. cbn. destruct (decide ((t, c) = k)) as [<-|]; [rewrite lookup_insert_eq | rewrite lookup_insert_ne by done; eauto].
  simplify_eq. by eexists.
Qed.

Lemma ensure_existing aid t c d a : loyalty_accounts d !! (t, c) = Some a -> ensureAccountInTx aid t c d = Ok (a, d).
Proof. intros H. unfold ensureAccountInTx, find_account. rewrite (tx_bind_run _ _ d (Some a) d); [done|]. unfold gets. by rewrite H. Qed.

(** The points a sale earns, the spend they are for and the rate, at the settings of the tenant. *)
Definition earning (t : string) (p : SaleParams) (d : db) : res EarnResult :=
  calculateEarnedPoints (VNum (int (sp_spend p))) (config_of (default default_settings (loyalty_settings d !! t))).

Definition points_due (earned spend returned : Z) : Z := if 0 <? earned then (if 0 <? returned then reversal_target earned spend returned else 0) else 0.

Lemma earning_spec t p d e : 0 <= sp_spend p <= MAX_SAFE_INTEGER -> earning t p d = Ok e ->
  er_eligibleSpendVnd e = int (sp_spend p) /\ 0 <= nval (er_earnedPoints e) <= sp_spend p.
Proof.
  intros HS. unfold earning, calculateEarnedPoints. rewrite parseVndBigInt_int, bind_of_Ok by done. intros (rate & Hr & H)%bind_Ok.
  assert (0 < rate).
  { unfold parseVndBigInt in Hr. cbn [is_nullish] in Hr. apply bind_Ok in Hr as (v & _ & Hr). destruct (Z.ltb_spec v 0); [done|].
    cbn in Hr. destruct (Z.eqb_spec v 0); [done|]. injection Hr as <-. lia. }
  destruct (_ || _) eqn:Eo.
  { rewrite (toVndNumber_safe (sp_spend p)), bind_of_Ok in H by lia. apply bind_Ok in H as (n & _ & [= <-]). split; [done | cbn; lia]. }
  apply orb_false_iff in Eo as [_ Es%Z.leb_gt].
  unfold bdiv in H. replace (rate =? 0) with false in H by lia. rewrite bind_of_Ok in H. rewrite Z.quot_div_nonneg in H by lia.
  assert (Hq : 0 <= sp_spend p / rate <= sp_spend p) by (split; [apply Z.div_pos; lia | apply Z.div_le_upper_bound; nia]).
  rewrite (toVndNumber_safe (sp_spend p)), bind_of_Ok in H by lia. rewrite number_of_bigint_safe, mathMax_int in H by lia.
  apply bind_Ok in H as (n & _ & [= <-]). split; [done | cbn; lia].
Qed.

(** What is taken back, the first time, after [returned] was refunded. *)
Lemma first_reversal E S c r : 0 < E <= MAX_SAFE_INTEGER -> 0 < S <= MAX_SAFE_INTEGER -> 0 < c <= MAX_SAFE_INTEGER ->
  calculateReturnPointReversal (reversal E 0 S c c) = Ok r -> nval (pointsToReverse r) = points_due E S c.
Proof.
  intros HE HS Hc H. destruct (reversal_step E S 0 c c HE HS Hc) as (r' & H' & Hp & _); [lia | |].
  - pose proof (reversal_target_bounds E S c). lia.
  - rewrite H in H'. injection H' as <-. rewrite Hp. unfold points_due. rewrite !(proj2 (Z.ltb_lt _ _)) by lia.
    change (nval (int ?z)) with z. lia.
Qed.

(** The account after the sale earned [E] points and [due] of them went back. *)
Definition settled (a : AccountRow) (E due : Z) : AccountRow :=
  if 0 <? E then (if 0 <? due then clawed_back (credited a E) due else credited a E) else a.

Lemma settings_effect t d s d1 : getOrCreateSettingsInTx t d = Ok (s, d1) ->
  s = default default_settings (loyalty_settings d !! t) /\ loyalty_accounts d1 = loyalty_accounts d /\
  loyalty_transactions d1 = loyalty_transactions d /\ customer_purchase_projections d1 = customer_purchase_projections d.
Proof. unfold getOrCreateSettingsInTx. intros H. inv_tx. destruct (loyalty_settings _ !! t); inv_tx; done. Qed.

Lemma award_effect t p a tid earned eligible rate d a1 d1 : loyalty_accounts d !! (t, sp_customer p) = Some a ->
  award t p a tid earned eligible rate d = Ok (a1, d1) ->
  a1 = (if 0 <? earned then credited a earned else a) /\ loyalty_accounts d1 !! (t, sp_customer p) = Some a1 /\
  customer_purchase_projections d1 = customer_purchase_projections d /\
  loyalty_transactions d1 = loyalty_transactions d ++ (if 0 <? earned then [earn_tx t p a tid earned eligible rate] else []).
Proof.
  intros Hk. unfold award. destruct (Z.ltb_spec 0 earned); intros H0; inv_all; [|by rewrite app_nil_r].
  cbn. by rewrite lookup_insert_eq.
Qed.

Lemma points_due_nonneg E S c : 0 <= points_due E S c.
Proof.
  unfold points_due, reversal_target. destruct (Z.ltb_spec 0 E), (Z.ltb_spec 0 c); try done. destruct (Z.leb_spec S c); [lia|].
  apply Z.div_pos; nia.
Qed.

Lemma deferred_effect t p a q pre tid tid2 E S rate d a1 q1 d1 : 0 <= E <= S -> S <= MAX_SAFE_INTEGER -> 0 <= pre <= MAX_SAFE_INTEGER ->
  pp_reversed q = 0 -> loyalty_accounts d !! (t, sp_customer p) = Some a ->
  deferred_reversal t p a q pre tid tid2 E S rate d = Ok ((a1, q1), d1) ->
  let due := points_due E S pre in
  a1 = (if (0 <? E) && (0 <? due) then clawed_back a due else a) /\ q1 = with_reversed q due /\
  loyalty_accounts d1 !! (t, sp_customer p) = Some a1 /\ customer_purchase_projections d1 = customer_purchase_projections d /\
  exists l, loyalty_transactions d1 = loyalty_transactions d ++ l /\ (pre = 0 -> l = []).
Proof.
  intros HE HS Hp Hq Hk H due. assert (Hw : q = with_reversed q 0) by (destruct q; cbn in *; by subst).
  unfold deferred_reversal in H. rewrite Hq in H. inv_tx. destruct (Z.ltb_spec 0 E) as [H0|H0]; cbn [andb] in *.
  2:{ inv_tx. unfold due, points_due. rewrite (proj2 (Z.ltb_ge 0 E)) by lia. split_and!; try done. exists []. by rewrite app_nil_r. }
  match goal with H' : parseVndBigInt _ _ = Ok _ |- _ => rewrite parseVndBigInt_int in H' by done; injection H' as <- end.
  destruct (Z.ltb_spec 0 pre) as [Hr|Hr]; cbn [andb Z.eqb] in H; inv_tx.
  - match goal with H' : calculateReturnPointReversal _ = Ok _ |- _ => apply first_reversal in H'; [|lia..]; rewrite H' in H; fold due in H end.
    destruct (Z.ltb_spec 0 due); inv_all; cbn.
    + rewrite lookup_insert_eq. split_and!; try done. eexists. split; [done | lia].
    + assert (due = 0) as -> by (pose proof (points_due_nonneg E S pre); unfold due in *; lia). split_and!; try done. exists []. by rewrite app_nil_r.
  - unfold due, points_due. rewrite (proj2 (Z.ltb_lt 0 E)), (proj2 (Z.ltb_ge 0 pre)) by lia. split_and!; try done. exists []. by rewrite app_nil_r.
Qed.

(** A sale whose points were not posted yet: the account, the projection and the
    ledger after it, by what was returned before. *)
Lemma sale_effect t p aid tid tid2 d r d' a c e :
  let existing := customer_purchase_projections d !! (t, sp_order p) in
  let pre := match existing with Some old => pp_returned old | None => 0 end in
  let E := nval (er_earnedPoints e) in
  let due := points_due E (sp_spend p) pre in
  processCompletedSale lc t p aid tid tid2 d = Ok (r, d') -> live (customers d !! (t, sp_customer p)) = Some c ->
  List.find (of_key t ("earn:order:" +:+ sp_order p)) (loyalty_transactions d) = None ->
  loyalty_accounts d !! (t, sp_customer p) = Some a -> 0 <= sp_spend p <= MAX_SAFE_INTEGER -> earning t p d = Ok e ->
  0 <= pre <= MAX_SAFE_INTEGER -> match existing with Some old => pp_reversed old = 0 | None => True end ->
  customer_purchase_projections d' !! (t, sp_order p) = Some (with_reversed (sale_projection p E (sp_spend p) existing) due) /\
  (exists a', loyalty_accounts d' !! (t, sp_customer p) = Some a' /\ figures a' = figures (settled a E due)) /\
  exists l, loyalty_transactions d' = loyalty_transactions d ++
    (if 0 <? E then [earn_tx t p a tid E (sp_spend p) (nval (er_appliedRateVnd e))] else []) ++ l /\ (pre = 0 -> l = []).
Proof.
  intros existing pre E due H Hc Hn Hk HS He Hpre Hrev. destruct (earning_spec t p d e HS He) as [He1 He2]. unfold earning in He.
  unfold processCompletedSale in H. inv_tx. rewrite Hc in *. inv_tx. rewrite Hn in *. inv_tx.
  match goal with H' : getOrCreateSettingsInTx _ _ = Ok _ |- _ => apply settings_effect in H' as (-> & Ha & Hl & Hp) end.
  match goal with H' : ensureAccountInTx _ _ _ _ = Ok _ |- _ => rewrite (ensure_existing _ _ _ _ a) in H' by (by rewrite Ha); injection H' as <- <- end.
  match goal with H' : calculateEarnedPoints _ _ = Ok _ |- _ => rewrite He in H'; injection H' as <- end.
  rewrite He1 in *. change (nval (int (sp_spend p))) with (sp_spend p) in *. assert (EE : nval (er_earnedPoints e) = E) by done. clearbody E. rewrite EE in *. clear EE.
  match goal with H' : award _ _ _ _ _ _ _ _ = Ok _ |- _ => apply award_effect in H' as (-> & Hk1 & Hp1 & Hl1); [|by rewrite Ha] end.
  rewrite Hp in *.
  match goal with H' : deferred_reversal _ _ _ _ _ _ _ _ _ _ _ = Ok (?o, _) |- _ => destruct o as [a1 q1]; 
     apply deferred_effect in H' as (-> & -> & Hk2 & Hp2 & l & Hl2 & Hl0) end.
  2-4: lia || done.
  2: by unfold sale_projection; destruct (customer_purchase_projections d !! _).
  2: done.
  fold existing in Hk2, Ha6. fold pre in Hk2, Ha6. fold due in Hk2, Ha6. inv_all. cbn [fst snd] in *.
  match goal with H' : recalculateCustomerTierWithinTransaction _ _ _ _ _ = Ok _ |- _ =>
    eapply (recalculate_effect _ _ _ _ _ _ (t, sp_customer p)) in H' as (Hl3 & Hp3 & a' & Hk3 & Hf); [|exact Hk2] end.
  split_and!.
  - rewrite Hp3. cbn. by rewrite lookup_insert_eq.
  - exists a'. split; [done|]. rewrite Hf. unfold settled. by destruct (0 <? E), (0 <? due).
  - exists l. split; [|done]. rewrite Hl3. cbn. by rewrite Hl2, Hl1, Hl, (assoc_L app).
Qed.

(** The first reversal of an order's points. *)
Lemma reverse_effect t q proj e R aid tid d r d' a S : reverse_return lc t q proj e R R aid tid d = Ok (r, d') ->
  reversed_of t (rp_order q) d = 0 -> loyalty_accounts d !! (t, pp_customer proj) = Some a -> lt_spend e = Some S ->
  0 < R <= MAX_SAFE_INTEGER -> 0 < lt_delta e <= S -> S <= MAX_SAFE_INTEGER ->
  let due := points_due (lt_delta e) S R in
  customer_purchase_projections d' !! (t, rp_order q) = Some (with_reversed proj due) /\
  exists a', loyalty_accounts d' !! (t, pp_customer proj) = Some a' /\ figures a' = figures (if 0 <? due then clawed_back a due else a).
Proof.
  intros H Hz Hk Hs HR HE HS due. unfold reverse_return in H. inv_tx. rewrite Hz, Hs in *. cbn [default id] in *.
  repeat match goal with H' : toVndNumber R = _ |- _ => rewrite toVndNumber_safe in H' by lia; injection H' as <- end.
  match goal with H' : calculateReturnPointReversal _ = Ok _ |- _ => apply first_reversal in H'; [|lia..]; rewrite H' in *; fold due in H end.
  rewrite Z.add_0_l in *. rewrite Z.leb_antisym in H. destruct (0 <? due); cbn [negb] in H; inv_all; [|cbn; rewrite lookup_insert_eq; eauto].
  match goal with H' : ensureAccountInTx _ _ _ _ = Ok _ |- _ => rewrite (ensure_existing _ _ _ _ a) in H' by done; injection H' as <- <- end.
  match goal with H' : recalculateCustomerTierWithinTransaction _ _ _ _ _ = Ok _ |- _ =>
    eapply (recalculate_effect _ _ _ _ _ _ (t, pp_customer proj)) in H' as (_ & Hp3 & a' & Hk3 & Hf); [|cbn; by rewrite lookup_insert_eq] end.
  cbn. rewrite Hp3. cbn. rewrite lookup_insert_eq. eauto.
Qed.

(** A return of an order whose points are posted and none of them reversed. *)
Lemma return_effect raced t q aid tid now d r d' proj a e E S R :
  processCompletedReturn lc raced t q aid tid now d = Ok (r, d') ->
  List.find (of_key t ("earn_reversal:return:" +:+ rp_return q)) (loyalty_transactions d) = None ->
  customer_purchase_projections d !! (t, rp_order q) = Some proj -> pp_returned proj = 0 -> pp_lastEvent proj <> Some ("return:" +:+ rp_return q) ->
  loyalty_accounts d !! (t, pp_customer proj) = Some a -> rp_refund q = int R -> 0 < R <= MAX_SAFE_INTEGER -> 0 <= E <= S -> S <= MAX_SAFE_INTEGER ->
  List.find (of_order t (rp_order q) EARN) (loyalty_transactions d) = (if 0 <? E then Some e else None) -> lt_delta e = E -> lt_spend e = Some S ->
  reversed_of t (rp_order q) d = 0 -> pp_reversed proj = 0 ->
  let due := points_due E S R in
  customer_purchase_projections d' !! (t, rp_order q) = Some (with_reversed (with_returned proj R (rp_return q)) due) /\
  exists a', loyalty_accounts d' !! (t, pp_customer proj) = Some a' /\ figures a' = figures (if (0 <? E) && (0 <? due) then clawed_back a due else a).
Proof.
  intros H Hn Hp Hr Hl Hk HR HRb HE HS He Hd Hs Hz Hz' due. unfold processCompletedReturn in H.
  apply tx_bind_Ok in H as (x & d0 & Hx & H). assert (x = None /\ d0 = d) as [-> ->] by (destruct raced; inv_tx; by rewrite ?Hn). clear Hx.
  inv_tx. rewrite Hp in H. rewrite bool_decide_eq_false_2 in H by done. inv_tx. rewrite HR, Hr in *.
  repeat match goal with H' : parseVndBigInt (VNum (int ?z)) _ = Ok _ |- _ => rewrite (parseVndBigInt_int z) in H' by (done || lia); injection H' as <- end.
  rewrite Z.add_0_l in *. match goal with H' : toVndNumber R = _ |- _ => rewrite toVndNumber_safe in H' by lia; injection H' as <- end.
  change (nval (int R)) with R in *. rewrite He in *. destruct (Z.ltb_spec 0 (lt_delta e)) as [H0|H0].
  - apply (reverse_effect t q (with_returned proj R (rp_return q)) e R aid tid d r d' a S); done || lia.
  - inv_all. cbn. rewrite lookup_insert_eq. unfold due, points_due. rewrite (proj2 (Z.ltb_ge 0 (lt_delta e))) by lia.
    replace (with_reversed _ 0) with (with_returned proj R (rp_return q)) by (destruct proj; cbn in *; by subst). eauto.
Qed.

(** *** One order, its sale and a return, in both orders *)
Section OneOrder.
Context (d : db) (t : string) (p : SaleParams) (q : ReturnParams) (a : AccountRow) (c : CustomerRow) (e : EarnResult) (R : Z).
Context (Hb : books d) (Hc : live (customers d !! (t, sp_customer p)) = Some c) (Hk : loyalty_accounts d !! (t, sp_customer p) = Some a).
Context (Hn1 : List.find (of_key t ("earn:order:" +:+ sp_order p)) (loyalty_transactions d) = None).
Context (Hn2 : List.find (of_key t ("earn_reversal:return:" +:+ rp_return q)) (loyalty_transactions d) = None).
Context (Hp : customer_purchase_projections d !! (t, sp_order p) = None) (He : earning t p d = Ok e) (HS : 0 <= sp_spend p <= MAX_SAFE_INTEGER).
Context (Ho : rp_order q = sp_order p) (Hq : truthy_text (rp_customer q) = Some (sp_customer p)).
Context (HR : rp_refund q = int R) (HRb : 0 < R <= MAX_SAFE_INTEGER).

(** The account and the projection both orders end with. *)
Definition settled_in (d' : db) : Prop :=
  let E := nval (er_earnedPoints e) in
  let due := points_due E (sp_spend p) R in
  (exists a', loyalty_accounts d' !! (t, sp_customer p) = Some a' /\ figures a' = figures (settled a E due)) /\
  exists p', customer_purchase_projections d' !! (t, sp_order p) = Some p' /\
    (pp_customer p', pp_spend p', pp_returned p', pp_earned p', pp_reversed p') = (sp_customer p, sp_spend p, R, E, due).

(** The award of the order in the ledger after the sale. *)
Lemma award_found E S rate tid l : 0 <= E -> l = loyalty_transactions d ++ (if 0 <? E then [earn_tx t p a tid E S rate] else []) ->
  List.find (of_order t (rp_order q) EARN) l = (if 0 <? E then Some (earn_tx t p a tid E S rate) else None) /\
  total (fun r => Z.abs (lt_delta r)) (List.filter (of_order t (rp_order q) EARN_REVERSAL) l) = 0 /\
  List.find (of_key t ("earn_reversal:return:" +:+ rp_return q)) l = None.
Proof.
  intros HE ->. destruct (no_award d t (sp_order p) Hb Hn1) as [N1 N2]. unfold reversed_of in N2.
  rewrite Ho, List.filter_app, (find_app_none _ _ _ (find_filter_nil _ _ N1)), (find_app_none _ _ _ Hn2).
  assert (Hk' : of_key t ("earn_reversal:return:" +:+ rp_return q) (earn_tx t p a tid E S rate) = false).
  { unfold of_key. cbn. by rewrite andb_false_r. }
  destruct (0 <? E); cbn [List.find List.filter]; [|by rewrite app_nil_r].
  rewrite Hk'. unfold of_order at 1 3. cbn. rewrite String.eqb_refl, !bool_decide_eq_true_2, bool_decide_eq_false_2 by done. cbn. by rewrite app_nil_r.
Qed.

Lemma sale_then_return aid tid tid2 tid3 now raced s1 d1 r1 d2 : sp_event p <> "return:" +:+ rp_return q ->
  processCompletedSale lc t p aid tid tid2 d = Ok (s1, d1) -> processCompletedReturn lc raced t q aid tid3 now d1 = Ok (r1, d2) -> settled_in d2.
Proof.
  intros Hev H1 H2. destruct (earning_spec t p d e HS He) as [_ HE].
  apply (sale_effect _ _ _ _ _ _ _ _ a c e) in H1; try done; rewrite ?Hp; [|unfold MAX_SAFE_INTEGER; lia|done]. rewrite Hp in H1. cbv zeta in H1.
  destruct H1 as (Hp1 & (a1 & Hk1 & Hf1) & l & Hl & Hl0). rewrite (Hl0 eq_refl), app_nil_r in Hl. unfold settled_in. set (E := nval _) in *.
  assert (Hz : points_due E (sp_spend p) 0 = 0) by (unfold points_due; by destruct (0 <? E)). rewrite Hz in *.
  destruct (award_found E (sp_spend p) (nval (er_appliedRateVnd e)) tid _ (proj1 HE) Hl) as (F1 & F2 & F3). 
  eapply (return_effect raced t q aid tid3 now d1 r1 d2 (with_reversed (sale_projection p E (sp_spend p) None) 0) a1
    (earn_tx t p a tid E (sp_spend p) (nval (er_appliedRateVnd e))) E (sp_spend p) R) in H2; try done; try lia.
  - destruct H2 as (Hp2 & a2 & Hk2 & Hf2). rewrite Ho in Hp2. split; [|by eexists]. exists a2. split; [done|]. rewrite Hf2.
    unfold settled in *. destruct (0 <? E); cbn [andb Z.ltb] in *; [|done]. destruct (0 <? points_due _ _ _); [|done].
    unfold figures in *. cbn in *. congruence.
  - by rewrite Ho.
  - cbn. congruence.
Qed.

Lemma return_then_sale aid tid tid2 tid3 now raced s1 d1 r1 d2 :
  processCompletedReturn lc raced t q aid tid3 now d = Ok (r1, d1) -> processCompletedSale lc t p aid tid tid2 d1 = Ok (s1, d2) -> settled_in d2.
Proof.
  intros H1 H2. unfold processCompletedReturn in H1. apply tx_bind_Ok in H1 as (x & d0 & Hx & H1).
  assert (x = None /\ d0 = d) as [-> ->] by (destruct raced; inv_tx; by rewrite ?Hn2). clear Hx.
  inv_tx. rewrite Ho, Hp, Hq in *. inv_all. rewrite HR in *.
  match goal with H' : parseVndBigInt _ _ = Ok _ |- _ => rewrite parseVndBigInt_int in H' by (done || lia); injection H' as <- end.
  match goal with H' : toVndNumber R = _ |- _ => rewrite toVndNumber_safe in H' by lia; injection H' as <- end.
  apply (sale_effect _ _ _ _ _ _ _ _ a c e) in H2; try done; cbn; rewrite ?lookup_insert_eq; try done; [|cbn; lia].
  cbn in H2. rewrite lookup_insert_eq in H2. destruct H2 as (Hp2 & Hk2 & _). split; [done|]. eexists. split; [exact Hp2 | done].
Qed.
End OneOrder.

(** C20.  A return that overtakes its sale loses nothing: for an order nothing was
    posted for, processing the sale and then the return, or the return and then the
    sale, leaves the same figures on the account and the same points earned, points
    reversed and amount returned in the purchase projection, and they are those of
    the proportional rule: what the sale earned less [points_due] for the refund. *)
Theorem early_return_same_points (sha : HoldDigest -> string) d t p q a c e R aid tid tid2 tid3 now raced s1 d1 r1 d2 r2 d3 s2 d4 :
  reachable lc sha d -> live (customers d !! (t, sp_customer p)) = Some c -> loyalty_accounts d !! (t, sp_customer p) = Some a ->
  List.find (of_key t ("earn:order:" +:+ sp_order p)) (loyalty_transactions d) = None ->
  List.find (of_key t ("earn_reversal:return:" +:+ rp_return q)) (loyalty_transactions d) = None ->
  customer_purchase_projections d !! (t, sp_order p) = None -> earning t p d = Ok e -> 0 <= sp_spend p <= MAX_SAFE_INTEGER ->
  rp_order q = sp_order p -> truthy_text (rp_customer q) = Some (sp_customer p) -> rp_refund q = int R -> 0 < R <= MAX_SAFE_INTEGER ->
  sp_event p <> "return:" +:+ rp_return q ->
  processCompletedSale lc t p aid tid tid2 d = Ok (s1, d1) -> processCompletedReturn lc raced t q aid tid3 now d1 = Ok (r1, d2) ->
  processCompletedReturn lc raced t q aid tid3 now d = Ok (r2, d3) -> processCompletedSale lc t p aid tid tid2 d3 = Ok (s2, d4) ->
  settled_in t p a e R d2 /\ settled_in t p a e R d4.
Proof.
  intros Hr%reachable_books. intros. split; [by eapply (sale_then_return d t p q a c e R) | by eapply (return_then_sale d t p q a c e R)].
Qed.
End OutOfOrder.

(** ** Two limits of the service *)

Section Limits.
Context (lc : string -> string -> Z).

(** A commit that finds the hold past its time changes nothing: the EXPIRED row it
    saves is rolled back with the error, so the hold stays HELD until the worker or a
    release takes it. *)
Lemma late_commit_changes_nothing t i order actor aid tid now d h a : loyalty_holds d !! as_uuid i = Some h -> h_tenant h = t -> h_state h = HELD ->
  h_expiresAt h <= now -> loyalty_accounts d !! (t, h_customer h) = Some a -> after (commitHold t i order actor aid tid now) d = d.
Proof.
  intros Hi Ht Hs He Ha. unfold after. destruct (commitHold _ _ _ _ _ _ _ d) as [[r d']|] eqn:H; [|done]. exfalso. revert H.
  unfold commitHold. cbv zeta. intros H. inv_tx. rewrite Hi, String.eqb_refl in *. inv_tx. rewrite Hs in *.
  rewrite (proj2 (Z.leb_le _ _) He) in *. by inv_all.
Qed.

(** The merge of an account with points: the row that leaves it names the target. *)
Lemma merge_accounts_out t source target k actor tc aid tid1 tid2 d out d' s : merge_accounts lc t source target k actor tc aid tid1 tid2 d = Ok (out, d') ->
  loyalty_accounts d !! (t, source) = Some s -> la_posted s <> 0 -> source <> target ->
  let row := merge_tx t source s tid1 MERGE_OUT (- la_posted s) target ("merge:" +:+ k +:+ ":out") actor in
  row ∈ loyalty_transactions d' /\ forall y, y ∈ loyalty_transactions d -> same_effect y row = false.
Proof.
  intros H Hs Hz Hne row. unfold merge_accounts in H. cbv zeta in H. inv_tx. rewrite Hs in *. inv_tx.
  match goal with H' : match loyalty_accounts d !! (t, target) with _ => _ end d = Ok (_, ?x) |- _ =>
    assert (loyalty_transactions x = loyalty_transactions d) as El by (destruct (loyalty_accounts d !! (t, target)); by inv_all) end.
  match goal with H' : merge_points _ _ _ _ _ _ _ _ _ _ = Ok _ |- _ => unfold merge_points in H' end.
  rewrite (proj2 (Z.eqb_neq _ 0) Hz) in *. inv_all.
  match goal with H1 : fresh_in _ (merge_tx _ _ _ _ MERGE_OUT _ _ _ _) |- _ => rename H1 into Hf end.
  split; [cbn; rewrite !elem_of_app, !list_elem_of_singleton; auto|]. intros y Hy. rewrite <- El in Hy. by apply Hf.
Qed.

Lemma finish_merge_ledger t source target k actor sc tc now sl t' newTier d r d' :
  finish_merge t source target k actor sc tc now sl t' newTier d = Ok (r, d') -> loyalty_transactions d' = loyalty_transactions d.
Proof. intros H%finish_merge_core. by injection H. Qed.

Lemma finish_merge_fresh t source target k actor sc tc now sl t' newTier d r d' :
  finish_merge t source target k actor sc tc now sl t' newTier d = Ok (r, d') -> mr_replay r = false.
Proof. unfold finish_merge. cbv zeta. intros H. inv_tx. done. Qed.

(** A customer can receive points by a merge only once: the ledger row of a
    merge is unique by its target ([sourceRefId] is the target), so after a merge that
    moved points into a customer, a merge of another customer with points into the
    same one never completes; only answers from the history are given, and nothing
    is changed. *)
Theorem second_merge_into_a_customer_fails t actor dto header aid tid1 tid2 now d r d1 actor' dto' header' aid' tid1' tid2' now' d2 r2 d3 s s' :
  mergeCustomers lc t actor dto header aid tid1 tid2 now d = Ok (r, d1) -> mr_replay r = false ->
  loyalty_accounts d !! (t, mc_source dto) = Some s -> la_posted s <> 0 ->
  loyalty_transactions d1 `prefix_of` loyalty_transactions d2 ->
  mc_target dto' = mc_target dto -> loyalty_accounts d2 !! (t, mc_source dto') = Some s' -> la_posted s' <> 0 ->
  mergeCustomers lc t actor' dto' header' aid' tid1' tid2' now' d2 = Ok (r2, d3) -> mr_replay r2 = true /\ d3 = d2.
Proof.
  intros [[Hr _] | (Hne & k & sc & tc & out & d' & H1 & H1')]%mergeCustomers_cases Hr0 Hs Hz [l Hl] Ht Hs' Hz' H2; [congruence|].
  apply mergeCustomers_cases in H2 as [|(Hne2 & k2 & sc2 & tc2 & out2 & d'' & H2 & _)]; [done|]. exfalso.
  apply finish_merge_ledger in H1'. destruct (merge_accounts_out _ _ _ _ _ _ _ _ _ _ _ _ s H1 Hs Hz Hne) as [Hin _].
  destruct (merge_accounts_out _ _ _ _ _ _ _ _ _ _ _ _ s' H2 Hs' Hz' Hne2) as [_ Hf].
  rewrite <- H1' in Hin. specialize (Hf _ ltac:(rewrite Hl; apply elem_of_app; left; exact Hin)). unfold same_effect in Hf. cbn in Hf.
  by rewrite Ht, !String.eqb_refl, bool_decide_eq_true_2 in Hf.
Qed.
End Limits.

Import LoyaltyDay.

Definition early_sale : SaleParams :=
  {| sp_event := "e1"; sp_customer := "c1"; sp_order := "o1"; sp_code := "DH1"; sp_branch := None; sp_channel := None; sp_total := 500000;
     sp_spend := 500000; sp_completedAt := 1 |}.
Definition early_refund : ReturnParams :=
  {| rp_event := "e2"; rp_return := "r1"; rp_order := "o1"; rp_customer := Some "c1"; rp_refund := int 200000 |}.

Lemma early_return_same_points_witness :
  let d2 := after (processCompletedReturn lc false "t1" early_refund "z" "x12" 5) (after (processCompletedSale lc "t1" early_sale "z" "x10" "x11") opened) in
  let d4 := after (processCompletedSale lc "t1" early_sale "z" "x10" "x11") (after (processCompletedReturn lc false "t1" early_refund "z" "x12" 5) opened) in
  exists a e, (la_posted a, nval (er_earnedPoints e)) = (100, 50) /\ settled_in "t1" early_sale a e 200000 d2 /\ settled_in "t1" early_sale a e 200000 d4.
Proof.
  eexists _, _. split; cycle 1.
  - eapply (early_return_same_points lc sha opened "t1" early_sale early_refund _ (member "KH1") _ 200000 "z" "x10" "x11" "x12" 5 false _
      (after (processCompletedSale lc "t1" early_sale "z" "x10" "x11") opened) _ _ _ (after (processCompletedReturn lc false "t1" early_refund "z" "x12" 5) opened));
      [apply opened_reachable | try (vm_compute; done || reflexivity)..]; by intros [].
  - reflexivity.
Defined.

Definition merge_of (source target : string) : MergeCustomersDto := {| mc_source := source; mc_target := target; mc_key := None |}.

Lemma second_merge_into_a_customer_fails_witness :
  let first := mergeCustomers lc "t1" "u1" (merge_of "c1" "c3") None "z" "m1" "m2" 9 in
  let second := mergeCustomers lc "t1" "u1" (merge_of "c2" "c3") None "z" "m3" "m4" 9 in
  let d1 := after first opened in
  second d1 = Throw (DomainError UniqueViolation 500) /\ (forall r2 d3, second d1 = Ok (r2, d3) -> mr_replay r2 = true /\ d3 = d1).
Proof.
  cbv zeta. split; [by vm_compute|]. intros r2 d3.
  eapply (second_merge_into_a_customer_fails lc "t1" "u1" (merge_of "c1" "c3") None "z" "m1" "m2" 9 opened _
    (after (mergeCustomers lc "t1" "u1" (merge_of "c1" "c3") None "z" "m1" "m2" 9) opened)).
  1: vm_compute; reflexivity.
  1: reflexivity.
  1, 5: vm_compute; reflexivity.
  1, 4: done.
  1: done.
  reflexivity.
Defined.
