(* ===== verification/EventBus.v ===== *)
(** * The event bus: outbox, relay, queues and consumers

    libs/events and the topology of libs/contracts.  A producing service writes an
    event to its outbox in the transaction of the state change
    ([EventOutbox.add]); the relay claims due rows, publishes them to the queue of
    every subscriber and records the outcome with a backoff ([OutboxRelay],
    outbox-retry.ts); a consuming service records the event in its inbox and runs
    its handlers in one transaction, and deletes the message afterwards
    ([EventConsumer]).

    The queues are a service of their own (SQS, SNS): of them the model uses what
    they document, as steps of the environment.  A message stays until it is
    deleted or, after [maxReceiveCount] receives, moved to the dead-letter queue;
    it may be delivered again at any time and in any order; a send may fail, or
    succeed without the sender learning of it.  A crash between a send and the
    commit of the relay's transaction is a pass that does not commit.  The payload,
    the state of a consumer and its handlers are parameters: the theorems hold for
    every set of handlers. *)

From S2P Require Import Prelude JsNumber JsString.

Open Scope Z_scope.

(** ** Topology (topology.ts) *)

(** Who produces which event types. *)
Definition TOPOLOGY_producers : list (string * list string) :=
  [ ("platform", ["platform.branch.created"; "platform.branch.updated"; "platform.account.logged_in";
      "platform.membership.granted"; "platform.membership.role_changed"; "platform.tenant.created";
      "platform.tenant.updated"; "platform.tenant.status_changed"; "platform.plan.changed";
      "platform.subscription.changed"]);
    ("catalog", ["catalog.product.created"; "catalog.product.updated"; "catalog.product.deactivated";
      "catalog.variant.created"; "catalog.variant.updated"; "catalog.variant.deactivated";
      "catalog.price.changed"; "catalog.usage.changed"]);
    ("inventory", ["inventory.reservation.confirmed"; "inventory.reservation.committed"; "inventory.reservation.released";
      "inventory.reservation.expired"; "inventory.stock.changed"; "inventory.stock.received";
      "inventory.stock.issued"; "inventory.transfer.dispatched"; "inventory.transfer.received";
      "inventory.stocktake.adjusted"; "inventory.purchase_order.approved"; "inventory.stock.below_min"]);
    ("sales", ["sales.order.created"; "sales.order.confirmed"; "sales.order.cancelled"; "sales.order.completed";
      "sales.checkout.completed"; "sales.checkout.reconciliation_required"; "sales.tender.recorded";
      "sales.payment.confirmed"; "sales.return.created"; "sales.return.approved"; "sales.return.completed";
      "sales.refund.requested"; "sales.shift.opened"; "sales.shift.closed"; "sales.fulfillment.completed"]);
    ("customer", ["customer.created"; "customer.updated"; "customer.deactivated"; "customer.group.changed";
      "customer.membership.changed"; "customer.loyalty.points_earned"; "customer.loyalty.points_redeemed";
      "customer.loyalty.points_reversed"; "customer.loyalty.hold_created"; "customer.loyalty.hold_committed";
      "customer.loyalty.hold_released"; "customer.loyalty.hold_expired"]);
    ("finance", ["finance.cashbook.entry_posted"; "finance.receivable.created"; "finance.receivable.payment_applied";
      "finance.payable.created"; "finance.payable.payment_applied"; "finance.credit.authorized";
      "finance.credit.committed"; "finance.credit.released"; "finance.payment.settlement_confirmed";
      "finance.refund.completed"; "finance.refund.reconciliation_required";
      "finance.cod.settlement_reconciled"; "finance.cod.discrepancy_detected"]);
    ("integration", ["integration.connection.connected"; "integration.connection.disconnected";
      "integration.connection.reauth_required"; "integration.sku_mapping.created";
      "integration.sku_mapping.updated"; "integration.external_order.received";
      "integration.external_order.imported"; "integration.external_order.mapping_required";
      "integration.external_order.sync_failed"; "integration.inventory.publication_succeeded";
      "integration.inventory.publication_failed"; "integration.sync_job.completed";
      "integration.sync_job.failed"; "integration.reconciliation.discrepancy_detected"]);
    ("insight", ["insight.projection.rebuilt"; "insight.projection.stale_detected";
      "insight.reconciliation.discrepancy_detected"; "insight.export.completed"; "insight.export.failed"])].

(** Whose queue receives which event types. *)
Definition TOPOLOGY_subscriptions : list (string * list string) :=
  [ ("catalog", ["platform.subscription.changed"; "platform.plan.changed"]);
    ("platform", ["catalog.usage.changed"]);
    ("sales", ["platform.branch.created"; "platform.branch.updated"; "platform.tenant.status_changed";
      "platform.subscription.changed"; "catalog.product.created"; "catalog.product.updated";
      "catalog.product.deactivated"; "catalog.variant.created"; "catalog.variant.updated";
      "catalog.variant.deactivated"; "catalog.price.changed"; "inventory.reservation.confirmed";
      "inventory.reservation.committed"; "inventory.reservation.released"; "inventory.reservation.expired"]);
    ("inventory", ["platform.branch.created"; "platform.branch.updated"; "catalog.product.created";
      "catalog.product.updated"; "catalog.product.deactivated"; "catalog.variant.created";
      "catalog.variant.updated"; "catalog.variant.deactivated"; "sales.order.completed"]);
    ("customer", ["sales.order.completed"; "sales.checkout.completed"; "sales.order.cancelled"; "sales.return.completed";
      "finance.receivable.created"; "finance.receivable.payment_applied"]);
    ("finance", ["platform.branch.created"; "platform.branch.updated"; "sales.order.completed";
      "sales.checkout.completed"; "sales.tender.recorded"; "sales.payment.confirmed";
      "sales.return.completed"; "sales.refund.requested"; "sales.shift.closed"; "sales.fulfillment.completed";
      "inventory.purchase_order.approved"; "inventory.stock.received"; "customer.created"; "customer.updated";
      "customer.deactivated"]);
    ("integration", ["platform.branch.created"; "platform.branch.updated"; "platform.tenant.status_changed";
      "platform.subscription.changed"; "catalog.product.created"; "catalog.product.updated";
      "catalog.product.deactivated"; "catalog.variant.created"; "catalog.variant.updated";
      "catalog.variant.deactivated"; "catalog.price.changed"; "inventory.stock.changed";
      "inventory.reservation.confirmed"; "inventory.reservation.committed"; "inventory.reservation.released";
      "inventory.reservation.expired"; "inventory.transfer.received"; "inventory.stocktake.adjusted";
      "sales.order.confirmed"; "sales.order.cancelled"; "sales.order.completed";
      "sales.fulfillment.completed"]);
    ("insight", ["platform.branch.created"; "platform.branch.updated"; "platform.account.logged_in";
      "platform.membership.granted"; "platform.membership.role_changed"; "platform.tenant.created";
      "platform.tenant.updated"; "platform.tenant.status_changed"; "catalog.product.created";
      "catalog.product.updated"; "catalog.product.deactivated"; "catalog.variant.created";
      "catalog.variant.updated"; "catalog.variant.deactivated"; "inventory.reservation.confirmed";
      "inventory.reservation.committed"; "inventory.reservation.released"; "inventory.reservation.expired";
      "inventory.stock.changed"; "inventory.stock.below_min"; "inventory.stock.received";
      "inventory.stock.issued"; "inventory.transfer.dispatched"; "inventory.transfer.received";
      "inventory.stocktake.adjusted"; "inventory.purchase_order.approved"; "sales.order.created";
      "sales.order.confirmed"; "sales.order.cancelled"; "sales.order.completed"; "sales.checkout.completed";
      "sales.return.completed"; "customer.created"; "customer.updated"; "customer.deactivated";
      "customer.group.changed"; "finance.cashbook.entry_posted"; "finance.receivable.payment_applied";
      "integration.external_order.mapping_required"; "integration.sync_job.failed"])].

Definition lists_type (type : string) (e : string * list string) : bool := existsb (String.eqb type) e.2.

(** Services whose queue must receive an event of this type. *)
Definition subscribersOf (type : string) : list string := map fst (List.filter (lists_type type) TOPOLOGY_subscriptions).

(** The service that produces an event type, if any. *)
Definition producerOf (type : string) : option string := fst <$> List.find (lists_type type) TOPOLOGY_producers.

(** ** Configuration (events-config.ts) *)

Inductive EventsTransport := sqs_direct | sns.

Record EventsConfig := {
  transport : EventsTransport; topicArn : option string; relayIntervalMs : number; relayBatch : number; maxAttempts : number;
  maxReceiveCount : number; visibilityTimeoutSeconds : number; pollWaitSeconds : number; outboxRetentionDays : number }.

Definition config_int (value : option string) (fallback : Z) : number :=
  match value with
  | None => int fallback
  | Some v =>
      let n := number_of_string v in
      if negb (String.eqb v "") && isFinite n && nlt (int 0) n then mathFloor n else int fallback
  end.

(** [readEventsConfig]; [None] when it throws. *)
Definition readEventsConfig (env : string -> option string) : option EventsConfig :=
  let t := default "sqs-direct" (env "EVENTS_TRANSPORT") in
  let arn := match env "EVENTS_TOPIC_ARN" with Some a => if String.eqb a "" then None else Some a | None => None end in
  if negb (String.eqb t "sqs-direct") && negb (String.eqb t "sns") then None
  else if String.eqb t "sns" && negb (bool_decide (is_Some arn)) then None
  else Some {| transport := if String.eqb t "sns" then sns else sqs_direct; topicArn := arn;
    relayIntervalMs := config_int (env "EVENTS_RELAY_INTERVAL_MS") 500;
    relayBatch := config_int (env "EVENTS_RELAY_BATCH") 50;
    maxAttempts := config_int (env "EVENTS_MAX_ATTEMPTS") 10;
    maxReceiveCount := config_int (env "EVENTS_MAX_RECEIVE_COUNT") 3;
    visibilityTimeoutSeconds := config_int (env "EVENTS_VISIBILITY_TIMEOUT") 30;
    pollWaitSeconds := config_int (env "EVENTS_POLL_WAIT_SECONDS") 5;
    outboxRetentionDays := config_int (env "EVENTS_OUTBOX_RETENTION_DAYS") 7 |}.

(** ** Retry (outbox-retry.ts) *)

Definition MAX_BACKOFF_MS : Z := 5 * 60 * 1000.

Definition backoffMs (attempts : Z) : Z := Z.min (2 ^ attempts * 1000) MAX_BACKOFF_MS.

Section Bus.
(** The payload of an event. *)
Context {P : Type}.

Record EventEnvelope := {
  e_id : string; e_type : string; e_version : number; e_occurredAt : string; e_tenantId : string;
  e_actor : option (string * string); e_traceId : string; e_payload : P }.

Definition nonEmpty (s : string) : bool := negb (String.eqb s "").

(** What the request context holds ([RequestContext.get()]); no context is [None]. *)
Record RequestState := { r_tenantId : option string; r_requestId : option string; r_actor : option (string * string) }.

(** [EventOutbox.envelopeFor]; [uuid] and [trace] are the two results of randomUUID. *)
Definition envelopeFor (state : option RequestState) (uuid trace occurredAt : string)
    (tenantId type : string) (version : number) (payload : P) : EventEnvelope :=
  {| e_id := uuid; e_type := type; e_version := version; e_occurredAt := occurredAt; e_tenantId := tenantId;
     e_actor := r ← state; r_actor r; e_traceId := default trace (r ← state; r_requestId r); e_payload := payload |}.

(** [createEvent]: the tenant of the request context; [None] when it throws
    MissingTenantContextError. *)
Definition createEvent (state : option RequestState) (uuid trace occurredAt : string)
    (type : string) (version : number) (payload : P) : option EventEnvelope :=
  tenantId ← (r ← state; r_tenantId r); if nonEmpty tenantId then Some (envelopeFor state uuid trace occurredAt tenantId type version payload) else None.

(** ** The outbox *)

Record OutboxRow := {
  o_id : string; o_tenantId : string; o_type : string; o_version : number; o_payload : EventEnvelope; o_createdAt : Z;
  o_publishedAt : option Z; o_attempts : Z; o_nextAttemptAt : Z; o_lastError : option string; o_failedAt : option Z }.

Abbreviation outbox := (gmap string OutboxRow).

(** The row an INSERT makes, with the column defaults of the entity. *)
Definition fresh_row (now : Z) (e : EventEnvelope) : OutboxRow :=
  {| o_id := e_id e; o_tenantId := e_tenantId e; o_type := e_type e; o_version := e_version e; o_payload := e; o_createdAt := now;
     o_publishedAt := None; o_attempts := 0; o_nextAttemptAt := now; o_lastError := None; o_failedAt := None |}.

(** [EventOutbox.add]; [None] when it throws: no tenant, or the primary key is taken. *)
Definition add (state : option RequestState) (uuid trace occurredAt : string) (now : Z)
    (optTenant : option string) (type : string) (version : number) (payload : P) (o : outbox) : option (EventEnvelope * outbox) :=
  e ← match optTenant with
      | Some t => if nonEmpty t then Some (envelopeFor state uuid trace occurredAt t type version payload)
                  else createEvent state uuid trace occurredAt type version payload
      | None => createEvent state uuid trace occurredAt type version payload
      end;
  match o !! e_id e with Some _ => None | None => Some (e, <[e_id e := fresh_row now e]> o) end.

(** [EventOutbox.enqueue]: of its parameters only the tenant and the payload are used. *)
Definition enqueue (state : option RequestState) (uuid trace occurredAt : string) (now : Z) (type : string) (version : number)
    (tenantId : string) (aggregateId : option string) (actor : option (string * string)) (payload : P) (o : outbox) :
    option (EventEnvelope * outbox) :=
  add state uuid trace occurredAt now (Some tenantId) type version payload o.

Definition markPublished (row : OutboxRow) (now : Z) : OutboxRow :=
  {| o_id := o_id row; o_tenantId := o_tenantId row; o_type := o_type row; o_version := o_version row; o_payload := o_payload row;
     o_createdAt := o_createdAt row; o_publishedAt := Some now; o_attempts := o_attempts row; o_nextAttemptAt := o_nextAttemptAt row;
     o_lastError := None; o_failedAt := o_failedAt row |}.

Definition markFailed (row : OutboxRow) (error : string) (now maxAttempts : Z) : OutboxRow :=
  let attempts := o_attempts row + 1 in
  let parked := maxAttempts <=? attempts in
  {| o_id := o_id row; o_tenantId := o_tenantId row; o_type := o_type row; o_version := o_version row; o_payload := o_payload row;
     o_createdAt := o_createdAt row; o_publishedAt := o_publishedAt row; o_attempts := attempts;
     o_nextAttemptAt := if parked then o_nextAttemptAt row else now + backoffMs attempts;
     o_lastError := Some (String.substring 0 500 error); o_failedAt := if parked then Some now else o_failedAt row |}.

(** ** Queues *)

(** A message: its body, [None] for text that is not JSON, and how often it was received. *)
Record Message := { m_body : option EventEnvelope; m_receives : Z }.
Record Queue := { q_messages : list Message; q_dead : list Message }.
Abbreviation queues := (gmap string Queue).

Definition empty_queue : Queue := {| q_messages := []; q_dead := [] |}.
(** [ensureQueue]: the queue is created on demand. *)
Definition ensureQueue (qs : queues) (service : string) : Queue := default empty_queue (qs !! service).

Definition sent (e : EventEnvelope) : Message := {| m_body := Some e; m_receives := 0 |}.
Definition push (m : Message) (q : Queue) : Queue := {| q_messages := q_messages q ++ [m]; q_dead := q_dead q |}.
Definition send (service : string) (e : EventEnvelope) (qs : queues) : queues :=
  <[service := push (sent e) (ensureQueue qs service)]> qs.

(** What a send does: [Unanswered] delivers, but the sender sees an error. *)
Inductive SendOutcome := Delivered | Refused (error : string) | Unanswered (error : string).

(** [SqsDirectPublisher.publish] over the subscribers; the error it throws, if any. *)
Fixpoint publish_to (out : string -> SendOutcome) (e : EventEnvelope) (services : list string) (qs : queues) : queues * option string :=
  match services with
  | [] => (qs, None)
  | s :: services =>
      match out s with
      | Delivered => publish_to out e services (send s e qs)
      | Refused err => (qs, Some err)
      | Unanswered err => (send s e qs, Some err)
      end
  end.

(** [SnsEventPublisher.publish]: one call, the topic fans out to the subscribed queues. *)
Definition publish_sns (out : string -> SendOutcome) (e : EventEnvelope) (services : list string) (qs : queues) : queues * option string :=
  let fanned := foldl (fun qs s => send s e qs) qs services in
  match out "sns" with
  | Delivered => (fanned, None)
  | Refused err => (qs, Some err)
  | Unanswered err => (fanned, Some err)
  end.

Definition publish (t : EventsTransport) (out : string -> SendOutcome) (e : EventEnvelope) (qs : queues) : queues * option string :=
  match t with
  | sqs_direct => publish_to out e (subscribersOf (e_type e)) qs
  | sns => publish_sns out e (subscribersOf (e_type e)) qs
  end.

(** ** The relay *)

(** One pass: the time of the transaction and the clock at each row, the rows that
    another replica has locked, the outcome of every send, and whether the
    transaction commits. *)
Record Pass := {
  p_now : Z; p_clock : string -> Z; p_locked : string -> bool; p_send : string -> string -> SendOutcome; p_commit : bool }.

Section Relay.
Context (t : EventsTransport) (batch : nat) (maxAttempts : Z).

Definition is_pending (row : OutboxRow) : bool :=
  negb (bool_decide (is_Some (o_publishedAt row))) && negb (bool_decide (is_Some (o_failedAt row))).

Definition is_due (p : Pass) (row : OutboxRow) : bool :=
  is_pending row && (o_nextAttemptAt row <=? p_now p) && negb (p_locked p (o_id row)).

Definition claimed (p : Pass) (o : outbox) : list OutboxRow :=
  take batch (sort_by (fun a b => o_createdAt a - o_createdAt b) (List.filter (is_due p) (map_to_list o).*2)).

(** The body of the loop: the row as it is saved, the queues after the sends. *)
Definition relay_row (p : Pass) (row : OutboxRow) (qs : queues) : OutboxRow * queues :=
  let now := p_clock p (o_id row) in
  match publish t (p_send p (o_id row)) (o_payload row) qs with
  | (qs', None) => (markPublished row now, qs')
  | (qs', Some error) => (markFailed row error now maxAttempts, qs')
  end.

Fixpoint relay_rows (p : Pass) (rows : list OutboxRow) (qs : queues) : list OutboxRow * queues :=
  match rows with
  | [] => ([], qs)
  | row :: rows =>
      let '(row', qs1) := relay_row p row qs in
      let '(rows', qs2) := relay_rows p rows qs1 in
      (row' :: rows', qs2)
  end.

(** [repository.save(rows)]. *)
Definition save (rows : list OutboxRow) (o : outbox) : outbox := foldl (fun o r => <[o_id r := r]> o) o rows.

(** What was sent stays sent, also when the transaction does not commit. *)
Definition relayOnce (p : Pass) (o : outbox) (qs : queues) : outbox * queues :=
  let '(rows, qs') := relay_rows p (claimed p o) qs in
  (if p_commit p then save rows o else o, qs').

Definition published_count (rows : list OutboxRow) : nat := length (List.filter (fun r => bool_decide (is_Some (o_publishedAt r))) rows).

(** Rows published longer ago than the retention period are deleted. *)
Definition expired_row (now days : Z) (row : OutboxRow) : bool :=
  match o_publishedAt row with Some at_ => at_ <? now - days * 86400000 | None => false end.
Definition cleanup (now days : Z) (o : outbox) : outbox := filter (fun e => expired_row now days e.2 = false) o.

(** ** Properties of the relay *)

#[local] Opaque subscribersOf.

(** ** Queues *)

Definition all_messages (q : Queue) : list Message := q_messages q ++ q_dead q.

(** A copy of the event is in the queue of the service, or in its dead-letter queue. *)
Definition carries (qs : queues) (service : string) (e : EventEnvelope) : Prop :=
  Some e ∈ map m_body (all_messages (ensureQueue qs service)).

Lemma ensure_insert qs s q s' : ensureQueue (<[s := q]> qs) s' = if decide (s = s') then q else ensureQueue qs s'.
Proof. unfold ensureQueue. case_decide; [subst; by rewrite lookup_insert_eq | by rewrite lookup_insert_ne]. Qed.

(** Replacing one queue. *)
Lemma carries_insert qs s q s' e :
  carries (<[s := q]> qs) s' e <-> if decide (s = s') then Some e ∈ map m_body (all_messages q) else carries qs s' e.
Proof. unfold carries. rewrite ensure_insert. by case_decide. Qed.

Lemma carries_send s e qs s' e' : carries (send s e qs) s' e' <-> (s = s' /\ e = e') \/ carries qs s' e'.
Proof.
  unfold send. rewrite carries_insert. case_decide as Hs; [|split; [by right | by intros [[? _]|?]]]. subst s'.
  unfold carries, all_messages, push. cbn. rewrite !map_app, !elem_of_app. cbn. rewrite list_elem_of_singleton.
  split; [intros [[H|[= ->]]|H]; auto | intros [[_ ->]|[H|H]]; auto].
Qed.

(** What publishing does to the queues: copies of this event, for every
    subscriber when it does not throw. *)
Definition publishes (e : EventEnvelope) (qs qs' : queues) (to : list string) : Prop :=
  forall s e', carries qs' s e' <-> (e = e' /\ s ∈ to) \/ carries qs s e'.

Lemma publish_to_spec out e services : forall qs qs' err, publish_to out e services qs = (qs', err) ->
  exists to, publishes e qs qs' to /\ (err = None -> to = services).
Proof.
  induction services as [|s services IH]; intros qs qs' err; cbn.
  - intros [= <- <-]. exists []. split; [|done]. intros s e'. split; [by right | intros [[_ H%not_elem_of_nil]|H]; done].
  - destruct (out s) as [|x|x].
    + intros H. apply IH in H as (to & H1 & H2). exists (s :: to). split; [|intros E; by rewrite (H2 E)].
      intros s' e'. rewrite (H1 s' e'), carries_send, elem_of_cons. intuition congruence.
    + intros [= <- <-]. exists []. split; [|done]. intros s' e'. split; [by right | intros [[_ H%not_elem_of_nil]|H]; done].
    + intros [= <- <-]. exists [s]. split; [|done]. intros s' e'. rewrite carries_send, list_elem_of_singleton. intuition congruence.
Qed.

Lemma fan_spec e services : forall qs, publishes e qs (foldl (fun qs s => send s e qs) qs services) services.
Proof.
  induction services as [|s services IH]; intros qs s' e'; cbn.
  - split; [by right | intros [[_ H%not_elem_of_nil]|H]; done].
  - rewrite (IH (send s e qs) s' e'), carries_send, elem_of_cons. intuition congruence.
Qed.

Lemma publish_spec tr out e qs qs' err : publish tr out e qs = (qs', err) ->
  exists to, publishes e qs qs' to /\ (err = None -> to = subscribersOf (e_type e)).
Proof.
  destruct tr; cbn; [apply publish_to_spec|]. unfold publish_sns.
  destruct (out "sns") as [|x|x]; intros [= <- <-]; [exists (subscribersOf (e_type e)) | exists [] | exists (subscribersOf (e_type e))];
    (split; [|done]); try apply fan_spec. intros s' e'. split; [by right | intros [[_ H%not_elem_of_nil]|H]; done].
Qed.

(** ** The relay *)

(** What a pass makes of a row. *)
Inductive relayed (row : OutboxRow) (qs : queues) : OutboxRow -> Prop :=
| relayed_published now : (forall s, s ∈ subscribersOf (e_type (o_payload row)) -> carries qs s (o_payload row)) ->
    relayed row qs (markPublished row now)
| relayed_failed error now : relayed row qs (markFailed row error now maxAttempts).

Definition only_more (rows : list OutboxRow) (qs qs' : queues) : Prop :=
  (forall s e, carries qs s e -> carries qs' s e) /\ (forall s e, carries qs' s e -> carries qs s e \/ e ∈ map o_payload rows).

Lemma relayed_mono row qs qs' row' : (forall s e, carries qs s e -> carries qs' s e) -> relayed row qs row' -> relayed row qs' row'.
Proof. intros H [now Hs | error now]; constructor. auto. Qed.

Lemma relay_row_spec p row qs row' qs' : relay_row p row qs = (row', qs') -> relayed row qs' row' /\ only_more [row] qs qs'.
Proof.
  unfold relay_row. destruct (publish _ _ _ _) as [qs1 err] eqn:E. apply publish_spec in E as (to & H1 & H2).
  assert (Hm : only_more [row] qs qs1).
  { split; intros s e; rewrite (H1 s e); [by right|]. cbn. rewrite list_elem_of_singleton. intros [[-> _]|?]; auto. }
  destruct err as [err|]; intros [= <- <-]; (split; [|done]); constructor. intros s Hs. apply (H1 s). left. by rewrite H2.
Qed.

Lemma relay_rows_spec p rows : forall qs rows' qs', relay_rows p rows qs = (rows', qs') ->
  Forall2 (fun r r' => relayed r qs' r') rows rows' /\ only_more rows qs qs'.
Proof.
  induction rows as [|row rows IH]; intros qs rows' qs'; cbn.
  - intros [= <- <-]. split; [constructor|]. split; auto.
  - destruct (relay_row _ _ _) as [row' qs1] eqn:E1. destruct (relay_rows _ _ _) as [rows1 qs2] eqn:E2. intros [= <- <-].
    apply relay_row_spec in E1 as [R1 [M1 M2]]. apply IH in E2 as [R2 [N1 N2]].
    split; [constructor; [by eapply relayed_mono | done]|]. split; [auto|]. intros s e He. cbn. rewrite elem_of_cons.
    destruct (N2 s e He) as [He'|?]; [|auto]. destruct (M2 s e He') as [?|Hx]; [auto|]. cbn in Hx. apply list_elem_of_singleton in Hx. auto.
Qed.

(** The rows of the table are stored under their id. *)
Definition keyed (o : outbox) : Prop := map_Forall (fun i r => o_id r = i) o.

Lemma claimed_elem p o r : keyed o -> r ∈ claimed p o -> o !! o_id r = Some r /\ is_due p r = true.
Proof.
  intros Hk Hr. unfold claimed in Hr. apply elem_of_take in Hr as (n & Hr%list_elem_of_lookup_2 & _). rewrite sort_by_perm in Hr.
  apply list_elem_of_In, filter_In in Hr as [Hr Hd]. apply list_elem_of_In, list_elem_of_fmap in Hr as ([i x] & -> & Hi%elem_of_map_to_list).
  cbn in *. by rewrite (Hk i x Hi).
Qed.

Lemma row_ids_NoDup (f : OutboxRow -> bool) o : keyed o -> NoDup (map o_id (List.filter f (map_to_list o).*2)).
Proof.
  intros Hk. assert (H : NoDup (map o_id (map_to_list o).*2)).
  { replace (map o_id (map_to_list o).*2) with ((map_to_list o).*1); [apply NoDup_fst_map_to_list|].
    rewrite map_map. apply map_ext_in. intros [i r] Hi%list_elem_of_In%elem_of_map_to_list. cbn. symmetry. by apply (Hk i r). }
  revert H. generalize (map_to_list o).*2 as l. clear. induction l as [|r l IH]; [done|]. cbn. intros [Hn Hd]%NoDup_cons.
  destruct (f r); cbn; [|auto]. apply NoDup_cons. split; [|auto]. contradict Hn.
  apply list_elem_of_In, in_map_iff in Hn as (x & E & [Hx _]%filter_In). apply list_elem_of_In, in_map_iff. eauto.
Qed.

Lemma claimed_NoDup p o : keyed o -> NoDup (map o_id (claimed p o)).
Proof.
  intros Hk. unfold claimed. rewrite <- firstn_map. eapply sublist_NoDup; [|apply sublist_take].
  rewrite (Permutation_map o_id (sort_by_perm _ _)). by apply row_ids_NoDup.
Qed.

Lemma save_spec rows : forall o, NoDup (map o_id rows) ->
  (forall r, r ∈ rows -> save rows o !! o_id r = Some r) /\ (forall i, i ∉ map o_id rows -> save rows o !! i = o !! i).
Proof.
  unfold save. induction rows as [|x rows IH]; intros o Hn; [by split; [intros r ?%not_elem_of_nil|]|]. cbn in *. apply NoDup_cons in Hn as [Hx Hn].
  destruct (IH (<[o_id x := x]> o) Hn) as [H1 H2]. split.
  - intros r [->|Hr]%elem_of_cons; [|auto]. rewrite H2 by done. apply lookup_insert_eq.
  - intros i [Hne Hi]%not_elem_of_cons. rewrite H2 by done. by rewrite lookup_insert_ne.
Qed.

Lemma relayed_id row qs row' : relayed row qs row' -> o_id row' = o_id row /\ o_payload row' = o_payload row.
Proof. by intros []. Qed.

Lemma relayed_ids rows qs rows' : Forall2 (fun r r' => relayed r qs r') rows rows' -> map o_id rows' = map o_id rows.
Proof. induction 1 as [|r r' rows rows' Hr _ IH]; [done|]. cbn. by rewrite IH, (proj1 (relayed_id _ _ _ Hr)). Qed.

(** One pass on the table: each claimed row as the pass left it, the others as they were. *)
Lemma relayOnce_spec p o qs o' qs' : keyed o -> relayOnce p o qs = (o', qs') ->
  only_more (claimed p o) qs qs' /\
  (o' = o \/ forall i, o' !! i = o !! i \/ exists r r', o !! i = Some r /\ is_due p r = true /\ o' !! i = Some r' /\ relayed r qs' r').
Proof.
  intros Hk. unfold relayOnce. destruct (relay_rows _ _ _) as [rows' qs1] eqn:E. apply relay_rows_spec in E as [HF HM].
  intros [= <- <-]. split; [done|]. destruct (p_commit p); [|by left]. right. intros i.
  pose proof (relayed_ids _ _ _ HF) as Hids. destruct (save_spec rows' o) as [S1 S2]; [rewrite Hids; by apply claimed_NoDup|].
  destruct (decide (i ∈ map o_id rows')) as [Hi|Hi]; [|left; auto]. right. apply list_elem_of_fmap in Hi as (r' & -> & Hr').
  apply list_elem_of_lookup in Hr' as Hn. destruct Hn as [n Hn]. destruct (Forall2_lookup_r _ _ _ _ _ HF Hn) as (r & Hr & Hrel).
  destruct (claimed_elem p o r Hk) as [Ho Hd]; [by eapply list_elem_of_lookup_2|]. destruct (relayed_id _ _ _ Hrel) as [Eid _].
  exists r, r'. rewrite Eid. split_and!; try done. rewrite <- Eid. by apply S1.
Qed.

(** The retry state of a row. *)
Record row_ok (r : OutboxRow) : Prop := {
  row_attempts : 0 <= o_attempts r;
  row_open : o_publishedAt r = None -> o_failedAt r = None -> o_attempts r < Z.max 1 maxAttempts;
  row_parked : o_failedAt r <> None -> maxAttempts <= o_attempts r }.

Lemma relayed_ok row qs row' : row_ok row -> relayed row qs row' -> row_ok row'.
Proof.
  intros [H1 H2 H3] [now _ | error now]; split; cbn; try done; [lia | |].
  - intros E1. destruct (Z.leb_spec maxAttempts (o_attempts row + 1)); [done|]. lia.
  - destruct (Z.leb_spec maxAttempts (o_attempts row + 1)); [lia|]. intros Hf. specialize (H3 Hf). lia.
Qed.

(** ** Retries end *)

(** A committed pass that finds rows to publish. *)
Definition busy_pass (o o' : outbox) : Prop :=
  exists p qs qs', p_commit p = true /\ claimed p o <> [] /\ relayOnce p o qs = (o', qs').

Definition rows_ok (o : outbox) : Prop := map_Forall (fun i r => o_id r = i /\ row_ok r) o.

(** Publishes a row may still see. *)
Definition budget (r : OutboxRow) : Z := if is_pending r then Z.max 1 maxAttempts - o_attempts r else 0.

Lemma pending_spec r : is_pending r = true <-> o_publishedAt r = None /\ o_failedAt r = None.
Proof. unfold is_pending. destruct (o_publishedAt r), (o_failedAt r); cbn; split; try done; by intros []. Qed.

Lemma due_pending p r : is_due p r = true -> is_pending r = true.
Proof. unfold is_due. by intros [[? _]%andb_true_iff _]%andb_true_iff. Qed.

Lemma budget_bounds r : row_ok r -> 0 <= budget r <= Z.max 1 maxAttempts.
Proof.
  intros [H1 H2 _]. unfold budget. destruct (is_pending r) eqn:E; [|lia]. apply pending_spec in E as [E1 E2]. specialize (H2 E1 E2). lia.
Qed.

Lemma budget_relayed r qs r' : row_ok r -> is_pending r = true -> relayed r qs r' -> budget r' + 1 <= budget r.
Proof.
  intros [H1 H2 _] Hp Hr. unfold budget. rewrite Hp. apply pending_spec in Hp as [E1 E2]. specialize (H2 E1 E2).
  destruct Hr as [now _ | error now]; [cbn; lia|]. unfold is_pending. cbn. rewrite E1, E2. destruct (Z.leb_spec maxAttempts (o_attempts r + 1)); cbn; lia.
Qed.

Lemma save_budget qs rows rows' : Forall2 (fun r r' => relayed r qs r') rows rows' ->
  forall o, NoDup (map o_id rows) -> (forall r, r ∈ rows -> o !! o_id r = Some r /\ row_ok r /\ is_pending r = true) ->
  msum budget (save rows' o) + Z.of_nat (length rows) <= msum budget o.
Proof.
  induction 1 as [|r r' rows rows' Hr _ IH]; intros o Hn Ho; [cbn; lia|]. cbn in Hn. apply NoDup_cons in Hn as [Hx Hn].
  destruct (Ho r) as (Hl & Hok & Hp); [left|]. destruct (relayed_id _ _ _ Hr) as [Eid _]. pose proof (budget_relayed _ _ _ Hok Hp Hr) as Hb.
  unfold save in *. cbn [foldl length]. rewrite Eid. assert (HI : msum budget (<[o_id r := r']> o) + 1 <= msum budget o).
  { rewrite (msum_insert_old budget o (o_id r) r' r Hl). lia. }
  enough (msum budget (foldl (fun o r => <[o_id r := r]> o) (<[o_id r := r']> o) rows') + Z.of_nat (length rows) <= msum budget (<[o_id r := r']> o)) by lia.
  apply IH; [done|]. intros x Hin. destruct (Ho x) as (H1 & H2 & H3); [by right|]. split_and!; try done.
  rewrite lookup_insert_ne; [done|]. intros E. apply Hx. rewrite E. by apply (list_elem_of_fmap_2 o_id).
Qed.

Lemma busy_pass_spec o o' : rows_ok o -> busy_pass o o' -> rows_ok o' /\ size o' = size o /\ msum budget o' < msum budget o.
Proof.
  intros Ho (p & qs & qs' & Hc & Hne & H). assert (Hk : keyed o) by (intros i r Hr; by apply (Ho i r)).
  pose proof (relayOnce_spec _ _ _ _ _ Hk H) as [_ Hs]. unfold relayOnce in H. destruct (relay_rows _ _ _) as [rows' qs1] eqn:E.
  apply relay_rows_spec in E as [HF _]. rewrite Hc in H. injection H as <- <-. split; [|split].
  - destruct Hs as [->|Hs]; [done|]. intros i r' Hr'. destruct (Hs i) as [Ei|(r & x & Hr & _ & Hx & Hrel)]; [rewrite Ei in Hr'; by apply Ho|].
    simplify_eq. destruct (Ho i r Hr) as [<- Hok]. split; [apply (relayed_id _ _ _ Hrel) | by eapply relayed_ok].
  - rewrite <- !size_dom. f_equal. apply set_eq. intros i. rewrite !elem_of_dom. destruct Hs as [->|Hs]; [done|].
    destruct (Hs i) as [->|(r & x & -> & _ & -> & _)]; [done | split; eauto].
  - pose proof (save_budget _ _ _ HF o (claimed_NoDup p o Hk)) as Hb. destruct (claimed p o) as [|r0 rows0] eqn:Ec; [done|]. cbn [length] in Hb.
    enough (msum budget (save rows' o) + Z.of_nat (Datatypes.S (length rows0)) <= msum budget o) by lia. apply Hb. rewrite <- Ec. intros r Hr.
    destruct (claimed_elem p o r Hk Hr) as [Hl Hd]. split_and!; [done | by apply (Ho _ _ Hl) | by eapply due_pending].
Qed.

Lemma budget_total o : rows_ok o -> 0 <= msum budget o <= Z.max 1 maxAttempts * Z.of_nat (size o).
Proof.
  intros Ho. split; [apply msum_nonneg; intros i r Hr; by apply budget_bounds, (Ho i r)|].
  unfold msum. rewrite <- length_map_to_list, <- (length_map snd (map_to_list o)). assert (H : forall r, r ∈ map snd (map_to_list o) -> budget r <= Z.max 1 maxAttempts).
  { intros r Hr. apply list_elem_of_fmap in Hr as ([i x] & -> & Hi%elem_of_map_to_list). apply budget_bounds, (Ho i x Hi). }
  revert H. generalize (map snd (map_to_list o)) as l. induction l as [|r l IH]; intros H; [unfold total; cbn; lia|]. cbn [length]. rewrite Nat2Z.inj_succ, Z.mul_succ_r.
  change (total budget (r :: l)) with (budget r + total budget l). pose proof (H r ltac:(left)). specialize (IH (fun x Hx => H x (list_elem_of_further _ _ _ Hx))). lia.
Qed.

(** A row that waits can be found by some pass. *)
Lemma waiting_found o i r : (0 < batch)%nat -> o !! i = Some r -> is_pending r = true -> exists o', busy_pass o o'.
Proof.
  intros Hb Hr Hp. set (p := {| p_now := o_nextAttemptAt r; p_clock := fun _ => 0; p_locked := fun _ => false; p_send := fun _ _ => Delivered; p_commit := true |}).
  exists (relayOnce p o ∅).1, p, ∅, (relayOnce p o ∅).2. split; [done|]. split; [|apply surjective_pairing].
  assert (Hin : r ∈ sort_by (fun a b => o_createdAt a - o_createdAt b) (List.filter (is_due p) (map_to_list o).*2)).
  { rewrite sort_by_perm. apply list_elem_of_In, filter_In. split; [apply list_elem_of_In, list_elem_of_fmap; exists (i, r); split; [done | by apply elem_of_map_to_list]|].
    unfold is_due, p. cbn. by rewrite Hp, Z.leb_refl. }
  unfold claimed. destruct (sort_by _ _) as [|x xs]; [by apply not_elem_of_nil in Hin|]. destruct batch; [lia | done].
Qed.

(** C32.  However sends fail, the relay finds due rows in at most max(1, maxAttempts)
    committed passes per row of the outbox; and when no pass can find any more, every row
    is published, or parked with its attempts used up. *)
Theorem relay_terminates n o o' : (0 < batch)%nat -> rows_ok o -> nsteps busy_pass n o o' ->
  Z.of_nat n <= Z.max 1 maxAttempts * Z.of_nat (size o) /\
  ((forall o'', ~ busy_pass o' o'') -> map_Forall (fun _ r => is_Some (o_publishedAt r) \/ (is_Some (o_failedAt r) /\ maxAttempts <= o_attempts r)) o').
Proof.
  intros Hbt Ho Hn. enough (H : Z.of_nat n + msum budget o' <= msum budget o /\ rows_ok o').
  { destruct H as [H Ho']. pose proof (budget_total _ Ho). pose proof (budget_total _ Ho'). split; [lia|]. intros Hstop i r Hr.
    destruct (is_pending r) eqn:E; [destruct (waiting_found _ _ _ Hbt Hr E) as [o'' H2]; by apply Hstop in H2|].
    destruct (o_publishedAt r) eqn:E1; [by left; eexists|]. destruct (o_failedAt r) eqn:E2; [|by rewrite (proj2 (pending_spec r)) in E]. right. split; [by eexists|].
    apply (row_parked _ (proj2 (Ho' i r Hr))). by rewrite E2. }
  induction Hn as [o|n o o1 o2 Hs _ IH]; [split; [lia | done]|]. destruct (busy_pass_spec _ _ Ho Hs) as (H1 & _ & H2).
  destruct (IH H1) as [H3 H4]. split; [lia | done].
Qed.

(** ** The relay catches up *)

(** A pass without trouble: it commits, no row is locked and every send is answered. *)
Definition smooth (p : Pass) : Prop :=
  p_commit p = true /\ (forall i, p_locked p i = false) /\ (forall i s, p_send p i s = Delivered).

Definition relay_passes (ps : list Pass) (o : outbox) (qs : queues) : outbox * queues :=
  foldl (fun st p => relayOnce p st.1 st.2) (o, qs) ps.

(** Every row that waits has had its backoff by the time of the pass. *)
Definition backed_off (p : Pass) (o : outbox) : Prop := map_Forall (fun _ r => is_pending r = true -> o_nextAttemptAt r <= p_now p) o.

Definition pending_rows (o : outbox) : list OutboxRow := List.filter is_pending (map_to_list o).*2.

Lemma publish_delivered tr out e qs : (forall s, out s = Delivered) -> (publish tr out e qs).2 = None.
Proof.
  intros H. destruct tr; cbn.
  - generalize (subscribersOf (e_type e)) as l. intros l. revert qs. induction l as [|s l IH]; intros qs; cbn; [done|]. by rewrite H.
  - unfold publish_sns. by rewrite H.
Qed.

Lemma relay_rows_delivered p rows : (forall i s, p_send p i s = Delivered) -> forall qs,
  (relay_rows p rows qs).1 = map (fun r => markPublished r (p_clock p (o_id r))) rows.
Proof.
  intros H. induction rows as [|r rows IH]; intros qs; cbn; [done|]. destruct (relay_row _ _ _) as [r' qs1] eqn:E1.
  destruct (relay_rows _ _ _) as [rows1 qs2] eqn:E2. cbn. specialize (IH qs1). rewrite E2 in IH. cbn in IH. rewrite IH. f_equal.
  unfold relay_row in E1. pose proof (publish_delivered t (p_send p (o_id r)) (o_payload r) qs (H (o_id r))) as Hp.
  destruct (publish _ _ _ _) as [q [err|]]; [done|]. by injection E1 as <- _.
Qed.

Lemma smooth_pass p o qs o' qs' : smooth p -> keyed o -> relayOnce p o qs = (o', qs') ->
  (forall r, r ∈ claimed p o -> o' !! o_id r = Some (markPublished r (p_clock p (o_id r))) /\
     forall s, s ∈ subscribersOf (e_type (o_payload r)) -> carries qs' s (o_payload r)) /\
  (forall i, i ∉ map o_id (claimed p o) -> o' !! i = o !! i) /\ (forall s e, carries qs s e -> carries qs' s e).
Proof.
  intros (Hc & _ & Hd) Hk. unfold relayOnce. pose proof (relay_rows_delivered p (claimed p o) Hd qs) as Hrows.
  destruct (relay_rows _ _ _) as [rows' qs1] eqn:E. cbn in Hrows. apply relay_rows_spec in E as [HF [HM _]]. rewrite Hc. intros [= <- <-].
  pose proof (relayed_ids _ _ _ HF) as Hids. destruct (save_spec rows' o) as [S1 S2]; [rewrite Hids; by apply claimed_NoDup|].
  split_and!; [|intros i Hi; apply S2; by rewrite Hids | done]. intros r Hr. split.
  - apply (S1 (markPublished r (p_clock p (o_id r)))). rewrite Hrows. by apply (list_elem_of_fmap_2 (fun r => markPublished r (p_clock p (o_id r)))).
  - apply list_elem_of_lookup in Hr as [n Hn]. destruct (Forall2_lookup_l _ _ _ _ _ HF Hn) as (r' & Hr' & Hrel).
    rewrite Hrows in Hr'. apply list_lookup_fmap_Some in Hr' as (x & -> & Hx). rewrite Hn in Hx. injection Hx as <-.
    assert (Hp : o_publishedAt r = None).
    { apply pending_spec, (due_pending p), (claimed_elem p o r Hk). by eapply list_elem_of_lookup_2. }
    remember (markPublished r _) as x' eqn:Ex. destruct Hrel as [now Hs | error now]; [done|].
    apply (f_equal o_publishedAt) in Ex. cbn in Ex. congruence.
Qed.

Lemma keyed_pass p o qs o' qs' : keyed o -> relayOnce p o qs = (o', qs') -> keyed o'.
Proof.
  intros Hk H. destruct (relayOnce_spec _ _ _ _ _ Hk H) as [_ [->|Ho]]; [done|]. intros i r' Hr'.
  destruct (Ho i) as [E|(r & x & Hr & _ & Hx & Hrel)]; [rewrite E in Hr'; by apply Hk|]. simplify_eq.
  rewrite (proj1 (relayed_id _ _ _ Hrel)). by apply Hk.
Qed.

Lemma pending_rows_elem o r : keyed o -> r ∈ pending_rows o <-> o !! o_id r = Some r /\ is_pending r = true.
Proof.
  intros Hk. unfold pending_rows. rewrite list_elem_of_In, filter_In, <- list_elem_of_In. split; (intros [H1 H2]; split; [|done]).
  - apply list_elem_of_fmap in H1 as ([i x] & -> & Hi%elem_of_map_to_list). cbn in *. by rewrite (Hk i x Hi).
  - apply list_elem_of_fmap. exists (o_id r, r). split; [done | by apply elem_of_map_to_list].
Qed.

Lemma pending_rows_NoDup o : keyed o -> NoDup (pending_rows o).
Proof. intros Hk. apply (NoDup_fmap_1 o_id). by apply row_ids_NoDup. Qed.

(** What a smooth pass leaves waiting is what it did not claim. *)
Lemma smooth_rest p o qs o' qs' : smooth p -> keyed o -> relayOnce p o qs = (o', qs') ->
  pending_rows o ≡ₚ claimed p o ++ pending_rows o'.
Proof.
  intros Hs Hk H. pose proof (keyed_pass _ _ _ _ _ Hk H) as Hk'. destruct (smooth_pass _ _ _ _ _ Hs Hk H) as (H1 & H2 & _).
  apply NoDup_Permutation; [by apply pending_rows_NoDup | |].
  - apply NoDup_app. split_and!; [by apply (NoDup_fmap_1 o_id), claimed_NoDup | | by apply pending_rows_NoDup].
    intros r Hr [Hl Hp]%pending_rows_elem; [|done]. rewrite (proj1 (H1 r Hr)) in Hl. apply pending_spec in Hp as [Hp _]. apply (f_equal (fmap o_publishedAt)) in Hl. cbn in Hl. congruence.
  - intros r. rewrite elem_of_app, !pending_rows_elem by done. split.
    + intros [Hl Hp]. destruct (decide (o_id r ∈ map o_id (claimed p o))) as [Hi|Hi]; [left | right; by rewrite H2].
      apply list_elem_of_fmap in Hi as (x & E & Hx). destruct (claimed_elem p o x Hk Hx) as [Hl' _]. rewrite <- E, Hl in Hl'. by injection Hl' as ->.
    + intros [Hr|[Hl Hp]]; [destruct (claimed_elem p o r Hk Hr) as [? ?%due_pending]; done|]. split; [|done].
      destruct (decide (o_id r ∈ map o_id (claimed p o))) as [Hi|Hi]; [exfalso | by rewrite <- H2].
      apply list_elem_of_fmap in Hi as (x & E & Hx). rewrite E, (proj1 (H1 x Hx)) in Hl. injection Hl as <-. by apply pending_spec in Hp as [? _].
Qed.

Lemma smooth_claims p o : smooth p -> keyed o -> backed_off p o -> length (claimed p o) = Nat.min batch (length (pending_rows o)).
Proof.
  intros (_ & Hl & _) Hk Hb. unfold claimed. rewrite length_take, sort_by_perm. unfold pending_rows. do 2 f_equal. apply filter_ext_in.
  intros r Hr. apply list_elem_of_In, list_elem_of_fmap in Hr as ([i x] & -> & Hi%elem_of_map_to_list). cbn. unfold is_due. rewrite Hl, andb_true_r.
  destruct (is_pending x) eqn:E; [|done]. cbn. apply Z.leb_le. by apply (Hb i x).
Qed.

(** Smooth passes leave a published row alone, and every message where it is. *)
Lemma passes_keep ps : forall o qs o' qs', keyed o -> Forall smooth ps -> relay_passes ps o qs = (o', qs') ->
  (forall i r, o !! i = Some r -> is_pending r = false -> o' !! i = Some r) /\ (forall s e, carries qs s e -> carries qs' s e).
Proof.
  induction ps as [|p ps IH]; intros o qs o' qs' Hk Hs; [by intros [= <- <-]|]. apply Forall_cons in Hs as [Hs Hss].
  unfold relay_passes. cbn. destruct (relayOnce p o qs) as [o1 qs1] eqn:E. intros Hrun.
  destruct (IH o1 qs1 o' qs' (keyed_pass _ _ _ _ _ Hk E) Hss Hrun) as [I1 I2]. destruct (smooth_pass _ _ _ _ _ Hs Hk E) as (H1 & H2 & H3).
  split; [|auto]. intros i r Hr Hp. apply I1; [|done]. rewrite H2; [done|]. intros Hi. apply list_elem_of_fmap in Hi as (x & -> & Hx).
  destruct (claimed_elem p o x Hk Hx) as [Hl Hd%due_pending]. congruence.
Qed.

(** C31.  Once the queues answer again the relay catches up: a run of passes of
    which the batches hold the waiting rows leaves each of them published, and a
    copy with every subscriber. *)
Theorem relay_catches_up ps o qs o' qs' :
  keyed o -> Forall smooth ps -> Forall (fun p => backed_off p o) ps -> (length (pending_rows o) <= length ps * batch)%nat ->
  relay_passes ps o qs = (o', qs') ->
  forall r, r ∈ pending_rows o -> (exists now, o' !! o_id r = Some (markPublished r now)) /\
    forall s, s ∈ subscribersOf (e_type (o_payload r)) -> carries qs' s (o_payload r).
Proof.
  revert o qs. induction ps as [|p ps IH]; intros o qs Hk Hs Hb Hn.
  { cbn in Hn. intros _ r Hr. destruct (pending_rows o); [by apply not_elem_of_nil in Hr | cbn in Hn; lia]. }
  apply Forall_cons in Hs as [Hs Hss], Hb as [Hb Hbs]. unfold relay_passes. cbn. destruct (relayOnce p o qs) as [o1 qs1] eqn:E.
  pose proof (keyed_pass _ _ _ _ _ Hk E) as Hk1. pose proof (smooth_rest _ _ _ _ _ Hs Hk E) as Hperm. intros Hrun.
  pose proof (smooth_claims p o Hs Hk Hb) as Hlen. destruct (smooth_pass _ _ _ _ _ Hs Hk E) as (H1 & H2 & H3).
  assert (Hin : forall r, r ∈ pending_rows o1 -> r ∈ pending_rows o) by (intros r Hr; rewrite Hperm; apply elem_of_app; by right).
  assert (Hrest : Forall (fun p => backed_off p o1) ps).
  { eapply Forall_impl; [exact Hbs|]. intros p' Hb' i r Hr Hp. destruct (proj1 (pending_rows_elem o r Hk)) as [Hl _].
    - apply Hin, pending_rows_elem; [done|]. by rewrite (Hk1 i r Hr).
    - by apply (Hb' _ r Hl). }
  specialize (IH o1 qs1 Hk1 Hss Hrest). assert (Hn1 : (length (pending_rows o1) <= length ps * batch)%nat) by (rewrite Hperm, length_app in Hn, Hlen; cbn in Hn; lia).
  specialize (IH Hn1 Hrun).
  intros r Hr. rewrite Hperm, elem_of_app in Hr. destruct Hr as [Hr|Hr]; [|by apply IH].
  destruct (H1 r Hr) as [Hl Hc]. destruct (passes_keep ps o1 qs1 o' qs' Hk1 Hss Hrun) as [K1 K2]. split; [|auto].
  exists (p_clock p (o_id r)). by apply K1.
Qed.

(** ** The consumer *)

Section Consumer.
(** [!Number.isNaN(Date.parse(s))]; the tables of a consuming service, and its
    handlers: [None] is a throw. *)
Context (date_parses : string -> bool).
Context {S : Type} (handlers : string -> string -> list (EventEnvelope -> S -> option S)) (initial : string -> S).

Definition assertEnvelope (e : EventEnvelope) : bool :=
  nonEmpty (e_id e) && nonEmpty (e_type e) && isInteger (e_version e) &&
  nonEmpty (e_occurredAt e) && date_parses (e_occurredAt e) && nonEmpty (e_tenantId e) && nonEmpty (e_traceId e) &&
  match e_actor e with None => true | Some a => nonEmpty a.1 && nonEmpty a.2 end.

Record Consumer := { c_inbox : gset string; c_state : S }.

Inductive ConsumeResult := processed | duplicate.

Fixpoint run_handlers (hs : list (EventEnvelope -> S -> option S)) (e : EventEnvelope) (s : S) : option S :=
  match hs with
  | [] => Some s
  | h :: hs => match h e s with Some s' => run_handlers hs e s' | None => None end
  end.

(** [handleBody]; [None] when it throws: nothing is written then. *)
Definition handleBody (service : string) (c : Consumer) (body : option EventEnvelope) : option (ConsumeResult * Consumer) :=
  match body with
  | None => None
  | Some e =>
      if negb (assertEnvelope e) then None
      else
        match handlers service (e_type e) with
        | [] => Some (processed, c)
        | hs =>
            if decide (e_id e ∈ c_inbox c) then Some (duplicate, c)
            else
              match run_handlers hs e (c_state c) with
              | Some s => Some (processed, {| c_inbox := {[e_id e]} ∪ c_inbox c; c_state := s |})
              | None => None
              end
        end
  end.

Definition remove_nth {A} (i : nat) (l : list A) : list A := take i l ++ drop (i + 1) l.

(** [process]: the message is deleted only after [handleBody] returned; the delete
    itself may fail. *)
Definition process (service : string) (c : Consumer) (i : nat) (m : Message) (q : Queue) (deleted : bool) : Consumer * Queue :=
  let received := {| m_body := m_body m; m_receives := m_receives m + 1 |} in
  let kept := {| q_messages := <[i := received]> (q_messages q); q_dead := q_dead q |} in
  match handleBody service c (m_body m) with
  | None => (c, kept)
  | Some (_, c') => (c', if deleted then {| q_messages := remove_nth i (q_messages q); q_dead := q_dead q |} else kept)
  end.

(** ** The system *)

Context (maxReceives retentionDays : Z).

(** The outbox of a producer, all queues, the consumers that have started; and two
    histories, which the code does not keep: every event that was ever added, in order,
    and every message a queue dropped because its retention period was over. *)
Record World := {
  w_outbox : outbox; w_queues : queues; w_consumers : gmap string Consumer; w_added : list EventEnvelope;
  w_expired : list (string * option EventEnvelope) }.

Definition consumer_of (w : World) (service : string) : Consumer :=
  default {| c_inbox := ∅; c_state := initial service |} (w_consumers w !! service).

Definition empty_world : World := {| w_outbox := ∅; w_queues := ∅; w_consumers := ∅; w_added := []; w_expired := [] |}.

Definition with_queue (w : World) (service : string) (q : Queue) : World :=
  {| w_outbox := w_outbox w; w_queues := <[service := q]> (w_queues w); w_consumers := w_consumers w; w_added := w_added w; w_expired := w_expired w |}.

(** A message is gone. *)
Definition expire (w : World) (service : string) (m : Message) (q : Queue) : World :=
  {| w_outbox := w_outbox w; w_queues := <[service := q]> (w_queues w); w_consumers := w_consumers w; w_added := w_added w;
     w_expired := w_expired w ++ [(service, m_body m)] |}.

Inductive step (w : World) : World -> Prop :=
| step_add state uuid trace at_ now tenant type version payload e o : uuid ∉ map e_id (w_added w) ->
    add state uuid trace at_ now tenant type version payload (w_outbox w) = Some (e, o) ->
    step w {| w_outbox := o; w_queues := w_queues w; w_consumers := w_consumers w; w_added := w_added w ++ [e]; w_expired := w_expired w |}
| step_relay p o qs : relayOnce p (w_outbox w) (w_queues w) = (o, qs) ->
    step w {| w_outbox := o; w_queues := qs; w_consumers := w_consumers w; w_added := w_added w; w_expired := w_expired w |}
| step_cleanup now :
    step w {| w_outbox := cleanup now retentionDays (w_outbox w); w_queues := w_queues w; w_consumers := w_consumers w; w_added := w_added w; w_expired := w_expired w |}
| step_poll service i m deleted c q : q_messages (ensureQueue (w_queues w) service) !! i = Some m ->
    process service (consumer_of w service) i m (ensureQueue (w_queues w) service) deleted = (c, q) ->
    step w {| w_outbox := w_outbox w; w_queues := <[service := q]> (w_queues w);
              w_consumers := <[service := c]> (w_consumers w); w_added := w_added w; w_expired := w_expired w |}
(** The environment: a message is moved to the dead-letter queue or back, is there
    a second time, was never one of ours, or has been in a queue or dead-letter queue for
    the whole retention period (four days unless configured, fourteen for a dead letter)
    and is dropped. *)
| step_dead service i m : let q := ensureQueue (w_queues w) service in
    q_messages q !! i = Some m -> maxReceives <= m_receives m ->
    step w (with_queue w service {| q_messages := remove_nth i (q_messages q); q_dead := q_dead q ++ [m] |})
| step_redrive service i m : let q := ensureQueue (w_queues w) service in
    q_dead q !! i = Some m ->
    step w (with_queue w service {| q_messages := q_messages q ++ [{| m_body := m_body m; m_receives := 0 |}]; q_dead := remove_nth i (q_dead q) |})
| step_twice service i m : let q := ensureQueue (w_queues w) service in
    q_messages q !! i = Some m -> step w (with_queue w service (push m q))
| step_foreign service n : let q := ensureQueue (w_queues w) service in
    step w (with_queue w service (push {| m_body := None; m_receives := n |} q))
| step_expire service i m : let q := ensureQueue (w_queues w) service in
    q_messages q !! i = Some m ->
    step w (expire w service m {| q_messages := remove_nth i (q_messages q); q_dead := q_dead q |})
| step_expire_dead service i m : let q := ensureQueue (w_queues w) service in
    q_dead q !! i = Some m ->
    step w (expire w service m {| q_messages := q_messages q; q_dead := remove_nth i (q_dead q) |}).

Definition reaches (w : World) : Prop := rtc step empty_world w.

(** ** Properties of delivery *)

(** ** Consumers *)

(** The reference: every handler of the service once per event, in order. *)
Fixpoint run_events (service : string) (es : list EventEnvelope) (s : S) : option S :=
  match es with
  | [] => Some s
  | e :: es => match run_handlers (handlers service (e_type e)) e s with Some s' => run_events service es s' | None => None end
  end.

Lemma run_events_snoc service es e s : run_events service (es ++ [e]) s =
  match run_events service es s with Some s' => run_handlers (handlers service (e_type e)) e s' | None => None end.
Proof.
  revert s. induction es as [|x es IH]; intros s; cbn.
  - by destruct (run_handlers _ e s).
  - destruct (run_handlers _ x s); [apply IH | done].
Qed.

(** A consumer's tables are the handlers run on distinct events that were added,
    and the inbox is their ids. *)
Definition applied (added : list EventEnvelope) (service : string) (c : Consumer) (es : list EventEnvelope) : Prop :=
  NoDup (map e_id es) /\ (forall e, e ∈ es -> e ∈ added) /\ run_events service es (initial service) = Some (c_state c) /\
  (forall i, i ∈ c_inbox c <-> i ∈ map e_id es).

Lemma handle_spec service c e r c' added es : applied added service c es -> e ∈ added -> handleBody service c (Some e) = Some (r, c') ->
  (exists es', applied added service c' es') /\ (forall i, i ∈ c_inbox c -> i ∈ c_inbox c') /\
  (e_id e ∈ c_inbox c' \/ handlers service (e_type e) = []).
Proof.
  intros Hap He. unfold handleBody. destruct (negb _); [done|]. destruct (handlers service (e_type e)) as [|h hs] eqn:Eh.
  { intros [= <- <-]. split; [by exists es|]. split; [done | by right]. }
  case_decide as Hin.
  { intros [= <- <-]. split; [by exists es|]. split; [done | by left]. }
  destruct (run_handlers _ e _) as [s|] eqn:Er; [|done]. intros [= <- <-]. destruct Hap as (H1 & H2 & H3 & H4).
  split; [|split; [intros i Hi; cbn; set_solver | left; cbn; set_solver]]. exists (es ++ [e]). split_and!.
  - rewrite map_app. apply NoDup_app. split_and!; [done | | apply NoDup_singleton]. intros i Hi ->%list_elem_of_singleton. by apply Hin, H4.
  - intros x [Hx | ->%list_elem_of_singleton]%elem_of_app; auto.
  - rewrite run_events_snoc, H3, Eh. done.
  - intros i. cbn. rewrite map_app, elem_of_union, elem_of_app, elem_of_singleton. cbn. rewrite list_elem_of_singleton, H4. tauto.
Qed.

(** ** The invariant *)

(** The service has the event, will never want it, or its queue dropped it. *)
Definition has (qs : queues) (x : list (string * option EventEnvelope)) (c : Consumer) (service : string) (e : EventEnvelope) : Prop :=
  e_id e ∈ c_inbox c \/ carries qs service e \/ handlers service (e_type e) = [] \/ (service, Some e) ∈ x.

Definition waiting (o : outbox) (e : EventEnvelope) : Prop := exists r, o !! e_id e = Some r /\ o_payload r = e /\ o_publishedAt r = None.

Definition delivered (w : World) (e : EventEnvelope) : Prop :=
  forall s, s ∈ subscribersOf (e_type e) -> has (w_queues w) (w_expired w) (consumer_of w s) s e.

Record bus_ok (w : World) : Prop := {
  bus_ids : NoDup (map e_id (w_added w));
  bus_rows : map_Forall (fun i r => o_id r = i /\ e_id (o_payload r) = i /\ o_payload r ∈ w_added w /\ row_ok r) (w_outbox w);
  bus_bodies : forall s e, carries (w_queues w) s e -> e ∈ w_added w;
  bus_delivery : forall e, e ∈ w_added w -> waiting (w_outbox w) e \/ delivered w e;
  bus_applied : forall s, exists es, applied (w_added w) s (consumer_of w s) es }.

Lemma bus_keyed w : bus_ok w -> keyed (w_outbox w).
Proof. intros H i r Hr. by apply (bus_rows _ H i r). Qed.

(** An event and its row: the id of an added event is its own. *)
Lemma same_event w e e' : bus_ok w -> e ∈ w_added w -> e' ∈ w_added w -> e_id e = e_id e' -> e = e'.
Proof. intros Hok. apply NoDup_map_inj, Hok. Qed.

Lemma add_spec state uuid trace at_ now tenant type version payload o e o' :
  add state uuid trace at_ now tenant type version payload o = Some (e, o') ->
  e_id e = uuid /\ e_type e = type /\ o !! e_id e = None /\ o' = <[e_id e := fresh_row now e]> o.
Proof.
  unfold add. intros H. apply bind_Some in H as (x & Hx & H). destruct (o !! e_id x) eqn:El; [done|]. injection H as <- <-.
  assert (Hc : createEvent state uuid trace at_ type version payload = Some x -> e_id x = uuid /\ e_type x = type).
  { unfold createEvent. intros Hc. apply bind_Some in Hc as (t' & _ & Hc). destruct (nonEmpty t'); [by injection Hc as <- | done]. }
  split_and!; try done; (destruct tenant as [t'|]; [destruct (nonEmpty t')|]; [by injection Hx as <- | by apply Hc..]).
Qed.

(** The actor a caller of [enqueue] passes does not reach the event: outside a
    request the event has none. *)
Lemma enqueue_drops_the_actor uuid trace at_ now type version tenantId aggregateId actor payload o e o' :
  enqueue None uuid trace at_ now type version tenantId aggregateId actor payload o = Some (e, o') -> e_actor e = None.
Proof.
  unfold enqueue, add. destruct (nonEmpty tenantId); cbn; [|done]. by destruct (o !! uuid); [|intros [= <- _]].
Qed.

Lemma ok_add w now e : bus_ok w -> e_id e ∉ map e_id (w_added w) -> w_outbox w !! e_id e = None ->
  bus_ok {| w_outbox := <[e_id e := fresh_row now e]> (w_outbox w); w_queues := w_queues w; w_consumers := w_consumers w; w_added := w_added w ++ [e]; w_expired := w_expired w |}.
Proof.
  intros [B1 B2 B3 B4 B5] Hn El. split; cbn.
  - rewrite map_app. apply NoDup_app. split_and!; [done | | apply NoDup_singleton]. by intros i Hi ->%list_elem_of_singleton.
  - apply map_Forall_insert_2; cbn.
    + split_and!; [done..| set_solver | split; cbn; (done || lia)].
    + eapply map_Forall_impl; [exact B2|]. intros i r (H1 & H2 & H3 & H4). split_and!; try done. set_solver.
  - intros s e' H%B3. set_solver.
  - intros e' [He' | ->%list_elem_of_singleton]%elem_of_app.
    + destruct (B4 e' He') as [(r & Hr & Hx)|Hd]; [left | by right]. exists r. rewrite lookup_insert_ne; [done|].
      intros E. rewrite E in El. by rewrite El in Hr.
    + left. eexists. rewrite lookup_insert_eq. by split_and!.
  - intros s. destruct (B5 s) as (es & H1 & H2 & H3 & H4). exists es. split_and!; try done. set_solver.
Qed.

Lemma ok_relay w p o qs : bus_ok w -> relayOnce p (w_outbox w) (w_queues w) = (o, qs) ->
  bus_ok {| w_outbox := o; w_queues := qs; w_consumers := w_consumers w; w_added := w_added w; w_expired := w_expired w |}.
Proof.
  intros Hok H. pose proof (bus_keyed _ Hok) as Hk. destruct (relayOnce_spec _ _ _ _ _ Hk H) as [[M1 M2] Ho]. destruct Hok as [B1 B2 B3 B4 B5].
  assert (Hdel : forall e, delivered w e -> delivered {| w_outbox := o; w_queues := qs; w_consumers := w_consumers w; w_added := w_added w; w_expired := w_expired w |} e).
  { intros e Hd s Hs. destruct (Hd s Hs) as [?|[?|?]]; [by left | right; left; cbn; by apply M1 | by right; right]. }
  split; cbn; [done | | | | done].
  - destruct Ho as [->|Ho]; [done|]. intros i r' Hr'. destruct (Ho i) as [E|(r & x & Hr & _ & Hx & Hrel)]; [rewrite E in Hr'; by apply B2|].
    simplify_eq. destruct (B2 i r Hr) as (H1 & H2 & H3 & H4). destruct (relayed_id _ _ _ Hrel) as [-> ->].
    split_and!; try done. by eapply relayed_ok.
  - intros s e [?|Hin]%M2; [by eapply B3|]. apply list_elem_of_fmap in Hin as (r & -> & Hr). apply claimed_elem in Hr as [Hr _]; [|done].
    by apply (B2 _ _ Hr).
  - intros e He. destruct (B4 e He) as [(r & Hr & E1 & E2)|Hd]; [|right; by apply Hdel].
    destruct Ho as [->|Ho]; [left; by exists r|]. destruct (Ho (e_id e)) as [E|(x & r' & Hx & _ & Hr' & Hrel)]; [left; exists r; by rewrite E|].
    simplify_eq. destruct Hrel as [now Hs | error now]; [right | left; by eexists]. intros s Hsub. right. left. by apply Hs.
Qed.

Lemma ok_cleanup w now : bus_ok w ->
  bus_ok {| w_outbox := cleanup now retentionDays (w_outbox w); w_queues := w_queues w; w_consumers := w_consumers w; w_added := w_added w; w_expired := w_expired w |}.
Proof.
  intros [B1 B2 B3 B4 B5]. split; cbn; try done.
  - intros i r Hr. apply map_lookup_filter_Some in Hr as [Hr _]. by apply B2.
  - intros e He. destruct (B4 e He) as [(r & Hr & E1 & E2)|Hd]; [left | by right]. exists r. split; [|done].
    apply map_lookup_filter_Some. split; [done|]. unfold expired_row. cbn. by rewrite E2.
Qed.

(** Messages that leave and enter a queue, without one of ours being lost. *)
Lemma ok_queue w s q : bus_ok w ->
  (forall e, Some e ∈ map m_body (all_messages q) <-> carries (w_queues w) s e) -> bus_ok (with_queue w s q).
Proof.
  intros [B1 B2 B3 B4 B5] Hq. assert (Hc : forall s' e, carries (<[s := q]> (w_queues w)) s' e <-> carries (w_queues w) s' e).
  { intros s' e. rewrite carries_insert. case_decide as E; [|done]. subst s'. apply Hq. }
  split; cbn; try done.
  - intros s' e. rewrite Hc. apply B3.
  - intros e He. destruct (B4 e He) as [?|Hd]; [by left | right]. intros s' Hs'. destruct (Hd s' Hs') as [?|[?|?]];
      [by left | right; left; cbn; by rewrite Hc | by right; right].
Qed.

Lemma remove_nth_split {A} (i : nat) (l : list A) x : l !! i = Some x -> l ≡ₚ x :: remove_nth i l.
Proof.
  intros H. unfold remove_nth. rewrite <- (take_drop_middle l i x H) at 1. replace (Datatypes.S i) with (i + 1)%nat by lia.
  by rewrite Permutation_middle.
Qed.

Lemma consumer_insert w s c s' : default {| c_inbox := ∅; c_state := initial s' |} (<[s := c]> (w_consumers w) !! s') =
  if decide (s = s') then c else consumer_of w s'.
Proof. unfold consumer_of. case_decide; [subst; by rewrite lookup_insert_eq | by rewrite lookup_insert_ne]. Qed.

Lemma kept_bodies (q : Queue) i m r : q_messages q !! i = Some m ->
  map m_body (all_messages {| q_messages := <[i := {| m_body := m_body m; m_receives := r |}]> (q_messages q); q_dead := q_dead q |}) =
  map m_body (all_messages q).
Proof.
  intros Hm. unfold all_messages. cbn. rewrite !map_app. f_equal. change (m_body <$> <[i := {| m_body := m_body m; m_receives := r |}]> (q_messages q) = m_body <$> q_messages q).
  rewrite list_fmap_insert, list_insert_id; [done|]. by rewrite list_lookup_fmap, Hm.
Qed.

Lemma removed_bodies (q : Queue) i m e : q_messages q !! i = Some m ->
  Some e ∈ map m_body (all_messages q) <-> m_body m = Some e \/ Some e ∈ map m_body (all_messages {| q_messages := remove_nth i (q_messages q); q_dead := q_dead q |}).
Proof.
  intros Hm. unfold all_messages. cbn. rewrite (remove_nth_split i _ m Hm) at 1. cbn. rewrite elem_of_cons.
  split; (intros [E|E]; [left; by rewrite E | by right]).
Qed.

Lemma push_bodies m (q : Queue) e : Some e ∈ map m_body (all_messages (push m q)) <-> m_body m = Some e \/ Some e ∈ map m_body (all_messages q).
Proof.
  assert (H : all_messages (push m q) ≡ₚ m :: all_messages q).
  { unfold all_messages, push. cbn. rewrite <- app_assoc. symmetry. apply Permutation_middle. }
  rewrite H. cbn. rewrite elem_of_cons. split; (intros [E|E]; [left; by rewrite E | by right]).
Qed.

Lemma ok_poll w s i m deleted c q : bus_ok w -> q_messages (ensureQueue (w_queues w) s) !! i = Some m ->
  process s (consumer_of w s) i m (ensureQueue (w_queues w) s) deleted = (c, q) ->
  bus_ok {| w_outbox := w_outbox w; w_queues := <[s := q]> (w_queues w); w_consumers := <[s := c]> (w_consumers w); w_added := w_added w; w_expired := w_expired w |}.
Proof.
  intros [B1 B2 B3 B4 B5] Hm. unfold process. set (q0 := ensureQueue (w_queues w) s) in *. set (c0 := consumer_of w s) in *.
  pose proof (kept_bodies q0 i m (m_receives m + 1) Hm) as Hkept. pose proof (removed_bodies q0 i m) as Hrem.
  set (kept := {| q_messages := <[i:=_]> _ |}) in *. destruct (B5 s) as [es Hes]. fold c0 in Hes. intros H.
  assert (Hx : (exists es, applied (w_added w) s c es) /\ (forall i, i ∈ c_inbox c0 -> i ∈ c_inbox c) /\
    (forall e, Some e ∈ map m_body (all_messages q) -> Some e ∈ map m_body (all_messages q0)) /\
    (forall e, e ∈ w_added w -> Some e ∈ map m_body (all_messages q0) ->
       Some e ∈ map m_body (all_messages q) \/ e_id e ∈ c_inbox c \/ handlers s (e_type e) = [])).
  { destruct (m_body m) as [e|] eqn:Eb; [|injection H as <- <-; split_and!; [by exists es | done | intros e; by rewrite Hkept | intros e _; rewrite Hkept; auto]].
    destruct (handleBody s c0 (Some e)) as [[r c']|] eqn:Eh; [|injection H as <- <-; split_and!; [by exists es | done | intros x; by rewrite Hkept | intros x _; rewrite Hkept; auto]].
    injection H as <- <-. assert (He : e ∈ w_added w).
    { apply (B3 s). apply Hrem; [done | by left]. }
    destruct (handle_spec _ _ _ _ _ _ _ Hes He Eh) as (Q1 & Q2 & Q3). split_and!; [done | done | |].
    - intros x Hx. destruct deleted; [apply Hrem; auto | by rewrite Hkept in Hx].
    - intros x _ Hx. destruct deleted; [|left; by rewrite Hkept]. apply Hrem in Hx as [[= ->]|Hx]; [by right | by left | done]. }
  clear H Hkept Hrem. destruct Hx as (X1 & X2 & X3 & X4). split; cbn; [done | done | | |].
  - intros s' e. rewrite carries_insert. case_decide; [subst s'; intros Hc%X3; by apply (B3 s) | apply B3].
  - intros e He. destruct (B4 e He) as [?|Hd]; [by left | right]. intros s' Hs'. unfold consumer_of. cbn. rewrite consumer_insert.
    destruct (Hd s' Hs') as [Hi|[Hc|Hh]]; [left; case_decide; [subst; auto | done] | | by right; right].
    unfold has. rewrite carries_insert. case_decide; [subst s'|by right; left]. destruct (X4 e He Hc) as [?|[?|?]]; auto.
  - intros s'. unfold consumer_of. cbn. rewrite consumer_insert. case_decide; [by subst | apply B5].
Qed.

Lemma ok_expire w s m q : bus_ok w -> (forall e, carries (w_queues w) s e <-> m_body m = Some e \/ Some e ∈ map m_body (all_messages q)) -> bus_ok (expire w s m q).
Proof.
  intros [B1 B2 B3 B4 B5] Hq. split; cbn; try done.
  - intros s' e. rewrite carries_insert. case_decide; [subst s'; intros Hc; apply (B3 s), Hq; by right | apply B3].
  - intros e He. destruct (B4 e He) as [?|Hd]; [by left | right]. intros s' Hs'. destruct (Hd s' Hs') as [?|[Hc|[?|Hx]]]; [by left | | by right; right; left |].
    + unfold has. cbn. rewrite carries_insert. case_decide; [subst s'|by right; left]. apply Hq in Hc as [E|?]; [|by right; left].
      right. right. right. rewrite E. apply elem_of_app. right. by left.
    + right. right. right. cbn. apply elem_of_app. by left.
Qed.

Lemma reaches_ok w : reaches w -> bus_ok w.
Proof.
  unfold reaches. intros H. cut (forall w0, bus_ok w0 -> rtc step w0 w -> bus_ok w).
  { intros Hx. apply (Hx empty_world); [|done]. split; cbn; [constructor | apply map_Forall_empty | | |].
    - intros s e. unfold carries, ensureQueue. cbn. rewrite lookup_empty. cbn. by intros ?%not_elem_of_nil.
    - by intros e ?%not_elem_of_nil.
    - intros s. exists []. unfold consumer_of. cbn. rewrite lookup_empty. cbn. split_and!; [constructor | by intros e ?%not_elem_of_nil | done |].
      intros i. cbn. set_solver. }
  clear H. intros w0 H0. induction 1 as [|w0 w1 w2 Hs _ IH]; [done|]. apply IH. clear IH w2.
  destruct Hs as [st u tr at_ now tn ty ve pl e o Hn Ha | p o qs Hr | now | s i m dl c q Hm Hp | s i m q Hm Hx | s i m q Hm | s i m q Hm | s n q | s i m q Hm | s i m q Hm].
  - apply add_spec in Ha as (<- & _ & Hl & ->). by apply ok_add.
  - by eapply ok_relay.
  - by apply ok_cleanup.
  - by eapply ok_poll.
  - apply ok_queue; [done|]. intros e. unfold carries. fold q. assert (Hq : remove_nth i (q_messages q) ++ q_dead q ++ [m] ≡ₚ all_messages q).
    { unfold all_messages. rewrite (remove_nth_split i _ m Hm) at 2. rewrite app_assoc. symmetry. apply Permutation_cons_append. }
    unfold all_messages at 1. cbn. by rewrite Hq.
  - apply ok_queue; [done|]. intros e. unfold carries. fold q.
    assert (Hq : map m_body ((q_messages q ++ [{| m_body := m_body m; m_receives := 0 |}]) ++ remove_nth i (q_dead q)) ≡ₚ map m_body (all_messages q)).
    { unfold all_messages. rewrite (remove_nth_split i (q_dead q) m Hm) at 2. rewrite <- app_assoc, !map_app. done. }
    unfold all_messages at 1. cbn [q_messages q_dead]. by rewrite Hq.
  - apply ok_queue; [done|]. intros e. unfold carries. fold q. rewrite push_bodies. split; [intros [E|?]; [|done] | by right].
    rewrite <- E. apply (list_elem_of_fmap_2 m_body), elem_of_app. left. by eapply list_elem_of_lookup_2.
  - apply ok_queue; [done|]. intros e. unfold carries. fold q. rewrite push_bodies. cbn. split; [by intros [?|?] | by right].
  - apply ok_expire; [done|]. intros e. unfold carries. fold q. by apply removed_bodies.
  - apply ok_expire; [done|]. intros e. unfold carries. fold q. unfold all_messages. cbn. rewrite (remove_nth_split i (q_dead q) m Hm) at 1.
    rewrite <- Permutation_middle. cbn. rewrite elem_of_cons. split; (intros [E|E]; [left; by rewrite E | by right]).
Qed.

(** ** Delivery *)

(** C5.  Exactly once, as the consumer sees it: however often an event is sent,
    delivered, handled without its message being deleted, or rolled back, the
    tables of a service are what its handlers make of some added events, each
    taken once, and its inbox is their ids. *)
Theorem events_applied_once w s : reaches w ->
  exists es, NoDup (map e_id es) /\ (forall e, e ∈ es -> e ∈ w_added w) /\
    run_events s es (initial s) = Some (c_state (consumer_of w s)) /\
    (forall i, i ∈ c_inbox (consumer_of w s) <-> i ∈ map e_id es).
Proof. intros H. apply (bus_applied _ (reaches_ok _ H)). Qed.

(** C6.  An event is lost only when a queue keeps it longer than its retention period.
    An event whose outbox row was committed is still in the outbox, waiting with attempts
    left or parked with none, or for every subscriber it has been handled, is in its queue
    or dead-letter queue, is of a type the service has no handler for, or was dropped from
    its queue or dead-letter queue at the end of the retention period. *)
Theorem no_event_is_lost w e : reaches w -> e ∈ w_added w ->
  (exists r, w_outbox w !! e_id e = Some r /\ o_payload r = e /\ o_publishedAt r = None /\
     match o_failedAt r with Some _ => maxAttempts <= o_attempts r | None => 0 <= o_attempts r < Z.max 1 maxAttempts end) \/
  (forall s, s ∈ subscribersOf (e_type e) ->
     e_id e ∈ c_inbox (consumer_of w s) \/ carries (w_queues w) s e \/ handlers s (e_type e) = [] \/ (s, Some e) ∈ w_expired w).
Proof.
  intros H He. pose proof (reaches_ok _ H) as Hok. destruct (bus_delivery _ Hok e He) as [(r & Hr & E1 & E2)|Hd]; [left | by right].
  exists r. split_and!; try done. destruct (bus_rows _ Hok _ _ Hr) as (_ & _ & _ & [R1 R2 R3]).
  destruct (o_failedAt r) eqn:Ef; [by apply R3|]. auto.
Qed.
End Consumer.
End Relay.
End Bus.

(** ** The topology *)

(** Every event type a service subscribes to is listed once, and has exactly
    one producer, which is another service. *)
Theorem topology_well_formed service types type : (service, types) ∈ TOPOLOGY_subscriptions -> type ∈ types ->
  NoDup types /\ exists p, producerOf type = Some p /\ p <> service /\
    forall p' types', (p', types') ∈ TOPOLOGY_producers -> type ∈ types' -> p' = p.
Proof.
  set (ok := fun (e : string * list string) => bool_decide (NoDup e.2) &&
    forallb (fun ty => match List.filter (lists_type ty) TOPOLOGY_producers with
                       | [p] => bool_decide (producerOf ty = Some p.1) && negb (String.eqb p.1 e.1) | _ => false end) e.2).
  assert (H : forallb ok TOPOLOGY_subscriptions = true) by (vm_compute; reflexivity). intros Hs Ht.
  apply list_elem_of_In in Hs, Ht. apply (proj1 (forallb_forall ok _) H) in Hs. apply andb_true_iff in Hs as [H1 H2]. cbn [fst snd] in H1, H2.
  split; [by apply bool_decide_eq_true in H1|]. apply (proj1 (forallb_forall _ _) H2) in Ht. cbv beta in Ht.
  destruct (List.filter (lists_type type) TOPOLOGY_producers) as [|p [|]] eqn:E; [discriminate Ht | | discriminate Ht]. apply andb_true_iff in Ht as [Hp Hne].
  exists p.1. split_and!; [by apply bool_decide_eq_true in Hp | by apply negb_true_iff, String.eqb_neq in Hne |].
  intros p' types' Hp' Ht'. assert (Hin : In (p', types') (List.filter (lists_type type) TOPOLOGY_producers)).
  { apply filter_In. split; [by apply list_elem_of_In|]. apply existsb_exists. exists type. split; [by apply list_elem_of_In | apply String.eqb_refl]. }
  rewrite E in Hin. destruct Hin as [Hin|[]]. by rewrite Hin.
Qed.

Lemma topology_well_formed_witness : ("sales.order.completed" ∈ ["sales.order.completed"]) /\
  exists p, producerOf "sales.order.completed" = Some p /\ p <> "finance".
Proof.
  split; [left|]. destruct (topology_well_formed "finance" (default [] (snd <$> List.find (fun e => String.eqb e.1 "finance") TOPOLOGY_subscriptions)) "sales.order.completed") as (_ & p & H1 & H2 & _);
    [apply list_elem_of_In; do 5 right; left; reflexivity | apply list_elem_of_In; do 2 right; left; reflexivity |]. by exists p.
Defined.

(** * A run *)

(** A service that counts what it handles, and a producer's plan change that
    reaches catalog twice: the first message is handled but not deleted. *)
Module Sample.
Definition handlers (service type : string) : list (EventEnvelope (P := unit) -> nat -> option nat) :=
  if String.eqb service "catalog" then [fun _ n => Some (n + 1)%nat] else [].
Definition initial (service : string) : nat := 0%nat.
Definition parses (s : string) : bool := true.

Definition event : EventEnvelope (P := unit) :=
  {| e_id := "e1"; e_type := "platform.plan.changed"; e_version := int 1; e_occurredAt := "2026-01-01T00:00:00.000Z"; e_tenantId := "t1";
     e_actor := None; e_traceId := "trace"; e_payload := tt |}.
Definition pass (now : Z) (out : string -> SendOutcome) : Pass :=
  {| p_now := now; p_clock := fun _ => now; p_locked := fun _ => false; p_send := fun _ => out; p_commit := true |}.

Definition after_add : World (P := unit) (S := nat) := {| w_outbox := {["e1" := fresh_row 0 event]}; w_queues := ∅; w_consumers := ∅; w_added := [event]; w_expired := [] |}.
Definition relayed_world (p : Pass) (w : World) : World (P := unit) (S := nat) :=
  let st := relayOnce sqs_direct 10 3 p (w_outbox w) (w_queues w) in
  {| w_outbox := st.1; w_queues := st.2; w_consumers := w_consumers w; w_added := w_added w; w_expired := w_expired w |}.
Definition polled_world (i : nat) (m : Message) (deleted : bool) (w : World) : World (P := unit) (S := nat) :=
  let st := process parses handlers "catalog" (consumer_of initial w "catalog") i m (ensureQueue (w_queues w) "catalog") deleted in
  {| w_outbox := w_outbox w; w_queues := <["catalog" := st.2]> (w_queues w); w_consumers := <["catalog" := st.1]> (w_consumers w);
     w_added := w_added w; w_expired := w_expired w |}.

(** The first send is lost on the way back, the second arrives: two copies. *)
Definition relayed_twice : World :=
  relayed_world (pass 100000 (fun _ => Delivered)) (relayed_world (pass 0 (fun _ => Unanswered "timeout")) after_add).
Definition polled_twice : World :=
  polled_world 1 (sent event) true (polled_world 0 (sent event) false relayed_twice).

Lemma relayed_reaches p w : reaches sqs_direct 10 3 parses handlers initial 3 7 w ->
  reaches sqs_direct 10 3 parses handlers initial 3 7 (relayed_world p w).
Proof. intros H. eapply rtc_r; [exact H|]. eapply (step_relay _ _ _ _ _ _ _ _ w p). apply surjective_pairing. Qed.

Lemma polled_reaches i m deleted w : q_messages (ensureQueue (w_queues w) "catalog") !! i = Some m ->
  reaches sqs_direct 10 3 parses handlers initial 3 7 w -> reaches sqs_direct 10 3 parses handlers initial 3 7 (polled_world i m deleted w).
Proof. intros Hm H. eapply rtc_r; [exact H|]. eapply (step_poll _ _ _ _ _ _ _ _ w "catalog" i m deleted); [exact Hm | apply surjective_pairing]. Qed.

Lemma run_reaches : reaches sqs_direct 10 3 parses handlers initial 3 7 polled_twice.
Proof.
  apply polled_reaches; [vm_compute; reflexivity|]. apply polled_reaches; [vm_compute; reflexivity|]. do 2 apply relayed_reaches.
  eapply rtc_r; [apply rtc_refl|].
  eapply (step_add _ _ _ _ _ _ _ _ empty_world None "e1" "trace" "2026-01-01T00:00:00.000Z" 0 (Some "t1") "platform.plan.changed" (int 1) tt event).
  - apply not_elem_of_nil.
  - vm_compute. reflexivity.
Qed.
End Sample.

(** Two messages, two deliveries, one run of the handler. *)
Lemma events_applied_once_witness :
  length (map m_body (q_messages (ensureQueue (w_queues Sample.relayed_twice) "catalog"))) = 2%nat /\
  c_state (consumer_of Sample.initial Sample.polled_twice "catalog") = 1%nat /\
  exists es, run_events Sample.handlers "catalog" es 0%nat = Some 1%nat /\ NoDup (map e_id es).
Proof.
  split; [vm_compute; reflexivity|]. split; [vm_compute; reflexivity|].
  destruct (events_applied_once _ _ _ _ _ _ _ _ Sample.polled_twice "catalog" Sample.run_reaches) as (es & H1 & _ & H3 & _).
  exists es. split; [exact H3 | exact H1].
Defined.

Lemma no_event_is_lost_witness : Sample.event ∈ w_added Sample.polled_twice /\
  ((exists r, w_outbox Sample.polled_twice !! "e1" = Some r /\ o_publishedAt r = None) \/
   e_id Sample.event ∈ c_inbox (consumer_of Sample.initial Sample.polled_twice "catalog") \/
   carries (w_queues Sample.polled_twice) "catalog" Sample.event).
Proof.
  split; [left|]. destruct (no_event_is_lost _ _ _ _ _ _ _ _ Sample.polled_twice Sample.event Sample.run_reaches) as [(r & H1 & _ & H2 & _)|H];
    [left | left; by exists r |].
  right. destruct (H "catalog") as [Hi|[Hc|[Hh|Hx]]]; [left | by left | by right | discriminate Hh | by apply not_elem_of_nil in Hx].
Defined.

(** The three attempts a row has. *)
Lemma relay_terminates_witness : exists o', nsteps (busy_pass (P := unit) sqs_direct 10 3) 3 {["e1" := fresh_row 0 Sample.event]} o' /\
  Z.of_nat 3 <= Z.max 1 3 * Z.of_nat (size ({["e1" := fresh_row 0 Sample.event]} : gmap string (OutboxRow (P := unit)))).
Proof.
  set (o := {["e1" := fresh_row 0 Sample.event]} : gmap string (OutboxRow (P := unit))).
  set (run := fun now o => (relayOnce sqs_direct 10 3 (Sample.pass now (fun _ => Refused "down")) o ∅).1 : gmap string (OutboxRow (P := unit))).
  assert (Hs : forall now o, claimed 10 (Sample.pass now (fun _ => Refused "down")) o <> [] -> busy_pass sqs_direct 10 3 o (run now o)).
  { intros now o' Hne. exists (Sample.pass now (fun _ => Refused "down")), ∅, (relayOnce sqs_direct 10 3 (Sample.pass now (fun _ => Refused "down")) o' ∅).2.
    split; [reflexivity|]. split; [exact Hne | apply surjective_pairing]. }
  assert (Hn : nsteps (busy_pass (P := unit) sqs_direct 10 3) 3 o (run 1000000 (run 500000 (run 0 o)))).
  { apply (nsteps_l _ 2 _ (run 0 o)); [apply Hs; vm_compute; discriminate|].
    apply (nsteps_l _ 1 _ (run 500000 (run 0 o))); [apply Hs; vm_compute; discriminate|].
    apply nsteps_once, Hs. vm_compute. discriminate. }
  exists (run 1000000 (run 500000 (run 0 o))). split; [exact Hn|].
  apply (relay_terminates sqs_direct 10 3 3 o (run 1000000 (run 500000 (run 0 o)))); [lia | |exact Hn].
  apply map_Forall_singleton. split; [reflexivity | split; cbn; (done || lia)].
Defined.

Lemma relay_catches_up_witness : exists now,
  (relay_passes sqs_direct 1 3 [Sample.pass 5 (fun _ => Delivered)] {["e1" := fresh_row 0 Sample.event]} ∅).1 !! "e1" =
    Some (markPublished (fresh_row 0 Sample.event) now).
Proof.
  refine (proj1 (relay_catches_up sqs_direct 1 3 [Sample.pass 5 (fun _ => Delivered)] {["e1" := fresh_row 0 Sample.event]} ∅ _ _ _ _ _ _
    (surjective_pairing _) (fresh_row 0 Sample.event) _)).
  - apply map_Forall_singleton. reflexivity.
  - repeat constructor.
  - constructor; [|constructor]. apply map_Forall_singleton. intros _. cbn. lia.
  - vm_compute. lia.
  - vm_compute. left.
Defined.
