(* ===== verification/CatalogDomain.v ===== *)
(** * The catalog rules

    apps/catalog/src/domain/catalog-domain.ts: names, SKUs and barcodes, the generation
    of variants, the category tree rule, money and factors, lifecycles and the price of
    a variant.  Strings are ASCII text ([JsString]), on which Unicode normalization is
    the identity and no combining mark and no [đ] occurs. *)

From S2P Require Import Prelude JsNumber JsString.
From Stdlib Require Import Ascii.

Open Scope Z_scope.

Inductive CategoryStatus := CAT_ACTIVE | CAT_INACTIVE.
Inductive ProductStatus := PS_DRAFT | PS_ACTIVE | PS_INACTIVE | PS_ARCHIVED.
Inductive VariantStatus := VS_ACTIVE | VS_INACTIVE | VS_ARCHIVED.
Inductive PriceListStatus := PL_ACTIVE | PL_INACTIVE.

#[export] Instance CategoryStatus_eq_dec : EqDecision CategoryStatus.
Proof. solve_decision. Defined.
#[export] Instance ProductStatus_eq_dec : EqDecision ProductStatus.
Proof. solve_decision. Defined.
#[export] Instance VariantStatus_eq_dec : EqDecision VariantStatus.
Proof. solve_decision. Defined.
#[export] Instance PriceListStatus_eq_dec : EqDecision PriceListStatus.
Proof. solve_decision. Defined.

Inductive CatalogErrorCode :=
| PRODUCT_NOT_FOUND | VARIANT_NOT_FOUND | CATEGORY_NOT_FOUND | BRAND_NOT_FOUND | ATTRIBUTE_NOT_FOUND | ATTRIBUTE_VALUE_NOT_FOUND | PRICE_LIST_NOT_FOUND
| CATEGORY_DEPTH_EXCEEDED | CATEGORY_CYCLE_DETECTED | CATEGORY_IN_USE | CATEGORY_SLUG_EXISTS | CATEGORY_NAME_EXISTS | BRAND_NAME_EXISTS | BRAND_IN_USE
| ATTRIBUTE_NAME_EXISTS | ATTRIBUTE_VALUE_EXISTS | SKU_ALREADY_EXISTS | BARCODE_ALREADY_EXISTS | INVALID_SKU | INVALID_BARCODE
| INVALID_VARIANT_COMBINATION | VARIANT_COMBINATION_EXISTS | VARIANT_GENERATION_LIMIT_EXCEEDED | INVALID_PRODUCT_LIFECYCLE | INVALID_UNIT_CONVERSION
| INVALID_PRICE | PRICE_LIST_CONFLICT | PRICE_NOT_CONFIGURED | RESOURCE_VERSION_CONFLICT | TENANT_ACCESS_DENIED | PERMISSION_DENIED
| IDEMPOTENCY_CONFLICT | UPLOAD_NOT_FOUND | UPLOAD_INVALID | IMPORT_NOT_FOUND | EXPORT_LIMIT_EXCEEDED | PLAN_LIMIT_REACHED.

Inductive CatalogErrorKind := BAD_REQUEST | FORBIDDEN | NOT_FOUND | CONFLICT | UNPROCESSABLE.

(** The status a kind of error is answered with. *)
Definition http_status (k : CatalogErrorKind) : Z :=
  match k with BAD_REQUEST => 400 | FORBIDDEN => 403 | NOT_FOUND => 404 | CONFLICT => 409 | UNPROCESSABLE => 422 end.

Abbreviation res := (result CatalogErrorCode).
Definition refuse {A} (c : CatalogErrorCode) (k : CatalogErrorKind) : res A := Throw (DomainError c (http_status k)).

Definition MAX_CATEGORY_DEPTH : Z := 3.
Definition DEFAULT_MAX_VARIANT_COMBINATIONS : Z := 100.

(** ** Names and codes *)

(** [s.replace(/[^class]+/g, r)]: every run of characters outside the class by [r]. *)
Fixpoint squeeze (keep : ascii -> bool) (r : string) (s : string) : string :=
  match s with
  | "" => ""
  | String c s' =>
      if keep c then String c (squeeze keep r s')
      else match s' with
           | "" => r
           | String c' _ => if keep c' then r +:+ squeeze keep r s' else squeeze keep r s'
           end
  end.

Definition normalizeName (raw : string) : res string :=
  let cleaned := squeeze (fun c => negb (is_ws c)) " " (trim raw) in
  if String.eqb cleaned "" then refuse INVALID_PRODUCT_LIFECYCLE BAD_REQUEST else Ok (toLowerCase cleaned).

Definition is_lower (c : ascii) : bool := (97 <=? code c) && (code c <=? 122).
Definition is_alnum_upper (c : ascii) : bool := is_upper c || is_digit c.
Definition is_alnum_lower (c : ascii) : bool := is_lower c || is_digit c.

(** [replace(/^-+|-+$/g, '')]. *)
Fixpoint drop_dashes (s : string) : string :=
  match s with String c s' => if Ascii.eqb c "-" then drop_dashes s' else s | "" => "" end.
Fixpoint rdrop_dashes (s : string) : string :=
  match s with
  | "" => ""
  | String c s' => match rdrop_dashes s' with "" => if Ascii.eqb c "-" then "" else String c "" | t => String c t end
  end.

Definition normalizeSlug (raw : string) : res string :=
  let ascii := rdrop_dashes (drop_dashes (squeeze is_alnum_lower "-" (trim (toLowerCase raw)))) in
  if String.eqb ascii "" || (140 <? slen ascii) then refuse CATEGORY_SLUG_EXISTS BAD_REQUEST else Ok ascii.

Definition one_of (l : string) (c : ascii) : bool := existsb (Ascii.eqb c) (String.list_ascii_of_string l).

(** [^[first][rest]{lo,hi}$]. *)
Definition matches (first rest : ascii -> bool) (lo hi : nat) (s : string) : bool :=
  match s with "" => false | String c s' => first c && sall rest s' && (lo <=? String.length s')%nat && (String.length s' <=? hi)%nat end.

Definition SKU_REGEX : string -> bool := matches is_alnum_upper (fun c => is_alnum_upper c || one_of "._/-" c) 1 63.
Definition CODE128_BARCODE_REGEX : string -> bool :=
  matches (fun c => is_alnum_upper c || is_lower c) (fun c => is_alnum_upper c || is_lower c || one_of "._-" c) 3 63.
Definition ALL_DIGITS_REGEX (s : string) : bool := negb (String.eqb s "") && sall is_digit s.

Definition normalizeSku (raw : string) : res string :=
  let normalized := toUpperCase (trim raw) in
  if SKU_REGEX normalized then Ok normalized else refuse INVALID_SKU BAD_REQUEST.

(** The digits from the right, without the check digit, have the weights 3, 1, 3, ... *)
Fixpoint gs1_sum (weight : Z) (digits : list Z) : Z :=
  match digits with [] => 0 | d :: rest => d * weight + gs1_sum (4 - weight) rest end.

Definition digit_list (s : string) : list Z := map (fun c => code c - 48) (String.list_ascii_of_string s).

Definition verifyGs1Checksum (digits : string) : bool :=
  if negb (ALL_DIGITS_REGEX digits) || (String.length digits <? 8)%nat then false
  else
    match reverse (digit_list digits) with
    | [] => false
    | expectedCheck :: rest => (10 - gs1_sum 3 rest mod 10) mod 10 =? expectedCheck
    end.

Definition isValidEan13 (barcode : string) : bool :=
  sall is_digit barcode && (String.length barcode =? 13)%nat && verifyGs1Checksum barcode.

Definition validateAndNormalizeBarcode (raw : option string) : res (option string) :=
  match raw with
  | None => Ok None
  | Some raw =>
      let trimmed := trim raw in
      if String.eqb trimmed "" then Ok None
      else if ALL_DIGITS_REGEX trimmed then
        let n := String.length trimmed in
        if negb (n =? 8)%nat && negb (n =? 12)%nat && negb (n =? 13)%nat then refuse INVALID_BARCODE BAD_REQUEST
        else if verifyGs1Checksum trimmed then Ok (Some trimmed) else refuse INVALID_BARCODE BAD_REQUEST
      else
        let upper := toUpperCase trimmed in
        if CODE128_BARCODE_REGEX upper then Ok (Some upper) else refuse INVALID_BARCODE BAD_REQUEST
  end.

(** ** Variants *)

Record VariantAttributePair := { vp_attributeId : string; vp_attributeValueId : string }.

Record AxisValue := { av_id : string; av_value : string; av_skuToken : option string }.
Record VariantGenerationAxis := { ax_attributeId : string; ax_attributeName : string; ax_values : list AxisValue }.
Record GeneratedVariantSpec := { gv_skuCode : string; gv_name : string; gv_combinationSignature : string; gv_attributes : list VariantAttributePair }.

Definition toSkuToken (value : string) : string :=
  let token := String.substring 0 8 (squeeze is_alnum_upper "" (toUpperCase value)) in
  if String.eqb token "" then "VAL" else token.

Section Variants.
(** [String.prototype.localeCompare], implemented by the ICU library. *)
Context (localeCompare : string -> string -> Z).

Definition pair_step (seenAttributes : list string) (p : VariantAttributePair) : res (list string) :=
  if String.eqb (vp_attributeId p) "" || String.eqb (vp_attributeValueId p) "" then refuse INVALID_VARIANT_COMBINATION BAD_REQUEST
  else if existsb (String.eqb (vp_attributeId p)) seenAttributes then refuse INVALID_VARIANT_COMBINATION BAD_REQUEST
  else Ok (vp_attributeId p :: seenAttributes).

Definition buildCombinationSignature (pairs : list VariantAttributePair) : res string :=
  match pairs with
  | [] => Ok "DEFAULT"
  | _ =>
      _ ← foldM pair_step [] pairs;
      Ok (String.concat "|" (map (fun p => vp_attributeId p +:+ ":" +:+ vp_attributeValueId p)
            (sort_by (fun a b => localeCompare (vp_attributeId a) (vp_attributeId b)) pairs)))
  end.

Definition value_step (seenValueIds : list string) (v : AxisValue) : res (list string) :=
  if existsb (String.eqb (av_id v)) seenValueIds then refuse INVALID_VARIANT_COMBINATION BAD_REQUEST else Ok (av_id v :: seenValueIds).

Definition axis_step (maxCombinations : Z) (s : list string * Z) (axis : VariantGenerationAxis) : res (list string * Z) :=
  if existsb (String.eqb (ax_attributeId axis)) s.1 then refuse INVALID_VARIANT_COMBINATION BAD_REQUEST
  else
    match ax_values axis with
    | [] => refuse INVALID_VARIANT_COMBINATION BAD_REQUEST
    | _ =>
        _ ← foldM value_step [] (ax_values axis);
        let totalCombinations := s.2 * Z.of_nat (length (ax_values axis)) in
        if maxCombinations <? totalCombinations then refuse VARIANT_GENERATION_LIMIT_EXCEEDED BAD_REQUEST
        else Ok (ax_attributeId axis :: s.1, totalCombinations)
    end.

Record AccItem := { ac_pairs : list VariantAttributePair; ac_tokens : list string; ac_labels : list string }.

Definition extend (axis : VariantGenerationAxis) (current : AccItem) (v : AxisValue) : AccItem :=
  {| ac_pairs := ac_pairs current ++ [{| vp_attributeId := ax_attributeId axis; vp_attributeValueId := av_id v |}];
     ac_tokens := ac_tokens current ++
       [match av_skuToken v with Some t => if String.eqb t "" then toSkuToken (av_value v) else toUpperCase t | None => toSkuToken (av_value v) end];
     ac_labels := ac_labels current ++ [trim (av_value v)] |}.

Definition next_axis (acc : list AccItem) (axis : VariantGenerationAxis) : list AccItem :=
  flat_map (fun current => map (extend axis current) (ax_values axis)) acc.

Definition finish_spec (prefix productName : string) (item : AccItem) : res GeneratedVariantSpec :=
  skuCode ← normalizeSku (String.substring 0 64 (prefix +:+ "-" +:+ String.concat "-" (ac_tokens item)));
  sig ← buildCombinationSignature (ac_pairs item);
  Ok {| gv_skuCode := skuCode; gv_name := String.substring 0 240 (trim productName +:+ " (" +:+ String.concat " / " (ac_labels item) +:+ ")");
        gv_combinationSignature := sig; gv_attributes := ac_pairs item |}.

Definition generateCartesianVariantSpecs (skuPrefix productName : string) (axes : list VariantGenerationAxis) (maxCombinations : Z)
    : res (list GeneratedVariantSpec) :=
  prefix ← normalizeSku skuPrefix;
  match axes with
  | [] => refuse INVALID_VARIANT_COMBINATION BAD_REQUEST
  | _ =>
      _ ← foldM (axis_step maxCombinations) ([], 1) axes;
      traverse (finish_spec prefix productName) (fold_left next_axis axes [{| ac_pairs := []; ac_tokens := []; ac_labels := [] |}])
  end.
End Variants.

(** ** The category tree *)

Record ReparentParams := {
  rp_categoryId : string; rp_newParentId : option string; rp_newParentDepth : Z; rp_descendantRelativeDepths : list (string * Z); rp_maxDepth : option Z }.

(** The new depth of the category, and the deepest its descendants get. *)
Definition validateCategoryReparent (params : ReparentParams) : res (Z * Z) :=
  let maxAllowed := default MAX_CATEGORY_DEPTH (rp_maxDepth params) in
  if bool_decide (rp_newParentId params = Some (rp_categoryId params)) then refuse CATEGORY_CYCLE_DETECTED CONFLICT
  else if truthy (rp_newParentId params) && existsb (fun node => bool_decide (rp_newParentId params = Some node.1)) (rp_descendantRelativeDepths params)
  then refuse CATEGORY_CYCLE_DETECTED CONFLICT
  else
    let maxRelativeDepth := fold_left (fun m (node : string * Z) => Z.max m node.2) (rp_descendantRelativeDepths params) 0 in
    let newCategoryDepth := match rp_newParentId params with None => 1 | Some _ => rp_newParentDepth params + 1 end in
    let maxResultingDepth := newCategoryDepth + maxRelativeDepth in
    if maxAllowed <? maxResultingDepth then refuse CATEGORY_DEPTH_EXCEEDED CONFLICT else Ok (newCategoryDepth, maxResultingDepth).

(** ** Money, factors and lifecycles *)

Definition parseAndFormatMoney (raw : jsval) : res number :=
  let n := match raw with
           | VNum n => n
           | VStr s => if ALL_DIGITS_REGEX (trim s) then number_of_string s else NaN
           | _ => NaN
           end in
  if negb (isSafeInteger n) || nlt n (int 0) then refuse INVALID_PRICE BAD_REQUEST else Ok n.

(** [replace(/^0+(?=\d)/, '')]. *)
Fixpoint strip_zeros (s : string) : string :=
  match s with
  | String c s' => if (code c =? 48) && negb (String.eqb s' "") then strip_zeros s' else s
  | "" => ""
  end.

Definition parseAndFormatConversionFactor (raw : jsval) (isBase : bool) : res string :=
  let str := match raw with VNum n => string_of_number n | VStr s => trim s | _ => "" end in
  let '(wholeRaw, rest) := span_digits str in
  match fraction 4 rest with
  | Some fracRaw =>
      if String.eqb wholeRaw "" then refuse INVALID_UNIT_CONVERSION BAD_REQUEST
      else
        let whole := strip_zeros wholeRaw in
        let frac := padEnd 4 "0" fracRaw in
        if (digits_val whole =? 0) && (digits_val frac =? 0) then refuse INVALID_UNIT_CONVERSION BAD_REQUEST
        else if isBase && (negb (digits_val whole =? 1) || negb (digits_val frac =? 0)) then refuse INVALID_UNIT_CONVERSION BAD_REQUEST
        else Ok (whole +:+ "." +:+ frac)
  | None => refuse INVALID_UNIT_CONVERSION BAD_REQUEST
  end.

Definition validateProductLifecycleTransition (current next : ProductStatus) : res unit :=
  if bool_decide (current = next) then Ok tt
  else match current, next with
       | PS_ARCHIVED, _ => refuse INVALID_PRODUCT_LIFECYCLE CONFLICT
       | PS_DRAFT, _ => Ok tt
       | _, PS_DRAFT => refuse INVALID_PRODUCT_LIFECYCLE CONFLICT
       | _, _ => Ok tt
       end.

Definition validateVariantWithProductLifecycle (productStatus : ProductStatus) (variantStatus : VariantStatus) : res unit :=
  if bool_decide (productStatus = PS_ARCHIVED) && bool_decide (variantStatus = VS_ACTIVE) then refuse INVALID_PRODUCT_LIFECYCLE CONFLICT else Ok tt.

(** ** Prices *)

Record PriceListCandidate := {
  pl_id : string; pl_name : string; pl_currency : string; pl_isDefault : bool; pl_status : PriceListStatus; pl_startDate : option string;
  pl_endDate : option string; pl_itemPrice : option number }.

Inductive PriceSource := SRC_PRICE_LIST | SRC_DEFAULT_PRICE_LIST | SRC_VARIANT_BASE_PRICE.

Record ResolvedVariantPrice := {
  rv_variantId : string; rv_skuCode : string; rv_currency : string; rv_amount : number; rv_source : PriceSource; rv_priceListId : option string;
  rv_priceListName : option string; rv_effectiveFrom : option string; rv_effectiveTo : option string }.

(** Dates are compared as text; an absent or empty bound is open. *)
Definition isPriceListEffectiveOn (l : PriceListCandidate) (asOfDate : string) : bool :=
  if negb (bool_decide (pl_status l = PL_ACTIVE)) then false
  else if truthy (pl_startDate l) && String.ltb asOfDate (default "" (pl_startDate l)) then false
  else if truthy (pl_endDate l) && String.ltb (default "" (pl_endDate l)) asOfDate then false
  else true.

Record PriceQuery := {
  pq_variantId : string; pq_skuCode : string; pq_variantStatus : VariantStatus; pq_basePrice : option number; pq_asOfDate : string;
  pq_selectedList : option PriceListCandidate; pq_defaultList : option PriceListCandidate }.

Definition list_price (params : PriceQuery) (l : PriceListCandidate) (source : PriceSource) (price : number) : res ResolvedVariantPrice :=
  amount ← parseAndFormatMoney (VNum price);
  Ok {| rv_variantId := pq_variantId params; rv_skuCode := pq_skuCode params; rv_currency := pl_currency l; rv_amount := amount; rv_source := source;
        rv_priceListId := Some (pl_id l); rv_priceListName := Some (pl_name l); rv_effectiveFrom := pl_startDate l; rv_effectiveTo := pl_endDate l |}.

Definition base_price (params : PriceQuery) : res ResolvedVariantPrice :=
  amount ← parseAndFormatMoney (VNum (default (int 0) (pq_basePrice params)));
  if nlt (int 0) amount then
    Ok {| rv_variantId := pq_variantId params; rv_skuCode := pq_skuCode params; rv_currency := "VND"; rv_amount := amount; rv_source := SRC_VARIANT_BASE_PRICE;
          rv_priceListId := None; rv_priceListName := None; rv_effectiveFrom := None; rv_effectiveTo := None |}
  else refuse PRICE_NOT_CONFIGURED NOT_FOUND.

Definition resolveVariantPrice (params : PriceQuery) : res ResolvedVariantPrice :=
  if negb (bool_decide (pq_variantStatus params = VS_ACTIVE)) then refuse INVALID_PRODUCT_LIFECYCLE CONFLICT
  else
    match pq_selectedList params with
    | Some l =>
        if negb (isPriceListEffectiveOn l (pq_asOfDate params)) then refuse PRICE_NOT_CONFIGURED NOT_FOUND
        else match pl_itemPrice l with
             | None => refuse PRICE_NOT_CONFIGURED NOT_FOUND
             | Some price => list_price params l SRC_PRICE_LIST price
             end
    | None =>
        match pq_defaultList params with
        | Some l =>
            if isPriceListEffectiveOn l (pq_asOfDate params) then
              match pl_itemPrice l with Some price => list_price params l SRC_DEFAULT_PRICE_LIST price | None => base_price params end
            else base_price params
        | None => base_price params
        end
    end.

(** ** Check digits *)

Section Gs1.
Lemma gs1_sum_app w a b : gs1_sum w (a ++ b) = gs1_sum w a + gs1_sum (if Nat.even (length a) then w else 4 - w) b.
Proof.
  revert w; induction a as [|x a IH]; intros w; cbn [gs1_sum app length]; [cbn; lia|].
  rewrite IH, Nat.even_succ, <- Nat.negb_even. destruct (Nat.even (length a)); cbn [negb]; [lia|]. replace (4 - (4 - w)) with w by lia. lia.
Qed.

Lemma gs1_sum_change w a x y b : gs1_sum w (a ++ y :: b) - gs1_sum w (a ++ x :: b) = (y - x) * (if Nat.even (length a) then w else 4 - w).
Proof. rewrite !gs1_sum_app. cbn [gs1_sum]. lia. Qed.

(** Two sums that give the same check digit are equal modulo ten. *)
Lemma check_digit_inj a b : (10 - a mod 10) mod 10 = (10 - b mod 10) mod 10 -> (a - b) mod 10 = 0.
Proof.
  intros H. pose proof (Z.mod_pos_bound a 10 ltac:(lia)). pose proof (Z.mod_pos_bound b 10 ltac:(lia)).
  pose proof (Z.div_mod a 10 ltac:(lia)). pose proof (Z.div_mod b 10 ltac:(lia)). assert (a mod 10 = b mod 10).
  { destruct (decide (a mod 10 = 0)) as [E|E], (decide (b mod 10 = 0)) as [E'|E']; [lia| | |].
    - rewrite E, Z.mod_same in H by lia. rewrite Z.mod_small in H; lia.
    - rewrite E', Z.mod_same in H by lia. rewrite Z.mod_small in H; lia.
    - rewrite (Z.mod_small (10 - a mod 10)), (Z.mod_small (10 - b mod 10)) in H by lia. lia. }
  assert (E : a mod 10 = b mod 10) by done. by rewrite Zminus_mod, E, Z.sub_diag.
Qed.

Lemma code_digit_range c : is_digit c = true -> 0 <= code c - 48 <= 9.
Proof. unfold is_digit. intros. bool_prop. lia. Qed.

Lemma digit_list_app s t : digit_list (s +:+ t) = digit_list s ++ digit_list t.
Proof. unfold digit_list. induction s as [|c s IH]; [done|]. rewrite sapp_cons. cbn [String.list_ascii_of_string map app]. f_equal. exact IH. Qed.

(** The check digit of the changed number is another one. *)
Lemma gs1_change pre c c' post : is_digit c = true -> is_digit c' = true -> c <> c' ->
  verifyGs1Checksum (pre +:+ String c post) = true -> verifyGs1Checksum (pre +:+ String c' post) = false.
Proof.
  intros Hc Hc' Hne. pose proof (code_digit_range c Hc) as R. pose proof (code_digit_range c' Hc') as R'.
  assert (Hd : code c - 48 <> code c' - 48) by (intros E; apply Hne, code_inj; lia).
  unfold verifyGs1Checksum. destruct (_ || _); [done|]. intros H.
  destruct (negb (ALL_DIGITS_REGEX (pre +:+ String c' post)) || _); [done|]. revert H.
  rewrite !digit_list_app. change (digit_list (String c post)) with ((code c - 48) :: digit_list post).
  change (digit_list (String c' post)) with ((code c' - 48) :: digit_list post). set (x := code c - 48) in *. set (y := code c' - 48) in *.
  rewrite !reverse_app, !reverse_cons, <- !(assoc_L app). cbn [app].
  destruct (reverse (digit_list post)) as [|k r]; cbn [app]; intros H%Z.eqb_eq; apply Z.eqb_neq; intros H'.
  - congruence.
  - assert (Hm : (gs1_sum 3 (r ++ y :: reverse (digit_list pre)) - gs1_sum 3 (r ++ x :: reverse (digit_list pre))) mod 10 = 0) by (apply check_digit_inj; congruence).
    rewrite gs1_sum_change in Hm. apply Z.mod_divide in Hm as [q Hq]; [|lia]. destruct (Nat.even (length r)); cbv iota in Hq; lia.
Qed.
End Gs1.

Lemma all_digits_trim s : ALL_DIGITS_REGEX s = true -> trim s = s.
Proof. unfold ALL_DIGITS_REGEX. intros [_ H]%andb_true_iff. by apply digits_trim. Qed.

Lemma length_sapp s t : String.length (s +:+ t) = (String.length s + String.length t)%nat.
Proof. induction s as [|c s IH]; [done|]. rewrite sapp_cons. cbn [String.length]. by rewrite IH. Qed.

(** C34.  A misread digit of a barcode is always noticed.  If a barcode of digits is
    accepted, then the same barcode with any one digit replaced by another is refused
    as invalid, wherever the digit is, the check digit included. *)
Theorem barcode_misread_digit_refused (pre post : string) (c c' : ascii) :
  sall is_digit (pre +:+ String c post) = true -> is_digit c' = true -> c <> c' ->
  is_ok (validateAndNormalizeBarcode (Some (pre +:+ String c post))) = true ->
  validateAndNormalizeBarcode (Some (pre +:+ String c' post)) = Throw (DomainError INVALID_BARCODE 400).
Proof.
  intros Hs Hc' Hne. assert (Hs' : sall is_digit (pre +:+ String c' post) = true).
  { revert Hs. rewrite !sall_app. cbn [sall]. intros [? [? ?]%andb_true_iff]%andb_true_iff. rewrite Hc'. by repeat (apply andb_true_iff; split). }
  assert (Hc : is_digit c = true) by (revert Hs; rewrite sall_app; cbn [sall]; by intros [? [? ?]%andb_true_iff]%andb_true_iff).
  assert (He : forall x, String.eqb (pre +:+ String x post) "" = false) by (by destruct pre).
  assert (Ha : ALL_DIGITS_REGEX (pre +:+ String c post) = true) by (unfold ALL_DIGITS_REGEX; by rewrite He, Hs).
  assert (Ha' : ALL_DIGITS_REGEX (pre +:+ String c' post) = true) by (unfold ALL_DIGITS_REGEX; by rewrite He, Hs').
  unfold validateAndNormalizeBarcode. cbv zeta. rewrite !all_digits_trim, !He, Ha, Ha', !length_sapp by done. cbn [String.length].
  destruct (_ && _); [done|]. destruct (verifyGs1Checksum (pre +:+ String c post)) eqn:E; [|done]. intros _. by rewrite (gs1_change pre c c' post).
Qed.

Lemma barcode_misread_digit_refused_witness :
  is_ok (validateAndNormalizeBarcode (Some "4006381333931")) = true /\
  validateAndNormalizeBarcode (Some "4006381333981") = Throw (DomainError INVALID_BARCODE 400).
Proof.
  split; [vm_compute; reflexivity|].
  apply (barcode_misread_digit_refused "40063813339" "1" "3" "8"); [vm_compute; reflexivity | vm_compute; reflexivity | discriminate | vm_compute; reflexivity].
Defined.

(** ** Generated variants *)

(** One value of every axis, in the order of the axes. *)
Fixpoint choices (axes : list VariantGenerationAxis) : list (list VariantAttributePair) :=
  match axes with
  | [] => [[]]
  | a :: axes => flat_map (fun v => map (cons {| vp_attributeId := ax_attributeId a; vp_attributeValueId := av_id v |}) (choices axes)) (ax_values a)
  end.

Section Product.
Implicit Types (axes : list VariantGenerationAxis) (acc : list AccItem).

Lemma next_axis_pairs a acc : map ac_pairs (next_axis acc a) =
  flat_map (fun ps => map (fun v => ps ++ [{| vp_attributeId := ax_attributeId a; vp_attributeValueId := av_id v |}]) (ax_values a)) (map ac_pairs acc).
Proof.
  unfold next_axis. induction acc as [|i acc IH]; [done|]. cbn [flat_map map]. rewrite map_app, IH. f_equal. by rewrite map_map.
Qed.

Lemma flat_map_map {A B C} (f : B -> list C) (g : A -> B) l : flat_map f (map g l) = flat_map (fun x => f (g x)) l.
Proof. induction l as [|x l IH]; [done|]. cbn. by rewrite IH. Qed.

Lemma flat_map_flat_map {A B C} (f : B -> list C) (g : A -> list B) l : flat_map f (flat_map g l) = flat_map (fun x => flat_map f (g x)) l.
Proof. induction l as [|x l IH]; [done|]. cbn. by rewrite flat_map_app, IH. Qed.

Lemma map_flat_map {A B C} (f : B -> C) (g : A -> list B) l : map f (flat_map g l) = flat_map (fun x => map f (g x)) l.
Proof. induction l as [|x l IH]; [done|]. cbn. by rewrite map_app, IH. Qed.

Lemma fold_axes_pairs axes acc : map ac_pairs (fold_left next_axis axes acc) = flat_map (fun ps => map (app ps) (choices axes)) (map ac_pairs acc).
Proof.
  revert acc; induction axes as [|a axes IH]; intros acc; cbn [fold_left choices].
  - induction (map ac_pairs acc) as [|p l IHl]; [done|]. cbn [flat_map map app]. rewrite app_nil_r. f_equal. exact IHl.
  - rewrite IH, next_axis_pairs, flat_map_flat_map. apply flat_map_ext. intros ps. rewrite map_flat_map, flat_map_map.
    apply flat_map_ext. intros v. rewrite map_map. apply map_ext. intros qs. by rewrite <- (assoc_L app).
Qed.

Lemma choices_length axes : Z.of_nat (length (choices axes)) = foldr Z.mul 1 (map (fun a => Z.of_nat (length (ax_values a))) axes).
Proof.
  induction axes as [|a axes IH]; [done|]. cbn [choices map foldr]. rewrite <- IH. clear IH.
  induction (ax_values a) as [|v l IHl]; [done|]. cbn [flat_map length]. rewrite length_app, length_map. lia.
Qed.

Lemma value_step_NoDup l seen seen' : foldM value_step seen l = Ok seen' -> NoDup (map av_id l) /\ (forall v, v ∈ l -> av_id v ∉ seen).
Proof.
  revert seen; induction l as [|v l IH]; intros seen; cbn [foldM]; [intros _; split; [constructor | by intros ? ?%not_elem_of_nil]|].
  intros (s1 & H1 & (Hd & Hs)%IH)%bind_Ok. unfold value_step in H1. case_if_in H1; [done|]. inv_ok.
  assert (Hv : av_id v ∉ seen) by (intros Hin; rewrite existsb_false in E; specialize (E _ Hin); by rewrite String.eqb_refl in E). split.
  - cbn. apply NoDup_cons. split; [|done]. intros (w & E' & Hw)%list_elem_of_fmap. apply (Hs w Hw). rewrite <- E'. by left.
  - intros w [-> | Hw]%elem_of_cons; [done|]. intros Hin. apply (Hs w Hw). by right.
Qed.

(** The loop over the axes: the number of variants so far, and values that do not repeat. *)
Lemma axis_steps m axes s s' : 0 < s.2 -> foldM (axis_step m) s axes = Ok s' -> s.2 <= m ->
  s'.2 = s.2 * foldr Z.mul 1 (map (fun a => Z.of_nat (length (ax_values a))) axes) /\ s'.2 <= m /\
  (forall a, a ∈ axes -> NoDup (map av_id (ax_values a))).
Proof.
  revert s; induction axes as [|a axes IH]; intros s Hs H Hm; cbn [foldM] in H.
  - inv_ok. cbn. split; [lia|]. split; [done|]. by intros ? ?%not_elem_of_nil.
  - apply bind_Ok in H as (s1 & H1 & H2). unfold axis_step in H1. case_if_in H1; [done|].
    destruct (ax_values a) as [|v vs] eqn:Ev; [done|]. cbv zeta in H1. inv_ok. case_if_in H1; [done|]. inv_ok. bool_prop.
    apply IH in H2 as (H2 & H3 & H4); cbn [snd length] in *; [|lia|lia]. cbn [map foldr]. rewrite Ev. cbn [length] in *. split; [lia|]. split; [done|].
    intros b [-> | Hb]%elem_of_cons; [|by apply H4]. rewrite Ev. by eapply value_step_NoDup.
Qed.

Lemma flat_map_NoDup {A B} (f : A -> list B) l : NoDup l -> (forall x, x ∈ l -> NoDup (f x)) ->
  (forall x y b, x ∈ l -> y ∈ l -> b ∈ f x -> b ∈ f y -> x = y) -> NoDup (flat_map f l).
Proof.
  induction l as [|x l IH]; intros Hl Hf Hd; cbn; [constructor|]. apply NoDup_cons in Hl as [Hx Hl]. apply NoDup_app. split_and!.
  - apply Hf. by left.
  - intros b Hb Hin. apply list_elem_of_In, in_flat_map in Hin as (y & Hy%list_elem_of_In & Hb'%list_elem_of_In). apply Hx.
    assert (x = y) as -> by (eapply (Hd x y b); [by left | by right | done | done]). done.
  - apply IH; [done | intros; apply Hf; by right |]. intros; eapply Hd; eauto; by right.
Qed.

Lemma choices_NoDup axes : (forall a, a ∈ axes -> NoDup (map av_id (ax_values a))) -> NoDup (choices axes).
Proof.
  induction axes as [|a axes IH]; intros H; cbn; [apply NoDup_singleton|].
  assert (Ha : NoDup (map av_id (ax_values a))) by (apply H; by left). apply flat_map_NoDup.
  - by apply (NoDup_fmap_1 av_id).
  - intros v _. apply NoDup_fmap; [by intros ? ? [=]|]. apply IH. intros; apply H; by right.
  - intros v w ps Hv Hw (qs & -> & _)%list_elem_of_fmap (qs' & [= E] & _)%list_elem_of_fmap. by eapply (NoDup_map_inj av_id).
Qed.
End Product.

Lemma finish_spec_pairs lc prefix name i spec : finish_spec lc prefix name i = Ok spec -> gv_attributes spec = ac_pairs i.
Proof. unfold finish_spec. intros H. by inv_ok. Qed.

(** C33.  Variants are generated from every combination, once.  When the generation
    succeeds, the attributes of the variants are exactly the lists that choose one
    value per axis, in the order of the axes and without repetition; there are as many
    as the product of the numbers of values, and at most the allowed number. *)
Theorem generated_variants_are_the_product (lc : string -> string -> Z) (prefix name : string) (axes : list VariantGenerationAxis) (max : Z)
    (specs : list GeneratedVariantSpec) : 1 <= max ->
  generateCartesianVariantSpecs lc prefix name axes max = Ok specs ->
  map gv_attributes specs = choices axes /\ NoDup (map gv_attributes specs) /\
  Z.of_nat (length specs) = foldr Z.mul 1 (map (fun a => Z.of_nat (length (ax_values a))) axes) /\ Z.of_nat (length specs) <= max.
Proof.
  intros Hmax H. unfold generateCartesianVariantSpecs in H. inv_ok. destruct axes as [|x xs]; [done|]. set (axes := x :: xs) in *. inv_ok.
  match goal with H' : foldM _ _ _ = Ok _ |- _ => apply axis_steps in H' as (E1 & E2 & E3); [|cbn; lia|cbn; lia] end. cbn [snd] in *.
  apply traverse_Ok in H. assert (E : map gv_attributes specs = choices axes).
  { transitivity (map ac_pairs (fold_left next_axis axes [{| ac_pairs := []; ac_tokens := []; ac_labels := [] |}])).
    - induction H as [|i s l l' Hi _ IH]; [done|]. cbn. by rewrite IH, (finish_spec_pairs _ _ _ _ _ Hi).
    - rewrite fold_axes_pairs. cbn [map flat_map ac_pairs]. rewrite app_nil_r. rewrite <- (map_id (choices axes)) at 2. by apply map_ext. }
  split; [done|]. rewrite E. split; [by apply choices_NoDup|]. rewrite <- choices_length, <- E, length_map. split; [done|].
  rewrite <- (length_map gv_attributes), E, choices_length. lia.
Qed.

Lemma generated_variants_are_the_product_witness : exists specs,
  generateCartesianVariantSpecs (fun _ _ => 0) "ao" "Ao thun" [{| ax_attributeId := "a1"; ax_attributeName := "Size";
    ax_values := [{| av_id := "s"; av_value := "S"; av_skuToken := None |}; {| av_id := "m"; av_value := "M"; av_skuToken := None |}] |}] 100 = Ok specs /\
  map gv_skuCode specs = ["AO-S"; "AO-M"] /\ Z.of_nat (length specs) <= 100.
Proof.
  eexists. split; [vm_compute; reflexivity|]. split; [vm_compute; reflexivity|].
  eapply (generated_variants_are_the_product (fun _ _ => 0) "ao" "Ao thun" [{| ax_attributeId := "a1"; ax_attributeName := "Size";
    ax_values := [{| av_id := "s"; av_value := "S"; av_skuToken := None |}; {| av_id := "m"; av_value := "M"; av_skuToken := None |}] |}] 100);
    [lia | vm_compute; reflexivity].
Defined.
