(* ===== verification/CategoryTree.v ===== *)
(** * The category tree

    apps/catalog/src/modules/categories/categories.service.ts over the table
    [categories] with its constraints (migrations/1791900000200-create-catalog-tables.ts):
    create, update, move, change the status of and remove a category.  Of the products
    only what these handlers read is kept.  A handler is one transaction; [reparent] is
    written as the reads and checks it does first and the updates it does then, so that
    two moves can also be interleaved. *)

From S2P Require Import Prelude Transaction JsNumber JsString CatalogDomain.

Open Scope Z_scope.

(** A [CatalogDomainError] (the constraints of the table are answered as one too), or
    another failed statement. *)
Inductive CategoryError := Rule (code : CatalogErrorCode) | QueryFailed.

(** ** Tables *)

Definition as_uuid (s : string) : string := toLowerCase s.
Abbreviation key := (string * string)%type.

Record CategoryRow := {
  ct_parent : option string; ct_name : string; ct_normalizedName : string; ct_slug : string; ct_depth : Z; ct_status : CategoryStatus }.

Record ProductRow := { pt_category : option string; pt_status : ProductStatus; pt_deleted : bool }.

Record db := { categories : gmap key CategoryRow; products : gmap key ProductRow }.

Abbreviation tx := (txn db CategoryError).

Definition rule {A} (c : CatalogErrorCode) (k : CatalogErrorKind) : tx A := fail (Rule c) (http_status k).
Definition query_failed {A} : tx A := fail QueryFailed 500.
Definition domain {A} (r : res A) : tx A := embed Rule r.

Definition set_categories (m : gmap key CategoryRow) (d : db) : db := {| categories := m; products := products d |}.

(** ** Statements *)

Definition depth_ok (z : Z) : bool := (1 <=? z) && (z <=? 3).

(** Another category of the tenant under the same parent. *)
Definition sibling (k : key) (r : CategoryRow) (e : key * CategoryRow) : bool :=
  negb (bool_decide (e.1 = k)) && String.eqb e.1.1 k.1 && bool_decide (ct_parent e.2 = ct_parent r).

(** Write a category: check constraints, then the unique indexes, then the foreign key,
    as the errors they are answered with. *)
Definition put_category (k : key) (r : CategoryRow) : tx unit :=
  others ← gets (fun d => List.filter (sibling k r) (map_to_list (categories d)));
  parentKnown ← gets (fun d => match ct_parent r with None => true | Some p => bool_decide (is_Some (categories d !! (k.1, p))) end);
  if negb (depth_ok (ct_depth r)) then rule CATEGORY_DEPTH_EXCEEDED CONFLICT
  else if bool_decide (ct_parent r = Some k.2) then query_failed
  else if existsb (fun e => String.eqb (ct_slug e.2) (ct_slug r)) others then rule CATEGORY_SLUG_EXISTS CONFLICT
  else if existsb (fun e => String.eqb (ct_normalizedName e.2) (ct_normalizedName r)) others then rule CATEGORY_NAME_EXISTS CONFLICT
  else if negb parentKnown then rule CATEGORY_IN_USE CONFLICT
  else modify (fun d => set_categories (<[k := r]> (categories d)) d).

Definition find_category (tenantId id : string) : tx CategoryRow :=
  found ← gets (fun d => categories d !! (tenantId, as_uuid id));
  match found with Some r => mret r | None => rule CATEGORY_NOT_FOUND NOT_FOUND end.

(** The join of the recursive query: the categories below a level. *)
Definition below (tenantId : string) (level : list string) (m : gmap key CategoryRow) : list string :=
  map (fun e : key * CategoryRow => e.1.2)
    (List.filter (fun e : key * CategoryRow => String.eqb e.1.1 tenantId && match ct_parent e.2 with Some p => bool_decide (p ∈ level) | None => false end)
      (map_to_list m)).

(** [WITH RECURSIVE subtree]: level by level until a level is empty.  More levels than
    rows mean that the parents form a cycle, and the query never ends. *)
Fixpoint levels (fuel : nat) (tenantId : string) (rel : Z) (level : list string) (m : gmap key CategoryRow) : option (list (string * Z)) :=
  match level with
  | [] => Some []
  | _ =>
      match fuel with
      | O => None
      | S fuel => rest ← levels fuel tenantId (rel + 1) (below tenantId level m) m; Some (map (fun i => (i, rel)) level ++ rest)
      end
  end.

Definition subtree (tenantId id : string) (m : gmap key CategoryRow) : option (list (string * Z)) :=
  levels (3 + size m) tenantId 0 (match m !! (tenantId, id) with Some _ => [id] | None => [] end) m.

Definition query_subtree (tenantId id : string) : tx (list (string * Z)) :=
  found ← gets (fun d => subtree tenantId (as_uuid id) (categories d));
  match found with Some l => mret l | None => query_failed end.

Definition with_place (r : CategoryRow) (parent : option string) (depth : Z) : CategoryRow :=
  {| ct_parent := parent; ct_name := ct_name r; ct_normalizedName := ct_normalizedName r; ct_slug := ct_slug r; ct_depth := depth; ct_status := ct_status r |}.

Definition with_category_status (r : CategoryRow) (status : CategoryStatus) : CategoryRow :=
  {| ct_parent := ct_parent r; ct_name := ct_name r; ct_normalizedName := ct_normalizedName r; ct_slug := ct_slug r; ct_depth := ct_depth r; ct_status := status |}.

(** [UPDATE categories SET ... WHERE tenant_id = $2 AND id = ANY($3)]. *)
Definition update_ids (tenantId : string) (ids : list string) (f : CategoryRow -> CategoryRow) (m : gmap key CategoryRow) : gmap key CategoryRow :=
  map_imap (fun (k : key) r => Some (if String.eqb k.1 tenantId && bool_decide (k.2 ∈ ids) then f r else r)) m.

Definition shift_depths (tenantId : string) (ids : list string) (delta : Z) : tx unit :=
  ok ← gets (fun d => forallb (fun i => match categories d !! (tenantId, i) with Some r => depth_ok (ct_depth r + delta) | None => true end) ids);
  if negb ok then rule CATEGORY_DEPTH_EXCEEDED CONFLICT
  else modify (fun d => set_categories (update_ids tenantId ids (fun r => with_place r (ct_parent r) (ct_depth r + delta)) (categories d)) d).

(** ** Handlers *)

Record CreateCategoryReqDto := { cc_name : string; cc_slug : option string; cc_parentId : option string }.
Record UpdateCategoryReqDto := { uc_name : option string; uc_slug : option string }.

Definition create (tenantId newId : string) (dto : CreateCategoryReqDto) : tx CategoryRow :=
  normalizedName ← domain (normalizeName (cc_name dto));
  slug ← domain (normalizeSlug (default (cc_name dto) (cc_slug dto)));
  depth ← match cc_parentId dto with
    | None => mret (M := tx) 1
    | Some p =>
        parent ← find_category tenantId p;
        if negb (bool_decide (ct_status parent = CAT_ACTIVE)) then rule CATEGORY_IN_USE CONFLICT
        else if MAX_CATEGORY_DEPTH <=? ct_depth parent then rule CATEGORY_DEPTH_EXCEEDED CONFLICT
        else mret (ct_depth parent + 1)
    end;
  let id := as_uuid newId in
  taken ← gets (fun d => existsb (fun e : key * CategoryRow => String.eqb e.1.2 id) (map_to_list (categories d)));
  if (taken : bool) then rule RESOURCE_VERSION_CONFLICT CONFLICT
  else
    let row := {| ct_parent := as_uuid <$> cc_parentId dto; ct_name := trim (cc_name dto); ct_normalizedName := normalizedName; ct_slug := slug;
                  ct_depth := depth; ct_status := CAT_ACTIVE |} in
    _ ← put_category (tenantId, id) row;
    mret row.

Definition getById (tenantId id : string) : tx CategoryRow := find_category tenantId id.

Definition update (tenantId id : string) (dto : UpdateCategoryReqDto) : tx CategoryRow :=
  r ← find_category tenantId id;
  r1 ← match uc_name dto with
    | None => mret (M := tx) r
    | Some name =>
        normalizedName ← domain (normalizeName name);
        slug ← match uc_slug dto with None => domain (normalizeSlug name) | Some _ => mret (ct_slug r) end;
        mret {| ct_parent := ct_parent r; ct_name := trim name; ct_normalizedName := normalizedName; ct_slug := slug; ct_depth := ct_depth r; ct_status := ct_status r |}
    end;
  r2 ← match uc_slug dto with
    | None => mret (M := tx) r1
    | Some s =>
        slug ← domain (normalizeSlug s);
        mret {| ct_parent := ct_parent r1; ct_name := ct_name r1; ct_normalizedName := ct_normalizedName r1; ct_slug := slug; ct_depth := ct_depth r1;
                ct_status := ct_status r1 |}
    end;
  _ ← put_category (tenantId, as_uuid id) r2;
  mret r2.

(** What [reparent] has read and decided when it starts to write. *)
Record Move := { mv_parent : option string; mv_depth : Z; mv_delta : Z; mv_descendants : list string }.

Definition plan_reparent (tenantId id : string) (parentId : option string) : tx Move :=
  target ← find_category tenantId id;
  newParentDepth ← match parentId with
    | None => mret (M := tx) 0
    | Some p =>
        if String.eqb p id then rule CATEGORY_CYCLE_DETECTED CONFLICT
        else
          parent ← find_category tenantId p;
          if negb (bool_decide (ct_status parent = CAT_ACTIVE)) then rule CATEGORY_IN_USE CONFLICT else mret (ct_depth parent)
    end;
  subtreeRows ← query_subtree tenantId id;
  v ← domain (validateCategoryReparent {| rp_categoryId := id; rp_newParentId := parentId; rp_newParentDepth := newParentDepth;
        rp_descendantRelativeDepths := subtreeRows; rp_maxDepth := None |});
  mret {| mv_parent := as_uuid <$> parentId; mv_depth := v.1; mv_delta := v.1 - ct_depth target;
          mv_descendants := map fst (List.filter (fun r : string * Z => negb (String.eqb r.1 id)) subtreeRows) |}.

Definition apply_reparent (tenantId id : string) (mv : Move) : tx CategoryRow :=
  row ← find_category tenantId id;
  _ ← put_category (tenantId, as_uuid id) (with_place row (mv_parent mv) (mv_depth mv));
  _ ← when (negb (bool_decide (mv_descendants mv = [])) && negb (mv_delta mv =? 0)) (shift_depths tenantId (mv_descendants mv) (mv_delta mv));
  find_category tenantId id.

(** One move alone.  The category and the new parent are locked, the subtree is not (the
    recursive query of categories.service.ts:294 has no FOR UPDATE, though its comment
    says it locks), so the updates of another move can come between the two parts. *)
Definition reparent (tenantId id : string) (parentId : option string) : tx CategoryRow :=
  mv ← plan_reparent tenantId id parentId;
  apply_reparent tenantId id mv.

Definition active_products (tenantId : string) (ids : list string) (m : gmap key ProductRow) : list (key * ProductRow) :=
  List.filter (fun e : key * ProductRow => String.eqb e.1.1 tenantId && match pt_category e.2 with Some c => bool_decide (c ∈ ids) | None => false end &&
    bool_decide (pt_status e.2 = PS_ACTIVE) && negb (pt_deleted e.2)) (map_to_list m).

(** The guards of a deactivation; with [cascade] the whole subtree is written. *)
Definition deactivate (tenantId id : string) (cascade : bool) : tx unit :=
  subtreeRows ← query_subtree tenantId id;
  let allIds := map fst subtreeRows in
  statuses ← gets (fun d => map (fun i => (i, ct_status <$> categories d !! (tenantId, i))) allIds);
  let activeChildren := List.filter (fun r : string * option CategoryStatus => negb (String.eqb r.1 id) && bool_decide (r.2 = Some CAT_ACTIVE)) statuses in
  if negb (bool_decide (activeChildren = [])) && negb cascade then rule CATEGORY_IN_USE CONFLICT
  else
    used ← gets (fun d => active_products tenantId allIds (products d));
    if negb (bool_decide (length used = 0%nat)) then rule CATEGORY_IN_USE CONFLICT
    else
      when (cascade && (1 <? length allIds)%nat)
        (modify (fun d => set_categories (update_ids tenantId allIds (fun r => with_category_status r CAT_INACTIVE) (categories d)) d)).

Definition updateStatus (tenantId id : string) (status : CategoryStatus) (cascade : bool) : tx CategoryRow :=
  r ← find_category tenantId id;
  _ ← match status with
    | CAT_INACTIVE => deactivate tenantId id cascade
    | CAT_ACTIVE =>
        match ct_parent r with
        | None => mret tt
        | Some p =>
            parent ← gets (fun d => categories d !! (tenantId, p));
            match parent with
            | Some q => if negb (bool_decide (ct_status q = CAT_ACTIVE)) then rule CATEGORY_IN_USE CONFLICT else mret tt
            | None => mret tt
            end
        end
    end;
  let r' := with_category_status r status in
  _ ← put_category (tenantId, as_uuid id) r';
  mret r'.

Definition remove (tenantId id : string) : tx unit :=
  _ ← find_category tenantId id;
  children ← gets (fun d => below tenantId [as_uuid id] (categories d));
  if negb (bool_decide (children = [])) then rule CATEGORY_IN_USE CONFLICT
  else
    used ← gets (fun d => existsb (fun e : key * ProductRow => String.eqb e.1.1 tenantId && bool_decide (pt_category e.2 = Some (as_uuid id)))
      (map_to_list (products d)));
    if (used : bool) then rule CATEGORY_IN_USE CONFLICT
    else modify (fun d => set_categories (delete (tenantId, as_uuid id) (categories d)) d).

(** ** All requests *)

Inductive request :=
| Create (newId : string) (dto : CreateCategoryReqDto)
| Update (id : string) (dto : UpdateCategoryReqDto)
| Reparent (id : string) (parentId : option string)
| UpdateStatus (id : string) (status : CategoryStatus) (cascade : bool)
| Remove (id : string)
| OtherModules (m : gmap key ProductRow).

(** A request of a tenant, in a transaction, with no other under way; the product module may change its table in
    any way in between. *)
Definition serve (tenantId : string) (q : request) (d : db) : db :=
  match q with
  | Create i dto => after (create tenantId i dto) d
  | Update i dto => after (update tenantId i dto) d
  | Reparent i p => after (reparent tenantId i p) d
  | UpdateStatus i s c => after (updateStatus tenantId i s c) d
  | Remove i => after (remove tenantId i) d
  | OtherModules m => {| categories := categories d; products := m |}
  end.

(** The id of a move is written as the database prints it. *)
Definition canonical (q : request) : Prop := match q with Reparent i _ => as_uuid i = i | _ => True end.

Inductive reachable : db -> Prop :=
| reach_empty : reachable {| categories := ∅; products := ∅ |}
| reach_serve t q d : reachable d -> canonical q -> reachable (serve t q d).
