(* ===== verification/CategoryBooks.v ===== *)
(** * What the category tree keeps

    Over all requests, served one at a time, whose moves name the category as the
    database prints it, the rows form a forest of depth three at most, and stored depths and statuses fit it; the
    recursive query ends.  And two ways in which the service can lose this: a move that
    names its category in capital letters, and two moves at the same time. *)

From S2P Require Import Prelude Transaction JsNumber JsString CatalogDomain CategoryTree.

Open Scope Z_scope.

(** ** The invariant *)

(** A row fits its parent: depths and statuses follow the tree. *)
Definition fits (m : gmap key CategoryRow) (k : key) (r : CategoryRow) : Prop :=
  1 <= ct_depth r <= 3 /\
  match ct_parent r with
  | None => ct_depth r = 1
  | Some p => exists q, m !! (k.1, p) = Some q /\ ct_depth r = ct_depth q + 1 /\ (ct_status r = CAT_ACTIVE -> ct_status q = CAT_ACTIVE)
  end.

Definition distinct (m : gmap key CategoryRow) (k : key) (r : CategoryRow) : Prop :=
  forall k' r', m !! k' = Some r' -> k'.1 = k.1 -> k' <> k -> ct_parent r' = ct_parent r ->
    ct_slug r' <> ct_slug r /\ ct_normalizedName r' <> ct_normalizedName r.

Definition forest (m : gmap key CategoryRow) : Prop := forall k r, m !! k = Some r -> fits m k r /\ distinct m k r /\ as_uuid k.2 = k.2.

Ltac inv_cat :=
  repeat first
    [ progress inv_txn
    | progress simplify_eq
    | match goal with
      | H : rule _ _ _ = Ok _ |- _ => discriminate H
      | H : query_failed _ = Ok _ |- _ => discriminate H
      | H : domain _ _ = Ok _ |- _ => apply embed_Ok in H as [H ->]
      | H : context [if ?b then _ else _] |- _ => lazymatch type of H with _ = Ok _ => let E := fresh "E" in destruct b eqn:E end
      end ].

(** ** Statements *)

Section Statements.
Implicit Types (d : db) (r : CategoryRow) (m : gmap key CategoryRow).

Lemma find_category_Ok t i d r d' : find_category t i d = Ok (r, d') <-> d' = d /\ categories d !! (t, as_uuid i) = Some r.
Proof.
  unfold find_category. split.
  - intros H. inv_cat. destruct (categories _ !! _) eqn:E; inv_cat. done.
  - intros [-> H]. unfold gets, mbind, txn_bind. by rewrite H.
Qed.

Lemma put_category_Ok k r d u d' : put_category k r d = Ok (u, d') ->
  d' = set_categories (<[k := r]> (categories d)) d /\ 1 <= ct_depth r <= 3 /\ ct_parent r <> Some k.2 /\
  (forall p, ct_parent r = Some p -> is_Some (categories d !! (k.1, p))) /\ distinct (categories d) k r.
Proof.
  unfold put_category. intros H. inv_cat. bool_prop. unfold depth_ok in *. bool_prop. split_and!; try done.
  - intros p Hp. rewrite Hp in *. by bool_prop.
  - intros k' r' Hk Ht Hne Hp. rewrite !existsb_false in *.
    assert (Hin : (k', r') ∈ List.filter (sibling k r) (map_to_list (categories d))).
    { apply list_elem_of_In, filter_In. split; [by apply list_elem_of_In, elem_of_map_to_list|]. unfold sibling. cbn.
      rewrite bool_decide_false, bool_decide_true, Ht, String.eqb_refl by done. done. }
    repeat match goal with H' : forall x, x ∈ _ -> _ = false |- _ => specialize (H' _ Hin); cbn in H'; apply String.eqb_neq in H' end. done.
Qed.

Lemma below_elem t level m j : j ∈ below t level m <-> exists r p, m !! (t, j) = Some r /\ ct_parent r = Some p /\ p ∈ level.
Proof.
  unfold below. rewrite list_elem_of_fmap. split.
  - intros ([[t' j'] r] & -> & [Hin Hb]%list_elem_of_In%filter_In). cbn in *. apply list_elem_of_In, elem_of_map_to_list in Hin.
    bool_prop. apply String.eqb_eq in H as ->. destruct (ct_parent r) as [p|] eqn:Ep; [|done]. bool_prop. eauto.
  - intros (r & p & Hj & Hp & Hl). exists ((t, j), r). split; [done|]. apply list_elem_of_In, filter_In. cbn.
    rewrite String.eqb_refl, Hp, bool_decide_true by done. split; [|done]. by apply list_elem_of_In, elem_of_map_to_list.
Qed.

Lemma update_ids_lookup t ids f m k : update_ids t ids f m !! k = (fun r => if decide (k.1 = t /\ k.2 ∈ ids) then f r else r) <$> m !! k.
Proof.
  unfold update_ids. rewrite map_lookup_imap. destruct (m !! k) as [r|]; cbn; [|done]. f_equal. destruct (decide _) as [[-> H]|H].
  - by rewrite String.eqb_refl, bool_decide_true.
  - destruct (String.eqb_spec k.1 t); [|done]. rewrite bool_decide_false; [done|]. naive_solver.
Qed.
End Statements.

(** ** The recursive query *)

Section Levels.
Context (t : string) (m : gmap key CategoryRow) (Hm : forest m).

(** What the query returns: the rows of the level and all that hangs below them. *)
Lemma levels_Some fuel rel level l : levels fuel t rel level m = Some l ->
  (forall j, j ∈ level -> (j, rel) ∈ l) /\
  (forall j n, (j, n) ∈ l -> rel <= n /\ (n = rel -> j ∈ level) /\
     (j ∈ level \/ exists r p, m !! (t, j) = Some r /\ ct_parent r = Some p /\ p ∈ map fst l)) /\
  (forall j r p, m !! (t, j) = Some r -> ct_parent r = Some p -> p ∈ map fst l -> j ∈ map fst l).
Proof.
  revert rel level l; induction fuel as [|fuel IH]; intros rel [|i level] l; cbn [levels]; try done.
  1,2: intros [= <-]; split_and!; [by intros ? ?%not_elem_of_nil | by intros ? ? ?%not_elem_of_nil | by intros ? ? ? _ _ ?%not_elem_of_nil].
  intros (rest & (H1 & H2 & H3)%IH & [= <-])%bind_Some.
  change ((i, rel) :: map (fun i => (i, rel)) level ++ rest) with (map (fun i => (i, rel)) (i :: level) ++ rest). set (lv := i :: level) in *.
  assert (Hc : forall j r p, m !! (t, j) = Some r -> ct_parent r = Some p -> p ∈ lv -> (j, rel + 1) ∈ rest).
  { intros j r p Hj Hp Hin. apply H1, below_elem. eauto. }
  assert (Hfst : forall p, p ∈ map fst (map (fun i => (i, rel)) lv ++ rest) <-> p ∈ lv \/ p ∈ map fst rest).
  { intros p. rewrite map_app, elem_of_app, map_map, map_id. done. }
  split_and!.
  - intros j Hj. apply elem_of_app. left. apply list_elem_of_fmap. eauto.
  - intros j n [(x & [= <- <-] & Hx)%list_elem_of_fmap | Hr]%elem_of_app; [split_and!; [lia | done | by left]|].
    destruct (H2 _ _ Hr) as (Hn & _ & Hp). split_and!; [lia | lia |]. right. destruct Hp as [(r & p & Hj & Ep & Hin)%below_elem | (r & p & Hj & Ep & Hin)];
      exists r, p; split_and!; try done; apply Hfst; [by left | by right].
  - intros j r p Hj Ep [Hin|Hin]%Hfst; apply Hfst; right; [|by eapply H3]. apply list_elem_of_fmap. exists (j, rel + 1). split; [done|]. by eapply Hc.
Qed.

(** Relative depths are differences of stored depths. *)
Lemma levels_depth D fuel rel level l : levels fuel t rel level m = Some l ->
  (forall j r, j ∈ level -> m !! (t, j) = Some r -> ct_depth r = D + rel) ->
  forall j n r, (j, n) ∈ l -> m !! (t, j) = Some r -> ct_depth r = D + n.
Proof.
  revert rel level l; induction fuel as [|fuel IH]; intros rel [|i level] l; cbn [levels]; try done.
  1,2: intros [= <-] _ j n r ?%not_elem_of_nil; done.
  intros (rest & Hrest & [= <-])%bind_Some Hlv.
  change ((i, rel) :: map (fun i => (i, rel)) level ++ rest) with (map (fun i => (i, rel)) (i :: level) ++ rest). set (lv := i :: level) in *. intros j n r [(x & [= <- <-] & Hx)%list_elem_of_fmap | Hr]%elem_of_app; [by apply Hlv|].
  eapply (IH _ _ _ Hrest); [|done]. intros j' r' (r1 & p & Hj' & Ep & Hin)%below_elem Hr'. rewrite Hj' in Hr'. injection Hr' as <-.
  destruct (Hm _ _ Hj') as ([_ Hf] & _). rewrite Ep in Hf. destruct Hf as (q & Hq & -> & _). cbn in Hq. rewrite (Hlv p q Hin Hq). lia.
Qed.

(** Three levels are enough, so the query ends. *)
Lemma levels_end fuel D rel level : 0 < D -> 0 <= rel -> (forall j, j ∈ level -> is_Some (m !! (t, j))) ->
  (forall j r, j ∈ level -> m !! (t, j) = Some r -> ct_depth r = D + rel) -> 3 < Z.of_nat fuel + D + rel -> is_Some (levels fuel t rel level m).
Proof.
  intros HD. revert rel level; induction fuel as [|fuel IH]; intros rel [|i level] Hrel Hsome Hlv Hf; cbn [levels]; try done.
  - destruct (Hsome i ltac:(by left)) as [r Hr]. pose proof (Hlv _ _ ltac:(by left) Hr). destruct (Hm _ _ Hr) as ([? _] & _). lia.
  - set (lv := i :: level) in *. destruct (IH (rel + 1) (below t lv m)) as [rest ->]; [lia | | | lia | by eexists].
    + intros j (r & p & Hj & _)%below_elem. by eexists.
    + intros j r (r1 & p & Hj & Ep & Hin)%below_elem Hr. rewrite Hj in Hr. injection Hr as <-. destruct (Hm _ _ Hj) as ([_ Hfit] & _). rewrite Ep in Hfit.
      destruct Hfit as (q & Hq & -> & _). cbn in Hq. rewrite (Hlv p q Hin Hq). lia.
Qed.

Lemma subtree_ends i : is_Some (subtree t i m).
Proof.
  unfold subtree. destruct (m !! (t, i)) as [r|] eqn:E.
  - destruct (Hm _ _ E) as ([? _] & _). apply (levels_end _ (ct_depth r)); [lia | lia | | | lia].
    + by intros j ->%list_elem_of_singleton.
    + intros j r' ->%list_elem_of_singleton Hr. rewrite E in Hr. injection Hr as <-. lia.
  - apply (levels_end _ 1); [lia | lia | by intros ? ?%not_elem_of_nil | by intros ? ? ?%not_elem_of_nil | lia].
Qed.
End Levels.

(** ** What the handlers keep *)

Lemma canonical_idem s : as_uuid (as_uuid s) = as_uuid s.
Proof. unfold as_uuid, toLowerCase. induction s as [|c s IH]; [done|]. cbn [smap]. f_equal; [|exact IH]. by destruct c as [[] [] [] [] [] [] [] []]. Qed.

Section Keep.
Implicit Types (d : db) (r : CategoryRow) (m : gmap key CategoryRow).

Lemma distinct_put m k r k' r' : distinct m k r -> m !! k' = Some r' -> k' <> k -> distinct m k' r' -> distinct (<[k := r]> m) k' r'.
Proof.
  intros Hk Hk' Hne Hd a x Ha Ht Hne' Hp. destruct (decide (a = k)) as [->|Hak].
  - rewrite lookup_insert_eq in Ha. injection Ha as <-. destruct (Hk k' r' Hk' ltac:(done) Hne ltac:(done)). split; by apply not_eq_sym.
  - rewrite lookup_insert_ne in Ha by done. by eapply Hd.
Qed.

Lemma distinct_put_self m k r : distinct m k r -> distinct (<[k := r]> m) k r.
Proof. intros Hk a x Ha Ht Hne Hp. rewrite lookup_insert_ne in Ha by done. by eapply Hk. Qed.

(** A row written in its place. *)
Lemma forest_put m k r : forest m -> as_uuid k.2 = k.2 -> 1 <= ct_depth r <= 3 -> ct_parent r <> Some k.2 -> distinct m k r ->
  match ct_parent r with
  | None => ct_depth r = 1
  | Some p => exists q, m !! (k.1, p) = Some q /\ ct_depth r = ct_depth q + 1 /\ (ct_status r = CAT_ACTIVE -> ct_status q = CAT_ACTIVE)
  end ->
  (forall j c, m !! (k.1, j) = Some c -> ct_parent c = Some k.2 -> ct_depth c = ct_depth r + 1 /\ (ct_status c = CAT_ACTIVE -> ct_status r = CAT_ACTIVE)) ->
  forest (<[k := r]> m).
Proof.
  intros Hm Hu Hd Hself Hdis Hpar Hch k' r' Hk'. destruct (decide (k' = k)) as [->|Hne].
  - rewrite lookup_insert_eq in Hk'. injection Hk' as <-. split_and!; [|by apply distinct_put_self|done]. split; [done|]. destruct (ct_parent r) as [p|]; [|done].
    destruct Hpar as (q & Hq & ?). exists q. rewrite lookup_insert_ne; [done|]. intros E. apply Hself. f_equal. by apply (f_equal snd) in E.
  - rewrite lookup_insert_ne in Hk' by done. destruct (Hm _ _ Hk') as ([Hr Hp] & Hdis' & Hu'). split_and!; [|by apply distinct_put|done]. split; [done|].
    destruct (ct_parent r') as [p|] eqn:Ep; [|done]. destruct Hp as (q & Hq & Hdq & Hsq). destruct (decide ((k'.1, p) = k)) as [Ek|Ek].
    + exists r. rewrite Ek, lookup_insert_eq. split; [done|]. apply (Hch k'.2 r'); [by rewrite <- Ek; destruct k' | by rewrite Ep, <- Ek].
    + exists q. by rewrite lookup_insert_ne.
Qed.

(** No category hangs below an id that is not there. *)
Lemma no_orphans m t i : forest m -> m !! (t, i) = None -> forall j c, m !! (t, j) = Some c -> ct_parent c <> Some i.
Proof. intros Hm Hn j c Hc Hp. destruct (Hm _ _ Hc) as ([_ Hf] & _). rewrite Hp in Hf. destruct Hf as (q & Hq & _). cbn in Hq. congruence. Qed.

Lemma children_of m t i r : forest m -> m !! (t, i) = Some r -> forall j c, m !! (t, j) = Some c -> ct_parent c = Some i ->
  ct_depth c = ct_depth r + 1 /\ (ct_status c = CAT_ACTIVE -> ct_status r = CAT_ACTIVE).
Proof. intros Hm Hr j c Hc Hp. destruct (Hm _ _ Hc) as ([_ Hf] & _). rewrite Hp in Hf. destruct Hf as (q & Hq & ? & ?). cbn in Hq. rewrite Hr in Hq. by injection Hq as <-. Qed.

Lemma free_id t i m : existsb (fun e : key * CategoryRow => String.eqb e.1.2 i) (map_to_list m) = false -> m !! (t, i) = None.
Proof.
  rewrite existsb_false. intros H. destruct (m !! (t, i)) as [x|] eqn:Ex; [|done]. specialize (H (t, i, x) ltac:(by apply elem_of_map_to_list)). cbn in H.
  by rewrite String.eqb_refl in H.
Qed.

Lemma create_forest t i dto d r d' : forest (categories d) -> create t i dto d = Ok (r, d') -> forest (categories d').
Proof.
  intros Hm H. unfold create in H. cbv zeta in H. inv_cat.
  assert (categories d !! (t, as_uuid i) = None /\ match cc_parentId dto with None => a1 = 1 | Some p => exists q, categories d !! (t, as_uuid p) = Some q /\
    a1 = ct_depth q + 1 /\ ct_status q = CAT_ACTIVE end /\ d2 = d) as (Hfree & Hpar & ->).
  { destruct (cc_parentId dto) as [p|]; inv_cat.
    all: repeat match goal with H' : find_category _ _ _ = Ok _ |- _ => apply find_category_Ok in H' as [-> ?] end; bool_prop.
    all: split_and!; try done; try (eexists; split_and!; done).
    all: by apply free_id. }
  apply put_category_Ok in Ha2 as (-> & Hd & Hs & _ & Hdis). cbn. apply forest_put; try done; [apply canonical_idem | |].
  - cbn. destruct (cc_parentId dto) as [p|]; [|done]. destruct Hpar as (q & Hq & -> & ?). exists q. by split_and!.
  - intros j c Hc Hp. cbn in Hc, Hp. by destruct (no_orphans _ _ _ Hm Hfree _ _ Hc).
Qed.

(** A change that leaves place and status of a category alone. *)
Lemma rewrite_forest t i r r' d u d' : forest (categories d) -> categories d !! (t, as_uuid i) = Some r ->
  ct_parent r' = ct_parent r -> ct_depth r' = ct_depth r -> ct_status r' = ct_status r -> put_category (t, as_uuid i) r' d = Ok (u, d') -> forest (categories d').
Proof.
  intros Hm Hr Ep Ed Es (-> & Hd & Hs & _ & Hdis)%put_category_Ok. cbn. destruct (Hm _ _ Hr) as ([_ Hf] & _ & Hu). apply forest_put; try done.
  - rewrite Ep, Ed, Es. done.
  - rewrite Ed, Es. by apply children_of.
Qed.

Lemma update_forest t i dto d r d' : forest (categories d) -> update t i dto d = Ok (r, d') -> forest (categories d').
Proof.
  intros Hm H. unfold update in H. destruct dto as [[n|] [s|]]; cbn in H; inv_cat.
  all: repeat match goal with H' : find_category _ _ _ = Ok _ |- _ => apply find_category_Ok in H' as [-> ?] end.
  all: match goal with Hr : categories _ !! _ = Some ?a, Hp : put_category _ _ _ = Ok _ |- _ => apply (rewrite_forest _ _ _ _ _ _ _ Hm Hr) in Hp; [exact Hp | done | done | done] end.
Qed.

Lemma remove_forest t i d u d' : forest (categories d) -> remove t i d = Ok (u, d') -> forest (categories d').
Proof.
  intros Hm H. unfold remove in H. inv_cat. match goal with H' : find_category _ _ _ = Ok _ |- _ => apply find_category_Ok in H' as [-> _] end. cbn. bool_prop.
  intros k r Hk. apply lookup_delete_Some in Hk as [Hne Hk]. destruct (Hm _ _ Hk) as ([Hd Hf] & Hdis & Hu). split_and!; [|by intros ? ? [_ ?]%lookup_delete_Some; apply Hdis|done].
  split; [done|]. destruct (ct_parent r) as [p|] eqn:Ep; [|done]. destruct Hf as (q & Hq & ?). exists q. rewrite lookup_delete_ne; [done|]. intros Ek.
  injection Ek as Et Ei. assert (Hin : k.2 ∈ below t [as_uuid i] (categories d)).
  { apply below_elem. exists r, p. rewrite Et, Ei. split_and!; [by destruct k | done | by left]. }
  match goal with H' : below _ _ _ = [] |- _ => rewrite H' in Hin end. by apply not_elem_of_nil in Hin.
Qed.
End Keep.

(** ** Moves and changes of status *)

Section Subtree.
Implicit Types (d : db) (r : CategoryRow) (m : gmap key CategoryRow).

Lemma query_subtree_Ok t i d l d' : query_subtree t i d = Ok (l, d') -> d' = d /\ subtree t (as_uuid i) (categories d) = Some l.
Proof. unfold query_subtree. intros H. inv_cat. destruct (subtree _ _ _) eqn:E; inv_cat. done. Qed.

Lemma subtree_facts m t i r l : forest m -> m !! (t, i) = Some r -> subtree t i m = Some l ->
  (i, 0) ∈ l /\
  (forall j n, (j, n) ∈ l -> 0 <= n /\ (n = 0 -> j = i) /\ (j = i \/ exists c p, m !! (t, j) = Some c /\ ct_parent c = Some p /\ p ∈ map fst l)) /\
  (forall j c p, m !! (t, j) = Some c -> ct_parent c = Some p -> p ∈ map fst l -> j ∈ map fst l) /\
  (forall j n c, (j, n) ∈ l -> m !! (t, j) = Some c -> ct_depth c = ct_depth r + n).
Proof.
  intros Hm Hr H. unfold subtree in H. rewrite Hr in H. destruct (levels_Some t m _ _ _ _ H) as (H1 & H2 & H3). split_and!.
  - apply H1. by left.
  - intros j n Hj. destruct (H2 j n Hj) as (? & Hz & Hp). split_and!; [done | by intros ->; specialize (Hz eq_refl) as ?%list_elem_of_singleton |].
    destruct Hp as [?%list_elem_of_singleton|]; [by left | by right].
  - exact H3.
  - eapply levels_depth; [done | done |]. intros j c ->%list_elem_of_singleton Hc. rewrite Hr in Hc. injection Hc as <-. lia.
Qed.

Lemma update_status_forest t ids m : forest m ->
  (forall j c p, m !! (t, j) = Some c -> ct_parent c = Some p -> p ∈ ids -> j ∈ ids) ->
  forest (update_ids t ids (fun r => with_category_status r CAT_INACTIVE) m).
Proof.
  intros Hm Hcl k r'. rewrite update_ids_lookup. intros (r & Hk & ->)%fmap_Some. destruct (Hm _ _ Hk) as ([Hd Hf] & Hdis & Hu).
  assert (Hsame : forall k r, let r1 := if decide (k.1 = t /\ k.2 ∈ ids) then with_category_status r CAT_INACTIVE else r in
    ct_parent r1 = ct_parent r /\ ct_depth r1 = ct_depth r /\ ct_slug r1 = ct_slug r /\ ct_normalizedName r1 = ct_normalizedName r).
  { intros k0 r0 r1. subst r1. by destruct (decide _). }
  destruct (Hsame k r) as (E1 & E2 & E3 & E4). cbv zeta in *. unfold fits. rewrite E1, E2. split_and!; [lia | lia | | | done].
  - destruct (ct_parent r) as [p|] eqn:Ep; [|done]. destruct Hf as (q & Hq & Hdq & Hs). rewrite update_ids_lookup, Hq. cbn. eexists. split; [done|]. split.
    + rewrite Hdq. destruct (decide (k.1 = t /\ p ∈ ids)); done.
    + destruct (decide (k.1 = t /\ k.2 ∈ ids)) as [_|Hn]; [done|]. intros Ha. destruct (decide (k.1 = t /\ p ∈ ids)) as [[Et Hp]|_]; [|by apply Hs].
      destruct Hn. split; [done|]. apply (Hcl _ r p); [rewrite <- Et; by destruct k | done | done].
  - intros k' r1. rewrite update_ids_lookup. intros (r0 & Hk' & ->)%fmap_Some. destruct (Hsame k' r0) as (-> & _ & -> & ->). rewrite E1, E3, E4. by apply Hdis.
Qed.

(** After the guards of a deactivation no child of the category is active. *)
Lemma deactivate_keeps t i c d u d' r : forest (categories d) -> categories d !! (t, as_uuid i) = Some r -> deactivate t i c d = Ok (u, d') ->
  forest (categories d') /\ (exists r', categories d' !! (t, as_uuid i) = Some r' /\ ct_parent r' = ct_parent r /\ ct_depth r' = ct_depth r) /\
  (forall j x, categories d' !! (t, j) = Some x -> ct_parent x = Some (as_uuid i) -> ct_status x = CAT_INACTIVE).
Proof.
  intros Hm Hr H. unfold deactivate in H. cbv zeta in H. inv_cat.
  match goal with H' : query_subtree _ _ _ = Ok _ |- _ => apply query_subtree_Ok in H' as (-> & Hl) end. set (m := categories d) in *.
  destruct (subtree_facts _ _ _ _ _ Hm Hr Hl) as (S0 & S1 & S2 & S3). unfold when in H. destruct (c && _) eqn:Ec; inv_cat; cbn; fold m.
  - split_and!; [by apply update_status_forest | |].
    + rewrite update_ids_lookup, Hr. cbn. eexists. split; [done|]. by destruct (decide _).
    + intros j x. rewrite update_ids_lookup. intros (x0 & Hx & ->)%fmap_Some Hp. destruct (decide _) as [_|Hn]; [done|]. destruct Hn. split; [done|].
      eapply S2; [exact Hx | done |]. apply list_elem_of_fmap. by exists (as_uuid i, 0).
  - split_and!; [done | by exists r |]. intros j x Hx Hp. fold m in Hx. assert (Hj : j ∈ map fst a) by (eapply S2; [exact Hx | done | apply list_elem_of_fmap; by exists (as_uuid i, 0)]).
    assert (Hji : j <> as_uuid i) by (intros ->; destruct (children_of _ _ _ _ Hm Hx _ _ Hx Hp); lia).
    apply andb_false_iff in Ec as [-> | Hlen].
    + rewrite andb_true_r in E. apply negb_false_iff, bool_decide_eq_true in E. destruct (ct_status x) eqn:Es; [|done]. exfalso.
      apply (not_elem_of_nil (j, Some CAT_ACTIVE)). rewrite <- E. apply list_elem_of_In, filter_In. split.
      * apply list_elem_of_In, list_elem_of_fmap. exists j. fold m. rewrite Hx. cbn. by rewrite Es.
      * cbn. rewrite bool_decide_true by done. destruct (String.eqb_spec j i) as [->|]; [|done]. destruct Hji. symmetry. apply (Hm _ _ Hx).
    + apply Nat.ltb_ge in Hlen. rewrite length_map in Hlen. apply list_elem_of_fmap in Hj as ([j' n] & -> & Hj). cbn in *.
      destruct a as [|a0 [|a1 l]]; cbn in Hlen; [by apply not_elem_of_nil in Hj | | lia].
      apply list_elem_of_singleton in S0 as <-. apply list_elem_of_singleton in Hj as [= -> ->]. done.
Qed.

Lemma updateStatus_forest t i s c d r d' : forest (categories d) -> updateStatus t i s c d = Ok (r, d') -> forest (categories d').
Proof.
  intros Hm H. unfold updateStatus in H. cbv zeta in H. apply tx_bind_Ok in H as (r0 & d0 & [-> Hr]%find_category_Ok & H).
  apply tx_bind_Ok in H as ([] & d1 & H1 & H). apply tx_bind_Ok in H as ([] & d2 & (-> & Hd & Hs & Hp & Hdis)%put_category_Ok & H). apply tx_ret_Ok in H as [= -> ->]. cbn in *.
  destruct (Hm _ _ Hr) as ([_ Hf] & _ & Hu). cbn in Hf, Hu. destruct s.
  - assert (d1 = d /\ match ct_parent r0 with None => True | Some p => exists q, categories d !! (t, p) = Some q /\ ct_status q = CAT_ACTIVE end) as [-> Ha].
    { destruct (ct_parent r0) as [p|] eqn:Ep; [|by inv_cat]. destruct Hf as (q & Hq & _). inv_cat. rewrite Hq in *. destruct (bool_decide _) eqn:E; inv_cat.
      bool_prop. by eauto. }
    apply forest_put; try done; cbn.
    + destruct (ct_parent r0) as [p|]; [|done]. destruct Hf as (q & Hq & ? & _), Ha as (q' & Hq' & ?). rewrite Hq in Hq'. injection Hq' as <-. by exists q.
    + intros j x Hx Hpx. destruct (children_of _ _ _ _ Hm Hr _ _ Hx Hpx). done.
  - destruct (deactivate_keeps _ _ _ _ _ _ _ Hm Hr H1) as (Hm1 & (r1 & Hr1 & E1 & E2) & Hch). destruct (Hm1 _ _ Hr1) as ([_ Hf1] & _).
    apply forest_put; try done; cbn.
    + rewrite E1, E2 in Hf1. destruct (ct_parent r0) as [p|]; [|done]. destruct Hf1 as (q & Hq & ? & _). by exists q.
    + intros j x Hx Hpx. destruct (children_of _ _ _ _ Hm1 Hr1 _ _ Hx Hpx). split; [lia|]. by rewrite (Hch _ _ Hx Hpx).
Qed.
End Subtree.

Section Moves.
Implicit Types (d : db) (r : CategoryRow) (m : gmap key CategoryRow).

(** The rows after a move: the category in its new place, its descendants with it. *)
Definition moved (t i : string) (mv : Move) (k : key) (r : CategoryRow) : CategoryRow :=
  if decide (k = (t, i)) then with_place r (mv_parent mv) (mv_depth mv)
  else if decide (k.1 = t /\ k.2 ∈ mv_descendants mv) then with_place r (ct_parent r) (ct_depth r + mv_delta mv) else r.

Lemma moved_same t i mv k r : ct_slug (moved t i mv k r) = ct_slug r /\ ct_normalizedName (moved t i mv k r) = ct_normalizedName r /\
  ct_status (moved t i mv k r) = ct_status r /\ (k <> (t, i) -> ct_parent (moved t i mv k r) = ct_parent r).
Proof. unfold moved. destruct (decide _); [done|]. by destruct (decide _). Qed.

Lemma with_place_id r : with_place r (ct_parent r) (ct_depth r + 0) = r.
Proof. destruct r. unfold with_place. cbn. by rewrite Z.add_0_r. Qed.

(** What the updates of a move write, and what the constraints made sure of. *)
Lemma apply_reparent_Ok t i mv d r r' d' : categories d !! (t, as_uuid i) = Some r -> as_uuid i ∉ mv_descendants mv ->
  apply_reparent t i mv d = Ok (r', d') ->
  (forall k, categories d' !! k = moved t (as_uuid i) mv k <$> categories d !! k) /\ 1 <= mv_depth mv <= 3 /\ mv_parent mv <> Some (as_uuid i) /\
  distinct (categories d) (t, as_uuid i) (with_place r (mv_parent mv) (mv_depth mv)) /\
  (mv_delta mv <> 0 -> forall j x, j ∈ mv_descendants mv -> categories d !! (t, j) = Some x -> 1 <= ct_depth x + mv_delta mv <= 3).
Proof.
  intros Hr Hni H. unfold apply_reparent in H. apply tx_bind_Ok in H as (r0 & d0 & [-> Hr0]%find_category_Ok & H). rewrite Hr in Hr0. injection Hr0 as <-.
  apply tx_bind_Ok in H as ([] & d1 & (-> & Hd & Hs & _ & Hdis)%put_category_Ok & H). apply tx_bind_Ok in H as ([] & d2 & Hw & [-> _]%find_category_Ok). cbn in Hd, Hs.
  set (m := categories d) in *.
  assert (Hput : forall k, <[(t, as_uuid i) := with_place r (mv_parent mv) (mv_depth mv)]> m !! k =
    (fun x => if decide (k = (t, as_uuid i)) then with_place x (mv_parent mv) (mv_depth mv) else x) <$> m !! k).
  { intros k. destruct (decide (k = (t, as_uuid i))) as [->|Hne]; [by rewrite lookup_insert_eq, Hr|]. rewrite lookup_insert_ne by done. by destruct (m !! k). }
  unfold when in Hw. destruct (_ && _) eqn:E.
  - unfold shift_depths in Hw. inv_cat. cbn. split_and!; try done; try lia.
    + intros k. rewrite update_ids_lookup, Hput. destruct (m !! k) as [x|]; [|done]. cbn. f_equal. unfold moved. destruct (decide (k = (t, as_uuid i))) as [->|]; [|done].
      rewrite decide_False; [done|]. cbn. tauto.
    + intros _ j x Hj Hx. bool_prop. rewrite forallb_forall in *. specialize (E0 j ltac:(by apply list_elem_of_In)). cbn in E0. fold m in E0. rewrite Hput, Hx in E0. cbn in E0.
      rewrite decide_False in E0 by (intros [= ->]; done). unfold depth_ok in E0. bool_prop. lia.
  - inv_cat. cbn. assert (Hz : mv_descendants mv = [] \/ mv_delta mv = 0) by (bool_prop; [by left | by right]). split_and!; try done; try lia.
    + intros k. rewrite Hput. destruct (m !! k) as [x|]; [|done]. cbn. f_equal. unfold moved. destruct (decide (k = (t, as_uuid i))); [done|].
      destruct (decide _) as [[_ Hin]|]; [|done]. destruct Hz as [Hz|Hz]; rewrite Hz in *; [by apply not_elem_of_nil in Hin | by rewrite with_place_id].
    + intros Hnz j x Hj. destruct Hz as [Hz|]; [|done]. rewrite Hz in Hj. by apply not_elem_of_nil in Hj.
Qed.

Lemma fold_max_ge (l : list (string * Z)) z : z <= fold_left (fun b (node : string * Z) => Z.max b node.2) l z /\
  (forall j n, (j, n) ∈ l -> n <= fold_left (fun b (node : string * Z) => Z.max b node.2) l z).
Proof.
  revert z; induction l as [|[i n] l IH]; intros z; cbn [fold_left]; [split; [lia|]; by intros ? ? ?%not_elem_of_nil|].
  destruct (IH (Z.max z n)) as [H1 H2]. cbn in *. split; [lia|]. intros j n' [[= -> ->]|Hin]%elem_of_cons; [lia | by eapply H2].
Qed.

(** What the checks of a move made sure of, when it names its category canonically. *)
Lemma plan_reparent_Ok t i p d mv d' : forest (categories d) -> as_uuid i = i -> plan_reparent t i p d = Ok (mv, d') ->
  exists r l, d' = d /\ categories d !! (t, i) = Some r /\ subtree t i (categories d) = Some l /\ mv_parent mv = as_uuid <$> p /\
    mv_delta mv = mv_depth mv - ct_depth r /\ (forall j, j ∈ mv_descendants mv <-> j ∈ map fst l /\ j <> i) /\
    (forall j n, (j, n) ∈ l -> mv_depth mv + n <= 3) /\
    match p with None => mv_depth mv = 1 | Some x => exists q, categories d !! (t, as_uuid x) = Some q /\ ct_status q = CAT_ACTIVE /\ mv_depth mv = ct_depth q + 1 end.
Proof.
  intros Hm Hi H. unfold plan_reparent in H. apply tx_bind_Ok in H as (r & d0 & [-> Hr]%find_category_Ok & H). rewrite Hi in Hr.
  apply tx_bind_Ok in H as (z & d1 & Hz & H). apply tx_bind_Ok in H as (l & d2 & (-> & Hl)%query_subtree_Ok & H). rewrite Hi in Hl.
  apply tx_bind_Ok in H as (v & d3 & [Hv ->]%embed_Ok & H). apply tx_ret_Ok in H as [= -> ->]. cbn [mv_parent mv_depth mv_delta mv_descendants].
  assert (d1 = d /\ match p with None => True | Some x => exists q, categories d !! (t, as_uuid x) = Some q /\ ct_status q = CAT_ACTIVE /\ z = ct_depth q end) as [-> Hp].
  { destruct p as [x|]; inv_cat; [|done]. match goal with H' : find_category _ _ _ = Ok _ |- _ => apply find_category_Ok in H' as [-> ?] end. bool_prop. eauto. }
  unfold validateCategoryReparent in Hv. cbn in Hv. repeat (case_if_in Hv; [done|]). inv_ok. cbn [fst].
  match goal with H' : (MAX_CATEGORY_DEPTH <? _) = false |- _ => apply Z.ltb_ge in H' end. unfold MAX_CATEGORY_DEPTH in *.
  exists r, l. split_and!; try done.
  - intros j. rewrite !list_elem_of_fmap. split.
    + intros ([j' n] & -> & [Hin Hn]%list_elem_of_In%filter_In). cbn in *. apply negb_true_iff, String.eqb_neq in Hn. split; [|done]. exists (j', n). split; [done|]. by apply list_elem_of_In.
    + intros [([j' n] & -> & Hin) Hn]. exists (j', n). split; [done|]. apply list_elem_of_In, filter_In. split; [by apply list_elem_of_In|]. cbn in *. by apply negb_true_iff, String.eqb_neq.
  - intros j n Hj. pose proof (proj2 (fold_max_ge l 0) j n Hj). lia.
  - destruct p as [x|]; [|done]. destruct Hp as (q & ? & ? & ->). by exists q.
Qed.

Section Moved.
Context (t i : string) (m : gmap key CategoryRow) (Hm : forest m) (r0 : CategoryRow) (Hr : m !! (t, i) = Some r0) (l : list (string * Z))
  (Hl : subtree t i m = Some l) (mv : Move) (Hde : forall j, j ∈ mv_descendants mv <-> j ∈ map fst l /\ j <> i) (Ed : mv_delta mv = mv_depth mv - ct_depth r0).

Lemma root_in_subtree : i ∈ map fst l.
Proof. apply list_elem_of_fmap. exists (i, 0). split; [done|]. apply (subtree_facts _ _ _ _ _ Hm Hr Hl). Qed.

(** A child moves with its parent, and nothing else does. *)
Lemma child_moves k x y : m !! k = Some x -> ct_parent x = Some y -> k <> (t, i) -> (k.1 = t /\ k.2 ∈ map fst l <-> k.1 = t /\ y ∈ map fst l).
Proof.
  destruct (subtree_facts _ _ _ _ _ Hm Hr Hl) as (_ & S1 & S2 & _). intros Hk Ey Hne. split; intros [Ek Hin]; (split; [done|]); destruct k as [t' j]; cbn in *; subst t'.
  - apply list_elem_of_fmap in Hin as ([j' n] & -> & Hj). destruct (S1 _ _ Hj) as (_ & _ & [->|(c & y' & Hc & Ey' & Hin)]); [done|]. cbn in Hk. congruence.
  - by eapply S2.
Qed.

Lemma moved_depth k x : m !! k = Some x -> ct_depth (moved t i mv k x) = ct_depth x + if decide (k.1 = t /\ k.2 ∈ map fst l) then mv_delta mv else 0.
Proof.
  intros Hk. unfold moved. destruct (decide (k = (t, i))) as [->|Hne].
  - rewrite Hr in Hk. injection Hk as <-. rewrite decide_True by (split; [done | apply root_in_subtree]). cbn. lia.
  - destruct (decide (k.1 = t /\ k.2 ∈ mv_descendants mv)) as [[Ek Hin]|Hn].
    + rewrite decide_True; [done|]. apply Hde in Hin as [? _]. done.
    + rewrite decide_False; [lia|]. intros [Ek Hin]. apply Hn. split; [done|]. apply Hde. split; [done|]. intros Ei. apply Hne. destruct k; cbn in *; congruence.
Qed.

Context (Hrange : 1 <= mv_depth mv <= 3) (Hdis : distinct m (t, i) (with_place r0 (mv_parent mv) (mv_depth mv)))
  (Hshift : mv_delta mv <> 0 -> forall j x, j ∈ mv_descendants mv -> m !! (t, j) = Some x -> 1 <= ct_depth x + mv_delta mv <= 3)
  (Hplace : match mv_parent mv with
            | None => mv_depth mv = 1
            | Some y => (y ∉ map fst l) /\ exists q, m !! (t, y) = Some q /\ ct_status q = CAT_ACTIVE /\ mv_depth mv = ct_depth q + 1
            end).
Context (m' : gmap key CategoryRow) (Hlk : forall k, m' !! k = moved t i mv k <$> m !! k).

Lemma moved_range k x : m !! k = Some x -> 1 <= ct_depth (moved t i mv k x) <= 3.
Proof.
  intros Hk. destruct (Hm _ _ Hk) as ([Hx _] & _). unfold moved. destruct (decide (k = (t, i))); [done|]. destruct (decide _) as [[Ek Hin]|]; [|done]. cbn.
  destruct (decide (mv_delta mv = 0)) as [->|]; [lia|]. apply (Hshift ltac:(done) k.2); [done|]. rewrite <- Ek. by destruct k.
Qed.

Lemma moved_fits k x : m !! k = Some x -> fits m' k (moved t i mv k x).
Proof.
  intros Hk. split; [by apply moved_range|]. destruct (moved_same t i mv k x) as (_ & _ & Es & Ep). rewrite Es. destruct (decide (k = (t, i))) as [->|Hne].
  - rewrite (moved_depth _ _ Hk), Hr in *. injection Hk as <-. rewrite decide_True by (split; [done | apply root_in_subtree]). unfold moved. rewrite decide_True by done. cbn.
    destruct (mv_parent mv) as [y|]; [|lia]. destruct Hplace as (Hy & q & Hq & Hs & Eq). exists (moved t i mv (t, y) q). rewrite Hlk, Hq, (moved_depth _ _ Hq).
    rewrite decide_False by (by intros [_ ?]). destruct (moved_same t i mv (t, y) q) as (_ & _ & -> & _). split_and!; [done | lia | done].
  - rewrite (Ep Hne). destruct (Hm _ _ Hk) as ([_ Hf] & _). rewrite (moved_depth _ _ Hk). destruct (ct_parent x) as [y|] eqn:Ey.
    + destruct Hf as (q & Hq & Hdq & Hs). exists (moved t i mv (k.1, y) q). rewrite Hlk, Hq, (moved_depth _ _ Hq). destruct (moved_same t i mv (k.1, y) q) as (_ & _ & -> & _).
      split_and!; [done | | done]. rewrite (decide_ext _ _ _ _ (child_moves _ _ _ Hk Ey Hne)). cbn. lia.
    + rewrite decide_False; [lia|]. intros [Ek Hin]. apply list_elem_of_fmap in Hin as ([j n] & Ej & Hj). cbn in Ej.
      destruct (subtree_facts _ _ _ _ _ Hm Hr Hl) as (_ & S1 & _). destruct (S1 _ _ Hj) as (_ & _ & [->|(c & y & Hc & Ey' & _)]);
        destruct k as [t' j']; cbn in *; subst; [done | congruence].
Qed.

Lemma moved_distinct k x : m !! k = Some x -> distinct m' k (moved t i mv k x).
Proof.
  intros Hk k' r. rewrite Hlk. intros (x' & Hk' & ->)%fmap_Some Ht Hne Hp. destruct (moved_same t i mv k x) as (E1 & E2 & _ & E4), (moved_same t i mv k' x') as (F1 & F2 & _ & F4).
  rewrite E1, E2, F1, F2. assert (Hroot : forall z, ct_parent (moved t i mv (t, i) z) = mv_parent mv) by (intros z; unfold moved; by rewrite decide_True).
  destruct (decide (k = (t, i))) as [->|Hki], (decide (k' = (t, i))) as [->|Hk'i]; [done | | |].
  - rewrite Hr in Hk. injection Hk as <-. apply (Hdis k' x'); try done. by rewrite <- (F4 Hk'i), Hp, Hroot.
  - rewrite Hr in Hk'. injection Hk' as <-. destruct (Hdis k x Hk) as [? ?]; [done | done | by rewrite <- (E4 Hki), <- Hp, Hroot | split; by apply not_eq_sym].
  - destruct (Hm _ _ Hk) as (_ & Hd & _). apply (Hd k' x'); try done. by rewrite <- (F4 Hk'i), <- (E4 Hki).
Qed.

Lemma moved_forest : forest m'.
Proof. intros k r. rewrite Hlk. intros (x & Hk & ->)%fmap_Some. split_and!; [by apply moved_fits | by apply moved_distinct | apply (Hm _ _ Hk)]. Qed.
End Moved.

Lemma reparent_forest t i p d r d' : forest (categories d) -> as_uuid i = i -> reparent t i p d = Ok (r, d') -> forest (categories d').
Proof.
  intros Hm Hi H. unfold reparent in H. apply tx_bind_Ok in H as (mv & d0 & Hplan & H).
  destruct (plan_reparent_Ok _ _ _ _ _ _ Hm Hi Hplan) as (r0 & l & -> & Hr & Hl & Ep & Ed & Hde & Hmax & Hpar).
  destruct (subtree_facts _ _ _ _ _ Hm Hr Hl) as (_ & S1 & _ & S3). pose proof Hr as Hr'. rewrite <- Hi in Hr'.
  destruct (apply_reparent_Ok _ _ _ _ _ _ _ Hr' ltac:(rewrite Hi, Hde; tauto) H) as (Hlk & Hrange & Hself & Hdis & Hshift). rewrite Hi in *.
  apply (moved_forest t i (categories d) Hm r0 Hr l Hl mv Hde Ed Hrange Hdis Hshift); [|done].
  rewrite Ep in *. destruct p as [x|]; cbn in *; [|done]. destruct Hpar as (q & Hq & Hs & Eq). split; [|by exists q].
  (* a descendant lies too deep to become the parent *)
  intros ([x' n] & Ex & Hx)%list_elem_of_fmap. cbn in Ex. subst x'. pose proof (S3 _ _ _ Hx Hq). pose proof (Hmax _ _ Hx). destruct (S1 _ _ Hx) as (Hn & Hz & _).
  destruct (Hm _ _ Hr) as ([? _] & _). destruct (decide (n = 0)) as [->|]; [|lia]. apply Hself. f_equal. by apply Hz.
Qed.
End Moves.

(** ** Over all requests *)

Lemma serve_forest t q d : forest (categories d) -> canonical q -> forest (categories (serve t q d)).
Proof.
  intros Hm Hc. destruct q as [i dto|i dto|i p|i s c|i|mp]; cbn [serve]; [..|done]; unfold after.
  - destruct (create t i dto d) as [[r d']|] eqn:E; [by eapply create_forest | done].
  - destruct (update t i dto d) as [[r d']|] eqn:E; [by eapply update_forest | done].
  - destruct (reparent t i p d) as [[r d']|] eqn:E; [by eapply reparent_forest | done].
  - destruct (updateStatus t i s c d) as [[r d']|] eqn:E; [by eapply updateStatus_forest | done].
  - destruct (remove t i d) as [[r d']|] eqn:E; [by eapply remove_forest | done].
Qed.

Lemma reachable_forest d : reachable d -> forest (categories d).
Proof. induction 1; [by intros k r H; cbn in H; rewrite lookup_empty in H | by apply serve_forest]. Qed.

(** C17.  Categories form a forest of depth three as long as requests are served one
    at a time.  After any sequence of creations, renamings, moves, changes of status and
    removals, by any tenants and whatever happens to the products in between, in which
    each request runs after the one before it has finished and moves name their category
    in the database's own spelling: a root has depth 1 and every other category lies one
    below an existing category of its tenant, never deeper than 3; above an active
    category every category is active; siblings differ in slug and in name; and the
    recursive query for a subtree ends with the category and all below it.  Two moves
    at the same time are excluded: the query for the subtree locks nothing, and
    [concurrent_moves_exceed_depth] shows a fourth level after two of them. *)
Theorem categories_form_a_forest (d : db) : reachable d ->
  (forall t i r, categories d !! (t, i) = Some r -> 1 <= ct_depth r <= 3 /\
     match ct_parent r with
     | None => ct_depth r = 1
     | Some p => exists q, categories d !! (t, p) = Some q /\ ct_depth r = ct_depth q + 1 /\ (ct_status r = CAT_ACTIVE -> ct_status q = CAT_ACTIVE)
     end) /\
  (forall t i j r s, categories d !! (t, i) = Some r -> categories d !! (t, j) = Some s -> i <> j -> ct_parent r = ct_parent s ->
     ct_slug r <> ct_slug s /\ ct_normalizedName r <> ct_normalizedName s) /\
  (forall t i r, categories d !! (t, i) = Some r -> exists l, subtree t i (categories d) = Some l /\ i ∈ map fst l /\
     forall j c p, categories d !! (t, j) = Some c -> ct_parent c = Some p -> p ∈ map fst l -> j ∈ map fst l).
Proof.
  intros Hm%reachable_forest. split_and!.
  - intros t i r Hr. apply (Hm _ _ Hr).
  - intros t i j r s Hr Hs Hne Hp. destruct (Hm _ _ Hs) as (_ & Hd & _). apply (Hd (t, i) r); try done. by intros [= ->].
  - intros t i r Hr. destruct (subtree_ends t _ Hm i) as [l Hl]. exists l. destruct (subtree_facts _ _ _ _ _ Hm Hr Hl) as (? & _ & ? & _). split_and!; try done.
    apply list_elem_of_fmap. by exists (i, 0).
Qed.

Definition serve_all (d : db) (qs : list request) : db := fold_left (fun d q => serve "t" q d) qs d.
Definition no_categories : db := {| categories := ∅; products := ∅ |}.
Definition named (name : string) (parent : option string) : CreateCategoryReqDto := {| cc_name := name; cc_slug := None; cc_parentId := parent |}.
Definition place (d : db) (i : string) : option (option string * Z) := (fun r => (ct_parent r, ct_depth r)) <$> categories d !! ("t", i).

Lemma serve_all_reachable qs d : reachable d -> Forall canonical qs -> reachable (serve_all d qs).
Proof. unfold serve_all. revert d; induction qs as [|q qs IH]; intros d Hd Hq; [done|]. inversion Hq; subst. cbn [fold_left]. apply IH; [|done]. by constructor. Qed.

(** A shop with shirts under clothes, and food; shirts move to the top and clothes close. *)
Definition category_demo : db := serve_all no_categories
  [Create "c" (named "Clothes" None); Create "s" (named "Shirts" (Some "C")); Create "f" (named "Food" None); Reparent "s" None; UpdateStatus "c" CAT_INACTIVE false].

Lemma categories_form_a_forest_witness : place category_demo "s" = Some (None, 1) /\ ct_status <$> categories category_demo !! ("t", "c") = Some CAT_INACTIVE /\
  exists l, subtree "t" "s" (categories category_demo) = Some l /\ "s" ∈ map fst l.
Proof.
  split; [vm_compute; reflexivity|]. split; [vm_compute; reflexivity|].
  assert (Hd : reachable category_demo) by (apply serve_all_reachable; [constructor | repeat (constructor; try reflexivity)]).
  destruct (proj2 (proj2 (categories_form_a_forest category_demo Hd)) "t" "s"
    {| ct_parent := None; ct_name := "Shirts"; ct_normalizedName := "shirts"; ct_slug := "shirts"; ct_depth := 1; ct_status := CAT_ACTIVE |}
    ltac:(vm_compute; reflexivity)) as (l & Hl & Hin & _).
  exists l. split; [exact Hl | exact Hin].
Defined.

(** ** Where the tree is lost *)

(** Capital letters in an id break the tree.  A move compares the id of the request
    with the ids of the subtree as text.  Written in capitals, the id differs from the
    category's own, so the move shifts the depth of the category a second time: [x],
    moved from depth 3 to below the root, is stored with depth 1 instead of 2.  Then the
    root may be moved below its own descendant [x], named in capitals: the two become
    each other's parent, and the query for their subtree never ends. *)
Theorem capital_id_makes_a_cycle :
  let chain := serve_all no_categories [Create "r" (named "Root" None); Create "y" (named "Y" (Some "r")); Create "x" (named "X" (Some "y"))] in
  let shifted := serve_all chain [Reparent "X" (Some "r")] in
  let cyclic := serve_all shifted [Reparent "r" (Some "X")] in
  place shifted "x" = Some (Some "r", 1) /\ place cyclic "r" = Some (Some "x", 2) /\ place cyclic "x" = Some (Some "r", 2) /\
  subtree "t" "r" (categories cyclic) = None.
Proof. vm_compute. by split_and!. Qed.

(** Two moves at the same time exceed the depth.  The query for the subtree does
    not lock what it finds: [x] is moved below [p] while the parent [q] of [p] is moved
    below [r]; each locks its category and its new parent, four different rows, and
    checks the tree it sees.  After both, [x] lies at the fourth level and is stored
    with depth 3, as its parent is. *)
Theorem concurrent_moves_exceed_depth :
  let d := serve_all no_categories [Create "q" (named "Q" None); Create "p" (named "P" (Some "q")); Create "x" (named "X" None); Create "r" (named "R" None)] in
  exists first second,
    plan_reparent "t" "x" (Some "p") d = Ok (first, d) /\ plan_reparent "t" "q" (Some "r") d = Ok (second, d) /\
    let d' := after (apply_reparent "t" "q" second) (after (apply_reparent "t" "x" first) d) in
    place d' "x" = Some (Some "p", 3) /\ place d' "p" = Some (Some "q", 3) /\ place d' "q" = Some (Some "r", 2) /\ place d' "r" = Some (None, 1).
Proof. do 2 eexists. split; [vm_compute; reflexivity|]. split; [vm_compute; reflexivity|]. vm_compute. by split_and!. Qed.
