(* ===== verification/PlatformDomain.v ===== *)
(** * The rules of stores, members and branches

    apps/platform/src/domain/platform-domain.ts. *)

From S2P Require Import Prelude JsNumber JsString CatalogDomain.
From Stdlib Require Import Ascii.

Open Scope Z_scope.

Inductive PlatformDomainErrorCode :=
| ACCOUNT_NOT_ACTIVE | INVALID_SUBDOMAIN | SUBDOMAIN_EXISTS | MEMBER_ALREADY_EXISTS | OWNER_ROLE_LOCKED | INVALID_BRANCH_CODE | BRANCH_CODE_EXISTS
| LAST_ACTIVE_BRANCH.

Inductive PlatformBranchStatus := BR_ACTIVE | BR_INACTIVE.

#[export] Instance PlatformBranchStatus_eq_dec : EqDecision PlatformBranchStatus.
Proof. solve_decision. Defined.

Abbreviation res := (result PlatformDomainErrorCode).

(** [PlatformDomainError] carries no HTTP status of its own. *)
Definition refuse {A} (c : PlatformDomainErrorCode) : res A := Throw (DomainError c 500).

Fixpoint last_char (c : ascii) (s : string) : ascii := match s with "" => c | String c' s' => last_char c' s' end.

(** [^[a-z0-9][a-z0-9-]{1,61}[a-z0-9]$]. *)
Definition SUBDOMAIN_REGEX (s : string) : bool :=
  matches is_alnum_lower (fun c => is_alnum_lower c || Ascii.eqb c "-") 2 62 s && is_alnum_lower (last_char "-" s).

Definition BRANCH_CODE_REGEX : string -> bool := matches is_alnum_upper (fun c => is_alnum_upper c || one_of "_-" c) 1 31.

Definition SubdomainVO_create (raw : string) : res string :=
  let normalized := toLowerCase (trim raw) in if SUBDOMAIN_REGEX normalized then Ok normalized else refuse INVALID_SUBDOMAIN.

Definition BranchCodeVO_create (raw : string) : res string :=
  let normalized := toUpperCase (trim raw) in if BRANCH_CODE_REGEX normalized then Ok normalized else refuse INVALID_BRANCH_CODE.

Definition assertAccountIsActive (status : option string) : res unit :=
  if bool_decide (status = Some "active") then Ok tt else refuse ACCOUNT_NOT_ACTIVE.

Record TenantMembershipAggregate := { tm_accountId : string; tm_tenantId : string; tm_role : string }.

Record RoleChange := { rc_changed : bool; rc_previousRole : string; rc_newRole : string }.

Definition assertNotOwner (a : TenantMembershipAggregate) : res unit := if String.eqb (tm_role a) "owner" then refuse OWNER_ROLE_LOCKED else Ok tt.

Definition changeRole (a : TenantMembershipAggregate) (nextRole : string) : res (TenantMembershipAggregate * RoleChange) :=
  if String.eqb (tm_role a) "owner" then refuse OWNER_ROLE_LOCKED
  else if String.eqb (tm_role a) nextRole then Ok (a, {| rc_changed := false; rc_previousRole := tm_role a; rc_newRole := nextRole |})
  else Ok ({| tm_accountId := tm_accountId a; tm_tenantId := tm_tenantId a; tm_role := nextRole |},
           {| rc_changed := true; rc_previousRole := tm_role a; rc_newRole := nextRole |}).

Definition isBranchDeactivating (currentStatus : PlatformBranchStatus) (nextStatus : option PlatformBranchStatus) : bool :=
  bool_decide (currentStatus = BR_ACTIVE) && bool_decide (nextStatus = Some BR_INACTIVE).

Definition assertNotLastActiveBranch (activeBranchCount : Z) : res unit := if activeBranchCount <=? 1 then refuse LAST_ACTIVE_BRANCH else Ok tt.
