(* ===== verification/StoreAccess.v ===== *)
(** * Stores, members, roles and branches

    apps/platform/src/api: tenant/tenant.service.ts (opening a store), branch/
    (branch.service.ts with its guard), tenant/member.service.ts, role/role.service.ts,
    subscription/quota.service.ts and tenant/membership.service.ts (what a token may do),
    over their tables.  What the other services answer when asked whether something
    blocks a removal is an argument.  [BranchService.update] and
    [remove] read the branch before their transaction and take no lock on it; each is
    written in two parts, which other requests can separate ([StoreBooks]).  Ids are spelled as the database prints
    them, and names are ASCII text ([JsString]), on which Unicode normalization is the
    identity. *)

From S2P Require Import Prelude Transaction JsNumber JsString CatalogDomain PlatformDomain.
From Stdlib Require Import Ascii.

Open Scope Z_scope.

(** ** Permissions and seeded roles (libs/contracts/src/permissions.ts) *)

Definition PERMISSION_CATALOG : list (string * list string) :=
  [("dashboard", ["view"]); ("products", ["view"; "create"; "update"; "delete"]); ("inventory", ["view"; "create"; "update"; "delete"; "approve"]);
   ("orders", ["view"; "create"; "update"; "delete"; "approve"]); ("pos", ["view"; "create"; "update"; "approve"]);
   ("channels", ["view"; "create"; "update"; "delete"]); ("customers", ["view"; "create"; "update"; "delete"]);
   ("purchasing", ["view"; "create"; "update"; "delete"; "approve"]); ("staff", ["view"; "create"; "update"; "delete"]); ("reports", ["view"]);
   ("finance", ["view"; "create"; "update"; "approve"]); ("settings", ["view"; "update"])].

Definition ALL_PERMISSIONS : list string :=
  sort_by string_order (flat_map (fun e : string * list string => map (fun a => e.1 +:+ "." +:+ a) e.2) PERMISSION_CATALOG).

Definition isPermissionCode (s : string) : bool := existsb (String.eqb s) ALL_PERMISSIONS.

Definition WILDCARD_PERMISSION : string := "*".

(** Code and name of the seeded roles. *)
Definition SEEDED_ROLES : list (string * string) :=
  [("owner", "Chủ cửa hàng"); ("branch_manager", "Quản lý chi nhánh"); ("sales_staff", "Nhân viên bán hàng"); ("warehouse_staff", "Nhân viên kho");
   ("accountant", "Kế toán")].

Definition LEGACY_ROLE_CODES : list (string * string) := [("manager", "branch_manager"); ("cashier", "sales_staff")].
Definition normalizeRoleCode (c : string) : string := default c (mget c LEGACY_ROLE_CODES).

Definition NOT_FOR_MANAGER : list string := ["staff.create"; "staff.update"; "staff.delete"; "settings.update"].

(** The owner role has no rows of its own. *)
Definition DEFAULT_ROLE_PERMISSIONS (c : string) : list string :=
  if String.eqb c "branch_manager" then List.filter (fun p => negb (existsb (String.eqb p) NOT_FOR_MANAGER)) ALL_PERMISSIONS
  else if String.eqb c "sales_staff" then
    ["dashboard.view"; "products.view"; "inventory.view"; "orders.view"; "orders.create"; "orders.update"; "pos.view"; "pos.create"; "pos.update";
     "customers.view"; "customers.create"; "customers.update"; "finance.view"; "finance.create"]
  else if String.eqb c "warehouse_staff" then
    ["dashboard.view"; "products.view"; "inventory.view"; "inventory.create"; "inventory.update"; "orders.view"; "purchasing.view"; "purchasing.create"]
  else if String.eqb c "accountant" then
    ["dashboard.view"; "orders.view"; "customers.view"; "inventory.view"; "purchasing.view"; "purchasing.update"; "reports.view"; "finance.view";
     "finance.create"; "finance.update"; "finance.approve"]
  else [].

(** ** Tables *)

Inductive ErrorCode :=
| T001 | T002 | T003 | T004 | T005 | T009 | T010 | T023 | Q001 | R001 | R002 | R003 | R004 | R005 | R006 | R007 | R008 | B001 | B002 | B004 | B005 | B007 | B009.

(** A coded exception, a bare [NotFoundException] or [UnauthorizedException], or a
    failed statement. *)
Inductive StoreError := Coded (c : ErrorCode) | NotFound | Unauthorized | QueryFailed.

Abbreviation key := (string * string)%type.

Inductive TenantStatus := TN_ACTIVE | TN_SUSPENDED.
Inductive MemberStatus := MB_ACTIVE | MB_LOCKED.
#[export] Instance TenantStatus_eq_dec : EqDecision TenantStatus.
Proof. solve_decision. Defined.
#[export] Instance MemberStatus_eq_dec : EqDecision MemberStatus.
Proof. solve_decision. Defined.

Record AccountRow := { ac_email : string; ac_active : bool }.
Record TenantRow := { tn_subdomain : string; tn_status : TenantStatus; tn_deleted : bool }.
Record RoleRow := { rl_code : string; rl_name : string; rl_seeded : bool; rl_permissions : list string }.
Record MemberRow := { mb_role : string; mb_roleId : string; mb_status : MemberStatus; mb_code : string }.
Record BranchRow := { br_code : string; br_name : string; br_isWarehouse : bool; br_status : PlatformBranchStatus; br_deleted : bool }.

Inductive StoreEvent :=
| TenantCreated (tenantId : string)
| BranchCreated (tenantId id : string) (row : BranchRow)
| BranchUpdated (tenantId id : string) (row : BranchRow) (deleted : bool)
| MembershipGranted (tenantId accountId role changedBy : string)
| MembershipRoleChanged (tenantId accountId role previousRole changedBy : string).

(** Rows of a store are keyed by store and id; the permissions of a role are kept with
    it, the branch rows of a member ([account_tenant_branch]) as the list of branches,
    absent when there are none.  [plans] are the quotas (branches, users) of the current
    subscription: the one that opening a store starts, like every later one, is written
    by [AccountsAndPlans], which may set the plans in any way.  Addresses, phones,
    descriptions, times, staff schedules and the sessions ended after a commit are left
    out. *)
Record db := {
  accounts : gmap string AccountRow; tenants : gmap string TenantRow; roles : gmap key RoleRow; members : gmap key MemberRow; assigned : gmap key (list string);
  branches : gmap key BranchRow; plans : gmap string (Z * Z); free_plan : option (Z * Z); outbox : list StoreEvent }.

Abbreviation tx := (txn db StoreError).
Definition validation {A} (c : ErrorCode) : tx A := fail (Coded c) 400.
Definition conflict {A} (c : ErrorCode) : tx A := fail (Coded c) 409.
Definition unavailable {A} (c : ErrorCode) : tx A := fail (Coded c) 503.
Definition not_found {A} : tx A := fail NotFound 404.
Definition query_failed {A} : tx A := fail QueryFailed 500.

Definition set_tenant (t : string) (r : TenantRow) (d : db) : db :=
  {| accounts := accounts d; tenants := <[t := r]> (tenants d); roles := roles d; members := members d; assigned := assigned d; branches := branches d;
     plans := plans d; free_plan := free_plan d; outbox := outbox d |}.
Definition set_roles (m : gmap key RoleRow) (d : db) : db :=
  {| accounts := accounts d; tenants := tenants d; roles := m; members := members d; assigned := assigned d; branches := branches d; plans := plans d;
     free_plan := free_plan d; outbox := outbox d |}.
Definition set_members (m : gmap key MemberRow) (d : db) : db :=
  {| accounts := accounts d; tenants := tenants d; roles := roles d; members := m; assigned := assigned d; branches := branches d; plans := plans d;
     free_plan := free_plan d; outbox := outbox d |}.
Definition set_assigned (m : gmap key (list string)) (d : db) : db :=
  {| accounts := accounts d; tenants := tenants d; roles := roles d; members := members d; assigned := m; branches := branches d; plans := plans d;
     free_plan := free_plan d; outbox := outbox d |}.
Definition set_branches (m : gmap key BranchRow) (d : db) : db :=
  {| accounts := accounts d; tenants := tenants d; roles := roles d; members := members d; assigned := assigned d; branches := m; plans := plans d;
     free_plan := free_plan d; outbox := outbox d |}.
Definition outbox_add (e : StoreEvent) : tx unit :=
  modify (fun d => {| accounts := accounts d; tenants := tenants d; roles := roles d; members := members d; assigned := assigned d; branches := branches d;
    plans := plans d; free_plan := free_plan d; outbox := outbox d ++ [e] |}).

(** The foreign key of roles and branches to their store. *)
Definition has_tenant (t : string) (d : db) : bool := bool_decide (is_Some (tenants d !! t)).

(** The rows of a table that a query selects. *)
Definition rows_of {A} (t : string) (p : string -> A -> bool) (m : gmap key A) : list (string * A) :=
  map (fun e : key * A => (e.1.2, e.2)) (List.filter (fun e : key * A => String.eqb e.1.1 t && p e.1.2 e.2) (map_to_list m)).

(** ** Quotas *)

Definition live (r : BranchRow) : bool := negb (br_deleted r).
Definition live_active (r : BranchRow) : bool := live r && bool_decide (br_status r = BR_ACTIVE).
Definition seat (r : MemberRow) : bool := bool_decide (mb_status r = MB_ACTIVE).

Definition currentPlan (t : string) (d : db) : option (Z * Z) := match plans d !! t with Some p => Some p | None => free_plan d end.

Definition assertCanAdd (t : string) (users : bool) : tx unit :=
  plan ← gets (currentPlan t);
  match plan with
  | None => mret tt
  | Some (quotaBranches, quotaUsers) =>
      used ← gets (fun d => if users then length (rows_of t (fun _ => seat) (members d)) else length (rows_of t (fun _ => live) (branches d)));
      if Z.of_nat used + 1 <=? (if users then quotaUsers else quotaBranches) then mret tt else conflict Q001
  end.

(** ** Opening a store *)

Definition MAX_STORES_PER_ACCOUNT : nat := 3.

(** [NV001]. *)
Definition formatMemberCode (n : Z) : string := "NV" +:+ padStart 3 "0" (nat_string n).

(** The ids of a new store: its own, one per role, the first branch. *)
Definition seedRoles (t : string) (uuid : string -> string) : tx unit :=
  d0 ← gets roles;
  if existsb (fun e : string * string => bool_decide (is_Some (d0 !! (t, uuid e.1)))) SEEDED_ROLES then query_failed
  else modify (set_roles (fold_left (fun m (e : string * string) =>
         <[(t, uuid e.1) := {| rl_code := e.1; rl_name := e.2; rl_seeded := true; rl_permissions := DEFAULT_ROLE_PERMISSIONS e.1 |}]> m) SEEDED_ROLES d0)).

Record OpenStoreInput := { os_owner : string; os_subdomain : string; os_branchName : option string }.

Definition openStore (t : string) (input : OpenStoreInput) (uuid : string -> string) : tx TenantRow :=
  d0 ← gets (fun d => d);
  if bool_decide (is_Some (tenants d0 !! t)) then query_failed
  else if existsb (fun e : string * TenantRow => negb (tn_deleted e.2) && String.eqb (tn_subdomain e.2) (os_subdomain input)) (map_to_list (tenants d0)) then validation T001
  else
    let row := {| tn_subdomain := os_subdomain input; tn_status := TN_ACTIVE; tn_deleted := false |} in
    _ ← modify (set_tenant t row);
    _ ← seedRoles t uuid;
    _ ← modify (fun d => set_members (<[(t, os_owner input) := {| mb_role := "owner"; mb_roleId := uuid "owner"; mb_status := MB_ACTIVE; mb_code := formatMemberCode 1 |}]>
          (members d)) d);
    let branch := {| br_code := "CN01"; br_name := default "Chi nhánh chính" (os_branchName input); br_isWarehouse := true; br_status := BR_ACTIVE; br_deleted := false |} in
    _ ← modify (fun d => set_branches (<[(t, uuid "branch") := branch]> (branches d)) d);
    _ ← outbox_add (BranchCreated t (uuid "branch") branch);
    mret row.

(** [TenantService.create]. *)
Definition createTenant (accountId t : string) (subdomain : string) (branchName : option string) (uuid : string -> string) : tx TenantRow :=
  account ← gets (fun d => accounts d !! accountId);
  if negb (match account with Some a => ac_active a | None => false end) then fail Unauthorized 401
  else
    exists_ ← gets (fun d => existsb (fun e : string * TenantRow => negb (tn_deleted e.2) && String.eqb (tn_subdomain e.2) subdomain) (map_to_list (tenants d)));
    if (exists_ : bool) then validation T001
    else
      owned ← gets (fun d => List.filter (fun e : key * MemberRow => String.eqb e.1.2 accountId && String.eqb (mb_role e.2) "owner") (map_to_list (members d)));
      if (MAX_STORES_PER_ACCOUNT <=? length owned)%nat then validation T009
      else
        row ← openStore t {| os_owner := accountId; os_subdomain := subdomain; os_branchName := branchName |} uuid;
        _ ← outbox_add (TenantCreated t);
        mret row.

(** ** Branches *)

Definition find_branch (t id : string) : tx BranchRow :=
  found ← gets (fun d => branches d !! (t, id));
  match found with Some r => if live r then mret r else not_found | None => not_found end.

Record CreateBranchReqDto := { cb_name : string; cb_code : string; cb_isWarehouse : option bool }.

Definition createBranch (t : string) (dto : CreateBranchReqDto) (uuid : string -> string) : tx BranchRow :=
  used ← gets (fun d => rows_of t (fun _ r => String.eqb (br_code r) (cb_code dto)) (branches d));
  if negb (bool_decide (length used = 0%nat)) then validation B001
  else
    _ ← assertCanAdd t false;
    let id := uuid "branch" in
    taken ← gets (fun d => bool_decide (is_Some (branches d !! (t, id))) || negb (has_tenant t d));
    if (taken : bool) then query_failed
    else
      let row := {| br_code := cb_code dto; br_name := cb_name dto; br_isWarehouse := default true (cb_isWarehouse dto); br_status := BR_ACTIVE; br_deleted := false |} in
      _ ← modify (fun d => set_branches (<[(t, id) := row]> (branches d)) d);
      _ ← outbox_add (BranchCreated t id row);
      mret row.

(** What the services answer: the reasons against it, or that one cannot be asked. *)
Definition fromServices (answers : option (list string)) : tx (list string) :=
  match answers with Some reasons => mret reasons | None => unavailable B009 end.

Definition assertCanDeactivate (answers : option (list string)) (lastActive : bool) : tx unit :=
  reasons ← fromServices answers;
  if lastActive && bool_decide (length reasons = 0%nat) then validation B002
  else if lastActive || negb (bool_decide (length reasons = 0%nat)) then conflict B005
  else mret tt.

Record UpdateBranchReqDto := { ub_name : option string; ub_code : option string; ub_isWarehouse : option bool; ub_status : option PlatformBranchStatus }.

(** Before the transaction: the branch with the changes applied, and whether it is
    being deactivated. *)
Definition plan_branch_update (t id : string) (dto : UpdateBranchReqDto) : tx (BranchRow * bool) :=
  branch ← find_branch t id;
  if match ub_code dto with Some c => negb (String.eqb c (br_code branch)) | None => false end then validation B007
  else
    mret ({| br_code := br_code branch; br_name := default (br_name branch) (ub_name dto); br_isWarehouse := default (br_isWarehouse branch) (ub_isWarehouse dto);
             br_status := default (br_status branch) (ub_status dto); br_deleted := br_deleted branch |}, isBranchDeactivating (br_status branch) (ub_status dto)).

(** The transaction: the whole entity is saved. *)
Definition commit_branch_update (t id : string) (plan : BranchRow * bool) (answers : option (list string)) : tx BranchRow :=
  active ← gets (fun d => rows_of t (fun _ => live_active) (branches d));
  _ ← when plan.2 (assertCanDeactivate answers (length active <=? 1)%nat);
  _ ← modify (fun d => set_branches (<[(t, id) := plan.1]> (branches d)) d);
  _ ← outbox_add (BranchUpdated t id plan.1 false);
  mret plan.1.

(** One request alone: branch.service.ts reads the branch (126) before the transaction
    opens, so other requests can come between the two parts. *)
Definition updateBranch (t id : string) (dto : UpdateBranchReqDto) (answers : option (list string)) : tx BranchRow :=
  plan ← plan_branch_update t id dto;
  commit_branch_update t id plan answers.

(** The members assigned to a branch, and those left without any other. *)
Definition membersLosing (t branchId : string) (d : db) : list string * list string :=
  let losing := rows_of t (fun _ ids => existsb (String.eqb branchId) ids) (assigned d) in
  let is_live i := match branches d !! (t, i) with Some r => live r | None => false end in
  (map fst losing,
   map fst (List.filter (fun e : string * list string => negb (existsb (fun i => negb (String.eqb i branchId) && is_live i) e.2)) losing)).

Definition assertCanDelete (t branchId : string) (answers : option (list string)) : tx (list string) :=
  reasons ← fromServices answers;
  l ← gets (membersLosing t branchId);
  if negb (bool_decide (length reasons = 0%nat)) || negb (bool_decide (length l.2 = 0%nat)) then conflict B005 else mret l.1.

(** The branch rows of a member: none is no entry. *)
Definition put_assigned (k : key) (ids : list string) (m : gmap key (list string)) : gmap key (list string) :=
  match ids with [] => delete k m | _ => <[k := ids]> m end.

Definition unassign (t branchId : string) (m : gmap key (list string)) : gmap key (list string) :=
  map_imap (fun (k : key) ids =>
    if String.eqb k.1 t then match List.filter (fun i => negb (String.eqb i branchId)) ids with [] => None | l => Some l end else Some ids) m.

(** Before the transaction: the branch, which must be closed. *)
Definition plan_branch_removal (t id : string) : tx BranchRow :=
  branch ← find_branch t id;
  if negb (bool_decide (br_status branch = BR_INACTIVE)) then validation B004 else mret branch.

(** The transaction: the assignments and the branch ([softDelete] writes [deleted_at]
    of the row as it is now). *)
Definition commit_branch_removal (t id : string) (branch : BranchRow) (answers : option (list string)) : tx (list string) :=
  losing ← assertCanDelete t id answers;
  _ ← modify (fun d => set_assigned (unassign t id (assigned d)) d);
  let gone b := {| br_code := br_code b; br_name := br_name b; br_isWarehouse := br_isWarehouse b; br_status := br_status b; br_deleted := true |} in
  _ ← modify (fun d => set_branches (alter gone (t, id) (branches d)) d);
  _ ← outbox_add (BranchUpdated t id branch true);
  mret losing.

Definition removeBranch (t id : string) (answers : option (list string)) : tx (list string) :=
  branch ← plan_branch_removal t id;
  commit_branch_removal t id branch answers.

(** ** Members *)

Definition find_member (t accountId : string) : tx MemberRow :=
  found ← gets (fun d => members d !! (t, accountId));
  match found with Some r => mret r | None => not_found end.

Record MemberRoleInput := { ri_roleId : option string; ri_role : option string }.

(** [input.roleId ? by id : input.role ? by code : none]. *)
Definition named_role (t : string) (input : MemberRoleInput) (m : gmap key RoleRow) : option (string * RoleRow) :=
  if truthy (ri_roleId input) then (fun r => (default "" (ri_roleId input), r)) <$> m !! (t, default "" (ri_roleId input))
  else if truthy (ri_role input) then head (rows_of t (fun _ r => String.eqb (rl_code r) (normalizeRoleCode (default "" (ri_role input)))) m)
  else None.

Definition resolveRole (t : string) (input : MemberRoleInput) : tx (string * RoleRow) :=
  found ← gets (fun d => named_role t input (roles d));
  match found with
  | None => validation R007
  | Some (i, r) => if rl_seeded r && String.eqb (rl_code r) "owner" then validation R008 else mret (i, r)
  end.

(** [[...new Set(ids)]]. *)
Definition distinct_ids (ids : list string) : list string := remove_dups ids.

Definition assertBranches (t : string) (branchIds : list string) : tx (list string) :=
  let unique := distinct_ids branchIds in
  found ← gets (fun d => rows_of t (fun i r => live r && existsb (String.eqb i) unique) (branches d));
  if negb (bool_decide (length unique = 0%nat)) && negb (bool_decide (length found = length unique)) then validation T023 else mret unique.

Definition replaceBranches (t accountId : string) (ids : list string) : tx unit :=
  modify (fun d => set_assigned (put_assigned (t, accountId) ids (assigned d)) d).

(** [substring(code from '[0-9]+$')]. *)
Fixpoint trailing_digits (s : string) : string :=
  match s with "" => "" | String _ s' => if sall is_digit s then s else trailing_digits s' end.

Definition nextMemberCode (t : string) : tx string :=
  n ← gets (fun d => fold_left (fun m (e : string * MemberRow) => Z.max m (digits_val (trailing_digits (mb_code e.2)))) (rows_of t (fun _ _ => true) (members d)) 0 + 1);
  mret (formatMemberCode n).

(** The column [role] of a member holds 32 characters. *)
Definition role_column (c : string) : bool := (String.length c <=? 32)%nat.

Definition add_member (t accountId actorId : string) (roleInput : MemberRoleInput) (branchIds : list string) : tx MemberRow :=
  existing ← gets (fun d => members d !! (t, accountId));
  match existing with
  | Some _ => validation T002
  | None =>
      _ ← assertCanAdd t true;
      role ← resolveRole t roleInput;
      ids ← assertBranches t branchIds;
      code ← nextMemberCode t;
      if negb (role_column (rl_code role.2)) then query_failed
      else
        let row := {| mb_role := rl_code role.2; mb_roleId := role.1; mb_status := MB_ACTIVE; mb_code := code |} in
        _ ← modify (fun d => set_members (<[(t, accountId) := row]> (members d)) d);
        _ ← replaceBranches t accountId ids;
        _ ← outbox_add (MembershipGranted t accountId (rl_code role.2) actorId);
        mret row
  end.

Definition addMember (t actorId email : string) (roleInput : MemberRoleInput) (branchIds : list string) : tx MemberRow :=
  account ← gets (fun d => List.find (fun e : string * AccountRow => String.eqb (ac_email e.2) email && ac_active e.2) (map_to_list (accounts d)));
  match account with
  | None => not_found
  | Some (accountId, _) => add_member t accountId actorId roleInput branchIds
  end.

(** Errors of the domain layer: only [OWNER_ROLE_LOCKED] is answered with a code. *)
Definition domain {A} (r : PlatformDomain.res A) : tx A := fun d =>
  match r with
  | Ok a => Ok (a, d)
  | Throw (DomainError OWNER_ROLE_LOCKED _) => Throw (DomainError (Coded T003) 400)
  | Throw (DomainError _ s) => Throw (DomainError QueryFailed s)
  | Throw (JsError e) => Throw (JsError e)
  end.

Definition updateMember (t actorId accountId : string) (roleInput : MemberRoleInput) (branchIds : option (list string)) : tx MemberRow :=
  let changesRole := truthy (ri_roleId roleInput) || truthy (ri_role roleInput) in
  membership ← find_member t accountId;
  let aggregate := {| tm_accountId := accountId; tm_tenantId := t; tm_role := mb_role membership |} in
  _ ← (if changesRole then _ ← domain (changeRole aggregate (mb_role membership)); mret tt
       else match branchIds with Some _ => domain (assertNotOwner aggregate) | None => mret tt end);
  row ← (if changesRole then
           role ← resolveRole t roleInput;
           if String.eqb role.1 (mb_roleId membership) then mret membership
           else if negb (role_column (rl_code role.2)) then query_failed
           else
             let row := {| mb_role := rl_code role.2; mb_roleId := role.1; mb_status := mb_status membership; mb_code := mb_code membership |} in
             _ ← modify (fun d => set_members (<[(t, accountId) := row]> (members d)) d);
             _ ← outbox_add (MembershipRoleChanged t accountId (rl_code role.2) (mb_role membership) actorId);
             mret row
         else mret membership);
  _ ← match branchIds with
      | Some ids => unique ← assertBranches t ids; replaceBranches t accountId unique
      | None => mret tt
      end;
  mret row.

Definition assertRemovable (row : MemberRow) (accountId actorId : string) : tx unit :=
  if String.eqb (mb_role row) "owner" then validation T005
  else if String.eqb accountId actorId then validation T004
  else mret tt.

Definition with_member_status (r : MemberRow) (s : MemberStatus) : MemberRow :=
  {| mb_role := mb_role r; mb_roleId := mb_roleId r; mb_status := s; mb_code := mb_code r |}.

Definition lockMember (t actorId accountId : string) : tx MemberRow :=
  row ← find_member t accountId;
  _ ← assertRemovable row accountId actorId;
  _ ← modify (fun d => set_members (<[(t, accountId) := with_member_status row MB_LOCKED]> (members d)) d);
  mret (with_member_status row MB_LOCKED).

Definition unlockMember (t accountId : string) : tx MemberRow :=
  row ← find_member t accountId;
  _ ← modify (fun d => set_members (<[(t, accountId) := with_member_status row MB_ACTIVE]> (members d)) d);
  mret (with_member_status row MB_ACTIVE).

(** The branch rows of a removed member go with it. *)
Definition removeMember (t actorId accountId : string) (answers : option (list string)) : tx unit :=
  row ← find_member t accountId;
  _ ← assertRemovable row accountId actorId;
  reasons ← fromServices answers;
  if negb (bool_decide (length reasons = 0%nat)) then conflict T010
  else modify (fun d => set_assigned (delete (t, accountId) (assigned d)) (set_members (delete (t, accountId) (members d)) d)).

(** ** Roles *)

Definition is_slug_char (c : ascii) : bool := is_alnum_lower c.

(** [replace(/^_+|_+$/g, '')] and its second half. *)
Fixpoint drop_under (s : string) : string :=
  match s with String c s' => if Ascii.eqb c "_" then drop_under s' else s | "" => "" end.
Fixpoint rdrop_under (s : string) : string :=
  match s with
  | "" => ""
  | String c s' => match rdrop_under s' with "" => if Ascii.eqb c "_" then "" else String c "" | t => String c t end
  end.

Definition slugifyRoleName (name : string) : string :=
  let slug := rdrop_under (String.substring 0 50 (rdrop_under (drop_under (squeeze is_slug_char "_" (toLowerCase name))))) in
  if String.eqb slug "" then "role" else slug.

Definition normalizePermissions (codes : list string) : tx (list string) :=
  let unique := remove_dups codes in
  if forallb isPermissionCode unique then mret (sort_by string_order unique) else validation R003.

(** [LOWER(role.name) = LOWER(:name)]. *)
Definition assertNameFree (t name : string) (exceptId : option string) : tx unit :=
  clash ← gets (fun d => rows_of t (fun i r => String.eqb (toLowerCase (rl_name r)) (toLowerCase name) && negb (bool_decide (exceptId = Some i))) (roles d));
  if negb (bool_decide (length clash = 0%nat)) then conflict R001 else mret tt.

(** [for (let n = 2; taken.has(code); n++) code = `${base}_${n}`]. *)
Fixpoint free_code (fuel : nat) (taken : list string) (base code : string) (n : Z) : option string :=
  if existsb (String.eqb code) taken then
    match fuel with O => None | S fuel => free_code fuel taken base (base +:+ "_" +:+ Z_string n) (n + 1) end
  else Some code.

Record CreateRoleReqDto := { cr_name : string; cr_permissions : list string }.
Record UpdateRoleReqDto := { ur_name : option string; ur_permissions : option (list string) }.

Definition createRole (t : string) (dto : CreateRoleReqDto) (uuid : string -> string) : tx RoleRow :=
  permissions ← normalizePermissions (cr_permissions dto);
  _ ← assertNameFree t (cr_name dto) None;
  taken ← gets (fun d => map (fun e : string * RoleRow => rl_code e.2) (rows_of t (fun _ _ => true) (roles d)));
  let base := slugifyRoleName (cr_name dto) in
  match free_code (S (length taken)) taken base base 2 with
  | None => query_failed
  | Some code =>
      used ← gets (fun d => bool_decide (is_Some (roles d !! (t, uuid "role"))) || negb (has_tenant t d));
      if (used : bool) then query_failed
      else
        let row := {| rl_code := code; rl_name := cr_name dto; rl_seeded := false; rl_permissions := permissions |} in
        _ ← modify (fun d => set_roles (<[(t, uuid "role") := row]> (roles d)) d);
        mret row
  end.

Definition find_role (t id : string) : tx RoleRow :=
  found ← gets (fun d => roles d !! (t, id));
  match found with Some r => mret r | None => fail (Coded R006) 404 end.

Definition isOwnerRole (r : RoleRow) : bool := rl_seeded r && String.eqb (rl_code r) "owner".

Definition updateRole (t id : string) (dto : UpdateRoleReqDto) : tx RoleRow :=
  permissions ← match ur_permissions dto with None => mret (M := tx) None | Some l => p ← normalizePermissions l; mret (Some p) end;
  role ← find_role t id;
  if isOwnerRole role then validation R002
  else
    _ ← match ur_name dto with
        | Some n => if String.eqb n (rl_name role) then mret tt else assertNameFree t n (Some id)
        | None => mret tt
        end;
    let row := {| rl_code := rl_code role; rl_name := default (rl_name role) (ur_name dto); rl_seeded := rl_seeded role;
                  rl_permissions := default (rl_permissions role) permissions |} in
    _ ← modify (fun d => set_roles (<[(t, id) := row]> (roles d)) d);
    mret row.

Definition removeRole (t id : string) : tx unit :=
  role ← find_role t id;
  if rl_seeded role then validation R004
  else
    holders ← gets (fun d => rows_of t (fun _ m => String.eqb (mb_roleId m) id) (members d));
    if negb (bool_decide (length holders = 0%nat)) then conflict R005
    else modify (fun d => set_roles (delete (t, id) (roles d)) d).

(** ** What a token may do *)

Record Membership := { ms_role : string; ms_roleId : string; ms_permissions : list string; ms_branches : list string }.

Definition findActiveMembership (accountId t : string) (d : db) : option Membership :=
  m ← members d !! (t, accountId);
  s ← tenants d !! t;
  r ← roles d !! (t, mb_roleId m);
  if bool_decide (mb_status m = MB_ACTIVE) && bool_decide (tn_status s = TN_ACTIVE) && negb (tn_deleted s) then
    let isOwner := String.eqb (rl_code r) "owner" in
    let mine := default [] (assigned d !! (t, accountId)) in
    Some {| ms_role := rl_code r; ms_roleId := mb_roleId m;
            ms_permissions := if isOwner then [WILDCARD_PERMISSION] else sort_by string_order (rl_permissions r);
            ms_branches := if isOwner || bool_decide (length mine = 0%nat) then [WILDCARD_PERMISSION] else sort_by string_order mine |}
  else None.

(** ** All requests *)

Inductive request :=
| CreateTenant (accountId newId subdomain : string) (branchName : option string)
| CreateBranch (t : string) (dto : CreateBranchReqDto)
| UpdateBranch (t id : string) (dto : UpdateBranchReqDto) (answers : option (list string))
| RemoveBranch (t id : string) (answers : option (list string))
| AddMember (t actorId email : string) (role : MemberRoleInput) (branchIds : list string)
| UpdateMember (t actorId accountId : string) (role : MemberRoleInput) (branchIds : option (list string))
| LockMember (t actorId accountId : string)
| UnlockMember (t accountId : string)
| RemoveMember (t actorId accountId : string) (answers : option (list string))
| CreateRole (t : string) (dto : CreateRoleReqDto)
| UpdateRole (t id : string) (dto : UpdateRoleReqDto)
| RemoveRole (t id : string)
| AccountsAndPlans (a : gmap string AccountRow) (p : gmap string (Z * Z)) (f : option (Z * Z)).

Definition run (q : request) (uuid : string -> string) : tx unit :=
  match q with
  | CreateTenant a t s b => _ ← createTenant a t s b uuid; mret tt
  | CreateBranch t dto => _ ← createBranch t dto uuid; mret tt
  | UpdateBranch t i dto ans => _ ← updateBranch t i dto ans; mret tt
  | RemoveBranch t i ans => _ ← removeBranch t i ans; mret tt
  | AddMember t actor email r ids => _ ← addMember t actor email r ids; mret tt
  | UpdateMember t actor a r ids => _ ← updateMember t actor a r ids; mret tt
  | LockMember t actor a => _ ← lockMember t actor a; mret tt
  | UnlockMember t a => _ ← unlockMember t a; mret tt
  | RemoveMember t actor a ans => removeMember t actor a ans
  | CreateRole t dto => _ ← createRole t dto uuid; mret tt
  | UpdateRole t i dto => _ ← updateRole t i dto; mret tt
  | RemoveRole t i => removeRole t i
  | AccountsAndPlans a p f => modify (fun d => {| accounts := a; tenants := tenants d; roles := roles d; members := members d; assigned := assigned d;
      branches := branches d; plans := p; free_plan := f; outbox := outbox d |})
  end.

(** A request, with the ids it draws; it leaves the tables alone when it throws. *)
Definition serve (q : request) (uuid : string -> string) (d : db) : db := after (run q uuid) d.

Definition empty_db : db :=
  {| accounts := ∅; tenants := ∅; roles := ∅; members := ∅; assigned := ∅; branches := ∅; plans := ∅; free_plan := None; outbox := [] |}.

(** Ids drawn for different purposes differ. *)
Inductive reachable : db -> Prop :=
| reach_empty : reachable empty_db
| reach_serve q uuid d : reachable d -> Inj (=) (=) uuid -> reachable (serve q uuid d).
