(* ===== verification/StoreBooks.v ===== *)
(** * What stores keep

    Over all requests: every store has one owner who cannot be locked out, and (when
    requests are served one at a time) a branch that is open; only the owner's token
    holds every permission; the branches a member
    is limited to shrink when branches are removed, and never to none, which would mean
    all of them. *)

From S2P Require Import Prelude Transaction JsNumber JsString CatalogDomain PlatformDomain StoreAccess.

Open Scope Z_scope.

(** ** The invariant *)

(** [strict]: also that every store has an open branch, which only holds when requests
    are served one at a time. *)
Record store_ok (strict : bool) (d : db) : Prop := {
  so_owner : forall t, is_Some (tenants d !! t) -> exists o m, members d !! (t, o) = Some m /\ mb_role m = "owner" /\ mb_status m = MB_ACTIVE /\
    forall a m', members d !! (t, a) = Some m' -> mb_role m' = "owner" -> a = o;
  so_member : forall t a m, members d !! (t, a) = Some m -> is_Some (tenants d !! t) /\ exists r, roles d !! (t, mb_roleId m) = Some r /\ rl_code r = mb_role m;
  so_codes : forall t i j r s, roles d !! (t, i) = Some r -> roles d !! (t, j) = Some s -> rl_code r = rl_code s -> i = j;
  so_owner_role : forall t, is_Some (tenants d !! t) -> exists i r, roles d !! (t, i) = Some r /\ rl_code r = "owner" /\ rl_seeded r = true;
  so_role : forall t i r, roles d !! (t, i) = Some r -> is_Some (tenants d !! t) /\ forallb isPermissionCode (rl_permissions r) = true;
  so_branch : strict = true -> forall t, is_Some (tenants d !! t) -> exists i b, branches d !! (t, i) = Some b /\ live_active b = true;
  so_assigned : forall t a ids, assigned d !! (t, a) = Some ids -> ids <> [] /\ (exists m, members d !! (t, a) = Some m /\ mb_role m <> "owner") /\
    forall i, i ∈ ids -> exists b, branches d !! (t, i) = Some b /\ live b = true }.

Arguments so_owner {_} _ _.
Arguments so_member {_} _ _.
Arguments so_codes {_} _ _.
Arguments so_owner_role {_} _ _.
Arguments so_role {_} _ _.
Arguments so_branch {_} _ _.
Arguments so_assigned {_} _ _.

Ltac inv_store :=
  repeat first
    [ progress inv_txn
    | progress simplify_eq
    | match goal with
      | H : validation _ _ = Ok _ |- _ => discriminate H
      | H : conflict _ _ = Ok _ |- _ => discriminate H
      | H : unavailable _ _ = Ok _ |- _ => discriminate H
      | H : not_found _ = Ok _ |- _ => discriminate H
      | H : query_failed _ = Ok _ |- _ => discriminate H
      | H : outbox_add _ _ = Ok _ |- _ => unfold outbox_add in H
      | H : context [if ?b then _ else _] |- _ => lazymatch type of H with _ = Ok _ => let E := fresh "E" in destruct b eqn:E end
      end ].

(** ** Statements *)

Section Statements.
Context {strict : bool}.
Implicit Types (d : db).

Lemma rows_of_elem {A} t (p : string -> A -> bool) m i x : (i, x) ∈ rows_of t p m <-> m !! (t, i) = Some x /\ p i x = true.
Proof.
  unfold rows_of. rewrite list_elem_of_fmap. split.
  - intros ([[t' i'] y] & [= -> ->] & [Hin Hb]%list_elem_of_In%filter_In). cbn in *. apply list_elem_of_In, elem_of_map_to_list in Hin. bool_prop.
    match goal with H : String.eqb _ _ = true |- _ => apply String.eqb_eq in H as -> end. done.
  - intros [Hm Hp]. exists ((t, i), x). split; [done|]. apply list_elem_of_In, filter_In. cbn. rewrite String.eqb_refl, Hp. split; [|done].
    by apply list_elem_of_In, elem_of_map_to_list.
Qed.

Lemma rows_of_NoDup {A} t (p : string -> A -> bool) m : NoDup (map fst (rows_of t p m)).
Proof.
  unfold rows_of. rewrite map_map. cbn. pose proof (NoDup_fst_map_to_list m) as Hd. induction (map_to_list m) as [|[[t' i] x] l IH]; cbn; [constructor|].
  apply NoDup_cons in Hd as [Hn Hd]. destruct (String.eqb_spec t' t) as [->|]; cbn; [|by apply IH]. destruct (p i x); [|by apply IH]. cbn. apply NoDup_cons. split; [|by apply IH].
  intros ([[t2 i2] x2] & Ei & [Hin Hb]%list_elem_of_In%filter_In)%list_elem_of_fmap. cbn in *. bool_prop.
  match goal with H : String.eqb _ _ = true |- _ => apply String.eqb_eq in H as -> end. subst. apply Hn. apply list_elem_of_fmap. exists ((t, i2), x2). split; [done|]. by apply list_elem_of_In.
Qed.

Lemma rows_of_none {A} t (p : string -> A -> bool) m i x : length (rows_of t p m) = 0%nat -> m !! (t, i) = Some x -> p i x = false.
Proof. intros Hl Hm. apply not_true_iff_false. intros Hp. apply nil_length_inv in Hl. apply (not_elem_of_nil (i, x)). rewrite <- Hl. by apply rows_of_elem. Qed.

(** Two rows at least: one of them is another. *)
Lemma rows_of_other {A} t (p : string -> A -> bool) m i : (1 < length (rows_of t p m))%nat -> exists j x, j <> i /\ m !! (t, j) = Some x /\ p j x = true.
Proof.
  pose proof (rows_of_NoDup t p m) as Hd. intros Hl. assert (Hin : forall j x, (j, x) ∈ rows_of t p m -> m !! (t, j) = Some x /\ p j x = true) by (intros; by apply rows_of_elem).
  destruct (rows_of t p m) as [|[j x] [|[k y] l]]; cbn in Hl; [lia | lia |]. destruct (decide (j = i)) as [->|Hne].
  - exists k, y. split; [|by apply Hin; right; left]. cbn in Hd. apply NoDup_cons in Hd as [Hn _]. intros ->. apply Hn. by left.
  - exists j, x. split; [done|]. by apply Hin; left.
Qed.

Lemma find_branch_Ok t i d b d' : find_branch t i d = Ok (b, d') -> d' = d /\ branches d !! (t, i) = Some b /\ live b = true.
Proof. unfold find_branch. intros H. inv_store. destruct (branches _ !! _) eqn:E; inv_store. done. Qed.

Lemma find_member_Ok t a d m d' : find_member t a d = Ok (m, d') -> d' = d /\ members d !! (t, a) = Some m.
Proof. unfold find_member. intros H. inv_store. destruct (members _ !! _) eqn:E; inv_store. done. Qed.

Lemma find_role_Ok t i d r d' : find_role t i d = Ok (r, d') -> d' = d /\ roles d !! (t, i) = Some r.
Proof. unfold find_role. intros H. inv_store. destruct (roles _ !! _) eqn:E; inv_store. done. Qed.

Lemma assertCanAdd_Ok t u d x d' : assertCanAdd t u d = Ok (x, d') -> d' = d.
Proof. unfold assertCanAdd. intros H. inv_store; repeat (case_match; inv_store); done. Qed.

Lemma named_role_Some t input m i r : named_role t input m = Some (i, r) -> m !! (t, i) = Some r.
Proof.
  unfold named_role. destruct (truthy (ri_roleId input)); [by intros (x & Hx & [= -> ->])%fmap_Some|]. destruct (truthy (ri_role input)); [|done].
  set (p := fun _ r => _). intros Hh. apply (proj1 (rows_of_elem t p m i r)). destruct (rows_of t p m); [done|]. injection Hh as ->. by left.
Qed.

Lemma resolveRole_Ok t input d x d' : store_ok strict d -> resolveRole t input d = Ok (x, d') -> d' = d /\ roles d !! (t, x.1) = Some x.2 /\ rl_code x.2 <> "owner".
Proof.
  intros Hok H. unfold resolveRole in H. apply tx_bind_Ok in H as (o & d1 & [= -> ->]%gets_Ok & H). destruct (named_role _ _ _) as [[i r]|] eqn:E; [|done].
  apply named_role_Some in E. destruct (rl_seeded r && _) eqn:Es; inv_store. split_and!; [done | done |]. cbn. intros Ec.
  destruct (so_role _ Hok _ _ _ E) as [Ht _]. destruct (so_owner_role _ Hok _ Ht) as (j & s & Hj & Hs & Hseed).
  assert (i = j) as -> by (eapply (so_codes _ Hok); [exact E | exact Hj | congruence]). rewrite E in Hj. injection Hj as <-. by rewrite Hseed, Ec in Es.
Qed.

Lemma assertBranches_Ok t ids d l d' : assertBranches t ids d = Ok (l, d') -> d' = d /\ forall i, i ∈ l -> exists b, branches d !! (t, i) = Some b /\ live b = true.
Proof.
  unfold assertBranches. cbv zeta. intros H. inv_store. split; [done|]. set (u := distinct_ids ids) in *. intros i Hi.
  set (p := fun i r => live r && existsb (String.eqb i) u) in *.
  assert (Hlen : length (rows_of t p (branches d)) = length u) by (bool_prop; [exfalso; destruct u; [by apply not_elem_of_nil in Hi | done] | done]).
  clear E. assert (Hnd : NoDup u) by apply NoDup_remove_dups.
  assert (Hsub : map fst (rows_of t p (branches d)) ⊆ u).
  { intros j ([j' b] & -> & [_ Hp]%rows_of_elem)%list_elem_of_fmap. unfold p in Hp. bool_prop.
    match goal with H : existsb _ _ = true |- _ => apply existsb_exists in H as (x & Hx%list_elem_of_In & ->%String.eqb_eq) end. done. }
  assert (Hp : map fst (rows_of t p (branches d)) ≡ₚ u).
  { apply submseteq_length_Permutation; [by apply NoDup_submseteq; [apply rows_of_NoDup|]|]. rewrite length_map. lia. }
  rewrite <- Hp in Hi. apply list_elem_of_fmap in Hi as ([j b] & -> & [Hb Hl]%rows_of_elem). exists b. split; [done|]. unfold p in Hl. bool_prop. done.
Qed.
End Statements.

(** ** What the handlers keep *)

Section Keep.
Context {strict : bool}.
Implicit Types (d : db).

(** Events and the tables of other modules do not matter. *)
Lemma store_ok_ext d d' : tenants d' = tenants d -> roles d' = roles d -> members d' = members d -> assigned d' = assigned d -> branches d' = branches d ->
  store_ok strict d -> store_ok strict d'.
Proof. intros E1 E2 E3 E4 E5 [H1 H2 H3 H4 H5 H6 H7]. constructor; rewrite ?E1, ?E2, ?E3, ?E4, ?E5; assumption. Qed.

Lemma set_branches_ok d m : store_ok strict d ->
  (strict = true -> forall t, is_Some (tenants d !! t) -> exists i b, m !! (t, i) = Some b /\ live_active b = true) ->
  (forall t i b, branches d !! (t, i) = Some b -> live b = true -> exists b', m !! (t, i) = Some b' /\ live b' = true) -> store_ok strict (set_branches m d).
Proof.
  intros [H1 H2 H3 H4 H5 H6 H7] Ha Hl. constructor; cbn; try assumption. intros t a ids Hids. destruct (H7 _ _ _ Hids) as (? & ? & Hb). split_and!; try done.
  intros i (b & Hb' & Hlive)%Hb. by eapply Hl.
Qed.

Lemma createBranch_ok t dto uuid d r d' : store_ok strict d -> createBranch t dto uuid d = Ok (r, d') -> store_ok strict d'.
Proof.
  intros Hok H. unfold createBranch in H. cbv zeta in H. inv_store. match goal with H' : assertCanAdd _ _ _ = Ok _ |- _ => apply assertCanAdd_Ok in H' as -> end. bool_prop.
  match goal with |- store_ok strict ?x => apply (store_ok_ext (set_branches (branches x) d) x); try done; apply set_branches_ok; [done|..]; cbn end.
  - intros Hst t' Ht. destruct (so_branch _ Hok Hst _ Ht) as (i & b & Hb & Ha). exists i, b. split; [|done]. rewrite lookup_insert_ne; [done|]. intros Ek. rewrite Ek, Hb in *. naive_solver.
  - intros t' i b Hb Hl. exists b. split; [|done]. rewrite lookup_insert_ne; [done|]. intros Ek. rewrite Ek, Hb in *. naive_solver.
Qed.

Lemma updateBranch_ok t i dto ans d r d' : store_ok strict d -> updateBranch t i dto ans d = Ok (r, d') -> store_ok strict d'.
Proof.
  intros Hok H. unfold updateBranch in H. apply tx_bind_Ok in H as ([row de] & d1 & Hp & H). unfold plan_branch_update in Hp.
  apply tx_bind_Ok in Hp as (b & d2 & (-> & Hb & Hl)%find_branch_Ok & Hp). destruct (match ub_code dto with Some _ => _ | None => _ end); [done|].
  apply tx_ret_Ok in Hp as [= -> -> ->]. unfold commit_branch_update in H. apply tx_bind_Ok in H as (act & d1 & [= -> ->]%gets_Ok & H). cbn [fst snd] in H.
  apply tx_bind_Ok in H as ([] & d1 & Hg & H). set (row := {| br_code := _ |}) in *.
  assert (d1 = d /\ (isBranchDeactivating (br_status b) (ub_status dto) = true -> (1 < length (rows_of t (fun _ => live_active) (branches d)))%nat)) as [-> Hmore].
  { unfold when in Hg. destruct (isBranchDeactivating _ _); [|by inv_store]. unfold assertCanDeactivate, fromServices in Hg. inv_store. destruct ans; inv_store. split; [done|]. intros _.
    bool_prop; try done. by apply Nat.leb_gt. all: by apply Nat.leb_gt. }
  inv_store. match goal with |- store_ok strict ?x => apply (store_ok_ext (set_branches (branches x) d) x); try done; apply set_branches_ok; [done|..]; cbn end.
  - intros Hst t' Ht. destruct (so_branch _ Hok Hst _ Ht) as (j & x & Hx & Ha). destruct (decide ((t, i) = (t', j))) as [[= -> ->]|Hne]; [|exists j, x; by rewrite lookup_insert_ne].
    rewrite Hb in Hx. injection Hx as <-. destruct (isBranchDeactivating (br_status b) (ub_status dto)) eqn:Ed.
    + destruct (rows_of_other _ _ _ j (Hmore eq_refl)) as (k & y & Hk & Hy & Hay). exists k, y. rewrite lookup_insert_ne by congruence. done.
    + exists j, row. rewrite lookup_insert_eq. split; [done|]. unfold live_active, live in *. cbn. unfold isBranchDeactivating in Ed. bool_prop.
      all: match goal with H' : br_deleted _ = false |- _ => rewrite H' end; subst row; cbn in *.
      all: match goal with H' : br_status ?x = BR_ACTIVE |- _ => rewrite H' in * end; destruct (ub_status dto) as [[]|]; done.
  - intros t' j x Hx Hlx. destruct (decide ((t, i) = (t', j))) as [[= -> ->]|Hne]; [|exists x; by rewrite lookup_insert_ne].
    exists row. rewrite lookup_insert_eq. split; [done|]. unfold live in *. cbn. done.
Qed.

Lemma unassign_lookup t i m k : unassign t i m !! k =
  (ids ← m !! k; if String.eqb k.1 t then match List.filter (fun x => negb (String.eqb x i)) ids with [] => None | l => Some l end else Some ids).
Proof. unfold unassign. rewrite map_lookup_imap. by destruct (m !! k). Qed.

Lemma filter_other i (ids : list string) x : x ∈ List.filter (fun x => negb (String.eqb x i)) ids <-> x ∈ ids /\ x <> i.
Proof. rewrite !list_elem_of_In, filter_In, negb_true_iff, String.eqb_neq. done. Qed.

(** Whoever is assigned to the branch keeps another one. *)
Lemma commit_removal_Ok t i b0 ans d l d' : commit_branch_removal t i b0 ans d = Ok (l, d') ->
  tenants d' = tenants d /\ roles d' = roles d /\ members d' = members d /\ assigned d' = unassign t i (assigned d) /\
  (forall k, k <> (t, i) -> branches d' !! k = branches d !! k) /\
  (forall a ids, assigned d !! (t, a) = Some ids -> i ∈ ids -> exists x, x ∈ ids /\ x <> i).
Proof.
  intros H. unfold commit_branch_removal in H. cbv zeta in H. apply tx_bind_Ok in H as (x & d1 & Hc & H). unfold assertCanDelete, fromServices in Hc.
  inv_store. destruct ans; inv_store. bool_prop. split_and!; try done; [intros k Hk; cbn; by rewrite lookup_alter_ne|].
  intros a ids Ha Hin. apply nil_length_inv, map_eq_nil in H0.
  destruct (List.filter (fun x => negb (String.eqb x i)) ids) as [|x xs] eqn:Ef.
  - exfalso. apply (not_elem_of_nil (a, ids)). unfold membersLosing in H0. cbn in H0. rewrite <- H0. apply list_elem_of_In, filter_In. split.
    + apply list_elem_of_In, rows_of_elem. split; [done|]. apply existsb_exists. exists i. split; [by apply list_elem_of_In | apply String.eqb_refl].
    + apply negb_true_iff, existsb_false. intros y Hy. cbn in Hy. destruct (String.eqb_spec y i); [done|]. exfalso. apply (not_elem_of_nil y). rewrite <- Ef. by apply filter_other.
  - exists x. apply filter_other. rewrite Ef. by left.
Qed.

Lemma removal_ok t i b0 ans d l d' : store_ok strict d -> commit_branch_removal t i b0 ans d = Ok (l, d') ->
  (strict = true -> forall b, branches d !! (t, i) = Some b -> live_active b = false) -> store_ok strict d'.
Proof.
  intros [H1 H2 H3 H4 H5 H6 H7] (E1 & E2 & E3 & E4 & E5 & _)%commit_removal_Ok Hclosed. constructor; rewrite ?E1, ?E2, ?E3, ?E4; try assumption.
  - intros Hst t' Ht. destruct (H6 Hst _ Ht) as (j & x & Hx & Ha). exists j, x. rewrite E5; [done|]. intros [= -> ->]. by rewrite (Hclosed Hst _ Hx) in Ha.
  - intros t' a ids. rewrite unassign_lookup. intros (ids0 & H0 & Hi)%bind_Some. destruct (H7 _ _ _ H0) as (Hn & Hm & Hl). cbn in Hi.
    assert (Hsub : ids <> [] /\ forall x, x ∈ ids -> x ∈ ids0 /\ (t', x) <> (t, i)).
    { destruct (String.eqb_spec t' t) as [->|Hne]; [|injection Hi as <-; split; [done|]; intros x Hx; split; [done|]; congruence].
      destruct (List.filter _ ids0) as [|y ys] eqn:Ef; [done|]. injection Hi as <-. split; [done|]. intros x Hx. rewrite <- Ef, filter_other in Hx. destruct Hx. split; [done | congruence]. }
    destruct Hsub as [Hne Hsub]. split_and!; try done. intros x [Hx Hxi]%Hsub. destruct (Hl _ Hx) as (y & Hy & ?). exists y. by rewrite E5.
Qed.

Lemma plan_removal_Ok t i d b d' : plan_branch_removal t i d = Ok (b, d') -> d' = d /\ branches d !! (t, i) = Some b /\ br_status b = BR_INACTIVE.
Proof. unfold plan_branch_removal. intros (b' & d1 & (-> & Hb & _)%find_branch_Ok & H)%tx_bind_Ok. inv_store. bool_prop. done. Qed.

Lemma removeBranch_ok t i ans d l d' : store_ok strict d -> removeBranch t i ans d = Ok (l, d') -> store_ok strict d'.
Proof.
  intros Hok (b & d1 & (-> & Hb & Hs)%plan_removal_Ok & H)%tx_bind_Ok. eapply removal_ok; [exact Hok | exact H|]. intros _ x Hx.
  rewrite Hb in Hx. injection Hx as <-. unfold live_active. by rewrite Hs, andb_false_r.
Qed.

(** A member that is not the owner, before and after. *)
Lemma put_member_ok d k m : store_ok strict d -> is_Some (tenants d !! k.1) -> mb_role m <> "owner" ->
  (exists r, roles d !! (k.1, mb_roleId m) = Some r /\ rl_code r = mb_role m) -> (forall m0, members d !! k = Some m0 -> mb_role m0 <> "owner") ->
  store_ok strict (set_members (<[k := m]> (members d)) d).
Proof.
  intros [H1 H2 H3 H4 H5 H6 H7] Ht Hno Hr Hold. constructor; cbn; try assumption.
  - intros t Hx. destruct (H1 _ Hx) as (o & mo & Ho & Hro & Hs & Hu). exists o, mo. rewrite lookup_insert_ne by (intros ->; by eapply Hold). split_and!; try done.
    intros a m'. destruct (decide (k = (t, a))) as [->|Hne]; [rewrite lookup_insert_eq; by intros [= <-] | rewrite lookup_insert_ne by done; apply Hu].
  - intros t a m'. destruct (decide (k = (t, a))) as [->|Hne]; [rewrite lookup_insert_eq; by intros [= <-] | rewrite lookup_insert_ne by done; apply H2].
  - intros t a ids Ha. destruct (H7 _ _ _ Ha) as (? & (m0 & Hm0 & ?) & ?). split_and!; try done. destruct (decide (k = (t, a))) as [->|Hne].
    + exists m. by rewrite lookup_insert_eq.
    + exists m0. by rewrite lookup_insert_ne.
Qed.

Lemma replaceBranches_ok t a ids d u d' : store_ok strict d -> (exists m, members d !! (t, a) = Some m /\ mb_role m <> "owner") ->
  (forall i, i ∈ ids -> exists b, branches d !! (t, i) = Some b /\ live b = true) -> replaceBranches t a ids d = Ok (u, d') -> store_ok strict d'.
Proof.
  intros [H1 H2 H3 H4 H5 H6 H7] Hm Hb H. unfold replaceBranches in H. inv_store. constructor; cbn; try assumption. intros t' a' ids'. unfold put_assigned. destruct ids as [|i ids].
  - intros [_ Ha]%lookup_delete_Some. by apply H7.
  - destruct (decide ((t, a) = (t', a'))) as [[= -> ->]|Hne]; [rewrite lookup_insert_eq; by intros [= <-] | rewrite lookup_insert_ne by done; apply H7].
Qed.

Lemma add_member_ok t a actor input ids d m d' : store_ok strict d -> add_member t a actor input ids d = Ok (m, d') -> store_ok strict d'.
Proof.
  intros Hok H. unfold add_member in H. apply tx_bind_Ok in H as (o & d1 & [= -> ->]%gets_Ok & H). destruct (members d !! (t, a)) eqn:Em; [done|].
  apply tx_bind_Ok in H as (u & d1 & ->%assertCanAdd_Ok & H). apply tx_bind_Ok in H as (x & d1 & (-> & Hx & Hno)%(resolveRole_Ok (strict := strict)) & H); [|done].
  apply tx_bind_Ok in H as (l & d1 & (-> & Hl)%assertBranches_Ok & H). apply tx_bind_Ok in H as (c & d1 & Hc & H). unfold nextMemberCode in Hc. inv_store.
  match goal with H' : replaceBranches _ _ _ ?y = Ok (_, ?z) |- _ => apply (store_ok_ext z); try done; eapply (replaceBranches_ok t a l y _ z); [| | |exact H'] end.
  - apply (put_member_ok d (t, a)); cbn; [done | apply (so_role _ Hok _ _ _ Hx) | done | eauto | intros m0; by rewrite Em].
  - cbn. rewrite lookup_insert_eq. eauto.
  - cbn. done.
Qed.

Lemma updateMember_ok t actor a input ids d m d' : store_ok strict d -> updateMember t actor a input ids d = Ok (m, d') -> store_ok strict d'.
Proof.
  intros Hok H. unfold updateMember in H. cbv zeta in H. set (ch := truthy _ || truthy _) in *. apply tx_bind_Ok in H as (m0 & d1 & (-> & Hm0)%find_member_Ok & H).
  apply tx_bind_Ok in H as (u & d1 & Hg & H). apply tx_bind_Ok in H as (row & d2 & Hr & H). apply tx_bind_Ok in H as (u' & d3 & Hb & H). apply tx_ret_Ok in H as [= -> ->].
  assert (d1 = d /\ (ch = true \/ is_Some ids -> mb_role m0 <> "owner")) as [-> Hno].
  { destruct ch; [|destruct ids]; unfold domain, changeRole, assertNotOwner in Hg; cbn in Hg.
    - apply tx_bind_Ok in Hg as (y & d4 & Hy & Hg). destruct (String.eqb_spec (mb_role m0) "owner"); [done|]. destruct (String.eqb _ _); inv_store; done.
    - destruct (String.eqb_spec (mb_role m0) "owner"); [done|]. by simplify_eq.
    - inv_store. split; [done|]. intros [?|[? ?]]; done. }
  assert (store_ok strict d2 /\ (is_Some ids -> exists m1, members d2 !! (t, a) = Some m1 /\ mb_role m1 <> "owner") /\ branches d2 = branches d) as (Hok2 & Hm2 & Eb).
  { destruct ch.
    - apply tx_bind_Ok in Hr as (x & d4 & (-> & Hx & Hxo)%(resolveRole_Ok (strict := strict)) & Hr); [|done]. destruct (String.eqb_spec x.1 (mb_roleId m0)); inv_store; [by eauto 10|]. split_and!; [|cbn; rewrite lookup_insert_eq; by eauto|done].
      match goal with Hx : roles ?z !! _ = Some _ |- store_ok strict ?y => apply (store_ok_ext (set_members (members y) z) y); try done; apply (put_member_ok z (t, a)) end; cbn; try done.
      + apply (so_role _ Hok _ _ _ Hx).
      + by eexists.
      + intros mx Emx. rewrite Hm0 in Emx. injection Emx as <-. apply Hno. by left.
    - apply tx_ret_Ok in Hr as [= -> ->]. split_and!; try done. intros Hi. eexists. split; [exact Hm0|]. apply Hno. by right. }
  destruct ids as [ids|]; [|by inv_store]. apply tx_bind_Ok in Hb as (l & d4 & (-> & Hl)%assertBranches_Ok & Hb). eapply replaceBranches_ok; [exact Hok2 | by apply Hm2 | | exact Hb]. done.
Qed.
(** A change of the status only. *)
Lemma set_status_ok t a m s d : store_ok strict d -> members d !! (t, a) = Some m -> (mb_role m = "owner" -> s = MB_ACTIVE) ->
  store_ok strict (set_members (<[(t, a) := with_member_status m s]> (members d)) d).
Proof.
  intros [H1 H2 H3 H4 H5 H6 H7] Hm Hs. constructor; cbn; try assumption.
  - intros t' Ht. destruct (H1 _ Ht) as (o & mo & Ho & Hro & Hso & Hu). exists o. destruct (decide ((t, a) = (t', o))) as [[= -> ->]|Hne].
    + exists (with_member_status m s). rewrite lookup_insert_eq. rewrite Hm in Ho. injection Ho as <-. split_and!; cbn; try done; [by apply Hs|].
      intros b m'. destruct (decide (o = b)) as [<-|]; [done|]. rewrite lookup_insert_ne by congruence. apply Hu.
    + exists mo. rewrite lookup_insert_ne by done. split_and!; try done. intros b m' Hb Hr. apply lookup_insert_Some in Hb as [[[= -> ->] <-]|[_ Hb]]; by eapply Hu.
  - intros t' b m' Hb. apply lookup_insert_Some in Hb as [[[= -> ->] <-]|[_ Hb]]; [apply (H2 _ _ _ Hm) | exact (H2 _ _ _ Hb)].
  - intros t' b ids Hb. destruct (H7 _ _ _ Hb) as (? & (m0 & Hm0 & ?) & ?). split_and!; try done. destruct (decide ((t, a) = (t', b))) as [[= -> ->]|Hne].
    + exists (with_member_status m s). rewrite lookup_insert_eq. split; [done|]. cbn. congruence.
    + exists m0. by rewrite lookup_insert_ne.
Qed.

Lemma assertRemovable_Ok m a actor d u d' : assertRemovable m a actor d = Ok (u, d') -> d' = d /\ mb_role m <> "owner" /\ a <> actor.
Proof. unfold assertRemovable. destruct (String.eqb_spec (mb_role m) "owner"), (String.eqb_spec a actor); intros H; inv_store. done. Qed.

Lemma lockMember_ok t actor a d m d' : store_ok strict d -> lockMember t actor a d = Ok (m, d') -> store_ok strict d'.
Proof.
  intros Hok H. unfold lockMember in H. apply tx_bind_Ok in H as (r & d1 & (-> & Hr)%find_member_Ok & H). apply tx_bind_Ok in H as (u & d1 & (-> & Hno & _)%assertRemovable_Ok & H).
  inv_store. by apply set_status_ok.
Qed.

Lemma unlockMember_ok t a d m d' : store_ok strict d -> unlockMember t a d = Ok (m, d') -> store_ok strict d'.
Proof. intros Hok H. unfold unlockMember in H. apply tx_bind_Ok in H as (r & d1 & (-> & Hr)%find_member_Ok & H). inv_store. by apply set_status_ok. Qed.

Lemma removeMember_Ok t actor a ans d u d' : removeMember t actor a ans d = Ok (u, d') -> exists m, members d !! (t, a) = Some m /\ mb_role m <> "owner" /\
  d' = set_assigned (delete (t, a) (assigned d)) (set_members (delete (t, a) (members d)) d).
Proof.
  intros H. unfold removeMember in H. apply tx_bind_Ok in H as (r & d1 & (-> & Hr)%find_member_Ok & H). apply tx_bind_Ok in H as (u' & d1 & (-> & Hno & _)%assertRemovable_Ok & H).
  unfold fromServices in H. inv_store. destruct ans; inv_store. by exists r.
Qed.

Lemma removeMember_ok t actor a ans d u d' : store_ok strict d -> removeMember t actor a ans d = Ok (u, d') -> store_ok strict d'.
Proof.
  intros [H1 H2 H3 H4 H5 H6 H7] (m & Hm & Hno & ->)%removeMember_Ok. constructor; cbn; try assumption.
  - intros t' Ht. destruct (H1 _ Ht) as (o & mo & Ho & Hro & Hso & Hu). exists o, mo. rewrite lookup_delete_ne by congruence. split_and!; try done.
    intros b m' [_ Hb]%lookup_delete_Some. exact (Hu _ _ Hb).
  - intros t' b m' [_ Hb]%lookup_delete_Some. exact (H2 _ _ _ Hb).
  - intros t' b ids [Hne Hb]%lookup_delete_Some. destruct (H7 _ _ _ Hb) as (? & (m0 & Hm0 & ?) & ?). split_and!; try done. exists m0. by rewrite lookup_delete_ne.
Qed.
Lemma normalizePermissions_Ok codes d l d' : normalizePermissions codes d = Ok (l, d') -> d' = d /\ forallb isPermissionCode l = true.
Proof.
  unfold normalizePermissions. cbv zeta. intros H. inv_store. split; [done|]. apply forallb_forall. intros x Hx%list_elem_of_In. rewrite sort_by_perm in Hx.
  rewrite forallb_forall in E. by apply E, list_elem_of_In.
Qed.

Lemma assertNameFree_Ok t n e d u d' : assertNameFree t n e d = Ok (u, d') -> d' = d.
Proof. unfold assertNameFree. intros H. by inv_store. Qed.

Lemma free_code_fresh fuel taken base code n c : free_code fuel taken base code n = Some c -> c ∉ taken.
Proof.
  revert code n. induction fuel as [|fuel IH]; intros code n; cbn; destruct (existsb _ taken) eqn:E; try done; [|by apply IH|].
  all: intros [= <-] Hin; apply (proj1 (existsb_false _ _) E) in Hin; by rewrite String.eqb_refl in Hin.
Qed.

Lemma free_code_None fuel taken base code n : free_code fuel taken base code n = None ->
  code ∈ taken /\ forall i, (i < fuel)%nat -> base +:+ "_" +:+ Z_string (n + Z.of_nat i) ∈ taken.
Proof.
  revert code n. induction fuel as [|fuel IH]; intros code n; cbn; destruct (existsb _ taken) eqn:E; try done.
  all: apply existsb_exists in E as (x & Hx%list_elem_of_In & <-%String.eqb_eq).
  - intros _. split; [done | lia].
  - intros [Hc Hi]%IH. split; [done|]. intros [|i] Hl; [by rewrite Z.add_0_r|]. replace (n + Z.of_nat (S i)) with (n + 1 + Z.of_nat i) by lia. apply Hi. lia.
Qed.

(** The loop of [RoleService.create] ends: no more codes can be taken than there are. *)
Lemma free_code_enough taken base code n : is_Some (free_code (S (length taken)) taken base code n).
Proof.
  destruct (free_code _ _ _ _ _) eqn:E; [by eexists|]. apply free_code_None in E as [_ Hi]. exfalso.
  assert (Hs : map (fun i => base +:+ "_" +:+ Z_string (n + Z.of_nat i)) (seq 0 (S (length taken))) ⊆+ taken).
  { apply NoDup_submseteq.
    - apply NoDup_fmap_2; [|apply NoDup_seq]. intros i j Hij. cbn in Hij. apply (inj (String.append base)) in Hij. injection Hij as Hij. apply Z_string_inj in Hij. lia.
    - intros x (i & -> & Hin)%list_elem_of_fmap. apply Hi. apply elem_of_seq in Hin. lia. }
  apply submseteq_length in Hs. rewrite length_map, length_seq in Hs. lia.
Qed.

Lemma createRole_ok t dto uuid d r d' : store_ok strict d -> createRole t dto uuid d = Ok (r, d') -> store_ok strict d'.
Proof.
  intros [H1 H2 H3 H4 H5 H6 H7] H. unfold createRole in H. cbv zeta in H. apply tx_bind_Ok in H as (p & d1 & (-> & Hp)%normalizePermissions_Ok & H).
  apply tx_bind_Ok in H as (u & d1 & ->%assertNameFree_Ok & H). apply tx_bind_Ok in H as (tk & d1 & [= -> ->]%gets_Ok & H).
  destruct (free_code _ _ _ _ _) as [c|] eqn:Ef; [|done]. apply free_code_fresh in Ef. inv_store. unfold has_tenant in *. bool_prop.
  assert (Hfree : forall i r, roles d !! (t, i) = Some r -> rl_code r <> c).
  { intros i r Hr <-. apply Ef. apply list_elem_of_fmap. exists (i, r). split; [done|]. by apply rows_of_elem. }
  assert (Hn : roles d !! (t, uuid "role") = None) by (apply eq_None_not_Some; assumption). constructor; cbn; try assumption.
  - intros t' a m Hm. destruct (H2 _ _ _ Hm) as (? & r & Hr & ?). split; [done|]. exists r. rewrite lookup_insert_ne by congruence. done.
  - intros t' i j r s Hi Hj Ec. apply lookup_insert_Some in Hi as [[Ei <-]|[? Hi]]; apply lookup_insert_Some in Hj as [[Ej <-]|[? Hj]]; simplify_eq; try done; cbn in *.
    + by destruct (Hfree _ _ Hj).
    + by destruct (Hfree _ _ Hi).
    + by eapply H3.
  - intros t' Ht'. destruct (H4 _ Ht') as (i & r & Hr & ?). exists i, r. rewrite lookup_insert_ne by congruence. done.
  - intros t' i r [[[= <- <-] <-]|[? Hi]]%lookup_insert_Some; [done | exact (H5 _ _ _ Hi)].
Qed.

Lemma updateRole_Ok t i dto d r d' : updateRole t i dto d = Ok (r, d') -> d' = set_roles (<[(t, i) := r]> (roles d)) d /\
  exists x, roles d !! (t, i) = Some x /\ rl_code r = rl_code x /\ rl_seeded r = rl_seeded x /\
    (forallb isPermissionCode (rl_permissions x) = true -> forallb isPermissionCode (rl_permissions r) = true).
Proof.
  intros H. unfold updateRole in H. cbv zeta in H. apply tx_bind_Ok in H as (p & d1 & Hp & H).
  assert (d1 = d /\ forall l, p = Some l -> forallb isPermissionCode l = true) as [-> Hpo].
  { destruct (ur_permissions dto); [|by inv_store]. apply tx_bind_Ok in Hp as (l' & d2 & (-> & Hl)%normalizePermissions_Ok & Hp). inv_store. split; [done|]. by intros ? [= <-]. }
  apply tx_bind_Ok in H as (x & d1 & (-> & Hx)%find_role_Ok & H). destruct (isOwnerRole x); [done|]. apply tx_bind_Ok in H as (u & d1 & Hn & H).
  assert (d1 = d) as -> by (destruct (ur_name dto); [destruct (String.eqb _ _)|]; inv_store; by eauto using assertNameFree_Ok). inv_store.
  split; [done|]. exists x. split_and!; [done.. |]. cbn. destruct p; [intros _; by apply Hpo | done].
Qed.

Lemma updateRole_ok t i dto d r d' : store_ok strict d -> updateRole t i dto d = Ok (r, d') -> store_ok strict d'.
Proof.
  intros [H1 H2 H3 H4 H5 H6 H7] (-> & x & Hx & Hc & Hs & Hpo)%updateRole_Ok.
  assert (Hsame : forall t' j s, <[(t, i) := r]> (roles d) !! (t', j) = Some s -> exists s', roles d !! (t', j) = Some s' /\ rl_code s = rl_code s').
  { intros t' j s [[[= -> ->] <-]|[? Hj]]%lookup_insert_Some; eauto. }
  assert (Hkeep : forall t' j s, roles d !! (t', j) = Some s -> exists s', <[(t, i) := r]> (roles d) !! (t', j) = Some s' /\ rl_code s' = rl_code s /\ rl_seeded s' = rl_seeded s).
  { intros t' j s Hj. destruct (decide ((t, i) = (t', j))) as [[= -> ->]|Hne]; [|exists s; by rewrite lookup_insert_ne]. exists r. rewrite lookup_insert_eq. rewrite Hx in Hj. by injection Hj as <-. }
  constructor; cbn; try assumption.
  - intros t' a m Hm. destruct (H2 _ _ _ Hm) as (? & s & (s' & Hs' & <- & _)%Hkeep & <-). eauto.
  - intros t' j k s s' (y & Hy & ->)%Hsame (z & Hz & ->)%Hsame. by eapply H3.
  - intros t' Ht'. destruct (H4 _ Ht') as (j & s & (s' & Hs' & <- & <-)%Hkeep & ?). eauto.
  - intros t' j s [[[= -> ->] <-]|[? Hj]]%lookup_insert_Some; [|exact (H5 _ _ _ Hj)]. destruct (H5 _ _ _ Hx). split; [done | by apply Hpo].
Qed.

Lemma removeRole_ok t i d u d' : store_ok strict d -> removeRole t i d = Ok (u, d') -> store_ok strict d'.
Proof.
  intros [H1 H2 H3 H4 H5 H6 H7] H. unfold removeRole in H. apply tx_bind_Ok in H as (x & d1 & (-> & Hx)%find_role_Ok & H). destruct (rl_seeded x) eqn:Es; [done|]. inv_store. bool_prop.
  constructor; cbn; try assumption.
  - intros t' a m Hm. destruct (H2 _ _ _ Hm) as (? & s & Hs & ?). split; [done|]. exists s. rewrite lookup_delete_ne; [done|]. intros [= <- Ei].
    match goal with H' : length _ = 0%nat |- _ => pose proof (rows_of_none _ _ _ _ _ H' Hm) as Hf end. cbn in Hf. by rewrite <- Ei, String.eqb_refl in Hf.
  - intros t' j k r s [_ Hr]%lookup_delete_Some [_ Hs]%lookup_delete_Some. by eapply H3.
  - intros t' Ht'. destruct (H4 _ Ht') as (j & s & Hs & ? & ?). exists j, s. rewrite lookup_delete_ne by congruence. done.
  - intros t' j s [_ Hs]%lookup_delete_Some. exact (H5 _ _ _ Hs).
Qed.
Definition seeds (t : string) (uuid : string -> string) (m : gmap key RoleRow) : gmap key RoleRow := fold_left (fun m (e : string * string) =>
  <[(t, uuid e.1) := {| rl_code := e.1; rl_name := e.2; rl_seeded := true; rl_permissions := DEFAULT_ROLE_PERMISSIONS e.1 |}]> m) SEEDED_ROLES m.

Lemma seeds_inv t uuid m t' j r : seeds t uuid m !! (t', j) = Some r ->
  t' = t /\ j = uuid (rl_code r) /\ rl_seeded r = true /\ forallb isPermissionCode (rl_permissions r) = true \/ m !! (t', j) = Some r.
Proof.
  unfold seeds. cbn [fold_left SEEDED_ROLES fst snd].
  repeat (intros [[[= <- <-] <-]|[_ H]]%lookup_insert_Some; [left; split_and!; [done | done | done | by vm_compute] | revert H]). by right.
Qed.

Lemma seeds_other t uuid m t' j : t' <> t -> seeds t uuid m !! (t', j) = m !! (t', j).
Proof. intros Hne. unfold seeds. cbn [fold_left SEEDED_ROLES fst snd]. by rewrite !lookup_insert_ne by congruence. Qed.

Lemma seeds_owner t uuid m : Inj (=) (=) uuid -> exists r, seeds t uuid m !! (t, uuid "owner") = Some r /\ rl_code r = "owner" /\ rl_seeded r = true.
Proof.
  intros Hi. unfold seeds. cbn [fold_left SEEDED_ROLES fst snd]. eexists. split; [|split].
  - do 4 (rewrite lookup_insert_ne by (intros [= E%(inj uuid)]; done)). by rewrite lookup_insert_eq.
  - done.
  - done.
Qed.

Lemma openStore_Ok t input uuid d r d' : openStore t input uuid d = Ok (r, d') -> tenants d !! t = None /\ exists b, live_active b = true /\
  tenants d' = <[t := r]> (tenants d) /\ roles d' = seeds t uuid (roles d) /\ assigned d' = assigned d /\ branches d' = <[(t, uuid "branch") := b]> (branches d) /\
  members d' = <[(t, os_owner input) := {| mb_role := "owner"; mb_roleId := uuid "owner"; mb_status := MB_ACTIVE; mb_code := formatMemberCode 1 |}]> (members d).
Proof.
  intros H. unfold openStore, seedRoles in H. cbv zeta in H. inv_store. bool_prop. split; [by apply eq_None_not_Some|]. eexists. split_and!; try reflexivity. done.
Qed.

Lemma openStore_ok t input uuid d r d' : Inj (=) (=) uuid -> store_ok strict d -> openStore t input uuid d = Ok (r, d') -> store_ok strict d'.
Proof.
  intros Hi [H1 H2 H3 H4 H5 H6 H7] (Hn & b & Hb & E1 & E2 & E3 & E4 & E5)%openStore_Ok. destruct (seeds_owner t uuid (roles d) Hi) as (ro & Hro & Hco & Hso).
  assert (Hm : forall a m, members d !! (t, a) = Some m -> False) by (intros a m [Ht _]%H2; rewrite Hn in Ht; by destruct Ht).
  assert (Hr : forall j s, roles d !! (t, j) = Some s -> False) by (intros j s [Ht _]%H5; rewrite Hn in Ht; by destruct Ht).
  assert (Htn : forall t', is_Some (<[t := r]> (tenants d) !! t') -> t' = t \/ t' <> t /\ is_Some (tenants d !! t')).
  { intros t'. destruct (decide (t' = t)); [by left | rewrite lookup_insert_ne by done; by right]. }
  constructor; rewrite ?E1, ?E2, ?E3, ?E4, ?E5.
  - intros t' [->|[Hne Ht]]%Htn.
    + exists (os_owner input). eexists. rewrite lookup_insert_eq. split_and!; try reflexivity. intros a m' [[[= <-] _]|[_ Ha]]%lookup_insert_Some; [done | by destruct (Hm _ _ Ha)].
    + destruct (H1 _ Ht) as (o & m & Ho & ? & ? & Hu). exists o, m. rewrite lookup_insert_ne by congruence. split_and!; try done.
      intros a m'. rewrite lookup_insert_ne by congruence. apply Hu.
  - intros t' a m [[[= <- <-] <-]|[_ Ha]]%lookup_insert_Some; [rewrite lookup_insert_eq; split; [by eexists | by exists ro]|].
    destruct (H2 _ _ _ Ha) as (Ht & s & Hs & ?). assert (t' <> t) by (intros ->; by eapply Hm). rewrite lookup_insert_ne by done. split; [done|]. exists s. by rewrite seeds_other.
  - intros t' i j x y [(-> & -> & _)|Hx]%seeds_inv [(Et & -> & _)|Hy]%seeds_inv Ec; [congruence | by destruct (Hr _ _ Hy) | by subst; destruct (Hr _ _ Hx) | by eapply H3].
  - intros t' [->|[Hne Ht]]%Htn; [by exists (uuid "owner"), ro|]. destruct (H4 _ Ht) as (i & s & Hs & ?). exists i, s. by rewrite seeds_other.
  - intros t' i x [(-> & _ & _ & Hp)|Hx]%seeds_inv; [rewrite lookup_insert_eq; split; [by eexists | done]|]. destruct (H5 _ _ _ Hx). split; [|done].
    destruct (decide (t' = t)) as [->|]; [rewrite lookup_insert_eq; by eexists | by rewrite lookup_insert_ne].
  - intros Hst t' [->|[Hne Ht]]%Htn; [exists (uuid "branch"), b; by rewrite lookup_insert_eq|]. destruct (H6 Hst _ Ht) as (i & x & Hx & ?). exists i, x. rewrite lookup_insert_ne by congruence. done.
  - intros t' a ids Ha. destruct (H7 _ _ _ Ha) as (? & (m & Hmm & ?) & Hl). assert (t' <> t) by (intros ->; by eapply Hm). split_and!; [done | exists m; rewrite lookup_insert_ne by congruence; done|].
    intros i (x & Hx & ?)%Hl. exists x. rewrite lookup_insert_ne by congruence. done.
Qed.

Lemma createTenant_ok a t sub bn uuid d r d' : Inj (=) (=) uuid -> store_ok strict d -> createTenant a t sub bn uuid d = Ok (r, d') -> store_ok strict d'.
Proof.
  intros Hi Hok H. unfold createTenant in H. inv_store. match goal with H' : openStore _ _ _ _ = Ok (_, ?z) |- _ => apply (store_ok_ext z); try done; by eapply openStore_ok in H' end.
Qed.

Lemma addMember_ok t actor email input ids d m d' : store_ok strict d -> addMember t actor email input ids d = Ok (m, d') -> store_ok strict d'.
Proof.
  intros Hok H. unfold addMember in H. apply tx_bind_Ok in H as (o & d1 & [= -> ->]%gets_Ok & H). destruct (List.find _ _) as [[a x]|]; [|done]. by eapply add_member_ok in H.
Qed.

Lemma serve_ok q uuid d : Inj (=) (=) uuid -> store_ok strict d -> store_ok strict (serve q uuid d).
Proof.
  intros Hi Hok. unfold serve, after. destruct (run q uuid d) as [[u d']|e] eqn:H; [|done]. destruct q; unfold run in H;
    try (apply tx_bind_Ok in H as (x & d1 & H & Hr); apply tx_ret_Ok in Hr as [= -> ->]).
  - exact (createTenant_ok _ _ _ _ _ _ _ _ Hi Hok H).
  - exact (createBranch_ok _ _ _ _ _ _ Hok H).
  - exact (updateBranch_ok _ _ _ _ _ _ _ Hok H).
  - exact (removeBranch_ok _ _ _ _ _ _ Hok H).
  - exact (addMember_ok _ _ _ _ _ _ _ _ Hok H).
  - exact (updateMember_ok _ _ _ _ _ _ _ _ Hok H).
  - exact (lockMember_ok _ _ _ _ _ _ Hok H).
  - exact (unlockMember_ok _ _ _ _ _ Hok H).
  - exact (removeMember_ok _ _ _ _ _ _ _ Hok H).
  - exact (createRole_ok _ _ _ _ _ _ Hok H).
  - exact (updateRole_ok _ _ _ _ _ _ Hok H).
  - exact (removeRole_ok _ _ _ _ _ Hok H).
  - apply modify_Ok in H as [= -> ->]. by apply (store_ok_ext d).
Qed.

Lemma store_reachable_ok d : reachable d -> store_ok strict d.
Proof.
  induction 1 as [|q uuid d Hd IH Hi]; [|by apply serve_ok]. constructor; cbn; try (intros; by simplify_map_eq).
  all: intros t [? Ht]; by rewrite lookup_empty in Ht.
Qed.
End Keep.

(** ** Branch updates under way

    An update or a removal of a branch reads it before its transaction: any requests
    can be served between the read and the save. *)

Inductive pending :=
| PendingUpdate (t id : string) (plan : BranchRow * bool)
| PendingRemoval (t id : string) (branch : BranchRow).

Inductive late_reachable : db -> list pending -> Prop :=
| late_empty : late_reachable empty_db []
| late_serve q uuid d p : late_reachable d p -> Inj (=) (=) uuid -> late_reachable (serve q uuid d) p
| late_read t id dto d p plan : late_reachable d p -> plan_branch_update t id dto d = Ok (plan, d) -> late_reachable d (PendingUpdate t id plan :: p)
| late_save t id plan ans d p p' : late_reachable d p -> p ≡ₚ PendingUpdate t id plan :: p' -> late_reachable (after (commit_branch_update t id plan ans) d) p'
| late_look t id d p b : late_reachable d p -> plan_branch_removal t id d = Ok (b, d) -> late_reachable d (PendingRemoval t id b :: p)
| late_remove t id b ans d p p' : late_reachable d p -> p ≡ₚ PendingRemoval t id b :: p' -> late_reachable (after (commit_branch_removal t id b ans) d) p'.

Section Late.
Implicit Types (d : db).

(** What is saved later is a branch that was not deleted. *)
Definition plan_ok (x : pending) : Prop := match x with PendingUpdate _ _ plan => live plan.1 = true | PendingRemoval _ _ _ => True end.

Lemma plan_update_live t i dto d plan d' : plan_branch_update t i dto d = Ok (plan, d') -> live plan.1 = true.
Proof.
  unfold plan_branch_update. intros (b & d1 & (-> & _ & Hl)%find_branch_Ok & H)%tx_bind_Ok. destruct (match ub_code dto with Some _ => _ | None => _ end); [done|].
  by apply tx_ret_Ok in H as [= -> ->].
Qed.

Lemma commit_update_ok t i plan ans d r d' : store_ok false d -> live plan.1 = true -> commit_branch_update t i plan ans d = Ok (r, d') -> store_ok false d'.
Proof.
  intros Hok Hl (act & d0 & [= -> ->]%gets_Ok & (u & d1 & Hg & H)%tx_bind_Ok)%tx_bind_Ok.
  assert (d1 = d) as ->.
  { unfold when, assertCanDeactivate, fromServices in Hg. destruct plan.2; [|by inv_store]. inv_store. destruct ans; by inv_store. }
  inv_store. match goal with |- store_ok _ ?x => apply (store_ok_ext (set_branches (branches x) d) x); try done; apply set_branches_ok; [done | done |]; cbn end.
  intros t' j x Hx Hlx. destruct (decide ((t, i) = (t', j))) as [->|Hne]; [|exists x; by rewrite lookup_insert_ne]. exists plan.1. by rewrite lookup_insert_eq.
Qed.

Lemma late_ok d p : late_reachable d p -> store_ok false d /\ Forall plan_ok p.
Proof.
  induction 1 as [|q uuid d p _ [IH IP] Hi|t i dto d p plan _ [IH IP] Hp|t i plan ans d p p' _ [IH IP] Hp|t i d p b _ [IH IP] Hp|t i b ans d p p' _ [IH IP] Hp].
  - split; [|constructor]. apply store_reachable_ok, reach_empty.
  - split; [by apply serve_ok | done].
  - split; [done|]. constructor; [by eapply plan_update_live | done].
  - rewrite Hp in IP. apply Forall_cons in IP as [Hl IP]. split; [|done]. unfold after. destruct (commit_branch_update _ _ _ _ _) as [[r d']|] eqn:E; [|done].
    by eapply commit_update_ok.
  - split; [done | by constructor].
  - rewrite Hp in IP. apply Forall_cons in IP as [_ IP]. split; [|done]. unfold after. destruct (commit_branch_removal _ _ _ _ _) as [[r d']|] eqn:E; [|done].
    by eapply removal_ok.
Qed.

Lemma reachable_late d : reachable d -> late_reachable d [].
Proof. induction 1; by constructor. Qed.
End Late.

(** ** Who may do what *)

Section Access.
Implicit Types (d : db).

Lemma findActive_inv a t d ms : findActiveMembership a t d = Some ms -> exists m s r, members d !! (t, a) = Some m /\ tenants d !! t = Some s /\
  roles d !! (t, mb_roleId m) = Some r /\ mb_status m = MB_ACTIVE /\ tn_status s = TN_ACTIVE /\ ms_role ms = rl_code r /\
  ms_permissions ms = (if String.eqb (rl_code r) "owner" then ["*"] else sort_by string_order (rl_permissions r)) /\
  ms_branches ms = (if String.eqb (rl_code r) "owner" || bool_decide (length (default [] (assigned d !! (t, a))) = 0%nat) then ["*"]
                    else sort_by string_order (default [] (assigned d !! (t, a)))).
Proof.
  unfold findActiveMembership. intros (m & Hm & (s & Hs & (r & Hr & H)%bind_Some)%bind_Some)%bind_Some. destruct (_ && _) eqn:E; [|done]. injection H as <-. bool_prop.
  exists m, s, r. done.
Qed.

Lemma seats_of_role {strict} a t d m r : store_ok strict d -> members d !! (t, a) = Some m -> roles d !! (t, mb_roleId m) = Some r -> rl_code r = mb_role m.
Proof. intros Hok Hm Hr. destruct (so_member _ Hok _ _ _ Hm) as (_ & s & Hs & <-). congruence. Qed.

Lemma no_code_is_wildcard l : forallb isPermissionCode l = true -> WILDCARD_PERMISSION ∉ l.
Proof. intros H Hin. rewrite forallb_forall in H. by apply list_elem_of_In, H in Hin. Qed.

(** Requests with the ids each draws, from empty tables. *)
Definition after_all (l : list (request * string)) : db := fold_left (fun d e => serve e.1 (String.append e.2) d) l empty_db.

Lemma after_all_reachable l : reachable (after_all l).
Proof.
  unfold after_all. generalize reach_empty. generalize empty_db. induction l as [|e l IH]; intros d Hd; [done|]. cbn. apply IH. constructor; [done | apply _].
Qed.

(** C15. A store that exists has exactly one owner, whose membership is active and cannot
    be locked or removed; while the store is active the owner's token holds every
    permission in every branch, and nobody else's token holds the wildcard: the
    permissions of the others are listed ones.  Requests of every kind may come in any
    order, one at a time, except that any requests can come between the read and the
    save of a branch update or a branch removal, which lock nothing when they read.
    (That a store keeps an open branch is not part of this: such a late save can close
    the last one.) *)
Theorem every_store_has_one_owner d p t s : late_reachable d p -> tenants d !! t = Some s -> exists o,
  (exists m, members d !! (t, o) = Some m /\ mb_role m = "owner" /\ mb_status m = MB_ACTIVE) /\
  (forall a m, members d !! (t, a) = Some m -> mb_role m = "owner" -> a = o) /\
  (forall actor answers, lockMember t actor o d = Throw (DomainError (Coded T005) 400) /\ removeMember t actor o answers d = Throw (DomainError (Coded T005) 400)) /\
  (tn_status s = TN_ACTIVE -> tn_deleted s = false -> exists ms, findActiveMembership o t d = Some ms /\ ms_permissions ms = ["*"] /\ ms_branches ms = ["*"]) /\
  (forall a ms, a <> o -> findActiveMembership a t d = Some ms -> forallb isPermissionCode (ms_permissions ms) = true /\ WILDCARD_PERMISSION ∉ ms_permissions ms).
Proof.
  intros [Hok _]%late_ok Hs. assert (Ht : is_Some (tenants d !! t)) by (by eexists). destruct (so_owner _ Hok _ Ht) as (o & m & Hm & Hro & Hst & Hu). exists o. split_and!.
  - by exists m.
  - exact Hu.
  - intros actor ans. unfold lockMember, removeMember, find_member, assertRemovable, gets, mbind, txn_bind, mret, txn_ret. by rewrite Hm, Hro.
  - intros Ha Hd. destruct (so_member _ Hok _ _ _ Hm) as (_ & r & Hr & Hc). unfold findActiveMembership. rewrite Hm, Hs. cbn [mbind option_bind]. rewrite Hr. cbn [mbind option_bind].
    rewrite Hst, Ha, Hd, Hc, Hro. cbn. by eexists.
  - intros a ms Hne (m' & s' & r & Hm' & _ & Hr & _ & _ & _ & Hp & _)%findActive_inv. pose proof (seats_of_role _ _ _ _ _ Hok Hm' Hr) as Hc. rewrite Hp.
    destruct (String.eqb_spec (rl_code r) "owner") as [Eo|_]; [destruct Hne; apply (Hu _ _ Hm'); congruence|].
    assert (forallb isPermissionCode (sort_by string_order (rl_permissions r)) = true) as Hl; [|by split; [|apply no_code_is_wildcard]].
    apply forallb_forall. intros x Hx%list_elem_of_In. rewrite sort_by_perm in Hx. destruct (so_role _ Hok _ _ _ Hr) as [_ Hf]. rewrite forallb_forall in Hf. by apply Hf, list_elem_of_In.
Qed.

(** When requests are served one at a time, every store also keeps a branch that is
    open; [late_branch_save_closes_the_last] shows that this needs it. *)
Theorem store_keeps_a_branch_open d t : reachable d -> is_Some (tenants d !! t) -> exists i b, branches d !! (t, i) = Some b /\ live_active b = true.
Proof. intros Hok%(store_reachable_ok (strict := true)). by apply (so_branch _ Hok). Qed.






(** ** A store *)

Definition hired : list (request * string) :=
  [(AccountsAndPlans (list_to_map [("an", {| ac_email := "an@shop.vn"; ac_active := true |}); ("binh", {| ac_email := "binh@shop.vn"; ac_active := true |});
      ("chi", {| ac_email := "chi@shop.vn"; ac_active := true |})]) ∅ (Some (2, 2)), "");
   (CreateTenant "an" "shop" "shop" None, "1-");
   (CreateBranch "shop" {| cb_name := "Kho 2"; cb_code := "CN02"; cb_isWarehouse := None |}, "2-");
   (AddMember "shop" "an" "binh@shop.vn" {| ri_roleId := None; ri_role := Some "cashier" |} ["1-branch"; "2-branch"], "3-");
   (UpdateBranch "shop" "2-branch" {| ub_name := None; ub_code := None; ub_isWarehouse := None; ub_status := Some BR_INACTIVE |} (Some []), "4-")].

Definition shop : TenantRow := {| tn_subdomain := "shop"; tn_status := TN_ACTIVE; tn_deleted := false |}.





(** ** What the code does not keep *)

Definition locked_and_replaced : list (request * string) :=
  hired ++ [(LockMember "shop" "an" "binh", "6-"); (AddMember "shop" "an" "chi@shop.vn" {| ri_roleId := None; ri_role := Some "accountant" |} [], "7-");
            (UnlockMember "shop" "binh", "8-")].

Definition seats (t : string) (d : db) : nat := length (rows_of t (fun _ => seat) (members d)).

(** [unlock] does not ask the plan: with two users allowed, a member can be locked,
    another added in the free place and the first unlocked. *)
Theorem unlock_exceeds_the_plan : currentPlan "shop" (after_all locked_and_replaced) = Some (2, 2) /\ seats "shop" (after_all locked_and_replaced) = 3%nat.
Proof. split; vm_compute; reflexivity. Qed.

Definition removed_and_replaced : list (request * string) :=
  hired ++ [(RemoveMember "shop" "an" "binh" (Some []), "6-"); (AddMember "shop" "an" "chi@shop.vn" {| ri_roleId := None; ri_role := Some "accountant" |} [], "7-")].

(** The code of the last member is given again after the member is removed. *)
Theorem removed_member_code_is_reused :
  (mb_code <$> members (after_all hired) !! ("shop", "binh")) = Some "NV002" /\ (mb_code <$> members (after_all removed_and_replaced) !! ("shop", "chi")) = Some "NV002".
Proof. split; vm_compute; reflexivity. Qed.

(** [BranchService.update] reads the branch before the transaction that saves all of it:
    a rename of a closed branch that was read before the branch was opened again closes
    it, whatever happened to the other branch in between. *)
Definition switched : list (request * string) :=
  hired ++ [(UpdateBranch "shop" "2-branch" {| ub_name := None; ub_code := None; ub_isWarehouse := None; ub_status := Some BR_ACTIVE |} (Some []), "6-");
            (UpdateBranch "shop" "1-branch" {| ub_name := None; ub_code := None; ub_isWarehouse := None; ub_status := Some BR_INACTIVE |} (Some []), "7-")].

Definition rename_second : UpdateBranchReqDto := {| ub_name := Some "Kho"; ub_code := None; ub_isWarehouse := None; ub_status := None |}.

Definition open_branches (t : string) (d : db) : nat := length (rows_of t (fun _ => live_active) (branches d)).

Theorem late_branch_save_closes_the_last : exists plan, plan_branch_update "shop" "2-branch" rename_second (after_all hired) = Ok (plan, after_all hired) /\
  open_branches "shop" (after_all switched) = 1%nat /\
  open_branches "shop" (after (commit_branch_update "shop" "2-branch" plan (Some [])) (after_all switched)) = 0%nat.
Proof.
  exists ({| br_code := "CN02"; br_name := "Kho"; br_isWarehouse := true; br_status := BR_INACTIVE; br_deleted := false |}, false). split_and!; vm_compute; reflexivity.
Qed.

Definition late_plan : BranchRow * bool :=
  ({| br_code := "CN02"; br_name := "Kho"; br_isWarehouse := true; br_status := BR_INACTIVE; br_deleted := false |}, false).

Definition closed_late : db := after (commit_branch_update "shop" "2-branch" late_plan (Some [])) (after_all switched).

Lemma serve_late l : forall d p, late_reachable d p -> late_reachable (fold_left (fun d e => serve e.1 (String.append e.2) d) l d) p.
Proof. induction l as [|e l IH]; intros d p Hd; [done|]. cbn. apply IH. constructor; [done | apply _]. Qed.

Lemma closed_late_reachable : late_reachable closed_late [].
Proof.
  apply late_save with (p := [PendingUpdate "shop" "2-branch" late_plan]); [|done]. unfold after_all, switched. rewrite fold_left_app. apply serve_late.
  change (late_reachable (after_all hired) [PendingUpdate "shop" "2-branch" late_plan]). eapply (late_read _ _ rename_second).
  - apply reachable_late, after_all_reachable.
  - vm_compute. reflexivity.
Qed.

(** The store of the late save still has its owner, and no open branch. *)
Lemma every_store_has_one_owner_witness : open_branches "shop" closed_late = 0%nat /\
  exists o m, members closed_late !! ("shop", o) = Some m /\ mb_role m = "owner" /\ mb_status m = MB_ACTIVE.
Proof.
  assert (Hs : tenants closed_late !! "shop" = Some shop) by (vm_compute; reflexivity). split; [vm_compute; reflexivity|].
  destruct (every_store_has_one_owner closed_late [] "shop" shop closed_late_reachable Hs) as (o & (m & Hm) & _). by exists o, m.
Defined.

Definition long_name : string := "Nhan vien ban hang va thu ngan ca toi cuoi tuan".
Definition long_role : list (request * string) := hired ++ [(CreateRole "shop" {| cr_name := long_name; cr_permissions := ["orders.view"] |}, "6-")].

(** The code made from a role's name can be longer than the column of a member it is
    copied to: such a role exists and cannot be given to anyone. *)
Theorem long_role_cannot_be_given : is_Some (roles (after_all long_role) !! ("shop", "6-role")) /\
  updateMember "shop" "an" "binh" {| ri_roleId := Some "6-role"; ri_role := None |} None (after_all long_role) = Throw (DomainError QueryFailed 500).
Proof. split; [|vm_compute; reflexivity]. apply (fmap_is_Some rl_code). apply not_eq_None_Some. vm_compute. discriminate. Qed.
End Access.
