(* ===== verification/IntegrationDomain.v ===== *)
(** * The rules of marketplace connections

    apps/integration/src/domain/integration-domain.ts: the lifecycle of a connection,
    encrypted credentials, redaction, signatures, the order of status updates, the stock
    that is published, retries, and the translation of an external order.  The functions
    of [node:crypto] and of [Buffer] are the fields of [Crypto], with what the code
    relies on as [CryptoLaws].  Left out: error texts, and the unit price of an external
    line, which nothing reads. *)

From S2P Require Import Prelude JsNumber JsString.
From Stdlib Require Import Ascii QArith.

Open Scope Z_scope.

(** ** Data *)

Inductive MarketplaceProvider := SHOPEE | LAZADA.
Inductive ConnectionStatus := PENDING_AUTH | CONNECTED | DEGRADED | TOKEN_EXPIRED | REAUTH_REQUIRED | PAUSED | DISCONNECTED.
Inductive SkuMappingStatus := MAP_ACTIVE | MAP_INACTIVE | MAP_CONFLICT | MAP_NEEDS_REVIEW.
Inductive NormalizedExternalOrderStatus := UNPAID | READY_TO_SHIP | SHIPPED | DELIVERED | CANCELLED | RETURN_REQUESTED.
Inductive ErrorClassification := TRANSIENT | PERMANENT_CONFIG | BUSINESS_CONFLICT | UNKNOWN_OUTCOME.

#[export] Instance MarketplaceProvider_eq_dec : EqDecision MarketplaceProvider.
Proof. solve_decision. Defined.
#[export] Instance ConnectionStatus_eq_dec : EqDecision ConnectionStatus.
Proof. solve_decision. Defined.
#[export] Instance SkuMappingStatus_eq_dec : EqDecision SkuMappingStatus.
Proof. solve_decision. Defined.
#[export] Instance ExternalOrderStatus_eq_dec : EqDecision NormalizedExternalOrderStatus.
Proof. solve_decision. Defined.

Inductive IntegrationDomainErrorCode :=
| CHANNEL_CONNECTION_NOT_FOUND | CHANNEL_CONNECTION_INACTIVE | CHANNEL_CONNECTION_CONFLICT | CHANNEL_AUTHORIZATION_FAILED | CHANNEL_TOKEN_EXPIRED
| CHANNEL_REAUTH_REQUIRED | INVALID_CONNECTION_TRANSITION | INVALID_WEBHOOK_SIGNATURE | WEBHOOK_REPLAY_REJECTED | WEBHOOK_PAYLOAD_UNSUPPORTED
| WEBHOOK_PERSISTENCE_FAILED | SKU_MAPPING_NOT_FOUND | SKU_MAPPING_CONFLICT | EXTERNAL_SKU_UNKNOWN | INTERNAL_VARIANT_NOT_FOUND | INTERNAL_VARIANT_INACTIVE
| EXTERNAL_ORDER_ALREADY_IMPORTED | EXTERNAL_ORDER_MAPPING_REQUIRED | EXTERNAL_ORDER_STATE_CONFLICT | PROVIDER_RATE_LIMITED | PROVIDER_UNAVAILABLE
| PROVIDER_CAPABILITY_UNSUPPORTED | PROVIDER_CIRCUIT_OPEN | PROVIDER_TIMEOUT_UNKNOWN_OUTCOME | SYNC_JOB_NOT_FOUND | SYNC_JOB_ALREADY_RUNNING
| SYNC_JOB_RETRY_EXHAUSTED | CONFLICT_NOT_FOUND | CONFLICT_ALREADY_RESOLVED | INVENTORY_PUBLICATION_CONFLICT | RECONCILIATION_REQUIRED
| RECONCILIATION_RUN_NOT_FOUND | IDEMPOTENCY_CONFLICT | TENANT_ACCESS_DENIED | PERMISSION_DENIED | VALIDATION_ERROR.

Abbreviation res := (result IntegrationDomainErrorCode).
Definition refuse {A} (c : IntegrationDomainErrorCode) (httpStatus : Z) : res A := Throw (DomainError c httpStatus).

(** ** Lifecycle of a connection *)

Definition ALLOWED_CONNECTION_TRANSITIONS (from : ConnectionStatus) : list ConnectionStatus :=
  match from with
  | PENDING_AUTH => [CONNECTED; REAUTH_REQUIRED; DISCONNECTED]
  | CONNECTED => [CONNECTED; DEGRADED; TOKEN_EXPIRED; REAUTH_REQUIRED; PAUSED; DISCONNECTED]
  | DEGRADED => [CONNECTED; TOKEN_EXPIRED; REAUTH_REQUIRED; PAUSED; DISCONNECTED]
  | TOKEN_EXPIRED => [CONNECTED; REAUTH_REQUIRED; PAUSED; DISCONNECTED]
  | REAUTH_REQUIRED => [PENDING_AUTH; CONNECTED; DISCONNECTED]
  | PAUSED => [CONNECTED; REAUTH_REQUIRED; DISCONNECTED]
  | DISCONNECTED => [PENDING_AUTH; CONNECTED]
  end.

Definition assertValidConnectionTransition (from to : ConnectionStatus) : res unit :=
  if bool_decide (to ∈ ALLOWED_CONNECTION_TRANSITIONS from) then Ok tt else refuse INVALID_CONNECTION_TRANSITION 409.

(** ** Credentials *)

(** [createHash('sha256')], AES-256-GCM sealing and opening (with the tag), base64 of a
    buffer and back, the hexadecimal HMAC-SHA256. *)
Class Crypto := {
  sha256 : string -> string; seal : string -> string -> string -> string * string; open : string -> string -> string -> string -> option string;
  to_base64 : string -> string; of_base64 : string -> string; hmac : string -> string -> string }.

Class CryptoLaws `{Crypto} := {
  open_seal k iv p : open k iv (seal k iv p).2 (seal k iv p).1 = Some p;
  of_to_base64 b : of_base64 (to_base64 b) = b;
  base64_no_colon b : sall (fun c => negb (Ascii.eqb c ":")) (to_base64 b) = true }.

(** [s.split(':')]. *)
Fixpoint split_on (sep : ascii) (s : string) : list string :=
  match s with
  | "" => [""]
  | String c s' =>
      if Ascii.eqb c sep then "" :: split_on sep s'
      else match split_on sep s' with [] => [String c ""] | p :: ps => String c p :: ps end
  end.

(** [process.env.INTEGRATION_CREDENTIAL_MASTER_KEY] is an argument; without it the code
    throws a plain [Error]. *)
Definition readCredentialMasterKey (env : option string) : res string :=
  if truthy env then Ok (default "" env) else Throw (JsError PlainError).

Section Credentials.
Context `{Crypto}.

Definition deriveAesKey (env rawMasterKey : option string) : res string :=
  secret ← (if truthy rawMasterKey then Ok (default "" rawMasterKey) else readCredentialMasterKey env);
  Ok (sha256 secret).

(** [iv] are the random bytes drawn. *)
Definition encryptCredentialSecret (env : option string) (iv plaintext : string) (keyVersion : Z) (masterKey : option string) : res string :=
  if String.eqb plaintext "" then refuse VALIDATION_ERROR 400
  else
    key ← deriveAesKey env masterKey;
    let (encrypted, authTag) := seal key iv plaintext in
    Ok ("v" +:+ Z_string keyVersion +:+ ":" +:+ to_base64 iv +:+ ":" +:+ to_base64 authTag +:+ ":" +:+ to_base64 encrypted).

Definition starts_with_v (s : string) : bool := match s with String c _ => Ascii.eqb c "v" | "" => false end.

Definition decryptCredentialSecret (env : option string) (ciphertext : string) (masterKey : option string) : res string :=
  match split_on ":" ciphertext with
  | [v; ivB64; tagB64; dataB64] =>
      if negb (starts_with_v v) then refuse CHANNEL_AUTHORIZATION_FAILED 500
      else
        key ← deriveAesKey env masterKey;
        match open key (of_base64 ivB64) (of_base64 tagB64) (of_base64 dataB64) with Some p => Ok p | None => Throw (JsError PlainError) end
  | _ => refuse CHANNEL_AUTHORIZATION_FAILED 500
  end.
End Credentials.

(** ** Redaction *)

(** A JSON value; [Scalar] is a number or a boolean. *)
Inductive json := JNull | JStr (s : string) | Scalar (v : jsval) | JArr (l : list json) | JObj (l : list (string * json)).

(** [s.includes(sub)]. *)
Definition includes (sub s : string) : bool := match String.index 0 sub s with Some _ => true | None => false end.

Definition sensitive (k : string) : bool :=
  existsb (fun w => includes w (toLowerCase k)) ["token"; "secret"; "password"; "signature"; "authorization"; "partnerkey"; "appsecret"].

Arguments sensitive : simpl never.

Fixpoint redactSensitiveObject (input : json) : json :=
  match input with
  | JArr l => JArr (map redactSensitiveObject l)
  | JObj l => JObj (map (fun e => match e with (k, v) => (k, if sensitive k then JStr "[REDACTED]" else redactSensitiveObject v) end) l)
  | _ => input
  end.

(** ** Signatures *)

Section Signatures.
Context `{Crypto}.

Record ShopeeApiParams := { sp_partnerId : string; sp_partnerKey : string; sp_apiPath : string; sp_timestamp : number; sp_accessToken : option string; sp_shopId : option string }.

Definition computeShopeeApiSignature (p : ShopeeApiParams) : string :=
  let base := sp_partnerId p +:+ sp_apiPath p +:+ string_of_number (sp_timestamp p) in
  hmac (sp_partnerKey p)
    (if truthy (sp_accessToken p) && truthy (sp_shopId p) then base +:+ default "" (sp_accessToken p) +:+ default "" (sp_shopId p) else base).

Definition computeShopeeWebhookSignature (webhookUrl rawBody partnerKey : string) : string := hmac partnerKey (webhookUrl +:+ "|" +:+ rawBody).

(** The lengths, then [timingSafeEqual]. *)
Definition same_bytes (expected provided : string) : bool := (String.length expected =? String.length provided)%nat && String.eqb expected provided.

Definition verifyShopeeWebhookSignature (webhookUrl rawBody partnerKey providedSignature : string) : bool :=
  if String.eqb providedSignature "" || String.eqb partnerKey "" then false
  else same_bytes (computeShopeeWebhookSignature webhookUrl rawBody partnerKey) (trim providedSignature).

(** [queryParams]: the entries of the object, with distinct keys. *)
Definition computeLazadaApiSignature (appSecret apiPath : string) (queryParams : list (string * jsval)) : string :=
  let sortedKeys := sort_by string_order (List.filter (fun k => negb (String.eqb k "sign")) (map fst queryParams)) in
  toUpperCase (hmac appSecret (fold_left (fun base k => base +:+ k +:+ to_str (default Undefined (mget k queryParams))) sortedKeys apiPath)).

Definition computeLazadaWebhookSignature (rawBody appSecret : string) : string := hmac appSecret rawBody.

Definition verifyLazadaWebhookSignature (rawBody appSecret providedSignature : string) : bool :=
  if String.eqb providedSignature "" || String.eqb appSecret "" then false
  else same_bytes (toLowerCase (computeLazadaWebhookSignature rawBody appSecret)) (toLowerCase (trim providedSignature)).
End Signatures.

Definition assertWebhookTimestampFreshness (eventTimestampSeconds nowMs maxSkewSeconds : number) : res unit :=
  if negb (isFinite eventTimestampSeconds) || nle eventTimestampSeconds (int 0) then refuse WEBHOOK_REPLAY_REJECTED 401
  else
    let nowSeconds := mathFloor (ndiv nowMs (int 1000)) in
    let skew := mathAbs (nsub nowSeconds eventTimestampSeconds) in
    if nlt maxSkewSeconds skew then refuse WEBHOOK_REPLAY_REJECTED 401 else Ok tt.

(** ** Status updates *)

Definition SHOPEE_STATUS_MAP : list (string * NormalizedExternalOrderStatus) :=
  [("UNPAID", UNPAID); ("READY_TO_SHIP", READY_TO_SHIP); ("PROCESSED", SHIPPED); ("SHIPPED", SHIPPED); ("TO_CONFIRM_RECEIVE", DELIVERED);
   ("COMPLETED", DELIVERED); ("IN_CANCEL", CANCELLED); ("CANCELLED", CANCELLED); ("TO_RETURN", RETURN_REQUESTED)].

Definition LAZADA_STATUS_MAP : list (string * NormalizedExternalOrderStatus) :=
  [("unpaid", UNPAID); ("pending", READY_TO_SHIP); ("packed", READY_TO_SHIP); ("ready_to_ship", READY_TO_SHIP); ("shipped", SHIPPED);
   ("delivered", DELIVERED); ("canceled", CANCELLED); ("cancelled", CANCELLED); ("returned", RETURN_REQUESTED)].

Definition STATUS_PROGRESSION_RANK (s : NormalizedExternalOrderStatus) : Z :=
  match s with UNPAID => 10 | READY_TO_SHIP => 20 | SHIPPED => 30 | DELIVERED => 40 | CANCELLED => 50 | RETURN_REQUESTED => 60 end.

(** The names every JS object inherits ([constructor], [__proto__]) are not statuses of
    the model. *)
Definition normalizeProviderOrderStatus (provider : MarketplaceProvider) (rawStatus : string) : res NormalizedExternalOrderStatus :=
  let trimmed := trim rawStatus in
  match (match provider with SHOPEE => mget (toUpperCase trimmed) SHOPEE_STATUS_MAP | LAZADA => mget (toLowerCase trimmed) LAZADA_STATUS_MAP end) with
  | Some mapped => Ok mapped
  | None => refuse WEBHOOK_PAYLOAD_UNSUPPORTED 422
  end.

Definition getNormalizedStatusRank (s : NormalizedExternalOrderStatus) : Z := STATUS_PROGRESSION_RANK s.

Inductive StatusOutcome := APPLY | IGNORE_STALE | CONFLICT_RECONCILIATION_REQUIRED.
Record StatusTransitionEvaluation := { se_outcome : StatusOutcome; se_targetRank : Z }.

Definition evaluateExternalStatusProgression (currentStatus : option NormalizedExternalOrderStatus) (currentRank : Z) (incomingStatus : NormalizedExternalOrderStatus)
    : StatusTransitionEvaluation :=
  let targetRank := getNormalizedStatusRank incomingStatus in
  match currentStatus with
  | None => {| se_outcome := APPLY; se_targetRank := targetRank |}
  | Some cur =>
      if currentRank =? 0 then {| se_outcome := APPLY; se_targetRank := targetRank |}
      else if bool_decide (cur = incomingStatus) then {| se_outcome := IGNORE_STALE; se_targetRank := currentRank |}
      else if bool_decide (cur = DELIVERED) && bool_decide (incomingStatus = CANCELLED) then
        {| se_outcome := CONFLICT_RECONCILIATION_REQUIRED; se_targetRank := currentRank |}
      else if bool_decide (cur = CANCELLED) && (targetRank <? STATUS_PROGRESSION_RANK CANCELLED) then {| se_outcome := IGNORE_STALE; se_targetRank := currentRank |}
      else if targetRank <? currentRank then {| se_outcome := IGNORE_STALE; se_targetRank := currentRank |}
      else {| se_outcome := APPLY; se_targetRank := targetRank |}
  end.

(** ** Published stock *)

Record SellableQuantityCalculationInput := { sq_onHandQty : number; sq_reservedQty : number; sq_safetyBuffer : number; sq_allocationPercent : number }.
Record SellableQuantityCalculationResult := { sq_availableQty : number; sq_afterBufferQty : number; sq_publishableQty : number }.

(** [n || 0]: [NaN] and zero are falsy. *)
Definition or_zero (n : number) : number := match n with NaN => int 0 | _ => n end.

Definition calculateChannelPublishableQuantity (input : SellableQuantityCalculationInput) : SellableQuantityCalculationResult :=
  let onHand := if isFinite (sq_onHandQty input) then mathFloor (sq_onHandQty input) else int 0 in
  let reserved := if isFinite (sq_reservedQty input) then mathFloor (sq_reservedQty input) else int 0 in
  let buffer := mathMax (int 0) (mathFloor (or_zero (sq_safetyBuffer input))) in
  let pct := mathMin (int 100) (mathMax (int 0) (sq_allocationPercent input)) in
  let availableQty := mathMax (int 0) (nsub onHand reserved) in
  let afterBufferQty := mathMax (int 0) (nsub availableQty buffer) in
  let publishableQty := mathMax (int 0) (mathFloor (ndiv (nmul afterBufferQty pct) (int 100))) in
  {| sq_availableQty := availableQty; sq_afterBufferQty := afterBufferQty; sq_publishableQty := publishableQty |}.

Definition shouldApplyInventoryStockVersion (lastPublishedVersion incomingVersion : number) : bool := nlt lastPublishedVersion incomingVersion.

(** ** Retries *)

Record BackoffParams := { bo_attemptCount : Z; bo_baseDelayMs : option number; bo_maxDelayMs : option number; bo_retryAfterSeconds : option number;
  bo_jitterRatio : option number }.

(** [Math.ceil] and [Math.pow(2, n)] of an integer [n >= 0]. *)
Definition mathCeil (a : number) : number := match a with Fin q => int (- ((- Qnum q) / Zpos (Qden q))) | _ => a end.
Definition pow2 (n : Z) : number := rnd (2 ^ n # 1).

(** The delay without [retryAfterSeconds]; [rand] is what the random function answers. *)
Definition jittered (p : BackoffParams) (rand : number) : number :=
  let base := default (int 1000) (bo_baseDelayMs p) in
  let max := default (int 60000) (bo_maxDelayMs p) in
  let exp := mathMin max (nmul base (pow2 (Z.max 0 (bo_attemptCount p - 1)))) in
  let jitter := nmul (nmul exp (default (rnd (1 # 5)) (bo_jitterRatio p))) rand in
  mathMin max (mathRound (nadd exp jitter)).

Definition calculateBackoffDelayMs (p : BackoffParams) (rand : number) : number :=
  match bo_retryAfterSeconds p with
  | Some s => if nlt (int 0) s then mathCeil (nmul s (int 1000)) else jittered p rand
  | None => jittered p rand
  end.

(** A thrown value: an error of this layer with the [retryAfterSeconds] of its details,
    or anything else with its text. *)
Inductive thrown := DomainThrown (code : IntegrationDomainErrorCode) (retryAfterSeconds : option number) | OtherThrown (msg : string).

Inductive ClassifiedCode := OwnCode (code : IntegrationDomainErrorCode) | TRANSIENT_NETWORK_ERROR | UNHANDLED_INTEGRATION_ERROR.
Record Classification := { cl_category : ErrorClassification; cl_code : ClassifiedCode; cl_retryable : bool; cl_retryAfterSeconds : option number }.

Definition classifyIntegrationError (e : thrown) : Classification :=
  match e with
  | DomainThrown c after =>
      match c with
      | PROVIDER_RATE_LIMITED => {| cl_category := TRANSIENT; cl_code := OwnCode c; cl_retryable := true; cl_retryAfterSeconds := after |}
      | PROVIDER_UNAVAILABLE | PROVIDER_CIRCUIT_OPEN | WEBHOOK_PERSISTENCE_FAILED =>
          {| cl_category := TRANSIENT; cl_code := OwnCode c; cl_retryable := true; cl_retryAfterSeconds := None |}
      | PROVIDER_TIMEOUT_UNKNOWN_OUTCOME => {| cl_category := UNKNOWN_OUTCOME; cl_code := OwnCode c; cl_retryable := true; cl_retryAfterSeconds := None |}
      | EXTERNAL_SKU_UNKNOWN | SKU_MAPPING_NOT_FOUND | SKU_MAPPING_CONFLICT | INTERNAL_VARIANT_INACTIVE | EXTERNAL_ORDER_MAPPING_REQUIRED
      | EXTERNAL_ORDER_STATE_CONFLICT | INVENTORY_PUBLICATION_CONFLICT =>
          {| cl_category := BUSINESS_CONFLICT; cl_code := OwnCode c; cl_retryable := false; cl_retryAfterSeconds := None |}
      | _ => {| cl_category := PERMANENT_CONFIG; cl_code := OwnCode c; cl_retryable := false; cl_retryAfterSeconds := None |}
      end
  | OtherThrown msg =>
      if existsb (fun w => includes w msg) ["ETIMEDOUT"; "ECONNRESET"; "503"; "502"; "429"]
      then {| cl_category := TRANSIENT; cl_code := TRANSIENT_NETWORK_ERROR; cl_retryable := true; cl_retryAfterSeconds := None |}
      else {| cl_category := PERMANENT_CONFIG; cl_code := UNHANDLED_INTEGRATION_ERROR; cl_retryable := false; cl_retryAfterSeconds := None |}
  end.

(** ** The connection aggregate *)

Record ChannelConnectionAggregate := { cx_id : string; cx_tenantId : string; cx_provider : MarketplaceProvider; cx_status : ConnectionStatus;
  cx_safetyStockBuffer : number; cx_stockAllocationPercent : number }.

Definition assertValidAllocationPolicy (safetyBuffer allocationPct : number) : res unit :=
  if negb (isFinite safetyBuffer) || nlt safetyBuffer (int 0) then refuse VALIDATION_ERROR 422
  else if negb (isFinite allocationPct) || nlt allocationPct (int 0) || nlt (int 100) allocationPct then refuse VALIDATION_ERROR 422
  else Ok tt.

Definition new_connection (id tenantId : string) (provider : MarketplaceProvider) (status : ConnectionStatus) (buffer pct : number) : res ChannelConnectionAggregate :=
  _ ← assertValidAllocationPolicy buffer pct;
  Ok {| cx_id := id; cx_tenantId := tenantId; cx_provider := provider; cx_status := status; cx_safetyStockBuffer := buffer; cx_stockAllocationPercent := pct |}.

Definition transitionTo (c : ChannelConnectionAggregate) (next : ConnectionStatus) : res ChannelConnectionAggregate :=
  _ ← assertValidConnectionTransition (cx_status c) next;
  Ok {| cx_id := cx_id c; cx_tenantId := cx_tenantId c; cx_provider := cx_provider c; cx_status := next; cx_safetyStockBuffer := cx_safetyStockBuffer c;
        cx_stockAllocationPercent := cx_stockAllocationPercent c |}.

Definition updateAllocationPolicy (c : ChannelConnectionAggregate) (safetyBuffer allocationPct : number) : res ChannelConnectionAggregate :=
  _ ← assertValidAllocationPolicy safetyBuffer allocationPct;
  Ok {| cx_id := cx_id c; cx_tenantId := cx_tenantId c; cx_provider := cx_provider c; cx_status := cx_status c; cx_safetyStockBuffer := mathFloor safetyBuffer;
        cx_stockAllocationPercent := mathFloor allocationPct |}.

Definition computePublishableStock (c : ChannelConnectionAggregate) (onHandQty reservedQty : number) : number :=
  sq_publishableQty (calculateChannelPublishableQuantity {| sq_onHandQty := onHandQty; sq_reservedQty := reservedQty;
    sq_safetyBuffer := cx_safetyStockBuffer c; sq_allocationPercent := cx_stockAllocationPercent c |}).

(** ** Translation of an external order *)

Record ExternalLine := { el_externalSkuId : string; el_qty : number }.
Record ExternalMarketplaceOrderInput := { eo_provider : MarketplaceProvider; eo_connectionId : string; eo_branchId : string; eo_warehouseId : option string;
  eo_externalOrderId : string; eo_rawStatus : string; eo_buyerName : option string; eo_shippingFee : jsval; eo_lines : list ExternalLine }.
Record ResolvedInternalSkuMapping := { rm_externalSkuId : string; rm_internalVariantId : string; rm_internalSkuCode : string; rm_mappingStatus : SkuMappingStatus;
  rm_isSellable : bool }.
Inductive InitialOrderStatus := INIT_PENDING | INIT_CONFIRMED | INIT_CANCELLED.
Record CanonicalLine := { cn_variantId : string; cn_skuCode : string; cn_qty : string }.
Record CanonicalSalesOrderImportCommand := { im_sourceConnectionId : string; im_externalOrderId : string; im_channelId : MarketplaceProvider; im_branchId : string;
  im_warehouseId : option string; im_customerName : string; im_normalizedExternalStatus : NormalizedExternalOrderStatus; im_initialOrderStatus : InitialOrderStatus;
  im_autoConfirm : bool; im_shippingFee : string; im_lines : list CanonicalLine }.

#[export] Instance InitialOrderStatus_eq_dec : EqDecision InitialOrderStatus.
Proof. solve_decision. Defined.

(** [n.toFixed(3)] of a positive number below 10^21. *)
Definition toFixed3 (n : number) : string :=
  match n with
  | Fin q =>
      if (10 ^ 21 * Zpos (Qden q) <=? Qnum q) then string_of_number n
      else let t := Qfloor_half (q * (1000 # 1)) in nat_string (t / 1000) +:+ "." +:+ padStart 3 "0" (nat_string (t mod 1000))
  | _ => string_of_number n
  end.

Definition translate_line (mappings : list (string * ResolvedInternalSkuMapping)) (line : ExternalLine) : res CanonicalLine :=
  if negb (isFinite (el_qty line)) || nle (el_qty line) (int 0) then refuse VALIDATION_ERROR 422
  else
    match mget (trim (el_externalSkuId line)) mappings with
    | None => refuse EXTERNAL_ORDER_MAPPING_REQUIRED 409
    | Some mapping =>
        if negb (bool_decide (rm_mappingStatus mapping = MAP_ACTIVE)) then refuse EXTERNAL_ORDER_MAPPING_REQUIRED 409
        else if negb (rm_isSellable mapping) then refuse INTERNAL_VARIANT_INACTIVE 409
        else Ok {| cn_variantId := rm_internalVariantId mapping; cn_skuCode := rm_internalSkuCode mapping; cn_qty := toFixed3 (el_qty line) |}
    end.

Definition provider_name (p : MarketplaceProvider) : string := match p with SHOPEE => "SHOPEE" | LAZADA => "LAZADA" end.

Definition translateExternalOrderToCanonicalSalesImport (o : ExternalMarketplaceOrderInput) (mappings : list (string * ResolvedInternalSkuMapping))
    : res CanonicalSalesOrderImportCommand :=
  if String.eqb (trim (eo_externalOrderId o)) "" then refuse VALIDATION_ERROR 422
  else if bool_decide (length (eo_lines o) = 0%nat) then refuse VALIDATION_ERROR 422
  else
    normalizedStatus ← normalizeProviderOrderStatus (eo_provider o) (eo_rawStatus o);
    canonicalLines ← traverse (translate_line mappings) (eo_lines o);
    let initialOrderStatus := match normalizedStatus with CANCELLED => INIT_CANCELLED | UNPAID => INIT_PENDING | _ => INIT_CONFIRMED end in
    let shippingFeeNum := if is_nullish (eo_shippingFee o) then int 0 else to_num (eo_shippingFee o) in
    let buyer := match eo_buyerName o with Some n => trim n | None => "" end in
    Ok {| im_sourceConnectionId := eo_connectionId o; im_externalOrderId := trim (eo_externalOrderId o); im_channelId := eo_provider o; im_branchId := eo_branchId o;
          im_warehouseId := eo_warehouseId o; im_customerName := if String.eqb buyer "" then provider_name (eo_provider o) +:+ " Customer" else buyer;
          im_normalizedExternalStatus := normalizedStatus; im_initialOrderStatus := initialOrderStatus;
          im_autoConfirm := bool_decide (initialOrderStatus = INIT_CONFIRMED) && truthy (eo_warehouseId o);
          im_shippingFee := if isFinite shippingFeeNum && nle (int 0) shippingFeeNum then toFixed2 shippingFeeNum else "0.00"; im_lines := canonicalLines |}.

(** ** Credentials: what is encrypted is decrypted *)

Section CredentialLaws.
Context `{CryptoLaws}.

Lemma split_on_none sep s : sall (fun c => negb (Ascii.eqb c sep)) s = true -> split_on sep s = [s].
Proof. induction s as [|c s IH]; [done|]. cbn [sall split_on]. intros [Hc Hs]%andb_true_iff. apply negb_true_iff in Hc. by rewrite Hc, IH. Qed.

Lemma split_on_app sep s t : sall (fun c => negb (Ascii.eqb c sep)) s = true -> split_on sep (s +:+ String sep t) = s :: split_on sep t.
Proof.
  induction s as [|c s IH]; [intros _; change ("" +:+ String sep t) with (String sep t); cbn [split_on]; by rewrite Ascii.eqb_refl|]. cbn [sall]. intros [Hc Hs]%andb_true_iff. apply negb_true_iff in Hc. rewrite sapp_cons. cbn [split_on].
  by rewrite Hc, IH.
Qed.

Lemma digits_no_colon s : sall is_digit s = true -> sall (fun c => negb (Ascii.eqb c ":")) s = true.
Proof. apply sall_impl. intros c Hc. apply negb_true_iff. by apply digit_neqb. Qed.

Lemma Z_string_no_colon z : sall (fun c => negb (Ascii.eqb c ":")) (Z_string z) = true.
Proof. unfold Z_string. destruct (Z.ltb_spec z 0); [cbn [sall]|]; apply digits_no_colon, nat_string_digits; lia. Qed.

Lemma split_envelope z a b c : sall (fun c => negb (Ascii.eqb c ":")) a = true -> sall (fun c => negb (Ascii.eqb c ":")) b = true ->
  sall (fun c => negb (Ascii.eqb c ":")) c = true ->
  split_on ":" ("v" +:+ Z_string z +:+ ":" +:+ a +:+ ":" +:+ b +:+ ":" +:+ c) = [String "v" (Z_string z); a; b; c].
Proof.
  intros Ha Hb Hc. change ("v" +:+ Z_string z +:+ ":" +:+ a +:+ ":" +:+ b +:+ ":" +:+ c) with
    (String "v" (Z_string z +:+ String ":" (a +:+ String ":" (b +:+ String ":" c)))). rewrite <- sapp_cons.
  rewrite split_on_app by (cbn [sall]; apply Z_string_no_colon). by rewrite !split_on_app, split_on_none by done.
Qed.

(** A credential that is encrypted comes back: whatever the key version and the
    random bytes, decrypting the envelope with the same master key (or the same
    environment) answers the text that was encrypted. *)
Theorem credential_envelope_opens (env masterKey : option string) (iv plaintext ciphertext : string) (keyVersion : Z) :
  encryptCredentialSecret env iv plaintext keyVersion masterKey = Ok ciphertext -> decryptCredentialSecret env ciphertext masterKey = Ok plaintext.
Proof.
  unfold encryptCredentialSecret, decryptCredentialSecret. destruct (String.eqb plaintext ""); [done|]. intros (key & Hk & He)%bind_Ok.
  pose proof (open_seal key iv plaintext) as Ho. destruct (seal key iv plaintext) as [enc tag]. injection He as <-.
  rewrite (split_envelope keyVersion (to_base64 iv) (to_base64 tag) (to_base64 enc)) by apply base64_no_colon. cbn [starts_with_v String.append negb].
  rewrite Hk, !of_to_base64, bind_of_Ok. cbn [fst snd] in Ho. by rewrite Ho.
Qed.
End CredentialLaws.

(** Letters for the two halves of a byte: an encoding that stands for base64 below. *)
Definition half (n : Z) : ascii := char (65 + n).
Fixpoint halves (s : string) : string := match s with "" => "" | String c s' => String (half (code c / 16)) (String (half (code c mod 16)) (halves s')) end.
Fixpoint unhalves (s : string) : string :=
  match s with String a (String b s') => String (char (16 * (code a - 65) + (code b - 65))) (unhalves s') | _ => "" end.

Lemma code_range c : 0 <= code c < 256.
Proof. unfold code. pose proof (N_ascii_bounded c). lia. Qed.

Lemma half_code n : 0 <= n < 16 -> code (half n) = 65 + n.
Proof. intros. unfold half. apply code_char. lia. Qed.

Lemma unhalves_halves s : unhalves (halves s) = s.
Proof.
  induction s as [|c s IH]; [done|]. pose proof (code_range c). cbn [halves unhalves].
  rewrite !half_code by (first [apply Z.mod_pos_bound; lia | split; [apply Z.div_pos; lia | apply Z.div_lt_upper_bound; lia]]). rewrite IH. f_equal. apply code_inj.
  rewrite code_char; pose proof (Z.div_mod (code c) 16); lia.
Qed.

Lemma halves_no_colon s : sall (fun c => negb (Ascii.eqb c ":")) (halves s) = true.
Proof.
  induction s as [|c s IH]; [done|]. pose proof (code_range c). cbn [halves sall]. rewrite IH. assert (Hh : forall n, 0 <= n < 16 -> Ascii.eqb (half n) ":" = false).
  { intros n Hn. apply Ascii.eqb_neq. intros E. apply (f_equal code) in E. rewrite half_code in E by done. change (code ":") with 58 in E. lia. }
  rewrite !Hh by (first [apply Z.mod_pos_bound; lia | split; [apply Z.div_pos; lia | apply Z.div_lt_upper_bound; lia]]). done.
Qed.

Definition toy_crypto : Crypto := {| sha256 := fun s => s; seal := fun k iv p => (p, k +:+ iv); open := fun k iv tag c => if String.eqb tag (k +:+ iv) then Some c else None;
  to_base64 := halves; of_base64 := unhalves; hmac := fun k s => k +:+ s |}.

Lemma toy_laws : @CryptoLaws toy_crypto.
Proof.
  constructor; cbn.
  - intros k iv p. by rewrite String.eqb_refl.
  - apply unhalves_halves.
  - apply halves_no_colon.
Qed.

Lemma credential_envelope_opens_witness : exists c, @encryptCredentialSecret toy_crypto (Some "master") "iv" "shopee-token" 1 None = Ok c /\
  @decryptCredentialSecret toy_crypto (Some "master") c None = Ok "shopee-token".
Proof.
  eexists. split; [vm_compute; reflexivity|]. apply (@credential_envelope_opens toy_crypto toy_laws (Some "master") None "iv" "shopee-token" _ 1). vm_compute. reflexivity.
Defined.

(** ** Redaction: nothing sensitive is left, everything else stays *)

(** Induction over a value and all it contains. *)
Definition json_rect' (P : json -> Prop) (Hn : P JNull) (Hs : forall s, P (JStr s)) (Hv : forall v, P (Scalar v))
    (Ha : forall l, Forall P l -> P (JArr l)) (Ho : forall l, Forall (fun e : string * json => P e.2) l -> P (JObj l)) : forall j, P j :=
  fix go j := match j with
    | JNull => Hn | JStr s => Hs s | Scalar v => Hv v
    | JArr l => Ha l ((fix all l := match l return Forall P l with [] => Forall_nil_2 P | x :: r => Forall_cons_2 P x r (go x) (all r) end) l)
    | JObj l => Ho l ((fix all l := match l return Forall (fun e : string * json => P e.2) l with
        | [] => Forall_nil_2 _ | x :: r => Forall_cons_2 (fun e : string * json => P e.2) x r (go x.2) (all r) end) l)
    end.

(** Every value under a sensitive key, at any depth, is the mark. *)
Fixpoint redacted (j : json) : bool :=
  match j with
  | JArr l => forallb redacted l
  | JObj l => forallb (fun e => match e with (k, v) => if sensitive k then match v with JStr s => String.eqb s "[REDACTED]" | _ => false end else redacted v end) l
  | _ => true
  end.

(** The value at a path of keys and indices, when no key of the path is sensitive. *)
Inductive at_path : list (string + nat) -> json -> json -> Prop :=
| at_here j : at_path [] j j
| at_index i p l x j : l !! i = Some x -> at_path p x j -> at_path (inr i :: p) (JArr l) j
| at_key k p l i x j : l !! i = Some (k, x) -> sensitive k = false -> at_path p x j -> at_path (inl k :: p) (JObj l) j.

(** Nothing sensitive is logged.  After redaction every value under a key that names
    a token, secret, password, signature or authorization is the mark, at any depth;
    redacting again changes nothing; and whatever is not below such a key stays where it
    is, texts, numbers and flags unchanged. *)
Theorem redaction_hides_secrets_only (j : json) : redacted (redactSensitiveObject j) = true /\
  redactSensitiveObject (redactSensitiveObject j) = redactSensitiveObject j /\
  forall p x, at_path p j x -> at_path p (redactSensitiveObject j) (redactSensitiveObject x).
Proof.
  split_and!.
  - induction j as [|s|v|l IH|l IH] using json_rect'; try done; cbn; rewrite forallb_forall; intros e (x & <- & Hx)%in_map_iff; rewrite Forall_forall in IH.
    + by apply IH, list_elem_of_In.
    + destruct x as [k v]. destruct (sensitive k) eqn:E; cbn; rewrite ?E; [done|]. apply (IH (k, v)). by apply list_elem_of_In.
  - induction j as [|s|v|l IH|l IH] using json_rect'; try done; cbn; f_equal; rewrite map_map; apply map_ext_Forall; eapply Forall_impl; try exact IH; [done|].
    intros [k v] Hv. cbn in *. destruct (sensitive k) eqn:E; cbn; [done | by rewrite Hv].
  - intros p x H. induction H as [j|i p l y j Hi _ IH|k p l i y j Hi Hk _ IH]; [constructor|..]; cbn.
    + eapply at_index; [|exact IH]. by rewrite list_lookup_fmap, Hi.
    + eapply at_key; [|done|exact IH]. rewrite list_lookup_fmap, Hi. cbn. by rewrite Hk.
Qed.

(** ** Status updates in any order *)

(** The status and rank an update leaves to an imported order: only an applied update is
    written.  (A conflict also takes the order out of this path of [OrderSyncService].) *)
Definition receive_status (s : NormalizedExternalOrderStatus * Z) (incoming : NormalizedExternalOrderStatus) : NormalizedExternalOrderStatus * Z :=
  let r := evaluateExternalStatusProgression (Some s.1) s.2 incoming in
  match se_outcome r with APPLY => (incoming, se_targetRank r) | _ => s end.

Definition ranked (s : NormalizedExternalOrderStatus) : NormalizedExternalOrderStatus * Z := (s, STATUS_PROGRESSION_RANK s).

(** The later of two statuses, except that a delivered order is not cancelled. *)
Definition later (a b : NormalizedExternalOrderStatus) : NormalizedExternalOrderStatus :=
  if bool_decide (a = DELIVERED) && bool_decide (b = CANCELLED) then a
  else if STATUS_PROGRESSION_RANK a <? STATUS_PROGRESSION_RANK b then b else a.

Lemma receive_ranked a b : receive_status (ranked a) b = ranked (later a b).
Proof. by destruct a, b. Qed.

Lemma receive_all_ranked l a : fold_left receive_status l (ranked a) = ranked (fold_left later l a).
Proof. revert a. induction l as [|b l IH]; intros a; [done|]. cbn [fold_left]. by rewrite receive_ranked, IH. Qed.

Lemma later_rank a b : STATUS_PROGRESSION_RANK a <= STATUS_PROGRESSION_RANK (later a b).
Proof. by destruct a, b. Qed.

Lemma later_cases a b : (later a b = a \/ later a b = b) /\ (~ (a = DELIVERED /\ b = CANCELLED) ->
  STATUS_PROGRESSION_RANK a <= STATUS_PROGRESSION_RANK (later a b) /\ STATUS_PROGRESSION_RANK b <= STATUS_PROGRESSION_RANK (later a b)).
Proof. unfold later. destruct a, b; (split; [by (left + right)|]); intros Hn; try (by split); destruct Hn; done. Qed.

Lemma later_all_max l a : ~ (DELIVERED ∈ a :: l /\ CANCELLED ∈ a :: l) ->
  fold_left later l a ∈ a :: l /\ forall x, x ∈ a :: l -> STATUS_PROGRESSION_RANK x <= STATUS_PROGRESSION_RANK (fold_left later l a).
Proof.
  revert a. induction l as [|b l IH]; intros a Hn; cbn [fold_left].
  - split; [by left|]. intros x ->%list_elem_of_singleton. done.
  - destruct (later_cases a b) as [Hor Hab]. destruct Hab as [Ha Hb]; [intros [-> ->]; apply Hn; rewrite !elem_of_cons; auto|].
    destruct (IH (later a b)) as [Hin Hmax]; [intros [Hd Hc]; apply Hn; rewrite !elem_of_cons in *; destruct Hor as [E|E]; rewrite E in *; tauto|].
    split; [rewrite elem_of_cons in Hin; rewrite !elem_of_cons; destruct Hor as [E|E]; rewrite E in *; tauto|].
    intros x. rewrite !elem_of_cons. pose proof (Hmax (later a b) ltac:(by left)). intros [->|[->|Hx]]; [lia | lia | apply Hmax; by right].
Qed.

(** Status updates of an external order may come in any order and any number of
    times.  The rank never falls, and a delivered order is never cancelled by an update;
    unless both a delivery and a cancellation are reported, the order ends at the
    furthest status reported, so every order of arrival ends at the same one. *)
Theorem status_updates_in_any_order (a : NormalizedExternalOrderStatus) (l : list NormalizedExternalOrderStatus) :
  exists s, fold_left receive_status l (ranked a) = ranked s /\ STATUS_PROGRESSION_RANK a <= STATUS_PROGRESSION_RANK s /\
    (a = DELIVERED -> s <> CANCELLED) /\
    (~ (DELIVERED ∈ a :: l /\ CANCELLED ∈ a :: l) ->
       (s ∈ a :: l /\ forall x, x ∈ a :: l -> STATUS_PROGRESSION_RANK x <= STATUS_PROGRESSION_RANK s) /\
       forall l', l' ≡ₚ l -> fold_left receive_status l' (ranked a) = ranked s).
Proof.
  exists (fold_left later l a). split; [apply receive_all_ranked|]. split; [|split].
  - revert a. induction l as [|b l IH]; intros a; [done|]. cbn [fold_left]. etrans; [apply later_rank | apply IH].
  - intros ->. assert (Hd : forall x, x = DELIVERED \/ x = RETURN_REQUESTED -> fold_left later l x = DELIVERED \/ fold_left later l x = RETURN_REQUESTED).
    { induction l as [|b l IH]; intros x Hx; [done|]. cbn [fold_left]. apply IH. destruct Hx as [-> | ->], b; cbn; auto. }
    destruct (Hd DELIVERED) as [-> | ->]; auto.
  - intros Hn. pose proof (later_all_max l a Hn) as [Hin Hmax]. split; [done|]. intros l' Hp. rewrite receive_all_ranked. f_equal.
    assert (He : forall x, x ∈ a :: l' <-> x ∈ a :: l) by (intros x; by rewrite Hp).
    destruct (later_all_max l' a) as [Hin' Hmax']; [by rewrite !He|]. pose proof (Hmax _ (proj1 (He _) Hin')). pose proof (Hmax' _ (proj2 (He _) Hin)).
    destruct (fold_left later l' a), (fold_left later l a); cbn in *; done || lia.
Qed.

(** ** Published stock never exceeds what is there *)

Lemma rnd_mag_above n d b c : 0 < n -> 0 < d -> n <= c * d -> 0 < c <= 2 ^ 51 -> 0 <= b -> b * d <= n -> b * Zpos (Qden (rnd_mag n d)) <= Qnum (rnd_mag n d).
Proof.
  intros Hn Hd Hc Hc2 Hb Hle. unfold rnd_mag, ulp_exp. set (e := Z.max _ _). destruct (Z.leb_spec 0 e) as [He|He].
  - exfalso. assert (Hf : 52 <= flog2 n d) by lia. pose proof (flog2_le n d c Hn Hd Hc ltac:(lia) ltac:(lia)) as H2.
    assert (2 ^ 52 <= 2 ^ flog2 n d) by (apply Z.pow_le_mono_r; lia). assert (2 ^ 51 < 2 ^ 52) by reflexivity. lia.
  - set (k := - e). assert (Hk : 0 < 2 ^ k) by (apply Z.pow_pos_nonneg; lia). set (m := round_half_even _ _).
    assert (Hm : b * 2 ^ k <= m) by (apply rhe_lower; [lia | nia]).
    pose proof (Qred_correct (m # Z.to_pos (2 ^ k))) as Hq. unfold Qeq in Hq. cbn [Qnum Qden] in Hq. rewrite Z2Pos.id in Hq by done. nia.
Qed.

(** A hundredth of a whole number, rounded twice. *)
Lemma hundredth_floor x a : 0 <= x <= a * 100 -> a <= 2 ^ 46 -> exists p, mathFloor (ndiv (int x) (int 100)) = int p /\ x / 100 <= p <= a.
Proof.
  intros Hx Ha. destruct (Z.eq_dec x 0) as [->|Hne]; [exists 0; split; [reflexivity | change (0 / 100) with 0; lia]|].
  assert (E : ndiv (int x) (int 100) = rnd (x # 100)).
  { unfold ndiv, int. cbn [Qnum]. replace (100 =? 0) with false by reflexivity. f_equal. unfold Qdiv, Qmult, Qinv. cbn [Qnum Qden]. by rewrite Z.mul_1_r. }
  rewrite E. unfold rnd. cbn [Qnum Qden]. destruct x as [|n|n]; [done | | lia].
  pose proof (rnd_mag_bound (Zpos n) 100 a ltac:(lia) ltac:(lia) ltac:(lia) ltac:(lia)) as [Hl Hu].
  pose proof (rnd_mag_above (Zpos n) 100 (Zpos n / 100) a ltac:(lia) ltac:(lia) ltac:(lia) ltac:(lia) ltac:(apply Z.div_pos; lia)
    ltac:(pose proof (Z.mul_div_le (Zpos n) 100); lia)) as Hb. set (m := rnd_mag _ _) in *.
  assert (Hinf : Qle_bool two_1024 m = false).
  { unfold Qle_bool, two_1024. cbn [Qnum Qden]. apply Z.leb_gt. assert (2 ^ 46 < 2 ^ 1024) by reflexivity. nia. }
  rewrite Hinf. cbn [mathFloor]. eexists. split; [reflexivity|]. split; [apply Z.div_le_lower_bound; lia | apply Z.div_le_upper_bound; lia].
Qed.

Definition sellable (onHand reserved buffer : Z) : Z := Z.max 0 (Z.max 0 (onHand - reserved) - Z.max 0 buffer).

(** No channel is offered more than there is.  For whole quantities, buffer and
    percentage (quantities up to 2^45), what is published is at most what is on hand and
    neither reserved nor kept as a buffer, and at least the whole part of the channel's
    share of it: a share of 100 percent publishes all, a share of 0 nothing. *)
Theorem published_stock_is_available (onHand reserved buffer pct : Z) : Z.abs onHand <= 2 ^ 45 -> Z.abs reserved <= 2 ^ 45 -> Z.abs buffer <= 2 ^ 45 ->
  exists p, sq_publishableQty (calculateChannelPublishableQuantity {| sq_onHandQty := int onHand; sq_reservedQty := int reserved; sq_safetyBuffer := int buffer;
      sq_allocationPercent := int pct |}) = int p /\
    sellable onHand reserved buffer * Z.min 100 (Z.max 0 pct) / 100 <= p <= sellable onHand reserved buffer /\ (pct <= 0 -> p = 0).
Proof.
  intros H1 H2 H3. assert (Hfl : forall z, mathFloor (int z) = int z) by (intros z; cbn; by rewrite Z.div_1_r).
  unfold calculateChannelPublishableQuantity. cbn [sq_onHandQty sq_reservedQty sq_safetyBuffer sq_allocationPercent sq_publishableQty].
  change (or_zero (int buffer)) with (int buffer). change (isFinite (int ?z)) with true. cbv iota. rewrite !Hfl, !mathMax_int, mathMin_int.
  rewrite nsub_int by lia. rewrite mathMax_int, nsub_int by lia. rewrite mathMax_int. fold (sellable onHand reserved buffer).
  set (a := sellable _ _ _). set (q := Z.min 100 (Z.max 0 pct)). assert (Ha : 0 <= a <= 2 ^ 46) by (unfold a, sellable; lia). assert (Hq : 0 <= q <= 100) by (unfold q; lia).
  rewrite nmul_int by (assert (0 <= a * q <= 2 ^ 46 * 100) by nia; lia). destruct (hundredth_floor (a * q) a) as (p & E & Hp); [nia | lia |]. rewrite E.
  assert (0 <= a * q / 100) by (apply Z.div_pos; nia). exists p. rewrite mathMax_int. split; [f_equal; lia|]. split; [done|]. intros Hz.
  assert (q = 0) as Hq0 by (unfold q; lia). rewrite Hq0, Z.mul_0_r in E. symmetry. by apply int_inj.
Qed.

Lemma published_stock_is_available_witness : exists p, sq_publishableQty (calculateChannelPublishableQuantity {| sq_onHandQty := int 120; sq_reservedQty := int 20;
  sq_safetyBuffer := int 10; sq_allocationPercent := int 50 |}) = int p /\ 45 <= p <= 90.
Proof. destruct (published_stock_is_available 120 20 10 50) as (p & Hp & Hb & _); [done | done | done |]. exists p. split; [exact Hp | exact Hb]. Defined.

(** ** Signatures and translation *)

Section Signing.
Context `{Crypto}.

Lemma string_order_le a b : string_order a b <= 0 <-> String.le a b.
Proof. unfold string_order, String.le, String.leb. destruct (String.compare a b); cbn; split; intros; try done; lia. Qed.

#[local] Instance string_order_cmp : Comparator string_order.
Proof.
  constructor.
  - intros a b. rewrite !string_order_le. apply String.le_total.
  - intros a b c. rewrite !string_order_le. apply (transitivity (R := String.le)).
Qed.

Lemma sort_strings_perm l l' : l ≡ₚ l' -> sort_by string_order l = sort_by string_order l'.
Proof.
  intros Hp. assert (AntiSymm (=) (fun a b => string_order a b <= 0)) by (intros a b; rewrite !string_order_le; apply (anti_symm String.le)).
  apply (StronglySorted_unique (fun a b => string_order a b <= 0)); [apply sort_by_sorted, _ | apply sort_by_sorted, _ | by rewrite !sort_by_perm].
Qed.

Lemma filter_permuted {A} (f : A -> bool) l l' : l ≡ₚ l' -> List.filter f l ≡ₚ List.filter f l'.
Proof. induction 1 as [|x l l' _ IH|x y l|l l' l'' _ IH1 _ IH2]; cbn; [done | | | by etrans]; repeat (destruct (f _)); by constructor || done. Qed.

(** The request signature of Lazada depends on the parameters, not on the order they were
    written in. *)
Theorem lazada_signature_ignores_order (appSecret apiPath : string) (params params' : list (string * jsval)) : NoDup params.*1 -> params ≡ₚ params' ->
  computeLazadaApiSignature appSecret apiPath params = computeLazadaApiSignature appSecret apiPath params'.
Proof.
  intros Hd Hp. unfold computeLazadaApiSignature. cbv zeta. do 2 f_equal. rewrite (sort_strings_perm _ (List.filter (fun k => negb (String.eqb k "sign")) (map fst params'))).
  2: { apply filter_permuted. by apply Permutation_map. }
  assert (Hk : forall k, mget k params = mget k params').
  { intros k. apply option_eq. intros v. assert (Hd' : NoDup params'.*1) by (by rewrite <- Hp). split; intros Hk%mget_elem; apply elem_mget; try done; [by rewrite <- Hp | by rewrite Hp]. }
  generalize apiPath. induction (sort_by _ _) as [|k ks IH]; intros base; [done|]. cbn [fold_left]. by rewrite Hk, IH.
Qed.

Lemma translate_line_Ok mappings l n : translate_line mappings l = Ok n <-> exists m, (isFinite (el_qty l) = true /\ nle (el_qty l) (int 0) = false /\
    mget (trim (el_externalSkuId l)) mappings = Some m /\ rm_mappingStatus m = MAP_ACTIVE /\ rm_isSellable m = true) /\
  n = {| cn_variantId := rm_internalVariantId m; cn_skuCode := rm_internalSkuCode m; cn_qty := toFixed3 (el_qty l) |}.
Proof.
  unfold translate_line. destruct (isFinite _); cbn [negb orb]; [|by split; [|intros (m & [] & _)]]. destruct (nle _ _); [by split; [|intros (m & (_ & ? & _) & _)]|].
  destruct (mget _ _) as [m|]; [|by split; [|intros (m & (_ & _ & ? & _) & _)]].
  destruct (bool_decide_reflect (rm_mappingStatus m = MAP_ACTIVE)); cbn [negb]; [|by split; [|intros (m' & (_ & _ & [= <-] & ? & _) & _)]].
  destruct (rm_isSellable m) eqn:Es; cbn [negb]; [|by split; [|intros (m' & (_ & _ & [= <-] & _ & ?) & _); congruence]].
  split; [intros [= <-]; by exists m | by intros (m' & (_ & _ & [= <-] & _) & ->)].
Qed.

(** An external order becomes an internal one only when every line can be sold: the
    translation succeeds exactly for an order with an id, lines and a known status, whose
    quantities are positive and whose SKUs are all mapped to active, sellable variants;
    then line by line the variant and SKU are those of the mapping, and the order is
    confirmed at once only if it is neither unpaid nor cancelled and a warehouse is
    known. *)
Theorem imported_order_is_sellable (o : ExternalMarketplaceOrderInput) (mappings : list (string * ResolvedInternalSkuMapping)) :
  let good (l : ExternalLine) m := isFinite (el_qty l) = true /\ nle (el_qty l) (int 0) = false /\ mget (trim (el_externalSkuId l)) mappings = Some m /\
    rm_mappingStatus m = MAP_ACTIVE /\ rm_isSellable m = true in
  (forall c, translateExternalOrderToCanonicalSalesImport o mappings = Ok c ->
     normalizeProviderOrderStatus (eo_provider o) (eo_rawStatus o) = Ok (im_normalizedExternalStatus c) /\
     Forall2 (fun l n => exists m, good l m /\ cn_variantId n = rm_internalVariantId m /\ cn_skuCode n = rm_internalSkuCode m) (eo_lines o) (im_lines c) /\
     (im_autoConfirm c = true <-> im_normalizedExternalStatus c <> UNPAID /\ im_normalizedExternalStatus c <> CANCELLED /\ truthy (eo_warehouseId o) = true)) /\
  (is_ok (translateExternalOrderToCanonicalSalesImport o mappings) = true <->
     trim (eo_externalOrderId o) <> "" /\ eo_lines o <> [] /\ is_ok (normalizeProviderOrderStatus (eo_provider o) (eo_rawStatus o)) = true /\
     Forall (fun l => exists m, good l m) (eo_lines o)).
Proof.
  intros good. assert (Hline : forall l n, translate_line mappings l = Ok n <-> exists m, good l m /\ n = {| cn_variantId := rm_internalVariantId m;
    cn_skuCode := rm_internalSkuCode m; cn_qty := toFixed3 (el_qty l) |}) by apply translate_line_Ok.
  unfold translateExternalOrderToCanonicalSalesImport. destruct (String.eqb_spec (trim (eo_externalOrderId o)) "") as [E1|E1]; [split; [done|]; split; [done | by intros []]|].
  destruct (bool_decide_reflect (length (eo_lines o) = 0%nat)) as [E2|E2]; [apply nil_length_inv in E2; split; [done|]; split; [done | by intros (_ & ? & _)]|].
  destruct (normalizeProviderOrderStatus _ _) as [st|e] eqn:E3; [|split; [done|]; split; [done | by intros (_ & _ & ? & _)]]. rewrite bind_of_Ok.
  destruct (traverse _ _) as [ls|e] eqn:E4; rewrite ?bind_of_Ok; cbv zeta.
  - apply traverse_Ok in E4. split.
    + intros c [= <-]. cbn. split; [done|]. split; [|generalize (truthy (eo_warehouseId o)); intros w; clear; destruct st, w; vm_compute; naive_solver].
      eapply Forall2_impl; [exact E4|]. intros l n (m & Hg & ->)%Hline. by exists m.
    + split; [|done]. intros _. split_and!; try done; [by intros E; rewrite E in E2|]. induction E4 as [|l n ll nn Hl _ IH]; constructor.
      * apply Hline in Hl as (m & Hg & _). by exists m.
      * destruct ll; [constructor | by apply IH].
  - split; [done|]. split; [done|]. intros (_ & _ & _ & Hall). exfalso. assert (exists ls, traverse (translate_line mappings) (eo_lines o) = Ok ls) as [ls Hls]; [|congruence].
    clear E2 E4. induction Hall as [|l ll (m & Hg) _ [ls IH]]; [by exists []|]. cbn. rewrite (proj2 (Hline _ _) (ex_intro _ m (conj Hg eq_refl))), bind_of_Ok, IH. by eexists.
Qed.
End Signing.
