(* ===== verification/InsightDomain.v ===== *)
(** * The figures of the reports

    apps/insight/src/domain/insight-domain.ts: decimals as integers scaled by 10^4, the
    contribution of an order to the daily figures and its changes, profit, growth and
    stock figures, and the cells of exported files.  Dates, the XLSX and the PDF output
    are left out. *)

From S2P Require Import Prelude JsNumber JsString.
From Stdlib Require Import Ascii.

Open Scope Z_scope.

(** ** Scaled decimals *)

Definition DECIMAL_SCALE : Z := 10000.

(** [s.replace(/[^0-9]/g, '')]. *)
Fixpoint only_digits (s : string) : string :=
  match s with "" => "" | String c s' => if is_digit c then String c (only_digits s') else only_digits s' end.

(** The first two pieces of [s.split('.')]. *)
Fixpoint split_dot (s : string) : string * option string :=
  match s with
  | "" => ("", None)
  | String c s' => if Ascii.eqb c "." then ("", Some s') else let (a, b) := split_dot s' in (String c a, b)
  end.
Definition int_and_frac (s : string) : string * string :=
  match split_dot s with (a, None) => (a, "") | (a, Some r) => (a, (split_dot r).1) end.

Definition starts_with (c : ascii) (s : string) : bool := match s with String d _ => Ascii.eqb c d | "" => false end.
Definition tail (s : string) : string := match s with String _ s' => s' | "" => "" end.

(** The digits on both sides of the point, the fraction rounded half up at the fourth. *)
Definition parse_body (normalized : string) : Z :=
  let (intPartRaw, fracPartRaw) := int_and_frac normalized in
  let cleanFrac := only_digits fracPartRaw in
  let paddedFrac := String.substring 0 5 (cleanFrac +:+ "00000") in
  let mainDigits := String.substring 0 4 paddedFrac in
  let fifthDigit := digits_val (String.substring 4 1 paddedFrac) in
  let scaled := digits_val (only_digits intPartRaw) * DECIMAL_SCALE + digits_val mainDigits in
  if 5 <=? fifthDigit then scaled + 1 else scaled.

Definition parse_text (text : string) : Z :=
  let raw := trim text in
  if String.eqb raw "" || String.eqb raw "NaN" then 0
  else
    let negative := starts_with "-" raw in
    let normalized := if negative || starts_with "+" raw then trim (tail raw) else raw in
    if negative then - parse_body normalized else parse_body normalized.

Definition parseScaledDecimal (value : jsval) : Z :=
  match value with
  | Undefined | Null => 0
  | VBig z => z * DECIMAL_SCALE
  | _ => parse_text (to_str value)
  end.

Definition formatScaledDecimal (scaled : Z) (decimals : Z) : string :=
  let negative := scaled <? 0 in
  let abs := if negative then - scaled else scaled in
  if decimals =? 0 then
    let rounded := Z.quot (abs + Z.quot DECIMAL_SCALE 2) DECIMAL_SCALE in
    (if negative && (0 <? rounded) then "-" else "") +:+ Z_string rounded
  else
    let factor := 10 ^ (4 - decimals) in
    let rounded := Z.quot (abs + Z.quot factor 2) factor in
    let targetScale := 10 ^ decimals in
    let intPart := Z.quot rounded targetScale in
    let fracPart := Z.rem rounded targetScale in
    let sign := if negative && ((0 <? intPart) || (0 <? fracPart)) then "-" else "" in
    sign +:+ Z_string intPart +:+ "." +:+ padStart (Z.to_nat decimals) "0" (Z_string fracPart).

Definition addDecimals (a b : jsval) (decimals : Z) : string := formatScaledDecimal (parseScaledDecimal a + parseScaledDecimal b) decimals.
Definition subDecimals (a b : jsval) (decimals : Z) : string := formatScaledDecimal (parseScaledDecimal a - parseScaledDecimal b) decimals.

Definition mulDecimals (a b : jsval) (decimals : Z) : string :=
  let prod := parseScaledDecimal a * parseScaledDecimal b in
  let half := Z.quot DECIMAL_SCALE 2 in
  formatScaledDecimal (if 0 <=? prod then Z.quot (prod + half) DECIMAL_SCALE else - Z.quot (- prod + half) DECIMAL_SCALE) decimals.

Definition divDecimals (numerator denominator : jsval) (decimals : Z) : string :=
  let num := parseScaledDecimal numerator in
  let den := parseScaledDecimal denominator in
  if den =? 0 then formatScaledDecimal 0 decimals
  else
    let scaledNum := num * DECIMAL_SCALE in
    let absDen := if den <? 0 then - den else den in
    let half := Z.quot absDen 2 in
    let sameSign := ((0 <=? num) && (0 <? den)) || ((num <? 0) && (den <? 0)) in
    let absNum := if scaledNum <? 0 then - scaledNum else scaledNum in
    let quotient := Z.quot (absNum + half) absDen in
    formatScaledDecimal (if sameSign then quotient else - quotient) decimals.

(** ** Days

    An instant is a number of milliseconds since 1970 and a day a number of days since
    then; [toISOString().slice(0, 10)] is the way the code writes a day. *)

Definition day_ms : Z := 24 * 60 * 60 * 1000.
Definition DEFAULT_REPORTING_TZ_OFFSET_MINUTES : Z := 7 * 60.
Definition DEFAULT_STALE_THRESHOLD_SECONDS : Z := 300.

Definition toReportingDateBucket (ms utcOffsetMinutes : Z) : Z := (ms + utcOffsetMinutes * 60 * 1000) / day_ms.

Record PreviousRange := { pr_prevFrom : Z; pr_prevTo : Z; pr_daysCount : Z }.

(** Both ends are midnights, so the rounded quotient is exact. *)
Definition computePreviousDateRange (fromDate toDate : Z) : PreviousRange :=
  let daysCount := Z.max 1 ((toDate - fromDate) + 1) in
  let prevEnd := fromDate - 1 in
  {| pr_prevFrom := prevEnd - (daysCount - 1); pr_prevTo := prevEnd; pr_daysCount := daysCount |}.

(** [for (cur = start; cur <= end; cur += dayMs)]; [fuel] bounds the turns. *)
Fixpoint days_from (fuel : nat) (cur last : Z) : list Z :=
  match fuel with O => [] | S f => if cur <=? last then cur :: days_from f (cur + 1) last else [] end.
Definition enumerateDateRange (fromDate toDate : Z) : list Z := days_from (Z.to_nat (toDate - fromDate + 1)) fromDate toDate.

Record ProjectionFreshnessMetadata := { fr_asOf : Z; fr_lastProcessedAt : option Z; fr_projectionVersion : number; fr_lagSeconds : Z; fr_isStale : bool }.

(** [Number(version || 1)]: the number zero, [NaN] and the empty text are falsy. *)
Definition version_number (v : jsval) : number :=
  match v with
  | VNum n => if neq n (int 0) || bool_decide (n = NaN) then int 1 else n
  | VStr "" => int 1
  | _ => to_num v
  end.

Definition computeProjectionFreshness (lastProcessedAt : option Z) (projectionVersion : jsval) (now : Z) (staleThresholdSeconds : option Z)
    : ProjectionFreshnessMetadata :=
  let threshold := default DEFAULT_STALE_THRESHOLD_SECONDS staleThresholdSeconds in
  let lagSeconds := match lastProcessedAt with Some l => Z.max 0 ((now - l) / 1000) | None => 0 end in
  {| fr_asOf := now; fr_lastProcessedAt := lastProcessedAt; fr_projectionVersion := version_number projectionVersion; fr_lagSeconds := lagSeconds;
     fr_isStale := match lastProcessedAt with Some _ => threshold <? lagSeconds | None => false end |}.

(** ** Contributions of orders *)

Record OrderContributionVector := { ov_gmv : string; ov_grossRevenue : string; ov_discount : string; ov_netRevenue : string; ov_cogs : string; ov_unitsSold : string;
  ov_orderCount : Z; ov_completedCount : Z; ov_cancelledCount : Z }.

Record TargetInput := { ti_status : string; ti_subtotal : jsval; ti_discountTotal : option jsval; ti_cogsTotal : option jsval; ti_unitsTotal : option jsval }.

Definition zero_money : string := formatScaledDecimal 0 0.
Definition zero_units : string := formatScaledDecimal 0 4.

Definition computeTargetOrderContribution (i : TargetInput) : OrderContributionVector :=
  let status := toUpperCase (ti_status i) in
  let subtotalScaled := parseScaledDecimal (ti_subtotal i) in
  let discountScaled := parseScaledDecimal (default (VNum (int 0)) (ti_discountTotal i)) in
  let netScaled := subtotalScaled - discountScaled in
  let cogsScaled := parseScaledDecimal (default (VNum (int 0)) (ti_cogsTotal i)) in
  let unitsScaled := parseScaledDecimal (default (VNum (int 0)) (ti_unitsTotal i)) in
  if String.eqb status "COMPLETED" then
    {| ov_gmv := formatScaledDecimal subtotalScaled 0; ov_grossRevenue := formatScaledDecimal subtotalScaled 0; ov_discount := formatScaledDecimal discountScaled 0;
       ov_netRevenue := formatScaledDecimal netScaled 0; ov_cogs := formatScaledDecimal cogsScaled 0; ov_unitsSold := formatScaledDecimal unitsScaled 4;
       ov_orderCount := 1; ov_completedCount := 1; ov_cancelledCount := 0 |}
  else if String.eqb status "CONFIRMED" then
    {| ov_gmv := formatScaledDecimal subtotalScaled 0; ov_grossRevenue := zero_money; ov_discount := zero_money; ov_netRevenue := zero_money; ov_cogs := zero_money;
       ov_unitsSold := zero_units; ov_orderCount := 1; ov_completedCount := 0; ov_cancelledCount := 0 |}
  else
    {| ov_gmv := zero_money; ov_grossRevenue := zero_money; ov_discount := zero_money; ov_netRevenue := zero_money; ov_cogs := zero_money; ov_unitsSold := zero_units;
       ov_orderCount := 1; ov_completedCount := 0; ov_cancelledCount := if String.eqb status "CANCELLED" then 1 else 0 |}.

(** [parseScaledDecimal(previous?.field ?? 0)]; a previous vector has every field. *)
Definition scaled_of (f : OrderContributionVector -> string) (previous : option OrderContributionVector) : Z :=
  match previous with Some v => parseScaledDecimal (VStr (f v)) | None => 0 end.
Definition count_of (f : OrderContributionVector -> Z) (previous : option OrderContributionVector) : Z := match previous with Some v => f v | None => 0 end.

Definition computeOrderContributionDelta (target : OrderContributionVector) (previous : option OrderContributionVector) : OrderContributionVector :=
  let change f decimals := formatScaledDecimal (parseScaledDecimal (VStr (f target)) - scaled_of f previous) decimals in
  {| ov_gmv := change ov_gmv 0; ov_grossRevenue := change ov_grossRevenue 0; ov_discount := change ov_discount 0; ov_netRevenue := change ov_netRevenue 0;
     ov_cogs := change ov_cogs 0; ov_unitsSold := change ov_unitsSold 4; ov_orderCount := ov_orderCount target - count_of ov_orderCount previous;
     ov_completedCount := ov_completedCount target - count_of ov_completedCount previous; ov_cancelledCount := ov_cancelledCount target - count_of ov_cancelledCount previous |}.

Definition isZeroContributionDelta (d : OrderContributionVector) : bool :=
  let zero s := parseScaledDecimal (VStr s) =? 0 in
  zero (ov_gmv d) && zero (ov_grossRevenue d) && zero (ov_discount d) && zero (ov_netRevenue d) && zero (ov_cogs d) && zero (ov_unitsSold d) &&
  (ov_orderCount d =? 0) && (ov_completedCount d =? 0) && (ov_cancelledCount d =? 0).

(** ** Figures *)

Definition computeNetSalesRevenue (grossSalesRevenue discountTotal returnsAmount : jsval) (decimals : Z) : string :=
  formatScaledDecimal (parseScaledDecimal grossSalesRevenue - parseScaledDecimal discountTotal - parseScaledDecimal returnsAmount) decimals.

Record GrossProfit := { gp_netCogs : number; gp_grossProfit : number; gp_grossMarginPct : number }.

Definition computeGrossProfit (netSalesRevenue cogsAmount returnedCogsAmount : jsval) : GrossProfit :=
  let netRevScaled := parseScaledDecimal netSalesRevenue in
  let netCogsScaled := parseScaledDecimal cogsAmount - parseScaledDecimal returnedCogsAmount in
  let grossProfitScaled := netRevScaled - netCogsScaled in
  {| gp_netCogs := number_of_string (formatScaledDecimal netCogsScaled 0); gp_grossProfit := number_of_string (formatScaledDecimal grossProfitScaled 0);
     gp_grossMarginPct := if 0 <? netRevScaled then number_of_string (formatScaledDecimal (Z.quot (grossProfitScaled * 100 * DECIMAL_SCALE) netRevScaled) 2) else int 0 |}.

Definition computeAov (netSalesRevenue : jsval) (completedOrderCount : number) : number :=
  if match completedOrderCount with NaN => true | n => nle n (int 0) end then int 0
  else number_of_string (divDecimals netSalesRevenue (VNum completedOrderCount) 0).

Inductive Direction := UP | DOWN | FLAT.
Record GrowthMetricResult := { gm_current : number; gm_previous : number; gm_delta : number; gm_growthPct : option number; gm_direction : Direction }.

Definition computeGrowthMetric (currentValue previousValue : jsval) (decimals : Z) : GrowthMetricResult :=
  let curr := parseScaledDecimal currentValue in
  let prev := parseScaledDecimal previousValue in
  let delta := curr - prev in
  let pct den := number_of_string (formatScaledDecimal (Z.quot (delta * 100 * DECIMAL_SCALE) den) 2) in
  {| gm_current := number_of_string (formatScaledDecimal curr decimals); gm_previous := number_of_string (formatScaledDecimal prev decimals);
     gm_delta := number_of_string (formatScaledDecimal delta decimals);
     gm_growthPct := if 0 <? prev then Some (pct prev) else if prev <? 0 then Some (pct (- prev)) else None;
     gm_direction := if 0 <? delta then UP else if delta <? 0 then DOWN else FLAT |}.

Definition computeAvailableQty (onHandQty reservedQty : jsval) (decimals : Z) : string :=
  let diff := parseScaledDecimal onHandQty - parseScaledDecimal reservedQty in
  formatScaledDecimal (if 0 <? diff then diff else 0) decimals.

Definition computeInventoryValuation (qty avgUnitCost : jsval) (decimals : Z) : string :=
  if parseScaledDecimal qty <=? 0 then formatScaledDecimal 0 decimals else mulDecimals qty avgUnitCost decimals.

Definition computeWeightedAverageCost (currentOnHandQty currentAvgCost receivedQty receivedUnitCost : jsval) (decimals : Z) : string :=
  let curQty := parseScaledDecimal currentOnHandQty in
  let curCost := parseScaledDecimal currentAvgCost in
  let recQty := parseScaledDecimal receivedQty in
  let recCost := parseScaledDecimal receivedUnitCost in
  if recQty <=? 0 then formatScaledDecimal curCost decimals
  else if curQty <=? 0 then formatScaledDecimal recCost decimals
  else
    let totalQty := curQty + recQty in
    let totalVal := curQty * curCost + recQty * recCost in
    formatScaledDecimal (Z.quot (totalVal + Z.quot totalQty 2) totalQty) decimals.

(** ** Exported cells *)

Definition quote : ascii := char 34.

(** [/^[+-]?\d+(\.\d+)?$/]. *)
Definition signed_number (s : string) : bool :=
  let s := if starts_with "+" s || starts_with "-" s then tail s else s in
  let (whole, rest) := span_digits s in
  negb (String.eqb whole "") &&
  match rest with "" => true | String c r => Ascii.eqb c "." && negb (String.eqb r "") && sall is_digit r end.

Definition formula_start (s : string) : bool :=
  match s with
  | "" => false
  | String c _ => Ascii.eqb c "=" || Ascii.eqb c "+" || Ascii.eqb c "-" || Ascii.eqb c "@" || (code c =? 9) || (code c =? 13)
  end.

Definition sanitizeSpreadsheetCell (value : jsval) : string :=
  if is_nullish value then ""
  else
    let str := to_str value in
    if String.eqb str "" then ""
    else if signed_number str then str
    else if formula_start str then String "'" str else str.

Fixpoint double_quotes (s : string) : string :=
  match s with "" => "" | String c r => if Ascii.eqb c quote then String c (String c (double_quotes r)) else String c (double_quotes r) end.

(** A comma, a quote or the end of a line. *)
Definition needs_quotes (s : string) : bool :=
  negb (sall (fun c => negb (Ascii.eqb c "," || Ascii.eqb c quote || (code c =? 10) || (code c =? 13))) s).

Definition escapeCsvField (cell : jsval) : string :=
  let safe := sanitizeSpreadsheetCell cell in
  if needs_quotes safe then String quote (double_quotes safe +:+ String quote "") else safe.

Fixpoint join (sep : string) (l : list string) : string := match l with [] => "" | [x] => x | x :: l' => x +:+ sep +:+ join sep l' end.

Definition CRLF : string := String (char 13) (String (char 10) "").

Definition buildCsvBuffer (headers : list jsval) (rows : list (list jsval)) : string :=
  join CRLF (join "," (map escapeCsvField headers) :: map (fun r => join "," (map escapeCsvField r)) rows) +:+ CRLF.

(** ** Texts of amounts are exact *)

Definition plain (c : ascii) : bool := is_digit c || Ascii.eqb c ".".

Lemma plain_no_ws s : sall plain s = true -> sall (fun c => negb (is_ws c)) s = true.
Proof. apply sall_impl. intros c [Hc| ->%Ascii.eqb_eq]%orb_true_iff; [by apply digit_not_ws | done]. Qed.

Lemma plain_head s c : sall plain s = true -> plain c = false -> starts_with c s = false.
Proof. destruct s as [|d s]; [done|]. cbn [sall starts_with]. intros [Hd _]%andb_true_iff Hc. apply Ascii.eqb_neq. by intros ->; rewrite Hd in Hc. Qed.

(** A text of digits and points, with a sign or without. *)
Lemma parse_signed (neg : bool) s : sall plain s = true -> s <> "" ->
  parse_text ((if neg then "-" else "") +:+ s) = if neg then - parse_body s else parse_body s.
Proof.
  intros Hs Hne. pose proof (plain_no_ws s Hs) as Hw. unfold parse_text. destruct neg.
  - change ("-" +:+ s) with (String "-" s). rewrite trim_id by (by cbn [sall]; rewrite Hw). change (starts_with "-" (String "-" s)) with true. cbn [orb tail].
    by rewrite trim_id.
  - change ("" +:+ s) with s. rewrite trim_id by done. rewrite !plain_head by done. cbn [orb].
    destruct (String.eqb_spec s "") as [->|_]; [done|]. destruct (String.eqb_spec s "NaN") as [->|_]; done.
Qed.

Lemma only_digits_id s : sall is_digit s = true -> only_digits s = s.
Proof. induction s as [|c s IH]; [done|]. cbn [sall only_digits]. intros [-> Hs]%andb_true_iff. by rewrite IH. Qed.

Lemma split_dot_none s : sall is_digit s = true -> split_dot s = (s, None).
Proof. induction s as [|c s IH]; [done|]. cbn [sall split_dot]. intros [Hc Hs]%andb_true_iff. by rewrite (digit_neqb c ".") , IH. Qed.

Lemma split_dot_app s t : sall is_digit s = true -> split_dot (s +:+ String "." t) = (s, Some t).
Proof. induction s as [|c s IH]; [done|]. rewrite sapp_cons. cbn [sall split_dot]. intros [Hc Hs]%andb_true_iff. by rewrite (digit_neqb c "."), IH. Qed.

Lemma parse_body_whole a : sall is_digit a = true -> parse_body a = digits_val a * DECIMAL_SCALE.
Proof.
  intros Ha. unfold parse_body, int_and_frac. rewrite split_dot_none, only_digits_id by done. change (only_digits "" +:+ "00000") with "00000". cbv zeta.
  change (5 <=? _) with false. cbv iota. rewrite only_digits_id by done. change (digits_val (String.substring _ _ _)) with 0. lia.
Qed.

Lemma parse_body_4 a f : sall is_digit a = true -> sall is_digit f = true -> String.length f = 4%nat ->
  parse_body (a +:+ "." +:+ f) = digits_val a * DECIMAL_SCALE + digits_val f.
Proof.
  intros Ha Hf Hl. unfold parse_body, int_and_frac. change ("." +:+ f) with (String "." f). rewrite split_dot_app, split_dot_none by done. cbn [fst]. rewrite !only_digits_id by done.
  destruct f as [|c1 [|c2 [|c3 [|c4 [|]]]]]; try discriminate Hl. reflexivity.
Qed.

Lemma digits_plain s : sall is_digit s = true -> sall plain s = true.
Proof. apply sall_impl. intros c Hc. unfold plain. by rewrite Hc. Qed.

Lemma nat_string_nonempty n : 0 <= n -> nat_string n <> "".
Proof. intros Hn E. pose proof (nat_string_canonical n Hn) as H. by rewrite E in H. Qed.

Lemma Z_string_signed (neg : bool) n : 0 <= n -> (neg = true -> 0 < n) -> Z_string (if neg then - n else n) = (if neg then "-" else "") +:+ nat_string n.
Proof.
  intros Hn Hp. unfold Z_string. destruct neg.
  - specialize (Hp eq_refl). replace (- n <? 0) with true by lia. by rewrite Z.opp_involutive.
  - by replace (n <? 0) with false by lia.
Qed.

(** A whole amount, as a column of whole money is read. *)
Lemma parse_whole z : parse_text (Z_string z) = z * DECIMAL_SCALE.
Proof.
  set (neg := z <? 0). assert (Hz : z = if neg then - Z.abs z else Z.abs z) by (unfold neg; destruct (Z.ltb_spec z 0); lia).
  rewrite Hz, Z_string_signed by (unfold neg in *; lia). rewrite parse_signed; [|apply digits_plain, nat_string_digits; lia | apply nat_string_nonempty; lia].
  rewrite parse_body_whole, nat_string_val by (try apply nat_string_digits; lia). destruct neg; lia.
Qed.

(** The nearest whole amount, halves away from zero. *)
Definition whole (z : Z) : Z := if z <? 0 then - ((- z + 5000) / 10000) else (z + 5000) / 10000.

Lemma format_whole z : formatScaledDecimal z 0 = Z_string (whole z).
Proof.
  unfold formatScaledDecimal, whole. change (0 =? 0) with true. change (Z.quot DECIMAL_SCALE 2) with 5000. cbv zeta iota. unfold DECIMAL_SCALE.
  destruct (Z.ltb_spec z 0) as [Hz|Hz]; rewrite Z.quot_div_nonneg by lia.
  - set (n := (- z + 5000) / 10000). assert (0 <= n) by (apply Z.div_pos; lia). destruct (Z.ltb_spec 0 n) as [Hn|Hn]; cbn [andb].
    + rewrite (Z_string_signed true n) by done. unfold Z_string. by replace (n <? 0) with false by lia.
    + by replace n with 0 by lia.
  - done.
Qed.

Lemma whole_scaled z : whole (z * DECIMAL_SCALE) = z.
Proof.
  unfold whole, DECIMAL_SCALE. destruct (Z.ltb_spec (z * 10000) 0).
  - replace (- (z * 10000) + 5000) with (5000 + (- z) * 10000) by lia. rewrite Z.div_add by lia. change (5000 / 10000) with 0. lia.
  - replace (z * 10000 + 5000) with (5000 + z * 10000) by lia. rewrite Z.div_add by lia. change (5000 / 10000) with 0. lia.
Qed.

Lemma format_whole_scaled z : formatScaledDecimal (z * DECIMAL_SCALE) 0 = Z_string z.
Proof. by rewrite format_whole, whole_scaled. Qed.

(** Four decimals, as a column of quantities is written and read. *)
Lemma parse_format_4 z : parse_text (formatScaledDecimal z 4) = z.
Proof.
  unfold formatScaledDecimal. change (4 =? 0) with false. change (10 ^ (4 - 4)) with 1. change (10 ^ 4) with 10000. change (Z.to_nat 4) with 4%nat. change (Z.quot 1 2) with 0. cbv zeta iota.
  set (neg := z <? 0). set (abs := if neg then - z else z). assert (Ha : 0 <= abs) by (unfold abs, neg; destruct (Z.ltb_spec z 0); lia).
  rewrite Z.add_0_r, Z.quot_1_r, Z.quot_div_nonneg, Z.rem_mod_nonneg by lia. pose proof (Z.div_mod abs 10000). pose proof (Z.mod_pos_bound abs 10000).
  assert (0 <= abs / 10000) by (apply Z.div_pos; lia). destruct (pad4_spec (abs mod 10000)) as (Hd & Hl & Hv); [lia|]. unfold pad4 in *.
  assert (Hs : (neg && ((0 <? abs / 10000) || (0 <? abs mod 10000)))%bool = neg).
  { destruct neg eqn:E; [|done]. unfold neg in E. cbn. apply orb_true_iff. rewrite !Z.ltb_lt. destruct (Z.eq_dec (abs / 10000) 0); unfold abs in *; lia. }
  rewrite Hs. replace (Z_string (abs / 10000)) with (nat_string (abs / 10000)) by (unfold Z_string; by replace (abs / 10000 <? 0) with false by lia).
  rewrite parse_signed; cycle 1.
  - rewrite !sall_app. rewrite (digits_plain (nat_string _)) by (apply nat_string_digits; lia). by rewrite (digits_plain (padStart _ _ _)).
  - destruct (nat_string (abs / 10000)) eqn:E; [by apply nat_string_nonempty in E|done].
  - rewrite parse_body_4, nat_string_val, Hv by (done || (try apply nat_string_digits; lia)). unfold DECIMAL_SCALE. unfold abs, neg in *. destruct (Z.ltb_spec z 0); lia.
Qed.
