(* ===== verification/InsightProjections.v ===== *)
(** * The projections behind the reports

    apps/insight/src/modules/projections/projections.service.ts (order, return, cost and
    cash events), the normalisation of order events in consumers/insight-events.consumer.ts
    and modules/rebuild/insight-rebuild.service.ts.

    The tables are finite maps over their unique keys.  A [bigint] column is an integer,
    a [numeric(18,4)] column an integer of ten-thousandths, a [date] a day number and a
    time a number of milliseconds; the driver reads the first two as texts.  Left out:
    row ids, order and return codes, the raw payload, the widths of columns, the columns
    of the stock table other than those read here, and log texts.  Rows selected without
    an order come in the order of the map. *)

From S2P Require Import Prelude JsNumber JsString InsightDomain.
From Stdlib Require Import Ascii.

Open Scope Z_scope.

(** ** Columns *)

(** [wm]: an amount as whole money. *)
Definition wm (value : jsval) : string := formatScaledDecimal (parseScaledDecimal value) 0.
Definition roundToWholeMoney (scaled : Z) : Z := parseScaledDecimal (VStr (formatScaledDecimal scaled 0)).

(** What a text of digits is in a [bigint] and in a [numeric(18,4)] column (rounded half
    away from zero), and back. *)
Definition to_bigint (s : string) : Z := parse_text s / DECIMAL_SCALE.
Definition to_numeric (s : string) : Z := parse_text s.
Definition of_bigint (z : Z) : string := Z_string z.
Definition of_numeric (z : Z) : string := formatScaledDecimal z 4.

Definition scaled (s : string) : Z := parseScaledDecimal (VStr s).
Definition sub0 (a b : string) : string := subDecimals (VStr a) (VStr b) 0.

(** [a ?? b] of an optional text, and of a value. *)
Definition orElse {A} (a b : option A) : option A := match a with Some _ => a | None => b end.
Definition coalesce (a b : jsval) : jsval := if is_nullish a then b else a.
Definition is_undefined (v : jsval) : bool := match v with Undefined => true | _ => false end.

(** ** Facts *)

Inductive CostStatus := VERIFIED | PENDING.
#[export] Instance CostStatus_eq_dec : EqDecision CostStatus.
Proof. solve_decision. Defined.

Record Contribution := { co_gmv : Z; co_gross : Z; co_discount : Z; co_net : Z; co_cogs : Z; co_units : Z; co_orders : Z; co_completed : Z; co_cancelled : Z }.

Definition contribution_row (v : OrderContributionVector) : Contribution :=
  {| co_gmv := to_bigint (ov_gmv v); co_gross := to_bigint (ov_grossRevenue v); co_discount := to_bigint (ov_discount v); co_net := to_bigint (ov_netRevenue v);
     co_cogs := to_bigint (ov_cogs v); co_units := to_numeric (ov_unitsSold v); co_orders := ov_orderCount v; co_completed := ov_completedCount v;
     co_cancelled := ov_cancelledCount v |}.

Definition contribution_text (c : Contribution) : OrderContributionVector :=
  {| ov_gmv := of_bigint (co_gmv c); ov_grossRevenue := of_bigint (co_gross c); ov_discount := of_bigint (co_discount c); ov_netRevenue := of_bigint (co_net c);
     ov_cogs := of_bigint (co_cogs c); ov_unitsSold := of_numeric (co_units c); ov_orderCount := co_orders c; ov_completedCount := co_completed c;
     ov_cancelledCount := co_cancelled c |}.

Record OrderFact := { of_branch : string; of_channel : string; of_customer : option string; of_group : string; of_seller : option string; of_status : string;
  of_payment : string; of_fulfillment : string; of_date : Z; of_subtotal : Z; of_discount : Z; of_tax : Z; of_grand : Z; of_cogs : Z; of_units : Z; of_cost : CostStatus;
  of_contributed : Contribution; of_version : Z; of_lastEvent : option string; of_occurredAt : Z; of_completedAt : option Z }.

Record LineFact := { lf_branch : string; lf_channel : string; lf_group : string; lf_seller : option string; lf_date : Z; lf_variant : string; lf_product : option string;
  lf_sku : string; lf_name : string; lf_category : option string; lf_brand : option string; lf_quantity : Z; lf_unitPrice : Z; lf_subtotal : Z; lf_discount : Z; lf_net : Z;
  lf_unitCost : Z; lf_cogs : Z; lf_profit : Z; lf_cost : CostStatus; lf_cGross : Z; lf_cDiscount : Z; lf_cNet : Z; lf_cCogs : Z; lf_cUnits : Z; lf_occurredAt : Z }.

Record ReturnLine := { re_sku : option string; re_skuCode : option string; re_variantId : option string; re_quantity : jsval; re_refundAmount : jsval; re_unitCost : jsval;
  re_restocked : option bool }.

Record ReturnFact := { rf_order : string; rf_branch : string; rf_channel : string; rf_customer : option string; rf_group : string; rf_seller : string; rf_date : Z;
  rf_refund : Z; rf_units : Z; rf_cogs : Z; rf_restocked : bool; rf_lines : list ReturnLine; rf_lastEvent : option string; rf_occurredAt : Z }.

Record Facts := { orders : gmap (string * string) OrderFact; lines : gmap (string * string * string) LineFact; returns : gmap (string * string) ReturnFact }.

(** ** Summaries *)

Record Daily := { da_gmv : Z; da_gross : Z; da_discount : Z; da_returns : Z; da_net : Z; da_cogs : Z; da_returnedCogs : Z; da_netCogs : Z; da_profit : Z; da_orders : Z;
  da_completed : Z; da_cancelled : Z; da_returnCount : Z; da_units : Z; da_unitsReturned : Z; da_pending : Z; da_cashIn : Z; da_cashOut : Z; da_debt : Z; da_version : Z }.
Record Channel := { ch_gmv : Z; ch_gross : Z; ch_discount : Z; ch_returns : Z; ch_net : Z; ch_profit : Z; ch_orders : Z; ch_completed : Z; ch_cancelled : Z; ch_units : Z }.
Record Employee := { em_gross : Z; em_discount : Z; em_returns : Z; em_net : Z; em_profit : Z; em_completed : Z; em_returnCount : Z; em_units : Z }.
Record Group := { gr_gross : Z; gr_discount : Z; gr_returns : Z; gr_net : Z; gr_profit : Z; gr_completed : Z; gr_units : Z }.
Record Product := { ps_variant : string; ps_product : option string; ps_name : string; ps_category : option string; ps_brand : option string; ps_units : Z;
  ps_unitsReturned : Z; ps_gross : Z; ps_discount : Z; ps_returns : Z; ps_net : Z; ps_cogs : Z; ps_returnedCogs : Z; ps_netCogs : Z; ps_profit : Z; ps_orders : Z;
  ps_pending : Z }.

Definition daily_zero : Daily := {| da_gmv := 0; da_gross := 0; da_discount := 0; da_returns := 0; da_net := 0; da_cogs := 0; da_returnedCogs := 0; da_netCogs := 0;
  da_profit := 0; da_orders := 0; da_completed := 0; da_cancelled := 0; da_returnCount := 0; da_units := 0; da_unitsReturned := 0; da_pending := 0; da_cashIn := 0;
  da_cashOut := 0; da_debt := 0; da_version := 0 |}.
Definition channel_zero : Channel := {| ch_gmv := 0; ch_gross := 0; ch_discount := 0; ch_returns := 0; ch_net := 0; ch_profit := 0; ch_orders := 0; ch_completed := 0;
  ch_cancelled := 0; ch_units := 0 |}.
Definition employee_zero : Employee := {| em_gross := 0; em_discount := 0; em_returns := 0; em_net := 0; em_profit := 0; em_completed := 0; em_returnCount := 0; em_units := 0 |}.
Definition group_zero : Group := {| gr_gross := 0; gr_discount := 0; gr_returns := 0; gr_net := 0; gr_profit := 0; gr_completed := 0; gr_units := 0 |}.

(** Tenant, generation, day and branch; then the channel, employee, group or SKU. *)
Abbreviation day_key := (string * string * Z * string)%type.
Abbreviation slice_key := (string * string * Z * string * string)%type.

Record Books := { daily : gmap day_key Daily; channels : gmap slice_key Channel; employees : gmap slice_key Employee; groups : gmap slice_key Group;
  products : gmap slice_key Product }.

(** [INSERT ... ON CONFLICT DO UPDATE] of counters: a missing row counts as zeros. *)
Definition upsert {K A} `{Countable K} (k : K) (zero : A) (f : A -> A) (m : gmap K A) : gmap K A := <[k := f (default zero (m !! k))]> m.

(** ** Checkpoints, generations and the tables that are read *)

Inductive GenerationStatus := BUILDING | ACTIVE | SUPERSEDED | FAILED.
#[export] Instance GenerationStatus_eq_dec : EqDecision GenerationStatus.
Proof. solve_decision. Defined.

Record Checkpoint := { cp_active : string; cp_lastEvent : option string; cp_lastType : option string; cp_lastOccurred : option Z; cp_lastProcessed : Z; cp_version : Z; cp_count : Z }.
Record Generation := { ge_id : string; ge_tenant : string; ge_projection : string; ge_generation : string; ge_previous : string; ge_status : GenerationStatus;
  ge_from : option Z; ge_to : option Z; ge_orders : Z; ge_returns : Z }.

Inductive DimensionType := DIM_PRODUCT | DIM_VARIANT | DIM_CUSTOMER | DIM_BRANCH | DIM_WAREHOUSE | DIM_RECEIVABLE.
#[export] Instance DimensionType_eq_dec : EqDecision DimensionType.
Proof. solve_decision. Defined.

(** [di_paid] is the [paidAmount] of the metadata, the only entry read here. *)
Record Dimension := { di_tenant : string; di_type : DimensionType; di_entity : string; di_code : string; di_name : string; di_parent : option string;
  di_category : option string; di_brand : option string; di_group : option string; di_paid : option number; di_version : Z }.
Record StockRow := { st_tenant : string; st_sku : string; st_variant : string; st_branch : option string; st_avgCost : Z; st_updatedAt : Z; st_lastSale : option Z }.

Record Insight := { facts : Facts; books : Books; checkpoints : gmap (string * string) Checkpoint; generations : list Generation; dims : list Dimension; stock : list StockRow }.

Definition with_facts (f : Facts) (s : Insight) : Insight :=
  {| facts := f; books := books s; checkpoints := checkpoints s; generations := generations s; dims := dims s; stock := stock s |}.
Definition with_books (b : Books) (s : Insight) : Insight :=
  {| facts := facts s; books := b; checkpoints := checkpoints s; generations := generations s; dims := dims s; stock := stock s |}.
Definition with_checkpoints c (s : Insight) : Insight :=
  {| facts := facts s; books := books s; checkpoints := c; generations := generations s; dims := dims s; stock := stock s |}.
Definition with_generations g (s : Insight) : Insight :=
  {| facts := facts s; books := books s; checkpoints := checkpoints s; generations := g; dims := dims s; stock := stock s |}.
Definition with_dims d (s : Insight) : Insight :=
  {| facts := facts s; books := books s; checkpoints := checkpoints s; generations := generations s; dims := d; stock := stock s |}.
Definition with_stock st (s : Insight) : Insight :=
  {| facts := facts s; books := books s; checkpoints := checkpoints s; generations := generations s; dims := dims s; stock := st |}.

Definition activeGeneration (s : Insight) (tenantId projectionName : string) : string :=
  match checkpoints s !! (tenantId, projectionName) with Some c => cp_active c | None => "gen-active" end.

Definition buildingGenerations (s : Insight) (tenantId projectionName : string) : list string :=
  List.filter (fun g => negb (String.eqb g (activeGeneration s tenantId projectionName)))
    (map ge_generation (List.filter (fun g => String.eqb (ge_tenant g) tenantId && String.eqb (ge_projection g) projectionName && bool_decide (ge_status g = BUILDING))
      (generations s))).

(** [getActiveGenerations], then [[activeGenerationId, ...buildingGenerationIds]]. *)
Definition targetGenerations (s : Insight) (tenantId : string) : list string :=
  activeGeneration s tenantId "sales_analytics" :: buildingGenerations s tenantId "sales_analytics".

Definition touchCheckpoint (tenantId projectionName : string) (eventId eventType : option string) (occurredAt : option Z) (now : Z) (s : Insight) : Insight :=
  with_checkpoints (<[(tenantId, projectionName) :=
    let at_ := default now occurredAt in
    match checkpoints s !! (tenantId, projectionName) with
    | None => {| cp_active := "gen-active"; cp_lastEvent := eventId; cp_lastType := eventType; cp_lastOccurred := Some at_; cp_lastProcessed := now; cp_version := 1; cp_count := 1 |}
    | Some c => {| cp_active := cp_active c; cp_lastEvent := orElse eventId (cp_lastEvent c); cp_lastType := orElse eventType (cp_lastType c); cp_lastOccurred := Some at_;
        cp_lastProcessed := now; cp_version := cp_version c + 1; cp_count := cp_count c + 1 |}
    end]> (checkpoints s)) s.

(** ** Dimensions *)

Definition same_dimension (tenantId : string) (t : DimensionType) (entityId : string) (d : Dimension) : bool :=
  String.eqb (di_tenant d) tenantId && bool_decide (di_type d = t) && String.eqb (di_entity d) entityId.

(** An older version keeps every column; [COALESCE] keeps what the new one leaves open. *)
Definition merge_dimension (new old : Dimension) : Dimension :=
  if di_version old <=? di_version new then
    {| di_tenant := di_tenant old; di_type := di_type old; di_entity := di_entity old; di_code := di_code new; di_name := di_name new;
       di_parent := orElse (di_parent new) (di_parent old); di_category := orElse (di_category new) (di_category old); di_brand := orElse (di_brand new) (di_brand old);
       di_group := orElse (di_group new) (di_group old); di_paid := di_paid new; di_version := Z.max (di_version old) (di_version new) |}
  else old.

Definition upsertDimensionCache (d : Dimension) (s : Insight) : Insight :=
  let same := same_dimension (di_tenant d) (di_type d) (di_entity d) in
  with_dims (if existsb same (dims s) then map (fun o => if same o then merge_dimension d o else o) (dims s) else dims s ++ [d]) s.

(** [paired]: whether the driver answers an UPDATE ... RETURNING with the pair of the rows
    and their number (documents.service.ts of inventory says so, tenant-tx.ts of sales
    allows for both).  The length of the pair is two, so that a customer who is not cached
    is then left out. *)
Definition setCustomerGroup (paired : bool) (tenantId customerId groupId : string) (s : Insight) : Insight :=
  let same := same_dimension tenantId DIM_CUSTOMER customerId in
  if existsb same (dims s) then
    with_dims (map (fun o => if same o then {| di_tenant := di_tenant o; di_type := di_type o; di_entity := di_entity o; di_code := di_code o; di_name := di_name o;
      di_parent := di_parent o; di_category := di_category o; di_brand := di_brand o; di_group := Some groupId; di_paid := di_paid o; di_version := di_version o |} else o)
      (dims s)) s
  else if paired then s
  else upsertDimensionCache {| di_tenant := tenantId; di_type := DIM_CUSTOMER; di_entity := customerId; di_code := customerId; di_name := customerId; di_parent := None;
    di_category := None; di_brand := None; di_group := Some groupId; di_paid := None; di_version := 1 |} s.

(** The amount collected by an event that carries the cumulative paid amount. *)
Definition receivablePaidDelta (tenantId receivableId : string) (paidAmountRaw : jsval) (s : Insight) : Insight * number :=
  let paidAmount := to_num paidAmountRaw in
  let previous := match List.find (same_dimension tenantId DIM_RECEIVABLE receivableId) (dims s) with Some d => default (int 0) (di_paid d) | None => int 0 end in
  (upsertDimensionCache {| di_tenant := tenantId; di_type := DIM_RECEIVABLE; di_entity := receivableId; di_code := receivableId; di_name := receivableId; di_parent := None;
     di_category := None; di_brand := None; di_group := None; di_paid := Some (mathMax previous paidAmount); di_version := 1 |} s,
   mathMax (int 0) (nsub paidAmount previous)).

(** ** Writing the summaries *)

Record Place := { pl_tenant : string; pl_generation : string; pl_date : Z; pl_branch : string }.
Definition day_of (p : Place) : day_key := (pl_tenant p, pl_generation p, pl_date p, pl_branch p).
Definition slice_of (p : Place) (x : string) : slice_key := (pl_tenant p, pl_generation p, pl_date p, pl_branch p, x).

Record Attribution := { at_channel : string; at_employee : string; at_group : string }.

Definition add_daily (d : OrderContributionVector) (profit : string) (pending : Z) (r : Daily) : Daily :=
  {| da_gmv := da_gmv r + to_bigint (ov_gmv d); da_gross := da_gross r + to_bigint (ov_grossRevenue d); da_discount := da_discount r + to_bigint (ov_discount d);
     da_returns := da_returns r; da_net := da_net r + to_bigint (ov_netRevenue d); da_cogs := da_cogs r + to_bigint (ov_cogs d); da_returnedCogs := da_returnedCogs r;
     da_netCogs := da_netCogs r + to_bigint (ov_cogs d); da_profit := da_profit r + to_bigint profit; da_orders := da_orders r + ov_orderCount d;
     da_completed := da_completed r + ov_completedCount d; da_cancelled := da_cancelled r + ov_cancelledCount d; da_returnCount := da_returnCount r;
     da_units := da_units r + to_numeric (ov_unitsSold d); da_unitsReturned := da_unitsReturned r; da_pending := Z.max 0 (da_pending r + pending);
     da_cashIn := da_cashIn r; da_cashOut := da_cashOut r; da_debt := da_debt r; da_version := da_version r + 1 |}.

Definition add_channel (d : OrderContributionVector) (profit : string) (r : Channel) : Channel :=
  {| ch_gmv := ch_gmv r + to_bigint (ov_gmv d); ch_gross := ch_gross r + to_bigint (ov_grossRevenue d); ch_discount := ch_discount r + to_bigint (ov_discount d);
     ch_returns := ch_returns r; ch_net := ch_net r + to_bigint (ov_netRevenue d); ch_profit := ch_profit r + to_bigint profit; ch_orders := ch_orders r + ov_orderCount d;
     ch_completed := ch_completed r + ov_completedCount d; ch_cancelled := ch_cancelled r + ov_cancelledCount d; ch_units := ch_units r + to_numeric (ov_unitsSold d) |}.

Definition add_employee (d : OrderContributionVector) (profit : string) (r : Employee) : Employee :=
  {| em_gross := em_gross r + to_bigint (ov_grossRevenue d); em_discount := em_discount r + to_bigint (ov_discount d); em_returns := em_returns r;
     em_net := em_net r + to_bigint (ov_netRevenue d); em_profit := em_profit r + to_bigint profit; em_completed := em_completed r + ov_completedCount d;
     em_returnCount := em_returnCount r; em_units := em_units r + to_numeric (ov_unitsSold d) |}.

Definition add_group (d : OrderContributionVector) (profit : string) (r : Group) : Group :=
  {| gr_gross := gr_gross r + to_bigint (ov_grossRevenue d); gr_discount := gr_discount r + to_bigint (ov_discount d); gr_returns := gr_returns r;
     gr_net := gr_net r + to_bigint (ov_netRevenue d); gr_profit := gr_profit r + to_bigint profit; gr_completed := gr_completed r + ov_completedCount d;
     gr_units := gr_units r + to_numeric (ov_unitsSold d) |}.

Definition whole_delta (d : OrderContributionVector) : OrderContributionVector :=
  {| ov_gmv := wm (VStr (ov_gmv d)); ov_grossRevenue := wm (VStr (ov_grossRevenue d)); ov_discount := wm (VStr (ov_discount d));
     ov_netRevenue := wm (VStr (ov_netRevenue d)); ov_cogs := wm (VStr (ov_cogs d)); ov_unitsSold := ov_unitsSold d; ov_orderCount := ov_orderCount d;
     ov_completedCount := ov_completedCount d; ov_cancelledCount := ov_cancelledCount d |}.

Definition applyOrderDeltaToSummaries (p : Place) (a : Attribution) (delta : OrderContributionVector) (grossProfitDelta : string) (pendingCostLinesDelta : Z)
    (b : Books) : Books :=
  let d := whole_delta delta in
  let profit := wm (VStr grossProfitDelta) in
  let completed_changes := negb (scaled (ov_grossRevenue d) =? 0) || negb (scaled profit =? 0) || negb (ov_completedCount d =? 0) in
  {| daily := upsert (day_of p) daily_zero (add_daily d profit pendingCostLinesDelta) (daily b);
     channels := upsert (slice_of p (at_channel a)) channel_zero (add_channel d profit) (channels b);
     employees := if completed_changes then upsert (slice_of p (at_employee a)) employee_zero (add_employee d profit) (employees b) else employees b;
     groups := if completed_changes then upsert (slice_of p (at_group a)) group_zero (add_group d profit) (groups b) else groups b;
     products := products b |}.

Record ReturnDelta := { rd_refund : string; rd_net : string; rd_cogs : string; rd_profit : string; rd_units : string }.

Definition add_return_daily (refund net cogs netCogs profit units : Z) (r : Daily) : Daily :=
  {| da_gmv := da_gmv r; da_gross := da_gross r; da_discount := da_discount r; da_returns := da_returns r + refund; da_net := da_net r + net; da_cogs := da_cogs r;
     da_returnedCogs := da_returnedCogs r + cogs; da_netCogs := da_netCogs r + netCogs; da_profit := da_profit r + profit; da_orders := da_orders r;
     da_completed := da_completed r; da_cancelled := da_cancelled r; da_returnCount := da_returnCount r + 1; da_units := da_units r;
     da_unitsReturned := da_unitsReturned r + units; da_pending := da_pending r; da_cashIn := da_cashIn r; da_cashOut := da_cashOut r; da_debt := da_debt r;
     da_version := da_version r + 1 |}.

Definition add_return_channel (refund net profit : Z) (r : Channel) : Channel :=
  {| ch_gmv := ch_gmv r; ch_gross := ch_gross r; ch_discount := ch_discount r; ch_returns := ch_returns r + refund; ch_net := ch_net r + net;
     ch_profit := ch_profit r + profit; ch_orders := ch_orders r; ch_completed := ch_completed r; ch_cancelled := ch_cancelled r; ch_units := ch_units r |}.

Definition add_return_employee (refund net profit : Z) (r : Employee) : Employee :=
  {| em_gross := em_gross r; em_discount := em_discount r; em_returns := em_returns r + refund; em_net := em_net r + net; em_profit := em_profit r + profit;
     em_completed := em_completed r; em_returnCount := em_returnCount r + 1; em_units := em_units r |}.

Definition add_return_group (refund net profit : Z) (r : Group) : Group :=
  {| gr_gross := gr_gross r; gr_discount := gr_discount r; gr_returns := gr_returns r + refund; gr_net := gr_net r + net; gr_profit := gr_profit r + profit;
     gr_completed := gr_completed r; gr_units := gr_units r |}.

Definition applyReturnDeltaToSummaries (p : Place) (a : Attribution) (d : ReturnDelta) (b : Books) : Books :=
  let refund := to_bigint (wm (VStr (rd_refund d))) in
  let net := to_bigint (wm (VStr (rd_net d))) in
  let returnedCogs := wm (VStr (rd_cogs d)) in
  let profit := to_bigint (wm (VStr (rd_profit d))) in
  let netCogs := to_bigint (sub0 "0" returnedCogs) in
  {| daily := upsert (day_of p) daily_zero (add_return_daily refund net (to_bigint returnedCogs) netCogs profit (to_numeric (rd_units d))) (daily b);
     channels := upsert (slice_of p (at_channel a)) channel_zero (add_return_channel refund net profit) (channels b);
     employees := upsert (slice_of p (at_employee a)) employee_zero (add_return_employee refund net profit) (employees b);
     groups := upsert (slice_of p (at_group a)) group_zero (add_return_group refund net profit) (groups b);
     products := products b |}.

Record ProductRef := { pr_variant : string; pr_product : option string; pr_sku : string; pr_name : string; pr_category : option string; pr_brand : option string }.
Record ProductDelta := { pd_units : string; pd_unitsReturned : string; pd_gross : string; pd_discount : string; pd_returns : string; pd_net : string; pd_cogs : string;
  pd_returnedCogs : string; pd_profit : string; pd_orders : Z; pd_pending : Z }.

Definition product_zero (r : ProductRef) : Product :=
  {| ps_variant := pr_variant r; ps_product := pr_product r; ps_name := pr_name r; ps_category := pr_category r; ps_brand := pr_brand r; ps_units := 0;
     ps_unitsReturned := 0; ps_gross := 0; ps_discount := 0; ps_returns := 0; ps_net := 0; ps_cogs := 0; ps_returnedCogs := 0; ps_netCogs := 0; ps_profit := 0;
     ps_orders := 0; ps_pending := 0 |}.

Definition add_product (r : ProductRef) (d : ProductDelta) (o : Product) : Product :=
  let cogs := wm (VStr (pd_cogs d)) in
  let returnedCogs := wm (VStr (pd_returnedCogs d)) in
  {| ps_variant := ps_variant o; ps_product := ps_product o; ps_name := pr_name r; ps_category := orElse (pr_category r) (ps_category o);
     ps_brand := orElse (pr_brand r) (ps_brand o); ps_units := ps_units o + to_numeric (pd_units d); ps_unitsReturned := ps_unitsReturned o + to_numeric (pd_unitsReturned d);
     ps_gross := ps_gross o + to_bigint (wm (VStr (pd_gross d))); ps_discount := ps_discount o + to_bigint (wm (VStr (pd_discount d)));
     ps_returns := ps_returns o + to_bigint (wm (VStr (pd_returns d))); ps_net := ps_net o + to_bigint (wm (VStr (pd_net d))); ps_cogs := ps_cogs o + to_bigint cogs;
     ps_returnedCogs := ps_returnedCogs o + to_bigint returnedCogs; ps_netCogs := ps_netCogs o + to_bigint (sub0 cogs returnedCogs);
     ps_profit := ps_profit o + to_bigint (wm (VStr (pd_profit d))); ps_orders := ps_orders o + pd_orders d; ps_pending := Z.max 0 (ps_pending o + pd_pending d) |}.

Definition applyProductSummaryDelta (p : Place) (r : ProductRef) (d : ProductDelta) (b : Books) : Books :=
  {| daily := daily b; channels := channels b; employees := employees b; groups := groups b;
     products := upsert (slice_of p (pr_sku r)) (product_zero r) (add_product r d) (products b) |}.

(** The same write for each generation. *)
Definition for_generations (gens : list string) (f : string -> Books -> Books) (b : Books) : Books := fold_left (fun b g => f g b) gens b.

(** ** Order events *)

Record OrderItem := { it_lineKey : option string; it_variantId : option string; it_productId : option string; it_sku : option string; it_skuCode : option string;
  it_name : option string; it_productName : option string; it_categoryId : option string; it_brandId : option string; it_quantity : jsval; it_unitPrice : jsval;
  it_discount : jsval; it_unitCost : jsval; it_cogsAmount : jsval; it_costMissing : bool }.

(** [op_customerId]: absent, [null] or an id. *)
Record OrderPayload := { op_orderId : string; op_branchId : option string; op_channelType : option string; op_customerId : option (option string);
  op_customerGroupId : option string; op_sellerStaffId : option string; op_createdBy : option string; op_actorId : option string; op_orderStatus : option string;
  op_paymentStatus : option string; op_fulfillmentStatus : option string; op_subtotal : jsval; op_discountTotal : jsval; op_taxTotal : jsval; op_grandTotal : jsval;
  op_totalAmount : jsval; op_occurredAt : option Z; op_completedAt : option Z; op_aggregateVersion : option Z; op_costMissing : bool;
  op_items : option (list OrderItem); op_lines : option (list OrderItem) }.

Record Envelope (P : Type) := { ev_id : option string; ev_type : option string; ev_tenantId : string; ev_actor : option string; ev_occurredAt : option Z; ev_payload : P }.
Arguments ev_id {P}.
Arguments ev_type {P}.
Arguments ev_tenantId {P}.
Arguments ev_actor {P}.
Arguments ev_occurredAt {P}.
Arguments ev_payload {P}.

Definition ORDER_STATUS_RANK (s : string) : option Z :=
  mget s [("DRAFT", 1); ("CREATED", 1); ("CONFIRMED", 2); ("COMPLETED", 3); ("CANCELLED", 4)].

Inductive Outcome := Applied | Skipped (reason : string).

Definition raw_status (p : OrderPayload) (inferred : option string) : string := toUpperCase (default "COMPLETED" (orElse inferred (op_orderStatus p))).

(** Why an event is left aside, if it is. *)
Definition skip_reason (existing : option OrderFact) (e : Envelope OrderPayload) (rawStatus : string) (incomingVersion statusRank : Z) : option string :=
  match existing with
  | None => None
  | Some o =>
      if truthy (ev_id e) && bool_decide (of_lastEvent o = ev_id e) then Some "DUPLICATE_EVENT"
      else
        let existingRank := default 1 (ORDER_STATUS_RANK (of_status o)) in
        if (incomingVersion <? of_version o) || (bool_decide (op_aggregateVersion (ev_payload e) = None) && (statusRank <? existingRank)) then Some "OUT_OF_ORDER_STALE_EVENT"
        else if String.eqb (of_status o) rawStatus && (incomingVersion =? of_version o) && (0 <? co_orders (of_contributed o)) then Some "ALREADY_AT_TARGET_STATE"
        else None
  end.

(** Amounts are texts, as in the code. *)
Record ResolvedLine := { rl_key : string; rl_variant : string; rl_product : option string; rl_sku : string; rl_name : string; rl_category : option string;
  rl_brand : option string; rl_quantity : string; rl_unitPrice : string; rl_subtotal : string; rl_discount : string; rl_net : string; rl_unitCost : string;
  rl_cogs : string; rl_profit : string; rl_cost : CostStatus; rl_prevGross : string; rl_prevDiscount : string; rl_prevNet : string; rl_prevCogs : string;
  rl_prevUnits : string; rl_prevCost : option CostStatus }.

Definition line_order (a b : string * LineFact) : Z := string_order a.1 b.1.

(** [SELECT ... ORDER BY line_key]: the lines of an order with their keys. *)
Definition lines_of (s : Insight) (tenantId orderId : string) : list (string * LineFact) :=
  sort_by line_order (map (fun e => (e.1.2, e.2)) (List.filter (fun e => String.eqb e.1.1.1 tenantId && String.eqb e.1.1.2 orderId) (map_to_list (lines (facts s))))).

Record Names := { nm_variant : string; nm_name : string; nm_product : option string; nm_category : option string; nm_brand : option string }.

Definition nonempty (a b : string) : string := if String.eqb a "" then b else a.

(** The catalog entry of the variant, and then of its product, fill what is not known. *)
Definition look_up_names (s : Insight) (tenantId skuCode : string) (n : Names) : Names :=
  if negb (truthy (nm_category n)) || negb (truthy (nm_brand n)) || String.eqb (nm_name n) skuCode then
    let n1 :=
      match List.find (fun d => String.eqb (di_tenant d) tenantId && bool_decide (di_type d = DIM_VARIANT) && (String.eqb (di_code d) skuCode || String.eqb (di_entity d) skuCode))
              (dims s) with
      | Some d => {| nm_variant := nonempty (di_entity d) (nm_variant n); nm_name := nonempty (di_name d) (nm_name n); nm_product := orElse (nm_product n) (di_parent d);
                     nm_category := orElse (nm_category n) (di_category d); nm_brand := orElse (nm_brand n) (di_brand d) |}
      | None => n
      end in
    if truthy (nm_product n1) && (negb (truthy (nm_category n1)) || negb (truthy (nm_brand n1))) then
      match List.find (same_dimension tenantId DIM_PRODUCT (default "" (nm_product n1))) (dims s) with
      | Some d => {| nm_variant := nm_variant n1; nm_name := nm_name n1; nm_product := nm_product n1; nm_category := orElse (nm_category n1) (di_category d);
                     nm_brand := orElse (nm_brand n1) (di_brand d) |}
      | None => n1
      end
    else n1
  else n.

(** [ORDER BY ("branch_id" = $3) DESC NULLS LAST, "updated_at" DESC LIMIT 1]. *)
Definition branch_rank (branchId : string) (r : StockRow) : Z := match st_branch r with Some b => if String.eqb b branchId then 0 else 1 | None => 2 end.
Definition stock_order (branchId : string) (a b : StockRow) : Z :=
  let d := branch_rank branchId a - branch_rank branchId b in if d =? 0 then st_updatedAt b - st_updatedAt a else d.
Definition stock_cost (s : Insight) (tenantId skuCode variantId branchId : string) : option Z :=
  match sort_by (stock_order branchId) (List.filter (fun r => String.eqb (st_tenant r) tenantId && (String.eqb (st_sku r) skuCode || String.eqb (st_variant r) variantId)) (stock s)) with
  | r :: _ => Some (st_avgCost r)
  | [] => None
  end.

(** A verified cost is kept for ever; then a missing cost, the line's cost, its unit cost
    and the average cost of the stock, in this order. *)
Definition unit_cost (s : Insight) (tenantId branchId skuCode variantId qtyStr : string) (payloadCostMissing : bool) (item : OrderItem) (prevLine : option LineFact)
    : string * CostStatus :=
  let kept := match prevLine with Some l => bool_decide (lf_cost l = VERIFIED) && (0 <? scaled (of_bigint (lf_unitCost l))) | None => false end in
  match prevLine, kept with
  | Some l, true => (formatScaledDecimal (scaled (of_bigint (lf_unitCost l))) 0, VERIFIED)
  | _, _ =>
      if it_costMissing item || payloadCostMissing then ("0", PENDING)
      else if negb (is_nullish (it_cogsAmount item)) then (divDecimals (VStr (wm (it_cogsAmount item))) (VStr qtyStr) 0, VERIFIED)
      else if negb (is_nullish (it_unitCost item)) then (formatScaledDecimal (parseScaledDecimal (it_unitCost item)) 0, VERIFIED)
      else match stock_cost s tenantId skuCode variantId branchId with
           | Some c => (formatScaledDecimal (scaled (of_bigint c)) 0, VERIFIED)
           | None => ("0", VERIFIED)
           end
  end.

Definition prev_text (f : LineFact -> Z) (prevLine : option LineFact) : string := match prevLine with Some l => of_bigint (f l) | None => "0" end.
Definition prev_units (prevLine : option LineFact) : string := match prevLine with Some l => of_numeric (lf_cUnits l) | None => "0" end.

Definition item_sku (i : Z) (item : OrderItem) : string :=
  default ("SKU-" +:+ Z_string (i + 1)) (orElse (orElse (it_skuCode item) (it_sku item)) (it_variantId item)).
Definition item_key (i : Z) (item : OrderItem) : string := default (item_sku i item +:+ "#" +:+ Z_string i) (it_lineKey item).

Definition resolve_item (s : Insight) (tenantId branchId : string) (payloadCostMissing : bool) (existingLines : list (string * LineFact)) (i : Z) (item : OrderItem)
    : ResolvedLine :=
  let skuCode := item_sku i item in
  let lineKey := item_key i item in
  let prevLine := orElse (mget lineKey existingLines) (mget skuCode existingLines) in
  let before (f : LineFact -> option string) := match prevLine with Some l => f l | None => None end in
  let n := look_up_names s tenantId skuCode
    {| nm_variant := default skuCode (orElse (it_variantId item) (before (fun l => Some (lf_variant l))));
       nm_name := default skuCode (orElse (orElse (it_productName item) (it_name item)) (before (fun l => Some (lf_name l))));
       nm_product := orElse (it_productId item) (before lf_product); nm_category := orElse (it_categoryId item) (before lf_category);
       nm_brand := orElse (it_brandId item) (before lf_brand) |} in
  let qtyStr := formatScaledDecimal (parseScaledDecimal (it_quantity item)) 4 in
  let unitPriceStr := formatScaledDecimal (parseScaledDecimal (it_unitPrice item)) 0 in
  let lineSubtotalStr := mulDecimals (VStr qtyStr) (VStr unitPriceStr) 0 in
  let lineDiscountStr := formatScaledDecimal (parseScaledDecimal (coalesce (it_discount item) (VNum (int 0)))) 0 in
  let (unitCostSnapshotStr, costStatus) := unit_cost s tenantId branchId skuCode (nm_variant n) qtyStr payloadCostMissing item prevLine in
  let prevVerified := match prevLine with Some l => bool_decide (lf_cost l = VERIFIED) | None => false end in
  let cogsAmountStr :=
    match costStatus with
    | VERIFIED => if negb (is_nullish (it_cogsAmount item)) && negb prevVerified then wm (it_cogsAmount item) else mulDecimals (VStr qtyStr) (VStr unitCostSnapshotStr) 0
    | PENDING => "0"
    end in
  let lineNetRevStr := sub0 lineSubtotalStr lineDiscountStr in
  {| rl_key := lineKey; rl_variant := nm_variant n; rl_product := nm_product n; rl_sku := skuCode; rl_name := nm_name n; rl_category := nm_category n; rl_brand := nm_brand n;
     rl_quantity := qtyStr; rl_unitPrice := unitPriceStr; rl_subtotal := lineSubtotalStr; rl_discount := lineDiscountStr; rl_net := lineNetRevStr;
     rl_unitCost := unitCostSnapshotStr; rl_cogs := cogsAmountStr; rl_profit := sub0 lineNetRevStr cogsAmountStr; rl_cost := costStatus;
     rl_prevGross := prev_text lf_cGross prevLine; rl_prevDiscount := prev_text lf_cDiscount prevLine; rl_prevNet := prev_text lf_cNet prevLine;
     rl_prevCogs := prev_text lf_cCogs prevLine; rl_prevUnits := prev_units prevLine; rl_prevCost := option_map lf_cost prevLine |}.

(** An event without items keeps the lines as they are. *)
Definition resolve_existing (e : string * LineFact) : ResolvedLine :=
  let l := e.2 in
  {| rl_key := e.1; rl_variant := lf_variant l; rl_product := lf_product l; rl_sku := lf_sku l; rl_name := lf_name l; rl_category := lf_category l; rl_brand := lf_brand l;
     rl_quantity := of_numeric (lf_quantity l); rl_unitPrice := of_bigint (lf_unitPrice l); rl_subtotal := of_bigint (lf_subtotal l); rl_discount := of_bigint (lf_discount l);
     rl_net := of_bigint (lf_net l); rl_unitCost := of_bigint (lf_unitCost l); rl_cogs := of_bigint (lf_cogs l); rl_profit := of_bigint (lf_profit l); rl_cost := lf_cost l;
     rl_prevGross := of_bigint (lf_cGross l); rl_prevDiscount := of_bigint (lf_cDiscount l); rl_prevNet := of_bigint (lf_cNet l); rl_prevCogs := of_bigint (lf_cCogs l);
     rl_prevUnits := of_numeric (lf_cUnits l); rl_prevCost := Some (lf_cost l) |}.

Fixpoint mapi {A B} (f : Z -> A -> B) (i : Z) (l : list A) : list B := match l with [] => [] | x :: l' => f i x :: mapi f (i + 1) l' end.

Definition payload_items (p : OrderPayload) : list OrderItem := default [] (orElse (op_items p) (op_lines p)).

Definition resolve_lines (s : Insight) (tenantId branchId : string) (p : OrderPayload) (existingLines : list (string * LineFact)) : list ResolvedLine :=
  match payload_items p with
  | [] => map resolve_existing existingLines
  | items => mapi (resolve_item s tenantId branchId (op_costMissing p) existingLines) 0 items
  end.

(** ** Totals of an order *)

Record Totals := { to_subtotal : string; to_discount : string; to_tax : string; to_grand : string; to_cogs : string; to_units : string }.

Definition sum_of (f : ResolvedLine -> string) (ls : list ResolvedLine) : Z := total (fun l => scaled (f l)) ls.

Definition set_discount (alloc : Z) (l : ResolvedLine) : ResolvedLine :=
  let lineSub := scaled (rl_subtotal l) in
  {| rl_key := rl_key l; rl_variant := rl_variant l; rl_product := rl_product l; rl_sku := rl_sku l; rl_name := rl_name l; rl_category := rl_category l; rl_brand := rl_brand l;
     rl_quantity := rl_quantity l; rl_unitPrice := rl_unitPrice l; rl_subtotal := rl_subtotal l; rl_discount := formatScaledDecimal alloc 0;
     rl_net := formatScaledDecimal (lineSub - alloc) 0; rl_unitCost := rl_unitCost l; rl_cogs := rl_cogs l;
     rl_profit := formatScaledDecimal (lineSub - alloc - scaled (rl_cogs l)) 0; rl_cost := rl_cost l; rl_prevGross := rl_prevGross l; rl_prevDiscount := rl_prevDiscount l;
     rl_prevNet := rl_prevNet l; rl_prevCogs := rl_prevCogs l; rl_prevUnits := rl_prevUnits l; rl_prevCost := rl_prevCost l |}.

(** Whole money for each line by its share of the subtotals; the last takes the rest. *)
Fixpoint allocate_discount (discountTotal sumLineSubtotals remaining : Z) (ls : list ResolvedLine) : list ResolvedLine :=
  match ls with
  | [] => []
  | [l] => [set_discount remaining l]
  | l :: ls' =>
      let alloc := roundToWholeMoney (Z.quot (discountTotal * scaled (rl_subtotal l)) sumLineSubtotals) in
      set_discount alloc l :: allocate_discount discountTotal sumLineSubtotals (remaining - alloc) ls'
  end.

Definition order_totals (p : OrderPayload) (existing : option OrderFact) (ls : list ResolvedLine) : Totals :=
  let sumLineSubtotals := sum_of rl_subtotal ls in
  let sumLineDiscounts := sum_of rl_discount ls in
  let amount := coalesce (coalesce (op_grandTotal p) (op_totalAmount p)) (VNum (int 0)) in
  let subtotalStr :=
    if negb (is_undefined (op_subtotal p)) then wm (op_subtotal p)
    else if 0 <? sumLineSubtotals then formatScaledDecimal sumLineSubtotals 0
    else match existing with Some o => of_bigint (of_subtotal o) | None => wm amount end in
  let discountTotalStr :=
    if negb (is_undefined (op_discountTotal p)) then wm (op_discountTotal p)
    else if 0 <? sumLineDiscounts then formatScaledDecimal sumLineDiscounts 0
    else match existing with Some o => of_bigint (of_discount o) | None => "0" end in
  let taxTotalStr := if negb (is_undefined (op_taxTotal p)) then wm (op_taxTotal p) else match existing with Some o => of_bigint (of_tax o) | None => "0" end in
  {| to_subtotal := subtotalStr; to_discount := discountTotalStr; to_tax := taxTotalStr;
     to_grand :=
       if negb (is_undefined (op_grandTotal p)) || negb (is_undefined (op_totalAmount p)) then wm amount
       else formatScaledDecimal (scaled subtotalStr - scaled discountTotalStr + scaled taxTotalStr) 0;
     to_cogs := match ls with [] => match existing with Some o => of_bigint (of_cogs o) | None => "0" end | _ => formatScaledDecimal (sum_of rl_cogs ls) 0 end;
     to_units := match ls with [] => match existing with Some o => of_numeric (of_units o) | None => "1.0000" end | _ => formatScaledDecimal (sum_of rl_quantity ls) 4 end |}.

Definition spread_discount (t : Totals) (ls : list ResolvedLine) : list ResolvedLine :=
  if bool_decide (ls <> []) && (sum_of rl_discount ls =? 0) && (0 <? scaled (to_discount t)) && (0 <? sum_of rl_subtotal ls)
  then allocate_discount (scaled (to_discount t)) (sum_of rl_subtotal ls) (scaled (to_discount t)) ls
  else ls.

(** ** Writing an order *)

Record OrderHead := { oh_tenant : string; oh_order : string; oh_branch : string; oh_channel : string; oh_customer : option string; oh_group : string; oh_seller : string;
  oh_status : string; oh_date : Z; oh_instant : Z; oh_now : Z }.

Definition target_of (status : string) (t : Totals) : OrderContributionVector :=
  computeTargetOrderContribution {| ti_status := status; ti_subtotal := VStr (to_subtotal t); ti_discountTotal := Some (VStr (to_discount t));
    ti_cogsTotal := Some (VStr (to_cogs t)); ti_unitsTotal := Some (VStr (to_units t)) |}.

Definition is_completed (status : string) : bool := String.eqb status "COMPLETED".

Definition order_fact (h : OrderHead) (p : OrderPayload) (existing : option OrderFact) (t : Totals) (target : OrderContributionVector) (cost : CostStatus)
    (incomingVersion : Z) (eventId : option string) : OrderFact :=
  {| of_branch := oh_branch h; of_channel := oh_channel h;
     of_customer := match existing with Some o => orElse (oh_customer h) (of_customer o) | None => oh_customer h end;
     of_group := oh_group h; of_seller := Some (oh_seller h); of_status := oh_status h;
     of_payment := match op_paymentStatus p with Some x => x | None => if is_completed (oh_status h) then "PAID" else match existing with Some o => of_payment o | None => "UNPAID" end end;
     of_fulfillment := match op_fulfillmentStatus p with Some x => x | None =>
       if is_completed (oh_status h) then "FULFILLED" else match existing with Some o => of_fulfillment o | None => "UNFULFILLED" end end;
     of_date := match existing with Some o => of_date o | None => oh_date h end;
     of_subtotal := to_bigint (to_subtotal t); of_discount := to_bigint (to_discount t); of_tax := to_bigint (to_tax t); of_grand := to_bigint (to_grand t);
     of_cogs := to_bigint (to_cogs t); of_units := to_numeric (to_units t); of_cost := cost; of_contributed := contribution_row target; of_version := incomingVersion;
     of_lastEvent := eventId; of_occurredAt := match existing with Some o => of_occurredAt o | None => oh_instant h end;
     of_completedAt := if is_completed (oh_status h) then Some (default (oh_instant h) (op_completedAt p)) else match existing with Some o => of_completedAt o | None => None end |}.

(** What a line contributes once the order is completed, else nothing. *)
Definition line_target (status : string) (amount : string) (none : string) : string := if is_completed status then amount else none.

Definition line_fact (h : OrderHead) (l : ResolvedLine) (old : option LineFact) : LineFact :=
  let st := oh_status h in
  let keep {A} (f : LineFact -> A) (new : A) : A := match old with Some o => f o | None => new end in
  let fill (f : LineFact -> option string) (new : option string) := match old with Some o => orElse new (f o) | None => new end in
  {| lf_branch := keep lf_branch (oh_branch h); lf_channel := keep lf_channel (oh_channel h); lf_group := keep lf_group (oh_group h);
     lf_seller := keep lf_seller (Some (oh_seller h)); lf_date := keep lf_date (oh_date h); lf_variant := keep lf_variant (rl_variant l); lf_product := fill lf_product (rl_product l);
     lf_sku := keep lf_sku (rl_sku l); lf_name := rl_name l; lf_category := fill lf_category (rl_category l); lf_brand := fill lf_brand (rl_brand l);
     lf_quantity := to_numeric (rl_quantity l); lf_unitPrice := to_bigint (rl_unitPrice l); lf_subtotal := to_bigint (rl_subtotal l);
     lf_discount := to_bigint (rl_discount l); lf_net := to_bigint (rl_net l); lf_unitCost := to_bigint (rl_unitCost l); lf_cogs := to_bigint (rl_cogs l);
     lf_profit := to_bigint (rl_profit l); lf_cost := rl_cost l; lf_cGross := to_bigint (line_target st (rl_subtotal l) "0");
     lf_cDiscount := to_bigint (line_target st (rl_discount l) "0"); lf_cNet := to_bigint (line_target st (rl_net l) "0"); lf_cCogs := to_bigint (line_target st (rl_cogs l) "0");
     lf_cUnits := to_numeric (line_target st (rl_quantity l) "0.0000"); lf_occurredAt := keep lf_occurredAt (oh_instant h) |}.

Definition pending_delta (st : string) (l : ResolvedLine) : Z :=
  let wasPending := if bool_decide (rl_prevCost l = Some PENDING) && (0 <? scaled (rl_prevUnits l)) then 1 else 0 in
  let isNowPending := if is_completed st && bool_decide (rl_cost l = PENDING) then 1 else 0 in
  isNowPending - wasPending.

Definition product_delta (st : string) (completedDelta : Z) (l : ResolvedLine) : ProductDelta :=
  let net := sub0 (line_target st (rl_net l) "0") (rl_prevNet l) in
  let cogs := sub0 (line_target st (rl_cogs l) "0") (rl_prevCogs l) in
  {| pd_units := subDecimals (VStr (line_target st (rl_quantity l) "0.0000")) (VStr (rl_prevUnits l)) 4; pd_unitsReturned := "0.0000";
     pd_gross := sub0 (line_target st (rl_subtotal l) "0") (rl_prevGross l); pd_discount := sub0 (line_target st (rl_discount l) "0") (rl_prevDiscount l);
     pd_returns := "0.0000"; pd_net := net; pd_cogs := cogs; pd_returnedCogs := "0.0000"; pd_profit := sub0 net cogs; pd_orders := completedDelta;
     pd_pending := pending_delta st l |}.

Definition product_ref (l : ResolvedLine) : ProductRef :=
  {| pr_variant := rl_variant l; pr_product := rl_product l; pr_sku := rl_sku l; pr_name := rl_name l; pr_category := rl_category l; pr_brand := rl_brand l |}.

Definition touch_sale (tenantId sku : string) (instant now : Z) (r : StockRow) : StockRow :=
  if String.eqb (st_tenant r) tenantId && String.eqb (st_sku r) sku then
    {| st_tenant := st_tenant r; st_sku := st_sku r; st_variant := st_variant r; st_branch := st_branch r; st_avgCost := st_avgCost r; st_updatedAt := now;
       st_lastSale := Some (Z.max (default instant (st_lastSale r)) instant) |}
  else r.

Definition put_line (k : string * string * string) (l : LineFact) (f : Facts) : Facts := {| orders := orders f; lines := <[k := l]> (lines f); returns := returns f |}.
Definition put_order (k : string * string) (o : OrderFact) (f : Facts) : Facts := {| orders := <[k := o]> (orders f); lines := lines f; returns := returns f |}.
Definition put_return (k : string * string) (r : ReturnFact) (f : Facts) : Facts := {| orders := orders f; lines := lines f; returns := <[k := r]> (returns f) |}.

Definition write_line (h : OrderHead) (gens : list string) (completedDelta : Z) (s : Insight) (l : ResolvedLine) : Insight :=
  let k := (oh_tenant h, oh_order h, rl_key l) in
  let s1 := with_facts (put_line k (line_fact h l (lines (facts s) !! k)) (facts s)) s in
  let d := product_delta (oh_status h) completedDelta l in
  let changes := negb (scaled (pd_gross d) =? 0) || negb (scaled (pd_units d) =? 0) || negb (scaled (pd_cogs d) =? 0) || negb (completedDelta =? 0) || negb (pd_pending d =? 0) in
  let s2 :=
    if changes then
      with_books (for_generations gens (fun g => applyProductSummaryDelta {| pl_tenant := oh_tenant h; pl_generation := g; pl_date := oh_date h; pl_branch := oh_branch h |}
        (product_ref l) d) (books s1)) s1
    else s1 in
  if is_completed (oh_status h) then with_stock (map (touch_sale (oh_tenant h) (rl_sku l) (oh_instant h) (oh_now h)) (stock s2)) s2 else s2.

(** [rl] are the lines, [existing] the recorded order. *)
Definition write_order (h : OrderHead) (e : Envelope OrderPayload) (existing : option OrderFact) (t : Totals) (ls : list ResolvedLine) (incomingVersion : Z) (s : Insight)
    : Insight :=
  let target := target_of (oh_status h) t in
  let delta := computeOrderContributionDelta target (option_map (fun o => contribution_text (of_contributed o)) existing) in
  let cost := if op_costMissing (ev_payload e) || existsb (fun l => bool_decide (rl_cost l = PENDING)) ls then PENDING else VERIFIED in
  let gens := targetGenerations s (oh_tenant h) in
  let s1 := with_facts (put_order (oh_tenant h, oh_order h) (order_fact h (ev_payload e) existing t target cost incomingVersion (ev_id e)) (facts s)) s in
  let s2 := fold_left (write_line h gens (ov_completedCount delta)) ls s1 in
  let pending := total (pending_delta (oh_status h)) ls in
  if negb (isZeroContributionDelta delta) || negb (pending =? 0) then
    with_books (for_generations gens (fun g => applyOrderDeltaToSummaries {| pl_tenant := oh_tenant h; pl_generation := g; pl_date := oh_date h; pl_branch := oh_branch h |}
      {| at_channel := oh_channel h; at_employee := oh_seller h; at_group := oh_group h |} delta (sub0 (ov_netRevenue delta) (ov_cogs delta)) pending) (books s2)) s2
  else s2.

Definition customer_group (s : Insight) (p : OrderPayload) (existing : option OrderFact) (tenantId : string) (customerId : option string) : string :=
  let g := orElse (op_customerGroupId p) (option_map of_group existing) in
  let g := if negb (truthy g) && truthy customerId then
    match List.find (same_dimension tenantId DIM_CUSTOMER (default "" customerId)) (dims s) with Some d => di_group d | None => None end else g in
  nonempty (default "" g) "WALK_IN".

Definition order_head (s : Insight) (e : Envelope OrderPayload) (existing : option OrderFact) (rawStatus branchId : string) (now : Z) : OrderHead :=
  let p := ev_payload e in
  let instant := default now (orElse (orElse (op_completedAt p) (op_occurredAt p)) (ev_occurredAt e)) in
  let customerId := match op_customerId p with Some c => c | None => match existing with Some o => of_customer o | None => None end end in
  {| oh_tenant := ev_tenantId e; oh_order := op_orderId p; oh_branch := branchId;
     oh_channel := toUpperCase (default "POS" (orElse (op_channelType p) (option_map of_channel existing)));
     oh_customer := customerId; oh_group := customer_group s p existing (ev_tenantId e) customerId;
     oh_seller := default "UNASSIGNED" (orElse (orElse (orElse (orElse (op_sellerStaffId p) (op_createdBy p)) (op_actorId p)) (ev_actor e))
       (match existing with Some o => of_seller o | None => None end));
     oh_status := rawStatus;
     oh_date := match existing with Some o => of_date o | None => toReportingDateBucket instant DEFAULT_REPORTING_TZ_OFFSET_MINUTES end; oh_instant := instant; oh_now := now |}.

(** [None]: the branch is not known, and the database refuses the row. *)
Definition processSalesOrderEvent (e : Envelope OrderPayload) (inferred : option string) (now : Z) (s : Insight) : option (Insight * Outcome) :=
  let p := ev_payload e in
  if String.eqb (op_orderId p) "" then Some (s, Skipped "MISSING_ORDER_ID")
  else
    let existing := orders (facts s) !! (ev_tenantId e, op_orderId p) in
    let rawStatus := raw_status p inferred in
    let statusRank := default 1 (ORDER_STATUS_RANK rawStatus) in
    let incomingVersion := default statusRank (op_aggregateVersion p) in
    match skip_reason existing e rawStatus incomingVersion statusRank with
    | Some reason => Some (s, Skipped reason)
    | None =>
        match orElse (op_branchId p) (option_map of_branch existing) with
        | None => None
        | Some branchId =>
            let h := order_head s e existing rawStatus branchId now in
            let existingLines := match existing with Some _ => lines_of s (ev_tenantId e) (op_orderId p) | None => [] end in
            let ls := resolve_lines s (ev_tenantId e) branchId p existingLines in
            let t := order_totals p existing ls in
            let s1 := write_order h e existing t (spread_discount t ls) incomingVersion s in
            Some (touchCheckpoint (ev_tenantId e) "sales_analytics" (ev_id e) (ev_type e) (ev_occurredAt e) now s1, Applied)
        end
    end.

(** ** Normalisation of order events *)

Definition with_cogs (share : number) (i : OrderItem) : OrderItem :=
  {| it_lineKey := it_lineKey i; it_variantId := it_variantId i; it_productId := it_productId i; it_sku := it_sku i; it_skuCode := it_skuCode i; it_name := it_name i;
     it_productName := it_productName i; it_categoryId := it_categoryId i; it_brandId := it_brandId i; it_quantity := it_quantity i; it_unitPrice := it_unitPrice i;
     it_discount := it_discount i; it_unitCost := it_unitCost i; it_cogsAmount := VNum share; it_costMissing := it_costMissing i |}.

Definition weight (i : OrderItem) : number := mathRound (nmul (to_num (it_quantity i)) (to_num (it_unitPrice i))).

(** The shares by weight; the last item takes what remains. *)
Fixpoint share_cost (costAmount total remaining : number) (items : list OrderItem) : list OrderItem :=
  match items with
  | [] => []
  | [i] => [with_cogs remaining i]
  | i :: items' =>
      let share := if nlt (int 0) total then mathRound (ndiv (nmul costAmount (weight i)) total) else int 0 in
      with_cogs share i :: share_cost costAmount total (nsub remaining share) items'
  end.

Definition with_items (channelType : option string) (items ls : option (list OrderItem)) (p : OrderPayload) : OrderPayload :=
  {| op_orderId := op_orderId p; op_branchId := op_branchId p; op_channelType := channelType; op_customerId := op_customerId p;
     op_customerGroupId := op_customerGroupId p; op_sellerStaffId := op_sellerStaffId p; op_createdBy := op_createdBy p; op_actorId := op_actorId p;
     op_orderStatus := op_orderStatus p; op_paymentStatus := op_paymentStatus p; op_fulfillmentStatus := op_fulfillmentStatus p; op_subtotal := op_subtotal p;
     op_discountTotal := op_discountTotal p; op_taxTotal := op_taxTotal p; op_grandTotal := op_grandTotal p; op_totalAmount := op_totalAmount p;
     op_occurredAt := op_occurredAt p; op_completedAt := op_completedAt p; op_aggregateVersion := op_aggregateVersion p; op_costMissing := op_costMissing p;
     op_items := items; op_lines := ls |}.

Definition normalizeOrderEvent (p : OrderPayload) (channel : option string) (costAmount : jsval) : OrderPayload :=
  let channelType := option_map toUpperCase (orElse (op_channelType p) channel) in
  let items := payload_items p in
  match costAmount with
  | VNum cost =>
      if isInteger cost && nle (int 0) cost && bool_decide (items <> []) && forallb (fun i => is_undefined (it_cogsAmount i) && is_undefined (it_unitCost i)) items then
        let withCost := share_cost cost (fold_left (fun a i => nadd a (weight i)) items (int 0)) cost items in
        match op_items p with Some _ => with_items channelType (Some withCost) (op_lines p) p | None => with_items channelType None (Some withCost) p end
      else with_items channelType (op_items p) (op_lines p) p
  | _ => with_items channelType (op_items p) (op_lines p) p
  end.

(** ** Costs that arrive late *)

Definition cogs_delta (cogs : string) : OrderContributionVector := {| ov_gmv := "0.0000"; ov_grossRevenue := "0.0000"; ov_discount := "0.0000"; ov_netRevenue := "0.0000";
  ov_cogs := cogs; ov_unitsSold := "0.0000"; ov_orderCount := 0; ov_completedCount := 0; ov_cancelledCount := 0 |}.

Definition costed_line (unitCost cogs profit : string) (l : LineFact) : LineFact :=
  {| lf_branch := lf_branch l; lf_channel := lf_channel l; lf_group := lf_group l; lf_seller := lf_seller l; lf_date := lf_date l; lf_variant := lf_variant l;
     lf_product := lf_product l; lf_sku := lf_sku l; lf_name := lf_name l; lf_category := lf_category l; lf_brand := lf_brand l; lf_quantity := lf_quantity l;
     lf_unitPrice := lf_unitPrice l; lf_subtotal := lf_subtotal l; lf_discount := lf_discount l; lf_net := lf_net l; lf_unitCost := to_bigint unitCost;
     lf_cogs := to_bigint cogs; lf_profit := to_bigint profit; lf_cost := VERIFIED; lf_cGross := lf_cGross l; lf_cDiscount := lf_cDiscount l; lf_cNet := lf_cNet l;
     lf_cCogs := if 0 <? lf_cUnits l then to_bigint cogs else 0; lf_cUnits := lf_cUnits l; lf_occurredAt := lf_occurredAt l |}.

Definition add_cogs (c : Z) (x : Contribution) : Contribution :=
  {| co_gmv := co_gmv x; co_gross := co_gross x; co_discount := co_discount x; co_net := co_net x; co_cogs := co_cogs x + c; co_units := co_units x;
     co_orders := co_orders x; co_completed := co_completed x; co_cancelled := co_cancelled x |}.

Definition costed_order (cogs contributed : string) (cost : CostStatus) (o : OrderFact) : OrderFact :=
  {| of_branch := of_branch o; of_channel := of_channel o; of_customer := of_customer o; of_group := of_group o; of_seller := of_seller o; of_status := of_status o;
     of_payment := of_payment o; of_fulfillment := of_fulfillment o; of_date := of_date o; of_subtotal := of_subtotal o; of_discount := of_discount o; of_tax := of_tax o;
     of_grand := of_grand o; of_cogs := of_cogs o + to_bigint cogs; of_units := of_units o; of_cost := cost;
     of_contributed := add_cogs (to_bigint contributed) (of_contributed o); of_version := of_version o; of_lastEvent := of_lastEvent o; of_occurredAt := of_occurredAt o;
     of_completedAt := of_completedAt o |}.

(** The line of key [k] is costed; [l] is the row as it was selected. *)
Definition cost_line (gens : list string) (unitCostStr : string) (s : Insight) (e : string * string * string * LineFact) : Insight :=
  let '(k, l) := e in
  let '(tenantId, orderId, key) := k in
  let newCogsStr := mulDecimals (VStr (of_numeric (lf_quantity l))) (VStr unitCostStr) 0 in
  let newGrossProfitStr := sub0 (of_bigint (lf_net l)) newCogsStr in
  let isCompletedContribution := 0 <? scaled (of_numeric (lf_cUnits l)) in
  let cogsDeltaStr := if isCompletedContribution then newCogsStr else "0" in
  let profitDeltaStr := if isCompletedContribution then sub0 "0" newCogsStr else "0" in
  let f1 := match lines (facts s) !! k with Some row => put_line k (costed_line unitCostStr newCogsStr newGrossProfitStr row) (facts s) | None => facts s end in
  let otherPending := existsb (fun x => String.eqb x.1.1.1 tenantId && String.eqb x.1.1.2 orderId && bool_decide (lf_cost x.2 = PENDING) && negb (bool_decide (x.1 = k)))
    (map_to_list (lines f1)) in
  let f2 := match orders f1 !! (tenantId, orderId) with
    | Some o => put_order (tenantId, orderId) (costed_order newCogsStr cogsDeltaStr (if otherPending then PENDING else VERIFIED) o) f1
    | None => f1
    end in
  let place g := {| pl_tenant := tenantId; pl_generation := g; pl_date := lf_date l; pl_branch := lf_branch l |} in
  with_books
    (if isCompletedContribution then
       for_generations gens (fun g b =>
         applyOrderDeltaToSummaries (place g) {| at_channel := lf_channel l; at_employee := default "UNASSIGNED" (lf_seller l); at_group := lf_group l |}
           (cogs_delta cogsDeltaStr) profitDeltaStr (-1)
           (applyProductSummaryDelta (place g)
             {| pr_variant := lf_variant l; pr_product := lf_product l; pr_sku := lf_sku l; pr_name := lf_name l; pr_category := lf_category l; pr_brand := lf_brand l |}
             {| pd_units := "0.0000"; pd_unitsReturned := "0.0000"; pd_gross := "0.0000"; pd_discount := "0.0000"; pd_returns := "0.0000"; pd_net := "0.0000";
                pd_cogs := cogsDeltaStr; pd_returnedCogs := "0.0000"; pd_profit := profitDeltaStr; pd_orders := 0; pd_pending := -1 |} b)) (books s)
     else books s)
    (with_facts f2 s).

Definition pending_lines (s : Insight) (tenantId skuCode : string) (orderId : option string) : list (string * string * string * LineFact) :=
  List.filter (fun e => String.eqb e.1.1.1 tenantId && String.eqb (lf_sku e.2) skuCode && bool_decide (lf_cost e.2 = PENDING) &&
    (negb (truthy orderId) || String.eqb e.1.1.2 (default "" orderId))) (map_to_list (lines (facts s))).

Definition resolvePendingOrderCosts (tenantId skuCode : string) (unitCost : jsval) (orderId : option string) (s : Insight) : Insight * Z :=
  let unitCostScaled := parseScaledDecimal unitCost in
  if unitCostScaled <=? 0 then (s, 0)
  else
    let pendingLines := pending_lines s tenantId skuCode orderId in
    (fold_left (cost_line (targetGenerations s tenantId) (formatScaledDecimal unitCostScaled 0)) pendingLines s, Z.of_nat (length pendingLines)).

(** ** Returns *)

Record ReturnPayload := { rp_returnId : string; rp_orderId : string; rp_branchId : option string; rp_customerId : option string; rp_customerGroupId : option string;
  rp_sellerStaffId : option string; rp_channelType : option string; rp_totalRefundAmount : jsval; rp_restocked : option bool; rp_occurredAt : option Z;
  rp_items : option (list ReturnLine); rp_lines : option (list ReturnLine) }.

(** The last line of each SKU wins in the [Map]. *)
Definition line_by_sku (skuCode : string) (ls : list (string * LineFact)) : option LineFact :=
  option_map snd (List.find (fun e => String.eqb (lf_sku e.2) skuCode) (rev ls)).

Definition return_ref (skuCode : string) (orig : option LineFact) : ProductRef :=
  match orig with
  | Some l => {| pr_variant := lf_variant l; pr_product := lf_product l; pr_sku := skuCode; pr_name := lf_name l; pr_category := lf_category l; pr_brand := lf_brand l |}
  | None => {| pr_variant := skuCode; pr_product := None; pr_sku := skuCode; pr_name := skuCode; pr_category := None; pr_brand := None |}
  end.

Definition return_product (units refund cogs : string) : ProductDelta :=
  {| pd_units := "0.0000"; pd_unitsReturned := units; pd_gross := "0"; pd_discount := "0"; pd_returns := refund; pd_net := sub0 "0" refund; pd_cogs := "0";
     pd_returnedCogs := cogs; pd_profit := sub0 cogs refund; pd_orders := 0; pd_pending := 0 |}.

(** What a returned line writes: the SKU's row, its units and its cost, scaled. *)
Record ReturnWrite := { rw_ref : ProductRef; rw_delta : ProductDelta; rw_units : Z; rw_cogs : Z }.

Definition return_sku (r : ReturnLine) : string := default "SKU-DEFAULT" (orElse (orElse (re_skuCode r) (re_sku r)) (re_variantId r)).

Definition return_line (orderLines : list (string * LineFact)) (refundAmountStr : string) (restocked : bool) (r : ReturnLine) : ReturnWrite :=
  let skuCode := return_sku r in
  let orig := line_by_sku skuCode orderLines in
  let qtyStr := formatScaledDecimal (parseScaledDecimal (re_quantity r)) 4 in
  let unitCostStr :=
    if negb (is_undefined (re_unitCost r)) then formatScaledDecimal (parseScaledDecimal (re_unitCost r)) 0
    else match orig with Some l => of_bigint (lf_unitCost l) | None => "0" end in
  let lineReturnedCogsStr := if default restocked (re_restocked r) then mulDecimals (VStr qtyStr) (VStr unitCostStr) 0 else "0" in
  let lineRefundStr :=
    if negb (is_undefined (re_refundAmount r)) then formatScaledDecimal (parseScaledDecimal (re_refundAmount r)) 0
    else match orig with
         | Some l => mulDecimals (VStr qtyStr) (VStr (divDecimals (VStr (of_bigint (lf_net l))) (VStr (of_numeric (lf_quantity l))) 4)) 0
         | None => refundAmountStr
         end in
  {| rw_ref := return_ref skuCode orig; rw_delta := return_product qtyStr lineRefundStr lineReturnedCogsStr; rw_units := scaled qtyStr; rw_cogs := scaled lineReturnedCogsStr |}.

(** A return without lines takes its share of every line of the order. *)
Definition proportional_line (o : OrderFact) (refundAmountStr : string) (restocked : bool) (e : string * LineFact) : ReturnWrite :=
  let l := e.2 in
  let orderNetScaled := scaled (sub0 (of_bigint (of_subtotal o)) (of_bigint (of_discount o))) in
  let refundScaled := scaled refundAmountStr in
  let ratioNum := if 0 <? orderNetScaled then refundScaled else DECIMAL_SCALE in
  let ratioDen := if 0 <? orderNetScaled then orderNetScaled else DECIMAL_SCALE in
  let lineRefundScaled := if 0 <? orderNetScaled then Z.quot (refundScaled * scaled (of_bigint (lf_net l))) orderNetScaled else refundScaled in
  let lineUnitsScaled := Z.quot (scaled (of_numeric (lf_quantity l)) * ratioNum) ratioDen in
  let lineCogsScaled := if restocked then Z.quot (scaled (of_bigint (lf_cogs l)) * ratioNum) ratioDen else 0 in
  let lineCogsStr := formatScaledDecimal lineCogsScaled 0 in
  {| rw_ref := {| pr_variant := lf_variant l; pr_product := lf_product l; pr_sku := lf_sku l; pr_name := lf_name l; pr_category := lf_category l; pr_brand := lf_brand l |};
     rw_delta := return_product (formatScaledDecimal lineUnitsScaled 4) (formatScaledDecimal lineRefundScaled 0) lineCogsStr; rw_units := lineUnitsScaled;
     rw_cogs := scaled lineCogsStr |}.

Definition return_writes (raw : list ReturnLine) (orderLines : list (string * LineFact)) (order : option OrderFact) (refundAmountStr : string) (restocked : bool)
    : list ReturnWrite :=
  match raw with
  | [] => match order with Some o => map (proportional_line o refundAmountStr restocked) orderLines | None => [] end
  | _ => map (return_line orderLines refundAmountStr restocked) raw
  end.

(** A return whose lines are not known counts one unit. *)
Definition returned_units (raw : list ReturnLine) (orderLines : list (string * LineFact)) (order : option OrderFact) (ws : list ReturnWrite) : Z :=
  match raw, orderLines, order with [], [], _ | [], _, None => parseScaledDecimal (VNum (int 1)) | _, _, _ => total rw_units ws end.

Definition return_delta (refund units cogs : string) : ReturnDelta :=
  {| rd_refund := refund; rd_net := sub0 "0" refund; rd_cogs := cogs; rd_profit := sub0 cogs refund; rd_units := units |}.

Definition write_return (gens : list string) (tenantId : string) (f : ReturnFact) (ws : list ReturnWrite) (d : ReturnDelta) (b : Books) : Books :=
  let place g := {| pl_tenant := tenantId; pl_generation := g; pl_date := rf_date f; pl_branch := rf_branch f |} in
  let b1 := fold_left (fun b w => for_generations gens (fun g => applyProductSummaryDelta (place g) (rw_ref w) (rw_delta w)) b) ws b in
  for_generations gens (fun g => applyReturnDeltaToSummaries (place g) {| at_channel := rf_channel f; at_employee := rf_seller f; at_group := rf_group f |} d) b1.

Definition processSalesReturnCompleted (e : Envelope ReturnPayload) (now : Z) (s : Insight) : option (Insight * Outcome) :=
  let p := ev_payload e in
  let tenantId := ev_tenantId e in
  if String.eqb (rp_returnId p) "" then Some (s, Skipped "MISSING_RETURN_ID")
  else if bool_decide (is_Some (returns (facts s) !! (tenantId, rp_returnId p))) then Some (s, Skipped "DUPLICATE_RETURN")
  else
    let order := orders (facts s) !! (tenantId, rp_orderId p) in
    let orderLines := lines_of s tenantId (rp_orderId p) in
    match orElse (rp_branchId p) (option_map of_branch order) with
    | None => None
    | Some branchId =>
        let at_ := default now (orElse (rp_occurredAt p) (ev_occurredAt e)) in
        let refundAmountStr := formatScaledDecimal (parseScaledDecimal (rp_totalRefundAmount p)) 0 in
        let restocked := default true (rp_restocked p) in
        let raw := default [] (orElse (rp_items p) (rp_lines p)) in
        let ws := return_writes raw orderLines order refundAmountStr restocked in
        let returnedUnitsStr := formatScaledDecimal (returned_units raw orderLines order ws) 4 in
        let returnedCogsStr := formatScaledDecimal (total rw_cogs ws) 0 in
        let f := {| rf_order := rp_orderId p; rf_branch := branchId; rf_channel := toUpperCase (default "POS" (orElse (rp_channelType p) (option_map of_channel order)));
          rf_customer := orElse (rp_customerId p) (match order with Some o => of_customer o | None => None end);
          rf_group := default "WALK_IN" (orElse (rp_customerGroupId p) (option_map of_group order));
          rf_seller := default "UNASSIGNED" (orElse (rp_sellerStaffId p) (match order with Some o => of_seller o | None => None end));
          rf_date := toReportingDateBucket at_ DEFAULT_REPORTING_TZ_OFFSET_MINUTES; rf_refund := to_bigint refundAmountStr; rf_units := to_numeric returnedUnitsStr;
          rf_cogs := to_bigint returnedCogsStr; rf_restocked := restocked; rf_lines := raw; rf_lastEvent := ev_id e; rf_occurredAt := at_ |} in
        let s1 := with_facts (put_return (tenantId, rp_returnId p) f (facts s)) s in
        let s2 := with_books (write_return (targetGenerations s tenantId) tenantId f ws (return_delta refundAmountStr returnedUnitsStr returnedCogsStr) (books s1)) s1 in
        Some (touchCheckpoint tenantId "sales_analytics" (ev_id e) (ev_type e) (ev_occurredAt e) now s2, Applied)
    end.

(** ** Cash and debts collected *)

Inductive CashKind := CASHBOOK | RECEIVABLE_PAYMENT.
Record CashPayload := { ca_branchId : option string; ca_expense : bool; ca_amount : jsval; ca_paidAmount : jsval; ca_paymentDelta : jsval; ca_occurredAt : option Z }.

Definition add_cash (cashIn cashOut debt : Z) (r : Daily) : Daily :=
  {| da_gmv := da_gmv r; da_gross := da_gross r; da_discount := da_discount r; da_returns := da_returns r; da_net := da_net r; da_cogs := da_cogs r;
     da_returnedCogs := da_returnedCogs r; da_netCogs := da_netCogs r; da_profit := da_profit r; da_orders := da_orders r; da_completed := da_completed r;
     da_cancelled := da_cancelled r; da_returnCount := da_returnCount r; da_units := da_units r; da_unitsReturned := da_unitsReturned r; da_pending := da_pending r;
     da_cashIn := da_cashIn r + cashIn; da_cashOut := da_cashOut r + cashOut; da_debt := da_debt r + debt; da_version := da_version r + 1 |}.

Definition applyCash (p : Place) (cashIn cashOut debt : Z) (b : Books) : Books :=
  {| daily := upsert (day_of p) daily_zero (add_cash cashIn cashOut debt) (daily b); channels := channels b; employees := employees b; groups := groups b;
     products := products b |}.

Definition processFinanceCashOrReceivableEvent (e : Envelope CashPayload) (kind : CashKind) (now : Z) (s : Insight) : Insight :=
  let p := ev_payload e in
  if negb (truthy (ca_branchId p)) then s
  else
    let date := toReportingDateBucket (default now (orElse (ca_occurredAt p) (ev_occurredAt e))) DEFAULT_REPORTING_TZ_OFFSET_MINUTES in
    let zero := VNum (int 0) in
    let '(cashIn, cashOut, debt) :=
      match kind with
      | RECEIVABLE_PAYMENT => ("0", "0", wm (coalesce (coalesce (coalesce (ca_paymentDelta p) (ca_paidAmount p)) (ca_amount p)) zero))
      | CASHBOOK => let amt := wm (coalesce (ca_amount p) zero) in if ca_expense p then ("0", amt, "0") else (amt, "0", "0")
      end in
    with_books (for_generations (targetGenerations s (ev_tenantId e)) (fun g =>
      applyCash {| pl_tenant := ev_tenantId e; pl_generation := g; pl_date := date; pl_branch := default "" (ca_branchId p) |}
        (to_bigint cashIn) (to_bigint cashOut) (to_bigint debt)) (books s)) s.

(** ** Rebuilding a generation from the facts *)

Record RebuildInput := { rb_projectionName : string; rb_fromDate : option Z; rb_toDate : option Z; rb_simulateFailure : bool }.

(** Days of the window, and the days before and after it. *)
Definition in_window (i : RebuildInput) (d : Z) : bool :=
  match rb_fromDate i with Some f => f <=? d | None => true end && match rb_toDate i with Some t => d <=? t | None => true end.
Definition outside (i : RebuildInput) (d : Z) : bool :=
  match rb_fromDate i with Some f => d <? f | None => false end || match rb_toDate i with Some t => t <? d | None => false end.

(** The header row is committed before the rebuild starts: from then on events are
    written to the new generation too. *)
Definition beginRebuild (tenantId rebuildId newGenerationId : string) (i : RebuildInput) (s : Insight) : Insight :=
  with_generations (generations s ++ [{| ge_id := rebuildId; ge_tenant := tenantId; ge_projection := rb_projectionName i; ge_generation := newGenerationId;
    ge_previous := activeGeneration s tenantId (rb_projectionName i); ge_status := BUILDING; ge_from := rb_fromDate i; ge_to := rb_toDate i; ge_orders := 0; ge_returns := 0 |}]) s.

(** A key of a table of summaries: where it stands, and the same place in another
    generation. *)
Class Keyed (K : Type) := { k_tenant : K -> string; k_generation : K -> string; k_date : K -> Z; in_generation : string -> K -> K }.
#[export] Instance day_keyed : Keyed day_key := {| k_tenant := fun k => k.1.1.1; k_generation := fun k => k.1.1.2; k_date := fun k => k.1.2;
  in_generation := fun g k => (k.1.1.1, g, k.1.2, k.2) |}.
#[export] Instance slice_keyed : Keyed slice_key := {| k_tenant := fun k => k.1.1.1.1; k_generation := fun k => k.1.1.1.2; k_date := fun k => k.1.1.2;
  in_generation := fun g k => (k.1.1.1.1, g, k.1.1.2, k.1.2, k.2) |}.

(** [INSERT ... SELECT ... ON CONFLICT DO NOTHING] of the rows outside the window. *)
Definition copy_row {K A} `{Countable K, !Keyed K} (tenantId prev new : string) (i : RebuildInput) (acc : gmap K A) (e : K * A) : gmap K A :=
  if String.eqb (k_tenant e.1) tenantId && String.eqb (k_generation e.1) prev && outside i (k_date e.1) then
    match acc !! in_generation new e.1 with Some _ => acc | None => <[in_generation new e.1 := e.2]> acc end
  else acc.
Definition copy_outside {K A} `{Countable K, !Keyed K} (tenantId prev new : string) (i : RebuildInput) (m : gmap K A) : gmap K A :=
  fold_left (copy_row tenantId prev new i) (map_to_list m) m.

Definition clear_window {K A} `{Countable K, !Keyed K} (tenantId new : string) (i : RebuildInput) (m : gmap K A) : gmap K A :=
  filter (fun e => (String.eqb (k_tenant e.1) tenantId && String.eqb (k_generation e.1) new && in_window i (k_date e.1)) = false) m.

(** Both, for the five tables. *)
Definition prepare_books (tenantId prev new : string) (i : RebuildInput) (b : Books) : Books :=
  {| daily := clear_window tenantId new i (copy_outside tenantId prev new i (daily b)); channels := clear_window tenantId new i (copy_outside tenantId prev new i (channels b));
     employees := clear_window tenantId new i (copy_outside tenantId prev new i (employees b));
     groups := clear_window tenantId new i (copy_outside tenantId prev new i (groups b));
     products := clear_window tenantId new i (copy_outside tenantId prev new i (products b)) |}.

(** [ORDER BY "date_bucket", "occurred_at"]. *)
Definition order_fact_order (a b : string * OrderFact) : Z := let d := of_date a.2 - of_date b.2 in if d =? 0 then of_occurredAt a.2 - of_occurredAt b.2 else d.
Definition return_fact_order (a b : ReturnFact) : Z := let d := rf_date a - rf_date b in if d =? 0 then rf_occurredAt a - rf_occurredAt b else d.

Definition window_orders (tenantId : string) (i : RebuildInput) (f : Facts) : list (string * OrderFact) :=
  sort_by order_fact_order (map (fun e => (e.1.2, e.2)) (List.filter (fun e => String.eqb e.1.1 tenantId && in_window i (of_date e.2)) (map_to_list (orders f)))).
Definition window_returns (tenantId : string) (i : RebuildInput) (f : Facts) : list ReturnFact :=
  sort_by return_fact_order (map snd (List.filter (fun e => String.eqb e.1.1 tenantId && in_window i (rf_date e.2)) (map_to_list (returns f)))).
Definition window_lines (s : Insight) (tenantId orderId : string) (i : RebuildInput) : list (string * LineFact) :=
  List.filter (fun e => in_window i (lf_date e.2)) (lines_of s tenantId orderId).

Definition stored_target (o : OrderFact) : OrderContributionVector :=
  computeTargetOrderContribution {| ti_status := toUpperCase (of_status o); ti_subtotal := VStr (of_bigint (of_subtotal o));
    ti_discountTotal := Some (VStr (of_bigint (of_discount o))); ti_cogsTotal := Some (VStr (of_bigint (of_cogs o))); ti_unitsTotal := Some (VStr (of_numeric (of_units o))) |}.

Definition replay_line (p : Place) (b : Books) (e : string * LineFact) : Books :=
  let l := e.2 in
  applyProductSummaryDelta p
    {| pr_variant := lf_variant l; pr_product := lf_product l; pr_sku := lf_sku l; pr_name := lf_name l; pr_category := lf_category l; pr_brand := lf_brand l |}
    {| pd_units := of_numeric (lf_quantity l); pd_unitsReturned := "0.0000"; pd_gross := of_bigint (lf_subtotal l); pd_discount := of_bigint (lf_discount l);
       pd_returns := "0.0000"; pd_net := of_bigint (lf_net l); pd_cogs := of_bigint (lf_cogs l); pd_returnedCogs := "0.0000";
       pd_profit := sub0 (of_bigint (lf_net l)) (of_bigint (lf_cogs l)); pd_orders := 1; pd_pending := if bool_decide (lf_cost l = PENDING) then 1 else 0 |} b.

Definition replay_order (s : Insight) (tenantId new : string) (i : RebuildInput) (b : Books) (e : string * OrderFact) : Books :=
  let o := e.2 in
  let completed := is_completed (toUpperCase (of_status o)) in
  let ls := window_lines s tenantId e.1 i in
  let p := {| pl_tenant := tenantId; pl_generation := new; pl_date := of_date o; pl_branch := of_branch o |} in
  let b1 := if completed then fold_left (replay_line p) ls b else b in
  let pendingLinesCount := if completed then Z.of_nat (length (List.filter (fun l => bool_decide (lf_cost l.2 = PENDING)) ls)) else 0 in
  let c := stored_target o in
  applyOrderDeltaToSummaries p {| at_channel := of_channel o; at_employee := default "UNASSIGNED" (of_seller o); at_group := of_group o |} c
    (sub0 (ov_netRevenue c) (ov_cogs c)) pendingLinesCount b1.

Definition replay_return_line (p : Place) (r : ReturnFact) (orderLines : list (string * LineFact)) (b : Books) (rl : ReturnLine) : Books :=
  let skuCode := return_sku rl in
  let orig := line_by_sku skuCode orderLines in
  let qtyStr := formatScaledDecimal (parseScaledDecimal (coalesce (re_quantity rl) (VNum (int 1)))) 4 in
  let unitCostStr :=
    if negb (is_undefined (re_unitCost rl)) then formatScaledDecimal (parseScaledDecimal (re_unitCost rl)) 0
    else match orig with Some l => of_bigint (lf_unitCost l) | None => "0" end in
  let lineCogsStr := if rf_restocked r then formatScaledDecimal (Z.quot (scaled qtyStr * scaled unitCostStr) DECIMAL_SCALE) 0 else "0" in
  let lineRefundStr := if negb (is_undefined (re_refundAmount rl)) then formatScaledDecimal (parseScaledDecimal (re_refundAmount rl)) 0 else of_bigint (rf_refund r) in
  applyProductSummaryDelta p (return_ref skuCode orig) (return_product qtyStr lineRefundStr lineCogsStr) b.

Definition replay_return (s : Insight) (tenantId new : string) (i : RebuildInput) (b : Books) (r : ReturnFact) : Books :=
  let orderLines := window_lines s tenantId (rf_order r) i in
  let p := {| pl_tenant := tenantId; pl_generation := new; pl_date := rf_date r; pl_branch := rf_branch r |} in
  let refund := of_bigint (rf_refund r) in
  let units := of_numeric (rf_units r) in
  let cogs := of_bigint (rf_cogs r) in
  let b1 :=
    match rf_lines r, orderLines with
    | [], [e] => applyProductSummaryDelta p (return_ref (lf_sku e.2) (Some e.2)) (return_product units refund cogs) b
    | [], _ => b
    | rls, _ => fold_left (replay_return_line p r orderLines) rls b
    end in
  applyReturnDeltaToSummaries p {| at_channel := rf_channel r; at_employee := rf_seller r; at_group := rf_group r |} (return_delta refund units cogs) b1.

Definition set_generation_status (p : Generation -> bool) (st : GenerationStatus) (replayedOrders replayedReturns : option Z) (g : Generation) : Generation :=
  if p g then {| ge_id := ge_id g; ge_tenant := ge_tenant g; ge_projection := ge_projection g; ge_generation := ge_generation g; ge_previous := ge_previous g; ge_status := st;
    ge_from := ge_from g; ge_to := ge_to g; ge_orders := default (ge_orders g) replayedOrders; ge_returns := default (ge_returns g) replayedReturns |} else g.

Definition cut_over (tenantId projectionName new : string) (replayed now : Z) (s : Insight) : Insight :=
  with_checkpoints (<[(tenantId, projectionName) :=
    match checkpoints s !! (tenantId, projectionName) with
    | None => {| cp_active := new; cp_lastEvent := None; cp_lastType := None; cp_lastOccurred := None; cp_lastProcessed := now; cp_version := 1; cp_count := replayed |}
    | Some c => {| cp_active := new; cp_lastEvent := cp_lastEvent c; cp_lastType := cp_lastType c; cp_lastOccurred := cp_lastOccurred c; cp_lastProcessed := now;
        cp_version := cp_version c + 1; cp_count := cp_count c |}
    end]> (checkpoints s)) s.

(** The replay of the facts of the window, onto the tables as they are then. *)
Definition replay_books (tenantId new : string) (i : RebuildInput) (s : Insight) (b : Books) : Books :=
  fold_left (replay_return s tenantId new i) (window_returns tenantId i (facts s))
    (fold_left (replay_order s tenantId new i) (window_orders tenantId i (facts s)) b).

(** The transaction of the rebuild, with no event in between; [prev] was the active
    generation when it began.  When the transaction fails nothing of it stays and the
    generation is marked. *)
Definition finishRebuild (tenantId rebuildId prev new : string) (i : RebuildInput) (now : Z) (s : Insight) : Insight :=
  if rb_simulateFailure i then with_generations (map (set_generation_status (fun g => String.eqb (ge_id g) rebuildId) FAILED None None) (generations s)) s
  else
    let os := window_orders tenantId i (facts s) in
    let rs := window_returns tenantId i (facts s) in
    let b := replay_books tenantId new i s (prepare_books tenantId prev new i (books s)) in
    let s1 := cut_over tenantId (rb_projectionName i) new (Z.of_nat (length os + length rs)) now (with_books b s) in
    let superseded g := String.eqb (ge_tenant g) tenantId && String.eqb (ge_projection g) (rb_projectionName i) && String.eqb (ge_generation g) prev &&
      negb (String.eqb (ge_id g) rebuildId) in
    let gs := map (set_generation_status superseded SUPERSEDED None None) (generations s1) in
    with_generations (map (set_generation_status (fun g => String.eqb (ge_id g) rebuildId) ACTIVE (Some (Z.of_nat (length os))) (Some (Z.of_nat (length rs)))) gs) s1.
