(* ===== verification/InsightBooks.v ===== *)
(** * The reports agree with the facts

    For the daily sales figures of the reports ([InsightProjections]): after any sequence
    of order, return, cost and cash events, and of rebuilds, processed one at a time, the
    figures of the active generation are the sums over the recorded orders and returns,
    so that a rebuild changes none of them.  What a rebuild does lose is stated at the
    end. *)

From S2P Require Import Prelude JsNumber JsString InsightDomain InsightProjections.
From Stdlib Require Import Ascii.

Open Scope Z_scope.

(** ** Texts of columns *)

#[local] Arguments of_bigint : simpl never.
#[local] Arguments of_numeric : simpl never.
#[local] Arguments to_bigint : simpl never.
#[local] Arguments to_numeric : simpl never.
#[local] Arguments scaled : simpl never.
#[local] Arguments wm : simpl never.
#[local] Arguments sub0 : simpl never.

Lemma scaled_of_bigint z : scaled (of_bigint z) = z * DECIMAL_SCALE.
Proof. apply parse_whole. Qed.

Lemma scaled_of_numeric z : scaled (of_numeric z) = z.
Proof. apply parse_format_4. Qed.

Lemma to_of_bigint z : to_bigint (of_bigint z) = z.
Proof. unfold to_bigint, of_bigint. rewrite parse_whole. by apply Z.div_mul. Qed.

Lemma to_of_numeric z : to_numeric (of_numeric z) = z.
Proof. apply parse_format_4. Qed.

Lemma format_of_bigint z : formatScaledDecimal z 0 = of_bigint (whole z).
Proof. apply format_whole. Qed.

Lemma format_scaled_bigint z : formatScaledDecimal (z * DECIMAL_SCALE) 0 = of_bigint z.
Proof. apply format_whole_scaled. Qed.

Lemma wm_of_bigint z : wm (VStr (of_bigint z)) = of_bigint z.
Proof. unfold wm. change (parseScaledDecimal (VStr (of_bigint z))) with (scaled (of_bigint z)). by rewrite scaled_of_bigint, format_scaled_bigint. Qed.

Lemma sub0_of_bigint a b : sub0 (of_bigint a) (of_bigint b) = of_bigint (a - b).
Proof.
  unfold sub0, subDecimals. change (parseScaledDecimal (VStr ?x)) with (scaled x). rewrite !scaled_of_bigint, <- Z.mul_sub_distr_r. apply format_scaled_bigint.
Qed.

Lemma wm_is_bigint v : exists z, wm v = of_bigint z.
Proof. eexists. apply format_of_bigint. Qed.

Create Rewrite HintDb text.
#[local] Hint Rewrite scaled_of_bigint scaled_of_numeric to_of_bigint to_of_numeric wm_of_bigint sub0_of_bigint : text.

Lemma of_bigint_0 : of_bigint 0 = "0".
Proof. reflexivity. Qed.

Definition sub_contribution (a b : Contribution) : Contribution :=
  {| co_gmv := co_gmv a - co_gmv b; co_gross := co_gross a - co_gross b; co_discount := co_discount a - co_discount b; co_net := co_net a - co_net b;
     co_cogs := co_cogs a - co_cogs b; co_units := co_units a - co_units b; co_orders := co_orders a - co_orders b; co_completed := co_completed a - co_completed b;
     co_cancelled := co_cancelled a - co_cancelled b |}.
Definition no_contribution : Contribution := {| co_gmv := 0; co_gross := 0; co_discount := 0; co_net := 0; co_cogs := 0; co_units := 0; co_orders := 0; co_completed := 0;
  co_cancelled := 0 |}.

Lemma row_of_text x : contribution_row (contribution_text x) = x.
Proof. destruct x. unfold contribution_row, contribution_text. cbn. by autorewrite with text. Qed.

(** A target holds the texts of its columns. *)
Lemma target_text i : exists x, computeTargetOrderContribution i = contribution_text x.
Proof.
  unfold computeTargetOrderContribution, zero_money, zero_units. cbv zeta. rewrite !format_of_bigint.
  assert (E : forall g gr d n c u o co ca, exists x, {| ov_gmv := of_bigint g; ov_grossRevenue := of_bigint gr; ov_discount := of_bigint d; ov_netRevenue := of_bigint n;
    ov_cogs := of_bigint c; ov_unitsSold := formatScaledDecimal u 4; ov_orderCount := o; ov_completedCount := co; ov_cancelledCount := ca |} = contribution_text x).
  { intros. by exists {| co_gmv := g; co_gross := gr; co_discount := d; co_net := n; co_cogs := c; co_units := u; co_orders := o; co_completed := co; co_cancelled := ca |}. }
  repeat destruct (String.eqb _ _); apply E.
Qed.

Lemma target_row i : contribution_text (contribution_row (computeTargetOrderContribution i)) = computeTargetOrderContribution i.
Proof. destruct (target_text i) as [x ->]. by rewrite row_of_text. Qed.

Lemma delta_text x prev : computeOrderContributionDelta (contribution_text x) (option_map contribution_text prev) =
  contribution_text (sub_contribution x (default no_contribution prev)).
Proof.
  unfold computeOrderContributionDelta, scaled_of, count_of. change (parseScaledDecimal (VStr ?y)) with (scaled y).
  destruct prev as [y|]; cbn [option_map]; unfold contribution_text, sub_contribution;
    cbn [ov_gmv ov_grossRevenue ov_discount ov_netRevenue ov_cogs ov_unitsSold ov_orderCount ov_completedCount ov_cancelledCount default from_option id
         co_gmv co_gross co_discount co_net co_cogs co_units co_orders co_completed co_cancelled no_contribution]; autorewrite with text;
    rewrite <- ?Z.mul_sub_distr_r, ?Z.sub_0_r, ?format_scaled_bigint; done.
Qed.

Lemma zero_delta_eq x : isZeroContributionDelta (contribution_text x) = true -> x = no_contribution.
Proof.
  unfold isZeroContributionDelta. change (parseScaledDecimal (VStr ?y)) with (scaled y).
  destruct x. unfold contribution_text. cbn. autorewrite with text. rewrite !andb_true_iff, !Z.eqb_eq. unfold DECIMAL_SCALE.
  intros ((((((((H1 & H2) & H3) & H4) & H5) & H6) & H7) & H8) & H9). unfold no_contribution. f_equal; lia.
Qed.

(** ** Figures *)

Inductive Column := GMV | GROSS | DISCOUNT | RETURNS | NET | COGS | RETURNED_COGS | NET_COGS | PROFIT | ORDERS | COMPLETED | CANCELLED | RETURN_COUNT | UNITS | UNITS_RETURNED.

Definition daily_column (c : Column) (r : Daily) : Z :=
  match c with
  | GMV => da_gmv r | GROSS => da_gross r | DISCOUNT => da_discount r | RETURNS => da_returns r | NET => da_net r | COGS => da_cogs r | RETURNED_COGS => da_returnedCogs r
  | NET_COGS => da_netCogs r | PROFIT => da_profit r | ORDERS => da_orders r | COMPLETED => da_completed r | CANCELLED => da_cancelled r | RETURN_COUNT => da_returnCount r
  | UNITS => da_units r | UNITS_RETURNED => da_unitsReturned r
  end.

(** What an order and a return are to each figure. *)
Definition order_column (c : Column) (x : Contribution) : Z :=
  match c with
  | GMV => co_gmv x | GROSS => co_gross x | DISCOUNT => co_discount x | NET => co_net x | COGS | NET_COGS => co_cogs x | PROFIT => co_net x - co_cogs x
  | ORDERS => co_orders x | COMPLETED => co_completed x | CANCELLED => co_cancelled x | UNITS => co_units x | RETURNS | RETURNED_COGS | RETURN_COUNT | UNITS_RETURNED => 0
  end.
Definition return_column (c : Column) (r : ReturnFact) : Z :=
  match c with
  | RETURNS => rf_refund r | NET => - rf_refund r | RETURNED_COGS => rf_cogs r | NET_COGS => - rf_cogs r | PROFIT => rf_cogs r - rf_refund r | RETURN_COUNT => 1
  | UNITS_RETURNED => rf_units r | _ => 0
  end.

Definition dview (b : Books) (k : day_key) (c : Column) : Z := daily_column c (default daily_zero (daily b !! k)).
Definition figure (s : Insight) (tenantId generation : string) (date : Z) (branch : string) (c : Column) : Z := dview (books s) (tenantId, generation, date, branch) c.
Definition active (s : Insight) (tenantId : string) : string := activeGeneration s tenantId "sales_analytics".

(** The sums over the recorded orders and returns. *)
Definition ksum {K A} `{Countable K} (f : K -> A -> Z) (m : gmap K A) : Z := total (fun e => f e.1 e.2) (map_to_list m).

Definition here {A} (date : A -> Z) (branch : A -> string) (f : A -> Z) (t : string) (d : Z) (b : string) (k : string * string) (x : A) : Z :=
  if String.eqb k.1 t && (date x =? d) && String.eqb (branch x) b then f x else 0.
Definition order_here (t : string) (d : Z) (b : string) (c : Column) : string * string -> OrderFact -> Z :=
  here of_date of_branch (fun o => order_column c (of_contributed o)) t d b.
Definition return_here (t : string) (d : Z) (b : string) (c : Column) : string * string -> ReturnFact -> Z := here rf_date rf_branch (return_column c) t d b.
Definition recorded (f : Facts) (t : string) (d : Z) (b : string) (c : Column) : Z := ksum (order_here t d b c) (orders f) + ksum (return_here t d b c) (returns f).

Section Ksum.
Context {K A : Type} `{Countable K}.

Lemma ksum_insert (f : K -> A -> Z) m k x : ksum f (<[k := x]> m) = ksum f m + f k x - match m !! k with Some y => f k y | None => 0 end.
Proof.
  assert (Hnew : forall m, m !! k = None -> ksum f (<[k := x]> m) = ksum f m + f k x).
  { intros m' Hm. unfold ksum. rewrite (total_perm _ _ _ (map_to_list_insert m' k x Hm)). unfold total. cbn. lia. }
  destruct (m !! k) as [y|] eqn:E; [|rewrite Hnew by done; lia].
  rewrite <- (insert_delete_eq m k x), Hnew by apply lookup_delete_eq. rewrite <- (insert_delete_id m k y E) at 2. unfold ksum.
  rewrite (total_perm _ _ _ (map_to_list_insert (delete k m) k y (lookup_delete_eq m k))). unfold total. cbn. lia.
Qed.

Lemma key_sum_ext (f g : K -> A -> Z) m : (forall k x, m !! k = Some x -> f k x = g k x) -> ksum f m = ksum g m.
Proof. intros Hf. unfold ksum, total. apply sumZ_map_ext. intros [k x] Hin%elem_of_map_to_list. by apply Hf. Qed.
End Ksum.

Lemma upsert_lookup {K A} `{Countable K} (k k' : K) (zero : A) f m :
  upsert k zero f m !! k' = if decide (k' = k) then Some (f (default zero (m !! k))) else m !! k'.
Proof. unfold upsert. destruct (decide (k' = k)) as [->|Hn]; [by rewrite lookup_insert_eq | by rewrite lookup_insert_ne]. Qed.

(** The delta of an order adds its columns to its day. *)
Lemma apply_order_view p a x pending b k c :
  dview (applyOrderDeltaToSummaries p a (contribution_text x) (of_bigint (co_net x - co_cogs x)) pending b) k c =
  dview b k c + if decide (k = day_of p) then order_column c x else 0.
Proof.
  unfold dview, applyOrderDeltaToSummaries. cbn [daily]. rewrite upsert_lookup. destruct (decide (k = day_of p)) as [->|]; [|lia]. cbn [default from_option].
  set (r := default daily_zero _). unfold add_daily, whole_delta, contribution_text. cbn [ov_gmv ov_grossRevenue ov_discount ov_netRevenue ov_cogs ov_unitsSold
    ov_orderCount ov_completedCount ov_cancelledCount]. autorewrite with text. destruct c; cbn; lia.
Qed.

Lemma apply_return_view p a f b k c :
  dview (applyReturnDeltaToSummaries p a (return_delta (of_bigint (rf_refund f)) (of_numeric (rf_units f)) (of_bigint (rf_cogs f))) b) k c =
  dview b k c + if decide (k = day_of p) then return_column c f else 0.
Proof.
  unfold dview, applyReturnDeltaToSummaries, return_delta. cbn [daily rd_refund rd_net rd_cogs rd_profit rd_units]. rewrite upsert_lookup.
  destruct (decide (k = day_of p)) as [->|]; [|lia]. cbn [default from_option]. set (r := default daily_zero _). rewrite <- of_bigint_0. autorewrite with text.
  unfold add_return_daily. destruct c; cbn; lia.
Qed.

(** Writes to several generations. *)
Lemma for_generations_view gens f (dl : string -> Z) b k c : (forall g b, dview (f g b) k c = dview b k c + dl g) ->
  dview (for_generations gens f b) k c = dview b k c + total dl gens.
Proof.
  intros Hf. unfold for_generations. revert b. induction gens as [|g gens IH]; intros b; cbn [fold_left]; [unfold total; cbn; lia|].
  rewrite IH, Hf. unfold total. cbn. lia.
Qed.

Lemma total_zero {A} (f : A -> Z) l : (forall x, x ∈ l -> f x = 0) -> total f l = 0.
Proof. induction l as [|x l IH]; intros H; [done|]. unfold total in *. cbn. rewrite IH by (intros y Hy; apply H; by right). rewrite (H x) by (by left). lia. Qed.

(** The active generation is written once, other tenants not at all. *)
Lemma target_once s t t' d d' br br' v : let place g := (t', g, d', br') : day_key in
  total (fun g => if decide ((t, active s t, d, br) = place g) then v else 0) (targetGenerations s t') = if decide (t = t' /\ d = d' /\ br = br') then v else 0.
Proof.
  intros place. unfold targetGenerations. fold (active s t'). unfold total. cbn [map sumZ]. fold (total (fun g => if decide ((t, active s t, d, br) = place g) then v else 0)
    (buildingGenerations s t' "sales_analytics")). rewrite total_zero; cycle 1.
  - intros g Hg. rewrite decide_False; [done|]. intros [= -> <- _ _]. unfold buildingGenerations in Hg. apply list_elem_of_In, filter_In in Hg as [_ Hg].
    unfold active in Hg. by rewrite String.eqb_refl in Hg.
  - unfold place. destruct (decide (t = t' /\ d = d' /\ br = br')) as [(-> & -> & ->)|Hn]; [by rewrite decide_True, Z.add_0_r by done|].
    rewrite decide_False; [done|]. intros [= -> _ -> ->]. by apply Hn.
Qed.

(** ** The invariant *)

(** The counted contribution of an order is that of its recorded totals; a line stands
    where its order stands and counts its units once the order is completed. *)
Definition order_ok (o : OrderFact) : Prop := of_contributed o = contribution_row (stored_target o) /\ toUpperCase (of_status o) = of_status o.
Definition line_ok (f : Facts) (k : string * string * string) (l : LineFact) : Prop :=
  exists o, orders f !! (k.1.1, k.1.2) = Some o /\ lf_branch l = of_branch o /\ lf_date l = of_date o /\ 0 <= lf_quantity l /\
    lf_cUnits l = if is_completed (of_status o) then lf_quantity l else 0.

Record facts_ok (f : Facts) : Prop := {
  fo_orders k o : orders f !! k = Some o -> order_ok o;
  fo_lines k l : lines f !! k = Some l -> line_ok f k l }.

Record sound (s : Insight) : Prop := {
  so_facts : facts_ok (facts s);
  so_figures t d b c : figure s t (active s t) d b c = recorded (facts s) t d b c }.

(** The product rows are in another table. *)
Lemma product_daily p r d b : daily (applyProductSummaryDelta p r d b) = daily b.
Proof. done. Qed.

Lemma products_daily gens f b : (forall g b, daily (f g b) = daily b) -> daily (for_generations gens f b) = daily b.
Proof. intros Hf. unfold for_generations. revert b. induction gens as [|g gens IH]; intros b; [done|]. cbn [fold_left]. by rewrite IH, Hf. Qed.

Lemma toUpperCase_idem s : toUpperCase (toUpperCase s) = toUpperCase s.
Proof.
  unfold toUpperCase. induction s as [|c s IH]; [done|]. cbn [smap]. rewrite IH. f_equal. unfold to_upper at 2 3.
  destruct ((97 <=? code c) && (code c <=? 122)) eqn:E; unfold to_upper.
  - apply andb_true_iff in E as [?%Z.leb_le ?%Z.leb_le]. rewrite code_char by lia. by replace (97 <=? code c - 32) with false by lia.
  - by rewrite E.
Qed.

(** *** The lines of an order event *)

Section WriteLines.
Variables (h : OrderHead) (gens : list string) (completedDelta : Z).

Lemma write_line_rest s l : daily (books (write_line h gens completedDelta s l)) = daily (books s) /\
  orders (facts (write_line h gens completedDelta s l)) = orders (facts s) /\ returns (facts (write_line h gens completedDelta s l)) = returns (facts s) /\
  checkpoints (write_line h gens completedDelta s l) = checkpoints s /\ generations (write_line h gens completedDelta s l) = generations s.
Proof.
  unfold write_line. cbv zeta. destruct (_ || _)%bool; destruct (is_completed _); cbn; rewrite ?products_daily by done; done.
Qed.

Lemma write_line_lines s l : lines (facts (write_line h gens completedDelta s l)) =
  <[(oh_tenant h, oh_order h, rl_key l) := line_fact h l (lines (facts s) !! (oh_tenant h, oh_order h, rl_key l))]> (lines (facts s)).
Proof. unfold write_line. cbv zeta. destruct (_ || _)%bool; destruct (is_completed _); done. Qed.

Lemma write_lines_rest ls s : let s' := fold_left (write_line h gens completedDelta) ls s in daily (books s') = daily (books s) /\
  orders (facts s') = orders (facts s) /\ returns (facts s') = returns (facts s) /\ checkpoints s' = checkpoints s /\ generations s' = generations s.
Proof.
  cbv zeta. revert s. induction ls as [|l ls IH]; intros s; [done|]. cbn [fold_left]. destruct (IH (write_line h gens completedDelta s l)) as (-> & -> & -> & -> & ->).
  apply write_line_rest.
Qed.

(** What a written line says of its place and its units. *)
Definition written (l : LineFact) : Prop := lf_branch l = oh_branch h /\ lf_date l = oh_date h /\ 0 <= lf_quantity l /\
  lf_cUnits l = if is_completed (oh_status h) then lf_quantity l else 0.
Definition placed (l : LineFact) : Prop := lf_branch l = oh_branch h /\ lf_date l = oh_date h.

Lemma line_fact_written l old : (forall o, old = Some o -> placed o) -> 0 <= to_numeric (rl_quantity l) -> written (line_fact h l old).
Proof.
  intros Ho Hq. unfold written, line_fact, line_target. cbn. split_and!; try done.
  - destruct old as [o|]; [by apply Ho | done].
  - destruct old as [o|]; [by apply Ho | done].
  - by destruct (is_completed _).
Qed.

Lemma write_lines_lines ls s : (forall key l, lines (facts s) !! (oh_tenant h, oh_order h, key) = Some l -> placed l) ->
  Forall (fun l => 0 <= to_numeric (rl_quantity l)) ls -> forall k l, lines (facts (fold_left (write_line h gens completedDelta) ls s)) !! k = Some l ->
  (k.1 = (oh_tenant h, oh_order h) /\ k.2 ∈ map rl_key ls /\ written l) \/ (lines (facts s) !! k = Some l /\ (k.1 = (oh_tenant h, oh_order h) -> k.2 ∉ map rl_key ls)).
Proof.
  intros Hp Hq. revert s Hp. induction ls as [|r ls IH]; intros s Hp k l Hk; [right; split; [done|]; intros _; apply not_elem_of_nil|].
  apply Forall_cons in Hq as [Hr Hq]. cbn [fold_left map] in *. apply IH in Hk; [|done|].
  - destruct Hk as [(E & Hin & Hw)|[Hk Hn]]; [left; split_and!; [done | by right | done]|]. rewrite write_line_lines in Hk.
    destruct (decide (k = (oh_tenant h, oh_order h, rl_key r))) as [->|Hne].
    + rewrite lookup_insert_eq in Hk. injection Hk as <-. left. split_and!; [done | by left |]. apply line_fact_written; [|done]. intros o Ho. by eapply Hp.
    + rewrite lookup_insert_ne in Hk by done. right. split; [done|]. intros E Hin. apply elem_of_cons in Hin as [E2|Hin]; [|by apply Hn].
      apply Hne. destruct k as [k1 k2]. cbn in *. by subst.
  - intros key l' Hl. rewrite write_line_lines in Hl. destruct (decide (key = rl_key r)) as [->|Hne].
    + rewrite lookup_insert_eq in Hl. injection Hl as <-. destruct (line_fact_written r (lines (facts s) !! (oh_tenant h, oh_order h, rl_key r))) as (? & ? & _);
        [intros o Ho; by eapply Hp | done | done].
    + rewrite lookup_insert_ne in Hl by congruence. by eapply Hp.
Qed.
End WriteLines.

(** *** An order event *)

Record totals_text (t : Totals) (a b c u : Z) : Prop := { tt_subtotal : to_subtotal t = of_bigint a; tt_discount : to_discount t = of_bigint b; tt_cogs : to_cogs t = of_bigint c;
  tt_units : to_units t = of_numeric u }.

Lemma order_totals_text p existing ls : exists a b c u, totals_text (order_totals p existing ls) a b c u.
Proof.
  assert (Hsub : exists a, to_subtotal (order_totals p existing ls) = of_bigint a).
  { unfold order_totals. cbn [to_subtotal]. rewrite ?format_of_bigint. destruct (negb _); [apply wm_is_bigint|]. destruct (0 <? _); [by eexists|]. destruct existing; [by eexists | apply wm_is_bigint]. }
  assert (Hdis : exists b, to_discount (order_totals p existing ls) = of_bigint b).
  { unfold order_totals. cbn [to_discount]. rewrite ?format_of_bigint. destruct (negb _); [apply wm_is_bigint|]. destruct (0 <? _); [by eexists|]. destruct existing; [by eexists | by exists 0]. }
  assert (Hcog : exists c, to_cogs (order_totals p existing ls) = of_bigint c).
  { unfold order_totals. cbn [to_cogs]. rewrite ?format_of_bigint. destruct ls; [destruct existing; [by eexists | by exists 0] | by eexists]. }
  assert (Hun : exists u, to_units (order_totals p existing ls) = of_numeric u).
  { unfold order_totals. cbn [to_units]. destruct ls; [destruct existing; [by eexists | by exists 10000] | by eexists]. }
  destruct Hsub as [a Ha], Hdis as [b Hb], Hcog as [c Hc], Hun as [u Hu]. exists a, b, c, u. by constructor.
Qed.

Lemma order_fact_ok h p existing t cost v i a b c u : totals_text t a b c u -> toUpperCase (oh_status h) = oh_status h ->
  order_ok (order_fact h p existing t (target_of (oh_status h) t) cost v i).
Proof.
  intros [Ha Hb Hc Hu] Hs. split; [|done]. unfold stored_target. cbn [of_contributed of_status of_subtotal of_discount of_cogs of_units order_fact].
  unfold target_of. rewrite Ha, Hb, Hc, Hu, Hs. by autorewrite with text.
Qed.

Lemma order_column_sub c x y : order_column c (sub_contribution x y) = order_column c x - order_column c y.
Proof. destruct c; cbn; lia. Qed.

Definition old_contribution (existing : option OrderFact) : Contribution := match existing with Some o => of_contributed o | None => no_contribution end.

Lemma order_column_none c : order_column c no_contribution = 0.
Proof. by destruct c. Qed.

(** The recorded sums after a new fact of an order that keeps its place. *)
Lemma recorded_put_order f t i o t' d b c : (forall o', orders f !! (t, i) = Some o' -> of_date o = of_date o' /\ of_branch o = of_branch o') ->
  recorded (put_order (t, i) o f) t' d b c = recorded f t' d b c +
    if decide (t' = t /\ d = of_date o /\ b = of_branch o) then order_column c (of_contributed o) - order_column c (old_contribution (orders f !! (t, i))) else 0.
Proof.
  intros Hp. unfold recorded, put_order. cbn [orders returns]. rewrite ksum_insert. unfold order_here at 2 3, here. cbn [fst].
  assert (Hd : (String.eqb t t' && (of_date o =? d) && String.eqb (of_branch o) b)%bool = bool_decide (t' = t /\ d = of_date o /\ b = of_branch o)).
  { apply eq_bool_prop_intro. rewrite bool_decide_spec. rewrite !andb_True. split.
    - intros [[E1%Is_true_true%String.eqb_eq E2%Is_true_true%Z.eqb_eq] E3%Is_true_true%String.eqb_eq]. done.
    - intros (-> & -> & ->). by rewrite !String.eqb_refl, Z.eqb_refl. }
  rewrite Hd. destruct (orders f !! (t, i)) as [o'|] eqn:E.
  - destruct (Hp o' eq_refl) as [<- <-]. rewrite Hd. cbn [old_contribution]. destruct (decide _); [rewrite bool_decide_true by done; lia | rewrite bool_decide_false by done; lia].
  - cbn [old_contribution]. rewrite order_column_none. destruct (decide _); [rewrite bool_decide_true by done; lia | rewrite bool_decide_false by done; lia].
Qed.

Section WriteOrder.
Variables (h : OrderHead) (e : Envelope OrderPayload) (t : Totals) (ls : list ResolvedLine) (v : Z) (s : Insight).
Let existing := orders (facts s) !! (oh_tenant h, oh_order h).
Let s' := write_order h e existing t ls v s.

Hypothesis Hs : sound s.
Hypothesis Hup : toUpperCase (oh_status h) = oh_status h.
Hypothesis Hplace : forall o, existing = Some o -> oh_branch h = of_branch o /\ oh_date h = of_date o.
Hypothesis Hall : forall key l, lines (facts s) !! (oh_tenant h, oh_order h, key) = Some l -> key ∈ map rl_key ls.
Hypothesis Hqty : Forall (fun l => 0 <= to_numeric (rl_quantity l)) ls.
Hypothesis Htext : exists a b c u, totals_text t a b c u.

Let target := target_of (oh_status h) t.
Let delta := computeOrderContributionDelta target (option_map (fun o => contribution_text (of_contributed o)) existing).
Let cost := if op_costMissing (ev_payload e) || existsb (fun l => bool_decide (rl_cost l = PENDING)) ls then PENDING else VERIFIED.
Let fact := order_fact h (ev_payload e) existing t target cost v (ev_id e).
Let s1 := with_facts (put_order (oh_tenant h, oh_order h) fact (facts s)) s.
Let s2 := fold_left (write_line h (targetGenerations s (oh_tenant h)) (ov_completedCount delta)) ls s1.

Lemma delta_is : delta = contribution_text (sub_contribution (contribution_row target) (old_contribution existing)).
Proof.
  unfold delta. rewrite <- (target_row _ : contribution_text (contribution_row target) = target).
  replace (option_map (fun o => contribution_text (of_contributed o)) existing) with (option_map contribution_text (option_map of_contributed existing)) by (by destruct existing).
  rewrite row_of_text, delta_text. by destruct existing.
Qed.

Lemma written_facts : facts s' = facts s2 /\ checkpoints s' = checkpoints s /\ generations s' = generations s.
Proof.
  unfold s', write_order. fold target. fold delta. fold cost. fold fact. fold s1. fold s2.
  destruct (write_lines_rest h (targetGenerations s (oh_tenant h)) (ov_completedCount delta) ls s1) as (_ & _ & _ & Hc & Hg). fold s2 in Hc, Hg.
  destruct (negb (isZeroContributionDelta delta) || _)%bool; done.
Qed.

Lemma written_figure k c : k.1.1.2 = active s k.1.1.1 -> dview (books s') k c = dview (books s) k c +
  if decide (k.1.1.1 = oh_tenant h /\ k.1.2 = oh_date h /\ k.2 = oh_branch h) then order_column c (contribution_row target) - order_column c (old_contribution existing) else 0.
Proof.
  intros Hk. destruct (write_lines_rest h (targetGenerations s (oh_tenant h)) (ov_completedCount delta) ls s1) as (Hd & _). fold s2 in Hd.
  assert (Hd2 : dview (books s2) k c = dview (books s) k c) by (unfold dview; by rewrite Hd).
  unfold s', write_order. fold target. fold delta. fold cost. fold fact. fold s1. fold s2. rewrite <- Hd2. destruct (negb (isZeroContributionDelta delta) || _)%bool eqn:Ez.
  - cbn [books with_books]. rewrite (for_generations_view _ _ (fun g => if decide (k = (oh_tenant h, g, oh_date h, oh_branch h)) then
      order_column c (sub_contribution (contribution_row target) (old_contribution existing)) else 0)); cycle 1.
    + intros g b. rewrite delta_is. cbn [ov_netRevenue ov_cogs contribution_text]. rewrite sub0_of_bigint. apply apply_order_view.
    + f_equal. destruct k as [[[t0 g0] d0] b0]. cbn in *. subst g0. rewrite target_once. by rewrite order_column_sub.
  - apply orb_false_iff in Ez as [Ez%negb_false_iff _]. rewrite delta_is in Ez. apply zero_delta_eq in Ez. rewrite <- order_column_sub, Ez, order_column_none.
    destruct (decide _); lia.
Qed.

Lemma written_lines_ok k l : lines (facts s') !! k = Some l -> line_ok (facts s') k l.
Proof.
  destruct written_facts as (Hf & _). rewrite Hf. destruct (write_lines_rest h (targetGenerations s (oh_tenant h)) (ov_completedCount delta) ls s1) as (_ & Ho & _). fold s2 in Ho.
  intros Hl. unfold line_ok. rewrite Ho. cbn [s1 facts with_facts put_order orders]. apply write_lines_lines in Hl; [|cycle 1|done].
  - destruct Hl as [(E & _ & Hb & Hd & Hq & Hu)|[Hl Hn]].
    + exists fact. destruct k as [[k1 k2] k3]. cbn in E. injection E as -> ->. cbn [fst snd]. rewrite lookup_insert_eq. split_and!; try done.
      rewrite Hd. unfold fact, order_fact. cbn. destruct existing as [o|] eqn:Eo; [by apply Hplace | done].
    + cbn [s1 facts with_facts put_order lines] in Hl. destruct (fo_lines _ (so_facts _ Hs) k l Hl) as (o & Eo & H). exists o. split; [|done].
      rewrite lookup_insert_ne; [done|]. intros E. destruct k as [[k1 k2] k3]. cbn in *. injection E as <- <-. apply Hn; [done|]. by eapply Hall.
  - intros key l' Hl'. cbn [s1 facts with_facts put_order lines] in Hl'. destruct (fo_lines _ (so_facts _ Hs) _ _ Hl') as (o & Eo & Hb & Hd & _). cbn in Eo.
    destruct (Hplace o Eo) as [E1 E2]. split; congruence.
Qed.

Lemma write_order_sound : sound s' /\ active s' = active s.
Proof.
  destruct written_facts as (Hf & Hc & Hg). assert (Ha : active s' = active s) by (unfold active, activeGeneration; by rewrite Hc). split; [|done].
  destruct (write_lines_rest h (targetGenerations s (oh_tenant h)) (ov_completedCount delta) ls s1) as (_ & Ho & Hr & _). fold s2 in Ho, Hr.
  assert (Hdate : of_date fact = oh_date h) by (unfold fact, order_fact; cbn; destruct existing as [o|] eqn:Eo; [symmetry; by apply Hplace | done]).
  constructor; [constructor|].
  - rewrite Hf, Ho. cbn [s1 facts with_facts put_order orders]. intros k o Hk. destruct (decide (k = (oh_tenant h, oh_order h))) as [->|Hn].
    + rewrite lookup_insert_eq in Hk. injection Hk as <-. destruct Htext as (a & b & c & u & Ht). by eapply order_fact_ok.
    + rewrite lookup_insert_ne in Hk by done. by eapply fo_orders; [apply so_facts|].
  - apply written_lines_ok.
  - intros t0 d0 b0 c0. unfold figure. rewrite Ha, written_figure by done. cbn [fst snd]. rewrite (so_figures _ Hs t0 d0 b0 c0 : dview _ _ _ = _).
    assert (Hrec : recorded (facts s') t0 d0 b0 c0 = recorded (put_order (oh_tenant h, oh_order h) fact (facts s)) t0 d0 b0 c0).
    { unfold recorded. rewrite Hf, Ho, Hr. done. }
    rewrite Hrec, recorded_put_order.
    + fold existing. rewrite Hdate. f_equal.
    + intros o Eo. rewrite Hdate. by destruct (Hplace o Eo) as [E1 E2].
Qed.
End WriteOrder.

(** An order stays at its branch, no recorded line is dropped by an event that carries
    items, and quantities are not negative. *)
Record event_ok (s : Insight) (e : Envelope OrderPayload) : Prop := {
  eo_branch o : orders (facts s) !! (ev_tenantId e, op_orderId (ev_payload e)) = Some o ->
    op_branchId (ev_payload e) = None \/ op_branchId (ev_payload e) = Some (of_branch o);
  eo_lines key l : payload_items (ev_payload e) <> [] -> lines (facts s) !! (ev_tenantId e, op_orderId (ev_payload e), key) = Some l ->
    key ∈ mapi item_key 0 (payload_items (ev_payload e));
  eo_qty : Forall (fun i => 0 <= parseScaledDecimal (it_quantity i)) (payload_items (ev_payload e)) }.

Lemma map_mapi {A B C} (g : B -> C) (f : Z -> A -> B) i l : map g (mapi f i l) = mapi (fun i x => g (f i x)) i l.
Proof. revert i. induction l as [|x l IH]; intros i; [done|]. cbn. by rewrite IH. Qed.

Lemma mapi_ext {A B} (f g : Z -> A -> B) i l : (forall i x, f i x = g i x) -> mapi f i l = mapi g i l.
Proof. intros H. revert i. induction l as [|x l IH]; intros i; [done|]. cbn. by rewrite H, IH. Qed.

Lemma Forall_mapi {A B} (P : B -> Prop) (f : Z -> A -> B) i l : Forall (fun x => forall i, P (f i x)) l -> Forall P (mapi f i l).
Proof. intros H. revert i. induction H as [|x l Hx _ IH]; intros i; constructor; auto. Qed.

Lemma lines_of_elem s t o key l : (key, l) ∈ lines_of s t o <-> lines (facts s) !! (t, o, key) = Some l.
Proof.
  unfold lines_of. rewrite sort_by_perm, list_elem_of_fmap. split.
  - intros ([[[t' o'] k'] l'] & [= -> ->] & [Hin [E1%String.eqb_eq E2%String.eqb_eq]%andb_true_iff]%list_elem_of_In%filter_In). cbn in E1, E2. subst.
    by apply elem_of_map_to_list, list_elem_of_In.
  - intros Hl. exists (t, o, key, l). split; [done|]. apply list_elem_of_In, filter_In. cbn. rewrite !String.eqb_refl. split; [|done].
    by apply list_elem_of_In, elem_of_map_to_list.
Qed.

Lemma allocate_keeps a b r ls : map (fun l => (rl_key l, rl_quantity l)) (allocate_discount a b r ls) = map (fun l => (rl_key l, rl_quantity l)) ls.
Proof. revert r. induction ls as [|l ls IH]; intros r; [done|]. destruct ls as [|l2 ls]; [done|]. cbn [allocate_discount map]. f_equal. apply (IH (r - _)). Qed.

Lemma spread_keeps t ls : map (fun l => (rl_key l, rl_quantity l)) (spread_discount t ls) = map (fun l => (rl_key l, rl_quantity l)) ls.
Proof. unfold spread_discount. destruct (_ && _)%bool; [apply allocate_keeps | done]. Qed.

Lemma spread_keys t ls : map rl_key (spread_discount t ls) = map rl_key ls.
Proof. pose proof (f_equal (map fst) (spread_keeps t ls)) as H. by rewrite !map_map in H. Qed.

Lemma spread_quantities t ls (P : string -> Prop) : Forall (fun l => P (rl_quantity l)) ls -> Forall (fun l => P (rl_quantity l)) (spread_discount t ls).
Proof.
  intros H. pose proof (f_equal (map snd) (spread_keeps t ls)) as E. rewrite !map_map in E. cbn in E. apply (Forall_fmap rl_quantity P).
  change (Forall P (map (fun l => rl_quantity l) (spread_discount t ls))). rewrite E. by apply (Forall_fmap rl_quantity P).
Qed.

Lemma resolve_item_key s t b m ex i x : rl_key (resolve_item s t b m ex i x) = item_key i x /\
  rl_quantity (resolve_item s t b m ex i x) = of_numeric (parseScaledDecimal (it_quantity x)).
Proof. unfold resolve_item. cbv zeta. by destruct (unit_cost _ _ _ _ _ _ _ _ _). Qed.

Section OrderEvent.
Variables (s : Insight) (e : Envelope OrderPayload) (branchId : string).
Hypotheses (Hs : sound s) (He : event_ok s e).
Let p := ev_payload e.
Let existing := orders (facts s) !! (ev_tenantId e, op_orderId p).
Let existingLines := match existing with Some _ => lines_of s (ev_tenantId e) (op_orderId p) | None => [] end.
Let ls := resolve_lines s (ev_tenantId e) branchId p existingLines.

Lemma resolved_all key l : lines (facts s) !! (ev_tenantId e, op_orderId p, key) = Some l -> key ∈ map rl_key ls.
Proof.
  intros Hl. unfold ls, resolve_lines. destruct (fo_lines _ (so_facts _ Hs) _ _ Hl) as (o & Eo & _). cbn in Eo. destruct (payload_items p) as [|i items] eqn:Ei.
  - unfold existingLines, existing. rewrite Eo, map_map. apply (list_elem_of_fmap_2' _ _ (key, l)); [by apply lines_of_elem | done].
  - rewrite map_mapi, (mapi_ext _ item_key) by (intros; apply resolve_item_key). rewrite <- Ei. eapply (eo_lines _ _ He); [fold p; by rewrite Ei | exact Hl].
Qed.

Lemma resolved_quantities : Forall (fun l => 0 <= to_numeric (rl_quantity l)) ls.
Proof.
  unfold ls, resolve_lines. pose proof (eo_qty _ _ He) as Hq. fold p in Hq. destruct (payload_items p) as [|i items] eqn:Ei.
  - unfold existingLines. destruct existing; [|constructor]. apply Forall_fmap, Forall_forall. intros [key l] Hin%lines_of_elem. cbn. autorewrite with text.
    by destruct (fo_lines _ (so_facts _ Hs) _ _ Hin) as (o' & _ & _ & _ & Hl & _).
  - apply Forall_mapi. eapply Forall_impl; [exact Hq|]. intros x Hx j. rewrite (proj2 (resolve_item_key _ _ _ _ _ _ _)). by autorewrite with text.
Qed.
End OrderEvent.

Lemma touch_sound t n i y o now s : sound s -> sound (touchCheckpoint t n i y o now s).
Proof.
  intros [Hf Hg]. constructor; [done|]. intros t' d b c. rewrite <- Hg. unfold figure. cbn [books touchCheckpoint with_checkpoints]. f_equal. do 3 f_equal.
  unfold active, activeGeneration, touchCheckpoint. cbn [checkpoints with_checkpoints]. destruct (decide ((t, n) = (t', "sales_analytics"))) as [E|Hn].
  - rewrite E, lookup_insert_eq. by destruct (checkpoints s !! (t', "sales_analytics")).
  - by rewrite lookup_insert_ne.
Qed.

Lemma order_event_sound e inferred now s s' out : sound s -> event_ok s e -> processSalesOrderEvent e inferred now s = Some (s', out) -> sound s'.
Proof.
  intros Hs He. unfold processSalesOrderEvent. destruct (String.eqb _ ""); [by intros [= <- _]|]. cbv zeta. destruct (skip_reason _ _ _ _ _); [by intros [= <- _]|].
  destruct (orElse _ _) as [branchId|] eqn:Eb; [|done]. intros [= <- _]. apply touch_sound.
  set (h := order_head s e _ _ _ _). refine (proj1 (write_order_sound h e _ _ _ s _ _ _ _ _ _)); unfold h; cbn [oh_tenant oh_order oh_status order_head].
  - done.
  - unfold raw_status. apply toUpperCase_idem.
  - intros o Eo. rewrite Eo in *. cbn [oh_branch oh_date order_head]. split; [|done]. destruct (eo_branch _ _ He o Eo) as [E|E]; rewrite E in Eb; by injection Eb as <-.
  - intros key l Hl. rewrite spread_keys. by eapply resolved_all.
  - apply (spread_quantities _ _ (fun q => 0 <= to_numeric q)). by apply resolved_quantities.
  - apply order_totals_text.
Qed.

(** *** Costs that arrive late *)

Lemma mul_text q z : exists n, mulDecimals (VStr (of_numeric q)) (VStr (of_bigint z)) 0 = of_bigint n /\ (q = 0 -> n = 0).
Proof.
  unfold mulDecimals. change (parseScaledDecimal (VStr ?x)) with (scaled x). autorewrite with text. cbv zeta. rewrite format_of_bigint. eexists. split; [reflexivity|].
  by intros ->.
Qed.

Lemma stored_target_costed n x cost o : order_ok o -> contribution_row (stored_target (costed_order (of_bigint n) x cost o)) =
  add_cogs (if is_completed (of_status o) then n else 0) (of_contributed o).
Proof.
  intros [Hc Hu]. rewrite Hc. unfold stored_target, computeTargetOrderContribution. cbn [ti_status ti_subtotal ti_discountTotal ti_cogsTotal ti_unitsTotal
    of_status of_subtotal of_discount of_cogs of_units costed_order default from_option id]. change (parseScaledDecimal (VStr ?y)) with (scaled y).
  rewrite !Hu. autorewrite with text. unfold zero_money, zero_units, is_completed. cbv zeta. destruct (String.eqb (of_status o) "COMPLETED").
  - unfold contribution_row, add_cogs. cbn [ov_gmv ov_grossRevenue ov_discount ov_netRevenue ov_cogs ov_unitsSold ov_orderCount ov_completedCount ov_cancelledCount
      co_gmv co_gross co_discount co_net co_cogs co_units co_orders co_completed co_cancelled]. rewrite !format_scaled_bigint. by autorewrite with text.
  - destruct (String.eqb (of_status o) "CONFIRMED"); unfold contribution_row, add_cogs; cbn [ov_gmv ov_grossRevenue ov_discount ov_netRevenue ov_cogs ov_unitsSold
      ov_orderCount ov_completedCount ov_cancelledCount co_gmv co_gross co_discount co_net co_cogs co_units co_orders co_completed co_cancelled]; by rewrite Z.add_0_r.
Qed.

Definition cogs_only (n : Z) : Contribution := {| co_gmv := 0; co_gross := 0; co_discount := 0; co_net := 0; co_cogs := n; co_units := 0; co_orders := 0; co_completed := 0;
  co_cancelled := 0 |}.

Lemma cogs_delta_text n p a pending b : applyOrderDeltaToSummaries p a (cogs_delta (of_bigint n)) (of_bigint (0 - n)) pending b =
  applyOrderDeltaToSummaries p a (contribution_text (cogs_only n)) (of_bigint (co_net (cogs_only n) - co_cogs (cogs_only n))) pending b.
Proof. done. Qed.

Lemma order_column_add_cogs c n x : order_column c (add_cogs n x) = order_column c x + order_column c (cogs_only n).
Proof. destruct c; cbn; lia. Qed.

Lemma order_column_cogs_0 c : order_column c (cogs_only 0) = 0.
Proof. by destruct c. Qed.

Section CostLine.
Variables (s : Insight) (t i key : string) (l : LineFact) (z : Z).
Hypotheses (Hs : sound s) (Hl : lines (facts s) !! (t, i, key) = Some l).
Let s' := cost_line (targetGenerations s t) (of_bigint z) s (t, i, key, l).

Lemma cost_line_facts : exists n o cost, orders (facts s) !! (t, i) = Some o /\ (lf_quantity l = 0 -> n = 0) /\
  facts s' = put_order (t, i) (costed_order (of_bigint n) (if 0 <? lf_cUnits l then of_bigint n else "0") cost o)
    (put_line (t, i, key) (costed_line (of_bigint z) (of_bigint n) (of_bigint (lf_net l - n)) l) (facts s)) /\
  forall k c, k.1.1.2 = active s k.1.1.1 -> dview (books s') k c = dview (books s) k c + if decide (k.1.1.1 = t /\ k.1.2 = lf_date l /\ k.2 = lf_branch l) then
    order_column c (cogs_only (if 0 <? lf_cUnits l then n else 0)) else 0.
Proof.
  destruct (mul_text (lf_quantity l) z) as (n & En & Hn0). destruct (fo_lines _ (so_facts _ Hs) _ _ Hl) as (o & Eo & _). cbn in Eo.
  unfold s', cost_line. rewrite En, !sub0_of_bigint, Hl. cbn [orders put_line]. rewrite Eo, scaled_of_numeric. exists n, o. eexists. split_and!; [done | done | reflexivity |].
  intros k c Hk. cbn [books with_books]. destruct (0 <? lf_cUnits l).
  - rewrite (for_generations_view _ _ (fun g => if decide (k = (t, g, lf_date l, lf_branch l)) then order_column c (cogs_only n) else 0)).
    + f_equal. destruct k as [[[t0 g0] d0] b0]. cbn in *. subst g0. apply target_once.
    + intros g b. rewrite <- of_bigint_0, sub0_of_bigint, cogs_delta_text, apply_order_view. done.
  - rewrite order_column_cogs_0. destruct (decide _); lia.
Qed.

Lemma cost_line_rest : checkpoints s' = checkpoints s /\ generations s' = generations s /\ forall k, k <> (t, i, key) -> lines (facts s') !! k = lines (facts s) !! k.
Proof.
  split; [done|]. split; [done|]. intros k Hk. destruct cost_line_facts as (n & o & cost & _ & _ & -> & _). cbn [put_order put_line lines]. by rewrite lookup_insert_ne.
Qed.

Lemma cost_line_sound : sound s'.
Proof.
  destruct cost_line_facts as (n & o & cost & Eo & Hn & Hf & Hv). destruct cost_line_rest as (Hcp & Hg & _).
  assert (Ha : active s' = active s) by (unfold active, activeGeneration; by rewrite Hcp).
  destruct (fo_lines _ (so_facts _ Hs) _ _ Hl) as (o' & Eo' & Hb & Hd & Hq & Hu). cbn in Eo'. rewrite Eo in Eo'. injection Eo' as <-.
  pose proof (fo_orders _ (so_facts _ Hs) _ _ Eo) as Hok.
  set (m := if 0 <? lf_cUnits l then n else 0). assert (Hm : m = if is_completed (of_status o) then n else 0).
  { unfold m. rewrite Hu. destruct (is_completed _); [|done]. destruct (Z.ltb_spec 0 (lf_quantity l)); [done | symmetry; apply Hn; lia]. }
  assert (Et : (if 0 <? lf_cUnits l then of_bigint n else "0") = of_bigint m) by (unfold m; by destruct (0 <? lf_cUnits l)). rewrite Et in Hf.
  set (o2 := costed_order _ _ _ _) in Hf. assert (Ec : of_contributed o2 = add_cogs m (of_contributed o)) by (unfold o2, costed_order; cbn; by autorewrite with text).
  constructor; [constructor|].
  - rewrite Hf. cbn [put_order put_line orders]. intros k x Hk. destruct (decide (k = (t, i))) as [->|Hne].
    + rewrite lookup_insert_eq in Hk. injection Hk as <-. split; [|apply Hok]. unfold o2 at 2. by rewrite stored_target_costed, Ec, Hm.
    + rewrite lookup_insert_ne in Hk by done. by eapply fo_orders; [apply so_facts|].
  - rewrite Hf. intros k x. unfold line_ok. cbn [put_order put_line orders lines]. intros Hk.
    assert (Hx : exists y, lines (facts s) !! k = Some y /\ lf_branch x = lf_branch y /\ lf_date x = lf_date y /\ lf_quantity x = lf_quantity y /\ lf_cUnits x = lf_cUnits y).
    { destruct (decide (k = (t, i, key))) as [->|Hne]; [rewrite lookup_insert_eq in Hk; injection Hk as <-; by exists l|]. rewrite lookup_insert_ne in Hk by done. by exists x. }
    destruct Hx as (y & Ey & -> & -> & -> & ->). destruct (fo_lines _ (so_facts _ Hs) _ _ Ey) as (oy & Eoy & Hy).
    destruct (decide ((k.1.1, k.1.2) = (t, i))) as [E|Hne]; [|exists oy; by rewrite lookup_insert_ne].
    rewrite E in *. rewrite Eo in Eoy. injection Eoy as <-. exists o2. by rewrite lookup_insert_eq.
  - intros t0 d0 b0 c0. unfold figure. rewrite Ha, Hv by done. cbn [fst snd]. rewrite (so_figures _ Hs t0 d0 b0 c0 : dview _ _ _ = _), Hf, recorded_put_order.
    + cbn [put_line orders]. rewrite Eo, Ec, order_column_add_cogs. cbn [old_contribution]. fold m. change (of_date o2) with (of_date o). change (of_branch o2) with (of_branch o).
      rewrite Hb, Hd. unfold recorded. cbn [put_line orders returns]. destruct (decide _); lia.
    + cbn [put_line orders]. intros x Ex. rewrite Eo in Ex. by injection Ex as <-.
Qed.
End CostLine.

Lemma cost_lines_sound t z es s : NoDup es.*1 -> Forall (fun e : string * string * string * LineFact => e.1.1.1 = t /\ lines (facts s) !! e.1 = Some e.2) es -> sound s ->
  sound (fold_left (cost_line (targetGenerations s t) (of_bigint z)) es s).
Proof.
  intros Hd Hall Hs. assert (Hg : forall s1, checkpoints s1 = checkpoints s -> generations s1 = generations s -> targetGenerations s1 t = targetGenerations s t).
  { intros s1 E1 E2. unfold targetGenerations, buildingGenerations, activeGeneration. by rewrite E1, E2. }
  cut (forall s1, checkpoints s1 = checkpoints s -> generations s1 = generations s -> sound s1 ->
    Forall (fun e : string * string * string * LineFact => e.1.1.1 = t /\ lines (facts s1) !! e.1 = Some e.2) es ->
    sound (fold_left (cost_line (targetGenerations s t) (of_bigint z)) es s1)); [by intros H; apply H|]. clear Hall Hs.
  induction es as [|[[[t' i] key] l] es IH]; intros s1 E1 E2 Hs1 Hall; [done|]. apply Forall_cons in Hall as [[Et Hl] Hall]. cbn in Et, Hl. subst t'.
  apply NoDup_cons in Hd as [Hnin Hd]. cbn [fold_left]. rewrite <- (Hg s1 E1 E2). destruct (cost_line_rest s1 t i key l z Hs1 Hl) as (H1 & H2 & H3).
  rewrite (Hg s1 E1 E2) in *. apply IH; [done | congruence | congruence | rewrite <- (Hg s1 E1 E2); by apply cost_line_sound |].
  apply Forall_forall. intros e Hin. pose proof (proj1 (Forall_forall _ _) Hall e Hin) as [Et El]. split; [done|]. rewrite H3; [done|].
  intros E. apply Hnin. cbn. rewrite <- E. by apply list_elem_of_fmap_2.
Qed.

Lemma filter_keys_NoDup {A B} (f : A * B -> bool) (l : list (A * B)) : NoDup l.*1 -> NoDup (List.filter f l).*1.
Proof.
  induction l as [|x l IH]; [done|]. intros [Hn Hd]%NoDup_cons. cbn. destruct (f x); [|by apply IH]. apply NoDup_cons. split; [|by apply IH].
  intros (y & E & Hin)%list_elem_of_fmap. apply Hn. apply list_elem_of_fmap. exists y. split; [done|]. apply list_elem_of_In, filter_In in Hin as [Hin _]. by apply list_elem_of_In.
Qed.

Lemma costs_sound t sku cost i s : sound s -> sound (resolvePendingOrderCosts t sku cost i s).1.
Proof.
  intros Hs. unfold resolvePendingOrderCosts. destruct (_ <=? 0); [done|]. cbn [fst]. rewrite format_of_bigint. apply cost_lines_sound; [| |done].
  - apply filter_keys_NoDup, NoDup_fst_map_to_list.
  - apply Forall_forall. intros [k l] [Hin Hp]%list_elem_of_In%filter_In. apply list_elem_of_In, elem_of_map_to_list in Hin. split; [|done].
    rewrite !andb_true_iff in Hp. by destruct Hp as [[[?%String.eqb_eq _] _] _].
Qed.

(** *** Returns and cash *)

Lemma recorded_put_return f t i r t' d b c : returns f !! (t, i) = None ->
  recorded (put_return (t, i) r f) t' d b c = recorded f t' d b c + if decide (t' = t /\ d = rf_date r /\ b = rf_branch r) then return_column c r else 0.
Proof.
  intros Hn. unfold recorded, put_return. cbn [orders returns]. rewrite ksum_insert, Hn. unfold return_here at 2, here. cbn [fst].
  destruct (decide _) as [(-> & -> & ->)|Hne]; [rewrite !String.eqb_refl, Z.eqb_refl; cbn [andb]; lia|].
  destruct (String.eqb_spec t t') as [->|]; cbn [andb]; [|lia]. destruct (Z.eqb_spec (rf_date r) d) as [<-|]; cbn [andb]; [|lia].
  destruct (String.eqb_spec (rf_branch r) b) as [<-|]; [|lia]. by destruct Hne.
Qed.

Lemma return_products_daily gens p ws b : daily (fold_left (fun b w => for_generations gens (fun g => applyProductSummaryDelta (p g) (rw_ref w) (rw_delta w)) b) ws b) = daily b.
Proof. revert b. induction ws as [|w ws IH]; intros b; [done|]. cbn [fold_left]. rewrite IH. by apply products_daily. Qed.

Lemma return_sound e now s s' out : sound s -> processSalesReturnCompleted e now s = Some (s', out) -> sound s'.
Proof.
  intros Hs. unfold processSalesReturnCompleted. destruct (String.eqb _ ""); [by intros [= <- _]|].
  destruct (bool_decide_reflect (is_Some (returns (facts s) !! (ev_tenantId e, rp_returnId (ev_payload e))))) as [|Hnew]; [by intros [= <- _]|].
  apply eq_None_not_Some in Hnew. cbv zeta. destruct (orElse _ _) as [branchId|]; [|done]. intros [= <- _]. apply touch_sound. rewrite !format_of_bigint.
  set (f := Build_ReturnFact _ _ _ _ _ _ _ _ _ _ _ _ _ _). set (ws := return_writes _ _ _ _ _) in *. set (d := return_delta _ _ _).
  assert (Hd : d = return_delta (of_bigint (rf_refund f)) (of_numeric (rf_units f)) (of_bigint (rf_cogs f))).
  { unfold d, f. cbn [rf_refund rf_units rf_cogs]. fold (of_numeric (returned_units (default [] (orElse (rp_items (ev_payload e)) (rp_lines (ev_payload e))))
      (lines_of s (ev_tenantId e) (rp_orderId (ev_payload e))) (orders (facts s) !! (ev_tenantId e, rp_orderId (ev_payload e))) ws)). by autorewrite with text. }
  clearbody d. subst d. constructor; [destruct Hs as [[H1 H2] _]; by constructor|]. intros t0 d0 b0 c0.
  change (figure _ t0 _ d0 b0 c0) with (dview (write_return (targetGenerations s (ev_tenantId e)) (ev_tenantId e) f ws
    (return_delta (of_bigint (rf_refund f)) (of_numeric (rf_units f)) (of_bigint (rf_cogs f))) (books s)) (t0, active s t0, d0, b0) c0).
  cbn [facts with_books with_facts]. rewrite recorded_put_return by done. unfold write_return.
  rewrite (for_generations_view _ _ (fun g => if decide ((t0, active s t0, d0, b0) = (ev_tenantId e, g, rf_date f, rf_branch f)) then return_column c0 f else 0)).
  - rewrite target_once. f_equal. unfold dview. rewrite return_products_daily. apply (so_figures _ Hs).
  - intros g b. rewrite apply_return_view. done.
Qed.

Lemma cash_view p i o d b k c : dview (applyCash p i o d b) k c = dview b k c.
Proof. unfold dview, applyCash. cbn [daily]. rewrite upsert_lookup. destruct (decide (k = day_of p)) as [->|]; [|done]. by destruct c. Qed.

Lemma cash_sound e kind now s : sound s -> sound (processFinanceCashOrReceivableEvent e kind now s).
Proof.
  intros Hs. unfold processFinanceCashOrReceivableEvent. destruct (negb _); [done|]. cbv zeta. destruct (match kind with CASHBOOK => _ | RECEIVABLE_PAYMENT => _ end) as [[i o] d].
  constructor; [apply Hs|]. intros t0 d0 b0 c0. cbn [facts with_books]. rewrite <- (so_figures _ Hs). unfold figure. cbn [books with_books].
  rewrite (for_generations_view _ _ (fun _ => 0)) by (intros; rewrite cash_view; lia). rewrite total_zero by done.
  change (active (with_books _ s) t0) with (active s t0). lia.
Qed.

(** *** Rebuilding *)

Lemma in_window_outside i d : in_window i d = negb (outside i d).
Proof. unfold in_window, outside. destruct (rb_fromDate i), (rb_toDate i); lia. Qed.

Section Copy.
Context {A : Type} (t prev new : string) (i : RebuildInput).
Implicit Types (m : gmap day_key A) (l : list (day_key * A)).

Lemma copy_keeps l m (k : day_key) : k.1.1.1 <> t \/ k.1.1.2 <> new \/ outside i k.1.2 = false -> fold_left (copy_row t prev new i) l m !! k = m !! k.
Proof.
  intros Hk. revert m. induction l as [|e l IH]; intros m; [done|]. cbn [fold_left]. rewrite IH. unfold copy_row. destruct (_ && _)%bool eqn:E; [|done].
  rewrite !andb_true_iff in E. destruct E as [[E1%String.eqb_eq E2] E3]. destruct (m !! in_generation new e.1); [done|]. rewrite lookup_insert_ne; [done|].
  intros <-. destruct e as [[[[t' g'] d'] b'] x]. cbn in *. destruct Hk as [Hk|[Hk|Hk]]; congruence.
Qed.

Lemma copy_present l m k r : m !! k = Some r -> fold_left (copy_row t prev new i) l m !! k = Some r.
Proof.
  revert m. induction l as [|e l IH]; intros m Hm; [done|]. cbn [fold_left]. apply IH. unfold copy_row. destruct (_ && _)%bool; [|done].
  destruct (m !! in_generation new e.1) eqn:Em; [done|]. rewrite lookup_insert_ne; [done|]. intros E. by rewrite E, Hm in Em.
Qed.

Lemma copy_new l m d b : outside i d = true -> m !! (t, new, d, b) = None ->
  fold_left (copy_row t prev new i) l m !! (t, new, d, b) = (list_to_map l : gmap day_key A) !! (t, prev, d, b).
Proof.
  intros Ho. revert m. induction l as [|[[[[t' g'] d'] b'] x] l IH]; intros m Hm; [exact Hm|]. cbn [fold_left]. rewrite list_to_map_cons.
  destruct (decide ((t', g', d', b') = (t, prev, d, b))) as [E|Hne].
  - injection E as -> -> -> ->. rewrite lookup_insert_eq. apply copy_present. unfold copy_row. cbn [k_tenant k_generation k_date in_generation day_keyed fst snd].
    rewrite !String.eqb_refl, Ho, Hm. cbn [andb]. by rewrite lookup_insert_eq.
  - rewrite lookup_insert_ne by done. apply IH. unfold copy_row. cbn [k_tenant k_generation k_date in_generation day_keyed fst snd]. destruct (_ && _)%bool eqn:E; [|done].
    rewrite !andb_true_iff in E. destruct E as [[E1%String.eqb_eq E2%String.eqb_eq] E3]. destruct (m !! (t', new, d', b')) eqn:Em; [done|].
    rewrite lookup_insert_ne; [done|]. intros [= -> -> ->]. by subst.
Qed.
End Copy.

Lemma prepared t prev new i bk t0 g0 d b : daily (prepare_books t prev new i bk) !! (t0, g0, d, b) =
  if decide (t0 = t /\ g0 = new) then if in_window i d then None else match daily bk !! (t, new, d, b) with Some r => Some r | None => daily bk !! (t, prev, d, b) end
  else daily bk !! (t0, g0, d, b).
Proof.
  cbn [prepare_books daily]. unfold clear_window. rewrite map_lookup_filter. unfold copy_outside.
  destruct (decide (t0 = t /\ g0 = new)) as [[-> ->]|Hne].
  - cbn [fst snd k_tenant k_generation k_date day_keyed]. rewrite !String.eqb_refl. cbn [andb]. rewrite in_window_outside. destruct (outside i d) eqn:Eo; cbn [negb].
    + destruct (daily bk !! (t, new, d, b)) as [r|] eqn:Er.
      * by rewrite (copy_present _ _ _ _ _ _ _ _ Er).
      * rewrite copy_new, list_to_map_to_list by done. by destruct (daily bk !! (t, prev, d, b)).
    + by destruct (fold_left _ _ _ !! (t, new, d, b)).
  - rewrite copy_keeps by (cbn; destruct (decide (t0 = t)); [right; left; tauto | by left]). destruct (daily bk !! (t0, g0, d, b)); [|done]. cbn.
    rewrite option_guard_True; [done|]. cbn. destruct (String.eqb_spec t0 t) as [->|]; [|done]. destruct (String.eqb_spec g0 new) as [->|]; [by destruct Hne | done].
Qed.

Lemma fold_view {A} (f : Books -> A -> Books) (dl : A -> Z) l b k c : (forall b x, dview (f b x) k c = dview b k c + dl x) ->
  dview (fold_left f l b) k c = dview b k c + total dl l.
Proof. intros Hf. revert b. induction l as [|x l IH]; intros b; cbn [fold_left]; [unfold total; cbn; lia|]. rewrite IH, Hf. unfold total. cbn. lia. Qed.

Lemma total_filter {A} (p : A -> bool) (f : A -> Z) l : total f (List.filter p l) = total (fun x => if p x then f x else 0) l.
Proof. unfold total. induction l as [|x l IH]; [done|]. cbn. destruct (p x); cbn; lia. Qed.

Lemma total_map {A B} (g : A -> B) (f : B -> Z) l : total f (map g l) = total (fun x => f (g x)) l.
Proof. unfold total. by rewrite map_map. Qed.

Section Rebuild.
Variables (s : Insight) (t new : string) (i : RebuildInput).
Hypothesis Hs : sound s.

Lemma replay_lines_daily p ls b : daily (fold_left (replay_line p) ls b) = daily b.
Proof. revert b. induction ls as [|l ls IH]; intros b; [done|]. cbn [fold_left]. by rewrite IH. Qed.

Lemma replay_order_view b e k c : dview (replay_order s t new i b e) k c = dview b k c +
  if decide (k = (t, new, of_date e.2, of_branch e.2)) then order_column c (contribution_row (stored_target e.2)) else 0.
Proof.
  unfold replay_order. cbv zeta. destruct (target_text {| ti_status := toUpperCase (of_status e.2); ti_subtotal := VStr (of_bigint (of_subtotal e.2));
    ti_discountTotal := Some (VStr (of_bigint (of_discount e.2))); ti_cogsTotal := Some (VStr (of_bigint (of_cogs e.2)));
    ti_unitsTotal := Some (VStr (of_numeric (of_units e.2))) |}) as [x Ex]. fold (stored_target e.2) in Ex. rewrite Ex, row_of_text.
  cbn [ov_netRevenue ov_cogs contribution_text]. rewrite sub0_of_bigint, apply_order_view. f_equal. unfold dview.
  destruct (is_completed _); [by rewrite replay_lines_daily | done].
Qed.

Lemma replay_return_view b r k c : dview (replay_return s t new i b r) k c = dview b k c + if decide (k = (t, new, rf_date r, rf_branch r)) then return_column c r else 0.
Proof.
  unfold replay_return. cbv zeta. rewrite apply_return_view. f_equal. unfold dview. f_equal. f_equal. f_equal.
  assert (Hrl : forall p ols rls b, daily (fold_left (replay_return_line p r ols) rls b) = daily b).
  { intros p ols rls. induction rls as [|x rls IH]; intros b'; [done|]. cbn [fold_left]. by rewrite IH. }
  destruct (rf_lines r) as [|x rls]; [by destruct (window_lines _ _ _ _) as [|e [|]] | apply Hrl].
Qed.

(** The sums of the facts of the window, at a day. *)
Lemma window_sum {A} (date : A -> Z) (branch : A -> string) (f : A -> Z) (m : gmap (string * string) A) d br :
  total (fun e : string * string * A => if String.eqb e.1.1 t && in_window i (date e.2) then
    if decide ((t, new, d, br) = ((t, new, date e.2, branch e.2) : day_key)) then f e.2 else 0 else 0) (map_to_list m) =
  if in_window i d then ksum (here date branch f t d br) m else 0.
Proof.
  destruct (in_window i d) eqn:Ew.
  - unfold ksum, total. apply sumZ_map_ext. intros [[t' j] x] _. unfold here. cbn [fst snd]. destruct (String.eqb t' t); cbn [andb]; [|done].
    destruct (Z.eqb_spec (date x) d) as [<-|Hd]; cbn [andb]; [rewrite Ew | rewrite decide_False by congruence; by destruct (in_window i (date x))].
    destruct (String.eqb_spec (branch x) br) as [<-|Hb]; [by rewrite decide_True | by rewrite decide_False by congruence].
  - apply total_zero. intros [[t' j] x] _. cbn [fst snd]. destruct (_ && _)%bool eqn:E; [|done]. apply andb_true_iff in E as [_ E]. rewrite decide_False; [done|]. intros [= -> _].
    congruence.
Qed.

Lemma rebuilt_figure prev t0 g0 d br c :
  dview (fold_left (replay_return s t new i) (window_returns t i (facts s)) (fold_left (replay_order s t new i) (window_orders t i (facts s))
    (prepare_books t prev new i (books s)))) (t0, g0, d, br) c =
  if decide (t0 = t /\ g0 = new) then
    if in_window i d then recorded (facts s) t d br c
    else daily_column c (default daily_zero (match daily (books s) !! (t, new, d, br) with Some r => Some r | None => daily (books s) !! (t, prev, d, br) end))
  else dview (books s) (t0, g0, d, br) c.
Proof.
  rewrite (fold_view _ _ _ _ _ _ (fun b r => replay_return_view b r (t0, g0, d, br) c)), (fold_view _ _ _ _ _ _ (fun b e => replay_order_view b e (t0, g0, d, br) c)).
  unfold dview at 1. rewrite prepared. unfold window_returns, window_orders. rewrite !(total_perm _ _ _ (sort_by_perm _ _)), !total_map, !total_filter. cbn [fst snd].
  destruct (decide (t0 = t /\ g0 = new)) as [[-> ->]|Hne].
  - rewrite (window_sum rf_date rf_branch (return_column c)).
    rewrite (window_sum of_date of_branch (fun o => order_column c (contribution_row (stored_target o)))). destruct (in_window i d); [|lia].
    unfold recorded, order_here, return_here. replace (daily_column c (default daily_zero None)) with 0 by (by destruct c). rewrite Z.add_0_l. f_equal. apply key_sum_ext.
    intros k o Hk. unfold here. by rewrite (proj1 (fo_orders _ (so_facts _ Hs) _ _ Hk)).
  - rewrite !total_zero; [unfold dview; lia | |]; intros [[t' j] x] _; cbn [fst snd]; (destruct (_ && _)%bool; [|done]); (rewrite decide_False; [done|]); intros [= -> -> _ _];
      by apply Hne.
Qed.
End Rebuild.

(** A rebuild of the sales figures.  Days outside its window are copied, so for them the
    generation it replaces is the active one and no event has been written to the new one
    since the rebuild was announced; a rebuild of all days needs neither. *)
Record rebuild_ok (s : Insight) (t prev new : string) (i : RebuildInput) : Prop := {
  ro_name : rb_projectionName i = "sales_analytics";
  ro_outside d : outside i d = true -> prev = active s t /\ forall b, daily (books s) !! (t, new, d, b) = None }.

Lemma rebuild_sound t rebuildId prev new i now s : sound s -> rebuild_ok s t prev new i -> sound (finishRebuild t rebuildId prev new i now s).
Proof.
  intros Hs Hr. unfold finishRebuild, replay_books. destruct (rb_simulateFailure i); [destruct Hs as [H1 H2]; by constructor|]. cbv zeta.
  set (b := fold_left (replay_return _ _ _ _) _ _). constructor; [apply Hs|]. intros t0 d br c.
  change (figure _ t0 _ d br c) with (dview b (t0, active (cut_over t (rb_projectionName i) new (Z.of_nat (length (window_orders t i (facts s)) +
    length (window_returns t i (facts s)))) now (with_books b s)) t0, d, br) c). change (facts _) with (facts s).
  unfold b. rewrite rebuilt_figure by done. fold b. unfold active, activeGeneration, cut_over. cbn [checkpoints with_checkpoints with_books]. rewrite (ro_name _ _ _ _ _ Hr).
  destruct (decide (t0 = t)) as [->|Ht].
  - rewrite lookup_insert_eq. replace (cp_active _) with new by (by destruct (checkpoints s !! (t, "sales_analytics"))). rewrite decide_True by done. rewrite in_window_outside.
    destruct (outside i d) eqn:Eo; [|done]. cbn [negb]. destruct (ro_outside _ _ _ _ _ Hr d Eo) as [-> Hn]. rewrite Hn. apply (so_figures _ Hs).
  - rewrite lookup_insert_ne by congruence. rewrite decide_False by tauto. apply (so_figures _ Hs t0 d br c).
Qed.

(** ** What can happen, and what always holds *)

Definition empty_insight : Insight := {| facts := {| orders := ∅; lines := ∅; returns := ∅ |}; books := {| daily := ∅; channels := ∅; employees := ∅; groups := ∅; products := ∅ |};
  checkpoints := ∅; generations := []; dims := []; stock := [] |}.

Inductive insight_step : Insight -> Insight -> Prop :=
| step_order e inferred now s s' out : event_ok s e -> processSalesOrderEvent e inferred now s = Some (s', out) -> insight_step s s'
| step_cost t sku cost order s : insight_step s (resolvePendingOrderCosts t sku cost order s).1
| step_return e now s s' out : processSalesReturnCompleted e now s = Some (s', out) -> insight_step s s'
| step_cash e kind now s : insight_step s (processFinanceCashOrReceivableEvent e kind now s)
| step_paid t receivable paid s : insight_step s (receivablePaidDelta t receivable paid s).1
| step_dimension d s : insight_step s (upsertDimensionCache d s)
| step_group paired t customer g s : insight_step s (setCustomerGroup paired t customer g s)
| step_stock rows s : insight_step s (with_stock rows s)
| step_begin t rebuildId new i s : insight_step s (beginRebuild t rebuildId new i s)
| step_rebuild t rebuildId prev new i now s : rebuild_ok s t prev new i -> insight_step s (finishRebuild t rebuildId prev new i now s).

Definition insight_reachable (s : Insight) : Prop := rtc insight_step empty_insight s.

(** Only the facts, the daily table and the active generation matter. *)
Lemma sound_same s s' : sound s -> facts s' = facts s -> books s' = books s -> checkpoints s' = checkpoints s -> sound s'.
Proof.
  intros [Hf Hg] E1 E2 E3. assert (Ha : active s' = active s) by (unfold active, activeGeneration; by rewrite E3).
  constructor; [by rewrite E1|]. intros. unfold figure. rewrite E1, E2, Ha. apply Hg.
Qed.

Lemma upsertDimension_rest d s : facts (upsertDimensionCache d s) = facts s /\ books (upsertDimensionCache d s) = books s /\ checkpoints (upsertDimensionCache d s) = checkpoints s.
Proof. done. Qed.

Lemma reachable_sound s : insight_reachable s -> sound s.
Proof.
  intros H. unfold insight_reachable in H. revert H. assert (H0 : sound empty_insight).
  { constructor; [constructor; intros k x; cbn; by rewrite lookup_empty|]. intros t d b c. unfold figure, dview, recorded, ksum. cbn. rewrite lookup_empty, !map_to_list_empty. by destruct c. }
  intros H. induction H as [s|x y z Hxy _ IH]; [done|]. apply IH. clear IH. destruct Hxy.
  - by eapply order_event_sound.
  - by apply costs_sound.
  - by eapply return_sound.
  - by apply cash_sound.
  - by eapply sound_same.
  - by eapply sound_same.
  - unfold setCustomerGroup. destruct (existsb _ _); [by eapply sound_same|]. destruct paired; by eapply sound_same.
  - by eapply sound_same.
  - by eapply sound_same.
  - by apply rebuild_sound.
Qed.

Lemma contributed_net o : order_ok o -> co_net (of_contributed o) = co_gross (of_contributed o) - co_discount (of_contributed o).
Proof.
  intros [-> _]. unfold stored_target, computeTargetOrderContribution. cbn [ti_status ti_subtotal ti_discountTotal ti_cogsTotal ti_unitsTotal default from_option id].
  change (parseScaledDecimal (VStr ?y)) with (scaled y). unfold zero_money. autorewrite with text. cbv zeta. destruct (String.eqb _ "COMPLETED"); [|by destruct (String.eqb _ "CONFIRMED")].
  cbn [contribution_row co_net co_gross co_discount ov_netRevenue ov_grossRevenue ov_discount]. rewrite <- Z.mul_sub_distr_r, !format_scaled_bigint. by autorewrite with text.
Qed.

Lemma ksum_combine {K A} `{Countable K} (f g h : K -> A -> Z) (m : gmap K A) : (forall k x, m !! k = Some x -> f k x = g k x - h k x) -> ksum f m = ksum g m - ksum h m.
Proof. intros Hf. rewrite (key_sum_ext f (fun k x => g k x - h k x)) by done. unfold ksum. by rewrite <- total_sub. Qed.

Lemma here_sub {A} date branch (f g h : A -> Z) t d b k x : f x = g x - h x -> here date branch f t d b k x = here date branch g t d b k x - here date branch h t d b k x.
Proof. intros E. unfold here. destruct (_ && _)%bool; lia. Qed.

(** C40. The reports agree with the facts, as long as events and rebuilds are processed
    one at a time.  After any events (orders in any order and repeated, returns, late
    costs, cash, catalog and stock data) and any rebuilds, every sales figure of every
    day and branch in the active generation is the sum over the orders and returns
    recorded there; net sales are gross sales less discounts and returns, and gross
    profit is net sales less the net cost of goods.  Of an order event it is assumed that
    it keeps the branch of its order, leaves out no line recorded before and has no
    negative quantity; of a rebuild of some days, that no event was written to its
    generation before it copies the others ([scoped_rebuild_loses_a_day]).  An event
    while a rebuild runs is excluded ([event_during_rebuild_counted_twice]). *)
Theorem reports_agree_with_facts (s : Insight) : insight_reachable s -> forall t d b,
  (forall c, figure s t (active s t) d b c = recorded (facts s) t d b c) /\
  figure s t (active s t) d b NET = figure s t (active s t) d b GROSS - figure s t (active s t) d b DISCOUNT - figure s t (active s t) d b RETURNS /\
  figure s t (active s t) d b PROFIT = figure s t (active s t) d b NET - figure s t (active s t) d b NET_COGS.
Proof.
  intros Hs%reachable_sound t d b. pose proof (so_figures _ Hs t d b) as Hf. split; [done|]. rewrite !Hf. unfold recorded, order_here, return_here. split.
  - rewrite (ksum_combine (here of_date of_branch (fun o => order_column NET (of_contributed o)) t d b) (here of_date of_branch (fun o => order_column GROSS (of_contributed o)) t d b)
      (here of_date of_branch (fun o => order_column DISCOUNT (of_contributed o)) t d b)); cycle 1.
    { intros k o Hk. apply here_sub. apply contributed_net. by eapply fo_orders; [apply so_facts|]. }
    assert (Hz : forall (f : OrderFact -> Z), (forall o, f o = 0) -> ksum (here of_date of_branch f t d b) (orders (facts s)) = 0).
    { intros f Ef. apply total_zero. intros e _. unfold here. rewrite Ef. by destruct (_ && _)%bool. }
    assert (Hy : forall (f : ReturnFact -> Z), (forall o, f o = 0) -> ksum (here rf_date rf_branch f t d b) (returns (facts s)) = 0).
    { intros f Ef. apply total_zero. intros e _. unfold here. rewrite Ef. by destruct (_ && _)%bool. }
    rewrite (Hz (fun o => order_column RETURNS _)), (Hy (return_column GROSS)), (Hy (return_column DISCOUNT)) by done.
    rewrite (ksum_combine (here rf_date rf_branch (return_column NET) t d b) (here rf_date rf_branch (return_column GMV) t d b) (here rf_date rf_branch (return_column RETURNS) t d b))
      by (intros k r _; apply here_sub; cbn; lia). rewrite (Hy (return_column GMV)) by done. lia.
  - rewrite (ksum_combine (here of_date of_branch (fun o => order_column PROFIT (of_contributed o)) t d b) (here of_date of_branch (fun o => order_column NET (of_contributed o)) t d b)
      (here of_date of_branch (fun o => order_column NET_COGS (of_contributed o)) t d b)) by (intros k o _; by apply here_sub).
    rewrite (ksum_combine (here rf_date rf_branch (return_column PROFIT) t d b) (here rf_date rf_branch (return_column NET) t d b) (here rf_date rf_branch (return_column NET_COGS) t d b))
      by (intros k r _; apply here_sub; cbn; lia). lia.
Qed.

(** Rebuilding changes no sales figure.  A rebuild of all days with no event in between,
    whatever was recorded before and whatever was already written to the new generation,
    makes the new generation the active one, with the figures the old one had, for every
    day and branch. *)
Theorem rebuild_changes_nothing (s : Insight) (t rebuildId prev new : string) (now : Z) : insight_reachable s ->
  let s' := finishRebuild t rebuildId prev new {| rb_projectionName := "sales_analytics"; rb_fromDate := None; rb_toDate := None; rb_simulateFailure := false |} now s in
  active s' t = new /\ forall d b c, figure s' t new d b c = figure s t (active s t) d b c.
Proof.
  intros Hs%reachable_sound s'. assert (Ha : active s' t = new).
  { unfold active, activeGeneration. change (checkpoints s') with (checkpoints (cut_over t "sales_analytics" new (Z.of_nat (length (window_orders t
      {| rb_projectionName := "sales_analytics"; rb_fromDate := None; rb_toDate := None; rb_simulateFailure := false |} (facts s)) + length (window_returns t
      {| rb_projectionName := "sales_analytics"; rb_fromDate := None; rb_toDate := None; rb_simulateFailure := false |} (facts s)))) now s)).
    unfold cut_over. cbn [checkpoints with_checkpoints]. rewrite lookup_insert_eq. by destruct (checkpoints s !! (t, "sales_analytics")). }
  split; [done|]. intros d b c. assert (Hs' : sound s') by (apply rebuild_sound; [done | by constructor]).
  rewrite <- Ha at 1. rewrite (so_figures _ Hs'), (so_figures _ Hs). done.
Qed.

(** ** A shop *)

Definition item (sku : string) (quantity price cost : Z) : OrderItem :=
  {| it_lineKey := None; it_variantId := Some sku; it_productId := None; it_sku := Some sku; it_skuCode := None; it_name := Some sku; it_productName := None;
     it_categoryId := None; it_brandId := None; it_quantity := VNum (int quantity); it_unitPrice := VNum (int price); it_discount := Undefined;
     it_unitCost := VNum (int cost); it_cogsAmount := Undefined; it_costMissing := false |}.

Definition sold (order : string) (items : list OrderItem) (amount : Z) : Envelope OrderPayload :=
  {| ev_id := Some ("e:" +:+ order); ev_type := Some "sales.order.completed"; ev_tenantId := "t"; ev_actor := None; ev_occurredAt := Some 1000;
     ev_payload := {| op_orderId := order; op_branchId := Some "b1"; op_channelType := None; op_customerId := None; op_customerGroupId := None;
       op_sellerStaffId := Some "anna"; op_createdBy := None; op_actorId := None; op_orderStatus := Some "COMPLETED"; op_paymentStatus := None;
       op_fulfillmentStatus := None; op_subtotal := VNum (int amount); op_discountTotal := VNum (int 0); op_taxTotal := VNum (int 0);
       op_grandTotal := VNum (int amount); op_totalAmount := Undefined; op_occurredAt := None; op_completedAt := None; op_aggregateVersion := None;
       op_costMissing := false; op_items := Some items; op_lines := None |} |}.

Definition returned (return_ order : string) (amount : Z) : Envelope ReturnPayload :=
  {| ev_id := Some ("e:" +:+ return_); ev_type := Some "sales.return.completed"; ev_tenantId := "t"; ev_actor := None; ev_occurredAt := Some 2000;
     ev_payload := {| rp_returnId := return_; rp_orderId := order; rp_branchId := None; rp_customerId := None; rp_customerGroupId := None;
       rp_sellerStaffId := None; rp_channelType := None; rp_totalRefundAmount := VNum (int amount); rp_restocked := None; rp_occurredAt := None;
       rp_items := None; rp_lines := None |} |}.

Definition got (r : option (Insight * Outcome)) : Insight := match r with Some (s, _) => s | None => empty_insight end.

Definition first_sale : Envelope OrderPayload := sold "o1" [item "tea" 2 50000 30000; item "cup" 1 20000 8000] 120000.
Definition sold_one : Insight := got (processSalesOrderEvent first_sale None 5000 empty_insight).
Definition returned_one : Insight := got (processSalesReturnCompleted (returned "r1" "o1" 50000) 6000 sold_one).

Definition everything : RebuildInput := {| rb_projectionName := "sales_analytics"; rb_fromDate := None; rb_toDate := None; rb_simulateFailure := false |}.

Lemma got_Some r : (match r with Some _ => true | None => false end) = true -> exists out, r = Some (got r, out).
Proof. destruct r as [[s out]|]; [by exists out | done]. Qed.

Lemma first_sale_ok : event_ok empty_insight first_sale.
Proof.
  constructor.
  - intros o Ho. cbn in Ho. by rewrite lookup_empty in Ho.
  - intros key l _ Hl. cbn in Hl. by rewrite lookup_empty in Hl.
  - repeat constructor; vm_compute; discriminate.
Qed.

Lemma returned_one_reachable : insight_reachable returned_one.
Proof.
  destruct (got_Some (processSalesOrderEvent first_sale None 5000 empty_insight)) as [o1 E1]; [vm_compute; reflexivity|].
  destruct (got_Some (processSalesReturnCompleted (returned "r1" "o1" 50000) 6000 sold_one)) as [o2 E2]; [vm_compute; reflexivity|].
  eapply rtc_l; [eapply step_order; [apply first_sale_ok | exact E1]|]. eapply rtc_l; [eapply step_return; exact E2 | reflexivity].
Qed.

(** 120,000 sold and 50,000 of it taken back on one day. *)
Lemma reports_agree_with_facts_witness :
  figure returned_one "t" (active returned_one "t") 0 "b1" NET = 70000 /\
  figure returned_one "t" (active returned_one "t") 0 "b1" NET = recorded (facts returned_one) "t" 0 "b1" NET.
Proof.
  split; [vm_compute; reflexivity|]. destruct (reports_agree_with_facts returned_one returned_one_reachable "t" 0 "b1") as [H _]. apply H.
Defined.

(** ** What a rebuild loses *)

Definition paid_in : Envelope CashPayload :=
  {| ev_id := Some "e:c1"; ev_type := Some "finance.cashbook.posted"; ev_tenantId := "t"; ev_actor := None; ev_occurredAt := Some 1000;
     ev_payload := {| ca_branchId := Some "b1"; ca_expense := false; ca_amount := VNum (int 90000); ca_paidAmount := Undefined; ca_paymentDelta := Undefined;
       ca_occurredAt := None |} |}.

Definition with_cash : Insight := processFinanceCashOrReceivableEvent paid_in CASHBOOK 7000 sold_one.

Definition day_row (s : Insight) : Daily := default daily_zero (daily (books s) !! ("t", active s "t", 0, "b1")).

(** Cash and debt figures are kept nowhere but in the summaries, and a rebuild writes
    the summaries from the order and return facts: 90,000 of cash taken in on the day are
    gone from the generation a rebuild makes active. *)
Theorem rebuild_forgets_cash : da_cashIn (day_row with_cash) = 90000 /\
  let s := finishRebuild "t" "r" "gen-active" "g2" everything 8000 (beginRebuild "t" "r" "g2" everything with_cash) in
  active s "t" = "g2" /\ da_gross (day_row s) = 120000 /\ da_cashIn (day_row s) = 0.
Proof. vm_compute. done. Qed.

Definition product_returns (s : Insight) (sku : string) : Z :=
  match products (books s) !! ("t", active s "t", 0, "b1", sku) with Some p => ps_returns p | None => 0 end.

(** The event of a completed return names no lines; processing it spreads the refund
    over the lines of the order, a replay does so only when the order has one line.  After
    a rebuild nothing of the 50,000 is taken back from the products sold. *)
Theorem rebuild_forgets_returns_of_products :
  product_returns returned_one "tea" + product_returns returned_one "cup" = 50000 /\
  let s := finishRebuild "t" "r" "gen-active" "g2" everything 8000 (beginRebuild "t" "r" "g2" everything returned_one) in
  da_returns (day_row s) = 50000 /\ product_returns s "tea" = 0 /\ product_returns s "cup" = 0.
Proof. vm_compute. done. Qed.

Definition second_sale : Envelope OrderPayload := sold "o2" [item "tea" 1 50000 30000] 50000.

Definition later_days : RebuildInput := {| rb_projectionName := "sales_analytics"; rb_fromDate := Some 5; rb_toDate := None; rb_simulateFailure := false |}.

(** A rebuild of some days copies the other days with ON CONFLICT DO NOTHING.  An event
    that was written to the new generation before the copy has made a row for its day
    already: the row is not copied, and what was sold that day before is lost. *)
Theorem scoped_rebuild_loses_a_day :
  let building := got (processSalesOrderEvent second_sale None 7000 (beginRebuild "t" "r" "g2" later_days sold_one)) in
  da_gross (day_row building) = 170000 /\
  let s := finishRebuild "t" "r" "gen-active" "g2" later_days 8000 building in
  active s "t" = "g2" /\ da_gross (day_row s) = 50000 /\ recorded (facts s) "t" 0 "b1" GROSS = 170000.
Proof. vm_compute. done. Qed.

(** An event between the statements of a rebuild.  The rebuild has cleared its
    generation; an order is processed, which writes to both generations; then the rebuild
    reads the facts, the new order among them, and adds it a second time. *)
Theorem event_during_rebuild_counted_twice :
  let begun := beginRebuild "t" "r" "g2" everything sold_one in
  let cleared := with_books (prepare_books "t" "gen-active" "g2" everything (books begun)) begun in
  let s := got (processSalesOrderEvent second_sale None 7000 cleared) in
  recorded (facts s) "t" 0 "b1" GROSS = 170000 /\
  dview (replay_books "t" "g2" everything s (books s)) ("t", "g2", 0, "b1") GROSS = 220000.
Proof. vm_compute. done. Qed.
